(* ===== verification/_CoqProject ===== *)
-Q . S2P
Prelude.v
PyValue.v
ControlFlags.v
Metrics.v
Schema.v
Actions.v
Observations.v
Events.v
View.v
Condensers.v
CondenserProps.v
Serialization.v
SerializationProps.v
FileStore.v
EventStore.v
ExamplePlatform.v
EventStream.v
RedactionProps.v
EventStreamProps.v
ConversationStats.v
State.v
StateTracker.v
Stuck.v
Replay.v
Controller.v
ControllerProps.v
ExampleAgent.v
ControllerSafety.v
ControllerEvents.v
Message.v
ConversationMemory.v
ConversationMemoryProps.v
Microagent.v
Memory.v
AgentLoop.v
FnCallTexts.v
StrSearch.v
FnCallConverter.v
FnCallConverterProps.v
Base64.v
Secrets.v
ConversationStore.v
ApollosDb.v
ApollosAuth.v
ApollosCrypto.v
ApollosOrgs.v
ApollosIntegrations.v
ApollosOrgsProps.v
ApollosAuthProps.v
ApollosStores.v
ApollosIntegrationsProps.v
ApollosMcp.v
ApollosSessions.v
PyFloat.v
FunctionCalling.v
CodeAct.v
Regex.v
PatchParse.v
PatchChanges.v
PatchApply.v
PatchRoundtrip.v
PatchText.v
NestedEventStore.v
WebHooks.v
RateLimiter.v
Ps1.v
BashCommands.v
BashSession.v
BashSessionProps.v
Runtime.v
WorkspaceFiles.v
FileOps.v
PortLock.v
ConversationManager.v
ConversationManagerProps.v
AgentSession.v
DeviceAuth.v
ActionServer.v
Settings.v
AppServer.v
