(* ===== verification/Prelude.v ===== *)
(** * A verification library for ApollosAI: the agent core (OpenHands) and its servers

    ** The program

    An agent works on a task in a loop: it is shown its history, issues an action,
    a runtime executes the action, and the observation is added to the history.
    The parts that make up this loop, all under [src/openhands/], are

    - the vocabulary of events ([core/schema/], [events/action/], [events/observation/],
      [events/event.py]) and its serialization ([events/serialization/]);
    - the event stream ([events/stream.py], [events/event_store.py]): every action and
      observation is given an id, stripped of secrets, written to a file store
      ([storage/]), and delivered to the subscribers;
    - the agent's state ([controller/state/]): history, limits on iterations and budget,
      metrics, sessions that are saved and restored;
    - the controller ([controller/agent_controller.py]): the state machine that reacts to
      the stream's events, decides when the agent steps, asks the user for confirmation,
      starts and ends delegates, and handles limits, exceptions and loops
      ([controller/stuck.py]), or replays a trajectory ([controller/replay.py]);
    - the memory ([memory/]): what of a long history the language model sees, the messages
      it is sent, and the microagents ([microagent/]) that are recalled for a question;
    - the agents ([agenthub/]): a step turns the state's view into a request, and the
      tool calls of the model's response into actions;
    - the converter between function calls and text ([llm/fn_call_converter.py]);
    - the runtime ([runtime/base.py]), which executes actions: the client and the server
      that carry an action into the sandbox ([runtime/impl/action_execution/],
      [runtime/action_execution_server.py]), the shell session ([runtime/utils/bash.py]),
      the files of the workspace ([runtime/utils/files.py]), the agent's file skills
      ([runtime/plugins/agent_skills/file_ops/]), and the locks on ports;
    - the accounting ([llm/metrics.py], [server/services/conversation_stats.py]);
    - the stores of secrets, settings and conversations ([storage/]), with their routes
      ([server/routes/]), the nested event store and the web hooks of file stores.

    The controller owns a state and a tracker, publishes on the stream and is called
    back by it; the tracker reads the stream to rebuild a history; a condenser reads
    the state's view and adds condensations to the history through the stream; the
    memory is a subscriber of the stream that answers the controller's recalls; so is the
    runtime, which publishes its observations with the action as their cause.

    A server runs such loops for users: the conversation manager
    ([server/conversation_manager/]) starts and ends the sessions of agents
    ([server/session/]); the application server ([app_server/]) keeps the conversations
    of sandboxes, their events and the callbacks on them.  Patches of the issue resolver
    ([resolver/patching/]) are parsed and applied by a library of their own.

    Around this core, [src/apollosai/] is a server for several organizations: a database
    of users, organizations, teams and roles, session tokens, API keys, encrypted secrets,
    layered settings, webhooks of other services and tool servers of users.  Of
    [src/enterprise/], the sign-in of devices and the API keys are modelled.

    ** The files

    - [Prelude]: results, the state monad with exceptions [pyM] (a raising computation
      keeps its state changes), Python's lists, slices, sorting and strings, their lemmas
      and the tactic [len_lia] on lengths.  Further automation: the hint databases [codec]
      and [ctl] with [load_args], [within_step] and [solve_safe].
    - [PyValue]: Python's numbers (binary64 floats included) and JSON-like documents.
    - [ControlFlags]: [controller/state/control_flags.py]; limits over call sequences.
    - [Metrics]: [llm/metrics.py]; merging and differences.
    - [Schema], [Actions], [Observations], [Events]: the event vocabulary, one record per
      class, one sum per hierarchy.
    - [View]: [memory/view.py]. [Condensers], [CondenserProps]: the base classes as type
      classes, the nine strategies as instances and their pipeline, and what the strategies
      leave of a view.
    - [Serialization], [SerializationProps]: [event_to_dict], [event_from_dict], round trip.
    - [FileStore]: the storage interface with its laws, the in-memory store, file names.
    - [EventStore]: event files, cache pages, filters, searching.
    - [ExamplePlatform]: a concrete document codec, for the witnesses.
    - [EventStream], [RedactionProps], [EventStreamProps]: publishing, subscribers,
      redaction, and the refinement of an append-only log.
    - [ConversationStats]: the metrics per LLM service, saved and restored.
    - [State]: [controller/state/state.py]: cached view, sessions, intent.
    - [StateTracker]: [controller/state/state_tracker.py], against the reader interface
      [EventReader], which the event stream implements.
    - [Stuck]: the loop detector. [Replay]: trajectories.
    - [Controller], [ControllerProps], [ControllerSafety], [ControllerEvents]: the
      controller, limits over whole runs, its operations, its events and delegates.
    - [ExampleAgent]: a scripted agent in an in-memory world, for the witnesses.
    - [Message]: [core/message.py], [utils/prompt.py].
    - [ConversationMemory], [ConversationMemoryProps]: from a history to the messages of
      a request.  [Microagent], [Memory]: loading and recalling microagents.  [AgentLoop]:
      controller, stream and memory together.
    - [StrSearch]: searching in strings, [re.finditer] and [re.sub] for a matcher at a
      position.  [FnCallTexts], [FnCallConverter], [FnCallConverterProps]: function calls
      as text.
    - [Base64], [ConversationStore]: pages of results, conversations in files.
      [Secrets]: secrets in a file.  [Settings]: settings in a file, and the routes of
      settings and of secrets.
    - [ApollosDb]: the tables with their constraints, sessions that commit or roll back.
      [ApollosAuth]: tokens, roles, login and logout.  [ApollosCrypto]: encrypted values.
      [ApollosOrgs]: organizations, teams, API keys, the audit log.  [ApollosStores]:
      conversations, secrets and settings in the database.  [ApollosIntegrations]: the
      webhooks.  [ApollosMcp]: tool servers and their cache.  [ApollosSessions]: the
      session middleware.  Theorems on them are also in the files with the suffix [Props].
    - [PyFloat]: Python's [float(str)].  [FunctionCalling]: the calls of a response as
      actions, for the three agents with tools.  [CodeAct]: these agents, an instance of
      the controller's interface [Agent].
    - [Regex]: a matcher for regular expressions.  [PatchParse], [PatchChanges],
      [PatchApply], [PatchRoundtrip], [PatchText]: the formats of patches, what they change,
      applying them forwards and backwards, and the text of a patch and its effect.
    - [NestedEventStore]: a store in a sandbox, read through its routes.  [WebHooks]:
      file stores that report changes, singly or in batches.  [RateLimiter]: the middleware.
    - [Ps1]: the prompt that carries the shell's metadata.  [BashCommands]: splitting and
      escaping of commands.  [BashSession], [BashSessionProps]: the session in a terminal.
    - [Runtime]: the runtime as subscriber, its secrets and set-up.  [ActionServer]: the
      executor in the sandbox, its routes, and the client.  [WorkspaceFiles], [FileOps]: the
      files of the workspace with symbolic links, and the agent's skills on files.  [PortLock]: locks on ports.
    - [ConversationManager], [ConversationManagerProps]: sessions of users, their limits and
      clean-up.  [AgentSession]: starting and closing the parts of one session.
    - [DeviceAuth]: the sign-in of devices, API keys.
    - [AppServer]: conversations, events, callbacks and sandboxes of the application server.

    Names follow the source; a leading underscore is dropped, and a method whose name
    is used by several classes carries its class ([recent_condense], [replay_step],
    [handle_event] for [_on_event], [step] for [_step]).

    ** Modelling decisions

    Objects are records and methods are computations on them.  What several objects
    share is modelled as shared: the controllers of a delegation chain work on one
    [World] that holds the stream, the flags and the metrics; [add_event] returns the
    caller's event object with the id it was given, and the pending action of the
    controller is that object; the copy that is stored and delivered is another.
    Exceptions are values, and each operation says what it leaves behind when it
    raises.  Coroutines run to completion where they are awaited, except where their
    interleaving is what matters: the sign-in of devices advances by one access to the
    database at a time, starts of sessions and locks on ports by their steps.  Logging is
    left out.

    Integers are unbounded, as Python's; floats are IEEE binary64 through [SpecFloat].
    Strings are byte strings.  Most recursions are structural (on histories, indices,
    documents and strings).  Fuel is used for: [replay_run], given one turn more than the
    trajectory has events ([replay_actions] shows that this reaches the end); the iterations
    over pages, for which [iterate_search], [conversation_pages] and [nested_search_same]
    show that one search more than there are results is enough, and [search_zero] and
    [limit_zero_diverges] that for pages of size zero none is; the hunks of RCS patches
    ([rcs_hunk_fuel]); symbolic links that lead to links, no more than there are
    ([realpath_settled]; the kernel itself gives up after 40).  Loops that wait take their turns as an argument: the shell's polls
    ([timeout_ends] shows that they end), attempts of a request, turns of a lock or of a
    sandbox that starts.  ([ExamplePlatform]'s parser is given the length of its input,
    which its law covers.)

    Parameters, with the documented behaviour they are assumed to have as type classes
    and hypotheses: the file store ([FileStoreLaws]: a file written is read back),
    the JSON codec ([PlatformLaws]: a printed document is read back), pickling, Python's
    [repr] and [ast.literal_eval], the clock, the language models of the condensers, the
    agents ([Agent]), the LLM library's exception classes ([LLMErrors]) and base URLs, the
    security analyzer, the prompt templates ([PromptManager]), front matter ([FrontMatter]),
    signed tokens ([JWTLaws]), authenticated encryption ([AEADLaws]), keyed hashes ([HMAC]),
    pydantic's reading of payloads ([Views], [ServerDocuments]), the cache with expiry
    ([TTLCacheLaws]), the sign-in library ([MSAL]), the client of the language model
    ([LLMClient]), the documents that describe the tools ([ToolDocuments]), the terminal,
    the parser of shell commands, the concrete runtime, the shell, kernel, editor, browser
    and files of a sandbox, what a network does to a request, decompression, the order and
    [LIKE] of a database, the controller's status callback, other callback processors, and the services that run sandboxes.
    Each has a concrete instance on which the witnesses evaluate.

    The database is the list of rows of each table.  A request gets the committed state
    and a commit checks the constraints: it succeeds as a whole or leaves the tables as
    they were.  Random identifiers, tokens and nonces and the time are arguments.

    ** The theorems

    - Limits and safety of the controller: [headless_iteration_limit] (any run),
      [limit_stops_agent], [risky_action_awaits], [failed_step_stops],
      [observation_releases]; with the stream and the memory: [user_message_reaches_agent];
      with the runtime: [action_result_reaches_agent].
    - The stream is a log: [add_event_refines], [search_events_log],
      [search_events_uncached], [nested_search_same], and its documents:
      [event_roundtrip], [replace_secrets_clean].
    - The history: [init_history_delegations], [save_restore], [view_cache_correct],
      [loop_detected], [recovery_keeps_user_messages], [replay_actions].
    - The memory: [from_events_spec], [llm_summarizing_condenses]; the requests:
      [process_events_turns], [process_events_shape]; microagents: [load_dir_typed].
    - Function calls as text: [conversation_roundtrip], [parallel_calls_split].
    - The agents: [agent_turn_shown] (with the memory), [response_worked_off],
      [readonly_agent_steps]; they satisfy the controller's [AgentLaws] ([codeact_laws]).
    - The runtime: [command_completes], [timeout_ends], [commands_kept],
      [remote_execution_same] (an action that is executed in the sandbox has the effect
      it has at once), [server_written_is_read], [cells_follow_shell],
      [resolve_path_confined], [written_is_read], [scrolling_covers], [window_shows],
      [ports_handed_out_once].
    - Files: [iterate_search] (termination), [secrets_file_roundtrip],
      [posted_settings_kept], [settings_answer_hides], [secret_routes_refine],
      [replica_catches_up], [batch_bounded].
    - Patches: [git_patch_applied], [unified_diff_reversible], [applied_lines_match].
    - Sessions: [conversations_limited], [used_conversations_connected],
      [session_started], [limiter_sliding_window], [cleanup_closes_idle],
      [session_close_once], [client_gets_all].
    - The application server: [title_set_once], [old_sandboxes_paused],
      [conversation_pages], [saved_info_found], [reported_events_found],
      [update_keeps_conversation], [wait_gives_running].
    - The servers for organizations: [requests_keep_owners] and [changes_need_role] (any
      requests), [accepted_requests], [device_token_consented] (any interleaving),
      [device_gets_key], [device_codes_bounds], [api_key_life],
      [secrets_stored_and_bound], [settings_resolution], [conversations_are_own],
      [mcp_cache_coherent], [sanitize_redacts], [webhooks_refused], [session_persists].
    - Many hold under conditions that their comments state, such as a stream without
      secrets or a callback that does not raise, with an example of the other case where the
      code then does something else.
    - The manifest numbers forty of these theorems; the others, and further ones on the
      same parts, carry no number: among them
      [user_message_recalls], [run_control_flags_spec], [iteration_extension],
      [restart_cur_id], [truncate_content_spec], [intent_spec], [diff_recovers],
      [amortized_halves], [window_condenses], [attention_bounds], [recent_keeps],
      [browser_condense_spec], [filter_matches], [saved_conversation], [secrets_hidden],
      [session_token_roundtrip], [bad_token_refused], [github_signature],
      [replay_cache_bounded], [routes_never_approve], [iteration_exact],
      [stats_preserved], [replay_detected], [response_actions], [shlex_quote_inert],
      [get_messages_paired], [execute_ok], [retry_spec], [planned_tasks_viewed],
      [title_bounded], [event_updates_metadata], [requests_answered], [servers_tracked].
    - Where the code does not do what its comments say, or what it means to do:
      [close_loses_history], [nested_delegation_repeats], [recovery_cuts_future],
      [confirmation_mark_lost], [delegate_unconfirmed], [budget_stops_delegate],
      [message_not_redacted], [failed_add_shifts_page], [truncate_content_spec],
      [intent_spec], [one_condensation_pair_suffices], [recovery_index_filtered],
      [stale_analysis], [reset_reports_recall], [view_stale], [failed_save_drops_stats],
      [recent_duplicates], [llm_summarizing_no_tail], [amortized_request_short],
      [undeclared_parameter_crashes], [delete_by_prefix], [search_zero], [admin_takes_over],
      [delete_org_with_team_fails], [other_org_path], [logout_keeps_session],
      [save_new_conversation_fails], [save_overwrites_other], [search_skips],
      [update_keeps_approval], [bad_name_hides_others], [webhooks_refused],
      [webhook_replays_not_detected], [second_comment_dropped], [loose_validators],
      [nested_lists_keep_secrets], [unknown_session_adopted], [plan_takes_thought],
      [edit_file_risk_dropped], [search_header_executes], [directory_a_stripped],
      [signature_breaks_new_file], [empty_line_is_context], [context_last_line_lost],
      [context_single_line], [ed_change_swaps], [ed_short_line_dropped],
      [binary_reverse_added], [rename_words_drop_changes], [indentation_lost],
      [reverse_end_differs], [limit_zero_diverges], [missing_event_replaced],
      [batch_reorders], [flush_overtakes], [failed_batch_lost], [link_escapes],
      [callback_failure_keeps_running], [task_trigger_not_its_name], [heredoc_repeated], [attribute_error_escapes],
      [slow_echo_completes], [refresh_drops_secrets], [setup_runs_twice],
      [unconfirmed_edit_executed], [last_line_not_alone], [newline_added],
      [scroll_skips_line], [one_line_window], [window_too_long], [release_while_waiting],
      [cleanup_of_held_lock], [failed_write_locks], [concurrent_start_leaks],
      [cleanup_ends], [lost_metadata_blocks], [new_session_failed], [tokens_not_redacted],
      [close_gives_up_at_once], [close_waits_for_ever], [abandoned_runtime],
      [cleanup_keeps_authorized], [authorized_without_key], [two_users_authorize],
      [poll_before_key], [details_of_older_key], [lost_reply_repeats],
      [hidden_error_raises], [wrong_type_500], [upload_status], [browser_not_awaited],
      [picture_refused], [edit_contents], [cell_directory_kept], [sandbox_server_repeated],
      [sandbox_key_lost], [base_url_lost], [invalid_token_accepted], [update_of_nothing],
      [migration_drops_secrets], [pages_repeat_events], [errors_never_recorded],
      [failure_stops_callbacks], [update_resets], [count_includes_subs],
      [lost_event_answered], [quoted_result].

    ** Not modelled

    What is input and output of other programs: the runtimes that start containers, the
    browser environments, the LLM clients, the clients of code hosting services, the remote
    file stores, the MCP client; the prompts and tool documents of the agents, the browsing
    agents; the reading of the configuration and the assembly of the programs; the scripts
    of the issue resolver around the patches.  Of the servers: the routes and services that
    start conversations (they call the modelled parts with the clients above), sockets,
    telemetry, and of [src/enterprise/] everything but devices and API keys: sign-on with
    other services, billing, integrations, database migrations.  The frontend is written in
    another language.  All of these call the modelled parts or are called by them through
    the parameters above.  Within the modelled parts: threads of the stream (the queue and
    the pools are lists), the shutdown flag (the process is running), the rendering of
    diffs, archives of the action server, and concurrent requests where nothing is said of
    their interleaving. *)

From stdpp Require Export base tactics numbers list list_numbers gmap strings pretty sorting.
From stdpp Require Export option.
From Stdlib Require Export Ascii.
From Corelib Require Export Floats.SpecFloat.
From stdpp Require Export list strings.
#[export] Set Default Proof Using "Type".
#[export] Set Default Goal Selector "!".

Declare Scope py_scope.
Delimit Scope py_scope with py.
Local Open Scope Z_scope.

(** ** Python exceptions and results *)

(** The exceptions the modelled code raises or tests for.  A constructor
    carries the message where the code reads it back ([str(e)]). *)
Inductive py_exc :=
  | ValueError (msg : string)
  | RuntimeError (msg : string)
  | TypeError (msg : string)
  | KeyError (msg : string)
  | IndexError
  | AssertionError
  | FileNotFoundError
  | OtherError (cls msg : string).

#[export] Instance py_exc_eq_dec : EqDecision py_exc.
Proof. solve_decision. Defined.

(** [str(e)] *)
Definition exc_str (e : py_exc) : string :=
  match e with
  | ValueError m | RuntimeError m | TypeError m | KeyError m | OtherError _ m => m
  | IndexError => "list index out of range"
  | AssertionError | FileNotFoundError => ""
  end.

Inductive result (A : Type) :=
  | Ok (a : A)
  | Raise (e : py_exc).
Arguments Ok {A} a.
Arguments Raise {A} e.

#[export] Instance result_eq_dec `{EqDecision A} : EqDecision (result A).
Proof. solve_decision. Defined.

(** [r >>=? f]: sequencing of a pure computation that may raise. *)
Definition rbind {A B} (r : result A) (f : A → result B) : result B :=
  match r with Ok a => f a | Raise e => Raise e end.

Notation "'let?' x := r 'in' k" := (rbind r (λ x, k))
  (at level 10, x name, r at level 100, k at level 200) : py_scope.

Lemma rbind_ok_inv {A B} (r : result A) (f : A → result B) b :
  rbind r f = Ok b → ∃ a, r = Ok a ∧ f a = Ok b.
Proof. destruct r as [a|]; [by exists a|done]. Qed.

Fixpoint rmap {A B} (f : A → result B) (l : list A) : result (list B) :=
  match l with
  | [] => Ok []
  | x :: l => rbind (f x) (λ y, rbind (rmap f l) (λ ys, Ok (y :: ys)))
  end.

(** ** A state monad with exceptions

    Python does not roll the heap back when an exception is raised: a
    computation returns the state it reached together with either a value or
    the exception. *)
Definition pyM (S A : Type) : Type := S → S * result A.

Definition pret {S A} (a : A) : pyM S A := λ s, (s, Ok a).
Definition praise {S A} (e : py_exc) : pyM S A := λ s, (s, Raise e).
Definition pget {S} : pyM S S := λ s, (s, Ok s).
Definition pmodify {S} (f : S → S) : pyM S unit := λ s, (f s, Ok tt).
Definition pbind {S A B} (m : pyM S A) (k : A → pyM S B) : pyM S B :=
  λ s, match m s with
       | (s', Ok a) => k a s'
       | (s', Raise e) => (s', Raise e)
       end.
(** A computation that does not touch the state. *)
Definition plift {S A} (r : result A) : pyM S A := λ s, (s, r).
(** [try: m except Exception as e: h(e)] *)
Definition pcatch {S A} (m : pyM S A) (h : py_exc → pyM S A) : pyM S A :=
  λ s, match m s with
       | (s', Ok a) => (s', Ok a)
       | (s', Raise e) => h e s'
       end.

Notation "'let*' x := m 'in' k" := (pbind m (λ x, k))
  (at level 10, x name, m at level 100, k at level 200) : py_scope.
Notation "m1 ;;; m2" := (pbind m1 (λ _, m2))
  (at level 199, right associativity) : py_scope.

Lemma pbind_assoc {S A B C} (m : pyM S A) (k : A → pyM S B) (k' : B → pyM S C) s :
  pbind (pbind m k) k' s = pbind m (λ a, pbind (k a) k') s.
Proof. unfold pbind. by destruct (m s) as [s' [a|e]]. Qed.

Lemma pbind_ok {S A B} (m : pyM S A) (k : A → pyM S B) s s' a :
  m s = (s', Ok a) → pbind m k s = k a s'.
Proof. unfold pbind. by intros ->. Qed.

Lemma pbind_ok_inv {S X Y} (m : pyM S X) (k : X → pyM S Y) s s' b :
  pbind m k s = (s', Ok b) → ∃ s1 a, m s = (s1, Ok a) ∧ k a s1 = (s', Ok b).
Proof. unfold pbind. destruct (m s) as [s1 [a|e]]; [|done]. by exists s1, a. Qed.

Lemma pbind_ext {S A B} (m : pyM S A) (k k' : A → pyM S B) s :
  (∀ a s', k a s' = k' a s') → pbind m k s = pbind m k' s.
Proof. intros H. unfold pbind. destruct (m s) as [s' [a|e]]; [apply H | done]. Qed.

(** ** Python sequences *)

Definition py_len {A} (l : list A) : Z := Z.of_nat (length l).

(** The index a slice bound [i] stands for in a sequence of length [n]. *)
Definition py_clamp (n i : Z) : Z :=
  if i <? 0 then Z.max 0 (i + n) else Z.min i n.

(** [l[lo:hi]] with step 1; [None] is an omitted bound. *)
Definition py_slice {A} (lo hi : option Z) (l : list A) : list A :=
  let n := py_len l in
  let start := from_option (py_clamp n) 0 lo in
  let stop := from_option (py_clamp n) n hi in
  take (Z.to_nat (stop - start)) (drop (Z.to_nat start) l).

(** [l[i]]: a negative index counts from the end; [None] is an IndexError. *)
Definition py_get {A} (l : list A) (i : Z) : option A :=
  let j := if i <? 0 then i + py_len l else i in
  if j <? 0 then None else l !! Z.to_nat j.

(** [l.insert(i, x)] *)
Definition py_insert {A} (i : Z) (x : A) (l : list A) : list A :=
  let j := Z.to_nat (py_clamp (py_len l) i) in take j l ++ x :: drop j l.

(** [l.index(x)] for the equality test [eqb]: position of the first match. *)
Fixpoint py_index_from {A} (eqb : A → bool) (i : Z) (l : list A) : option Z :=
  match l with
  | [] => None
  | y :: l => if eqb y then Some i else py_index_from eqb (i + 1) l
  end.
Definition py_index {A} (eqb : A → bool) (l : list A) : option Z :=
  py_index_from eqb 0 l.

(** [range(a, b)] *)
Definition py_range (a b : Z) : list Z := seqZ a (b - a).

(** [enumerate(l)] starting at [i] *)
Fixpoint enumerate_from {A} (i : Z) (l : list A) : list (Z * A) :=
  match l with
  | [] => []
  | x :: l => (i, x) :: enumerate_from (i + 1) l
  end.
Definition enumerate {A} (l : list A) : list (Z * A) := enumerate_from 0 l.

(** First element of [l] satisfying [f]: [next((x for x in l if f(x)), None)] *)
Fixpoint py_find {A} (f : A → bool) (l : list A) : option A :=
  match l with
  | [] => None
  | x :: l => if f x then Some x else py_find f l
  end.

Fixpoint py_filter {A} (f : A → bool) (l : list A) : list A :=
  match l with
  | [] => []
  | x :: l => if f x then x :: py_filter f l else py_filter f l
  end.

(** *** Filters *)

Lemma elem_of_py_filter {A} (f : A → bool) l x : x ∈ py_filter f l ↔ f x = true ∧ x ∈ l.
Proof.
  induction l as [|y l IH]; simpl.
  - split; [by intros ?%not_elem_of_nil | by intros [_ ?%not_elem_of_nil]].
  - destruct (f y) eqn:E; rewrite ?elem_of_cons, IH; naive_solver congruence.
Qed.

Lemma py_filter_sublist {A} (f : A → bool) l : py_filter f l `sublist_of` l.
Proof. induction l as [|x l IH]; cbn; [constructor|]. by destruct (f x); constructor. Qed.
Lemma py_filter_app {A} (f : A → bool) l k :
  py_filter f (l ++ k) = py_filter f l ++ py_filter f k.
Proof. induction l as [|y l IH]; simpl; [done|]. destruct (f y); simpl; by rewrite IH. Qed.

Lemma py_filter_all {A} (f : A → bool) l :
  (∀ x, x ∈ l → f x = true) → py_filter f l = l.
Proof.
  induction l as [|y l IH]; simpl; intros H; [done|].
  rewrite H by left. f_equal. apply IH. intros x Hx. apply H. by right.
Qed.

Lemma py_filter_none {A} (f : A → bool) l :
  (∀ x, x ∈ l → f x = false) → py_filter f l = [].
Proof.
  induction l as [|y l IH]; simpl; intros H; [done|].
  rewrite H by left. apply IH. intros x Hx. apply H. by right.
Qed.

Lemma py_filter_ext {A} (f g : A → bool) l :
  (∀ x, x ∈ l → f x = g x) → py_filter f l = py_filter g l.
Proof.
  induction l as [|y l IH]; simpl; intros H; [done|].
  rewrite H by left. rewrite IH; [done|]. intros x Hx. apply H. by right.
Qed.

Lemma py_filter_filter {A} (f g : A → bool) l :
  py_filter f (py_filter g l) = py_filter (λ x, g x && f x) l.
Proof.
  induction l as [|y l IH]; simpl; [done|].
  destruct (g y) eqn:E; simpl; [destruct (f y)|]; by rewrite IH.
Qed.

Lemma py_filter_reverse {A} (f : A → bool) l :
  py_filter f (reverse l) = reverse (py_filter f l).
Proof.
  induction l as [|x l IH]; [done|]. rewrite reverse_cons, py_filter_app, IH. simpl.
  destruct (f x); [by rewrite reverse_cons|by rewrite app_nil_r].
Qed.

Lemma py_find_reverse {A} (f : A → bool) l : py_find f (reverse l) = last (py_filter f l).
Proof.
  assert (∀ k, py_find f k = head (py_filter f k)) as Hh.
  { induction k as [|x k IH]; simpl; [done|]. by destruct (f x). }
  by rewrite Hh, py_filter_reverse, head_reverse.
Qed.
Lemma py_find_elem {A} (f : A → bool) l x : py_find f l = Some x → x ∈ l ∧ f x = true.
Proof.
  induction l as [|y l IH]; [done|]. simpl. destruct (f y) eqn:Hy.
  - intros [= ->]. split; [apply list_elem_of_here|done].
  - intros [??]%IH. split; [by apply list_elem_of_further|done].
Qed.
Lemma py_find_none {A} (f : A → bool) l x : py_find f l = None → x ∈ l → f x = false.
Proof.
  induction l as [|y l IH]; [intros _ []%not_elem_of_nil|]. simpl. destruct (f y) eqn:Hy; [done|].
  intros H [->|Hx]%elem_of_cons; auto.
Qed.

(** *** Lengths *)

(** [len_lia]: linear arithmetic on the lengths of lists, counted in [Z] or in [nat]. *)
Create HintDb pylen.
#[export] Hint Rewrite @length_app @length_take @length_drop @length_reverse @length_fmap
  @length_cons @length_nil : pylen.
Ltac len_lia := unfold py_len in *; autorewrite with pylen in *; lia.

(** *** Slices *)

(** A slice as [take]/[drop], for bounds that need no clamping. *)
Lemma py_slice_take_drop {A} (l : list A) (a b : nat) :
  (a ≤ length l)%nat → (b ≤ length l)%nat →
  py_slice (Some (Z.of_nat a)) (Some (Z.of_nat b)) l = take (b - a) (drop a l).
Proof.
  intros Ha Hb. unfold py_slice, py_len, py_clamp; simpl.
  rewrite !(proj2 (Z.ltb_ge _ 0)) by lia. f_equal; [lia | f_equal; lia].
Qed.

Lemma py_slice_from {A} (l : list A) (a : nat) :
  py_slice (Some (Z.of_nat a)) None l = drop a l.
Proof.
  unfold py_slice, py_len, py_clamp; simpl.
  rewrite !(proj2 (Z.ltb_ge _ 0)) by lia.
  destruct (decide (a ≤ length l)%nat).
  - rewrite take_ge; [f_equal; lia | rewrite length_drop; lia].
  - rewrite !drop_ge by lia. by rewrite take_nil.
Qed.

Lemma py_slice_to {A} (l : list A) (b : nat) :
  py_slice None (Some (Z.of_nat b)) l = take b l.
Proof.
  unfold py_slice, py_len, py_clamp; simpl.
  rewrite !(proj2 (Z.ltb_ge _ 0)) by lia. rewrite drop_0.
  destruct (decide (b ≤ length l)%nat); [f_equal; lia|].
  rewrite !take_ge; [done | lia | lia].
Qed.

(** [l[-n:]] for a positive [n]: the last [n] elements *)
Lemma py_slice_last {A} (l : list A) (n : nat) :
  (0 < n)%nat → py_slice (Some (- Z.of_nat n)) None l = drop (length l - n) l.
Proof.
  intros Hn. unfold py_slice, py_len, py_clamp; simpl.
  rewrite (proj2 (Z.ltb_lt _ 0)) by lia.
  rewrite take_ge; [f_equal; lia | rewrite length_drop; lia].
Qed.

Lemma py_slice_from_app {A} (l k : list A) : py_slice (Some (py_len l)) None (l ++ k) = k.
Proof. unfold py_len. by rewrite py_slice_from, drop_app_length. Qed.

Lemma py_slice_to_Z {A} (l : list A) (k : Z) :
  0 ≤ k → py_slice None (Some k) l = take (Z.to_nat k) l.
Proof. intros Hk. rewrite <- py_slice_to. f_equal. f_equal. lia. Qed.

Lemma py_clamp_bounds n i : 0 ≤ n → 0 ≤ py_clamp n i ≤ n ∨ (0 ≤ i ∧ py_clamp n i = Z.min i n).
Proof. unfold py_clamp. destruct (Z.ltb_spec i 0); lia. Qed.

Lemma py_slice_from_clamp {A} (l : list A) (i : Z) :
  py_slice (Some i) None l = drop (Z.to_nat (py_clamp (py_len l) i)) l.
Proof.
  unfold py_slice. simpl. apply take_ge. rewrite length_drop. unfold py_len.
  pose proof (py_clamp_bounds (Z.of_nat (length l)) i). lia.
Qed.

(** A page and what follows it. *)
Lemma py_slice_page {A} (l : list A) (a b : Z) :
  0 ≤ a ≤ b → py_slice (Some a) (Some b) l ++ drop (Z.to_nat b) l = drop (Z.to_nat a) l.
Proof.
  intros Hab. unfold py_slice, py_clamp, py_len. simpl. rewrite !(proj2 (Z.ltb_ge _ 0)) by lia.
  destruct (decide (Z.of_nat (length l) ≤ a)) as [Hge|Hlt].
  - rewrite !drop_ge by lia. by rewrite take_nil.
  - rewrite (Z.min_l a) by lia. rewrite <- (take_drop (Z.to_nat (b - a)) (drop (Z.to_nat a) l)).
    apply (f_equal2 app); [|rewrite drop_drop; f_equal; lia].
    rewrite take_drop. destruct (decide (b ≤ Z.of_nat (length l))); [by rewrite Z.min_l by lia|].
    rewrite !take_ge; [done|rewrite length_drop; lia..].
Qed.

(** [l.sort(key=..., reverse=True)], [l.sort(key=...)]: both stable *)
Fixpoint insert_key {A} (before : A → A → bool) (a : A) (l : list A) : list A :=
  match l with
  | [] => [a]
  | x :: l => if before a x then a :: x :: l else x :: insert_key before a l
  end.
Definition sort_key_by {A} (before : A → A → bool) (l : list A) : list A := foldl (λ acc a, insert_key before a acc) [] l.
Lemma insert_key_perm {A} (before : A → A → bool) a l : insert_key before a l ≡ₚ a :: l.
Proof.
  induction l as [|x l IH]; simpl; [done|]. destruct (before a x); [done|]. rewrite IH. apply Permutation_swap.
Qed.
Lemma sort_key_perm {A} (before : A → A → bool) (l : list A) : sort_key_by before l ≡ₚ l.
Proof.
  unfold sort_key_by. cut (∀ acc, foldl (λ acc a, insert_key before a acc) acc l ≡ₚ acc ++ l); [by intros ->|].
  induction l as [|x l IH]; intros acc; simpl; [by rewrite app_nil_r|]. rewrite IH, insert_key_perm. simpl.
  by rewrite Permutation_middle.
Qed.
(** The sorted list is in order if no two elements are each before the other. *)
Lemma insert_key_sorted {A} (before : A → A → bool) a l :
  (∀ x y z, before y x = false → before z y = false → before z x = false) →
  (∀ x y, before x y = true → before y x = false) →
  StronglySorted (λ x y, before y x = false) l → StronglySorted (λ x y, before y x = false) (insert_key before a l).
Proof.
  intros Htr Has. induction 1 as [|x l Hl IH Hx]; cbn; [repeat constructor|].
  destruct (before a x) eqn:Hb.
  - constructor; [by constructor|]. constructor; [by apply Has|]. eapply Forall_impl; [exact Hx|].
    intros y Hy. cbn in Hy |- *. apply (Htr a x y); [by apply Has|done].
  - constructor; [done|]. rewrite insert_key_perm. by constructor.
Qed.
Lemma sort_key_sorted {A} (before : A → A → bool) (l : list A) :
  (∀ x y z, before y x = false → before z y = false → before z x = false) →
  (∀ x y, before x y = true → before y x = false) →
  StronglySorted (λ x y, before y x = false) (sort_key_by before l).
Proof.
  intros Htr Has. unfold sort_key_by. generalize (SSorted_nil (λ x y, before y x = false)). generalize (@nil A).
  induction l as [|x l IH]; intros acc Hacc; [done|]. cbn. by apply IH, insert_key_sorted.
Qed.

(** Elements that are not told apart keep their order. *)
Lemma insert_key_stable {A} (before : A → A → bool) (P : A → Prop) `{∀ x, Decision (P x)} a l :
  (∀ x, P x → P a → before a x = false) → (∀ x y, before x y = true → P x → ¬ P y) →
  (∀ x y, before a x = true → before y x = false → P a → ¬ P y) →
  StronglySorted (λ x y, before y x = false) l →
  filter P (insert_key before a l) = filter P l ++ filter P [a].
Proof.
  intros Heq Hlt Hno. induction 1 as [|x l Hl IH Hx]; [done|]. cbn [insert_key]. destruct (before a x) eqn:Hb.
  - destruct (decide (P a)) as [Ha|Ha].
    + assert (filter P (x :: l) = []) as Hnil.
      { apply elem_of_nil_inv. intros y [Hy [->|Hin]%elem_of_cons]%list_elem_of_filter; [by apply (Hlt a x)|].
        rewrite Forall_forall in Hx. by apply (Hno x y Hb (Hx y Hin)). }
      by rewrite Hnil, (filter_cons_True P a (x :: l) Ha), Hnil, (filter_cons_True P a [] Ha).
    + rewrite (filter_cons_False P a (x :: l) Ha), (filter_cons_False P a [] Ha). by rewrite app_nil_r.
  - rewrite !filter_cons, IH. by destruct (decide (P x)).
Qed.
Lemma sort_key_stable {A} (before : A → A → bool) (P : A → Prop) `{∀ x, Decision (P x)} (l : list A) :
  (∀ x y z, before y x = false → before z y = false → before z x = false) →
  (∀ x y, before x y = true → before y x = false) →
  (∀ x y, P x → P y → before x y = false) → filter P (sort_key_by before l) = filter P l.
Proof.
  intros Htr Has Heq. unfold sort_key_by.
  cut (∀ acc, StronglySorted (λ x y, before y x = false) acc →
    filter P (foldl (λ acc a, insert_key before a acc) acc l) = filter P acc ++ filter P l); [intros Hcut; apply (Hcut []); constructor|].
  induction l as [|a l IH]; intros acc Hacc; cbn [foldl]; [by rewrite app_nil_r|].
  rewrite IH by by apply insert_key_sorted. rewrite insert_key_stable; [by rewrite <-app_assoc, <-filter_app|eauto| | |done].
  - intros x y Hb Hx Hy. specialize (Heq x y Hx Hy). congruence.
  - intros x y Hb Hxy Ha Hy. assert (before a x = false); [|congruence]. apply (Htr x y a); [done|]. by apply Heq.
Qed.

Lemma elem_of_take_in {A} (x : A) n l : x ∈ take n l → x ∈ l.
Proof. intros H. rewrite <- (take_drop n l). apply elem_of_app. by left. Qed.

Lemma elem_of_drop_in {A} (x : A) n l : x ∈ drop n l → x ∈ l.
Proof. intros H. rewrite <- (take_drop n l). apply elem_of_app. by right. Qed.

Lemma elem_of_take_drop_overlap {A} (x : A) l (a b : nat) :
  (b ≤ a)%nat → x ∈ l → x ∈ take a l ++ drop b l.
Proof.
  intros Hab Hx. rewrite <- (take_drop a l) in Hx. apply elem_of_app.
  apply elem_of_app in Hx as [?|Hx]; [by left|right].
  replace a with (b + (a - b))%nat in Hx by lia. rewrite <- drop_drop in Hx.
  by apply elem_of_drop_in in Hx.
Qed.

(** ** Python strings *)

(** [sub in s] *)
Fixpoint str_contains (sub s : string) : bool :=
  String.prefix sub s ||
  match s with
  | EmptyString => false
  | String _ s' => str_contains sub s'
  end.

Definition str_len (s : string) : Z := Z.of_nat (String.length s).

Definition startswith (s pre : string) : bool := String.prefix pre s.

(** [s.endswith(suf)] *)
Definition endswith (s suf : string) : bool :=
  String.prefix (String.rev suf) (String.rev s).

(** [s.removesuffix(suf)] *)
Definition removesuffix (s suf : string) : string :=
  if endswith s suf
  then String.substring 0 (String.length s - String.length suf) s
  else s.

Definition newline : ascii := Ascii.ascii_of_nat 10.
Definition nl : string := String newline EmptyString.

(** [s.split(c)] for a one-character separator: never empty. *)
Fixpoint str_split_go (c : ascii) (acc s : string) : list string :=
  match s with
  | EmptyString => [String.rev acc]
  | String d s' =>
      if Ascii.eqb c d then String.rev acc :: str_split_go c EmptyString s'
      else str_split_go c (String d acc) s'
  end.
Definition str_split (c : ascii) (s : string) : list string :=
  str_split_go c EmptyString s.

(** [sep.join(l)] *)
Fixpoint str_join (sep : string) (l : list string) : string :=
  match l with
  | [] => EmptyString
  | [s] => s
  | s :: l => s +:+ sep +:+ str_join sep l
  end.

Definition is_py_space (c : ascii) : bool :=
  let n := Ascii.nat_of_ascii c in
  (Nat.leb 9 n && Nat.leb n 13) || (Nat.leb 28 n && Nat.leb n 32)
  || Nat.eqb n 133 || Nat.eqb n 160.

Fixpoint rstrip_slash (s : string) : string :=
  match s with
  | EmptyString => ""
  | String c s => let r := rstrip_slash s in
                  if Ascii.eqb c "/" && String.eqb r "" then "" else String c r
  end.

Fixpoint str_lstrip (s : string) : string :=
  match s with
  | EmptyString => EmptyString
  | String c s' => if is_py_space c then str_lstrip s' else s
  end.
(** [s.strip()] *)
Definition str_strip (s : string) : string :=
  String.rev (str_lstrip (String.rev (str_lstrip s))).

Definition ascii_lower (c : ascii) : ascii :=
  let n := Ascii.nat_of_ascii c in
  if Nat.leb 65 n && Nat.leb n 90 then Ascii.ascii_of_nat (n + 32) else c.
(** [s.lower()] on ASCII text *)
Fixpoint str_lower (s : string) : string :=
  match s with
  | EmptyString => EmptyString
  | String c s' => String (ascii_lower c) (str_lower s')
  end.

(** [s[:n]] and [s[-n:]] for [n >= 0]: Python's [s[-0:]] is the whole of [s]. *)
Definition str_take (n : Z) (s : string) : string :=
  String.substring 0 (Z.to_nat n) s.
Definition str_last (n : Z) (s : string) : string :=
  if n <=? 0 then s
  else let k := (String.length s - Z.to_nat n)%nat in
       String.substring k (String.length s - k) s.

(** *** Lemmas *)

Lemma length_append (s t : string) : String.length (s +:+ t) = (String.length s + String.length t)%nat.
Proof. induction s as [|c s IH]; simpl; [done|]. by rewrite IH. Qed.

Lemma append_cons c a b : String c a +:+ b = String c (a +:+ b).
Proof. done. Qed.
Lemma append_assoc (a b c : string) : a +:+ (b +:+ c) = (a +:+ b) +:+ c.
Proof. induction a as [|x a IH]; [done|]. exact (f_equal (String x) IH). Qed.

Lemma substring0_length n s : String.length (String.substring 0 n s) = (n `min` String.length s)%nat.
Proof. revert s. induction n as [|n IH]; intros [|c s]; simpl; [done..|]. by rewrite IH. Qed.

Lemma substring0_app n a b :
  n = String.length a → String.substring 0 n (a +:+ b) = a.
Proof. intros ->. induction a as [|c a IH]; simpl; [by destruct b|]. by rewrite IH. Qed.

Lemma substring_drop_all k s :
  (k ≤ String.length s)%nat →
  String.length (String.substring k (String.length s - k) s) = (String.length s - k)%nat.
Proof.
  revert k. induction s as [|c s IH]; intros [|k] Hk; simpl in *; [done|lia| |apply IH; lia].
  f_equal. rewrite substring0_length. lia.
Qed.

Lemma substring_app_r a b k :
  String.substring (String.length a + k) (String.length b - k) (a +:+ b)
  = String.substring k (String.length b - k) b.
Proof. induction a as [|c a IH]; simpl; done. Qed.

Lemma substring_full s : String.substring 0 (String.length s) s = s.
Proof. induction s as [|c s IH]; simpl; [done|]. by rewrite IH. Qed.

Lemma substring_rest a b :
  String.substring (String.length a) (String.length (a +:+ b) - String.length a) (a +:+ b) = b.
Proof.
  rewrite length_append. replace (_ + _ - _)%nat with (String.length b - 0)%nat by lia.
  rewrite <- (Nat.add_0_r (String.length a)) at 1. rewrite substring_app_r, Nat.sub_0_r.
  apply substring_full.
Qed.

Lemma str_take_app n a b : 0 ≤ n → str_len a = n → str_take n (a +:+ b) = a.
Proof. unfold str_take, str_len. intros ??. apply substring0_app. lia. Qed.

Lemma str_last_app n a b : 0 < n → str_len b = n → str_last n (a +:+ b) = b.
Proof.
  unfold str_last, str_len. intros Hn Hb. rewrite (proj2 (Z.leb_gt n 0)) by lia.
  rewrite length_append.
  replace (String.length a + String.length b - Z.to_nat n)%nat with (String.length a + 0)%nat by lia.
  replace (String.length a + String.length b - (String.length a + 0))%nat
    with (String.length b - 0)%nat by lia.
  rewrite substring_app_r. rewrite Nat.sub_0_r. apply substring_full.
Qed.

Lemma str_take_len n s : 0 ≤ n ≤ str_len s → str_len (str_take n s) = n.
Proof. unfold str_take, str_len. intros ?. rewrite substring0_length. lia. Qed.
Lemma str_last_len n s : 0 < n ≤ str_len s → str_len (str_last n s) = n.
Proof.
  unfold str_last, str_len. intros ?. rewrite (proj2 (Z.leb_gt n 0)) by lia.
  rewrite substring_drop_all by lia. lia.
Qed.

Lemma str_len_append s t : str_len (s +:+ t) = str_len s + str_len t.
Proof. unfold str_len. rewrite length_append. lia. Qed.


Lemma prefix_append a b : String.prefix a (a +:+ b) = true.
Proof.
  induction a as [|c a IH]; [by destruct b|].
  change (String.prefix (String c a) (String c (a +:+ b)) = true). simpl.
  destruct (Ascii.ascii_dec c c); done.
Qed.

Lemma prefix_inv a s : String.prefix a s = true → ∃ b, s = a +:+ b.
Proof.
  revert s. induction a as [|c a IH]; intros s H; [by exists s|].
  destruct s as [|d s]; [done|]. simpl in H.
  destruct (Ascii.ascii_dec c d) as [->|]; [|done].
  destruct (IH s H) as [b ->]. by exists b.
Qed.

Lemma append_empty_r s : s +:+ "" = s.
Proof. induction s as [|c s IH]; [done|]. exact (f_equal (String c) IH). Qed.

Lemma rev_app_append a b c : String.rev_app a (b +:+ c) = String.rev_app a b +:+ c.
Proof. revert b. induction a as [|x a IH]; intros b; [done|]. exact (IH (String x b)). Qed.

Lemma rev_append a b : String.rev (a +:+ b) = String.rev b +:+ String.rev a.
Proof.
  unfold String.rev.
  assert (H : ∀ c, String.rev_app (a +:+ b) c = String.rev_app b (String.rev_app a c)).
  { induction a as [|x a IH]; intros c; [done|]. exact (IH (String x c)). }
  rewrite H. exact (rev_app_append b "" _).
Qed.

Lemma endswith_append a b : endswith (a +:+ b) b = true.
Proof. unfold endswith. rewrite rev_append. apply prefix_append. Qed.

Lemma str_split_go_ne c acc s : str_split_go c acc s ≠ [].
Proof.
  revert acc. induction s as [|e s IH]; intros acc; simpl; [done|].
  destruct (Ascii.eqb c e); [done|apply IH].
Qed.

(** A piece without the separator is one part of a split. *)
Lemma str_split_go_app c acc a s :
  str_split_go c acc (a +:+ String c s)
  = match str_split_go c acc a with
    | [] => []
    | l => l ++ str_split_go c EmptyString s
    end.
Proof.
  revert acc. induction a as [|d a IH]; intros acc.
  - change (EmptyString +:+ String c s) with (String c s). simpl. by rewrite Ascii.eqb_refl.
  - change (String d a +:+ String c s) with (String d (a +:+ String c s)). simpl.
    destruct (Ascii.eqb c d); [|by apply IH]. rewrite IH.
    pose proof (str_split_go_ne c EmptyString a) as Hne.
    destruct (str_split_go c EmptyString a); done.
Qed.

Lemma rev_cons c s : String.rev (String c s) = String.rev s +:+ String c "".
Proof. unfold String.rev. simpl. exact (rev_app_append s "" (String c "")). Qed.

Lemma rev_involutive s : String.rev (String.rev s) = s.
Proof.
  induction s as [|c s IH]; [done|]. rewrite rev_cons, rev_append, IH. done.
Qed.

Lemma append_inj_r (a b c : string) : a +:+ c = b +:+ c → a = b.
Proof.
  intros H. rewrite <- (rev_involutive a), <- (rev_involutive b). f_equal.
  apply (f_equal String.rev) in H. rewrite !rev_append in H. by apply (inj (String.append _)) in H.
Qed.

Lemma str_contains_char c d s :
  str_contains (String c "") (String d s) = false → c ≠ d ∧ str_contains (String c "") s = false.
Proof.
  cbn [str_contains]. intros [H1 H2]%orb_false_iff. split; [|done]. intros ->.
  simpl in H1. destruct (Ascii.ascii_dec d d); [|done]. by destruct s.
Qed.

(** Text without the separator is not split. *)
Lemma str_split_none c s : str_contains (String c "") s = false → str_split c s = [s].
Proof.
  unfold str_split. intros H.
  assert (Hg : ∀ acc, str_split_go c acc s = [String.rev acc +:+ s]).
  { induction s as [|d s IH]; intros acc; [by rewrite append_empty_r|].
    apply str_contains_char in H as [Hne H]. simpl.
    destruct (Ascii.eqb_spec c d) as [->|]; [done|]. rewrite (IH H), rev_cons.
    by rewrite <- append_assoc. }
  rewrite Hg. done.
Qed.

(** The last part of a split is what follows the last separator. *)
Lemma str_split_last c a s :
  str_contains (String c "") s = false → last (str_split c (a +:+ String c s)) = Some s.
Proof.
  intros H. unfold str_split. rewrite str_split_go_app.
  change (str_split_go c EmptyString s) with (str_split c s). rewrite (str_split_none c s H).
  destruct (str_split_go c EmptyString a) as [|x l] eqn:E.
  - by apply str_split_go_ne in E.
  - by rewrite last_snoc.
Qed.

(** *** Characters *)

Fixpoint all_chars (P : ascii → bool) (s : string) : bool :=
  match s with EmptyString => true | String c s' => P c && all_chars P s' end.

Lemma all_chars_append P a b : all_chars P (a +:+ b) = all_chars P a && all_chars P b.
Proof.
  induction a as [|c a IH]; [done|].
  change (String c a +:+ b) with (String c (a +:+ b)). simpl. rewrite IH. by rewrite andb_assoc.
Qed.

Lemma all_chars_impl (P Q : ascii → bool) s :
  (∀ c, P c = true → Q c = true) → all_chars P s = true → all_chars Q s = true.
Proof.
  intros H. induction s as [|c s IH]; simpl; [done|]. rewrite !andb_true_iff. intros [??]. auto.
Qed.

Lemma all_chars_absent P c s :
  all_chars P s = true → P c = false → str_contains (String c "") s = false.
Proof.
  intros Hs Hc. induction s as [|d s IH]; [done|]. simpl in Hs.
  apply andb_true_iff in Hs as [Hd Hs]. cbn [str_contains String.prefix].
  destruct (Ascii.ascii_dec c d) as [->|]; [congruence|]. by apply IH.
Qed.

Lemma all_chars_rev P s : all_chars P s = true → all_chars P (String.rev s) = true.
Proof.
  induction s as [|c s IH]; [done|]. simpl. intros [Hc Hs]%andb_true_iff.
  rewrite rev_cons, all_chars_append, IH by done. simpl. by rewrite Hc.
Qed.

Lemma str_lstrip_nospace s :
  all_chars (λ c, negb (is_py_space c)) s = true → str_lstrip s = s.
Proof. destruct s as [|c s]; [done|]. simpl. by destruct (is_py_space c). Qed.

Lemma str_strip_nospace s :
  all_chars (λ c, negb (is_py_space c)) s = true → str_strip s = s.
Proof.
  intros H. unfold str_strip. rewrite (str_lstrip_nospace s) by done.
  rewrite str_lstrip_nospace by by apply all_chars_rev. apply rev_involutive.
Qed.
