(* ===== verification/PyValue.v ===== *)
(** * Python values: numbers, floats and JSON-like documents

    - [PyNum]: the arithmetic the generic [ControlFlag[T]] needs, with an
      instance for Python's [int] ([Z]) and one for Python's [float]
      (IEEE-754 binary64, through the axiom-free [SpecFloat] of the core
      library, NaN and infinities included).
    - [json]: the values of [dict[str, Any]] fields, with Python's [==]
      ([py_eqb]): dictionaries compare without regard to order, and bool, int
      and float compare by value. *)

From S2P Require Import Prelude.
Local Open Scope Z_scope.

(** ** Floats *)

(** Python's [float]. *)
Definition float : Type := spec_float.
Definition fprec : Z := 53.
Definition femax : Z := 1024.

#[export] Instance float_eq_dec : EqDecision float.
Proof. intros x y. unfold Decision, float in *. decide equality;
  first [apply Z.eq_dec | apply Pos.eq_dec | apply Bool.bool_dec]. Defined.

Definition fzero : float := S754_zero false.
Definition fadd (x y : float) : float := SFadd fprec femax x y.
Definition fsub (x y : float) : float := SFsub fprec femax x y.
Definition fltb (x y : float) : bool := SFltb x y.
Definition fleb (x y : float) : bool := SFleb x y.
Definition feqb (x y : float) : bool := SFeqb x y.
(** [float(z)] *)
Definition float_of_Z (z : Z) : float := binary_normalize fprec femax z 0 false.
(** [m * 2^e], rounded *)
Definition float_of_scaled (m e : Z) : float := binary_normalize fprec femax m e false.
(** [bool(x)]: zero is false, NaN is true *)
Definition ftruthy (x : float) : bool := negb (feqb x fzero).
(** [max(0.0, x)]: Python's [max] returns its first argument unless the second is greater *)
Definition fmax (x y : float) : float := if fltb x y then y else x.

(** [z == x] for an [int] and a [float]: exact comparison of the values. *)
Definition Z_feqb (z : Z) (x : float) : bool :=
  match x with
  | S754_zero _ => z =? 0
  | S754_finite s m e =>
      let v := if s then Z.neg m else Z.pos m in
      if 0 <=? e then z =? v * 2 ^ e else z * 2 ^ (- e) =? v
  | _ => false
  end.

(** [n / d] rounded to the nearest integer, ties to even ([n >= 0], [d > 0]). *)
Definition div_half_even (n d : Z) : Z :=
  let q := n / d in
  let r := n mod d in
  if (2 * r <? d) || ((2 * r =? d) && Z.even q) then q else q + 1.

(** Two decimal digits of [0 <= n < 100]. *)
Definition two_digits (n : Z) : string :=
  if n <? 10 then "0" +:+ pretty n else pretty n.

(** [f'{x:.2f}']: the value is rounded half-to-even on its exact binary value. *)
Definition format_2f (x : float) : string :=
  let sgn (s : bool) (t : string) := if s then "-" +:+ t else t in
  match x with
  | S754_zero s => sgn s "0.00"
  | S754_infinity s => sgn s "inf"
  | S754_nan => "nan"
  | S754_finite s m e =>
      let n := if 0 <=? e then Z.pos m * 2 ^ e * 100
               else div_half_even (Z.pos m * 100) (2 ^ (- e)) in
      sgn s (pretty (n / 100) +:+ "." +:+ two_digits (n mod 100))
  end.

(** ** The numbers a control flag counts with *)

Class PyNum (T : Type) := {
  py_add : T → T → T;
  py_ge : T → T → bool;
  py_zero : T;
}.

#[export] Instance PyNum_int : PyNum Z :=
  {| py_add := Z.add; py_ge := λ x y, y <=? x; py_zero := 0 |}.
#[export] Instance PyNum_float : PyNum float :=
  {| py_add := fadd; py_ge := λ x y, fleb y x; py_zero := fzero |}.

(** ** JSON-like values *)

Inductive json :=
  | JNull
  | JBool (b : bool)
  | JInt (z : Z)
  | JFloat (x : float)
  | JStr (s : string)
  | JList (l : list json)
  | JDict (d : list (string * json)).

(** A dictionary: insertion-ordered, keys distinct. *)
Abbreviation dict := (list (string * json)).

Section json_ind.
Variable P : json → Prop.
Hypothesis HNull : P JNull.
Hypothesis HBool : ∀ b, P (JBool b).
Hypothesis HInt : ∀ z, P (JInt z).
Hypothesis HFloat : ∀ x, P (JFloat x).
Hypothesis HStr : ∀ s, P (JStr s).
Hypothesis HList : ∀ l, Forall P l → P (JList l).
Hypothesis HDict : ∀ d, Forall (λ kv, P kv.2) d → P (JDict d).

(** Induction with hypotheses for the elements of lists and dictionaries. *)
Fixpoint json_ind' (j : json) : P j :=
  match j with
  | JNull => HNull
  | JBool b => HBool b
  | JInt z => HInt z
  | JFloat x => HFloat x
  | JStr s => HStr s
  | JList l => HList l ((fix go l := match l return Forall P l with
      | [] => Forall_nil_2 _
      | x :: l => Forall_cons_2 _ _ _ (json_ind' x) (go l) end) l)
  | JDict d => HDict d ((fix go d := match d return Forall (λ kv, P kv.2) d with
      | [] => Forall_nil_2 _
      | kv :: d => Forall_cons_2 _ _ _ (json_ind' kv.2) (go d) end) d)
  end.
End json_ind.

Definition json_dec : ∀ j1 j2 : json, {j1 = j2} + {j1 ≠ j2}.
Proof.
  fix go 1. intros j1 j2. decide equality;
    try first [apply Bool.bool_dec | apply Z.eq_dec | apply float_eq_dec
              | apply String.string_dec].
  - revert l0. induction l as [|x l IH]; intros [|y l0];
      [left; done | right; done | right; done |].
    destruct (go x y), (IH l0); [left; congruence | right; congruence ..].
  - revert d0. induction d as [|[k x] l IH]; intros [|[k' y] l0];
      [left; done | right; done | right; done |].
    destruct (String.string_dec k k'), (go x y), (IH l0);
      [left; congruence | right; congruence ..].
Defined.
#[export] Instance json_eq_dec : EqDecision json := json_dec.

(** [d.get(k)] / [k in d] *)
Fixpoint dget {V} (k : string) (d : list (string * V)) : option V :=
  match d with
  | [] => None
  | (k', v) :: d => if String.eqb k k' then Some v else dget k d
  end.
Definition dmem {V} (k : string) (d : list (string * V)) : bool :=
  if dget k d then true else false.
(** [d[k] = v]: a present key keeps its position *)
Fixpoint dset {V} (k : string) (v : V) (d : list (string * V)) : list (string * V) :=
  match d with
  | [] => [(k, v)]
  | (k', v') :: d => if String.eqb k k' then (k, v) :: d else (k', v') :: dset k v d
  end.
(** [d.pop(k, None)] *)
Fixpoint ddel {V} (k : string) (d : list (string * V)) : list (string * V) :=
  match d with
  | [] => []
  | (k', v') :: d => if String.eqb k k' then ddel k d else (k', v') :: ddel k d
  end.

(** ** Python's [==] on such values *)

Definition bool_Z (b : bool) : Z := if b then 1 else 0.

Fixpoint py_eqb (a b : json) {struct a} : bool :=
  match a, b with
  | JNull, JNull => true
  | JBool x, JBool y => Bool.eqb x y
  | JBool x, JInt y => bool_Z x =? y
  | JInt x, JBool y => x =? bool_Z y
  | JBool x, JFloat y => Z_feqb (bool_Z x) y
  | JFloat x, JBool y => Z_feqb (bool_Z y) x
  | JInt x, JInt y => x =? y
  | JInt x, JFloat y => Z_feqb x y
  | JFloat x, JInt y => Z_feqb y x
  | JFloat x, JFloat y => feqb x y
  | JStr x, JStr y => String.eqb x y
  | JList l, JList l' =>
      (fix go l l' := match l, l' with
        | [], [] => true
        | x :: l, y :: l' => py_eqb x y && go l l'
        | _, _ => false end) l l'
  | JDict d, JDict d' =>
      Nat.eqb (length d) (length d') &&
      (fix go d := match d with
        | [] => true
        | (k, x) :: d =>
            match dget k d' with Some y => py_eqb x y | None => false end && go d
        end) d
  | _, _ => false
  end.

Definition dict_eqb (d d' : dict) : bool := py_eqb (JDict d) (JDict d').

(** [bool(v)] *)
Definition jtruthy (j : json) : bool :=
  match j with
  | JNull => false
  | JBool b => b
  | JInt z => negb (z =? 0)
  | JFloat x => ftruthy x
  | JStr s => negb (String.eqb s "")
  | JList l => match l with [] => false | _ => true end
  | JDict d => match d with [] => false | _ => true end
  end.

(** ** Lemmas *)

Lemma dget_dset {V} k k' (v : V) d :
  dget k (dset k' v d) = if String.eqb k k' then Some v else dget k d.
Proof.
  induction d as [|[k2 v2] d IH]; simpl; [done|].
  destruct (String.eqb_spec k' k2) as [->|Hne]; simpl.
  - by destruct (String.eqb k k2).
  - destruct (String.eqb_spec k k2) as [->|]; [|done].
    destruct (String.eqb_spec k2 k') as [->|]; done.
Qed.

Lemma dget_ddel {V} k k' (d : list (string * V)) :
  dget k (ddel k' d) = if String.eqb k k' then None else dget k d.
Proof.
  induction d as [|[k2 v2] d IH]; simpl; [by destruct (String.eqb k k')|].
  destruct (String.eqb_spec k' k2) as [->|Hne]; simpl; rewrite IH; clear IH.
  - by destruct (String.eqb k k2).
  - destruct (String.eqb_spec k k2) as [->|]; [|done].
    destruct (String.eqb_spec k2 k') as [->|]; done.
Qed.

(** *** Keys and entries of a dictionary *)

Lemma Forall_dset {V} (P : string * V → Prop) k v d :
  P (k, v) → Forall P d → Forall P (dset k v d).
Proof.
  intros Hk. induction 1 as [|[k' v'] d ? ? IH]; simpl; [by repeat constructor|].
  destruct (String.eqb k k'); by constructor.
Qed.
Lemma Forall_ddel {V} (P : string * V → Prop) k d : Forall P d → Forall P (ddel k d).
Proof.
  induction 1 as [|[k' v'] d ? ? IH]; simpl; [done|].
  destruct (String.eqb k k'); [done|by constructor].
Qed.
Lemma Forall_dget {V} (P : string * V → Prop) k v d : Forall P d → dget k d = Some v → P (k, v).
Proof.
  induction 1 as [|[k' v'] d ? ? IH]; simpl; [done|].
  destruct (String.eqb_spec k k') as [->|]; [by intros [= ->]|done].
Qed.

Lemma dset_fresh {V} k (v : V) d : k ∉ d.*1 → dset k v d = d ++ [(k, v)].
Proof.
  induction d as [|[k' v'] d IH]; csimpl; [done|]. intros [Hk Hd]%not_elem_of_cons.
  destruct (String.eqb_spec k k'); [done|]. by rewrite IH.
Qed.
Lemma dget_key {V} k (d : list (string * V)) : k ∈ d.*1 → ∃ v, dget k d = Some v.
Proof.
  induction d as [|[k' v'] d IH]; csimpl; [by intros ?%not_elem_of_nil|].
  destruct (String.eqb_spec k k'); [by eauto|]. intros [?|?]%elem_of_cons; [done|by apply IH].
Qed.
Lemma dmem_elem {V} k (d : list (string * V)) : k ∉ d.*1 → dmem k d = false.
Proof.
  unfold dmem. induction d as [|[k' v'] d IH]; csimpl; [done|].
  intros [Hk Hd]%not_elem_of_cons. destruct (String.eqb_spec k k'); [done|by apply IH].
Qed.
Lemma ddel_none {V} k (d : list (string * V)) : dget k d = None → ddel k d = d.
Proof.
  induction d as [|[k' v] d IH]; simpl; [done|]. destruct (String.eqb k k'); [done|]. intros Hd. by rewrite IH.
Qed.
Lemma ddel_keys {V} k (d : list (string * V)) ks :
  NoDup (k :: ks) → d.*1 ≡ₚ k :: ks → (ddel k d).*1 ≡ₚ ks.
Proof.
  intros Hnd Hp. assert (NoDup d.*1) as Hd by (by rewrite Hp).
  assert (∀ d' : list (string * V), k ∉ d'.*1 → ddel k d' = d') as Hfresh.
  { induction d' as [|[k' v'] d' IH]; csimpl; [done|]. intros [? ?]%not_elem_of_cons.
    destruct (String.eqb_spec k k'); [done|]. by rewrite IH. }
  revert ks Hnd Hp. induction d as [|[k' v'] d IH]; csimpl; intros ks Hnd Hp.
  { by apply Permutation_nil_cons in Hp. }
  apply NoDup_cons in Hd as [Hk' Hd].
  destruct (String.eqb_spec k k') as [->|Hne].
  - rewrite Hfresh by done. by apply Permutation_cons_inv in Hp.
  - assert (k' ∈ ks) as Hin. { assert (k' ∈ k :: ks) as Hx; [rewrite <- Hp; by left|set_solver]. }
    apply elem_of_Permutation in Hin as [ks' Hks]. rewrite Hks in Hp, Hnd |- *. csimpl.
    f_equiv. apply IH; [done| |].
    + apply NoDup_cons in Hnd as [Hn1 Hn2]. apply NoDup_cons. split; [set_solver|].
      by apply NoDup_cons in Hn2 as [_ ?].
    + rewrite Permutation_swap in Hp. by apply Permutation_cons_inv in Hp.
Qed.


Example format_2f_ex : format_2f (float_of_scaled 41 (-3)) = "5.12".
Proof. vm_compute. reflexivity. Qed.
