(* ===== verification/ControlFlags.v ===== *)
(** * Control flags: iteration and budget limits

    Models [openhands/controller/state/control_flags.py].  A control flag is a
    mutable record; its methods are computations of the state monad over that
    record ([pyM]), so that what a raising [step] leaves behind (the refreshed
    [_hit_limit]) is part of the model.  The two subclasses are the modules
    [IterationControlFlag] (over [Z]) and [BudgetControlFlag] (over binary64
    floats).  The theorems characterise the flags over arbitrary sequences of
    calls, given by [flag_op] and [run_ops]. *)

From S2P Require Import Prelude PyValue.
Local Open Scope Z_scope.
Local Open Scope py_scope.

(** ** The data shared by both flags *)

Record ControlFlag (T : Type) := mkControlFlag {
  limit_increase_amount : T;
  current_value : T;
  max_value : T;
  headless_mode : bool;
  hit_limit : bool;
}.
Arguments mkControlFlag {T}.
Arguments limit_increase_amount {T}.
Arguments current_value {T}.
Arguments max_value {T}.
Arguments headless_mode {T}.
Arguments hit_limit {T}.

#[export] Instance ControlFlag_eq_dec `{EqDecision T} : EqDecision (ControlFlag T).
Proof. solve_decision. Defined.

Definition set_current {T} (v : T) (f : ControlFlag T) : ControlFlag T :=
  mkControlFlag (limit_increase_amount f) v (max_value f) (headless_mode f) (hit_limit f).
Definition set_max {T} (v : T) (f : ControlFlag T) : ControlFlag T :=
  mkControlFlag (limit_increase_amount f) (current_value f) v (headless_mode f) (hit_limit f).
Definition set_hit {T} (b : bool) (f : ControlFlag T) : ControlFlag T :=
  mkControlFlag (limit_increase_amount f) (current_value f) (max_value f) (headless_mode f) b.

(** A flag as the constructors create it: the two dataclass defaults are [False]. *)
Definition new_flag {T} (amount current maximum : T) : ControlFlag T :=
  mkControlFlag amount current maximum false false.

Section reached_limit.
Context `{PyNum T}.

(** The same body in both subclasses. *)
Definition reached_limit : pyM (ControlFlag T) bool := λ f,
  let b := py_ge (current_value f) (max_value f) in (set_hit b f, Ok b).
End reached_limit.

(** ** Iterations *)

Module IterationControlFlag.

Definition limit_message (f : ControlFlag Z) : string :=
  "Agent reached maximum iteration. Current iteration: " +:+
  pretty (current_value f) +:+ ", max iteration: " +:+ pretty (max_value f).

Definition increase_limit (headless : bool) : pyM (ControlFlag Z) unit := λ f,
  if negb headless && hit_limit f
  then (set_hit false (set_max (max_value f + limit_increase_amount f) f), Ok tt)
  else (f, Ok tt).

Definition step : pyM (ControlFlag Z) unit :=
  let* reached := reached_limit in
  if reached then λ f, (f, Raise (RuntimeError (limit_message f)))
  else pmodify (λ f, set_current (current_value f + 1) f).

End IterationControlFlag.

(** ** Budget *)

Module BudgetControlFlag.

Definition limit_message (f : ControlFlag float) : string :=
  "Agent reached maximum budget for conversation.Current budget: " +:+
  format_2f (current_value f) +:+ ", max budget: " +:+ format_2f (max_value f).

(** The mode argument is accepted and not read. *)
Definition increase_limit (headless : bool) : pyM (ControlFlag float) unit := λ f,
  if hit_limit f
  then (set_hit false (set_max (fadd (current_value f) (limit_increase_amount f)) f), Ok tt)
  else (f, Ok tt).

Definition step : pyM (ControlFlag float) unit :=
  let* reached := reached_limit in
  if reached then λ f, (f, Raise (RuntimeError (limit_message f)))
  else pret tt.

End BudgetControlFlag.

Module Iter := IterationControlFlag.
Module Budget := BudgetControlFlag.

(** ** Behaviour of one call *)

Section iteration.
Implicit Types f : ControlFlag Z.

Lemma iter_step_ok f :
  current_value f < max_value f →
  Iter.step f = (set_hit false (set_current (current_value f + 1) f), Ok tt).
Proof.
  intros H. unfold Iter.step, pbind, reached_limit. simpl.
  replace (max_value f <=? current_value f) with false by lia. done.
Qed.

Lemma iter_step_raise f :
  max_value f ≤ current_value f →
  Iter.step f = (set_hit true f, Raise (RuntimeError (Iter.limit_message f))).
Proof.
  intros H. unfold Iter.step, pbind, reached_limit. simpl.
  replace (max_value f <=? current_value f) with true by lia. done.
Qed.

(** ** Sequences of calls *)

(** What the controller does to the iteration flag between two points of its
    life: step it, or extend the limit when the user resumes an errored agent. *)
Inductive flag_op := OpStep | OpIncrease (headless : bool).

Definition apply_op (op : flag_op) : pyM (ControlFlag Z) unit :=
  match op with
  | OpStep => Iter.step
  | OpIncrease h => Iter.increase_limit h
  end.

(** Run a sequence of calls; the caller catches the exceptions. *)
Fixpoint run_ops (ops : list flag_op) f : ControlFlag Z :=
  match ops with
  | [] => f
  | op :: ops => run_ops ops (apply_op op f).1
  end.

Fixpoint count_increases (ops : list flag_op) : Z :=
  match ops with
  | [] => 0
  | OpIncrease false :: ops => 1 + count_increases ops
  | _ :: ops => count_increases ops
  end.

(** Well-formedness: the counter never exceeds the limit and the remembered
    verdict [_hit_limit] implies that the limit is reached. *)
Record iter_wf f : Prop := {
  iwf_amount : 0 ≤ limit_increase_amount f;
  iwf_cur : 0 ≤ current_value f ≤ max_value f;
  iwf_hit : hit_limit f = true → current_value f = max_value f;
}.

Lemma iter_wf_new n : 0 ≤ n → iter_wf (new_flag n 0 n).
Proof. intros. split; simpl; [lia | lia | done]. Qed.

Lemma iter_step_wf f : iter_wf f → iter_wf (Iter.step f).1.
Proof.
  intros [Ha Hc Hh]. destruct (decide (current_value f < max_value f)).
  - rewrite iter_step_ok by done. split; simpl; [lia | lia | done].
  - rewrite iter_step_raise by lia. split; simpl; [lia | lia | lia].
Qed.

Lemma iter_increase_wf h f : iter_wf f → iter_wf (Iter.increase_limit h f).1.
Proof.
  intros [Ha Hc Hh]. unfold Iter.increase_limit.
  destruct (negb h && hit_limit f) eqn:E; simpl; [|by split].
  split; simpl; [lia | lia | done].
Qed.

Lemma run_ops_wf ops f : iter_wf f → iter_wf (run_ops ops f).
Proof.
  revert f. induction ops as [|[|h] ops IH]; intros f Hf; simpl;
    eauto using iter_step_wf, iter_increase_wf.
Qed.

Lemma step_frame f :
  max_value (Iter.step f).1 = max_value f
  ∧ limit_increase_amount (Iter.step f).1 = limit_increase_amount f.
Proof.
  destruct (decide (current_value f < max_value f)).
  - by rewrite iter_step_ok.
  - by rewrite iter_step_raise by lia.
Qed.

Lemma increase_bound h f :
  0 ≤ limit_increase_amount f →
  limit_increase_amount (Iter.increase_limit h f).1 = limit_increase_amount f
  ∧ max_value (Iter.increase_limit h f).1
    ≤ max_value f + (if h then 0 else limit_increase_amount f).
Proof.
  intros Ha. unfold Iter.increase_limit.
  destruct h, (hit_limit f); simpl; split; try done; lia.
Qed.

Lemma run_ops_max ops f :
  0 ≤ limit_increase_amount f →
  max_value (run_ops ops f)
    ≤ max_value f + count_increases ops * limit_increase_amount f.
Proof.
  revert f. induction ops as [|[|h] ops IH]; intros f Ha; simpl; [lia | |].
  - destruct (step_frame f) as [Hm Hl]. specialize (IH (Iter.step f).1).
    rewrite Hm, Hl in IH. auto.
  - destruct (increase_bound h f Ha) as [Hl Hm].
    specialize (IH (Iter.increase_limit h f).1). rewrite Hl in IH.
    specialize (IH Ha). destruct h; simpl in *; lia.
Qed.

(** The iteration cap: starting from a fresh flag with limit [n], after any
    sequence of steps and limit extensions the iteration counter lies between
    0 and the current limit, and the limit itself is at most [n] times one plus
    the number of extensions granted outside headless mode. *)
Theorem iteration_cap (n : Z) (ops : list flag_op) :
  0 ≤ n →
  let f := run_ops ops (new_flag n 0 n) in
  0 ≤ current_value f ≤ max_value f ∧ max_value f ≤ n * (1 + count_increases ops).
Proof.
  intros Hn f.
  pose proof (run_ops_wf ops _ (iter_wf_new n Hn)) as [_ Hc _].
  pose proof (run_ops_max ops (new_flag n 0 n) Hn) as Hm. simpl in Hm.
  unfold f. split; lia.
Qed.

Lemma iteration_cap_witness :
  let f := run_ops [OpStep; OpStep; OpStep; OpIncrease false; OpStep] (new_flag 2 0 2) in
  current_value f = 3 ∧ 0 ≤ current_value f ≤ max_value f ∧ max_value f ≤ 2 * (1 + 1).
Proof.
  split; [reflexivity|].
  exact (iteration_cap 2 [OpStep; OpStep; OpStep; OpIncrease false; OpStep] ltac:(lia)).
Defined.

(** [n] steps in a row, stopping at the first exception. *)
Fixpoint steps (n : nat) : pyM (ControlFlag Z) unit :=
  match n with
  | O => pret tt
  | S n => Iter.step ;;; steps n
  end.

Lemma steps_ok n f :
  current_value f + Z.of_nat n ≤ max_value f → (0 < n)%nat →
  steps n f = (set_hit false (set_current (current_value f + Z.of_nat n) f), Ok tt).
Proof.
  revert f. induction n as [|n IH]; intros f Hle Hn; [lia|].
  simpl steps. unfold pbind at 1. rewrite iter_step_ok by lia.
  destruct n as [|n]; [done|].
  rewrite IH by (simpl; lia). unfold set_hit, set_current; cbn [current_value limit_increase_amount max_value headless_mode hit_limit].
  by replace (current_value f + 1 + Z.of_nat (S n)) with (current_value f + Z.of_nat (S (S n))) by lia.
Qed.

Lemma steps_S_r n f : steps (S n) f = pbind (steps n) (λ _, Iter.step) f.
Proof.
  revert f. induction n as [|n IH]; intros f.
  - simpl. unfold pbind, pret. destruct (Iter.step f) as [f' [[]|e]]; reflexivity.
  - change (steps (S (S n)) f) with (pbind Iter.step (λ _, steps (S n)) f).
    change (steps (S n)) with (pbind Iter.step (λ _, steps n)) at 2.
    rewrite pbind_assoc. apply pbind_ext. intros _ s. apply IH.
Qed.

(** Exactly the allowed number of iterations: from a fresh flag, [k] steps in
    a row succeed for every [k] up to the limit [n] and count to [k], and the
    step after the [n]-th raises the RuntimeError that names the counter and
    the limit, leaving the counter where it was. *)
Theorem iteration_exact (n k : nat) :
  (0 < k ≤ n)%nat →
  (∃ f, steps k (new_flag (Z.of_nat n) 0 (Z.of_nat n)) = (f, Ok tt)
        ∧ current_value f = Z.of_nat k)
  ∧ (∃ f, steps (S n) (new_flag (Z.of_nat n) 0 (Z.of_nat n))
          = (f, Raise (RuntimeError (Iter.limit_message f)))
        ∧ current_value f = Z.of_nat n ∧ hit_limit f = true).
Proof.
  intros Hk. split.
  - eexists. rewrite steps_ok by (simpl; lia). by split.
  - exists (mkControlFlag (Z.of_nat n) (Z.of_nat n) (Z.of_nat n) false true).
    rewrite steps_S_r. unfold pbind. rewrite steps_ok by (simpl; lia).
    rewrite iter_step_raise by (simpl; lia). split; [reflexivity|by split].
Qed.

Lemma iteration_exact_witness :
  ∃ f, steps 2 (new_flag 2 0 2) = (f, Ok tt) ∧ current_value f = 2.
Proof. exact (proj1 (iteration_exact 2 2 ltac:(lia))). Defined.

(** Extending the limit: once a step has raised, extending the limit makes
    the next steps succeed, the increase amount of them exactly, if the agent
    is interactive; in headless mode the extension is refused and the next step
    raises the same exception again. *)
Theorem iteration_extension (f f' : ControlFlag Z) (e : py_exc) :
  iter_wf f → 0 < limit_increase_amount f → Iter.step f = (f', Raise e) →
  max_value (Iter.increase_limit false f').1 - current_value (Iter.increase_limit false f').1
    = limit_increase_amount f
  ∧ Iter.step (Iter.increase_limit true f').1 = (f', Raise e).
Proof.
  intros [Ha Hc Hh] Hpos Hs.
  destruct (decide (current_value f < max_value f)) as [Hlt|Hge].
  - rewrite iter_step_ok in Hs by done. done.
  - rewrite iter_step_raise in Hs by lia. injection Hs as <- <-. simpl. split; [lia|].
    rewrite iter_step_raise by (simpl; lia). done.
Qed.

Lemma iteration_extension_witness :
  let f' := mkControlFlag 5 5 5 false true in
  max_value (Iter.increase_limit false f').1 - current_value (Iter.increase_limit false f').1 = 5
  ∧ Iter.step (Iter.increase_limit true f').1
    = (f', Raise (RuntimeError (Iter.limit_message f'))).
Proof.
  exact (iteration_extension (mkControlFlag 5 5 5 false false) _ _
           ltac:(split; simpl; lia || done) ltac:(simpl; lia) eq_refl).
Defined.
End iteration.
