(* ===== verification/Metrics.v ===== *)
(** * LLM metrics: costs, latencies and token usage

    Models [openhands/llm/metrics.py].  Costs and latencies are binary64
    floats, token counts integers.  The wall clock read by [Cost.timestamp]'s
    default factory is an argument ([now]) of [add_cost]. *)

From S2P Require Import Prelude PyValue.
Local Open Scope Z_scope.
Local Open Scope py_scope.

Record Cost := mkCost {
  cost_model : string;
  cost_cost : float;
  cost_timestamp : float;
}.

Record ResponseLatency := mkResponseLatency {
  lat_model : string;
  lat_latency : float;
  lat_response_id : string;
}.

Record TokenUsage := mkTokenUsage {
  tu_model : string;
  prompt_tokens : Z;
  completion_tokens : Z;
  cache_read_tokens : Z;
  cache_write_tokens : Z;
  context_window : Z;
  per_turn_token : Z;
  tu_response_id : string;
}.

#[export] Instance Cost_eq_dec : EqDecision Cost.
Proof. solve_decision. Defined.
#[export] Instance ResponseLatency_eq_dec : EqDecision ResponseLatency.
Proof. solve_decision. Defined.
#[export] Instance TokenUsage_eq_dec : EqDecision TokenUsage.
Proof. solve_decision. Defined.

(** [TokenUsage.__add__] *)
Definition tu_add (u v : TokenUsage) : TokenUsage :=
  {| tu_model := tu_model u;
     prompt_tokens := prompt_tokens u + prompt_tokens v;
     completion_tokens := completion_tokens u + completion_tokens v;
     cache_read_tokens := cache_read_tokens u + cache_read_tokens v;
     cache_write_tokens := cache_write_tokens u + cache_write_tokens v;
     context_window := Z.max (context_window u) (context_window v);
     per_turn_token := per_turn_token v;
     tu_response_id := tu_response_id u |}.

Record Metrics := mkMetrics {
  m_accumulated_cost : float;
  m_max_budget_per_task : option float;
  m_costs : list Cost;
  m_response_latencies : list ResponseLatency;
  m_model_name : string;
  m_token_usages : list TokenUsage;
  m_accumulated_token_usage : TokenUsage;
}.

#[export] Instance Metrics_eq_dec : EqDecision Metrics.
Proof. solve_decision. Defined.

(** [Metrics.__init__] *)
Definition new_Metrics (model_name : string) : Metrics :=
  {| m_accumulated_cost := fzero;
     m_max_budget_per_task := None;
     m_costs := [];
     m_response_latencies := [];
     m_model_name := model_name;
     m_token_usages := [];
     m_accumulated_token_usage := mkTokenUsage model_name 0 0 0 0 0 0 "" |}.

Definition set_cost (c : float) (m : Metrics) : Metrics :=
  mkMetrics c (m_max_budget_per_task m) (m_costs m) (m_response_latencies m)
    (m_model_name m) (m_token_usages m) (m_accumulated_token_usage m).

(** The setter of [accumulated_cost]. *)
Definition set_accumulated_cost (value : float) : pyM Metrics unit := λ m,
  if fltb value fzero then (m, Raise (ValueError "Total cost cannot be negative."))
  else (set_cost value m, Ok tt).

Definition set_max_budget_per_task (value : option float) (m : Metrics) : Metrics :=
  mkMetrics (m_accumulated_cost m) value (m_costs m) (m_response_latencies m)
    (m_model_name m) (m_token_usages m) (m_accumulated_token_usage m).

Definition add_cost (now value : float) : pyM Metrics unit := λ m,
  if fltb value fzero then (m, Raise (ValueError "Added cost cannot be negative."))
  else (mkMetrics (fadd (m_accumulated_cost m) value) (m_max_budget_per_task m)
          (m_costs m ++ [mkCost (m_model_name m) value now]) (m_response_latencies m)
          (m_model_name m) (m_token_usages m) (m_accumulated_token_usage m), Ok tt).

Definition add_response_latency (value : float) (response_id : string) (m : Metrics) : Metrics :=
  mkMetrics (m_accumulated_cost m) (m_max_budget_per_task m) (m_costs m)
    (m_response_latencies m ++ [mkResponseLatency (m_model_name m) (fmax fzero value) response_id])
    (m_model_name m) (m_token_usages m) (m_accumulated_token_usage m).

Definition add_token_usage (prompt completion cread cwrite window : Z)
    (response_id : string) (m : Metrics) : Metrics :=
  let per_turn := prompt + completion in
  let usage := mkTokenUsage (m_model_name m) prompt completion cread cwrite window
                 per_turn response_id in
  mkMetrics (m_accumulated_cost m) (m_max_budget_per_task m) (m_costs m)
    (m_response_latencies m) (m_model_name m) (m_token_usages m ++ [usage])
    (tu_add (m_accumulated_token_usage m)
       (mkTokenUsage (m_model_name m) prompt completion cread cwrite window per_turn "")).

(** [self.merge(other)] *)
Definition merge (other self : Metrics) : Metrics :=
  {| m_accumulated_cost := fadd (m_accumulated_cost self) (m_accumulated_cost other);
     m_max_budget_per_task :=
       match m_max_budget_per_task self, m_max_budget_per_task other with
       | None, Some b => Some b
       | b, _ => b
       end;
     m_costs := m_costs self ++ m_costs other;
     m_response_latencies := m_response_latencies self ++ m_response_latencies other;
     m_model_name := m_model_name self;
     m_token_usages := m_token_usages self ++ m_token_usages other;
     m_accumulated_token_usage :=
       tu_add (m_accumulated_token_usage self) (m_accumulated_token_usage other) |}.

(** [self.diff(baseline)] *)
Definition metrics_diff (self baseline : Metrics) : Metrics :=
  let base := m_accumulated_token_usage baseline in
  let cur := m_accumulated_token_usage self in
  {| m_accumulated_cost := fsub (m_accumulated_cost self) (m_accumulated_cost baseline);
     m_max_budget_per_task := None;
     m_costs :=
       match last (m_costs baseline) with
       | Some c => py_filter (λ d, fltb (cost_timestamp c) (cost_timestamp d)) (m_costs self)
       | None => m_costs self
       end;
     m_response_latencies :=
       py_slice (Some (py_len (m_response_latencies baseline))) None (m_response_latencies self);
     m_model_name := m_model_name self;
     m_token_usages := py_slice (Some (py_len (m_token_usages baseline))) None (m_token_usages self);
     m_accumulated_token_usage :=
       {| tu_model := m_model_name self;
          prompt_tokens := prompt_tokens cur - prompt_tokens base;
          completion_tokens := completion_tokens cur - completion_tokens base;
          cache_read_tokens := cache_read_tokens cur - cache_read_tokens base;
          cache_write_tokens := cache_write_tokens cur - cache_write_tokens base;
          context_window := context_window cur;
          per_turn_token := 0;
          tu_response_id := "" |} |}.

(** [self.get()] *)
Definition tu_dump (u : TokenUsage) : json :=
  JDict [("model", JStr (tu_model u)); ("prompt_tokens", JInt (prompt_tokens u));
         ("completion_tokens", JInt (completion_tokens u));
         ("cache_read_tokens", JInt (cache_read_tokens u));
         ("cache_write_tokens", JInt (cache_write_tokens u));
         ("context_window", JInt (context_window u));
         ("per_turn_token", JInt (per_turn_token u));
         ("response_id", JStr (tu_response_id u))].
Definition cost_dump (c : Cost) : json :=
  JDict [("model", JStr (cost_model c)); ("cost", JFloat (cost_cost c));
         ("timestamp", JFloat (cost_timestamp c))].
Definition latency_dump (l : ResponseLatency) : json :=
  JDict [("model", JStr (lat_model l)); ("latency", JFloat (lat_latency l));
         ("response_id", JStr (lat_response_id l))].
Definition metrics_get (m : Metrics) : dict :=
  [("accumulated_cost", JFloat (m_accumulated_cost m));
   ("max_budget_per_task", from_option JFloat JNull (m_max_budget_per_task m));
   ("accumulated_token_usage", tu_dump (m_accumulated_token_usage m));
   ("costs", JList (cost_dump <$> m_costs m));
   ("response_latencies", JList (latency_dump <$> m_response_latencies m));
   ("token_usages", JList (tu_dump <$> m_token_usages m))].

(** ** Sequences of recordings *)

(** The calls an LLM client makes on the metrics object it shares. *)
Inductive metric_op :=
  | MCost (now value : float)
  | MLatency (value : float) (response_id : string)
  | MTokens (prompt completion cread cwrite window : Z) (response_id : string)
  | MMerge (other : Metrics).

Definition apply_metric (op : metric_op) (m : Metrics) : Metrics :=
  match op with
  | MCost now v => (add_cost now v m).1
  | MLatency v r => add_response_latency v r m
  | MTokens p c cr cw w r => add_token_usage p c cr cw w r m
  | MMerge o => merge o m
  end.

Definition run_metrics (ops : list metric_op) (m : Metrics) : Metrics :=
  foldl (λ m op, apply_metric op m) m ops.

(** ** The accumulated usage is the sum of the recorded usages *)

Definition sumZ (f : TokenUsage → Z) (us : list TokenUsage) : Z :=
  foldr (λ u n, f u + n) 0 us.

Lemma sumZ_app f us vs : sumZ f (us ++ vs) = sumZ f us + sumZ f vs.
Proof. unfold sumZ. induction us as [|u us IH]; simpl; [done|]. rewrite IH. lia. Qed.

Record metrics_wf (m : Metrics) : Prop := {
  mwf_prompt : prompt_tokens (m_accumulated_token_usage m) = sumZ prompt_tokens (m_token_usages m);
  mwf_completion :
    completion_tokens (m_accumulated_token_usage m) = sumZ completion_tokens (m_token_usages m);
  mwf_read :
    cache_read_tokens (m_accumulated_token_usage m) = sumZ cache_read_tokens (m_token_usages m);
  mwf_write :
    cache_write_tokens (m_accumulated_token_usage m) = sumZ cache_write_tokens (m_token_usages m);
}.

Definition op_wf (op : metric_op) : Prop :=
  match op with MMerge o => metrics_wf o | _ => True end.

Lemma metrics_wf_new n : metrics_wf (new_Metrics n).
Proof. by split. Qed.

Lemma apply_metric_wf op m : op_wf op → metrics_wf m → metrics_wf (apply_metric op m).
Proof.
  intros Ho [H1 H2 H3 H4]. destruct op as [now v|v r|p c cr cw w r|o]; simpl.
  - unfold add_cost. destruct (fltb v fzero); by split.
  - by split.
  - split; simpl; rewrite sumZ_app; simpl; lia.
  - destruct Ho as [O1 O2 O3 O4]. split; simpl; rewrite sumZ_app; lia.
Qed.

Lemma run_metrics_wf ops m :
  Forall op_wf ops → metrics_wf m → metrics_wf (run_metrics ops m).
Proof.
  unfold run_metrics. revert m. induction ops as [|op ops IH]; intros m Ho Hm; [done|].
  inversion_clear Ho. simpl. auto using apply_metric_wf.
Qed.

(** ** What a snapshot's [diff] recovers *)

Definition op_usages (n : string) (op : metric_op) : list TokenUsage :=
  match op with
  | MTokens p c cr cw w r => [mkTokenUsage n p c cr cw w (p + c) r]
  | MMerge o => m_token_usages o
  | _ => []
  end.

Lemma apply_metric_usages op m :
  m_token_usages (apply_metric op m) = m_token_usages m ++ op_usages (m_model_name m) op
  ∧ m_model_name (apply_metric op m) = m_model_name m.
Proof.
  destruct op as [now v|v r|p c cr cw w r|o]; simpl; rewrite ?app_nil_r; try done.
  unfold add_cost. by destruct (fltb v fzero); simpl; rewrite ?app_nil_r.
Qed.

Lemma run_metrics_usages ops m :
  m_token_usages (run_metrics ops m)
    = m_token_usages m ++ concat (op_usages (m_model_name m) <$> ops)
  ∧ m_model_name (run_metrics ops m) = m_model_name m.
Proof.
  unfold run_metrics. revert m. induction ops as [|op ops IH]; intros m; simpl.
  - by rewrite app_nil_r.
  - destruct (apply_metric_usages op m) as [Hu Hn].
    destruct (IH (apply_metric op m)) as [-> ->]. rewrite Hu, Hn. by rewrite (assoc_L (++)).
Qed.

(** Local metrics of a delegate: if a snapshot is taken of a metrics object
    and any sequence of costs, latencies, token usages and merges is then
    recorded, [diff] against the snapshot returns exactly the token usages
    recorded since, in order, and its accumulated counters are their sums. *)
Theorem diff_recovers (m : Metrics) (ops : list metric_op) :
  metrics_wf m → Forall op_wf ops →
  let us := concat (op_usages (m_model_name m) <$> ops) in
  let d := metrics_diff (run_metrics ops m) m in
  m_token_usages d = us
  ∧ prompt_tokens (m_accumulated_token_usage d) = sumZ prompt_tokens us
  ∧ completion_tokens (m_accumulated_token_usage d) = sumZ completion_tokens us
  ∧ cache_read_tokens (m_accumulated_token_usage d) = sumZ cache_read_tokens us
  ∧ cache_write_tokens (m_accumulated_token_usage d) = sumZ cache_write_tokens us.
Proof.
  intros Hm Ho us d.
  pose proof (run_metrics_wf ops m Ho Hm) as [R1 R2 R3 R4]. destruct Hm as [M1 M2 M3 M4].
  destruct (run_metrics_usages ops m) as [Hu _]. fold us in Hu.
  unfold d, metrics_diff; simpl. rewrite Hu in R1, R2, R3, R4 |- *.
  rewrite py_slice_from_app. rewrite sumZ_app in R1, R2, R3, R4.
  repeat split; lia.
Qed.

Lemma diff_recovers_witness :
  let m := run_metrics [MTokens 10 2 0 0 100 "a"] (new_Metrics "gpt") in
  let d := metrics_diff (run_metrics [MTokens 7 3 1 0 100 "b"; MLatency fzero "b"] m) m in
  prompt_tokens (m_accumulated_token_usage d) = 7 ∧ length (m_token_usages d) = 1%nat.
Proof.
  destruct (diff_recovers (run_metrics [MTokens 10 2 0 0 100 "a"] (new_Metrics "gpt"))
    [MTokens 7 3 1 0 100 "b"; MLatency fzero "b"]) as (H1 & H2 & _).
  - by split.
  - repeat constructor.
  - split; [exact H2 | exact (f_equal length H1)].
Defined.
