(* ===== verification/Schema.v ===== *)
(** * Enumerations of the event vocabulary

    Models the string and integer enums of [openhands/core/schema/],
    [openhands/events/event.py], [openhands/events/action/action.py] and
    [openhands/events/recall_type.py], each with its value ([*_value]) and the
    constructor call [Enum(value)] ([*_of_*], [None] for the ValueError). *)

From S2P Require Import Prelude PyValue.
Local Open Scope Z_scope.

(** ** Sources *)

Inductive EventSource := AGENT | USER | ENVIRONMENT.
#[export] Instance EventSource_eq_dec : EqDecision EventSource.
Proof. solve_decision. Defined.

Definition source_value (s : EventSource) : string :=
  match s with AGENT => "agent" | USER => "user" | ENVIRONMENT => "environment" end.
Definition source_of_string (s : string) : option EventSource :=
  py_find (λ x, String.eqb (source_value x) s) [AGENT; USER; ENVIRONMENT].

Inductive FileEditSource := LLM_BASED_EDIT | EDIT_OH_ACI.
#[export] Instance FileEditSource_eq_dec : EqDecision FileEditSource.
Proof. solve_decision. Defined.
Definition edit_source_value (s : FileEditSource) : string :=
  match s with LLM_BASED_EDIT => "llm_based_edit" | EDIT_OH_ACI => "oh_aci" end.

Inductive FileReadSource := READ_OH_ACI | READ_DEFAULT.
#[export] Instance FileReadSource_eq_dec : EqDecision FileReadSource.
Proof. solve_decision. Defined.
Definition read_source_value (s : FileReadSource) : string :=
  match s with READ_OH_ACI => "oh_aci" | READ_DEFAULT => "default" end.

(** ** Confirmation and risk *)

Inductive ActionConfirmationStatus := CONFIRMED | CONF_REJECTED | AWAITING_CONFIRMATION.
#[export] Instance ActionConfirmationStatus_eq_dec : EqDecision ActionConfirmationStatus.
Proof. solve_decision. Defined.
Definition confirmation_value (s : ActionConfirmationStatus) : string :=
  match s with
  | CONFIRMED => "confirmed"
  | CONF_REJECTED => "rejected"
  | AWAITING_CONFIRMATION => "awaiting_confirmation"
  end.

Inductive ActionSecurityRisk := RISK_UNKNOWN | RISK_LOW | RISK_MEDIUM | RISK_HIGH.
#[export] Instance ActionSecurityRisk_eq_dec : EqDecision ActionSecurityRisk.
Proof. solve_decision. Defined.
Definition risk_value (r : ActionSecurityRisk) : Z :=
  match r with RISK_UNKNOWN => -1 | RISK_LOW => 0 | RISK_MEDIUM => 1 | RISK_HIGH => 2 end.
Definition risk_of_Z (z : Z) : option ActionSecurityRisk :=
  py_find (λ x, risk_value x =? z) [RISK_UNKNOWN; RISK_LOW; RISK_MEDIUM; RISK_HIGH].

Inductive RecallType := WORKSPACE_CONTEXT | KNOWLEDGE.
#[export] Instance RecallType_eq_dec : EqDecision RecallType.
Proof. solve_decision. Defined.
Definition recall_value (r : RecallType) : string :=
  match r with WORKSPACE_CONTEXT => "workspace_context" | KNOWLEDGE => "knowledge" end.
Definition recall_of_string (s : string) : option RecallType :=
  py_find (λ x, String.eqb (recall_value x) s) [WORKSPACE_CONTEXT; KNOWLEDGE].

(** ** Agent states

    [AgentState] is a string enum, and a client's [ChangeAgentStateAction] may
    carry any string, which the controller stores as it is: [OTHER s] is a
    string that equals none of the members. *)
Inductive AgentState :=
  | LOADING
  | RUNNING
  | AWAITING_USER_INPUT
  | PAUSED
  | STOPPED
  | FINISHED
  | REJECTED
  | ERROR
  | AWAITING_USER_CONFIRMATION
  | USER_CONFIRMED
  | USER_REJECTED
  | RATE_LIMITED
  | OTHER (s : string).
#[export] Instance AgentState_eq_dec : EqDecision AgentState.
Proof. solve_decision. Defined.

Definition agent_state_value (s : AgentState) : string :=
  match s with
  | LOADING => "loading"
  | RUNNING => "running"
  | AWAITING_USER_INPUT => "awaiting_user_input"
  | PAUSED => "paused"
  | STOPPED => "stopped"
  | FINISHED => "finished"
  | REJECTED => "rejected"
  | ERROR => "error"
  | AWAITING_USER_CONFIRMATION => "awaiting_user_confirmation"
  | USER_CONFIRMED => "user_confirmed"
  | USER_REJECTED => "user_rejected"
  | RATE_LIMITED => "rate_limited"
  | OTHER s => s
  end.

Definition all_agent_states : list AgentState :=
  [LOADING; RUNNING; AWAITING_USER_INPUT; PAUSED; STOPPED; FINISHED; REJECTED; ERROR;
   AWAITING_USER_CONFIRMATION; USER_CONFIRMED; USER_REJECTED; RATE_LIMITED].

(** The state a string stands for when it is compared with the members. *)
Definition agent_state_of_string (s : string) : AgentState :=
  from_option id (OTHER s) (py_find (λ x, String.eqb (agent_state_value x) s) all_agent_states).

(** ** Python's [s == t] on two agent states, by their strings *)
Definition agent_state_eqb (s t : AgentState) : bool := bool_decide (s = t).

(** ** Lemmas *)

Lemma agent_state_of_string_value s : agent_state_value (agent_state_of_string s) = s.
Proof.
  unfold agent_state_of_string.
  destruct (py_find _ _) as [x|] eqn:E; simpl; [|done].
  apply py_find_elem in E as [_ E]. by apply String.eqb_eq in E.
Qed.

Lemma risk_of_value r : risk_of_Z (risk_value r) = Some r.
Proof. by destruct r. Qed.
Lemma source_of_value s : source_of_string (source_value s) = Some s.
Proof. by destruct s. Qed.
Lemma recall_of_value r : recall_of_string (recall_value r) = Some r.
Proof. by destruct r. Qed.
