(* ===== verification/Actions.v ===== *)
(** * Actions

    Models the dataclasses of [openhands/events/action/*.py]: one record per
    class with the class's fields, the sum [Action] of the classes, the class
    attributes ([runnable], the [action] tag), the optional attributes the
    controller probes with [hasattr] ([thought], [security_risk],
    [confirmation_state], [hidden], [blocking]), the [message] properties and
    the [CondensationAction] checks.  Python's [repr] of a dictionary, used in
    one message, is the parameter [py_repr]. *)

From S2P Require Import Prelude PyValue Schema.
Local Open Scope Z_scope.

Inductive ActionType :=
  | T_MESSAGE | T_SYSTEM | T_START | T_READ | T_WRITE | T_EDIT | T_RUN | T_RUN_IPYTHON
  | T_BROWSE | T_BROWSE_INTERACTIVE | T_MCP | T_DELEGATE | T_THINK | T_FINISH | T_REJECT
  | T_NULL | T_PAUSE | T_RESUME | T_STOP | T_CHANGE_AGENT_STATE | T_PUSH | T_SEND_PR
  | T_RECALL | T_CONDENSATION | T_CONDENSATION_REQUEST | T_TASK_TRACKING | T_LOOP_RECOVERY.
#[export] Instance ActionType_eq_dec : EqDecision ActionType.
Proof. solve_decision. Defined.

Definition action_type_value (t : ActionType) : string :=
  match t with
  | T_MESSAGE => "message" | T_SYSTEM => "system" | T_START => "start" | T_READ => "read"
  | T_WRITE => "write" | T_EDIT => "edit" | T_RUN => "run" | T_RUN_IPYTHON => "run_ipython"
  | T_BROWSE => "browse" | T_BROWSE_INTERACTIVE => "browse_interactive"
  | T_MCP => "call_tool_mcp" | T_DELEGATE => "delegate" | T_THINK => "think"
  | T_FINISH => "finish" | T_REJECT => "reject" | T_NULL => "null" | T_PAUSE => "pause"
  | T_RESUME => "resume" | T_STOP => "stop" | T_CHANGE_AGENT_STATE => "change_agent_state"
  | T_PUSH => "push" | T_SEND_PR => "send_pr" | T_RECALL => "recall"
  | T_CONDENSATION => "condensation" | T_CONDENSATION_REQUEST => "condensation_request"
  | T_TASK_TRACKING => "task_tracking" | T_LOOP_RECOVERY => "loop_recovery"
  end.

(** ** The classes *)

Record MessageAction := mkMessageAction {
  ma_content : string;
  ma_file_urls : option (list string);
  ma_image_urls : option (list string);
  ma_wait_for_response : bool;
  ma_security_risk : ActionSecurityRisk;
}.

Record SystemMessageAction := mkSystemMessageAction {
  sma_content : string;
  sma_tools : option (list json);
  sma_openhands_version : option string;
  sma_agent_class : option string;
}.

Record CmdRunAction := mkCmdRunAction {
  cra_command : string;
  cra_is_input : bool;
  cra_thought : string;
  cra_blocking : bool;
  cra_is_static : bool;
  cra_cwd : option string;
  cra_hidden : bool;
  cra_confirmation_state : ActionConfirmationStatus;
  cra_security_risk : ActionSecurityRisk;
}.

Record IPythonRunCellAction := mkIPythonRunCellAction {
  ipa_code : string;
  ipa_thought : string;
  ipa_include_extra : bool;
  ipa_confirmation_state : ActionConfirmationStatus;
  ipa_security_risk : ActionSecurityRisk;
  ipa_kernel_init_code : string;
}.

Record FileReadAction := mkFileReadAction {
  fra_path : string;
  fra_start : Z;
  fra_end : Z;
  fra_thought : string;
  fra_security_risk : ActionSecurityRisk;
  fra_impl_source : FileReadSource;
  fra_view_range : option (list Z);
}.

Record FileWriteAction := mkFileWriteAction {
  fwa_path : string;
  fwa_content : string;
  fwa_start : Z;
  fwa_end : Z;
  fwa_thought : string;
  fwa_security_risk : ActionSecurityRisk;
}.

Record FileEditAction := mkFileEditAction {
  fea_path : string;
  fea_command : string;
  fea_file_text : option string;
  fea_old_str : option string;
  fea_new_str : option string;
  fea_insert_line : option Z;
  fea_content : string;
  fea_start : Z;
  fea_end : Z;
  fea_thought : string;
  fea_security_risk : ActionSecurityRisk;
  fea_impl_source : FileEditSource;
}.

Record BrowseURLAction := mkBrowseURLAction {
  bua_url : string;
  bua_thought : string;
  bua_security_risk : ActionSecurityRisk;
  bua_return_axtree : bool;
}.

Record BrowseInteractiveAction := mkBrowseInteractiveAction {
  bia_browser_actions : string;
  bia_thought : string;
  bia_browsergym_send_msg_to_user : string;
  bia_security_risk : ActionSecurityRisk;
  bia_return_axtree : bool;
}.

Record MCPAction := mkMCPAction {
  mcpa_name : string;
  mcpa_arguments : dict;
  mcpa_thought : string;
  mcpa_security_risk : ActionSecurityRisk;
}.

Record ChangeAgentStateAction := mkChangeAgentStateAction {
  casa_agent_state : AgentState;
  casa_thought : string;
}.

Record AgentFinishAction := mkAgentFinishAction {
  afa_final_thought : string;
  afa_outputs : dict;
  afa_thought : string;
}.

Record AgentThinkAction := mkAgentThinkAction {
  ata_thought : string;
}.

Record AgentRejectAction := mkAgentRejectAction {
  ara_outputs : dict;
  ara_thought : string;
}.

Record AgentDelegateAction := mkAgentDelegateAction {
  ada_agent : string;
  ada_inputs : dict;
  ada_thought : string;
}.

Record RecallAction := mkRecallAction {
  ra_recall_type : RecallType;
  ra_query : string;
  ra_thought : string;
}.

Record CondensationAction := mkCondensationAction {
  ca_forgotten_event_ids : option (list Z);
  ca_forgotten_events_start_id : option Z;
  ca_forgotten_events_end_id : option Z;
  ca_summary : option string;
  ca_summary_offset : option Z;
}.

Record TaskTrackingAction := mkTaskTrackingAction {
  tta_command : string;
  tta_task_list : list json;
  tta_thought : string;
}.

Record LoopRecoveryAction := mkLoopRecoveryAction {
  lra_option : Z;
}.

Inductive Action :=
  | ANull
  | AMessage (a : MessageAction)
  | ASystemMessage (a : SystemMessageAction)
  | ACmdRun (a : CmdRunAction)
  | AIPythonRunCell (a : IPythonRunCellAction)
  | AFileRead (a : FileReadAction)
  | AFileWrite (a : FileWriteAction)
  | AFileEdit (a : FileEditAction)
  | ABrowseURL (a : BrowseURLAction)
  | ABrowseInteractive (a : BrowseInteractiveAction)
  | AMCP (a : MCPAction)
  | AChangeAgentState (a : ChangeAgentStateAction)
  | AAgentFinish (a : AgentFinishAction)
  | AAgentThink (a : AgentThinkAction)
  | AAgentReject (a : AgentRejectAction)
  | AAgentDelegate (a : AgentDelegateAction)
  | ARecall (a : RecallAction)
  | ACondensation (a : CondensationAction)
  | ACondensationRequest
  | ATaskTracking (a : TaskTrackingAction)
  | ALoopRecovery (a : LoopRecoveryAction).

(** ** Class attributes *)

(** The [action] tag. *)
Definition action_type (a : Action) : ActionType :=
  match a with
  | ANull => T_NULL
  | AMessage _ => T_MESSAGE
  | ASystemMessage _ => T_SYSTEM
  | ACmdRun _ => T_RUN
  | AIPythonRunCell _ => T_RUN_IPYTHON
  | AFileRead _ => T_READ
  | AFileWrite _ => T_WRITE
  | AFileEdit _ => T_EDIT
  | ABrowseURL _ => T_BROWSE
  | ABrowseInteractive _ => T_BROWSE_INTERACTIVE
  | AMCP _ => T_MCP
  | AChangeAgentState _ => T_CHANGE_AGENT_STATE
  | AAgentFinish _ => T_FINISH
  | AAgentThink _ => T_THINK
  | AAgentReject _ => T_REJECT
  | AAgentDelegate _ => T_DELEGATE
  | ARecall _ => T_RECALL
  | ACondensation _ => T_CONDENSATION
  | ACondensationRequest => T_CONDENSATION_REQUEST
  | ATaskTracking _ => T_TASK_TRACKING
  | ALoopRecovery _ => T_LOOP_RECOVERY
  end.

(** The class variable [runnable]: [Action]'s is [False]. *)
Definition runnable (a : Action) : bool :=
  match a with
  | ACmdRun _ | AIPythonRunCell _ | AFileRead _ | AFileWrite _ | AFileEdit _
  | ABrowseURL _ | ABrowseInteractive _ | AMCP _ => true
  | _ => false
  end.

(** ** Attributes only some classes have ([None]: [hasattr] is false) *)

Definition get_thought (a : Action) : option string :=
  match a with
  | ACmdRun a => Some (cra_thought a)
  | AIPythonRunCell a => Some (ipa_thought a)
  | AFileRead a => Some (fra_thought a)
  | AFileWrite a => Some (fwa_thought a)
  | AFileEdit a => Some (fea_thought a)
  | ABrowseURL a => Some (bua_thought a)
  | ABrowseInteractive a => Some (bia_thought a)
  | AMCP a => Some (mcpa_thought a)
  | AChangeAgentState a => Some (casa_thought a)
  | AAgentFinish a => Some (afa_thought a)
  | AAgentThink a => Some (ata_thought a)
  | AAgentReject a => Some (ara_thought a)
  | AAgentDelegate a => Some (ada_thought a)
  | ARecall a => Some (ra_thought a)
  | ATaskTracking a => Some (tta_thought a)
  | ANull | AMessage _ | ASystemMessage _ | ACondensation _ | ACondensationRequest
  | ALoopRecovery _ => None
  end.

(** [action.thought = t] *)
Definition set_thought (t : string) (a : Action) : Action :=
  match a with
  | ACmdRun (mkCmdRunAction c i _ b s w h f r) => ACmdRun (mkCmdRunAction c i t b s w h f r)
  | AIPythonRunCell (mkIPythonRunCellAction c _ e f r k) =>
      AIPythonRunCell (mkIPythonRunCellAction c t e f r k)
  | AFileRead (mkFileReadAction p s e _ r i v) => AFileRead (mkFileReadAction p s e t r i v)
  | AFileWrite (mkFileWriteAction p c s e _ r) => AFileWrite (mkFileWriteAction p c s e t r)
  | AFileEdit (mkFileEditAction p c f o n i x s e _ r m) =>
      AFileEdit (mkFileEditAction p c f o n i x s e t r m)
  | ABrowseURL (mkBrowseURLAction u _ r x) => ABrowseURL (mkBrowseURLAction u t r x)
  | ABrowseInteractive (mkBrowseInteractiveAction b _ m r x) =>
      ABrowseInteractive (mkBrowseInteractiveAction b t m r x)
  | AMCP (mkMCPAction n g _ r) => AMCP (mkMCPAction n g t r)
  | AChangeAgentState (mkChangeAgentStateAction s _) =>
      AChangeAgentState (mkChangeAgentStateAction s t)
  | AAgentFinish (mkAgentFinishAction f o _) => AAgentFinish (mkAgentFinishAction f o t)
  | AAgentThink (mkAgentThinkAction _) => AAgentThink (mkAgentThinkAction t)
  | AAgentReject (mkAgentRejectAction o _) => AAgentReject (mkAgentRejectAction o t)
  | AAgentDelegate (mkAgentDelegateAction g i _) => AAgentDelegate (mkAgentDelegateAction g i t)
  | ARecall (mkRecallAction k q _) => ARecall (mkRecallAction k q t)
  | ATaskTracking (mkTaskTrackingAction c l _) => ATaskTracking (mkTaskTrackingAction c l t)
  | a => a
  end.
Definition clear_thought : Action → Action := set_thought "".

Definition get_security_risk (a : Action) : option ActionSecurityRisk :=
  match a with
  | AMessage a => Some (ma_security_risk a)
  | ACmdRun a => Some (cra_security_risk a)
  | AIPythonRunCell a => Some (ipa_security_risk a)
  | AFileRead a => Some (fra_security_risk a)
  | AFileWrite a => Some (fwa_security_risk a)
  | AFileEdit a => Some (fea_security_risk a)
  | ABrowseURL a => Some (bua_security_risk a)
  | ABrowseInteractive a => Some (bia_security_risk a)
  | AMCP a => Some (mcpa_security_risk a)
  | _ => None
  end.

(** [action.security_risk = r] *)
Definition set_security_risk (r : ActionSecurityRisk) (a : Action) : Action :=
  match a with
  | AMessage (mkMessageAction c f i w _) => AMessage (mkMessageAction c f i w r)
  | ACmdRun (mkCmdRunAction c i t b s w h f _) => ACmdRun (mkCmdRunAction c i t b s w h f r)
  | AIPythonRunCell (mkIPythonRunCellAction c t e f _ k) =>
      AIPythonRunCell (mkIPythonRunCellAction c t e f r k)
  | AFileRead (mkFileReadAction p s e t _ i v) => AFileRead (mkFileReadAction p s e t r i v)
  | AFileWrite (mkFileWriteAction p c s e t _) => AFileWrite (mkFileWriteAction p c s e t r)
  | AFileEdit (mkFileEditAction p c f o n i t s e h _ m) =>
      AFileEdit (mkFileEditAction p c f o n i t s e h r m)
  | ABrowseURL (mkBrowseURLAction u t _ x) => ABrowseURL (mkBrowseURLAction u t r x)
  | ABrowseInteractive (mkBrowseInteractiveAction b t m _ x) =>
      ABrowseInteractive (mkBrowseInteractiveAction b t m r x)
  | AMCP (mkMCPAction n g t _) => AMCP (mkMCPAction n g t r)
  | a => a
  end.

(** Only [CmdRunAction] and [IPythonRunCellAction] declare a [confirmation_state]
    field, but the controller may set the attribute on any action: on the other
    classes it is an instance attribute, kept with the event ([ev_confirmation]). *)
Definition get_confirmation (a : Action) : option ActionConfirmationStatus :=
  match a with
  | ACmdRun a => Some (cra_confirmation_state a)
  | AIPythonRunCell a => Some (ipa_confirmation_state a)
  | _ => None
  end.

Definition set_confirmation (c : ActionConfirmationStatus) (a : Action) : Action :=
  match a with
  | ACmdRun (mkCmdRunAction m i t b s w h _ r) => ACmdRun (mkCmdRunAction m i t b s w h c r)
  | AIPythonRunCell (mkIPythonRunCellAction m t e _ r k) =>
      AIPythonRunCell (mkIPythonRunCellAction m t e c r k)
  | a => a
  end.

(** [getattr(action, 'hidden', False)] *)
Definition action_hidden (a : Action) : bool :=
  match a with ACmdRun a => cra_hidden a | _ => false end.

(** ** [CondensationAction] *)

(** [_validate_field_polymorphism] *)
Definition validate_field_polymorphism (a : CondensationAction) : bool :=
  let using_event_ids := if ca_forgotten_event_ids a then true else false in
  let using_event_range :=
    (if ca_forgotten_events_start_id a then true else false) &&
    (if ca_forgotten_events_end_id a then true else false) in
  let summary_configuration :=
    match ca_summary a, ca_summary_offset a with
    | None, None | Some _, Some _ => true
    | _, _ => false
    end in
  xorb using_event_ids using_event_range && summary_configuration.

(** The constructor: [__post_init__] raises on an invalid configuration. *)
Definition new_CondensationAction (ids : option (list Z)) (start stop : option Z)
    (summary : option string) (offset : option Z) : result CondensationAction :=
  let a := mkCondensationAction ids start stop summary offset in
  if validate_field_polymorphism a then Ok a
  else Raise (ValueError "Invalid configuration of the optional fields.").

(** [forgotten] *)
Definition forgotten (a : CondensationAction) : result (list Z) :=
  if validate_field_polymorphism a then
    match ca_forgotten_event_ids a with
    | Some ids => Ok ids
    | None =>
        match ca_forgotten_events_start_id a, ca_forgotten_events_end_id a with
        | Some s, Some e => Ok (py_range s (e + 1))
        | _, _ => Raise AssertionError
        end
    end
  else Raise (ValueError "Invalid configuration of the optional fields.").

(** ** Messages *)

Section message.
Variable py_repr : json → string.

(** The [message] property of each class.  [LoopRecoveryAction] and
    [FileEditAction] define none and inherit [Event.message], which is the
    empty string. *)
Definition action_message (a : Action) : result string :=
  match a with
  | ANull => Ok "No action"
  | AMessage a => Ok (ma_content a)
  | ASystemMessage a => Ok (sma_content a)
  | ACmdRun a => Ok ("Running command: " +:+ cra_command a)
  | AIPythonRunCell a => Ok ("Running Python code interactively: " +:+ ipa_code a)
  | AFileRead a => Ok ("Reading file: " +:+ fra_path a)
  | AFileWrite a => Ok ("Writing file: " +:+ fwa_path a)
  | AFileEdit _ => Ok ""
  | ABrowseURL a => Ok ("I am browsing the URL: " +:+ bua_url a)
  | ABrowseInteractive a =>
      Ok ("I am interacting with the browser:" +:+ nl +:+ "```" +:+ nl +:+
          bia_browser_actions a +:+ nl +:+ "```")
  | AMCP a =>
      Ok ("I am interacting with the MCP server with name:" +:+ nl +:+ "```" +:+ nl +:+
          mcpa_name a +:+ nl +:+ "```" +:+ nl +:+ "and arguments:" +:+ nl +:+ "```" +:+ nl +:+
          py_repr (JDict (mcpa_arguments a)) +:+ nl +:+ "```")
  | AChangeAgentState a => Ok ("Agent state changed to " +:+ agent_state_value (casa_agent_state a))
  | AAgentFinish a =>
      Ok (if String.eqb (afa_thought a) "" then "All done! What's next on the agenda?"
          else afa_thought a)
  | AAgentThink a => Ok ("I am thinking...: " +:+ ata_thought a)
  | AAgentReject a =>
      match dget "reason" (ara_outputs a) with
      | None => Ok "Task is rejected by the agent."
      | Some (JStr r) => Ok ("Task is rejected by the agent. Reason: " +:+ r)
      | Some _ => Raise (TypeError "can only concatenate str to str")
      end
  | AAgentDelegate a => Ok ("I'm asking " +:+ ada_agent a +:+ " for help with this task.")
  | ARecall a => Ok ("Retrieving content for: " +:+ str_take 50 (ra_query a))
  | ACondensation a =>
      match ca_summary a with
      | Some s =>
          if String.eqb s "" then
            rbind (forgotten a) (λ ids, Ok ("Condenser is dropping the events: " +:+
              py_repr (JList (JInt <$> ids)) +:+ "."))
          else Ok ("Summary: " +:+ s)
      | None =>
          rbind (forgotten a) (λ ids, Ok ("Condenser is dropping the events: " +:+
            py_repr (JList (JInt <$> ids)) +:+ "."))
      end
  | ACondensationRequest => Ok "Requesting a condensation of the conversation history."
  | ATaskTracking a =>
      match tta_task_list a with
      | [] => Ok "Clearing the task list."
      | [_] => Ok "Managing 1 task item."
      | l => Ok ("Managing " +:+ pretty (py_len l) +:+ " task items.")
      end
  | ALoopRecovery _ => Ok ""
  end.
End message.

(** ** Python's [==] on actions

    A dataclass's [__eq__] compares objects of the same class field by field;
    the underscore attributes of [Event] are not dataclass fields. *)

#[export] Instance MessageAction_eq_dec : EqDecision MessageAction.
Proof. solve_decision. Defined.
#[export] Instance CmdRunAction_eq_dec : EqDecision CmdRunAction.
Proof. solve_decision. Defined.
#[export] Instance IPythonRunCellAction_eq_dec : EqDecision IPythonRunCellAction.
Proof. solve_decision. Defined.
#[export] Instance FileReadAction_eq_dec : EqDecision FileReadAction.
Proof. solve_decision. Defined.
#[export] Instance FileWriteAction_eq_dec : EqDecision FileWriteAction.
Proof. solve_decision. Defined.
#[export] Instance FileEditAction_eq_dec : EqDecision FileEditAction.
Proof. solve_decision. Defined.
#[export] Instance BrowseURLAction_eq_dec : EqDecision BrowseURLAction.
Proof. solve_decision. Defined.
#[export] Instance BrowseInteractiveAction_eq_dec : EqDecision BrowseInteractiveAction.
Proof. solve_decision. Defined.
#[export] Instance ChangeAgentStateAction_eq_dec : EqDecision ChangeAgentStateAction.
Proof. solve_decision. Defined.
#[export] Instance AgentThinkAction_eq_dec : EqDecision AgentThinkAction.
Proof. solve_decision. Defined.
#[export] Instance RecallAction_eq_dec : EqDecision RecallAction.
Proof. solve_decision. Defined.
#[export] Instance CondensationAction_eq_dec : EqDecision CondensationAction.
Proof. solve_decision. Defined.
#[export] Instance LoopRecoveryAction_eq_dec : EqDecision LoopRecoveryAction.
Proof. solve_decision. Defined.
#[export] Instance SystemMessageAction_eq_dec : EqDecision SystemMessageAction.
Proof. solve_decision. Defined.
#[export] Instance MCPAction_eq_dec : EqDecision MCPAction.
Proof. solve_decision. Defined.
#[export] Instance AgentFinishAction_eq_dec : EqDecision AgentFinishAction.
Proof. solve_decision. Defined.
#[export] Instance AgentRejectAction_eq_dec : EqDecision AgentRejectAction.
Proof. solve_decision. Defined.
#[export] Instance AgentDelegateAction_eq_dec : EqDecision AgentDelegateAction.
Proof. solve_decision. Defined.
#[export] Instance TaskTrackingAction_eq_dec : EqDecision TaskTrackingAction.
Proof. solve_decision. Defined.
#[export] Instance Action_eq_dec : EqDecision Action.
Proof. solve_decision. Defined.

Definition opt_eqb {A} (eqb : A → A → bool) (x y : option A) : bool :=
  match x, y with
  | None, None => true
  | Some a, Some b => eqb a b
  | _, _ => false
  end.

(** Fields that hold dictionaries compare with [py_eqb]. *)
Definition action_eqb (a b : Action) : bool :=
  match a, b with
  | ASystemMessage a, ASystemMessage b =>
      bool_decide (sma_content a = sma_content b) &&
      opt_eqb (λ l l', py_eqb (JList l) (JList l')) (sma_tools a) (sma_tools b) &&
      bool_decide (sma_openhands_version a = sma_openhands_version b) &&
      bool_decide (sma_agent_class a = sma_agent_class b)
  | AMCP a, AMCP b =>
      bool_decide (mcpa_name a = mcpa_name b) &&
      dict_eqb (mcpa_arguments a) (mcpa_arguments b) &&
      bool_decide (mcpa_thought a = mcpa_thought b) &&
      bool_decide (mcpa_security_risk a = mcpa_security_risk b)
  | AAgentFinish a, AAgentFinish b =>
      bool_decide (afa_final_thought a = afa_final_thought b) &&
      dict_eqb (afa_outputs a) (afa_outputs b) &&
      bool_decide (afa_thought a = afa_thought b)
  | AAgentReject a, AAgentReject b =>
      dict_eqb (ara_outputs a) (ara_outputs b) && bool_decide (ara_thought a = ara_thought b)
  | AAgentDelegate a, AAgentDelegate b =>
      bool_decide (ada_agent a = ada_agent b) && dict_eqb (ada_inputs a) (ada_inputs b) &&
      bool_decide (ada_thought a = ada_thought b)
  | ATaskTracking a, ATaskTracking b =>
      bool_decide (tta_command a = tta_command b) &&
      py_eqb (JList (tta_task_list a)) (JList (tta_task_list b)) &&
      bool_decide (tta_thought a = tta_thought b)
  | a, b => bool_decide (a = b)
  end.

(** ** Lemmas *)

Lemma new_CondensationAction_valid ids s e su o a :
  new_CondensationAction ids s e su o = Ok a →
  a = mkCondensationAction ids s e su o ∧ validate_field_polymorphism a = true.
Proof.
  unfold new_CondensationAction.
  destruct (validate_field_polymorphism _) eqn:E; [|done]. by intros [= <-].
Qed.

(** A constructed condensation always yields its forgotten ids: the property
    never raises on an object that passed [__post_init__]. *)
Lemma forgotten_total ids s e su o a :
  new_CondensationAction ids s e su o = Ok a → ∃ l, forgotten a = Ok l.
Proof.
  intros [-> Hv]%new_CondensationAction_valid. unfold forgotten. rewrite Hv.
  unfold validate_field_polymorphism in Hv.
  destruct ids, s, e; simpl in *; try done; eauto.
Qed.

Lemma clear_thought_type a : action_type (clear_thought a) = action_type a.
Proof. destruct a as [|[]|[]|[]|[]|[]|[]|[]|[]|[]|[]|[]|[]|[]|[]|[]|[]|[]| |[]|[]]; done. Qed.
Lemma set_risk_type r a : action_type (set_security_risk r a) = action_type a.
Proof. destruct a as [|[]|[]|[]|[]|[]|[]|[]|[]|[]|[]|[]|[]|[]|[]|[]|[]|[]| |[]|[]]; done. Qed.
Lemma set_risk_get r a :
  get_security_risk a ≠ None → get_security_risk (set_security_risk r a) = Some r.
Proof. destruct a as [|[]|[]|[]|[]|[]|[]|[]|[]|[]|[]|[]|[]|[]|[]|[]|[]|[]| |[]|[]]; done. Qed.
Lemma runnable_risk a : runnable a = true → get_security_risk a ≠ None.
Proof. destruct a; done. Qed.
