(* ===== verification/Observations.v ===== *)
(** * Observations

    Models the dataclasses of [openhands/events/observation/*.py]: one record
    per class (the [content] every observation has is a field of [Observation]),
    the sum of the classes, the [observation] tag, the [message] properties, the
    truncation of command output and the text of a command's outcome.  The PS1
    parsing of [CmdOutputMetadata] and the diff rendering of
    [FileEditObservation] are not modelled. *)

From S2P Require Import Prelude PyValue Schema Actions.
Local Open Scope Z_scope.

Inductive ObservationType :=
  | OT_READ | OT_WRITE | OT_EDIT | OT_BROWSE | OT_RUN | OT_RUN_IPYTHON | OT_CHAT | OT_DELEGATE
  | OT_MESSAGE | OT_ERROR | OT_SUCCESS | OT_NULL | OT_THINK | OT_AGENT_STATE_CHANGED
  | OT_USER_REJECTED | OT_CONDENSE | OT_RECALL | OT_MCP | OT_DOWNLOAD | OT_TASK_TRACKING
  | OT_LOOP_DETECTION.
#[export] Instance ObservationType_eq_dec : EqDecision ObservationType.
Proof. solve_decision. Defined.

Definition observation_type_value (t : ObservationType) : string :=
  match t with
  | OT_READ => "read" | OT_WRITE => "write" | OT_EDIT => "edit" | OT_BROWSE => "browse"
  | OT_RUN => "run" | OT_RUN_IPYTHON => "run_ipython" | OT_CHAT => "chat"
  | OT_DELEGATE => "delegate" | OT_MESSAGE => "message" | OT_ERROR => "error"
  | OT_SUCCESS => "success" | OT_NULL => "null" | OT_THINK => "think"
  | OT_AGENT_STATE_CHANGED => "agent_state_changed" | OT_USER_REJECTED => "user_rejected"
  | OT_CONDENSE => "condense" | OT_RECALL => "recall" | OT_MCP => "mcp"
  | OT_DOWNLOAD => "download" | OT_TASK_TRACKING => "task_tracking"
  | OT_LOOP_DETECTION => "loop_detection"
  end.

(** ** The classes *)

Record CmdOutputMetadata := mkCmdOutputMetadata {
  com_exit_code : Z;
  com_pid : Z;
  com_username : option string;
  com_hostname : option string;
  com_working_dir : option string;
  com_py_interpreter_path : option string;
  com_prefix : string;
  com_suffix : string;
}.

Definition default_metadata : CmdOutputMetadata :=
  mkCmdOutputMetadata (-1) (-1) None None None None "" "".

Record CmdOutputObservation := mkCmdOutputObservation {
  coo_command : string;
  coo_metadata : CmdOutputMetadata;
  coo_hidden : bool;
}.

Record IPythonRunCellObservation := mkIPythonRunCellObservation {
  ipo_code : string;
  ipo_image_urls : option (list string);
}.

Record FileReadObservation := mkFileReadObservation {
  fro_path : string;
  fro_impl_source : FileReadSource;
}.

Record FileWriteObservation := mkFileWriteObservation {
  fwo_path : string;
}.

Record FileEditObservation := mkFileEditObservation {
  feo_path : string;
  feo_prev_exist : bool;
  feo_old_content : option string;
  feo_new_content : option string;
  feo_impl_source : FileEditSource;
  feo_diff : option string;
  feo_diff_cache : option string;
}.

Record BrowserOutputObservation := mkBrowserOutputObservation {
  boo_url : string;
  boo_trigger_by_action : string;
  boo_screenshot : string;
  boo_screenshot_path : option string;
  boo_set_of_marks : string;
  boo_error : bool;
  boo_goal_image_urls : list string;
  boo_open_pages_urls : list string;
  boo_active_page_index : Z;
  boo_dom_object : dict;
  boo_axtree_object : dict;
  boo_extra_element_properties : dict;
  boo_last_browser_action : string;
  boo_last_browser_action_error : string;
  boo_focused_element_bid : string;
  boo_filter_visible_only : bool;
}.

Record AgentDelegateObservation := mkAgentDelegateObservation {
  ado_outputs : dict;
}.

Record ErrorObservation := mkErrorObservation {
  eo_error_id : string;
}.

Record AgentStateChangedObservation := mkAgentStateChangedObservation {
  asco_agent_state : AgentState;
  asco_reason : string;
}.

Record MicroagentKnowledge := mkMicroagentKnowledge {
  mk_name : string;
  mk_trigger : string;
  mk_content : string;
}.

Record RecallObservation := mkRecallObservation {
  ro_recall_type : RecallType;
  ro_repo_name : string;
  ro_repo_directory : string;
  ro_repo_branch : string;
  ro_repo_instructions : string;
  ro_runtime_hosts : dict;
  ro_additional_agent_instructions : string;
  ro_date : string;
  ro_custom_secrets_descriptions : dict;
  ro_conversation_instructions : string;
  ro_working_dir : string;
  ro_microagent_knowledge : list MicroagentKnowledge;
}.

Record MCPObservation := mkMCPObservation {
  mcpo_name : string;
  mcpo_arguments : dict;
}.

Record FileDownloadObservation := mkFileDownloadObservation {
  fdo_file_path : string;
}.

Record TaskTrackingObservation := mkTaskTrackingObservation {
  tto_command : string;
  tto_task_list : list json;
}.

Inductive ObservationKind :=
  | ONull
  | OCmdOutput (o : CmdOutputObservation)
  | OIPythonRunCell (o : IPythonRunCellObservation)
  | OFileRead (o : FileReadObservation)
  | OFileWrite (o : FileWriteObservation)
  | OFileEdit (o : FileEditObservation)
  | OBrowserOutput (o : BrowserOutputObservation)
  | OAgentDelegate (o : AgentDelegateObservation)
  | OSuccess
  | OError (o : ErrorObservation)
  | OAgentStateChanged (o : AgentStateChangedObservation)
  | OUserReject
  | OAgentCondensation
  | OAgentThink
  | ORecall (o : RecallObservation)
  | OMCP (o : MCPObservation)
  | OFileDownload (o : FileDownloadObservation)
  | OTaskTracking (o : TaskTrackingObservation)
  | OLoopDetection.

(** [Observation]: the base class's field and the rest of the object. *)
Record Observation := mkObservation {
  obs_content : string;
  obs_kind : ObservationKind;
}.

Definition observation_type (o : ObservationKind) : ObservationType :=
  match o with
  | ONull => OT_NULL
  | OCmdOutput _ => OT_RUN
  | OIPythonRunCell _ => OT_RUN_IPYTHON
  | OFileRead _ => OT_READ
  | OFileWrite _ => OT_WRITE
  | OFileEdit _ => OT_EDIT
  | OBrowserOutput _ => OT_BROWSE
  | OAgentDelegate _ => OT_DELEGATE
  | OSuccess => OT_SUCCESS
  | OError _ => OT_ERROR
  | OAgentStateChanged _ => OT_AGENT_STATE_CHANGED
  | OUserReject => OT_USER_REJECTED
  | OAgentCondensation => OT_CONDENSE
  | OAgentThink => OT_THINK
  | ORecall _ => OT_RECALL
  | OMCP _ => OT_MCP
  | OFileDownload _ => OT_DOWNLOAD
  | OTaskTracking _ => OT_TASK_TRACKING
  | OLoopDetection => OT_LOOP_DETECTION
  end.

(** [getattr(obs, 'hidden', False)] *)
Definition observation_hidden (o : Observation) : bool :=
  match obs_kind o with OCmdOutput o => coo_hidden o | _ => false end.

(** ** Command output *)

Definition MAX_CMD_OUTPUT_SIZE : Z := 30000.

Definition truncation_notice : string :=
  nl +:+ "[... Observation truncated due to length ...]" +:+ nl.

(** [_maybe_truncate] *)
Definition maybe_truncate (max_size : Z) (content : string) : string :=
  if str_len content <=? max_size then content
  else let half := max_size / 2 in
       str_take half content +:+ truncation_notice +:+ str_last half content.

(** [truncate_content] of [events/serialization/event.py]; [None] is no limit. *)
Definition truncate_content (max_chars : option Z) (content : string) : string :=
  match max_chars with
  | None => content
  | Some n =>
      if (str_len content <=? n) || (n <? 0) then content
      else let half := n / 2 in
           str_take half content +:+ truncation_notice +:+ str_last half content
  end.

(** [CmdOutputObservation.__init__], with the legacy keyword arguments
    [exit_code] and [command_id]. *)
Definition new_CmdOutputObservation (content command : string)
    (metadata : option CmdOutputMetadata) (hidden : bool)
    (exit_code command_id : option Z) : Observation :=
  let content := if hidden then content else maybe_truncate MAX_CMD_OUTPUT_SIZE content in
  let m := from_option id default_metadata metadata in
  let m := mkCmdOutputMetadata (from_option id (com_exit_code m) exit_code)
             (from_option id (com_pid m) command_id)
             (com_username m) (com_hostname m) (com_working_dir m)
             (com_py_interpreter_path m) (com_prefix m) (com_suffix m) in
  mkObservation content (OCmdOutput (mkCmdOutputObservation command m hidden)).

(** [exit_code], [error], [success] *)
Definition exit_code (o : CmdOutputObservation) : Z := com_exit_code (coo_metadata o).
Definition cmd_error (o : CmdOutputObservation) : bool := negb (exit_code o =? 0).
Definition cmd_success (o : CmdOutputObservation) : bool := negb (cmd_error o).

(** [if x: ret += f(x)] for an optional string [x]: [None] and [''] add nothing. *)
Definition opt_str_section (f : string → string) (x : option string) : string :=
  match x with
  | Some s => if String.eqb s "" then "" else f s
  | None => ""
  end.

(** [to_agent_observation] *)
Definition to_agent_observation (content : string) (o : CmdOutputObservation) : string :=
  let m := coo_metadata o in
  com_prefix m +:+ content +:+ com_suffix m +:+
  opt_str_section (λ d, nl +:+ "[Current working directory: " +:+ d +:+ "]") (com_working_dir m) +:+
  opt_str_section (λ p, nl +:+ "[Python interpreter: " +:+ p +:+ "]")
    (com_py_interpreter_path m) +:+
  (if com_exit_code m =? -1 then ""
   else nl +:+ "[Command finished with exit code " +:+ pretty (com_exit_code m) +:+ "]").

(** ** Messages *)

(** [LoopDetectionObservation] inherits the empty [Event.message]. *)
Definition observation_message (o : Observation) : string :=
  match obs_kind o with
  | ONull => "No observation"
  | OCmdOutput c => "Command `" +:+ coo_command c +:+ "` executed with exit code " +:+
                    pretty (exit_code c) +:+ "."
  | OIPythonRunCell _ => "Code executed in IPython cell."
  | OFileRead f => "I read the file " +:+ fro_path f +:+ "."
  | OFileWrite f => "I wrote to the file " +:+ fwo_path f +:+ "."
  | OFileEdit f => "I edited the file " +:+ feo_path f +:+ "."
  | OBrowserOutput b => "Visited " +:+ boo_url b
  | OAgentDelegate _ => ""
  | OAgentStateChanged _ => ""
  | ORecall r =>
      match ro_recall_type r with
      | WORKSPACE_CONTEXT => "Added workspace context"
      | KNOWLEDGE => "Added microagent knowledge"
      end
  | OFileDownload f => "Downloaded the file at location: " +:+ fdo_file_path f
  | OLoopDetection => ""
  | OSuccess | OError _ | OUserReject | OAgentCondensation | OAgentThink | OMCP _
  | OTaskTracking _ => obs_content o
  end.

(** ** Python's [==] on observations *)

#[export] Instance CmdOutputMetadata_eq_dec : EqDecision CmdOutputMetadata.
Proof. solve_decision. Defined.
#[export] Instance CmdOutputObservation_eq_dec : EqDecision CmdOutputObservation.
Proof. solve_decision. Defined.
#[export] Instance IPythonRunCellObservation_eq_dec : EqDecision IPythonRunCellObservation.
Proof. solve_decision. Defined.
#[export] Instance FileReadObservation_eq_dec : EqDecision FileReadObservation.
Proof. solve_decision. Defined.
#[export] Instance FileWriteObservation_eq_dec : EqDecision FileWriteObservation.
Proof. solve_decision. Defined.
#[export] Instance FileEditObservation_eq_dec : EqDecision FileEditObservation.
Proof. solve_decision. Defined.
#[export] Instance BrowserOutputObservation_eq_dec : EqDecision BrowserOutputObservation.
Proof. solve_decision. Defined.
#[export] Instance AgentDelegateObservation_eq_dec : EqDecision AgentDelegateObservation.
Proof. solve_decision. Defined.
#[export] Instance ErrorObservation_eq_dec : EqDecision ErrorObservation.
Proof. solve_decision. Defined.
#[export] Instance AgentStateChangedObservation_eq_dec :
  EqDecision AgentStateChangedObservation.
Proof. solve_decision. Defined.
#[export] Instance MicroagentKnowledge_eq_dec : EqDecision MicroagentKnowledge.
Proof. solve_decision. Defined.
#[export] Instance RecallObservation_eq_dec : EqDecision RecallObservation.
Proof. solve_decision. Defined.
#[export] Instance MCPObservation_eq_dec : EqDecision MCPObservation.
Proof. solve_decision. Defined.
#[export] Instance FileDownloadObservation_eq_dec : EqDecision FileDownloadObservation.
Proof. solve_decision. Defined.
#[export] Instance TaskTrackingObservation_eq_dec : EqDecision TaskTrackingObservation.
Proof. solve_decision. Defined.
#[export] Instance ObservationKind_eq_dec : EqDecision ObservationKind.
Proof. solve_decision. Defined.
#[export] Instance Observation_eq_dec : EqDecision Observation.
Proof. solve_decision. Defined.

(** Replace the dictionaries by one representative so that the remaining fields
    compare with [=]. *)
Definition erase_dicts (o : ObservationKind) : ObservationKind :=
  match o with
  | OBrowserOutput (mkBrowserOutputObservation u t s p m e g op ap _ _ _ la le fe fv) =>
      OBrowserOutput (mkBrowserOutputObservation u t s p m e g op ap [] [] [] la le fe fv)
  | OAgentDelegate _ => OAgentDelegate (mkAgentDelegateObservation [])
  | ORecall (mkRecallObservation t n d b i _ a da _ c w k) =>
      ORecall (mkRecallObservation t n d b i [] a da [] c w k)
  | OMCP (mkMCPObservation n _) => OMCP (mkMCPObservation n [])
  | OTaskTracking (mkTaskTrackingObservation c _) => OTaskTracking (mkTaskTrackingObservation c [])
  | o => o
  end.

Definition observation_dicts (o : ObservationKind) : list json :=
  match o with
  | OBrowserOutput b =>
      [JDict (boo_dom_object b); JDict (boo_axtree_object b);
       JDict (boo_extra_element_properties b)]
  | OAgentDelegate d => [JDict (ado_outputs d)]
  | ORecall r => [JDict (ro_runtime_hosts r); JDict (ro_custom_secrets_descriptions r)]
  | OMCP m => [JDict (mcpo_arguments m)]
  | OTaskTracking t => [JList (tto_task_list t)]
  | _ => []
  end.

Definition observation_eqb (a b : Observation) : bool :=
  bool_decide (obs_content a = obs_content b) &&
  bool_decide (erase_dicts (obs_kind a) = erase_dicts (obs_kind b)) &&
  py_eqb (JList (observation_dicts (obs_kind a))) (JList (observation_dicts (obs_kind b))).
