(* ===== verification/Events.v ===== *)
(** * Events

    Models [openhands/events/event.py] and [openhands/events/tool.py]: the
    underscore attributes an event acquires during its life ([EventMeta]), their
    read properties, the classes an [isinstance] test can name ([EventClass]),
    and the pairing of histories in [openhands/events/utils.py]. *)

From S2P Require Import Prelude PyValue Metrics Schema Actions Observations.
Local Open Scope Z_scope.

(** ** Metadata *)

(** The litellm response object is an opaque document. *)
Record ToolCallMetadata := mkToolCallMetadata {
  tcm_function_name : string;
  tcm_tool_call_id : string;
  tcm_model_response : json;
  tcm_total_calls_in_response : Z;
}.
#[export] Instance ToolCallMetadata_eq_dec : EqDecision ToolCallMetadata.
Proof. solve_decision. Defined.

(** An attribute that was never set and one set to [None] read the same through
    the properties; both are [None].  [m_confirmation] is the [confirmation_state]
    attribute on classes that do not declare that field. *)
Record EventMeta := mkEventMeta {
  m_id : option Z;
  m_timestamp : option string;
  m_source : option EventSource;
  m_cause : option Z;
  m_timeout : option float;
  m_llm_metrics : option Metrics;
  m_tool_call_metadata : option ToolCallMetadata;
  m_response_id : option string;
  m_confirmation : option ActionConfirmationStatus;
}.
#[export] Instance EventMeta_eq_dec : EqDecision EventMeta.
Proof. solve_decision. Defined.

Definition empty_meta : EventMeta :=
  mkEventMeta None None None None None None None None None.

Inductive EventBody :=
  | EAction (a : Action)
  | EObservation (o : Observation).
#[export] Instance EventBody_eq_dec : EqDecision EventBody.
Proof. solve_decision. Defined.

Record Event := mkEvent {
  ev_meta : EventMeta;
  ev_body : EventBody;
}.
#[export] Instance Event_eq_dec : EqDecision Event.
Proof. solve_decision. Defined.

(** A freshly constructed object. *)
Definition new_action (a : Action) : Event := mkEvent empty_meta (EAction a).
Definition new_obs (content : string) (k : ObservationKind) : Event :=
  mkEvent empty_meta (EObservation (mkObservation content k)).

(** ** Properties *)

Definition INVALID_ID : Z := -1.
Definition event_id (e : Event) : Z := from_option id INVALID_ID (m_id (ev_meta e)).
Definition event_timestamp (e : Event) : option string := m_timestamp (ev_meta e).
Definition event_source (e : Event) : option EventSource := m_source (ev_meta e).
Definition event_cause (e : Event) : option Z := m_cause (ev_meta e).
Definition event_timeout (e : Event) : option float := m_timeout (ev_meta e).
Definition event_llm_metrics (e : Event) : option Metrics := m_llm_metrics (ev_meta e).
Definition event_tool_call (e : Event) : option ToolCallMetadata :=
  m_tool_call_metadata (ev_meta e).
Definition event_response_id (e : Event) : option string := m_response_id (ev_meta e).

Definition map_meta (f : EventMeta → EventMeta) (e : Event) : Event :=
  mkEvent (f (ev_meta e)) (ev_body e).
Definition map_action (f : Action → Action) (e : Event) : Event :=
  match ev_body e with
  | EAction a => mkEvent (ev_meta e) (EAction (f a))
  | EObservation _ => e
  end.

Definition set_id (i : option Z) : Event → Event := map_meta (λ m,
  mkEventMeta i (m_timestamp m) (m_source m) (m_cause m) (m_timeout m) (m_llm_metrics m)
    (m_tool_call_metadata m) (m_response_id m) (m_confirmation m)).
Definition set_timestamp (t : option string) : Event → Event := map_meta (λ m,
  mkEventMeta (m_id m) t (m_source m) (m_cause m) (m_timeout m) (m_llm_metrics m)
    (m_tool_call_metadata m) (m_response_id m) (m_confirmation m)).
Definition set_source (s : option EventSource) : Event → Event := map_meta (λ m,
  mkEventMeta (m_id m) (m_timestamp m) s (m_cause m) (m_timeout m) (m_llm_metrics m)
    (m_tool_call_metadata m) (m_response_id m) (m_confirmation m)).
Definition set_cause (c : option Z) : Event → Event := map_meta (λ m,
  mkEventMeta (m_id m) (m_timestamp m) (m_source m) c (m_timeout m) (m_llm_metrics m)
    (m_tool_call_metadata m) (m_response_id m) (m_confirmation m)).
Definition set_llm_metrics (x : option Metrics) : Event → Event := map_meta (λ m,
  mkEventMeta (m_id m) (m_timestamp m) (m_source m) (m_cause m) (m_timeout m) x
    (m_tool_call_metadata m) (m_response_id m) (m_confirmation m)).
Definition set_tool_call (t : option ToolCallMetadata) : Event → Event := map_meta (λ m,
  mkEventMeta (m_id m) (m_timestamp m) (m_source m) (m_cause m) (m_timeout m)
    (m_llm_metrics m) t (m_response_id m) (m_confirmation m)).

Definition set_response_id (i : option string) : Event → Event := map_meta (λ m,
  mkEventMeta (m_id m) (m_timestamp m) (m_source m) (m_cause m) (m_timeout m) (m_llm_metrics m)
    (m_tool_call_metadata m) i (m_confirmation m)).
(** [set_hard_timeout]: [blocking] exists on [CmdRunAction] only. *)
Definition set_hard_timeout (value : option float) (blocking : bool) (e : Event) : Event :=
  let e := map_meta (λ m,
    mkEventMeta (m_id m) (m_timestamp m) (m_source m) (m_cause m) value (m_llm_metrics m)
      (m_tool_call_metadata m) (m_response_id m) (m_confirmation m)) e in
  map_action (λ a, match a with
    | ACmdRun (mkCmdRunAction c i t _ s w h f r) => ACmdRun (mkCmdRunAction c i t blocking s w h f r)
    | a => a end) e.

(** [event.confirmation_state]: the field where declared, else the attribute. *)
Definition event_confirmation (e : Event) : option ActionConfirmationStatus :=
  match ev_body e with
  | EAction a => match get_confirmation a with
                 | Some c => Some c
                 | None => m_confirmation (ev_meta e)
                 end
  | EObservation _ => m_confirmation (ev_meta e)
  end.
Definition set_event_confirmation (c : ActionConfirmationStatus) (e : Event) : Event :=
  match ev_body e with
  | EAction (ACmdRun _) | EAction (AIPythonRunCell _) => map_action (set_confirmation c) e
  | _ => map_meta (λ m,
      mkEventMeta (m_id m) (m_timestamp m) (m_source m) (m_cause m) (m_timeout m)
        (m_llm_metrics m) (m_tool_call_metadata m) (m_response_id m) (Some c)) e
  end.

(** [getattr(event, 'hidden', False)] *)
Definition event_hidden (e : Event) : bool :=
  match ev_body e with
  | EAction a => action_hidden a
  | EObservation o => observation_hidden o
  end.

Section event_message.
Variable py_repr : json → string.
Definition event_message (e : Event) : result string :=
  match ev_body e with
  | EAction a => action_message py_repr a
  | EObservation o => Ok (observation_message o)
  end.
End event_message.

(** ** [isinstance] *)

Definition is_action (e : Event) : bool :=
  match ev_body e with EAction _ => true | _ => false end.
Definition is_observation (e : Event) : bool :=
  match ev_body e with EObservation _ => true | _ => false end.

(** The classes of the event hierarchy. *)
Inductive EventClass :=
  | CEvent | CAction | CObservation
  | CActionClass (t : ActionType)
  | CObservationClass (t : ObservationType).

Definition isinstance (e : Event) (c : EventClass) : bool :=
  match c, ev_body e with
  | CEvent, _ => true
  | CAction, EAction _ => true
  | CObservation, EObservation _ => true
  | CActionClass t, EAction a => bool_decide (action_type a = t)
  | CObservationClass t, EObservation o => bool_decide (observation_type (obs_kind o) = t)
  | _, _ => false
  end.

Definition isinstance_any (e : Event) (cs : list EventClass) : bool :=
  existsb (isinstance e) cs.

Definition is_message (e : Event) : bool :=
  match ev_body e with EAction (AMessage _) => true | _ => false end.
(** [isinstance(e, MessageAction) and e.source == s] *)
Definition is_message_from (s : EventSource) (e : Event) : bool :=
  is_message e && bool_decide (event_source e = Some s).
Notation is_user_message := (is_message_from USER).
Notation is_agent_message := (is_message_from AGENT).

Definition message_content (e : Event) : string :=
  match ev_body e with EAction (AMessage a) => ma_content a | _ => "" end.
Definition as_condensation (e : Event) : option CondensationAction :=
  match ev_body e with EAction (ACondensation c) => Some c | _ => None end.
Definition is_condensation (e : Event) : bool :=
  match ev_body e with EAction (ACondensation _) => true | _ => false end.
Definition is_condensation_request (e : Event) : bool :=
  match ev_body e with EAction ACondensationRequest => true | _ => false end.
Definition is_agent_condensation (e : Event) : bool :=
  match ev_body e with EObservation o =>
    match obs_kind o with OAgentCondensation => true | _ => false end | _ => false end.
Definition is_null (e : Event) : bool :=
  match ev_body e with
  | EAction ANull => true
  | EObservation o => match obs_kind o with ONull => true | _ => false end
  | _ => false
  end.

(** ** Equality: Python's [==] sees the class and the dataclass fields only *)

Definition event_eqb (e f : Event) : bool :=
  match ev_body e, ev_body f with
  | EAction a, EAction b => action_eqb a b
  | EObservation a, EObservation b => observation_eqb a b
  | _, _ => false
  end.

(** ** Pairing actions with observations *)

Notation imap := (list (Z * Event)).
(** Insertion-ordered maps keyed by event id, as Python dicts. *)
Fixpoint iset (k : Z) (v : Event) (m : imap) : imap :=
  match m with
  | [] => [(k, v)]
  | (k', v') :: m => if k =? k' then (k, v) :: m else (k', v') :: iset k v m
  end.
Fixpoint iget (k : Z) (m : imap) : option Event :=
  match m with
  | [] => None
  | (k', v) :: m => if k =? k' then Some v else iget k m
  end.

Definition collect_maps (events : list Event) : imap * imap :=
  foldl (λ '(am, om) e,
    match ev_body e with
    | EAction _ => (iset (event_id e) e am, om)
    | EObservation _ =>
        match event_cause e with
        | None => (am, om)
        | Some c => (am, iset c e om)
        end
    end) ([], []) events.

Definition null_observation : Event := new_obs "" ONull.
Definition null_action : Event := new_action ANull.

(** [get_pairs_from_events] *)
Definition get_pairs_from_events (events : list Event) : list (Event * Event) :=
  let '(am, om) := collect_maps events in
  ((λ '(i, a), (a, from_option id null_observation (iget i om))) <$> am) ++
  ((λ '(_, o), (null_action, o)) <$>
     py_filter (λ '(c, o), negb (if iget c am then true else false) &&
                           negb (isinstance o (CObservationClass OT_NULL))) om).

(** ** Lemmas *)

Lemma is_action_observation e : is_action e = negb (is_observation e).
Proof. unfold is_action, is_observation. by destruct (ev_body e). Qed.

Lemma event_id_set_id i e : event_id (set_id (Some i) e) = i.
Proof. done. Qed.

Lemma set_event_confirmation_get c e :
  is_action e = true → event_confirmation (set_event_confirmation c e) = Some c.
Proof.
  destruct e as [m [a|o]]; [|done]. intros _.
  destruct a as [|[]|[]|[]|[]|[]|[]|[]|[]|[]|[]|[]|[]|[]|[]|[]|[]|[]| |[]|[]]; done.
Qed.

(** *** Histories with increasing ids *)

Definition increasing (events : list Event) : Prop := StronglySorted Z.lt (event_id <$> events).

Lemma increasing_app l k :
  increasing (l ++ k) ↔
  increasing l ∧ increasing k ∧ ∀ x y, x ∈ l → y ∈ k → event_id x < event_id y.
Proof.
  unfold increasing. rewrite fmap_app. induction l as [|e l IH]; simpl.
  - split; [|by intros (_&?&_)]. intros H. split_and!; [constructor|done|set_solver].
  - split.
    + intros [Hs Hf]%StronglySorted_inv. apply IH in Hs as (H1&H2&H3).
      rewrite Forall_app in Hf. destruct Hf as [Hl Hk]. split_and!; [by constructor|done|].
      intros x y [->|Hx]%elem_of_cons Hy; [|by apply H3].
      rewrite Forall_fmap, Forall_forall in Hk. by apply Hk.
    + intros ([Hs Hf]%StronglySorted_inv & H2 & H3). constructor.
      * apply IH. split_and!; [done..|]. intros; apply H3; [by right|done].
      * apply Forall_app. split; [done|]. rewrite Forall_fmap, Forall_forall. intros y Hy.
        apply H3; [left|done].
Qed.

Lemma increasing_filter f l : increasing l → increasing (py_filter f l).
Proof.
  induction l as [|e l IH]; [done|]. intros (_ & Hl & Hlt)%(increasing_app [e]).
  simpl. destruct (f e); [|by apply IH]. apply (increasing_app [e]). split_and!.
  - repeat constructor.
  - by apply IH.
  - intros x y Hx Hy. apply elem_of_py_filter in Hy as [_ Hy]. by apply Hlt.
Qed.

Lemma increasing_drop n l : increasing l → increasing (drop n l).
Proof. rewrite <- (take_drop n l) at 1. by intros (_ & ? & _)%increasing_app. Qed.
