(* ===== verification/View.v ===== *)
(** * Views: what the LLM sees of a history

    Models [openhands/memory/view.py].  [from_events] is the whole static
    method: the set of forgotten ids, the kept events, the insertion of the most
    recent summary, and the detection of an unhandled condensation request.  It
    can raise through [CondensationAction.forgotten]. *)

From S2P Require Import Prelude PyValue Schema Actions Observations Events.
Local Open Scope Z_scope.

Record View := mkView {
  view_events : list Event;
  unhandled_condensation_request : bool;
  forgotten_event_ids : gset Z;
}.

(** [View(events=l)] *)
Definition plain_view (l : list Event) : View := mkView l false ∅.

(** The ids one event of the history removes from the view. *)
Definition event_forgets (e : Event) : result (gset Z) :=
  match ev_body e with
  | EAction (ACondensation c) =>
      rbind (forgotten c) (λ ids, Ok (list_to_set ids ∪ {[event_id e]}))
  | EAction ACondensationRequest => Ok {[event_id e]}
  | _ => Ok ∅
  end.

Fixpoint collect_forgotten (events : list Event) : result (gset Z) :=
  match events with
  | [] => Ok ∅
  | e :: events =>
      rbind (event_forgets e) (λ s, rbind (collect_forgotten events) (λ t, Ok (s ∪ t)))
  end.

Definition kept (fs : gset Z) (events : list Event) : list Event :=
  py_filter (λ e, negb (bool_decide (event_id e ∈ fs))) events.

Definition event_summary (e : Event) : option (string * Z) :=
  match as_condensation e with
  | Some c => match ca_summary c, ca_summary_offset c with
              | Some s, Some o => Some (s, o)
              | _, _ => None
              end
  | None => None
  end.

(** The summary of the most recent condensation that carries one. *)
Fixpoint last_summary (rev_events : list Event) : option (string * Z) :=
  match rev_events with
  | [] => None
  | e :: l => match event_summary e with Some x => Some x | None => last_summary l end
  end.

(** A request closer to the end than any condensation. *)
Fixpoint unhandled_request (rev_events : list Event) : bool :=
  match rev_events with
  | [] => false
  | e :: l => if is_condensation e then false
              else if is_condensation_request e then true
              else unhandled_request l
  end.

Definition insert_summary (s : option (string * Z)) (l : list Event) : list Event :=
  match s with
  | Some (summary, offset) => py_insert offset (new_obs summary OAgentCondensation) l
  | None => l
  end.

(** [View.from_events] *)
Definition from_events (events : list Event) : result View :=
  rbind (collect_forgotten events) (λ fs,
    Ok {| view_events := insert_summary (last_summary (reverse events)) (kept fs events);
          unhandled_condensation_request := unhandled_request (reverse events);
          forgotten_event_ids := fs |}).

(** ** Lemmas *)

Definition valid_event (e : Event) : Prop :=
  match as_condensation e with
  | Some c => validate_field_polymorphism c = true
  | None => True
  end.

Lemma forgotten_valid c : validate_field_polymorphism c = true → ∃ l, forgotten c = Ok l.
Proof.
  destruct c as [ids s e su o]. intros Hv.
  apply (forgotten_total ids s e su o). unfold new_CondensationAction. by rewrite Hv.
Qed.

Lemma event_forgets_total e : valid_event e → ∃ s, event_forgets e = Ok s.
Proof.
  unfold valid_event, as_condensation, event_forgets.
  destruct (ev_body e) as [a|o]; [destruct a|]; eauto.
  intros [l ->]%forgotten_valid; simpl; eauto.
Qed.

Lemma collect_forgotten_total events :
  Forall valid_event events → ∃ fs, collect_forgotten events = Ok fs.
Proof.
  induction 1 as [|e es He _ [fs IH]]; simpl; [eauto|].
  destruct (event_forgets_total e He) as [s ->]. simpl. rewrite IH. simpl. eauto.
Qed.

Lemma from_events_total events :
  Forall valid_event events → ∃ v, from_events events = Ok v.
Proof. intros [fs H]%collect_forgotten_total. unfold from_events. rewrite H. simpl. eauto. Qed.

Lemma collect_forgotten_app l k :
  collect_forgotten (l ++ k) =
  rbind (collect_forgotten l) (λ s, rbind (collect_forgotten k) (λ t, Ok (s ∪ t))).
Proof.
  induction l as [|e l IH]; simpl.
  - destruct (collect_forgotten k); simpl; [|done]. f_equal. set_solver.
  - rewrite IH. destruct (event_forgets e); simpl; [|done].
    destruct (collect_forgotten l); simpl; [|done].
    destruct (collect_forgotten k); simpl; [|done]. f_equal. set_solver.
Qed.

Lemma from_events_inv events v :
  from_events events = Ok v →
  collect_forgotten events = Ok (forgotten_event_ids v)
  ∧ view_events v = insert_summary (last_summary (reverse events))
                      (kept (forgotten_event_ids v) events)
  ∧ unhandled_condensation_request v = unhandled_request (reverse events).
Proof.
  unfold from_events. destruct (collect_forgotten events) as [fs|] eqn:E; simpl; [|done].
  by intros [= <-].
Qed.

Lemma elem_of_kept fs events e : e ∈ kept fs events ↔ e ∈ events ∧ event_id e ∉ fs.
Proof.
  unfold kept. rewrite elem_of_py_filter.
  rewrite negb_true_iff, bool_decide_eq_false. tauto.
Qed.

Lemma elem_of_py_insert {A} i (x y : A) l : y ∈ py_insert i x l ↔ y = x ∨ y ∈ l.
Proof.
  unfold py_insert. set (j := Z.to_nat _).
  assert (y ∈ l ↔ y ∈ take j l ∨ y ∈ drop j l) as ->
    by by rewrite <- elem_of_app, take_drop.
  rewrite elem_of_app, elem_of_cons. tauto.
Qed.

Lemma length_py_insert {A} i (x : A) l : length (py_insert i x l) = S (length l).
Proof.
  unfold py_insert. rewrite length_app. simpl. rewrite length_take, length_drop. lia.
Qed.

Lemma event_forgets_self e s :
  event_forgets e = Ok s → is_condensation e || is_condensation_request e = true →
  event_id e ∈ s.
Proof.
  unfold event_forgets, is_condensation, is_condensation_request.
  destruct (ev_body e) as [a|o]; [destruct a|]; simpl; try done.
  - destruct (forgotten a); simpl; [|done]. intros [= <-] _. set_solver.
  - intros [= <-] _. set_solver.
Qed.

Lemma collect_forgotten_elem events fs e :
  collect_forgotten events = Ok fs → e ∈ events →
  ∃ s, event_forgets e = Ok s ∧ s ⊆ fs.
Proof.
  revert fs. induction events as [|e' es IH]; intros fs; simpl; [set_solver|].
  destruct (event_forgets e') as [s|] eqn:Es; simpl; [|done].
  destruct (collect_forgotten es) as [t|] eqn:Et; simpl; [|done].
  intros [= <-] [->|Hin]%elem_of_cons.
  - exists s. split; [done|set_solver].
  - destruct (IH t eq_refl Hin) as (s' & ? & ?). exists s'. split; [done|set_solver].
Qed.

(** The condensation machinery never appears in the view. *)
Lemma view_no_condensation events v e :
  from_events events = Ok v → e ∈ view_events v →
  is_condensation e = false ∧ is_condensation_request e = false.
Proof.
  intros (Hf & Hv & _)%from_events_inv He. rewrite Hv in He.
  assert (Hk : e ∈ kept (forgotten_event_ids v) events ∨ ∃ s, e = new_obs s OAgentCondensation).
  { destruct (last_summary _) as [[s o]|]; simpl in He; [|by left].
    apply elem_of_py_insert in He as [->|He]; eauto. }
  destruct Hk as [[Hin Hnot]%elem_of_kept|[s ->]]; [|done].
  destruct (collect_forgotten_elem _ _ _ Hf Hin) as (s & Hs & Hsub).
  destruct (is_condensation e || is_condensation_request e) eqn:E.
  - pose proof (event_forgets_self _ _ Hs E). set_solver.
  - by apply orb_false_iff in E.
Qed.

(** The forgotten ids are those the events of the history forget. *)
Lemma collect_forgotten_spec events fs i :
  collect_forgotten events = Ok fs →
  i ∈ fs ↔ ∃ e s, e ∈ events ∧ event_forgets e = Ok s ∧ i ∈ s.
Proof.
  revert fs. induction events as [|e es IH]; intros fs; simpl.
  - intros [= <-]. set_solver.
  - destruct (event_forgets e) as [s|] eqn:Es; simpl; [|done].
    destruct (collect_forgotten es) as [t|] eqn:Et; simpl; [|done].
    intros [= <-]. rewrite elem_of_union, (IH t eq_refl). split.
    + intros [Hi|(e' & s' & ? & ? & ?)]; [exists e, s|exists e', s']; split_and!; set_solver.
    + intros (e' & s' & [->|Hin]%elem_of_cons & He' & Hi); [left; congruence|right; eauto].
Qed.

Lemma unhandled_request_spec l :
  unhandled_request (reverse l) = true ↔
  ∃ pre r post, l = pre ++ r :: post ∧ is_condensation_request r = true
    ∧ ∀ e, e ∈ post → is_condensation e = false.
Proof.
  induction l as [|e l IH] using rev_ind.
  - split; [done|]. intros ([] & ? & ? & ? & _); done.
  - rewrite reverse_snoc. simpl.
    assert (Hreq : is_condensation_request e = true → is_condensation e = false).
    { unfold is_condensation_request, is_condensation. by destruct (ev_body e) as [[]|]. }
    destruct (is_condensation e) eqn:Ec; [|destruct (is_condensation_request e) eqn:Er].
    + split; [done|]. intros (pre & r & post & Heq & Hr & Hp).
      destruct post as [|x post _] using rev_ind.
      * apply app_inj_tail in Heq as [_ ->]. specialize (Hreq Hr). done.
      * rewrite app_comm_cons, app_assoc in Heq. apply app_inj_tail in Heq as [_ ->].
        rewrite Hp in Ec; [done|set_solver].
    + split; [|done]. intros _. exists l, e, []. split_and!; [done..|set_solver].
    + rewrite IH. split.
      * intros (pre & r & post & -> & Hr & Hp). exists pre, r, (post ++ [e]).
        split_and!; [by rewrite <- app_assoc|done|]. intros x [Hx| ->%list_elem_of_singleton]%elem_of_app; auto.
      * intros (pre & r & post & Heq & Hr & Hp).
        destruct post as [|x post _] using rev_ind.
        -- apply app_inj_tail in Heq as [_ ->]. congruence.
        -- rewrite app_comm_cons, app_assoc in Heq. apply app_inj_tail in Heq as [-> _].
           exists pre, r, post. split_and!; [done..|]. intros y Hy. apply Hp. set_solver.
Qed.

Lemma lookup_py_insert {A} (i : Z) (x : A) l :
  0 ≤ i ≤ py_len l → py_insert i x l !! Z.to_nat i = Some x.
Proof.
  intros Hi. unfold py_insert, py_clamp. unfold py_len in *.
  rewrite (proj2 (Z.ltb_ge i 0)) by lia. rewrite Z.min_l by lia.
  rewrite lookup_app_r; rewrite length_take; [|lia].
  by replace (Z.to_nat i - _)%nat with 0%nat by lia.
Qed.

(** C22 What a view contains: for a history whose condensations are well formed,
    [from_events] succeeds; no condensation action or request is in the view; the
    forgotten ids are those that the condensations name and the ids of condensations
    and requests; an event of the history is in the view exactly when its id is not
    forgotten, and the kept events appear in history order; the one other event is the
    most recent summary, at its offset; and a request is unhandled exactly when no
    condensation follows it. *)
Theorem from_events_spec (events : list Event) :
  Forall valid_event events →
  ∃ v, from_events events = Ok v
    ∧ (∀ e, e ∈ view_events v → is_condensation e = false ∧ is_condensation_request e = false)
    ∧ (∀ i, i ∈ forgotten_event_ids v ↔ ∃ e s, e ∈ events ∧ event_forgets e = Ok s ∧ i ∈ s)
    ∧ (∀ e, e ∈ events → event_id e ∉ forgotten_event_ids v → e ∈ view_events v)
    ∧ (∀ e, e ∈ view_events v →
         (e ∈ events ∧ event_id e ∉ forgotten_event_ids v)
         ∨ ∃ s o, last_summary (reverse events) = Some (s, o)
                  ∧ e = new_obs s OAgentCondensation)
    ∧ kept (forgotten_event_ids v) events `sublist_of` view_events v
    ∧ (∀ s o, last_summary (reverse events) = Some (s, o) →
         0 ≤ o ≤ py_len (kept (forgotten_event_ids v) events) →
         view_events v !! Z.to_nat o = Some (new_obs s OAgentCondensation))
    ∧ (unhandled_condensation_request v = true ↔
       ∃ pre r post, events = pre ++ r :: post ∧ is_condensation_request r = true
         ∧ ∀ e, e ∈ post → is_condensation e = false).
Proof.
  intros Hv. destruct (from_events_total events Hv) as [v Hok]. exists v.
  split; [done|]. split; [by intros; eapply view_no_condensation|].
  destruct (from_events_inv _ _ Hok) as (Hf & -> & ->).
  split; [intros i; by apply collect_forgotten_spec|].
  rewrite <- unhandled_request_spec.
  destruct (last_summary (reverse events)) as [[s o]|]; simpl; split_and!; try done.
  - intros e ??. apply elem_of_py_insert. right. by apply elem_of_kept.
  - intros e [->|He]%elem_of_py_insert; [by eauto 6|left; by apply elem_of_kept].
  - unfold py_insert. set (k := kept _ _).
    rewrite <- (take_drop (Z.to_nat (py_clamp (py_len k) o)) k) at 1.
    by apply sublist_app, sublist_cons.
  - intros ?? [= <- <-]. apply lookup_py_insert.
  - intros e ??. by apply elem_of_kept.
  - intros e He. left. by apply elem_of_kept.
Qed.

Definition ex_msg (i : Z) (src : EventSource) (txt : string) : Event :=
  set_source (Some src) (set_id (Some i)
    (new_action (AMessage (mkMessageAction txt None None false RISK_UNKNOWN)))).
Definition ex_condense (i : Z) (c : CondensationAction) : Event :=
  set_source (Some AGENT) (set_id (Some i) (new_action (ACondensation c))).
Definition ex_history : list Event :=
  [ex_msg 0 USER "task"; ex_msg 1 AGENT "a"; ex_msg 2 AGENT "b"; ex_msg 3 AGENT "c";
   ex_condense 4 (mkCondensationAction None (Some 1) (Some 2) (Some "sum") (Some 1))].

Lemma from_events_spec_witness :
  ∃ v, from_events ex_history = Ok v
       ∧ view_events v = [ex_msg 0 USER "task"; new_obs "sum" OAgentCondensation;
                          ex_msg 3 AGENT "c"].
Proof.
  destruct (from_events_spec ex_history) as (v & Hv & _).
  - repeat constructor.
  - exists v. split; [done|]. vm_compute in Hv. injection Hv as <-. reflexivity.
Defined.

(** ** Growing histories *)

Lemma kept_app fs l k : kept fs (l ++ k) = kept fs l ++ kept fs k.
Proof. apply py_filter_app. Qed.

Lemma kept_union fs gs l : kept (fs ∪ gs) l = kept gs (kept fs l).
Proof.
  unfold kept. rewrite py_filter_filter. apply py_filter_ext. intros e _.
  rewrite !bool_decide_decide. repeat case_decide; set_solver.
Qed.

(** Forgetting is permanent: extending a history only adds forgotten ids. *)
Lemma forgotten_mono l k v w :
  from_events l = Ok v → from_events (l ++ k) = Ok w →
  forgotten_event_ids v ⊆ forgotten_event_ids w.
Proof.
  intros (Hv & _)%from_events_inv (Hw & _)%from_events_inv.
  rewrite collect_forgotten_app, Hv in Hw. simpl in Hw.
  destruct (collect_forgotten k); simpl in Hw; [|done]. injection Hw as Hw. set_solver.
Qed.

(** One condensation at the end of a history. *)
Lemma from_events_condense l v c ids i meta :
  from_events l = Ok v → forgotten c = Ok ids →
  m_id meta = Some i →
  let e := mkEvent meta (EAction (ACondensation c)) in
  from_events (l ++ [e]) = Ok
    {| view_events := insert_summary
         (match event_summary e with Some x => Some x | None => last_summary (reverse l) end)
         (kept (forgotten_event_ids v ∪ (list_to_set ids ∪ {[i]})) l);
       unhandled_condensation_request := false;
       forgotten_event_ids := forgotten_event_ids v ∪ (list_to_set ids ∪ {[i]}) |}.
Proof.
  intros (Hf & _ & _)%from_events_inv Hc Hi e. unfold from_events.
  assert (Hid : event_id e = i) by (unfold event_id; simpl; by rewrite Hi).
  assert (He : collect_forgotten [e] = Ok (list_to_set ids ∪ {[i]})).
  { simpl. unfold event_forgets at 1. cbn [ev_body e]. rewrite Hc, Hid. simpl.
    by rewrite (right_id_L ∅ (∪)). }
  rewrite collect_forgotten_app, Hf, He. cbn [rbind].
  rewrite reverse_app. simpl. f_equal. f_equal.
  f_equal. rewrite kept_app. unfold kept at 2. simpl. rewrite Hid.
  rewrite bool_decide_eq_true_2 by set_solver. simpl. by rewrite app_nil_r.
Qed.
