(* ===== verification/Condensers.v ===== *)
(** * Condensers

    Models [openhands/memory/condenser/condenser.py] and the strategies of
    [openhands/memory/condenser/impl/].  The abstract base classes are the type
    classes [Condenser] and [RollingCondenser]; each strategy is a record of its
    constructor's arguments with its validating constructor, and an instance.
    A strategy runs in the state monad over its metadata batch.  The language
    model is a field of the strategies that call one: a function from the variable
    parts of the prompt to its reply, or to an exception. *)

From S2P Require Import Prelude PyValue Schema Actions Observations Events View.
Local Open Scope Z_scope.
Local Open Scope py_scope.

(** ** The interfaces *)

(** [View | Condensation] *)
Inductive Condensed :=
  | CView (v : View)
  | CCondensation (a : CondensationAction).

(** The state is the condenser's [_metadata_batch]. *)
Class Condenser (C : Type) := condense : C → View → pyM dict Condensed.

Class RollingCondenser (C : Type) := {
  should_condense : C → View → bool;
  get_condensation : C → View → pyM dict CondensationAction;
}.

(** [RollingCondenser.condense] *)
Definition rolling_condense `{RollingCondenser C} (c : C) (v : View) : pyM dict Condensed :=
  if should_condense c v
  then let* a := get_condensation c v in pret (CCondensation a)
  else pret (CView v).
#[export] Instance rolling_condenser `{RollingCondenser C} : Condenser C := rolling_condense.

(** ** Metadata batches *)

Definition CONDENSER_METADATA_KEY : string := "condenser_meta".

(** [add_metadata] on the condenser's current batch. *)
Definition add_metadata (key : string) (value : json) : pyM dict unit :=
  pmodify (dset key value).

(** [write_metadata]: the state's [extra_data] after the batch is written. *)
Definition write_metadata (batch extra : dict) : result dict :=
  let extra := if dmem CONDENSER_METADATA_KEY extra then extra
               else dset CONDENSER_METADATA_KEY (JList []) extra in
  match batch, dget CONDENSER_METADATA_KEY extra with
  | [], _ => Ok extra
  | _, Some (JList l) => Ok (dset CONDENSER_METADATA_KEY (JList (l ++ [JDict batch])) extra)
  | _, _ => Raise (OtherError "AttributeError" "append")
  end.

(** [get_condensation_metadata] *)
Definition get_condensation_metadata (extra : dict) : json :=
  from_option id (JList []) (dget CONDENSER_METADATA_KEY extra).

(** [condensed_history]: the batch is written to the state's [extra_data] whether
    [condense] returns or raises, and then cleared. *)
Definition condensed_history `{Condenser C} (c : C) (view : result View) :
    pyM (dict * dict) Condensed := λ '(batch, extra),
  let '(batch, r) := match view with
                     | Ok v => condense c v batch
                     | Raise e => (batch, Raise e)
                     end in
  match write_metadata batch extra with
  | Ok extra => (([], extra), r)
  | Raise e => ((batch, extra), Raise e)
  end.

(** ** Helpers *)

(** What the strategies read of a completion: the message's text, the name and
    arguments of its tool calls, [response.model_dump()] and [llm.metrics.get()]. *)
Record LLMReply := mkLLMReply {
  reply_content : string;
  reply_tool_calls : list (string * string);
  reply_dump : json;
  reply_metrics : json;
}.

(** Python's [min] and [max] of an iterable of ints. *)
Definition py_min (l : list Z) : result Z :=
  match l with
  | [] => Raise (ValueError "min() iterable argument is empty")
  | x :: l => Ok (foldr Z.min x l)
  end.
Definition py_max (l : list Z) : result Z :=
  match l with
  | [] => Raise (ValueError "max() iterable argument is empty")
  | x :: l => Ok (foldr Z.max x l)
  end.

Definition ids_of (l : list Event) : list Z := event_id <$> l.

(** The check three constructors share. *)
Definition check_sizes (max_size keep_first : Z) (msg : string) : result unit :=
  if max_size / 2 <=? keep_first then
    Raise (ValueError ("keep_first (" +:+ pretty keep_first +:+
      ") must be less than half of max_size (" +:+ pretty max_size +:+ ")"))
  else if keep_first <? 0 then
    Raise (ValueError ("keep_first (" +:+ pretty keep_first +:+ ") cannot be negative"))
  else if max_size <? 1 then Raise (ValueError msg)
  else Ok tt.

(** [len(view) > self.max_size or view.unhandled_condensation_request] *)
Definition over_size (max_size : Z) (v : View) : bool :=
  (max_size <? py_len (view_events v)) || unhandled_condensation_request v.

(** ** No-op *)

Record NoOpCondenser := mkNoOpCondenser {}.
#[export] Instance noop_condenser : Condenser NoOpCondenser := λ _ v, pret (CView v).

(** ** Recent events *)

Record RecentEventsCondenser := mkRecentEventsCondenser {
  rec_keep_first : Z;
  rec_max_events : Z;
}.

Definition recent_condense (c : RecentEventsCondenser) (v : View) : pyM dict Condensed :=
  let events := view_events v in
  let head := py_slice None (Some (rec_keep_first c)) events in
  let tail_length := Z.max 0 (rec_max_events c - py_len head) in
  let tail := py_slice (Some (- tail_length)) None events in
  pret (CView (plain_view (head ++ tail))).
#[export] Instance recent_condenser : Condenser RecentEventsCondenser := recent_condense.

(** ** Observation masking *)

Record ObservationMaskingCondenser := mkObservationMaskingCondenser {
  omc_attention_window : Z;
}.

Definition masked : Event := new_obs "<MASKED>" OAgentCondensation.

Definition masking_condense (c : ObservationMaskingCondenser) (v : View) : pyM dict Condensed :=
  let n := py_len (view_events v) in
  pret (CView (plain_view
    ((λ '(i, e), if is_observation e && (i <? n - omc_attention_window c) then masked else e)
       <$> enumerate (view_events v)))).
#[export] Instance masking_condenser : Condenser ObservationMaskingCondenser := masking_condense.

(** ** Browser output *)

Record BrowserOutputCondenser := mkBrowserOutputCondenser {
  boc_attention_window : Z;
}.

Definition browser_output (e : Event) : option BrowserOutputObservation :=
  match ev_body e with
  | EObservation o => match obs_kind o with OBrowserOutput b => Some b | _ => None end
  | EAction _ => None
  end.

Definition browser_stub (b : BrowserOutputObservation) : Event :=
  new_obs ("Visited URL " +:+ boo_url b +:+ nl +:+ "Content omitted") OAgentCondensation.

(** The loop over the reversed view; [cnt] browser outputs were kept so far. *)
Fixpoint browser_loop (window cnt : Z) (rev_events : list Event) : list Event :=
  match rev_events with
  | [] => []
  | e :: l =>
      match browser_output e with
      | Some b => if window <=? cnt then browser_stub b :: browser_loop window cnt l
                  else e :: browser_loop window (cnt + 1) l
      | None => e :: browser_loop window cnt l
      end
  end.

Definition browser_condense (c : BrowserOutputCondenser) (v : View) : pyM dict Condensed :=
  pret (CView (plain_view
    (reverse (browser_loop (boc_attention_window c) 0 (reverse (view_events v)))))).
#[export] Instance browser_condenser : Condenser BrowserOutputCondenser := browser_condense.

(** ** Amortized forgetting *)

Record AmortizedForgettingCondenser := mkAmortizedForgettingCondenser {
  afc_max_size : Z;
  afc_keep_first : Z;
}.

Definition new_AmortizedForgettingCondenser (max_size keep_first : Z) :
    result AmortizedForgettingCondenser :=
  let? _ := check_sizes max_size keep_first
    ("max_size (" +:+ pretty keep_first +:+ ") cannot be non-positive") in
  Ok (mkAmortizedForgettingCondenser max_size keep_first).

Definition amortized_get_condensation (c : AmortizedForgettingCondenser) (v : View) :
    pyM dict CondensationAction :=
  let events := view_events v in
  let target_size := afc_max_size c / 2 in
  let head := py_slice None (Some (afc_keep_first c)) events in
  let events_from_tail := target_size - py_len head in
  let tail := py_slice (Some (- events_from_tail)) None events in
  let event_ids_to_keep : gset Z := list_to_set (ids_of (head ++ tail)) in
  let event_ids_to_forget : gset Z := list_to_set (ids_of events) ∖ event_ids_to_keep in
  let* lo := plift (py_min (elements event_ids_to_forget)) in
  let* hi := plift (py_max (elements event_ids_to_forget)) in
  plift (new_CondensationAction None (Some lo) (Some hi) None None).

#[export] Instance amortized_rolling : RollingCondenser AmortizedForgettingCondenser :=
  {| should_condense := λ c v, over_size (afc_max_size c) v;
     get_condensation := amortized_get_condensation |}.

(** ** LLM summaries *)

(** [llm previous events] is the completion: [previous] is the truncated
    message of the previous summary and [events] the ids and truncated texts of
    the events being forgotten, the variable parts of the prompt. *)
Record LLMSummarizingCondenser := mkLLMSummarizingCondenser {
  lsc_llm : string → list (Z * string) → result LLMReply;
  lsc_event_str : Event → string;
  lsc_max_size : Z;
  lsc_keep_first : Z;
  lsc_max_event_length : Z;
}.

Definition new_LLMSummarizingCondenser llm event_str (max_size keep_first max_event_length : Z) :
    result LLMSummarizingCondenser :=
  let? _ := check_sizes max_size keep_first
    ("max_size (" +:+ pretty max_size +:+ ") cannot be non-positive") in
  Ok (mkLLMSummarizingCondenser llm event_str max_size keep_first max_event_length).

(** The previous summary: [view[keep_first]] raises on a short view. *)
Definition summary_event (keep_first : Z) (events : list Event) : result Event :=
  match py_get events keep_first with
  | None => Raise IndexError
  | Some e => Ok (if is_agent_condensation e then e
                  else new_obs "No events summarized" OAgentCondensation)
  end.

Definition summary_forgotten (keep_first events_from_tail : Z) (events : list Event) :
    list Event :=
  py_filter (λ e, negb (is_agent_condensation e))
    (py_slice (Some keep_first) (Some (- events_from_tail)) events).

Definition observation_text (e : Event) : string :=
  match ev_body e with EObservation o => observation_message o | EAction _ => "" end.

Definition llm_summarizing_get_condensation (c : LLMSummarizingCondenser) (v : View) :
    pyM dict CondensationAction :=
  let events := view_events v in
  let head := py_slice None (Some (lsc_keep_first c)) events in
  let target_size := lsc_max_size c / 2 in
  let events_from_tail := target_size - py_len head - 1 in
  let* previous := plift (summary_event (lsc_keep_first c) events) in
  let forgotten_events := summary_forgotten (lsc_keep_first c) events_from_tail events in
  let truncate := truncate_content (Some (lsc_max_event_length c)) in
  let* response := plift (lsc_llm c (truncate (observation_text previous))
    ((λ e, (event_id e, truncate (lsc_event_str c e))) <$> forgotten_events)) in
  add_metadata "response" (reply_dump response) ;;;
  add_metadata "metrics" (reply_metrics response) ;;;
  let* lo := plift (py_min (ids_of forgotten_events)) in
  let* hi := plift (py_max (ids_of forgotten_events)) in
  plift (new_CondensationAction None (Some lo) (Some hi) (Some (reply_content response))
           (Some (lsc_keep_first c))).

#[export] Instance llm_summarizing_rolling : RollingCondenser LLMSummarizingCondenser :=
  {| should_condense := λ c v, over_size (lsc_max_size c) v;
     get_condensation := llm_summarizing_get_condensation |}.

(** ** Structured summaries *)

Record StateSummary := mkStateSummary {
  user_context : string; completed_tasks : string; pending_tasks : string;
  current_state : string; files_modified : string; function_changes : string;
  data_structures : string; tests_written : string; tests_passing : string;
  failing_tests : string; error_messages : string; branch_created : string;
  branch_name : string; commits_made : string; pr_created : string; pr_status : string;
  dependencies : string; other_relevant_context : string;
}.

Definition empty_summary : StateSummary :=
  mkStateSummary "" "" "" "" "" "" "" "" "" "" "" "" "" "" "" "" "" "".

(** [StateSummary.model_validate]: a missing field has its default, one that is
    not a string is a validation error, unknown keys are ignored. *)
Definition summary_field (d : dict) (k : string) : result string :=
  match dget k d with
  | None => Ok ""
  | Some (JStr s) => Ok s
  | Some _ => Raise (ValueError "validation error for StateSummary")
  end.
Definition summary_validate (j : json) : result StateSummary :=
  match j with
  | JDict d =>
      let f := summary_field d in
      let? a1 := f "user_context" in let? a2 := f "completed_tasks" in
      let? a3 := f "pending_tasks" in let? a4 := f "current_state" in
      let? a5 := f "files_modified" in let? a6 := f "function_changes" in
      let? a7 := f "data_structures" in let? a8 := f "tests_written" in
      let? a9 := f "tests_passing" in let? a10 := f "failing_tests" in
      let? a11 := f "error_messages" in let? a12 := f "branch_created" in
      let? a13 := f "branch_name" in let? a14 := f "commits_made" in
      let? a15 := f "pr_created" in let? a16 := f "pr_status" in
      let? a17 := f "dependencies" in let? a18 := f "other_relevant_context" in
      Ok (mkStateSummary a1 a2 a3 a4 a5 a6 a7 a8 a9 a10 a11 a12 a13 a14 a15 a16 a17 a18)
  | _ => Raise (ValueError "validation error for StateSummary")
  end.

(** [StateSummary.__str__] *)
Definition summary_str (s : StateSummary) : string :=
  str_join (nl +:+ nl)
    ["# State Summary";
     "## Core Information";
     "**User Context**: " +:+ user_context s;
     "**Completed Tasks**: " +:+ completed_tasks s;
     "**Pending Tasks**: " +:+ pending_tasks s;
     "**Current State**: " +:+ current_state s;
     "## Code Changes";
     "**Files Modified**: " +:+ files_modified s;
     "**Function Changes**: " +:+ function_changes s;
     "**Data Structures**: " +:+ data_structures s;
     "**Dependencies**: " +:+ dependencies s;
     "## Testing Status";
     "**Tests Written**: " +:+ tests_written s;
     "**Tests Passing**: " +:+ tests_passing s;
     "**Failing Tests**: " +:+ failing_tests s;
     "**Error Messages**: " +:+ error_messages s;
     "## Version Control";
     "**Branch Created**: " +:+ branch_created s;
     "**Branch Name**: " +:+ branch_name s;
     "**Commits Made**: " +:+ commits_made s;
     "**PR Created**: " +:+ pr_created s;
     "**PR Status**: " +:+ pr_status s;
     "## Additional Context";
     "**Other Relevant Context**: " +:+ other_relevant_context s].

Record StructuredSummaryCondenser := mkStructuredSummaryCondenser {
  ssc_llm : string → list (Z * string) → result LLMReply;
  ssc_json_loads : string → result json;
  ssc_event_str : Event → string;
  ssc_max_size : Z;
  ssc_keep_first : Z;
  ssc_max_event_length : Z;
}.

Definition new_StructuredSummaryCondenser llm loads event_str (function_calling : bool)
    (max_size keep_first max_event_length : Z) : result StructuredSummaryCondenser :=
  let? _ := check_sizes max_size keep_first
    ("max_size (" +:+ pretty max_size +:+ ") cannot be non-positive") in
  if function_calling
  then Ok (mkStructuredSummaryCondenser llm loads event_str max_size keep_first max_event_length)
  else Raise (ValueError "LLM must support function calling to use StructuredSummaryCondenser").

(** The summary of the first [create_state_summary] call; the empty one when there
    is none or its arguments do not parse as a summary. *)
Definition parse_summary (c : StructuredSummaryCondenser) (r : LLMReply) : StateSummary :=
  match py_find (λ t, bool_decide (t.1 = "create_state_summary")) (reply_tool_calls r) with
  | None => empty_summary
  | Some (_, args) =>
      match rbind (ssc_json_loads c args) summary_validate with
      | Ok s => s
      | Raise _ => empty_summary
      end
  end.

Definition structured_summary_get_condensation (c : StructuredSummaryCondenser) (v : View) :
    pyM dict CondensationAction :=
  let events := view_events v in
  let head := py_slice None (Some (ssc_keep_first c)) events in
  let target_size := ssc_max_size c / 2 in
  let events_from_tail := target_size - py_len head - 1 in
  let* previous := plift (summary_event (ssc_keep_first c) events) in
  let forgotten_events := summary_forgotten (ssc_keep_first c) events_from_tail events in
  let truncate := truncate_content (Some (ssc_max_event_length c)) in
  let* response := plift (ssc_llm c (truncate (observation_text previous))
    ((λ e, (event_id e, truncate (ssc_event_str c e))) <$> forgotten_events)) in
  let summary := parse_summary c response in
  add_metadata "response" (reply_dump response) ;;;
  add_metadata "metrics" (reply_metrics response) ;;;
  let* lo := plift (py_min (ids_of forgotten_events)) in
  let* hi := plift (py_max (ids_of forgotten_events)) in
  plift (new_CondensationAction None (Some lo) (Some hi) (Some (summary_str summary))
           (Some (ssc_keep_first c))).

#[export] Instance structured_summary_rolling : RollingCondenser StructuredSummaryCondenser :=
  {| should_condense := λ c v, over_size (ssc_max_size c) v;
     get_condensation := structured_summary_get_condensation |}.

(** ** LLM attention *)

(** [llm events] is the completion for the ids and messages of the view's events;
    [ids] is [ImportantEventSelection.model_validate_json(content).ids]. *)
Record LLMAttentionCondenser := mkLLMAttentionCondenser {
  lac_llm : list Event → result LLMReply;
  lac_ids : string → result (list Z);
  lac_max_size : Z;
  lac_keep_first : Z;
}.

Definition new_LLMAttentionCondenser llm ids (supports_response_schema : bool)
    (max_size keep_first : Z) : result LLMAttentionCondenser :=
  let? _ := check_sizes max_size keep_first
    ("max_size (" +:+ pretty keep_first +:+ ") cannot be non-positive") in
  if supports_response_schema then Ok (mkLLMAttentionCondenser llm ids max_size keep_first)
  else Raise (ValueError "The LLM model must support the 'response_schema' parameter to use the LLMAttentionCondenser.").

Definition zmem (z : Z) (l : list Z) : bool := bool_decide (z ∈ l).

(** The loop that tops the selection up from the end of the view. *)
Fixpoint attention_fill (n : Z) (response_ids : list Z) (rev_events : list Event) : list Z :=
  match rev_events with
  | [] => response_ids
  | e :: l =>
      if n <=? py_len response_ids then response_ids
      else attention_fill n
             (if zmem (event_id e) response_ids then response_ids
              else response_ids ++ [event_id e]) l
  end.

Definition attention_get_condensation (c : LLMAttentionCondenser) (v : View) :
    pyM dict CondensationAction :=
  let events := view_events v in
  let target_size := lac_max_size c / 2 in
  let head_event_ids := ids_of (py_slice None (Some (lac_keep_first c)) events) in
  let events_from_tail := target_size - py_len head_event_ids in
  let* response := plift (lac_llm c events) in
  let* ids := plift (lac_ids c (reply_content response)) in
  add_metadata "metrics" (reply_metrics response) ;;;
  let response_ids :=
    py_slice None (Some events_from_tail)
      (py_filter (λ i, negb (zmem i head_event_ids)) ids) in
  let response_ids := attention_fill events_from_tail response_ids (reverse events) in
  plift (new_CondensationAction
    (Some (py_filter (λ i, negb (zmem i response_ids) && negb (zmem i head_event_ids))
             (ids_of events)))
    None None None None).

#[export] Instance attention_rolling : RollingCondenser LLMAttentionCondenser :=
  {| should_condense := λ c v, over_size (lac_max_size c) v;
     get_condensation := attention_get_condensation |}.

(** ** Conversation window *)

Record ConversationWindowCondenser := mkConversationWindowCondenser {}.

Definition is_system_message (e : Event) : bool :=
  match ev_body e with EAction (ASystemMessage _) => true | _ => false end.
Definition recall_query (e : Event) : option string :=
  match ev_body e with EAction (ARecall r) => Some (ra_query r) | _ => None end.

(** The events after the first user message. *)
Fixpoint after_first_user (events : list Event) : list Event :=
  match events with
  | [] => []
  | e :: l => if is_user_message e then l else after_first_user l
  end.

(** The recall action for [content] and the observation it caused. *)
Fixpoint find_recall (content : string) (events : list Event) : option (Event * option Event) :=
  match events with
  | [] => None
  | e :: l =>
      if bool_decide (recall_query e = Some content)
      then Some (e, py_find (λ o, is_observation o &&
                                  bool_decide (event_cause o = Some (event_id e))) l)
      else find_recall content l
  end.

Definition essential_events (events : list Event) (first_user_msg : Event) : list Z :=
  let system := py_find is_system_message events in
  let recall := find_recall (message_content first_user_msg) (after_first_user events) in
  option_list (event_id <$> system) ++ [event_id first_user_msg] ++
  match recall with
  | None => []
  | Some (a, o) => event_id a :: option_list (event_id <$> o)
  end.

(** Number of observations at the start of a list. *)
Fixpoint leading_observations (l : list Event) : Z :=
  match l with
  | [] => 0
  | e :: l => if is_observation e then 1 + leading_observations l else 0
  end.

Definition first_valid_index (events : list Event) (num_essential : Z) : Z :=
  let total := py_len events in
  let num_recent_to_keep := Z.max 1 ((total - num_essential) / 2) in
  let slice_start := Z.max 0 (total - num_recent_to_keep) in
  slice_start + leading_observations (py_slice (Some slice_start) None events).

(** The sorted list of ids to forget, as a range when it is contiguous. *)
Definition window_action (forgotten_ids : list Z) : result CondensationAction :=
  match forgotten_ids, last forgotten_ids with
  | lo :: _ :: _, Some hi =>
      if hi - lo =? py_len forgotten_ids - 1
      then new_CondensationAction None (Some lo) (Some hi) None None
      else new_CondensationAction (Some forgotten_ids) None None None None
  | _, _ => new_CondensationAction (Some forgotten_ids) None None None None
  end.

Definition window_get_condensation (c : ConversationWindowCondenser) (v : View) :
    pyM dict CondensationAction :=
  let events := view_events v in
  match py_find is_user_message events with
  | None => plift (new_CondensationAction (Some []) None None None None)
  | Some first_user_msg =>
      let essential := essential_events events first_user_msg in
      let first_valid := first_valid_index events (py_len essential) in
      let events_to_keep : gset Z :=
        list_to_set essential ∪ list_to_set (ids_of (py_slice (Some first_valid) None events)) in
      let all_event_ids : gset Z := list_to_set (ids_of events) in
      plift (window_action (merge_sort Z.le (elements (all_event_ids ∖ events_to_keep))))
  end.

#[export] Instance window_rolling : RollingCondenser ConversationWindowCondenser :=
  {| should_condense := λ _ v, unhandled_condensation_request v;
     get_condensation := window_get_condensation |}.

(** ** Pipelines *)

(** A condenser of any class. *)
Record AnyCondenser := mkAnyCondenser { any_condense : View → pyM dict Condensed }.
Definition any `{Condenser C} (c : C) : AnyCondenser := mkAnyCondenser (condense c).

(** [CondenserPipeline.condense]; the state is the batch of each member. *)
Fixpoint pipeline_condense (cs : list AnyCondenser) (v : View) : pyM (list dict) Condensed :=
  λ batches,
  match cs, batches with
  | c :: cs, b :: bs =>
      match any_condense c v b with
      | (b, Raise e) => (b :: bs, Raise e)
      | (b, Ok (CCondensation a)) => (b :: bs, Ok (CCondensation a))
      | (b, Ok (CView v)) => let '(bs, r) := pipeline_condense cs v bs in (b :: bs, r)
      end
  | _, _ => (batches, Ok (CView v))
  end.

(** [CondenserPipeline.metadata_batch]: the members' batches, in order. *)
Fixpoint write_batches (batches : list dict) (extra : dict) : list dict * dict * result unit :=
  match batches with
  | [] => ([], extra, Ok tt)
  | b :: bs =>
      match write_metadata b extra with
      | Ok extra => let '(bs, extra, r) := write_batches bs extra in ([] :: bs, extra, r)
      | Raise e => (b :: bs, extra, Raise e)
      end
  end.

Definition pipeline_history (cs : list AnyCondenser) (view : result View) :
    pyM (list dict * dict) Condensed := λ '(batches, extra),
  let '(batches, r) := match view with
                       | Ok v => pipeline_condense cs v batches
                       | Raise e => (batches, Raise e)
                       end in
  match write_batches batches extra with
  | (batches, extra, Ok _) => ((batches, extra), r)
  | (batches, extra, Raise e) => ((batches, extra), Raise e)
  end.
