(* ===== verification/CondenserProps.v ===== *)
(** * Properties of the condensers

    Each rolling strategy is related to [View.from_events]: the condensation it
    returns, once appended to the history, yields the view the strategy aims at.
    The view-to-view strategies are characterised directly. *)

From S2P Require Import Prelude PyValue Schema Actions Observations Events View Condensers.
From stdpp Require Import sorting.
Local Open Scope Z_scope.

(** ** Shared lemmas *)


Lemma foldr_min_spec x l :
  (foldr Z.min x l = x ∨ foldr Z.min x l ∈ l)
  ∧ foldr Z.min x l ≤ x ∧ ∀ y, y ∈ l → foldr Z.min x l ≤ y.
Proof.
  induction l as [|z l (H1 & H2 & H3)]; simpl; [split_and!; [by left|lia|set_solver]|].
  split_and!.
  - destruct (Z.min_spec z (foldr Z.min x l)) as [[_ ->]|[_ ->]]; [right; left|].
    destruct H1 as [->|?]; [by left|right; by right].
  - lia.
  - intros y [->|Hy]%elem_of_cons; [lia|]. specialize (H3 y Hy). lia.
Qed.

Lemma foldr_max_spec x l :
  (foldr Z.max x l = x ∨ foldr Z.max x l ∈ l)
  ∧ x ≤ foldr Z.max x l ∧ ∀ y, y ∈ l → y ≤ foldr Z.max x l.
Proof.
  induction l as [|z l (H1 & H2 & H3)]; simpl; [split_and!; [by left|lia|set_solver]|].
  split_and!.
  - destruct (Z.max_spec z (foldr Z.max x l)) as [[_ ->]|[_ ->]]; [|right; left].
    destruct H1 as [->|?]; [by left|right; by right].
  - lia.
  - intros y [->|Hy]%elem_of_cons; [lia|]. specialize (H3 y Hy). lia.
Qed.

Lemma py_min_spec l :
  l ≠ [] → ∃ m, py_min l = Ok m ∧ m ∈ l ∧ ∀ y, y ∈ l → m ≤ y.
Proof.
  destruct l as [|x l]; [done|]. intros _. simpl. eexists. split; [done|].
  destruct (foldr_min_spec x l) as (H1 & H2 & H3). split.
  - rewrite elem_of_cons. destruct H1; auto.
  - intros y [->|?]%elem_of_cons; auto.
Qed.

Lemma py_max_spec l :
  l ≠ [] → ∃ m, py_max l = Ok m ∧ m ∈ l ∧ ∀ y, y ∈ l → y ≤ m.
Proof.
  destruct l as [|x l]; [done|]. intros _. simpl. eexists. split; [done|].
  destruct (foldr_max_spec x l) as (H1 & H2 & H3). split.
  - rewrite elem_of_cons. destruct H1; auto.
  - intros y [->|?]%elem_of_cons; auto.
Qed.

Lemma ids_of_app l k : ids_of (l ++ k) = ids_of l ++ ids_of k.
Proof. apply fmap_app. Qed.

Lemma elem_of_ids_of i l : i ∈ ids_of l ↔ ∃ e, i = event_id e ∧ e ∈ l.
Proof. apply list_elem_of_fmap. Qed.

Lemma ids_of_elem e l : e ∈ l → event_id e ∈ ids_of l.
Proof. intros. apply elem_of_ids_of. eauto. Qed.

Lemma elem_of_py_range x a b : x ∈ py_range a b ↔ a ≤ x < b.
Proof. unfold py_range. rewrite elem_of_seqZ. lia. Qed.

Lemma increasing_nodup l : increasing l → NoDup (ids_of l).
Proof.
  unfold increasing, ids_of. induction (event_id <$> l) as [|x k IH]; [by constructor|].
  inversion_clear 1 as [|?? Hs Hf]. constructor; [|by auto].
  intros Hx. rewrite Forall_forall in Hf. specialize (Hf x Hx). lia.
Qed.

(** A range condensation removes exactly the middle of an increasing list. *)
Lemma kept_range_middle A B C lo hi :
  increasing (A ++ B ++ C) →
  lo ∈ ids_of B → hi ∈ ids_of B →
  (∀ i, i ∈ ids_of B → lo ≤ i ≤ hi) →
  kept (list_to_set (py_range lo (hi + 1))) (A ++ B ++ C) = A ++ C.
Proof.
  intros (HA & (HB & HC & HBC)%increasing_app & HABC)%increasing_app
    (el & -> & Hel)%elem_of_ids_of (eh & -> & Heh)%elem_of_ids_of Hr.
  rewrite !kept_app. unfold kept.
  assert (Hin : ∀ e : Event, event_id e ∈ (list_to_set (py_range (event_id el) (event_id eh + 1))
                         : gset Z) ↔ event_id el ≤ event_id e ≤ event_id eh).
  { intros e. rewrite elem_of_list_to_set, elem_of_py_range. lia. }
  rewrite (py_filter_all _ A), (py_filter_none _ B), (py_filter_all _ C); [done|..].
  - intros e He. rewrite bool_decide_eq_false_2; [done|]. rewrite Hin.
    pose proof (HBC eh e Heh He). lia.
  - intros e He. rewrite bool_decide_eq_true_2; [done|]. rewrite Hin.
    by apply Hr, ids_of_elem.
  - intros e He. rewrite bool_decide_eq_false_2; [done|]. rewrite Hin.
    pose proof (HABC e el He ltac:(set_solver)). lia.
Qed.

Lemma kept_fresh i l : i ∉ ids_of l → kept {[i]} l = l.
Proof.
  intros H. apply py_filter_all. intros e He. apply negb_true_iff, bool_decide_eq_false.
  rewrite elem_of_singleton. intros <-. by apply H, ids_of_elem.
Qed.

Lemma check_sizes_ok m k msg :
  check_sizes m k msg = Ok tt ↔ 0 ≤ k < m / 2.
Proof.
  unfold check_sizes.
  destruct (m / 2 <=? k) eqn:E1; [split; [done|lia]|].
  destruct (k <? 0) eqn:E2; [split; [done|lia]|].
  destruct (m <? 1) eqn:E3; [|split; [lia|done]].
  split; [done|]. assert (m / 2 ≤ 0); [|lia].
  apply Z.div_le_upper_bound; lia.
Qed.

Lemma half_le m : 0 < m / 2 → m / 2 ≤ m.
Proof. pose proof (Z.div_mod m 2) as H. pose proof (Z.mod_pos_bound m 2). lia. Qed.

(** A list cut into the first [h], the last [t] and what lies between. *)
Lemma split_three {A} (l : list A) (h t : nat) :
  (h + t ≤ length l)%nat →
  l = take h l ++ drop h (take (length l - t) l) ++ drop (length l - t) l.
Proof.
  intros H. rewrite (assoc_L (++)).
  replace (take h l) with (take h (take (length l - t) l)).
  - by rewrite take_drop, take_drop.
  - rewrite take_take. f_equal. lia.
Qed.

(** A range condensation over the middle of the kept events, once in the history. *)
Lemma kept_after_range (h : list Event) (fs : gset Z) (hd tl : nat) lo hi i :
  let K := kept fs h in
  let B := drop hd (take (length K - tl) K) in
  increasing h → i ∉ ids_of h → (hd + tl ≤ length K)%nat →
  lo ∈ ids_of B → hi ∈ ids_of B → (∀ j, j ∈ ids_of B → lo ≤ j ≤ hi) →
  kept (fs ∪ (list_to_set (py_range lo (hi + 1)) ∪ {[i]})) h
  = take hd K ++ drop (length K - tl) K.
Proof.
  intros K B Hinc Hfresh Hlen Hlo Hhi Hr.
  assert (HK : increasing K) by by apply increasing_filter.
  rewrite kept_union, kept_union. fold K.
  rewrite (split_three K hd tl) at 1 by lia. rewrite (split_three K hd tl) in HK by lia.
  rewrite (kept_range_middle _ _ _ lo hi HK Hlo Hhi Hr). apply kept_fresh.
  intros (e & He & Hin)%elem_of_ids_of. apply Hfresh. rewrite He. apply ids_of_elem.
  assert (e ∈ K) as HeK.
  { apply elem_of_app in Hin as [Hin|Hin];
      [by apply elem_of_take_in in Hin|by apply elem_of_drop_in in Hin]. }
  by apply elem_of_kept in HeK as [? _].
Qed.

(** ** Amortized forgetting *)

Section amortized.
Variables (max_size keep_first : Z) (c : AmortizedForgettingCondenser).
Hypothesis Hc : new_AmortizedForgettingCondenser max_size keep_first = Ok c.

Lemma amortized_fields : c = mkAmortizedForgettingCondenser max_size keep_first
  ∧ 0 ≤ keep_first < max_size / 2.
Proof using Hc.
  revert Hc. unfold new_AmortizedForgettingCondenser.
  destruct (check_sizes _ _ _) as [[]|] eqn:E; simpl; [|done].
  intros [= <-]. by apply check_sizes_ok in E.
Qed.

Let kf := Z.to_nat keep_first.
Let tl := Z.to_nat (max_size / 2 - keep_first).

Lemma amortized_condensation (v : View) :
  increasing (view_events v) → max_size / 2 < py_len (view_events v) →
  let l := view_events v in
  let B := drop kf (take (length l - tl) l) in
  ∃ lo hi, (∀ b, amortized_get_condensation c v b
             = (b, Ok (mkCondensationAction None (Some lo) (Some hi) None None)))
         ∧ lo ∈ ids_of B ∧ hi ∈ ids_of B ∧ (∀ i, i ∈ ids_of B → lo ≤ i ≤ hi).
Proof using Hc.
  destruct amortized_fields as [-> Hk]. intros Hinc Hlen l B.
  unfold py_len in Hlen. fold l in Hlen, Hinc.
  assert (Hkl : (kf + tl < length l)%nat) by (unfold kf, tl; lia).
  assert (Hsplit : l = take kf l ++ B ++ drop (length l - tl) l)
    by (unfold B; apply split_three; lia).
  assert (Hhead : py_slice None (Some keep_first) l = take kf l).
  { rewrite <- py_slice_to. f_equal. unfold kf. f_equal. lia. }
  unfold amortized_get_condensation. cbn [afc_max_size afc_keep_first]. fold l. unfold pbind, plift.
  rewrite Hhead. unfold py_len. rewrite length_take, Nat.min_l by lia.
  replace (- (max_size / 2 - Z.of_nat kf)) with (- Z.of_nat tl) by (unfold kf, tl; lia).
  rewrite py_slice_last by (unfold tl; lia).
  set (S := list_to_set (ids_of l) ∖ list_to_set _ : gset Z).
  assert (HS : ∀ i, i ∈ elements S ↔ i ∈ ids_of B).
  { intros i. rewrite elem_of_elements. unfold S.
    rewrite elem_of_difference, !elem_of_list_to_set.
    pose proof (increasing_nodup l Hinc) as Hnd. rewrite Hsplit in Hnd |- * at 1.
    rewrite !ids_of_app in *. rewrite !NoDup_app in Hnd. set_solver. }
  assert (HB : B ≠ []).
  { intros HB. apply (f_equal length) in Hsplit. rewrite HB in Hsplit.
    rewrite !length_app, length_take, length_drop in Hsplit. simpl in Hsplit. lia. }
  assert (HSne : elements S ≠ []).
  { destruct B as [|b B']; [done|]. intros HE.
    assert (event_id b ∈ elements S) as Hb by (apply HS; left).
    rewrite HE in Hb. by apply not_elem_of_nil in Hb. }
  destruct (py_min_spec _ HSne) as (lo & -> & Hlo & Hlo').
  destruct (py_max_spec _ HSne) as (hi & -> & Hhi & Hhi').
  exists lo, hi. split; [done|]. split; [by apply HS|]. split; [by apply HS|].
  intros i Hi%HS. auto.
Qed.

(** The amortized condenser halves the view: for a history with increasing
    ids and no summaries, if the condenser fires because its view is larger than
    [max_size], then appending the condensation it returns to the history yields
    a view made of the first [keep_first] events and the last ones, of exactly
    [max_size // 2] events, on which the condenser does not fire again. *)
Theorem amortized_halves (h : list Event) (v : View) (meta : EventMeta) (i : Z) :
  from_events h = Ok v → increasing h → last_summary (reverse h) = None →
  m_id meta = Some i → i ∉ ids_of h →
  max_size < py_len (view_events v) →
  let l := view_events v in
  ∃ a v', (∀ b, get_condensation c v b = (b, Ok a))
    ∧ from_events (h ++ [mkEvent meta (EAction (ACondensation a))]) = Ok v'
    ∧ view_events v' = take kf l ++ drop (length l - tl) l
    ∧ py_len (view_events v') = max_size / 2
    ∧ should_condense c v' = false.
Proof using Hc.
  intros Hv Hinc Hsum Hi Hfresh Hlen l. destruct amortized_fields as [Hcf Hk].
  pose proof (from_events_inv _ _ Hv) as (_ & Hve & _). rewrite Hsum in Hve. simpl in Hve.
  assert (Hl : increasing l) by (unfold l; rewrite Hve; by apply increasing_filter).
  destruct (amortized_condensation v Hl) as (lo & hi & Ha & Hlo & Hhi & Hr).
  { pose proof (half_le max_size). lia. }
  fold l in Hlo, Hhi, Hr.
  set (a := mkCondensationAction None (Some lo) (Some hi) None None) in *.
  assert (Hfa : forgotten a = Ok (py_range lo (hi + 1))) by done.
  eexists a, _. split; [done|]. split; [exact (from_events_condense _ _ _ _ _ _ Hv Hfa Hi)|].
  cbn [view_events]. unfold event_summary, as_condensation. simpl. rewrite Hsum. simpl.
  assert (Hlen' : (kf + tl ≤ length l)%nat).
  { unfold kf, tl. unfold py_len in Hlen. fold l in Hlen.
    pose proof (half_le max_size). lia. }
  assert (Hview : kept (forgotten_event_ids v ∪ (list_to_set (py_range lo (hi + 1)) ∪ {[i]})) h
                  = take kf l ++ drop (length l - tl) l).
  { unfold l in *. rewrite Hve in *. by apply kept_after_range. }
  rewrite Hview. split; [done|].
  assert (Hn : py_len (take kf l ++ drop (length l - tl) l) = max_size / 2).
  { unfold kf, tl in *. len_lia. }
  split; [done|]. unfold should_condense, amortized_rolling, over_size.
  cbn [view_events unhandled_condensation_request]. rewrite Hn, orb_false_r.
  rewrite Hcf. simpl. apply Z.ltb_ge, half_le. lia.
Qed.
End amortized.

Definition ex_long (n : nat) : list Event :=
  (λ i, ex_msg (Z.of_nat i) AGENT "x") <$> seq 0 n.

Lemma amortized_halves_witness :
  let c := mkAmortizedForgettingCondenser 4 1 in
  ∃ a v', (∀ b, get_condensation c (plain_view (ex_long 6)) b = (b, Ok a))
    ∧ from_events (ex_long 6 ++ [ex_condense 6 a]) = Ok v'
    ∧ view_events v' = [ex_msg 0 AGENT "x"; ex_msg 5 AGENT "x"].
Proof.
  intros c.
  destruct (amortized_halves 4 1 c eq_refl (ex_long 6) (plain_view (ex_long 6))
              (mkEventMeta (Some 6) None (Some AGENT) None None None None None None) 6)
    as (a & v' & Ha & Hv & He & _).
  - reflexivity.
  - unfold increasing. change (ids_of (ex_long 6)) with [0; 1; 2; 3; 4; 5].
    repeat constructor.
  - reflexivity.
  - reflexivity.
  - change (ids_of (ex_long 6)) with [0; 1; 2; 3; 4; 5]. set_solver by lia.
  - reflexivity.
  - exists a, v'. split; [exact Ha|]. split; [exact Hv|]. rewrite He. reflexivity.
Defined.

(** ** Summaries *)

(** What both summarizing strategies do with the view of a history: the events
    they forget are the middle of the kept events, and the previous summary, when
    there is one, is the event at offset [keep_first]. *)
Section summaries.
Variables (max_size keep_first : Z) (h : list Event) (v : View).
Hypothesis Hkf : 0 ≤ keep_first.
Hypothesis Htail : keep_first + 2 ≤ max_size / 2.
Hypothesis Hv : from_events h = Ok v.
Hypothesis Hinc : increasing h.
Hypothesis Hplain : ∀ e, e ∈ h → is_agent_condensation e = false.
Hypothesis Hprev : ∀ s o, last_summary (reverse h) = Some (s, o) → o = keep_first.
Hypothesis Hlong : max_size < py_len (view_events v).

Let kf := Z.to_nat keep_first.
Let tl := Z.to_nat (max_size / 2 - keep_first - 1).
Let K := kept (forgotten_event_ids v) h.
Let middle := drop kf (take (length K - tl) K).

Lemma summary_view :
  (kf + tl < length K)%nat
  ∧ (view_events v = K ∨ ∃ s, view_events v = take kf K ++ new_obs s OAgentCondensation :: drop kf K).
Proof using Hkf Htail Hv Hprev Hlong.
  pose proof (from_events_inv _ _ Hv) as (_ & Hve & _). fold K in Hve.
  pose proof (half_le max_size ltac:(lia)) as Hhalf. unfold py_len in Hlong.
  assert (max_size / 2 * 2 ≤ max_size) by (pose proof (Z.div_mod max_size 2);
    pose proof (Z.mod_pos_bound max_size 2); lia).
  destruct (last_summary (reverse h)) as [[s o]|] eqn:E; simpl in Hve.
  - rewrite (Hprev s o eq_refl) in Hve.
    rewrite Hve, length_py_insert in Hlong. split; [unfold kf, tl; lia|]. right. exists s.
    rewrite Hve. unfold py_insert, py_clamp. rewrite (proj2 (Z.ltb_ge _ _)) by lia.
    unfold py_len. by rewrite Z.min_l by lia.
  - rewrite Hve in Hlong. split; [unfold kf, tl; lia|]. by left.
Qed.

Lemma plain_kept e : e ∈ K → is_agent_condensation e = false.
Proof using Hplain. intros [? _]%elem_of_kept. auto. Qed.

Lemma summary_forgotten_middle :
  summary_forgotten keep_first (max_size / 2 - py_len (py_slice None (Some keep_first)
    (view_events v)) - 1) (view_events v) = middle.
Proof using Hkf Htail Hv Hplain Hprev Hlong.
  destruct summary_view as [Hlen Hview].
  assert (Hn : (length K ≤ length (view_events v))%nat).
  { destruct Hview as [->|[s ->]]; [done|]. rewrite length_app. simpl.
    rewrite length_take, length_drop. lia. }
  replace (Some keep_first) with (Some (Z.of_nat kf)) by (unfold kf; f_equal; lia).
  rewrite py_slice_to. unfold py_len. rewrite length_take, Nat.min_l by lia.
  unfold summary_forgotten.
  replace (- (max_size / 2 - Z.of_nat kf - 1)) with (- Z.of_nat tl) by (unfold kf, tl; lia).
  assert (Htl : (0 < tl)%nat) by (unfold tl; lia).
  assert (Hs : py_slice (Some keep_first) (Some (- Z.of_nat tl)) (view_events v)
               = drop kf (take (length (view_events v) - tl) (view_events v))).
  { unfold py_slice, py_clamp, py_len. simpl.
    rewrite (proj2 (Z.ltb_lt (- Z.of_nat tl) 0)), (proj2 (Z.ltb_ge keep_first 0)) by lia.
    rewrite Z.min_l by (unfold kf in Hlen; lia).
    rewrite skipn_firstn_comm. f_equal. unfold kf. lia. }
  rewrite Hs. clear Hs. unfold middle. destruct Hview as [->|[s ->]].
  - apply py_filter_all. intros e He. apply negb_true_iff, plain_kept.
    by apply elem_of_drop_in, elem_of_take_in in He.
  - rewrite length_app. simpl. rewrite length_take, length_drop, Nat.min_l by lia.
    rewrite take_app_ge by (rewrite length_take; lia).
    rewrite drop_app_length' by (rewrite length_take; lia).
    rewrite length_take, Nat.min_l by lia.
    replace (kf + S (length K - kf) - tl - kf)%nat with (S (length K - tl - kf)) by lia.
    simpl. rewrite skipn_firstn_comm. apply py_filter_all. intros e He.
    apply negb_true_iff, plain_kept. by apply elem_of_take_in, elem_of_drop_in in He.
Qed.

Lemma middle_ne : middle ≠ [].
Proof using Hkf Htail Hv Hprev Hlong.
  destruct summary_view as [Hlen _]. intros HB. apply (f_equal length) in HB. unfold middle in HB.
  rewrite length_drop, length_take in HB. simpl in HB. lia.
Qed.

Lemma summary_event_ok : ∃ e, summary_event keep_first (view_events v) = Ok e.
Proof using Hkf Htail Hv Hprev Hlong.
  unfold summary_event, py_get. rewrite !(proj2 (Z.ltb_ge keep_first 0)) by lia.
  destruct (lookup_lt_is_Some_2 (view_events v) (Z.to_nat keep_first)) as [e ->]; [|by eauto].
  unfold py_len in Hlong. pose proof (half_le max_size ltac:(lia)). lia.
Qed.

(** The view after a summarizing condensation is appended to the history. *)
Lemma summary_condensed_view meta i lo hi s :
  m_id meta = Some i → i ∉ ids_of h →
  lo ∈ ids_of middle → hi ∈ ids_of middle → (∀ j, j ∈ ids_of middle → lo ≤ j ≤ hi) →
  let a := mkCondensationAction None (Some lo) (Some hi) (Some s) (Some keep_first) in
  ∃ v', from_events (h ++ [mkEvent meta (EAction (ACondensation a))]) = Ok v'
    ∧ view_events v' = take kf K ++ [new_obs s OAgentCondensation] ++ drop (length K - tl) K
    ∧ py_len (view_events v') = max_size / 2
    ∧ unhandled_condensation_request v' = false.
Proof using Hkf Htail Hv Hinc Hprev Hlong.
  intros Hi Hfresh Hlo Hhi Hr a. destruct summary_view as [Hlen _].
  assert (Hfa : forgotten a = Ok (py_range lo (hi + 1))) by done.
  eexists. split; [exact (from_events_condense _ _ _ _ _ _ Hv Hfa Hi)|].
  cbn [view_events unhandled_condensation_request].
  unfold event_summary, as_condensation. simpl.
  rewrite (kept_after_range h _ kf tl lo hi i); [|done|done|fold K; lia|done..]. fold K.
  assert (Hin : py_insert keep_first (new_obs s OAgentCondensation)
                  (take kf K ++ drop (length K - tl) K)
                = take kf K ++ [new_obs s OAgentCondensation] ++ drop (length K - tl) K).
  { unfold py_insert, py_clamp, py_len. rewrite (proj2 (Z.ltb_ge _ _)) by lia.
    rewrite length_app, length_take, length_drop, Nat.min_l by lia.
    rewrite Z.min_l by (unfold kf, tl in *; lia). fold kf.
    rewrite take_app_length', drop_app_length' by (rewrite length_take; lia). done. }
  rewrite Hin. split_and!; [done| |done].
  unfold kf, tl in *. len_lia.
Qed.
End summaries.

Section summarizing.
Variables (c : LLMSummarizingCondenser) (h : list Event) (v : View).
Let max_size := lsc_max_size c.
Let keep_first := lsc_keep_first c.

(** The summarizing condenser replaces the middle of the history by one
    summary.  Let the history have increasing ids, hold no condensation
    observations of its own, and carry no earlier summary except at offset
    [keep_first] (the offset this condenser writes); let the view exceed
    [max_size] and [keep_first + 2 <= max_size // 2].  If the model replies, the
    condenser returns a condensation whose summary is the reply, and appending it
    to the history gives the view: the first [keep_first] kept events, the
    summary, the last kept events; [max_size // 2] events in all, on which the
    condenser does not fire.  The reply and the metrics are recorded as metadata. *)
Theorem llm_summarizing_condenses (meta : EventMeta) (i : Z) (reply : LLMReply) (b : dict) :
  0 ≤ keep_first → keep_first + 2 ≤ max_size / 2 →
  from_events h = Ok v → increasing h →
  (∀ e, e ∈ h → is_agent_condensation e = false) →
  (∀ s o, last_summary (reverse h) = Some (s, o) → o = keep_first) →
  max_size < py_len (view_events v) →
  (∀ p es, lsc_llm c p es = Ok reply) →
  m_id meta = Some i → i ∉ ids_of h →
  let K := kept (forgotten_event_ids v) h in
  let tl := Z.to_nat (max_size / 2 - keep_first - 1) in
  ∃ a v', get_condensation c v b
          = (dset "metrics" (reply_metrics reply) (dset "response" (reply_dump reply) b), Ok a)
    ∧ from_events (h ++ [mkEvent meta (EAction (ACondensation a))]) = Ok v'
    ∧ view_events v' = take (Z.to_nat keep_first) K
        ++ [new_obs (reply_content reply) OAgentCondensation] ++ drop (length K - tl) K
    ∧ py_len (view_events v') = max_size / 2
    ∧ should_condense c v' = false.
Proof.
  intros Hkf Ht Hv Hinc Hpl Hpr Hl Hllm Hi Hfr K tl.
  assert (Hids : ids_of (drop (Z.to_nat keep_first) (take (length K - tl) K)) ≠ []).
  { intros Heq%fmap_nil_inv. by eapply (middle_ne max_size keep_first h v). }
  destruct (py_min_spec _ Hids) as (lo & Hlo1 & Hlo2 & Hlo3).
  destruct (py_max_spec _ Hids) as (hi & Hhi1 & Hhi2 & Hhi3).
  destruct (summary_condensed_view max_size keep_first h v Hkf Ht Hv Hinc Hpr Hl meta i lo hi
              (reply_content reply) Hi Hfr Hlo2 Hhi2 ltac:(auto)) as (v' & Hv' & He & Hn & Hu).
  eexists _, v'. split_and!; [|exact Hv'|exact He|exact Hn|].
  - destruct (summary_event_ok max_size keep_first h v) as [ev Hev]; [done..|].
    unfold get_condensation, llm_summarizing_rolling, llm_summarizing_get_condensation.
    fold keep_first max_size. rewrite Hev, summary_forgotten_middle with (h := h) by done.
    unfold pbind, plift, add_metadata, pmodify. rewrite Hllm. fold K tl.
    by rewrite Hlo1, Hhi1.
  - unfold should_condense, llm_summarizing_rolling, over_size. fold max_size.
    rewrite Hu, Hn, orb_false_r. apply Z.ltb_ge, half_le. lia.
Qed.

(** When [keep_first + 1 = max_size // 2] (accepted by the constructor) no event
    is left for the tail, [view[keep_first:-0]] is empty, and every condensation of
    a view longer than [keep_first] raises [ValueError] after the model was called. *)
Theorem llm_summarizing_no_tail (reply : LLMReply) (b : dict) :
  0 ≤ keep_first → keep_first + 1 = max_size / 2 →
  keep_first < py_len (view_events v) →
  (∀ p es, lsc_llm c p es = Ok reply) →
  get_condensation c v b
  = (dset "metrics" (reply_metrics reply) (dset "response" (reply_dump reply) b),
     Raise (ValueError "min() iterable argument is empty")).
Proof.
  intros Hkf Ht Hl Hllm.
  unfold get_condensation, llm_summarizing_rolling, llm_summarizing_get_condensation.
  fold keep_first max_size.
  assert (Hsl : py_slice None (Some keep_first) (view_events v)
                = take (Z.to_nat keep_first) (view_events v)).
  { rewrite <- py_slice_to. f_equal. f_equal. lia. }
  rewrite Hsl. unfold py_len in *. rewrite length_take, Nat.min_l by lia.
  assert (He : ∃ e, summary_event keep_first (view_events v) = Ok e).
  { unfold summary_event, py_get. rewrite !(proj2 (Z.ltb_ge keep_first 0)) by lia.
    destruct (lookup_lt_is_Some_2 (view_events v) (Z.to_nat keep_first)) as [e ->]; [lia|by eauto]. }
  destruct He as [e ->].
  replace (max_size / 2 - Z.of_nat (Z.to_nat keep_first) - 1) with 0 by lia.
  unfold summary_forgotten, py_slice. simpl. unfold py_clamp.
  rewrite (proj2 (Z.ltb_ge keep_first 0)) by lia. simpl.
  rewrite (Z.min_l 0) by len_lia.
  replace (Z.to_nat (0 - Z.min keep_first (py_len (view_events v)))) with 0%nat
    by len_lia.
  rewrite take_0. unfold pbind, plift. rewrite Hllm. done.
Qed.
End summarizing.

Definition ex_reply : LLMReply := mkLLMReply "sum" [] (JInt 1) (JInt 2).
Definition ex_summarizer (max_size keep_first : Z) : LLMSummarizingCondenser :=
  mkLLMSummarizingCondenser (λ _ _, Ok ex_reply) (λ _, "") max_size keep_first 100.

Lemma ex_long_6 : ids_of (ex_long 6) = [0; 1; 2; 3; 4; 5].
Proof. reflexivity. Qed.
Lemma ex_long_increasing : increasing (ex_long 6).
Proof.
  change (StronglySorted Z.lt (ids_of (ex_long 6))). rewrite ex_long_6. repeat constructor.
Qed.

Lemma llm_summarizing_condenses_witness :
  let c := ex_summarizer 5 0 in
  ∃ a v', get_condensation c (plain_view (ex_long 6)) []
          = ([("response", JInt 1); ("metrics", JInt 2)], Ok a)
    ∧ from_events (ex_long 6 ++ [ex_condense 6 a]) = Ok v'
    ∧ view_events v' = [new_obs "sum" OAgentCondensation; ex_msg 5 AGENT "x"].
Proof.
  intros c.
  destruct (llm_summarizing_condenses c (ex_long 6) (plain_view (ex_long 6))
              (mkEventMeta (Some 6) None (Some AGENT) None None None None None None) 6 ex_reply [])
    as (a & v' & Ha & Hv & He & _).
  - simpl. lia.
  - vm_compute. discriminate.
  - reflexivity.
  - apply ex_long_increasing.
  - apply Forall_forall. repeat constructor.
  - vm_compute. discriminate.
  - reflexivity.
  - reflexivity.
  - reflexivity.
  - rewrite ex_long_6. set_solver by lia.
  - exists a, v'. split; [exact Ha|]. split; [exact Hv|]. rewrite He. reflexivity.
Defined.

Lemma llm_summarizing_no_tail_witness :
  new_LLMSummarizingCondenser (λ _ _, Ok ex_reply) (λ _, "") 4 1 100 = Ok (ex_summarizer 4 1)
  ∧ (get_condensation (ex_summarizer 4 1) (plain_view (ex_long 6)) []).2
    = Raise (ValueError "min() iterable argument is empty").
Proof.
  split; [reflexivity|].
  rewrite (llm_summarizing_no_tail (ex_summarizer 4 1) (plain_view (ex_long 6)) ex_reply []);
    [reflexivity|simpl; lia|reflexivity|reflexivity|reflexivity].
Defined.

(** ** Amortized forgetting on request *)

(** A condensation request on a view that is already at or below half of
    [max_size] makes the amortized condenser raise [ValueError]: it fires because
    of the request, but there is nothing to forget and [min] has no argument. *)
Theorem amortized_request_short (c : AmortizedForgettingCondenser) (v : View) (b : dict) :
  0 ≤ afc_keep_first c → unhandled_condensation_request v = true →
  py_len (view_events v) ≤ afc_max_size c / 2 →
  condense c v b = (b, Raise (ValueError "min() iterable argument is empty")).
Proof.
  intros Hk Hu Hl. unfold condense, rolling_condenser, rolling_condense.
  unfold should_condense, get_condensation, amortized_rolling, over_size.
  rewrite Hu, orb_true_r. unfold amortized_get_condensation.
  set (l := view_events v) in *. set (k := afc_keep_first c) in *.
  rewrite py_slice_to_Z, py_slice_from_clamp by done.
  set (d := Z.to_nat (py_clamp _ _)).
  assert (He : list_to_set (ids_of l) ∖ list_to_set (ids_of (take (Z.to_nat k) l ++ drop d l))
               = (∅ : gset Z)).
  { apply elem_of_equiv_empty_L. intros i [Hi Hn]%elem_of_difference.
    rewrite elem_of_list_to_set in Hi, Hn. apply Hn.
    apply elem_of_ids_of in Hi as (e & -> & Hi). apply ids_of_elem, elem_of_take_drop_overlap; [|done].
    unfold d, py_clamp, py_len in *. rewrite length_take. destruct (Z.ltb_spec
      (- (afc_max_size c / 2 - Z.of_nat (Z.to_nat k `min` length l))) 0); lia. }
  unfold pbind, plift. by rewrite He.
Qed.

Lemma amortized_request_short_witness :
  let c := mkAmortizedForgettingCondenser 12 1 in
  let v := mkView (ex_long 6) true ∅ in
  new_AmortizedForgettingCondenser 12 1 = Ok c
  ∧ condense c v [] = ([], Raise (ValueError "min() iterable argument is empty")).
Proof.
  intros c v. split; [reflexivity|].
  apply (amortized_request_short c v []); [simpl; lia|reflexivity|vm_compute; discriminate].
Defined.

(** ** Recent events *)

Section recent.
Variables (keep_first max_events : Z) (l : list Event).
Hypothesis Hk : 0 ≤ keep_first < max_events.

Lemma recent_result v b :
  view_events v = l → keep_first ≤ py_len l →
  condense (mkRecentEventsCondenser keep_first max_events) v b
  = (b, Ok (CView (plain_view (take (Z.to_nat keep_first) l
      ++ drop (length l - Z.to_nat (max_events - keep_first)) l)))).
Proof using Hk.
  intros Hv Hl. unfold condense, recent_condenser, recent_condense, py_len in *. rewrite Hv.
  simpl rec_keep_first. simpl rec_max_events.
  rewrite py_slice_to_Z, length_take, Nat.min_l, Z2Nat.id, Z.max_r by lia.
  rewrite <- py_slice_last by lia. by rewrite Z2Nat.id by lia.
Qed.

(** On a view of at least [max_events] events the recent-events condenser
    returns exactly [max_events] of them: the first [keep_first] and the most
    recent ones, in view order, none repeated; the metadata is untouched. *)
Theorem recent_keeps (v : View) (b : dict) :
  view_events v = l → max_events ≤ py_len l →
  ∃ v', condense (mkRecentEventsCondenser keep_first max_events) v b = (b, Ok (CView v'))
    ∧ py_len (view_events v') = max_events
    ∧ view_events v' `sublist_of` l
    ∧ take (Z.to_nat keep_first) l `prefix_of` view_events v'
    ∧ drop (length l - Z.to_nat (max_events - keep_first)) l `suffix_of` view_events v'.
Proof using Hk.
  intros Hv Hl. eexists. split; [apply recent_result; [done|lia]|].
  unfold py_len in *. simpl. set (k := Z.to_nat keep_first).
  set (t := Z.to_nat (max_events - keep_first)). split_and!.
  - rewrite length_app, length_take, length_drop. unfold k, t. lia.
  - trans (take k l ++ drop k l); [|by rewrite take_drop]. apply sublist_app; [done|].
    replace (length l - t)%nat with (k + (length l - t - k))%nat by (unfold k, t; lia).
    rewrite <- drop_drop. apply sublist_drop.
  - by eexists.
  - by eexists.
Qed.

(** On a view so short that head and tail overlap, with
    [len(view) + keep_first <= max_events], the first [keep_first] events appear
    twice: the result is the head followed by the whole view, not the view. *)
Theorem recent_duplicates (v : View) (b : dict) :
  view_events v = l → keep_first ≤ py_len l → py_len l + keep_first ≤ max_events →
  condense (mkRecentEventsCondenser keep_first max_events) v b
  = (b, Ok (CView (plain_view (take (Z.to_nat keep_first) l ++ l)))).
Proof using Hk.
  intros Hv Hl Hs. rewrite (recent_result v b) by done. unfold py_len in *.
  replace (length l - _)%nat with 0%nat by lia. done.
Qed.
End recent.

Lemma recent_keeps_witness :
  ∃ v', condense (mkRecentEventsCondenser 1 3) (plain_view (ex_long 6)) [] = ([], Ok (CView v'))
    ∧ ids_of (view_events v') = [0; 4; 5].
Proof.
  destruct (recent_keeps 1 3 (ex_long 6) ltac:(lia) (plain_view (ex_long 6)) [])
    as (v' & H & _); [reflexivity|vm_compute; discriminate|].
  exists v'. split; [exact H|]. vm_compute in H. injection H as <-. reflexivity.
Defined.

Lemma recent_duplicates_witness :
  condense (mkRecentEventsCondenser 1 10) (plain_view (ex_long 2)) []
  = ([], Ok (CView (plain_view [ex_msg 0 AGENT "x"; ex_msg 0 AGENT "x"; ex_msg 1 AGENT "x"]))).
Proof.
  rewrite (recent_duplicates 1 10 (ex_long 2) ltac:(lia) (plain_view (ex_long 2)) []);
    [reflexivity|reflexivity|vm_compute; discriminate|vm_compute; discriminate].
Defined.

(** ** Masking of browser output *)

Definition is_browser (e : Event) : bool :=
  if browser_output e then true else false.

(** How the condenser may change one event. *)
Definition browser_rel (e e' : Event) : Prop :=
  e' = e ∨ ∃ b, browser_output e = Some b ∧ e' = browser_stub b.

Lemma browser_loop_rel w cnt l : Forall2 browser_rel l (browser_loop w cnt l).
Proof.
  revert cnt. induction l as [|e l IH]; intros cnt; simpl; [constructor|].
  destruct (browser_output e) as [b|] eqn:E; [|by constructor; [left|]].
  destruct (w <=? cnt); constructor; [|done| |done].
  - right. by eauto.
  - by left.
Qed.

Lemma browser_loop_count w cnt l :
  0 ≤ cnt →
  py_len (py_filter is_browser (browser_loop w cnt l))
  = Z.min (Z.max 0 (w - cnt)) (py_len (py_filter is_browser l)).
Proof.
  unfold py_len. revert cnt. induction l as [|e l IH]; intros cnt Hc; simpl; [lia|].
  unfold is_browser at 2. destruct (browser_output e) as [b|] eqn:E.
  - destruct (Z.leb_spec w cnt); simpl.
    + rewrite IH by lia. lia.
    + unfold is_browser at 1. rewrite E. simpl. specialize (IH (cnt + 1)). lia.
  - simpl. unfold is_browser at 1. rewrite E. by apply IH.
Qed.

(** Once the window is used up the rest is replaced throughout, and before that
    nothing is. *)
Lemma browser_loop_keep w cnt l k :
  py_len (py_filter is_browser (take k l)) + cnt ≤ w →
  take k (browser_loop w cnt l) = take k l.
Proof.
  unfold py_len. revert cnt k. induction l as [|e l IH]; intros cnt k Hw; [done|].
  destruct k as [|k]; [done|]. simpl in Hw. simpl. unfold is_browser at 1 in Hw.
  destruct (browser_output e) as [b|] eqn:E.
  - simpl in Hw. rewrite (proj2 (Z.leb_gt w cnt)) by lia. simpl. f_equal. apply IH. lia.
  - simpl. f_equal. by apply IH.
Qed.

(** The browser condenser keeps the length and order of the view, changes
    nothing but browser outputs (each into a note of its URL), leaves
    [min(attention_window, number of browser outputs)] of them, and does not
    touch a suffix of the view holding at most [attention_window] of them. *)
Theorem browser_condense_spec (w : Z) (v : View) (b : dict) :
  0 ≤ w →
  let l := view_events v in
  ∃ v', condense (mkBrowserOutputCondenser w) v b = (b, Ok (CView v'))
    ∧ Forall2 browser_rel l (view_events v')
    ∧ py_len (py_filter is_browser (view_events v'))
      = Z.min w (py_len (py_filter is_browser l))
    ∧ ∀ p s, l = p ++ s → py_len (py_filter is_browser s) ≤ w → s `suffix_of` view_events v'.
Proof.
  intros Hw l. eexists. split; [reflexivity|]. simpl. fold l.
  pose proof (browser_loop_count w 0 (reverse l) ltac:(lia)) as Hc.
  pose proof (browser_loop_rel w 0 (reverse l)) as Hr. split_and!.
  - apply Forall2_reverse in Hr. by rewrite reverse_involutive in Hr.
  - unfold py_len in *. rewrite py_filter_reverse, length_reverse, Hc.
    rewrite py_filter_reverse, length_reverse. lia.
  - intros p s Hl Hs. rewrite Hl, reverse_app.
    set (r := browser_loop w 0 (reverse s ++ reverse p)).
    assert (Hk : take (length s) r = reverse s).
    { assert (Ht : take (length s) (reverse s ++ reverse p) = reverse s)
        by (apply take_app_length'; by rewrite length_reverse).
      unfold r. rewrite browser_loop_keep, Ht; [done|]. unfold py_len in *.
      rewrite Ht, py_filter_reverse, length_reverse. lia. }
    exists (reverse (drop (length s) r)).
    rewrite <- (take_drop (length s) r) at 1. rewrite reverse_app, Hk.
    by rewrite reverse_involutive.
Qed.

Definition ex_page (i : Z) (url : string) : Event :=
  set_id (Some i) (new_obs "page" (OBrowserOutput
    (mkBrowserOutputObservation url "" "" None "" false [] [] 0 [] [] [] "" "" "" false))).

Lemma browser_condense_spec_witness :
  ∃ v', condense (mkBrowserOutputCondenser 1)
          (plain_view [ex_page 0 "u"; ex_msg 1 AGENT "x"; ex_page 2 "w"]) [] = ([], Ok (CView v'))
    ∧ view_events v' = [new_obs ("Visited URL u" +:+ nl +:+ "Content omitted") OAgentCondensation;
                        ex_msg 1 AGENT "x"; ex_page 2 "w"].
Proof.
  destruct (browser_condense_spec 1
    (plain_view [ex_page 0 "u"; ex_msg 1 AGENT "x"; ex_page 2 "w"]) [] ltac:(lia))
    as (v' & H & _).
  exists v'. split; [exact H|]. vm_compute in H. injection H as <-. reflexivity.
Defined.

(** ** Attention *)

Lemma zmem_spec z l : zmem z l = true ↔ z ∈ l.
Proof. apply bool_decide_eq_true. Qed.

Lemma attention_fill_spec n resp l :
  py_len resp ≤ n →
  py_len (attention_fill n resp l) ≤ n ∧ resp `prefix_of` attention_fill n resp l.
Proof.
  revert resp. induction l as [|e l IH]; intros resp Hn; simpl; [by split|].
  destruct (Z.leb_spec n (py_len resp)); [by split|].
  destruct (zmem (event_id e) resp); [by apply IH|].
  destruct (IH (resp ++ [event_id e])) as [H1 H2].
  - len_lia.
  - split; [done|]. etrans; [|exact H2]. by eexists.
Qed.

Lemma NoDup_ids_filter f l : NoDup (ids_of l) → NoDup (ids_of (py_filter f l)).
Proof.
  induction l as [|e l IH]; simpl; [done|]. intros [Hin Hnd]%NoDup_cons.
  destruct (f e); simpl; [|by auto]. apply NoDup_cons. split; [|by auto].
  intros (e' & Heq & [_ He']%elem_of_py_filter)%elem_of_ids_of. apply Hin. rewrite Heq.
  by apply ids_of_elem.
Qed.

(** A condensation that lists the ids to forget, once in the history. *)
Lemma kept_after_ids (h : list Event) (fs : gset Z) (f keep : list Z) (i : Z) :
  i ∉ ids_of h →
  (∀ j, j ∈ ids_of (kept fs h) → (j ∈ f ↔ j ∉ keep)) →
  kept (fs ∪ (list_to_set f ∪ {[i]})) h = py_filter (λ e, zmem (event_id e) keep) (kept fs h).
Proof.
  intros Hfr Hf. rewrite kept_union. unfold kept at 1. apply py_filter_ext. intros e He.
  assert (event_id e ≠ i).
  { intros <-. apply Hfr, ids_of_elem. by apply elem_of_kept in He as [? _]. }
  apply eq_iff_eq_true. rewrite negb_true_iff, bool_decide_eq_false, zmem_spec.
  rewrite elem_of_union, elem_of_list_to_set, elem_of_singleton, Hf by by apply ids_of_elem.
  destruct (decide (event_id e ∈ keep)); naive_solver.
Qed.

(** The number of elements of a duplicate-free list whose id is in [ids]. *)
Lemma filter_mem_length ids l :
  NoDup (ids_of l) →
  (length (py_filter (λ e : Event, zmem (event_id e) ids) l) ≤ length ids)%nat.
Proof.
  intros Hnd. set (k := py_filter _ l).
  assert (Hk : ids_of k ⊆ ids).
  { intros i (e & -> & [He _]%elem_of_py_filter)%elem_of_ids_of. by apply zmem_spec. }
  assert (Hnk : NoDup (ids_of k)) by by apply NoDup_ids_filter.
  pose proof (NoDup_submseteq _ _ Hnk Hk) as Hs. apply submseteq_length in Hs.
  unfold ids_of in Hs. by rewrite length_fmap in Hs.
Qed.

(** The attention condenser, whatever ids the model returns (repeated, unknown
    or too few), keeps the first [keep_first] events of the view and brings it
    down to at most [max_size // 2] events once its condensation is in the
    history, so that it does not fire again. *)
Theorem attention_bounds (c : LLMAttentionCondenser) (h : list Event) (v : View)
    (meta : EventMeta) (i : Z) (reply : LLMReply) (ids : list Z) (b : dict) :
  0 ≤ lac_keep_first c < lac_max_size c / 2 →
  from_events h = Ok v → NoDup (ids_of h) → last_summary (reverse h) = None →
  lac_llm c (view_events v) = Ok reply → lac_ids c (reply_content reply) = Ok ids →
  m_id meta = Some i → i ∉ ids_of h →
  ∃ a v', get_condensation c v b = (dset "metrics" (reply_metrics reply) b, Ok a)
    ∧ from_events (h ++ [mkEvent meta (EAction (ACondensation a))]) = Ok v'
    ∧ py_len (view_events v') ≤ lac_max_size c / 2
    ∧ (∀ e, e ∈ take (Z.to_nat (lac_keep_first c)) (view_events v) → e ∈ view_events v')
    ∧ view_events v' `sublist_of` view_events v
    ∧ should_condense c v' = false.
Proof.
  intros Hk Hv Hnd Hsum Hllm Hids Hi Hfr.
  pose proof (from_events_inv _ _ Hv) as (_ & Hve & _). rewrite Hsum in Hve. simpl in Hve.
  set (l := view_events v) in *.
  unfold get_condensation, attention_rolling, attention_get_condensation. fold l.
  unfold pbind, plift, add_metadata, pmodify. rewrite Hllm, Hids.
  rewrite py_slice_to_Z by lia. set (hd := ids_of (take _ l)).
  set (n := lac_max_size c / 2 - py_len hd).
  set (r0 := py_slice None (Some n) _). set (r := attention_fill n r0 (reverse l)).
  assert (Hn : 0 ≤ n).
  { unfold n, hd, ids_of. len_lia. }
  assert (Hr : py_len r ≤ n).
  { apply attention_fill_spec. unfold r0. rewrite py_slice_to_Z by lia.
    len_lia. }
  set (f := py_filter _ (ids_of l)).
  set (a := mkCondensationAction (Some f) None None None None).
  assert (Hfa : forgotten a = Ok f) by done.
  eexists a, _. split; [done|]. split; [exact (from_events_condense _ _ _ _ _ _ Hv Hfa Hi)|].
  unfold event_summary, as_condensation. simpl. rewrite Hsum. simpl.
  assert (Hkept : kept (forgotten_event_ids v ∪ (list_to_set f ∪ {[i]})) h
                  = py_filter (λ e, zmem (event_id e) (hd ++ r)) l).
  { rewrite Hve. apply kept_after_ids; [done|]. rewrite <- Hve. intros j Hj. unfold f.
    rewrite elem_of_py_filter, andb_true_iff, !negb_true_iff, <- !not_true_iff_false.
    rewrite !zmem_spec, elem_of_app. tauto. }
  rewrite Hkept.
  assert (Hlen : py_len (py_filter (λ e, zmem (event_id e) (hd ++ r)) l) ≤ lac_max_size c / 2).
  { assert (NoDup (ids_of l)) as Hndl by (rewrite Hve; by apply NoDup_ids_filter).
    pose proof (filter_mem_length (hd ++ r) l Hndl) as H. rewrite length_app in H.
    assert (n + py_len hd = lac_max_size c / 2) by (unfold n; lia).
    len_lia. }
  split_and!; [done| | |].
  - intros e He. apply elem_of_py_filter. split; [|by eapply elem_of_take_in].
    apply zmem_spec, elem_of_app. left. by apply ids_of_elem.
  - apply py_filter_sublist.
  - unfold should_condense, over_size. cbn [view_events unhandled_condensation_request].
    rewrite orb_false_r. apply Z.ltb_ge. pose proof (half_le (lac_max_size c)). lia.
Qed.

Lemma attention_bounds_witness :
  let c := mkLLMAttentionCondenser (λ _, Ok ex_reply) (λ _, Ok [3; 3; 99]) 4 1 in
  ∃ a v', get_condensation c (plain_view (ex_long 6)) [] = ([("metrics", JInt 2)], Ok a)
    ∧ from_events (ex_long 6 ++ [ex_condense 6 a]) = Ok v'
    ∧ ids_of (view_events v') = [0; 3].
Proof.
  intros c.
  destruct (attention_bounds c (ex_long 6) (plain_view (ex_long 6))
    (mkEventMeta (Some 6) None (Some AGENT) None None None None None None) 6 ex_reply [3; 3; 99] [])
    as (a & v' & Ha & Hv & _).
  - vm_compute. by split.
  - reflexivity.
  - apply increasing_nodup, ex_long_increasing.
  - reflexivity.
  - reflexivity.
  - reflexivity.
  - reflexivity.
  - rewrite ex_long_6. set_solver by lia.
  - exists a, v'. split; [exact Ha|]. split; [exact Hv|].
    vm_compute in Ha. injection Ha as <-. vm_compute in Hv. injection Hv as <-. reflexivity.
Defined.

(** ** Conversation window *)

(** A strictly increasing list as long as the distance of its ends is the range. *)
Lemma contiguous_range (l : list Z) lo hi :
  StronglySorted Z.lt (lo :: l) → last (lo :: l) = Some hi →
  hi - lo = py_len (lo :: l) - 1 → lo :: l = py_range lo (hi + 1).
Proof.
  unfold py_range, py_len. revert lo. induction l as [|x l IH]; intros lo Hs Hl Hd.
  - injection Hl as ->. replace (hi + 1 - hi) with 1 by lia. done.
  - assert (Hx : ∀ y k, StronglySorted Z.lt (y :: k) → last (y :: k) = Some hi →
                   Z.of_nat (length k) ≤ hi - y).
    { clear. intros y k. revert y. induction k as [|z k IHk]; intros y Hs Hl.
      - injection Hl as ->. simpl. lia.
      - inversion_clear Hs as [|?? Hs' Hf]. inversion_clear Hf.
        specialize (IHk z Hs' Hl). simpl. lia. }
    inversion_clear Hs as [|?? Hs' Hf]. inversion_clear Hf as [|?? Hlt _].
    change (last (x :: l) = Some hi) in Hl. pose proof (Hx x l Hs' Hl) as Hb.
    simpl in Hd. assert (x = lo + 1) as -> by lia.
    rewrite (IH (lo + 1) Hs' Hl) by (simpl; lia).
    rewrite (seqZ_cons lo (hi + 1 - lo)) by lia. f_equal. f_equal; lia.
Qed.

Lemma sorted_elements (s : gset Z) : StronglySorted Z.lt (merge_sort Z.le (elements s)).
Proof.
  assert (Hle : StronglySorted Z.le (merge_sort Z.le (elements s)))
    by (apply StronglySorted_merge_sort; apply _).
  assert (Hnd : NoDup (merge_sort Z.le (elements s)))
    by (rewrite merge_sort_Permutation; apply NoDup_elements).
  revert Hle Hnd. generalize (merge_sort Z.le (elements s)). intros l.
  induction 1 as [|x l Hl IH Hf]; intros [Hx Hnd]%NoDup_cons || intros _; [constructor|].
  constructor; [by auto|]. rewrite Forall_forall in Hf |- *. intros y Hy.
  pose proof (Hf y Hy). assert (x ≠ y) by set_solver. lia.
Qed.

(** Ranges are an encoding only: either way the ids are those given. *)
Lemma window_action_forgotten l :
  StronglySorted Z.lt l →
  ∃ a, window_action l = Ok a ∧ forgotten a = Ok l ∧ ca_summary a = None.
Proof.
  intros Hs. unfold window_action.
  destruct l as [|lo [|x l]]; [by eexists..|].
  destruct (last (lo :: x :: l)) as [hi|] eqn:E; [|by eexists].
  destruct (Z.eqb_spec (hi - lo) (py_len (lo :: x :: l) - 1)) as [Hd|]; [|by eexists].
  eexists. split; [done|]. split; [|done].
  change (Ok (py_range lo (hi + 1)) = Ok (lo :: x :: l)). f_equal.
  symmetry. by apply contiguous_range.
Qed.

Lemma leading_observations_bound l : 0 ≤ leading_observations l ≤ py_len l.
Proof.
  unfold py_len. induction l as [|e l IH]; simpl; [lia|]. destruct (is_observation e); lia.
Qed.

Lemma leading_observations_head l e :
  head (drop (Z.to_nat (leading_observations l)) l) = Some e → is_observation e = false.
Proof.
  induction l as [|x l IH]; simpl; [done|]. destruct (is_observation x) eqn:E.
  - pose proof (leading_observations_bound l).
    replace (Z.to_nat (1 + _)) with (S (Z.to_nat (leading_observations l))) by lia. done.
  - by intros [= <-].
Qed.

Lemma first_valid_index_split l n :
  let keep := Z.max 1 ((py_len l - n) / 2) in
  let start := Z.to_nat (Z.max 0 (py_len l - keep)) in
  first_valid_index l n = Z.of_nat start + leading_observations (drop start l).
Proof.
  intros keep start. unfold first_valid_index. fold keep. rewrite py_slice_from_clamp.
  unfold py_clamp. rewrite (proj2 (Z.ltb_ge _ _)) by lia.
  rewrite Z.min_l by len_lia. fold start.
  unfold start at 2. rewrite Z2Nat.id by lia. done.
Qed.

(** The conversation window, when the view has a user message, keeps exactly
    the essential events (system message, first user message, its recall action and
    the observation of that recall) and a suffix of the view holding at most half
    of the non-essential events (at least one); the suffix does not start with an
    observation whose action was dropped, and nothing already forgotten comes
    back.  The request counts as handled afterwards. *)
Theorem window_condenses (c : ConversationWindowCondenser) (h : list Event) (v : View)
    (u : Event) (meta : EventMeta) (i : Z) (b : dict) :
  from_events h = Ok v → last_summary (reverse h) = None →
  py_find is_user_message (view_events v) = Some u →
  m_id meta = Some i → i ∉ ids_of h →
  let l := view_events v in
  let essential := essential_events l u in
  let recent := drop (Z.to_nat (first_valid_index l (py_len essential))) l in
  ∃ a v', get_condensation c v b = (b, Ok a)
    ∧ from_events (h ++ [mkEvent meta (EAction (ACondensation a))]) = Ok v'
    ∧ view_events v' = py_filter (λ e, zmem (event_id e) (essential ++ ids_of recent)) l
    ∧ u ∈ view_events v'
    ∧ (∀ s, py_find is_system_message l = Some s → s ∈ view_events v')
    ∧ py_len recent ≤ Z.max 1 ((py_len l - py_len essential) / 2)
    ∧ (∀ e, head recent = Some e → is_observation e = false)
    ∧ should_condense c v' = false.
Proof.
  intros Hv Hsum Hu Hi Hfr l essential recent.
  pose proof (from_events_inv _ _ Hv) as (_ & Hve & _). rewrite Hsum in Hve. simpl in Hve.
  fold l in Hve.
  pose proof (first_valid_index_split l (py_len essential)) as Hfv. simpl in Hfv.
  set (start := Z.to_nat (Z.max 0 (py_len l - Z.max 1 ((py_len l - py_len essential) / 2)))) in Hfv.
  pose proof (leading_observations_bound (drop start l)) as Hb.
  assert (Hrec : recent = drop (Z.to_nat (leading_observations (drop start l))) (drop start l)).
  { unfold recent. rewrite Hfv, drop_drop. f_equal. lia. }
  assert (Hsl : py_slice (Some (first_valid_index l (py_len essential))) None l = recent).
  { rewrite py_slice_from_clamp. unfold recent, py_clamp.
    rewrite (proj2 (Z.ltb_ge _ _)) by lia. f_equal. unfold py_len in *.
    rewrite length_drop in Hb. lia. }
  set (s := list_to_set (ids_of l)
             ∖ (list_to_set essential ∪ list_to_set (ids_of recent)) : gset Z).
  destruct (window_action_forgotten _ (sorted_elements s)) as (a & Ha & Hfa & Hsa).
  eexists a, _. split.
  { unfold get_condensation, window_rolling, window_get_condensation. rewrite Hu.
    fold l essential. rewrite Hsl. unfold plift. fold s. by rewrite Ha. }
  split; [exact (from_events_condense _ _ _ _ _ _ Hv Hfa Hi)|].
  assert (Hes : event_summary (mkEvent meta (EAction (ACondensation a))) = None)
    by (unfold event_summary; simpl; by rewrite Hsa).
  rewrite Hes, Hsum. cbn [view_events insert_summary].
  assert (Hkept : kept (forgotten_event_ids v
                        ∪ (list_to_set (merge_sort Z.le (elements s)) ∪ {[i]})) h
                  = py_filter (λ e, zmem (event_id e) (essential ++ ids_of recent)) l).
  { rewrite Hve. apply kept_after_ids; [done|]. rewrite <- Hve. intros j Hj.
    rewrite merge_sort_Permutation, elem_of_elements. unfold s.
    rewrite elem_of_difference, elem_of_union, !elem_of_list_to_set, elem_of_app. tauto. }
  rewrite Hkept. split_and!; [done| | | | |done].
  - apply elem_of_py_filter. apply py_find_elem in Hu as [Hu _]. split; [|done].
    apply zmem_spec. unfold essential, essential_events. set_solver.
  - intros sm Hsm. apply elem_of_py_filter. pose proof (py_find_elem _ _ _ Hsm) as [Hin _].
    split; [|done]. apply zmem_spec. unfold essential, essential_events. rewrite Hsm. set_solver.
  - rewrite Hrec. unfold start. len_lia.
  - rewrite Hrec. apply leading_observations_head.
Qed.

Lemma window_condenses_witness :
  let h := ex_msg 0 USER "task" :: ((λ i, ex_msg (Z.of_nat i) AGENT "x") <$> seq 1 5) in
  ∃ a v', get_condensation mkConversationWindowCondenser (plain_view h) [] = ([], Ok a)
    ∧ from_events (h ++ [ex_condense 6 a]) = Ok v'
    ∧ ids_of (view_events v') = [0; 4; 5].
Proof.
  intros h.
  destruct (window_condenses mkConversationWindowCondenser h (plain_view h) (ex_msg 0 USER "task")
    (mkEventMeta (Some 6) None (Some AGENT) None None None None None None) 6 [])
    as (a & v' & Ha & Hv & _).
  - reflexivity.
  - reflexivity.
  - reflexivity.
  - reflexivity.
  - change (ids_of h) with [0; 1; 2; 3; 4; 5]. set_solver by lia.
  - exists a, v'. split; [exact Ha|]. split; [exact Hv|].
    vm_compute in Ha. injection Ha as <-. vm_compute in Hv. injection Hv as <-. reflexivity.
Defined.
