(* ===== verification/Serialization.v ===== *)
(** * Serialization of events

    Models [openhands/events/serialization/{event,action,observation,utils}.py]:
    [event_to_dict] and [event_from_dict] with the per-class argument lists, the
    handling of deprecated arguments, and the trimming of trajectories.

    The dataclasses do not check the types of their arguments; a document whose
    fields do not have the declared types is outside the typed events of this
    development, and the decoder answers [Unmodelled] on it.  Parameters: Python's
    [repr] (used by two [message] properties) and [ast.literal_eval] (used by a
    deprecated argument). *)

From S2P Require Import Prelude PyValue Metrics Schema Actions Observations Events.
Local Open Scope Z_scope.
Local Open Scope py_scope.

(** ** Field codecs *)

Abbreviation jstrs l := (JList (JStr <$> l)).
Definition jopt {A} (f : A → json) (x : option A) : json := from_option f JNull x.

Definition dec_json (j : json) : option json := Some j.
Definition dec_str (j : json) : option string := match j with JStr s => Some s | _ => None end.
Definition dec_bool (j : json) : option bool := match j with JBool b => Some b | _ => None end.
Definition dec_Z (j : json) : option Z := match j with JInt z => Some z | _ => None end.
Definition dec_float (j : json) : option float :=
  match j with JFloat x => Some x | JInt z => Some (float_of_Z z) | _ => None end.
Definition dec_dict (j : json) : option dict := match j with JDict d => Some d | _ => None end.
Definition dec_opt {A} (dec : json → option A) (j : json) : option (option A) :=
  match j with JNull => Some None | _ => Some <$> dec j end.
Definition dec_list {A} (dec : json → option A) (j : json) : option (list A) :=
  match j with JList l => mapM dec l | _ => None end.
Definition dec_enum {A} (value : A → string) (all : list A) (j : json) : option A :=
  match j with JStr s => py_find (λ x, String.eqb (value x) s) all | _ => None end.

Definition dec_confirmation := dec_enum confirmation_value [CONFIRMED; CONF_REJECTED; AWAITING_CONFIRMATION].
Definition dec_read_source := dec_enum read_source_value [READ_OH_ACI; READ_DEFAULT].
Definition dec_edit_source := dec_enum edit_source_value [LLM_BASED_EDIT; EDIT_OH_ACI].
Definition dec_recall := dec_enum recall_value [WORKSPACE_CONTEXT; KNOWLEDGE].
Definition dec_risk (j : json) : option ActionSecurityRisk :=
  match j with JInt z => risk_of_Z z | _ => None end.
Definition dec_state (j : json) : option AgentState :=
  match j with JStr s => Some (agent_state_of_string s) | _ => None end.
Definition enc_risk (r : ActionSecurityRisk) : json := JInt (risk_value r).

(** One keyword argument [k] of a constructor; [None] as default: it is required. *)
Definition Unmodelled (k : string) : py_exc := OtherError "Unmodelled" k.
Definition arg {A} (dec : json → option A) (k : string) (default : option A) (d : dict) : result A :=
  match dget k d with
  | Some j => match dec j with Some a => Ok a | None => Raise (Unmodelled k) end
  | None => match default with
            | Some a => Ok a
            | None => Raise (TypeError ("missing required argument: " +:+ k))
            end
  end.

(** A keyword that is not a parameter of the constructor is a TypeError. *)
Definition check_keys (allowed : list string) (d : dict) : result unit :=
  match py_find (λ kv, negb (existsb (String.eqb kv.1) allowed)) d with
  | None => Ok tt
  | Some (k, _) => Raise (TypeError ("got an unexpected keyword argument: " +:+ k))
  end.

(** ** Actions *)

(** [asdict(action)] without the keys of [TOP_KEYS], with [security_risk] as its
    value: the [args] of the document. *)
Definition action_args (a : Action) : dict :=
  match a with
  | ANull | ACondensationRequest => []
  | AMessage a =>
      [("content", JStr (ma_content a)); ("file_urls", jopt (λ l, jstrs l) (ma_file_urls a));
       ("image_urls", jopt (λ l, jstrs l) (ma_image_urls a));
       ("wait_for_response", JBool (ma_wait_for_response a));
       ("security_risk", enc_risk (ma_security_risk a))]
  | ASystemMessage a =>
      [("content", JStr (sma_content a)); ("tools", jopt JList (sma_tools a));
       ("openhands_version", jopt JStr (sma_openhands_version a));
       ("agent_class", jopt JStr (sma_agent_class a))]
  | ACmdRun a =>
      [("command", JStr (cra_command a)); ("is_input", JBool (cra_is_input a));
       ("thought", JStr (cra_thought a)); ("blocking", JBool (cra_blocking a));
       ("is_static", JBool (cra_is_static a)); ("cwd", jopt JStr (cra_cwd a));
       ("hidden", JBool (cra_hidden a));
       ("confirmation_state", JStr (confirmation_value (cra_confirmation_state a)));
       ("security_risk", enc_risk (cra_security_risk a))]
  | AIPythonRunCell a =>
      [("code", JStr (ipa_code a)); ("thought", JStr (ipa_thought a));
       ("include_extra", JBool (ipa_include_extra a));
       ("confirmation_state", JStr (confirmation_value (ipa_confirmation_state a)));
       ("security_risk", enc_risk (ipa_security_risk a));
       ("kernel_init_code", JStr (ipa_kernel_init_code a))]
  | AFileRead a =>
      [("path", JStr (fra_path a)); ("start", JInt (fra_start a)); ("end", JInt (fra_end a));
       ("thought", JStr (fra_thought a)); ("security_risk", enc_risk (fra_security_risk a));
       ("impl_source", JStr (read_source_value (fra_impl_source a)));
       ("view_range", jopt (λ l, JList (JInt <$> l)) (fra_view_range a))]
  | AFileWrite a =>
      [("path", JStr (fwa_path a)); ("content", JStr (fwa_content a));
       ("start", JInt (fwa_start a)); ("end", JInt (fwa_end a));
       ("thought", JStr (fwa_thought a)); ("security_risk", enc_risk (fwa_security_risk a))]
  | AFileEdit a =>
      [("path", JStr (fea_path a)); ("command", JStr (fea_command a));
       ("file_text", jopt JStr (fea_file_text a)); ("old_str", jopt JStr (fea_old_str a));
       ("new_str", jopt JStr (fea_new_str a)); ("insert_line", jopt JInt (fea_insert_line a));
       ("content", JStr (fea_content a)); ("start", JInt (fea_start a));
       ("end", JInt (fea_end a)); ("thought", JStr (fea_thought a));
       ("security_risk", enc_risk (fea_security_risk a));
       ("impl_source", JStr (edit_source_value (fea_impl_source a)))]
  | ABrowseURL a =>
      [("url", JStr (bua_url a)); ("thought", JStr (bua_thought a));
       ("security_risk", enc_risk (bua_security_risk a));
       ("return_axtree", JBool (bua_return_axtree a))]
  | ABrowseInteractive a =>
      [("browser_actions", JStr (bia_browser_actions a)); ("thought", JStr (bia_thought a));
       ("browsergym_send_msg_to_user", JStr (bia_browsergym_send_msg_to_user a));
       ("security_risk", enc_risk (bia_security_risk a));
       ("return_axtree", JBool (bia_return_axtree a))]
  | AMCP a =>
      [("name", JStr (mcpa_name a)); ("arguments", JDict (mcpa_arguments a));
       ("thought", JStr (mcpa_thought a)); ("security_risk", enc_risk (mcpa_security_risk a))]
  | AChangeAgentState a =>
      [("agent_state", JStr (agent_state_value (casa_agent_state a)));
       ("thought", JStr (casa_thought a))]
  | AAgentFinish a =>
      [("final_thought", JStr (afa_final_thought a)); ("outputs", JDict (afa_outputs a));
       ("thought", JStr (afa_thought a))]
  | AAgentThink a => [("thought", JStr (ata_thought a))]
  | AAgentReject a => [("outputs", JDict (ara_outputs a)); ("thought", JStr (ara_thought a))]
  | AAgentDelegate a =>
      [("agent", JStr (ada_agent a)); ("inputs", JDict (ada_inputs a));
       ("thought", JStr (ada_thought a))]
  | ARecall a =>
      [("recall_type", JStr (recall_value (ra_recall_type a))); ("query", JStr (ra_query a));
       ("thought", JStr (ra_thought a))]
  | ACondensation a =>
      [("forgotten_event_ids", jopt (λ l, JList (JInt <$> l)) (ca_forgotten_event_ids a));
       ("forgotten_events_start_id", jopt JInt (ca_forgotten_events_start_id a));
       ("forgotten_events_end_id", jopt JInt (ca_forgotten_events_end_id a));
       ("summary", jopt JStr (ca_summary a)); ("summary_offset", jopt JInt (ca_summary_offset a))]
  | ATaskTracking a =>
      [("command", JStr (tta_command a)); ("task_list", JList (tta_task_list a));
       ("thought", JStr (tta_thought a))]
  | ALoopRecovery a => [("option", JInt (lra_option a))]
  end.

(** ** Observations *)

Definition metadata_dump (m : CmdOutputMetadata) : dict :=
  [("exit_code", JInt (com_exit_code m)); ("pid", JInt (com_pid m));
   ("username", jopt JStr (com_username m)); ("hostname", jopt JStr (com_hostname m));
   ("working_dir", jopt JStr (com_working_dir m));
   ("py_interpreter_path", jopt JStr (com_py_interpreter_path m));
   ("prefix", JStr (com_prefix m)); ("suffix", JStr (com_suffix m))].

Definition knowledge_dump (k : MicroagentKnowledge) : json :=
  JDict [("name", JStr (mk_name k)); ("trigger", JStr (mk_trigger k));
         ("content", JStr (mk_content k))].

(** [asdict(observation)] without [content] and the keys of [TOP_KEYS], enums and
    pydantic models converted: the [extras] of the document. *)
Definition observation_extras (o : ObservationKind) : dict :=
  match o with
  | ONull | OSuccess | OUserReject | OAgentCondensation | OAgentThink | OLoopDetection => []
  | OCmdOutput o =>
      [("command", JStr (coo_command o)); ("metadata", JDict (metadata_dump (coo_metadata o)));
       ("hidden", JBool (coo_hidden o))]
  | OIPythonRunCell o =>
      [("code", JStr (ipo_code o)); ("image_urls", jopt (λ l, jstrs l) (ipo_image_urls o))]
  | OFileRead o =>
      [("path", JStr (fro_path o)); ("impl_source", JStr (read_source_value (fro_impl_source o)))]
  | OFileWrite o => [("path", JStr (fwo_path o))]
  | OFileEdit o =>
      [("path", JStr (feo_path o)); ("prev_exist", JBool (feo_prev_exist o));
       ("old_content", jopt JStr (feo_old_content o));
       ("new_content", jopt JStr (feo_new_content o));
       ("impl_source", JStr (edit_source_value (feo_impl_source o)));
       ("diff", jopt JStr (feo_diff o)); ("_diff_cache", jopt JStr (feo_diff_cache o))]
  | OBrowserOutput o =>
      [("url", JStr (boo_url o)); ("trigger_by_action", JStr (boo_trigger_by_action o));
       ("screenshot", JStr (boo_screenshot o));
       ("screenshot_path", jopt JStr (boo_screenshot_path o));
       ("set_of_marks", JStr (boo_set_of_marks o)); ("error", JBool (boo_error o));
       ("goal_image_urls", jstrs (boo_goal_image_urls o));
       ("open_pages_urls", jstrs (boo_open_pages_urls o));
       ("active_page_index", JInt (boo_active_page_index o));
       ("dom_object", JDict (boo_dom_object o)); ("axtree_object", JDict (boo_axtree_object o));
       ("extra_element_properties", JDict (boo_extra_element_properties o));
       ("last_browser_action", JStr (boo_last_browser_action o));
       ("last_browser_action_error", JStr (boo_last_browser_action_error o));
       ("focused_element_bid", JStr (boo_focused_element_bid o));
       ("filter_visible_only", JBool (boo_filter_visible_only o))]
  | OAgentDelegate o => [("outputs", JDict (ado_outputs o))]
  | OError o => [("error_id", JStr (eo_error_id o))]
  | OAgentStateChanged o =>
      [("agent_state", JStr (agent_state_value (asco_agent_state o)));
       ("reason", JStr (asco_reason o))]
  | ORecall o =>
      [("recall_type", JStr (recall_value (ro_recall_type o)));
       ("repo_name", JStr (ro_repo_name o)); ("repo_directory", JStr (ro_repo_directory o));
       ("repo_branch", JStr (ro_repo_branch o));
       ("repo_instructions", JStr (ro_repo_instructions o));
       ("runtime_hosts", JDict (ro_runtime_hosts o));
       ("additional_agent_instructions", JStr (ro_additional_agent_instructions o));
       ("date", JStr (ro_date o));
       ("custom_secrets_descriptions", JDict (ro_custom_secrets_descriptions o));
       ("conversation_instructions", JStr (ro_conversation_instructions o));
       ("working_dir", JStr (ro_working_dir o));
       ("microagent_knowledge", JList (knowledge_dump <$> ro_microagent_knowledge o))]
  | OMCP o => [("name", JStr (mcpo_name o)); ("arguments", JDict (mcpo_arguments o))]
  | OFileDownload o => [("file_path", JStr (fdo_file_path o))]
  | OTaskTracking o =>
      [("command", JStr (tto_command o)); ("task_list", JList (tto_task_list o))]
  end.

(** [hasattr(event, 'success')] and its value *)
Definition observation_success (o : ObservationKind) : option bool :=
  match o with
  | OCmdOutput o => Some (cmd_success o)
  | OIPythonRunCell _ => Some true
  | _ => None
  end.

(** [CmdOutputMetadata( **d)]: the pydantic model ignores unknown keys. *)
Definition metadata_load (d : dict) : result CmdOutputMetadata :=
  let? e := arg dec_Z "exit_code" (Some (-1)) d in
  let? p := arg dec_Z "pid" (Some (-1)) d in
  let? u := arg (dec_opt dec_str) "username" (Some None) d in
  let? h := arg (dec_opt dec_str) "hostname" (Some None) d in
  let? w := arg (dec_opt dec_str) "working_dir" (Some None) d in
  let? i := arg (dec_opt dec_str) "py_interpreter_path" (Some None) d in
  let? f := arg dec_str "prefix" (Some "") d in
  let? s := arg dec_str "suffix" (Some "") d in
  Ok (mkCmdOutputMetadata e p u h w i f s).

Definition knowledge_load (j : json) : option MicroagentKnowledge :=
  match j with
  | JDict d =>
      match rbind (check_keys ["name"; "trigger"; "content"] d) (λ _,
            rbind (arg dec_str "name" None d) (λ n, rbind (arg dec_str "trigger" None d) (λ t,
            rbind (arg dec_str "content" None d) (λ c, Ok (mkMicroagentKnowledge n t c))))) with
      | Ok k => Some k
      | Raise _ => None
      end
  | _ => None
  end.

(** [_update_cmd_output_metadata]: the metadata of an old document, updated. *)
Definition update_cmd_output_metadata (k : string) (v : json) (extras : dict) : result dict :=
  match dget "metadata" extras with
  | None | Some JNull => Ok (dset "metadata" (JDict [(k, v)]) extras)
  | Some (JDict m) => Ok (dset "metadata" (JDict (dset k v m)) extras)
  | Some _ => Ok extras
  end.

(** [handle_observation_deprecated_extras] *)
Definition handle_observation_deprecated_extras (extras : dict) : result dict :=
  let? extras := match dget "exit_code" extras with
                 | Some v => update_cmd_output_metadata "exit_code" v (ddel "exit_code" extras)
                 | None => Ok extras
                 end in
  let? extras := match dget "command_id" extras with
                 | Some v => update_cmd_output_metadata "pid" v (ddel "command_id" extras)
                 | None => Ok extras
                 end in
  Ok (ddel "formatted_output_and_error" extras).

(** [observation_class(content=content, **extras)] *)
Definition construct_observation (t : ObservationType) (content : string) (ex : dict) :
    result Observation :=
  let keys l := let? _ := check_keys ("observation" :: l) ex in
                if dmem "observation" ex then Raise (Unmodelled "observation") else Ok tt in
  let str k := arg dec_str k None ex in
  let str' k := arg dec_str k (Some "") ex in
  let flag k := arg dec_bool k (Some false) ex in
  let ostr k := arg (dec_opt dec_str) k (Some None) ex in
  let doc k := arg dec_dict k (Some []) ex in
  let mk k := Ok (mkObservation content k) in
  let plain k := let? _ := keys [] in mk k in
  match t with
  | OT_NULL => plain ONull
  | OT_SUCCESS => plain OSuccess
  | OT_USER_REJECTED => plain OUserReject
  | OT_CONDENSE => plain OAgentCondensation
  | OT_THINK => plain OAgentThink
  | OT_LOOP_DETECTION => plain OLoopDetection
  | OT_RUN =>
      (* the class's own constructor takes any further keyword *)
      if dmem "observation" ex then Raise (Unmodelled "observation") else
      let? c := str "command" in let? h := flag "hidden" in
      let? m := match dget "metadata" ex with
                | Some (JDict d) => metadata_load d
                | _ => Ok default_metadata
                end in
      Ok (new_CmdOutputObservation content c (Some m) h None None)
  | OT_RUN_IPYTHON =>
      let? _ := keys ["code"; "image_urls"] in
      let? c := str "code" in
      let? i := arg (dec_opt (dec_list dec_str)) "image_urls" (Some None) ex in
      mk (OIPythonRunCell (mkIPythonRunCellObservation c i))
  | OT_READ =>
      let? _ := keys ["path"; "impl_source"] in
      let? p := str "path" in
      let? m := arg dec_read_source "impl_source" (Some READ_DEFAULT) ex in
      mk (OFileRead (mkFileReadObservation p m))
  | OT_WRITE =>
      let? _ := keys ["path"] in let? p := str "path" in mk (OFileWrite (mkFileWriteObservation p))
  | OT_EDIT =>
      let? _ := keys ["path"; "prev_exist"; "old_content"; "new_content"; "impl_source"; "diff";
                      "_diff_cache"] in
      let? p := str' "path" in let? x := flag "prev_exist" in let? o := ostr "old_content" in
      let? n := ostr "new_content" in
      let? m := arg dec_edit_source "impl_source" (Some LLM_BASED_EDIT) ex in
      let? d := ostr "diff" in let? c := ostr "_diff_cache" in
      mk (OFileEdit (mkFileEditObservation p x o n m d c))
  | OT_BROWSE =>
      let? _ := keys ["url"; "trigger_by_action"; "screenshot"; "screenshot_path";
        "set_of_marks"; "error"; "goal_image_urls"; "open_pages_urls"; "active_page_index";
        "dom_object"; "axtree_object"; "extra_element_properties"; "last_browser_action";
        "last_browser_action_error"; "focused_element_bid"; "filter_visible_only"] in
      let? u := str "url" in let? t := str "trigger_by_action" in let? s := str' "screenshot" in
      let? sp := ostr "screenshot_path" in let? sm := str' "set_of_marks" in
      let? er := flag "error" in
      let? g := arg (dec_list dec_str) "goal_image_urls" (Some []) ex in
      let? op := arg (dec_list dec_str) "open_pages_urls" (Some []) ex in
      let? ai := arg dec_Z "active_page_index" (Some (-1)) ex in
      let? dom := doc "dom_object" in let? ax := doc "axtree_object" in
      let? ep := doc "extra_element_properties" in let? la := str' "last_browser_action" in
      let? le := str' "last_browser_action_error" in let? fb := str' "focused_element_bid" in
      let? fv := flag "filter_visible_only" in
      mk (OBrowserOutput
            (mkBrowserOutputObservation u t s sp sm er g op ai dom ax ep la le fb fv))
  | OT_DELEGATE =>
      let? _ := keys ["outputs"] in let? o := arg dec_dict "outputs" None ex in
      mk (OAgentDelegate (mkAgentDelegateObservation o))
  | OT_ERROR =>
      let? _ := keys ["error_id"] in let? i := str' "error_id" in
      mk (OError (mkErrorObservation i))
  | OT_AGENT_STATE_CHANGED =>
      let? _ := keys ["agent_state"; "reason"] in
      let? s := arg dec_state "agent_state" None ex in let? r := str' "reason" in
      mk (OAgentStateChanged (mkAgentStateChangedObservation s r))
  | OT_RECALL =>
      let? _ := keys ["recall_type"; "repo_name"; "repo_directory"; "repo_branch";
        "repo_instructions"; "runtime_hosts"; "additional_agent_instructions"; "date";
        "custom_secrets_descriptions"; "conversation_instructions"; "working_dir";
        "microagent_knowledge"] in
      let? y := arg dec_recall "recall_type" None ex in
      let? n := str' "repo_name" in let? d := str' "repo_directory" in
      let? b := str' "repo_branch" in let? i := str' "repo_instructions" in
      let? h := doc "runtime_hosts" in let? a := str' "additional_agent_instructions" in
      let? da := str' "date" in let? cs := doc "custom_secrets_descriptions" in
      let? ci := str' "conversation_instructions" in let? w := str' "working_dir" in
      let? k := arg (dec_list knowledge_load) "microagent_knowledge" (Some []) ex in
      mk (ORecall (mkRecallObservation y n d b i h a da cs ci w k))
  | OT_MCP =>
      let? _ := keys ["name"; "arguments"] in
      let? n := str' "name" in let? g := doc "arguments" in mk (OMCP (mkMCPObservation n g))
  | OT_DOWNLOAD =>
      let? _ := keys ["file_path"] in let? p := str "file_path" in
      mk (OFileDownload (mkFileDownloadObservation p))
  | OT_TASK_TRACKING =>
      let? _ := keys ["command"; "task_list"] in
      let? c := str' "command" in let? l := arg (dec_list dec_json) "task_list" (Some []) ex in
      mk (OTaskTracking (mkTaskTrackingObservation c l))
  | OT_CHAT | OT_MESSAGE => Raise (KeyError (observation_type_value t))
  end.

(** The classes of [OBSERVATION_TYPE_TO_CLASS]. *)
Definition observation_classes : list ObservationType :=
  [OT_NULL; OT_RUN; OT_RUN_IPYTHON; OT_BROWSE; OT_READ; OT_WRITE; OT_EDIT; OT_DELEGATE;
   OT_SUCCESS; OT_ERROR; OT_AGENT_STATE_CHANGED; OT_USER_REJECTED; OT_CONDENSE; OT_THINK;
   OT_RECALL; OT_MCP; OT_DOWNLOAD; OT_TASK_TRACKING; OT_LOOP_DETECTION].
Definition observation_class (tag : string) : option ObservationType :=
  py_find (λ t, String.eqb (observation_type_value t) tag) observation_classes.

(** [observation_from_dict] *)
Definition observation_from_dict (d : dict) : result Event :=
  match dget "observation" d with
  | None => Raise (KeyError "'observation' key is not found")
  | Some (JStr tag) =>
      match observation_class tag with
      | None => Raise (KeyError tag)
      | Some t =>
          let? content := arg dec_str "content" (Some "") d in
          let? extras := match dget "extras" d with
                         | None => Ok []
                         | Some (JDict e) => Ok e
                         | Some _ => Raise (Unmodelled "extras")
                         end in
          let? extras := handle_observation_deprecated_extras extras in
          let? o := construct_observation t content extras in
          Ok (mkEvent empty_meta (EObservation o))
      end
  | Some _ => Raise (KeyError "observation")
  end.

Section codec.
(** [repr] of a document, and the dictionary [ast.literal_eval] reads from a source
    text ([None]: it raises). *)
Variable py_repr : json → string.
Variable literal_eval : string → option dict.
(** [get_version()], the default of [SystemMessageAction.openhands_version]. *)
Variable version : string.

(** [action_class( **args)]; an [action] keyword would change the tag. *)
Definition construct_action (t : ActionType) (args : dict) : result Action :=
  let keys l := let? _ := check_keys ("action" :: l) args in
                if dmem "action" args then Raise (Unmodelled "action") else Ok tt in
  let str k := arg dec_str k None args in
  let str' k := arg dec_str k (Some "") args in
  let flag k := arg dec_bool k (Some false) args in
  let risk := arg dec_risk "security_risk" (Some RISK_UNKNOWN) args in
  let conf := arg dec_confirmation "confirmation_state" (Some CONFIRMED) args in
  let ostr k := arg (dec_opt dec_str) k (Some None) args in
  let oint k := arg (dec_opt dec_Z) k (Some None) args in
  let int k z := arg dec_Z k (Some z) args in
  match t with
  | T_NULL => let? _ := keys [] in Ok ANull
  | T_CONDENSATION_REQUEST => let? _ := keys [] in Ok ACondensationRequest
  | T_MESSAGE =>
      let? _ := keys ["content"; "file_urls"; "image_urls"; "wait_for_response"; "security_risk"] in
      let? c := str "content" in
      let? f := arg (dec_opt (dec_list dec_str)) "file_urls" (Some None) args in
      let? i := arg (dec_opt (dec_list dec_str)) "image_urls" (Some None) args in
      let? w := flag "wait_for_response" in let? r := risk in
      Ok (AMessage (mkMessageAction c f i w r))
  | T_SYSTEM =>
      let? _ := keys ["content"; "tools"; "openhands_version"; "agent_class"] in
      let? c := str "content" in
      let? t := arg (dec_opt (dec_list dec_json)) "tools" (Some None) args in
      let? v := arg (dec_opt dec_str) "openhands_version" (Some (Some version)) args in
      let? k := ostr "agent_class" in
      Ok (ASystemMessage (mkSystemMessageAction c t v k))
  | T_RUN =>
      let? _ := keys ["command"; "is_input"; "thought"; "blocking"; "is_static"; "cwd"; "hidden";
                      "confirmation_state"; "security_risk"] in
      let? c := str "command" in let? i := flag "is_input" in let? t := str' "thought" in
      let? b := flag "blocking" in let? s := flag "is_static" in let? w := ostr "cwd" in
      let? h := flag "hidden" in let? f := conf in let? r := risk in
      Ok (ACmdRun (mkCmdRunAction c i t b s w h f r))
  | T_RUN_IPYTHON =>
      let? _ := keys ["code"; "thought"; "include_extra"; "confirmation_state"; "security_risk";
                      "kernel_init_code"] in
      let? c := str "code" in let? t := str' "thought" in
      let? e := arg dec_bool "include_extra" (Some true) args in
      let? f := conf in let? r := risk in let? k := str' "kernel_init_code" in
      Ok (AIPythonRunCell (mkIPythonRunCellAction c t e f r k))
  | T_READ =>
      let? _ := keys ["path"; "start"; "end"; "thought"; "security_risk"; "impl_source";
                      "view_range"] in
      let? p := str "path" in let? s := int "start" 0 in let? e := int "end" (-1) in
      let? t := str' "thought" in let? r := risk in
      let? m := arg dec_read_source "impl_source" (Some READ_DEFAULT) args in
      let? v := arg (dec_opt (dec_list dec_Z)) "view_range" (Some None) args in
      Ok (AFileRead (mkFileReadAction p s e t r m v))
  | T_WRITE =>
      let? _ := keys ["path"; "content"; "start"; "end"; "thought"; "security_risk"] in
      let? p := str "path" in let? c := str "content" in let? s := int "start" 0 in
      let? e := int "end" (-1) in let? t := str' "thought" in let? r := risk in
      Ok (AFileWrite (mkFileWriteAction p c s e t r))
  | T_EDIT =>
      let? _ := keys ["path"; "command"; "file_text"; "old_str"; "new_str"; "insert_line";
                      "content"; "start"; "end"; "thought"; "security_risk"; "impl_source"] in
      let? p := str "path" in let? c := str' "command" in let? ft := ostr "file_text" in
      let? o := ostr "old_str" in let? n := ostr "new_str" in let? il := oint "insert_line" in
      let? co := str' "content" in let? s := int "start" 1 in let? e := int "end" (-1) in
      let? t := str' "thought" in let? r := risk in
      let? m := arg dec_edit_source "impl_source" (Some EDIT_OH_ACI) args in
      Ok (AFileEdit (mkFileEditAction p c ft o n il co s e t r m))
  | T_BROWSE =>
      let? _ := keys ["url"; "thought"; "security_risk"; "return_axtree"] in
      let? u := str "url" in let? t := str' "thought" in let? r := risk in
      let? x := flag "return_axtree" in Ok (ABrowseURL (mkBrowseURLAction u t r x))
  | T_BROWSE_INTERACTIVE =>
      let? _ := keys ["browser_actions"; "thought"; "browsergym_send_msg_to_user";
                      "security_risk"; "return_axtree"] in
      let? b := str "browser_actions" in let? t := str' "thought" in
      let? m := str' "browsergym_send_msg_to_user" in let? r := risk in
      let? x := flag "return_axtree" in
      Ok (ABrowseInteractive (mkBrowseInteractiveAction b t m r x))
  | T_MCP =>
      let? _ := keys ["name"; "arguments"; "thought"; "security_risk"] in
      let? n := str "name" in let? g := arg dec_dict "arguments" (Some []) args in
      let? t := str' "thought" in let? r := risk in Ok (AMCP (mkMCPAction n g t r))
  | T_CHANGE_AGENT_STATE =>
      let? _ := keys ["agent_state"; "thought"] in
      let? s := arg dec_state "agent_state" None args in let? t := str' "thought" in
      Ok (AChangeAgentState (mkChangeAgentStateAction s t))
  | T_FINISH =>
      let? _ := keys ["final_thought"; "outputs"; "thought"] in
      let? f := str' "final_thought" in let? o := arg dec_dict "outputs" (Some []) args in
      let? t := str' "thought" in Ok (AAgentFinish (mkAgentFinishAction f o t))
  | T_THINK =>
      let? _ := keys ["thought"] in let? t := str' "thought" in
      Ok (AAgentThink (mkAgentThinkAction t))
  | T_REJECT =>
      let? _ := keys ["outputs"; "thought"] in
      let? o := arg dec_dict "outputs" (Some []) args in let? t := str' "thought" in
      Ok (AAgentReject (mkAgentRejectAction o t))
  | T_DELEGATE =>
      let? _ := keys ["agent"; "inputs"; "thought"] in
      let? g := str "agent" in let? i := arg dec_dict "inputs" None args in
      let? t := str' "thought" in Ok (AAgentDelegate (mkAgentDelegateAction g i t))
  | T_RECALL =>
      let? _ := keys ["recall_type"; "query"; "thought"] in
      let? y := arg dec_recall "recall_type" None args in let? q := str' "query" in
      let? t := str' "thought" in Ok (ARecall (mkRecallAction y q t))
  | T_CONDENSATION =>
      let? _ := keys ["forgotten_event_ids"; "forgotten_events_start_id";
                      "forgotten_events_end_id"; "summary"; "summary_offset"] in
      let? i := arg (dec_opt (dec_list dec_Z)) "forgotten_event_ids" (Some None) args in
      let? s := oint "forgotten_events_start_id" in let? e := oint "forgotten_events_end_id" in
      let? u := ostr "summary" in let? o := oint "summary_offset" in
      let? a := new_CondensationAction i s e u o in Ok (ACondensation a)
  | T_TASK_TRACKING =>
      let? _ := keys ["command"; "task_list"; "thought"] in
      let? c := arg dec_str "command" (Some "view") args in
      let? l := arg (dec_list dec_json) "task_list" (Some []) args in
      let? t := str' "thought" in Ok (ATaskTracking (mkTaskTrackingAction c l t))
  | T_LOOP_RECOVERY =>
      let? _ := keys ["option"] in let? o := int "option" 1 in
      Ok (ALoopRecovery (mkLoopRecoveryAction o))
  | T_START | T_PAUSE | T_RESUME | T_STOP | T_PUSH | T_SEND_PR =>
      Raise (OtherError "LLMMalformedActionError" (action_type_value t))
  end.

(** The classes of [ACTION_TYPE_TO_CLASS]. *)
Definition action_classes : list ActionType :=
  [T_NULL; T_RUN; T_RUN_IPYTHON; T_BROWSE; T_BROWSE_INTERACTIVE; T_READ; T_WRITE; T_EDIT;
   T_THINK; T_FINISH; T_REJECT; T_DELEGATE; T_RECALL; T_CHANGE_AGENT_STATE; T_MESSAGE; T_SYSTEM;
   T_CONDENSATION; T_CONDENSATION_REQUEST; T_MCP; T_TASK_TRACKING; T_LOOP_RECOVERY].
Definition action_class (tag : string) : option ActionType :=
  py_find (λ t, String.eqb (action_type_value t) tag) action_classes.

Definition file_editor_prefix : string := "print(file_editor(**".

(** [d.update(e)] *)
Definition dupdate (e d : dict) : dict := foldl (λ d kv, dset kv.1 kv.2 d) d e.

(** [handle_action_deprecated_args] *)
Definition handle_action_deprecated_args (args : dict) : result dict :=
  let args := ddel "task_completed" (ddel "keep_prompt" args) in
  match dget "translated_ipython_code" args with
  | None => Ok args
  | Some code =>
      let args := ddel "translated_ipython_code" args in
      let? args :=
        match code with
        | JNull => Ok args
        | JStr s =>
            if startswith s file_editor_prefix && endswith s "))" then
              let n := String.length file_editor_prefix in
              Ok (match literal_eval (String.substring n (String.length s - n - 2) s) with
                  | Some d => dupdate d args
                  | None => args
                  end)
            else Ok args
        | _ => Raise (OtherError "AttributeError" "startswith")
        end in
      Ok (if bool_decide (dget "command" args = Some (JStr "view"))
          then ddel "command" args else args)
  end.

(** [ActionSecurityRisk(value)]: lookup by Python equality. *)
Definition risk_lookup (j : json) : option ActionSecurityRisk :=
  py_find (λ r, py_eqb (JInt (risk_value r)) j) [RISK_UNKNOWN; RISK_LOW; RISK_MEDIUM; RISK_HIGH].

(** The arguments [action_from_dict] passes to the constructor. *)
Definition normalize_args (args : dict) : result dict :=
  let args := ddel "timestamp" args in
  let args := match dget "is_confirmed" args with
              | Some JNull | None => ddel "is_confirmed" args
              | Some c => dset "confirmation_state" c (ddel "is_confirmed" args)
              end in
  let args := match dget "images_urls" args with
              | Some u => dset "image_urls" u (ddel "images_urls" args)
              | None => args
              end in
  let args := match dget "security_risk" args with
              | Some JNull | None => args
              | Some j => match risk_lookup j with
                          | Some r => dset "security_risk" (enc_risk r) args
                          | None => ddel "security_risk" args
                          end
              end in
  handle_action_deprecated_args args.

(** [except TypeError] around the constructor. *)
Definition malformed {A} (r : result A) : result A :=
  match r with
  | Raise (TypeError m) => Raise (OtherError "LLMMalformedActionError" m)
  | r => r
  end.

(** [action_from_dict] *)
Definition action_from_dict (action : dict) : result Event :=
  match dget "action" action with
  | Some (JStr tag) =>
      match action_class tag with
      | None => Raise (OtherError "LLMMalformedActionError" tag)
      | Some t =>
          let? args0 := match dget "args" action with
                        | None => Ok []
                        | Some (JDict d) => Ok d
                        | Some _ => Raise (OtherError "AttributeError" "pop")
                        end in
          let? args := normalize_args args0 in
          let? a := malformed (construct_action t args) in
          let evt := new_action a in
          let? evt :=
            match dget "timeout" action with
            | None => Ok evt
            | Some j =>
                match dec_opt dec_float j, arg dec_bool "blocking" (Some false) args with
                | Some v, Ok b => Ok (set_hard_timeout v b evt)
                | _, _ => Raise (Unmodelled "timeout")
                end
            end in
          match dget "timestamp" args0 with
          | Some (JStr ts) => Ok (if String.eqb ts "" then evt else set_timestamp (Some ts) evt)
          | Some j => if jtruthy j then Raise (Unmodelled "timestamp") else Ok evt
          | None => Ok evt
          end
      end
  | Some _ => Raise (OtherError "LLMMalformedActionError" "action")
  | None => Raise (OtherError "LLMMalformedActionError" "'action' key is not found")
  end.

(** ** Metadata *)

(** [ToolCallMetadata( **value)]; the litellm response is an opaque document. *)
Definition tool_call_dump (t : ToolCallMetadata) : dict :=
  [("function_name", JStr (tcm_function_name t)); ("tool_call_id", JStr (tcm_tool_call_id t));
   ("model_response", tcm_model_response t);
   ("total_calls_in_response", JInt (tcm_total_calls_in_response t))].
Definition tool_call_load (d : dict) : result ToolCallMetadata :=
  let? f := arg dec_str "function_name" None d in
  let? i := arg dec_str "tool_call_id" None d in
  let? r := arg dec_json "model_response" None d in
  let? n := arg dec_Z "total_calls_in_response" None d in
  Ok (mkToolCallMetadata f i r n).

Definition cost_load (j : json) : result Cost :=
  match j with
  | JDict d =>
      let? m := arg dec_str "model" None d in
      let? c := arg dec_float "cost" None d in
      let? t := match dget "timestamp" d with
                | Some _ => arg dec_float "timestamp" None d
                | None => Raise (Unmodelled "timestamp") (* the default reads the clock *)
                end in
      Ok (mkCost m c t)
  | _ => Raise (Unmodelled "costs")
  end.
Definition latency_load (j : json) : result ResponseLatency :=
  match j with
  | JDict d =>
      let? m := arg dec_str "model" None d in
      let? l := arg dec_float "latency" None d in
      let? r := arg dec_str "response_id" None d in
      Ok (mkResponseLatency m l r)
  | _ => Raise (Unmodelled "response_latencies")
  end.
Definition usage_load (j : json) : result TokenUsage :=
  match j with
  | JDict d =>
      let? m := arg dec_str "model" (Some "") d in
      let? p := arg dec_Z "prompt_tokens" (Some 0) d in
      let? c := arg dec_Z "completion_tokens" (Some 0) d in
      let? cr := arg dec_Z "cache_read_tokens" (Some 0) d in
      let? cw := arg dec_Z "cache_write_tokens" (Some 0) d in
      let? w := arg dec_Z "context_window" (Some 0) d in
      let? t := arg dec_Z "per_turn_token" (Some 0) d in
      let? r := arg dec_str "response_id" (Some "") d in
      Ok (mkTokenUsage m p c cr cw w t r)
  | _ => Raise (Unmodelled "token_usages")
  end.

Definition metrics_load (j : json) : result Metrics :=
  let m := new_Metrics "default" in
  match j with
  | JDict d =>
      let? cost := arg dec_float "accumulated_cost" (Some fzero) d in
      let '(m, r) := set_accumulated_cost cost m in
      let? _ := r in
      let? budget := arg (dec_opt dec_float) "max_budget_per_task" (Some None) d in
      let? cs := arg (dec_list dec_json) "costs" (Some []) d in
      let? cs := rmap cost_load cs in
      let? ls := arg (dec_list dec_json) "response_latencies" (Some []) d in
      let? ls := rmap latency_load ls in
      let? us := arg (dec_list dec_json) "token_usages" (Some []) d in
      let? us := rmap usage_load us in
      let? acc := match dget "accumulated_token_usage" d with
                  | Some u => usage_load u
                  | None => Ok (m_accumulated_token_usage m)
                  end in
      Ok (mkMetrics (m_accumulated_cost m) budget cs ls (m_model_name m) us acc)
  | _ => Ok m
  end.

(** ** [event_to_dict] *)

(** [d[key] = value] when the attribute is not [None]. *)
Definition top (k : string) (v : option json) : dict := from_option (λ v, [(k, v)]) [] v.

Definition event_to_dict (e : Event) : result dict :=
  let? message := event_message py_repr e in
  let i := event_id e in
  let head :=
    top "id" (if i =? INVALID_ID then None else Some (JInt i)) ++
    top "timestamp" (JStr <$> event_timestamp e) ++
    top "source" ((λ s, JStr (source_value s)) <$> event_source e) ++
    [("message", JStr message)] ++
    top "cause" (JInt <$> event_cause e) ++
    match ev_body e with
    | EAction a => [("action", JStr (action_type_value (action_type a)))]
    | EObservation o =>
        [("observation", JStr (observation_type_value (observation_type (obs_kind o))))]
    end ++
    top "tool_call_metadata" ((λ t, JDict (tool_call_dump t)) <$> event_tool_call e) ++
    top "llm_metrics" ((λ m, JDict (metrics_get m)) <$> event_llm_metrics e) in
  Ok (head ++
    match ev_body e with
    | EAction a => ("args", JDict (action_args a)) :: top "timeout" (JFloat <$> event_timeout e)
    | EObservation o =>
        ("content", JStr (obs_content o)) :: ("extras", JDict (observation_extras (obs_kind o)))
          :: top "success" (JBool <$> observation_success (obs_kind o))
    end).

(** ** [event_from_dict] *)

(** [setattr(evt, '_' + key, value)] for one underscore key of the document. *)
Definition load_key {A} (k : string) (dec : json → result A) (set : A → Event → Event)
    (d : dict) (e : Event) : result Event :=
  match dget k d with
  | None => Ok e
  | Some j => let? a := dec j in Ok (set a e)
  end.
Definition typed {A} (k : string) (dec : json → option A) (j : json) : result A :=
  from_option Ok (Raise (Unmodelled k)) (dec j).

(** The loop over [UNDERSCORE_KEYS]. *)
Definition load_meta (d : dict) (e : Event) : result Event :=
  let? e := load_key "id" (typed "id" (dec_opt dec_Z)) set_id d e in
  let? e := load_key "timestamp" (typed "timestamp" (dec_opt dec_str)) set_timestamp d e in
  let? e := load_key "source" (λ j, match j with
                | JStr s => from_option Ok (Raise (ValueError s)) (source_of_string s)
                | _ => Raise (ValueError "is not a valid EventSource") end)
              (λ s, set_source (Some s)) d e in
  let? e := load_key "cause" (typed "cause" (dec_opt dec_Z)) set_cause d e in
  let? e := load_key "tool_call_metadata" (λ j, match j with
                | JDict t => tool_call_load t
                | _ => Raise (TypeError "argument after ** must be a mapping") end)
              (λ t, set_tool_call (Some t)) d e in
  load_key "llm_metrics" metrics_load (λ m, set_llm_metrics (Some m)) d e.

Definition event_from_dict (d : dict) : result Event :=
  let? e := if dmem "action" d then action_from_dict d
            else if dmem "observation" d then observation_from_dict d
            else Raise (ValueError "Unknown event type") in
  load_meta d e.
End codec.

(** ** Trajectories *)

(** [remove_fields] on a document. *)
Fixpoint remove_fields (fields : list string) (j : json) : json :=
  match j with
  | JDict d =>
      JDict ((fix go d := match d with
        | [] => []
        | (k, v) :: d => if existsb (String.eqb k) fields then go d
                         else (k, remove_fields fields v) :: go d
        end) d)
  | JList l => JList ((fix go l := match l with
        | [] => []
        | x :: l => remove_fields fields x :: go l
        end) l)
  | j => j
  end.

Definition DELETE_FROM_TRAJECTORY_EXTRAS : list string :=
  ["dom_object"; "axtree_object"; "active_page_index"; "last_browser_action";
   "last_browser_action_error"; "focused_element_bid"; "extra_element_properties"].
Definition DELETE_FROM_TRAJECTORY_EXTRAS_AND_SCREENSHOTS : list string :=
  DELETE_FROM_TRAJECTORY_EXTRAS ++ ["screenshot"; "set_of_marks"].

Definition event_to_trajectory (py_repr : json → string) (e : Event) (screenshots : bool) :
    result dict :=
  let? d := event_to_dict py_repr e in
  Ok (match dget "extras" d with
      | None => d
      | Some ex => dset "extras" (remove_fields
          (if screenshots then DELETE_FROM_TRAJECTORY_EXTRAS
           else DELETE_FROM_TRAJECTORY_EXTRAS_AND_SCREENSHOTS) ex) d
      end).
