(* ===== verification/SerializationProps.v ===== *)
(** * The serialization round trip

    [event_from_dict] inverts [event_to_dict] on every class of event, up to the
    attributes the format does not carry; and the truncation of long content. *)

From S2P Require Import Prelude PyValue Metrics Schema Actions Observations Events Serialization.
Local Open Scope Z_scope.

(** ** Field codecs *)

Lemma dec_opt_enc {A} (dec : json → option A) (enc : A → json) x :
  (∀ a, dec (enc a) = Some a) → (∀ a, enc a ≠ JNull) → dec_opt dec (jopt enc x) = Some x.
Proof.
  intros H Hn. destruct x as [a|]; simpl; [|done]. unfold dec_opt.
  specialize (H a). specialize (Hn a). destruct (enc a); try done; by rewrite H.
Qed.
Lemma dec_list_enc {A} (dec : json → option A) (enc : A → json) l :
  (∀ a, dec (enc a) = Some a) → dec_list dec (JList (enc <$> l)) = Some l.
Proof.
  intros H. unfold dec_list. by apply mapM_fmap_Some.
Qed.
Lemma dec_list_json l : dec_list dec_json (JList l) = Some l.
Proof. rewrite <- (list_fmap_id l) at 1. by apply dec_list_enc. Qed.
Lemma dec_confirmation_enc c : dec_confirmation (JStr (confirmation_value c)) = Some c.
Proof. by destruct c. Qed.
Lemma dec_read_source_enc c : dec_read_source (JStr (read_source_value c)) = Some c.
Proof. by destruct c. Qed.
Lemma dec_edit_source_enc c : dec_edit_source (JStr (edit_source_value c)) = Some c.
Proof. by destruct c. Qed.
Lemma dec_recall_enc c : dec_recall (JStr (recall_value c)) = Some c.
Proof. by destruct c. Qed.
Lemma dec_risk_enc c : dec_risk (enc_risk c) = Some c.
Proof. by destruct c. Qed.
Lemma risk_lookup_enc c : risk_lookup (enc_risk c) = Some c.
Proof. by destruct c. Qed.
Lemma dec_opt_str x : dec_opt dec_str (jopt JStr x) = Some x.
Proof. by apply dec_opt_enc. Qed.
Lemma dec_opt_Z x : dec_opt dec_Z (jopt JInt x) = Some x.
Proof. by apply dec_opt_enc. Qed.
Lemma dec_opt_strs x : dec_opt (dec_list dec_str) (jopt (λ l, jstrs l) x) = Some x.
Proof. apply dec_opt_enc; [|done]. intros l. by apply dec_list_enc. Qed.
Lemma dec_opt_Zs x : dec_opt (dec_list dec_Z) (jopt (λ l, JList (JInt <$> l)) x) = Some x.
Proof. apply dec_opt_enc; [|done]. intros l. by apply dec_list_enc. Qed.
Lemma dec_opt_jsons x : dec_opt (dec_list dec_json) (jopt JList x) = Some x.
Proof. apply dec_opt_enc; [|done]. intros l. apply dec_list_json. Qed.
Lemma arg_found {A} (dec : json → option A) k dflt d j a :
  dget k d = Some j → dec j = Some a → arg dec k dflt d = Ok a.
Proof. intros H1 H2. unfold arg. by rewrite H1, H2. Qed.

Definition action_ok (a : Action) : Prop :=
  match a with
  | ACondensation c => validate_field_polymorphism c = true
  | AChangeAgentState c => agent_state_of_string (agent_state_value (casa_agent_state c)) = casa_agent_state c
  | _ => True
  end.

Lemma normalize_action_args le a : normalize_args le (action_args a) = Ok (action_args a).
Proof.
  destruct a as [|[]|[]|[]|[]|[]|[]|[]|[]|[]|[]|[]|[]|[]|[]|[]|[]|[]| |[]|[]].
  all: try reflexivity.
  all: unfold normalize_args, enc_risk, handle_action_deprecated_args; cbn -[risk_lookup risk_value]. all: rewrite risk_lookup_enc. all: try reflexivity.
Qed.


(** One argument of a constructor, found and decoded. *)
Create HintDb codec.
#[export] Hint Resolve dec_opt_str dec_opt_Z dec_opt_strs dec_opt_Zs dec_opt_jsons dec_risk_enc
  dec_confirmation_enc dec_read_source_enc dec_edit_source_enc dec_recall_enc dec_list_json : codec.
Ltac load_args :=
  repeat (erewrite arg_found; [|reflexivity|first [reflexivity|by auto with codec]]; cbn -[arg jopt enc_risk]).

Lemma construct_action_args v a :
  action_ok a → construct_action v (action_type a) (action_args a) = Ok a.
Proof.
  destruct a as [|[]|[]|[]|[]|[]|[]|[]|[]|[]|[]|[s t]|[]|[]|[]|[]|[]|[i s e u o]| |[]|[]];
    intros Hok; try reflexivity; try (cbn -[arg jopt enc_risk]; load_args; reflexivity).
  - change (agent_state_of_string (agent_state_value s) = s) in Hok.
    cbn -[arg agent_state_value]. rewrite (arg_found dec_state _ _ _ (JStr (agent_state_value s)) s);
    [done|done|unfold dec_state; by rewrite Hok].
  - cbn -[arg jopt enc_risk]. load_args. unfold new_CondensationAction. simpl in Hok. by rewrite Hok.
Qed.

Definition observation_ok (o : ObservationKind) : Prop :=
  match o with
  | OAgentStateChanged c =>
      agent_state_of_string (agent_state_value (asco_agent_state c)) = asco_agent_state c
  | _ => True
  end.

(** What a command output's constructor does to the content it is given. *)
Definition stored_content (o : Observation) : string :=
  match obs_kind o with
  | OCmdOutput c => if coo_hidden c then obs_content o
                    else maybe_truncate MAX_CMD_OUTPUT_SIZE (obs_content o)
  | _ => obs_content o
  end.

Lemma metadata_load_dump m : metadata_load (metadata_dump m) = Ok m.
Proof. destruct m. unfold metadata_load. cbn -[arg jopt enc_risk]. load_args. reflexivity. Qed.
Lemma knowledge_load_dump k : knowledge_load (knowledge_dump k) = Some k.
Proof. by destruct k. Qed.
Lemma dec_list_strs l : dec_list dec_str (jstrs l) = Some l.
Proof. by apply dec_list_enc. Qed.
Lemma dec_list_knowledge l : dec_list knowledge_load (JList (knowledge_dump <$> l)) = Some l.
Proof. apply dec_list_enc, knowledge_load_dump. Qed.
#[export] Hint Resolve dec_list_strs dec_list_knowledge : codec.

Lemma construct_observation_extras c k :
  observation_ok k →
  construct_observation (observation_type k) c (observation_extras k)
  = Ok (mkObservation (stored_content (mkObservation c k)) k).
Proof.
  destruct k as [|[? m ?]|[]|[]|[]|[]|[]|[]| |[]|[s r]| | | |[]|[]|[]|[]|];
    intros Hok; try reflexivity; try (cbn -[arg jopt enc_risk]; load_args; reflexivity).
  - cbn -[arg maybe_truncate MAX_CMD_OUTPUT_SIZE metadata_load metadata_dump]. load_args.
    rewrite metadata_load_dump. cbn -[maybe_truncate MAX_CMD_OUTPUT_SIZE]. by destruct m.
  - change (agent_state_of_string (agent_state_value s) = s) in Hok.
    cbn -[arg agent_state_value]. rewrite (arg_found dec_state _ _ _ (JStr (agent_state_value s)) s);
    [done|done|unfold dec_state; by rewrite Hok].
Qed.

Lemma deprecated_extras k :
  handle_observation_deprecated_extras (observation_extras k) = Ok (observation_extras k).
Proof. by destruct k. Qed.

(** ** The round trip *)

Lemma dget_app {V} k (l1 l2 : list (string * V)) :
  dget k (l1 ++ l2) = match dget k l1 with Some v => Some v | None => dget k l2 end.
Proof. induction l1 as [|[k' v] l1 IH]; simpl; [done|]. by destruct (String.eqb k k'). Qed.
Lemma dget_top k k' v : dget k (top k' v) = if String.eqb k k' then v else None.
Proof. destruct v; simpl; by destruct (String.eqb k k'). Qed.

Lemma cost_load_dump c : cost_load (cost_dump c) = Ok c.
Proof. by destruct c. Qed.
Lemma latency_load_dump c : latency_load (latency_dump c) = Ok c.
Proof. by destruct c. Qed.
Lemma usage_load_dump c : usage_load (tu_dump c) = Ok c.
Proof. by destruct c. Qed.
Lemma rmap_fmap {A B} (f : A → result B) (g : B → A) l :
  (∀ x, f (g x) = Ok x) → rmap f (g <$> l) = Ok l.
Proof. intros H. induction l as [|x l IH]; [done|]. cbn. by rewrite H, IH. Qed.
Lemma tool_call_load_dump t : tool_call_load (tool_call_dump t) = Ok t.
Proof. by destruct t. Qed.

(** The loaded metrics carry the default model name. *)
Definition default_model (m : Metrics) : Metrics :=
  mkMetrics (m_accumulated_cost m) (m_max_budget_per_task m) (m_costs m)
    (m_response_latencies m) "default" (m_token_usages m) (m_accumulated_token_usage m).

Lemma metrics_load_get m :
  fltb (m_accumulated_cost m) fzero = false →
  metrics_load (JDict (metrics_get m)) = Ok (default_model m).
Proof.
  intros Hc. destruct m as [cost budget cs ls mn us acc]. simpl in Hc.
  unfold metrics_load, metrics_get.
  cbn -[arg rmap usage_load tu_dump dec_list set_accumulated_cost].
  rewrite (arg_found _ _ _ _ (JFloat cost) cost) by reflexivity.
  cbn -[arg rmap usage_load tu_dump dec_list fltb set_accumulated_cost].
  unfold set_accumulated_cost. rewrite Hc.
  cbn -[arg rmap usage_load tu_dump dec_list].
  rewrite (arg_found _ _ _ _ (from_option JFloat JNull budget) budget);
    [|reflexivity|by destruct budget].
  cbn -[arg rmap usage_load tu_dump dec_list].
  do 3 (erewrite arg_found; [|reflexivity|apply dec_list_json];
        cbn -[arg rmap usage_load tu_dump dec_list];
        rewrite rmap_fmap by first [apply cost_load_dump|apply latency_load_dump|apply usage_load_dump];
        cbn -[arg rmap usage_load tu_dump dec_list]).
  by rewrite usage_load_dump.
Qed.

(** Events whose state strings are canonical, whose condensations are well formed
    and whose recorded cost is not negative. *)
Definition serializable (e : Event) : Prop :=
  match ev_body e with
  | EAction a => action_ok a
  | EObservation o => observation_ok (obs_kind o)
  end
  ∧ ∀ m, event_llm_metrics e = Some m → fltb (m_accumulated_cost m) fzero = false.

(** What survives a round trip: the fields of the class, and the attributes of
    [UNDERSCORE_KEYS]; an action keeps its timeout.  Lost: the response id, a
    confirmation state on a class that does not declare one, the metrics' model
    name, and command output beyond the size limit. *)
Definition restored (e : Event) : Event :=
  let m := ev_meta e in
  mkEvent
    (mkEventMeta (if event_id e =? INVALID_ID then None else Some (event_id e))
       (m_timestamp m) (m_source m) (m_cause m)
       (if is_action e then m_timeout m else None)
       (default_model <$> m_llm_metrics m) (m_tool_call_metadata m) None None)
    (match ev_body e with
     | EAction a => EAction a
     | EObservation o => EObservation (mkObservation (stored_content o) (obs_kind o))
     end).

Lemma action_class_type a : action_class (action_type_value (action_type a)) = Some (action_type a).
Proof. by destruct a. Qed.
Lemma observation_class_type k :
  observation_class (observation_type_value (observation_type k)) = Some (observation_type k).
Proof. by destruct k. Qed.

Lemma set_hard_timeout_same v a args :
  args = action_args a →
  ∃ b, arg dec_bool "blocking" (Some false) args = Ok b
       ∧ set_hard_timeout v b (new_action a)
         = mkEvent (mkEventMeta None None None None v None None None None) (EAction a).
Proof.
  intros ->.
  destruct a as [|[]|[]|[]|[]|[]|[]|[]|[]|[]|[]|[]|[]|[]|[]|[]|[]|[]| |[]|[]];
    eexists; (split; [reflexivity|reflexivity]).
Qed.

(** Looking a key up in the parts of a document. *)
Lemma dget_skip k k' v l : String.eqb k k' = false → dget k (top k' v ++ l) = dget k l.
Proof. intros H. rewrite dget_app, dget_top, H. done. Qed.
Lemma dget_hit k v l : dget k l = None → dget k (top k v ++ l) = v.
Proof. intros H. rewrite dget_app, dget_top, String.eqb_refl, H. by destruct v. Qed.
Lemma dget_ne {V} k k' (v : V) l : String.eqb k k' = false → dget k ((k', v) :: l) = dget k l.
Proof. intros H. simpl. by rewrite H. Qed.
Lemma dget_last k k' v : String.eqb k k' = false → dget k (top k' v) = None.
Proof. intros H. by rewrite dget_top, H. Qed.
Ltac doc_skip :=
  repeat first [rewrite <- app_assoc | progress cbn [app] | rewrite dget_skip by reflexivity | rewrite dget_ne by reflexivity
               | rewrite dget_last by reflexivity].
Ltac doc_lookup :=
  match goal with d := _ |- _ => unfold d end; doc_skip;
  first [reflexivity | apply dget_hit; doc_skip; reflexivity
        | rewrite dget_top; reflexivity].

Section roundtrip.
Variables (py_repr : json → string) (literal_eval : string → option dict) (version : string).

Lemma action_from_dict_args d a tm :
  action_ok a →
  dget "action" d = Some (JStr (action_type_value (action_type a))) →
  dget "args" d = Some (JDict (action_args a)) →
  dget "timeout" d = JFloat <$> tm →
  action_from_dict literal_eval version d
  = Ok (mkEvent (mkEventMeta None None None None tm None None None None) (EAction a)).
Proof.
  intros Hok H1 H2 H3. unfold action_from_dict. rewrite H1, action_class_type, H2. cbn [rbind].
  rewrite normalize_action_args. cbn [rbind].
  rewrite construct_action_args by done. cbn [malformed rbind]. rewrite H3.
  assert (Hts : dget "timestamp" (action_args a) = None) by by destruct a.
  destruct tm as [v|]; cbn [fmap option_fmap option_map].
  - destruct (set_hard_timeout_same (Some v) a _ eq_refl) as (b & -> & Hb).
    cbn [dec_opt dec_float fmap option_fmap option_map]. cbn [rbind]. rewrite Hb, Hts. done.
  - cbn [rbind]. rewrite Hts. done.
Qed.

Lemma observation_from_dict_extras d o :
  observation_ok (obs_kind o) →
  dget "observation" d = Some (JStr (observation_type_value (observation_type (obs_kind o)))) →
  dget "content" d = Some (JStr (obs_content o)) →
  dget "extras" d = Some (JDict (observation_extras (obs_kind o))) →
  observation_from_dict d
  = Ok (mkEvent empty_meta (EObservation (mkObservation (stored_content o) (obs_kind o)))).
Proof.
  intros Hok H1 H2 H3. unfold observation_from_dict. rewrite H1, observation_class_type.
  rewrite (arg_found dec_str _ _ _ _ _ H2 eq_refl). cbn [rbind]. rewrite H3. cbn [rbind].
  rewrite deprecated_extras. cbn [rbind]. rewrite construct_observation_extras by done.
  by destruct o.
Qed.

Lemma load_meta_spec d b i ts src cause tm tc lm :
  dget "id" d = JInt <$> i → dget "timestamp" d = JStr <$> ts →
  dget "source" d = (λ s, JStr (source_value s)) <$> src →
  dget "cause" d = JInt <$> cause →
  dget "tool_call_metadata" d = (λ t, JDict (tool_call_dump t)) <$> tc →
  dget "llm_metrics" d = (λ m, JDict (metrics_get m)) <$> lm →
  (∀ m, lm = Some m → fltb (m_accumulated_cost m) fzero = false) →
  load_meta d (mkEvent (mkEventMeta None None None None tm None None None None) b)
  = Ok (mkEvent (mkEventMeta i ts src cause tm (default_model <$> lm) tc None None) b).
Proof.
  intros H1 H2 H3 H4 H5 H6 Hm. unfold load_meta, load_key.
  rewrite H1, H2, H3, H4, H5, H6.
  destruct i, ts, src, cause, tc, lm as [m|];
    cbn -[metrics_load tool_call_load metrics_get source_of_string source_value default_model];
    rewrite ?source_of_value, ?tool_call_load_dump;
    cbn -[metrics_load metrics_get default_model];
    rewrite ?metrics_load_get by (by apply Hm); reflexivity.
Qed.

(** The document of an event determines it, up to what the format does not carry. *)
Lemma document_restores (e : Event) (d : dict) :
  serializable e → event_to_dict py_repr e = Ok d →
  event_from_dict literal_eval version d = Ok (restored e).
Proof.
  destruct e as [m b]. intros [Hb Hm] Hd. unfold event_to_dict in Hd.
  destruct (event_message py_repr _) as [msg|]; [|done]. cbn [rbind] in Hd.
  injection Hd as <-. cbn [ev_body] in *.
  set (i := if event_id (mkEvent m b) =? INVALID_ID then None else Some (event_id (mkEvent m b))).
  assert (Hi : (if event_id (mkEvent m b) =? INVALID_ID then None
                else Some (JInt (event_id (mkEvent m b)))) = JInt <$> i)
    by (unfold i; by destruct (_ =? _)).
  rewrite Hi. unfold event_from_dict, dmem. destruct b as [a|o].
  - set (d := _ ++ _ : dict).
    assert (Hact : dget "action" d = Some (JStr (action_type_value (action_type a)))) by doc_lookup.
    rewrite Hact, (action_from_dict_args _ a (m_timeout m)); [|done|done|doc_lookup|doc_lookup].
    cbn [rbind].
    apply (load_meta_spec d _ i (m_timestamp m) (m_source m) (m_cause m) _
             (m_tool_call_metadata m) (m_llm_metrics m));
      [clearbody i; doc_lookup..|exact Hm].
  - set (d := _ ++ _ : dict).
    assert (Hact : dget "action" d = None) by doc_lookup.
    assert (Hobs : dget "observation" d
      = Some (JStr (observation_type_value (observation_type (obs_kind o))))) by doc_lookup.
    rewrite Hact, Hobs, (observation_from_dict_extras _ o); [|done|done|doc_lookup|doc_lookup].
    cbn [rbind].
    apply (load_meta_spec d _ i (m_timestamp m) (m_source m) (m_cause m) _
             (m_tool_call_metadata m) (m_llm_metrics m));
      [clearbody i; doc_lookup..|exact Hm].
Qed.

(** C7 Round trip: an event that [event_to_dict] accepts is read back by
    [event_from_dict] as the same event, up to the attributes the format does not
    carry (see [restored]). *)
Theorem event_roundtrip (e : Event) (d : dict) :
  serializable e → event_to_dict py_repr e = Ok d →
  event_from_dict literal_eval version d = Ok (restored e).
Proof. apply document_restores. Qed.
End roundtrip.

(** ** Truncation *)

(** Truncating again changes nothing, so that reading an event back and storing it
    again is stable. *)
Lemma maybe_truncate_idem m s :
  2 ≤ m → maybe_truncate m (maybe_truncate m s) = maybe_truncate m s.
Proof.
  intros Hm. unfold maybe_truncate at 2 3. destruct (Z.leb_spec (str_len s) m) as [Hl|Hl].
  - unfold maybe_truncate. by rewrite (proj2 (Z.leb_le _ _) Hl).
  - assert (Hh : 0 < m / 2 ≤ m) by (split; [apply Z.div_str_pos; lia|apply Z.div_le_upper_bound; lia]).
    unfold maybe_truncate. destruct (_ <=? m); [done|]. f_equal.
    + apply str_take_app; [lia|]. apply str_take_len. lia.
    + f_equal. rewrite append_assoc. apply str_last_app; [lia|]. apply str_last_len. lia.
Qed.

(** [truncate_content] with a limit [n >= 2] keeps short content, and cuts
    longer content to its first and last [n // 2] characters around a notice: at
    most [n] characters of the content survive; with a limit of 0 or 1 the half is
    0, [content[-0:]] is everything, and the result is longer than the content. *)
Theorem truncate_content_spec (n : Z) (s : string) :
  0 ≤ n < str_len s →
  let t := truncate_content (Some n) s in
  (2 ≤ n → str_len t = 2 * (n / 2) + str_len truncation_notice
           ∧ str_take (n / 2) t = str_take (n / 2) s
           ∧ str_last (n / 2) t = str_last (n / 2) s)
  ∧ (n < 2 → t = truncation_notice +:+ s).
Proof.
  intros Hn t. unfold t, truncate_content.
  rewrite (proj2 (Z.leb_gt _ _)), (proj2 (Z.ltb_ge n 0)) by lia. cbn [orb]. split; intros H2.
  - assert (Hh : 0 < n / 2 ≤ n)
      by (split; [apply Z.div_str_pos; lia|apply Z.div_le_upper_bound; lia]).
    pose proof (str_take_len (n / 2) s ltac:(lia)) as Ht.
    pose proof (str_last_len (n / 2) s ltac:(lia)) as Hl. split_and!.
    + rewrite !str_len_append, Ht, Hl. lia.
    + apply str_take_app; [lia|done].
    + rewrite append_assoc. apply str_last_app; [lia|done].
  - assert (n / 2 = 0) as -> by (apply Z.div_small; lia).
    unfold str_take, str_last. simpl. by destruct s.
Qed.

Lemma truncate_content_spec_witness :
  truncate_content (Some 1) "abc" = truncation_notice +:+ "abc"
  ∧ str_take 2 (truncate_content (Some 5) "abcdefgh") = "ab".
Proof.
  split.
  - by apply (truncate_content_spec 1 "abc" ltac:(vm_compute; split; congruence)).
  - destruct (truncate_content_spec 5 "abcdefgh" ltac:(vm_compute; split; congruence)) as [H _].
    destruct (H ltac:(lia)) as (_ & Ht & _). exact Ht.
Defined.

(** ** What is restored is stable *)

Lemma restored_idem e : restored (restored e) = restored e.
Proof.
  destruct e as [m b]. unfold restored, event_id, is_action. cbn [ev_meta ev_body m_id
    m_timestamp m_source m_cause m_timeout m_llm_metrics m_tool_call_metadata].
  f_equal.
  - f_equal.
    + destruct (from_option id INVALID_ID (m_id m) =? INVALID_ID) eqn:E; [done|].
      simpl. by rewrite E.
    + by destruct b.
    + by destruct (m_llm_metrics m).
  - destruct b as [a|[c k]]; [done|]. unfold stored_content. cbn [obs_kind obs_content].
    do 2 f_equal. destruct k as [|[? ? hidden]| | | | | | | | | | | | | | | | |]; try done.
    cbn [coo_hidden]. destruct hidden; [done|]. by apply maybe_truncate_idem.
Qed.

Definition ex_event : Event :=
  set_source (Some AGENT) (set_id (Some 3) (set_cause (Some 2)
    (new_obs "out" (OCmdOutput (mkCmdOutputObservation "ls" default_metadata false))))).

Lemma event_roundtrip_witness :
  serializable ex_event ∧ restored ex_event = ex_event ∧
  ∃ d, event_to_dict (λ _, "") ex_event = Ok d
       ∧ event_from_dict (λ _, None) "1.0" d = Ok ex_event.
Proof.
  assert (Hs : serializable ex_event) by (split; [exact I|discriminate]).
  split; [exact Hs|]. split; [reflexivity|]. eexists. split; [reflexivity|].
  exact (event_roundtrip (λ _, "") (λ _, None) "1.0" ex_event _ Hs eq_refl).
Defined.
