(* ===== verification/FileStore.v ===== *)
(** * File stores and storage locations

    Models [openhands/storage/files.py] (the interface), [storage/memory.py] (the
    in-memory store) and [storage/locations.py] (the names of a conversation's
    files).  [FileStore] states the operations and the laws the event store relies
    on; [InMemoryFileStore] discharges them. *)

From S2P Require Import Prelude PyValue.
Local Open Scope Z_scope.
Local Open Scope py_scope.

(** ** The interface *)

(** A store after a write, or the exception of a failed one. *)
Class FileStore (F : Type) := {
  fs_write : string → string → pyM F unit;
  fs_read : F → string → result string;
  fs_list : F → string → result (list string);
  fs_delete : string → pyM F unit;
}.

(** What the components above rely on: a successful write is read back, and leaves
    the other files alone; a failed one changes nothing. *)
Class FileStoreLaws (F : Type) `{FileStore F} := {
  fs_read_write : ∀ (f f' : F) p c,
    fs_write p c f = (f', Ok tt) → fs_read f' p = Ok c;
  fs_read_write_ne : ∀ (f f' : F) p q c r,
    fs_write p c f = (f', r) → p ≠ q → fs_read f' q = fs_read f q;
  fs_write_raise : ∀ (f f' : F) p c e,
    fs_write p c f = (f', Raise e) → f' = f;
  (** Deleting a path leaves the files that do not start with it. *)
  fs_read_delete : ∀ (f f' : F) p q r,
    fs_delete p f = (f', r) → startswith q p = false → fs_read f' q = fs_read f q;
  (** A name directly under a directory is listed exactly when it can be read. *)
  fs_list_file : ∀ (f : F) dir name ns,
    fs_list f dir = Ok ns → str_contains "/" name = false → name ≠ "" →
    dir +:+ name ∈ ns ↔ ∃ c, fs_read f (dir +:+ name) = Ok c;
  (** What is listed lies under the directory: a file, or a directory's name. *)
  fs_list_under : ∀ (f : F) dir ns p,
    fs_list f dir = Ok ns → p ∈ ns →
    (∃ name, p = dir +:+ name) ∧ ((∃ c, fs_read f p = Ok c) ∨ endswith p "/" = true);
}.

(** ** In memory *)

Record InMemoryFileStore := mkInMemoryFileStore { files : list (string * string) }.

Definition mem_write (path contents : string) : pyM InMemoryFileStore unit :=
  pmodify (λ s, mkInMemoryFileStore (dset path contents (files s))).

Definition mem_read (s : InMemoryFileStore) (path : string) : result string :=
  match dget path (files s) with Some c => Ok c | None => Raise FileNotFoundError end.

(** [s.removeprefix(pre)] for a prefix known to be there *)
Definition removeprefix (pre s : string) : string :=
  String.substring (String.length pre) (String.length s - String.length pre) s.

(** [os.path.join(path, part)] for a relative part *)
Definition path_join (path part : string) : string :=
  if String.eqb path "" || endswith path "/" then path +:+ part else path +:+ "/" +:+ part.

(** [if parts[0] == '': parts.pop(0)] *)
Definition pop_empty (parts : list string) : list string :=
  match parts with
  | s :: l => if String.eqb s "" then l else parts
  | [] => []
  end.

(** The entry of [list(path)] one stored file accounts for ([true]: a file, [false]:
    the directory it lies in); [parts[0]] raises when
    the file is the path itself. *)
Definition list_entry (path file : string) : result (option (bool * string)) :=
  if startswith file path then
    match pop_empty (str_split "/"%char (removeprefix path file)) with
    | [_] => Ok (Some (true, file))
    | [] => Raise IndexError
    | p :: _ => let d := path_join path p in
                Ok (Some (false, if endswith d "/" then d else d +:+ "/"))
    end
  else Ok None.

(** [list]: a directory is named once, at the first file under it. *)
Fixpoint mem_list_from (path : string) (out : list string) (fs : list (string * string)) :
    result (list string) :=
  match fs with
  | [] => Ok out
  | (file, _) :: fs =>
      let? entry := list_entry path file in
      mem_list_from path
        (match entry with
         | None => out
         | Some (true, e) => out ++ [e]
         | Some (false, d) => if existsb (String.eqb d) out then out else out ++ [d]
         end) fs
  end.
Definition mem_list (s : InMemoryFileStore) (path : string) : result (list string) :=
  mem_list_from path [] (files s).

(** [delete]: every file whose name starts with the path. *)
Definition mem_delete (path : string) : pyM InMemoryFileStore unit :=
  pmodify (λ s, mkInMemoryFileStore (py_filter (λ kv, negb (startswith kv.1 path)) (files s))).

#[export] Instance mem_file_store : FileStore InMemoryFileStore :=
  {| fs_write := mem_write; fs_read := mem_read; fs_list := mem_list; fs_delete := mem_delete |}.

(** ** Locations *)

Definition get_conversation_dir (sid : string) (user_id : option string) : string :=
  match user_id with
  | Some u => if String.eqb u "" then "sessions/" +:+ sid +:+ "/"
              else "users/" +:+ u +:+ "/conversations/" +:+ sid +:+ "/"
  | None => "sessions/" +:+ sid +:+ "/"
  end.
Definition get_conversation_events_dir sid user_id : string :=
  get_conversation_dir sid user_id +:+ "events/".
Definition get_conversation_event_filename sid (id : Z) user_id : string :=
  get_conversation_events_dir sid user_id +:+ pretty id +:+ ".json".
Definition get_conversation_metadata_filename sid user_id : string :=
  get_conversation_dir sid user_id +:+ "metadata.json".
Definition get_conversation_init_data_filename sid user_id : string :=
  get_conversation_dir sid user_id +:+ "init.json".
Definition get_conversation_agent_state_filename sid user_id : string :=
  get_conversation_dir sid user_id +:+ "agent_state.pkl".
Definition get_conversation_llm_registry_filename sid user_id : string :=
  get_conversation_dir sid user_id +:+ "llm_registry.json".
Definition get_conversation_stats_filename sid user_id : string :=
  get_conversation_dir sid user_id +:+ "conversation_stats.pkl".
Definition get_experiment_config_filename sid user_id : string :=
  get_conversation_dir sid user_id +:+ "exp_config.json".

(** ** The in-memory store satisfies the laws *)

Lemma removeprefix_append a b : removeprefix a (a +:+ b) = b.
Proof.
  unfold removeprefix. rewrite length_append.
  replace (String.length a + String.length b - String.length a)%nat
    with (String.length b - 0)%nat by lia.
  replace (String.length a) with (String.length a + 0)%nat by lia.
  rewrite substring_app_r, Nat.sub_0_r. apply substring_full.
Qed.

Lemma list_entry_file dir name :
  str_contains "/" name = false → name ≠ "" →
  list_entry dir (dir +:+ name) = Ok (Some (true, dir +:+ name)).
Proof.
  intros Hn Hne. unfold list_entry, startswith. rewrite prefix_append, removeprefix_append.
  rewrite str_split_none by done. by destruct name.
Qed.

Lemma list_entry_under dir file b e :
  list_entry dir file = Ok (Some (b, e)) →
  (∃ name, e = dir +:+ name) ∧ (if b then e = file else endswith e "/" = true).
Proof.
  unfold list_entry, startswith. destruct (String.prefix dir file) eqn:E; [|done].
  apply prefix_inv in E as [rest ->]. rewrite removeprefix_append.
  destruct (pop_empty _) as [|x [|y l]]; [done| |]; intros [= <- <-].
  - split; [by exists rest|done].
  - assert (Hj : ∃ name, path_join dir x = dir +:+ name).
    { unfold path_join. destruct (_ || _); [by eexists|]. exists ("/" +:+ x). done. }
    destruct Hj as [n Hj]. rewrite Hj. destruct (endswith (dir +:+ n) "/") eqn:Ee.
    + split; [by exists n|done].
    + split; [exists (n +:+ "/"); by rewrite append_assoc|apply endswith_append].
Qed.

Lemma mem_list_from_incl path fs out ns :
  mem_list_from path out fs = Ok ns → ∀ p, p ∈ out → p ∈ ns.
Proof.
  revert out. induction fs as [|[file c] fs IH]; intros out; simpl; [by intros [= ->]|].
  destruct (list_entry path file) as [[[[] e]|]|]; cbn [rbind]; [..|done]; intros H p Hp.
  - eapply IH; [done|]. apply elem_of_app. by left.
  - eapply IH; [done|]. destruct (existsb _ _); [done|]. apply elem_of_app. by left.
  - by eapply IH.
Qed.

Lemma mem_list_from_file path fs out ns name c :
  mem_list_from path out fs = Ok ns → (path +:+ name, c) ∈ fs →
  str_contains "/" name = false → name ≠ "" → path +:+ name ∈ ns.
Proof.
  revert out. induction fs as [|[file c'] fs IH]; intros out H Hin Hs Hn; simpl in H; [set_solver|].
  apply elem_of_cons in Hin as [Heq|Hin].
  - injection Heq as <- <-. rewrite list_entry_file in H by done. cbn [rbind] in H.
    eapply mem_list_from_incl; [done|]. apply elem_of_app. right. by left.
  - destruct (list_entry path file); cbn [rbind] in H; [|done]. by eapply IH.
Qed.

Lemma mem_list_from_under path fs out ns p :
  mem_list_from path out fs = Ok ns → p ∈ ns → p ∈ out ∨
  (∃ name, p = path +:+ name) ∧ ((∃ c, (p, c) ∈ fs) ∨ endswith p "/" = true).
Proof.
  revert out. induction fs as [|[file c'] fs IH]; intros out H Hp; simpl in H.
  - left. by injection H as <-.
  - destruct (list_entry path file) as [o|] eqn:E; cbn [rbind] in H; [|done].
    destruct (IH _ H Hp) as [Hout|(Hn & Hc)].
    + destruct o as [[b e]|]; [|by left].
      apply list_entry_under in E as [Hn He].
      assert (Hd : p ∈ out ∨ p = e).
      { destruct b; [|destruct (existsb _ _); [by left|]];
          apply elem_of_app in Hout as [?|?%list_elem_of_singleton]; auto. }
      destruct Hd as [?| ->]; [by left|right]. split; [done|].
      destruct b; [left; exists c'; rewrite He; left|by right].
    + right. split; [done|]. destruct Hc as [[c Hc]|]; [left; exists c; by right|by right].
Qed.

Lemma dget_elem {V} k (v : V) d : dget k d = Some v → (k, v) ∈ d.
Proof.
  induction d as [|[k' v'] d IH]; simpl; [done|].
  destruct (String.eqb_spec k k') as [->|]; [intros [= ->]; left|intros H; right; auto].
Qed.

Lemma elem_dget {V} k (v : V) d : (k, v) ∈ d → ∃ w, dget k d = Some w.
Proof.
  induction d as [|[k' v'] d IH]; simpl; [by intros ?%not_elem_of_nil|].
  destruct (String.eqb_spec k k'); [by eauto|]. intros [Heq|H]%elem_of_cons; [by injection Heq|auto].
Qed.

Lemma rev_no_slash s t :
  str_contains "/" s = false → s ≠ "" →
  String.prefix (String.rev "/") (String.rev s +:+ t) = false.
Proof.
  intros Hs Hne. rewrite <- (rev_involutive s) in Hs, Hne.
  destruct (String.rev s) as [|y r]; [done|].
  change (String.prefix "/" (String y (r +:+ t)) = false). cbn [String.prefix].
  destruct (Ascii.ascii_dec "/"%char y) as [<-|]; [|done]. exfalso. clear Hne.
  rewrite rev_cons in Hs. revert Hs. generalize (String.rev r). intros u.
  induction u as [|z u IH]; [done|].
  change (String z u +:+ "/") with (String z (u +:+ "/")).
  intros [_ H]%str_contains_char. by apply IH.
Qed.

#[export] Instance mem_file_store_laws : FileStoreLaws InMemoryFileStore.
Proof.
  split; simpl; unfold mem_write, mem_read, mem_list, mem_delete, pmodify.
  - intros f f' p c [= <-]. simpl. by rewrite dget_dset, String.eqb_refl.
  - intros f f' p q c r [= <- _] Hne. simpl. rewrite dget_dset.
    by destruct (String.eqb_spec q p) as [->|].
  - intros f f' p c e [=].
  - intros f f' p q r [= <- _] Hq. simpl. f_equal.
    assert (Hd : ∀ d : list (string * string),
      dget q (py_filter (λ kv, negb (startswith kv.1 p)) d) = dget q d).
    { induction d as [|[k v] d IH]; simpl; [done|].
      destruct (startswith k p) eqn:E; simpl; rewrite IH; [|done].
      destruct (String.eqb_spec q k) as [->|]; [congruence|done]. }
    by rewrite Hd.
  - intros f dir name ns Hl Hs Hn. split.
    + intros Hp. destruct (mem_list_from_under _ _ _ _ _ Hl Hp) as [?|(_ & Hc)]; [set_solver|].
      destruct Hc as [[c Hc]|He].
      * apply elem_dget in Hc as [w ->]. eauto.
      * exfalso. revert He. unfold endswith. rewrite rev_append.
        destruct name as [|x name]; [done|].
        by rewrite rev_no_slash.
    + intros [c Hc]. destruct (dget _ _) as [w|] eqn:E; [|done].
      apply dget_elem in E. by eapply mem_list_from_file.
  - intros f dir ns p Hl Hp. destruct (mem_list_from_under _ _ _ _ _ Hl Hp) as [?|(Hn & Hc)];
      [set_solver|]. split; [done|]. destruct Hc as [[c Hc]|]; [left|by right].
    apply elem_dget in Hc as [w ->]. eauto.
Qed.
