(* ===== verification/EventStore.v ===== *)
(** * The event store

    Models [openhands/events/event_filter.py] and [event_store.py]: event files,
    cache pages, the lazily computed next id, and searching.  A search is the list
    a consumer of the generator collects.  The process is not shutting down:
    [should_continue()] is true.

    The JSON codec of the platform is a parameter ([Platform]) with the law that a
    printed document is read back ([PlatformLaws]). *)

From S2P Require Import Prelude PyValue Schema Actions Observations Events Serialization FileStore.
From S2P Require Import FileStore.
Local Open Scope Z_scope.
Local Open Scope py_scope.

Class Platform := {
  py_repr : json → string;
  literal_eval : string → option dict;
  version : string;
  json_dumps : json → string;
  json_loads : string → result json;
}.
Class PlatformLaws `{Platform} := loads_dumps : ∀ j, json_loads (json_dumps j) = Ok j.

Definition to_dict `{Platform} : Event → result dict := event_to_dict py_repr.
Definition from_dict `{Platform} : dict → result Event := event_from_dict literal_eval version.

(** ** Filters *)

Record EventFilter := mkEventFilter {
  exclude_hidden : bool;
  query : option string;
  include_types : option (list EventClass);
  exclude_types : option (list EventClass);
  filter_source : option string;
  start_date : option string;
  end_date : option string;
}.
Definition no_filter : EventFilter := mkEventFilter false None None None None None None.

(** A string that is neither [None] nor empty. *)
Definition truthy_str (s : option string) : option string :=
  match s with Some s => if String.eqb s "" then None else Some s | None => None end.

(** [EventFilter.include]: a query serializes the event, which can raise. *)
Definition include `{Platform} (f : EventFilter) (e : Event) : result bool :=
  if match include_types f with
     | None | Some [] => false
     | Some cs => negb (isinstance_any e cs)
     end then Ok false
  else if match exclude_types f with Some cs => isinstance_any e cs | None => false end
  then Ok false
  else if match truthy_str (filter_source f), event_source e with
          | None, _ => false
          | Some _, None => true
          | Some s, Some src => negb (String.eqb (source_value src) s)
          end then Ok false
  else if match truthy_str (start_date f), event_timestamp e with
          | Some d, Some t => String.ltb t d
          | _, _ => false
          end then Ok false
  else if match truthy_str (end_date f), event_timestamp e with
          | Some d, Some t => String.ltb d t
          | _, _ => false
          end then Ok false
  else if exclude_hidden f && event_hidden e then Ok false
  else match truthy_str (query f) with
       | None => Ok true
       | Some q =>
           let? d := to_dict e in
           Ok (str_contains (str_lower q) (str_lower (json_dumps (JDict d))))
       end.

(** [EventFilter.exclude] *)
Definition exclude `{Platform} (f : EventFilter) (e : Event) : result bool :=
  let? b := include f e in Ok (negb b).

(** ** [int(s)] *)

Definition digit (c : ascii) : option Z :=
  let n := Z.of_nat (Ascii.nat_of_ascii c) in
  if (48 <=? n) && (n <=? 57) then Some (n - 48) else None.

(** Digits with single underscores between them; [seen]: the last character was one. *)
Fixpoint parse_digits (acc : Z) (seen : bool) (s : string) : option Z :=
  match s with
  | EmptyString => if seen then Some acc else None
  | String c s' =>
      match digit c with
      | Some d => parse_digits (acc * 10 + d) true s'
      | None => if seen && Ascii.eqb c "_"%char then parse_digits acc false s' else None
      end
  end.
Definition py_int (s : string) : option Z :=
  match str_strip s with
  | String c s' =>
      if Ascii.eqb c "-"%char then Z.opp <$> parse_digits 0 false s'
      else if Ascii.eqb c "+"%char then parse_digits 0 false s'
      else parse_digits 0 false (String c s')
  | EmptyString => None
  end.

(** [_get_id_from_filename] *)
Definition get_id_from_filename (filename : string) : Z :=
  let base := from_option id "" (last (str_split "/"%char filename)) in
  let stem := from_option id "" (head (str_split "."%char base)) in
  from_option id (-1) (py_int stem).

(** ** The store *)

Section store.
Context `{FileStore F} `{Platform}.

Record EventStore := mkEventStore {
  es_sid : string;
  es_file_store : F;
  es_user_id : option string;
  es_cache_size : Z;
  es_cur_id : option Z;
}.

Definition new_EventStore (sid : string) (fs : F) (user_id : option string) : EventStore :=
  mkEventStore sid fs user_id 25 None.
Definition set_cur_id (i : Z) (s : EventStore) : EventStore :=
  mkEventStore (es_sid s) (es_file_store s) (es_user_id s) (es_cache_size s) (Some i).
Definition set_file_store (f : F) (s : EventStore) : EventStore :=
  mkEventStore (es_sid s) f (es_user_id s) (es_cache_size s) (es_cur_id s).

(** [_calculate_cur_id] *)
Definition calculate_cur_id (s : EventStore) : result Z :=
  let? events := match fs_list (es_file_store s)
                         (get_conversation_events_dir (es_sid s) (es_user_id s)) with
                 | Raise FileNotFoundError => Ok []
                 | r => r
                 end in
  Ok (match events with
      | [] => 0
      | _ => foldl (λ m f, let i := get_id_from_filename f in if m <=? i then i else m)
               (-1) events + 1
      end).

(** The property [cur_id]. *)
Definition cur_id : pyM EventStore Z := λ s,
  match es_cur_id s with
  | Some i => (s, Ok i)
  | None => match calculate_cur_id s with
            | Ok i => (set_cur_id i s, Ok i)
            | Raise e => (s, Raise e)
            end
  end.

Definition get_filename_for_id (s : EventStore) (i : Z) : string :=
  get_conversation_event_filename (es_sid s) i (es_user_id s).
Definition get_filename_for_cache (s : EventStore) (start stop : Z) : string :=
  get_conversation_dir (es_sid s) (es_user_id s) +:+ "event_cache/" +:+ pretty start
    +:+ "-" +:+ pretty stop +:+ ".json".

(** [get_event] *)
Definition get_event (s : EventStore) (i : Z) : result Event :=
  let? content := fs_read (es_file_store s) (get_filename_for_id s i) in
  let? data := json_loads content in
  match data with
  | JDict d => from_dict d
  | _ => Raise (TypeError "argument is not iterable")
  end.

(** *** Cache pages *)

Record CachePage := mkCachePage {
  page_events : option json;
  page_start : Z;
  page_end : Z;
}.
Definition DUMMY_PAGE : CachePage := mkCachePage None 1 (-1).

Definition covers (p : CachePage) (i : Z) : bool := (page_start p <=? i) && (i <? page_end p).

(** [_CachePage.get_event]: [None] when there is no cached page. *)
Definition page_get_event (p : CachePage) (i : Z) : result (option Event) :=
  match page_events p with
  | None => Ok None
  | Some (JList []) => Ok None
  | Some (JList l) =>
      match py_get l (i - page_start p) with
      | Some (JDict d) => let? e := from_dict d in Ok (Some e)
      | Some _ => Raise (TypeError "argument is not iterable")
      | None => Raise IndexError
      end
  | Some j => if jtruthy j then Raise (TypeError "page is not a list") else Ok None
  end.

Definition load_cache_page (s : EventStore) (start stop : Z) : result CachePage :=
  match fs_read (es_file_store s) (get_filename_for_cache s start stop) with
  | Ok content => let? events := json_loads content in Ok (mkCachePage (Some events) start stop)
  | Raise FileNotFoundError => Ok (mkCachePage None start stop)
  | Raise e => Raise e
  end.

Definition load_cache_page_for_index (s : EventStore) (index : Z) : result CachePage :=
  let offset := index mod es_cache_size s in
  load_cache_page s (index - offset) (index - offset + es_cache_size s).

(** *** Searching *)

(** The event at [index], read through the current page. *)
Definition fetch (s : EventStore) (page : CachePage) (index : Z) :
    result (CachePage * option Event) :=
  let? page := if covers page index then Ok page else load_cache_page_for_index s index in
  let? e := page_get_event page index in
  match e with
  | Some e => Ok (page, Some e)
  | None => match get_event s index with
            | Ok e => Ok (page, Some e)
            | Raise FileNotFoundError => Ok (page, None)
            | Raise x => Raise x
            end
  end.

(** [limit and limit <= num_results] *)
Definition limit_reached (limit : option Z) (n : Z) : bool :=
  match limit with Some l => negb (l =? 0) && (l <=? n) | None => false end.

(** The loop of [search_events] over the remaining indices. *)
Fixpoint search_loop (s : EventStore) (filter : option EventFilter) (limit : option Z)
    (page : CachePage) (n : Z) (indices : list Z) : result (list Event) :=
  match indices with
  | [] => Ok []
  | i :: indices =>
      let? r := fetch s page i in
      let page := r.1 in
      match r.2 with
      | None => search_loop s filter limit page n indices
      | Some e =>
          let? keep := match filter with None => Ok true | Some f => include f e end in
          if keep : bool then
            if limit_reached limit (n + 1) then Ok [e]
            else let? l := search_loop s filter limit page (n + 1) indices in Ok (e :: l)
          else search_loop s filter limit page n indices
      end
  end.

Definition search_events (start_id : Z) (end_id : option Z) (rev : bool)
    (filter : option EventFilter) (limit : option Z) : pyM EventStore (list Event) :=
  let* stop := match end_id with
               | None => cur_id
               | Some e => pret (e + 1)
               end in
  let* s := pget in
  let indices := if rev then reverse (py_range start_id stop) else py_range start_id stop in
  plift (search_loop s filter limit DUMMY_PAGE 0 indices).

Definition get_latest_event_id : pyM EventStore Z := let* i := cur_id in pret (i - 1).
Definition get_latest_event : pyM EventStore Event :=
  let* i := cur_id in let* s := pget in plift (get_event s (i - 1)).

Definition filtered_events_by_source (src : EventSource) : pyM EventStore (list Event) :=
  let* l := search_events 0 None false None None in
  pret (py_filter (λ e, bool_decide (event_source e = Some src)) l).

(** [get_matching_events] of [event_store_abc.py] *)
Definition get_matching_events (query : option string) (types : option (list EventClass))
    (source start_date end_date : option string) (start_id limit : Z) (rev : bool) :
    pyM EventStore (list Event) :=
  if (limit <? 1) || (100 <? limit)
  then praise (ValueError "Limit must be between 1 and 100")
  else
    (* [islice] stops pulling events at the limit, as [search_events] does *)
    search_events start_id None rev
      (Some (mkEventFilter false query types None source start_date end_date)) (Some limit).
End store.
Arguments EventStore : clear implicits.

(** * Properties of the event store

    File names are injective and parsed back; searching through cache pages agrees
    with reading every event file. *)
(** ** Decimal names *)

Definition is_digit (c : ascii) : bool := if digit c then true else false.

Lemma digit_char x : (x < 10)%N → digit (pretty_N_char x) = Some (Z.of_N x).
Proof.
  intros Hx. assert (x = 0 ∨ x = 1 ∨ x = 2 ∨ x = 3 ∨ x = 4 ∨ x = 5 ∨ x = 6 ∨ x = 7
    ∨ x = 8 ∨ x = 9)%N as H by lia. by repeat destruct H as [->|H]; subst.
Qed.

Lemma parse_digits_go x s seen :
  parse_digits 0 seen (pretty_N_go x s)
  = parse_digits (Z.of_N x) (seen || negb (x =? 0)%N) s.
Proof.
  revert s. induction (N.lt_wf_0 x) as [x _ IH]; intros s.
  assert (x = 0 ∨ 0 < x)%N as [->|Hx] by lia; [by rewrite pretty_N_go_0, orb_false_r|].
  rewrite pretty_N_go_step, IH by (try apply N.div_lt; lia).
  cbn [parse_digits]. rewrite digit_char by (apply N.mod_lt; lia).
  f_equal.
  - rewrite (N.div_mod x 10) at 3 by lia. lia.
  - destruct (N.eqb_spec x 0); [lia|]. by rewrite orb_true_r.
Qed.

Lemma pretty_go_digits x s :
  all_chars is_digit s = true → all_chars is_digit (pretty_N_go x s) = true.
Proof.
  revert s. induction (N.lt_wf_0 x) as [x _ IH]; intros s Hs.
  assert (x = 0 ∨ 0 < x)%N as [->|Hx] by lia; [by rewrite pretty_N_go_0|].
  rewrite pretty_N_go_step by done. apply IH; [by apply N.div_lt|].
  cbn [all_chars]. unfold is_digit. rewrite digit_char by (apply N.mod_lt; lia). done.
Qed.

Lemma pretty_Z_nonneg z : 0 ≤ z → pretty z = pretty (Z.to_N z).
Proof. by destruct z. Qed.

Lemma pretty_digits z : 0 ≤ z → all_chars is_digit (pretty z) = true.
Proof.
  intros Hz. rewrite pretty_Z_nonneg by done. unfold pretty, pretty_N.
  case_decide; [done|]. by apply pretty_go_digits.
Qed.

Lemma digit_not_space c : is_digit c = true → negb (is_py_space c) = true.
Proof. destruct c as [[] [] [] [] [] [] [] []]; done. Qed.

Lemma parse_pretty z : 0 ≤ z → parse_digits 0 false (pretty z) = Some z.
Proof.
  intros Hz. rewrite pretty_Z_nonneg by done. unfold pretty, pretty_N. case_decide as E.
  - assert (z = 0) as -> by lia. done.
  - rewrite parse_digits_go. destruct (N.eqb_spec (Z.to_N z) 0); [lia|]. simpl. f_equal. lia.
Qed.

Lemma py_int_pretty z : 0 ≤ z → py_int (pretty z) = Some z.
Proof.
  intros Hz. pose proof (pretty_digits z Hz) as Hd. unfold py_int.
  rewrite str_strip_nospace by (eapply all_chars_impl; [apply digit_not_space|done]).
  pose proof (parse_pretty z Hz) as Hp. destruct (pretty z) as [|c s] eqn:E; [done|].
  assert (Hc : is_digit c = true) by (simpl in Hd; by apply andb_true_iff in Hd as [? _]).
  destruct (Ascii.eqb_spec c "-"%char) as [->|]; [done|].
  destruct (Ascii.eqb_spec c "+"%char) as [->|]; [done|]. done.
Qed.

Lemma event_name_no_slash i : 0 ≤ i → str_contains "/" (pretty i +:+ ".json") = false.
Proof.
  intros Hi. apply (all_chars_absent (λ c, negb (Ascii.eqb c "/"%char))); [|done].
  rewrite all_chars_append. apply andb_true_iff. split; [|done].
  eapply all_chars_impl; [|exact (pretty_digits i Hi)].
  intros c. destruct c as [[] [] [] [] [] [] [] []]; done.
Qed.

Lemma id_of_event_filename sid i user :
  0 ≤ i → get_id_from_filename (get_conversation_event_filename sid i user) = i.
Proof.
  intros Hi. pose proof (pretty_digits i Hi) as Hd.
  unfold get_id_from_filename, get_conversation_event_filename, get_conversation_events_dir.
  assert (Hdir : ∃ p, get_conversation_dir sid user +:+ "events/" = p +:+ String "/"%char "").
  { exists (get_conversation_dir sid user +:+ "events"). by rewrite <- append_assoc. }
  destruct Hdir as [p ->]. rewrite <- append_assoc.
  change (String "/"%char "" +:+ (pretty i +:+ ".json"))
    with (String "/"%char (pretty i +:+ ".json")).
  rewrite str_split_last by by apply event_name_no_slash. cbn [from_option id].
  change (pretty i +:+ ".json") with (pretty i +:+ String "."%char "json").
  unfold str_split at 1. rewrite str_split_go_app.
  change (str_split_go "."%char "" (pretty i)) with (str_split "."%char (pretty i)).
  rewrite str_split_none by (apply (all_chars_absent is_digit); [done|done]).
  simpl. by rewrite py_int_pretty.
Qed.

(** ** Searching *)

Section search.
Context `{FileStore F} `{Platform}.
Local Open Scope py_scope.

(** The event with a given id, if its file exists. *)
Definition lookup_event (s : EventStore F) (i : Z) : result (option Event) :=
  match get_event s i with
  | Ok e => Ok (Some e)
  | Raise FileNotFoundError => Ok None
  | Raise x => Raise x
  end.

(** The specification of a search: read every event file, keep what the filter
    includes, stop at the limit. *)
Fixpoint plain_search (s : EventStore F) (filter : option EventFilter) (limit : option Z)
    (n : Z) (indices : list Z) : result (list Event) :=
  match indices with
  | [] => Ok []
  | i :: indices =>
      let? o := lookup_event s i in
      match o with
      | None => plain_search s filter limit n indices
      | Some e =>
          let? keep := match filter with None => Ok true | Some f => include f e end in
          if keep : bool then
            if limit_reached limit (n + 1) then Ok [e]
            else let? l := plain_search s filter limit (n + 1) indices in Ok (e :: l)
          else plain_search s filter limit n indices
      end
  end.

(** A stored cache page holds the documents of the event files it stands for. *)
Record cache_coherent (s : EventStore F) : Prop := {
  cc_size : 0 < es_cache_size s;
  cc_page : ∀ start content,
    fs_read (es_file_store s) (get_filename_for_cache s start (start + es_cache_size s))
      = Ok content →
    ∃ ds, json_loads content = Ok (JList (JDict <$> ds))
      ∧ py_len ds = es_cache_size s
      ∧ ∀ k d, ds !! k = Some d →
          ∃ c e, fs_read (es_file_store s) (get_filename_for_id s (start + Z.of_nat k)) = Ok c
                 ∧ json_loads c = Ok (JDict d) ∧ from_dict d = Ok e;
  cc_err : ∀ start e,
    fs_read (es_file_store s) (get_filename_for_cache s start (start + es_cache_size s))
      = Raise e → e = FileNotFoundError;
}.

(** A page in memory gives the event of the file, or nothing. *)
Definition page_good (s : EventStore F) (p : CachePage) : Prop :=
  ∀ i, covers p i = true →
    page_get_event p i = Ok None
    ∨ ∃ e, page_get_event p i = Ok (Some e) ∧ get_event s i = Ok e.

Lemma dummy_good s : page_good s DUMMY_PAGE.
Proof. intros i Hc. left. done. Qed.

Lemma covers_bounds p i : covers p i = true ↔ page_start p ≤ i < page_end p.
Proof. unfold covers. rewrite andb_true_iff, Z.leb_le, Z.ltb_lt. done. Qed.

Lemma load_page_good s i :
  cache_coherent s →
  ∃ p, load_cache_page_for_index s i = Ok p ∧ page_good s p ∧ covers p i = true.
Proof.
  intros [Hs Hp He]. unfold load_cache_page_for_index, load_cache_page.
  set (size := es_cache_size s) in *. set (start := i - i mod size).
  pose proof (Z.mod_pos_bound i size Hs) as Hm.
  assert (Hcov : ∀ o, covers (mkCachePage o start (start + size)) i = true).
  { intros o. apply covers_bounds. simpl. unfold start. lia. }
  destruct (fs_read _ _) as [content|e] eqn:E.
  - destruct (Hp _ _ E) as (ds & Hl & Hlen & Hds). rewrite Hl. cbn [rbind].
    eexists. split; [done|]. split; [|done]. intros j Hj%covers_bounds. simpl in Hj. right.
    unfold page_get_event. cbn [page_events page_start].
    assert (Hk : ∃ d, ds !! Z.to_nat (j - start) = Some d).
    { apply lookup_lt_is_Some_2. len_lia. }
    destruct Hk as [d Hk]. destruct (Hds _ _ Hk) as (c & e & Hc & Hlc & Hfd).
    rewrite Z2Nat.id in Hc by lia. replace (start + (j - start)) with j in Hc by lia.
    exists e. split.
    + assert (Hget : py_get (JDict <$> ds) (j - start) = Some (JDict d)).
      { unfold py_get. rewrite !(proj2 (Z.ltb_ge (j - start) 0)) by lia.
        rewrite list_lookup_fmap, Hk. done. }
      destruct ds as [|d0 ds]; [done|]. cbn [fmap list_fmap] in *.
      rewrite Hget. by rewrite Hfd.
    + unfold get_event. rewrite Hc. cbn [rbind]. rewrite Hlc. done.
  - rewrite (He _ _ E). eexists. split; [done|]. split; [|done]. intros j _. by left.
Qed.

Lemma fetch_lookup s p i :
  cache_coherent s → page_good s p →
  ∃ p', page_good s p' ∧ fetch s p i = let? o := lookup_event s i in Ok (p', o).
Proof.
  intros Hcc Hp. unfold fetch.
  assert (Hpage : ∃ p', (if covers p i then Ok p else load_cache_page_for_index s i) = Ok p'
                        ∧ page_good s p' ∧ covers p' i = true).
  { destruct (covers p i) eqn:E; [by exists p|by apply load_page_good]. }
  destruct Hpage as (p' & -> & Hg & Hc). exists p'. split; [done|]. cbn [rbind].
  unfold lookup_event. destruct (Hg i Hc) as [->|(e & -> & ->)]; cbn [rbind]; [|done].
  destruct (get_event s i) as [e|[]]; done.
Qed.

Lemma search_loop_plain s filter limit page n indices :
  cache_coherent s → page_good s page →
  search_loop s filter limit page n indices = plain_search s filter limit n indices.
Proof.
  intros Hcc. revert page n. induction indices as [|i l IH]; intros page n Hp; [done|].
  cbn [search_loop plain_search].
  destruct (fetch_lookup s page i Hcc Hp) as (p' & Hp' & ->).
  destruct (lookup_event s i) as [[e|]|x]; cbn [rbind fst snd]; [|by apply IH|done].
  destruct (match filter with None => _ | Some f => _ end) as [[]|]; cbn [rbind]; [|by apply IH|done].
  destruct (limit_reached limit (n + 1)); [done|]. by rewrite IH.
Qed.

(** Reading through cache pages is only an optimisation: on a store whose pages
    are coherent with its event files, a search, forwards or backwards, with any
    filter and limit, returns what reading every event file would. *)
Theorem search_events_uncached (s : EventStore F) (start_id stop : Z) (rev : bool)
    (filter : option EventFilter) (limit : option Z) :
  cache_coherent s →
  search_events start_id (Some stop) rev filter limit s
  = (s, plain_search s filter limit 0
          (if rev then reverse (py_range start_id (stop + 1)) else py_range start_id (stop + 1))).
Proof.
  intros Hcc. unfold search_events, pbind, pret, pget, plift.
  by rewrite search_loop_plain by (done || apply dummy_good).
Qed.

(** Without a limit the search filters the events that exist. *)
Lemma plain_search_all s n indices es :
  Forall2 (λ i e, lookup_event s i = Ok (Some e)) indices es →
  plain_search s None None n indices = Ok es.
Proof.
  intros Hf. revert n. induction Hf as [|i e l es Hi _ IH]; intros n; [done|].
  cbn [plain_search]. rewrite Hi. cbn [rbind limit_reached]. by rewrite IH.
Qed.
End search.
