(* ===== verification/ExamplePlatform.v ===== *)
(** * A platform instance

    A concrete printer and parser of documents that satisfies [PlatformLaws], to
    run the event store on concrete inputs and to show that the law can hold.  It is
    a prefix code, not JSON's syntax. *)

From S2P Require Import Prelude PyValue FileStore EventStore.
Local Open Scope Z_scope.

Fixpoint pos_print (p : positive) (k : string) : string :=
  match p with
  | xH => String ";" k
  | xO p => String "0" (pos_print p k)
  | xI p => String "1" (pos_print p k)
  end.
Fixpoint pos_parse (s : string) : option (positive * string) :=
  match s with
  | String c k =>
      if Ascii.eqb c ";" then Some (xH, k)
      else match pos_parse k with
           | Some (p, k) => Some (if Ascii.eqb c "0" then xO p else xI p, k)
           | None => None
           end
  | EmptyString => None
  end.

Definition Z_print (z : Z) (k : string) : string :=
  match z with
  | Z0 => String "z" k
  | Zpos p => String "+" (pos_print p k)
  | Zneg p => String "-" (pos_print p k)
  end.
Definition Z_parse (s : string) : option (Z * string) :=
  match s with
  | String c k =>
      if Ascii.eqb c "z" then Some (0, k)
      else match pos_parse k with
           | Some (p, k) => Some (if Ascii.eqb c "+" then Zpos p else Zneg p, k)
           | None => None
           end
  | EmptyString => None
  end.

Definition bool_print (b : bool) (k : string) : string := String (if b then "t" else "f") k.
Definition bool_parse (s : string) : option (bool * string) :=
  match s with String c k => Some (Ascii.eqb c "t", k) | EmptyString => None end.

Fixpoint str_print (s k : string) : string :=
  match s with
  | EmptyString => String ";" k
  | String c s => String "c" (String c (str_print s k))
  end.
Fixpoint str_parse (s : string) : option (string * string) :=
  match s with
  | String t (String c k as k0) =>
      if Ascii.eqb t ";" then Some (EmptyString, k0)
      else match str_parse k with Some (s, k) => Some (String c s, k) | None => None end
  | String t EmptyString => if Ascii.eqb t ";" then Some (EmptyString, EmptyString) else None
  | EmptyString => None
  end.

Definition float_print (x : float) (k : string) : string :=
  match x with
  | S754_zero s => String "0" (bool_print s k)
  | S754_infinity s => String "i" (bool_print s k)
  | S754_nan => String "n" k
  | S754_finite s m e => String "x" (bool_print s (Z_print (Zpos m) (Z_print e k)))
  end.
Definition float_parse (s : string) : option (float * string) :=
  match s with
  | String c k =>
      if Ascii.eqb c "n" then Some (S754_nan, k)
      else '(b, k) ← bool_parse k;
           if Ascii.eqb c "0" then Some (S754_zero b, k)
           else if Ascii.eqb c "i" then Some (S754_infinity b, k)
           else '(m, k) ← Z_parse k; '(e, k) ← Z_parse k;
                Some (S754_finite b (Z.to_pos m) e, k)
  | EmptyString => None
  end.

Fixpoint json_print (j : json) (k : string) : string :=
  match j with
  | JNull => String "N" k
  | JBool b => String "B" (bool_print b k)
  | JInt z => String "I" (Z_print z k)
  | JFloat x => String "F" (float_print x k)
  | JStr s => String "S" (str_print s k)
  | JList l =>
      String "L" ((fix go l := match l with
        | [] => String "]" k
        | x :: l => String "," (json_print x (go l)) end) l)
  | JDict d =>
      String "D" ((fix go d := match d with
        | [] => String "}" k
        | (key, x) :: d => String "," (str_print key (json_print x (go d))) end) d)
  end.

(** Elements until a closing character; [p] parses one. *)
Fixpoint seq_parse {A} (p : string → option (A * string)) (fuel : nat) (s : string) :
    option (list A * string) :=
  match fuel, s with
  | S fuel, String c k =>
      if Ascii.eqb c "," then
        '(x, k) ← p k; '(l, k) ← seq_parse p fuel k; Some (x :: l, k)
      else Some ([], k)
  | _, _ => None
  end.

Fixpoint json_parse (fuel : nat) (s : string) : option (json * string) :=
  match fuel, s with
  | S fuel, String c k =>
      if Ascii.eqb c "N" then Some (JNull, k)
      else if Ascii.eqb c "B" then '(b, k) ← bool_parse k; Some (JBool b, k)
      else if Ascii.eqb c "I" then '(z, k) ← Z_parse k; Some (JInt z, k)
      else if Ascii.eqb c "F" then '(x, k) ← float_parse k; Some (JFloat x, k)
      else if Ascii.eqb c "S" then '(t, k) ← str_parse k; Some (JStr t, k)
      else if Ascii.eqb c "L" then
        '(l, k) ← seq_parse (json_parse fuel) fuel k; Some (JList l, k)
      else '(d, k) ← seq_parse (λ k, '(key, k) ← str_parse k; '(x, k) ← json_parse fuel k;
                                     Some ((key, x), k)) fuel k; Some (JDict d, k)
  | _, _ => None
  end.

(** ** The parser inverts the printer *)

Lemma pos_parse_print p k : pos_parse (pos_print p k) = Some (p, k).
Proof. induction p as [p IH|p IH|]; simpl; [by rewrite IH..|done]. Qed.
Lemma Z_parse_print z k : Z_parse (Z_print z k) = Some (z, k).
Proof. destruct z; simpl; rewrite ?pos_parse_print; done. Qed.
Lemma bool_parse_print b k : bool_parse (bool_print b k) = Some (b, k).
Proof. by destruct b. Qed.
Lemma str_parse_print s k : str_parse (str_print s k) = Some (s, k).
Proof. induction s as [|c s IH]; simpl; [by destruct k|]. by rewrite IH. Qed.
Lemma float_parse_print x k : float_parse (float_print x k) = Some (x, k).
Proof.
  destruct x as [b|b| |b m e]; [by destruct b..|done|].
  cbn -[Z_parse Z_print bool_parse bool_print]. rewrite bool_parse_print.
  cbn -[Z_parse Z_print]. rewrite Z_parse_print. cbn -[Z_parse Z_print].
  by rewrite Z_parse_print.
Qed.

Fixpoint json_size (j : json) : nat :=
  match j with
  | JList l => S ((fix go l := match l with [] => 1 | x :: l => S (json_size x + go l) end) l)
  | JDict d => S ((fix go d := match d with [] => 1 | (_, x) :: d => S (json_size x + go d) end) d)
  | _ => 1
  end%nat.

Lemma seq_parse_print {A} (p : string → option (A * string)) (pr : A → string → string)
    (size : A → nat) (close : ascii) (l : list A) (fuel : nat) (k : string) :
  Ascii.eqb close "," = false →
  Forall (λ x, ∀ k, p (pr x k) = Some (x, k)) l → (length l < fuel)%nat →
  seq_parse p fuel (foldr (λ x r, String "," (pr x r)) (String close k) l) = Some (l, k).
Proof.
  intros Hc Hl. revert fuel. induction Hl as [|x l Hx _ IH]; intros [|fuel] Hf; simpl in *;
    try lia.
  - by rewrite Hc.
  - rewrite Hx. simpl. rewrite IH by lia. done.
Qed.

Lemma json_size_pos j : (0 < json_size j)%nat.
Proof. destruct j; simpl; lia. Qed.

Lemma json_size_list l x :
  x ∈ l → (json_size x + length l < json_size (JList l))%nat.
Proof.
  intros Hx. simpl. induction l as [|y l IH]; [by apply not_elem_of_nil in Hx|]. simpl.
  pose proof (json_size_pos y). apply elem_of_cons in Hx as [->|Hx]; [|specialize (IH Hx); lia].
  clear IH. assert (length l < (fix go l := match l with [] => 1 | x :: l => S (json_size x + go l) end) l)%nat;
    [|lia]. clear. induction l as [|z l IH]; simpl; [lia|]. lia.
Qed.
Lemma json_size_dict d kv :
  kv ∈ d → (json_size kv.2 + length d < json_size (JDict d))%nat.
Proof.
  intros Hx. simpl. induction d as [|[k y] l IH]; [by apply not_elem_of_nil in Hx|]. simpl.
  pose proof (json_size_pos y). apply elem_of_cons in Hx as [->|Hx]; [|specialize (IH Hx); lia].
  clear IH. assert (length l < (fix go (d : list (string * json)) := match d with [] => 1
    | (_, x) :: d => S (json_size x + go d) end) l)%nat;
    [|simpl; lia]. clear. induction l as [|[? z] l IH]; simpl; [lia|]. lia.
Qed.

Lemma json_print_list l k :
  json_print (JList l) k = String "L" (foldr (λ x r, String "," (json_print x r)) (String "]" k) l).
Proof. reflexivity. Qed.
Lemma json_print_dict d k :
  json_print (JDict d) k = String "D" (foldr (λ kv r, String "," (str_print kv.1 (json_print kv.2 r)))
    (String "}" k) d).
Proof.
  cbn [json_print]. f_equal. induction d as [|[key x] d IH]; [done|]. cbn [foldr fst snd].
  by rewrite <- IH.
Qed.

Lemma json_parse_list fuel t :
  json_parse (S fuel) (String "L" t)
  = ('(l, k) ← seq_parse (json_parse fuel) fuel t; Some (JList l, k)).
Proof. reflexivity. Qed.
Lemma json_parse_dict fuel t :
  json_parse (S fuel) (String "D" t)
  = ('(d, k) ← seq_parse (λ k, '(key, k) ← str_parse k; '(x, k) ← json_parse fuel k;
                               Some ((key, x), k)) fuel t; Some (JDict d, k)).
Proof. reflexivity. Qed.

Lemma json_parse_print j fuel k :
  (json_size j ≤ fuel)%nat → json_parse fuel (json_print j k) = Some (j, k).
Proof.
  revert fuel k. induction j as [|b|z|x|s|l IH|d IH] using json_ind'; intros [|fuel] k Hf;
    try (simpl in Hf; lia).
  - done.
  - cbn -[bool_parse bool_print]. by rewrite bool_parse_print.
  - cbn -[Z_parse Z_print]. by rewrite Z_parse_print.
  - cbn -[float_parse float_print]. by rewrite float_parse_print.
  - cbn -[str_parse str_print]. by rewrite str_parse_print.
  - rewrite json_print_list, json_parse_list.
    rewrite (seq_parse_print _ json_print json_size); [done|done| |].
    + rewrite Forall_forall in IH |- *. intros x Hx k'. apply IH; [done|].
      pose proof (json_size_list l x Hx). lia.
    + destruct l as [|x l]; [simpl in *; lia|].
      pose proof (json_size_list (x :: l) x ltac:(left)). pose proof (json_size_pos x). lia.
  - rewrite json_print_dict, json_parse_dict.
    rewrite (seq_parse_print _ (λ kv r, str_print kv.1 (json_print kv.2 r))
               (λ kv, json_size kv.2)); [done|done| |].
    + rewrite Forall_forall in IH |- *. intros [key x] Hx k'. rewrite str_parse_print.
      cbn -[json_parse json_print]. specialize (IH _ Hx). simpl in IH. rewrite IH; [done|].
      pose proof (json_size_dict d (key, x) Hx). simpl in *. lia.
    + destruct d as [|x d]; [simpl in *; lia|].
      pose proof (json_size_dict (x :: d) x ltac:(left)). pose proof (json_size_pos x.2). lia.
Qed.

(** The printed text is at least as long as the fuel its parser needs. *)
Lemma pos_print_length p k : (String.length k ≤ String.length (pos_print p k))%nat.
Proof. induction p; simpl; lia. Qed.
Lemma Z_print_length z k : (String.length k ≤ String.length (Z_print z k))%nat.
Proof. destruct z as [|p|p]; simpl; [lia|pose proof (pos_print_length p k); lia..]. Qed.
Lemma str_print_length s k : (String.length k ≤ String.length (str_print s k))%nat.
Proof. induction s; simpl; lia. Qed.
Lemma float_print_length x k : (String.length k ≤ String.length (float_print x k))%nat.
Proof.
  destruct x as [b|b| |b m e]; cbn -[Z_print]; [lia..|].
  pose proof (Z_print_length e k). pose proof (Z_print_length (Zpos m) (Z_print e k)). lia.
Qed.

Lemma json_size_print j k : (json_size j + String.length k ≤ String.length (json_print j k))%nat.
Proof.
  revert k. induction j as [|b|z|x|s|l IH|d IH] using json_ind'; intros k.
  - simpl. lia.
  - simpl. lia.
  - pose proof (Z_print_length z k). cbn -[Z_print]. lia.
  - pose proof (float_print_length x k). cbn -[float_print]. lia.
  - pose proof (str_print_length s k). simpl. lia.
  - rewrite json_print_list. cbn [String.length]. induction IH as [|x l Hx _ IHl]; simpl in *; [lia|].
    specialize (Hx (foldr (λ x r, String "," (json_print x r)) (String "]" k) l)). lia.
  - rewrite json_print_dict. cbn [String.length].
    induction IH as [|[key x] d Hx _ IHd]; simpl in *; [lia|].
    set (r := foldr _ _ d) in *. specialize (Hx r).
    pose proof (str_print_length key (json_print x r)). lia.
Qed.

Definition ex_dumps (j : json) : string := json_print j "".
Definition ex_loads (s : string) : result json :=
  match json_parse (String.length s) s with
  | Some (j, EmptyString) => Ok j
  | _ => Raise (ValueError "Expecting value")
  end.

#[export] Instance ex_platform : Platform :=
  {| py_repr := ex_dumps; literal_eval := λ _, None; version := "1.0";
     json_dumps := ex_dumps; json_loads := ex_loads |}.
#[export] Instance ex_platform_laws : PlatformLaws.
Proof.
  intros j. unfold json_loads, json_dumps, ex_platform, ex_loads, ex_dumps.
  rewrite json_parse_print; [done|]. pose proof (json_size_print j ""). simpl in *. lia.
Qed.
