(* ===== verification/EventStream.v ===== *)
(** * The event stream

    Models [openhands/events/stream.py]: publishing events (id assignment, secret
    redaction, persistence in files and cache pages, the queue) and subscribers.
    The clock is an argument ([now]); a callback is named by a number, and its
    single-threaded pool is the list of events submitted to it. *)

From S2P Require Import Prelude PyValue Schema Actions Observations Events Serialization.
From S2P Require Import FileStore EventStore.
Local Open Scope Z_scope.
Local Open Scope py_scope.

(** ** Redaction *)

(** [s.replace(old, new)] for a nonempty [old]; [skip] characters of a match remain. *)
Fixpoint replace_go (old new : string) (skip : nat) (s : string) : string :=
  match s with
  | EmptyString => EmptyString
  | String c s' =>
      match skip with
      | S k => replace_go old new k s'
      | O => if String.prefix old s
             then new +:+ replace_go old new (pred (String.length old)) s'
             else String c (replace_go old new O s')
      end
  end.

(** An empty [old] matches before every character and at the end. *)
Fixpoint replace_empty (new s : string) : string :=
  match s with
  | EmptyString => new
  | String c s' => new +:+ String c (replace_empty new s')
  end.

Definition str_replace (old new s : string) : string :=
  if String.eqb old "" then replace_empty new s else replace_go old new O s.

Definition SECRET_HIDDEN : string := "<secret_hidden>".

Definition TOP_LEVEL_PROTECTED_FIELDS : list string :=
  ["timestamp"; "id"; "source"; "cause"; "action"; "observation"; "message"].

Definition redact (secrets : list (string * string)) (s : string) : string :=
  foldl (λ t kv, str_replace kv.2 SECRET_HIDDEN t) s secrets.

(** [_replace_secrets] on a value under a key that is not protected: only
    dictionaries are entered and only strings replaced. *)
Fixpoint replace_value (secrets : list (string * string)) (j : json) : json :=
  match j with
  | JDict d =>
      JDict ((fix go d := match d with
        | [] => []
        | (k, v) :: d => (k, replace_value secrets v) :: go d
        end) d)
  | JStr s => JStr (redact secrets s)
  | j => j
  end.

Definition replace_secrets (secrets : list (string * string)) (d : dict) : dict :=
  (λ '(k, v), (k, if existsb (String.eqb k) TOP_LEVEL_PROTECTED_FIELDS then v
                  else replace_value secrets v)) <$> d.

(** ** The stream *)

Section stream.
Context `{FileStore F} `{Platform}.

Record EventStream := mkEventStream {
  st_store : EventStore F;
  st_secrets : list (string * string);
  st_page : list dict;
  st_queue : list Event;
  st_subscribers : list (string * list (string * nat));
  st_pools : list (string * list (string * list Event));
}.

Definition new_EventStream (sid : string) (fs : F) (user_id : option string) : EventStream :=
  mkEventStream (new_EventStore sid fs user_id) [] [] [] [] [].

Definition set_store (x : EventStore F) (s : EventStream) : EventStream :=
  mkEventStream x (st_secrets s) (st_page s) (st_queue s) (st_subscribers s) (st_pools s).
Definition set_page (x : list dict) (s : EventStream) : EventStream :=
  mkEventStream (st_store s) (st_secrets s) x (st_queue s) (st_subscribers s) (st_pools s).
Definition set_queue (x : list Event) (s : EventStream) : EventStream :=
  mkEventStream (st_store s) (st_secrets s) (st_page s) x (st_subscribers s) (st_pools s).
Definition set_secrets (x : list (string * string)) (s : EventStream) : EventStream :=
  mkEventStream (st_store s) x (st_page s) (st_queue s) (st_subscribers s) (st_pools s).
Definition update_secrets (x : list (string * string)) (s : EventStream) : EventStream :=
  set_secrets (foldl (λ d kv, dset kv.1 kv.2 d) (st_secrets s) x) s.
Definition set_subscribers x y (s : EventStream) : EventStream :=
  mkEventStream (st_store s) (st_secrets s) (st_page s) (st_queue s) x y.

(** A computation on the store part. *)
Definition on_store {A} (m : pyM (EventStore F) A) : pyM EventStream A := λ s,
  let '(x, r) := m (st_store s) in (set_store x s, r).
Definition write_file (path contents : string) : pyM EventStream unit :=
  on_store (λ x, let '(f, r) := fs_write path contents (es_file_store x) in
                 (set_file_store f x, r)).

(** [_store_cache_page] *)
Definition store_cache_page (page : list dict) : pyM EventStream unit := λ s,
  let size := es_cache_size (st_store s) in
  if py_len page <? size then (s, Ok tt)
  else match page with
       | [] => (s, Raise IndexError)
       | d :: _ =>
           match dget "id" d with
           | Some (JInt start) =>
               write_file (get_filename_for_cache (st_store s) start (start + size))
                 (json_dumps (JList (JDict <$> page))) s
           | _ => (s, Raise (KeyError "id"))
           end
       end.

(** [add_event].  The event is an object the caller holds: it is part of the
    state, and gets its timestamp, source and id even when a later step raises. *)
Definition add_event (now : string) (source : EventSource) :
    pyM (EventStream * Event) unit := λ '(s, event),
  if negb (event_id event =? INVALID_ID) then
    ((s, event), Raise (ValueError ("Event already has an ID:" +:+ pretty (event_id event) +:+
      ". It was probably added back to the EventStream from inside a handler, triggering a loop.")))
  else
    let event := set_source (Some source) (set_timestamp (Some now) event) in
    match on_store cur_id s with
    | (s, Raise e) => ((s, event), Raise e)
    | (s, Ok i) =>
        let event := set_id (Some i) event in
        let s := set_store (set_cur_id (i + 1) (st_store s)) s in
        match (let? data := to_dict event in
               let data := replace_secrets (st_secrets s) data in
               let? copy := from_dict data in Ok (data, copy)) with
        | Raise e => ((s, event), Raise e)
        | Ok (data, copy) =>
            let page := st_page s ++ [data] in
            let s := set_page (if py_len page =? es_cache_size (st_store s) then [] else page) s in
            let '(s, r) :=
              (write_file (get_filename_for_id (st_store s) (event_id copy))
                 (json_dumps (JDict data)) ;;;
               store_cache_page page ;;;
               pmodify (λ s, set_queue (st_queue s ++ [copy]) s)) s in
            ((s, event), r)
        end
    end.

(** ** Subscribers *)

(** [subscribe] *)
Definition subscribe (subscriber callback_id : string) (callback : nat) :
    pyM EventStream unit := λ s,
  let '(subs, pools) :=
    if dmem subscriber (st_subscribers s) then (st_subscribers s, st_pools s)
    else (dset subscriber [] (st_subscribers s), dset subscriber [] (st_pools s)) in
  let cbs := from_option id [] (dget subscriber subs) in
  if dmem callback_id cbs then
    (set_subscribers subs pools s,
     Raise (ValueError ("Callback ID on subscriber " +:+ subscriber +:+ " already exists: "
                        +:+ callback_id)))
  else
    (set_subscribers (dset subscriber (dset callback_id callback cbs) subs)
       (dset subscriber (dset callback_id [] (from_option id [] (dget subscriber pools))) pools) s,
     Ok tt).

(** [unsubscribe] and [_clean_up_subscriber] *)
Definition unsubscribe (subscriber callback_id : string) (s : EventStream) : EventStream :=
  match dget subscriber (st_subscribers s) with
  | None => s
  | Some cbs =>
      if dmem callback_id cbs then
        set_subscribers (dset subscriber (ddel callback_id cbs) (st_subscribers s))
          (match dget subscriber (st_pools s) with
           | Some p => dset subscriber (ddel callback_id p) (st_pools s)
           | None => st_pools s
           end) s
      else s
  end.

(** [close]: every callback is removed and the queue emptied. *)
Definition close (s : EventStream) : EventStream :=
  let s := foldl (λ s '(sub, cbs), foldl (λ s cb, unsubscribe sub cb.1 s) s cbs)
             s (st_subscribers s) in
  set_queue [] s.

(** The calls one event of the queue causes, in order: subscribers sorted by name,
    callbacks in order of subscription. *)
Definition deliveries (s : EventStream) : list (string * string * nat) :=
  let keys := merge_sort String.le (fst <$> st_subscribers s) in
  keys ≫= λ k, (λ '(cb, f), (k, cb, f)) <$> from_option id [] (dget k (st_subscribers s)).

Definition submit (e : Event) (sub cb : string) (pools : list (string * list (string * list Event))) :
    list (string * list (string * list Event)) :=
  match dget sub pools with
  | Some p => dset sub (dset cb (from_option id [] (dget cb p) ++ [e]) p) pools
  | None => pools
  end.

(** One turn of [_process_queue]: the oldest event goes to every callback's pool. *)
Definition process_one (s : EventStream) : EventStream :=
  match st_queue s with
  | [] => s
  | e :: q =>
      mkEventStream (st_store s) (st_secrets s) (st_page s) q (st_subscribers s)
        (foldl (λ pools '(sub, cb, _), submit e sub cb pools) (st_pools s) (deliveries s))
  end.
End stream.
Arguments EventStream : clear implicits.
