(* ===== verification/RedactionProps.v ===== *)
(** * Redaction of secrets

    What [_replace_secrets] guarantees on the documents [add_event] stores, and
    what it does not reach. *)

From S2P Require Import Prelude PyValue Schema Actions Observations Events Serialization.
From S2P Require Import SerializationProps FileStore EventStore EventStream.
Local Open Scope Z_scope.

(** ** Occurrences *)

Fixpoint no_char (c : ascii) (s : string) : bool :=
  match s with
  | EmptyString => true
  | String d s' => negb (Ascii.eqb c d) && no_char c s'
  end.

Lemma prefix_cons_eq c s t : String.prefix (String c s) (String c t) = String.prefix s t.
Proof. simpl. by destruct (Ascii.ascii_dec c c). Qed.

Lemma prefix_no_char c s a b :
  no_char c s = true → String.prefix s (a +:+ String c b) = String.prefix s a.
Proof.
  revert a. induction s as [|d s IH]; intros a Hs; [by destruct a|].
  apply andb_true_iff in Hs as [Hd Hs]. destruct a as [|x a].
  - change (EmptyString +:+ String c b) with (String c b). simpl.
    destruct (Ascii.ascii_dec d c) as [->|]; [|done]. by rewrite Ascii.eqb_refl in Hd.
  - rewrite append_cons. simpl. destruct (Ascii.ascii_dec d x); [by apply IH|done].
Qed.

(** An occurrence does not straddle a character the pattern does not have. *)
Lemma contains_split c s a b :
  no_char c s = true → s ≠ "" →
  str_contains s (a +:+ String c b) = str_contains s a || str_contains s b.
Proof.
  intros Hs Hne. induction a as [|x a IH].
  - change (EmptyString +:+ String c b) with (String c b). cbn [str_contains].
    pose proof (prefix_no_char c s "" b Hs) as Hp.
    change ("" +:+ String c b) with (String c b) in Hp. rewrite Hp. by destruct s.
  - rewrite append_cons. cbn [str_contains]. rewrite <- append_cons, prefix_no_char by done.
    rewrite IH. by rewrite orb_assoc.
Qed.

(** The secrets the theorem speaks of: not empty, without the marker's brackets,
    and not part of the marker's text. *)
Definition plain_secret (s : string) : bool :=
  negb (String.eqb s "") && no_char "<"%char s && no_char ">"%char s &&
  negb (str_contains s "secret_hidden").

Lemma plain_secret_spec s :
  plain_secret s = true ↔
  s ≠ "" ∧ no_char "<"%char s = true ∧ no_char ">"%char s = true
  ∧ str_contains s "secret_hidden" = false.
Proof.
  unfold plain_secret. rewrite !andb_true_iff, !negb_true_iff.
  rewrite String.eqb_neq. tauto.
Qed.

Lemma contains_marker s t :
  plain_secret s = true → str_contains s (SECRET_HIDDEN +:+ t) = str_contains s t.
Proof.
  intros (Hne & Hl & Hr & Hh)%plain_secret_spec.
  change (SECRET_HIDDEN +:+ t) with ("" +:+ String "<"%char ("secret_hidden" +:+ String ">"%char t)).
  rewrite contains_split, contains_split, Hh by done. by destruct s.
Qed.

Lemma prefix_marker s t :
  no_char "<"%char s = true → s ≠ "" → String.prefix s (SECRET_HIDDEN +:+ t) = false.
Proof.
  intros Hs Hne. destruct s as [|c s]; [done|]. apply andb_true_iff in Hs as [Hc _].
  change (SECRET_HIDDEN +:+ t) with (String "<"%char ("secret_hidden>" +:+ t)). cbn [String.prefix].
  destruct (Ascii.ascii_dec c "<"%char) as [->|]; done.
Qed.

(** A match at the start of the output was already one in the input. *)
Lemma prefix_replace s old t :
  no_char "<"%char s = true →
  String.prefix s (replace_go old SECRET_HIDDEN O t) = true → String.prefix s t = true.
Proof.
  revert t. induction s as [|c s IH]; intros t Hs; [by destruct t|].
  destruct t as [|d t]; [done|]. cbn [replace_go].
  destruct (String.prefix old (String d t)); [by rewrite prefix_marker|].
  apply andb_true_iff in Hs as [_ Hs]. cbn [String.prefix].
  destruct (Ascii.ascii_dec c d); [by apply IH|done].
Qed.

Lemma prefix_replace_cons s old c t :
  no_char "<"%char s = true →
  String.prefix s (String c (replace_go old SECRET_HIDDEN O t)) = true →
  String.prefix s (String c t) = true.
Proof.
  destruct s as [|d s]; [done|]. intros [_ Hs]%andb_true_iff. cbn [String.prefix].
  destruct (Ascii.ascii_dec d c); [by apply prefix_replace|done].
Qed.

(** Replacing anything creates no occurrence of a plain secret. *)
Lemma replace_preserves s old skip t :
  plain_secret s = true → str_contains s t = false →
  str_contains s (replace_go old SECRET_HIDDEN skip t) = false.
Proof.
  intros Hp. pose proof (proj1 (plain_secret_spec s) Hp) as (Hne & Hl & _).
  revert skip. induction t as [|c t IH]; intros skip Ht; [by destruct s|].
  cbn [str_contains] in Ht. apply orb_false_iff in Ht as [Hpre Ht].
  destruct skip as [|k]; cbn [replace_go]; [|by apply IH].
  destruct (String.prefix old (String c t)); [rewrite contains_marker by done; by apply IH|].
  cbn [str_contains]. rewrite (IH O Ht), orb_false_r. apply not_true_iff_false. intros E.
  apply prefix_replace_cons in E; [|done]. by rewrite E in Hpre.
Qed.

(** Replacing a plain secret removes it. *)
Lemma replace_removes s skip t :
  plain_secret s = true → str_contains s (replace_go s SECRET_HIDDEN skip t) = false.
Proof.
  intros Hp. pose proof (proj1 (plain_secret_spec s) Hp) as (Hne & Hl & _).
  revert skip. induction t as [|c t IH]; intros skip; [by destruct s|].
  destruct skip as [|k]; cbn [replace_go]; [|by apply IH].
  destruct (String.prefix s (String c t)) eqn:Hpre; [rewrite contains_marker by done; by apply IH|].
  cbn [str_contains]. rewrite IH, orb_false_r. apply not_true_iff_false. intros E.
  apply prefix_replace_cons in E; [|done]. by rewrite E in Hpre.
Qed.

Lemma str_replace_plain old new t :
  plain_secret old = true → str_replace old new t = replace_go old new O t.
Proof.
  intros (Hne & _)%plain_secret_spec. unfold str_replace.
  by rewrite (proj2 (String.eqb_neq _ _)).
Qed.

(** All the secrets of a stream. *)
Definition plain_secrets (secrets : list (string * string)) : Prop :=
  Forall (λ kv, plain_secret kv.2 = true) secrets.

Lemma redact_preserves secrets s t :
  plain_secrets secrets → plain_secret s = true → str_contains s t = false →
  str_contains s (redact secrets t) = false.
Proof.
  intros Hall Hp. unfold redact. revert t.
  induction Hall as [|kv l Hkv _ IH]; intros t Ht; [done|].
  simpl. apply IH. rewrite str_replace_plain by done. by apply replace_preserves.
Qed.

Lemma redact_clean secrets s t :
  plain_secrets secrets → s ∈ secrets.*2 → str_contains s (redact secrets t) = false.
Proof.
  intros Hall Hs. revert t. induction Hall as [|kv l Hkv Hl IH]; intros t.
  - by apply not_elem_of_nil in Hs.
  - change (redact (kv :: l) t) with (redact l (str_replace kv.2 SECRET_HIDDEN t)).
    rewrite str_replace_plain by done.
    apply elem_of_cons in Hs as [->|Hs]; [|by apply IH].
    apply redact_preserves; [done..|]. by apply replace_removes.
Qed.

(** ** Documents *)

(** The strings reached from a value through dictionaries. *)
Fixpoint dict_strings (j : json) : list string :=
  match j with
  | JStr s => [s]
  | JDict d => (fix go d := match d with [] => [] | (_, v) :: d => dict_strings v ++ go d end) d
  | _ => []
  end.

Definition protected (k : string) : bool := existsb (String.eqb k) TOP_LEVEL_PROTECTED_FIELDS.

Lemma replace_value_clean secrets s j t :
  plain_secrets secrets → s ∈ secrets.*2 →
  t ∈ dict_strings (replace_value secrets j) → str_contains s t = false.
Proof.
  intros Hall Hs. induction j as [| | | |u| |d IH] using json_ind'; simpl;
    try by intros ?%not_elem_of_nil.
  - intros ->%list_elem_of_singleton. by apply redact_clean.
  - induction IH as [|[k v] d Hv _ IHd]; [by intros ?%not_elem_of_nil|].
    intros [H|H]%elem_of_app; auto.
Qed.

(** C30 No secret is left in a stored document wherever redaction reaches: in every
    string of a field that is not protected, through any nesting of dictionaries,
    provided the secrets are nonempty and cannot be confused with the marker
    ([plain_secret]). *)
Theorem replace_secrets_clean (secrets : list (string * string)) (d : dict)
    (k s t : string) (v : json) :
  plain_secrets secrets → s ∈ secrets.*2 →
  (k, v) ∈ replace_secrets secrets d → protected k = false →
  t ∈ dict_strings v → str_contains s t = false.
Proof.
  intros Hall Hs Hin Hk Ht. unfold replace_secrets in Hin.
  apply list_elem_of_fmap in Hin as ([k' v'] & Heq & _).
  assert (v = if protected k then v' else replace_value secrets v') as ->
    by (injection Heq as -> ->; done).
  rewrite Hk in Ht. by eapply replace_value_clean.
Qed.

Lemma replace_secrets_clean_witness :
  str_contains "hunter2" "<secret_hidden> ok" = false.
Proof.
  apply (replace_secrets_clean [("PW", "hunter2")]
           [("args", JDict [("command", JStr "hunter2 ok")])] "args" "hunter2" _
           (JDict [("command", JStr "<secret_hidden> ok")])).
  - repeat constructor.
  - left.
  - vm_compute. left.
  - reflexivity.
  - left.
Defined.

Lemma dget_replace_secrets secrets d k :
  dget k (replace_secrets secrets d)
  = (λ v, if protected k then v else replace_value secrets v) <$> dget k d.
Proof.
  unfold replace_secrets. induction d as [|[k' v] d IH]; [done|]. simpl.
  destruct (String.eqb_spec k k') as [->|]; [|done]. simpl. done.
Qed.

(** Redaction skips the top-level [message] field, and what is inside lists: a
    user message is stored with its text once redacted (under [args]) and once in
    the clear (under [message]). *)
Theorem message_not_redacted (repr : json → string) (secrets : list (string * string))
    (m : MessageAction) (meta : EventMeta) :
  let e := mkEvent meta (EAction (AMessage m)) in
  ∃ d args, event_to_dict repr e = Ok d
    ∧ dget "message" (replace_secrets secrets d) = Some (JStr (ma_content m))
    ∧ dget "args" (replace_secrets secrets d) = Some (JDict args)
    ∧ dget "content" args = Some (JStr (redact secrets (ma_content m)))
    ∧ dget "image_urls" args = Some (jopt (λ l, jstrs l) (ma_image_urls m)).
Proof.
  intros e. destruct m as [c f u w r].
  assert (Hd : ∃ d, event_to_dict repr e = Ok d ∧ dget "message" d = Some (JStr c)
    ∧ dget "args" d = Some (JDict (action_args (AMessage (mkMessageAction c f u w r))))).
  { eexists. split; [reflexivity|]. subst e; cbn [ev_body]. split; doc_skip; reflexivity. }
  destruct Hd as (d & Hd & Hm & Ha). exists d.
  exists (match replace_value secrets (JDict (action_args (AMessage (mkMessageAction c f u w r))))
          with JDict a => a | _ => [] end).
  split; [exact Hd|]. rewrite (dget_replace_secrets _ _ "message"), Hm.
  rewrite (dget_replace_secrets _ _ "args"), Ha. split_and!; [reflexivity..|].
  by destruct u.
Qed.
