(* ===== verification/EventStreamProps.v ===== *)
(** * The event stream implements an append-only log

    The abstract specification of an event stream is a list of events: publishing
    appends the stored copy of an event under the next id, and searching reads the
    list.  [stream_inv] relates a stream, its files and its cache pages to that
    list; [add_event] preserves the relation and searching answers from it. *)

From S2P Require Import Prelude PyValue Schema Actions Observations Events Serialization.
From S2P Require Import SerializationProps FileStore EventStore ExamplePlatform.
From S2P Require Import View EventStream RedactionProps.
Local Open Scope Z_scope.
Local Open Scope py_scope.

(** ** File names *)

Lemma split_head c a b :
  str_contains (String c "") a = false →
  head (str_split c (a +:+ (String c "" +:+ b))) = Some a.
Proof.
  intros H. change (String c "" +:+ b) with (String c b). unfold str_split. rewrite str_split_go_app.
  change (str_split_go c "" a) with (str_split c a). by rewrite str_split_none.
Qed.

Section names.
Context `{FileStore F} `{Platform}.
Implicit Types s : EventStore F.

Lemma filename_id_inj s i j : get_filename_for_id s i = get_filename_for_id s j → i = j.
Proof.
  unfold get_filename_for_id, get_conversation_event_filename. intros Heq.
  apply (inj (String.append _)), append_inj_r in Heq. by apply (inj pretty) in Heq.
Qed.

Lemma filename_id_cache s i a b : get_filename_for_id s i ≠ get_filename_for_cache s a b.
Proof.
  unfold get_filename_for_id, get_conversation_event_filename, get_conversation_events_dir,
    get_filename_for_cache. rewrite <- append_assoc. intros Heq.
  apply (inj (String.append _)) in Heq.
  change (String "e" (String "v" (String "e" (String "n" (String "t" (String "s"
    ("/" +:+ (pretty i +:+ ".json"))))))) = String "e" (String "v" (String "e" (String "n"
    (String "t" (String "_" ("cache/" +:+ (pretty a +:+ ("-" +:+ (pretty b +:+ ".json")))))))))) in Heq.
  discriminate.
Qed.

Lemma pretty_neg_head z : z < 0 → ∃ r, pretty z = String "-"%char r.
Proof. destruct z as [|p|p]; [lia..|]. intros _. by eexists. Qed.

Lemma pretty_no_dash z : 0 ≤ z → str_contains "-" (pretty z) = false.
Proof. intros Hz. apply (all_chars_absent is_digit); [by apply pretty_digits|done]. Qed.

Lemma pretty_neg_inj a b z : 0 ≤ z → String "-"%char a = pretty z +:+ b → False.
Proof.
  intros Hz. pose proof (pretty_digits z Hz) as Hd. pose proof (parse_pretty z Hz) as Hp.
  destruct (pretty z) as [|c r]; [done|].
  change (String c r +:+ b) with (String c (r +:+ b)). intros [= <- _]. done.
Qed.

Lemma filename_cache_inj s a b k :
  0 ≤ b → get_filename_for_cache s a (a + k) = get_filename_for_cache s b (b + k) → a = b.
Proof.
  unfold get_filename_for_cache. intros Hb Heq.
  apply (inj (String.append _)), (inj (String.append _)) in Heq.
  destruct (decide (0 ≤ a)) as [Ha|Ha].
  - apply (f_equal (λ x, head (str_split "-"%char x))) in Heq.
    rewrite (split_head "-"%char (pretty a)), (split_head "-"%char (pretty b)) in Heq
      by by apply pretty_no_dash.
    injection Heq as Heq. by apply (inj pretty) in Heq.
  - destruct (pretty_neg_head a ltac:(lia)) as [r Hr]. rewrite Hr in Heq.
    exfalso. by eapply pretty_neg_inj.
Qed.
End names.

(** ** Ids of documents *)

Section ids.
Context `{Platform}.

Lemma to_dict_id e d i : to_dict e = Ok d → event_id e = i → i ≠ INVALID_ID →
  dget "id" d = Some (JInt i).
Proof.
  unfold to_dict, event_to_dict. destruct (event_message _ _); cbn [rbind]; [|done].
  intros [= <-] -> Hi. rewrite (proj2 (Z.eqb_neq i INVALID_ID)) by done. done.
Qed.

Lemma load_key_id {A} k dec (set : A → Event → Event) d e e' :
  (∀ a x, m_id (ev_meta (set a x)) = m_id (ev_meta x)) →
  load_key k dec set d e = Ok e' → m_id (ev_meta e') = m_id (ev_meta e).
Proof.
  intros Hset. unfold load_key. destruct (dget k d) as [j|]; [|by intros [= ->]].
  destruct (dec j); cbn [rbind]; [|done]. intros [= <-]. apply Hset.
Qed.

Lemma from_dict_id d e i : from_dict d = Ok e → dget "id" d = Some (JInt i) → event_id e = i.
Proof.
  unfold from_dict, event_from_dict. intros Hd Hi.
  destruct (if dmem "action" d then _ else _) as [e0|]; cbn [rbind] in Hd; [|done].
  unfold load_meta in Hd. unfold load_key at 1 in Hd. rewrite Hi in Hd.
  change (typed "id" (dec_opt dec_Z) (JInt i)) with (Ok (A := option Z) (Some i)) in Hd.
  cbn [rbind] in Hd.
  assert (Hid : m_id (ev_meta e) = Some i); [|unfold event_id; by rewrite Hid].
  repeat match type of Hd with
  | rbind (load_key ?k ?dec ?set d ?x) ?f = Ok e =>
      let E := fresh "E" in let y := fresh "y" in
      destruct (load_key k dec set d x) as [y|] eqn:E; cbn [rbind] in Hd; [|done];
      apply load_key_id in E; [|done]
  end.
  apply load_key_id in Hd; [|done].
  repeat match goal with E : m_id (ev_meta ?y) = _ |- m_id (ev_meta ?y) = _ => rewrite E; clear E end.
  reflexivity.
Qed.
End ids.

(** ** The invariant *)

(** Writes succeed and a read fails only on a missing file. *)
Class ReliableFileStore (F : Type) `{FileStore F} := {
  fs_write_ok : ∀ (f : F) p c, ∃ f', fs_write p c f = (f', Ok tt);
  fs_read_err : ∀ (f : F) p e, fs_read f p = Raise e → e = FileNotFoundError;
}.
#[export] Instance mem_reliable : ReliableFileStore InMemoryFileStore.
Proof.
  split; simpl; unfold mem_write, mem_read, pmodify; [by eauto|].
  intros f p e. by destruct (dget p (files f)); intros [= <-].
Qed.

Section refinement.
#[local] Set Default Proof Using "All".
Context `{FileStoreLaws F} `{!ReliableFileStore F} `{PlatformLaws}.
Implicit Types (s : EventStore F) (st : EventStream F) (log : list Event).

(** The file of id [i] holds the document [d] of an event with that id. *)
Definition file_holds s (i : Z) (d : dict) : Prop :=
  fs_read (es_file_store s) (get_filename_for_id s i) = Ok (json_dumps (JDict d))
  ∧ dget "id" d = Some (JInt i).

Record store_inv s log : Prop := {
  si_cur : es_cur_id s = Some (py_len log);
  si_size : 0 < es_cache_size s;
  si_event : ∀ k e, log !! k = Some e →
    ∃ d, file_holds s (Z.of_nat k) d ∧ from_dict d = Ok e;
  si_rest : ∀ i, i < 0 ∨ py_len log ≤ i →
    fs_read (es_file_store s) (get_filename_for_id s i) = Raise FileNotFoundError;
  si_page : ∀ start content,
    fs_read (es_file_store s) (get_filename_for_cache s start (start + es_cache_size s))
      = Ok content →
    ∃ ds, content = json_dumps (JList (JDict <$> ds)) ∧ py_len ds = es_cache_size s
      ∧ ∀ k d, ds !! k = Some d →
          file_holds s (start + Z.of_nat k) d ∧ ∃ e, from_dict d = Ok e;
}.

(** The page being filled holds the documents of the last events. *)
Record stream_inv st log : Prop := {
  sv_store : store_inv (st_store st) log;
  sv_short : py_len (st_page st) < es_cache_size (st_store st);
  sv_len : py_len (st_page st) ≤ py_len log;
  sv_page : ∀ k d, st_page st !! k = Some d →
    file_holds (st_store st) (py_len log - py_len (st_page st) + Z.of_nat k) d
    ∧ ∃ e, from_dict d = Ok e;
}.

Lemma store_inv_coherent s log : store_inv s log → cache_coherent s.
Proof.
  intros [_ Hsz _ _ Hpg]. split; [done| |].
  - intros start content Hc. destruct (Hpg _ _ Hc) as (ds & -> & Hlen & Hds).
    exists ds. split; [apply loads_dumps|]. split; [done|]. intros k d Hk.
    destruct (Hds k d Hk) as [[Hr _] [e He]]. eexists _, e. split; [exact Hr|].
    split; [apply loads_dumps|done].
  - intros start e. apply fs_read_err.
Qed.

Lemma store_inv_get s log k e :
  store_inv s log → log !! k = Some e → get_event s (Z.of_nat k) = Ok e.
Proof.
  intros [_ _ Hev _ _] Hk. destruct (Hev k e Hk) as (d & [Hr _] & Hd).
  unfold get_event. rewrite Hr. cbn [rbind]. by rewrite loads_dumps.
Qed.

Lemma store_inv_missing s log i :
  store_inv s log → i < 0 ∨ py_len log ≤ i → get_event s i = Raise FileNotFoundError.
Proof. intros [_ _ _ Hrest _] Hi. unfold get_event. by rewrite Hrest. Qed.

(** ** Steps *)

(** The file of the next event is written. *)
Lemma store_inv_write s log f' d e :
  store_inv s log →
  fs_write (get_filename_for_id s (py_len log)) (json_dumps (JDict d)) (es_file_store s) = (f', Ok tt) →
  dget "id" d = Some (JInt (py_len log)) → from_dict d = Ok e →
  store_inv (set_file_store f' (set_cur_id (py_len log + 1) s)) (log ++ [e]).
Proof.
  intros Hinv Hw Hid Hfd. set (n := py_len log) in *.
  assert (Hn0 : 0 ≤ n) by (unfold n; len_lia).
  assert (Hn : py_len (log ++ [e]) = n + 1)
    by (unfold n; len_lia).
  set (s' := set_file_store f' (set_cur_id (n + 1) s)).
  assert (Hold : ∀ i d', file_holds s i d' → file_holds s' i d').
  { intros i d' [Hr Hi]. split; [|done]. simpl.
    rewrite (fs_read_write_ne _ _ _ _ _ _ Hw); [exact Hr|]. intros Heq.
    change (get_filename_for_id s n = get_filename_for_id s i) in Heq.
    apply filename_id_inj in Heq. subst i.
    destruct Hinv as [_ _ _ Hrest _]. rewrite (Hrest n) in Hr; [done|]. right. unfold n. lia. }
  destruct Hinv as [Hcur Hsz Hev Hrest Hpg]. split; simpl.
  - by rewrite Hn.
  - done.
  - intros k e' [Hk|[Hge Hk]]%lookup_app_Some.
    + destruct (Hev k e' Hk) as (d' & Hd' & Hf). eauto.
    + apply list_lookup_singleton_Some in Hk as [Hk <-]. exists d. split; [|done].
      assert (Z.of_nat k = n) as -> by (unfold n; len_lia). split; [|done]. simpl.
      exact (fs_read_write _ _ _ _ Hw).
  - intros i Hi. rewrite Hn in Hi. rewrite (fs_read_write_ne _ _ _ _ _ _ Hw).
    + apply Hrest. fold n. lia.
    + intros Heq. change (get_filename_for_id s n = get_filename_for_id s i) in Heq.
      apply filename_id_inj in Heq. lia.
  - intros start content Hc.
    change (fs_read f' (get_filename_for_cache s start (start + es_cache_size s)) = Ok content) in Hc.
    rewrite (fs_read_write_ne _ _ _ _ _ _ Hw) in Hc by apply filename_id_cache.
    destruct (Hpg _ _ Hc) as (ds & Hco & Hlen & Hds). exists ds. split; [done|].
    split; [done|]. intros k d' Hk. destruct (Hds k d' Hk) as [Hh He]. eauto.
Qed.

(** A full page is written. *)
Lemma store_inv_cache s log f' start ds :
  store_inv s log → 0 ≤ start →
  fs_write (get_filename_for_cache s start (start + es_cache_size s))
    (json_dumps (JList (JDict <$> ds))) (es_file_store s) = (f', Ok tt) →
  py_len ds = es_cache_size s →
  (∀ k d, ds !! k = Some d → file_holds s (start + Z.of_nat k) d ∧ ∃ e, from_dict d = Ok e) →
  store_inv (set_file_store f' s) log
  ∧ ∀ i d, file_holds s i d → file_holds (set_file_store f' s) i d.
Proof.
  intros Hinv Hst Hw Hlen Hds.
  assert (Hid : ∀ i, fs_read f' (get_filename_for_id s i)
                     = fs_read (es_file_store s) (get_filename_for_id s i)).
  { intros i. apply (fs_read_write_ne _ _ _ _ _ _ Hw). intros Heq. by eapply filename_id_cache. }
  assert (Hold : ∀ i d, file_holds s i d → file_holds (set_file_store f' s) i d).
  { intros i d [Hr Hi]. split; [|done]. etrans; [apply Hid|done]. }
  split; [|done]. destruct Hinv as [Hcur Hsz Hev Hrest Hpg]. split; simpl; [done..| | |].
  - intros k e Hk. destruct (Hev k e Hk) as (d & Hd & Hf). eauto.
  - intros i Hi. etrans; [apply Hid|auto].
  - intros start' content Hc. destruct (decide (start' = start)) as [->|Hne].
    + exists ds. pose proof (fs_read_write _ _ _ _ Hw) as Hr.
      change (fs_read f' (get_filename_for_cache s start (start + es_cache_size s)) = Ok content)
        in Hc. rewrite Hr in Hc. injection Hc as <-. split; [done|]. split; [done|].
      intros k d Hk. destruct (Hds k d Hk). eauto.
    + assert (Hc' : fs_read (es_file_store s)
        (get_filename_for_cache s start' (start' + es_cache_size s)) = Ok content).
      { rewrite <- Hc. symmetry. apply (fs_read_write_ne _ _ _ _ _ _ Hw).
        intros Heq. symmetry in Heq.
        change (get_filename_for_cache s start' (start' + es_cache_size s)
                = get_filename_for_cache s start (start + es_cache_size s)) in Heq.
        by apply filename_cache_inj in Heq. }
      destruct (Hpg _ _ Hc') as (ds' & Hco & Hl & Hd'). exists ds'. split; [done|].
      split; [done|]. intros k d Hk. destruct (Hd' k d Hk). eauto.
Qed.

(** ** Publishing *)

(** The caller's object after [add_event], and the copy the stream keeps. *)
Definition stamped (now : string) (src : EventSource) (i : Z) (e : Event) : Event :=
  set_id (Some i) (set_source (Some src) (set_timestamp (Some now) e)).
Definition stored (secrets : list (string * string)) (e : Event) : result (dict * Event) :=
  let? data := to_dict e in
  let data := replace_secrets secrets data in
  let? copy := from_dict data in Ok (data, copy).

Lemma stored_id secrets e d copy i :
  stored secrets e = Ok (d, copy) → event_id e = i → i ≠ INVALID_ID →
  dget "id" d = Some (JInt i) ∧ from_dict d = Ok copy ∧ event_id copy = i.
Proof.
  unfold stored. destruct (to_dict e) as [d0|] eqn:Ed; cbn [rbind]; [|done].
  destruct (from_dict _) as [c|] eqn:Ec; cbn [rbind]; [|done]. intros [= <- <-] Hi Hne.
  assert (Hd : dget "id" (replace_secrets secrets d0) = Some (JInt i)).
  { rewrite dget_replace_secrets, (to_dict_id e d0 i) by done. done. }
  split; [done|]. split; [done|]. by eapply from_dict_id.
Qed.

Lemma set_store_eta st : set_store (st_store st) st = st.
Proof. by destruct st. Qed.

Lemma write_file_ok st p c f' :
  fs_write p c (es_file_store (st_store st)) = (f', Ok tt) →
  write_file p c st = (set_store (set_file_store f' (st_store st)) st, Ok tt).
Proof. intros Hw. unfold write_file, on_store. by rewrite Hw. Qed.

(** [_store_cache_page] of a page of consecutive documents, the last of the log. *)
Lemma store_cache_page_ok st log page :
  store_inv (st_store st) log →
  0 < py_len page ≤ es_cache_size (st_store st) → py_len page ≤ py_len log →
  (∀ k d, page !! k = Some d →
     file_holds (st_store st) (py_len log - py_len page + Z.of_nat k) d
     ∧ ∃ e, from_dict d = Ok e) →
  ∃ f', let s' := set_file_store f' (st_store st) in
    store_cache_page page st = (set_store s' st, Ok tt)
    ∧ store_inv s' log ∧ (∀ i d, file_holds (st_store st) i d → file_holds s' i d)
    ∧ (py_len page = es_cache_size (st_store st) →
       fs_read f' (get_filename_for_cache (st_store st) (py_len log - py_len page) (py_len log))
       = Ok (json_dumps (JList (JDict <$> page)))).
Proof.
  intros Hs Hlen Hle Hp. unfold store_cache_page.
  destruct (Z.ltb_spec (py_len page) (es_cache_size (st_store st))) as [Hlt|Hge].
  - exists (es_file_store (st_store st)).
    assert (set_file_store (es_file_store (st_store st)) (st_store st) = st_store st) as ->
      by by destruct (st_store st).
    rewrite set_store_eta. split_and!; [done..|lia].
  - destruct page as [|d0 page]; [len_lia|].
    set (start := py_len log - py_len (d0 :: page)) in *.
    destruct (Hp 0%nat d0 eq_refl) as [[_ Hid] _]. rewrite Z.add_0_r in Hid. rewrite Hid.
    destruct (fs_write_ok (es_file_store (st_store st))
      (get_filename_for_cache (st_store st) start (start + es_cache_size (st_store st)))
      (json_dumps (JList (JDict <$> d0 :: page)))) as [f' Hw].
    exists f'. unfold write_file, on_store. rewrite Hw. split; [done|].
    destruct (store_inv_cache (st_store st) log f' start (d0 :: page)) as [Hs' Hkeep];
      [done|unfold start; lia|exact Hw|lia|done|]. split_and!; [done..|]. intros Heq.
    replace (py_len log) with (start + es_cache_size (st_store st)) by (unfold start; lia).
    exact (fs_read_write _ _ _ _ Hw).
Qed.

(** What becomes of the page being filled: a full page is written to its file, and the next one
    is empty. *)
Definition page_written st log (d : dict) st' : Prop :=
  let page := st_page st ++ [d] in
  if py_len page =? es_cache_size (st_store st) then
    st_page st' = []
    ∧ fs_read (es_file_store (st_store st'))
        (get_filename_for_cache (st_store st) (py_len log + 1 - py_len page) (py_len log + 1))
      = Ok (json_dumps (JList (JDict <$> page)))
  else st_page st' = page.

(** The page with the new document, after the event's file was written. *)
Lemma page_extend st log d copy f1 :
  stream_inv st log →
  fs_write (get_filename_for_id (st_store st) (py_len log)) (json_dumps (JDict d))
    (es_file_store (st_store st)) = (f1, Ok tt) →
  dget "id" d = Some (JInt (py_len log)) → from_dict d = Ok copy →
  let page := st_page st ++ [d] in
  let s1 := set_file_store f1 (set_cur_id (py_len log + 1) (st_store st)) in
  ∀ k d', page !! k = Some d' →
    file_holds s1 (py_len (log ++ [copy]) - py_len page + Z.of_nat k) d'
    ∧ ∃ e, from_dict d' = Ok e.
Proof.
  intros [Hs Hshort Hlen Hpage] Hw Hid Hfd page s1 k d' Hk. set (n := py_len log) in *.
  assert (Hnew : py_len (log ++ [copy]) - py_len page = n - py_len (st_page st))
    by (unfold n, page; len_lia).
  rewrite Hnew. apply lookup_app_Some in Hk as [Hk|[Hge Hk]].
  - destruct (Hpage k d' Hk) as [[Hr Hi] Hex]. split; [|done]. split; [|done].
    cbn [es_file_store set_file_store s1].
    rewrite (fs_read_write_ne _ _ _ _ _ _ Hw); [exact Hr|]. intros Heq.
    change (get_filename_for_id (st_store st) n
      = get_filename_for_id (st_store st) (n - py_len (st_page st) + Z.of_nat k)) in Heq.
    apply filename_id_inj in Heq. apply lookup_lt_Some in Hk. len_lia.
  - apply list_lookup_singleton_Some in Hk as [Hk <-]. split; [|by eauto].
    replace (n - py_len (st_page st) + Z.of_nat k) with n by len_lia.
    split; [|done]. exact (fs_read_write _ _ _ _ Hw).
Qed.

(** [add_event] up to the writes: the id is taken, the copy made, the page extended. *)
Lemma add_event_writes st log now src e d copy :
  store_inv (st_store st) log → event_id e = INVALID_ID → event_id copy = py_len log →
  stored (st_secrets st) (stamped now src (py_len log) e) = Ok (d, copy) →
  let page := st_page st ++ [d] in
  let rest := if py_len page =? es_cache_size (st_store st) then [] else page in
  let st0 := set_page rest (set_store (set_cur_id (py_len log + 1) (st_store st)) st) in
  add_event now src (st, e)
  = let '(st', r) := (write_file (get_filename_for_id (st_store st) (py_len log))
                      (json_dumps (JDict d)) ;;;
                    store_cache_page page ;;;
                    pmodify (λ st, set_queue (st_queue st ++ [copy]) st)) st0 in
    ((st', stamped now src (py_len log) e), r).
Proof.
  intros Hs He Hcid Hst. unfold add_event. rewrite (proj2 (Z.eqb_eq _ _) He). cbn [negb].
  assert (Hon : on_store cur_id st = (st, Ok (py_len log))).
  { unfold on_store, cur_id. rewrite (si_cur _ _ Hs). by rewrite set_store_eta. }
  rewrite Hon. cbn [st_secrets set_store].
  change (set_id (Some (py_len log)) (set_source (Some src) (set_timestamp (Some now) e)))
    with (stamped now src (py_len log) e).
  change (let? data := to_dict (stamped now src (py_len log) e) in _)
    with (stored (st_secrets st) (stamped now src (py_len log) e)).
  rewrite Hst, Hcid. reflexivity.
Qed.

(** A step of the log. *)
Lemma add_event_log st log (now : string) (src : EventSource) (e : Event)
    (d : dict) (copy : Event) :
  stream_inv st log → event_id e = INVALID_ID →
  stored (st_secrets st) (stamped now src (py_len log) e) = Ok (d, copy) →
  ∃ st', add_event now src (st, e) = ((st', stamped now src (py_len log) e), Ok tt)
    ∧ stream_inv st' (log ++ [copy])
    ∧ st_queue st' = st_queue st ++ [copy] ∧ st_secrets st' = st_secrets st
    ∧ event_id copy = py_len log ∧ page_written st log d st'.
Proof.
  intros [Hs Hshort Hlen Hpage] He Hst. set (n := py_len log) in *.
  assert (Hn0 : 0 ≤ n) by (unfold n; len_lia).
  destruct (stored_id _ _ _ _ n Hst eq_refl) as (Hid & Hfd & Hcid); [unfold INVALID_ID; lia|].
  rewrite (add_event_writes st log now src e d copy Hs He Hcid Hst). fold n.
  set (page := st_page st ++ [d]).
  assert (Hpl : py_len page = py_len (st_page st) + 1)
    by (unfold page; len_lia).
  set (rest := if py_len page =? es_cache_size (st_store st) then [] else page).
  destruct (fs_write_ok (es_file_store (st_store st)) (get_filename_for_id (st_store st) n)
    (json_dumps (JDict d))) as [f1 Hw].
  set (s1 := set_file_store f1 (set_cur_id (n + 1) (st_store st))).
  pose proof (store_inv_write _ _ _ _ _ Hs Hw Hid Hfd) as Hs1. fold n s1 in Hs1.
  assert (Hnew : py_len (log ++ [copy]) = n + 1)
    by (unfold n; len_lia).
  set (st1 := set_store s1 (set_page rest (set_store (set_cur_id (n + 1) (st_store st)) st))).
  pose proof (page_extend st log d copy f1 ltac:(by split) Hw Hid Hfd) as Hp1.
  fold n s1 page in Hp1.
  destruct (store_cache_page_ok st1 (log ++ [copy]) page Hs1) as (f2 & Hc & Hs2 & Hkeep & Hfull).
  { cbn [es_cache_size st_store st1 set_store s1 set_file_store set_cur_id].
    rewrite Hpl. len_lia. }
  { rewrite Hpl, Hnew. lia. }
  { exact Hp1. }
  eexists. split.
  { set (X := set_page _ _). assert (H1w : write_file (get_filename_for_id (st_store st) n)
      (json_dumps (JDict d)) X = (st1, Ok tt)) by exact (write_file_ok X _ _ _ Hw).
    unfold pbind. rewrite H1w. cbv beta iota.
    change (store_cache_page _ _) with (store_cache_page page st1). rewrite Hc. reflexivity. }
  cbn [st_queue set_queue st_secrets set_store set_page st1]. split; [|split_and!; [done..|]].
  2:{ unfold page_written. fold page n. cbn [st_page set_queue set_store set_page st_store es_file_store set_file_store st1].
      unfold rest. destruct (Z.eqb_spec (py_len page) (es_cache_size (st_store st))) as [Heq|]; [|done].
      split; [done|]. rewrite <- Hnew. by apply Hfull. }
  split; cbn [st_store set_queue set_store st_page set_page st1].
  - exact Hs2.
  - unfold rest. cbn [es_cache_size set_file_store s1 set_cur_id st_store set_store].
    destruct (Z.eqb_spec (py_len page) (es_cache_size (st_store st))).
    + unfold py_len. simpl. apply (si_size _ _ Hs).
    + lia.
  - unfold rest. destruct (_ =? _); [len_lia|]. rewrite Hpl, Hnew. lia.
  - unfold rest. destruct (_ =? _); [done|]. intros k d' Hk.
    destruct (Hp1 k d' Hk) as [Hh Hex]. split; [by apply Hkeep|done].
Qed.

(** C3 Publishing appends to the log.  On a stream related to a log of [n] events,
    [add_event] of a fresh event whose redacted document can be read back succeeds,
    gives the caller's object the id [n], the time and the source, queues the stored copy,
    and leaves the stream related to the log extended by that copy, which has id [n]: its
    file holds the redacted document.  When the page being filled becomes full with this
    document, the file of the cache page is written with the documents of the whole page
    and the next page is empty; otherwise the document is added to the page. *)
Theorem add_event_refines st log (now : string) (src : EventSource) (e : Event)
    (d : dict) (copy : Event) :
  stream_inv st log → event_id e = INVALID_ID →
  stored (st_secrets st) (stamped now src (py_len log) e) = Ok (d, copy) →
  ∃ st', add_event now src (st, e) = ((st', stamped now src (py_len log) e), Ok tt)
    ∧ stream_inv st' (log ++ [copy])
    ∧ st_queue st' = st_queue st ++ [copy] ∧ st_secrets st' = st_secrets st
    ∧ event_id copy = py_len log ∧ page_written st log d st'.
Proof. apply add_event_log. Qed.

(** ** Searching the log *)

Lemma lookup_log s log k e :
  store_inv s log → log !! k = Some e → lookup_event s (Z.of_nat k) = Ok (Some e).
Proof. intros Hs Hk. unfold lookup_event. by rewrite (store_inv_get s log k e). Qed.

Lemma lookup_range s log (a m : nat) :
  store_inv s log → (a + m ≤ length log)%nat →
  Forall2 (λ i e, lookup_event s i = Ok (Some e)) (seqZ (Z.of_nat a) (Z.of_nat m))
    (take m (drop a log)).
Proof.
  intros Hs. revert a. induction m as [|m IH]; intros a Hle; [constructor|].
  destruct (lookup_lt_is_Some_2 log a ltac:(lia)) as [e He].
  rewrite seqZ_cons by lia. rewrite (drop_S _ e) by done. simpl.
  constructor; [by eapply lookup_log|].
  replace (Z.succ (Z.of_nat a)) with (Z.of_nat (S a)) by lia.
  replace (Z.pred (Z.of_nat (S m))) with (Z.of_nat m) by lia. apply IH. lia.
Qed.

(** C17 Searching reads the log: on a stream related to a log, an unfiltered search
    from [a] to the last event returns the log from position [a], in either order,
    and asking for one id returns that event or [FileNotFoundError]. *)
Theorem search_events_log st log (a : nat) (rev : bool) :
  stream_inv st log → (a ≤ length log)%nat →
  search_events (Z.of_nat a) None rev None None (st_store st)
    = (st_store st, Ok (if rev then reverse (drop a log) else drop a log))
  ∧ get_latest_event_id (st_store st) = (st_store st, Ok (py_len log - 1))
  ∧ ∀ i, get_event (st_store st) i
         = match (if i <? 0 then None else log !! Z.to_nat i) with
           | Some e => Ok e
           | None => Raise FileNotFoundError
           end.
Proof.
  intros [Hs _ _ _] Ha. pose proof (store_inv_coherent _ _ Hs) as Hcc.
  assert (Hcur : cur_id (st_store st) = (st_store st, Ok (py_len log)))
    by (unfold cur_id; by rewrite (si_cur _ _ Hs)).
  split_and!.
  - unfold search_events, pbind. rewrite Hcur. unfold pget, plift.
    rewrite search_loop_plain by (done || apply dummy_good). f_equal.
    assert (Hf : Forall2 (λ i e, lookup_event (st_store st) i = Ok (Some e))
      (py_range (Z.of_nat a) (py_len log)) (drop a log)).
    { pose proof (lookup_range _ log a (length log - a) Hs ltac:(lia)) as Hf.
      rewrite take_ge in Hf by (rewrite length_drop; lia). unfold py_range, py_len.
      by replace (Z.of_nat (length log) - Z.of_nat a) with (Z.of_nat (length log - a)) by lia. }
    destruct rev; apply plain_search_all; [by apply Forall2_reverse|done].
  - unfold get_latest_event_id, pbind. by rewrite Hcur.
  - intros i. destruct (Z.ltb_spec i 0); [by apply (store_inv_missing _ log); [done|left]|].
    destruct (log !! Z.to_nat i) as [e|] eqn:E.
    + rewrite <- (Z2Nat.id i) by lia. by eapply store_inv_get.
    + apply (store_inv_missing _ log); [done|right]. apply lookup_ge_None in E. len_lia.
Qed.

(** ** Restarting *)

Lemma fold_max_ids (g : string → Z) (ns : list string) (m top : Z) :
  m ≤ top → (∀ p, p ∈ ns → g p ≤ top) → (m = top ∨ ∃ p, p ∈ ns ∧ g p = top) →
  foldl (λ m f, let i := g f in if m <=? i then i else m) m ns = top.
Proof.
  revert m. induction ns as [|p ns IH]; intros m Hm Hall Hex; simpl.
  - destruct Hex as [?|(p & Hp & _)]; [done|by apply not_elem_of_nil in Hp].
  - assert (Hp : g p ≤ top) by (apply Hall; left).
    assert (Hmax : (if m <=? g p then g p else m) = Z.max m (g p))
      by (destruct (Z.leb_spec m (g p)); lia).
    rewrite Hmax. apply IH; [lia|intros q Hq; apply Hall; by right|].
    destruct Hex as [->|(q & [->|Hq]%elem_of_cons & Hg)]; [left; lia|left; lia|right; eauto].
Qed.

Lemma id_of_directory p : endswith p "/" = true → get_id_from_filename p = -1.
Proof.
  unfold endswith. intros H3. apply prefix_inv in H3 as [r Hr].
  apply (f_equal String.rev) in Hr. rewrite rev_involutive, rev_append in Hr. rewrite Hr.
  unfold get_id_from_filename. change (String.rev (String.rev "/")) with (String "/"%char "").
  by rewrite str_split_last.
Qed.

(** A stream opened on the files of a previous one continues its numbering: the
    next id computed from the directory listing is the number of stored events,
    when the events directory holds event files only. *)
Theorem restart_cur_id (s : EventStore F) (log : list Event) (ns : list string) :
  let dir := get_conversation_events_dir (es_sid s) (es_user_id s) in
  (∀ k e, log !! k = Some e → ∃ c,
     fs_read (es_file_store s) (get_filename_for_id s (Z.of_nat k)) = Ok c) →
  (∀ name c, fs_read (es_file_store s) (dir +:+ name) = Ok c →
     ∃ i, 0 ≤ i < py_len log ∧ dir +:+ name = get_filename_for_id s i) →
  fs_list (es_file_store s) dir = Ok ns →
  calculate_cur_id s = Ok (py_len log).
Proof.
  intros dir Hfiles Honly Hns. unfold calculate_cur_id. fold dir. rewrite Hns. cbn [rbind].
  assert (Hid : ∀ p, p ∈ ns → get_id_from_filename p ≤ py_len log - 1).
  { intros p Hp. destruct (fs_list_under _ _ _ _ Hns Hp) as [[name ->] [[c Hc]|Hd]].
    - destruct (Honly name c Hc) as (i & Hi & ->). unfold get_filename_for_id.
      rewrite id_of_event_filename; lia.
    - rewrite id_of_directory by done. len_lia. }
  assert (Hex : -1 = py_len log - 1 ∨ ∃ p, p ∈ ns ∧ get_id_from_filename p = py_len log - 1).
  { destruct (decide (log = [])) as [->|Hne]; [left; done|right].
    assert (Hl : (0 < length log)%nat) by (destruct log; [done|simpl; lia]).
    destruct (lookup_lt_is_Some_2 log (length log - 1) ltac:(lia)) as [e He].
    destruct (Hfiles _ _ He) as [c Hc]. eexists. split.
    - apply (fs_list_file _ dir (pretty (Z.of_nat (length log - 1)) +:+ ".json") _ Hns).
      + apply event_name_no_slash. lia.
      + intros Heq. apply (f_equal String.length) in Heq. rewrite length_append in Heq.
        simpl in Heq. lia.
      + eauto.
    - unfold dir. change (get_conversation_events_dir _ _ +:+ _)
        with (get_conversation_event_filename (es_sid s) (Z.of_nat (length log - 1)) (es_user_id s)).
      rewrite id_of_event_filename by lia. len_lia. }
  destruct ns as [|p ns].
  - destruct Hex as [He|(p & Hp & _)]; [f_equal; lia|by apply not_elem_of_nil in Hp].
  - rewrite (fold_max_ids _ _ _ (py_len log - 1)); [f_equal; lia| |done|done].
    len_lia.
Qed.
End refinement.

(** ** Concrete streams *)

Definition ex_stream : EventStream InMemoryFileStore :=
  mkEventStream (mkEventStore "s" (mkInMemoryFileStore []) None 25 (Some 0)) [("PW", "hunter2")]
    [] [] [] [].
Definition ex_say (txt : string) : Event :=
  new_action (AMessage (mkMessageAction txt None None false RISK_UNKNOWN)).

Lemma ex_stream_inv : stream_inv ex_stream [].
Proof.
  split; [split|..]; simpl; try done; intros; unfold mem_read in *; simpl in *; done.
Qed.

Definition ex_stored (txt : string) : Event :=
  set_id (Some 0) (set_source (Some USER) (set_timestamp (Some "t0") (ex_say txt))).

(** The same stream with pages of one event *)
Definition ex_paged : EventStream InMemoryFileStore :=
  mkEventStream (mkEventStore "s" (mkInMemoryFileStore []) None 1 (Some 0)) [("PW", "hunter2")] [] [] [] [].
Lemma ex_paged_inv : stream_inv ex_paged [].
Proof.
  split; [split|..]; simpl; try done; intros; unfold mem_read in *; simpl in *; done.
Qed.
Definition ex_document (e : Event) : dict :=
  replace_secrets [("PW", "hunter2")] (match to_dict e with Ok d => d | Raise _ => [] end).

Lemma add_event_refines_witness :
  ∃ st', add_event "t0" USER (ex_paged, ex_say "pw hunter2")
         = ((st', ex_stored "pw hunter2"), Ok tt)
    ∧ stream_inv st' [ex_stored "pw <secret_hidden>"]
    ∧ fs_read (es_file_store (st_store st')) "sessions/s/event_cache/0-1.json"
      = Ok (json_dumps (JList [JDict (ex_document (ex_stored "pw hunter2"))])).
Proof.
  destruct (add_event_refines ex_paged [] "t0" USER (ex_say "pw hunter2") (ex_document (ex_stored "pw hunter2"))
    (ex_stored "pw <secret_hidden>") ex_paged_inv) as (st' & Ha & Hinv & _ & _ & _ & _ & Hpage).
  - reflexivity.
  - reflexivity.
  - exists st'. split; [exact Ha|]. split; [exact Hinv|exact Hpage].
Defined.

(** A log of one event *)
Definition ex_published : EventStream InMemoryFileStore := (add_event "t0" USER (ex_stream, ex_say "pw hunter2")).1.1.
Lemma ex_published_inv : stream_inv ex_published [ex_stored "pw <secret_hidden>"].
Proof.
  destruct (add_event_log ex_stream [] "t0" USER (ex_say "pw hunter2") (ex_document (ex_stored "pw hunter2"))
    (ex_stored "pw <secret_hidden>") ex_stream_inv) as (st' & Ha & Hinv & _); [reflexivity..|].
  unfold ex_published. by rewrite Ha.
Qed.

Lemma search_events_log_witness :
  search_events 0 None true None None (st_store ex_published)
    = (st_store ex_published, Ok [ex_stored "pw <secret_hidden>"])
  ∧ get_event (st_store ex_published) 0 = Ok (ex_stored "pw <secret_hidden>")
  ∧ get_event (st_store ex_published) 1 = Raise FileNotFoundError.
Proof.
  destruct (search_events_log ex_published [ex_stored "pw <secret_hidden>"] 0 true ex_published_inv) as (Hs & _ & Hg).
  - simpl. lia.
  - split; [exact Hs|]. split; [exact (Hg 0)|exact (Hg 1)].
Defined.

Lemma search_events_uncached_witness :
  search_events 0 (Some 3) false None None (st_store ex_stream)
  = (st_store ex_stream, plain_search (st_store ex_stream) None None 0 [0; 1; 2; 3]).
Proof.
  exact (search_events_uncached (st_store ex_stream) 0 3 false None None
           (store_inv_coherent _ _ (sv_store _ _ ex_stream_inv))).
Defined.

Definition ex_files : EventStore InMemoryFileStore :=
  new_EventStore "s" (mkInMemoryFileStore [("sessions/s/events/0.json", "x")]) None.

Lemma restart_cur_id_witness : calculate_cur_id ex_files = Ok 1.
Proof.
  apply (restart_cur_id ex_files [ex_say "a"] ["sessions/s/events/0.json"]).
  - intros [|[|k]] e; simpl; intros Hk; [|done..]. exists "x". reflexivity.
  - intros name c Hc. exists 0. split; [vm_compute; by split|].
    set (q := get_conversation_events_dir _ _ +:+ name) in *.
    change (match (if String.eqb q "sessions/s/events/0.json" then Some "x" else None) with
            | Some c => Ok c | None => Raise FileNotFoundError end = Ok c) in Hc.
    destruct (String.eqb_spec q "sessions/s/events/0.json") as [Heq|]; [exact Heq|discriminate].
  - reflexivity.
Defined.

(** ** A failed publication shifts the cache page *)

(** Publish a list of events one after the other, going on after an exception. *)
Definition publish (st : EventStream InMemoryFileStore) (es : list Event) :
    EventStream InMemoryFileStore :=
  foldl (λ st e, (add_event "t" AGENT (st, e)).1.1) st es.

(** An event that cannot be serialized: its reason is not a string. *)
Definition ex_unserializable : Event :=
  new_action (AAgentReject (mkAgentRejectAction [("reason", JInt 5)] "")).

(** [add_event] takes an id before it serializes.  When serialization raises, the
    id is used up but the page being filled has no entry for it, so the page that is
    later stored for ids 0 to 24 holds shifted events: a search skips nothing but
    returns the events after the gap from the page and the last one twice. *)
Theorem failed_add_shifts_page :
  let good := repeat (ex_say "m") 24 in
  let st := publish ex_stream ([ex_say "m"; ex_unserializable] ++ good) in
  get_latest_event_id (st_store st) = (st_store st, Ok 25)
  ∧ ∃ l, search_events 0 None false None None (st_store st) = (st_store st, Ok l)
         ∧ (event_id <$> l) = 0 :: py_range 2 26 ++ [25].
Proof. vm_compute. split; [reflexivity|]. eexists. split; reflexivity. Qed.
