(* ===== verification/ConversationStats.v ===== *)
(** * Conversation statistics

    Models [openhands/server/services/conversation_stats.py]: the metrics of every
    LLM service of a conversation, saved to and restored from a file.  The metrics
    objects are shared with the LLMs, which record into them through
    [record_metrics].  Pickling (with base64) is a parameter. *)

From S2P Require Import Prelude PyValue Metrics FileStore.
Local Open Scope Z_scope.
Local Open Scope py_scope.

Class Pickle (A : Type) := {
  pickle_dumps : A → string;
  pickle_loads : string → result A;
}.

Section stats.
Context `{FileStore F} `{Pickle (list (string * Metrics))}.

Record ConversationStats := mkConversationStats {
  cs_conversation_id : string;
  cs_user_id : option string;
  service_to_metrics : list (string * Metrics);
  restored_metrics : list (string * Metrics);
}.

Definition metrics_path (c : ConversationStats) : string :=
  get_conversation_stats_filename (cs_conversation_id c) (cs_user_id c).

Definition set_services x (c : ConversationStats) : ConversationStats :=
  mkConversationStats (cs_conversation_id c) (cs_user_id c) x (restored_metrics c).
Definition set_restored x (c : ConversationStats) : ConversationStats :=
  mkConversationStats (cs_conversation_id c) (cs_user_id c) (service_to_metrics c) x.

(** [d.update(e)] *)
Definition mupdate {V} (e d : list (string * V)) : list (string * V) :=
  foldl (λ d kv, dset kv.1 kv.2 d) d e.

(** What [save_metrics] writes: the restored metrics, overridden by the services'. *)
Definition combined_services (c : ConversationStats) : list (string * Metrics) :=
  mupdate (service_to_metrics c) (restored_metrics c).

(** [save_metrics]; [None] is a conversation without a file store. *)
Definition save_metrics (c : ConversationStats) : pyM (option F) unit := λ fs,
  match fs with
  | None => (None, Ok tt)
  | Some f => let '(f, r) := fs_write (metrics_path c) (pickle_dumps (combined_services c)) f in
              (Some f, r)
  end.

(** [maybe_restore_metrics] *)
Definition maybe_restore_metrics (fs : option F) (c : ConversationStats) :
    result ConversationStats :=
  match fs with
  | None => Ok c
  | Some f =>
      if String.eqb (cs_conversation_id c) "" then Ok c
      else match fs_read f (metrics_path c) with
           | Ok encoded => let? m := pickle_loads encoded in Ok (set_restored m c)
           | Raise FileNotFoundError => Ok c
           | Raise e => Raise e
           end
  end.

(** [__init__] *)
Definition new_ConversationStats (fs : option F) (conversation_id : string)
    (user_id : option string) : result ConversationStats :=
  maybe_restore_metrics fs (mkConversationStats conversation_id user_id [] []).

(** [get_combined_metrics]: of the registered services. *)
Definition get_combined_metrics (c : ConversationStats) : Metrics :=
  foldl (λ total kv, merge kv.2 total) (new_Metrics "default") (service_to_metrics c).

Definition get_metrics_for_service (c : ConversationStats) (service : string) : result Metrics :=
  match dget service (service_to_metrics c) with
  | Some m => Ok m
  | None => Raise (OtherError "Exception" ("LLM service does not exist " +:+ service))
  end.

(** [register_llm]: the LLM's metrics become those restored for its service, if any. *)
Definition register_llm (service : string) (llm_metrics : Metrics) (c : ConversationStats) :
    ConversationStats :=
  match dget service (restored_metrics c) with
  | Some m => set_services (dset service m (service_to_metrics c))
                (set_restored (ddel service (restored_metrics c)) c)
  | None => set_services (dset service llm_metrics (service_to_metrics c)) c
  end.

(** An LLM records into the metrics object it shares. *)
Definition record_metrics (service : string) (f : Metrics → Metrics) (c : ConversationStats) :
    ConversationStats :=
  match dget service (service_to_metrics c) with
  | Some m => set_services (dset service (f m) (service_to_metrics c)) c
  | None => c
  end.

Definition drop_zero_cost (d : list (string * Metrics)) : list (string * Metrics) :=
  py_filter (λ kv, negb (feqb (m_accumulated_cost kv.2) fzero)) d.

(** [merge_and_save]; the other object's restored metrics lose their zero-cost entries. *)
Definition merge_and_save (c : ConversationStats) : pyM (ConversationStats * option F) ConversationStats :=
  λ '(other, fs),
  let other := set_restored (drop_zero_cost (restored_metrics other)) other in
  let c := set_restored (mupdate (restored_metrics other) (drop_zero_cost (restored_metrics c))) c in
  let '(fs, r) := save_metrics c fs in
  ((other, fs), let? _ := r in Ok c).

(** ** No statistics are lost *)

Lemma dget_mupdate {V} k (e d : list (string * V)) :
  NoDup (e.*1) → dget k (mupdate e d) = match dget k e with Some v => Some v | None => dget k d end.
Proof.
  revert d. unfold mupdate. induction e as [|[k' v] e IH]; intros d Hnd; [done|]. simpl.
  simpl in Hnd. apply NoDup_cons in Hnd as [Hk Hnd]. rewrite IH by done. rewrite dget_dset.
  destruct (String.eqb_spec k k') as [->|]; [|done].
  destruct (dget k' e) eqn:E; [|done]. exfalso. apply Hk.
  apply dget_elem in E. apply list_elem_of_fmap. by exists (k', v0).
Qed.

Lemma dset_keys {V} k (v : V) d : NoDup (d.*1) → NoDup ((dset k v d).*1).
Proof.
  induction d as [|[k' v'] d IH]; simpl; [intros _; apply NoDup_singleton|].
  intros [Hk Hnd]%NoDup_cons. destruct (String.eqb_spec k k') as [->|Hne]; simpl.
  - by apply NoDup_cons.
  - apply NoDup_cons. split; [|by auto]. intros Hin. apply Hk.
    clear -Hin Hne. induction d as [|[k2 v2] d IH]; simpl in *; [set_solver|].
    destruct (String.eqb_spec k k2) as [->|]; simpl in *; set_solver.
Qed.

(** Registering the LLM of a restored service moves its metrics, it does not lose
    or reset them: for every service the metrics on record (the service's own, or
    else the restored ones, which is what [save_metrics] writes) are the same before
    and after, except that a service seen for the first time starts with its LLM's;
    and saving then reopening the conversation restores exactly that record. *)
Theorem stats_preserved (c : ConversationStats) (service : string) (m : Metrics) (k : string) :
  NoDup ((service_to_metrics c).*1) → dget service (service_to_metrics c) = None →
  let c' := register_llm service m c in
  dget k (combined_services c')
  = (if String.eqb k service then
       match dget service (restored_metrics c) with Some m' => Some m' | None => Some m end
     else dget k (combined_services c))
  ∧ ∀ (f f' : F), FileStoreLaws F → cs_conversation_id c ≠ "" →
      save_metrics c (Some f) = (Some f', Ok tt) →
      pickle_loads (pickle_dumps (combined_services c)) = Ok (combined_services c) →
      ∃ d, new_ConversationStats (Some f') (cs_conversation_id c) (cs_user_id c) = Ok d
           ∧ combined_services d = combined_services c.
Proof.
  intros Hnd Hnew c'. split.
  - unfold combined_services, c', register_llm.
    destruct (dget service (restored_metrics c)) as [m'|] eqn:E; simpl;
      rewrite !dget_mupdate by (try apply dset_keys; done); rewrite dget_dset, ?dget_ddel;
      destruct (String.eqb_spec k service) as [->|]; try done.
  - intros f f' Hlaws Hid Hsave Hp. unfold save_metrics in Hsave.
    destruct (fs_write _ _ f) as [f2 r] eqn:Hw. injection Hsave as -> ->.
    unfold new_ConversationStats, maybe_restore_metrics. cbn [cs_conversation_id].
    rewrite (proj2 (String.eqb_neq _ _) Hid).
    change (metrics_path (mkConversationStats (cs_conversation_id c) (cs_user_id c) [] []))
      with (metrics_path c). rewrite (fs_read_write _ _ _ _ Hw). rewrite Hp. simpl.
    eexists. split; [done|]. done.
Qed.
End stats.
Arguments ConversationStats : clear implicits.

Definition ex_metrics : Metrics := (add_cost fzero (float_of_Z 2) (new_Metrics "m")).1.
Definition ex_stats : ConversationStats := mkConversationStats "c" None [] [("agent", ex_metrics)].
Definition ex_pickle : Pickle (list (string * Metrics)) :=
  {| pickle_dumps := λ _, "bytes"; pickle_loads := λ _, Ok [("agent", ex_metrics)] |}.

Lemma stats_preserved_witness :
  dget "agent" (combined_services (register_llm "agent" (new_Metrics "m") ex_stats)) = Some ex_metrics
  ∧ ∃ d, @new_ConversationStats _ _ ex_pickle
           (Some (mkInMemoryFileStore [("sessions/c/conversation_stats.pkl", "bytes")])) "c" None = Ok d
         ∧ combined_services d = [("agent", ex_metrics)].
Proof.
  destruct (@stats_preserved InMemoryFileStore _ ex_pickle ex_stats "agent" (new_Metrics "m") "agent")
    as [H1 H2].
  - constructor.
  - reflexivity.
  - split; [exact H1|].
    apply (H2 (mkInMemoryFileStore []) _ _); [discriminate|reflexivity|reflexivity].
Defined.
