(* ===== verification/State.v ===== *)
(** * The agent's state

    Models [openhands/controller/state/state.py]: the state record, its cached view,
    the questions agents ask of it, and saving and restoring a session.  The
    conversation's statistics are a separate object; the state records whether its
    reference is set.  The deprecated fields exist only in pickled documents
    ([StateDict]); pickling is a parameter ([Pickle]). *)

From S2P Require Import Prelude PyValue ControlFlags Metrics Schema Actions Observations Events View FileStore ConversationStats.
From S2P Require Import View FileStore ConversationStats.
Local Open Scope Z_scope.
Local Open Scope py_scope.

Definition RESUMABLE_STATES : list AgentState := [RUNNING; PAUSED; AWAITING_USER_INPUT; FINISHED].

Record State := mkState {
  session_id : string;
  user_id : option string;
  iteration_flag : ControlFlag Z;
  has_stats : bool;
  budget_flag : option (ControlFlag float);
  confirmation_mode : bool;
  history : list Event;
  inputs : dict;
  outputs : dict;
  agent_state : AgentState;
  resume_state : option AgentState;
  delegate_level : Z;
  start_id : Z;
  end_id : Z;
  parent_metrics_snapshot : option Metrics;
  parent_iteration : Z;
  extra_data : dict;
  last_error : string;
  metrics : Metrics;
  history_checksum : Z;
  cached_view : option View;
}.

(** The dataclass's defaults; [_history_checksum] is read with default -1. *)
Definition default_State : State :=
  mkState "" None (new_flag 100 0 100) false None false [] [] [] LOADING None 0 (-1) (-1)
    None 100 [] "" (new_Metrics "default") (-1) None.

(** ** Attribute assignments *)

Section setters.
Variable s : State.
Definition set_iteration_flag x := mkState (session_id s) (user_id s) x (has_stats s)
  (budget_flag s) (confirmation_mode s) (history s) (inputs s) (outputs s) (agent_state s)
  (resume_state s) (delegate_level s) (start_id s) (end_id s) (parent_metrics_snapshot s)
  (parent_iteration s) (extra_data s) (last_error s) (metrics s) (history_checksum s) (cached_view s).
Definition set_has_stats x := mkState (session_id s) (user_id s) (iteration_flag s) x
  (budget_flag s) (confirmation_mode s) (history s) (inputs s) (outputs s) (agent_state s)
  (resume_state s) (delegate_level s) (start_id s) (end_id s) (parent_metrics_snapshot s)
  (parent_iteration s) (extra_data s) (last_error s) (metrics s) (history_checksum s) (cached_view s).
Definition set_budget_flag x := mkState (session_id s) (user_id s) (iteration_flag s) (has_stats s)
  x (confirmation_mode s) (history s) (inputs s) (outputs s) (agent_state s)
  (resume_state s) (delegate_level s) (start_id s) (end_id s) (parent_metrics_snapshot s)
  (parent_iteration s) (extra_data s) (last_error s) (metrics s) (history_checksum s) (cached_view s).
Definition set_history x := mkState (session_id s) (user_id s) (iteration_flag s) (has_stats s)
  (budget_flag s) (confirmation_mode s) x (inputs s) (outputs s) (agent_state s)
  (resume_state s) (delegate_level s) (start_id s) (end_id s) (parent_metrics_snapshot s)
  (parent_iteration s) (extra_data s) (last_error s) (metrics s) (history_checksum s) (cached_view s).
Definition set_outputs x := mkState (session_id s) (user_id s) (iteration_flag s) (has_stats s)
  (budget_flag s) (confirmation_mode s) (history s) (inputs s) x (agent_state s)
  (resume_state s) (delegate_level s) (start_id s) (end_id s) (parent_metrics_snapshot s)
  (parent_iteration s) (extra_data s) (last_error s) (metrics s) (history_checksum s) (cached_view s).
Definition set_agent_state x := mkState (session_id s) (user_id s) (iteration_flag s) (has_stats s)
  (budget_flag s) (confirmation_mode s) (history s) (inputs s) (outputs s) x
  (resume_state s) (delegate_level s) (start_id s) (end_id s) (parent_metrics_snapshot s)
  (parent_iteration s) (extra_data s) (last_error s) (metrics s) (history_checksum s) (cached_view s).
Definition set_resume_state x := mkState (session_id s) (user_id s) (iteration_flag s) (has_stats s)
  (budget_flag s) (confirmation_mode s) (history s) (inputs s) (outputs s) (agent_state s)
  x (delegate_level s) (start_id s) (end_id s) (parent_metrics_snapshot s)
  (parent_iteration s) (extra_data s) (last_error s) (metrics s) (history_checksum s) (cached_view s).
Definition set_start_id x := mkState (session_id s) (user_id s) (iteration_flag s) (has_stats s)
  (budget_flag s) (confirmation_mode s) (history s) (inputs s) (outputs s) (agent_state s)
  (resume_state s) (delegate_level s) x (end_id s) (parent_metrics_snapshot s)
  (parent_iteration s) (extra_data s) (last_error s) (metrics s) (history_checksum s) (cached_view s).
Definition set_end_id x := mkState (session_id s) (user_id s) (iteration_flag s) (has_stats s)
  (budget_flag s) (confirmation_mode s) (history s) (inputs s) (outputs s) (agent_state s)
  (resume_state s) (delegate_level s) (start_id s) x (parent_metrics_snapshot s)
  (parent_iteration s) (extra_data s) (last_error s) (metrics s) (history_checksum s) (cached_view s).
Definition set_extra_data x := mkState (session_id s) (user_id s) (iteration_flag s) (has_stats s)
  (budget_flag s) (confirmation_mode s) (history s) (inputs s) (outputs s) (agent_state s)
  (resume_state s) (delegate_level s) (start_id s) (end_id s) (parent_metrics_snapshot s)
  (parent_iteration s) x (last_error s) (metrics s) (history_checksum s) (cached_view s).
Definition set_last_error x := mkState (session_id s) (user_id s) (iteration_flag s) (has_stats s)
  (budget_flag s) (confirmation_mode s) (history s) (inputs s) (outputs s) (agent_state s)
  (resume_state s) (delegate_level s) (start_id s) (end_id s) (parent_metrics_snapshot s)
  (parent_iteration s) (extra_data s) x (metrics s) (history_checksum s) (cached_view s).
Definition set_metrics x := mkState (session_id s) (user_id s) (iteration_flag s) (has_stats s)
  (budget_flag s) (confirmation_mode s) (history s) (inputs s) (outputs s) (agent_state s)
  (resume_state s) (delegate_level s) (start_id s) (end_id s) (parent_metrics_snapshot s)
  (parent_iteration s) (extra_data s) (last_error s) x (history_checksum s) (cached_view s).
Definition set_view_cache c v := mkState (session_id s) (user_id s) (iteration_flag s) (has_stats s)
  (budget_flag s) (confirmation_mode s) (history s) (inputs s) (outputs s) (agent_state s)
  (resume_state s) (delegate_level s) (start_id s) (end_id s) (parent_metrics_snapshot s)
  (parent_iteration s) (extra_data s) (last_error s) (metrics s) c v.
End setters.

(** ** The cached view *)

(** The property [view].  A failing [from_events] leaves the new checksum behind. *)
Definition view : pyM State View := λ s,
  let n := py_len (history s) in
  if n =? history_checksum s then
    (s, match cached_view s with
        | Some v => Ok v
        | None => Raise (OtherError "AttributeError" "_view")
        end)
  else match from_events (history s) with
       | Ok v => (set_view_cache s n (Some v), Ok v)
       | Raise e => (set_view_cache s n (cached_view s), Raise e)
       end.

(** ** Questions about the view *)

(** The loop of [get_current_user_intent] over the reversed view. *)
Fixpoint intent_loop (msg : option string) (urls : option (list string)) (rev_events : list Event) :
    option string * option (list string) :=
  match rev_events with
  | [] => (msg, urls)
  | e :: l =>
      match ev_body e with
      | EAction (AMessage a) =>
          if bool_decide (event_source e = Some USER)
          then intent_loop (Some (ma_content a)) (ma_image_urls a) l
          else intent_loop msg urls l
      | EAction (AAgentFinish _) =>
          match msg with
          | Some m => (Some m, None)
          | None => intent_loop msg urls l
          end
      | _ => intent_loop msg urls l
      end
  end.

Definition get_current_user_intent : pyM State (option string * option (list string)) :=
  let* v := view in pret (intent_loop None (Some []) (reverse (view_events v))).

Definition get_last_agent_message : pyM State (option Event) :=
  let* v := view in pret (py_find is_agent_message (reverse (view_events v))).
Definition get_last_user_message : pyM State (option Event) :=
  let* v := view in pret (py_find is_user_message (reverse (view_events v))).

(** [to_llm_metadata]; the package version and the WEB_HOST variable are arguments. *)
Definition to_llm_metadata (version web_host : string) (s : State) (model_name agent_name : string) :
    dict :=
  [("session_id", JStr (session_id s)); ("trace_version", JStr version);
   ("trace_user_id", from_option JStr JNull (user_id s));
   ("tags", JList [JStr ("model:" +:+ model_name); JStr ("agent:" +:+ agent_name);
                   JStr ("web_host:" +:+ web_host); JStr ("openhands_version:" +:+ version)])].

(** ** Local counters of a delegate *)

Definition get_local_step (s : State) : Z :=
  if parent_iteration s =? 0 then current_value (iteration_flag s)
  else current_value (iteration_flag s) - parent_iteration s.

Definition get_local_metrics (s : State) : Metrics :=
  match parent_metrics_snapshot s with
  | None => metrics s
  | Some m => metrics_diff (metrics s) m
  end.

(** ** Sessions *)

(** The dictionary a pickled state holds.  [None]: the key is absent. *)
Record StateDict := mkStateDict {
  sd_state : State;
  sd_iteration_flag : option (ControlFlag Z);
  sd_budget_flag : option (option (ControlFlag float));
  sd_history : option (list Event);
  sd_iteration : option Z;
  sd_max_iterations : option Z;
}.

(** [__getstate__]: no history, no cached view, no deprecated fields. *)
Definition getstate (s : State) : StateDict :=
  mkStateDict (set_view_cache (set_history s []) (-1) None)
    (Some (iteration_flag s)) (Some (budget_flag s)) (Some []) None None.

(** [__setstate__]: an old document has an [iteration] and no flags. *)
Definition setstate (d : StateDict) : State :=
  let flag :=
    match sd_iteration d with
    | Some i => let m := from_option id 100 (sd_max_iterations d) in Some (new_flag m i m)
    | None => sd_iteration_flag d
    end in
  let s := set_history (sd_state d) (from_option id [] (sd_history d)) in
  let s := set_iteration_flag s (from_option id (new_flag 100 0 100) flag) in
  set_budget_flag s (from_option id None (sd_budget_flag d)).

Section session.
Context `{FileStore F} `{Pickle StateDict}.

(** [save_to_session]: the reference to the statistics is put aside, and only put
    back when nothing raised. *)
Definition save_to_session (sid : string) (user : option string) : pyM (State * F) unit :=
  λ '(s, f),
  let stats := has_stats s in
  let s := set_has_stats s false in
  let encoded := pickle_dumps (getstate s) in
  match fs_write (get_conversation_agent_state_filename sid user) encoded f with
  | (f, Raise e) => ((s, f), Raise e)
  | (f, Ok _) =>
      let f := match user with
               | Some u => if String.eqb u "" then f
                           else (fs_delete (get_conversation_agent_state_filename sid None) f).1
               | None => f
               end in
      ((set_has_stats s stats, f), Ok tt)
  end.

Definition load_state (f : F) (filename : string) : result State :=
  let? encoded := fs_read f filename in
  let? d := pickle_loads encoded in
  Ok (setstate d).

(** [restore_from_session] *)
Definition restore_from_session (sid : string) (f : F) (user : option string) : result State :=
  let? s :=
    match load_state f (get_conversation_agent_state_filename sid user) with
    | Raise FileNotFoundError =>
        match user with
        | Some u => if String.eqb u "" then Raise FileNotFoundError
                    else load_state f (get_conversation_agent_state_filename sid None)
        | None => Raise FileNotFoundError
        end
    | r => r
    end in
  let s := set_resume_state s
    (if bool_decide (agent_state s ∈ RESUMABLE_STATES) then Some (agent_state s) else None) in
  Ok (set_agent_state s LOADING).
End session.

(** * Properties of the agent's state *)
(** ** The view cache *)

(** What a controller does to a state between two truncations of its history. *)
Inductive view_op := Append (e : Event) | Read.

Fixpoint run_views (ops : list view_op) (s : State) : State * list (result View) :=
  match ops with
  | [] => (s, [])
  | Append e :: ops => run_views ops (set_history s (history s ++ [e]))
  | Read :: ops => let '(s, r) := view s in
                   let '(s, rs) := run_views ops s in (s, r :: rs)
  end.

(** The uncached answers. *)
Fixpoint spec_views (ops : list view_op) (h : list Event) : list (result View) :=
  match ops with
  | [] => []
  | Append e :: ops => spec_views ops (h ++ [e])
  | Read :: ops => from_events h :: spec_views ops h
  end.

(** The cache is empty or holds the view of a prefix of the history. *)
Definition view_ok (s : State) : Prop :=
  history_checksum s = -1 ∨
  ∃ v k, cached_view s = Some v ∧ history_checksum s = Z.of_nat k ∧ (k ≤ length (history s))%nat
         ∧ from_events (take k (history s)) = Ok v.

Lemma view_ok_read s :
  view_ok s → Forall valid_event (history s) →
  ∃ s', view s = (s', from_events (history s)) ∧ view_ok s' ∧ history s' = history s.
Proof.
  intros Hok Hval. destruct (from_events_total _ Hval) as [v Hv]. unfold view.
  destruct (Z.eqb_spec (py_len (history s)) (history_checksum s)) as [Heq|Hne].
  - destruct Hok as [H1|(w & k & Hc & Hk & Hle & Hw)]; [len_lia|].
    exists s. rewrite Hc. split; [|split; [right; eauto 10|done]].
    assert (k = length (history s)) as -> by len_lia.
    rewrite take_ge in Hw by lia. by rewrite Hw.
  - exists (set_view_cache s (py_len (history s)) (Some v)). rewrite Hv. split; [done|].
    split; [|done]. right. exists v, (length (history s)). simpl. split_and!; [done..|].
    by rewrite take_ge by lia.
Qed.

Lemma view_ok_append s e : view_ok s → view_ok (set_history s (history s ++ [e])).
Proof.
  intros [H|(v & k & Hc & Hk & Hle & Hv)]; [by left|right]. exists v, k. simpl.
  split_and!; [done..| |].
  - rewrite length_app. lia.
  - by rewrite take_app_le by lia.
Qed.

(** The cached view is the view: along any sequence of appends to the history and
    reads, starting from a fresh or coherent cache, every read returns
    [View.from_events] of the history at that moment. *)
Theorem view_cache_correct (ops : list view_op) (s : State) :
  view_ok s → Forall valid_event (history s) →
  Forall (λ op, match op with Append e => valid_event e | Read => True end) ops →
  (run_views ops s).2 = spec_views ops (history s).
Proof.
  revert s. induction ops as [|[e|] ops IH]; intros s Hok Hval Hops; [done|..];
    inversion_clear Hops as [|?? He Hops']; simpl.
  - apply (IH (set_history s (history s ++ [e]))); [by apply view_ok_append| |done]. simpl.
    apply Forall_app. by repeat constructor.
  - destruct (view_ok_read s Hok Hval) as (s' & -> & Hok' & Hh).
    specialize (IH s' Hok'). rewrite Hh in IH. specialize (IH Hval Hops').
    destruct (run_views ops s') as [s2 rs]. simpl in *. by rewrite IH.
Qed.

Lemma view_cache_correct_witness :
  (run_views [Read; Append (ex_msg 0 USER "a"); Read] default_State).2
  = [Ok (mkView [] false ∅); Ok (mkView [ex_msg 0 USER "a"] false ∅)].
Proof.
  rewrite (view_cache_correct [Read; Append (ex_msg 0 USER "a"); Read] default_State).
  - vm_compute. reflexivity.
  - left. reflexivity.
  - constructor.
  - repeat constructor.
Defined.

(** The cache is keyed by the length of the history only: when a history is
    replaced by another of the same length (a truncation followed by as many new
    events), the view read is still the old history's. *)
Theorem view_stale (s : State) (h' : list Event) (v : View) :
  history_checksum s = py_len (history s) → cached_view s = Some v →
  length h' = length (history s) →
  view (set_history s h') = (set_history s h', Ok v).
Proof.
  intros Hk Hv Hl. unfold view. simpl.
  assert (py_len h' = history_checksum s) as -> by len_lia.
  rewrite Z.eqb_refl. by rewrite Hv.
Qed.

Lemma view_stale_witness :
  let s := (view (set_history default_State [ex_msg 0 USER "a"; ex_msg 1 AGENT "b"])).1 in
  ∃ v, view (set_history s [ex_msg 0 USER "a"; ex_msg 2 AGENT "c"])
       = (set_history s [ex_msg 0 USER "a"; ex_msg 2 AGENT "c"], Ok v)
    ∧ view_events v = [ex_msg 0 USER "a"; ex_msg 1 AGENT "b"].
Proof.
  intros s. eexists. split.
  - apply (view_stale s); [reflexivity|reflexivity|reflexivity].
  - reflexivity.
Defined.

(** ** The user's intent *)

Definition is_finish (e : Event) : bool :=
  match ev_body e with EAction (AAgentFinish _) => true | _ => false end.
Definition message_images (e : Event) : option (list string) :=
  match ev_body e with EAction (AMessage a) => ma_image_urls a | _ => None end.

Lemma intent_step e l msg urls :
  is_finish e = false →
  intent_loop msg urls (e :: l)
  = if is_user_message e then intent_loop (Some (message_content e)) (message_images e) l
    else intent_loop msg urls l.
Proof.
  unfold is_finish, is_message_from, is_message, message_content, message_images. simpl.
  destruct (ev_body e) as [[]|]; done.
Qed.

(** The messages of a stretch without a finish: the last one met wins. *)
Lemma intent_stretch l r msg urls :
  Forall (λ e, is_finish e = false) l →
  intent_loop msg urls (reverse l ++ r)
  = match py_find is_user_message l with
    | Some m => intent_loop (Some (message_content m)) (message_images m) r
    | None => intent_loop msg urls r
    end.
Proof.
  revert r. induction l as [|e l IH]; intros r Hl; [done|].
  inversion_clear Hl as [|?? He Hl']. rewrite reverse_cons, <- (assoc_L (++)). simpl.
  rewrite IH by done. destruct (is_user_message e) eqn:E.
  - destruct (py_find _ l); rewrite intent_step, E; done.
  - destruct (py_find _ l); rewrite intent_step, E; done.
Qed.

(** The user's intent: with no finish in the view it is the first user message
    and its images; otherwise, with user messages after the last finish, it is the
    first of those, without images; with none after it, the finish and what follows
    it are ignored.  The last user message, in contrast, is the last one. *)
Theorem intent_spec (s s' : State) (v : View) :
  view s = (s', Ok v) →
  (Forall (λ e, is_finish e = false) (view_events v) →
   get_current_user_intent s
   = (s', Ok match py_find is_user_message (view_events v) with
             | Some m => (Some (message_content m), message_images m)
             | None => (None, Some [])
             end))
  ∧ (∀ pre f post, view_events v = pre ++ f :: post →
       Forall (λ e, is_finish e = false) post → is_finish f = true →
       get_current_user_intent s
       = (s', Ok match py_find is_user_message post with
                 | Some m => (Some (message_content m), None)
                 | None => intent_loop None (Some []) (reverse pre)
                 end))
  ∧ get_last_user_message s = (s', Ok (last (py_filter is_user_message (view_events v)))).
Proof.
  intros Hv. unfold get_current_user_intent, get_last_user_message.
  rewrite !(pbind_ok _ _ _ _ _ Hv). unfold pret. split; [|split].
  - intros Hno. pose proof (intent_stretch _ [] None (Some []) Hno) as H.
    rewrite app_nil_r in H. rewrite H. by destruct (py_find _ _).
  - intros pre f post -> Hpost Hf. rewrite reverse_app, reverse_cons, <- (assoc_L (++)).
    rewrite intent_stretch by done. unfold is_finish in Hf. simpl.
    destruct (py_find _ post), (ev_body f) as [[]|]; done.
  - do 2 f_equal. apply py_find_reverse.
Qed.

Lemma intent_spec_witness :
  let f := new_action (AAgentFinish (mkAgentFinishAction "" [] "")) in
  let s := set_history default_State
             [ex_msg 0 USER "task"; f; ex_msg 2 USER "first"; ex_msg 3 USER "latest"] in
  (get_current_user_intent s).2 = Ok (Some "first", None)
  ∧ (get_last_user_message s).2 = Ok (Some (ex_msg 3 USER "latest")).
Proof.
  intros f s. destruct (view s) as [s' [v|]] eqn:E; [|discriminate (f_equal snd E)].
  destruct (intent_spec s s' v E) as (_ & H & ->).
  injection E as <- <-.
  rewrite (H [ex_msg 0 USER "task"] f [ex_msg 2 USER "first"; ex_msg 3 USER "latest"]);
    [by split|reflexivity|repeat constructor|reflexivity].
Defined.

(** ** Sessions *)

Lemma setstate_getstate s : setstate (getstate s) = set_view_cache (set_history s []) (-1) None.
Proof. by destruct s. Qed.
Lemma set_has_stats_back s b : set_has_stats (set_has_stats s b) (has_stats s) = s.
Proof. by destruct s. Qed.

Lemma user_dir_not_session sid u r :
  u ≠ "" → startswith (get_conversation_dir sid (Some u) +:+ r)
             (get_conversation_agent_state_filename sid None) = false.
Proof.
  intros Hu. unfold get_conversation_dir. rewrite (proj2 (String.eqb_neq _ _) Hu). reflexivity.
Qed.

Section session.
#[local] Set Default Proof Using "All".
Context `{FileStoreLaws F} `{Pickle StateDict}.

(** Saving and restoring a session gives back the state: everything but the
    history and the cached view, which the event stream restores, the statistics,
    which are handled apart, and the agent's state, which becomes [LOADING] while
    [resume_state] remembers it when it is one that can be resumed.  The saved
    object itself is unchanged. *)
Theorem save_restore (sid : string) (user : option string) (s s' : State) (f f' : F) :
  let saved := getstate (set_has_stats s false) in
  pickle_loads (pickle_dumps saved) = Ok saved →
  save_to_session sid user (s, f) = ((s', f'), Ok tt) →
  s' = s
  ∧ restore_from_session sid f' user
    = Ok (set_agent_state (set_resume_state
        (set_view_cache (set_history (set_has_stats s false) []) (-1) None)
        (if bool_decide (agent_state s ∈ RESUMABLE_STATES) then Some (agent_state s) else None))
        LOADING).
Proof.
  intros saved Hp Hs. unfold save_to_session in Hs. fold saved in Hs.
  destruct (fs_write _ _ f) as [f1 [[]|e]] eqn:Hw; [|done].
  injection Hs as <- Hf. split; [apply set_has_stats_back|].
  assert (Hr : fs_read f' (get_conversation_agent_state_filename sid user)
               = Ok (pickle_dumps saved)).
  { pose proof (fs_read_write _ _ _ _ Hw) as Hr. rewrite <- Hf.
    destruct user as [u|]; [|done]. destruct (String.eqb_spec u "") as [->|Hu]; [done|].
    destruct (fs_delete _ f1) as [f2 r] eqn:Hd. simpl. rewrite <- Hr.
    apply (fs_read_delete _ _ _ _ _ Hd). by apply user_dir_not_session. }
  unfold restore_from_session, load_state. rewrite Hr. cbn [rbind]. rewrite Hp. cbn [rbind].
  unfold saved. by rewrite setstate_getstate.
Qed.

(** A failed save loses the statistics: when the file store raises, the state
    keeps the cleared reference, and from then on the budget is not synchronised. *)
Theorem failed_save_drops_stats (sid : string) (user : option string) (s : State) (f f' : F)
    (e : py_exc) :
  fs_write (get_conversation_agent_state_filename sid user)
    (pickle_dumps (getstate (set_has_stats s false))) f = (f', Raise e) →
  save_to_session sid user (s, f) = ((set_has_stats s false, f'), Raise e).
Proof using Type. intros Hw. unfold save_to_session. by rewrite Hw. Qed.
End session.

Definition ex_state_pickle (d : StateDict) : Pickle StateDict :=
  {| pickle_dumps := λ _, "bytes"; pickle_loads := λ _, Ok d |}.

Lemma save_restore_witness :
  let s := set_agent_state (set_history default_State [ex_msg 0 USER "a"]) RUNNING in
  let P := ex_state_pickle (getstate (set_has_stats s false)) in
  ∃ f', save_to_session (H0 := P) "s" (Some "u") (s, mkInMemoryFileStore []) = ((s, f'), Ok tt)
    ∧ restore_from_session (H0 := P) "s" f' (Some "u")
      = Ok (set_resume_state default_State (Some RUNNING)).
Proof.
  intros s P. eexists. split; [reflexivity|].
  apply (save_restore (H1 := P) "s" (Some "u") s s (mkInMemoryFileStore [])); reflexivity.
Defined.

(** A store that is full. *)
Definition ex_full_store : FileStore unit :=
  {| fs_write := λ _ _ f, (f, Raise (OtherError "OSError" "No space left on device"));
     fs_read := λ _ _, Raise FileNotFoundError; fs_list := λ _ _, Ok [];
     fs_delete := λ _ f, (f, Ok tt) |}.

Lemma failed_save_drops_stats_witness :
  has_stats (save_to_session (H := ex_full_store)
    (H0 := ex_state_pickle (getstate default_State)) "s" None
    (set_has_stats default_State true, tt)).1.1 = false.
Proof.
  rewrite (@failed_save_drops_stats unit ex_full_store (ex_state_pickle (getstate default_State))
             "s" None (set_has_stats default_State true) tt tt
             (OtherError "OSError" "No space left on device")); reflexivity.
Defined.
