(* ===== verification/StateTracker.v ===== *)
(** * The state tracker

    Models [openhands/controller/state/state_tracker.py]: what of the event stream
    is the agent's history, how a history is rebuilt from the stream, and the
    control flags.  The stream is read through the interface [EventReader]
    ([event_store_abc.py]), which [EventStreamProps] implements. *)

From S2P Require Import Prelude PyValue ControlFlags Metrics Schema Actions Observations Events View Serialization FileStore EventStore ExamplePlatform EventStream EventStreamProps ConversationStats State.
From S2P Require Import View Serialization FileStore EventStore EventStream ConversationStats.
Local Open Scope Z_scope.
Local Open Scope py_scope.

(** ** What the tracker uses of the stream *)

Class EventReader (R : Type) := {
  reader_search : Z → option Z → bool → option EventFilter → option Z → pyM R (list Event);
  reader_latest_event_id : pyM R Z;
}.

(** The promise of a reader that stands for the log [reader_log]: searching a range
    of ids gives the events of that range that pass the filter. *)
Class EventReaderLaws (R : Type) `{Platform} `{EventReader R} := {
  reader_log : R → list Event → Prop;
  reader_log_id : ∀ r log k e, reader_log r log → log !! k = Some e → event_id e = Z.of_nat k;
  reader_search_log : ∀ r log (a b : nat) f g, reader_log r log → (b ≤ length log)%nat →
    (∀ e, include f e = Ok (g e)) →
    reader_search (Z.of_nat a) (Some (Z.of_nat b - 1)) false (Some f) None r
      = (r, Ok (py_filter g (take (b - a) (drop a log))));
  reader_latest_log : ∀ r log, reader_log r log →
    reader_latest_event_id r = (r, Ok (py_len log - 1));
}.

(** An [EventStream] is an [EventStore]. *)
#[export] Instance stream_reader `{FileStore F} `{Platform} : EventReader (EventStream F) := {
  reader_search start stop rev f limit := on_store (search_events start stop rev f limit);
  reader_latest_event_id := on_store get_latest_event_id;
}.

(** ** The tracker *)

(** [self.agent_history_filter] *)
Definition agent_history_filter : EventFilter :=
  mkEventFilter true None None
    (Some [CActionClass T_NULL; CObservationClass OT_NULL; CActionClass T_CHANGE_AGENT_STATE;
           CObservationClass OT_AGENT_STATE_CHANGED]) None None None.

(** [set_initial_state]; [sid] is the controller's id. *)
Definition set_initial_state (sid : string) (user : option string) (state : option State)
    (max_iterations : Z) (max_budget_per_task : option float) (confirmation : bool) : State :=
  match state with
  | None =>
      let budget := match max_budget_per_task with
                    | Some b => if feqb b fzero then None else Some (new_flag b fzero b)
                    | None => None
                    end in
      let s := default_State in
      mkState (removesuffix sid "-delegate") user (new_flag max_iterations 0 max_iterations) true
        budget confirmation (history s) [] (outputs s) (agent_state s) (resume_state s)
        (delegate_level s) 0 (end_id s) (parent_metrics_snapshot s) (parent_iteration s)
        (extra_data s) (last_error s) (metrics s) (history_checksum s) (cached_view s)
  | Some s => set_has_stats (if start_id s <=? -1 then set_start_id s 0 else s) true
  end.

(** *** Delegations in a history *)

Definition is_delegate_action (e : Event) : bool := isinstance e (CActionClass T_DELEGATE).
Definition is_delegate_observation (e : Event) : bool := isinstance e (CObservationClass OT_DELEGATE).

(** One turn of the loop that matches observations with the open actions. *)
Definition match_delegate (acc : list (Z * Z) * list Z) (e : Event) : list (Z * Z) * list Z :=
  let '(ranges, stack) := acc in
  if is_delegate_action e then (ranges, event_id e :: stack)
  else if is_delegate_observation e then
    match stack with
    | [] => (ranges, stack)
    | a :: stack => (ranges ++ [(a, event_id e)], stack)
    end
  else (ranges, stack).
Definition delegate_ranges (events : list Event) : list (Z * Z) :=
  (foldl match_delegate ([], []) events).1.

(** The order of pairs of integers. *)
Definition range_le (x y : Z * Z) : Prop := x.1 < y.1 ∨ (x.1 = y.1 ∧ x.2 ≤ y.2).
#[export] Instance range_le_dec : RelDecision range_le.
Proof. intros x y. unfold range_le. apply _. Defined.

(** One turn of the loop over the sorted ranges. *)
Definition hide_range (events : list Event) (acc : list Event * Z) (range : Z * Z) :
    list Event * Z :=
  let '(filtered, current_idx) := acc in
  let '(start, stop) := range in
  (filtered ++ py_filter (λ e, event_id e <? start) (py_slice (Some current_idx) None events)
     ++ py_filter (λ e, (event_id e =? start) || (event_id e =? stop)) events,
   from_option id (py_len events) (py_index (λ e, stop <? event_id e) events)).

(** The history without the events inside delegations, and the value the variable
    [start_id] has at the end: the loop over the ranges reuses it. *)
Definition hide_delegations (start : Z) (events : list Event) : list Event * Z :=
  match delegate_ranges events with
  | [] => (events, start)
  | ranges =>
      let sorted := merge_sort range_le ranges in
      let '(filtered, idx) := foldl (hide_range events) ([], 0) sorted in
      (filtered ++ py_slice (Some idx) None events,
       from_option fst start (last sorted))
  end.

Section tracker.
Context `{EventReader R}.

(** The bounds of the events to fetch. *)
Definition fetch_bounds (s : State) : pyM R (Z * Z) :=
  let start := if 0 <=? start_id s then start_id s else 0 in
  let* stop := if 0 <=? end_id s then pret (end_id s) else reader_latest_event_id in
  pret (start, stop).

(** [_init_history] *)
Definition init_history : pyM (State * R) unit := λ '(s, r),
  match fetch_bounds s r with
  | (r, Raise e) => ((s, r), Raise e)
  | (r, Ok (start, stop)) =>
      if stop + 1 <? start then ((set_history s [], r), Ok tt)
      else match reader_search start (Some stop) false (Some agent_history_filter) None r with
           | (r, Raise e) => ((s, r), Raise e)
           | (r, Ok events) =>
               let '(history, start) := hide_delegations start events in
               ((set_start_id (set_history s history) start, r), Ok tt)
           end
  end.

(** [close] *)
Definition tracker_close : pyM (State * R) unit := λ '(s, r),
  match fetch_bounds s r with
  | (r, Raise e) => ((s, r), Raise e)
  | (r, Ok (start, stop)) =>
      match reader_search start (Some stop) false (Some agent_history_filter) None r with
      | (r, Raise e) => ((s, r), Raise e)
      | (r, Ok events) => ((set_history s events, r), Ok tt)
      end
  end.
End tracker.

(** [add_history] *)
Definition add_history `{Platform} (e : Event) : pyM State unit := λ s,
  match include agent_history_filter e with
  | Ok true => (set_history s (history s ++ [e]), Ok tt)
  | Ok false => (s, Ok tt)
  | Raise x => (s, Raise x)
  end.

(** [get_trajectory] *)
Definition get_trajectory `{Platform} (include_screenshots : bool) (s : State) : result (list dict) :=
  rmap (λ e, event_to_trajectory py_repr e include_screenshots) (history s).

(** *** Control flags *)

Definition on_iteration_flag {A} (m : pyM (ControlFlag Z) A) : pyM State A := λ s,
  let '(f, r) := m (iteration_flag s) in (set_iteration_flag s f, r).
(** A call on the budget flag, when there is one. *)
Definition on_budget_flag (m : pyM (ControlFlag float) unit) : pyM State unit := λ s,
  match budget_flag s with
  | None => (s, Ok tt)
  | Some b => let '(b, r) := m b in (set_budget_flag s (Some b), r)
  end.

Definition maybe_increase_control_flags_limits (headless : bool) : pyM State unit :=
  on_iteration_flag (Iter.increase_limit headless) ;;;
  on_budget_flag (Budget.increase_limit headless).

Definition run_control_flags : pyM State unit :=
  on_iteration_flag Iter.step ;;; on_budget_flag Budget.step.

Definition sync_budget_flag_with_metrics (stats : ConversationStats) (s : State) : State :=
  match budget_flag s with
  | Some b =>
      if has_stats s
      then set_budget_flag s (Some (set_current (m_accumulated_cost (get_combined_metrics stats)) b))
      else s
  | None => s
  end.

(** [get_metrics_snapshot] *)
Definition get_metrics_snapshot (s : State) : Metrics := metrics s.

(** *** Saving *)

(** The tracker's own attributes; the file store, when given, is the stream's. *)
Record StateTracker := mkStateTracker {
  tr_sid : option string;
  tr_has_store : bool;
  tr_user_id : option string;
}.

Section save.
Context `{FileStore F} `{Pickle StateDict} `{Pickle (list (string * Metrics))}.

(** [save_state]; [stats_store]: the statistics were given the file store too. *)
Definition save_state (t : StateTracker) (stats : ConversationStats) (stats_store : bool) :
    pyM (State * F) unit :=
  (match truthy_str (tr_sid t) with
   | Some sid => if tr_has_store t then save_to_session sid (tr_user_id t) else pret tt
   | None => pret tt
   end) ;;;
  λ '(s, f),
  if has_stats s then
    if stats_store then
      let '(f', r) := save_metrics stats (Some f) in ((s, from_option id f f'), r)
    else ((s, f), Ok tt)
  else ((s, f), Ok tt).
End save.

(** * The agent's history

    The event stream implements the tracker's [EventReader] interface.  Over any
    reader that keeps its promises: a history restored from the log hides the inside
    of delegations, and what the loop over the delegations does to [start_id]. *)
(** ** The stream as a reader *)

Lemma plain_search_filter `{FileStore F} `{Platform} (s : EventStore F) f (g : Event → bool)
    n indices es :
  (∀ e, include f e = Ok (g e)) →
  Forall2 (λ i e, lookup_event s i = Ok (Some e)) indices es →
  plain_search s (Some f) None n indices = Ok (py_filter g es).
Proof.
  intros Hg Hf. revert n. induction Hf as [|i e l es Hi _ IH]; intros n; [done|].
  cbn [plain_search py_filter]. rewrite Hi. cbn [rbind limit_reached]. rewrite Hg. cbn [rbind].
  destruct (g e); by rewrite IH.
Qed.

#[export] Instance stream_reader_laws `{FileStoreLaws F} `{!ReliableFileStore F} `{PlatformLaws} :
  EventReaderLaws (EventStream F).
Proof.
  refine {| reader_log := stream_inv |}.
  - intros st log k e [Hs _ _ _] Hk. destruct (si_event _ _ Hs k e Hk) as (d & [_ Hid] & Hd).
    by apply (from_dict_id d).
  - intros st log a b f g [Hs Hsh Hl Hp] Hb Hg. simpl. unfold on_store, search_events, pbind, pret, pget, plift.
    rewrite search_loop_plain by (apply dummy_good || by eapply store_inv_coherent).
    rewrite set_store_eta. f_equal. apply plain_search_filter; [done|].
    unfold py_range. replace (Z.of_nat b - 1 + 1 - Z.of_nat a) with (Z.of_nat b - Z.of_nat a) by lia.
    destruct (decide (a ≤ b)%nat).
    + rewrite <- Nat2Z.inj_sub by done. apply lookup_range; [done|lia].
    + replace (b - a)%nat with 0%nat by lia. rewrite seqZ_nil by lia. constructor.
  - intros st log [Hs _ _ _]. simpl. unfold on_store, get_latest_event_id, cur_id, pbind.
    rewrite (si_cur _ _ Hs). unfold pret. by rewrite set_store_eta.
Defined.

(** ** The history filter *)

(** The events the agent sees. *)
Definition in_history (e : Event) : bool :=
  negb (isinstance_any e [CActionClass T_NULL; CObservationClass OT_NULL;
          CActionClass T_CHANGE_AGENT_STATE; CObservationClass OT_AGENT_STATE_CHANGED])
  && negb (event_hidden e).

Lemma include_history `{Platform} e : include agent_history_filter e = Ok (in_history e).
Proof.
  unfold include, in_history. cbn [include_types exclude_types agent_history_filter].
  destruct (isinstance_any e _); [done|]. simpl. by destruct (event_hidden e).
Qed.

(** ** Delegations *)

(** A history as the agent saw it: an event of its own, or a whole delegation, from
    the delegate action to the delegate observation. *)
Inductive segment := Own (e : Event) | Delegation (a : Event) (inner : list Event) (o : Event).

Definition neither (e : Event) : bool := negb (is_delegate_action e) && negb (is_delegate_observation e).

Definition segment_ok (g : segment) : bool :=
  match g with
  | Own e => neither e
  | Delegation a inner o =>
      is_delegate_action a && forallb neither inner && is_delegate_observation o
  end.

Definition segment_events (g : segment) : list Event :=
  match g with Own e => [e] | Delegation a inner o => a :: inner ++ [o] end.
Definition flatten (gs : list segment) : list Event := gs ≫= segment_events.
(** What is left of the history without the inside of the delegations. *)
Definition visible (gs : list segment) : list Event :=
  gs ≫= λ g, match g with Own e => [e] | Delegation a _ o => [a; o] end.
Definition segment_ranges (gs : list segment) : list (Z * Z) :=
  gs ≫= λ g, match g with Own _ => [] | Delegation a _ o => [(event_id a, event_id o)] end.

Lemma not_both e : is_delegate_action e && is_delegate_observation e = false.
Proof. unfold is_delegate_action, is_delegate_observation. destruct e as [m [a|o]]; simpl; [apply andb_false_r|done]. Qed.

Lemma match_neither ranges stack inner :
  forallb neither inner = true → foldl match_delegate (ranges, stack) inner = (ranges, stack).
Proof.
  induction inner as [|e l IH]; [done|]. cbn [forallb foldl]. intros [He Hl]%andb_prop.
  unfold neither in He. apply andb_prop in He as [Ha Ho]. unfold match_delegate at 2.
  rewrite (proj1 (negb_true_iff _) Ha), (proj1 (negb_true_iff _) Ho). by apply IH.
Qed.

Lemma match_segments ranges gs :
  forallb segment_ok gs = true →
  foldl match_delegate (ranges, []) (flatten gs) = (ranges ++ segment_ranges gs, []).
Proof.
  revert ranges. induction gs as [|[e|a inner o] gs IH]; intros ranges; [by rewrite app_nil_r|..];
    cbn [forallb segment_ok]; intros [Hg Hgs]%andb_prop; unfold flatten; cbn [mbind list_bind];
    cbn [segment_events]; rewrite foldl_app.
  - rewrite (match_neither ranges [] [e]) by (simpl; by rewrite Hg). by apply IH.
  - apply andb_prop in Hg as [[Ha Hi]%andb_prop Ho]. cbn [foldl].
    unfold match_delegate at 3. rewrite Ha. rewrite foldl_app, match_neither by done.
    cbn [foldl]. unfold match_delegate at 2.
    pose proof (not_both o) as Hb. rewrite Ho, andb_true_r in Hb. rewrite Hb, Ho.
    unfold flatten in IH. rewrite IH by done. by rewrite <- app_assoc.
Qed.

Lemma flatten_app gs hs : flatten (gs ++ hs) = flatten gs ++ flatten hs.
Proof. unfold flatten. by rewrite bind_app. Qed.

Lemma segment_range_elem gs r :
  r ∈ segment_ranges gs → ∃ x, x ∈ flatten gs ∧ event_id x = r.1.
Proof.
  unfold segment_ranges, flatten. intros (g & Hr & Hg)%list_elem_of_bind.
  destruct g as [e|a inner o]; [set_solver|]. apply list_elem_of_singleton in Hr as ->.
  exists a. split; [|done]. apply list_elem_of_bind. exists (Delegation a inner o). set_solver.
Qed.

Lemma ranges_sorted gs : increasing (flatten gs) → Sorted range_le (segment_ranges gs).
Proof.
  induction gs as [|[e|a inner o] gs IH]; [constructor|..]; unfold flatten, segment_ranges;
    cbn [mbind list_bind segment_events]; intros (H1 & H2 & H3)%increasing_app; [by apply IH|].
  constructor; [by apply IH|]. destruct (segment_ranges gs) as [|r rs] eqn:E.
  { unfold segment_ranges in E. rewrite E. constructor. }
  unfold segment_ranges in E. rewrite E. constructor. left.
  destruct (segment_range_elem gs r) as (x & Hx & <-).
  { unfold segment_ranges. rewrite E. left. }
  apply H3; [left|done].
Qed.

#[local] Instance range_le_trans : Transitive range_le.
Proof. intros x y z. unfold range_le. lia. Qed.
#[local] Instance range_le_total : Total range_le.
Proof. intros x y. unfold range_le. lia. Qed.
#[local] Instance range_le_anti : AntiSymm (=) range_le.
Proof. intros [x1 x2] [y1 y2]. unfold range_le. simpl. intros. f_equal; lia. Qed.

Lemma sort_ranges gs :
  increasing (flatten gs) → merge_sort range_le (segment_ranges gs) = segment_ranges gs.
Proof.
  intros H. apply (Sorted_unique range_le).
  - apply Sorted_merge_sort, _.
  - by apply ranges_sorted.
  - apply merge_sort_Permutation.
Qed.

Lemma py_index_from_split {A} (f : A → bool) l k i :
  (∀ x, x ∈ l → f x = false) → (∀ x, x ∈ k → f x = true) →
  from_option id (i + py_len (l ++ k)) (py_index_from f i (l ++ k)) = i + py_len l.
Proof.
  intros Hl Hk. revert i. induction l as [|x l IH]; intros i; simpl.
  - destruct k as [|y k]; simpl; [done|]. rewrite Hk by left. simpl. len_lia.
  - rewrite Hl by left. unfold py_len in *. simpl length.
    replace (i + Z.of_nat (S (length (l ++ k)))) with ((i + 1) + Z.of_nat (length (l ++ k))) by lia.
    rewrite IH; [lia|]. intros y Hy. apply Hl. by right.
Qed.

(** Selecting two ids of a list with increasing ids. *)
Lemma select_two p a inner o r :
  increasing (p ++ (a :: inner ++ [o]) ++ r) →
  py_filter (λ e, (event_id e =? event_id a) || (event_id e =? event_id o))
    (p ++ (a :: inner ++ [o]) ++ r) = [a; o].
Proof.
  intros (Hp & (Hs & Hr & Hsr)%increasing_app & Hpr)%increasing_app.
  apply (increasing_app [a]) in Hs as (_ & (_ & _ & Hio)%increasing_app & Ha).
  rewrite !py_filter_app. cbn [py_filter]. rewrite Z.eqb_refl. cbn [orb].
  rewrite py_filter_app, (py_filter_none _ p), (py_filter_none _ inner), (py_filter_none _ r).
  - simpl. by rewrite Z.eqb_refl, orb_true_r.
  - intros x Hx. pose proof (Hsr a x ltac:(left) Hx). pose proof (Hsr o x ltac:(set_solver) Hx). lia.
  - intros x Hx. pose proof (Ha a x ltac:(left) ltac:(set_solver)).
    pose proof (Hio x o Hx ltac:(left)). lia.
  - intros x Hx. pose proof (Hpr x a Hx ltac:(set_solver)). pose proof (Hpr x o Hx ltac:(set_solver)). lia.
Qed.

Lemma own_before own a inner o r :
  increasing (own ++ (a :: inner ++ [o]) ++ r) →
  py_filter (λ e, event_id e <? event_id a) (own ++ (a :: inner ++ [o]) ++ r) = own.
Proof.
  intros (_ & (Hs & _ & Hsr)%increasing_app & Hlt)%increasing_app.
  apply (increasing_app [a]) in Hs as (_ & _ & Hs).
  rewrite py_filter_app, py_filter_all, py_filter_none, app_nil_r; [done|..].
  - intros x [[->|Hx]%elem_of_cons|Hx]%elem_of_app; [lia| |].
    + pose proof (Hs a x ltac:(left) Hx). lia.
    + pose proof (Hsr a x ltac:(left) Hx). lia.
  - intros x Hx. pose proof (Hlt x a Hx ltac:(set_solver)). lia.
Qed.

Lemma index_after p o r :
  increasing ((p ++ [o]) ++ r) →
  from_option id (py_len ((p ++ [o]) ++ r)) (py_index (λ e, event_id o <? event_id e) ((p ++ [o]) ++ r))
  = py_len (p ++ [o]).
Proof.
  intros ((_ & _ & Hpo)%increasing_app & _ & Hr)%increasing_app.
  apply (py_index_from_split _ _ _ 0).
  - intros x [Hx| ->%list_elem_of_singleton]%elem_of_app; [|lia].
    pose proof (Hpo x o Hx ltac:(left)). lia.
  - intros x Hx. pose proof (Hr o x ltac:(set_solver) Hx). lia.
Qed.

(** One turn of the loop at a delegation with own events before it. *)
Lemma hide_range_delegation p own a inner o r acc :
  let events := p ++ own ++ (a :: inner ++ [o]) ++ r in
  increasing events →
  hide_range events (acc, py_len p) (event_id a, event_id o)
  = (acc ++ own ++ [a; o], py_len (p ++ own ++ (a :: inner ++ [o]))).
Proof.
  intros events Hinc. unfold hide_range. f_equal.
  - assert (Hsel : py_filter (λ e, (event_id e =? event_id a) || (event_id e =? event_id o)) events
                   = [a; o]).
    { unfold events in *. rewrite app_assoc in Hinc |- *. by apply select_two. }
    rewrite Hsel. unfold events. rewrite py_slice_from_app, own_before; [done|].
    by apply increasing_app in Hinc as (_ & ? & _).
  - replace events with (((p ++ own ++ a :: inner) ++ [o]) ++ r) in *
      by (unfold events; repeat (simpl; rewrite <- !app_assoc); done).
    rewrite index_after by done. f_equal. repeat (simpl; rewrite <- !app_assoc). done.
Qed.

Lemma hide_loop gs p own acc :
  let events := p ++ own ++ flatten gs in
  increasing events →
  let '(filtered, idx) := foldl (hide_range events) (acc, py_len p) (segment_ranges gs) in
  filtered ++ py_slice (Some idx) None events = acc ++ own ++ visible gs.
Proof.
  revert p own acc. induction gs as [|[e|a inner o] gs IH]; intros p own acc events Hinc.
  - simpl. unfold events. by rewrite py_slice_from_app.
  - specialize (IH p (own ++ [e]) acc). cbv zeta in IH.
    replace (p ++ (own ++ [e]) ++ flatten gs) with events in IH
      by (unfold events; by rewrite <- !app_assoc).
    specialize (IH Hinc). change (segment_ranges (Own e :: gs)) with (segment_ranges gs).
    destruct (foldl _ _ _) as [f idx]. rewrite IH. by rewrite <- !app_assoc.
  - change (segment_ranges (Delegation a inner o :: gs))
      with ((event_id a, event_id o) :: segment_ranges gs). cbn [foldl].
    unfold events at 2. change (flatten (Delegation a inner o :: gs))
      with ((a :: inner ++ [o]) ++ flatten gs). rewrite hide_range_delegation by exact Hinc.
    specialize (IH (p ++ own ++ (a :: inner ++ [o])) [] (acc ++ own ++ [a; o])). cbv zeta in IH.
    replace ((p ++ own ++ a :: inner ++ [o]) ++ [] ++ flatten gs) with events in IH
      by (unfold events; repeat (simpl; rewrite <- !app_assoc); done).
    specialize (IH Hinc). destruct (foldl _ _ _) as [f idx]. rewrite IH. by rewrite <- !app_assoc.
Qed.

(** The events of an increasing list from the id of one of them on. *)
Lemma from_id_suffix l a k :
  increasing (l ++ a :: k) → py_filter (λ e, event_id a <=? event_id e) (l ++ a :: k) = a :: k.
Proof.
  intros (_ & Hk & Hl)%increasing_app. apply (increasing_app [a]) in Hk as (_ & _ & Hk).
  rewrite py_filter_app, py_filter_none, (py_filter_all _ (a :: k)); [done|..].
  - intros x [->|Hx]%elem_of_cons; [lia|]. pose proof (Hk a x ltac:(left) Hx). lia.
  - intros x Hx. pose proof (Hl x a Hx ltac:(left)). lia.
Qed.

Lemma hide_delegations_segments start gs :
  increasing (flatten gs) → forallb segment_ok gs = true →
  hide_delegations start (flatten gs)
  = (visible gs, from_option fst start (last (segment_ranges gs))).
Proof.
  intros Hinc Hok. unfold hide_delegations, delegate_ranges. rewrite match_segments by done. simpl.
  pose proof (hide_loop gs [] [] [] Hinc) as Hh. simpl in Hh.
  destruct (segment_ranges gs) as [|r rs] eqn:E.
  - f_equal. rewrite <- Hh. symmetry. exact (py_slice_from (flatten gs) 0).
  - rewrite <- E, sort_ranges by done. rewrite E in *.
    change (py_len []) with 0 in Hh. destruct (foldl _ _ _) as [f idx]. by rewrite Hh.
Qed.

Section history.
#[local] Set Default Proof Using "All".
Context `{EventReaderLaws R}.
Implicit Types (r : R) (log : list Event) (s : State).

Lemma log_increasing r log : reader_log r log → increasing log.
Proof.
  intros Hr. assert (Hid : ∀ k e, log !! k = Some e → event_id e = Z.of_nat k)
    by (intros; by eapply reader_log_id).
  clear Hr. revert Hid. induction log as [|e log IH] using rev_ind; intros Hid; [constructor|].
  apply increasing_app. split_and!.
  - apply IH. intros k x Hk. apply Hid. by apply lookup_app_l_Some.
  - repeat constructor.
  - intros x y [k Hk]%list_elem_of_lookup ->%list_elem_of_singleton.
    pose proof (lookup_lt_Some _ _ _ Hk).
    rewrite (Hid k x) by by apply lookup_app_l_Some.
    rewrite (Hid (length log) e); [lia|]. by rewrite lookup_app_r, Nat.sub_diag.
Qed.

Lemma search_history r log (a : nat) :
  reader_log r log → (a ≤ length log)%nat →
  reader_search (Z.of_nat a) (Some (py_len log - 1)) false (Some agent_history_filter) None r
  = (r, Ok (py_filter in_history (drop a log))).
Proof.
  intros Hr Ha. unfold py_len. rewrite (reader_search_log r log a (length log) _ in_history);
    [|done|lia|apply include_history].
  by rewrite take_ge by (rewrite length_drop; lia).
Qed.

Lemma fetch_bounds_log r log s :
  reader_log r log → 0 ≤ start_id s → end_id s < 0 →
  fetch_bounds s r = (r, Ok (start_id s, py_len log - 1)).
Proof.
  intros Hr Hs He. unfold fetch_bounds, pbind. rewrite (proj2 (Z.leb_le 0 (start_id s))) by done.
  rewrite (proj2 (Z.leb_gt 0 (end_id s))) by done. by rewrite (reader_latest_log r log).
Qed.

Lemma init_history_segments r log s (a : nat) gs :
  reader_log r log → start_id s = Z.of_nat a → end_id s < 0 → (a ≤ length log)%nat →
  py_filter in_history (drop a log) = flatten gs → forallb segment_ok gs = true →
  init_history (s, r)
  = ((set_start_id (set_history s (visible gs))
        (from_option fst (start_id s) (last (segment_ranges gs))), r), Ok tt).
Proof.
  intros Hr Hs He Ha Hf Hok. unfold init_history. rewrite (fetch_bounds_log r log s) by (done || lia).
  rewrite (proj2 (Z.ltb_ge _ _)) by len_lia. rewrite Hs, (search_history r log a) by done.
  rewrite Hf, hide_delegations_segments; [done| |done].
  rewrite <- Hf. apply increasing_filter, increasing_drop. by eapply log_increasing.
Qed.

(** A restored history shows delegations from the outside: over a reader that
    keeps its promises, when the agent's events in the log are its own events and
    complete delegations in any order, [_init_history] gives its own events and, of
    each delegation, the delegate action and the delegate observation only. *)
Theorem init_history_delegations r log s (a : nat) (gs : list segment) :
  reader_log r log → start_id s = Z.of_nat a → end_id s < 0 → (a ≤ length log)%nat →
  py_filter in_history (drop a log) = flatten gs → forallb segment_ok gs = true →
  ∃ s', init_history (s, r) = ((s', r), Ok tt) ∧ history s' = visible gs
        ∧ agent_state s' = agent_state s ∧ end_id s' = end_id s.
Proof. intros. eexists. rewrite (init_history_segments r log s a gs) by done. done. Qed.

(** The rest of the agent's events from one of them on. *)
Lemma history_from_id r log (a : nat) l e k :
  reader_log r log → py_filter in_history (drop a log) = l ++ e :: k →
  ∃ j : nat, event_id e = Z.of_nat j ∧ (j ≤ length log)%nat
    ∧ py_filter in_history (drop j log) = e :: k.
Proof.
  intros Hr Hf. pose proof (increasing_drop a _ (log_increasing r log Hr)) as Hinc.
  assert (He : e ∈ drop a log).
  { apply (elem_of_py_filter in_history (drop a log) e). rewrite Hf. set_solver. }
  apply list_elem_of_lookup in He as [i Hi]. pose proof Hi as Hi'. rewrite lookup_drop in Hi'.
  exists (a + i)%nat. split; [by eapply reader_log_id|].
  split; [apply lookup_lt_Some in Hi'; lia|].
  rewrite <- (from_id_suffix l e k) by (rewrite <- Hf; by apply increasing_filter).
  rewrite <- Hf, <- drop_drop. rewrite <- (take_drop_middle _ _ _ Hi) in Hinc |- * at 2.
  rewrite (drop_S _ e) by done. set (post := drop (S i) (drop a log)) in *.
  pose proof (from_id_suffix _ _ _ Hinc) as Hsuf.
  rewrite py_filter_filter. rewrite <- Hsuf at 1. rewrite py_filter_filter.
  apply py_filter_ext. intros x _. apply andb_comm.
Qed.

(** Restoring a history with delegations moves the start of the agent's session:
    the loop over the delegations reuses the variable [start_id], so the state ends
    with the id of the last delegate action, and a later [close], which is to give
    the complete history with the events of the delegates, loses every event before
    that action. *)
Theorem close_loses_history r log s (a : nat) (gs tail : list segment) (da : Event)
    (inner : list Event) (o : Event) :
  let all := gs ++ Delegation da inner o :: tail in
  reader_log r log → start_id s = Z.of_nat a → end_id s < 0 → (a ≤ length log)%nat →
  py_filter in_history (drop a log) = flatten all → forallb segment_ok all = true →
  segment_ranges tail = [] →
  ∃ s1 s2, init_history (s, r) = ((s1, r), Ok tt) ∧ start_id s1 = event_id da
    ∧ tracker_close (s1, r) = ((s2, r), Ok tt)
    ∧ flatten all = flatten gs ++ history s2.
Proof.
  intros all Hr Hs He Ha Hf Hok Ht.
  assert (Hall : flatten all = flatten gs ++ da :: (inner ++ [o]) ++ flatten tail)
    by (unfold all; by rewrite flatten_app).
  assert (Hlast : last (segment_ranges all) = Some (event_id da, event_id o)).
  { unfold all, segment_ranges. rewrite bind_app. cbn [mbind list_bind].
    change (tail ≫= _) with (segment_ranges tail). by rewrite Ht, app_nil_r, last_snoc. }
  rewrite Hall in Hf. destruct (history_from_id r log a _ _ _ Hr Hf) as (j & Hj & Hlen & Hrest).
  rewrite <- Hall in Hf.
  eexists _, (set_history _ (da :: (inner ++ [o]) ++ flatten tail)).
  rewrite (init_history_segments r log s a all) by done.
  rewrite Hlast. cbn [from_option fst]. split; [done|]. split; [done|]. split; [|done].
  unfold tracker_close. rewrite (fetch_bounds_log r log) by (done || (simpl; lia)).
  cbn [start_id set_start_id]. by rewrite Hj, (search_history r log), Hrest by done.
Qed.
End history.

(** ** A log as a reader *)

(** A list of events whose ids are their positions; it answers forward searches. *)
Definition list_search (start : Z) (stop : option Z) (rev : bool) (f : option EventFilter)
    (limit : option Z) : pyM (list Event) (list Event) := λ log,
  let stop := from_option (λ i, Z.to_nat (i + 1)) (length log) stop in
  (log, Ok (py_filter (λ e, match (λ f, include f e) <$> f with
                            | Some (Ok b) => b
                            | Some (Raise _) => false
                            | None => true
                            end) (take (stop - Z.to_nat start) (drop (Z.to_nat start) log)))).
#[local] Instance list_reader : EventReader (list Event) :=
  {| reader_search := list_search; reader_latest_event_id := λ log, (log, Ok (py_len log - 1)) |}.

#[local] Instance list_reader_laws : EventReaderLaws (list Event).
Proof.
  refine {| reader_log := λ r log, r = log ∧ event_id <$> log = Z.of_nat <$> seq 0 (length log) |}.
  - intros r log k e [_ Hid] Hk.
    assert (Hk' : (event_id <$> log) !! k = Some (event_id e)) by by rewrite list_lookup_fmap, Hk.
    rewrite Hid, list_lookup_fmap, lookup_seq_lt in Hk' by by eapply lookup_lt_Some.
    by injection Hk' as <-.
  - intros r log a b f g [-> _] Hb Hg. simpl. unfold list_search. simpl.
    rewrite Nat2Z.id. replace (Z.to_nat (Z.of_nat b - 1 + 1)) with b by lia.
    f_equal. f_equal. apply py_filter_ext. intros e _. by rewrite Hg.
  - by intros r log [-> _].
Defined.

Definition ex_delegate (i : Z) : Event :=
  set_id (Some i) (new_action (AAgentDelegate (mkAgentDelegateAction "Browser" [] ""))).
Definition ex_result (i : Z) : Event :=
  set_id (Some i) (new_obs "done" (OAgentDelegate (mkAgentDelegateObservation []))).
Definition ex_log : list Event :=
  [ex_msg 0 USER "task"; ex_delegate 1; ex_msg 2 USER "TASK: sub"; ex_msg 3 AGENT "working";
   ex_result 4; ex_msg 5 AGENT "thanks"].
Definition ex_segments : list segment :=
  [Own (ex_msg 0 USER "task");
   Delegation (ex_delegate 1) [ex_msg 2 USER "TASK: sub"; ex_msg 3 AGENT "working"] (ex_result 4);
   Own (ex_msg 5 AGENT "thanks")].

Lemma init_history_delegations_witness :
  ∃ s', init_history (set_start_id default_State 0, ex_log) = ((s', ex_log), Ok tt)
    ∧ history s' = [ex_msg 0 USER "task"; ex_delegate 1; ex_result 4; ex_msg 5 AGENT "thanks"].
Proof.
  destruct (init_history_delegations ex_log ex_log (set_start_id default_State 0) 0 ex_segments)
    as (s' & H1 & H2 & _); [by split|reflexivity|simpl; lia|simpl; lia|reflexivity|reflexivity|].
  by exists s'.
Defined.

Lemma close_loses_history_witness :
  ∃ s1 s2, init_history (set_start_id default_State 0, ex_log) = ((s1, ex_log), Ok tt)
    ∧ tracker_close (s1, ex_log) = ((s2, ex_log), Ok tt)
    ∧ [ex_msg 0 USER "task"] ++ history s2 = ex_log.
Proof.
  destruct (close_loses_history ex_log ex_log (set_start_id default_State 0) 0
    [Own (ex_msg 0 USER "task")] [Own (ex_msg 5 AGENT "thanks")] (ex_delegate 1)
    [ex_msg 2 USER "TASK: sub"; ex_msg 3 AGENT "working"] (ex_result 4))
    as (s1 & s2 & H1 & _ & H2 & H3); [by split|reflexivity|simpl; lia|simpl; lia|reflexivity..|].
  exists s1, s2. split; [done|]. split; [done|]. exact (eq_sym H3).
Defined.

(** Delegations inside delegations are not hidden but repeated: the index after an
    inner delegation points back inside the outer one, so the events after the inner
    observation, the outer observation among them, appear a second time. *)
Theorem nested_delegation_repeats :
  let inner_task := ex_msg 3 AGENT "inner" in
  let log := [ex_msg 0 USER "task"; ex_delegate 1; ex_delegate 2; inner_task; ex_result 4;
              ex_msg 5 AGENT "middle"; ex_result 6; ex_msg 7 AGENT "end"] in
  hide_delegations 0 log
  = ([ex_msg 0 USER "task"; ex_delegate 1; ex_result 6; ex_delegate 2; ex_result 4;
      ex_msg 5 AGENT "middle"; ex_result 6; ex_msg 7 AGENT "end"], 2).
Proof. vm_compute. reflexivity. Qed.

(** ** Control flags of the state *)

(** One step of the control flags spends an iteration before it looks at the
    budget: an agent at its iteration limit raises and spends nothing; otherwise the
    iteration is counted, and then an exhausted budget raises; otherwise both pass.
    With the budget synchronised to the cost of all the services, "exhausted" means
    that this cost is at least the limit. *)
Theorem run_control_flags_spec (stats : ConversationStats) (s : State) :
  let s1 := sync_budget_flag_with_metrics stats s in
  let it := iteration_flag s in
  let counted := set_iteration_flag s1 (set_hit false (set_current (current_value it + 1) it)) in
  if max_value it <=? current_value it then
    run_control_flags s1
    = (set_iteration_flag s1 (set_hit true it), Raise (RuntimeError (Iter.limit_message it)))
  else match budget_flag s with
       | None => run_control_flags s1 = (counted, Ok tt)
       | Some b =>
           let cost := if has_stats s then m_accumulated_cost (get_combined_metrics stats)
                       else current_value b in
           let b' := set_hit (py_ge cost (max_value b)) (set_current cost b) in
           run_control_flags s1
           = (set_budget_flag counted (Some b'),
              if py_ge cost (max_value b) then Raise (RuntimeError (Budget.limit_message b'))
              else Ok tt)
       end.
Proof.
  intros s1 it counted.
  assert (Hit : iteration_flag s1 = it)
    by (unfold s1, sync_budget_flag_with_metrics; destruct (budget_flag s), (has_stats s); done).
  unfold run_control_flags, pbind, on_iteration_flag. rewrite Hit.
  destruct (Z.leb_spec (max_value it) (current_value it)) as [Hge|Hlt].
  { by rewrite iter_step_raise. }
  rewrite iter_step_ok by done. fold counted.
  assert (Hb : budget_flag counted = budget_flag s1) by done.
  unfold on_budget_flag. rewrite Hb.
  destruct (budget_flag s) as [b|] eqn:E; unfold s1, counted, sync_budget_flag_with_metrics;
    rewrite E.
  - destruct (has_stats s); simpl; unfold Budget.step, pbind, reached_limit; simpl.
    + by match goal with |- context [if ?c then _ else _] => destruct c end.
    + rewrite E. destruct b. simpl.
      by match goal with |- context [if ?c then _ else _] => destruct c end.
  - by rewrite E.
Qed.
