(* ===== verification/Stuck.v ===== *)
(** * The stuck detector

    Models [openhands/controller/stuck.py]: five patterns of a looping agent, looked
    for in the history.  The detector's only attribute besides the state is the last
    analysis; [is_stuck] is a computation on it.  [last_actions] and
    [last_observations] list the newest event first, as in the code. *)

From S2P Require Import Prelude PyValue Schema Actions Observations Events View.
Local Open Scope Z_scope.
Local Open Scope py_scope.

Definition SYNTAX_ERROR_UNTERMINATED : string :=
  "SyntaxError: unterminated string literal (detected at line".
Definition SYNTAX_ERROR_MESSAGES : list string :=
  [SYNTAX_ERROR_UNTERMINATED; "SyntaxError: invalid syntax. Perhaps you forgot a comma?";
   "SyntaxError: incomplete input"].

Record StuckAnalysis := mkStuckAnalysis {
  loop_type : string;
  loop_repeat_times : Z;
  loop_start_idx : Z;
}.

(** ** Comparing events *)

Definition is_ipython_action (e : Event) : option IPythonRunCellAction :=
  match ev_body e with EAction (AIPythonRunCell a) => Some a | _ => None end.
Definition is_cmd_output (e : Event) : option CmdOutputObservation :=
  match ev_body e with
  | EObservation o => match obs_kind o with OCmdOutput c => Some c | _ => None end
  | _ => None
  end.
Definition is_error_obs (e : Event) : bool := isinstance e (CObservationClass OT_ERROR).
Definition is_ipython_obs (e : Event) : bool := isinstance e (CObservationClass OT_RUN_IPYTHON).
Definition event_content (e : Event) : string :=
  match ev_body e with EObservation o => obs_content o | _ => "" end.

(** [_eq_no_pid] *)
Definition eq_no_pid (x y : Event) : bool :=
  match is_ipython_action x, is_ipython_action y with
  | Some a, Some b =>
      if str_contains "edit_file_by_replace(" (ipa_code a)
         && str_contains "edit_file_by_replace(" (ipa_code b)
      then let la := str_split newline (ipa_code a) in
           let lb := str_split newline (ipa_code b) in
           (2 <? py_len la) &&
           bool_decide (py_slice None (Some 3) la = py_slice None (Some 3) lb)
      else event_eqb x y
  | _, _ =>
      match is_cmd_output x, is_cmd_output y with
      | Some c, Some d =>
          String.eqb (coo_command c) (coo_command d) && (exit_code c =? exit_code d)
      | _, _ => event_eqb x y
      end
  end.

(** [history.index(e)] for an [e] of the history: the first event that is or equals it. *)
Definition event_index (e : Event) (l : list Event) : Z :=
  from_option id 0 (py_index (λ x, bool_decide (x = e) || event_eqb x e) l).

(** ** The newest actions and observations *)

(** The loop that collects up to [n] of each from the reversed history. *)
Fixpoint collect_last (n : nat) (acts obs : list Event) (rev_history : list Event) :
    list Event * list Event :=
  match rev_history with
  | [] => (acts, obs)
  | e :: l =>
      let '(acts, obs) :=
        if is_action e && Nat.ltb (length acts) n then (acts ++ [e], obs)
        else if is_observation e && Nat.ltb (length obs) n then (acts, obs ++ [e])
        else (acts, obs) in
      if Nat.eqb (length acts) n && Nat.eqb (length obs) n then (acts, obs)
      else collect_last n acts obs l
  end.

Definition all_like_first (l : list Event) : bool :=
  match l with [] => true | x :: _ => forallb (eq_no_pid x) l end.

(** ** The scenarios *)

(** [_is_stuck_repeating_action_observation] *)
Definition repeating_action_observation (acts obs filtered : list Event) (offset : Z) :
    option StuckAnalysis :=
  if Nat.eqb (length acts) 4 && Nat.eqb (length obs) 4 then
    if all_like_first acts && all_like_first obs
    then match last acts with
         | Some a => Some (mkStuckAnalysis "repeating_action_observation" 4
                             (event_index a filtered + offset))
         | None => None
         end
    else None
  else None.

(** *** Syntax errors *)

(** [lines[-k]] *)
Definition line_back (k : Z) (lines : list string) : string := from_option id "" (py_get lines (- k)).

Definition one_value (l : list string) : bool := Nat.eqb (length (remove_dups l)) 1.

(** [_check_for_consistent_invalid_syntax]; [None] in the loop is its early [return False]. *)
Fixpoint invalid_syntax_loop (msg : string) (contents : list string)
    (first_lines valid : list string) : option (list string * list string) :=
  match contents with
  | [] => Some (first_lines, valid)
  | c :: contents =>
      let lines := str_split newline (str_strip c) in
      if py_len lines <? 6 then None
      else let line1 := str_strip (from_option id "" (head lines)) in
           if negb (startswith line1 "Cell In[1], line") then None
           else invalid_syntax_loop msg contents (first_lines ++ [line1])
                  (if startswith (line_back 1 lines) "[Jupyter Python interpreter:"
                      && startswith (line_back 2 lines) "[Jupyter current working directory:"
                      && str_contains msg (line_back 3 lines)
                   then valid ++ [line_back 3 lines] else valid)
  end.
Definition check_for_consistent_invalid_syntax (obs : list Event) (msg : string) : bool :=
  match invalid_syntax_loop msg (event_content <$> obs) [] [] with
  | None => false
  | Some (first_lines, valid) =>
      one_value first_lines && Nat.eqb (length valid) 3 && one_value valid
  end.

(** [_check_for_consistent_line_error] *)
Fixpoint line_error_loop (msg : string) (contents error_lines : list string) : option (list string) :=
  match contents with
  | [] => Some error_lines
  | c :: contents =>
      let lines := str_split newline (str_strip c) in
      if py_len lines <? 3 then None
      else if negb (startswith (line_back 2 lines) "[Jupyter current working directory:"
                    && startswith (line_back 1 lines) "[Jupyter Python interpreter:") then None
      else line_error_loop msg contents
             (if str_contains msg (line_back 3 lines) then error_lines ++ [line_back 3 lines]
              else error_lines)
  end.
Definition check_for_consistent_line_error (obs : list Event) (msg : string) : bool :=
  match line_error_loop msg (event_content <$> obs) [] with
  | None => false
  | Some error_lines => Nat.eqb (length error_lines) 3 && one_value error_lines
  end.

(** The loop over the known messages. *)
Definition syntax_error_loop (obs : list Event) : bool :=
  existsb (λ msg,
    if startswith msg SYNTAX_ERROR_UNTERMINATED then check_for_consistent_line_error obs msg
    else check_for_consistent_invalid_syntax obs msg) SYNTAX_ERROR_MESSAGES.

(** [_is_stuck_repeating_action_error]: [last_actions[-1]] is the fourth newest action
    when four were collected. *)
Definition repeating_action_error (acts obs filtered : list Event) (offset : Z) :
    option StuckAnalysis :=
  if Nat.ltb (length acts) 3 || Nat.ltb (length obs) 3 then None
  else if all_like_first (take 3 acts)
          && (forallb is_error_obs (take 3 obs)
              || (forallb is_ipython_obs (take 3 obs) && syntax_error_loop (take 3 obs)))
  then match last acts with
       | Some a => Some (mkStuckAnalysis "repeating_action_error" 3 (event_index a filtered + offset))
       | None => None
       end
  else None.

(** [_is_stuck_monologue] *)
Definition stuck_monologue (filtered : list Event) (offset : Z) : option StuckAnalysis :=
  let msgs := py_filter (λ '(_, e), is_agent_message e) (enumerate filtered) in
  if Nat.leb 3 (length msgs) then
    match py_slice (Some (-3)) None msgs with
    | [(i, a); (_, b); (k, c)] =>
        if event_eqb a a && event_eqb a b && event_eqb a c then
          if existsb is_observation (py_slice (Some (i + 1)) (Some k) filtered) then None
          else Some (mkStuckAnalysis "monologue" 3 (i + offset))
        else None
    | _ => None
    end
  else None.

(** [_is_stuck_action_observation_pattern] *)
Definition alternating (l : list Event) : bool :=
  match l with
  | [e0; e1; e2; e3; e4; e5] =>
      eq_no_pid e0 e2 && eq_no_pid e0 e4 && eq_no_pid e1 e3 && eq_no_pid e1 e5
  | _ => false
  end.
Definition action_observation_pattern (filtered : list Event) (offset : Z) : option StuckAnalysis :=
  let '(acts, obs) := collect_last 6 [] [] (reverse filtered) in
  if Nat.eqb (length acts) 6 && Nat.eqb (length obs) 6 then
    if alternating acts && alternating obs
    then match last acts with
         | Some a => Some (mkStuckAnalysis "repeating_action_observation_pattern" 3
                             (event_index a filtered + offset))
         | None => None
         end
    else None
  else None.

(** [_is_stuck_context_window_error]: the loop over neighbouring condensations. *)
Fixpoint context_window_loop (filtered : list Event) (offset : Z) (l : list (Z * Event)) :
    option StuckAnalysis :=
  match l with
  | (i, _) :: (((k, _) :: _) as l') =>
      if existsb (λ e, negb (is_agent_condensation e)) (py_slice (Some (i + 1)) (Some k) filtered)
      then context_window_loop filtered offset l'
      else Some (mkStuckAnalysis "context_window_error" 2 (i + offset))
  | _ => None
  end.
Definition context_window_error (filtered : list Event) (offset : Z) : option StuckAnalysis :=
  let events := py_filter (λ '(_, e), is_agent_condensation e) (enumerate filtered) in
  if Nat.ltb (length events) 10 then None
  else context_window_loop filtered offset (py_slice (Some (-10)) None events).

(** ** The detector *)

(** Position after the last user message; 0 when there is none. *)
Definition after_last_user_message (history : list Event) : Z :=
  match py_index is_user_message (reverse history) with
  | Some i => py_len history - i - 1 + 1
  | None => 0
  end.

Definition history_to_check (headless : bool) (history : list Event) : list Event * Z :=
  if headless then (history, 0)
  else let n := after_last_user_message history in (py_slice (Some n) None history, n).

(** Neither a user message nor a null event. *)
Definition stuck_relevant (e : Event) : bool := negb (is_user_message e || is_null e).

Definition if_length (n : nat) (l : list Event) (r : option StuckAnalysis) : option StuckAnalysis :=
  if Nat.leb n (length l) then r else None.

(** The scenarios in order. *)
Definition find_loop (filtered : list Event) (offset : Z) : option StuckAnalysis :=
  let '(acts, obs) := collect_last 4 [] [] (reverse filtered) in
  match repeating_action_observation acts obs filtered offset with
  | Some r => Some r
  | None =>
  match repeating_action_error acts obs filtered offset with
  | Some r => Some r
  | None =>
  match stuck_monologue filtered offset with
  | Some r => Some r
  | None =>
  match if_length 6 filtered (action_observation_pattern filtered offset) with
  | Some r => Some r
  | None => if_length 10 filtered (context_window_error filtered offset)
  end end end end.

(** [is_stuck]: with fewer than three events it returns before the analysis is reset. *)
Definition is_stuck (headless : bool) (history : list Event) : pyM (option StuckAnalysis) bool :=
  let '(checked, offset) := history_to_check headless history in
  let filtered := py_filter stuck_relevant checked in
  if Nat.ltb (length filtered) 3 then pret false
  else let r := find_loop filtered offset in
       λ _, (r, Ok (if r then true else false)).

(** * Properties of the stuck detector

    Loops are detected, the recovery point lies inside the loop's part of the history,
    and three ways in which the analysis differs from its description. *)
(** ** The collecting loop *)

Lemma take_filter_cons {A} (f : A → bool) n acc e l :
  take n (acc ++ py_filter f (e :: l))
  = if f e && Nat.ltb (length acc) n then take n ((acc ++ [e]) ++ py_filter f l)
    else take n (acc ++ py_filter f l).
Proof.
  simpl. destruct (f e); [|done]. simpl. destruct (Nat.ltb_spec (length acc) n).
  - by rewrite <- app_assoc.
  - rewrite !take_app_le by lia. done.
Qed.

(** The loop finds the [n] newest actions and the [n] newest observations. *)
Lemma collect_last_spec n acts obs l :
  (length acts ≤ n)%nat → (length obs ≤ n)%nat →
  collect_last n acts obs l
  = (take n (acts ++ py_filter is_action l), take n (obs ++ py_filter is_observation l)).
Proof.
  revert acts obs. induction l as [|e l IH]; intros acts obs Ha Ho.
  { simpl. by rewrite !app_nil_r, !take_ge by done. }
  rewrite !take_filter_cons. cbn [collect_last].
  assert (Hstop : ∀ a o, length a = n → length o = n →
    (a, o) = (take n (a ++ py_filter is_action l), take n (o ++ py_filter is_observation l))).
  { intros a o <- Hl. rewrite take_app_length. rewrite <- Hl. by rewrite take_app_length. }
  rewrite is_action_observation.
  destruct (is_observation e); cbn [negb andb].
  - destruct (Nat.ltb_spec (length obs) n).
    + destruct (Nat.eqb_spec (length acts) n); cbn [andb]; [|apply IH; rewrite ?length_app; simpl; lia].
      destruct (Nat.eqb_spec (length (obs ++ [e])) n); [by apply Hstop|].
      apply IH; rewrite ?length_app in *; simpl in *; lia.
    + destruct (Nat.eqb_spec (length acts) n); cbn [andb]; [|by apply IH].
      destruct (Nat.eqb_spec (length obs) n); [by apply Hstop|by apply IH].
  - destruct (Nat.ltb_spec (length acts) n).
    + destruct (Nat.eqb_spec (length (acts ++ [e])) n); cbn [andb];
        [|apply IH; rewrite ?length_app in *; simpl in *; lia].
      destruct (Nat.eqb_spec (length obs) n); [by apply Hstop|].
      apply IH; rewrite ?length_app in *; simpl in *; lia.
    + destruct (Nat.eqb_spec (length acts) n); cbn [andb]; [|by apply IH].
      destruct (Nat.eqb_spec (length obs) n); [by apply Hstop|by apply IH].
Qed.

Lemma elem_of_collect n l x :
  x ∈ (collect_last n [] [] l).1 ∨ x ∈ (collect_last n [] [] l).2 → x ∈ l.
Proof.
  rewrite collect_last_spec by (simpl; lia). simpl.
  by intros [Hx|Hx]; apply elem_of_take_in, elem_of_py_filter in Hx as [_ ?].
Qed.

(** ** Positions *)

Lemma py_index_from_bounds {A} (f : A → bool) i l j :
  py_index_from f i l = Some j → i ≤ j < i + py_len l.
Proof.
  revert i. induction l as [|x l IH]; intros i; simpl; [done|]. unfold py_len in *. simpl length.
  destruct (f x); [intros [= ->]; lia|]. intros H%IH. lia.
Qed.

Lemma py_index_from_is_Some {A} (f : A → bool) i l x :
  x ∈ l → f x = true → is_Some (py_index_from f i l).
Proof.
  revert i. induction l as [|y l IH]; intros i Hx Hf; [by apply elem_of_nil in Hx|]. simpl.
  destruct (f y) eqn:E; [done|]. apply elem_of_cons in Hx as [->|Hx]; [congruence|by apply IH].
Qed.

Lemma event_index_bounds e l : e ∈ l → 0 ≤ event_index e l < py_len l.
Proof.
  intros He. unfold event_index, py_index.
  destruct (py_index_from_is_Some (λ x, bool_decide (x = e) || event_eqb x e) 0 l e He) as [j Hj].
  { by rewrite bool_decide_true. }
  rewrite Hj. simpl. by apply py_index_from_bounds in Hj.
Qed.

Lemma enumerate_from_bounds {A} i (l : list A) j x :
  (j, x) ∈ enumerate_from i l → i ≤ j < i + py_len l.
Proof.
  revert i. induction l as [|y l IH]; intros i; simpl; [by intros ?%elem_of_nil|].
  unfold py_len in *. simpl length. intros [[= -> ->]|H%IH]%elem_of_cons; lia.
Qed.

Lemma elem_of_py_slice {A} lo hi (l : list A) x : x ∈ py_slice lo hi l → x ∈ l.
Proof. unfold py_slice. by intros ?%elem_of_take_in%elem_of_drop_in. Qed.

Lemma selected_bounds (f : Z * Event → bool) lo (l : list Event) j x :
  (j, x) ∈ py_slice lo None (py_filter f (enumerate l)) → 0 ≤ j < py_len l.
Proof.
  intros [_ H]%elem_of_py_slice%elem_of_py_filter. by apply enumerate_from_bounds in H.
Qed.

Lemma context_window_loop_start filtered offset l r :
  context_window_loop filtered offset l = Some r →
  ∃ j x, (j, x) ∈ l ∧ loop_start_idx r = j + offset.
Proof.
  induction l as [|[i x] [|[k y] l] IH]; [done..|]. cbn [context_window_loop].
  destruct (existsb _ _).
  - intros (j & z & Hz & Hr)%IH. exists j, z. split; [by right|done].
  - intros [= <-]. exists i, x. split; [left|done].
Qed.

(** The recovery point lies in the part of the history that was examined. *)
Lemma find_loop_bounds filtered offset r :
  find_loop filtered offset = Some r →
  offset ≤ loop_start_idx r < offset + py_len filtered.
Proof.
  unfold find_loop. destruct (collect_last 4 [] [] (reverse filtered)) as [acts obs] eqn:Hc.
  assert (Hin : ∀ n a, last (collect_last n [] [] (reverse filtered)).1 = Some a →
                0 ≤ event_index a filtered < py_len filtered).
  { intros n a Ha. apply event_index_bounds. apply elem_of_reverse, (elem_of_collect n). left.
    by apply last_Some_elem_of. }
  destruct (repeating_action_observation _ _ _ _) as [r1|] eqn:E1.
  { intros [= ->]. unfold repeating_action_observation in E1. repeat case_match; try done.
    injection E1 as <-. simpl. pose proof (Hin 4%nat e) as Hb. rewrite Hc in Hb. specialize (Hb ltac:(done)). lia. }
  destruct (repeating_action_error _ _ _ _) as [r1|] eqn:E2.
  { intros [= ->]. unfold repeating_action_error in E2. repeat case_match; try done.
    injection E2 as <-. simpl. pose proof (Hin 4%nat e) as Hb. rewrite Hc in Hb. specialize (Hb ltac:(done)). lia. }
  destruct (stuck_monologue _ _) as [r1|] eqn:E3.
  { intros [= ->]. unfold stuck_monologue in E3. destruct (Nat.leb _ _); [|done].
    destruct (py_slice (Some (-3)) _ _) as [|[i a] [|[j b] [|[k c] []]]] eqn:Es; try done.
    repeat case_match; try done. injection E3 as <-. simpl.
    assert (Hi : (i, a) ∈ [(i, a); (j, b); (k, c)]) by left. rewrite <- Es in Hi.
    apply selected_bounds in Hi. lia. }
  destruct (if_length 6 _ _) as [r1|] eqn:E4.
  { intros [= ->]. unfold if_length, action_observation_pattern in E4.
    specialize (Hin 6%nat). repeat case_match; try done. injection E4 as <-. simpl in *.
    specialize (Hin e ltac:(done)). lia. }
  unfold if_length, context_window_error. intros E5. repeat case_match; try done.
  apply context_window_loop_start in E5 as (j & x & Hj & ->). apply selected_bounds in Hj. lia.
Qed.

(** ** The examined part of the history *)

Lemma py_index_from_shift {A} (f : A → bool) i d l :
  py_index_from f (i + d) l = (λ x, x + d) <$> py_index_from f i l.
Proof.
  revert i. induction l as [|x l IH]; intros i; simpl; [done|].
  destruct (f x); [done|]. rewrite <- IH. f_equal. lia.
Qed.

Lemma after_last_snoc h e :
  after_last_user_message (h ++ [e])
  = if is_user_message e then py_len (h ++ [e]) else after_last_user_message h.
Proof.
  unfold after_last_user_message. rewrite reverse_app. unfold py_index. simpl.
  destruct (is_user_message e); [lia|]. rewrite (py_index_from_shift _ 0 1).
  destruct (py_index_from _ 0 (reverse h)) as [i|]; simpl; [|done].
  len_lia.
Qed.

Lemma after_last_spec h :
  ∃ n : nat, after_last_user_message h = Z.of_nat n ∧ (n ≤ length h)%nat
    ∧ (∀ e, e ∈ drop n h → is_user_message e = false)
    ∧ (n = 0%nat ∨ ∃ e, h !! pred n = Some e ∧ is_user_message e = true).
Proof.
  induction h as [|e h (n & Hn & Hle & Hdrop & Hlast)] using rev_ind.
  { exists 0%nat. split_and!; [done|done|set_solver|by left]. }
  rewrite after_last_snoc. destruct (is_user_message e) eqn:He.
  - exists (length (h ++ [e])). split_and!; [done|done|rewrite drop_ge by done; set_solver|].
    right. exists e. split; [|done]. rewrite length_app, Nat.add_1_r. simpl.
    by rewrite lookup_app_r, Nat.sub_diag.
  - exists n. split_and!; [done|rewrite length_app; lia| |].
    + rewrite drop_app_le by done. intros x [Hx| ->%list_elem_of_singleton]%elem_of_app; auto.
    + destruct Hlast as [->|(x & Hx & Hu)]; [by left|right]. exists x. split; [|done].
      by apply lookup_app_l_Some.
Qed.

(** A tail without user messages is examined in both modes. *)
Lemma examined_tail headless pre tl :
  (∀ e, e ∈ tl → is_user_message e = false) →
  ∃ pre' offset, history_to_check headless (pre ++ tl) = (pre' ++ tl, offset).
Proof.
  intros Htl. unfold history_to_check. destruct headless; [by eexists _, _|].
  destruct (after_last_spec (pre ++ tl)) as (n & -> & Hle & _ & Hlast).
  rewrite py_slice_from. assert (n ≤ length pre)%nat; [|by rewrite drop_app_le by done; eexists _, _].
  destruct Hlast as [->|(e & He & Hu)]; [lia|].
  destruct (decide (n ≤ length pre)%nat); [done|]. rewrite lookup_app_r in He by lia.
  apply list_elem_of_lookup_2, Htl in He. congruence.
Qed.

(** ** Detection *)

Definition pair_events (ps : list (Event * Event)) : list Event := ps ≫= λ '(a, o), [a; o].

(** Four steps, each an action with its observation, all like the last one. *)
Definition repeated_steps (ps : list (Event * Event)) (a o : Event) : Prop :=
  length ps = 4%nat ∧ last ps = Some (a, o) ∧
  Forall (λ '(a', o'), is_action a' = true ∧ is_observation o' = true
    ∧ stuck_relevant a' = true ∧ stuck_relevant o' = true
    ∧ eq_no_pid a a' = true ∧ eq_no_pid o o' = true) ps.

Lemma stuck_relevant_not_user e : stuck_relevant e = true → is_user_message e = false.
Proof. unfold stuck_relevant. by intros [? _]%negb_true_iff%orb_false_iff. Qed.

(** The newest four actions and observations of a history that ends so. *)
Lemma collect_repeated pre a1 o1 a2 o2 a3 o3 a4 o4 :
  Forall (λ x, is_action x = true) [a1; a2; a3; a4] →
  Forall (λ x, is_observation x = true) [o1; o2; o3; o4] →
  collect_last 4 [] [] (reverse (pre ++ [a1; o1; a2; o2; a3; o3; a4; o4]))
  = ([a4; a3; a2; a1], [o4; o3; o2; o1]).
Proof.
  rewrite !Forall_cons. intros (A1 & A2 & A3 & A4 & _) (O1 & O2 & O3 & O4 & _).
  rewrite collect_last_spec by (simpl; lia). rewrite reverse_app.
  change (reverse [a1; o1; a2; o2; a3; o3; a4; o4]) with [o4; a4; o3; a3; o2; a2; o1; a1].
  rewrite !py_filter_app. pose proof A1 as A1'. rewrite is_action_observation in A1'.
  pose proof A2 as A2'. rewrite is_action_observation in A2'.
  pose proof A3 as A3'. rewrite is_action_observation in A3'.
  pose proof A4 as A4'. rewrite is_action_observation in A4'.
  apply negb_true_iff in A1', A2', A3', A4'.
  cbn [py_filter app]. rewrite A1', A2', A3', A4', A1, A2, A3, A4, O1, O2, O3, O4.
  rewrite (is_action_observation o1), (is_action_observation o2), (is_action_observation o3),
    (is_action_observation o4), O1, O2, O3, O4. reflexivity.
Qed.

(** A looping agent is detected, in both modes and whatever came before: when the
    last four steps are the same action with the same observation (process ids, and
    the thought of an edit, aside), [is_stuck] returns true and its analysis says
    so. *)
Theorem loop_detected (headless : bool) (pre : list Event) (ps : list (Event * Event))
    (a o : Event) (old : option StuckAnalysis) :
  repeated_steps ps a o →
  ∃ r, is_stuck headless (pre ++ pair_events ps) old = (Some r, Ok true)
       ∧ loop_type r = "repeating_action_observation" ∧ loop_repeat_times r = 4.
Proof.
  intros (Hlen & Hlast & Hall).
  destruct ps as [|[a1 o1] [|[a2 o2] [|[a3 o3] [|[a4 o4] []]]]]; try done.
  injection Hlast as -> ->. rewrite !Forall_cons in Hall.
  destruct Hall as ((?&?&?&?&?&?) & (?&?&?&?&?&?) & (?&?&?&?&?&?) & (?&?&?&?&?&?) & _).
  set (tl := pair_events _). assert (Htl : tl = [a1; o1; a2; o2; a3; o3; a; o]) by done.
  assert (Hrel : ∀ e, e ∈ tl → stuck_relevant e = true)
    by (apply Forall_forall; rewrite Htl, !Forall_cons; naive_solver).
  destruct (examined_tail headless pre tl) as (pre' & offset & Hex).
  { intros e He. by apply stuck_relevant_not_user, Hrel. }
  unfold is_stuck. rewrite Hex, py_filter_app, (py_filter_all _ tl) by exact Hrel.
  rewrite Htl. rewrite (proj2 (Nat.ltb_ge _ 3)) by (rewrite length_app; simpl; lia).
  unfold find_loop. rewrite collect_repeated by (rewrite !Forall_cons; naive_solver).
  unfold repeating_action_observation. simpl.
  repeat match goal with E : eq_no_pid ?x ?y = true |- _ => rewrite E; clear E end. simpl.
  eexists. split; [reflexivity|done].
Qed.

(** ** The recovery point *)

(** In interactive mode the recovery point is safe: when a loop is found in a
    history without null events (the tracker keeps them out), the point lies inside
    the history and after every user message, so that cutting the history there
    removes something and keeps everything the user said. *)
Theorem recovery_keeps_user_messages (h : list Event) (old : option StuckAnalysis) (r : StuckAnalysis) :
  is_stuck false h old = (Some r, Ok true) → forallb (λ e, negb (is_null e)) h = true →
  0 ≤ loop_start_idx r < py_len h
  ∧ ∀ e, e ∈ h → is_user_message e = true → e ∈ take (Z.to_nat (loop_start_idx r)) h.
Proof.
  unfold is_stuck, history_to_check. destruct (after_last_spec h) as (n & -> & Hle & Hdrop & _).
  rewrite py_slice_from. intros Hs Hnull. rewrite forallb_forall in Hnull.
  rewrite py_filter_all in Hs.
  2:{ intros x Hx. unfold stuck_relevant. rewrite Hdrop by done. simpl.
      apply Hnull, list_elem_of_In. by apply elem_of_drop_in in Hx. }
  destruct (Nat.ltb _ 3); [by injection Hs|]. injection Hs as Hr.
  apply find_loop_bounds in Hr. unfold py_len in *. rewrite length_drop in Hr.
  split; [lia|]. intros e He Hu. rewrite <- (take_drop n h) in He.
  apply elem_of_app in He as [He|He]; [|apply Hdrop in He; congruence].
  replace n with (n `min` Z.to_nat (loop_start_idx r))%nat in He by lia.
  rewrite <- take_take in He. by apply elem_of_take_in in He.
Qed.

(** ** Witnesses and departures from the description *)

Definition ex_ls (i : Z) : Event :=
  set_id (Some i) (new_action (ACmdRun (mkCmdRunAction "ls" false "" false false None false
    CONFIRMED RISK_UNKNOWN))).
Definition ex_ls_output (i pid : Z) : Event :=
  set_id (Some i) (mkEvent empty_meta (EObservation
    (new_CmdOutputObservation "a b" "ls" None false (Some 0) (Some pid)))).
Definition ex_steps : list (Event * Event) :=
  [(ex_ls 1, ex_ls_output 2 11); (ex_ls 3, ex_ls_output 4 12);
   (ex_ls 5, ex_ls_output 6 13); (ex_ls 7, ex_ls_output 8 14)].

Lemma loop_detected_witness :
  ∃ r, is_stuck false ([ex_msg 0 USER "list"] ++ pair_events ex_steps) None = (Some r, Ok true)
       ∧ loop_type r = "repeating_action_observation" ∧ loop_repeat_times r = 4.
Proof.
  apply (loop_detected false _ ex_steps (ex_ls 7) (ex_ls_output 8 14)).
  split; [reflexivity|]. split; [reflexivity|].
  repeat constructor; vm_compute; reflexivity.
Defined.

Lemma recovery_keeps_user_messages_witness :
  ex_msg 0 USER "list" ∈ take 1 ([ex_msg 0 USER "list"] ++ pair_events ex_steps).
Proof.
  refine (proj2 (recovery_keeps_user_messages ([ex_msg 0 USER "list"] ++ pair_events ex_steps) None
    (mkStuckAnalysis "repeating_action_observation" 4 1) _ _) _ _ _).
  - vm_compute. reflexivity.
  - reflexivity.
  - left.
  - reflexivity.
Defined.

(** In headless mode the recovery point is an index into the filtered history
    although it is used to cut the whole one: here the loop starts after the user's
    message, and cutting at the point the analysis gives removes that message. *)
Theorem recovery_index_filtered :
  let h := ex_msg 0 USER "list" :: pair_events ex_steps in
  is_stuck true h None = (Some (mkStuckAnalysis "repeating_action_observation" 4 0), Ok true)
  ∧ take (Z.to_nat 0) h = [].
Proof. split; vm_compute; reflexivity. Qed.

(** An old analysis survives: once a loop has been found, checking a history with
    fewer than three relevant events answers that the agent is not stuck but leaves
    the analysis of the old loop in place. *)
Theorem stale_analysis (headless : bool) (h : list Event) (old : option StuckAnalysis) :
  (length (py_filter stuck_relevant (history_to_check headless h).1) < 3)%nat →
  is_stuck headless h old = (old, Ok false).
Proof.
  unfold is_stuck. destruct (history_to_check headless h) as [checked offset]. simpl.
  intros H. by rewrite (proj2 (Nat.ltb_lt _ 3)).
Qed.

Lemma stale_analysis_witness :
  let old := Some (mkStuckAnalysis "monologue" 3 7) in
  is_stuck false [ex_msg 0 USER "new task"] old = (old, Ok false).
Proof. apply (stale_analysis false). vm_compute. lia. Defined.

Definition ex_condensed (i : Z) : Event := set_id (Some i) (new_obs "" OAgentCondensation).
(** Nine condensations, each with a command and its output before the next. *)
Definition ex_working : list Event :=
  seqZ 0 9 ≫= λ k, [ex_condensed (10 * k); set_id (Some (10 * k + 1)) (new_action (AAgentThink
    (mkAgentThinkAction (pretty k)))); ex_ls_output (10 * k + 2) k].

(** One pair of neighbouring condensations is enough: an agent that worked between
    nine condensations is reported as stuck in a context window loop when a tenth
    directly follows another, although the description asks for repeated
    condensations without other events between them. *)
Theorem one_condensation_pair_suffices :
  is_stuck true (ex_working ++ [ex_condensed 90]) None = (None, Ok false)
  ∧ ∃ r, is_stuck true (ex_working ++ [ex_condensed 90; ex_condensed 91]) None = (Some r, Ok true)
         ∧ loop_type r = "context_window_error".
Proof. split; [vm_compute; reflexivity|]. eexists. vm_compute. done. Qed.
