(* ===== verification/Replay.v ===== *)
(** * Replaying trajectories

    Models [openhands/controller/replay.py]: a manager that replays the actions of a
    trajectory and skips the rest.  [replay_index] is a position, a [nat]; the loop of
    [should_replay] runs over the events from there on. *)

From S2P Require Import Prelude PyValue Schema Actions Observations Events View Serialization.
From S2P Require Import FileStore EventStore.
Local Open Scope Z_scope.
Local Open Scope py_scope.

Record ReplayManager := mkReplayManager {
  replay_events : list Event;
  replay_mode : bool;
  replay_index : nat;
}.

Definition from_environment (e : Event) : bool := bool_decide (event_source e = Some ENVIRONMENT).

(** [event.wait_for_response = False] on a message that waits for a response. *)
Definition dont_wait (e : Event) : Event :=
  map_action (λ a, match a with
    | AMessage m => AMessage (mkMessageAction (ma_content m) (ma_file_urls m) (ma_image_urls m)
                                false (ma_security_risk m))
    | a => a
    end) e.

(** Every event but the last one. *)
Fixpoint dont_wait_inner (l : list Event) : list Event :=
  match l with
  | [] => []
  | [e] => [e]
  | e :: l => dont_wait e :: dont_wait_inner l
  end.

(** [__init__] *)
Definition new_ReplayManager (events : option (list Event)) : ReplayManager :=
  let kept := py_filter (λ e, negb (from_environment e) && negb (isinstance e (CObservationClass OT_NULL)))
                (from_option id [] events) in
  mkReplayManager (dont_wait_inner kept) (match kept with [] => false | _ => true end) 0.

(** [_replayable] *)
Definition replayable (m : ReplayManager) : bool :=
  match replay_events m !! replay_index m with Some e => is_action e | None => false end.

(** The loop of [should_replay]: [rest] is the events from [index] on. *)
Fixpoint skip_to_action (rest : list Event) (index : nat) : nat :=
  match rest with
  | [] => index
  | e :: rest => if is_action e then index else skip_to_action rest (S index)
  end.

(** [should_replay] *)
Definition should_replay : pyM ReplayManager bool := λ m,
  if negb (replay_mode m) then (m, Ok false)
  else let m := mkReplayManager (replay_events m) (replay_mode m)
                  (skip_to_action (drop (replay_index m) (replay_events m)) (replay_index m)) in
       (m, Ok (replayable m)).

(** [step] *)
Definition replay_step : pyM ReplayManager Event := λ m,
  match replay_events m !! replay_index m with
  | None => (m, Raise IndexError)
  | Some e =>
      if is_action e
      then (mkReplayManager (replay_events m) (replay_mode m) (S (replay_index m)), Ok e)
      else (m, Raise AssertionError)
  end.

(** [get_replay_events] *)
Fixpoint get_replay_events `{Platform} (trajectory : list dict) : result (list Event) :=
  match trajectory with
  | [] => Ok []
  | item :: l =>
      let? e := from_dict item in
      let? es := get_replay_events l in
      Ok (if from_environment e then es else set_id None e :: es)
  end.

(** ** The replayed actions *)

(** What the controller replays: it asks [should_replay] before every [step]. *)
Fixpoint replay_run (fuel : nat) (m : ReplayManager) : ReplayManager * list Event :=
  match fuel with
  | O => (m, [])
  | S fuel =>
      match should_replay m with
      | (m, Ok true) =>
          match replay_step m with
          | (m, Ok e) => let '(m, es) := replay_run fuel m in (m, e :: es)
          | (m, Raise _) => (m, [])
          end
      | (m, _) => (m, [])
      end
  end.

Lemma skip_to_action_spec rest i :
  ∃ k, skip_to_action rest i = (i + k)%nat ∧ (k ≤ length rest)%nat
    ∧ py_filter is_action rest = py_filter is_action (drop k rest)
    ∧ match drop k rest with [] => True | e :: _ => is_action e = true end.
Proof.
  revert i. induction rest as [|e rest IH]; intros i; simpl.
  { exists 0%nat. split_and!; [lia|lia|done|done]. }
  destruct (is_action e) eqn:E.
  - exists 0%nat. simpl. rewrite E. split_and!; [lia|lia|done|done].
  - destruct (IH (S i)) as (k & -> & Hle & Hf & Hk). exists (S k). simpl.
    split_and!; [lia|lia|done|done].
Qed.

(** The actions from the index on, one by one, and then the end for good. *)
Lemma replay_run_actions fuel events index :
  (length (drop index events) < fuel)%nat →
  ∃ m', replay_run fuel (mkReplayManager events true index)
        = (m', py_filter is_action (drop index events))
    ∧ should_replay m' = (m', Ok false).
Proof.
  revert index. induction fuel as [|fuel IH]; intros index Hlt; [lia|]. cbn [replay_run].
  unfold should_replay. cbn [replay_mode negb replay_events replay_index].
  destruct (skip_to_action_spec (drop index events) index) as (k & -> & Hle & -> & Hk).
  rewrite drop_drop in Hk |- *. unfold replayable. cbn [replay_events replay_index].
  destruct (events !! (index + k)%nat) as [e|] eqn:E.
  - rewrite (drop_S _ e) in Hk |- * by done. rewrite Hk.
    unfold replay_step. cbn [replay_events replay_index replay_mode]. rewrite E, Hk.
    rewrite length_drop in Hlt. apply lookup_lt_Some in E as Hlt2.
    destruct (IH (S (index + k))) as (m' & -> & Hm'); [rewrite length_drop; lia|].
    exists m'. simpl. by rewrite Hk.
  - apply lookup_ge_None in E. rewrite drop_ge by done. eexists. split; [done|].
    cbn [replay_mode negb replay_events replay_index]. rewrite drop_ge by done. simpl.
    by rewrite (lookup_ge_None_2 _ _ E).
Qed.

Lemma py_filter_length {A} (f : A → bool) l : (length (py_filter f l) ≤ length l)%nat.
Proof. induction l as [|x l IH]; simpl; [lia|]. destruct (f x); simpl; lia. Qed.

Lemma dont_wait_inner_length l :
  length (dont_wait_inner l) = length l
  ∧ length (py_filter is_action (dont_wait_inner l)) = length (py_filter is_action l).
Proof.
  induction l as [|e [|f l] [IH1 IH2]]; [done..|].
  change (dont_wait_inner (e :: f :: l)) with (dont_wait e :: dont_wait_inner (f :: l)).
  assert (He : is_action (dont_wait e) = is_action e) by (by destruct e as [m [[]|o]]).
  remember (f :: l) as k. split; [simpl; lia|]. cbn [py_filter]. rewrite He.
  destruct (is_action e); simpl; lia.
Qed.

(** Replaying a trajectory issues its actions and then stops: alternating
    [should_replay] and [step] yields, in order and once each, exactly the actions of
    the trajectory that do not come from the environment; messages before the last
    event no longer wait for a response; the end is reached within as many turns as
    there are events, and from then on [should_replay] answers false. *)
Theorem replay_actions (events : list Event) :
  let kept := py_filter (λ e, negb (from_environment e)
                              && negb (isinstance e (CObservationClass OT_NULL))) events in
  ∃ m', replay_run (S (length events)) (new_ReplayManager (Some events))
        = (m', py_filter is_action (dont_wait_inner kept))
    ∧ should_replay m' = (m', Ok false)
    ∧ length (py_filter is_action (dont_wait_inner kept)) = length (py_filter is_action kept).
Proof.
  intros kept.
  pose proof (py_filter_length (λ e, negb (from_environment e)
    && negb (isinstance e (CObservationClass OT_NULL))) events) as Hlen. fold kept in Hlen.
  unfold new_ReplayManager. change (py_filter _ (from_option id [] (Some events))) with kept.
  cbv zeta. clearbody kept. destruct (dont_wait_inner_length kept) as [H1 H2].
  destruct kept as [|e l].
  - exists (mkReplayManager [] false 0). done.
  - destruct (replay_run_actions (S (length events)) (dont_wait_inner (e :: l)) 0)
      as (m' & Hm & Hd); [rewrite drop_0; lia|].
    exists m'. rewrite drop_0 in Hm. done.
Qed.
