(* ===== verification/Controller.v ===== *)
(** * The agent controller

    Models [openhands/controller/agent_controller.py].  A controller and the world it
    shares with its delegates (the event stream, the statistics, the control flags and
    the metrics, which are the same objects in every controller of a chain) are the
    state of the monad [ctl].  The coroutines run to completion when they are called,
    as [await] and [run_until_complete] make them; logging is left out.

    Parameters: the agents ([Agent]: their prompts and LLM calls), the class hierarchy
    of the LLM library's exceptions ([LLMErrors]), the security analyzer, the clock. *)

From S2P Require Import Prelude PyValue ControlFlags Metrics Schema Actions Observations Events.
From S2P Require Import View Serialization FileStore EventStore EventStream ConversationStats.
From S2P Require Import State StateTracker Stuck Replay.
Local Open Scope Z_scope.
Local Open Scope py_scope.

(** ** Parameters *)

(** What the controller reads of an agent's configuration. *)
Record AgentConfig := mkAgentConfig {
  enable_stuck_detection : bool;
  enable_history_truncation : bool;
  cli_mode : bool;
}.

(** The abstract class of [controller/agent.py]; [agent_make] is the registry's class
    applied to a configuration.  A step may change the state and the statistics. *)
Class Agent (A : Type) := {
  agent_name : A → string;
  agent_config : A → AgentConfig;
  agent_reset : A → A;
  agent_system_message : A → option Event;
  agent_step : pyM (A * State * ConversationStats) (option Event);
  agent_make : string → AgentConfig → result A;
}.

(** [isinstance(e, cls)] for the classes of [litellm.exceptions], and whether an
    exception carries the two attributes that say its retries are used up. *)
Class LLMErrors := {
  exc_is : string → py_exc → bool;
  retries_exhausted : py_exc → bool;
}.

(** [type(e).__name__] *)
Definition exc_name (e : py_exc) : string :=
  match e with
  | ValueError _ => "ValueError" | RuntimeError _ => "RuntimeError" | TypeError _ => "TypeError"
  | KeyError _ => "KeyError" | IndexError => "IndexError" | AssertionError => "AssertionError"
  | FileNotFoundError => "FileNotFoundError" | OtherError cls _ => cls
  end.
(** [isinstance] for the exception classes of [core/exceptions.py]. *)
Definition own_exc (classes : list string) (e : py_exc) : bool :=
  match e with OtherError cls _ => existsb (String.eqb cls) classes | _ => false end.

Definition AgentStuckInLoopError : py_exc :=
  OtherError "AgentStuckInLoopError" "Agent got stuck in a loop".
Definition LLMContextWindowExceedError : py_exc :=
  OtherError "LLMContextWindowExceedError"
    ("Conversation history longer than LLM context window limit. Consider turning on " +:+
     "enable_history_truncation config to avoid this error").

(** ** Constants *)

Definition ERROR_ACTION_NOT_EXECUTED_STOPPED_ID : string :=
  "AGENT_ERROR$ERROR_ACTION_NOT_EXECUTED_STOPPED".
Definition ERROR_ACTION_NOT_EXECUTED_ERROR_ID : string :=
  "AGENT_ERROR$ERROR_ACTION_NOT_EXECUTED_ERROR".
Definition ERROR_ACTION_NOT_EXECUTED_STOPPED : string :=
  "Stop button pressed. The action has not been executed.".
Definition ERROR_ACTION_NOT_EXECUTED_ERROR : string :=
  "The action has not been executed due to a runtime error. The runtime system may have " +:+
  "crashed and restarted due to resource constraints. Any previously established system state, " +:+
  "dependencies, or environment variables may have been lost.".

Definition ITERATION_LIMIT_TEXT : string := "RuntimeError: Agent reached maximum iteration.".
Definition BUDGET_LIMIT_TEXT : string :=
  "RuntimeError:Agent reached maximum budget for conversation".

(** The event a [MessageAction(content=..)] call creates. *)
Definition new_message (content : string) : Event :=
  new_action (AMessage (mkMessageAction content None None false RISK_UNKNOWN)).

Section controller.
Context `{FileStore F} `{Platform} `{Pickle StateDict} `{Pickle (list (string * Metrics))}.
Context `{Agent A} `{LLMErrors}.
Variable now : nat → string.
Variable security_analyzer : option (Event → result ActionSecurityRisk).

(** ** State *)

(** What the controllers of a chain share.  [w_stats_store]: the statistics were given
    the file store; [w_status]: the calls of the status callback. *)
Record World := mkWorld {
  w_stream : EventStream F;
  w_stats : ConversationStats;
  w_stats_store : bool;
  w_clock : nat;
  w_iteration_flag : ControlFlag Z;
  w_budget_flag : option (ControlFlag float);
  w_metrics : Metrics;
  w_status : list (string * string);
}.

(** [status_callback('error', status, message)], which may raise. *)
Definition StatusCallback : Type := string → string → result unit.
(** The attributes the constructor sets for good. *)
Record ControllerConfig := mkControllerConfig {
  c_id : string;
  c_tracker : StateTracker;
  c_headless_mode : bool;
  c_is_delegate : bool;
  c_agent_configs : list (string * AgentConfig);
  c_initial_max_iterations : Z;
  c_initial_max_budget_per_task : option float;
  c_status_callback : option StatusCallback;
  c_confirmation_mode : bool;
}.

Inductive Controller := mkController {
  c_cfg : ControllerConfig;
  c_agent : A;
  c_state : State;
  c_stuck_analysis : option StuckAnalysis;
  c_replay : ReplayManager;
  c_pending_action : option Event;
  c_closed : bool;
  c_cached_first_user_message : option Event;
  c_delegate : option Controller;
}.

Definition set_c_agent x (c : Controller) := mkController (c_cfg c) x (c_state c)
  (c_stuck_analysis c) (c_replay c) (c_pending_action c) (c_closed c)
  (c_cached_first_user_message c) (c_delegate c).
Definition set_c_state x (c : Controller) := mkController (c_cfg c) (c_agent c) x
  (c_stuck_analysis c) (c_replay c) (c_pending_action c) (c_closed c)
  (c_cached_first_user_message c) (c_delegate c).
Definition set_c_stuck x (c : Controller) := mkController (c_cfg c) (c_agent c) (c_state c)
  x (c_replay c) (c_pending_action c) (c_closed c) (c_cached_first_user_message c) (c_delegate c).
Definition set_c_replay x (c : Controller) := mkController (c_cfg c) (c_agent c) (c_state c)
  (c_stuck_analysis c) x (c_pending_action c) (c_closed c) (c_cached_first_user_message c)
  (c_delegate c).
Definition set_c_pending x (c : Controller) := mkController (c_cfg c) (c_agent c) (c_state c)
  (c_stuck_analysis c) (c_replay c) x (c_closed c) (c_cached_first_user_message c) (c_delegate c).
Definition set_c_closed x (c : Controller) := mkController (c_cfg c) (c_agent c) (c_state c)
  (c_stuck_analysis c) (c_replay c) (c_pending_action c) x (c_cached_first_user_message c)
  (c_delegate c).
Definition set_c_first x (c : Controller) := mkController (c_cfg c) (c_agent c) (c_state c)
  (c_stuck_analysis c) (c_replay c) (c_pending_action c) (c_closed c) x (c_delegate c).
Definition set_c_delegate x (c : Controller) := mkController (c_cfg c) (c_agent c) (c_state c)
  (c_stuck_analysis c) (c_replay c) (c_pending_action c) (c_closed c)
  (c_cached_first_user_message c) x.

Definition set_w_stream x (w : World) := mkWorld x (w_stats w) (w_stats_store w) (w_clock w)
  (w_iteration_flag w) (w_budget_flag w) (w_metrics w) (w_status w).
Definition set_w_stats x (w : World) := mkWorld (w_stream w) x (w_stats_store w) (w_clock w)
  (w_iteration_flag w) (w_budget_flag w) (w_metrics w) (w_status w).
Definition set_w_status x (w : World) := mkWorld (w_stream w) (w_stats w) (w_stats_store w)
  (w_clock w) (w_iteration_flag w) (w_budget_flag w) (w_metrics w) x.
Definition tick (w : World) := mkWorld (w_stream w) (w_stats w) (w_stats_store w) (S (w_clock w))
  (w_iteration_flag w) (w_budget_flag w) (w_metrics w) (w_status w).

Definition ctl : Type → Type := pyM (World * Controller).

Definition self : ctl Controller := λ '(w, c), ((w, c), Ok c).
Definition update (f : Controller → Controller) : ctl unit := λ '(w, c), ((w, f c), Ok tt).
Definition pwhen (b : bool) (m : ctl unit) : ctl unit := if b then m else pret tt.

(** *** The state object *)

(** The flags and the metrics are references to the shared objects. *)
Definition with_shared (w : World) (s : State) : State :=
  set_metrics (set_budget_flag (set_iteration_flag s (w_iteration_flag w)) (w_budget_flag w))
    (w_metrics w).
Definition save_shared (s : State) (w : World) : World :=
  mkWorld (w_stream w) (w_stats w) (w_stats_store w) (w_clock w) (iteration_flag s)
    (budget_flag s) (metrics s) (w_status w).

Definition on_state {X} (m : pyM State X) : ctl X := λ '(w, c),
  let '(s, r) := m (with_shared w (c_state c)) in
  ((save_shared s w, set_c_state s c), r).
Definition get_state : ctl State := λ '(w, c), ((w, c), Ok (with_shared w (c_state c))).
Definition get_agent_state : ctl AgentState := let* s := get_state in pret (agent_state s).

(** *** The stream and the files *)

Definition on_stream {X} (m : pyM (EventStream F) X) : ctl X := λ '(w, c),
  let '(st, r) := m (w_stream w) in ((set_w_stream st w, c), r).
(** A computation on the state and the stream. *)
Definition on_reader {X} (m : pyM (State * EventStream F) X) : ctl X := λ '(w, c),
  let '((s, st), r) := m (with_shared w (c_state c), w_stream w) in
  ((save_shared s (set_w_stream st w), set_c_state s c), r).
(** A computation on the state and the stream's file store. *)
Definition on_files {X} (m : pyM (State * F) X) : ctl X := λ '(w, c),
  let st := w_stream w in
  let '((s, f), r) := m (with_shared w (c_state c), es_file_store (st_store st)) in
  ((save_shared s (set_w_stream (set_store (set_file_store f (st_store st)) st) w),
    set_c_state s c), r).

(** [event_stream.add_event]: what the object is afterwards, and the outcome. *)
Definition publish (e : Event) (source : EventSource) (w : World) : World * Event * result unit :=
  let '((st, e), r) := add_event (now (w_clock w)) source (w_stream w, e) in
  (tick (set_w_stream st w), e, r).
(** Publishing an event nobody else refers to. *)
Definition emit (e : Event) (source : EventSource) : ctl unit := λ '(w, c),
  let '(w, _, r) := publish e source w in ((w, c), r).
(** Publishing the pending action, which keeps the id it is given. *)
Definition emit_pending (source : EventSource) : ctl unit := λ '(w, c),
  match c_pending_action c with
  | None => ((w, c), Ok tt)
  | Some e => let '(w, e, r) := publish e source w in ((w, set_c_pending (Some e) c), r)
  end.

(** [save_state] *)
Definition controller_save_state : ctl unit := λ '(w, c),
  on_files (save_state (c_tracker (c_cfg c)) (w_stats w) (w_stats_store w)) (w, c).

(** *** Lazy searches: the first event with a property *)

Fixpoint search_first_loop (s : EventStore F) (page : CachePage) (p : Event → bool)
    (indices : list Z) : result (option Event) :=
  match indices with
  | [] => Ok None
  | i :: indices =>
      let? r := fetch s page i in
      match r.2 with
      | Some e => if p e then Ok (Some e) else search_first_loop s r.1 p indices
      | None => search_first_loop s r.1 p indices
      end
  end.
Definition search_first (p : Event → bool) (start_id : Z) (rev : bool) :
    pyM (EventStore F) (option Event) :=
  let* stop := cur_id in
  let* s := pget in
  plift (search_first_loop s DUMMY_PAGE p
    (if rev then reverse (py_range start_id stop) else py_range start_id stop)).

(** ** Operations *)

(** [_reset].  Every event has the property [tool_call_metadata]. *)
Definition reset : ctl unit :=
  let* c := self in
  let* s := get_state in
  (match c_pending_action c with
   | None => pret tt
   | Some p =>
       if existsb (λ e, is_observation e && bool_decide (event_tool_call e = event_tool_call p))
            (history s)
       then pret tt
       else
         let stopped := agent_state_eqb (agent_state s) STOPPED in
         let content := if stopped then ERROR_ACTION_NOT_EXECUTED_STOPPED
                        else ERROR_ACTION_NOT_EXECUTED_ERROR in
         let error_id := if stopped then ERROR_ACTION_NOT_EXECUTED_STOPPED_ID
                         else ERROR_ACTION_NOT_EXECUTED_ERROR_ID in
         emit (set_cause (Some (event_id p))
                 (set_tool_call (event_tool_call p)
                    (new_obs content (OError (mkErrorObservation error_id))))) AGENT
   end) ;;;
  update (λ c, set_c_agent (agent_reset (c_agent c)) (set_c_pending None c)).

(** The part of [set_agent_state_to] that publishes a confirmed or rejected action. *)
Definition resolve_pending (new_state : AgentState) : ctl unit :=
  let status := if agent_state_eqb new_state USER_CONFIRMED then CONFIRMED else CONF_REJECTED in
  update (λ c, set_c_pending
    ((λ p, set_id None (set_event_confirmation status (map_action clear_thought p)))
       <$> c_pending_action c) c) ;;;
  emit_pending AGENT.

(** [set_agent_state_to] *)
Definition set_agent_state_to (new_state : AgentState) : ctl unit :=
  let* old_state := get_agent_state in
  if agent_state_eqb new_state old_state then pret tt
  else
    on_state (pmodify (λ s, set_agent_state s new_state)) ;;;
    pwhen (agent_state_eqb new_state STOPPED || agent_state_eqb new_state ERROR) reset ;;;
    (let* c := self in
     pwhen (agent_state_eqb old_state ERROR && agent_state_eqb new_state RUNNING)
       (on_state (maybe_increase_control_flags_limits (c_headless_mode (c_cfg c))))) ;;;
    pwhen (agent_state_eqb new_state USER_CONFIRMED || agent_state_eqb new_state USER_REJECTED)
      (resolve_pending new_state) ;;;
    (let* s := get_state in
     emit (new_obs "" (OAgentStateChanged (mkAgentStateChangedObservation (agent_state s)
             (if agent_state_eqb new_state ERROR then last_error s else "")))) ENVIRONMENT) ;;;
    controller_save_state.

(** *** Exceptions *)

(** The status an exception is reported with, when it is not the general one. *)
Definition special_status (e : py_exc) : option string :=
  if exc_is "AuthenticationError" e then Some "STATUS$ERROR_LLM_AUTHENTICATION"
  else if exc_is "ServiceUnavailableError" e || exc_is "APIConnectionError" e
          || exc_is "APIError" e then Some "STATUS$ERROR_LLM_SERVICE_UNAVAILABLE"
  else if exc_is "InternalServerError" e then Some "STATUS$ERROR_LLM_INTERNAL_SERVER_ERROR"
  else if exc_is "BadRequestError" e && str_contains "ExceededBudget" (exc_str e)
  then Some "STATUS$ERROR_LLM_OUT_OF_CREDITS"
  else if exc_is "ContentPolicyViolationError" e
          || (exc_is "BadRequestError" e && str_contains "ContentPolicyViolationError" (exc_str e))
  then Some "STATUS$ERROR_LLM_CONTENT_POLICY_VIOLATION"
  else None.

Definition set_error (msg : string) : ctl unit := on_state (pmodify (λ s, set_last_error s msg)).
Definition call_status (callback : StatusCallback) (status : string) : ctl unit :=
  let* s := get_state in
  λ '(w, c), ((set_w_status (w_status w ++ [(status, last_error s)]) w, c), callback status (last_error s)).

(** [_react_to_exception]; when the callback raises, the state is not set. *)
Definition react_to_exception (e : py_exc) : ctl unit :=
  set_error (exc_name e +:+ ": " +:+ exc_str e) ;;;
  let* c := self in
  match c_status_callback (c_cfg c) with
  | Some callback =>
      match special_status e with
      | Some status => set_error status ;;; call_status callback status ;;; set_agent_state_to ERROR
      | None =>
          if exc_is "RateLimitError" e then
            if retries_exhausted e
            then set_error "CHAT_INTERFACE$AGENT_RATE_LIMITED_STOPPED_MESSAGE" ;;;
                 set_agent_state_to ERROR
            else set_agent_state_to RATE_LIMITED
          else call_status callback "STATUS$ERROR" ;;; set_agent_state_to ERROR
      end
  | None => set_agent_state_to ERROR
  end.

(** *** First user message and system message *)

(** [_first_user_message] without a list: searched once, then cached. *)
Definition first_user_message : ctl (option Event) :=
  let* c := self in
  match c_cached_first_user_message c with
  | Some e => pret (Some e)
  | None =>
      let* s := get_state in
      let* e := on_stream (on_store (search_first is_user_message (start_id s) false)) in
      update (set_c_first e) ;;; pret e
  end.

Definition is_system_message_action (e : Event) : bool := isinstance e (CActionClass T_SYSTEM).

(** [_add_system_message] *)
Definition add_system_message : ctl unit :=
  let* s := get_state in
  let* found := on_stream (on_store
    (search_first (λ e, is_user_message e || is_system_message_action e) (start_id s) false)) in
  let* c := self in
  match found, agent_system_message (c_agent c) with
  | None, Some e =>
      match ev_body e with
      | EAction (ASystemMessage m) => pwhen (negb (String.eqb (sma_content m) "")) (emit e AGENT)
      | _ => pret tt
      end
  | _, _ => pret tt
  end.

(** *** Creating and closing a controller *)

Definition event_stream_subscriber : string := "agent_controller".
Definition controller_callback : nat := 0.

(** [__init__]: a fresh object, then the subscription of a root controller, the state
    with its history, and the system message.  The fresh flags of a new state become
    the shared ones. *)
Definition init_controller (cfg : ControllerConfig) (agent : A) (initial_state : option State)
    (replay : option (list Event)) : World → World * result Controller := λ w,
  let s := set_initial_state (c_id cfg) (tr_user_id (c_tracker cfg)) initial_state
             (c_initial_max_iterations cfg) (c_initial_max_budget_per_task cfg)
             (c_confirmation_mode cfg) in
  let c := mkController cfg agent s None (new_ReplayManager replay) None false None None in
  let '((w, c), r) :=
    (pwhen (negb (c_is_delegate cfg))
       (on_stream (subscribe event_stream_subscriber (c_id cfg) controller_callback)) ;;;
     (λ '(w, c), ((save_shared s w, c), Ok tt)) ;;;
     on_reader init_history ;;;
     add_system_message) (w, c) in
  (w, let? _ := r in Ok c).

(** [close] *)
Definition controller_close (set_stop_state : bool) : ctl unit :=
  pwhen set_stop_state (set_agent_state_to STOPPED) ;;;
  on_reader tracker_close ;;;
  (let* c := self in
   pwhen (negb (c_is_delegate (c_cfg c)))
     (on_stream (pmodify (unsubscribe event_stream_subscriber (c_id (c_cfg c)))))) ;;;
  update (set_c_closed true).

(** [get_trajectory] *)
Definition controller_trajectory (screenshots : bool) : ctl (list dict) :=
  let* c := self in
  if c_closed c then let* s := get_state in plift (get_trajectory screenshots s)
  else praise AssertionError.

(** *** Delegates *)

(** A method call on the delegate. *)
Definition on_delegate {X} (m : ctl X) : ctl X := λ '(w, c),
  match c_delegate c with
  | None => ((w, c), Raise (OtherError "AttributeError" "NoneType"))
  | Some d => let '((w, d), r) := m (w, d) in ((w, set_c_delegate (Some d) c), r)
  end.

(** The state object a delegate starts with. *)
Definition delegate_state (c : Controller) (s : State) (inputs : dict) (latest : Z) : State :=
  mkState (removesuffix (c_id (c_cfg c)) "-delegate") (tr_user_id (c_tracker (c_cfg c)))
    (iteration_flag s) false (budget_flag s) (confirmation_mode default_State) [] inputs []
    (agent_state default_State) None (delegate_level s + 1) (latest + 1) (end_id default_State)
    (Some (get_metrics_snapshot s)) (current_value (iteration_flag s)) [] "" (metrics s) (-1) None.

(** The delegate's constructor arguments: confirmation mode, the status callback and
    the replay events keep their defaults. *)
Definition delegate_config (c : Controller) : ControllerConfig :=
  let cfg := c_cfg c in
  let sid := c_id cfg +:+ "-delegate" in
  mkControllerConfig sid
    (mkStateTracker (Some sid) (tr_has_store (c_tracker cfg)) (tr_user_id (c_tracker cfg)))
    (c_headless_mode cfg) true (c_agent_configs cfg) (c_initial_max_iterations cfg)
    (c_initial_max_budget_per_task cfg) None false.

(** [start_delegate] *)
Definition start_delegate (action : AgentDelegateAction) : ctl unit :=
  let* c := self in
  let config := from_option id (agent_config (c_agent c))
                  (dget (ada_agent action) (c_agent_configs (c_cfg c))) in
  let* agent := plift (agent_make (ada_agent action) config) in
  let* s := get_state in
  let* latest := on_stream reader_latest_event_id in
  λ '(w, c),
  match init_controller (delegate_config c) agent
          (Some (delegate_state c s (ada_inputs action) latest)) None w with
  | (w, Ok d) => ((w, set_c_delegate (Some d) c), Ok tt)
  | (w, Raise e) => ((w, c), Raise e)
  end.

(** [str(v)] *)
Definition py_str (j : json) : string := match j with JStr s => s | _ => py_repr j end.

(** The result text of a delegate. *)
Definition delegate_content (name : string) (state : AgentState) (outputs : dict) : string :=
  "Delegated agent finished with result:" +:+ nl +:+ nl +:+
  (if agent_state_eqb state FINISHED || agent_state_eqb state REJECTED
   then name +:+ " finishes task with " +:+
        str_join ", " ((λ '(k, v), k +:+ ": " +:+ py_str v)
          <$> py_filter (λ '(k, _), negb (String.eqb k "metrics")) outputs)
   else name +:+ " encountered an error during execution.").

(** [end_delegate].  The iteration counter copied back is the shared one. *)
Definition end_delegate : ctl unit :=
  let* c := self in
  match c_delegate c with
  | None => pret tt
  | Some d =>
      let state := agent_state (c_state d) in
      on_delegate (controller_close true) ;;;
      let* outputs := on_delegate (let* s := get_state in pret (outputs s)) in
      let* name := on_delegate (let* d := self in pret (agent_name (c_agent d))) in
      let* s := get_state in
      let obs := new_obs (delegate_content name state outputs)
                   (OAgentDelegate (mkAgentDelegateObservation outputs)) in
      let obs := match py_find is_delegate_action (reverse (history s)) with
                 | Some a => set_tool_call (event_tool_call a) obs
                 | None => obs
                 end in
      emit obs AGENT ;;;
      update (set_c_delegate None)
  end.

(** *** Messages and loop recovery *)

(** [_handle_message_action] *)
Definition handle_message_action (e : Event) (a : MessageAction) : ctl unit :=
  if bool_decide (event_source e = Some USER) then
    let* first := first_user_message in
    let is_first := match first with Some f => event_id e =? event_id f | None => false end in
    let recall := new_action (ARecall (mkRecallAction
                    (if is_first then WORKSPACE_CONTEXT else KNOWLEDGE) (ma_content a) "")) in
    update (set_c_pending (Some recall)) ;;;
    emit_pending USER ;;;
    let* state := get_agent_state in
    pwhen (negb (agent_state_eqb state RUNNING)) (set_agent_state_to RUNNING)
  else
    pwhen (bool_decide (event_source e = Some AGENT) && ma_wait_for_response a)
      (set_agent_state_to AWAITING_USER_INPUT).

(** [_truncate_memory_to_point] *)
Definition truncate_memory_to_point (recovery_point : Z) : ctl unit :=
  let* s := get_state in
  if py_len (history s) <=? recovery_point then pret tt
  else
    let keep := py_slice None (Some recovery_point) (history s) in
    on_state (pmodify (λ s, set_end_id (set_history s keep)
      (from_option event_id (-1) (last keep)))) ;;;
    update (set_c_first None).

Definition loop_notice (content : string) : ctl unit :=
  emit (new_obs content OLoopDetection) ENVIRONMENT.

(** [_perform_loop_recovery] *)
Definition perform_loop_recovery (r : StuckAnalysis) : ctl unit :=
  truncate_memory_to_point (loop_start_idx r) ;;;
  set_agent_state_to AWAITING_USER_INPUT ;;;
  loop_notice ("✅ Loop recovery completed. Agent has been reset to before the loop." +:+ nl +:+
    "You can now provide new instructions to continue." +:+ nl).

(** [_restart_with_last_user_message]; a new message action goes to
    [_handle_message_action]. *)
Definition restart_with_last_user_message (r : StuckAnalysis) : ctl unit :=
  let* s := get_state in
  match py_find is_user_message (reverse (history s)) with
  | None => perform_loop_recovery r
  | Some m =>
      truncate_memory_to_point (loop_start_idx r) ;;;
      set_agent_state_to RUNNING ;;;
      loop_notice (nl +:+ "✅ Restarting with your last instruction: " +:+ message_content m +:+ nl
        +:+ "Agent is now continuing with the same task..." +:+ nl) ;;;
      handle_message_action (set_source (Some USER) (new_message (message_content m)))
        (mkMessageAction (message_content m) None None false RISK_UNKNOWN)
  end.

(** [_handle_loop_recovery_action] *)
Definition handle_loop_recovery_action (a : LoopRecoveryAction) : ctl unit :=
  let* c := self in
  match c_stuck_analysis c with
  | None => pret tt
  | Some r =>
      if lra_option a =? 1 then perform_loop_recovery r
      else if lra_option a =? 2 then restart_with_last_user_message r
      else if lra_option a =? 3 then set_agent_state_to STOPPED
      else pret tt
  end.

(** [attempt_loop_recovery] *)
Definition attempt_loop_recovery : ctl bool :=
  let* c := self in
  match c_stuck_analysis c with
  | None => pret false
  | Some r =>
      let* s := get_state in
      loop_notice ("⚠️  Agent detected in a loop!" +:+ nl +:+
        "Loop type: " +:+ loop_type r +:+ nl +:+
        "Loop detected at iteration " +:+ pretty (current_value (iteration_flag s)) +:+ nl +:+ nl
        +:+ "Recovery options:" +:+ nl +:+
        "/resume 1. Restart from before loop (preserves " +:+ pretty (loop_start_idx r)
        +:+ " events)" +:+ nl +:+
        "/resume 2. Restart with last user message (reuses your most recent instruction)" +:+ nl
        +:+ "/exit. Quit directly" +:+ nl +:+ nl +:+
        "The agent has been paused. Type '/resume 1', '/resume 2', or '/exit' to choose an option."
        +:+ nl) ;;;
      emit (new_action (AChangeAgentState (mkChangeAgentStateAction PAUSED ""))) ENVIRONMENT ;;;
      pret true
  end.

(** *** Handling events *)

(** The message with a delegate's task. *)
Definition post_task (inputs : dict) : ctl unit :=
  match dget "task" inputs with
  | None => pret tt
  | Some (JStr task) =>
      emit (new_message ("TASK: " +:+ task)) USER ;;;
      on_delegate (set_agent_state_to RUNNING)
  | Some _ => praise (TypeError "can only concatenate str")
  end.

(** [_handle_action] *)
Definition handle_action (e : Event) (a : Action) : ctl unit :=
  match a with
  | AChangeAgentState a => set_agent_state_to (casa_agent_state a)
  | AMessage a => handle_message_action e a
  | AAgentDelegate a => start_delegate a ;;; post_task (ada_inputs a)
  | AAgentFinish a =>
      on_state (pmodify (λ s, set_outputs s (afa_outputs a))) ;;; set_agent_state_to FINISHED
  | AAgentReject a =>
      on_state (pmodify (λ s, set_outputs s (ara_outputs a))) ;;; set_agent_state_to REJECTED
  | ALoopRecovery a => handle_loop_recovery_action a
  | _ => pret tt
  end.

(** [_handle_observation] *)
Definition handle_observation (e : Event) : ctl unit :=
  let* c := self in
  match c_pending_action c with
  | None => pret tt
  | Some p =>
      if bool_decide (event_cause e = Some (event_id p)) then
        let* state := get_agent_state in
        if agent_state_eqb state AWAITING_USER_CONFIRMATION then pret tt
        else
          update (set_c_pending None) ;;;
          pwhen (agent_state_eqb state USER_CONFIRMED) (set_agent_state_to RUNNING) ;;;
          let* state := get_agent_state in
          pwhen (agent_state_eqb state USER_REJECTED) (set_agent_state_to AWAITING_USER_INPUT)
      else pret tt
  end.

(** [should_step] *)
Definition should_step (c : Controller) (e : Event) : bool :=
  match c_delegate c with
  | Some _ => false
  | None =>
      match ev_body e with
      | EAction (AMessage _) =>
          bool_decide (event_source e = Some USER)
          || negb (agent_state_eqb (agent_state (c_state c)) AWAITING_USER_INPUT)
      | EAction (AAgentDelegate _) | EAction (ACondensation _) | EAction ACondensationRequest => true
      | EAction _ => false
      | EObservation o =>
          match obs_kind o with
          | ONull => match event_cause e with Some i => 0 <? i | None => false end
          | OAgentStateChanged _ => false
          | _ => true
          end
      end
  end.

(** *** A step *)

(** [_is_stuck]: the delegate first; its verdict leaves the own analysis alone. *)
Fixpoint is_stuck_chain (c : Controller) : Controller * result bool :=
  let own (c : Controller) :=
    let '(a, r) := is_stuck (c_headless_mode (c_cfg c)) (history (c_state c)) (c_stuck_analysis c) in
    (set_c_stuck a c, r) in
  match c_delegate c with
  | None => own c
  | Some d =>
      let '(d, r) := is_stuck_chain d in
      let c := set_c_delegate (Some d) c in
      match r with
      | Ok false => own c
      | _ => (c, r)
      end
  end.
Definition controller_is_stuck : ctl bool := λ '(w, c),
  let '(c, r) := is_stuck_chain c in ((w, c), r).

(** [_handle_security_analyzer]: the action with its risk; actions without the
    attribute are left alone. *)
Definition handle_security_analyzer (e : Event) : Event :=
  let has_risk := match ev_body e with
                  | EAction a => if get_security_risk a then true else false
                  | _ => false
                  end in
  let set r := map_action (set_security_risk r) e in
  match security_analyzer with
  | Some analyze =>
      if has_risk then
        match analyze e with
        | Ok r => set r
        | Raise _ => set RISK_UNKNOWN
        end
      else e
  | None => if has_risk then set RISK_UNKNOWN else e
  end.

(** The classes that are checked in confirmation mode. *)
Definition needs_check (e : Event) : bool :=
  match ev_body e with
  | EAction (ACmdRun _) | EAction (AIPythonRunCell _) | EAction (ABrowseInteractive _)
  | EAction (AFileEdit _) | EAction (AFileRead _) => true
  | _ => false
  end.

(** [getattr(action, 'security_risk', UNKNOWN)] *)
Definition event_risk (e : Event) : ActionSecurityRisk :=
  match ev_body e with
  | EAction a => from_option id RISK_UNKNOWN (get_security_risk a)
  | _ => RISK_UNKNOWN
  end.

(** The confirmation block of [_step]: the checked action. *)
Definition confirm (cli confirmation : bool) (e : Event) : Event :=
  let e := handle_security_analyzer e in
  let high := bool_decide (event_risk e = RISK_HIGH) in
  let ask_every := bool_decide (event_risk e = RISK_UNKNOWN)
                   && match security_analyzer with None => true | Some _ => false end in
  if cli then set_event_confirmation AWAITING_CONFIRMATION e
  else if (high || ask_every) && confirmation
  then set_event_confirmation AWAITING_CONFIRMATION e
  else e.

(** [_prepare_metrics_for_frontend] *)
Definition frontend_metrics (stats : ConversationStats) (s : State) : result Metrics :=
  let m := get_combined_metrics stats in
  match set_accumulated_cost (m_accumulated_cost m) (new_Metrics "default") with
  | (_, Raise e) => Raise e
  | (clean, Ok _) =>
      let clean := mkMetrics (m_accumulated_cost clean) (m_max_budget_per_task clean)
                     (m_costs clean) (m_response_latencies clean) (m_model_name clean)
                     (m_token_usages clean) (m_accumulated_token_usage m) in
      Ok (match budget_flag s with
          | Some b => set_max_budget_per_task (Some (max_value b)) clean
          | None => clean
          end)
  end.

(** [self.agent.step(self.state)] *)
Definition run_agent : ctl (option Event) := λ '(w, c),
  let '((agent, s, stats), r) :=
    agent_step (c_agent c, with_shared w (c_state c), w_stats w) in
  ((save_shared s (set_w_stats stats w), set_c_state s (set_c_agent agent c)), r).

(** Does the text of an LLM error speak of the context window? *)
Definition context_window_text (msg : string) : bool :=
  str_contains "contextwindowexceedederror" msg
  || str_contains "prompt is too long" msg
  || str_contains "input length and `max_tokens` exceed context limit" msg
  || str_contains "please reduce the length of" msg
  || str_contains "the request exceeds the available context size" msg
  || str_contains "context length exceeded" msg
  || (str_contains "sambanovaexception" msg && str_contains "maximum context length" msg).

(** What [_step] does with an exception of the agent's step: report it to the agent,
    ask for a condensation, or raise. *)
Definition handle_agent_exception (e : py_exc) : ctl unit :=
  if own_exc ["LLMMalformedActionError"; "LLMNoActionError"; "LLMResponseError";
              "FunctionCallValidationError"; "FunctionCallNotExistsError"] e
  then emit (new_obs (exc_str e) (OError (mkErrorObservation ""))) AGENT
  else if exc_is "ContextWindowExceededError" e || exc_is "BadRequestError" e
          || exc_is "OpenAIError" e then
    let msg := str_lower (exc_str e) in
    if context_window_text msg || exc_is "ContextWindowExceededError" e then
      let* c := self in
      if enable_history_truncation (agent_config (c_agent c))
      then emit (new_action ACondensationRequest) AGENT
      else praise LLMContextWindowExceedError
    else if exc_is "BadRequestError" e && str_contains "tool call validation failed" msg
            && (str_contains "missing properties" msg || str_contains "missing required" msg)
    then emit (new_obs ("Tool call validation failed: " +:+ exc_str e +:+
                 ". Please check the tool parameters and try again.")
                 (OError (mkErrorObservation ""))) AGENT
    else praise e
  else praise e.

(** The action of this step, from the replay or from the agent; [None] when the step
    ends with a handled exception. *)
Definition next_action : ctl (option Event) :=
  let* replaying := λ '(w, c), let '(m, r) := should_replay (c_replay c) in
                               ((w, set_c_replay m c), r) in
  if replaying : bool then
    λ '(w, c), let '(m, r) := replay_step (c_replay c) in
               ((w, set_c_replay m c), let? e := r in Ok (Some e))
  else
    pcatch
      (let* a := run_agent in
       match a with
       | None => praise (OtherError "LLMNoActionError" "No action was returned")
       | Some a => pret (Some (set_source (Some AGENT) a))
       end)
      (λ e, handle_agent_exception e ;;; pret None).

(** The end of [_step]: a runnable action becomes the pending one; every action but
    the null one is published, with the metrics, under its own source. *)
Definition perform (e : Event) : ctl unit :=
  let* s := get_state in
  let* c := self in
  let is_runnable := match ev_body e with EAction a => runnable a | _ => false end in
  let e := if is_runnable && confirmation_mode s && needs_check e
           then confirm (cli_mode (agent_config (c_agent c))) (c_confirmation_mode (c_cfg c)) e
           else e in
  pwhen is_runnable (update (set_c_pending (Some e))) ;;;
  if isinstance e (CActionClass T_NULL) then pret tt
  else
    pwhen (bool_decide (event_confirmation e = Some AWAITING_CONFIRMATION))
      (set_agent_state_to AWAITING_USER_CONFIRMATION) ;;;
    let* s := get_state in
    let* m := λ '(w, c), ((w, c), frontend_metrics (w_stats w) s) in
    let e := set_llm_metrics (Some m) e in
    match event_source e with
    | None => praise (OtherError "AttributeError" "_source")
    | Some source =>
        if is_runnable then update (set_c_pending (Some e)) ;;; emit_pending source
        else emit e source
    end.

(** [_step] *)
Definition step : ctl unit :=
  let* state := get_agent_state in
  let* c := self in
  if negb (agent_state_eqb state RUNNING) then pret tt
  else match c_pending_action c with
  | Some _ => pret tt
  | None =>
      (λ '(w, c), on_state (pmodify (sync_budget_flag_with_metrics (w_stats w))) (w, c)) ;;;
      let* stuck := if enable_stuck_detection (agent_config (c_agent c))
                    then controller_is_stuck else pret false in
      if stuck : bool then react_to_exception AgentStuckInLoopError
      else
        let* limit := pcatch (on_state run_control_flags ;;; pret None) (λ e, pret (Some e)) in
        match limit with
        | Some e => react_to_exception e
        | None =>
            let* action := next_action in
            match action with
            | None => pret tt
            | Some a => perform a
            end
        end
  end.

(** Is the exception shown to the user as it is? *)
Definition reported_as_is (e : py_exc) : bool :=
  existsb (λ cls, exc_is cls e)
    ["Timeout"; "APIError"; "BadRequestError"; "NotFoundError"; "InternalServerError";
     "AuthenticationError"; "RateLimitError"; "ContentPolicyViolationError"]
  || own_exc ["LLMContextWindowExceedError"] e.

(** [_step_with_exception_handling] *)
Definition step_with_exception_handling : ctl unit :=
  pcatch step (λ e,
    react_to_exception
      (if reported_as_is e then e
       else RuntimeError ("There was an unexpected error while running the agent: " +:+
              exc_name e +:+ ". You can refresh the page or ask the agent to try again."))).

(** [_on_event] *)
Definition handle_event (e : Event) : ctl unit :=
  if event_hidden e then pret tt
  else
    on_state (add_history e) ;;;
    (match ev_body e with
     | EAction a => handle_action e a
     | EObservation _ => handle_observation e
     end) ;;;
    let* c := self in
    pwhen (should_step c e) step_with_exception_handling.

(** Is the delegate still to receive events? *)
Definition delegate_active (d : Controller) : bool :=
  negb (existsb (agent_state_eqb (agent_state (c_state d))) [FINISHED; ERROR; REJECTED])
  || str_contains ITERATION_LIMIT_TEXT (last_error (c_state d))
  || str_contains BUDGET_LIMIT_TEXT (last_error (c_state d)).

(** [on_event], the callback of the event stream. *)
Definition on_event (e : Event) : ctl unit :=
  let* c := self in
  match c_delegate c with
  | Some d => if delegate_active d then on_delegate (handle_event e) else end_delegate
  | None => handle_event e
  end.

(** [_is_awaiting_observation] *)
Definition is_awaiting_observation : ctl bool :=
  let* e := on_stream (on_store (search_first
    (λ e, isinstance e (CObservationClass OT_AGENT_STATE_CHANGED)) 0 true)) in
  pret (match e with
        | Some e => match ev_body e with
                    | EObservation o => match obs_kind o with
                                        | OAgentStateChanged a =>
                                            agent_state_eqb (asco_agent_state a) RUNNING
                                        | _ => false
                                        end
                    | _ => false
                    end
        | None => false
        end).
End controller.
Arguments World : clear implicits.
Arguments Controller : clear implicits.
