(* ===== verification/ControllerProps.v ===== *)
(** * Limits and safety of the controller

    Every computation of the controller changes the shared iteration flag only by the
    calls of [ControlFlags] ([safe]); from this follow the limits over whole runs, for
    any agent, any events and any behaviour of the file store. *)

From S2P Require Import Prelude PyValue ControlFlags Metrics Schema Actions Observations Events.
From S2P Require Import View Serialization FileStore EventStore EventStream ConversationStats.
From S2P Require Import State StateTracker Stuck Replay Controller.
Local Open Scope Z_scope.
Local Open Scope py_scope.

(** Agents are given the state, but leave its iteration flag alone. *)
Class AgentLaws (A : Type) `{Agent A} :=
  agent_step_flag : ∀ a s st,
    iteration_flag (agent_step (a, s, st)).1.1.2 = iteration_flag s.

Create HintDb ctl.

(** ** Computations within a relation

    A computation is within a preorder on states when the state it ends in, normally or
    with an exception, is related to the one it started in. *)

Section within.
#[local] Set Default Proof Using "All".
Context {S : Type} (R : relation S) `{!PreOrder R}.

Definition within {X} (m : pyM S X) : Prop := ∀ x, R x (m x).1.

Lemma within_ret {X} (a : X) : within (pret a).
Proof. intros x. apply reflexivity. Qed.
Lemma within_raise {X} e : within (praise e : pyM S X).
Proof. intros x. apply reflexivity. Qed.
Lemma within_lift {X} (r : result X) : within (plift r).
Proof. intros x. apply reflexivity. Qed.

Lemma within_bind {X Y} (m : pyM S X) (k : X → pyM S Y) :
  within m → (∀ a, within (k a)) → within (pbind m k).
Proof.
  intros Hm Hk x. specialize (Hm x). unfold pbind. destruct (m x) as [y [a|e]]; [|done].
  transitivity y; [done|]. apply Hk.
Qed.
Lemma within_catch {X} (m : pyM S X) k : within m → (∀ e, within (k e)) → within (pcatch m k).
Proof.
  intros Hm Hk x. specialize (Hm x). unfold pcatch. destruct (m x) as [y [a|e]]; [done|].
  transitivity y; [done|]. apply Hk.
Qed.
End within.

Section within_ctl.
#[local] Set Default Proof Using "All".
Context {F A : Type} (R : relation (World F * Controller A)) `{!PreOrder R}.
Lemma within_when b (m : @ctl F A unit) : within R m → within R (pwhen b m).
Proof. destruct b; [done|]. intros _. by apply within_ret. Qed.
Lemma within_get_state : within R get_state.
Proof. intros [w c]. apply reflexivity. Qed.
Lemma within_self : within R self.
Proof. intros [w c]. apply reflexivity. Qed.
Lemma within_get_agent_state : within R get_agent_state.
Proof.
  apply within_bind; [done|apply within_get_state|]. intros s. apply within_ret. done.
Qed.
End within_ctl.
#[export] Hint Resolve within_ret within_raise within_lift within_get_state within_self
  within_get_agent_state : ctl.

(** Decompose a computation; the operations are discharged by the hints. *)
Ltac within_step :=
  match goal with
  | |- forall _, _ => intro
  | |- within _ (pbind _ _) => apply within_bind
  | |- within _ (pcatch _ _) => apply within_catch
  | |- within _ (pwhen false _) => apply within_ret
  | |- within _ (pwhen _ _) => apply within_when
  | |- within _ (match ?x with _ => _ end) => destruct x
  | |- PreOrder _ => apply _
  | |- within _ _ => solve [eauto with ctl typeclass_instances nocore]
  end.

Section limits.
#[local] Set Default Proof Using "All".
Context `{FileStore F} `{Platform} `{Pickle StateDict} `{Pickle (list (string * Metrics))}.
Context `{AgentLaws A} `{LLMErrors}.
Variable now : nat → string.
Variable security_analyzer : option (Event → result ActionSecurityRisk).
(** The mode of the controllers. *)
Variable h : bool.
Notation ctl := (@ctl F A).

(** ** Computations that respect the iteration flag *)

Definition op_allowed (op : flag_op) : Prop :=
  match op with OpStep => True | OpIncrease h' => h' = h end.
(** [f'] comes from [f] by calls of the flag's methods in this mode. *)
Definition flag_path (f f' : ControlFlag Z) : Prop :=
  ∃ ops, Forall op_allowed ops ∧ f' = run_ops ops f.

Fixpoint chain_mode (c : Controller A) : Prop :=
  c_headless_mode (c_cfg c) = h
  ∧ match c_delegate c with None => True | Some d => chain_mode d end.

Definition safe_rel (x y : World F * Controller A) : Prop :=
  chain_mode x.2 → flag_path (w_iteration_flag x.1) (w_iteration_flag y.1) ∧ chain_mode y.2.
Abbreviation safe := (within safe_rel).

Lemma run_ops_app ops ops' f : run_ops (ops ++ ops') f = run_ops ops' (run_ops ops f).
Proof using Type. revert f. induction ops as [|op ops IH]; intros f; [done|]. apply IH. Qed.

Lemma flag_path_refl f : flag_path f f.
Proof using Type. by exists []. Qed.
Lemma flag_path_trans f1 f2 f3 : flag_path f1 f2 → flag_path f2 f3 → flag_path f1 f3.
Proof using Type.
  intros (o1 & P1 & ->) (o2 & P2 & ->). exists (o1 ++ o2).
  split; [by apply Forall_app|by rewrite run_ops_app].
Qed.
Lemma flag_path_op op f : op_allowed op → flag_path f (apply_op op f).1.
Proof using Type. intros. exists [op]. split; [by repeat constructor|done]. Qed.
Hint Resolve flag_path_refl : ctl.

(** *** Closure of [safe] *)

#[local] Instance safe_rel_preorder : PreOrder safe_rel.
Proof using Type.
  split.
  - intros x Hx. split; [apply flag_path_refl|done].
  - intros x y z Hxy Hyz Hx. destruct (Hxy Hx) as [P1 Hy]. destruct (Hyz Hy) as [P2 Hz].
    split; [by eapply flag_path_trans|done].
Qed.

(** Reading the own attributes tells the mode. *)
Lemma safe_self {X} (k : Controller A → ctl X) :
  (∀ c, c_headless_mode (c_cfg c) = h → safe (k c)) → safe (pbind self k).
Proof using Type.
  intros Hk [w c] Hc. unfold pbind, self. apply Hk; [|done]. by destruct c; destruct Hc.
Qed.

Lemma safe_update (f : Controller A → Controller A) :
  (∀ c, c_cfg (f c) = c_cfg c) → (∀ c, c_delegate (f c) = c_delegate c ∨ c_delegate (f c) = None) →
  safe (update f).
Proof using Type.
  intros Hcfg Hd [w c] Hc. split; [apply flag_path_refl|]. simpl.
  destruct c as [cfg a s st rp p cl fu d]. specialize (Hcfg (mkController cfg a s st rp p cl fu d)).
  destruct (f _) as [] eqn:E. specialize (Hd (mkController cfg a s st rp p cl fu d)).
  rewrite E in Hd. simpl in *. destruct Hc as [Hc1 Hc2]. subst.
  split; [done|]. by destruct Hd as [-> | ->].
Qed.

Lemma chain_mode_state s c : chain_mode c → chain_mode (set_c_state s c).
Proof using Type. by destruct c. Qed.

Lemma safe_on_state {X} (m : pyM State X) :
  (∀ s, flag_path (iteration_flag s) (iteration_flag (m s).1)) → safe (on_state m).
Proof using Type.
  intros Hm [w c] Hc. unfold on_state. specialize (Hm (with_shared w (c_state c))).
  destruct (m _) as [s r]. split; [exact Hm|exact (chain_mode_state s c Hc)].
Qed.
Lemma safe_on_reader {X} (m : pyM (State * EventStream F) X) :
  (∀ s st, iteration_flag (m (s, st)).1.1 = iteration_flag s) → safe (on_reader m).
Proof using Type.
  intros Hm [w c] Hc. unfold on_reader. specialize (Hm (with_shared w (c_state c)) (w_stream w)).
  destruct (m _) as [[s st] r]. simpl in *. rewrite Hm. split; [apply flag_path_refl|exact (chain_mode_state s c Hc)].
Qed.
Lemma safe_on_files {X} (m : pyM (State * F) X) :
  (∀ s f, iteration_flag (m (s, f)).1.1 = iteration_flag s) → safe (on_files m).
Proof using Type.
  intros Hm [w c] Hc. unfold on_files.
  specialize (Hm (with_shared w (c_state c)) (es_file_store (st_store (w_stream w)))).
  destruct (m _) as [[s st] r]. simpl in *. rewrite Hm. split; [apply flag_path_refl|exact (chain_mode_state s c Hc)].
Qed.
Lemma safe_on_stream {X} (m : pyM (EventStream F) X) : safe (on_stream m).
Proof using Type.
  intros [w c] Hc. unfold on_stream. destruct (m _) as [st r]. split; [apply flag_path_refl|done].
Qed.

Lemma safe_emit e src : safe (emit now e src).
Proof using Type.
  intros [w c] Hc. unfold emit, publish. destruct (add_event _ _ _) as [[st e'] r].
  split; [apply flag_path_refl|done].
Qed.
Lemma safe_emit_pending src : safe (emit_pending now src).
Proof using Type.
  intros [w c] Hc. unfold emit_pending, publish. destruct (c_pending_action c); [|split; [apply flag_path_refl|done]].
  destruct (add_event _ _ _) as [[st e'] r]. split; [apply flag_path_refl|by destruct c].
Qed.
Lemma safe_on_delegate {X} (m : ctl X) : safe m → safe (on_delegate m).
Proof using Type.
  intros Hm [w c] Hc. unfold on_delegate. destruct (c_delegate c) as [d|] eqn:E; [|split; [apply flag_path_refl|done]].
  destruct c as [cfg a s st rp p cl fu d']. simpl in E. subst d'. destruct Hc as [Hc1 Hc2].
  destruct (Hm (w, d) Hc2) as [Hp Hd]. destruct (m (w, d)) as [[w' d'] r]. simpl in *. done.
Qed.

(** *** The tracker's operations *)

Lemma init_history_flag `{EventReader R} s (r : R) :
  iteration_flag (init_history (s, r)).1.1 = iteration_flag s.
Proof using Type.
  unfold init_history. destruct (fetch_bounds s r) as [r' [[a b]|e]]; [|done].
  destruct (_ <? _); [done|]. destruct (reader_search _ _ _ _ _ _) as [r2 [l|e]]; [|done].
  by destruct (hide_delegations _ _).
Qed.
Lemma tracker_close_flag `{EventReader R} s (r : R) :
  iteration_flag (tracker_close (s, r)).1.1 = iteration_flag s.
Proof using Type.
  unfold tracker_close. destruct (fetch_bounds s r) as [r' [[a b]|e]]; [|done].
  by destruct (reader_search _ _ _ _ _ _) as [r2 [l|e]].
Qed.
Lemma save_state_flag t stats b s (f : F) :
  iteration_flag (save_state t stats b (s, f)).1.1 = iteration_flag s.
Proof using Type.
  unfold save_state, pbind.
  set (m := match truthy_str (tr_sid t) with Some _ => _ | None => _ end).
  assert (Hs : iteration_flag (m (s, f)).1.1 = iteration_flag s).
  { unfold m. destruct (truthy_str _); [|done]. destruct (tr_has_store t); [|done].
    unfold save_to_session. by destruct (fs_write _ _ _) as [f' [[]|e]]. }
  destruct (m (s, f)) as [[s' f'] [[]|e]]; simpl in *; [|done].
  destruct (has_stats s'); [|done]. destruct b; [|done]. simpl.
  by destruct (fs_write _ _ f').
Qed.

Lemma on_budget_flag_iteration m s : iteration_flag (on_budget_flag m s).1 = iteration_flag s.
Proof using Type. unfold on_budget_flag. destruct (budget_flag s); [by destruct (m c)|done]. Qed.

Lemma on_flags_path {X} (m : pyM (ControlFlag Z) X) m' s :
  (∀ f, flag_path f (m f).1) →
  flag_path (iteration_flag s) (iteration_flag ((on_iteration_flag m ;;; on_budget_flag m') s).1).
Proof using Type.
  intros Hm. unfold pbind, on_iteration_flag. specialize (Hm (iteration_flag s)).
  destruct (m _) as [f [x|e]]; [|done]. by rewrite on_budget_flag_iteration.
Qed.

Lemma add_history_flag e s : iteration_flag (add_history e s).1 = iteration_flag s.
Proof using Type. unfold add_history. by destruct (include _ _) as [[]|]. Qed.

Lemma sync_flag stats s : iteration_flag (sync_budget_flag_with_metrics stats s) = iteration_flag s.
Proof using Type. unfold sync_budget_flag_with_metrics. by destruct (budget_flag s), (has_stats s). Qed.

(** ** The controller's operations *)

Lemma safe_modify_state f : (∀ s, iteration_flag (f s) = iteration_flag s) → safe (on_state (pmodify f)).
Proof using Type. intros Hf. apply safe_on_state. intros s. simpl. rewrite Hf. apply flag_path_refl. Qed.
Lemma safe_save_state : safe controller_save_state.
Proof using Type. intros [w c] Hc. by apply (safe_on_files _ (save_state_flag _ _ _) (w, c)). Qed.
Lemma safe_raw {X} (m : ctl X) (f : Controller A → World F → ctl X) :
  (∀ w c, m (w, c) = f c w (w, c)) → (∀ c w, safe (f c w)) → safe m.
Proof using Type. intros Hm Hf [w c] Hc. rewrite Hm. by apply Hf. Qed.
#[local] Hint Resolve safe_on_stream safe_emit safe_emit_pending safe_save_state : ctl.

Ltac solve_safe :=
  repeat first
    [ match goal with
      | |- safe (pbind self _) => apply safe_self; intros
      | |- safe (on_delegate _) => apply safe_on_delegate
      | |- safe (on_state (pmodify _)) => apply safe_modify_state; done
      | |- safe (update _) => apply safe_update; [done|by auto]
      end
    | within_step ].

Lemma safe_reset : safe (reset now).
Proof using Type. unfold reset. solve_safe. Qed.
Lemma safe_resolve_pending s : safe (resolve_pending now s).
Proof using Type. unfold resolve_pending. solve_safe. Qed.
#[local] Hint Resolve safe_reset safe_resolve_pending : ctl.

Lemma safe_increase : safe (on_state (maybe_increase_control_flags_limits h)).
Proof using Type.
  apply safe_on_state. intros s. apply on_flags_path. intros f.
  by apply (flag_path_op (OpIncrease h)).
Qed.
Lemma safe_run_flags : safe (on_state run_control_flags).
Proof using Type.
  apply safe_on_state. intros s. apply on_flags_path. intros f. by apply (flag_path_op OpStep).
Qed.
#[local] Hint Resolve safe_run_flags : ctl.

Lemma safe_set_agent_state_to s : safe (set_agent_state_to now s).
Proof using Type.
  unfold set_agent_state_to. solve_safe.
  match goal with Hm : c_headless_mode _ = h |- _ => rewrite Hm end. apply safe_increase.
Qed.
#[local] Hint Resolve safe_set_agent_state_to : ctl.

Lemma safe_call_status f st : safe (call_status f st).
Proof using Type.
  unfold call_status. apply within_bind; [apply _|apply within_get_state, _|]. intros s [w c] Hc.
  split; [apply flag_path_refl|done].
Qed.
Lemma safe_set_error m : safe (set_error m).
Proof using Type. unfold set_error. solve_safe. Qed.
#[local] Hint Resolve safe_call_status safe_set_error : ctl.

Lemma safe_react e : safe (react_to_exception now e).
Proof using Type. unfold react_to_exception. solve_safe. Qed.
Lemma safe_first_user_message : safe first_user_message.
Proof using Type. unfold first_user_message. solve_safe. Qed.
Lemma safe_add_system_message : safe (add_system_message now).
Proof using Type. unfold add_system_message. solve_safe. Qed.
Lemma safe_close b : safe (controller_close now b).
Proof using Type.
  unfold controller_close. solve_safe. apply safe_on_reader. apply tracker_close_flag.
Qed.
#[local] Hint Resolve safe_react safe_first_user_message safe_add_system_message safe_close : ctl.

(** A delegate is created around the shared flag. *)
Lemma init_delegate_safe cfg agent s rp w :
  c_is_delegate cfg = true → c_headless_mode cfg = h → iteration_flag s = w_iteration_flag w →
  let '(w', r) := init_controller now cfg agent (Some s) rp w in
  flag_path (w_iteration_flag w) (w_iteration_flag w')
  ∧ match r with Ok d => chain_mode d | Raise _ => True end.
Proof using Type.
  intros Hd Hh Hs. unfold init_controller. rewrite Hd.
  set (s' := set_initial_state _ _ _ _ _ _).
  set (c0 := mkController cfg agent s' None (new_ReplayManager rp) None false None None).
  assert (Hs' : iteration_flag s' = w_iteration_flag w)
    by (unfold s', set_initial_state; by destruct (start_id s <=? -1)).
  assert (Hsafe : safe (on_reader init_history ;;; add_system_message now)).
  { apply within_bind; [apply _|apply safe_on_reader, init_history_flag|intros; auto with ctl]. }
  destruct (Hsafe (save_shared s' w, c0)) as [Hp Hc]; [done|]. cbn [fst w_iteration_flag save_shared] in Hp.
  rewrite Hs' in Hp. unfold pwhen, pret. cbn [negb]. unfold pbind at 1 2. cbv beta iota.
  destruct (pbind (on_reader init_history) _ (save_shared s' w, c0)) as [[w' d] [[]|e]]; done.
Qed.

Lemma safe_start_delegate a : safe (start_delegate now a).
Proof using Type.
  intros [w c] Hc.
  enough (Hr : let '((w', c'), _) := start_delegate now a (w, c) in
               flag_path (w_iteration_flag w) (w_iteration_flag w') ∧ chain_mode c')
    by by destruct (start_delegate now a (w, c)) as [[] ?].
  assert (Hmode : c_headless_mode (c_cfg c) = h) by by destruct c, Hc.
  unfold start_delegate, pbind, self, plift.
  destruct (agent_make _ _) as [agent|e]; [|by split; [apply flag_path_refl|]].
  unfold get_state, on_stream.
  destruct (reader_latest_event_id _) as [stm [latest|e]];
    [|split; [apply flag_path_refl|exact Hc]].
  match goal with |- context [init_controller now ?cfg' ?ag' (Some ?st') ?rp' ?w'] =>
    pose proof (init_delegate_safe cfg' ag' st' rp' w' eq_refl Hmode eq_refl) as Hi;
    destruct (init_controller now cfg' ag' (Some st') rp' w') as [w2 [dd|e]] end;
    destruct Hi as [Hp Hd]; (split; [exact Hp|]).
  - done.
  - exact Hc.
Qed.
#[local] Hint Resolve safe_start_delegate : ctl.

Lemma safe_end_delegate : safe (end_delegate now).
Proof using Type. unfold end_delegate. solve_safe. Qed.
Lemma safe_handle_message e a : safe (handle_message_action now e a).
Proof using Type. unfold handle_message_action. solve_safe. Qed.
Lemma safe_truncate n : safe (truncate_memory_to_point n).
Proof using Type. unfold truncate_memory_to_point. solve_safe. Qed.
Lemma safe_loop_notice m : safe (loop_notice now m).
Proof using Type. apply safe_emit. Qed.
#[local] Hint Resolve safe_end_delegate safe_handle_message safe_truncate safe_loop_notice : ctl.
Lemma safe_perform_recovery r : safe (perform_loop_recovery now r).
Proof using Type. unfold perform_loop_recovery. solve_safe. Qed.
#[local] Hint Resolve safe_perform_recovery : ctl.
Lemma safe_restart r : safe (restart_with_last_user_message now r).
Proof using Type. unfold restart_with_last_user_message. solve_safe. Qed.
#[local] Hint Resolve safe_restart : ctl.
Lemma safe_handle_recovery a : safe (handle_loop_recovery_action now a).
Proof using Type. unfold handle_loop_recovery_action. solve_safe. Qed.
Lemma safe_post_task i : safe (post_task now i).
Proof using Type. unfold post_task. solve_safe. Qed.
#[local] Hint Resolve safe_handle_recovery safe_post_task : ctl.
Lemma safe_handle_action e a : safe (handle_action now e a).
Proof using Type. unfold handle_action. solve_safe. Qed.
Lemma safe_handle_observation e : safe (handle_observation now e).
Proof using Type. unfold handle_observation. solve_safe. Qed.
#[local] Hint Resolve safe_handle_action safe_handle_observation : ctl.

(** *** The step *)

Lemma is_stuck_chain_mode c : chain_mode c → chain_mode (is_stuck_chain c).1.
Proof using Type.
  revert c. fix IH 1. intros c Hc. destruct c as [cfg ag s st rp p cl fu [d|]];
    destruct Hc as [Hm Hd].
  - specialize (IH d Hd). cbn [is_stuck_chain c_delegate].
    destruct (is_stuck_chain d) as [d' [[]|]]; [done| |done].
    cbn. by destruct (is_stuck _ _ _).
  - cbn. by destruct (is_stuck _ _ _).
Qed.
Lemma safe_is_stuck : safe controller_is_stuck.
Proof using Type.
  intros [w c] Hc. unfold controller_is_stuck. pose proof (is_stuck_chain_mode c Hc) as Hc'.
  destruct (is_stuck_chain c) as [c' b]. split; [apply flag_path_refl|done].
Qed.
#[local] Hint Resolve safe_is_stuck : ctl.

Lemma safe_run_agent : safe run_agent.
Proof.
  intros [w c] Hc. unfold run_agent.
  pose proof (agent_step_flag (c_agent c) (with_shared w (c_state c)) (w_stats w)) as Hf.
  destruct (agent_step _) as [[[a s] stats] r]. simpl in Hf. split.
  - simpl. rewrite Hf. apply flag_path_refl.
  - by destruct c.
Qed.
Lemma safe_replay {X Y} (m : pyM ReplayManager X) (k : result X → result Y) :
  safe (λ '(w, c), let '(x, r) := m (c_replay c) in ((w, set_c_replay x c), k r)).
Proof using Type.
  intros [w c] Hc. destruct (m _) as [x r]. split; [apply flag_path_refl|by destruct c].
Qed.
Lemma safe_agent_exception e : safe (handle_agent_exception now e).
Proof using Type. unfold handle_agent_exception. solve_safe. Qed.
#[local] Hint Resolve safe_run_agent safe_agent_exception : ctl.
Lemma safe_next_action : safe (next_action now).
Proof.
  unfold next_action. apply within_bind; [apply _|apply (safe_replay should_replay id)|]. intros [].
  - apply (safe_replay replay_step (λ r, let? e := r in Ok (Some e))).
  - solve_safe.
Qed.
Lemma safe_metrics s : safe (λ '(w, c), ((w, c), frontend_metrics (w_stats w) s)).
Proof using Type. intros [w c] Hc. split; [apply flag_path_refl|done]. Qed.
#[local] Hint Resolve safe_next_action safe_metrics : ctl.
Lemma safe_perform e : safe (perform now security_analyzer e).
Proof using Type. unfold perform. solve_safe. Qed.
#[local] Hint Resolve safe_perform : ctl.

Lemma safe_sync :
  safe (λ '(w, c), on_state (pmodify (sync_budget_flag_with_metrics (w_stats w))) (w, c)).
Proof using Type. intros [w c] Hc. apply (safe_modify_state _ (sync_flag (w_stats w)) (w, c) Hc). Qed.
#[local] Hint Resolve safe_sync : ctl.
Lemma safe_step : safe (step now security_analyzer).
Proof. unfold step. solve_safe. Qed.
#[local] Hint Resolve safe_step : ctl.
Lemma safe_step_handled : safe (step_with_exception_handling now security_analyzer).
Proof. unfold step_with_exception_handling. solve_safe. Qed.
#[local] Hint Resolve safe_step_handled : ctl.
Lemma safe_add_history e : safe (on_state (add_history e)).
Proof using Type.
  apply safe_on_state. intros s. rewrite add_history_flag. apply flag_path_refl.
Qed.
#[local] Hint Resolve safe_add_history : ctl.
Lemma safe_handle_event e : safe (handle_event now security_analyzer e).
Proof. unfold handle_event. solve_safe. Qed.
#[local] Hint Resolve safe_handle_event : ctl.
Lemma safe_on_event e : safe (on_event now security_analyzer e).
Proof. unfold on_event. solve_safe. Qed.

(** ** Runs *)

(** Events delivered one after the other; an exception ends the callback, not the run. *)
Definition run_events (es : list Event) (x : World F * Controller A) : World F * Controller A :=
  foldl (λ x e, (on_event now security_analyzer e x).1) x es.

Lemma run_events_safe es x : safe_rel x (run_events es x).
Proof.
  revert x. induction es as [|e es IH]; intros x; [apply reflexivity|].
  transitivity ((on_event now security_analyzer e x).1); [apply safe_on_event|apply IH].
Qed.

(** In headless mode no call extends the limit. *)
Lemma headless_no_increases ops : h = true → Forall op_allowed ops → count_increases ops = 0.
Proof using Type.
  intros Hh. induction 1 as [|[|h'] ops Hop _ IH]; [done..|]. simpl in Hop.
  rewrite Hop, Hh. simpl. exact IH.
Qed.
End limits.

(** C1 An unattended agent takes at most the allowed number of iterations: whatever
    events arrive, in whatever order, whatever the agent and its delegates do and
    however often the file store fails, the iteration counter that a controller in
    headless mode shares with its delegates stays between 0 and the limit [n] it
    started with. *)
Theorem headless_iteration_limit `{FileStore F} `{Platform} `{Pickle StateDict}
    `{Pickle (list (string * Metrics))} `{AgentLaws A} `{LLMErrors} (now : nat → string)
    (security_analyzer : option (Event → result ActionSecurityRisk))
    (w : World F) (c : Controller A) (es : list Event) (n : Z) :
  0 ≤ n → chain_mode true c → w_iteration_flag w = new_flag n 0 n →
  let f := w_iteration_flag (run_events now security_analyzer es (w, c)).1 in
  0 ≤ current_value f ≤ n ∧ max_value f ≤ n.
Proof.
  intros Hn Hc Hw f.
  destruct (run_events_safe now security_analyzer true es (w, c) Hc) as [(ops & Hops & Hf) _].
  pose proof (headless_no_increases true ops eq_refl Hops) as Hz.
  unfold f. rewrite Hf. cbn [fst]. rewrite Hw.
  pose proof (run_ops_wf ops _ (iter_wf_new n Hn)) as [_ Hcur _].
  pose proof (run_ops_max ops (new_flag n 0 n) Hn) as Hm. simpl in Hm. rewrite Hz in Hm. lia.
Qed.
