(* ===== verification/ExampleAgent.v ===== *)
(** * A scripted agent

    A concrete agent, its exceptions and a world in memory, on which the controller's
    definitions are evaluated. *)

From S2P Require Import Prelude PyValue ControlFlags Metrics Schema Actions Observations Events.
From S2P Require Import View Serialization FileStore EventStore ExamplePlatform EventStream.
From S2P Require Import EventStreamProps ConversationStats State StateTracker Stuck.
From S2P Require Import Replay Controller ControllerProps.
Local Open Scope Z_scope.
Local Open Scope py_scope.

(** An agent that issues the actions of a script, then none. *)
Record Scripted := mkScripted { script : list Event; script_config : AgentConfig }.

#[export] Instance scripted_agent : Agent Scripted := {
  agent_name _ := "Scripted";
  agent_config := script_config;
  agent_reset a := a;
  agent_system_message _ := None;
  agent_step := λ '(a, s, st),
    match script a with
    | [] => ((a, s, st), Ok None)
    | e :: l => ((mkScripted l (script_config a), s, st), Ok (Some e))
    end;
  agent_make name cfg := Ok (mkScripted [] cfg);
}.
#[export] Instance scripted_laws : AgentLaws Scripted.
Proof. intros [[|e l] cfg] s st; reflexivity. Qed.

#[export] Instance ex_errors : LLMErrors := {
  exc_is cls e := match e with
    | OtherError c _ => String.eqb c cls && negb (String.eqb c "AgentStuckInLoopError")
    | _ => false
    end;
  retries_exhausted _ := false;
}.
#[export] Instance ex_state_pickling : Pickle StateDict := ex_state_pickle (getstate default_State).
#[export] Instance ex_stats_pickling : Pickle (list (string * Metrics)) := ex_pickle.

Definition ex_now (n : nat) : string := "t" +:+ pretty (Z.of_nat n).
Definition ex_stats0 : ConversationStats := mkConversationStats "s" None [] [].
Definition ex_world (n : Z) : World InMemoryFileStore :=
  mkWorld (new_EventStream "s" (mkInMemoryFileStore []) None) ex_stats0 true 0 (new_flag n 0 n) None
    (new_Metrics "default") [].
Definition ex_agent_config : AgentConfig := mkAgentConfig true true false.
Definition ex_config (headless confirmation : bool) : ControllerConfig :=
  mkControllerConfig "s" (mkStateTracker (Some "s") true None) headless false [] 100 None
    (Some (λ _ _, Ok tt)) confirmation.
Definition ex_state (confirmation : bool) (state : AgentState) : State :=
  set_agent_state (set_initial_state "s" None None 100 None confirmation) state.
Definition ex_controller (headless confirmation : bool) (state : AgentState) (es : list Event) :
    Controller Scripted :=
  mkController (ex_config headless confirmation) (mkScripted es ex_agent_config)
    (ex_state confirmation state) None (new_ReplayManager None) None false None None.

Definition ex_edit : Event :=
  new_action (AFileEdit (mkFileEditAction "/w/a.py" "create" (Some "x") None None None "" 1 (-1) ""
    RISK_UNKNOWN EDIT_OH_ACI)).
Definition ex_cmd : Event :=
  new_action (ACmdRun (mkCmdRunAction "make" false "" false false None false CONFIRMED RISK_UNKNOWN)).
(** The answer to an action, as it comes from the stream. *)
Definition ex_answer (i cause : Z) : Event :=
  set_cause (Some cause) (set_id (Some i) (new_obs "ok" OSuccess)).

Definition ex_run (es : list Event) :=
  run_events (F := InMemoryFileStore) (A := Scripted) ex_now None es
    (ex_world 2, ex_controller true false RUNNING [ex_cmd; ex_cmd; ex_cmd; ex_cmd]).

Lemma headless_iteration_limit_witness :
  let x := ex_run [ex_msg 0 AGENT "go"; ex_answer 2 0; ex_msg 3 AGENT "go"; ex_answer 4 1;
                   ex_msg 5 AGENT "go"] in
  current_value (w_iteration_flag x.1) = 2 ∧ agent_state (c_state x.2) = ERROR
  ∧ 0 ≤ current_value (w_iteration_flag x.1) ≤ 2.
Proof.
  split; [vm_compute; reflexivity|]. split; [vm_compute; reflexivity|].
  refine (proj1 (headless_iteration_limit ex_now None (ex_world 2)
    (ex_controller true false RUNNING [ex_cmd; ex_cmd; ex_cmd; ex_cmd]) _ 2 _ _ _)).
  - lia.
  - done.
  - reflexivity.
Defined.
