(* ===== verification/ControllerSafety.v ===== *)
(** * What the controller's operations guarantee

    When the agent is consulted, where exceptions lead, confirmation, user messages
    and delegates; and where the code departs from its comments. *)

From S2P Require Import Prelude PyValue ControlFlags Metrics Schema Actions Observations Events.
From S2P Require Import View Serialization FileStore EventStore EventStream ConversationStats.
From S2P Require Import State StateTracker Stuck Replay Controller ControllerProps.
Local Open Scope Z_scope.
Local Open Scope py_scope.

(** Python's [RuntimeError] and the controller's own exception are no library errors. *)
Class LLMErrorsLaws `{LLMErrors} := {
  exc_is_runtime : ∀ cls m, exc_is cls (RuntimeError m) = false;
  exc_is_stuck : ∀ cls, exc_is cls AgentStuckInLoopError = false;
}.

Section safety.
#[local] Set Default Proof Using "Type".
Context `{FileStore F} `{Platform} `{Pickle StateDict} `{Pickle (list (string * Metrics))}.
Context `{Agent A} `{LLMErrorsLaws}.
Variable now : nat → string.
Variable security_analyzer : option (Event → result ActionSecurityRisk).
Notation ctl := (@ctl F A).
Implicit Types (w : World F) (c : Controller A).

(** ** What the emitting operations leave alone *)

(** The attributes a [_reset] may change aside, only the flags of the state object and
    its reference to the statistics may differ. *)
Definition quiet_state (s s' : State) : Prop :=
  agent_state s' = agent_state s ∧ history s' = history s ∧ last_error s' = last_error s
  ∧ confirmation_mode s' = confirmation_mode s ∧ outputs s' = outputs s
  ∧ start_id s' = start_id s ∧ end_id s' = end_id s.
Definition quiet_rel (x y : World F * Controller A) : Prop :=
  ∃ s', y.2 = set_c_state s' x.2 ∧ quiet_state (c_state x.2) s'.
(** The agent's state and its last error stay. *)
Definition state_rel (x y : World F * Controller A) : Prop :=
  agent_state (c_state y.2) = agent_state (c_state x.2)
  ∧ last_error (c_state y.2) = last_error (c_state x.2).

Lemma set_c_state_eta c : set_c_state (c_state c) c = c.
Proof. by destruct c. Qed.
#[local] Instance quiet_preorder : PreOrder quiet_rel.
Proof.
  split.
  - intros x. exists (c_state x.2). rewrite set_c_state_eta. unfold quiet_state. done.
  - intros x y z (s1 & E1 & Q1) (s2 & E2 & Q2). exists s2. rewrite E2, E1. split; [done|].
    rewrite E1 in Q2. unfold quiet_state in *. simpl in *. intuition congruence.
Qed.
#[local] Instance state_preorder : PreOrder state_rel.
Proof. split; [by intros x|]. intros x y z [] []. unfold state_rel. split; congruence. Qed.

Lemma quiet_state_rel {X} (m : ctl X) : within quiet_rel m → within state_rel m.
Proof. intros Hm x. destruct (Hm x) as (s' & E & Q). unfold state_rel. rewrite E. simpl. by destruct Q as (?&?&?&_). Qed.

Lemma quiet_emit e src : within quiet_rel (emit now e src).
Proof.
  intros [w c]. unfold emit, publish. destruct (add_event _ _ _) as [[st e'] r].
  exists (c_state c). simpl. by rewrite set_c_state_eta.
Qed.
Lemma quiet_on_state {X} (m : pyM State X) :
  (∀ s, quiet_state s (m s).1) → within quiet_rel (on_state m).
Proof.
  intros Hm [w c]. unfold on_state. specialize (Hm (with_shared w (c_state c))).
  destruct (m _) as [s r]. exists s. by split.
Qed.
Lemma quiet_on_files {X} (m : pyM (State * F) X) :
  (∀ s f, quiet_state s (m (s, f)).1.1) → within quiet_rel (on_files m).
Proof.
  intros Hm [w c]. unfold on_files.
  specialize (Hm (with_shared w (c_state c)) (es_file_store (st_store (w_stream w)))).
  destruct (m _) as [[s f] r]. exists s. by split.
Qed.
Lemma save_state_quiet t stats b s (f : F) : quiet_state s (save_state t stats b (s, f)).1.1.
Proof.
  unfold save_state, pbind. set (m := match truthy_str (tr_sid t) with Some _ => _ | None => _ end).
  assert (Hs : quiet_state s (m (s, f)).1.1).
  { unfold m. destruct (truthy_str _); [|done]. destruct (tr_has_store t); [|done].
    unfold save_to_session. by destruct (fs_write _ _ _) as [f' [[]|e]]. }
  destruct (m (s, f)) as [[s' f'] [[]|e]]; simpl in *; [|done].
  destruct (has_stats s'); [|done]. destruct b; [|done]. simpl. by destruct (fs_write _ _ f').
Qed.
Lemma quiet_save : within quiet_rel controller_save_state.
Proof. intros [w c]. apply (quiet_on_files _ (save_state_quiet _ _ _) (w, c)). Qed.
Lemma flags_quiet {X} (m : pyM (ControlFlag Z) X) m' s :
  quiet_state s ((on_iteration_flag m ;;; on_budget_flag m') s).1.
Proof.
  unfold pbind, on_iteration_flag. destruct (m _) as [f [x|e]]; [|done].
  unfold on_budget_flag. destruct (budget_flag _) as [b|]; [by destruct (m' b)|done].
Qed.
Lemma quiet_increase b : within quiet_rel (on_state (maybe_increase_control_flags_limits b)).
Proof. apply quiet_on_state. intros s. apply flags_quiet. Qed.
#[local] Hint Resolve quiet_emit quiet_save quiet_increase : ctl.
#[local] Hint Extern 2 (within state_rel _) => apply quiet_state_rel : ctl.

Lemma state_emit_pending src : within state_rel (emit_pending now src).
Proof.
  intros [w c]. unfold emit_pending, publish. destruct (c_pending_action c); [|done].
  by destruct (add_event _ _ _) as [[st e'] r].
Qed.
Lemma state_update f : (∀ c, c_state (f c) = c_state c) → within state_rel (update f).
Proof. intros Hf [w c]. split; simpl; by rewrite Hf. Qed.
#[local] Hint Resolve state_emit_pending : ctl.

Lemma state_reset : within state_rel (reset now).
Proof. unfold reset. repeat within_step; by apply state_update. Qed.
Lemma state_resolve s : within state_rel (resolve_pending now s).
Proof. unfold resolve_pending. repeat within_step; by apply state_update. Qed.
#[local] Hint Resolve state_reset state_resolve : ctl.

(** ** Changing the agent's state *)

(** The part of [set_agent_state_to] after the assignment. *)
Definition after_assignment (old_state new_state : AgentState) : ctl unit :=
  pwhen (agent_state_eqb new_state STOPPED || agent_state_eqb new_state ERROR) (reset now) ;;;
  (let* c := self in
   pwhen (agent_state_eqb old_state ERROR && agent_state_eqb new_state RUNNING)
     (on_state (maybe_increase_control_flags_limits (c_headless_mode (c_cfg c))))) ;;;
  pwhen (agent_state_eqb new_state USER_CONFIRMED || agent_state_eqb new_state USER_REJECTED)
    (resolve_pending now new_state) ;;;
  (let* s := get_state in
   emit now (new_obs "" (OAgentStateChanged (mkAgentStateChangedObservation (agent_state s)
           (if agent_state_eqb new_state ERROR then last_error s else "")))) ENVIRONMENT) ;;;
  controller_save_state.

Lemma set_agent_state_unfold new_state w c :
  set_agent_state_to now new_state (w, c)
  = if agent_state_eqb new_state (agent_state (c_state c)) then ((w, c), Ok tt)
    else after_assignment (agent_state (c_state c)) new_state
           (w, set_c_state (set_agent_state (with_shared w (c_state c)) new_state) c).
Proof.
  unfold set_agent_state_to. unfold pbind at 1, get_agent_state, get_state at 1, pbind at 1, pret at 1.
  cbv beta iota. change (agent_state (with_shared w (c_state c))) with (agent_state (c_state c)).
  destruct (agent_state_eqb new_state (agent_state (c_state c))); [done|].
  unfold pbind at 1, on_state at 1, pmodify. cbv beta iota.
  by destruct w.
Qed.

Lemma after_assignment_state old new : within state_rel (after_assignment old new).
Proof. unfold after_assignment. repeat within_step. Qed.

(** Whatever happens on the way, the agent is in the new state. *)
Lemma set_agent_state_final new_state x :
  agent_state (c_state (set_agent_state_to now new_state x).1.2) = new_state.
Proof.
  destruct x as [w c]. rewrite set_agent_state_unfold. destruct (agent_state_eqb _ _) eqn:E.
  - unfold agent_state_eqb in E. apply bool_decide_eq_true in E. by subst.
  - by destruct (after_assignment_state (agent_state (c_state c)) new_state
      (w, set_c_state (set_agent_state (with_shared w (c_state c)) new_state) c)) as [-> _].
Qed.

Lemma agent_state_eqb_refl a : agent_state_eqb a a = true.
Proof. unfold agent_state_eqb. by rewrite bool_decide_true. Qed.
Lemma agent_state_eqb_neq a b : a ≠ b → agent_state_eqb a b = false.
Proof. unfold agent_state_eqb. intros. by rewrite bool_decide_false. Qed.

(** The agent is only consulted when it may act: if its state is not [RUNNING], or
    an action is still pending, a step changes nothing at all, in the controller or in
    the world. *)
Theorem step_blocked w c :
  agent_state (c_state c) ≠ RUNNING ∨ c_pending_action c ≠ None →
  step_with_exception_handling now security_analyzer (w, c) = ((w, c), Ok tt).
Proof.
  intros Hb. unfold step_with_exception_handling, pcatch, step.
  unfold pbind, get_agent_state, get_state, self, pbind, pret. cbv beta iota.
  change (agent_state (with_shared w (c_state c))) with (agent_state (c_state c)).
  destruct Hb as [Hs|Hp].
  - by rewrite (agent_state_eqb_neq _ _ Hs).
  - destruct (negb _); [done|]. by destruct (c_pending_action c).
Qed.

(** ** Exceptions *)

Lemma pbind_final {X Y} (P : World F * Controller A → Prop) (m : ctl X) (k : X → ctl Y) x :
  (∀ e, (m x).2 = Raise e → P (m x).1) → (∀ a y, P (k a y).1) → P (pbind m k x).1.
Proof.
  intros Hm Hk. unfold pbind. destruct (m x) as [y [a|e]]; simpl in *; [apply Hk|by eapply Hm].
Qed.

(** The status callback does not raise. *)
Definition callback_ok (c : Controller A) : Prop :=
  ∀ f, c_status_callback (c_cfg c) = Some f → ∀ status msg, f status msg = Ok tt.
(** A rate limit that is still being retried: it is told from other errors only where there
    is a callback. *)
Definition still_retrying (c : Controller A) (e : py_exc) : bool :=
  bool_decide (is_Some (c_status_callback (c_cfg c))) && bool_decide (special_status e = None)
  && exc_is "RateLimitError" e && negb (retries_exhausted e).

Lemma set_error_ok m w (c : Controller A) : ∃ w1 s1, set_error m (w, c) = ((w1 : World F, set_c_state s1 c), Ok tt).
Proof. by eexists _, _. Qed.
Lemma call_status_ok f st (x : World F * Controller A) : (∀ msg, f st msg = Ok tt) → ∃ y, call_status f st x = (y, Ok tt).
Proof. intros Hf. destruct x as [w c]. unfold call_status, pbind, get_state. rewrite Hf. by eexists. Qed.
Lemma react_final e x :
  callback_ok x.2 →
  agent_state (c_state (react_to_exception now e x).1.2) = if still_retrying x.2 e then RATE_LIMITED else ERROR.
Proof.
  destruct x as [w c]. intros Hcb. unfold still_retrying, react_to_exception.
  destruct (set_error_ok (exc_name e +:+ ": " +:+ exc_str e) w c) as (w1 & s1 & E1). rewrite (pbind_ok _ _ _ _ _ E1).
  rewrite (pbind_ok self _ (w1, set_c_state s1 c) (w1, set_c_state s1 c) (set_c_state s1 c) eq_refl). change (c_cfg (set_c_state s1 c)) with (c_cfg c). cbn [snd].
  destruct (c_status_callback (c_cfg c)) as [f|] eqn:Ef.
  2: { rewrite bool_decide_false by (by intros [? ?]). apply set_agent_state_final. }
  rewrite bool_decide_true by by eexists. destruct (special_status e) as [status|].
  - rewrite bool_decide_false by done. destruct (set_error_ok status w1 (set_c_state s1 c)) as (w2 & s2 & E2).
    rewrite (pbind_ok _ _ _ _ _ E2).
    destruct (call_status_ok f status (w2, set_c_state s2 (set_c_state s1 c)) (Hcb f Ef status)) as [y E3].
    rewrite (pbind_ok _ _ _ _ _ E3). apply set_agent_state_final.
  - rewrite bool_decide_true by done. destruct (exc_is "RateLimitError" e); cbn [andb].
    + destruct (retries_exhausted e); [|apply set_agent_state_final].
      match goal with |- context [set_error ?m ;;; _] => destruct (set_error_ok m w1 (set_c_state s1 c)) as (w2 & s2 & E2) end.
      rewrite (pbind_ok _ _ _ _ _ E2). apply set_agent_state_final.
    + destruct (call_status_ok f "STATUS$ERROR" (w1, set_c_state s1 c) (Hcb f Ef _)) as [y E3].
      rewrite (pbind_ok _ _ _ _ _ E3). apply set_agent_state_final.
Qed.

Lemma set_agent_state_last_error new_state x :
  last_error (c_state (set_agent_state_to now new_state x).1.2) = last_error (c_state x.2).
Proof.
  destruct x as [w c]. rewrite set_agent_state_unfold. destruct (agent_state_eqb _ _); [done|].
  by destruct (after_assignment_state (agent_state (c_state c)) new_state
    (w, set_c_state (set_agent_state (with_shared w (c_state c)) new_state) c)) as [_ ->].
Qed.

(** An ordinary exception is remembered under its name and text. *)
Lemma react_last_error e x : (∀ cls, exc_is cls e = false) →
  last_error (c_state (react_to_exception now e x).1.2) = exc_name e +:+ ": " +:+ exc_str e.
Proof.
  intros He. destruct x as [w c]. unfold react_to_exception, special_status. rewrite !He. cbn [orb andb].
  unfold pbind at 1, set_error, on_state at 1, pmodify. cbv beta iota. unfold pbind at 1, self. cbv beta iota.
  destruct (c_status_callback _) as [f|]; [|apply set_agent_state_last_error].
  unfold pbind at 1, call_status, pbind at 1, get_state at 1. cbv beta iota.
  destruct (f _ _) as [[]|]; [apply set_agent_state_last_error|done].
Qed.

(** C23 A failing step never leaves the agent running, if the status callback does not raise:
    whatever exception a step ends with, [_step_with_exception_handling] leaves the agent in
    the state [RATE_LIMITED] if the exception is a rate limit of the LLM with retries left
    (and there is a callback), and in the state [ERROR] in every other case; this also holds
    when publishing the error or saving the state fails in turn. *)
Theorem failed_step_stops w c x (e : py_exc) :
  step now security_analyzer (w, c) = (x, Raise e) → callback_ok x.2 →
  let c' := (step_with_exception_handling now security_analyzer (w, c)).1.2 in
  agent_state (c_state c') = if still_retrying x.2 e then RATE_LIMITED else ERROR.
Proof using All.
  intros Hs Hcb c'. unfold c', step_with_exception_handling, pcatch. rewrite Hs.
  destruct (reported_as_is e) eqn:Hr; [by apply react_final|]. rewrite react_final by done. unfold still_retrying.
  rewrite exc_is_runtime, andb_false_r. cbn [andb].
  assert (exc_is "RateLimitError" e = false) as ->; [|by rewrite andb_false_r].
  unfold reported_as_is in Hr. cbn [existsb] in Hr. rewrite !orb_false_iff in Hr. tauto.
Qed.

(** ** Limits *)

(** The agent was at most reset, and the iteration flag stays. *)
Definition idle_rel (x y : World F * Controller A) : Prop :=
  (∃ n, c_agent y.2 = Nat.iter n agent_reset (c_agent x.2))
  ∧ w_iteration_flag y.1 = w_iteration_flag x.1.
#[local] Instance idle_preorder : PreOrder idle_rel.
Proof.
  split.
  - intros x. split; [by exists 0%nat|done].
  - intros x y z [[n Hn] Hf] [[m Hm] Hg]. split; [|congruence]. exists (m + n)%nat.
    by rewrite Nat.iter_add, <- Hn.
Qed.
Lemma idle_emit e src : within idle_rel (emit now e src).
Proof.
  intros [w c]. unfold emit, publish. destruct (add_event _ _ _) as [[st e'] r].
  split; [by exists 0%nat|done].
Qed.
Lemma idle_save : within idle_rel controller_save_state.
Proof.
  intros [w c]. unfold controller_save_state, on_files.
  pose proof (save_state_flag (c_tracker (c_cfg c)) (w_stats w) (w_stats_store w)
    (with_shared w (c_state c)) (es_file_store (st_store (w_stream w)))) as Hf.
  destruct (save_state _ _ _ _) as [[s f] r]. split; [by exists 0%nat|]. exact Hf.
Qed.
Lemma idle_reset : within idle_rel (reset now).
Proof.
  unfold reset. apply within_bind; [apply _|apply within_self, _|]. intros c.
  apply within_bind; [apply _|apply within_get_state, _|]. intros s. apply within_bind; [apply _| |].
  - destruct (c_pending_action c); [|apply within_ret, _].
    destruct (existsb _ _); [apply within_ret, _|apply idle_emit].
  - intros _ [w c']. split; [by exists 1%nat|done].
Qed.
Lemma idle_set_error m : within idle_rel (set_error m).
Proof. intros [w c]. split; [by exists 0%nat|done]. Qed.
Lemma idle_call_status f m : within idle_rel (call_status f m).
Proof. intros [w c]. split; [by exists 0%nat|done]. Qed.
#[local] Hint Resolve idle_emit idle_save idle_reset idle_set_error idle_call_status : ctl.

Lemma idle_set_ERROR : within idle_rel (set_agent_state_to now ERROR).
Proof.
  intros [w c]. rewrite set_agent_state_unfold. destruct (agent_state_eqb _ _); [reflexivity|].
  set (y := (w, set_c_state (set_agent_state (with_shared w (c_state c)) ERROR) c)).
  transitivity y; [split; [by exists 0%nat|done]|]. generalize y.
  change (within idle_rel (after_assignment (agent_state (c_state c)) ERROR)).
  unfold after_assignment. rewrite (agent_state_eqb_neq ERROR RUNNING), andb_false_r by done.
  rewrite (agent_state_eqb_neq ERROR USER_CONFIRMED), (agent_state_eqb_neq ERROR USER_REJECTED) by done.
  cbn [orb]. repeat within_step.
Qed.
#[local] Hint Resolve idle_set_ERROR : ctl.

Lemma idle_react e : (∀ cls, exc_is cls e = false) → within idle_rel (react_to_exception now e).
Proof.
  intros He. unfold react_to_exception, special_status. rewrite !He. cbn [orb andb].
  repeat within_step.
Qed.
Lemma react_ERROR e x : (∀ cls, exc_is cls e = false) → callback_ok x.2 →
  agent_state (c_state (react_to_exception now e x).1.2) = ERROR.
Proof. intros He Hcb. rewrite react_final by done. unfold still_retrying. by rewrite He, andb_false_r. Qed.

Lemma run_flags_limit s : max_value (iteration_flag s) ≤ current_value (iteration_flag s) →
  run_control_flags s = (set_iteration_flag s (set_hit true (iteration_flag s)),
    Raise (RuntimeError (Iter.limit_message (iteration_flag s)))).
Proof. intros Hl. unfold run_control_flags, pbind, on_iteration_flag. by rewrite iter_step_raise. Qed.

Lemma is_stuck_total headless h old : ∃ a b, is_stuck headless h old = (a, Ok b).
Proof.
  unfold is_stuck. destruct (history_to_check headless h) as [l n].
  destruct (Nat.ltb _ 3); [by exists old, false|]. by eexists _, _.
Qed.
Lemma is_stuck_chain_keeps : ∀ c, ∃ c' b, is_stuck_chain c = (c', Ok b)
  ∧ c_agent c' = c_agent c ∧ c_state c' = c_state c ∧ c_cfg c' = c_cfg c.
Proof.
  fix IH 1. intros [cfg ag s st rp p cl fu [d|]]; cbn [is_stuck_chain c_delegate].
  - destruct (IH d) as (d' & b & -> & _). destruct b; [by eexists _, _|].
    cbn. destruct (is_stuck_total (c_headless_mode cfg) (history s) st) as (x & b & ->).
    by eexists _, _.
  - cbn. destruct (is_stuck_total (c_headless_mode cfg) (history s) st) as (x & b & ->).
    by eexists _, _.
Qed.

(** C24 At the iteration limit the agent is not consulted: a step of a running agent without
    a pending action, whose counter has reached the limit and whose status callback does
    not raise, puts it into the state [ERROR], does not count further, and touches the agent
    only to reset it, whether the limit or the stuck detector stops it. *)
Theorem limit_stops_agent w c :
  agent_state (c_state c) = RUNNING → c_pending_action c = None → callback_ok c →
  max_value (w_iteration_flag w) ≤ current_value (w_iteration_flag w) →
  let '((w', c'), r) := step now security_analyzer (w, c) in
  agent_state (c_state c') = ERROR
  ∧ (∃ n, c_agent c' = Nat.iter n agent_reset (c_agent c))
  ∧ current_value (w_iteration_flag w') = current_value (w_iteration_flag w).
Proof using All.
  intros Hr Hp Hcb Hl.
  set (ok := λ y : World F * Controller A, agent_state (c_state y.2) = ERROR
    ∧ (∃ n, c_agent y.2 = Nat.iter n agent_reset (c_agent c))
    ∧ current_value (w_iteration_flag y.1) = current_value (w_iteration_flag w)).
  enough (Hok : ok (step now security_analyzer (w, c)).1)
    by (by destruct (step now security_analyzer (w, c)) as [[w' c'] r]).
  assert (Hreact : ∀ e y, (∀ cls, exc_is cls e = false) → c_agent y.2 = c_agent c → c_cfg y.2 = c_cfg c →
    current_value (w_iteration_flag y.1) = current_value (w_iteration_flag w) →
    ok (react_to_exception now e y).1).
  { intros e y He Ha Hc Hf. split; [apply react_ERROR; [done|]; unfold callback_ok; by rewrite Hc|].
    destruct (idle_react e He y) as [Hn ->]. by rewrite Ha in Hn. }
  unfold step. unfold pbind at 1, get_agent_state at 1, get_state at 1, pbind at 1, pret at 1.
  unfold pbind at 1, self at 1. cbv beta iota.
  change (agent_state (with_shared w (c_state c))) with (agent_state (c_state c)).
  rewrite Hr, agent_state_eqb_refl, Hp. cbn [negb].
  unfold pbind at 1, on_state at 1, pmodify at 1. cbv beta iota.
  set (s1 := sync_budget_flag_with_metrics (w_stats w) (with_shared w (c_state c))).
  assert (Hs1 : iteration_flag s1 = w_iteration_flag w) by apply sync_flag.
  set (w1 := save_shared s1 w). set (c1 := set_c_state s1 c).
  assert (Hstuck : ∃ c2 b, (if enable_stuck_detection (agent_config (c_agent c))
      then controller_is_stuck else pret false) (w1, c1) = ((w1, c2), Ok b)
    ∧ c_agent c2 = c_agent c ∧ c_state c2 = s1 ∧ c_cfg c2 = c_cfg c).
  { destruct (enable_stuck_detection _); [|by exists c1, false].
    unfold controller_is_stuck. destruct (is_stuck_chain_keeps c1) as (c2 & b & -> & Ha & Hs & Hc).
    by exists c2, b. }
  destruct Hstuck as (c2 & b & Hst & Ha & Hs2 & Hc2). rewrite (pbind_ok _ _ _ _ _ Hst). destruct b.
  { apply Hreact; [apply exc_is_stuck|done|done|]. simpl. by rewrite Hs1. }
  unfold pbind at 1, pcatch, pbind at 1, on_state at 1. rewrite run_flags_limit.
  2:{ rewrite Hs2. simpl. by rewrite Hs1. }
  unfold pret at 1. cbv beta iota. apply Hreact; [intros cls; apply exc_is_runtime|done|done|].
  simpl. by rewrite Hs1.
Qed.

(** ** Confirmation *)

(** States that neither reset the controller nor settle a confirmation. *)
Definition plain_state (s : AgentState) : bool :=
  negb (existsb (agent_state_eqb s) [STOPPED; ERROR; USER_CONFIRMED; USER_REJECTED]).

Lemma quiet_after_assignment old new :
  plain_state new = true → within quiet_rel (after_assignment old new).
Proof.
  unfold plain_state. intros Hn. apply negb_true_iff in Hn. cbn [existsb] in Hn.
  rewrite !orb_false_iff in Hn. destruct Hn as (E1 & E2 & E3 & E4 & _).
  unfold after_assignment. rewrite E1, E2, E3, E4. cbn [orb]. repeat within_step.
Qed.

(** Such a change of state leaves everything but the state object alone. *)
Lemma plain_set_agent_state new x :
  plain_state new = true →
  ∃ s', (set_agent_state_to now new x).1.2 = set_c_state s' x.2 ∧ agent_state s' = new
    ∧ history s' = history (c_state x.2).
Proof.
  intros Hn. destruct x as [w c]. pose proof (set_agent_state_final new (w, c)) as Hf.
  rewrite set_agent_state_unfold in *. destruct (agent_state_eqb _ _).
  - exists (c_state c). by rewrite set_c_state_eta.
  - destruct (quiet_after_assignment (agent_state (c_state c)) new Hn
      (w, set_c_state (set_agent_state (with_shared w (c_state c)) new) c)) as (s' & E & Q).
    exists s'. rewrite E in *. split; [done|]. split; [done|]. by destruct Q as (_ & -> & _).
Qed.

(** Publishing an event changes none of its fields. *)
Lemma add_event_keeps t src (st : EventStream F) e :
  let e' := (add_event t src (st, e)).1.2 in
  ev_body e' = ev_body e ∧ event_confirmation e' = event_confirmation e.
Proof.
  cbv zeta.
  unfold add_event. destruct (negb _); [done|].
  destruct (on_store cur_id st) as [st' [i|x]]; [|done].
  match goal with |- context [match ?r with Ok _ => _ | Raise _ => _ end] => destruct r as [[d copy]|x] end;
    [|done].
  match goal with |- context [let '(s, r) := ?m in _] => destruct m end. done.
Qed.

(** An action of a checked class with the risk the analyzer gives it. *)
Lemma needs_check_analyzed e :
  needs_check e = true →
  needs_check (handle_security_analyzer security_analyzer e) = true
  ∧ (security_analyzer = None → event_risk (handle_security_analyzer security_analyzer e) = RISK_UNKNOWN).
Proof.
  destruct e as [m [a|o]]; [|done]. intros He. unfold handle_security_analyzer.
  destruct a as [|[]|[]|[]|[]|[]|[]|[]|[]|[]|[]|[]|[]|[]|[]|[]|[]|[]| |[]|[]]; try done;
    (destruct security_analyzer as [f|]; [|done]); cbn [ev_body get_security_risk];
    (split; [|done]); by destruct (f _).
Qed.

Lemma needs_check_runnable e :
  needs_check e = true →
  match ev_body e with EAction a => runnable a | _ => false end = true
  ∧ isinstance (set_event_confirmation AWAITING_CONFIRMATION e) (CActionClass T_NULL) = false
  ∧ is_action e = true.
Proof.
  destruct e as [m [a|o]]; [|done].
  by destruct a as [|[]|[]|[]|[]|[]|[]|[]|[]|[]|[]|[]|[]|[]|[]|[]|[]|[]| |[]|[]].
Qed.

(** When the confirmation block marks an action. *)
Lemma confirm_marks cli e :
  needs_check e = true →
  cli = true ∨ security_analyzer = None
    ∨ event_risk (handle_security_analyzer security_analyzer e) = RISK_HIGH →
  confirm security_analyzer cli true e
  = set_event_confirmation AWAITING_CONFIRMATION (handle_security_analyzer security_analyzer e).
Proof.
  intros He Hrisk. unfold confirm. destruct cli; [done|]. destruct Hrisk as [?|[Hn|Hhigh]]; [done|..].
  - destruct (needs_check_analyzed e He) as [_ Hu]. rewrite (Hu Hn).
    rewrite Hn. reflexivity.
  - rewrite Hhigh. by rewrite bool_decide_true.
Qed.

(** The controller waits for the user, with the action marked as unconfirmed. *)
Definition awaiting (y : World F * Controller A) : Prop :=
  agent_state (c_state y.2) = AWAITING_USER_CONFIRMATION
  ∧ ∃ p, c_pending_action y.2 = Some p ∧ event_confirmation p = Some AWAITING_CONFIRMATION.

Lemma awaiting_emit src y : awaiting y → awaiting (emit_pending now src y).1.
Proof.
  intros [Hs (p & Hp & Hc)]. destruct y as [w c]. unfold emit_pending, publish. cbn [snd] in Hs, Hp.
  rewrite Hp. destruct (add_event_keeps (now (w_clock w)) src (w_stream w) p) as [_ Hc'].
  destruct (add_event _ _ _) as [[st e'] r]. split; [exact Hs|]. exists e'. cbn [fst snd] in *. split; [done|congruence].
Qed.

(** C9 In confirmation mode (of the state and of the controller) a risky action waits: when
    the agent issues a command, a cell, an interactive browser action, a file edit or a file
    read, and the agent runs in the CLI's mode, or there is no security analyzer, or the
    analyzer finds the risk high, the step ends with the controller in
    [AWAITING_USER_CONFIRMATION] and the action pending and marked [AWAITING_CONFIRMATION];
    and so it does when publishing or saving fails.  (Outside of the CLI's mode an analyzer
    that raises, or finds the risk low, medium or unknown, lets the action run.) *)
Theorem risky_action_awaits w c (e : Event) :
  needs_check e = true → confirmation_mode (c_state c) = true →
  c_confirmation_mode (c_cfg c) = true →
  cli_mode (agent_config (c_agent c)) = true ∨ security_analyzer = None
    ∨ event_risk (handle_security_analyzer security_analyzer e) = RISK_HIGH →
  awaiting (perform now security_analyzer e (w, c)).1.
Proof.
  intros He Hs Hc Hrisk. unfold perform.
  unfold pbind at 1, get_state at 1, pbind at 1, self at 1. cbv beta iota.
  change (confirmation_mode (with_shared w (c_state c))) with (confirmation_mode (c_state c)).
  destruct (needs_check_runnable e He) as [-> _]. rewrite Hs, He, Hc. cbn [andb].
  rewrite confirm_marks by done.
  destruct (needs_check_analyzed e He) as [He' _]. set (e1 := handle_security_analyzer _ e) in *.
  destruct (needs_check_runnable e1 He') as (_ & -> & Ha).
  set (e2 := set_event_confirmation AWAITING_CONFIRMATION e1).
  pose proof (set_event_confirmation_get AWAITING_CONFIRMATION e1 Ha) as He2. fold e2 in He2.
  rewrite He2, bool_decide_true by done. unfold pbind at 1, pwhen, update at 1. cbv beta iota.
  set (x := (w, set_c_pending (Some e2) c)).
  destruct (plain_set_agent_state AWAITING_USER_CONFIRMATION x eq_refl) as (s' & Hset & Hst & _).
  assert (Hx : awaiting (set_agent_state_to now AWAITING_USER_CONFIRMATION x).1).
  { unfold awaiting. rewrite Hset. split; [done|]. by exists e2. }
  unfold pbind at 1. destruct (set_agent_state_to _ _ x) as [[w2 c2] [[]|er]]; [|exact Hx].
  unfold pbind at 1, get_state at 1. cbv beta iota. unfold pbind at 1.
  destruct (frontend_metrics _ _) as [m|er]; [|exact Hx].
  destruct (event_source _) as [src|]; [|exact Hx].
  unfold pbind at 1, update. cbv beta iota. apply awaiting_emit.
  destruct Hx as [Hx _]. split; [exact Hx|]. by exists (set_llm_metrics (Some m) e2).
Qed.

(** Without confirmation mode, an action the agent did not mark does not wait. *)
Lemma perform_unmarked w c e :
  confirmation_mode (c_state c) = false → event_confirmation e ≠ Some AWAITING_CONFIRMATION →
  agent_state (c_state (perform now security_analyzer e (w, c)).1.2) = agent_state (c_state c).
Proof.
  intros Hs He. unfold perform. unfold pbind at 1, get_state at 1, pbind at 1, self at 1. cbv beta iota.
  change (confirmation_mode (with_shared w (c_state c))) with (confirmation_mode (c_state c)).
  rewrite Hs, andb_false_r. cbn [andb]. rewrite bool_decide_false by done.
  match goal with |- agent_state (c_state (?m ?x).1.2) = _ =>
    enough (Hw : within state_rel m) by exact (proj1 (Hw x)) end.
  repeat within_step; try (by apply state_update).
  intros [w' c']. reflexivity.
Qed.

(** ** Delegates *)

Definition born_rel (x y : World F * Controller A) : Prop :=
  c_cfg y.2 = c_cfg x.2 ∧ confirmation_mode (c_state y.2) = confirmation_mode (c_state x.2)
  ∧ delegate_level (c_state y.2) = delegate_level (c_state x.2)
  ∧ agent_state (c_state y.2) = agent_state (c_state x.2).
#[local] Instance born_preorder : PreOrder born_rel.
Proof. split; [by intros x|]. intros x y z (?&?&?&?) (?&?&?&?). unfold born_rel. split_and!; congruence. Qed.
Lemma born_emit e src : within born_rel (emit now e src).
Proof.
  intros [w c]. unfold emit, publish. by destruct (add_event _ _ _) as [[st e'] r].
Qed.
Lemma born_on_stream {X} (m : pyM (EventStream F) X) : within born_rel (on_stream m).
Proof. intros [w c]. unfold on_stream. by destruct (m _). Qed.
Lemma born_init_history : within born_rel (on_reader init_history).
Proof.
  intros [w c]. unfold on_reader, init_history.
  destruct (fetch_bounds _ _) as [r' [[a b]|e]]; [|done]. destruct (_ <? _); [done|].
  destruct (reader_search _ _ _ _ _ _) as [r2 [l|e]]; [|done]. by destruct (hide_delegations _ _).
Qed.
#[local] Hint Resolve born_emit born_on_stream born_init_history : ctl.

(** Delegates do not ask for confirmation: whatever the mode of the parent, the
    controller of a delegate starts with confirmation mode off, in its state and in
    its own attribute, so an action of the delegate, a command say, that the agent did
    not itself mark goes out without the controller waiting for the user. *)
Theorem delegate_unconfirmed w c w' c' (a : AgentDelegateAction) :
  start_delegate now a (w, c) = ((w', c'), Ok tt) →
  ∃ d, c_delegate c' = Some d ∧ c_confirmation_mode (c_cfg d) = false
    ∧ delegate_level (c_state d) = delegate_level (c_state c) + 1
    ∧ ∀ w2 e, event_confirmation e ≠ Some AWAITING_CONFIRMATION →
        agent_state (c_state (perform now security_analyzer e (w2, d)).1.2) = LOADING.
Proof.
  unfold start_delegate, pbind, self, plift. destruct (agent_make _ _) as [agent|e]; [|done].
  unfold get_state, on_stream. destruct (reader_latest_event_id _) as [stm [latest|e]]; [|done].
  unfold init_controller. change (c_is_delegate (delegate_config c)) with true. cbn [negb].
  set (s := set_initial_state _ _ _ _ _ _). set (c0 := mkController _ _ s _ _ _ _ _ _).
  set (w1 := set_w_stream stm w).
  assert (Hb : within born_rel (on_reader init_history ;;; add_system_message now)).
  { unfold add_system_message. repeat within_step. }
  specialize (Hb (save_shared s w1, c0)). unfold pwhen, pret. unfold pbind at 1 2. cbv beta iota.
  destruct (pbind (on_reader init_history) _ (save_shared s w1, c0)) as [[w2 d] [[]|e]]; [|done].
  cbn [rbind]. intros [= <- <-]. exists d. destruct Hb as (Hcfg & Hconf & Hlev & Hst).
  cbn [fst snd] in Hcfg, Hconf, Hlev, Hst. rewrite Hcfg, Hlev. subst c0.
  assert (Hs : confirmation_mode s = false ∧ delegate_level s = delegate_level (c_state c) + 1
               ∧ agent_state s = LOADING)
    by (unfold s, set_initial_state; destruct (_ <=? -1); done).
  destruct Hs as (Hs1 & Hs2 & Hs3). split; [done|]. split; [done|]. split; [done|].
  intros w3 e He. rewrite perform_unmarked; [|by rewrite Hconf|done]. by rewrite Hst.
Qed.
End safety.
