(* ===== verification/ControllerEvents.v ===== *)
(** * Events and delegates

    What the controller makes of user messages, observations and delegations, and
    departures from the comments: in the text that keeps a delegate alive, in the
    confirmation of delegated and published actions, in [_reset] and in loop
    recovery. *)

From S2P Require Import Prelude PyValue ControlFlags Metrics Schema Actions Observations Events.
From S2P Require Import View Serialization SerializationProps FileStore EventStore.
From S2P Require Import EventStore ExamplePlatform EventStream EventStreamProps.
From S2P Require Import ConversationStats State StateTracker Stuck Replay.
From S2P Require Import Controller ControllerProps ExampleAgent ControllerSafety.
Local Open Scope Z_scope.
Local Open Scope py_scope.

Section events.
Context `{FileStore F} `{Platform} `{Pickle StateDict} `{Pickle (list (string * Metrics))}.
Context `{Agent A} `{LLMErrors}.
Variable now : nat → string.
Variable security_analyzer : option (Event → result ActionSecurityRisk).
Implicit Types (w : World F) (c : Controller A).

(** ** User messages *)

Lemma message_in_history e a : ev_body e = EAction (AMessage a) →
  event_hidden e = false ∧ in_history e = true.
Proof. destruct e as [m b]. simpl. intros ->. done. Qed.

Lemma first_user_message_keeps w c w' c' r :
  first_user_message (w, c) = ((w', c'), Ok r) →
  c_agent c' = c_agent c ∧ c_state c' = c_state c ∧ c_delegate c' = c_delegate c.
Proof.
  unfold first_user_message, pbind at 1, self. cbv beta iota.
  destruct (c_cached_first_user_message c); [by intros [= <- <- <-]|].
  unfold pbind at 1, get_state. cbv beta iota. unfold pbind at 1, on_stream.
  destruct (on_store _ _) as [st [x|e]]; [|done]. by intros [= <- <- <-].
Qed.

Lemma emit_pending_keeps src w c w' c' p :
  c_pending_action c = Some p → emit_pending now src (w, c) = ((w', c'), Ok tt) →
  ∃ p', c' = set_c_pending (Some p') c ∧ ev_body p' = ev_body p.
Proof.
  unfold emit_pending, publish. intros ->.
  destruct (add_event_keeps (now (w_clock w)) src (w_stream w) p) as [Hb _].
  destruct (add_event _ _ _) as [[st e'] r]. intros Heq. injection Heq as _ <- _. by exists e'.
Qed.

(** A user message wakes the agent up, but not before the memory has answered:
    after a controller without delegate has handled it without an exception, the
    message is at the end of the history, the agent is [RUNNING] and a recall for the
    text of the message is pending, so that the agent itself has not been consulted
    although [should_step] said yes. *)
Theorem user_message_recalls w c w' c' (e : Event) (a : MessageAction) :
  ev_body e = EAction (AMessage a) → event_source e = Some USER → c_delegate c = None →
  handle_event now security_analyzer e (w, c) = ((w', c'), Ok tt) →
  agent_state (c_state c') = RUNNING ∧ history (c_state c') = history (c_state c) ++ [e]
  ∧ c_agent c' = c_agent c
  ∧ ∃ p t, c_pending_action c' = Some p
           ∧ ev_body p = EAction (ARecall (mkRecallAction t (ma_content a) "")).
Proof.
  intros Hb Hsrc Hd. destruct (message_in_history e a Hb) as [Hh Hi].
  unfold handle_event. rewrite Hh, Hb. cbn [handle_action].
  unfold pbind at 1, on_state at 1, add_history. rewrite include_history, Hi. cbv beta iota.
  set (s1 := set_history _ _). intros ([w1 c1] & [] & Hm & Hrest)%pbind_ok_inv.
  unfold handle_message_action in Hm. rewrite Hsrc, bool_decide_true in Hm by done.
  apply pbind_ok_inv in Hm as ([w2 c2] & first & Hf & Hm).
  apply first_user_message_keeps in Hf as (Ha2 & Hs2 & Hd2).
  apply pbind_ok_inv in Hm as ([w3 c3] & [] & [= <- <-] & Hm).
  apply pbind_ok_inv in Hm as ([w4 c4] & [] & Hem & Hm).
  eapply emit_pending_keeps in Hem as (p & -> & Hp); [|reflexivity].
  assert (Hend : ∃ s', c1 = set_c_state s' (set_c_pending (Some p) c2) ∧ agent_state s' = RUNNING
                       ∧ history s' = history (c_state c) ++ [e]).
  { unfold pbind at 1, get_agent_state, get_state, pbind, pret in Hm. cbv beta iota in Hm.
    unfold pwhen in Hm. destruct (negb _) eqn:Hn.
    - destruct (plain_set_agent_state now RUNNING (w4, set_c_pending (Some p) (set_c_pending (Some
        (new_action (ARecall (mkRecallAction (if match first with Some f => event_id e =? event_id f
          | None => false end then WORKSPACE_CONTEXT else KNOWLEDGE) (ma_content a) "")))) c2)) eq_refl)
        as (s' & Hset & Hrun & Hhist).
      rewrite Hm in Hset. simpl in Hset. exists s'. split; [done|]. split; [done|].
      rewrite Hhist. simpl. by rewrite Hs2.
    - injection Hm as <- <-. exists (c_state c2). split; [by destruct c2|].
      rewrite Hs2. split; [|done]. apply negb_false_iff in Hn.
      simpl in Hn. rewrite Hs2 in Hn. by apply bool_decide_eq_true in Hn. }
  destruct Hend as (s' & -> & Hrun & Hhist).
  unfold pbind, self in Hrest. unfold pwhen in Hrest.
  assert (Hc' : c' = set_c_state s' (set_c_pending (Some p) c2)).
  { destruct (should_step _ _); [|by injection Hrest].
    rewrite step_blocked in Hrest by by right. by injection Hrest. }
  subst c'. simpl. split_and!; [done|done|done|]. exists p. eexists. split; [done|exact Hp].
Qed.

(** ** Observations *)

(** The answer to the pending action releases the controller: an observation whose
    cause is the pending action clears it, and an agent in [USER_CONFIRMED] runs
    again, one in [USER_REJECTED] waits for the user and every other one stays in its
    state, also when publishing or saving fails; but while the user is asked for
    confirmation nothing changes. *)
Theorem observation_releases w c (e p : Event) :
  c_pending_action c = Some p → event_cause e = Some (event_id p) →
  let c' := (handle_observation now e (w, c)).1.2 in
  if agent_state_eqb (agent_state (c_state c)) AWAITING_USER_CONFIRMATION then c' = c
  else c_pending_action c' = None
       ∧ agent_state (c_state c')
         = match agent_state (c_state c) with
           | USER_CONFIRMED => RUNNING
           | USER_REJECTED => AWAITING_USER_INPUT
           | s => s
           end.
Proof.
  intros Hp He c'. unfold c'. clear c'. generalize (eq_refl (handle_observation now e (w, c))).
  generalize (handle_observation now e (w, c)) at 2 3 4 5. intros y Hy.
  unfold handle_observation in Hy. unfold pbind at 1, self in Hy. cbv beta iota in Hy.
  rewrite Hp, He, bool_decide_true in Hy by done.
  unfold pbind at 1, get_agent_state at 1, get_state at 1 in Hy.
  unfold pbind at 1, pret at 1 in Hy. cbv beta iota in Hy.
  change (agent_state (with_shared w (c_state c))) with (agent_state (c_state c)) in Hy.
  destruct (agent_state_eqb (agent_state (c_state c)) AWAITING_USER_CONFIRMATION) eqn:Ew;
    [by rewrite <- Hy|].
  unfold pbind at 1, update at 1 in Hy. cbv beta iota in Hy. set (x := (w, set_c_pending None c)) in Hy.
  assert (Hplain : ∀ s z, plain_state s = true → c_pending_action z.2 = None →
    c_pending_action (set_agent_state_to now s z).1.2 = None
    ∧ agent_state (c_state (set_agent_state_to now s z).1.2) = s).
  { intros s z Hpl Hn. destruct (plain_set_agent_state now s z Hpl) as (s' & -> & Hs & _).
    by split. }
  destruct (agent_state_eqb (agent_state (c_state c)) USER_CONFIRMED) eqn:Ec.
  - apply bool_decide_eq_true in Ec. rewrite Ec. cbn [pwhen] in Hy. unfold pbind at 1 in Hy.
    destruct (Hplain RUNNING x eq_refl eq_refl) as [Hn Hr].
    destruct (set_agent_state_to now RUNNING x) as [[w1 c1] [[]|er]]; [|by rewrite <- Hy].
    simpl in Hn, Hr. unfold pbind, get_agent_state, get_state, pbind, pret in Hy.
    change (agent_state (with_shared w1 (c_state c1))) with (agent_state (c_state c1)) in Hy.
    rewrite Hr in Hy. by rewrite <- Hy.
  - unfold pwhen at 1, pbind at 1, pret at 1 in Hy. cbv beta iota in Hy.
    unfold pbind, get_agent_state, get_state, pbind, pret in Hy.
    change (agent_state (with_shared w (c_state x.2))) with (agent_state (c_state c)) in Hy.
    simpl in Hy.
    destruct (agent_state_eqb (agent_state (c_state c)) USER_REJECTED) eqn:Er; cbn [pwhen] in Hy.
    + apply bool_decide_eq_true in Er. rewrite Er, <- Hy. by apply Hplain.
    + rewrite <- Hy. simpl. split; [done|]. destruct (agent_state (c_state c)); done.
Qed.

(** ** Delegates that hit a limit *)

Definition not_R (c : ascii) : bool := negb (Ascii.eqb c "R"%char).

Lemma digits_not_R z : 0 ≤ z → all_chars not_R (pretty z) = true.
Proof.
  intros Hz. apply (all_chars_impl is_digit); [|by apply pretty_digits].
  intros c Hc. unfold not_R. by destruct (Ascii.eqb_spec c "R"%char) as [->|].
Qed.

Lemma format_2f_not_R x : all_chars not_R (format_2f x) = true.
Proof.
  destruct x as [[]|[]| |s m e]; try done. unfold format_2f.
  set (n := if 0 <=? e then _ else _).
  assert (Hn : 0 ≤ n).
  { unfold n. destruct (Z.leb_spec 0 e); [lia|]. unfold div_half_even.
    assert (0 ≤ Z.pos m * 100 / 2 ^ (- e)) by (apply Z.div_pos; [lia|]; apply Z.pow_pos_nonneg; lia).
    destruct (_ || _); lia. }
  assert (Hd : all_chars not_R (pretty (n / 100) +:+ "." +:+ two_digits (n mod 100)) = true).
  { rewrite !all_chars_append, digits_not_R by (apply Z.div_pos; lia). simpl.
    assert (0 ≤ n mod 100) by (apply Z.mod_pos_bound; lia). unfold two_digits.
    destruct (_ <? 10); [rewrite all_chars_append|]; by rewrite digits_not_R. }
  destruct s; [by rewrite all_chars_append, Hd|exact Hd].
Qed.

(** A text that starts with an [R] is not found where there is none. *)
Lemma not_R_contains sub s : all_chars not_R s = true → str_contains (String "R"%char sub) s = false.
Proof.
  induction s as [|c s IH]; [done|]. cbn [str_contains String.prefix all_chars].
  intros [Hc Hs]%andb_true_iff. rewrite IH, orb_false_r by done. unfold not_R in Hc. apply negb_true_iff, Ascii.eqb_neq in Hc.
  destruct (Ascii.ascii_dec "R" c); [congruence|done].
Qed.

Lemma text_absent sub f :
  String.prefix (String "R"%char sub) ("RuntimeError" +:+ ": " +:+ Budget.limit_message f) = false →
  str_contains (String "R"%char sub) ("RuntimeError" +:+ ": " +:+ Budget.limit_message f) = false.
Proof.
  intros Hp. unfold Budget.limit_message in *. set (s := _ +:+ _) in *.
  assert (Hs : s = String "R"%char
    ("untimeError: Agent reached maximum budget for conversation.Current budget: " +:+
     format_2f (current_value f) +:+ ", max budget: " +:+ format_2f (max_value f))) by reflexivity.
  rewrite Hs in *. cbn [str_contains]. rewrite Hp, not_R_contains; [done|].
  by rewrite !all_chars_append, !format_2f_not_R.
Qed.

(** Only one of the two limits keeps a delegate alive: a delegate stopped by the
    iteration limit still receives events, so that it can be continued, but one stopped
    by the budget never does, because the text looked for lacks the blank that
    [last_error] has after the colon; its next event ends it.  (If there
    is a status callback, it does not raise.) *)
Theorem budget_stops_delegate (laws : LLMErrorsLaws) (x : World F * Controller A)
    (g : ControlFlag Z) (f : ControlFlag float) :
  callback_ok x.2 →
  delegate_active (react_to_exception now (RuntimeError (Iter.limit_message g)) x).1.2 = true
  ∧ delegate_active (react_to_exception now (RuntimeError (Budget.limit_message f)) x).1.2 = false.
Proof.
  intros Hcb. unfold delegate_active. split.
  - rewrite react_last_error by (intros; apply exc_is_runtime). by rewrite orb_true_r.
  - rewrite react_last_error, react_ERROR by (done || (intros; apply exc_is_runtime)).
    cbn [exc_name exc_str]. unfold ITERATION_LIMIT_TEXT, BUDGET_LIMIT_TEXT.
    by rewrite !text_absent by reflexivity.
Qed.

(** ** The end of the history after loop recovery *)

(** Loop recovery cuts off the future as well: it sets [end_id] to the last event it
    keeps, which nothing ever resets, so a later [close] or a restored session reads the
    history up to that event only, however much has happened since. *)
Theorem recovery_cuts_future w c (n : Z) (e : Event) (a b : nat) :
  0 < n < py_len (history (c_state c)) →
  last (take (Z.to_nat n) (history (c_state c))) = Some e → event_id e = Z.of_nat b →
  start_id (c_state c) = Z.of_nat a →
  ∃ w' c', truncate_memory_to_point n (w, c) = ((w', c'), Ok tt)
    ∧ history (c_state c') = take (Z.to_nat n) (history (c_state c))
    ∧ ∀ `{EventReaderLaws R} (r : R) log, reader_log r log → (b < length log)%nat →
        ∃ s, tracker_close (c_state c', r) = ((s, r), Ok tt)
             ∧ history s = py_filter in_history (take (S b - a) (drop a log)).
Proof.
  intros Hn Hlast He Ha. unfold truncate_memory_to_point, pbind at 1, get_state. cbv beta iota.
  change (history (with_shared w (c_state c))) with (history (c_state c)).
  rewrite (proj2 (Z.leb_gt _ n)) by lia. rewrite py_slice_to_Z by lia. rewrite Hlast.
  unfold pbind, on_state, pmodify, update. eexists _, _. split; [reflexivity|]. split; [done|].
  intros R HP HR HL r log Hr Hb. set (s := c_state _).
  exists (set_history s (py_filter in_history (take (S b - a) (drop a log)))). split; [|done].
  assert (Hs : start_id s = Z.of_nat a ∧ end_id s = Z.of_nat b) by done. destruct Hs as [Hs1 Hs2].
  unfold tracker_close, fetch_bounds, pbind. rewrite Hs1, Hs2.
  rewrite !(proj2 (Z.leb_le 0 _)) by lia. unfold pret. cbv beta iota.
  replace (Z.of_nat b) with (Z.of_nat (S b) - 1) by lia.
  by rewrite (reader_search_log r log a (S b) _ in_history) by (lia || apply include_history || done).
Qed.
End events.

(** ** Marks that are lost *)

Lemma load_key_confirmation {X} k dec (set : X → Event → Event) d e e' :
  (∀ x e, m_confirmation (ev_meta (set x e)) = m_confirmation (ev_meta e)) →
  load_key k dec set d e = Ok e' → m_confirmation (ev_meta e) = None →
  m_confirmation (ev_meta e') = None.
Proof.
  intros Hset. unfold load_key. destruct (dget k d) as [j|]; [|by intros [= ->]].
  destruct (dec j); cbn [rbind]; [|done]. intros [= <-] <-. apply Hset.
Qed.

Lemma load_meta_confirmation d e e' :
  load_meta d e = Ok e' → m_confirmation (ev_meta e) = None → m_confirmation (ev_meta e') = None.
Proof.
  unfold load_meta. intros Hd Hn.
  repeat match type of Hd with
  | rbind (load_key ?k ?dec ?set d ?x) ?f = Ok _ =>
      let E := fresh "E" in let y := fresh "y" in
      destruct (load_key k dec set d x) as [y|] eqn:E; cbn [rbind] in Hd; [|done];
      apply load_key_confirmation in E; [|done|done]
  end.
  by apply load_key_confirmation in Hd.
Qed.

Lemma class_confirmation `{Platform} d e :
  action_from_dict literal_eval version d = Ok e ∨ observation_from_dict d = Ok e →
  m_confirmation (ev_meta e) = None.
Proof.
  intros [Ha|Ho].
  - unfold action_from_dict in Ha. destruct (dget "action" d) as [[]|]; try done.
    destruct (action_class _) as [t|]; [|done].
    apply rbind_ok_inv in Ha as (args0 & _ & Ha). apply rbind_ok_inv in Ha as (args & _ & Ha).
    apply rbind_ok_inv in Ha as (a & _ & Ha). cbv zeta in Ha.
    apply rbind_ok_inv in Ha as (evt & Hevt & Ha).
    assert (Hm : m_confirmation (ev_meta evt) = None).
    { destruct (dget "timeout" d) as [j|]; [|by injection Hevt as <-].
      destruct (dec_opt dec_float j) as [v|]; [|done].
      match type of Hevt with context [arg ?f ?k ?o ?x] => destruct (arg f k o x); [|done] end.
      injection Hevt as <-. by destruct a. }
    destruct (dget "timestamp" args0) as [[]|]; repeat case_match; try done; by injection Ha as <-.
  - unfold observation_from_dict in Ho. destruct (dget "observation" d) as [[]|]; try done.
    destruct (observation_class _) as [t|]; [|done].
    apply rbind_ok_inv in Ho as (content & _ & Ho). apply rbind_ok_inv in Ho as (ex & _ & Ho).
    apply rbind_ok_inv in Ho as (ex' & _ & Ho). apply rbind_ok_inv in Ho as (o & _ & Ho).
    by injection Ho as <-.
Qed.

Lemma from_dict_confirmation `{Platform} d e : from_dict d = Ok e → m_confirmation (ev_meta e) = None.
Proof.
  unfold from_dict, event_from_dict. intros (e0 & He & Hd)%rbind_ok_inv.
  apply load_meta_confirmation in Hd; [done|]. apply (class_confirmation d). clear Hd.
  destruct (dmem "action" d); [by left|]. destruct (dmem "observation" d); [by right|done].
Qed.

(** The mark does not reach the other subscribers: the copy of an event that is
    stored and delivered has no confirmation status unless it is a command or a cell,
    the two classes that declare the field; a file edit, a file read or an interactive
    browser action for which the controller waits for the user arrives at the runtime
    without the mark that would keep it from executing. *)
Theorem confirmation_mark_lost `{Platform} (secrets : list (string * string)) (e copy : Event)
    (d : dict) (a : Action) :
  stored secrets e = Ok (d, copy) → ev_body copy = EAction a → get_confirmation a = None →
  event_confirmation copy = None.
Proof.
  unfold stored. intros (data & _ & (c & Hc & [= <- <-])%rbind_ok_inv)%rbind_ok_inv Hb Ha.
  apply from_dict_confirmation in Hc. unfold event_confirmation. by rewrite Hb, Ha.
Qed.

(** The controller in confirmation mode that issues a file edit. *)
Definition ex_edit_step :=
  (perform (F := InMemoryFileStore) (A := Scripted) ex_now None (set_source (Some AGENT) ex_edit)
     (ex_world 10, ex_controller false true RUNNING [])).1.
Definition ex_edit_marked : Event :=
  from_option id null_action (c_pending_action ex_edit_step.2).
Definition ex_edit_copy : Event :=
  match stored [] ex_edit_marked with Ok (_, copy) => copy | Raise _ => null_action end.

Lemma confirmation_mark_lost_witness :
  agent_state (c_state ex_edit_step.2) = AWAITING_USER_CONFIRMATION
  ∧ event_confirmation ex_edit_marked = Some AWAITING_CONFIRMATION
  ∧ last (st_queue (w_stream ex_edit_step.1)) = Some ex_edit_copy
  ∧ event_confirmation ex_edit_copy = None.
Proof.
  split; [vm_compute; reflexivity|]. split; [vm_compute; reflexivity|].
  split; [vm_compute; reflexivity|].
  refine (confirmation_mark_lost [] ex_edit_marked ex_edit_copy
    (match stored [] ex_edit_marked with Ok (d, _) => d | Raise _ => [] end)
    (match ev_body ex_edit_copy with EAction a => a | _ => ANull end) _ _ _);
    vm_compute; reflexivity.
Defined.

(** ** Resetting with a recall pending *)

(** Stopping an agent whose recall is pending publishes an error for the recall: the
    test for tool call metadata is true of every event, so when no observation without
    metadata is in the history yet, [_reset] reports the recall as an action that was
    not executed, which its comment says is not needed. *)
Theorem reset_reports_recall :
  let x := run_events (F := InMemoryFileStore) (A := Scripted) ex_now None
             [ex_msg 0 USER "hi";
              new_action (AChangeAgentState (mkChangeAgentStateAction STOPPED ""))]
             (ex_world 10, ex_controller false false LOADING []) in
  (λ e, (event_id e, event_cause e, isinstance_any e [CActionClass T_RECALL;
           CObservationClass OT_ERROR; CObservationClass OT_AGENT_STATE_CHANGED]))
    <$> st_queue (w_stream x.1)
  = [(0, None, true); (1, None, true); (2, Some 0, true); (3, None, true)]
  ∧ (ev_body <$> st_queue (w_stream x.1) !! 2%nat)
    = Some (EObservation (mkObservation ERROR_ACTION_NOT_EXECUTED_STOPPED
        (OError (mkErrorObservation ERROR_ACTION_NOT_EXECUTED_STOPPED_ID))))
  ∧ agent_state (c_state x.2) = STOPPED ∧ c_pending_action x.2 = None.
Proof. vm_compute. done. Qed.

(** ** Witnesses *)

#[export] Instance ex_errors_laws : LLMErrorsLaws.
Proof.
  split; [done|]. intros cls. unfold AgentStuckInLoopError. cbn [exc_is ex_errors].
  by rewrite String.eqb_refl, andb_false_r.
Qed.

Lemma step_blocked_witness :
  let x := (ex_world 5, ex_controller true false PAUSED [ex_cmd]) in
  step_with_exception_handling ex_now None x = (x, Ok tt).
Proof. apply (step_blocked ex_now None). left. discriminate. Defined.

(** An agent without actions; its missing action is reported, not raised, so the step
    that fails here is one whose action has no source in a replayed trajectory. *)
Definition ex_failing : Controller Scripted :=
  mkController (ex_config true false) (mkScripted [] ex_agent_config) (ex_state false RUNNING) None
    (new_ReplayManager (Some [new_message "hi"])) None false None None.

Lemma failed_step_stops_witness :
  let x := (ex_world 5, ex_failing) in
  (step ex_now None x).2 = Raise (OtherError "AttributeError" "_source")
  ∧ agent_state (c_state (step_with_exception_handling ex_now None x).1.2) = ERROR.
Proof.
  intros x. split; [vm_compute; reflexivity|].
  assert (step ex_now None (ex_world 5, ex_failing)
          = ((step ex_now None (ex_world 5, ex_failing)).1, Raise (OtherError "AttributeError" "_source"))) as Hstep by (vm_compute; reflexivity).
  assert (c_status_callback (c_cfg (step ex_now None (ex_world 5, ex_failing)).1.2) = Some (λ _ _, Ok tt)) as Hf by (vm_compute; reflexivity).
  assert (still_retrying (step ex_now None (ex_world 5, ex_failing)).1.2 (OtherError "AttributeError" "_source") = false) as Hr by (vm_compute; reflexivity).
  pose proof (failed_step_stops ex_now None (ex_world 5) ex_failing _ _ Hstep) as Hfinal.
  rewrite Hr in Hfinal. apply Hfinal. intros f Heq. rewrite Hf in Heq. by injection Heq as <-.
Defined.

(** When the status callback raises, the exception ends the handling of the failed step, and
    the agent stays running. *)
Example callback_failure_keeps_running :
  let cfg := mkControllerConfig "s" (mkStateTracker (Some "s") true None) false false [] 100 None
    (Some (λ _ _, Raise (RuntimeError "Event loop is closed"))) false in
  let c := mkController cfg (c_agent ex_failing) (c_state ex_failing) None (c_replay ex_failing) None false None None in
  let x := step_with_exception_handling ex_now None (ex_world 5, c) in
  x.2 = Raise (RuntimeError "Event loop is closed") ∧ agent_state (c_state x.1.2) = RUNNING.
Proof. vm_compute. done. Qed.

Lemma limit_stops_agent_witness :
  let y := (step ex_now None (ex_world 0, ex_controller true false RUNNING [ex_cmd])).1 in
  agent_state (c_state y.2) = ERROR
  ∧ (∃ n, c_agent y.2 = Nat.iter n agent_reset (mkScripted [ex_cmd] ex_agent_config))
  ∧ current_value (w_iteration_flag y.1) = 0.
Proof.
  pose proof (limit_stops_agent ex_now None (ex_world 0)
    (ex_controller true false RUNNING [ex_cmd]) eq_refl eq_refl ltac:(intros f [= <-]; done) (Z.le_refl 0)) as Hl.
  destruct (step ex_now None (ex_world 0, ex_controller true false RUNNING [ex_cmd])) as [[w c] r].
  exact Hl.
Defined.

Lemma risky_action_awaits_witness : awaiting ex_edit_step.
Proof.
  apply (risky_action_awaits ex_now None (ex_world 10) (ex_controller false true RUNNING [])
    (set_source (Some AGENT) ex_edit)); [reflexivity..|]. right. left. reflexivity.
Defined.

Definition ex_delegation : AgentDelegateAction := mkAgentDelegateAction "Browser" [] "".
Definition ex_parent := (ex_world 10, ex_controller false true RUNNING []).

Lemma delegate_unconfirmed_witness :
  ∃ d, c_delegate (start_delegate ex_now ex_delegation ex_parent).1.2 = Some d
       ∧ c_confirmation_mode (c_cfg d) = false
       ∧ agent_state (c_state (perform ex_now None ex_cmd (ex_world 10, d)).1.2) = LOADING.
Proof.
  destruct (delegate_unconfirmed ex_now None ex_parent.1 ex_parent.2
    (start_delegate ex_now ex_delegation ex_parent).1.1
    (start_delegate ex_now ex_delegation ex_parent).1.2 ex_delegation) as (d & H1 & H2 & _ & H3).
  - vm_compute. reflexivity.
  - exists d. split; [exact H1|]. split; [exact H2|]. apply H3. discriminate.
Defined.

Definition ex_hello : Event := ex_msg 0 USER "hello".
Definition ex_asked :=
  handle_event ex_now None ex_hello (ex_world 10, ex_controller false false AWAITING_USER_INPUT [ex_cmd]).

Lemma user_message_recalls_witness :
  agent_state (c_state ex_asked.1.2) = RUNNING
  ∧ history (c_state ex_asked.1.2) = [ex_hello]
  ∧ c_agent ex_asked.1.2 = mkScripted [ex_cmd] ex_agent_config
  ∧ ∃ p t, c_pending_action ex_asked.1.2 = Some p
           ∧ ev_body p = EAction (ARecall (mkRecallAction t "hello" "")).
Proof.
  apply (user_message_recalls ex_now None (ex_world 10)
    (ex_controller false false AWAITING_USER_INPUT [ex_cmd]) ex_asked.1.1 ex_asked.1.2 ex_hello
    (mkMessageAction "hello" None None false RISK_UNKNOWN)); vm_compute; reflexivity.
Defined.

Definition ex_waiting : Controller Scripted :=
  set_c_pending (Some (set_id (Some 4) ex_cmd)) (ex_controller false true USER_CONFIRMED []).

Lemma observation_releases_witness :
  let c' := (handle_observation ex_now (ex_answer 5 4) (ex_world 10, ex_waiting)).1.2 in
  c_pending_action c' = None ∧ agent_state (c_state c') = RUNNING.
Proof.
  exact (observation_releases ex_now (ex_world 10) ex_waiting (ex_answer 5 4)
    (set_id (Some 4) ex_cmd) eq_refl eq_refl).
Defined.

Lemma budget_stops_delegate_witness :
  delegate_active (react_to_exception ex_now
    (RuntimeError (Budget.limit_message (new_flag fzero fzero fzero))) ex_parent).1.2 = false.
Proof.
  exact (proj2 (budget_stops_delegate ex_now ex_errors_laws ex_parent (new_flag 0 0 0)
    (new_flag fzero fzero fzero) ltac:(intros f [= <-]; done))).
Defined.

Definition ex_looped : Controller Scripted :=
  set_c_state (set_history (ex_state false RUNNING) [ex_msg 0 USER "a"; ex_msg 1 AGENT "b"])
    (ex_controller false false RUNNING []).

Lemma recovery_cuts_future_witness :
  ∃ w' c', truncate_memory_to_point 1 (ex_world 10, ex_looped) = ((w', c'), Ok tt)
    ∧ ∀ (st : EventStream InMemoryFileStore) log, stream_inv st log → (0 < length log)%nat →
        ∃ s, tracker_close (c_state c', st) = ((s, st), Ok tt)
             ∧ history s = py_filter in_history (take 1 log).
Proof.
  destruct (recovery_cuts_future (ex_world 10) ex_looped 1 (ex_msg 0 USER "a") 0 0)
    as (w' & c' & H1 & _ & H3); [vm_compute; by split|reflexivity..|].
  exists w', c'. split; [exact H1|]. intros st log Hinv Hlen. exact (H3 _ _ _ _ st log Hinv Hlen).
Defined.
