(* ===== verification/Message.v ===== *)
(** * Messages for the language model

    Models [openhands/core/message.py]: messages with their content items, tool calls
    and tool results, and their two serializations, into a string or into a list of
    content items.  A tool call is litellm's object, of which the code reads the id,
    the function's name and its arguments. *)

From S2P Require Import Prelude PyValue ControlFlags Observations State.
Local Open Scope Z_scope.
Local Open Scope py_scope.

(** ** Data *)

Inductive Role := R_user | R_system | R_assistant | R_tool.
#[export] Instance Role_eq_dec : EqDecision Role.
Proof. solve_decision. Defined.

Definition role_value (r : Role) : string :=
  match r with
  | R_user => "user" | R_system => "system" | R_assistant => "assistant" | R_tool => "tool"
  end.
Definition role_of_string (s : string) : option Role :=
  py_find (λ r, String.eqb (role_value r) s) [R_user; R_system; R_assistant; R_tool].

(** [TextContent] and [ImageContent], each with the [cache_prompt] of [Content]. *)
Inductive Content :=
  | TextContent (cache_prompt : bool) (text : string)
  | ImageContent (cache_prompt : bool) (image_urls : list string).
#[export] Instance Content_eq_dec : EqDecision Content.
Proof. solve_decision. Defined.

Definition cache_prompt (c : Content) : bool :=
  match c with TextContent b _ | ImageContent b _ => b end.
Definition set_cache_prompt (b : bool) (c : Content) : Content :=
  match c with TextContent _ t => TextContent b t | ImageContent _ u => ImageContent b u end.
Definition is_text (c : Content) : bool :=
  match c with TextContent _ _ => true | ImageContent _ _ => false end.

Record ToolCall := mkToolCall {
  tc_id : option string;
  tc_name : string;
  tc_arguments : string;
}.
#[export] Instance ToolCall_eq_dec : EqDecision ToolCall.
Proof. solve_decision. Defined.

Record Message := mkMessage {
  msg_role : Role;
  msg_content : list Content;
  cache_enabled : bool;
  vision_enabled : bool;
  function_calling_enabled : bool;
  tool_calls : option (list ToolCall);
  tool_call_id : option string;
  msg_name : option string;
  force_string_serializer : bool;
}.
#[export] Instance Message_eq_dec : EqDecision Message.
Proof. solve_decision. Defined.

(** [Message(role=.., content=..)] with the other fields at their defaults. *)
Definition new_msg (role : Role) (content : list Content) : Message :=
  mkMessage role content false false false None None None false.
Definition set_content (c : list Content) (m : Message) : Message :=
  mkMessage (msg_role m) c (cache_enabled m) (vision_enabled m) (function_calling_enabled m)
    (tool_calls m) (tool_call_id m) (msg_name m) (force_string_serializer m).
Definition set_tool_calls (t : option (list ToolCall)) (m : Message) : Message :=
  mkMessage (msg_role m) (msg_content m) (cache_enabled m) (vision_enabled m)
    (function_calling_enabled m) t (tool_call_id m) (msg_name m) (force_string_serializer m).

Definition contains_image (m : Message) : bool :=
  existsb (λ c, negb (is_text c)) (msg_content m).

(** ** Serialization *)

Definition ephemeral : json := JDict [("type", JStr "ephemeral")].

(** [TextContent.serialize_model] *)
Definition text_dump (cached : bool) (text : string) : dict :=
  [("type", JStr "text"); ("text", JStr text)]
  ++ (if cached then [("cache_control", ephemeral)] else []).

(** [ImageContent.serialize_model]: the mark goes to the last image. *)
Fixpoint image_dump (cached : bool) (urls : list string) : list dict :=
  match urls with
  | [] => []
  | u :: urls =>
      let d := [("type", JStr "image_url"); ("image_url", JDict [("url", JStr u)])] in
      match urls with
      | [] => [d ++ (if cached then [("cache_control", ephemeral)] else [])]
      | _ => d :: image_dump cached urls
      end
  end.

Definition tool_call_dump (t : ToolCall) : json :=
  JDict [("id", from_option JStr JNull (tc_id t)); ("type", JStr "function");
         ("function", JDict [("name", JStr (tc_name t)); ("arguments", JStr (tc_arguments t))])].

(** [_add_tool_call_keys] *)
Definition add_tool_call_keys (m : Message) (d : dict) : result dict :=
  let d := match tool_calls m with
           | Some l => dset "tool_calls" (JList (tool_call_dump <$> l)) d
           | None => d
           end in
  match tool_call_id m, msg_name m with
  | Some i, Some n => Ok (dset "name" (JStr n) (dset "tool_call_id" (JStr i) d))
  | Some _, None => Raise AssertionError
  | None, _ => Ok d
  end.

Definition content_text (c : Content) : option string :=
  match c with TextContent _ t => Some t | ImageContent _ _ => None end.

(** [_string_serializer] *)
Definition string_serializer (m : Message) : result dict :=
  add_tool_call_keys m
    [("content", JStr (str_join nl (omap content_text (msg_content m))));
     ("role", JStr (role_value (msg_role m)))].

(** The dictionaries of one content item; [hoist]: the item's mark moves to the
    message. *)
Definition item_dump (vision hoist : bool) (c : Content) : list dict :=
  match c with
  | TextContent cached t =>
      let d := text_dump cached t in [if hoist then ddel "cache_control" d else d]
  | ImageContent cached urls =>
      let ds := image_dump cached urls in
      if vision then (if hoist then ddel "cache_control" <$> ds else ds) else []
  end.

(** [_list_serializer] *)
Definition list_serializer (m : Message) : result dict :=
  let is_tool := bool_decide (msg_role m = R_tool) in
  let content := msg_content m ≫= λ c,
                   item_dump (vision_enabled m) (is_tool && cache_prompt c) c in
  let d := [("content", JList (JDict <$> content)); ("role", JStr (role_value (msg_role m)))] in
  add_tool_call_keys m
    (if is_tool && existsb cache_prompt (msg_content m)
     then dset "cache_control" ephemeral d else d).

(** [serialize_model] *)
Definition serialize_model (m : Message) : result dict :=
  if negb (force_string_serializer m)
     && (cache_enabled m || vision_enabled m || function_calling_enabled m)
  then list_serializer m else string_serializer m.

(** * Prompts

    Models [openhands/utils/prompt.py]: what a conversation knows of its repository and
    its runtime, and the reminder of the turns left.  The rendered templates of the
    [PromptManager] are parameters. *)
Record RuntimeInfo := mkRuntimeInfo {
  ri_date : string;
  ri_available_hosts : dict;
  ri_additional_agent_instructions : string;
  ri_custom_secrets_descriptions : dict;
  ri_working_dir : string;
}.

Record RepositoryInfo := mkRepositoryInfo {
  rp_repo_name : option string;
  rp_repo_directory : option string;
  rp_branch_name : option string;
}.

(** The templates of [PromptManager], as functions of what they are rendered with. *)
Class PromptManager := {
  pm_system_message : bool → string;
  pm_workspace_context :
    option RepositoryInfo → RuntimeInfo → option string → string → string;
  pm_microagent_info : list MicroagentKnowledge → string;
}.

Definition turns_left_text (s : State) : string :=
  nl +:+ nl +:+ "ENVIRONMENT REMINDER: You have "
  +:+ pretty (max_value (iteration_flag s) - current_value (iteration_flag s))
  +:+ " turns left to complete the task. When finished reply with <finish></finish>.".

(** [f] applied to the first element that passes the test. *)
Fixpoint update_first {A} (p : A → bool) (f : A → A) (l : list A) : list A :=
  match l with
  | [] => []
  | x :: l => if p x then f x :: l else x :: update_first p f l
  end.

(** [add_turns_left_reminder]: the last user message with a text gets the reminder. *)
Definition add_turns_left_reminder (messages : list Message) (s : State) : list Message :=
  reverse (update_first
    (λ m, bool_decide (msg_role m = R_user) && existsb is_text (msg_content m))
    (λ m, set_content (msg_content m ++ [TextContent false (turns_left_text s)]) m)
    (reverse messages)).
