(* ===== verification/ConversationMemory.v ===== *)
(** * From histories to messages

    Models [openhands/memory/conversation_memory.py]: how the events of a condensed
    history become the messages of an LLM request.  An action that was a tool call
    waits until every call of its response has been answered; the assistant's message
    and the results then appear together.

    [process_events] changes the list it is given (it inserts a system message and the
    initial user message) and the finish actions in it, so the list is part of the
    result.  Parameters: the templates ([PromptManager]), the response objects of the
    LLM library ([ModelResponses]), and Python's [str] of events. *)

From S2P Require Import Prelude PyValue Schema Actions Observations Events.
From S2P Require Import State Message.
Local Open Scope Z_scope.
Local Open Scope py_scope.

(** What is read of the agent's configuration, and the package's version ([get_version]). *)
Record MemoryConfig := mkMemoryConfig {
  mc_cli_mode : bool;
  mc_enable_som_visual_browsing : bool;
  mc_enable_prompt_extensions : bool;
  mc_disabled_microagents : list string;
  mc_version : string;
}.

(** [response.choices[0].message]; [am_role] is [None] when there is no such attribute. *)
Record AssistantMessage := mkAssistantMessage {
  am_role : option string;
  am_content : option string;
  am_tool_calls : option (list ToolCall);
}.

Class ModelResponses := {
  response_id : json → string;
  response_choices : json → Z;
  response_message : json → result AssistantMessage;
}.

Section memory.
Context `{PromptManager} `{ModelResponses}.
Variable event_str : Event → string.
Variable cfg : MemoryConfig.

Definition text (s : string) : Content := TextContent false s.

(** [_is_valid_image_url] *)
Definition is_valid_image_url (url : string) : bool := negb (String.eqb (str_strip url) "").

(** ** Actions *)

(** The classes that are always tool calls of the agent. *)
Definition is_tool_action (a : Action) : bool :=
  match a with
  | AAgentDelegate _ | AAgentThink _ | AIPythonRunCell _ | AFileEdit _ | AFileRead _
  | ABrowseInteractive _ | ABrowseURL _ | AMCP _ | ATaskTracking _ => true
  | _ => false
  end.

(** The message with the tool calls of a response. *)
Definition pending_message (m : AssistantMessage) : result Message :=
  match role_of_string (from_option id "assistant" (am_role m)) with
  | None => Raise (OtherError "ValidationError" "role")
  | Some role =>
      let content := match am_content m with
                     | Some s => if String.eqb (str_strip s) "" then [] else [text s]
                     | None => []
                     end in
      Ok (set_tool_calls (am_tool_calls m) (new_msg role content))
  end.

Abbreviation messages_by_id := (list (string * Message)).

(** The agent's finish: the response's text joins the thought, and the metadata is
    removed, in the event itself. *)
Definition finish_thought (thought content : string) : string :=
  if String.eqb thought "" then content
  else if String.eqb thought content then thought else thought +:+ nl +:+ content.
Definition process_finish (e : Event) (a : AgentFinishAction) : result Event :=
  match event_tool_call e with
  | None => Ok e
  | Some t =>
      let? m := response_message (tcm_model_response t) in
      let thought := finish_thought (afa_thought a) (from_option id "" (am_content m)) in
      Ok (set_tool_call None (map_action
        (λ _, AAgentFinish (mkAgentFinishAction (afa_final_thought a) (afa_outputs a) thought)) e))
  end.

Definition source_role (e : Event) : Role :=
  if bool_decide (event_source e = Some USER) then R_user else R_assistant.

(** The content of a message with images: one item per image for the user's. *)
Definition message_items (role : Role) (vision : bool) (a : MessageAction) : list Content :=
  text (ma_content a) ::
  match ma_image_urls a with
  | None | Some [] => []
  | Some urls =>
      if bool_decide (role = R_user) then
        enumerate urls ≫= λ '(i, url),
          (if vision then [text ("Image " +:+ pretty (i + 1) +:+ ":")] else [])
          ++ [ImageContent false [url]]
      else [ImageContent false urls]
  end.

(** [_process_action]: the event afterwards, the pending messages, the messages. *)
Definition process_action (vision : bool) (e : Event) (a : Action) (pending : messages_by_id) :
    result (Event * messages_by_id * list Message) :=
  if is_tool_action a
     || (match a with ACmdRun _ => bool_decide (event_source e = Some AGENT) | _ => false end)
  then
    match event_tool_call e with
    | None =>
        if bool_decide (event_source e = Some USER)
        then Ok (e, pending, [new_msg R_user [text ("User requested to read file: "
                                                     +:+ event_str e)]])
        else Raise AssertionError
    | Some t =>
        let? m := response_message (tcm_model_response t) in
        let? p := pending_message m in
        Ok (e, dset (response_id (tcm_model_response t)) p pending, [])
    end
  else match a with
  | AAgentFinish a =>
      let? e := process_finish e a in
      let thought := match ev_body e with
                     | EAction (AAgentFinish a) => afa_thought a | _ => "" end in
      Ok (e, pending, [new_msg (source_role e) [text thought]])
  | AMessage a =>
      Ok (e, pending, [new_msg (source_role e) (message_items (source_role e) vision a)])
  | ACmdRun a =>
      Ok (e, pending,
          if bool_decide (event_source e = Some USER)
          then [new_msg R_user [text ("User executed the command:" +:+ nl +:+ cra_command a)]]
          else [])
  | ASystemMessage a => Ok (e, pending, [new_msg R_system [text (sma_content a)]])
  | _ => Ok (e, pending, [])
  end.

(** ** Observations *)

Definition image_line (line : string) : string :=
  if str_contains "![image](data:image/png;base64," line
  then "![image](data:image/png;base64, ...) already displayed to user" else line.

(** The content of an IPython result. *)
Definition ipython_items (max_chars : option Z) (vision : bool) (content : string)
    (o : IPythonRunCellObservation) : list Content :=
  let t := truncate_content max_chars
             (str_join nl (image_line <$> str_split newline content)) in
  match ipo_image_urls o with
  | None | Some [] => [text t]
  | Some urls =>
      match py_filter is_valid_image_url urls with
      | [] =>
          [text (if vision
                 then t +:+ nl +:+ nl +:+ "Note: All " +:+ pretty (py_len urls) +:+
                      " image(s) in this output were invalid or empty and have been filtered. " +:+
                      "The agent should use alternative methods to access visual information."
                 else t)]
      | valid =>
          let invalid := py_len urls - py_len valid in
          [text (if vision && (0 <? invalid)
                 then t +:+ nl +:+ nl +:+ "Note: " +:+ pretty invalid +:+
                      " invalid or empty image(s) were filtered from this output. The agent may " +:+
                      "need to use alternative methods to access visual information."
                 else t);
           ImageContent false valid]
      end
  end.

Definition SCREENSHOT_NOTE : string :=
  "Image: Current webpage screenshot (Note that only visible portion of webpage is present in " +:+
  "the screenshot. However, the Accessibility tree contains information from the entire " +:+
  "webpage.)" +:+ nl.

(** The content of a browser output: with visual browsing, the set of marks or else the
    screenshot. *)
Definition browser_items (vision : bool) (content : string) (o : BrowserOutputObservation) :
    list Content :=
  if String.eqb (boo_trigger_by_action o) "browse_interactive" && mc_enable_som_visual_browsing cfg
  then
    let t := if vision then content +:+ SCREENSHOT_NOTE else content in
    let image := if negb (String.eqb (boo_set_of_marks o) "")
                 then Some (boo_set_of_marks o, "set of marks")
                 else if negb (String.eqb (boo_screenshot o) "")
                 then Some (boo_screenshot o, "screenshot")
                 else None in
    match image with
    | Some (url, kind) =>
        if is_valid_image_url url then [text t; ImageContent false [url]]
        else [text (if vision
                    then t +:+ nl +:+ nl +:+ "Note: The " +:+ kind +:+
                         " for this webpage was invalid or empty and has been filtered. The " +:+
                         "agent should use alternative methods to access visual information " +:+
                         "about the webpage."
                    else t)]
    | None =>
        [text (if vision
               then t +:+ nl +:+ nl +:+ "Note: No visual information (screenshot or set of marks) " +:+
                    "is available for this webpage. The agent should rely on the text content above."
               else t)]
    end
  else [text content].

(** *** Recalls *)

Definition nonempty (s : string) : bool := negb (String.eqb s "").

Definition enabled_agents (l : list MicroagentKnowledge) : list MicroagentKnowledge :=
  py_filter (λ a, negb (existsb (String.eqb (mk_name a)) (mc_disabled_microagents cfg))) l.

(** [_has_agent_in_earlier_events] *)
Definition has_agent_in_earlier_events (name : string) (index : Z) (events : list Event) : bool :=
  existsb (λ e, match ev_body e with
                | EObservation o =>
                    match obs_kind o with
                    | ORecall r => existsb (λ a, String.eqb (mk_name a) name)
                                     (ro_microagent_knowledge r)
                    | _ => false
                    end
                | _ => false
                end) (py_slice None (Some index) events).

(** [_filter_agents_in_microagent_obs] *)
Definition filter_agents_in_microagent_obs (r : RecallObservation) (index : Z)
    (events : list Event) : list MicroagentKnowledge :=
  match ro_recall_type r with
  | KNOWLEDGE => py_filter (λ a, negb (has_agent_in_earlier_events (mk_name a) index events))
                   (ro_microagent_knowledge r)
  | _ => ro_microagent_knowledge r
  end.

Definition recall_repo_info (r : RecallObservation) : option RepositoryInfo :=
  if nonempty (ro_repo_name r) || nonempty (ro_repo_directory r)
  then Some (mkRepositoryInfo (Some (ro_repo_name r)) (Some (ro_repo_directory r))
               (if nonempty (ro_repo_branch r) then Some (ro_repo_branch r) else None))
  else None.

Definition recall_runtime_info (r : RecallObservation) : RuntimeInfo :=
  if jtruthy (JDict (ro_runtime_hosts r)) || nonempty (ro_additional_agent_instructions r)
  then mkRuntimeInfo (ro_date r) (ro_runtime_hosts r) (ro_additional_agent_instructions r)
         (ro_custom_secrets_descriptions r) (ro_working_dir r)
  else mkRuntimeInfo (ro_date r) [] "" (ro_custom_secrets_descriptions r) (ro_working_dir r).

(** The content of a workspace recall; nothing when there is nothing to tell. *)
Definition workspace_items (r : RecallObservation) : list Content :=
  let repo := recall_repo_info r in
  let runtime := recall_runtime_info r in
  let conv := if nonempty (ro_conversation_instructions r)
              then Some (ro_conversation_instructions r) else None in
  let has_runtime := nonempty (ri_date runtime)
                     || jtruthy (JDict (ri_custom_secrets_descriptions runtime)) in
  let agents := enabled_agents (ro_microagent_knowledge r) in
  (if (if repo then true else false) || has_runtime
      || nonempty (str_strip (ro_repo_instructions r)) || (if conv then true else false)
   then [text (pm_workspace_context repo runtime conv (ro_repo_instructions r))] else [])
  ++ (match agents with [] => [] | _ => [text (pm_microagent_info agents)] end).

(** The content of a knowledge recall: microagents not shown before and not disabled. *)
Definition knowledge_items (r : RecallObservation) (index : Z) (events : list Event) :
    list Content :=
  match enabled_agents (filter_agents_in_microagent_obs r index events) with
  | [] => []
  | agents => [text (pm_microagent_info agents)]
  end.

(** The content of the message an observation becomes; [None] when it becomes none. *)
Definition observation_items (max_chars : option Z) (vision : bool) (e : Event)
    (o : Observation) : result (option (list Content)) :=
  let cut := truncate_content max_chars in
  let content := obs_content o in
  match obs_kind o with
  | OCmdOutput c =>
      Ok (Some [text (cut (match event_tool_call e with
        | None => nl +:+ "Observed result of command executed by user:" +:+ nl
                  +:+ to_agent_observation content c
        | Some _ => to_agent_observation content c end))])
  | OIPythonRunCell c => Ok (Some (ipython_items max_chars vision content c))
  | OFileEdit _ => Ok (Some [text (cut (event_str e))])
  | OFileRead _ => Ok (Some [text content])
  | OBrowserOutput b => Ok (Some (browser_items vision content b))
  | OAgentDelegate d =>
      match dget "content" (ado_outputs d) with
      | None => Ok (Some [text (cut content)])
      | Some (JStr s) => Ok (Some [text (cut s)])
      | Some _ => Raise (TypeError "the content of a delegate's output is not a string")
      end
  | OMCP _ | OAgentThink | OTaskTracking _ | OAgentCondensation | OFileDownload _ =>
      Ok (Some [text (cut content)])
  | OError _ =>
      Ok (Some [text (cut content +:+ nl +:+ "[Error occurred in processing last action]")])
  | OUserReject =>
      Ok (Some [text ("OBSERVATION:" +:+ nl +:+ cut content +:+ nl
                      +:+ "[Last action has been rejected by the user]")])
  | OLoopDetection => Ok None
  | ORecall r =>
      if mc_enable_prompt_extensions cfg then
        match ro_recall_type r with
        | WORKSPACE_CONTEXT =>
            Ok (match workspace_items r with [] => None | items => Some items end)
        | KNOWLEDGE => Ok None
        end
      else Ok None
  | ONull | OFileWrite _ | OSuccess | OAgentStateChanged _ =>
      Raise (ValueError "Unknown observation type")
  end.

(** A knowledge recall is returned at once, even with tool call metadata. *)
Definition knowledge_messages (index : Z) (events : list Event) (o : Observation) : list Message :=
  match obs_kind o with
  | ORecall r =>
      if mc_enable_prompt_extensions cfg then
        match ro_recall_type r with
        | KNOWLEDGE => match knowledge_items r index events with
                       | [] => []
                       | items => [new_msg R_user items]
                       end
        | _ => []
        end
      else []
  | _ => []
  end.

Definition tool_message (t : ToolCallMetadata) (items : list Content) : Message :=
  mkMessage R_tool items false false false None (Some (tcm_tool_call_id t))
    (Some (tcm_function_name t)) false.

(** [_process_observation]: the results by call id, and the messages. *)
Definition process_observation (max_chars : option Z) (vision : bool) (index : Z)
    (events : list Event) (e : Event) (o : Observation) (results : messages_by_id) :
    result (messages_by_id * list Message) :=
  let? items := observation_items max_chars vision e o in
  match items with
  | None => Ok (results, knowledge_messages index events o)
  | Some items =>
      match event_tool_call e with
      | Some t => Ok (dset (tcm_tool_call_id t) (tool_message t items) results, [])
      | None => Ok (results, [new_msg R_user items])
      end
  end.

(** ** Pending tool calls *)

Definition answered (results : messages_by_id) (c : ToolCall) : bool :=
  match tc_id c with Some i => dmem i results | None => false end.

(** The results of the calls, in order, each taken out of the dictionary. *)
Fixpoint take_results (calls : list ToolCall) (results : messages_by_id) :
    result (list Message * messages_by_id) :=
  match calls with
  | [] => Ok ([], results)
  | c :: calls =>
      match tc_id c with
      | None => Raise (KeyError "None")
      | Some i =>
          match dget i results with
          | None => Raise (KeyError i)
          | Some m => let? r := take_results calls (ddel i results) in Ok (m :: r.1, r.2)
          end
      end
  end.

(** The loop over the pending messages: the messages to add, the results left, the
    response ids to remove. *)
Fixpoint complete_pending (pending results : messages_by_id) :
    result (list Message * messages_by_id * list string) :=
  match pending with
  | [] => Ok ([], results, [])
  | (rid, m) :: pending =>
      match tool_calls m with
      | None => Raise AssertionError
      | Some calls =>
          if forallb (answered results) calls then
            let? r := take_results calls results in
            let? k := complete_pending pending r.2 in
            Ok (m :: r.1 ++ k.1.1, k.1.2, rid :: k.2)
          else complete_pending pending results
      end
  end.

(** ** [process_events] *)

Fixpoint process_loop (max_chars : option Z) (vision : bool) (all : list Event) (index : Z)
    (pending results : messages_by_id) (events : list Event) : list Event * result (list Message) :=
  match events with
  | [] => ([], Ok [])
  | e :: events =>
      match (match ev_body e with
             | EAction a => let? r := process_action vision e a pending in
                            Ok (r.1.1, r.1.2, results, r.2)
             | EObservation o => let? r := process_observation max_chars vision index all e o results in
                                 Ok (e, pending, r.1, r.2)
             end) with
      | Raise x => (e :: events, Raise x)
      | Ok (e, pending, results, msgs) =>
          match complete_pending pending results with
          | Raise x => (e :: events, Raise x)
          | Ok (done, results, removed) =>
              let pending := foldl (λ p i, ddel i p) pending removed in
              let '(events, r) :=
                process_loop max_chars vision all (index + 1) pending results events in
              (e :: events, let? k := r in Ok (msgs ++ done ++ k))
          end
      end
  end.

(** The ids of the assistant's calls, and of the tool results. *)
Definition nonempty_id (i : option string) : list string :=
  match i with Some s => if nonempty s then [s] else [] | None => [] end.
Definition call_ids (messages : list Message) : list string :=
  messages ≫= λ m, if bool_decide (msg_role m = R_assistant)
                   then from_option id [] (tool_calls m) ≫= λ c, nonempty_id (tc_id c) else [].
Definition response_ids (messages : list Message) : list string :=
  messages ≫= λ m, if bool_decide (msg_role m = R_tool) then nonempty_id (tool_call_id m) else [].

Definition matched (ids : list string) (i : option string) : bool :=
  match i with Some s => existsb (String.eqb s) ids | None => false end.

(** [_filter_unmatched_tool_calls] *)
Definition filter_unmatched_tool_calls (messages : list Message) : list Message :=
  let calls := call_ids messages in
  let responses := response_ids messages in
  messages ≫= λ m,
    match msg_role m, nonempty_id (tool_call_id m), tool_calls m with
    | R_tool, _ :: _, _ => if matched calls (tool_call_id m) then [m] else []
    | R_assistant, _, Some ((_ :: _) as l) =>
        if forallb (λ c, matched responses (tc_id c)) l then [m]
        else match py_filter (λ c, matched responses (tc_id c)) l with
             | [] => []
             | l => [set_tool_calls (Some l) m]
             end
    | _, _, _ => [m]
    end.

(** [_apply_user_message_formatting] *)
Definition add_newlines (c : Content) : Content :=
  match c with TextContent b t => TextContent b (nl +:+ nl +:+ t) | c => c end.
Fixpoint format_messages (prev : option Role) (messages : list Message) : list Message :=
  match messages with
  | [] => []
  | m :: messages =>
      (if bool_decide (msg_role m = R_user) && bool_decide (prev = Some R_user)
       then set_content (update_first is_text add_newlines (msg_content m)) m else m)
      :: format_messages (Some (msg_role m)) messages
  end.
Definition apply_user_message_formatting : list Message → list Message := format_messages None.

(** [_ensure_system_message] *)
Definition is_system_action (e : Event) : bool := isinstance e (CActionClass T_SYSTEM).
Definition ensure_system_message (events : list Event) : list Event :=
  if existsb is_system_action events then events
  else let prompt := pm_system_message (mc_cli_mode cfg) in
       if nonempty prompt
       then new_action (ASystemMessage (mkSystemMessageAction prompt None (Some (mc_version cfg)) None)) :: events
       else events.

(** [_ensure_initial_user_message] *)
Definition ensure_initial_user_message (initial : Event) (forgotten : list Z)
    (events : list Event) : list Event :=
  match events with
  | [] => []
  | e0 :: rest =>
      if existsb (Z.eqb (event_id initial)) forgotten then events
      else match rest with
           | e1 :: _ => if is_user_message e1 then events else e0 :: initial :: rest
           | [] => [e0; initial]
           end
  end.

Definition process_events (initial : Event) (forgotten : list Z) (max_chars : option Z)
    (vision : bool) : pyM (list Event) (list Message) := λ events,
  let events := ensure_initial_user_message initial forgotten (ensure_system_message events) in
  let '(events, r) := process_loop max_chars vision events 0 [] [] events in
  (events, let? messages := r in
           Ok (apply_user_message_formatting (filter_unmatched_tool_calls messages))).

(** ** [apply_prompt_caching] *)

(** [message.content[-1].cache_prompt = True] *)
Definition cache_last (m : Message) : result Message :=
  match reverse (msg_content m) with
  | [] => Raise IndexError
  | c :: k => Ok (set_content (reverse (set_cache_prompt true c :: k)) m)
  end.
Fixpoint cache_first_answer (messages : list Message) : result (list Message) :=
  match messages with
  | [] => Ok []
  | m :: messages =>
      if bool_decide (msg_role m = R_user) || bool_decide (msg_role m = R_tool)
      then let? m := cache_last m in Ok (m :: messages)
      else let? k := cache_first_answer messages in Ok (m :: k)
  end.
Definition apply_prompt_caching (messages : list Message) : result (list Message) :=
  let? messages := match messages with
                   | m :: k => if bool_decide (msg_role m = R_system)
                               then let? m := cache_last m in Ok (m :: k) else Ok messages
                   | [] => Ok []
                   end in
  let? k := cache_first_answer (reverse messages) in Ok (reverse k).
End memory.
