(* ===== verification/ConversationMemoryProps.v ===== *)
(** * What the messages of a request look like

    The filter of unmatched tool calls leaves exactly the calls that are answered; what
    [process_events] returns is a sequence of plain messages and blocks, each an
    assistant's message followed by the results of its calls in their order; the
    results of parallel calls are regrouped whatever the order they came in. *)

From S2P Require Import Prelude PyValue Schema Actions Observations Events.
From S2P Require Import State Message ConversationMemory.
Local Open Scope Z_scope.
Local Open Scope py_scope.

(** ** The filter *)

Abbreviation among ids := (λ s, existsb (String.eqb s) ids).

Lemma among_elem ids s : among ids s = true ↔ s ∈ ids.
Proof.
  rewrite existsb_exists. setoid_rewrite <- list_elem_of_In.
  setoid_rewrite String.eqb_eq. naive_solver.
Qed.

Lemma py_filter_bind {A B} (f : B → bool) (g : A → list B) (l : list A) :
  py_filter f (l ≫= g) = l ≫= λ x, py_filter f (g x).
Proof. induction l as [|x l IH]; [done|]. csimpl. by rewrite py_filter_app, IH. Qed.

Lemma bind_bind {A B C} (f : B → list C) (g : A → list B) (l : list A) :
  (l ≫= g) ≫= f = l ≫= λ x, g x ≫= f.
Proof. induction l as [|x l IH]; [done|]. csimpl. by rewrite bind_app, IH. Qed.

(** The ids of calls kept by a test on their ids. *)
Lemma nonempty_ids_filter (ids : list string) (l : list ToolCall) :
  py_filter (λ c, matched ids (tc_id c)) l ≫= (λ c, nonempty_id (tc_id c))
  = py_filter (among ids) (l ≫= λ c, nonempty_id (tc_id c)).
Proof.
  induction l as [|c l IH]; [done|]. csimpl. rewrite py_filter_app, <- IH.
  destruct (tc_id c) as [s|] eqn:E; [|done]. simpl.
  destruct (existsb (String.eqb s) ids) eqn:Ei; csimpl; rewrite ?E; simpl;
    destruct (nonempty s); simpl; by rewrite ?Ei.
Qed.

Lemma filter_none_ids (ids : list string) (l : list ToolCall) :
  py_filter (λ c, matched ids (tc_id c)) l = [] →
  py_filter (among ids) (l ≫= λ c, nonempty_id (tc_id c)) = [].
Proof. intros E. by rewrite <- nonempty_ids_filter, E. Qed.

Lemma filter_all_ids (ids : list string) (l : list ToolCall) :
  forallb (λ c, matched ids (tc_id c)) l = true →
  py_filter (λ c, matched ids (tc_id c)) l = l.
Proof.
  intros E. apply py_filter_all. intros c Hc. rewrite forallb_forall in E.
  apply E. by apply list_elem_of_In.
Qed.

(** What the filter does to an assistant's message. *)
Lemma filter_assistant_ids ids m l :
  msg_role m = R_assistant →
  call_ids (if forallb (λ c, matched ids (tc_id c)) l then [set_tool_calls (Some l) m]
            else match py_filter (λ c, matched ids (tc_id c)) l with
                 | [] => []
                 | l => [set_tool_calls (Some l) m]
                 end)
  = py_filter (among ids) (l ≫= λ c, nonempty_id (tc_id c)).
Proof.
  intros Er. rewrite <- nonempty_ids_filter.
  destruct (forallb _ l) eqn:Ea; [rewrite (filter_all_ids _ _ Ea)|];
    [|destruct (py_filter _ l) as [|c k]; [done|]];
    unfold call_ids; csimpl; by rewrite Er, app_nil_r.
Qed.

Lemma set_tool_calls_self m l : tool_calls m = Some l → set_tool_calls (Some l) m = m.
Proof. destruct m; simpl. by intros ->. Qed.

(** The calls that remain are those with an answer in the request, the answers that
    remain those with a call, in their order. *)
Lemma filter_call_ids ms :
  call_ids (filter_unmatched_tool_calls ms) = py_filter (among (response_ids ms)) (call_ids ms).
Proof.
  unfold filter_unmatched_tool_calls, call_ids at 1 3. set (R := response_ids ms).
  set (C := call_ids ms). clearbody R C.
  rewrite bind_bind, py_filter_bind. apply list_bind_ext; [|done]. intros m.
  destruct (msg_role m) eqn:Er, (nonempty_id (tool_call_id m)) as [|i k]; csimpl; rewrite ?Er; try done.
  1, 2: destruct (tool_calls m) as [[|c l]|] eqn:Ec; try (csimpl; by rewrite Er, Ec);
    etrans; [|exact (filter_assistant_ids R m (c :: l) Er)];
    rewrite (set_tool_calls_self _ _ Ec); by destruct forallb.
  destruct (matched C (tool_call_id m)); [|done]. csimpl. by rewrite Er.
Qed.

Lemma filter_response_ids ms :
  response_ids (filter_unmatched_tool_calls ms) = py_filter (among (call_ids ms)) (response_ids ms).
Proof.
  unfold filter_unmatched_tool_calls, response_ids at 1 4. set (R := response_ids ms).
  set (C := call_ids ms). clearbody R C.
  rewrite bind_bind, py_filter_bind. apply list_bind_ext; [|done]. intros m.
  destruct (msg_role m) eqn:Er; csimpl; rewrite ?Er; try done.
  - destruct (tool_calls m) as [[|c l]|] eqn:Ec; try (csimpl; by rewrite Er).
    destruct forallb; [csimpl; by rewrite Er|].
    destruct py_filter; [done|]. csimpl. by rewrite Er.
  - unfold nonempty_id, nonempty. destruct (tool_call_id m) as [s|] eqn:Ei; simpl; [|csimpl; by rewrite Er, Ei].
    destruct (String.eqb_spec s ""); simpl; [csimpl; rewrite Er, Ei; by subst|].
    destruct (existsb (String.eqb s) C) eqn:Em; [|done]. csimpl. rewrite Er, Ei. simpl.
    unfold nonempty. by destruct (String.eqb_spec s "").
Qed.

Lemma elem_of_filter_calls ms s :
  s ∈ call_ids (filter_unmatched_tool_calls ms) ↔ s ∈ call_ids ms ∧ s ∈ response_ids ms.
Proof. rewrite filter_call_ids, elem_of_py_filter, among_elem. naive_solver. Qed.
Lemma elem_of_filter_responses ms s :
  s ∈ response_ids (filter_unmatched_tool_calls ms) ↔ s ∈ call_ids ms ∧ s ∈ response_ids ms.
Proof. rewrite filter_response_ids, elem_of_py_filter, among_elem. done. Qed.

(** ** The shape of a request *)

(** [r] is the result of the call [c]. *)
Definition answers (c : ToolCall) (r : Message) : Prop :=
  msg_role r = R_tool ∧ tool_call_id r = tc_id c ∧ ∃ s, tc_id c = Some s ∧ s ≠ "".

Definition plain (m : Message) : Prop := msg_role m ≠ R_tool ∧ tool_calls m = None.

(** What the providers accept: a message with tool calls is followed at once by the
    results of these calls, in their order, and there are no other results. *)
Inductive well_paired : list Message → Prop :=
  | wp_nil : well_paired []
  | wp_plain m ms : plain m → well_paired ms → well_paired (m :: ms)
  | wp_block m calls rs ms :
      msg_role m = R_assistant → tool_calls m = Some calls → Forall2 answers calls rs →
      well_paired ms → well_paired (m :: rs ++ ms).

Lemma well_paired_app l k : well_paired l → well_paired k → well_paired (l ++ k).
Proof.
  intros Hl Hk. induction Hl as [|m l Hm _ IH|m calls rs l Hr Hc Ha _ IH]; simpl; [done| |].
  - by apply wp_plain.
  - rewrite <- app_assoc. by eapply wp_block.
Qed.

Lemma plain_well_paired l : Forall plain l → well_paired l.
Proof. induction 1; by constructor. Qed.

Section shape.
Context `{PromptManager} `{ModelResponses}.
Variable event_str : Event → string.
Variable cfg : MemoryConfig.

(** The responses of the LLM library are the assistant's, and their calls have ids. *)
Hypothesis response_assistant : ∀ r m, response_message r = Ok m →
  am_role m = None ∨ am_role m = Some "assistant".
Hypothesis response_call_ids : ∀ r m l c, response_message r = Ok m →
  am_tool_calls m = Some l → c ∈ l → ∃ s, tc_id c = Some s ∧ s ≠ "".

Definition pending_ok (p : string * Message) : Prop :=
  msg_role p.2 = R_assistant ∧
  ∀ l c, tool_calls p.2 = Some l → c ∈ l → ∃ s, tc_id c = Some s ∧ s ≠ "".
Definition result_ok (p : string * Message) : Prop :=
  msg_role p.2 = R_tool ∧ tool_call_id p.2 = Some p.1.

Lemma source_role_not_tool e : source_role e ≠ R_tool.
Proof. unfold source_role. intros Hr. by case_bool_decide. Qed.

Lemma process_action_shape vision e a pending e' pending' msgs :
  process_action event_str vision e a pending = Ok (e', pending', msgs) →
  Forall pending_ok pending → Forall pending_ok pending' ∧ Forall plain msgs.
Proof using All.
  intros Hp Hok. unfold process_action in Hp.
  destruct (_ || _) in Hp.
  { destruct (event_tool_call e) as [t|].
    - apply rbind_ok_inv in Hp as (m&Hm&Hp). apply rbind_ok_inv in Hp as (p&Hpm&[= <- <- <-]).
      split; [|done]. apply Forall_dset; [|done]. unfold pending_message in Hpm.
      destruct (response_assistant _ _ Hm) as [Ea|Ea]; rewrite Ea in Hpm; simpl in Hpm;
        injection Hpm as <-; split; simpl; eauto.
    - case_bool_decide; [|done]. injection Hp as <- <- <-. by repeat constructor. }
  assert (∀ content, plain (new_msg (source_role e') content)) as Hplain.
  { intros c. split; [|done]. apply source_role_not_tool. }
  assert (∀ r c, r ≠ R_tool → plain (new_msg r c)) as Hnew by done.
  destruct a; try (injection Hp as <- <- <-; split; [done|];
    try case_bool_decide;
    first [apply Forall_nil_2 | apply Forall_singleton; by first [apply Hplain | apply Hnew]]).
  apply rbind_ok_inv in Hp as (e1&_&[= <- <- <-]). split; [done|]. by apply Forall_singleton.
Qed.

Lemma process_observation_shape max_chars vision index all e o results results' msgs :
  process_observation event_str cfg max_chars vision index all e o results = Ok (results', msgs) →
  Forall result_ok results → Forall result_ok results' ∧ Forall plain msgs.
Proof.
  intros Hp Hok. unfold process_observation in Hp. apply rbind_ok_inv in Hp as (items&_&Hp).
  destruct items as [items|].
  - destruct (event_tool_call e) as [t|]; injection Hp as <- <-; split; try done.
    + by apply Forall_dset.
    + by apply Forall_singleton.
  - injection Hp as <- <-. split; [done|]. unfold knowledge_messages.
    destruct (obs_kind o); try done. destruct (mc_enable_prompt_extensions cfg); [|done].
    destruct (ro_recall_type _); try done. destruct (knowledge_items _ _ _ _); [done|].
    by apply Forall_singleton.
Qed.

(** The results taken are those of the calls, in order. *)
Lemma take_results_shape calls results rs results' :
  take_results calls results = Ok (rs, results') →
  (∀ c, c ∈ calls → ∃ s, tc_id c = Some s ∧ s ≠ "") →
  Forall result_ok results → Forall2 answers calls rs ∧ Forall result_ok results'.
Proof.
  revert results rs. induction calls as [|c calls IH]; simpl; intros results rs Ht Hc Hok.
  { by injection Ht as <- <-. }
  destruct (Hc c) as (s&Es&Hs); [by left|]. rewrite Es in Ht.
  destruct (dget s results) as [m|] eqn:Em; [|done].
  apply rbind_ok_inv in Ht as ([rs1 res1]&Ht&[= <- <-]).
  destruct (IH _ _ Ht) as [Ha Hr]; [intros c' Hc'; apply Hc; by right | by apply Forall_ddel|].
  split; [|done]. constructor; [|done].
  destruct (Forall_dget _ _ _ _ Hok Em) as [Hr1 Hr2]. split; [done|]. rewrite Es. eauto.
Qed.

Lemma complete_pending_shape pending results msgs results' removed :
  complete_pending pending results = Ok (msgs, results', removed) →
  Forall pending_ok pending → Forall result_ok results →
  well_paired msgs ∧ Forall result_ok results'.
Proof.
  revert results msgs results' removed.
  induction pending as [|[rid m] pending IH]; simpl; intros results msgs results' removed Hc Hp Hr.
  { injection Hc as <- <- _. by split; [constructor|]. }
  apply Forall_cons in Hp as [[Hm Hids] Hp]. simpl in Hm, Hids.
  destruct (tool_calls m) as [calls|] eqn:Ec; [|done].
  destruct (forallb _ calls); [|by eapply IH].
  apply rbind_ok_inv in Hc as ([rs res1]&Ht&Hc). simpl in Hc.
  apply rbind_ok_inv in Hc as ([[k res2] rem]&Hk&[= <- <- _]).
  apply take_results_shape in Ht as [Ha Hr1]; [|intros c Hc; by eapply Hids | done].
  apply IH in Hk as [Hk Hr2]; [|done|done]. split; [|done]. by eapply wp_block.
Qed.

Lemma process_loop_shape max_chars vision all index pending results events events' msgs :
  process_loop event_str cfg max_chars vision all index pending results events
    = (events', Ok msgs) →
  Forall pending_ok pending → Forall result_ok results → well_paired msgs.
Proof using All.
  revert index pending results events' msgs. induction events as [|e events IH];
    simpl; intros index pending results events' msgs Hl Hp Hr.
  { injection Hl as _ <-. constructor. }
  match type of Hl with (match ?x with _ => _ end) = _ => destruct x as [[[[e' p'] r'] ms]|] eqn:Es end;
    [|done].
  assert (Forall pending_ok p' ∧ Forall result_ok r' ∧ Forall plain ms) as (Hp'&Hr'&Hms).
  { destruct (ev_body e) as [a|o]; apply rbind_ok_inv in Es as (x&Ex&Es).
    - destruct x as [[e1 p1] m1]. injection Es as <- <- <- <-.
      by apply process_action_shape in Ex as [??].
    - destruct x as [r1 m1]. injection Es as <- <- <- <-.
      by apply process_observation_shape in Ex as [??]. }
  destruct (complete_pending p' r') as [[[dn res] rem]|] eqn:Ec; [|done].
  apply complete_pending_shape in Ec as [Hd Hr2]; [|done|done].
  destruct (process_loop _ _ _ _ _ _ _ _ events) as [ev2 r2] eqn:El. injection Hl as _ Hl.
  apply rbind_ok_inv in Hl as (k&->&[= <-]).
  apply well_paired_app; [by apply plain_well_paired|]. apply well_paired_app; [done|].
  eapply IH; [exact El| |done]. clear -Hp'. revert p' Hp'.
  induction rem as [|i rem IH]; simpl; [done|]. intros p Hp. apply IH. by apply Forall_ddel.
Qed.

(** *** The filter and the formatting keep the shape *)

Definition same_shape (m m' : Message) : Prop :=
  msg_role m' = msg_role m ∧ tool_calls m' = tool_calls m ∧ tool_call_id m' = tool_call_id m.

Lemma answers_shape calls rs rs' :
  Forall2 answers calls rs → Forall2 same_shape rs rs' → Forall2 answers calls rs'.
Proof.
  intros Ha. revert rs'. induction Ha as [|c r calls rs (?&?&?) _ IH]; intros rs' Hrs.
  - by apply Forall2_nil_inv_l in Hrs as ->.
  - apply Forall2_cons_inv_l in Hrs as (r'&rs2&(F1&F2&F3)&Hrs&->). constructor; [|by apply IH].
    split; [congruence|]. by rewrite F3.
Qed.

Lemma well_paired_shape ms ms' : Forall2 same_shape ms ms' → well_paired ms → well_paired ms'.
Proof.
  intros Hs Hw. revert ms' Hs.
  induction Hw as [|m ms Hm _ IH|m calls rs ms Hr Hc Ha _ IH]; intros ms' Hs.
  - apply Forall2_nil_inv_l in Hs as ->. constructor.
  - apply Forall2_cons_inv_l in Hs as (m'&k&(E1&E2&E3)&Hk&->).
    apply wp_plain; [|by apply IH]. destruct Hm. split; congruence.
  - apply Forall2_cons_inv_l in Hs as (m'&k&(E1&E2&E3)&Hk&->).
    apply Forall2_app_inv_l in Hk as (rs'&ms2&Hrs&Hms&->).
    eapply wp_block; [congruence | by rewrite E2 | | by apply IH].
    by eapply answers_shape.
Qed.

Lemma format_messages_shape prev ms : Forall2 same_shape ms (format_messages prev ms).
Proof.
  revert prev. induction ms as [|m ms IH]; intros prev; simpl; [constructor|].
  constructor; [|done]. by destruct (_ && _).
Qed.

Lemma call_ids_app l k : call_ids (l ++ k) = call_ids l ++ call_ids k.
Proof. apply bind_app. Qed.
Lemma response_ids_app l k : response_ids (l ++ k) = response_ids l ++ response_ids k.
Proof. apply bind_app. Qed.

Lemma block_response_ids calls rs c :
  Forall2 answers calls rs → c ∈ calls → ∃ s, tc_id c = Some s ∧ s ∈ response_ids rs.
Proof.
  induction 1 as [|c' r calls rs (Hr&Hi&s&Es&Hs) _ IH]; [by intros ?%not_elem_of_nil|].
  unfold response_ids. csimpl. rewrite Hr, Hi, Es. intros [->|Hc]%elem_of_cons.
  - exists s. split; [done|]. apply elem_of_app. left. simpl. unfold nonempty.
    destruct (String.eqb_spec s ""); [done|]. by left.
  - destruct (IH Hc) as (s'&E'&Hs'). exists s'. split; [done|]. apply elem_of_app. by right.
Qed.

Lemma elem_of_matched ids s : s ∈ ids → matched ids (Some s) = true.
Proof. apply among_elem. Qed.

Lemma block_call_ids calls rs r :
  Forall2 answers calls rs → r ∈ rs →
  ∃ s, tool_call_id r = Some s ∧ s ∈ calls ≫= λ c, nonempty_id (tc_id c).
Proof.
  induction 1 as [|c r' calls rs (Hr&Hi&s&Es&Hs) _ IH]; [by intros ?%not_elem_of_nil|].
  csimpl. rewrite Es. intros [->|Hc]%elem_of_cons.
  - exists s. split; [congruence|]. apply elem_of_app. left. simpl. unfold nonempty.
    destruct (String.eqb_spec s ""); [done|]. by left.
  - destruct (IH Hc) as (s'&E'&Hs'). exists s'. split; [done|]. apply elem_of_app. by right.
Qed.

Lemma well_paired_results ms m :
  well_paired ms → m ∈ ms → msg_role m = R_tool →
  ∃ s, tool_call_id m = Some s ∧ s ∈ call_ids ms.
Proof.
  intros Hw Hm Hr. induction Hw as [|m1 ms [Hm1 _] _ IH|m1 calls rs ms Hr1 Hc Ha _ IH].
  - by apply not_elem_of_nil in Hm.
  - apply elem_of_cons in Hm as [->|Hm]; [done|]. destruct (IH Hm) as (s&?&?). exists s.
    split; [done|]. apply elem_of_app. by right.
  - apply elem_of_cons in Hm as [->|[Hm|Hm]%elem_of_app]; [congruence| |].
    + destruct (block_call_ids _ _ _ Ha Hm) as (s&?&?). exists s. split; [done|].
      unfold call_ids. csimpl. rewrite Hr1, Hc. apply elem_of_app. by left.
    + destruct (IH Hm) as (s&?&?). exists s. split; [done|].
      unfold call_ids. csimpl. rewrite bind_app, !elem_of_app. by right; right.
Qed.

Lemma well_paired_calls ms m l c :
  well_paired ms → m ∈ ms → msg_role m = R_assistant → tool_calls m = Some l → c ∈ l →
  ∃ s, tc_id c = Some s ∧ s ∈ response_ids ms.
Proof.
  intros Hw Hm Hr Hl Hcl. induction Hw as [|m1 ms [_ Hm1] _ IH|m1 calls rs ms Hr1 Hc Ha _ IH].
  - by apply not_elem_of_nil in Hm.
  - apply elem_of_cons in Hm as [->|Hm]; [congruence|]. destruct (IH Hm) as (s&?&?). exists s.
    split; [done|]. apply elem_of_app. by right.
  - unfold response_ids. csimpl. rewrite bind_app. setoid_rewrite elem_of_app.
    setoid_rewrite elem_of_app. apply elem_of_cons in Hm as [->|[Hm|Hm]%elem_of_app].
    + rewrite Hl in Hc. injection Hc as ->. destruct (block_response_ids _ _ _ Ha Hcl) as (s&?&?).
      exists s. by eauto.
    + apply list_elem_of_lookup_1 in Hm as [i Hi].
      destruct (Forall2_lookup_r _ _ _ _ _ Ha Hi) as (c'&_&Hx&_). congruence.
    + destruct (IH Hm) as (s&?&?). exists s. by eauto.
Qed.

(** Messages in this shape have nothing to filter. *)
Lemma filter_well_paired ms : well_paired ms → filter_unmatched_tool_calls ms = ms.
Proof.
  intros Hw. unfold filter_unmatched_tool_calls.
  etrans; [apply Forall_bind_ext with (g := λ m, [m])|].
  2: { clear Hw. induction ms as [|m ms IH]; [done|]. csimpl. by rewrite IH. }
  apply Forall_forall. intros m Hm.
  destruct (msg_role m) eqn:Er; try (by destruct (nonempty_id (tool_call_id m))).
  - destruct (tool_calls m) as [[|c l]|] eqn:Ec; [by destruct (nonempty_id (tool_call_id m))| |by destruct (nonempty_id (tool_call_id m))].
    assert (forallb (λ c0, matched (response_ids ms) (tc_id c0)) (c :: l) = true) as ->; [|done].
    apply forallb_forall. intros c' Hc'%list_elem_of_In.
    destruct (well_paired_calls _ _ _ _ Hw Hm Er Ec Hc') as (s&->&Hs). by apply elem_of_matched.
  - destruct (well_paired_results _ _ Hw Hm Er) as (s&Hi&Hs).
    rewrite Hi, (elem_of_matched _ _ Hs). by destruct (nonempty_id (Some s)), (tool_calls m).
Qed.

(** When every call is answered, the results are taken in the order of the calls. *)
Lemma take_results_all calls ids (d : list (string * Message)) :
  tc_id <$> calls = Some <$> ids → NoDup ids → d.*1 ≡ₚ ids →
  take_results calls d = Ok (omap (λ i, dget i d) ids, []).
Proof.
  revert calls d. induction ids as [|i ids IH]; intros [|c calls] d Hc Hnd Hd; try done.
  { apply Permutation_nil_r, fmap_nil_inv in Hd as ->. done. }
  csimpl in Hc. injection Hc as Hi Hc. simpl. rewrite Hi.
  destruct (dget_key i d) as [m Hm]; [rewrite Hd; by left|]. rewrite Hm.
  pose proof (ddel_keys _ _ _ Hnd Hd) as Hd'. apply NoDup_cons in Hnd as [Hi' Hnd].
  rewrite (IH calls _ Hc Hnd Hd'). simpl. do 3 f_equal.
  apply list_omap_ext, Forall_Forall2_diag, Forall_forall. intros j Hj. rewrite dget_ddel.
  destruct (String.eqb_spec j i) as [->|]; done.
Qed.

(** ** Turns

    A turn of the agent: actions of one response and observations of its calls, in any
    order that ends with an observation. *)

Section turn.
Variables (max_chars : option Z) (vision : bool).

(** The event is an action of the response with id [rid], whose message is [p]. *)
Definition turn_action (rid : string) (p : Message) (e : Event) : Prop :=
  ∃ a, ev_body e = EAction a ∧
  ∀ pending, process_action event_str vision e a pending = Ok (e, dset rid p pending, []).

(** The event is the observation [r] of the call with id [s]. *)
Definition turn_result (s : string) (r : Message) (e : Event) : Prop :=
  ∃ o t items, ev_body e = EObservation o ∧ event_tool_call e = Some t ∧
    tcm_tool_call_id t = s ∧ r = tool_message t items ∧
    observation_items event_str cfg max_chars vision e o = Ok (Some items).

Definition turn_event (rid : string) (p : Message) (x : Event * option (string * Message)) : Prop :=
  match x.2 with
  | None => turn_action rid p x.1
  | Some (s, r) => turn_result s r x.1
  end.

(** The calls of a response, with their ids. *)
Variables (rid : string) (p : Message) (calls : list ToolCall) (ids : list string).
Hypothesis p_calls : tool_calls p = Some calls.
Hypothesis calls_ids : tc_id <$> calls = Some <$> ids.

Lemma unanswered (results : list (string * Message)) i : i ∈ ids → i ∉ results.*1 → forallb (answered results) calls = false.
Proof using p_calls calls_ids.
  intros Hi Hr. apply not_true_is_false. rewrite forallb_forall. intros Hall.
  assert (Some i ∈ tc_id <$> calls) as Hc by (rewrite calls_ids; by apply list_elem_of_fmap_2).
  apply list_elem_of_fmap in Hc as (c&Ec&Hc). specialize (Hall c).
  rewrite <- list_elem_of_In in Hall. specialize (Hall Hc). unfold answered in Hall.
  rewrite <- Ec, dmem_elem in Hall; done.
Qed.

Lemma not_key_app (i : string) (l k : list (string * Message)) : i ∉ (l ++ k).*1 → i ∉ l.*1.
Proof. rewrite fmap_app. intros Hi Hl. apply Hi, elem_of_app. by left. Qed.

Definition is_turn_action (x : Event * option (string * Message)) : bool :=
  match x.2 with None => true | Some _ => false end.
Definition pend (b : bool) : list (string * Message) := if b then [(rid, p)] else [].

(** Before the last observation everything waits. *)
Lemma process_turn_prefix all i tl b results index rest :
  Forall (turn_event rid p) tl → i ∈ ids → i ∉ (results ++ omap snd tl).*1 →
  NoDup (results ++ omap snd tl).*1 →
  process_loop event_str cfg max_chars vision all index (pend b) results (tl.*1 ++ rest) =
  let '(ev, r) := process_loop event_str cfg max_chars vision all (index + py_len tl)
                    (pend (b || existsb is_turn_action tl))
                    (results ++ omap snd tl) rest in
  (tl.*1 ++ ev, r).
Proof using p_calls calls_ids.
  intros Hall Hi. revert b results index. induction Hall as [|[e y] tl Hx Hall IH];
    intros b results index Hri Hnd.
  { csimpl. rewrite orb_false_r, app_nil_r, Z.add_0_r.
    by destruct (process_loop _ _ _ _ _ _ _ _ _). }
  assert (∀ b' results', i ∉ results'.*1 →
    complete_pending (pend b') results' = Ok ([], results', [])) as Hwait.
  { intros b' results' Hn. destruct b'; [|done]. simpl. rewrite p_calls.
    by rewrite (unanswered _ i Hi Hn). }
  replace (index + py_len ((e, y) :: tl)) with (index + 1 + py_len tl) by len_lia.
  destruct y as [[s r]|]; unfold turn_event in Hx; simpl in Hx.
  - destruct Hx as (o&t&items&Hb&Ht&Hs&->&Ho). csimpl in *. rewrite Hb. unfold process_observation.
    rewrite Ho, Ht, Hs. simpl.
    assert (∀ r, results ++ r :: omap snd tl = (results ++ [r]) ++ omap snd tl) as Hassoc
      by (intros; by rewrite <- app_assoc).
    rewrite (dset_fresh s).
    2: { rewrite fmap_app in Hnd. apply NoDup_app in Hnd as (_&Hnd&_). intros Hs'.
         apply (Hnd _ Hs'). csimpl. by left. }
    rewrite Hassoc in Hri, Hnd |- *.
    rewrite Hwait by (by eapply not_key_app). simpl. rewrite IH by done.
    by destruct (process_loop _ _ _ _ _ _ _ _ _) as [ev [k|]].
  - destruct Hx as (a&Hb&Ha). csimpl in *. rewrite Hb, Ha. simpl.
    assert (dset rid p (pend b) = pend true) as ->.
    { destruct b; simpl; [by rewrite String.eqb_refl|done]. }
    rewrite Hwait by (by eapply not_key_app). simpl.
    rewrite (IH true), orb_true_r by done. simpl.
    by destruct (process_loop _ _ _ _ _ _ _ _ _) as [ev [k|]].
Qed.
(** The whole turn: the message with the calls, then the results in their order. *)
Lemma process_turn all tl e s r index rest :
  Forall (turn_event rid p) tl → existsb is_turn_action tl = true → turn_result s r e →
  (omap snd tl ++ [(s, r)]).*1 ≡ₚ ids → NoDup ids →
  process_loop event_str cfg max_chars vision all index [] [] (tl.*1 ++ e :: rest) =
  let '(ev, k) := process_loop event_str cfg max_chars vision all (index + py_len tl + 1)
                    [] [] rest in
  (tl.*1 ++ e :: ev,
   let? k := k in Ok (p :: omap (λ i, dget i (omap snd tl ++ [(s, r)])) ids ++ k)).
Proof using p_calls calls_ids.
  intros Hall Hact Hr Hids Hnd. set (d := omap snd tl ++ [(s, r)]) in *.
  assert (NoDup d.*1) as Hd by (by rewrite Hids).
  assert (s ∉ (omap snd tl).*1) as Hs.
  { subst d. rewrite fmap_app in Hd. apply NoDup_app in Hd as (_&Hd&_). intros Hs.
    apply (Hd _ Hs). csimpl. by left. }
  destruct Hr as (o&t&items&Hb&Ht&Hts&Er&Ho).
  rewrite (process_turn_prefix all s tl false []); [|done| |done|]; cycle 1.
  { rewrite <- Hids. subst d. rewrite fmap_app. apply elem_of_app. right. by left. }
  { subst d. rewrite fmap_app in Hd. by apply NoDup_app in Hd as (Hd&_). }
  rewrite Hact. simpl. rewrite Hb. unfold process_observation. rewrite Ho, Ht, Hts. simpl.
  rewrite <- Er, dset_fresh by done. fold d. rewrite p_calls.
  assert (forallb (answered d) calls = true) as ->.
  { apply forallb_forall. intros c Hc%list_elem_of_In.
    assert (tc_id c ∈ Some <$> ids) as Hi by (rewrite <- calls_ids; by apply list_elem_of_fmap_2).
    apply list_elem_of_fmap in Hi as (i&Ei&Hi). unfold answered. rewrite Ei. unfold dmem.
    destruct (dget_key i d) as [v ->]; [by rewrite Hids|done]. }
  rewrite (take_results_all calls ids d) by done. simpl. rewrite String.eqb_refl.
  destruct (process_loop _ _ _ _ _ _ _ _ rest) as [ev [k|]]; simpl; [|done].
  by rewrite app_nil_r.
Qed.
End turn.

(** *** Histories of complete turns *)

(** A message of the user or the agent, or the system's, shown at once. *)
Definition shown_message (vision : bool) (e : Event) : option Message :=
  match ev_body e with
  | EAction (AMessage a) => Some (new_msg (source_role e) (message_items (source_role e) vision a))
  | EAction (ASystemMessage a) => Some (new_msg R_system [text (sma_content a)])
  | _ => None
  end.

(** [renders events ms]: a history of messages and complete turns, and what it shows. *)
Inductive renders (max_chars : option Z) (vision : bool) : list Event → list Message → Prop :=
  | renders_nil : renders max_chars vision [] []
  | renders_message e m events ms :
      shown_message vision e = Some m → renders max_chars vision events ms →
      renders max_chars vision (e :: events) (m :: ms)
  | renders_turn rid p calls ids tl e s r events ms :
      tool_calls p = Some calls → tc_id <$> calls = Some <$> ids → NoDup ids →
      Forall (turn_event max_chars vision rid p) tl → existsb is_turn_action tl = true →
      turn_result max_chars vision s r e → (omap snd tl ++ [(s, r)]).*1 ≡ₚ ids →
      renders max_chars vision events ms →
      renders max_chars vision (tl.*1 ++ e :: events)
        (p :: omap (λ i, dget i (omap snd tl ++ [(s, r)])) ids ++ ms).

Lemma process_loop_renders max_chars vision all events ms :
  renders max_chars vision events ms → ∀ index,
  process_loop event_str cfg max_chars vision all index [] [] events = (events, Ok ms).
Proof.
  induction 1 as [|e m events ms Hm _ IH|rid p calls ids tl e s r events ms
    Hp Hc Hnd Hall Hact Hr Hids _ IH]; intros index; simpl; [done| |].
  - unfold shown_message in Hm. destruct (ev_body e) as [[]|]; try done; injection Hm as <-;
      simpl; by rewrite IH.
  - rewrite (process_turn max_chars vision rid p calls ids Hp Hc all tl e s r) by done.
    by rewrite IH.
Qed.

Lemma renders_app max_chars vision l k ms ns :
  renders max_chars vision l ms → renders max_chars vision k ns → renders max_chars vision (l ++ k) (ms ++ ns).
Proof using All.
  intros Hl Hk. induction Hl as [|e m l ms Hm _ IH|rid p calls ids tl e s r l ms Hp Hc Hnd Hall Hact Hr Hids _ IH]; [done| |].
  - by constructor.
  - rewrite <- app_assoc. simpl. rewrite <- app_assoc. by eapply renders_turn.
Qed.
Lemma process_events_renders initial forgotten max_chars vision e0 e1 events ms :
  is_system_action e0 = true → is_user_message e1 = true →
  renders max_chars vision (e0 :: e1 :: events) ms →
  process_events event_str cfg initial forgotten max_chars vision (e0 :: e1 :: events)
    = (e0 :: e1 :: events, Ok (apply_user_message_formatting ms)).
Proof using All.
  intros H0' H1 Hr. pose proof (process_loop_renders _ _ (e0 :: e1 :: events) _ _ Hr 0) as Hl.
  unfold process_events, ensure_system_message, ensure_initial_user_message.
  cbn [existsb]. rewrite H0'. cbn [orb]. rewrite H1.
  assert (∀ b : bool, (if b then e0 :: e1 :: events else e0 :: e1 :: events) = e0 :: e1 :: events)
    as -> by (by intros []).
  rewrite Hl. cbn [rbind]. do 3 f_equal.
  apply filter_well_paired. by eapply process_loop_shape; [exact Hl| |].
Qed.

(** C5 The request made from a history that starts with the system's message and a user
    message and goes on with messages and complete turns: every turn appears as the
    assistant's message followed by the results in the order of its calls, whatever the
    order in which the actions and observations came, nothing is dropped, and the history
    is left as it was. *)
Theorem process_events_turns initial forgotten max_chars vision e0 e1 events ms :
  is_system_action e0 = true → is_user_message e1 = true →
  renders max_chars vision (e0 :: e1 :: events) ms →
  process_events event_str cfg initial forgotten max_chars vision (e0 :: e1 :: events)
    = (e0 :: e1 :: events, Ok (apply_user_message_formatting ms)).
Proof using All. apply process_events_renders. Qed.

Lemma process_events_paired initial forgotten max_chars vision events events' msgs :
  process_events event_str cfg initial forgotten max_chars vision events = (events', Ok msgs) →
  well_paired msgs.
Proof using All.
  unfold process_events. destruct (process_loop _ _ _ _ _ _ _ _ _) as [ev [ms|x]] eqn:El; [|done].
  cbn [rbind]. intros [= _ <-].
  assert (well_paired ms) as Hw by (by eapply process_loop_shape; [exact El| |]).
  rewrite (filter_well_paired _ Hw). eapply well_paired_shape; [apply format_messages_shape|done].
Qed.

(** C21 Whatever the history (turns cut off by a condensation, calls without answers, answers
    without calls), in a request that is built every message with tool calls is
    followed at once by the results of these calls, in their order, and no other result
    appears. *)
Theorem process_events_shape initial forgotten max_chars vision events events' msgs :
  process_events event_str cfg initial forgotten max_chars vision events = (events', Ok msgs) →
  well_paired msgs.
Proof using All. apply process_events_paired. Qed.
End shape.

(** The filter of unmatched tool calls: an id is left among the assistants' calls, and
    among the tools' results, exactly when the request has both its call and its result;
    so the two sets of ids left are the same, and filtering again changes no id. *)
Theorem filter_matches ms s :
  (s ∈ call_ids (filter_unmatched_tool_calls ms) ↔ s ∈ call_ids ms ∧ s ∈ response_ids ms) ∧
  (s ∈ response_ids (filter_unmatched_tool_calls ms) ↔ s ∈ call_ids ms ∧ s ∈ response_ids ms) ∧
  call_ids (filter_unmatched_tool_calls (filter_unmatched_tool_calls ms))
    = call_ids (filter_unmatched_tool_calls ms).
Proof.
  split; [apply elem_of_filter_calls|]. split; [apply elem_of_filter_responses|].
  rewrite filter_call_ids. apply py_filter_all. intros t Ht. apply among_elem.
  rewrite elem_of_filter_responses. by rewrite elem_of_filter_calls in Ht.
Qed.

(** ** Caching *)

Definition answer_role (r : Role) : bool := bool_decide (r = R_user) || bool_decide (r = R_tool).

Lemma cache_first_answer_skip l k :
  Forall (λ m, answer_role (msg_role m) = false) l →
  cache_first_answer (l ++ k) = let? k := cache_first_answer k in Ok (l ++ k).
Proof.
  induction 1 as [|m l Hm _ IH]; simpl; [by destruct (cache_first_answer k)|].
  unfold answer_role in Hm. rewrite Hm, IH. by destruct (cache_first_answer k).
Qed.

(** The marks of a request: the last item of the system's message and the last item of
    the last message of the user or a tool. *)
Theorem apply_prompt_caching_spec s pre m suf s' m' :
  msg_role s = R_system → answer_role (msg_role m) = true →
  Forall (λ m, answer_role (msg_role m) = false) suf →
  cache_last s = Ok s' → cache_last m = Ok m' →
  apply_prompt_caching (s :: pre ++ m :: suf) = Ok (s' :: pre ++ m' :: suf).
Proof.
  intros Hs Hm Hsuf Es Em. unfold apply_prompt_caching.
  rewrite bool_decide_true, Es by done. simpl.
  rewrite reverse_cons, reverse_app, reverse_cons, <- !app_assoc.
  rewrite cache_first_answer_skip by (by apply Forall_reverse). simpl.
  unfold answer_role in Hm. rewrite Hm, Em. simpl. f_equal.
  apply (inj reverse). rewrite reverse_involutive, !reverse_cons, reverse_app, reverse_cons.
  by rewrite <- !app_assoc.
Qed.

Lemma same_shape_refl ms : Forall2 same_shape ms ms.
Proof. induction ms; by constructor. Qed.
Lemma cache_last_shape m m' : cache_last m = Ok m' → same_shape m m'.
Proof. unfold cache_last. by destruct (reverse _); intros [= <-]. Qed.
Lemma cache_first_answer_shape ms ms' : cache_first_answer ms = Ok ms' → Forall2 same_shape ms ms'.
Proof.
  revert ms'. induction ms as [|m ms IH]; simpl; intros ms'; [by intros [= <-]|].
  destruct (_ || _); intros (x&Hx&[= <-])%rbind_ok_inv; constructor;
    eauto using cache_last_shape, same_shape_refl. done.
Qed.
(** The marks change no role and no call. *)
Lemma apply_prompt_caching_shape ms ms' :
  apply_prompt_caching ms = Ok ms' → Forall2 same_shape ms ms'.
Proof.
  unfold apply_prompt_caching. intros (k&Hk&Hr)%rbind_ok_inv.
  apply rbind_ok_inv in Hr as (r&Hr&[= <-]). apply cache_first_answer_shape in Hr.
  assert (Forall2 same_shape ms k) as H1.
  { destruct ms as [|m ms]; [injection Hk as <-; constructor|].
    case_bool_decide; [|injection Hk as <-; apply same_shape_refl].
    apply rbind_ok_inv in Hk as (m1&Hm&[= <-]). constructor; eauto using cache_last_shape, same_shape_refl. }
  apply Forall2_reverse in Hr. rewrite reverse_involutive in Hr. clear Hk.
  generalize dependent (reverse r). clear r. induction H1 as [|a b ms k (A1&A2&A3) _ IH]; intros r Hr.
  - apply Forall2_nil_inv_l in Hr as ->. constructor.
  - apply Forall2_cons_inv_l in Hr as (c&l&(B1&B2&B3)&Hl&->). constructor; [split_and!; congruence|by apply IH].
Qed.

(** ** Witnesses *)

Module example.
#[local] Instance templates : PromptManager :=
  {| pm_system_message := λ _, "You are an agent."; pm_workspace_context := λ _ _ _ _, "context";
     pm_microagent_info := λ _, "knowledge" |}.

(** One response with two calls. *)
Definition two_calls : list ToolCall :=
  [mkToolCall (Some "a") "think" "{}"; mkToolCall (Some "b") "think" "{}"].
#[local] Instance responses : ModelResponses :=
  {| response_id := λ _, "r1"; response_choices := λ _, 1;
     response_message := λ _, Ok (mkAssistantMessage (Some "assistant") (Some "Thinking.")
                                    (Some two_calls)) |}.

Definition cfg : MemoryConfig := mkMemoryConfig false false true [] "1.0".
Definition meta (i : string) : ToolCallMetadata := mkToolCallMetadata "think" i JNull 2.
Definition think (i : string) : Event :=
  set_source (Some AGENT) (set_tool_call (Some (meta i))
    (new_action (AAgentThink (mkAgentThinkAction "hm")))).
Definition thought (i : string) : Event :=
  set_tool_call (Some (meta i)) (new_obs ("logged " +:+ i) OAgentThink).
Definition user : Event :=
  set_source (Some USER) (new_action (AMessage (mkMessageAction "Hello" None None false RISK_UNKNOWN))).
Definition system : Event :=
  new_action (ASystemMessage (mkSystemMessageAction "You are an agent." None (Some "1.0") None)).

(** The second call is answered first. *)
Definition turn : list (Event * option (string * Message)) :=
  [(think "a", None); (think "b", None);
   (thought "b", Some ("b", tool_message (meta "b") [text "logged b"]))].
Definition history : list Event := system :: user :: turn.*1 ++ [thought "a"].
Definition assistant : Message :=
  set_tool_calls (Some two_calls) (new_msg R_assistant [text "Thinking."]).

Lemma responses_assistant r m :
  response_message r = Ok m → am_role m = None ∨ am_role m = Some "assistant".
Proof. intros [= <-]. by right. Defined.
Lemma responses_ids r m l c :
  response_message r = Ok m → am_tool_calls m = Some l → c ∈ l → ∃ s, tc_id c = Some s ∧ s ≠ "".
Proof.
  intros [= <-] [= <-] Hc. repeat (apply elem_of_cons in Hc as [->|Hc]; [by eexists|]).
  by apply not_elem_of_nil in Hc.
Defined.

Lemma process_events_turns_witness :
  process_events (λ _, "") cfg user [] None false history =
  (history, Ok [new_msg R_system [text "You are an agent."]; new_msg R_user [text "Hello"];
                assistant; tool_message (meta "a") [text "logged a"];
                tool_message (meta "b") [text "logged b"]]).
Proof.
  apply (process_events_turns (λ _, "") cfg responses_assistant responses_ids user [] None false
           system user (turn.*1 ++ [thought "a"])
           [new_msg R_system [text "You are an agent."]; new_msg R_user [text "Hello"];
            assistant; tool_message (meta "a") [text "logged a"];
            tool_message (meta "b") [text "logged b"]]); [reflexivity|reflexivity|].
  apply renders_message; [reflexivity|]. apply renders_message; [reflexivity|].
  apply (renders_turn _ _ None false "r1" assistant two_calls ["a"; "b"] turn (thought "a") "a"
           (tool_message (meta "a") [text "logged a"]) [] []); try reflexivity.
  - repeat constructor; set_solver.
  - repeat constructor; by repeat eexists.
  - by repeat eexists.
  - apply Permutation_swap.
  - constructor.
Defined.

Lemma process_events_shape_witness :
  well_paired [new_msg R_system [text "You are an agent."]; new_msg R_user [text "Hello"];
               assistant; tool_message (meta "a") [text "logged a"];
               tool_message (meta "b") [text "logged b"]].
Proof.
  apply (process_events_shape (λ _, "") cfg responses_assistant responses_ids user [] None false
           (user :: turn.*1 ++ [thought "a"; think "a"]) (history ++ [think "a"])).
  vm_compute. reflexivity.
Defined.
End example.
