(* ===== verification/Microagent.v ===== *)
(** * Microagents

    Models [openhands/microagent/microagent.py] and [microagent/types.py]: texts that are
    given to the agent, loaded from markdown files with a front matter.  A path is the
    list of its parts.  Parameters: the files ([FileTree]) and the libraries that split
    the front matter off and validate it ([FrontMatter]: frontmatter and pydantic).  The
    messages of the errors name the file; the library's text in them is left out. *)

From S2P Require Import Prelude PyValue.
Local Open Scope Z_scope.
Local Open Scope py_scope.

(** ** Data *)

Inductive MicroagentType := MT_KNOWLEDGE | MT_REPO_KNOWLEDGE | MT_TASK.
#[export] Instance MicroagentType_eq_dec : EqDecision MicroagentType.
Proof. solve_decision. Defined.

Record InputMetadata := mkInputMetadata { in_name : string; in_description : string }.

(** What is read of a [MCPConfig]. *)
Record MCPConfig := mkMCPConfig {
  sse_servers : list json;
  stdio_servers : list json;
  shttp_servers : list json;
}.

Record MicroagentMetadata := mkMicroagentMetadata {
  md_name : string;
  md_type : MicroagentType;
  md_version : string;
  md_agent : string;
  md_triggers : list string;
  md_inputs : list InputMetadata;
  md_mcp_tools : option MCPConfig;
}.
Definition default_metadata (name : string) : MicroagentMetadata :=
  mkMicroagentMetadata name MT_REPO_KNOWLEDGE "1.0.0" "CodeActAgent" [] [] None.
Definition set_triggers (l : list string) (m : MicroagentMetadata) : MicroagentMetadata :=
  mkMicroagentMetadata (md_name m) (md_type m) (md_version m) (md_agent m) l (md_inputs m)
    (md_mcp_tools m).

(** The subclasses of [BaseMicroagent]. *)
Inductive MicroagentClass := KnowledgeMicroagent | RepoMicroagent | TaskMicroagent.
#[export] Instance MicroagentClass_eq_dec : EqDecision MicroagentClass.
Proof. solve_decision. Defined.

Record Microagent := mkMicroagent {
  ag_class : MicroagentClass;
  ag_name : string;
  ag_content : string;
  ag_metadata : MicroagentMetadata;
  ag_source : string;
  ag_type : MicroagentType;
}.
Definition ag_triggers (a : Microagent) : list string := md_triggers (ag_metadata a).

(** ** Triggers *)

(** [match_trigger]: the first trigger that occurs in the message, without case. *)
Definition match_trigger (a : Microagent) (message : string) : option string :=
  let message := str_lower message in
  py_find (λ t, str_contains (str_lower t) message) (ag_triggers a).

(** ** Variables *)

Definition is_letter (c : ascii) : bool :=
  let n := Ascii.nat_of_ascii c in
  (Nat.leb 65 n && Nat.leb n 90) || (Nat.leb 97 n && Nat.leb n 122).
Definition is_ident_start (c : ascii) : bool := is_letter c || Ascii.eqb c "_".
Definition is_ident_char (c : ascii) : bool :=
  let n := Ascii.nat_of_ascii c in is_ident_start c || (Nat.leb 48 n && Nat.leb n 57).

(** The characters [a-zA-Z0-9_] at the front, and the rest. *)
Fixpoint span_ident (s : string) : string * string :=
  match s with
  | String c s' => if is_ident_char c then let '(a, b) := span_ident s' in (String c a, b)
                   else (EmptyString, s)
  | EmptyString => (EmptyString, EmptyString)
  end.

(** A reference to a variable at the front (a dollar sign and an identifier in braces):
    the variable's name. *)
Definition match_variable (s : string) : option string :=
  match s with
  | String "$"%char (String "{"%char (String c s)) =>
      if is_ident_start c then
        let '(a, b) := span_ident s in
        match b with String "}"%char _ => Some (String c a) | _ => None end
      else None
  | _ => None
  end.

(** [extract_variables]: a match contains no further dollar sign, so that the matches
    are found at every position. *)
Fixpoint extract_variables (s : string) : list string :=
  match s with
  | EmptyString => []
  | String _ s' => (match match_variable s with Some v => [v] | None => [] end)
                   ++ extract_variables s'
  end.

Definition requires_user_input (content : string) : bool :=
  match extract_variables content with [] => false | _ => true end.

Definition MISSING_VARIABLES_PROMPT : string :=
  nl +:+ nl +:+ "If the user didn't provide any of these variables, ask the user to provide them " +:+
  "first before the agent can proceed with the task.".

(** [_append_missing_variables_prompt] *)
Definition append_missing_variables_prompt (content : string) (m : MicroagentMetadata) : string :=
  if negb (requires_user_input content) && (match md_inputs m with [] => true | _ => false end)
  then content else content +:+ MISSING_VARIABLES_PROMPT.

(** ** Constructors: the class checks the type *)

Definition new_microagent (cls : MicroagentClass) (name content : string) (m : MicroagentMetadata)
    (source : string) (t : MicroagentType) : result Microagent :=
  match cls with
  | KnowledgeMicroagent =>
      if bool_decide (t = MT_KNOWLEDGE) || bool_decide (t = MT_TASK)
      then Ok (mkMicroagent cls name content m source t)
      else Raise (ValueError "KnowledgeMicroagent must have type KNOWLEDGE or TASK")
  | RepoMicroagent =>
      if bool_decide (t = MT_REPO_KNOWLEDGE) then Ok (mkMicroagent cls name content m source t)
      else Raise (ValueError "RepoMicroagent initialized with incorrect type")
  | TaskMicroagent =>
      if bool_decide (t = MT_TASK)
      then Ok (mkMicroagent cls name (append_missing_variables_prompt content m) m source t)
      else if bool_decide (t = MT_KNOWLEDGE)
      then Raise (ValueError "TaskMicroagent initialized with incorrect type")
      else Raise (ValueError "KnowledgeMicroagent must have type KNOWLEDGE or TASK")
  end.

(** ** Paths *)

Abbreviation path := (list string).
Definition path_name (p : path) : string := from_option id "" (last p).
Definition path_parent (p : path) : path := take (length p - 1) p.
Definition path_str (p : path) : string := str_join "/" p.

(** [p.relative_to(d)] *)
Fixpoint relative_to (p d : path) : result path :=
  match d, p with
  | [], p => Ok p
  | x :: d, y :: p => if String.eqb x y then relative_to p d
                      else Raise (ValueError "is not in the subpath of")
  | _ :: _, [] => Raise (ValueError "is not in the subpath of")
  end.

(** [p.with_suffix('')]: the last dot of the name starts the suffix, unless it is the
    name's first or last character. *)
Definition stem (name : string) : string :=
  match reverse (str_split "." name) with
  | suffix :: ((_ :: _) as parts) =>
      let base := str_join "." (reverse parts) in
      if String.eqb suffix "" || String.eqb base "" then name else base
  | _ => name
  end.
Definition without_suffix (p : path) : path :=
  match last p with Some n => path_parent p ++ [stem n] | None => p end.

(** ** Loading *)

Class FileTree := {
  path_exists : path → bool;
  path_read : path → result string;
  rglob_md : path → list path;
}.
Class FrontMatter := {
  frontmatter_load : string → result (dict * string);
  validate_metadata : dict → result MicroagentMetadata;
  json_str : json → string;
}.

Definition third_party_name (p : path) : option string :=
  dget (str_lower (path_name p))
    [(".cursorrules", "cursorrules"); ("agents.md", "agents"); ("agent.md", "agents")].

Definition MicroagentValidationError (msg : string) : py_exc :=
  OtherError "MicroagentValidationError" msg.

Section loading.
Context `{FrontMatter}.

(** The metadata, with the version made a string and the MCP servers checked. *)
Definition load_metadata (p : path) (d : dict) : result MicroagentMetadata :=
  let d := match dget "version" d with
           | Some (JStr _) | None => d
           | Some v => dset "version" (JStr (json_str v)) d
           end in
  let error := MicroagentValidationError
                 ("Error validating microagent metadata in " +:+ path_name p) in
  match validate_metadata d with
  | Raise _ => Raise error
  | Ok m => match md_mcp_tools m with
            | Some c => match stdio_servers c with [] => Raise error | _ => Ok m end
            | None => Ok m
            end
  end.

(** The type a microagent is given, and its metadata with the trigger of a task. *)
Definition infer_type (m : MicroagentMetadata) : MicroagentType * MicroagentMetadata :=
  match md_inputs m with
  | _ :: _ =>
      let trigger := "/" +:+ md_name m in
      (MT_TASK, if existsb (String.eqb trigger) (md_triggers m) then m
                else set_triggers (md_triggers m ++ [trigger]) m)
  | [] => match md_triggers m with
          | _ :: _ => (MT_KNOWLEDGE, m)
          | [] => (MT_REPO_KNOWLEDGE, m)
          end
  end.
Definition subclass_of (t : MicroagentType) : MicroagentClass :=
  match t with
  | MT_KNOWLEDGE => KnowledgeMicroagent | MT_REPO_KNOWLEDGE => RepoMicroagent
  | MT_TASK => TaskMicroagent
  end.

(** A file that is instructions as a whole. *)
Definition whole_file (name : string) (p : path) (content : string) : result Microagent :=
  new_microagent RepoMicroagent name content (default_metadata name) (path_str p) MT_REPO_KNOWLEDGE.

(** [BaseMicroagent.load] with the contents of the file. *)
Definition load_content (p : path) (derived_name : option string) (file_content : string) :
    result Microagent :=
  if String.eqb (path_name p) ".openhands_instructions" then whole_file "repo_legacy" p file_content
  else match third_party_name p with
  | Some name => whole_file name p file_content
  | None =>
      let? loaded := frontmatter_load file_content in
      let? m := load_metadata p loaded.1 in
      let '(t, m) := infer_type m in
      new_microagent (subclass_of t) (from_option id (md_name m) derived_name) loaded.2 m
        (path_str p) t
  end.

Context `{FileTree}.

(** [BaseMicroagent.load] *)
Definition load (p : path) (microagent_dir : option path) : result Microagent :=
  let? derived_name :=
    match microagent_dir with
    | None => Ok None
    | Some d => match third_party_name p with
                | Some n => Ok (Some n)
                | None => let? r := relative_to p d in Ok (Some (path_str (without_suffix r)))
                end
    end in
  let? file_content := path_read p in
  load_content p derived_name file_content.

Abbreviation registry := (list (string * Microagent)).

(** Repository agents and knowledge agents by name; tasks are knowledge agents. *)
Definition register (a : Microagent) (r : registry * registry) : registry * registry :=
  match ag_class a with
  | RepoMicroagent => (dset (ag_name a) a r.1, r.2)
  | _ => (r.1, dset (ag_name a) a r.2)
  end.

Definition is_validation_error (e : py_exc) : bool :=
  match e with OtherError c _ => String.eqb c "MicroagentValidationError" | _ => false end.

Fixpoint load_files (dir : path) (files : list path) (r : registry * registry) :
    result (registry * registry) :=
  match files with
  | [] => Ok r
  | p :: files =>
      match load p (Some dir) with
      | Ok a => load_files dir files (register a r)
      | Raise e =>
          let msg := "Error loading microagent from " +:+ path_str p in
          Raise (if is_validation_error e then MicroagentValidationError msg else ValueError msg)
      end
  end.

(** The files of [load_microagents_from_dir]: two kinds of files in the repository's
    root, then the markdown files of the directory. *)
Definition special_files (repo_root : path) : list path :=
  py_filter path_exists [repo_root ++ [".cursorrules"]]
  ++ match py_find (λ n, path_exists (repo_root ++ [n]))
             ["AGENTS.md"; "agents.md"; "AGENT.md"; "agent.md"] with
     | Some n => [repo_root ++ [n]]
     | None => []
     end.
Definition md_files (dir : path) : list path :=
  if path_exists dir
  then py_filter (λ p, negb (String.eqb (path_name p) "README.md")) (rglob_md dir) else [].

(** [load_microagents_from_dir] *)
Definition load_microagents_from_dir (dir : path) : result (registry * registry) :=
  load_files dir (special_files (path_parent (path_parent dir)) ++ md_files dir) ([], []).
End loading.

(** ** Lemmas *)

Lemma ascii_lower_idemp c : ascii_lower (ascii_lower c) = ascii_lower c.
Proof. by destruct c as [[] [] [] [] [] [] [] []]. Qed.
Lemma str_lower_idemp s : str_lower (str_lower s) = str_lower s.
Proof. induction s as [|c s IH]; simpl; [done|]. by rewrite ascii_lower_idemp, IH. Qed.

(** Triggers match without case. *)
Lemma match_trigger_lower a message : match_trigger a (str_lower message) = match_trigger a message.
Proof. unfold match_trigger. by rewrite str_lower_idemp. Qed.

Lemma py_find_spec {A} (f : A → bool) l x :
  py_find f l = Some x ↔
  ∃ l1 l2, l = l1 ++ x :: l2 ∧ f x = true ∧ Forall (λ y, f y = false) l1.
Proof.
  induction l as [|y l IH]; simpl.
  { split; [done|]. by intros ([|? ?]&?&?&_). }
  destruct (f y) eqn:Ey.
  - split.
    + intros [= ->]. by exists [], l.
    + intros ([|z l1]&l2&[= -> ->]&Hx&Hl1); [done|]. apply Forall_cons in Hl1 as [Hz _]. congruence.
  - rewrite IH. split.
    + intros (l1&l2&->&Hx&Hl1). exists (y :: l1), l2. by rewrite Forall_cons.
    + intros ([|z l1]&l2&[= -> ->]&Hx&Hl1); [congruence|]. apply Forall_cons in Hl1 as [_ Hl1].
      by exists l1, l2.
Qed.

(** ** What is loaded is well typed *)

(** The class, the type, the triggers and the inputs of a microagent agree; a task is triggered
    by the name of its metadata and asks for its inputs. *)
Definition well_typed (a : Microagent) : Prop :=
  match ag_class a with
  | RepoMicroagent => ag_type a = MT_REPO_KNOWLEDGE ∧ ag_triggers a = []
  | KnowledgeMicroagent =>
      ag_type a = MT_KNOWLEDGE ∧ ag_triggers a ≠ [] ∧ md_inputs (ag_metadata a) = []
  | TaskMicroagent =>
      ag_type a = MT_TASK ∧ "/" +:+ md_name (ag_metadata a) ∈ ag_triggers a
      ∧ md_inputs (ag_metadata a) ≠ []
      ∧ endswith (ag_content a) MISSING_VARIABLES_PROMPT = true
  end.

Definition entry_ok (repo : bool) (e : string * Microagent) : Prop :=
  ag_name e.2 = e.1 ∧ well_typed e.2 ∧ bool_decide (ag_class e.2 = RepoMicroagent) = repo.

Section typed.
Context `{FrontMatter} `{FileTree}.

Lemma load_content_typed p dn fc a : load_content p dn fc = Ok a → well_typed a.
Proof.
  unfold load_content. destruct (String.eqb _ _); [by intros [= <-]|].
  destruct (third_party_name p); [by intros [= <-]|].
  intros (l&_&(m&_&Hm)%rbind_ok_inv)%rbind_ok_inv. revert Hm. unfold infer_type.
  destruct (md_inputs m) as [|i is_] eqn:Ei; [destruct (md_triggers m) as [|t ts] eqn:Et|].
  1, 2: intros [= <-]; unfold well_typed, ag_triggers; simpl; by rewrite ?Ei, ?Et.
  assert (∃ m', (if existsb (String.eqb ("/" +:+ md_name m)) (md_triggers m) then m
                 else set_triggers (md_triggers m ++ ["/" +:+ md_name m]) m) = m'
    ∧ "/" +:+ md_name m' ∈ md_triggers m' ∧ md_inputs m' = i :: is_) as (m'&->&Ht&Hi).
  { destruct (existsb _ _) eqn:Ex; eexists; (split; [reflexivity|]); simpl; (split; [|done]).
    - apply existsb_exists in Ex as (t&Ht&->%String.eqb_eq). by apply list_elem_of_In.
    - apply elem_of_app. right. by left. }
  intros [= <-]. unfold well_typed, ag_triggers. simpl. rewrite Hi. split_and!; try done.
  unfold append_missing_variables_prompt. rewrite Hi, andb_false_r. apply endswith_append.
Qed.

Lemma register_ok a r :
  well_typed a → Forall (entry_ok true) r.1 ∧ Forall (entry_ok false) r.2 →
  Forall (entry_ok true) (register a r).1 ∧ Forall (entry_ok false) (register a r).2.
Proof.
  intros Ha [H1 H2]. unfold register. destruct (ag_class a) eqn:E; simpl; (split; [|]); try done;
    apply Forall_dset; try done; unfold entry_ok; simpl; by rewrite E.
Qed.

Lemma load_files_typed dir files r r' :
  load_files dir files r = Ok r' → Forall (entry_ok true) r.1 ∧ Forall (entry_ok false) r.2 →
  Forall (entry_ok true) r'.1 ∧ Forall (entry_ok false) r'.2.
Proof.
  revert r. induction files as [|p files IH]; simpl; intros r; [by intros [= <-]|].
  destruct (load p (Some dir)) as [a|e] eqn:El; [|done].
  intros Hl Hr. apply (IH _ Hl). apply register_ok; [|done].
  unfold load in El. apply rbind_ok_inv in El as (dn&_&El).
  apply rbind_ok_inv in El as (fc&_&El). by eapply load_content_typed.
Qed.

(** C26 What is loaded from a directory is well typed: the registries hold every microagent
    under its name; the repository's ones have no triggers and are always shown, the
    others have a trigger, and a task is triggered by a slash and the name of its metadata
    (which need not be the name it is registered under, see [task_trigger_not_its_name])
    and asks for its inputs, whatever the front matter declares as the type. *)
Theorem load_dir_typed dir repo knowledge :
  load_microagents_from_dir dir = Ok (repo, knowledge) →
  Forall (entry_ok true) repo ∧ Forall (entry_ok false) knowledge.
Proof.
  intros Hl. by apply (load_files_typed dir _ _ (repo, knowledge) Hl).
Qed.
End typed.

(** A repository with a root file, a task and a knowledge agent that says it is one of the
    repository's. *)
Module tree.
Definition task_meta : MicroagentMetadata :=
  mkMicroagentMetadata "fix" MT_REPO_KNOWLEDGE "1.0.0" "CodeActAgent" [] [mkInputMetadata "PR" "a PR"]
    None.
Definition git_meta : MicroagentMetadata :=
  mkMicroagentMetadata "git" MT_REPO_KNOWLEDGE "1.0.0" "CodeActAgent" ["git"] [] None.
#[local] Instance front : FrontMatter :=
  {| frontmatter_load s := Ok ([("name", JStr s)], "text of " +:+ s);
     validate_metadata d :=
       match dget "name" d with
       | Some (JStr "fix") => Ok task_meta
       | Some (JStr "git") => Ok git_meta
       | _ => Raise (ValueError "")
       end;
     json_str _ := "" |}.
#[local] Instance files : FileTree :=
  {| path_exists p := bool_decide (p = ["repo"; "AGENTS.md"])
                      || bool_decide (p = ["repo"; ".openhands"; "microagents"]);
     path_read p := Ok (stem (path_name p));
     rglob_md p := [p ++ ["README.md"]; p ++ ["sub"; "fix.md"]; p ++ ["git.md"]] |}.
Definition dir : path := ["repo"; ".openhands"; "microagents"].
Definition loaded : list (string * Microagent) * list (string * Microagent) :=
  Eval vm_compute in match load_microagents_from_dir dir with Ok r => r | Raise _ => ([], []) end.

Lemma load_dir_typed_witness :
  loaded.1.*1 = ["agents"] ∧ loaded.2.*1 = ["sub/fix"; "git"]
  ∧ Forall (entry_ok true) loaded.1 ∧ Forall (entry_ok false) loaded.2.
Proof.
  split; [reflexivity|]. split; [reflexivity|].
  apply (load_dir_typed dir loaded.1 loaded.2). vm_compute. reflexivity.
Defined.

(** A task in a directory is registered, and shown, under its path, but triggered by the name
    in its front matter. *)
Example task_trigger_not_its_name :
  (λ a, (ag_name a, ag_triggers a)) <$> dget "sub/fix" loaded.2 = Some ("sub/fix", ["/fix"]).
Proof. reflexivity. Qed.
End tree.
