(* ===== verification/Memory.v ===== *)
(** * The memory component

    Models [openhands/memory/memory.py]: the component that answers the recall actions on
    the stream, with what it knows of the workspace and with the microagents whose
    triggers occur in the query.  The stream is what [emit] publishes on; the status
    callback's calls are listed. *)

From S2P Require Import Prelude PyValue Schema Actions Observations Events.
From S2P Require Import ControlFlags Metrics State Message Microagent.
Local Open Scope Z_scope.
Local Open Scope py_scope.

Record Memory := mkMemory {
  mem_has_callback : bool;
  repo_microagents : list (string * Microagent);
  knowledge_microagents : list (string * Microagent);
  repository_info : option RepositoryInfo;
  runtime_info : option RuntimeInfo;
  conversation_instructions : option string;
  mem_status : list (string * string);
}.
Definition set_agents (repo knowledge : list (string * Microagent)) (m : Memory) : Memory :=
  mkMemory (mem_has_callback m) repo knowledge (repository_info m) (runtime_info m)
    (conversation_instructions m) (mem_status m).

(** ** Loading microagents *)

(** [self.d[name] = agent] for every entry. *)
Definition add_all (l d : list (string * Microagent)) : list (string * Microagent) :=
  foldl (λ d e, dset e.1 e.2 d) d l.
Definition add_agents (r : list (string * Microagent) * list (string * Microagent)) (m : Memory) :
    Memory :=
  set_agents (add_all r.1 (repo_microagents m)) (add_all r.2 (knowledge_microagents m)) m.

(** [load_user_workspace_microagents] *)
Definition load_user_workspace_microagents (l : list Microagent) (m : Memory) : Memory :=
  let '(repo, knowledge) := foldl (λ r a, register a r)
                              (repo_microagents m, knowledge_microagents m) l in
  set_agents repo knowledge m.

Section loading.
Context `{FrontMatter} `{FileTree}.

(** [_load_global_microagents] *)
Definition load_global_microagents (dir : path) (m : Memory) : result Memory :=
  let? r := load_microagents_from_dir dir in Ok (add_agents r m).

(** [_load_user_microagents]: [makedirs] is the outcome of creating the directory; an
    error is logged and nothing is loaded. *)
Definition load_user_microagents (makedirs : result unit) (dir : path) (m : Memory) : Memory :=
  match (let? _ := makedirs in load_microagents_from_dir dir) with
  | Ok r => add_agents r m
  | Raise _ => m
  end.

(** [__init__] after the subscription. *)
Definition new_memory (callback : bool) (global_dir : path) (makedirs : result unit)
    (user_dir : path) : result Memory :=
  let? m := load_global_microagents global_dir (mkMemory callback [] [] None None None []) in
  Ok (load_user_microagents makedirs user_dir m).
End loading.

(** [get_microagent_mcp_tools] *)
Definition get_microagent_mcp_tools (m : Memory) : list MCPConfig :=
  omap (λ e, md_mcp_tools (ag_metadata e.2)) (repo_microagents m).

(** ** What it is told *)

(** [set_repository_info] *)
Definition set_repository_info (repo_name repo_directory : string) (branch : option string)
    (m : Memory) : Memory :=
  mkMemory (mem_has_callback m) (repo_microagents m) (knowledge_microagents m)
    (if negb (String.eqb repo_name "") || negb (String.eqb repo_directory "")
     then Some (mkRepositoryInfo (Some repo_name) (Some repo_directory) branch) else None)
    (runtime_info m) (conversation_instructions m) (mem_status m).

(** [set_runtime_info]; [web_hosts] and [instructions] are the runtime's. *)
Definition set_runtime_info (date : string) (web_hosts : dict) (instructions : string)
    (secrets : dict) (working_dir : string) (m : Memory) : Memory :=
  mkMemory (mem_has_callback m) (repo_microagents m) (knowledge_microagents m) (repository_info m)
    (Some (if jtruthy (JDict web_hosts) || negb (String.eqb instructions "")
           then mkRuntimeInfo date web_hosts instructions secrets working_dir
           else mkRuntimeInfo date [] "" secrets working_dir))
    (conversation_instructions m) (mem_status m).

(** [set_conversation_instructions] *)
Definition set_conversation_instructions (s : option string) (m : Memory) : Memory :=
  mkMemory (mem_has_callback m) (repo_microagents m) (knowledge_microagents m) (repository_info m)
    (runtime_info m) (Some (from_option id "" s)) (mem_status m).

(** [set_runtime_status] *)
Definition set_runtime_status (status message : string) (m : Memory) : Memory :=
  if mem_has_callback m
  then mkMemory true (repo_microagents m) (knowledge_microagents m) (repository_info m)
         (runtime_info m) (conversation_instructions m) (mem_status m ++ [(status, message)])
  else m.

(** ** Recalls *)

(** [_find_microagent_knowledge] *)
Definition find_microagent_knowledge (m : Memory) (query : string) : list MicroagentKnowledge :=
  if String.eqb query "" then []
  else omap (λ e, match match_trigger e.2 query with
                  | Some t => if String.eqb t "" then None
                              else Some (mkMicroagentKnowledge (ag_name e.2) t (ag_content e.2))
                  | None => None
                  end) (knowledge_microagents m).

(** The texts of the repository's microagents; a separator only after some text. *)
Definition join_instructions (texts : list string) : string :=
  foldl (λ acc t, (if String.eqb acc "" then acc else acc +:+ nl +:+ nl) +:+ t) "" texts.

(** [_on_workspace_context_recall] *)
Definition workspace_context_recall (m : Memory) (query : string) : option Event :=
  let instructions := join_instructions ((λ e, ag_content e.2) <$> repo_microagents m) in
  let knowledge := find_microagent_knowledge m query in
  let repo f := from_option id "" (repository_info m ≫= f) in
  let run {X} (f : RuntimeInfo → X) (d : X) := from_option f d (runtime_info m) in
  if (if repository_info m then true else false) || (if runtime_info m then true else false)
     || negb (String.eqb instructions "") || (match knowledge with [] => false | _ => true end)
     || (if conversation_instructions m then true else false)
  then Some (new_obs "Added workspace context" (ORecall (mkRecallObservation WORKSPACE_CONTEXT
         (repo rp_repo_name) (repo rp_repo_directory) (repo rp_branch_name) instructions
         (run ri_available_hosts []) (run ri_additional_agent_instructions "") (run ri_date "")
         (run ri_custom_secrets_descriptions []) (from_option id "" (conversation_instructions m))
         (run ri_working_dir "") knowledge)))
  else None.

(** [_on_microagent_recall] *)
Definition microagent_recall (m : Memory) (query : string) : option Event :=
  match find_microagent_knowledge m query with
  | [] => None
  | knowledge => Some (new_obs "Retrieved knowledge from microagents"
                   (ORecall (mkRecallObservation KNOWLEDGE "" "" "" "" [] "" "" [] "" "" knowledge)))
  end.

(** The answer to a recall action; [None] when the memory does not answer. *)
Definition recall_answer (m : Memory) (e : Event) (a : RecallAction) : option Event :=
  let answer o := Some (set_cause (Some (event_id e)) (from_option id (new_obs "" ONull) o)) in
  match ra_recall_type a with
  | WORKSPACE_CONTEXT =>
      if bool_decide (event_source e = Some USER)
      then answer (workspace_context_recall m (ra_query a)) else None
  | KNOWLEDGE =>
      if bool_decide (event_source e = Some USER) || bool_decide (event_source e = Some AGENT)
      then answer (microagent_recall m (ra_query a)) else None
  end.

Section handler.
Context {W : Type}.
Variable emit : Event → EventSource → pyM W unit.
Variable exc_class : py_exc → string.

(** [on_event]: an exception is reported, never raised. *)
Definition memory_on_event (e : Event) : pyM (W * Memory) unit := λ '(w, m),
  match ev_body e with
  | EAction (ARecall a) =>
      match recall_answer m e a with
      | None => ((w, m), Ok tt)
      | Some o =>
          match emit o ENVIRONMENT w with
          | (w, Ok _) => ((w, m), Ok tt)
          | (w, Raise x) =>
              ((w, set_runtime_status "STATUS$ERROR_MEMORY" ("Error: " +:+ exc_class x) m), Ok tt)
          end
      end
  | _ => ((w, m), Ok tt)
  end.
End handler.
