(* ===== verification/AgentLoop.v ===== *)
(** * The controller, the memory and the stream together

    A user message makes the controller publish a recall and wait; the memory, another
    subscriber of the stream with a thread of its own, publishes the answer, whose cause
    is the recall; the answer releases the controller, and the agent steps.  The order in
    which the threads run is not fixed, so the three deliveries are taken in whatever
    worlds they happen. *)

From S2P Require Import Prelude PyValue ControlFlags Metrics Schema Actions Observations Events.
From S2P Require Import View Serialization SerializationProps FileStore EventStore.
From S2P Require Import EventStore ExamplePlatform EventStream EventStreamProps.
From S2P Require Import ConversationStats State StateTracker Stuck Replay.
From S2P Require Import Controller ControllerProps ExampleAgent ControllerSafety ControllerEvents.
From S2P Require Import Message Microagent Memory.
Local Open Scope Z_scope.
Local Open Scope py_scope.

(** ** Documents without secrets *)

Lemma redact_nil s : redact [] s = s.
Proof. done. Qed.
Lemma replace_value_nil j : replace_value [] j = j.
Proof.
  induction j as [| | | | |l|d Hd] using json_ind'; try done. simpl. f_equal.
  induction Hd as [|[k v] d Hv _ IH]; [done|]. simpl in *. by rewrite Hv, IH.
Qed.
Lemma replace_secrets_nil d : replace_secrets [] d = d.
Proof.
  unfold replace_secrets. etrans; [|apply list_fmap_id]. apply list_fmap_ext.
  intros _ [k v] _. rewrite replace_value_nil. by destruct (existsb _ _).
Qed.

(** Without secrets, the copy that is stored and delivered is the event restored. *)
Lemma stored_plain `{PlatformLaws} e d :
  serializable e → to_dict e = Ok d → stored [] e = Ok (d, restored e).
Proof.
  intros Hs Hd. unfold stored. rewrite Hd. cbn [rbind]. rewrite replace_secrets_nil.
  unfold from_dict. rewrite (document_restores py_repr literal_eval version e d Hs Hd). done.
Qed.

(** What the memory publishes on: the stream of the world. *)
Definition memory_emit `{FileStore F} `{Platform} (now : nat → string) (e : Event)
    (source : EventSource) : pyM (World F) unit := λ w,
  let '(w, _, r) := publish now e source w in (w, r).

Section agent_loop.
Context `{FileStoreLaws F} `{!ReliableFileStore F} `{PlatformLaws}.
Context `{Pickle StateDict} `{Pickle (list (string * Metrics))} `{Agent A} `{LLMErrors}.
Variable now : nat → string.
Variable security_analyzer : option (Event → result ActionSecurityRisk).
Implicit Types (w : World F) (c : Controller A).

(** ** The queue grows *)

Definition queue (w : World F) : list Event := st_queue (w_stream w).
Definition queue_rel (x y : World F * Controller A) : Prop := ∃ k, queue y.1 = queue x.1 ++ k.
#[local] Instance queue_preorder : PreOrder queue_rel.
Proof.
  split.
  - intros x. exists []. by rewrite app_nil_r.
  - intros x y z [k1 E1] [k2 E2]. exists (k1 ++ k2). by rewrite E2, E1, app_assoc.
Qed.

Lemma write_file_queue p x (st : EventStream F) : st_queue (write_file p x st).1 = st_queue st.
Proof. unfold write_file, on_store. by destruct (fs_write _ _ _). Qed.
Lemma store_page_queue page (st : EventStream F) : st_queue (store_cache_page page st).1 = st_queue st.
Proof.
  unfold store_cache_page. destruct (_ <? _); [done|]. destruct page as [|d page]; [done|].
  destruct (dget "id" d) as [[]|]; try done. apply write_file_queue.
Qed.

Lemma add_event_queue t src st e : ∃ k, st_queue (add_event t src (st, e)).1.1 = st_queue st ++ k.
Proof.
  assert (∀ q : list Event, q = q ++ []) as Hnil by (intros; by rewrite app_nil_r).
  unfold add_event. destruct (negb _); [by exists []|].
  assert (st_queue (on_store cur_id st).1 = st_queue st) as Hq
    by (unfold on_store; by destruct (cur_id (st_store st))).
  destruct (on_store cur_id st) as [s1 [i|x]]; simpl in Hq; [|exists []; simpl; by rewrite Hq].
  destruct (rbind _ _) as [[data copy]|]; [|exists []; simpl; by rewrite Hq].
  set (s2 := set_page _ _). assert (st_queue s2 = st_queue st) as Hq2 by done. clearbody s2.
  set (name := get_filename_for_id _ _). set (doc := json_dumps _). clearbody name doc.
  unfold pbind. pose proof (write_file_queue name doc s2) as Hq3.
  destruct (write_file name doc s2) as [s3 [[]|]]; simpl in Hq3; [|exists []; simpl; congruence].
  pose proof (store_page_queue (st_page s1 ++ [data]) s3) as Hq4. simpl.
  destruct (store_cache_page _ s3) as [s4 [[]|]]; simpl in *; [exists [copy]|exists []]; simpl; congruence.
Qed.

Lemma queue_emit e src : within queue_rel (emit now e src).
Proof.
  intros [w c]. unfold emit, publish.
  destruct (add_event_queue (now (w_clock w)) src (w_stream w) e) as [k Hk].
  destruct (add_event _ _ _) as [[st e'] r]. by exists k.
Qed.
Lemma queue_on_state {X} (m : pyM State X) : within queue_rel (on_state m).
Proof. intros [w c]. unfold on_state. destruct (m _). exists []. by rewrite app_nil_r. Qed.
Lemma queue_save : within queue_rel controller_save_state.
Proof.
  intros [w c]. unfold controller_save_state, on_files. destruct (save_state _ _ _ _) as [[s f] r].
  exists []. by rewrite app_nil_r.
Qed.
#[local] Hint Resolve queue_emit queue_on_state queue_save : ctl.

Lemma queue_set_running w c : ∃ k, queue (set_agent_state_to now RUNNING (w, c)).1.1 = queue w ++ k.
Proof.
  assert (within queue_rel (set_agent_state_to now RUNNING)) as Hw; [|apply (Hw (w, c))].
  unfold set_agent_state_to.
  change (agent_state_eqb RUNNING STOPPED || agent_state_eqb RUNNING ERROR) with false.
  change (agent_state_eqb RUNNING USER_CONFIRMED || agent_state_eqb RUNNING USER_REJECTED) with false.
  repeat within_step.
Qed.

(** ** Publishing on a log without secrets *)

#[local] Set Default Proof Using "All".

Lemma publish_log w log e src d :
  stream_inv (w_stream w) log → st_secrets (w_stream w) = [] → event_id e = INVALID_ID →
  let e' := stamped (now (w_clock w)) src (py_len log) e in
  serializable e' → to_dict e' = Ok d →
  ∃ w', publish now e src w = (w', e', Ok tt) ∧ queue w' = queue w ++ [restored e']
        ∧ stream_inv (w_stream w') (log ++ [restored e']) ∧ st_secrets (w_stream w') = [].
Proof.
  intros Hi Hs He e' Hser Hd.
  destruct (add_event_log (w_stream w) log (now (w_clock w)) src e d (restored e')) as
    (st'&Ha&Hinv&Hq&Hsec&_); [done|done| |].
  { rewrite Hs. by apply stored_plain. }
  eexists. unfold publish. rewrite Ha. split_and!; [reflexivity|exact Hq|exact Hinv|simpl; congruence].
Qed.

Lemma recall_document t src i a :
  let e := stamped t src i (new_action (ARecall a)) in serializable e ∧ ∃ d, to_dict e = Ok d.
Proof. split; [by split|]. eexists. reflexivity. Qed.

(** The memory's answers are observations whose cause is the recall. *)
Definition answers_recall (i : Z) (o : Event) : Prop :=
  event_cause o = Some i ∧ event_hidden o = false
  ∧ ((∃ x, ev_body o = EObservation (mkObservation x ONull))
     ∨ ∃ x r, ev_body o = EObservation (mkObservation x (ORecall r))).

Lemma recall_answer_spec m e a :
  event_source e = Some USER →
  ∃ o, recall_answer m e a = Some o ∧ event_id o = INVALID_ID ∧ answers_recall (event_id e) o
       ∧ event_llm_metrics o = None.
Proof.
  intros Hs. unfold recall_answer. rewrite Hs, bool_decide_true by done.
  assert (∀ x, x = None ∨ (∃ t r, x = Some (new_obs t (ORecall r))) →
    ∃ o, Some (set_cause (Some (event_id e)) (from_option id (new_obs "" ONull) x)) = Some o
      ∧ event_id o = INVALID_ID ∧ answers_recall (event_id e) o ∧ event_llm_metrics o = None) as Hx.
  { intros x Hx. eexists. split; [reflexivity|].
    destruct Hx as [->|(c&r&->)]; (split; [done|]); (split; [|done]); (split; [done|]);
      (split; [done|]); [left; by eexists|right; by eexists _, _]. }
  destruct (ra_recall_type a); simpl; apply Hx.
  - unfold workspace_context_recall. destruct (_ || _); [right; by eexists _, _|by left].
  - unfold microagent_recall. destruct (find_microagent_knowledge _ _); [by left|right; by eexists _, _].
Qed.

Lemma answer_document t i j o :
  answers_recall i o → event_llm_metrics o = None →
  let e := stamped t ENVIRONMENT j o in
  serializable e ∧ (∃ d, to_dict e = Ok d) ∧ answers_recall i (restored e).
Proof.
  intros (Hc&Hh&Hb) Hm e. subst e. destruct o as [mt b]. unfold event_llm_metrics in Hm.
  simpl in *. destruct Hb as [[x Hb]|(x&r&Hb)]; subst b; (split; [split; [done|]|]);
    try (unfold event_llm_metrics; simpl; congruence); (split; [eexists; reflexivity|]);
    (split; [exact Hc|split; [done|]]); [left; by eexists|right; by eexists _, _].
Qed.

(** ** The three deliveries *)

(** The memory: a recall of the user's is answered by one observation. *)
Lemma memory_answers w log m r a :
  stream_inv (w_stream w) log → st_secrets (w_stream w) = [] →
  ev_body r = EAction (ARecall a) → event_source r = Some USER →
  ∃ w' o, memory_on_event (memory_emit now) exc_name r (w, m) = ((w', m), Ok tt)
    ∧ queue w' = queue w ++ [o] ∧ answers_recall (event_id r) o.
Proof.
  intros Hi Hs Hb Hsrc. unfold memory_on_event. rewrite Hb.
  destruct (recall_answer_spec m r a Hsrc) as (o&->&Hid&Ho&Hm).
  destruct (answer_document (now (w_clock w)) (event_id r) (py_len log) o Ho Hm) as
    (Hser&[d Hd]&Hans).
  destruct (publish_log w log o ENVIRONMENT d Hi Hs Hid Hser Hd) as (w'&Hp&Hq&_&_).
  exists w', (restored (stamped (now (w_clock w)) ENVIRONMENT (py_len log) o)).
  unfold memory_emit. rewrite Hp. done.
Qed.

(** An observation on which a controller without delegate steps. *)
Definition steps_on (o : Event) : bool :=
  match ev_body o with
  | EObservation x =>
      match obs_kind x with
      | ONull => match event_cause o with Some i => 0 <? i | None => false end
      | OAgentStateChanged _ => false
      | _ => true
      end
  | EAction _ => false
  end.
Lemma recall_steps_on i o : answers_recall i o → 0 < i → steps_on o = true.
Proof.
  intros (Hc&_&Hb) Hi. unfold steps_on. destruct Hb as [[x ->]|(x&r&->)]; simpl; [|done].
  rewrite Hc. by apply Z.ltb_lt.
Qed.

(** The controller: the answer to the pending action releases it and makes it step. *)
Lemma answer_steps w c p o :
  event_cause o = Some (event_id p) → event_hidden o = false → steps_on o = true →
  c_pending_action c = Some p → agent_state (c_state c) = RUNNING → c_delegate c = None →
  ∃ w' s', handle_event now security_analyzer o (w, c)
    = step_with_exception_handling now security_analyzer (w', set_c_pending None (set_c_state s' c))
    ∧ agent_state s' = RUNNING ∧ queue w' = queue w.
Proof.
  intros Hc Hh Hso Hp Hr Hd. unfold handle_event. rewrite Hh.
  assert (∃ s', (on_state (add_history o) (w, c)) = ((save_shared s' w, set_c_state s' c), Ok tt)
                ∧ agent_state s' = RUNNING) as (s'&Hs'&Hr').
  { unfold on_state, add_history. rewrite include_history.
    destruct (in_history o); by eexists. }
  exists (save_shared s' w), s'. split; [|done].
  rewrite (pbind_ok _ _ _ _ _ Hs').
  assert (∃ x, ev_body o = EObservation x
    ∧ should_step (set_c_pending None (set_c_state s' c)) o = true) as (x&Ho&Hstep).
  { unfold should_step, steps_on in *. simpl. rewrite Hd. destruct (ev_body o) as [|x]; [done|].
    exists x. by destruct (obs_kind x). }
  rewrite Ho. unfold pbind at 1, handle_observation. unfold pbind at 1, self at 1. cbv beta iota.
  replace (c_pending_action (set_c_state s' c)) with (Some p). rewrite Hc, bool_decide_true by done.
  unfold pbind at 1, get_agent_state at 1, get_state at 1. unfold pbind at 1, pret at 1. cbv beta iota.
  change (agent_state (with_shared _ (c_state (set_c_state s' c)))) with (agent_state s').
  rewrite Hr'. change (agent_state_eqb RUNNING AWAITING_USER_CONFIRMATION) with false.
  change (agent_state_eqb RUNNING USER_CONFIRMED) with false. cbv beta iota. unfold pwhen at 1.
  unfold pbind at 1, update at 1. cbv beta iota. unfold pbind at 1, pret at 1. cbv beta iota.
  unfold pbind at 1, get_agent_state, get_state at 1. unfold pbind at 1, pret at 1. cbv beta iota.
  change (agent_state (with_shared _ _)) with (agent_state s'). rewrite Hr'.
  change (agent_state_eqb RUNNING USER_REJECTED) with false. unfold pwhen at 1, pret at 1.
  cbv beta iota. unfold pbind, self. cbv beta iota. by rewrite Hstep.
Qed.

Lemma first_user_message_world w c w' c' r i :
  es_cur_id (st_store (w_stream w)) = Some i →
  first_user_message (w, c) = ((w', c'), Ok r) → w' = w.
Proof.
  intros Hi. unfold first_user_message, pbind at 1, self. cbv beta iota.
  destruct (c_cached_first_user_message c); [by intros [= <- _ _]|].
  unfold pbind at 1, get_state. cbv beta iota. unfold pbind at 1, on_stream, on_store, search_first.
  unfold pbind at 1, cur_id. rewrite Hi. unfold pbind, pget, plift.
  destruct (search_first_loop _ _ _ _); [|done]. intros [= <- _ _].
  rewrite set_store_eta. by destruct w.
Qed.

(** The controller: a user message leaves a recall pending, and its copy in the queue. *)
Lemma message_publishes_recall w c w1 c1 (e : Event) (a : MessageAction) log :
  stream_inv (w_stream w) log → st_secrets (w_stream w) = [] →
  ev_body e = EAction (AMessage a) → event_source e = Some USER → c_delegate c = None →
  handle_event now security_analyzer e (w, c) = ((w1, c1), Ok tt) →
  ∃ p r k, c_pending_action c1 = Some p ∧ event_id p = py_len log ∧ r ∈ queue w1
    ∧ ev_body r = EAction (ARecall k) ∧ event_source r = Some USER ∧ event_id r = py_len log.
Proof.
  intros Hi Hsec Hb Hsrc Hd. destruct (message_in_history e a Hb) as [Hh Hin].
  unfold handle_event. rewrite Hh, Hb. cbn [handle_action].
  unfold pbind at 1, on_state at 1, add_history. rewrite include_history, Hin. cbv beta iota.
  set (s1 := set_history _ _). intros ([w0 c0] & [] & Hm & Hrest)%pbind_ok_inv.
  unfold handle_message_action in Hm. rewrite Hsrc, bool_decide_true in Hm by done.
  apply pbind_ok_inv in Hm as ([w2 c2] & first & Hf & Hm).
  apply (first_user_message_world _ _ _ _ _ (py_len log)) in Hf as ->;
    [|exact (si_cur _ _ (sv_store _ _ Hi))].
  apply pbind_ok_inv in Hm as ([w3 c3] & [] & [= <- <-] & Hm).
  set (rec := mkRecallAction _ _ _) in Hm. set (w' := save_shared s1 w) in Hm.
  destruct (recall_document (now (w_clock w')) USER (py_len log) rec) as [Hser [d Hdoc]].
  destruct (publish_log w' log (new_action (ARecall rec)) USER d Hi Hsec eq_refl Hser Hdoc)
    as (w4&Hp&Hq&_&_).
  apply pbind_ok_inv in Hm as ([w5 c5] & [] & Hem & Hm).
  unfold emit_pending in Hem. cbn [c_pending_action set_c_pending] in Hem. rewrite Hp in Hem.
  injection Hem as <- <-. set (p := stamped _ _ _ _) in *. set (c6 := set_c_pending (Some p) _) in Hm.
  assert (c_pending_action c0 = Some p ∧ ∃ k, queue w0 = queue w4 ++ k) as [Hpend [k Hk]].
  { unfold pbind at 1, get_agent_state, get_state, pbind, pret in Hm. cbv beta iota in Hm.
    unfold pwhen in Hm. destruct (negb _).
    - destruct (queue_set_running w4 c6) as [k Hk].
      destruct (plain_set_agent_state now RUNNING (w4, c6) eq_refl) as (s'&Hs'&_).
      rewrite Hm in Hk, Hs'. simpl in Hk, Hs'. subst c0. split; [done|by exists k].
    - injection Hm as <- <-. split; [done|]. exists []. by rewrite app_nil_r. }
  assert (w1 = w0 ∧ c1 = c0) as [-> ->].
  { unfold pbind, self, pwhen in Hrest. destruct (should_step _ _); [|by injection Hrest].
    rewrite step_blocked in Hrest by (right; congruence). by injection Hrest. }
  exists p, (restored p), rec. split_and!; try done.
  - rewrite Hk, Hq. apply elem_of_app. left. apply elem_of_app. right. by left.
  - change (event_id (restored p)) with
      (from_option id INVALID_ID (if py_len log =? INVALID_ID then None else Some (py_len log))).
    by rewrite (proj2 (Z.eqb_neq _ _)) by (unfold INVALID_ID; len_lia).
Qed.

(** C4 The agent's turn comes, on streams that stand for a log and have no secrets registered
    ([stream_inv]: every event accepted so far is in the store; [EventStream.add_event] then
    succeeds).  When the controller, without a delegate, has handled a user message of the
    log without an exception, a recall is pending and its copy is queued; whenever the
    memory gets this copy, with any such stream, it publishes an answer; and whenever this
    answer reaches the controller, running, still waiting for the recall and without a
    delegate, it is released and takes the step in which the agent is consulted. *)
Theorem user_message_reaches_agent w c w1 c1 (e : Event) (a : MessageAction) log :
  stream_inv (w_stream w) log → st_secrets (w_stream w) = [] → e ∈ log →
  ev_body e = EAction (AMessage a) → event_source e = Some USER → c_delegate c = None →
  handle_event now security_analyzer e (w, c) = ((w1, c1), Ok tt) →
  ∃ p r, c_pending_action c1 = Some p ∧ r ∈ st_queue (w_stream w1) ∧
  ∀ w2 log2 m, stream_inv (w_stream w2) log2 → st_secrets (w_stream w2) = [] →
  ∃ w3 o, memory_on_event (memory_emit now) exc_name r (w2, m) = ((w3, m), Ok tt)
    ∧ st_queue (w_stream w3) = st_queue (w_stream w2) ++ [o] ∧
  ∀ w4 c4, c_pending_action c4 = Some p → agent_state (c_state c4) = RUNNING →
    c_delegate c4 = None →
  ∃ w5 s5, handle_event now security_analyzer o (w4, c4)
      = step_with_exception_handling now security_analyzer
          (w5, set_c_pending None (set_c_state s5 c4))
    ∧ agent_state s5 = RUNNING.
Proof.
  intros Hi Hsec He Hb Hsrc Hd Hev.
  destruct (message_publishes_recall w c w1 c1 e a log Hi Hsec Hb Hsrc Hd Hev) as
    (p&r&k&Hp&Hpid&Hq&Hrb&Hrs&Hrid).
  exists p, r. split; [done|]. split; [done|]. intros w2 log2 m Hi2 Hs2.
  destruct (memory_answers w2 log2 m r k Hi2 Hs2 Hrb Hrs) as (w3&o&Hmem&Hq3&Ho).
  exists w3, o. split; [done|]. split; [done|]. intros w4 c4 Hp4 Hr4 Hd4.
  rewrite Hrid, <- Hpid in Ho.
  assert (0 < event_id p) as Hpos.
  { rewrite Hpid. destruct log as [|x log]; [by apply not_elem_of_nil in He|]. len_lia. }
  destruct (answer_steps w4 c4 p o (proj1 Ho) (proj1 (proj2 Ho)) (recall_steps_on _ _ Ho Hpos) Hp4 Hr4 Hd4)
    as (w5&s5&Hs5&Hr5&_). by exists w5, s5.
Qed.
End agent_loop.

(** ** A conversation *)

Module conversation.
(** A session whose first event is a user message; the agent has one command to run, and
    the memory knows one microagent. *)
Definition stream0 : EventStream InMemoryFileStore :=
  mkEventStream (mkEventStore "s" (mkInMemoryFileStore []) None 25 (Some 0)) [] [] [] [] [].
Definition world0 : World InMemoryFileStore := set_w_stream stream0 (ex_world 5).
Definition message : Event := stamped "t0" USER 0 (ex_say "use git").
Definition world1 : World InMemoryFileStore := (publish ex_now (ex_say "use git") USER world0).1.1.
Definition controller1 : Controller Scripted := ex_controller true false AWAITING_USER_INPUT [ex_cmd].
Definition memory : Memory :=
  mkMemory false [] [("git", mkMicroagent KnowledgeMicroagent "git" "Use branches." tree.git_meta "git.md"
    MT_KNOWLEDGE)] None None None [].

Lemma world1_inv : stream_inv (w_stream world1) [restored message] ∧ st_secrets (w_stream world1) = [].
Proof.
  assert (stream_inv (w_stream world0) []) as H0.
  { split; [split|..]; simpl; try done; intros; unfold mem_read in *; simpl in *; done. }
  destruct (publish_log (A := Scripted) ex_now None world0 [] (ex_say "use git") USER
    (match to_dict message with Ok d => d | Raise _ => [] end) H0 eq_refl eq_refl) as (w'&Hp&_&Hi&Hs);
    [by split|reflexivity|].
  unfold world1. rewrite Hp. by split.
Qed.

Definition after (e : Event) := handle_event ex_now None e (world1, controller1).

Lemma user_message_reaches_agent_witness :
  ∃ p r, c_pending_action (after (restored message)).1.2 = Some p
    ∧ r ∈ st_queue (w_stream (after (restored message)).1.1) ∧
  ∃ w3 o, memory_on_event (memory_emit ex_now) exc_name r (world1, memory) = ((w3, memory), Ok tt)
    ∧ st_queue (w_stream w3) = st_queue (w_stream world1) ++ [o].
Proof.
  destruct (user_message_reaches_agent ex_now None world1 controller1
    (after (restored message)).1.1 (after (restored message)).1.2 (restored message)
    (mkMessageAction "use git" None None false RISK_UNKNOWN) [restored message]
    (proj1 world1_inv) (proj2 world1_inv)) as (p&r&Hp&Hr&Hnext).
  - by left.
  - reflexivity.
  - reflexivity.
  - reflexivity.
  - vm_compute. reflexivity.
  - exists p, r. split; [exact Hp|]. split; [exact Hr|].
    destruct (Hnext world1 [restored message] memory (proj1 world1_inv) (proj2 world1_inv))
      as (w3&o&Hm&Hq&_).
    exists w3, o. split; [exact Hm|exact Hq].
Defined.

(** Three deliveries later the agent's command is pending. *)
Definition handled : World InMemoryFileStore * Controller Scripted := (after (restored message)).1.
Definition answered_world : World InMemoryFileStore :=
  match st_queue (w_stream handled.1) with
  | _ :: r :: _ => (memory_on_event (memory_emit ex_now) exc_name r (handled.1, memory)).1.1
  | _ => handled.1
  end.
Definition released : World InMemoryFileStore * Controller Scripted :=
  match last (st_queue (w_stream answered_world)) with
  | Some o => (handle_event ex_now None o (answered_world, handled.2)).1
  | None => handled
  end.
Example agent_consulted :
  script (c_agent handled.2) = [ex_cmd] ∧ script (c_agent released.2) = []
  ∧ ev_body <$> c_pending_action released.2 = Some (ev_body ex_cmd)
  ∧ (event_cause <$> last (st_queue (w_stream answered_world))) = Some (Some 1).
Proof. vm_compute. done. Qed.
End conversation.
