(* ===== verification/StrSearch.v ===== *)
(** * Searching in texts

    The first occurrence of a text in another one, and what Python's [split], [count],
    [replace(.., 1)] and the regular expressions with lazy groups make of it. *)

From S2P Require Import Prelude.
Local Open Scope Z_scope.

(** What is before and after the first occurrence of [pat]. *)
Fixpoint str_cut (pat s : string) : option (string * string) :=
  if String.prefix pat s
  then Some (EmptyString, String.substring (String.length pat) (String.length s - String.length pat) s)
  else match s with
       | EmptyString => None
       | String c s' => match str_cut pat s' with
                        | Some (a, b) => Some (String c a, b)
                        | None => None
                        end
       end.

(** [s.split(sep)[0]] *)
Definition before_first (sep s : string) : string :=
  match str_cut sep s with Some (a, _) => a | None => s end.

(** [s.replace(old, new, 1)] *)
Definition replace_first (old new s : string) : string :=
  match str_cut old s with Some (a, b) => a +:+ new +:+ b | None => s end.

(** [s.count(sub)] for a nonempty [sub]; [skip] characters of an occurrence remain. *)
Fixpoint count_go (sub : string) (skip : nat) (s : string) : nat :=
  match s with
  | EmptyString => 0
  | String _ s' =>
      match skip with
      | S k => count_go sub k s'
      | O => if String.prefix sub s then S (count_go sub (pred (String.length sub)) s')
             else count_go sub O s'
      end
  end.
Definition str_count (sub s : string) : nat := count_go sub 0 s.

(** [finditer]: the matches at positions that are not part of an earlier match.  [m]
    matches at the front and says how many characters it used. *)
Section finditer.
Context {A : Type}.
Variable m : string → option (A * nat).

Fixpoint finditer_go (skip : nat) (s : string) : list A :=
  match s with
  | EmptyString => []
  | String _ s' =>
      match skip with
      | S k => finditer_go k s'
      | O => match m s with
             | Some (a, n) => a :: finditer_go (pred n) s'
             | None => finditer_go O s'
             end
      end
  end.
Definition finditer : string → list A := finditer_go O.

(** [re.search]: the leftmost match. *)
Fixpoint search (s : string) : option A :=
  match m s with
  | Some (a, _) => Some a
  | None => match s with EmptyString => None | String _ s' => search s' end
  end.
End finditer.

(** [re.sub] with the text [m] gives for a match. *)
Fixpoint sub_go (m : string → option (string * nat)) (skip : nat) (s : string) : string :=
  match s with
  | EmptyString => EmptyString
  | String c s' =>
      match skip with
      | S k => sub_go m k s'
      | O => match m s with
             | Some (t, n) => t +:+ sub_go m (pred n) s'
             | None => String c (sub_go m O s')
             end
      end
  end.
Definition re_sub (m : string → option (string * nat)) : string → string := sub_go m O.

(** The characters at the front that pass a test, and the rest. *)
Fixpoint span (p : ascii → bool) (s : string) : string * string :=
  match s with
  | String c s' => if p c then let '(a, b) := span p s' in (String c a, b) else (EmptyString, s)
  | EmptyString => (EmptyString, EmptyString)
  end.

(** What follows [pre]. *)
Definition after_prefix (pre s : string) : option string :=
  if String.prefix pre s
  then Some (String.substring (String.length pre) (String.length s - String.length pre) s)
  else None.

(** ** Lemmas *)

Lemma after_prefix_app pre s : after_prefix pre (pre +:+ s) = Some s.
Proof.
  unfold after_prefix. rewrite prefix_append, length_append. f_equal.
  replace (String.length pre + String.length s - String.length pre)%nat with (String.length s) by lia.
  pose proof (substring_app_r pre s 0) as Hr. rewrite Nat.add_0_r, Nat.sub_0_r in Hr.
  by rewrite Hr, substring_full.
Qed.

Lemma str_cut_front pat s : str_cut pat (pat +:+ s) = Some (EmptyString, s).
Proof.
  pose proof (after_prefix_app pat s) as Ha. unfold after_prefix in Ha.
  destruct (String.prefix pat (pat +:+ s)) eqn:Hp; [|done]. injection Ha as Ha.
  destruct (pat +:+ s) as [|c t]; cbn [str_cut]; by rewrite Hp, Ha.
Qed.

(** The character occurs in the text. *)
Fixpoint has_char (c : ascii) (s : string) : bool :=
  match s with EmptyString => false | String d s' => Ascii.eqb c d || has_char c s' end.

Lemma has_char_app c a b : has_char c (a +:+ b) = has_char c a || has_char c b.
Proof. induction a as [|d a IH]; simpl; [done|]. by rewrite IH, orb_assoc. Qed.

Lemma prefix_nil_r s : String.prefix s "" = true → s = "".
Proof. by destruct s. Qed.

Lemma prefix_cons c p d s : String.prefix (String c p) (String d s) = Ascii.eqb c d && String.prefix p s.
Proof.
  simpl. destruct (Ascii.ascii_dec c d) as [->|Hne]; [by rewrite Ascii.eqb_refl|].
  by rewrite (proj2 (Ascii.eqb_neq c d) Hne).
Qed.

(** A text [x] in front of something that starts with [c], [c] not in [x]'s continuation
    of the pattern: the occurrence is in [x]. *)
Lemma prefix_app_char p c x b :
  has_char c p = false → String.prefix p (x +:+ String c b) = true → String.prefix p x = true.
Proof.
  revert p. induction x as [|d x IH]; intros p Hp.
  - destruct p as [|e p]; [done|]. change ("" +:+ String c b) with (String c b).
    rewrite prefix_cons. simpl in Hp. apply orb_false_iff in Hp as [Hc _].
    destruct (Ascii.eqb_spec e c) as [->|]; [|done]. by rewrite Ascii.eqb_refl in Hc.
  - destruct p as [|e p]; [done|]. change (String d x +:+ String c b) with (String d (x +:+ String c b)).
    rewrite !prefix_cons. simpl in Hp. apply orb_false_iff in Hp as [_ Hp].
    intros [He Hx]%andb_true_iff. rewrite He. simpl. by apply IH.
Qed.

(** In the rest of this file the pattern's first character occurs in it once. *)
Section pattern.
Variables (c : ascii) (p : string).
Hypothesis c_once : has_char c p = false.

(** Text without the first character has no occurrence. *)
Lemma contains_skip a b :
  has_char c a = false → str_contains (String c p) (a +:+ b) = str_contains (String c p) b.
Proof.
  induction a as [|d a IH]; [done|]. cbn [has_char]. intros [Hd Ha]%orb_false_iff.
  change (String d a +:+ b) with (String d (a +:+ b)). cbn [str_contains].
  rewrite prefix_cons, Hd. simpl. by apply IH.
Qed.

(** Nothing spans the border before the first character. *)
Lemma contains_app_char a b :
  str_contains (String c p) (a +:+ String c b)
  = str_contains (String c p) a || str_contains (String c p) (String c b).
Proof using c_once.
  induction a as [|d a IH].
  { change ("" +:+ String c b) with (String c b). cbn [str_contains]. done. }
  change (String d a +:+ String c b) with (String d (a +:+ String c b)). cbn [str_contains] in *.
  rewrite IH. rewrite !prefix_cons. destruct (Ascii.eqb c d); simpl; [|done].
  destruct (String.prefix p (a +:+ String c b)) eqn:E.
  - apply prefix_app_char in E; [|done]. by rewrite E.
  - destruct (String.prefix p a) eqn:E'; [|done]. exfalso.
    apply prefix_inv in E' as [x ->]. rewrite <- append_assoc, prefix_append in E. done.
Qed.

(** Nothing spans a character the pattern does not have. *)
Lemma contains_app_other a d b :
  has_char d (String c p) = false →
  str_contains (String c p) (a +:+ String d b)
  = str_contains (String c p) a || str_contains (String c p) b.
Proof.
  intros Hd. induction a as [|e a IH].
  { change ("" +:+ String d b) with (String d b). cbn [str_contains]. rewrite prefix_cons.
    cbn [has_char] in Hd. apply orb_false_iff in Hd as [Hd _]. rewrite Ascii.eqb_sym, Hd. done. }
  change (String e a +:+ String d b) with (String e (a +:+ String d b)). cbn [str_contains].
  rewrite IH, orb_assoc. f_equal. f_equal.
  destruct (String.prefix (String c p) (String e (a +:+ String d b))) eqn:E.
  - symmetry. by apply (prefix_app_char _ d (String e a) b).
  - destruct (String.prefix (String c p) (String e a)) eqn:E'; [|done]. exfalso.
    apply prefix_inv in E' as [x Hx].
    change (String e (a +:+ String d b)) with (String e a +:+ String d b) in E.
    rewrite Hx, <- append_assoc, prefix_append in E. done.
Qed.

(** The first occurrence is after text without one. *)
Lemma str_cut_app a b :
  str_contains (String c p) a = false →
  str_cut (String c p) (a +:+ String c p +:+ b) = Some (a, b).
Proof using c_once.
  change (String c p +:+ b) with (String c (p +:+ b)).
  induction a as [|d a IH]; intros Ha.
  { apply (str_cut_front (String c p) b). }
  cbn [str_contains] in Ha. apply orb_false_iff in Ha as [Hp Ha].
  change (String d a +:+ String c (p +:+ b)) with (String d (a +:+ String c (p +:+ b))).
  cbn [str_cut]. rewrite IH by done.
  assert (String.prefix (String c p) (String d (a +:+ String c (p +:+ b))) = false) as ->; [|done].
  rewrite prefix_cons in Hp |- *. destruct (Ascii.eqb c d); simpl in *; [|done].
  apply not_true_is_false. intros E. apply prefix_app_char in E; [|done]. congruence.
Qed.

Lemma str_cut_none s : str_contains (String c p) s = false → str_cut (String c p) s = None.
Proof.
  induction s as [|d s IH]; [done|]. cbn [str_contains str_cut]. intros [-> Hs]%orb_false_iff.
  by rewrite IH.
Qed.
End pattern.

(** A match of a pattern that starts with a fixed text is not found in a text without it. *)
Lemma contains_false_tail sub d s :
  str_contains sub (String d s) = false → str_contains sub s = false ∧ String.prefix sub (String d s) = false.
Proof. cbn [str_contains]. by intros [? ?]%orb_false_iff. Qed.

Lemma span_app q a d b :
  all_chars q a = true → q d = false → span q (a +:+ String d b) = (a, String d b).
Proof.
  intros Ha Hd. induction a as [|e a IH]; simpl in *.
  - by rewrite Hd.
  - apply andb_true_iff in Ha as [-> Ha]. by rewrite (IH Ha).
Qed.

(** Skipping exactly a text. *)
Lemma finditer_skip {A} (m : string → option (A * nat)) a s :
  finditer_go m (String.length a) (a +:+ s) = finditer_go m 0 s.
Proof. induction a as [|d a IH]; [by destruct s|]. exact IH. Qed.

Section search_lemmas.
Context {A : Type}.
Variable m : string → option (A * nat).
Variables (c : ascii) (p : string).
Hypothesis c_once : has_char c p = false.
(** The matches of [m] start with the pattern. *)
Hypothesis m_prefix : ∀ s, String.prefix (String c p) s = false → m s = None.

Lemma no_match_in a b :
  str_contains (String c p) a = false → a ≠ "" → m (a +:+ String c b) = None.
Proof using c_once m_prefix.
  destruct a as [|d a]; [done|]. intros [_ Ha]%contains_false_tail _. apply m_prefix.
  change (String d a +:+ String c b) with (String d (a +:+ String c b)). rewrite prefix_cons in Ha |- *.
  destruct (Ascii.eqb c d); simpl in *; [|done].
  apply not_true_is_false. intros E. apply prefix_app_char in E; [congruence|done].
Qed.

Lemma search_skip a b :
  str_contains (String c p) a = false → search m (a +:+ String c b) = search m (String c b).
Proof using c_once m_prefix.
  induction a as [|d a IH]; [done|]. intros Ha.
  pose proof (no_match_in (String d a) b Ha ltac:(done)) as Hm.
  change (String d a +:+ String c b) with (String d (a +:+ String c b)) in *.
  cbn [search]. rewrite Hm. apply IH. by apply contains_false_tail in Ha as [Ha _].
Qed.

Lemma search_none s : str_contains (String c p) s = false → search m s = None.
Proof using m_prefix.
  induction s as [|d s IH]; intros Hs.
  - cbn [search]. by rewrite m_prefix.
  - apply contains_false_tail in Hs as [Hs Hp]. cbn [search]. rewrite (m_prefix _ Hp). by apply IH.
Qed.

(** Text without the pattern's first character has no match. *)
Lemma finditer_plain a b : has_char c a = false → finditer_go m 0 (a +:+ b) = finditer_go m 0 b.
Proof using m_prefix.
  induction a as [|d a IH]; [done|]. cbn [has_char]. intros [Hd Ha]%orb_false_iff.
  change (String d a +:+ b) with (String d (a +:+ b)). cbn [finditer_go].
  rewrite m_prefix; [by apply IH|]. by rewrite prefix_cons, Hd.
Qed.
End search_lemmas.

Section sub_lemmas.
Variable m : string → option (string * nat).
Variables (c : ascii) (p : string).
Hypothesis c_once : has_char c p = false.
Hypothesis m_prefix : ∀ s, String.prefix (String c p) s = false → m s = None.

Lemma sub_plain a b : has_char c a = false → sub_go m 0 (a +:+ b) = a +:+ sub_go m 0 b.
Proof using m_prefix.
  induction a as [|d a IH]; [done|]. cbn [has_char]. intros [Hd Ha]%orb_false_iff.
  change (String d a +:+ b) with (String d (a +:+ b)). cbn [sub_go].
  rewrite m_prefix by (by rewrite prefix_cons, Hd). by rewrite (IH Ha).
Qed.

Lemma sub_skip a b :
  str_contains (String c p) a = false →
  sub_go m 0 (a +:+ String c b) = a +:+ sub_go m 0 (String c b).
Proof using c_once m_prefix.
  induction a as [|d a IH]; [done|]. intros Ha.
  pose proof (no_match_in m c p c_once m_prefix (String d a) b Ha ltac:(done)) as Hm.
  change (String d a +:+ String c b) with (String d (a +:+ String c b)) in *.
  cbn [sub_go]. rewrite Hm, IH; [done|]. by apply contains_false_tail in Ha as [Ha _].
Qed.
End sub_lemmas.
