(* ===== verification/FnCallConverter.v ===== *)
(** * Function calls as text

    Models [openhands/llm/fn_call_converter.py]: for models without function calling, the
    tool calls of a conversation are written into the messages' texts, and the calls are
    read back from the answers.  Messages and tools are documents, as in the code.  The
    regular expressions are written as matchers at a position: their groups are
    determined (a lazy group ends at the first occurrence of what follows it). *)

From S2P Require Import Prelude PyValue EventStore FnCallTexts StrSearch.
Local Open Scope Z_scope.
Local Open Scope py_scope.

Definition FunctionCallConversionError (m : string) : py_exc :=
  OtherError "FunctionCallConversionError" m.
Definition FunctionCallValidationError (m : string) : py_exc :=
  OtherError "FunctionCallValidationError" m.

(** ** Documents *)

(** [d[k]] *)
Definition item (k : string) (d : dict) : result json :=
  match dget k d with Some v => Ok v | None => Raise (KeyError k) end.
Definition as_dict (j : json) : result dict :=
  match j with JDict d => Ok d | _ => Raise (TypeError "not a dictionary") end.
(** [j[k]] *)
Definition jitem (k : string) (j : json) : result json := let? d := as_dict j in item k d.
(** [d == s] for a string [s] *)
Definition is_str (s : string) (j : json) : bool :=
  match j with JStr t => String.eqb t s | _ => false end.
(** [j['type'] == 'text'] *)
Definition is_text_item (j : json) : result bool :=
  let? t := jitem "type" j in Ok (is_str "text" t).
Definition item_text (j : json) : result string :=
  let? t := jitem "text" j in
  match t with JStr s => Ok s | _ => Raise (TypeError "not a string") end.
(** [j['text'] = s] *)
Definition set_item_text (s : string) (j : json) : json :=
  match j with JDict d => JDict (dset "text" (JStr s) d) | j => j end.
Definition text_item (s : string) : json := JDict [("type", JStr "text"); ("text", JStr s)].
(** The last item of a list and the items before it. *)
Definition split_last (l : list json) : option (list json * json) :=
  match reverse l with [] => None | x :: k => Some (reverse k, x) end.

Definition unexpected_content : py_exc :=
  FunctionCallConversionError "Unexpected content type. Expected str or list.".

(** ** The example *)

Definition EXECUTE_BASH_TOOL_NAME : string := "execute_bash".
Definition STR_REPLACE_EDITOR_TOOL_NAME : string := "str_replace_editor".
Definition BROWSER_TOOL_NAME : string := "browser".
Definition FINISH_TOOL_NAME : string := "finish".
Definition LLM_BASED_EDIT_TOOL_NAME : string := "edit_file".
Definition TASK_TRACKER_TOOL_NAME : string := "task_tracker".

(** The names of the function tools, in order. *)
Fixpoint tool_names (tools : list dict) : result (list json) :=
  match tools with
  | [] => Ok []
  | t :: tools =>
      let? ty := item "type" t in
      if is_str "function" ty then
        let? f := item "function" t in
        let? n := jitem "name" f in
        let? k := tool_names tools in Ok (n :: k)
      else tool_names tools
  end.

(** [get_example_for_tools]; the platform is not Windows, so that [refine_prompt] does
    nothing. *)
Definition get_example_for_tools (tools : list dict) : result string :=
  let? names := tool_names tools in
  let has n := existsb (is_str n) names in
  let bash := has EXECUTE_BASH_TOOL_NAME in
  let editor := has STR_REPLACE_EDITOR_TOOL_NAME in
  let browser := has BROWSER_TOOL_NAME in
  let finish := has FINISH_TOOL_NAME in
  let edit := has LLM_BASED_EDIT_TOOL_NAME in
  let opt (b : bool) (s : string) := if b then s else "" in
  if negb (bash || editor || browser || finish || edit) then Ok ""
  else Ok (str_lstrip (
    example_start
    +:+ opt bash example_execute_bash_check_dir
    +:+ (if editor then example_str_replace_editor_create_file
         else opt edit example_edit_file_create_file)
    +:+ opt bash example_execute_bash_run_server
    +:+ opt browser example_browser_view_page
    +:+ opt bash example_execute_bash_kill_server
    +:+ (if editor then example_str_replace_editor_edit_file
         else opt edit example_edit_file_edit_file)
    +:+ opt bash example_execute_bash_run_server_again
    +:+ opt finish example_finish_example
    +:+ example_end)).

(** ** Regular expressions *)

Definition not_gt (c : ascii) : bool := negb (Ascii.eqb c ">").
Definition is_word (c : ascii) : bool :=
  let n := Ascii.nat_of_ascii c in
  (Nat.leb 65 n && Nat.leb n 90) || (Nat.leb 97 n && Nat.leb n 122) || Nat.eqb n 95
  || (Nat.leb 48 n && Nat.leb n 57).

(** How much of [s] is used when [rest] is left. *)
Definition used (s rest : string) : nat := String.length s - String.length rest.

(** [FN_REGEX_PATTERN]: the name up to the first bracket, a line break, the body up to the
    first closing tag. *)
Definition match_function (s : string) : option (string * string * nat) :=
  match after_prefix "<function=" s with
  | None => None
  | Some t =>
      let '(name, t) := span not_gt t in
      if String.eqb name "" then None
      else match after_prefix (">" +:+ nl) t with
           | None => None
           | Some t => match str_cut "</function>" t with
                       | Some (body, rest) => Some (name, body, used s rest)
                       | None => None
                       end
           end
  end.

(** [FN_PARAM_REGEX_PATTERN] *)
Definition match_parameter (s : string) : option (string * string * nat) :=
  match after_prefix "<parameter=" s with
  | None => None
  | Some t =>
      let '(name, t) := span not_gt t in
      if String.eqb name "" then None
      else match after_prefix ">" t with
           | None => None
           | Some t => match str_cut "</parameter>" t with
                       | Some (value, rest) => Some (name, value, used s rest)
                       | None => None
                       end
           end
  end.

(** [TOOL_RESULT_REGEX_PATTERN] *)
Definition match_tool_result (s : string) : option (string * string * nat) :=
  match after_prefix "EXECUTION RESULT of [" s with
  | None => None
  | Some t => match str_cut ("]:" +:+ nl) t with
              | Some (name, rest) => Some (name, rest, String.length s)
              | None => None
              end
  end.

(** The malformed tag of [_normalize_parameter_tags], and what replaces it. *)
Definition match_malformed (s : string) : option (string * nat) :=
  match after_prefix "<parameter=" s with
  | None => None
  | Some t =>
      let '(name, t) := span is_word t in
      if String.eqb name "" then None
      else match after_prefix "=" t with
           | None => None
           | Some t =>
               let '(value, t) := span (λ c, negb (Ascii.eqb c "<")) t in
               match after_prefix "</parameter>" t with
               | Some rest => Some ("<parameter=" +:+ name +:+ ">" +:+ value +:+ "</parameter>",
                                    used s rest)
               | None => None
               end
           end
  end.

(** [_normalize_parameter_tags] *)
Definition normalize_parameter_tags (fn_body : string) : string := re_sub match_malformed fn_body.

(** [s.rstrip()] *)
Definition str_rstrip (s : string) : string := String.rev (str_lstrip (String.rev s)).

(** [_fix_stopword] *)
Definition fix_stopword (content : string) : string :=
  if Nat.eqb (str_count "<function=" content) 1
  then if endswith content "</" then str_rstrip content +:+ "function>"
       else content +:+ nl +:+ "</function>"
  else content.

(** ** Writing calls *)

Section converter.
Context `{Platform}.

(** [f'{v}'] *)
Definition format_value (j : json) : string := match j with JStr s => s | _ => py_repr j end.

(** A parameter's text: lists and dictionaries as JSON. *)
Definition param_text (v : json) : string :=
  match v with JList _ | JDict _ => json_dumps v | _ => format_value v end.
Definition param_string (kv : string * json) : string :=
  "<parameter=" +:+ kv.1 +:+ ">" +:+ param_text kv.2 +:+ "</parameter>" +:+ nl.

(** [convert_tool_call_to_string] *)
Definition convert_tool_call_to_string (tool_call : dict) : result string :=
  let error m := Raise (FunctionCallConversionError m) in
  match dget "function" tool_call, dget "id" tool_call, dget "type" tool_call with
  | None, _, _ => error "Tool call must contain 'function' key."
  | _, None, _ => error "Tool call must contain 'id' key."
  | _, _, None => error "Tool call must contain 'type' key."
  | Some f, Some _, Some t =>
      if negb (is_str "function" t) then error "Tool call type must be 'function'."
      else
        let? name := jitem "name" f in
        let? arguments := jitem "arguments" f in
        match arguments with
        | JStr s =>
            match json_loads s with
            | Raise _ => error "Failed to parse arguments as JSON."
            | Ok (JDict args) =>
                Ok ("<function=" +:+ format_value name +:+ ">" +:+ nl
                    +:+ str_join "" (param_string <$> args) +:+ "</function>")
            | Ok _ => Raise (OtherError "AttributeError" "items")
            end
        | _ => Raise (TypeError "the JSON object must be str")
        end
  end.

(** ** Describing tools *)

(** One parameter's line. *)
Definition describe_param (required : list json) (j : Z) (name : string) (info : json) :
    result string :=
  let? info := as_dict info in
  let status := if existsb (is_str name) required then "required" else "optional" in
  let ty := from_option format_value "string" (dget "type" info) in
  let desc := from_option id (JStr "No description provided") (dget "description" info) in
  let? desc :=
    match dget "enum" info with
    | None => Ok (format_value desc)
    | Some (JList values) =>
        match desc with
        | JStr d => Ok (d +:+ nl +:+ "Allowed values: ["
            +:+ str_join ", " ((λ v, "`" +:+ format_value v +:+ "`") <$> values) +:+ "]")
        | _ => Raise (TypeError "unsupported operand")
        end
    | Some _ => Raise (TypeError "not iterable")
    end in
  Ok ("  (" +:+ pretty (j + 1) +:+ ") " +:+ name +:+ " (" +:+ ty +:+ ", " +:+ status +:+ "): "
      +:+ desc +:+ nl).

Fixpoint describe_params (required : list json) (j : Z) (properties : dict) : result string :=
  match properties with
  | [] => Ok ""
  | (name, info) :: properties =>
      let? l := describe_param required j name info in
      let? k := describe_params required (j + 1) properties in Ok (l +:+ k)
  end.

(** [d.get('properties', {})] and [d.get('required', [])] *)
Definition get_properties (d : dict) : result dict :=
  from_option as_dict (Ok []) (dget "properties" d).
Definition get_required (d : dict) : result (list json) :=
  match dget "required" d with
  | None => Ok []
  | Some (JList l) => Ok l
  | Some _ => Raise (TypeError "not iterable")
  end.

Fixpoint describe_tools (i : Z) (tools : list dict) : result string :=
  match tools with
  | [] => Ok ""
  | tool :: tools =>
      let? ty := item "type" tool in
      if negb (is_str "function" ty) then Raise AssertionError
      else
        let? f := item "function" tool in
        let? fn := as_dict f in
        let? name := item "name" fn in
        let? description := item "description" fn in
        let? params :=
          match dget "parameters" fn with
          | Some p =>
              let? p := as_dict p in
              let? properties := get_properties p in
              let? required := get_required p in
              let? l := describe_params required 0 properties in
              Ok ("Parameters:" +:+ nl +:+ l)
          | None => Ok ("No parameters are required for this function." +:+ nl)
          end in
        let? rest := describe_tools (i + 1) tools in
        Ok ((if 0 <? i then nl else "")
            +:+ "---- BEGIN FUNCTION #" +:+ pretty (i + 1) +:+ ": " +:+ format_value name
            +:+ " ----" +:+ nl
            +:+ "Description: " +:+ format_value description +:+ nl +:+ params
            +:+ "---- END FUNCTION #" +:+ pretty (i + 1) +:+ " ----" +:+ nl +:+ rest)
  end.

(** [convert_tools_to_description] *)
Definition convert_tools_to_description : list dict → result string := describe_tools 0.
Definition system_prompt_suffix (tools : list dict) : result string :=
  let? d := convert_tools_to_description tools in Ok (system_prompt_suffix_text d).

(** ** Calls to text *)

(** [s] after the last text of the content. *)
Definition append_text (s : string) (content : json) : result json :=
  match content with
  | JStr c => Ok (JStr (c +:+ s))
  | JList l =>
      match split_last l with
      | None => Ok (JList [text_item s])
      | Some (k, x) =>
          let? b := is_text_item x in
          if b : bool then let? t := item_text x in Ok (JList (k ++ [set_item_text (t +:+ s) x]))
          else Ok (JList (l ++ [text_item s]))
      end
  | _ => Raise unexpected_content
  end.

(** The example around the first user message. *)
Definition add_example (example : string) (content : json) : result json :=
  let suffix := IN_CONTEXT_LEARNING_EXAMPLE_SUFFIX in
  match content with
  | JStr c => Ok (JStr (example +:+ c +:+ suffix))
  | JList l =>
      let around := Ok (JList (text_item example :: l ++ [text_item suffix])) in
      match l with
      | [] => around
      | x :: k =>
          let? b := is_text_item x in
          if b : bool
          then let? t := item_text x in
               Ok (JList (set_item_text (example +:+ t +:+ suffix) x :: k))
          else around
      end
  | _ => Raise unexpected_content
  end.

(** The call after the assistant's text. *)
Definition add_call (call : string) (content : json) : result json :=
  match content with
  | JStr c => Ok (JStr (str_lstrip (c +:+ nl +:+ nl +:+ call)))
  | JList l =>
      match split_last l with
      | None => Ok (JList [text_item call])
      | Some (k, x) =>
          let? b := is_text_item x in
          if b : bool
          then let? t := item_text x in
               Ok (JList (k ++ [set_item_text (str_lstrip (t +:+ nl +:+ nl +:+ call)) x]))
          else Ok (JList (l ++ [text_item call]))
      end
  | _ => Raise unexpected_content
  end.

(** The prefix in front of the first text. *)
Fixpoint prefix_first_text (prefix : string) (l : list json) : result (option (list json)) :=
  match l with
  | [] => Ok None
  | x :: l =>
      let? b := is_text_item x in
      if b : bool then let? t := item_text x in Ok (Some (set_item_text (prefix +:+ t) x :: l))
      else let? k := prefix_first_text prefix l in Ok (option_map (cons x) k)
  end.
Definition add_result_prefix (prefix : string) (content : json) : result json :=
  match content with
  | JStr c => Ok (JStr (prefix +:+ c))
  | JList l => let? k := prefix_first_text prefix l in
               Ok (JList (from_option id (text_item prefix :: l) k))
  | _ => Raise unexpected_content
  end.

(** [content[-1]['cache_control'] = {'type': 'ephemeral'}] *)
Definition mark_last (content : json) : result json :=
  match content with
  | JList l =>
      match split_last l with
      | Some (k, JDict d) =>
          Ok (JList (k ++ [JDict (dset "cache_control" (JDict [("type", JStr "ephemeral")]) d)]))
      | Some _ => Raise (TypeError "does not support item assignment")
      | None => Raise IndexError
      end
  | _ => Raise (TypeError "does not support item assignment")
  end.

Definition out_message (role : string) (content : json) : dict :=
  [("role", JStr role); ("content", content)].

(** The single call of an assistant's message, as text. *)
Definition call_text (tool_calls : json) : result string :=
  match tool_calls with
  | JList [JDict call] =>
      match convert_tool_call_to_string call with
      | Raise (OtherError cls m) =>
          Raise (if String.eqb cls "FunctionCallConversionError"
                 then FunctionCallConversionError "Failed to convert tool call to string."
                 else OtherError cls m)
      | r => r
      end
  | JList [_] => Raise (TypeError "not a dictionary")
  | JList _ => Raise (FunctionCallConversionError "Expected exactly one tool call in the message.")
  | _ => Raise (TypeError "object has no len()")
  end.

(** One message; [first]: the example has been placed. *)
Definition to_non_fncall (suffix : string) (tools : list dict) (add_example_ first : bool)
    (m : dict) : result (dict * bool) :=
  let? role := item "role" m in
  let? content := item "content" m in
  if is_str "system" role then
    let? c := append_text suffix content in Ok (out_message "system" c, first)
  else if is_str "user" role then
    if negb first && add_example_ then
      let? example := get_example_for_tools tools in
      let? c := if String.eqb example "" then Ok content else add_example example content in
      Ok (out_message "user" c, true)
    else Ok (out_message "user" content, first)
  else if is_str "assistant" role then
    match dget "tool_calls" m with
    | None | Some JNull => Ok (out_message "assistant" content, first)
    | Some calls =>
        let? call := call_text calls in
        let? c := add_call call content in Ok (out_message "assistant" c, first)
    end
  else if is_str "tool" role then
    let name := from_option format_value "function" (dget "name" m) in
    let? c := add_result_prefix ("EXECUTION RESULT of [" +:+ name +:+ "]:" +:+ nl) content in
    let? c := if dmem "cache_control" m then mark_last c else Ok c in
    Ok (out_message "user" c, first)
  else Raise (FunctionCallConversionError
                "Unexpected role. Expected system, user, assistant or tool.").

Fixpoint non_fncall_loop (suffix : string) (tools : list dict) (add_example_ first : bool)
    (messages : list dict) : result (list dict) :=
  match messages with
  | [] => Ok []
  | m :: messages =>
      let? r := to_non_fncall suffix tools add_example_ first m in
      let? k := non_fncall_loop suffix tools add_example_ r.2 messages in Ok (r.1 :: k)
  end.

(** [convert_fncall_messages_to_non_fncall_messages] *)
Definition convert_fncall_messages_to_non_fncall_messages (messages : list dict)
    (tools : list dict) (add_in_context_learning_example : bool) : result (list dict) :=
  let? suffix := system_prompt_suffix tools in
  non_fncall_loop suffix tools add_in_context_learning_example false messages.

(** ** Text to calls *)

(** [v in container] *)
Definition py_in (v container : json) : result bool :=
  match container, v with
  | JList l, _ => Ok (existsb (py_eqb v) l)
  | JDict d, JStr k => Ok (dmem k d)
  | JDict _, _ => Ok false
  | JStr s, JStr t => Ok (str_contains t s)
  | _, _ => Raise (TypeError "argument is not iterable")
  end.

(** A value converted to the parameter's declared type. *)
Definition convert_param (name : string) (ty : option json) (value : string) : result json :=
  if from_option (is_str "integer") false ty then
    match py_int value with
    | Some z => Ok (JInt z)
    | None => Raise (FunctionCallValidationError
                       ("Parameter '" +:+ name +:+ "' is expected to be an integer."))
    end
  else if from_option (is_str "array") false ty then
    match json_loads value with
    | Ok j => Ok j
    | Raise _ => Raise (FunctionCallValidationError
                          ("Parameter '" +:+ name +:+ "' is expected to be an array."))
    end
  else Ok (JStr value).

(** [val.get('type', 'string')] *)
Definition param_type (info : json) : result json :=
  let? d := as_dict info in Ok (from_option id (JStr "string") (dget "type" d)).

(** The parameters' schema, when it is there. *)
Definition tool_properties (tool : dict) : result (option dict) :=
  match dget "parameters" tool with
  | None => Ok None
  | Some p => let? p := as_dict p in
              match dget "properties" p with
              | None => Ok None
              | Some d => let? d := as_dict d in Ok (Some d)
              end
  end.
Definition tool_required (tool : dict) : result (list json) :=
  match dget "parameters" tool with
  | None => Ok []
  | Some p => let? p := as_dict p in get_required p
  end.

(** One parameter of the call. *)
Definition extract_param (tool : dict) (properties : option dict) (fn_name : string)
    (nv : string * string) : result json :=
  let name := nv.1 in
  let allowed := from_option id [] properties in
  if (match allowed with [] => false | _ => negb (dmem name allowed) end)
  then Raise (FunctionCallValidationError ("Parameter '" +:+ name
                +:+ "' is not allowed for function '" +:+ fn_name +:+ "'."))
  else
    let? ty := match dget name allowed with
               | None => Ok None
               | Some info => let? t := param_type info in Ok (Some t)
               end in
    let? value := convert_param name ty nv.2 in
    let? p := item "parameters" tool in
    let? p := jitem "properties" p in
    let? info := jitem name p in
    let? info := as_dict info in
    match dget "enum" info with
    | None => Ok value
    | Some values =>
        let? b := py_in value values in
        if b : bool then Ok value
        else Raise (FunctionCallValidationError ("Parameter '" +:+ name
                      +:+ "' is expected to be one of the allowed values."))
    end.

Fixpoint extract_params (tool : dict) (properties : option dict) (fn_name : string)
    (matches : list (string * string)) (params : dict) : result dict :=
  match matches with
  | [] => Ok params
  | nv :: matches =>
      let? v := extract_param tool properties fn_name nv in
      extract_params tool properties fn_name matches (dset nv.1 v params)
  end.

(** [_extract_and_validate_params] *)
Definition extract_and_validate_params (tool : dict) (matches : list (string * string))
    (fn_name : string) : result dict :=
  let? required := tool_required tool in
  let? properties := tool_properties tool in
  let? _ := rmap (λ kv, param_type kv.2) (from_option id [] properties) in
  let? params := extract_params tool properties fn_name matches [] in
  if forallb (λ r, match r with JStr s => dmem s params | _ => false end) required
  then Ok params
  else Raise (FunctionCallValidationError
                ("Missing required parameters for function '" +:+ fn_name +:+ "'")).

(** The function with this name. *)
Fixpoint find_tool (fn_name : string) (tools : list dict) : result (option dict) :=
  match tools with
  | [] => Ok None
  | t :: tools =>
      let? ty := item "type" t in
      if is_str "function" ty then
        let? f := item "function" t in
        let? f := as_dict f in
        let? n := item "name" f in
        if is_str fn_name n then Ok (Some f) else find_tool fn_name tools
      else find_tool fn_name tools
  end.

(** [f'toolu_{n:02d}'] for [n >= 0] *)
Definition tool_id (n : Z) : string :=
  "toolu_" +:+ (if n <? 10 then "0" else "") +:+ pretty n.

(** The call a match stands for. *)
Definition read_call (tools : list dict) (counter : Z) (fn_name body : string) : result json :=
  let? tool := find_tool fn_name tools in
  match tool with
  | None | Some [] =>
      Raise (FunctionCallValidationError ("Function '" +:+ fn_name
               +:+ "' not found in available tools"))
  | Some tool =>
      let? params := extract_and_validate_params tool
                       (finditer match_parameter (normalize_parameter_tags body)) fn_name in
      Ok (JDict [("index", JInt 1); ("id", JStr (tool_id counter)); ("type", JStr "function");
                 ("function", JDict [("name", JStr fn_name);
                                     ("arguments", JStr (json_dumps (JDict params)))])])
  end.

(** The text before the call. *)
Definition thought_text (s : string) : string := str_strip (before_first "<function=" s).

(** *** User messages *)

(** Without the example. *)
Definition strip_example (example s : string) : string :=
  let s := if startswith s example then replace_first example "" s else s in
  if endswith s IN_CONTEXT_LEARNING_EXAMPLE_SUFFIX
  then replace_first IN_CONTEXT_LEARNING_EXAMPLE_SUFFIX "" s else s.
Fixpoint strip_example_items (example : string) (l : list json) : result (list json) :=
  match l with
  | [] => Ok []
  | x :: l =>
      let? b := is_text_item x in
      let? x := if b : bool
                then let? t := item_text x in Ok (set_item_text (strip_example example t) x)
                else Ok x in
      let? k := strip_example_items example l in Ok (x :: k)
  end.

(** [item.get('type') == 'text'] *)
Definition get_is_text (j : json) : result bool :=
  let? d := as_dict j in Ok (from_option (is_str "text") false (dget "type" d)).
(** The first match in a text of the list. *)
Fixpoint search_items {X} (m : string → option (X * nat)) (l : list json) : result (option X) :=
  match l with
  | [] => Ok None
  | x :: l =>
      let? b := get_is_text x in
      if b : bool then
        let? t := item_text x in
        match search m t with Some r => Ok (Some r) | None => search_items m l end
      else search_items m l
  end.

Definition from_user (tools : list dict) (counter : Z) (first : bool) (content : json) :
    result dict :=
  let? content :=
    if first then Ok content
    else match content with
         | JStr s => let? ex := get_example_for_tools tools in Ok (JStr (strip_example ex s))
         | JList l => let? ex := get_example_for_tools tools in
                      let? k := strip_example_items ex l in Ok (JList k)
         | _ => Raise unexpected_content
         end in
  let? r := match content with
            | JStr s => Ok (search match_tool_result s)
            | JList l => search_items match_tool_result l
            | _ => Raise unexpected_content
            end in
  match r with
  | None => Ok (out_message "user" content)
  | Some (name, res) =>
      let res := str_strip res in
      Ok [("role", JStr "tool"); ("name", JStr name);
          ("content", match content with JList _ => JList [text_item res] | _ => JStr res end);
          ("tool_call_id", JStr (tool_id (counter - 1)))]
  end.

(** *** Assistant messages *)

Definition assistant_call (content call : json) : dict :=
  [("role", JStr "assistant"); ("content", content); ("tool_calls", JList [call])].

(** The message afterwards and the next counter. *)
Definition from_assistant (tools : list dict) (counter : Z) (m : dict) (content : json) :
    result (dict * Z) :=
  match content with
  | JStr s =>
      let s := fix_stopword s in
      match search match_function s with
      | None => Ok (m, counter)
      | Some (name, body) =>
          let? call := read_call tools counter name body in
          Ok (assistant_call (JStr (thought_text s)) call, counter + 1)
      end
  | JList l =>
      let? last := match split_last l with
                   | None => Ok None
                   | Some (k, x) =>
                       let? b := is_text_item x in
                       if b : bool
                       then let? t := item_text x in
                            Ok (Some (k, x, fix_stopword t))
                       else Ok None
                   end in
      let l := match last with Some (k, x, t) => k ++ [set_item_text t x] | None => l end in
      let fn_match := match last with Some (_, _, t) => search match_function t | None => None end in
      let? found := search_items match_function l in
      match fn_match, last with
      | Some (name, body), Some (k, x, t) =>
          let? call := read_call tools counter name body in
          Ok (assistant_call (JList (k ++ [set_item_text (thought_text t) x])) call, counter + 1)
      | _, _ =>
          if found then Raise (FunctionCallConversionError
                                 "Expecting function call in the LAST index of content list.")
          else Ok (match l with [] => m | _ => dset "content" (JList l) m end, counter)
      end
  | _ => Raise unexpected_content
  end.

(** *** System messages *)

Definition from_system (suffix : string) (content : json) : result json :=
  match content with
  | JStr s => Ok (JStr (before_first suffix s))
  | JList l =>
      match split_last l with
      | None => Ok content
      | Some (k, x) =>
          let? b := is_text_item x in
          if b : bool
          then let? t := item_text x in Ok (JList (k ++ [set_item_text (before_first suffix t) x]))
          else Ok content
      end
  | _ => Ok content
  end.

(** One message; the counter and whether the first user message has been seen. *)
Definition to_fncall (suffix : string) (tools : list dict) (counter : Z) (first : bool) (m : dict) :
    result (dict * Z * bool) :=
  let? role := item "role" m in
  let? content := item "content" m in
  let content := if jtruthy content then content else JStr "" in
  if is_str "system" role then
    let? c := from_system suffix content in Ok (out_message "system" c, counter, first)
  else if is_str "user" role then
    let? u := from_user tools counter first content in Ok (u, counter, true)
  else if is_str "assistant" role then
    let? r := from_assistant tools counter m content in Ok (r.1, r.2, first)
  else Raise (FunctionCallConversionError
                "Unexpected role. Expected system, user, or assistant.").

Fixpoint fncall_loop (suffix : string) (tools : list dict) (counter : Z) (first : bool)
    (messages : list dict) : result (list dict) :=
  match messages with
  | [] => Ok []
  | m :: messages =>
      let? r := to_fncall suffix tools counter first m in
      let? k := fncall_loop suffix tools r.1.2 r.2 messages in Ok (r.1.1 :: k)
  end.

(** [convert_non_fncall_messages_to_fncall_messages] *)
Definition convert_non_fncall_messages_to_fncall_messages (messages tools : list dict) :
    result (list dict) :=
  let? suffix := system_prompt_suffix tools in fncall_loop suffix tools 1 false messages.
End converter.

(** ** One call per message *)

(** A dictionary keyed by ids. *)
Abbreviation by_id := (list (json * dict)).
Fixpoint id_set (k : json) (v : dict) (d : by_id) : by_id :=
  match d with
  | [] => [(k, v)]
  | (k', v') :: d => if bool_decide (k = k') then (k, v) :: d else (k', v') :: id_set k v d
  end.
Fixpoint id_pop (k : json) (d : by_id) : option (dict * by_id) :=
  match d with
  | [] => None
  | (k', v') :: d => if bool_decide (k = k') then Some (v', d)
                     else match id_pop k d with
                          | Some (v, d) => Some (v, (k', v') :: d)
                          | None => None
                          end
  end.

(** The calls of one message, each in a message of its own; the text goes to the first. *)
Fixpoint split_calls (content : json) (calls : list json) (pending : by_id) : result by_id :=
  match calls with
  | [] => Ok pending
  | c :: calls =>
      let? i := jitem "id" c in
      split_calls (JStr "") calls (id_set i (assistant_call content c) pending)
  end.

Fixpoint single_loop (pending : by_id) (messages : list dict) : result (list dict * by_id) :=
  match messages with
  | [] => Ok ([], pending)
  | m :: messages =>
      let? role := item "role" m in
      let? content := item "content" m in
      if is_str "assistant" role then
        match dget "tool_calls" m with
        | Some (JList ((_ :: _ :: _) as calls)) =>
            let? p := split_calls content calls pending in single_loop p messages
        | Some (JDict (_ :: _ :: _)) => Raise (TypeError "string indices must be integers")
        | _ => let? k := single_loop pending messages in Ok (m :: k.1, k.2)
        end
      else if is_str "tool" role then
        let? i := item "tool_call_id" m in
        match id_pop i pending with
        | Some (call, pending) =>
            let? k := single_loop pending messages in Ok (call :: m :: k.1, k.2)
        | None =>
            match pending with
            | [] => let? k := single_loop [] messages in Ok (m :: k.1, k.2)
            | _ => Raise AssertionError
            end
        end
      else match pending with
           | [] => let? k := single_loop [] messages in Ok (m :: k.1, k.2)
           | _ => Raise AssertionError
           end
  end.

(** [convert_from_multiple_tool_calls_to_single_tool_call_messages] *)
Definition convert_from_multiple_tool_calls_to_single_tool_call_messages (messages : list dict)
    (ignore_final_tool_result : bool) : result (list dict) :=
  let? r := single_loop [] messages in
  match r.2 with
  | [] => Ok r.1
  | _ => if ignore_final_tool_result then Ok r.1
         else Raise (FunctionCallConversionError "Found pending tool calls but no tool result")
  end.
