(* ===== verification/FnCallConverterProps.v ===== *)
(** * Function calls survive the conversion to text

    A conversation whose calls are written into the messages' texts is read back as it
    was, with the calls' ids renumbered: the round trip of the two converters, from the
    tags of a single call up to whole conversations. *)

From S2P Require Import Prelude PyValue EventStore ExamplePlatform.
From S2P Require Import FnCallTexts StrSearch FnCallConverter.
Local Open Scope Z_scope.
Local Open Scope py_scope.

(** ** Trimmed texts *)

(** No white space at either end. *)
Definition trimmed (s : string) : Prop := str_lstrip s = s ∧ str_rstrip s = s.

Lemma lstrip_app s t : str_lstrip s = s → s ≠ "" → str_lstrip (s +:+ t) = s +:+ t.
Proof.
  destruct s as [|c s]; [done|]. simpl. destruct (is_py_space c); [|done].
  intros Hs _. exfalso. assert (∀ x, (String.length (str_lstrip x) ≤ String.length x)%nat) as Hl.
  { induction x as [|d x IH]; simpl; [done|]. destruct (is_py_space d); simpl; lia. }
  specialize (Hl s). rewrite Hs in Hl. simpl in Hl. lia.
Qed.

Lemma strip_trimmed s : trimmed s → str_strip s = s.
Proof. intros [Hl Hr]. unfold str_strip. rewrite Hl. exact Hr. Qed.

Lemma strip_trimmed_nl s : trimmed s → str_strip (s +:+ nl +:+ nl) = s.
Proof.
  intros [Hl Hr]. destruct (decide (s = "")) as [->|Hne]; [done|].
  unfold str_strip. rewrite lstrip_app by done. rewrite !rev_append. exact Hr.
Qed.

(** ** The text of a call *)

Lemma is_word_lt k : all_chars is_word k = true → has_char "<" k = false.
Proof.
  induction k as [|c k IH]; [done|]. cbn [all_chars has_char]. intros [Hc Hk]%andb_true_iff.
  rewrite (IH Hk), orb_false_r. destruct (Ascii.eqb_spec "<" c) as [<-|]; done.
Qed.
Lemma is_word_gt k : all_chars is_word k = true → all_chars not_gt k = true.
Proof.
  apply all_chars_impl. intros c Hc. unfold not_gt.
  destruct (Ascii.eqb_spec c ">") as [->|]; done.
Qed.

(** A text that contains none of the tags. *)
Definition tag_free (s : string) : bool :=
  negb (str_contains "</parameter>" s || str_contains "<parameter=" s
        || str_contains "</function>" s).

Lemma tag_free_inv s :
  tag_free s = true →
  str_contains "</parameter>" s = false ∧ str_contains "<parameter=" s = false
  ∧ str_contains "</function>" s = false.
Proof. unfold tag_free. intros H%negb_true_iff. rewrite !orb_false_iff in H. naive_solver. Qed.

(** Names and texts of parameters that can be told apart from the tags. *)
Definition param_ok (kt : string * string) : Prop :=
  kt.1 ≠ "" ∧ all_chars is_word kt.1 = true ∧ tag_free kt.2 = true.

(** The body of a call with these names and texts. *)
Definition tag (kt : string * string) : string :=
  "<parameter=" +:+ kt.1 +:+ ">" +:+ kt.2 +:+ "</parameter>".
Fixpoint body (l : list (string * string)) : string :=
  match l with [] => "" | kt :: l => tag kt +:+ nl +:+ body l end.

Lemma tag_app kt x :
  tag kt +:+ x = "<parameter=" +:+ kt.1 +:+ ">" +:+ kt.2 +:+ "</parameter>" +:+ x.
Proof. unfold tag. by rewrite <- !append_assoc. Qed.

Lemma body_no_close l : Forall param_ok l → str_contains "</function>" (body l) = false.
Proof.
  induction 1 as [|[k t] l (Hne&Hk&Ht) _ IH]; [done|]. simpl in Hne, Hk, Ht. cbn [body].
  apply tag_free_inv in Ht as (_&_&Ht). rewrite tag_app. cbn [fst snd].
  change ("<parameter=" +:+ k +:+ ">" +:+ t +:+ "</parameter>" +:+ nl +:+ body l)
    with (String "<" ("parameter=" +:+ (k +:+ (">" +:+ (t +:+ String "<" ("/parameter>" +:+ nl +:+ body l)))))).
  cbn [str_contains]. rewrite prefix_cons. cbn [Ascii.eqb Bool.eqb andb].
  change (String.prefix "/function>" _) with false. cbn [orb].
  rewrite (contains_skip "<" "/function>" "parameter=") by done.
  rewrite (contains_skip "<" "/function>" k) by (by apply is_word_lt).
  rewrite (contains_skip "<" "/function>" ">") by done.
  rewrite contains_app_char by done. rewrite Ht. cbn [orb str_contains].
  rewrite prefix_cons. change (String.prefix "/function>" _) with false. rewrite andb_false_r. cbn [orb].
  rewrite (contains_skip "<" "/function>" "/parameter>") by done.
  by rewrite (contains_skip "<" "/function>" nl).
Qed.

Lemma match_parameter_prefix s : String.prefix "<parameter=" s = false → match_parameter s = None.
Proof. unfold match_parameter, after_prefix. by intros ->. Qed.
Lemma match_malformed_prefix s : String.prefix "<parameter=" s = false → match_malformed s = None.
Proof. unfold match_malformed, after_prefix. by intros ->. Qed.
Lemma match_function_prefix s : String.prefix "<function=" s = false → match_function s = None.
Proof. unfold match_function, after_prefix. by intros ->. Qed.
Lemma match_tool_result_prefix s :
  String.prefix "EXECUTION RESULT of [" s = false → match_tool_result s = None.
Proof. unfold match_tool_result, after_prefix. by intros ->. Qed.

(** A tag is found where it starts, and is well formed. *)
Lemma match_tag k t x :
  param_ok (k, t) →
  match_parameter (tag (k, t) +:+ x) = Some (k, t, String.length (tag (k, t)))
  ∧ match_malformed (tag (k, t) +:+ x) = None.
Proof.
  intros (Hne&Hk&Ht). cbn [fst snd] in *. apply tag_free_inv in Ht as (Ht&_&_).
  set (s := tag (k, t) +:+ x).
  assert (after_prefix "<parameter=" s = Some (k +:+ String ">" (t +:+ "</parameter>" +:+ x))) as Ha.
  { unfold s. rewrite tag_app. apply after_prefix_app. }
  assert (String.eqb k "" = false) as Hk0 by (by apply String.eqb_neq). split.
  - unfold match_parameter. rewrite Ha.
    rewrite (span_app not_gt k ">" _ (is_word_gt k Hk) eq_refl), Hk0.
    change (String ">" (t +:+ "</parameter>" +:+ x)) with (">" +:+ (t +:+ "</parameter>" +:+ x)).
    rewrite after_prefix_app.
    rewrite (str_cut_app "<" "/parameter>") by done. do 2 f_equal.
    unfold used, s. rewrite length_append. lia.
  - unfold match_malformed. rewrite Ha. by rewrite (span_app is_word k ">" _ Hk eq_refl), Hk0.
Qed.

Lemma finditer_body l : Forall param_ok l → finditer match_parameter (body l) = l.
Proof.
  induction 1 as [|[k t] l Hp _ IH]; [done|]. cbn [body].
  destruct (match_tag k t (nl +:+ body l) Hp) as [Hm _].
  unfold finditer. remember (tag (k, t)) as u eqn:Eu.
  destruct u as [|c u]; [done|].
  change (String c u +:+ nl +:+ body l) with (String c (u +:+ nl +:+ body l)) in *.
  cbn [finditer_go]. rewrite Hm. cbn [String.length pred]. f_equal.
  rewrite finditer_skip.
  rewrite (finditer_plain match_parameter "<" "parameter=" match_parameter_prefix nl) by done.
  exact IH.
Qed.

(** Well-formed tags are left alone. *)
Lemma normalize_body l : Forall param_ok l → normalize_parameter_tags (body l) = body l.
Proof.
  induction 1 as [|[k t] l Hp _ IH]; [done|]. cbn [body].
  destruct (match_tag k t (nl +:+ body l) Hp) as [_ Hm]. destruct Hp as (Hne&Hk&Ht).
  cbn [fst snd] in *. apply tag_free_inv in Ht as (_&Ht&_).
  rewrite tag_app in Hm |- *. cbn [fst snd] in *.
  change ("<parameter=" +:+ k +:+ ">" +:+ t +:+ "</parameter>" +:+ nl +:+ body l) with
    (String "<" ("parameter=" +:+ (k +:+ (">" +:+ (t +:+ String "<" ("/parameter>" +:+ nl +:+ body l)))))) in *.
  unfold normalize_parameter_tags, re_sub. cbn [sub_go]. rewrite Hm.
  rewrite (sub_plain match_malformed "<" "parameter=" match_malformed_prefix "parameter=") by done.
  rewrite (sub_plain match_malformed "<" "parameter=" match_malformed_prefix k) by (by apply is_word_lt).
  rewrite (sub_plain match_malformed "<" "parameter=" match_malformed_prefix ">") by done.
  rewrite (sub_skip match_malformed "<" "parameter=" eq_refl match_malformed_prefix t) by done.
  cbn [sub_go]. rewrite match_malformed_prefix by done.
  rewrite (sub_plain match_malformed "<" "parameter=" match_malformed_prefix "/parameter>") by done.
  rewrite (sub_plain match_malformed "<" "parameter=" match_malformed_prefix nl) by done.
  unfold normalize_parameter_tags, re_sub in IH. by rewrite IH.
Qed.

(** ** Finding the call *)

Definition call_string (name : string) (l : list (string * string)) : string :=
  "<function=" +:+ name +:+ ">" +:+ nl +:+ body l +:+ "</function>".

Definition name_ok (name : string) : Prop := name ≠ "" ∧ all_chars not_gt name = true.

Lemma match_call name l z :
  name_ok name → Forall param_ok l →
  ∃ n, match_function (call_string name l +:+ z) = Some (name, body l, n).
Proof.
  intros [Hne Hn] Hl. unfold call_string. rewrite <- !append_assoc. unfold match_function.
  rewrite after_prefix_app.
  change (">" +:+ nl +:+ body l +:+ "</function>" +:+ z) with
    (String ">" (nl +:+ body l +:+ "</function>" +:+ z)).
  rewrite (span_app not_gt name ">" _ Hn eq_refl), (proj2 (String.eqb_neq name "") Hne).
  change (String ">" (nl +:+ body l +:+ "</function>" +:+ z)) with
    ((">" +:+ nl) +:+ (body l +:+ "</function>" +:+ z)).
  rewrite after_prefix_app, (str_cut_app "<" "/function>") by (done || by apply body_no_close).
  by eexists.
Qed.

Lemma search_call t name l z :
  str_contains "<function=" t = false → name_ok name → Forall param_ok l →
  search match_function (t +:+ call_string name l +:+ z) = Some (name, body l).
Proof.
  intros Ht Hn Hl. destruct (match_call name l z Hn Hl) as [n Hm].
  unfold call_string in *. rewrite <- !append_assoc in *.
  change ("<function=" +:+ name +:+ ">" +:+ nl +:+ body l +:+ "</function>" +:+ z) with
    (String "<" ("function=" +:+ name +:+ ">" +:+ nl +:+ body l +:+ "</function>" +:+ z)) in *.
  rewrite (search_skip match_function "<" "function=" eq_refl match_function_prefix t _ Ht).
  cbn [search]. by rewrite Hm.
Qed.

(** The end that is added to a text whose last tag may be missing. *)
Lemma fix_stopword_call t name l :
  ∃ z, fix_stopword (t +:+ call_string name l) = t +:+ call_string name l +:+ z.
Proof.
  unfold fix_stopword. destruct (Nat.eqb _ 1).
  - assert (endswith (t +:+ call_string name l) "</" = false) as ->.
    { unfold endswith. rewrite rev_append. unfold call_string. rewrite !rev_append.
      rewrite <- !append_assoc. reflexivity. }
    exists (nl +:+ "</function>"). by rewrite <- !append_assoc.
  - exists "". by rewrite append_empty_r.
Qed.

Lemma count_none c p s :
  str_contains (String c p) s = false → str_count (String c p) s = 0%nat.
Proof.
  unfold str_count. induction s as [|d s IH]; [done|]. intros [Hs Hp]%contains_false_tail.
  cbn [count_go]. rewrite Hp. by apply IH.
Qed.

(** ** Parameters and their types *)

Section typed.
Context `{PlatformLaws}.
(** [repr] of an integer. *)
Hypothesis repr_int : ∀ z, py_repr (JInt z) = pretty z.

Lemma py_int_neg p : py_int (pretty (Z.neg p)) = Some (Z.neg p).
Proof.
  change (pretty (Z.neg p)) with (String "-" (pretty (Z.pos p))).
  pose proof (pretty_digits (Z.pos p) ltac:(lia)) as Hd.
  unfold py_int. rewrite str_strip_nospace.
  - simpl. rewrite parse_pretty by lia. done.
  - cbn [all_chars]. eapply all_chars_impl; [apply digit_not_space|done].
Qed.
Lemma py_int_pretty_Z z : py_int (pretty z) = Some z.
Proof. destruct z as [|p|p]; [done|by apply py_int_pretty|apply py_int_neg]. Qed.

(** The argument is one the tool declares, of its type and among its allowed values. *)
Definition typed_arg (props : dict) (kv : string * json) : Prop :=
  ∃ info, dget kv.1 props = Some (JDict info)
  ∧ match kv.2, from_option id (JStr "string") (dget "type" info) with
    | JInt _, ty => is_str "integer" ty = true
    | JList _, ty => is_str "array" ty = true
    | JStr _, ty => is_str "integer" ty = false ∧ is_str "array" ty = false
    | _, _ => False
    end
  ∧ ∀ values, dget "enum" info = Some values →
      ∃ l, values = JList l ∧ existsb (py_eqb kv.2) l = true.

(** The schema of a tool. *)
Definition has_schema (tool props : dict) (required : list json) : Prop :=
  ∃ p, dget "parameters" tool = Some (JDict p) ∧ dget "properties" p = Some (JDict props)
  ∧ get_required p = Ok required ∧ Forall (λ kv, ∃ info, kv.2 = JDict info) props.

Lemma extract_typed tool props required fn_name kv :
  has_schema tool props required → typed_arg props kv →
  extract_param tool (Some props) fn_name (kv.1, param_text kv.2) = Ok kv.2.
Proof using repr_int H0.
  intros (p&Hp&Hpr&_&_) (info&Hi&Hty&Hen). destruct kv as [k v]. cbn [fst snd] in *.
  unfold extract_param. cbn [fst snd from_option id]. unfold dmem. rewrite Hi. cbn [negb].
  destruct props as [|x props]; [done|]. unfold param_type. cbn [as_dict rbind from_option].
  assert (convert_param k (Some (from_option id (JStr "string") (dget "type" info))) (param_text v)
          = Ok v) as ->.
  { unfold convert_param. cbn [from_option]. destruct v; try done; cbn [param_text format_value].
    - rewrite Hty, repr_int, py_int_pretty_Z. done.
    - destruct Hty as [-> ->]. done.
    - destruct (is_str "integer" _) eqn:Ei; [|rewrite Hty, loads_dumps; done]. exfalso.
      destruct (from_option id (JStr "string") (dget "type" info)); try done. simpl in *.
      apply String.eqb_eq in Ei, Hty. congruence. }
  cbn [rbind]. unfold item at 1. rewrite Hp. cbn [rbind]. unfold jitem, as_dict, item.
  cbn [rbind]. rewrite Hpr. cbn [rbind]. rewrite Hi. cbn [rbind].
  destruct (dget "enum" info) as [values|]; [|done].
  destruct (Hen values eq_refl) as (l&->&Hl). cbn [py_in rbind]. rewrite Hl. done.
Qed.

Definition texts (args : dict) : list (string * string) := (λ kv, (kv.1, param_text kv.2)) <$> args.

Lemma extract_params_typed tool props required fn_name args acc :
  has_schema tool props required → Forall (typed_arg props) args → NoDup (acc ++ args).*1 →
  extract_params tool (Some props) fn_name (texts args) acc = Ok (acc ++ args).
Proof using repr_int H0.
  intros Hs Ha. revert acc. induction Ha as [|kv args Hkv _ IH]; intros acc Hnd.
  { by rewrite app_nil_r. }
  unfold texts. rewrite fmap_cons. cbn [extract_params].
  rewrite (extract_typed _ _ _ _ _ Hs Hkv). cbn [rbind fst].
  assert (kv.1 ∉ acc.*1) as Hk.
  { rewrite fmap_app in Hnd. apply NoDup_app in Hnd as (_&Hnd&_). intros Hin.
    apply (Hnd _ Hin). csimpl. by left. }
  rewrite dset_fresh by done.
  assert ((acc ++ [(kv.1, kv.2)]) = acc ++ [kv]) as -> by (by destruct kv).
  fold (texts args). rewrite IH; [by rewrite <- app_assoc|]. by rewrite <- app_assoc.
Qed.

(** What is required of a call: the arguments fit the schema and can be told from tags. *)
Record call_ok (tool : dict) (name : string) (args : dict) : Prop := {
  co_name : name_ok name;
  co_params : Forall param_ok (texts args);
  co_nodup : NoDup args.*1;
  co_schema : ∃ props required, has_schema tool props required ∧ Forall (typed_arg props) args
    ∧ Forall (λ r, ∃ s, r = JStr s ∧ s ∈ args.*1) required;
}.

Lemma validate_typed tool name args :
  call_ok tool name args → extract_and_validate_params tool (texts args) name = Ok args.
Proof using repr_int H0.
  intros [_ _ Hnd (props&required&Hs&Ha&Hr)]. unfold extract_and_validate_params.
  pose proof Hs as (p&Hp&Hpr&Hreq&Hinfo). unfold tool_required, tool_properties.
  rewrite Hp. cbn [as_dict rbind]. rewrite Hreq, Hpr. cbn [as_dict rbind from_option id].
  assert (∃ l, rmap (λ kv : string * json, param_type kv.2) props = Ok l) as [l ->].
  { clear -Hinfo. induction Hinfo as [|kv props (info&Hi) _ [l IH]]; [by eexists|].
    cbn [rmap]. rewrite Hi. cbn [param_type as_dict rbind]. rewrite IH. by eexists. }
  cbn [rbind]. rewrite (extract_params_typed _ _ _ _ _ [] Hs Ha) by done. cbn [rbind app].
  assert (forallb (λ r, match r with JStr s => dmem s args | _ => false end) required = true) as ->;
    [|done].
  apply forallb_forall. intros r Hin%list_elem_of_In. rewrite Forall_forall in Hr.
  destruct (Hr r Hin) as (s&->&Hs'). unfold dmem. by destruct (dget_key _ _ Hs') as [v ->].
Qed.

(** ** Conversations *)

(** The document of a call, with the id of its number. *)
Definition call_doc (n : Z) (name : string) (args : dict) : dict :=
  [("index", JInt 1); ("id", JStr (tool_id n)); ("type", JStr "function");
   ("function", JDict [("name", JStr name); ("arguments", JStr (json_dumps (JDict args)))])].

Lemma str_join_nil_cons x l : str_join "" (x :: l) = x +:+ str_join "" l.
Proof. destruct l; simpl; [by rewrite append_empty_r|done]. Qed.
Lemma params_body args : str_join "" (param_string <$> args) = body (texts args).
Proof.
  induction args as [|kv args IH]; [done|]. unfold texts. rewrite !fmap_cons, str_join_nil_cons.
  fold (texts args). cbn [body]. rewrite IH. unfold param_string, tag. cbn [fst snd].
  by rewrite <- !append_assoc.
Qed.

Lemma call_doc_string n name args :
  convert_tool_call_to_string (call_doc n name args) = Ok (call_string name (texts args)).
Proof using H0.
  unfold convert_tool_call_to_string, call_doc. cbn -[str_join param_string body json_loads json_dumps nl].
  rewrite loads_dumps, params_body. done.
Qed.

(** The messages of a conversation after its first question. *)
Inductive turn :=
  | TUser (text : string)
  | TSay (text : string)
  | TCall (text name : string) (args : dict)
  | TResult (name res : string).

Definition result_doc (n : Z) (name res : string) : dict :=
  [("role", JStr "tool"); ("name", JStr name); ("content", JStr res);
   ("tool_call_id", JStr (tool_id n))].

(** As function-calling messages; [n] is the number of the next call. *)
Fixpoint fn_messages (n : Z) (turns : list turn) : list dict :=
  match turns with
  | [] => []
  | TUser u :: turns => out_message "user" (JStr u) :: fn_messages n turns
  | TSay t :: turns => out_message "assistant" (JStr t) :: fn_messages n turns
  | TCall t name args :: turns =>
      assistant_call (JStr t) (JDict (call_doc n name args)) :: fn_messages (n + 1) turns
  | TResult name res :: turns => result_doc (n - 1) name res :: fn_messages n turns
  end.

Definition result_free (s : string) : bool := negb (str_contains "EXECUTION RESULT of [" s).
Definition turn_ok (tools : list dict) (t : turn) : Prop :=
  match t with
  | TUser u => result_free u = true
  | TSay s => str_contains "<function=" s = false
  | TCall s name args =>
      trimmed s ∧ str_contains "<function=" s = false
      ∧ ∃ tool, find_tool name tools = Ok (Some tool) ∧ call_ok tool name args
  | TResult name res => str_contains ("]:" +:+ nl) name = false ∧ trimmed res
  end.

Lemma truthy_str_id s : (if jtruthy (JStr s) then JStr s else JStr "") = JStr s.
Proof. simpl. by destruct (String.eqb_spec s "") as [->|]. Qed.

(** The text of a call after the assistant's words. *)
Lemma call_content s name l :
  trimmed s →
  ∃ pre, str_lstrip (s +:+ nl +:+ nl +:+ call_string name l) = pre +:+ call_string name l
    ∧ str_strip pre = s ∧ (str_contains "<function=" s = false → str_contains "<function=" pre = false).
Proof.
  intros Ht. destruct (decide (s = "")) as [->|Hne].
  { exists "". done. }
  exists (s +:+ nl +:+ nl). rewrite lstrip_app by (done || apply Ht). split_and!.
  - by rewrite <- !append_assoc.
  - by apply strip_trimmed_nl.
  - intros Hs. change (nl +:+ nl) with (String newline (String newline "")).
    rewrite (contains_app_other "<" "function=" s newline) by done. rewrite Hs.
    done.
Qed.

Lemma thought_of_call pre name l z :
  str_contains "<function=" pre = false →
  thought_text (pre +:+ call_string name l +:+ z) = str_strip pre.
Proof.
  intros Hp. unfold thought_text, before_first, call_string. rewrite <- !append_assoc.
  by rewrite (str_cut_app "<" "function=").
Qed.

(** One turn there and back. *)
Lemma turn_roundtrip suffix tools ex n t m :
  turn_ok tools t → fn_messages n [t] = [m] →
  ∃ m', to_non_fncall suffix tools ex true m = Ok (m', true)
    ∧ to_fncall suffix tools n true m'
      = Ok (m, match t with TCall _ _ _ => n + 1 | _ => n end, true).
Proof using repr_int H0.
  intros Hok Hm. destruct t as [u|s|s name args|name res]; cbn [fn_messages] in Hm; injection Hm as <-.
  - exists (out_message "user" (JStr u)). split; [done|]. unfold to_fncall.
    cbn -[search match_tool_result jtruthy]. rewrite truthy_str_id. cbn -[search match_tool_result].
    simpl in Hok. apply negb_true_iff in Hok.
    rewrite (search_none match_tool_result "E" "XECUTION RESULT of [" match_tool_result_prefix) by done.
    done.
  - exists (out_message "assistant" (JStr s)). split; [done|]. unfold to_fncall.
    cbn -[search match_function jtruthy fix_stopword]. rewrite truthy_str_id.
    cbn -[search match_function fix_stopword]. simpl in Hok. unfold fix_stopword.
    rewrite count_none by done. cbn [Nat.eqb].
    by rewrite (search_none match_function "<" "function=" match_function_prefix).
  - destruct Hok as (Ht&Hs&tool&Htool&Hcall).
    destruct (call_content s name (texts args) Ht) as (pre&Hpre&Hstrip&Hclean). specialize (Hclean Hs).
    exists (out_message "assistant" (JStr (pre +:+ call_string name (texts args)))). split.
    { unfold to_non_fncall. cbn -[call_text add_call]. unfold call_text.
      rewrite call_doc_string. cbn [rbind add_call]. by rewrite Hpre. }
    unfold to_fncall. cbn -[search match_function jtruthy fix_stopword read_call call_string].
    rewrite truthy_str_id. cbn -[search match_function fix_stopword read_call call_string].
    destruct (fix_stopword_call pre name (texts args)) as [z Hz]. rewrite Hz.
    rewrite search_call by (done || apply Hcall). unfold read_call. rewrite Htool. cbn [rbind].
    rewrite thought_of_call by done. rewrite Hstrip.
    rewrite normalize_body, finditer_body by apply Hcall. rewrite (validate_typed _ _ _ Hcall).
    destruct tool as [|x tool]; [|done].
    destruct Hcall as [_ _ _ (props&required&(p&Hp&_)&_)]. done.
  - destruct Hok as [Hn Hr]. eexists. split; [reflexivity|]. unfold to_fncall.
    cbn -[search match_tool_result jtruthy]. rewrite truthy_str_id.
    cbn -[search match_tool_result tool_id].
    assert (search match_tool_result (("EXECUTION RESULT of [" +:+ name +:+ "]:" +:+ nl) +:+ res)
            = Some (name, res)) as Hm.
    { rewrite <- !append_assoc.
      set (x := "EXECUTION RESULT of [" +:+ name +:+ "]:" +:+ nl +:+ res).
      assert (match_tool_result x = Some (name, res, String.length x)) as Hx.
      { unfold match_tool_result, x at 1. rewrite after_prefix_app.
        change ("]:" +:+ nl +:+ res) with (String "]" (":" +:+ nl) +:+ res).
        by rewrite (str_cut_app "]" (":" +:+ nl)). }
      destruct x as [|c x]; [done|]. cbn [search]. by rewrite Hx. }
    rewrite Hm. cbn [rbind]. by rewrite (strip_trimmed _ Hr).
Qed.

(** Plain messages have a role and a content only. *)
Definition plain_message (m : dict) : Prop := m.*1 = ["role"; "content"].

Lemma to_non_fncall_plain suffix tools ex first m m' first' :
  to_non_fncall suffix tools ex first m = Ok (m', first') → plain_message m'.
Proof.
  unfold to_non_fncall. intros (role&_&(content&_&Hm)%rbind_ok_inv)%rbind_ok_inv. revert Hm.
  repeat match goal with
  | |- (if ?b then _ else _) = _ → _ => destruct b
  | |- (match ?x with _ => _ end) = _ → _ => destruct x
  | |- rbind _ _ = _ → _ => let y := fresh "y" in intros (y&_&Hy)%rbind_ok_inv; revert Hy; cbv beta
  | |- Ok _ = Ok _ → _ => by intros [= <- _]
  | |- Raise _ = Ok _ → _ => done
  end.
Qed.

Lemma fn_messages_cons n t turns :
  ∃ m, fn_messages n [t] = [m]
    ∧ fn_messages n (t :: turns)
      = m :: fn_messages (match t with TCall _ _ _ => n + 1 | _ => n end) turns.
Proof. destruct t; by eexists. Qed.

Lemma turns_roundtrip suffix tools ex n turns :
  Forall (turn_ok tools) turns →
  ∃ plain, non_fncall_loop suffix tools ex true (fn_messages n turns) = Ok plain
    ∧ Forall plain_message plain
    ∧ fncall_loop suffix tools n true plain = Ok (fn_messages n turns).
Proof using repr_int H0.
  intros Hok. revert n. induction Hok as [|t turns Ht _ IH]; intros n; [by exists []|].
  destruct (fn_messages_cons n t turns) as (m&Hm&->).
  destruct (turn_roundtrip suffix tools ex n t m Ht Hm) as (m'&H1&H2).
  destruct (IH (match t with TCall _ _ _ => n + 1 | _ => n end)) as (plain&H3&H4&H5).
  exists (m' :: plain). cbn [non_fncall_loop fncall_loop].
  rewrite H1. cbn [rbind fst snd]. rewrite H3. split; [done|]. split.
  { constructor; [by eapply to_non_fncall_plain|done]. }
  rewrite H2. cbn [rbind fst snd]. by rewrite H5.
Qed.

(** The question without the example. *)
Lemma strip_example_added ex u :
  str_cut IN_CONTEXT_LEARNING_EXAMPLE_SUFFIX (u +:+ IN_CONTEXT_LEARNING_EXAMPLE_SUFFIX) = Some (u, "") →
  strip_example ex (ex +:+ u +:+ IN_CONTEXT_LEARNING_EXAMPLE_SUFFIX) = u.
Proof.
  intros Hu. unfold strip_example, startswith, replace_first.
  rewrite prefix_append, str_cut_front.
  change ("" +:+ "" +:+ u +:+ IN_CONTEXT_LEARNING_EXAMPLE_SUFFIX) with
    (u +:+ IN_CONTEXT_LEARNING_EXAMPLE_SUFFIX).
  rewrite endswith_append, Hu. by rewrite !append_empty_r.
Qed.

(** C8 Round trip through plain text, for conversations that can be told from the format's own
    words.  The system's text, the first question, and turns whose contents are strings:
    questions that do not quote a result's header (see [quoted_result]), answers without an
    opening tag of a call, calls numbered in their order whose words before the call are
    trimmed and have no such tag, whose arguments fit the schema of a tool of that name
    (integers, arrays or strings, of its enumeration if it has one, the required ones among
    them, each once) and whose texts contain none of the tags, and results that are trimmed;
    the prompt's and the example's ending occur only where they were added.  Such a
    conversation is converted to messages without calls or tool results, and these are read
    back as the conversation it was, with the prompt, the example and the closing tags
    removed. *)
Theorem conversation_roundtrip tools suffix ex s u turns :
  system_prompt_suffix tools = Ok suffix → get_example_for_tools tools = Ok ex → ex ≠ "" →
  str_cut suffix (s +:+ suffix) = Some (s, "") →
  str_cut IN_CONTEXT_LEARNING_EXAMPLE_SUFFIX (u +:+ IN_CONTEXT_LEARNING_EXAMPLE_SUFFIX) = Some (u, "") →
  result_free u = true → Forall (turn_ok tools) turns →
  let messages := out_message "system" (JStr s) :: out_message "user" (JStr u)
                  :: fn_messages 1 turns in
  ∃ plain, convert_fncall_messages_to_non_fncall_messages messages tools true = Ok plain
    ∧ Forall plain_message plain
    ∧ convert_non_fncall_messages_to_fncall_messages plain tools = Ok messages.
Proof using repr_int H0.
  intros Hsuf Hex Hne Hs Hu Hfree Hok messages.
  destruct (turns_roundtrip suffix tools true 1 turns Hok) as (plain&H1&H2&H3).
  exists (out_message "system" (JStr (s +:+ suffix))
          :: out_message "user" (JStr (ex +:+ u +:+ IN_CONTEXT_LEARNING_EXAMPLE_SUFFIX)) :: plain).
  unfold convert_fncall_messages_to_non_fncall_messages,
    convert_non_fncall_messages_to_fncall_messages. rewrite Hsuf. cbn [rbind].
  split; [|split].
  - unfold messages. cbn -[get_example_for_tools IN_CONTEXT_LEARNING_EXAMPLE_SUFFIX fn_messages].
    rewrite Hex. cbn [rbind]. rewrite (proj2 (String.eqb_neq ex "") Hne). cbn [rbind fst snd add_example].
    rewrite H1. done.
  - repeat constructor. exact H2.
  - cbn [fncall_loop]. unfold to_fncall.
    cbn -[get_example_for_tools IN_CONTEXT_LEARNING_EXAMPLE_SUFFIX fn_messages jtruthy search
          match_tool_result strip_example fncall_loop before_first].
    rewrite !truthy_str_id.
    cbn -[get_example_for_tools IN_CONTEXT_LEARNING_EXAMPLE_SUFFIX fn_messages search
          match_tool_result strip_example fncall_loop before_first].
    unfold from_user. rewrite Hex. cbn [rbind]. rewrite strip_example_added by done.
    unfold result_free in Hfree. apply negb_true_iff in Hfree.
    rewrite (search_none match_tool_result "E" "XECUTION RESULT of [" match_tool_result_prefix) by done.
    cbn [rbind fst snd]. rewrite H3. cbn [rbind]. unfold before_first. by rewrite Hs.
Qed.
End typed.

(** ** Calls that do not fit *)

(** A call with a parameter of a tool that declares none (a schema with empty
    properties) is not reported as an invalid call, which the agent could correct, but
    ends in Python's [KeyError]: the check of the allowed names is skipped when there are
    none, and the values are then looked up in the schema all the same. *)
Theorem undeclared_parameter_crashes `{Platform} tool p name k t l :
  dget "parameters" tool = Some (JDict p) → dget "properties" p = Some (JDict []) →
  dget "required" p = None →
  extract_and_validate_params tool ((k, t) :: l) name = Raise (KeyError k).
Proof.
  intros Hp Hpr Hr. unfold extract_and_validate_params, tool_required, tool_properties.
  rewrite Hp. cbn [as_dict rbind]. unfold get_required. rewrite Hr, Hpr. cbn [as_dict rbind].
  cbn [from_option id rmap rbind extract_params]. unfold extract_param.
  cbn [fst snd from_option id dget]. cbn [rbind]. unfold convert_param. cbn [from_option rbind].
  unfold item at 1. rewrite Hp. cbn [rbind]. unfold jitem, as_dict, item. cbn [rbind].
  rewrite Hpr. done.
Qed.

(** A user message that quotes a result becomes a result, and what precedes it is lost. *)
Example quoted_result :
  from_user [] 3 true (JStr ("Why this? EXECUTION RESULT of [browser]:" +:+ nl +:+ " timeout"))
  = Ok (result_doc 2 "browser" "timeout").
Proof. vm_compute. reflexivity. Qed.

(** ** Parallel calls *)

Definition result_of (i : json) (r : dict) : Prop :=
  dget "role" r = Some (JStr "tool") ∧ (∃ c, dget "content" r = Some c)
  ∧ dget "tool_call_id" r = Some i.

Lemma id_pop_middle i v d1 d2 :
  i ∉ d1.*1 → id_pop i (d1 ++ (i, v) :: d2) = Some (v, d1 ++ d2).
Proof.
  induction d1 as [|[k x] d1 IH]; csimpl; intros Hi.
  - by rewrite bool_decide_true.
  - apply not_elem_of_cons in Hi as [Hne Hi]. rewrite bool_decide_false by done. by rewrite IH.
Qed.

Lemma id_set_fresh i v d : i ∉ d.*1 → id_set i v d = d ++ [(i, v)].
Proof.
  induction d as [|[k x] d IH]; csimpl; intros Hi; [done|].
  apply not_elem_of_cons in Hi as [Hne Hi]. rewrite bool_decide_false by done. by rewrite IH.
Qed.

(** The messages the calls are split into: the text stays with the first. *)
Fixpoint split_messages (content : json) (calls ids : list json) : list (json * dict) :=
  match calls, ids with
  | c :: calls, i :: ids => (i, assistant_call content c) :: split_messages (JStr "") calls ids
  | _, _ => []
  end.

Lemma split_messages_keys content calls ids :
  length calls = length ids → (split_messages content calls ids).*1 = ids.
Proof.
  revert content ids. induction calls as [|c calls IH]; intros content [|i ids]; try done.
  intros [= Hl]. csimpl. by rewrite IH.
Qed.

Lemma split_calls_ok content calls ids pending :
  Forall2 (λ c i, jitem "id" c = Ok i) calls ids → NoDup (pending.*1 ++ ids) →
  split_calls content calls pending = Ok (pending ++ split_messages content calls ids).
Proof.
  intros Hc. revert content pending. induction Hc as [|c i calls ids Hi Hc IH]; intros content pending Hnd.
  { simpl. by rewrite app_nil_r. }
  cbn [split_calls split_messages]. rewrite Hi. cbn [rbind].
  rewrite id_set_fresh.
  2: { apply NoDup_app in Hnd as (_&Hnd&_). intros Hin. apply (Hnd i Hin). by left. }
  rewrite IH; [by rewrite <- app_assoc|]. rewrite fmap_app. csimpl. by rewrite <- app_assoc.
Qed.

(** The message of the call with this id. *)
Definition call_of (pending : list (json * dict)) (i : json) : list dict :=
  match id_pop i pending with Some (m, _) => [m] | None => [] end.

Lemma results_loop rids results pending rest :
  Forall2 result_of rids results → rids ≡ₚ pending.*1 → NoDup rids →
  single_loop pending (results ++ rest) =
  let? k := single_loop [] rest in
  Ok ((zip rids results ≫= λ ir, call_of pending ir.1 ++ [ir.2]) ++ k.1, k.2).
Proof.
  intros Hr. revert pending. induction Hr as [|i r rids results (Hrole&[c Hc]&Hi) _ IH];
    intros pending Hp Hnd.
  { apply Permutation_nil_l, symmetry, fmap_nil_inv in Hp as ->. cbn [app zip_with].
    destruct (single_loop [] rest) as [[k p]|]; done. }
  assert (i ∈ pending.*1) as Hin by (rewrite <- Hp; by left).
  apply list_elem_of_fmap in Hin as ([i' v]&->&Hin). cbn [fst] in *.
  apply list_elem_of_split in Hin as (d1&d2&->).
  assert (NoDup (d1 ++ (i', v) :: d2).*1) as Hnd' by (by rewrite <- Hp).
  rewrite fmap_app, fmap_cons in Hp, Hnd'. cbn [fst] in *.
  assert (i' ∉ d1.*1) as Hd1.
  { apply NoDup_app in Hnd' as (_&Hnd'&_). intros Hx. apply (Hnd' _ Hx). by left. }
  apply NoDup_cons in Hnd as [Hni Hnd]. rewrite <- Permutation_middle in Hp.
  apply Permutation_cons_inv in Hp. rewrite <- fmap_app in Hp.
  cbn [app single_loop]. unfold item. rewrite Hrole, Hc, Hi. cbn -[id_pop single_loop].
  rewrite id_pop_middle by done. rewrite (IH _ Hp Hnd).
  destruct (single_loop [] rest) as [[k pe]|]; [|done]. cbn [rbind fst snd zip_with]. do 2 f_equal.
  cbn [mbind list_bind fst snd]. unfold call_of at 2. rewrite id_pop_middle by done.
  cbn [app]. do 2 f_equal. f_equal. apply Forall_bind_ext, Forall_forall. intros [j r'] Hj.
  apply elem_of_zip_l in Hj. cbn [fst snd]. f_equal. unfold call_of.
  assert (j ≠ i') as Hne by congruence. clear -Hne.
  induction d1 as [|[k x] d1 IH]; csimpl.
  - rewrite bool_decide_false by done. by destruct (id_pop j d2) as [[]|].
  - case_bool_decide; [done|].
    destruct (id_pop j (d1 ++ d2)) as [[]|], (id_pop j (d1 ++ (i', v) :: d2)) as [[]|]; naive_solver.
Qed.

(** Parallel calls are taken apart: a message with several calls and their results, in
    whatever order these came, become one message per call, each with its single call
    and followed at once by its result; the text stays with the first call of the
    message. *)
Theorem parallel_calls_split (m : dict) content calls ids rids results ignore :
  dget "role" m = Some (JStr "assistant") → dget "content" m = Some content →
  dget "tool_calls" m = Some (JList calls) → (2 ≤ length calls)%nat →
  Forall2 (λ c i, jitem "id" c = Ok i) calls ids → NoDup ids →
  Forall2 result_of rids results → rids ≡ₚ ids →
  convert_from_multiple_tool_calls_to_single_tool_call_messages (m :: results) ignore
  = Ok (zip rids results ≫= λ ir, call_of (split_messages content calls ids) ir.1 ++ [ir.2]).
Proof.
  intros Hrole Hcontent Hcalls Hlen Hids Hnd Hres Hp.
  unfold convert_from_multiple_tool_calls_to_single_tool_call_messages.
  assert (single_loop [] (m :: results)
    = single_loop (split_messages content calls ids) (results ++ [])) as ->.
  { cbn [single_loop]. unfold item. rewrite Hrole, Hcontent. cbn [rbind is_str String.eqb].
    change (String.eqb "assistant" "assistant") with true. cbv iota. rewrite Hcalls.
    destruct calls as [|c1 [|c2 calls]]; [simpl in Hlen; lia..|].
    rewrite (split_calls_ok content _ ids [] Hids Hnd). cbn [rbind]. by rewrite app_nil_r. }
  rewrite (results_loop rids results _ []).
  - cbn [single_loop rbind fst snd]. by rewrite app_nil_r.
  - done.
  - rewrite split_messages_keys; [done|]. by eapply Forall2_length.
  - by rewrite Hp.
Qed.

(** ** Examples *)

Module tools_example.
Definition bash_info : dict :=
  [("type", JStr "string"); ("description", JStr "The command to run.")].
Definition props : dict :=
  [("command", JDict bash_info); ("timeout", JDict [("type", JStr "integer")]);
   ("mode", JDict [("type", JStr "string"); ("enum", JList [JStr "fast"; JStr "slow"])])].
Definition params : dict :=
  [("type", JStr "object"); ("properties", JDict props); ("required", JList [JStr "command"])].
Definition bash : dict :=
  [("name", JStr "execute_bash"); ("description", JStr "Runs a command."); ("parameters", JDict params)].
Definition tools : list dict := [[("type", JStr "function"); ("function", JDict bash)]].
Definition args : dict :=
  [("command", JStr "ls -l > out"); ("timeout", JInt (-3)); ("mode", JStr "fast")].
Definition turns : list turn :=
  [TCall "Listing." "execute_bash" args; TResult "execute_bash" "total 0"; TSay "Done.";
   TUser "Again."; TCall "" "execute_bash" args].

(** The platform, with the representation of integers. *)
#[local] Instance platform : Platform :=
  {| py_repr j := match j with JInt z => pretty z | _ => "" end;
     literal_eval := λ _, None; version := "1.0"; json_dumps := ex_dumps; json_loads := ex_loads |}.
#[local] Instance platform_laws : PlatformLaws.
Proof. exact ex_platform_laws. Qed.

Lemma args_ok : call_ok bash "execute_bash" args.
Proof.
  split.
  - by split.
  - repeat (apply Forall_cons; split; [by split_and!|]). by apply Forall_nil.
  - repeat (apply NoDup_cons; split; [set_solver|]). apply NoDup_nil_2.
  - exists props, [JStr "command"]. split_and!.
    + exists params. split_and!; [done..|]. repeat (apply Forall_cons; split; [by eexists|]).
      by apply Forall_nil.
    + repeat (apply Forall_cons; split).
      * exists bash_info. by split_and!.
      * eexists. by split_and!.
      * eexists. split_and!; [done|done|]. intros values [= <-]. by eexists.
      * by apply Forall_nil.
    + apply Forall_singleton. exists "command". split; [done|]. by left.
Defined.

Definition system_suffix : string := Eval vm_compute in
  match system_prompt_suffix tools with Ok s => s | Raise _ => "" end.
Definition example : string := Eval vm_compute in
  match get_example_for_tools tools with Ok s => s | Raise _ => "" end.

Lemma conversation_roundtrip_witness :
  let messages := out_message "system" (JStr "You are an agent.")
                  :: out_message "user" (JStr "List the files.") :: fn_messages 1 turns in
  ∃ plain, convert_fncall_messages_to_non_fncall_messages messages tools true = Ok plain
    ∧ Forall plain_message plain
    ∧ convert_non_fncall_messages_to_fncall_messages plain tools = Ok messages.
Proof.
  apply (@conversation_roundtrip platform platform_laws (λ _, eq_refl) tools system_suffix example
           "You are an agent." "List the files." turns).
  - vm_compute. reflexivity.
  - vm_compute. reflexivity.
  - discriminate.
  - vm_compute. reflexivity.
  - vm_compute. reflexivity.
  - vm_compute. reflexivity.
  - repeat (apply Forall_cons; split); try done.
    + split_and!; [done|done|]. exists bash. split; [reflexivity|apply args_ok].
    + split_and!; [done|done|]. exists bash. split; [reflexivity|apply args_ok].
Defined.

Definition empty_tool : dict :=
  [("name", JStr "condense"); ("parameters", JDict [("type", JStr "object"); ("properties", JDict [])])].
Lemma undeclared_parameter_crashes_witness :
  extract_and_validate_params empty_tool [("reason", "long")] "condense" = Raise (KeyError "reason").
Proof.
  apply (undeclared_parameter_crashes empty_tool
           [("type", JStr "object"); ("properties", JDict [])] "condense" "reason" "long" []); reflexivity.
Defined.

Definition call (i : string) : json := JDict [("id", JStr i); ("type", JStr "function")].
Definition two : dict :=
  [("role", JStr "assistant"); ("content", JStr "Two calls."); ("tool_calls", JList [call "a"; call "b"])].
Definition answer (i : string) : dict :=
  [("role", JStr "tool"); ("content", JStr "ok"); ("tool_call_id", JStr i)].
Lemma parallel_calls_split_witness :
  convert_from_multiple_tool_calls_to_single_tool_call_messages [two; answer "b"; answer "a"] false
  = Ok [assistant_call (JStr "") (call "b"); answer "b"; assistant_call (JStr "Two calls.") (call "a");
        answer "a"].
Proof.
  refine (parallel_calls_split two (JStr "Two calls.") [call "a"; call "b"] [JStr "a"; JStr "b"]
            [JStr "b"; JStr "a"] [answer "b"; answer "a"] false _ _ _ _ _ _ _ _).
  - reflexivity.
  - reflexivity.
  - reflexivity.
  - simpl. lia.
  - repeat constructor.
  - repeat (apply NoDup_cons; split; [set_solver|]). apply NoDup_nil_2.
  - repeat constructor; by eexists.
  - apply Permutation_swap.
Defined.
End tools_example.
