(* ===== verification/Base64.v ===== *)
(** * Base64

    The functions of Python's [base64] module that the code uses, on byte strings, and
    their round trip. *)

From S2P Require Import Prelude.
From Stdlib Require Import ZArith.
Local Open Scope Z_scope.
Local Open Scope py_scope.

Definition ord (c : ascii) : Z := Z.of_N (Ascii.N_of_ascii c).
Definition chr (v : Z) : ascii := Ascii.ascii_of_N (Z.to_N v).

(** The alphabet. *)
Definition b64_char (v : Z) : ascii :=
  if v <? 26 then chr (65 + v)
  else if v <? 52 then chr (71 + v)
  else if v <? 62 then chr (v - 4)
  else if v =? 62 then "+"%char else "/"%char.
Definition b64_value (c : ascii) : option Z :=
  let n := ord c in
  if (65 <=? n) && (n <=? 90) then Some (n - 65)
  else if (97 <=? n) && (n <=? 122) then Some (n - 71)
  else if (48 <=? n) && (n <=? 57) then Some (n + 4)
  else if n =? 43 then Some 62
  else if n =? 47 then Some 63
  else None.

(** [base64.b64encode] *)
Fixpoint b64encode (s : string) : string :=
  match s with
  | EmptyString => ""
  | String a EmptyString =>
      let x := ord a in
      String (b64_char (x / 4)) (String (b64_char (x mod 4 * 16)) "==")
  | String a (String b EmptyString) =>
      let x := ord a in let y := ord b in
      String (b64_char (x / 4)) (String (b64_char (x mod 4 * 16 + y / 16))
        (String (b64_char (y mod 16 * 4)) "="))
  | String a (String b (String c s)) =>
      let x := ord a in let y := ord b in let z := ord c in
      String (b64_char (x / 4)) (String (b64_char (x mod 4 * 16 + y / 16))
        (String (b64_char (y mod 16 * 4 + z / 64)) (String (b64_char (z mod 64)) (b64encode s))))
  end.

(** [binascii.a2b_base64]: characters outside the alphabet are skipped; [quad] is the
    position in the group, [rest] the bits not yet written, [pads] the padding seen. *)
Fixpoint a2b (quad rest pads : Z) (s : string) : result string :=
  match s with
  | EmptyString =>
      if quad =? 0 then Ok ""
      else Raise (OtherError "binascii.Error" (if quad =? 1
             then "number of data characters cannot be 1 more than a multiple of 4"
             else "Incorrect padding"))
  | String c s =>
      if Ascii.eqb c "=" then
        if 2 <=? quad then
          if 4 <=? quad + (pads + 1) then Ok "" else a2b quad rest (pads + 1) s
        else a2b quad rest pads s
      else match b64_value c with
           | None => a2b quad rest pads s
           | Some v =>
               if quad =? 0 then a2b 1 v 0 s
               else
                 let '(byte, rest) := if quad =? 1 then (rest * 4 + v / 16, v mod 16)
                                      else if quad =? 2 then (rest * 16 + v / 4, v mod 4)
                                      else (rest * 64 + v, 0) in
                 let? r := a2b ((quad + 1) mod 4) rest 0 s in
                 Ok (String (chr byte) r)
           end
  end.
(** [base64.b64decode] *)
Definition b64decode (s : string) : result string := a2b 0 0 0 s.

Lemma chr_ord c : chr (ord c) = c.
Proof. unfold chr, ord. by rewrite N2Z.id, Ascii.ascii_N_embedding. Qed.
Lemma chr_eq v c : v = ord c → chr v = c.
Proof. intros ->. apply chr_ord. Qed.
Lemma ord_bounds c : 0 ≤ ord c < 256.
Proof. unfold ord. pose proof (Ascii.N_ascii_bounded c). lia. Qed.

Lemma b64_value_char v : 0 ≤ v < 64 → b64_value (b64_char v) = Some v ∧ Ascii.eqb (b64_char v) "=" = false.
Proof.
  intros Hv. assert (H : forallb (λ v, bool_decide (b64_value (b64_char v) = Some v)
                                       && negb (Ascii.eqb (b64_char v) "=")) (seqZ 0 64) = true)
    by (vm_compute; reflexivity).
  rewrite forallb_forall in H. specialize (H v).
  rewrite <- list_elem_of_In, elem_of_seqZ in H. apply andb_true_iff in H as [H1 H2]; [|lia].
  apply bool_decide_eq_true in H1. by apply negb_true_iff in H2.
Qed.

(** The four positions of a group. *)
Lemma a2b_0 rest pads v s : 0 ≤ v < 64 → a2b 0 rest pads (String (b64_char v) s) = a2b 1 v 0 s.
Proof. intros [Hv He]%b64_value_char. cbn [a2b]. by rewrite He, Hv. Qed.
Lemma a2b_1 rest pads v s :
  0 ≤ v < 64 → a2b 1 rest pads (String (b64_char v) s)
               = let? r := a2b 2 (v mod 16) 0 s in Ok (String (chr (rest * 4 + v / 16)) r).
Proof. intros [Hv He]%b64_value_char. cbn [a2b]. by rewrite He, Hv. Qed.
Lemma a2b_2 rest pads v s :
  0 ≤ v < 64 → a2b 2 rest pads (String (b64_char v) s)
               = let? r := a2b 3 (v mod 4) 0 s in Ok (String (chr (rest * 16 + v / 4)) r).
Proof. intros [Hv He]%b64_value_char. cbn [a2b]. by rewrite He, Hv. Qed.
Lemma a2b_3 rest pads v s :
  0 ≤ v < 64 → a2b 3 rest pads (String (b64_char v) s)
               = let? r := a2b 0 0 0 s in Ok (String (chr (rest * 64 + v)) r).
Proof. intros [Hv He]%b64_value_char. cbn [a2b]. by rewrite He, Hv. Qed.

Lemma a2b_pad2 rest : a2b 2 rest 0 "==" = Ok "".
Proof. done. Qed.
Lemma a2b_pad1 rest : a2b 3 rest 0 "=" = Ok "".
Proof. done. Qed.

(** Arithmetic on the groups of six bits. *)
Ltac bits := Z.to_euclidean_division_equations; lia.

Ltac bytes_eq := repeat match goal with
  | |- Ok _ = Ok _ => f_equal
  | |- String _ _ = String _ _ => f_equal
  | |- chr _ = _ => apply chr_eq; bits
  | |- _ => reflexivity
  end.

Lemma b64decode_encode s : b64decode (b64encode s) = Ok s.
Proof.
  unfold b64decode. revert s.
  fix IH 1. intros [|a [|b [|c s]]]; [done| | |]; cbn [b64encode].
  - pose proof (ord_bounds a). rewrite a2b_0, a2b_1 by bits. rewrite a2b_pad2. cbn [rbind].
    bytes_eq.
  - pose proof (ord_bounds a). pose proof (ord_bounds b).
    rewrite a2b_0, a2b_1, a2b_2 by bits. rewrite a2b_pad1. cbn [rbind].
    bytes_eq.
  - pose proof (ord_bounds a). pose proof (ord_bounds b). pose proof (ord_bounds c).
    rewrite a2b_0, a2b_1, a2b_2, a2b_3 by bits. rewrite IH. cbn [rbind].
    bytes_eq.
Qed.
