(* ===== verification/Secrets.v ===== *)
(** * Secrets

    Models [openhands/storage/data_models/secrets.py], the token types of
    [integrations/provider.py] and [storage/secrets/file_secrets_store.py]: provider tokens
    and custom secrets, their serialization with and without the secret values, and the
    store in a file.  A validation error of Pydantic is a [ValueError]. *)

From S2P Require Import Prelude PyValue Schema Actions Observations Events Serialization.
From S2P Require Import FileStore EventStore ExamplePlatform.
Local Open Scope Z_scope.
Local Open Scope py_scope.

Inductive ProviderType := GITHUB | GITLAB | BITBUCKET | FORGEJO | AZURE_DEVOPS | ENTERPRISE_SSO.
#[export] Instance ProviderType_eq_dec : EqDecision ProviderType.
Proof. solve_decision. Defined.
Definition all_providers : list ProviderType :=
  [GITHUB; GITLAB; BITBUCKET; FORGEJO; AZURE_DEVOPS; ENTERPRISE_SSO].
Definition provider_value (p : ProviderType) : string :=
  match p with
  | GITHUB => "github" | GITLAB => "gitlab" | BITBUCKET => "bitbucket" | FORGEJO => "forgejo"
  | AZURE_DEVOPS => "azure_devops" | ENTERPRISE_SSO => "enterprise_sso"
  end.
(** [ProviderType(s)] *)
Definition provider_of_string (s : string) : option ProviderType :=
  py_find (λ p, String.eqb (provider_value p) s) all_providers.

Record ProviderToken := mkProviderToken {
  pt_token : option string;
  pt_user_id : option string;
  pt_host : option string;
}.
Record CustomSecret := mkCustomSecret { cs_secret : string; cs_description : string }.
Record Secrets := mkSecrets {
  provider_tokens : list (ProviderType * ProviderToken);
  custom_secrets : list (string * CustomSecret);
}.
Definition no_secrets : Secrets := mkSecrets [] [].

(** ** Reading values *)

(** A field that is a text or absent, one that is a text, of a dictionary. *)
Definition text_or_none (k : string) (d : dict) : option (option string) :=
  match dget k d with
  | None | Some JNull => Some None
  | Some (JStr s) => Some (Some s)
  | Some _ => None
  end.
Definition text_default (k : string) (d : dict) : option string :=
  match dget k d with
  | None => Some ""
  | Some (JStr s) => Some s
  | Some _ => None
  end.

(** [ProviderToken.from_value]; [None]: a [ValueError]. *)
Definition provider_token_from_value (v : json) : option ProviderToken :=
  match v with
  | JDict d =>
      match text_or_none "token" d, text_or_none "user_id" d, text_or_none "host" d with
      | Some token, Some user_id, Some host =>
          Some (mkProviderToken (Some (from_option id "" token)) user_id host)
      | _, _, _ => None
      end
  | _ => None
  end.
(** [CustomSecret.from_value] *)
Definition custom_secret_from_value (v : json) : option CustomSecret :=
  match v with
  | JDict d =>
      match text_default "secret" d, text_default "description" d with
      | Some secret, Some description => Some (mkCustomSecret secret description)
      | _, _ => None
      end
  | _ => None
  end.

(** [Secrets(...)] of a dictionary: entries that cannot be read are skipped. *)
Definition convert_token (e : string * json) : option (ProviderType * ProviderToken) :=
  match provider_of_string e.1, provider_token_from_value e.2 with
  | Some p, Some t => Some (p, t)
  | _, _ => None
  end.
Definition convert_secret (e : string * json) : option (string * CustomSecret) :=
  (λ s, (e.1, s)) <$> custom_secret_from_value e.2.
Definition secrets_from_dict (data : dict) : Secrets :=
  mkSecrets
    (match dget "provider_tokens" data with Some (JDict d) => omap convert_token d | _ => [] end)
    (match dget "custom_secrets" data with Some (JDict d) => omap convert_secret d | _ => [] end).

(** ** Serialization *)

(** [str(SecretStr(s))] *)
Definition hidden (s : string) : string := if String.eqb s "" then "" else "**********".
Definition exposed (expose_secrets : bool) (s : string) : json :=
  JStr (if expose_secrets then s else hidden s).
Definition jtext (s : option string) : json := from_option JStr JNull s.

(** Providers without a token, or with an empty one, are left out. *)
Definition token_entry (expose_secrets : bool) (e : ProviderType * ProviderToken) :
    option (string * json) :=
  match pt_token e.2 with
  | None | Some "" => None
  | Some t => Some (provider_value e.1,
                JDict [("token", exposed expose_secrets t); ("host", jtext (pt_host e.2));
                       ("user_id", jtext (pt_user_id e.2))])
  end.
Definition provider_tokens_serializer (expose_secrets : bool) (l : list (ProviderType * ProviderToken)) :
    dict := omap (token_entry expose_secrets) l.

Definition secret_entry (expose_secrets : bool) (e : string * CustomSecret) : string * json :=
  (e.1, JDict [("secret", exposed expose_secrets (cs_secret e.2));
               ("description", JStr (cs_description e.2))]).
Definition custom_secrets_serializer (expose_secrets : bool) (l : list (string * CustomSecret)) : dict :=
  secret_entry expose_secrets <$> l.

(** [model_dump(context={'expose_secrets': ...})] *)
Definition secrets_dump (expose_secrets : bool) (s : Secrets) : dict :=
  [("provider_tokens", JDict (provider_tokens_serializer expose_secrets (provider_tokens s)));
   ("custom_secrets", JDict (custom_secrets_serializer expose_secrets (custom_secrets s)))].

Definition get_env_vars (s : Secrets) : list (string * string) :=
  (λ e, (e.1, cs_secret e.2)) <$> custom_secrets s.
Definition get_custom_secrets_descriptions (s : Secrets) : list (string * string) :=
  (λ e, (e.1, cs_description e.2)) <$> custom_secrets s.

(** ** The store in a file *)

(** [v.get('token')] *)
Definition has_token (e : string * json) : result bool :=
  match e.2 with
  | JDict d => Ok (match dget "token" d with Some t => jtruthy t | None => false end)
  | _ => Raise (OtherError "AttributeError" "get")
  end.
Fixpoint keep_tokens (l : dict) : result dict :=
  match l with
  | [] => Ok []
  | e :: l => let? b := has_token e in
              let? r := keep_tokens l in
              Ok (if b : bool then e :: r else r)
  end.
(** [kwargs.get('provider_tokens') or {}] *)
Definition stored_tokens (kwargs : dict) : result dict :=
  match dget "provider_tokens" kwargs with
  | None => Ok []
  | Some j => if jtruthy j
              then match j with JDict d => Ok d | _ => Raise (OtherError "AttributeError" "items") end
              else Ok []
  end.

Section file_store.
Context `{Platform} {F : Type} `{FileStore F}.

Definition secrets_load (path : string) (f : F) : result (option Secrets) :=
  match fs_read f path with
  | Raise FileNotFoundError => Ok None
  | Raise e => Raise e
  | Ok json_str =>
      let? j := json_loads json_str in
      match j with
      | JDict kwargs =>
          let? tokens := stored_tokens kwargs in
          let? tokens := keep_tokens tokens in
          Ok (Some (secrets_from_dict (dset "provider_tokens" (JDict tokens) kwargs)))
      | _ => Raise (OtherError "AttributeError" "get")
      end
  end.

Definition secrets_store (path : string) (s : Secrets) : pyM F unit :=
  fs_write path (json_dumps (JDict (secrets_dump true s))).
End file_store.

(** ** What is read back *)

(** The tokens that are kept. *)
Definition has_value (e : ProviderType * ProviderToken) : bool :=
  match pt_token e.2 with None | Some "" => false | Some _ => true end.
Definition nonempty_tokens (s : Secrets) : Secrets :=
  mkSecrets (py_filter has_value (provider_tokens s)) (custom_secrets s).

Lemma provider_of_value p : provider_of_string (provider_value p) = Some p.
Proof. by destruct p. Qed.

Lemma text_or_none_jtext k s d : dget k d = Some (jtext s) → text_or_none k d = Some s.
Proof. unfold text_or_none. intros ->. by destruct s. Qed.

Lemma convert_token_entry l :
  omap convert_token (provider_tokens_serializer true l) = py_filter has_value l.
Proof.
  induction l as [|[p [t u h]] l IH]; [done|]. unfold provider_tokens_serializer. simpl.
  unfold token_entry at 1, has_value at 1. simpl. destruct t as [[|c t]|]; [done| |done].
  simpl. unfold convert_token at 1. simpl. rewrite provider_of_value.
  rewrite (text_or_none_jtext "user_id" u), (text_or_none_jtext "host" h) by done.
  simpl. f_equal. apply IH.
Qed.
Lemma convert_secret_entry l : omap convert_secret (custom_secrets_serializer true l) = l.
Proof.
  induction l as [|[k [s e]] l IH]; [done|]. unfold custom_secrets_serializer. simpl.
  f_equal. apply IH.
Qed.

(** Reading what was dumped with the secret values. *)
Lemma secrets_from_dump s : secrets_from_dict (secrets_dump true s) = nonempty_tokens s.
Proof. unfold secrets_from_dict. simpl. by rewrite convert_token_entry, convert_secret_entry. Qed.

Lemma keep_tokens_dump l :
  keep_tokens (provider_tokens_serializer true l) = Ok (provider_tokens_serializer true l).
Proof.
  induction l as [|[p [t u h]] l IH]; [done|]. unfold provider_tokens_serializer. simpl.
  unfold token_entry at 1 3. simpl. destruct t as [[|c t]|]; [done| |done].
  etrans; [exact (eq_refl (let? r := keep_tokens (provider_tokens_serializer true l) in Ok (_ :: r)))|].
  by rewrite IH.
Qed.

Lemma stored_tokens_dump s :
  stored_tokens (secrets_dump true s) = Ok (provider_tokens_serializer true (provider_tokens s)).
Proof. unfold stored_tokens. simpl. by destruct (provider_tokens_serializer _ _). Qed.

(** Secrets that were stored in a file are loaded again: every custom secret with its
    description, and every provider token with its user and host; only providers without a
    token are dropped. *)
Theorem secrets_file_roundtrip `{PlatformLaws} {F} `{FileStoreLaws F} path (f f' : F) s :
  secrets_store path s f = (f', Ok tt) → secrets_load path f' = Ok (Some (nonempty_tokens s)).
Proof.
  intros Hw. unfold secrets_store in Hw. unfold secrets_load.
  rewrite (fs_read_write _ _ _ _ Hw), loads_dumps. cbn [rbind].
  rewrite stored_tokens_dump. cbn [rbind]. rewrite keep_tokens_dump. cbn [rbind].
  by rewrite <- secrets_from_dump.
Qed.

(** Without the context, no secret value is in what is dumped: secrets that differ only in
    the (non-empty) values have the same dump. *)
Definition same_shape (a b : string) : Prop := a = "" ↔ b = "".
Lemma hidden_shape a b : same_shape a b → hidden a = hidden b.
Proof.
  unfold hidden, same_shape. intros Hab.
  destruct (String.eqb_spec a ""), (String.eqb_spec b ""); tauto.
Qed.

(** Two secrets that differ only in the values that are not empty. *)
Definition same_token (a b : ProviderType * ProviderToken) : Prop :=
  a.1 = b.1 ∧ pt_user_id a.2 = pt_user_id b.2 ∧ pt_host a.2 = pt_host b.2
  ∧ same_shape (from_option id "" (pt_token a.2)) (from_option id "" (pt_token b.2)).
Definition same_secret (a b : string * CustomSecret) : Prop :=
  a.1 = b.1 ∧ cs_description a.2 = cs_description b.2 ∧ same_shape (cs_secret a.2) (cs_secret b.2).

Lemma token_entry_hidden a b : same_token a b → token_entry false a = token_entry false b.
Proof.
  destruct a as [p [t u h]], b as [p' [t' u' h']]. unfold same_token. simpl.
  intros (-> & -> & -> & Hs). unfold token_entry. simpl. unfold same_shape in Hs.
  destruct t as [[|]|], t' as [[|]|]; simpl in *; try done; exfalso; destruct Hs as [H1 H2];
    first [by specialize (H1 eq_refl) | by specialize (H2 eq_refl)].
Qed.

(** Without [expose_secrets], what is dumped says nothing of the secret values: secrets
    that differ only in values that are not empty have the same dump. *)
Theorem secrets_hidden s s' :
  Forall2 same_token (provider_tokens s) (provider_tokens s') →
  Forall2 same_secret (custom_secrets s) (custom_secrets s') →
  secrets_dump false s = secrets_dump false s'.
Proof.
  intros Ht Hs. unfold secrets_dump.
  assert (provider_tokens_serializer false (provider_tokens s)
          = provider_tokens_serializer false (provider_tokens s')) as ->.
  { unfold provider_tokens_serializer. induction Ht as [|a b l k Hab _ IH]; [done|].
    cbn. rewrite (token_entry_hidden a b Hab). destruct (token_entry false b); [f_equal|]; exact IH. }
  assert (custom_secrets_serializer false (custom_secrets s)
          = custom_secrets_serializer false (custom_secrets s')) as ->; [|done].
  unfold custom_secrets_serializer. induction Hs as [|a b l k (H1 & H2 & H3) _ IH]; [done|].
  rewrite !fmap_cons. f_equal; [|done]. unfold secret_entry, exposed.
  by rewrite H1, H2, (hidden_shape _ _ H3).
Qed.

Module secrets_example.
Definition tokens : list (ProviderType * ProviderToken) :=
  [(GITHUB, mkProviderToken (Some "ghp_1") (Some "me") None); (GITLAB, mkProviderToken (Some "") None None)].
Definition mine : Secrets := mkSecrets tokens [("KEY", mkCustomSecret "v" "a key")].
Definition yours : Secrets :=
  mkSecrets [(GITHUB, mkProviderToken (Some "ghp_2") (Some "me") None); (GITLAB, mkProviderToken None None None)]
    [("KEY", mkCustomSecret "w" "a key")].

Lemma secrets_file_roundtrip_witness :
  secrets_load "secrets.json" (secrets_store "secrets.json" mine (mkInMemoryFileStore [])).1
  = Ok (Some (mkSecrets [(GITHUB, mkProviderToken (Some "ghp_1") (Some "me") None)]
                [("KEY", mkCustomSecret "v" "a key")])).
Proof.
  exact (secrets_file_roundtrip "secrets.json" (mkInMemoryFileStore [])
           (secrets_store "secrets.json" mine (mkInMemoryFileStore [])).1 mine eq_refl).
Defined.

Lemma secrets_hidden_witness : secrets_dump false mine = secrets_dump false yours.
Proof.
  refine (secrets_hidden mine yours _ _); repeat constructor; simpl; congruence.
Defined.
End secrets_example.
