(* ===== verification/ConversationStore.v ===== *)
(** * Pages of results

    Models [openhands/utils/search_utils.py]: page identifiers, and the iteration over the
    pages of a search, which goes on while the search names a next page. *)

From S2P Require Import Prelude PyValue Schema Actions Observations Events Serialization FileStore EventStore ExamplePlatform Message Microagent Base64 Secrets.
From S2P Require Import FileStore EventStore Base64.
Local Open Scope Z_scope.
Local Open Scope py_scope.

Definition offset_to_page_id (offset : Z) (has_next : bool) : option string :=
  if has_next then Some (b64encode (pretty offset)) else None.

Definition page_id_to_offset (page_id : option string) : result Z :=
  match page_id with
  | None | Some "" => Ok 0
  | Some p =>
      let? t := b64decode p in
      match py_int t with
      | Some z => Ok z
      | None => Raise (ValueError "invalid literal for int() with base 10")
      end
  end.

Lemma b64encode_ne s : s ≠ "" → b64encode s ≠ "".
Proof. destruct s as [|a [|b [|c s]]]; done. Qed.
Lemma pretty_ne z : 0 ≤ z → pretty z ≠ "".
Proof. intros Hz He. pose proof (py_int_pretty z Hz) as H. rewrite He in H. done. Qed.

Lemma page_id_roundtrip z p :
  0 ≤ z → offset_to_page_id z true = Some p → page_id_to_offset (Some p) = Ok z.
Proof.
  intros Hz [= <-]. unfold page_id_to_offset.
  destruct (b64encode (pretty z)) as [|c s] eqn:He;
    [by destruct (b64encode_ne _ (pretty_ne z Hz))|].
  rewrite <- He, b64decode_encode. cbn [rbind].
  by rewrite py_int_pretty.
Qed.

(** ** Iteration *)

Record ResultSet (A : Type) := mkResultSet { items : list A; next_page_id : option string }.
Arguments mkResultSet {A} _ _.
Arguments items {A} _.
Arguments next_page_id {A} _.

(** [iterate(fn)] from the page [page_id]: the results a consumer collects, or the
    exception of the search; [None] when the loop has not ended after [fuel] searches. *)
Fixpoint iterate_from {A} (fn : option string → result (ResultSet A)) (page_id : option string)
    (fuel : nat) : option (result (list A)) :=
  match fuel with
  | O => None
  | S fuel =>
      match fn page_id with
      | Raise e => Some (Raise e)
      | Ok rs =>
          match next_page_id rs with
          | None => Some (Ok (items rs))
          | Some p =>
              match iterate_from fn (Some p) fuel with
              | Some (Ok l) => Some (Ok (items rs ++ l))
              | r => r
              end
          end
      end
  end.
Definition iterate {A} (fn : option string → result (ResultSet A)) (fuel : nat) :
    option (result (list A)) := iterate_from fn None fuel.

(** * The conversation store in files

    Models [openhands/storage/conversation/file_conversation_store.py], the checks of
    [conversation_store.py] and [data_models/conversation_metadata.py].  Pydantic's type
    adapter of the metadata and the dates are parameters ([MetadataAdapter]); the store of
    files and the JSON codec are those of [FileStore] and [EventStore]. *)
Inductive ConversationTrigger :=
  | TR_RESOLVER | TR_GUI | TR_SUGGESTED_TASK | TR_REMOTE_API_KEY | TR_SLACK
  | TR_MICROAGENT_MANAGEMENT | TR_JIRA | TR_JIRA_DC | TR_LINEAR | TR_BITBUCKET.

Definition trigger_value (t : ConversationTrigger) : string :=
  match t with
  | TR_RESOLVER => "resolver" | TR_GUI => "gui" | TR_SUGGESTED_TASK => "suggested_task"
  | TR_REMOTE_API_KEY => "openhands_api" | TR_SLACK => "slack"
  | TR_MICROAGENT_MANAGEMENT => "microagent_management" | TR_JIRA => "jira" | TR_JIRA_DC => "jira_dc"
  | TR_LINEAR => "linear" | TR_BITBUCKET => "bitbucket"
  end.
Definition all_triggers : list ConversationTrigger :=
  [TR_RESOLVER; TR_GUI; TR_SUGGESTED_TASK; TR_REMOTE_API_KEY; TR_SLACK; TR_MICROAGENT_MANAGEMENT;
   TR_JIRA; TR_JIRA_DC; TR_LINEAR; TR_BITBUCKET].
Definition trigger_of_string (s : string) : option ConversationTrigger :=
  py_find (λ t, String.eqb (trigger_value t) s) all_triggers.
Lemma trigger_of_value t : trigger_of_string (trigger_value t) = Some t.
Proof. by destruct t. Qed.

(** A date is what its type is; [isoformat] is what the order is by. *)
Class Dates := { DateTime : Type; isoformat : DateTime → string }.

Section store.
Context `{Dates}.

Record ConversationMetadata := mkConversationMetadata {
  cm_conversation_id : string;
  cm_selected_repository : option string;
  cm_user_id : option string;
  cm_selected_branch : option string;
  cm_git_provider : option ProviderType;
  cm_title : option string;
  cm_last_updated_at : option DateTime;
  cm_trigger : option ConversationTrigger;
  cm_pr_number : list Z;
  cm_created_at : DateTime;
  cm_llm_model : option string;
  cm_accumulated_cost : float;
  cm_prompt_tokens : Z;
  cm_completion_tokens : Z;
  cm_total_tokens : Z;
  cm_sandbox_id : option string;
  cm_conversation_version : option string;
  cm_public : option bool;
}.

(** [TypeAdapter(ConversationMetadata)]: the document of a record, and validation. *)
Class MetadataAdapter := {
  metadata_dump : ConversationMetadata → dict;
  metadata_validate : dict → result ConversationMetadata;
}.
(** What the store relies on: a dump has the fields of the record, and is read back. *)
Class MetadataAdapterLaws `{MetadataAdapter} := {
  dump_created_at : ∀ m, dmem "created_at" (metadata_dump m) = true;
  dump_github_user_id : ∀ m, dmem "github_user_id" (metadata_dump m) = false;
  validate_dump : ∀ m, metadata_validate (metadata_dump m) = Ok m;
}.

Context `{Platform} `{MetadataAdapter} {F : Type} `{FileStore F}.

Definition metadata_path (conversation_id : string) : string :=
  get_conversation_metadata_filename conversation_id None.
Definition CONVERSATION_BASE_DIR : string := "sessions".

Definition save_metadata (m : ConversationMetadata) : pyM F unit :=
  fs_write (metadata_path (cm_conversation_id m)) (json_dumps (JDict (metadata_dump m))).

Definition get_metadata (conversation_id : string) (f : F) : result ConversationMetadata :=
  let? json_str := fs_read f (metadata_path conversation_id) in
  let? j := json_loads json_str in
  match j with
  | JDict d => if dmem "created_at" d
               then metadata_validate (if dmem "github_user_id" d then ddel "github_user_id" d else d)
               else Raise FileNotFoundError
  | JList l => if existsb (py_eqb (JStr "created_at")) l
               then Raise (OtherError "ValidationError" "") else Raise FileNotFoundError
  | JStr s => if str_contains "created_at" s
              then Raise (OtherError "ValidationError" "") else Raise FileNotFoundError
  | _ => Raise (TypeError "argument is not iterable")
  end.

(** [validate_metadata]: the conversation belongs to the user. *)
Definition belongs_to (conversation_id user_id : string) (f : F) : result bool :=
  let? m := get_metadata conversation_id f in
  Ok (match cm_user_id m with
      | None | Some "" => false
      | Some u => String.eqb u user_id
      end).

(** [Path(s)] for a relative path: its parts. *)
Definition path_of (s : string) : path :=
  py_filter (λ p, negb (String.eqb p "" || String.eqb p ".")) (str_split "/" s).

(** The directory of the metadata: [Path(...).parent] of its name. *)
Definition delete_metadata (conversation_id : string) : pyM F unit :=
  fs_delete (path_str (path_parent (path_of (metadata_path conversation_id)))).

Definition conversation_exists (conversation_id : string) (f : F) : result bool :=
  match fs_read f (metadata_path conversation_id) with
  | Ok _ => Ok true
  | Raise FileNotFoundError => Ok false
  | Raise e => Raise e
  end.

(** ** Searching *)

(** [l.sort(key=_sort_key, reverse=True)] *)
Definition sort_key (m : ConversationMetadata) : string := isoformat (cm_created_at m).
Definition earlier (x y : ConversationMetadata) : bool := String.ltb (sort_key x) (sort_key y).
Definition sort_latest (l : list ConversationMetadata) : list ConversationMetadata := sort_key_by (λ m x, earlier x m) l.

(** The conversations of the directory, those that cannot be loaded left out. *)
Definition conversation_ids (paths : list string) : list string :=
  py_filter (λ n, negb (startswith n ".")) ((λ p, path_name (path_of p)) <$> paths).
Definition load_all (ids : list string) (f : F) : list ConversationMetadata :=
  omap (λ i, match get_metadata i f with Ok m => Some m | Raise _ => None end) ids.

Definition search (f : F) (limit : Z) (page_id : option string) :
    result (ResultSet ConversationMetadata) :=
  match fs_list f CONVERSATION_BASE_DIR with
  | Raise FileNotFoundError => Ok (mkResultSet [] None)
  | Raise e => Raise e
  | Ok paths =>
      let ids := conversation_ids paths in
      let num_conversations := py_len ids in
      let? start := page_id_to_offset page_id in
      let end_ := Z.min (limit + start) num_conversations in
      let conversations := sort_latest (load_all ids f) in
      Ok (mkResultSet (py_slice (Some start) (Some end_) conversations)
            (offset_to_page_id end_ (end_ <? num_conversations)))
  end.

(** ** Properties *)

Lemma sort_latest_length l : length (sort_latest l) = length l.
Proof. apply Permutation_length, sort_key_perm. Qed.
Lemma load_all_length ids f : (length (load_all ids f) ≤ length ids)%nat.
Proof.
  unfold load_all. induction ids as [|i ids IH]; [done|]. simpl.
  destruct (get_metadata i f); simpl; unfold omap in IH; lia.
Qed.

(** The page that starts at an offset. *)
Definition page_at (page : option string) (start : Z) : Prop :=
  0 ≤ start ∧ page_id_to_offset page = Ok start.

(** Iterating from a page gives what is left from its offset on. *)
Lemma iterate_from_page f limit paths fuel page start :
  1 ≤ limit → fs_list f CONVERSATION_BASE_DIR = Ok paths →
  page_at page start → start ≤ py_len (conversation_ids paths) →
  py_len (conversation_ids paths) - start < Z.of_nat fuel →
  iterate_from (search f limit) page fuel
  = Some (Ok (drop (Z.to_nat start) (sort_latest (load_all (conversation_ids paths) f)))).
Proof.
  intros Hl Hpaths. revert page start.
  induction fuel as [|fuel IH]; intros page start [Hpos Hp] Hs Hf; [lia|].
  cbn [iterate_from]. unfold search at 1. rewrite Hpaths, Hp. cbn [rbind next_page_id items].
  set (ids := conversation_ids paths) in *. set (l := sort_latest (load_all ids f)).
  destruct (Z.ltb_spec (Z.min (limit + start) (py_len ids)) (py_len ids)) as [Hlt|Hge].
  - cbn [offset_to_page_id].
    rewrite (IH (Some _) (Z.min (limit + start) (py_len ids))).
    + rewrite py_slice_page by lia. done.
    + split; [lia|]. by apply page_id_roundtrip; [lia|].
    + lia.
    + lia.
  - cbn [offset_to_page_id]. do 2 f_equal.
    rewrite <- (py_slice_page l start (Z.min (limit + start) (py_len ids))) by lia.
    rewrite drop_ge, app_nil_r; [done|]. unfold l. rewrite sort_latest_length.
    pose proof (load_all_length ids f). unfold py_len in *. lia.
Qed.

(** The order of the dates as texts. *)
Lemma ltb_asym s t : String.ltb s t = true → String.ltb t s = false.
Proof. unfold String.ltb. rewrite (String.compare_antisym t s). by destruct (String.compare s t). Qed.
Lemma ltb_cons a s b t : String.ltb (String a s) (String b t)
  = match N.compare (Ascii.N_of_ascii a) (Ascii.N_of_ascii b) with Lt => true | Eq => String.ltb s t | Gt => false end.
Proof. unfold String.ltb. simpl. unfold Ascii.compare. by destruct (N.compare _ _). Qed.
Lemma ltb_trans_false s t u : String.ltb t s = false → String.ltb u t = false → String.ltb u s = false.
Proof.
  revert t u. induction s as [|a s IH]; intros [|b t] [|c u]; try done.
  rewrite !ltb_cons. destruct (N.compare_spec (Ascii.N_of_ascii b) (Ascii.N_of_ascii a)) as [E1|E1|E1]; [|done|];
    destruct (N.compare_spec (Ascii.N_of_ascii c) (Ascii.N_of_ascii b)) as [E2|E2|E2]; try done;
    destruct (N.compare_spec (Ascii.N_of_ascii c) (Ascii.N_of_ascii a)) as [E3|E3|E3]; try done; try lia. apply IH.
Qed.

(** C20 Iterating over the pages of a search ends, after at most one search more than there
    are conversations, whatever the (positive) size of the pages, and the consumer gets
    every conversation that can be loaded, once, latest first: no conversation is followed
    by one with a later date of creation (dates compared by their ISO texts), and those of
    the same date come in the order of the listing.  The page identifiers are decoded to
    the offsets they encode, and conversations that cannot be loaded neither end the
    iteration nor shift it. *)
Theorem iterate_search f limit paths fuel :
  1 ≤ limit → fs_list f CONVERSATION_BASE_DIR = Ok paths →
  py_len (conversation_ids paths) < Z.of_nat fuel →
  let loaded := load_all (conversation_ids paths) f in
  ∃ l, iterate (search f limit) fuel = Some (Ok l) ∧ l ≡ₚ loaded
    ∧ StronglySorted (λ x y, String.ltb (isoformat (cm_created_at x)) (isoformat (cm_created_at y)) = false) l
    ∧ ∀ date, filter (λ m, isoformat (cm_created_at m) = date) l = filter (λ m, isoformat (cm_created_at m) = date) loaded.
Proof.
  intros Hl Hp Hf loaded. exists (sort_latest loaded). split; [|split; [|split]].
  - unfold iterate. rewrite (iterate_from_page f limit paths fuel None 0); [done..| |lia]. unfold py_len. lia.
  - apply sort_key_perm.
  - apply (sort_key_sorted (λ m x, earlier x m)); unfold earlier; [intros x y z Hxy Hyz; by eapply ltb_trans_false|intros x y; apply ltb_asym].
  - intros date. apply sort_key_stable; unfold earlier, sort_key;
      [intros x y z Hxy Hyz; by eapply ltb_trans_false|intros x y; apply ltb_asym|].
    intros x y -> ->. by destruct (String.ltb date date) eqn:E; [rewrite (ltb_asym _ _ E) in E|].
Qed.

(** With a page size of zero the iteration never ends. *)
Lemma search_zero f paths fuel :
  fs_list f CONVERSATION_BASE_DIR = Ok paths → conversation_ids paths ≠ [] →
  iterate (search f 0) fuel = None.
Proof.
  intros Hp Hne. unfold iterate. assert (H3 : ∀ fuel page, page_id_to_offset page = Ok 0 →
    iterate_from (search f 0) page fuel = None); [|by apply H3].
  clear fuel. induction fuel as [|fuel IH]; intros page Hpage; [done|]. cbn [iterate_from].
  unfold search at 1. rewrite Hp, Hpage. cbn [rbind next_page_id].
  assert (Hlen : 0 < py_len (conversation_ids paths)).
  { unfold py_len. destruct (conversation_ids paths); [done|simpl; lia]. }
  rewrite (Z.min_l (0 + 0)) by lia. rewrite (proj2 (Z.ltb_lt _ _)) by lia.
  cbn [offset_to_page_id]. rewrite IH; [done|]. by apply page_id_roundtrip; [lia|].
Qed.

Lemma metadata_path_inj i j : metadata_path i = metadata_path j → i = j.
Proof.
  unfold metadata_path, get_conversation_metadata_filename, get_conversation_dir. intros H3.
  apply append_inj_r in H3. apply (inj (String.append _)) in H3. by apply append_inj_r in H3.
Qed.

(** The owner check on a record. *)
Definition owner_matches (m : ConversationMetadata) (user_id : string) : bool :=
  match cm_user_id m with None | Some "" => false | Some u => String.eqb u user_id end.

(** A conversation that was saved exists, is loaded as it was saved, and belongs to its
    user and to nobody else; no other conversation changes. *)
Theorem saved_conversation `{!PlatformLaws} `{!MetadataAdapterLaws} `{!FileStoreLaws F} m (f f' : F) :
  save_metadata m f = (f', Ok tt) →
  get_metadata (cm_conversation_id m) f' = Ok m
  ∧ conversation_exists (cm_conversation_id m) f' = Ok true
  ∧ (∀ user, belongs_to (cm_conversation_id m) user f' = Ok (owner_matches m user))
  ∧ ∀ i, i ≠ cm_conversation_id m → get_metadata i f' = get_metadata i f.
Proof.
  intros Hw. unfold save_metadata in Hw. pose proof (fs_read_write _ _ _ _ Hw) as Hr.
  assert (Hg : get_metadata (cm_conversation_id m) f' = Ok m).
  { unfold get_metadata. rewrite Hr. cbn [rbind]. rewrite loads_dumps. cbn [rbind].
    by rewrite dump_created_at, dump_github_user_id, validate_dump. }
  split; [done|]. split; [by unfold conversation_exists; rewrite Hr|]. split.
  - intros user. unfold belongs_to. by rewrite Hg.
  - intros i Hi. unfold get_metadata. rewrite (fs_read_write_ne _ _ _ _ _ _ Hw); [done|].
    intros He. by apply Hi, eq_sym, metadata_path_inj.
Qed.
End store.

(** ** A concrete adapter and store *)

Module store_example.
#[export] Instance dates : Dates := {| DateTime := string; isoformat := id |}.

Definition dump (m : ConversationMetadata) : dict :=
  [("conversation_id", JStr (cm_conversation_id m));
   ("selected_repository", jtext (cm_selected_repository m)); ("user_id", jtext (cm_user_id m));
   ("selected_branch", jtext (cm_selected_branch m));
   ("git_provider", jtext (provider_value <$> cm_git_provider m)); ("title", jtext (cm_title m));
   ("last_updated_at", jtext (cm_last_updated_at m));
   ("trigger", jtext (trigger_value <$> cm_trigger m)); ("pr_number", JList (JInt <$> cm_pr_number m));
   ("created_at", JStr (cm_created_at m)); ("llm_model", jtext (cm_llm_model m));
   ("accumulated_cost", JFloat (cm_accumulated_cost m)); ("prompt_tokens", JInt (cm_prompt_tokens m));
   ("completion_tokens", JInt (cm_completion_tokens m)); ("total_tokens", JInt (cm_total_tokens m));
   ("sandbox_id", jtext (cm_sandbox_id m)); ("conversation_version", jtext (cm_conversation_version m));
   ("public", from_option JBool JNull (cm_public m))].

(** The fields of a document, [None] when one has another type. *)
Definition ostr (d : dict) (k : string) : option string := from_option id None (text_or_none k d).
Definition str (d : dict) (k : string) : string := from_option id "" (ostr d k).
Definition num (d : dict) (k : string) : Z := match dget k d with Some (JInt z) => z | _ => 0 end.
Definition ints (j : option json) : list Z :=
  match j with Some (JList l) => omap (λ j, match j with JInt z => Some z | _ => None end) l | _ => [] end.
Definition validate (d : dict) : result ConversationMetadata :=
  if negb (dmem "conversation_id" d) then Raise (OtherError "ValidationError" "") else
  Ok (mkConversationMetadata (str d "conversation_id") (ostr d "selected_repository")
    (ostr d "user_id") (ostr d "selected_branch") (ostr d "git_provider" ≫= provider_of_string)
    (ostr d "title") (ostr d "last_updated_at") (ostr d "trigger" ≫= trigger_of_string)
    (ints (dget "pr_number" d)) (str d "created_at") (ostr d "llm_model")
    (match dget "accumulated_cost" d with Some (JFloat x) => x | _ => fzero end)
    (num d "prompt_tokens") (num d "completion_tokens") (num d "total_tokens") (ostr d "sandbox_id")
    (ostr d "conversation_version")
    (match dget "public" d with Some (JBool b) => Some b | _ => None end)).
#[export] Instance adapter : MetadataAdapter := {| metadata_dump := dump; metadata_validate := validate |}.

Lemma ints_list l : ints (Some (JList (JInt <$> l))) = l.
Proof. unfold ints. induction l as [|x l IH]; [done|]. simpl. f_equal. apply IH. Qed.
#[export] Instance adapter_laws : MetadataAdapterLaws.
Proof.
  split; [done..|]. intros [cid repo user branch provider title upd trig prs created model cost p c t
    sandbox version public]. unfold metadata_validate, metadata_dump, adapter, validate, dump.
  cbn -[ints provider_of_string trigger_of_string provider_value trigger_value].
  unfold str, ostr, num, text_or_none.
  cbn -[ints provider_of_string trigger_of_string provider_value trigger_value].
  do 2 f_equal; first [reflexivity | apply ints_list | by destruct repo | by destruct user
    | by destruct branch | by destruct provider as [[]|] | by destruct title | by destruct upd
    | by destruct trig as [[]|] | by destruct model | by destruct sandbox | by destruct version
    | by destruct public].
Qed.

(** Three conversations, one of which cannot be loaded. *)
Definition meta (i user created : string) : ConversationMetadata :=
  mkConversationMetadata i None (Some user) None (Some GITHUB) None None (Some TR_GUI) [7] created None
    fzero 0 0 0 None None (Some true).
Definition saved (ms : list ConversationMetadata) : InMemoryFileStore :=
  foldl (λ f m, (save_metadata m f).1) (mkInMemoryFileStore []) ms.
Definition three : InMemoryFileStore :=
  saved [meta "a" "u" "2024-01-01"; meta "b" "u" "2024-03-01"; meta "c" "v" "2024-02-01"].
Definition broken : InMemoryFileStore := (mem_write "sessions/x/metadata.json" "?" three).1.

Lemma iterate_search_witness :
  let found := [meta "b" "u" "2024-03-01"; meta "c" "v" "2024-02-01"; meta "a" "u" "2024-01-01"] in
  iterate (search broken 1) 5 = Some (Ok found)
  ∧ ∃ l, iterate (search broken 1) 5 = Some (Ok l)
      ∧ l ≡ₚ load_all (conversation_ids ["sessions/a/"; "sessions/b/"; "sessions/c/"; "sessions/x/"]) broken
      ∧ StronglySorted (λ x y, String.ltb (cm_created_at x) (cm_created_at y) = false) l.
Proof.
  intros found. split; [vm_compute; reflexivity|].
  destruct (iterate_search broken 1 ["sessions/a/"; "sessions/b/"; "sessions/c/"; "sessions/x/"] 5)
    as (l & Hi & Hp & Hs & _); [lia|vm_compute; reflexivity|vm_compute; reflexivity|]. exists l. split; [exact Hi|]. split; [exact Hp|exact Hs].
Defined.

Lemma saved_conversation_witness :
  get_metadata "a" (save_metadata (meta "a" "u" "2024-01-01") broken).1 = Ok (meta "a" "u" "2024-01-01").
Proof.
  exact (proj1 (saved_conversation (meta "a" "u" "2024-01-01") broken
                  (save_metadata (meta "a" "u" "2024-01-01") broken).1 eq_refl)).
Defined.

(** Deleting a conversation deletes every other one whose identifier starts with its own:
    the store deletes by prefix, and the path ends with the identifier. *)
Example delete_by_prefix :
  let f := saved [meta "a" "u" "2024-01-01"; meta "ab" "v" "2024-03-01"] in
  conversation_exists "ab" (delete_metadata "a" f).1 = Ok false.
Proof. vm_compute. reflexivity. Qed.
End store_example.
