(* ===== verification/ApollosDb.v ===== *)
(** * The database of the ApollosAI server

    Models the tables of [apollosai/storage/models/] and the sessions of
    [apollosai/server/deps.py] and [storage/services/]: a table is the list of its rows;
    an identifier is the text of a UUID.  A request works on its session's view of the
    database, which the commit makes permanent if the constraints of the schema hold
    (primary keys, unique columns, foreign keys), and undoes otherwise. *)

From S2P Require Import Prelude PyValue.
Local Open Scope Z_scope.
Local Open Scope py_scope.

Abbreviation uuid := string.

(** ** Rows *)

Record Role := mkRole { rl_id : Z; rl_name : string; rl_rank : Z }.

(** The columns of [organization] that the code reads. *)
Record Organization := mkOrganization {
  og_id : uuid;
  og_name : string;
  og_llm_model : option string;
  og_llm_base_url : option string;
  og_max_iterations : option Z;
  og_agent : option string;
}.
Definition new_Organization (id : uuid) (name : string) : Organization :=
  mkOrganization id name None None None None.

Record User := mkUser {
  us_id : uuid;
  us_entra_oid : string;
  us_email : option string;
  us_display_name : option string;
  us_current_org_id : option uuid;
  us_current_team_id : option uuid;
}.

Record OrgMembership := mkOrgMembership { om_org : uuid; om_user : uuid; om_role : Z }.

Record Team := mkTeam {
  te_id : uuid;
  te_org : uuid;
  te_name : string;
  te_llm_model : option string;
  te_llm_base_url : option string;
  te_max_iterations : option Z;
}.

Record TeamMembership := mkTeamMembership {
  tm_team : uuid;
  tm_user : uuid;
  tm_role : Z;
  tm_llm_model : option string;
  tm_max_iterations : option Z;
}.

Record ApiKey := mkApiKey {
  ak_id : uuid;
  ak_user : uuid;
  ak_org : uuid;
  ak_name : string;
  ak_prefix : string;
  ak_key_hash : string;
  ak_salt : string;
  ak_is_active : bool;
}.

(** Times are microseconds since 1970. *)
Record RevokedToken := mkRevokedToken { rv_jti : string; rv_revoked_at : Z; rv_expires_at : Z }.

Record UserMCPServer := mkUserMCPServer {
  ms_id : uuid;
  ms_user : uuid;
  ms_org : uuid;
  ms_name : string;
  ms_type : string;
  ms_config : string;
  ms_enabled : bool;
  ms_description : option string;
  ms_approved : bool;
}.

Record AuditLog := mkAuditLog {
  al_id : uuid;
  al_actor : option uuid;
  al_org : uuid;
  al_action : string;
  al_resource_type : string;
  al_resource_id : string;
  al_details : option dict;
  al_ip_address : option string;
  al_created_at : Z;
}.

(** [metadata_json]: what the conversation store writes there. *)
Record ConversationInfo := mkConversationInfo {
  ci_selected_repository : option string;
  ci_selected_branch : option string;
  ci_llm_model : option string;
}.
Record Conversation := mkConversation {
  co_id : string;
  co_user : uuid;
  co_org : uuid;
  co_title : option string;
  co_metadata : option ConversationInfo;
  co_deleted_at : option Z;
  co_created_at : Z;
  co_updated_at : Z;
}.

Record EncryptedSecret := mkEncryptedSecret {
  es_id : uuid;
  es_user : uuid;
  es_org : uuid;
  es_key : string;
  es_value : string;
}.

Record AuthToken := mkAuthToken { at_id : uuid; at_user : uuid; at_cache : string }.

#[export] Instance Role_eq_dec : EqDecision Role.
Proof. solve_decision. Defined.
#[export] Instance Organization_eq_dec : EqDecision Organization.
Proof. solve_decision. Defined.
#[export] Instance User_eq_dec : EqDecision User.
Proof. solve_decision. Defined.
#[export] Instance OrgMembership_eq_dec : EqDecision OrgMembership.
Proof. solve_decision. Defined.
#[export] Instance Team_eq_dec : EqDecision Team.
Proof. solve_decision. Defined.
#[export] Instance TeamMembership_eq_dec : EqDecision TeamMembership.
Proof. solve_decision. Defined.
#[export] Instance ApiKey_eq_dec : EqDecision ApiKey.
Proof. solve_decision. Defined.
#[export] Instance UserMCPServer_eq_dec : EqDecision UserMCPServer.
Proof. solve_decision. Defined.

(** ** Tables *)

(** The tables of the migrations: the initial schema's, [encrypted_secret], [conversation] and
    [revoked_token] of the second, [audit_log] of the third, [user_mcp_server] of the fourth. *)
Record Database := mkDatabase {
  db_roles : list Role;
  db_orgs : list Organization;
  db_users : list User;
  db_members : list OrgMembership;
  db_teams : list Team;
  db_team_members : list TeamMembership;
  db_keys : list ApiKey;
  db_revoked : list RevokedToken;
  db_servers : list UserMCPServer;
  db_audit : list AuditLog;
  db_conversations : list Conversation;
  db_secrets : list EncryptedSecret;
  db_tokens : list AuthToken;
}.
Definition set_roles x (d : Database) := mkDatabase x (db_orgs d) (db_users d) (db_members d)
  (db_teams d) (db_team_members d) (db_keys d) (db_revoked d) (db_servers d) (db_audit d)
  (db_conversations d) (db_secrets d) (db_tokens d).
Definition set_orgs x (d : Database) := mkDatabase (db_roles d) x (db_users d) (db_members d)
  (db_teams d) (db_team_members d) (db_keys d) (db_revoked d) (db_servers d) (db_audit d)
  (db_conversations d) (db_secrets d) (db_tokens d).
Definition set_users x (d : Database) := mkDatabase (db_roles d) (db_orgs d) x (db_members d)
  (db_teams d) (db_team_members d) (db_keys d) (db_revoked d) (db_servers d) (db_audit d)
  (db_conversations d) (db_secrets d) (db_tokens d).
Definition set_members x (d : Database) := mkDatabase (db_roles d) (db_orgs d) (db_users d) x
  (db_teams d) (db_team_members d) (db_keys d) (db_revoked d) (db_servers d) (db_audit d)
  (db_conversations d) (db_secrets d) (db_tokens d).
Definition set_teams x (d : Database) := mkDatabase (db_roles d) (db_orgs d) (db_users d)
  (db_members d) x (db_team_members d) (db_keys d) (db_revoked d) (db_servers d) (db_audit d)
  (db_conversations d) (db_secrets d) (db_tokens d).
Definition set_team_members x (d : Database) := mkDatabase (db_roles d) (db_orgs d) (db_users d)
  (db_members d) (db_teams d) x (db_keys d) (db_revoked d) (db_servers d) (db_audit d)
  (db_conversations d) (db_secrets d) (db_tokens d).
Definition set_keys x (d : Database) := mkDatabase (db_roles d) (db_orgs d) (db_users d)
  (db_members d) (db_teams d) (db_team_members d) x (db_revoked d) (db_servers d) (db_audit d)
  (db_conversations d) (db_secrets d) (db_tokens d).
Definition set_revoked x (d : Database) := mkDatabase (db_roles d) (db_orgs d) (db_users d)
  (db_members d) (db_teams d) (db_team_members d) (db_keys d) x (db_servers d) (db_audit d)
  (db_conversations d) (db_secrets d) (db_tokens d).
Definition set_servers x (d : Database) := mkDatabase (db_roles d) (db_orgs d) (db_users d)
  (db_members d) (db_teams d) (db_team_members d) (db_keys d) (db_revoked d) x (db_audit d)
  (db_conversations d) (db_secrets d) (db_tokens d).
Definition set_audit x (d : Database) := mkDatabase (db_roles d) (db_orgs d) (db_users d)
  (db_members d) (db_teams d) (db_team_members d) (db_keys d) (db_revoked d) (db_servers d) x
  (db_conversations d) (db_secrets d) (db_tokens d).
Definition set_conversations x (d : Database) := mkDatabase (db_roles d) (db_orgs d) (db_users d)
  (db_members d) (db_teams d) (db_team_members d) (db_keys d) (db_revoked d) (db_servers d)
  (db_audit d) x (db_secrets d) (db_tokens d).
Definition set_secrets x (d : Database) := mkDatabase (db_roles d) (db_orgs d) (db_users d)
  (db_members d) (db_teams d) (db_team_members d) (db_keys d) (db_revoked d) (db_servers d)
  (db_audit d) (db_conversations d) x (db_tokens d).
Definition set_tokens x (d : Database) := mkDatabase (db_roles d) (db_orgs d) (db_users d)
  (db_members d) (db_teams d) (db_team_members d) (db_keys d) (db_revoked d) (db_servers d)
  (db_audit d) (db_conversations d) (db_secrets d) x.

(** ** Constraints *)

Definition uuid_in (i : uuid) (l : list uuid) : bool := existsb (String.eqb i) l.
Definition optional_in (i : option uuid) (l : list uuid) : bool :=
  match i with Some i => uuid_in i l | None => true end.

(** Primary keys and unique columns. *)
Definition uniqueness (d : Database) : bool :=
  bool_decide (NoDup (rl_id <$> db_roles d)) && bool_decide (NoDup (rl_name <$> db_roles d))
  && bool_decide (NoDup (og_id <$> db_orgs d)) && bool_decide (NoDup (og_name <$> db_orgs d))
  && bool_decide (NoDup (us_id <$> db_users d)) && bool_decide (NoDup (us_entra_oid <$> db_users d))
  && bool_decide (NoDup ((λ m, (om_org m, om_user m)) <$> db_members d))
  && bool_decide (NoDup (te_id <$> db_teams d))
  && bool_decide (NoDup ((λ t, (te_org t, te_name t)) <$> db_teams d))
  && bool_decide (NoDup ((λ m, (tm_team m, tm_user m)) <$> db_team_members d))
  && bool_decide (NoDup (ak_id <$> db_keys d)) && bool_decide (NoDup (rv_jti <$> db_revoked d))
  && bool_decide (NoDup (ms_id <$> db_servers d)) && bool_decide (NoDup (al_id <$> db_audit d))
  && bool_decide (NoDup (co_id <$> db_conversations d)) && bool_decide (NoDup (es_id <$> db_secrets d))
  && bool_decide (NoDup ((λ s, (es_user s, es_org s, es_key s)) <$> db_secrets d))
  && bool_decide (NoDup (at_id <$> db_tokens d)) && bool_decide (NoDup (at_user <$> db_tokens d)).

(** Foreign keys. *)
Definition references (d : Database) : bool :=
  let orgs := og_id <$> db_orgs d in
  let users := us_id <$> db_users d in
  let teams := te_id <$> db_teams d in
  let roles := rl_id <$> db_roles d in
  forallb (λ u, optional_in (us_current_org_id u) orgs && optional_in (us_current_team_id u) teams)
    (db_users d)
  && forallb (λ m, uuid_in (om_org m) orgs && uuid_in (om_user m) users
                   && existsb (Z.eqb (om_role m)) roles) (db_members d)
  && forallb (λ t, uuid_in (te_org t) orgs) (db_teams d)
  && forallb (λ m, uuid_in (tm_team m) teams && uuid_in (tm_user m) users
                   && existsb (Z.eqb (tm_role m)) roles) (db_team_members d)
  && forallb (λ k, uuid_in (ak_user k) users && uuid_in (ak_org k) orgs) (db_keys d)
  && forallb (λ s, uuid_in (ms_user s) users && uuid_in (ms_org s) orgs) (db_servers d)
  && forallb (λ a, optional_in (al_actor a) users && uuid_in (al_org a) orgs) (db_audit d)
  && forallb (λ c, uuid_in (co_user c) users && uuid_in (co_org c) orgs) (db_conversations d)
  && forallb (λ s, uuid_in (es_user s) users && uuid_in (es_org s) orgs) (db_secrets d)
  && forallb (λ t, uuid_in (at_user t) users) (db_tokens d).

Definition integrity (d : Database) : bool := uniqueness d && references d.

Definition IntegrityError : py_exc := OtherError "IntegrityError" "".

(** ** Sessions *)

(** A handler is given the database and returns the one its session has committed. *)
Abbreviation handler A := (Database → Database * result A).

(** [session.commit()] and the end of the request: [old] is what was committed before. *)
Definition commit {A} (old new : Database) (a : A) : Database * result A :=
  if integrity new then (new, Ok a) else (old, Raise IntegrityError).

(** ** Queries *)

(** [scalar_one_or_none()]: more than one row is an error. *)
Definition one_or_none {A} (rows : list A) : result (option A) :=
  match rows with
  | [] => Ok None
  | [x] => Ok (Some x)
  | _ => Raise (OtherError "MultipleResultsFound" "")
  end.

(** [session.get(Table, id)] *)
Definition get_org (d : Database) (i : uuid) : option Organization :=
  py_find (λ o, String.eqb (og_id o) i) (db_orgs d).
Definition get_user (d : Database) (i : uuid) : option User :=
  py_find (λ u, String.eqb (us_id u) i) (db_users d).
Definition get_team (d : Database) (i : uuid) : option Team :=
  py_find (λ t, String.eqb (te_id t) i) (db_teams d).
Definition get_role (d : Database) (i : Z) : option Role :=
  py_find (λ r, rl_id r =? i) (db_roles d).

(** The rows of [select(OrgMembership, Role).join(Role, ...)] for an organization. *)
Definition member_roles (d : Database) (org : uuid) : list (OrgMembership * Role) :=
  py_filter (λ m, String.eqb (om_org m) org) (db_members d) ≫= λ m,
  (λ r, (m, r)) <$> py_filter (λ r, rl_id r =? om_role m) (db_roles d).
Definition memberships_of (d : Database) (org user : uuid) : list (OrgMembership * Role) :=
  py_filter (λ mr, String.eqb (om_user mr.1) user) (member_roles d org).

(** *** Roles *)

Definition ROLE_RANKS : list (string * Z) :=
  [("owner", 0); ("admin", 1); ("manager", 2); ("member", 3)].
(** [ROLE_RANKS.get(role, 3)] *)
Definition role_rank (role : string) : Z := from_option id 3 (dget role ROLE_RANKS).

(** The next value of the identity column. *)
Definition next_role_id (d : Database) : Z := foldr Z.max 0 (rl_id <$> db_roles d) + 1.

(** The role with this name, created when it is missing. *)
Definition ensure_role (name : string) (d : Database) : result (Database * Role) :=
  let? r := one_or_none (py_filter (λ r, String.eqb (rl_name r) name) (db_roles d)) in
  match r with
  | Some r => Ok (d, r)
  | None => let r := mkRole (next_role_id d) name (role_rank name) in
            Ok (set_roles (db_roles d ++ [r]) d, r)
  end.
