(* ===== verification/ApollosAuth.v ===== *)
(** * Authentication of the ApollosAI server

    Models [apollosai/server/auth/] ([jwt_utils.py], [entraid_auth.py], [rbac.py],
    [constants.py]), [storage/services/token_revocation_service.py], the routes of
    [server/routes/auth.py] and the exception handlers of [app_server.py].

    The environment is a list of variables; the signing library and the identity provider
    are parameters ([JWT], [MSAL]).  The decorators that limit the rate of requests are
    left out: a request that reaches a handler is modelled. *)

From S2P Require Import Prelude PyValue StrSearch ApollosDb.
Local Open Scope Z_scope.
Local Open Scope py_scope.

(** ** The environment *)

Abbreviation environ := (list (string * string)).
(** [os.environ.get(k, default)] *)
Definition env_get (k default : string) (env : environ) : string :=
  from_option id default (dget k env).

Definition get_entra_tenant_id (env : environ) : string := env_get "ENTRA_TENANT_ID" "" env.
Definition get_jwt_secret (env : environ) : string := env_get "JWT_SECRET" "" env.
(** [os.environ.get(k, '').lower() in ('1', 'true', 'yes')] *)
Definition env_truthy (k : string) (env : environ) : bool :=
  existsb (String.eqb (str_lower (env_get k "" env))) ["1"; "true"; "yes"].
Definition allow_unauthenticated (env : environ) : bool :=
  env_truthy "APOLLOSAI_ALLOW_UNAUTHENTICATED" env.

(** ** Session tokens *)

(** PyJWT, with HS256: [jwt_encode payload secret] and
    [jwt_decode now token secret audience]. *)
Class JWT := {
  jwt_encode : dict → string → string;
  jwt_decode : float → string → string → string → result dict;
}.

(** The claims' times and audience, as PyJWT checks them: [exp] is read as an integer, the
    floor of what the token has. *)
Definition claim_audience (payload : dict) : option json := dget "aud" payload.
Definition not_expired (now : float) (payload : dict) : Prop :=
  ∀ x, dget "exp" payload = Some (JFloat x) → fltb now (fsub x (float_of_Z 1)) = true.

(** What the server relies on: a token it signed is decoded to its claims with the same
    secret and audience, at any time between its issue and a second before its expiry. *)
Class JWTLaws `{JWT} := decode_encode : ∀ payload secret audience issued now,
  claim_audience payload = Some (JStr audience) →
  dget "iat" payload = Some (JFloat issued) → fleb issued now = true →
  not_expired now payload →
  jwt_decode now (jwt_encode payload secret) secret audience = Ok payload.

Definition DEFAULT_EXPIRY_SECONDS : Z := 86400.
Definition JWT_AUDIENCE : string := "apollosai".
Definition MIN_SECRET_LENGTH : Z := 32.

(** [jwt.InvalidTokenError], PyJWT's. *)
Definition jwt_InvalidTokenError (msg : string) : py_exc := OtherError "jwt.InvalidTokenError" msg.
(** The server's own errors, subclasses of [AuthError]. *)
Definition NoCredentialsError (msg : string) : py_exc := OtherError "NoCredentialsError" msg.
Definition InvalidTokenError (msg : string) : py_exc := OtherError "InvalidTokenError" msg.
Definition PermissionDeniedError (msg : string) : py_exc := OtherError "PermissionDeniedError" msg.

Definition get_validated_secret (env : environ) : result string :=
  let secret := get_jwt_secret env in
  if String.eqb secret "" then Raise (ValueError "JWT_SECRET environment variable is required")
  else if str_len secret <? MIN_SECRET_LENGTH then
    Raise (ValueError ("JWT_SECRET must be at least " +:+ pretty MIN_SECRET_LENGTH
      +:+ " characters (got " +:+ pretty (str_len secret)
      +:+ "). Use a cryptographically random string."))
  else Ok secret.

Section tokens.
Context `{JWT}.

(** The payload of a token issued at [now] with the identifier [jti]. *)
Definition session_claims (user_id email entra_oid jti : string) (expires_in : Z) (now : float) : dict :=
  [("sub", JStr user_id); ("email", JStr email); ("entra_oid", JStr entra_oid);
   ("aud", JStr JWT_AUDIENCE); ("iat", JFloat now);
   ("exp", JFloat (fadd now (float_of_Z expires_in))); ("jti", JStr jti)].

Definition create_session_token (env : environ) (now : float) (jti user_id email entra_oid : string)
    (expires_in : Z) : result string :=
  let? secret := get_validated_secret env in
  Ok (jwt_encode (session_claims user_id email entra_oid jti expires_in now) secret).

(** The claims that must be present and texts. *)
Fixpoint check_claims (claims : list string) (payload : dict) : result unit :=
  match claims with
  | [] => Ok tt
  | c :: claims =>
      match dget c payload with
      | Some (JStr _) => check_claims claims payload
      | _ => Raise (jwt_InvalidTokenError ("Missing or invalid required claim: " +:+ c))
      end
  end.

Definition decode_session_token (env : environ) (now : float) (token : string) : result dict :=
  let? secret := get_validated_secret env in
  let? payload := jwt_decode now token secret JWT_AUDIENCE in
  let? _ := check_claims ["sub"; "email"; "entra_oid"] payload in
  Ok payload.

(** *** Revocation *)

Definition is_token_revoked (d : Database) (jti : string) : bool :=
  existsb (λ r, String.eqb (rv_jti r) jti) (db_revoked d).

(** [now] is the time of the revocation. *)
Definition revoke_token (now : Z) (jti : string) (expires_at : Z) : handler unit :=
  λ d, if is_token_revoked d jti then (d, Ok tt)
       else commit d (set_revoked (db_revoked d ++ [mkRevokedToken jti now expires_at]) d) tt.

(** The [jti] of a payload is any value; a lookup by one that is not a text is refused by
    the database driver. *)
Definition validate_session_token (env : environ) (now : float) (token : string) (d : Database) :
    result dict :=
  let? payload := decode_session_token env now token in
  match dget "jti" payload with
  | None | Some JNull => Ok payload
  | Some (JStr jti) =>
      if is_token_revoked d jti
      then Raise (jwt_InvalidTokenError ("Token has been revoked (jti=" +:+ jti +:+ ")"))
      else Ok payload
  | Some _ => Raise (OtherError "DBAPIError" "")
  end.
End tokens.

(** ** Requests and responses *)

Record HttpRequest := mkHttpRequest {
  rq_cookies : list (string * string);
  rq_headers : list (string * string);
  rq_query : list (string * string);
  rq_netloc : string;
  rq_base_url : string;
}.

Inductive CookieOp :=
  | SetCookie (key value : string) (max_age : Z) (secure : bool)
  | DeleteCookie (key : string).

Record Response := mkResponse {
  rs_status : Z;
  rs_content : json;
  rs_location : option string;
  rs_cookies : list CookieOp;
}.
Definition JSONResponse (status : Z) (content : json) : Response :=
  mkResponse status content None [].
Definition error_response (status : Z) (msg : string) : Response :=
  JSONResponse status (JDict [("error", JStr msg)]).

(** The handlers of [app_server.py]; any other exception is a server error. *)
Definition exception_handler (e : py_exc) : Response :=
  match e with
  | OtherError "NoCredentialsError" _ => error_response 401 "Not authenticated"
  | OtherError "InvalidTokenError" _ => error_response 401 "Invalid or expired token"
  | OtherError "PermissionDeniedError" _ => error_response 403 "Permission denied"
  | _ => JSONResponse 500 (JStr "Internal Server Error")
  end.

(** ** UUIDs *)

Definition hex_digit (c : ascii) : option Z :=
  let n := Z.of_nat (Ascii.nat_of_ascii c) in
  if (48 <=? n) && (n <=? 57) then Some (n - 48)
  else if (97 <=? n) && (n <=? 102) then Some (n - 87)
  else if (65 <=? n) && (n <=? 70) then Some (n - 55)
  else None.

(** The digits of [int(s, 16)]; an underscore may stand between two digits. *)
Fixpoint hex_digits (after_digit : bool) (acc : Z) (s : string) : option Z :=
  match s with
  | EmptyString => if after_digit then Some acc else None
  | String c s' =>
      match hex_digit c with
      | Some v => hex_digits true (16 * acc + v) s'
      | None => if Ascii.eqb c "_" && after_digit then hex_digits false acc s' else None
      end
  end.
(** After the sign: a prefix [0x] (then perhaps an underscore) is allowed. *)
Definition hex_unsigned (s : string) : option Z :=
  if startswith s "0x" || startswith s "0X" then
    let r := String.substring 2 (String.length s) s in
    hex_digits false 0 (if startswith r "_" then String.substring 1 (String.length r) r else r)
  else hex_digits false 0 s.
(** [int(s, 16)] *)
Definition int_base16 (s : string) : option Z :=
  match str_strip s with
  | String "-" s => Z.opp <$> hex_unsigned s
  | String "+" s => hex_unsigned s
  | s => hex_unsigned s
  end.

(** [s.replace(c, '')] for a character, [s.strip('{}')] *)
Fixpoint remove_char (c : ascii) (s : string) : string :=
  match s with
  | EmptyString => ""
  | String d s => if Ascii.eqb d c then remove_char c s else String d (remove_char c s)
  end.
Fixpoint lstrip_braces (s : string) : string :=
  match s with
  | String c s' => if Ascii.eqb c "{" || Ascii.eqb c "}" then lstrip_braces s' else s
  | EmptyString => ""
  end.
Definition strip_braces (s : string) : string :=
  String.rev (lstrip_braces (String.rev (lstrip_braces s))).

(** [s.replace(old, '')] for a non-empty [old]. *)
Fixpoint remove_text (old : string) (skip : nat) (s : string) : string :=
  match s with
  | EmptyString => ""
  | String c s' =>
      match skip with
      | S k => remove_text old k s'
      | O => if String.prefix old s then remove_text old (String.length old - 1) s'
             else String c (remove_text old 0 s')
      end
  end.

Fixpoint hex_text (n : nat) (v : Z) (acc : string) : string :=
  match n with
  | O => acc
  | S n => let x := v mod 16 in
           hex_text n (v / 16)
             (String (Ascii.ascii_of_nat (Z.to_nat (if x <? 10 then 48 + x else 87 + x))) acc)
  end.
(** [str(u)] for the UUID with this integer. *)
Definition uuid_text (v : Z) : uuid :=
  let h := hex_text 32 v "" in
  String.substring 0 8 h +:+ "-" +:+ String.substring 8 4 h +:+ "-" +:+ String.substring 12 4 h
  +:+ "-" +:+ String.substring 16 4 h +:+ "-" +:+ String.substring 20 12 h.

(** [uuid.UUID(s)], as the text it prints to. *)
Definition parse_uuid (s : string) : result uuid :=
  let h := remove_char "-" (strip_braces (remove_text "uuid:" 0 (remove_text "urn:" 0 s))) in
  if negb (str_len h =? 32) then Raise (ValueError "badly formed hexadecimal UUID string")
  else match int_base16 h with
       | None => Raise (ValueError "invalid literal for int() with base 16")
       | Some v => if (0 <=? v) && (v <? 2 ^ 128) then Ok (uuid_text v)
                   else Raise (ValueError "int is out of range (need a 128-bit value)")
       end.

(** ** Who makes a request *)

(** [EntraIDUserAuth] *)
Record EntraIDUserAuth := mkEntraIDUserAuth { ea_user_id : option string; ea_email : option string }.

Definition COOKIE_NAME : string := "apollosai_auth".
Definition COOKIE_MAX_AGE : Z := 86400.

(** The token of a request: the cookie, or else the bearer token; [None] when neither is
    given or when it is empty. *)
Definition request_token (r : HttpRequest) : option string :=
  let bearer :=
    let h := from_option id "" (dget "authorization" (rq_headers r)) in
    if startswith h "Bearer " then Some (String.substring 7 (String.length h - 7) h) else None in
  let token := match dget COOKIE_NAME (rq_cookies r) with
               | Some t => if String.eqb t "" then bearer else Some t
               | None => bearer
               end in
  match token with Some t => if String.eqb t "" then None else Some t | None => None end.

Definition jstr (k : string) (payload : dict) : option string :=
  match dget k payload with Some (JStr s) => Some s | _ => None end.

Record AuthedUser := mkAuthedUser {
  au_user_id : uuid;
  au_email : option string;
  au_org_id : option uuid;
  au_role_name : option string;
  au_role_rank : option Z;
}.
Definition DEV_MODE_USER_ID : uuid := "00000000-0000-0000-0000-000000000000".
Definition dev_user : AuthedUser := mkAuthedUser DEV_MODE_USER_ID (Some "dev@localhost") None None None.

Section auth.
Context `{JWT}.

(** [EntraIDUserAuth.get_instance] *)
Definition get_instance (env : environ) (now : float) (r : HttpRequest) : result EntraIDUserAuth :=
  match request_token r with
  | Some token =>
      match decode_session_token env now token with
      | Ok payload => Ok (mkEntraIDUserAuth (jstr "sub" payload) (jstr "email" payload))
      | Raise _ => Raise (InvalidTokenError "Invalid or expired authentication token.")
      end
  | None =>
      if allow_unauthenticated env then Ok (mkEntraIDUserAuth None None)
      else Raise (NoCredentialsError
             "Authentication required. Provide a session cookie or Bearer token.")
  end.

Definition require_auth (env : environ) (now : float) (r : HttpRequest) : result AuthedUser :=
  let? auth := get_instance env now r in
  match ea_user_id auth with
  | None | Some "" =>
      if allow_unauthenticated env then Ok dev_user
      else Raise (NoCredentialsError "No user_id in auth context")
  | Some u => let? user_id := parse_uuid u in
              Ok (mkAuthedUser user_id (ea_email auth) None None None)
  end.
End auth.

(** [require_role(min_role)]: the check of the dependency, for the user of the request. *)
Definition require_role (min_role : string) (org : uuid) (user : AuthedUser) (d : Database) :
    result AuthedUser :=
  let min_rank := role_rank min_role in
  let? row := one_or_none (memberships_of d org (au_user_id user)) in
  match row with
  | None => Raise (PermissionDeniedError "Not a member of this organization")
  | Some (_, role) =>
      if min_rank <? rl_rank role then
        Raise (PermissionDeniedError ("Requires " +:+ min_role +:+ " role (rank " +:+ pretty min_rank
          +:+ "), you have " +:+ rl_name role +:+ " (rank " +:+ pretty (rl_rank role) +:+ ")"))
      else Ok (mkAuthedUser (au_user_id user) (au_email user) (Some org)
                 (Some (rl_name role)) (Some (rl_rank role)))
  end.

(** ** Routes *)

(** [urlparse(url).netloc] *)
Definition is_scheme_char (c : ascii) : bool :=
  let n := Z.of_nat (Ascii.nat_of_ascii c) in
  (97 <=? n) && (n <=? 122) || (65 <=? n) && (n <=? 90) || (48 <=? n) && (n <=? 57)
  || Ascii.eqb c "+" || Ascii.eqb c "-" || Ascii.eqb c ".".
Definition is_ascii_letter (c : ascii) : bool :=
  let n := Z.of_nat (Ascii.nat_of_ascii c) in
  (97 <=? n) && (n <=? 122) || (65 <=? n) && (n <=? 90).
Fixpoint lstrip_control (s : string) : string :=
  match s with
  | String c s' => if (Ascii.nat_of_ascii c <=? 32)%nat then lstrip_control s' else s
  | EmptyString => ""
  end.
Definition clean_url (s : string) : string :=
  remove_char (Ascii.ascii_of_nat 13) (remove_char newline
    (remove_char (Ascii.ascii_of_nat 9) (lstrip_control s))).
(** The text up to the first of the characters, and the rest from it on. *)
Fixpoint cut_at (stop : ascii → bool) (s : string) : string * string :=
  match s with
  | EmptyString => ("", "")
  | String c s' => if stop c then ("", s) else let '(a, b) := cut_at stop s' in (String c a, b)
  end.
Definition without_scheme (s : string) : string :=
  match cut_at (λ c, Ascii.eqb c ":") s with
  | (String c a, String _ rest) =>
      if is_ascii_letter c && all_chars is_scheme_char a then rest else s
  | _ => s
  end.
Definition url_netloc (url : string) : result string :=
  let rest := without_scheme (clean_url url) in
  if startswith rest "//" then
    let netloc := (cut_at (λ c, Ascii.eqb c "/" || Ascii.eqb c "?" || Ascii.eqb c "#")
                     (String.substring 2 (String.length rest) rest)).1 in
    if Bool.eqb (str_contains "[" netloc) (str_contains "]" netloc) then Ok netloc
    else Raise (ValueError "Invalid IPv6 URL")
  else Ok "".

(** [quote(s, safe='')] *)
Definition quote_char (c : ascii) : string :=
  let n := Z.of_nat (Ascii.nat_of_ascii c) in
  if is_ascii_letter c || (48 <=? n) && (n <=? 57) || existsb (Ascii.eqb c) ["_"; "."; "-"; "~"]%char
  then String c ""
  else let h x := Ascii.ascii_of_nat (Z.to_nat (if x <? 10 then 48 + x else 55 + x)) in
       String "%" (String (h (n / 16)) (String (h (n mod 16)) "")).
Fixpoint quote (s : string) : string :=
  match s with EmptyString => "" | String c s => quote_char c +:+ quote s end.
(** [datetime.fromtimestamp(t, tz=utc)], in microseconds: rounded half to even; the years 1
    to 9999. *)
Definition scaled_micros (m e : Z) : Z :=
  if 0 <=? e then m * 2 ^ e * 1000000 else div_half_even (m * 1000000) (2 ^ (- e)).
Definition timestamp_micros (t : json) : result Z :=
  match t with
  | JInt z => Ok (z * 1000000)
  | JBool b => Ok (bool_Z b * 1000000)
  | JFloat (S754_zero _) => Ok 0
  | JFloat (S754_finite s m e) =>
      let us := scaled_micros (Z.pos m) e in Ok (if s then - us else us)
  | JFloat _ => Raise (ValueError "cannot convert float to integer")
  | _ => Raise (TypeError "an integer is required")
  end.
Definition fromtimestamp (t : json) : result Z :=
  let? us := timestamp_micros t in
  if (-62135596800 * 1000000 <=? us) && (us <? 253402300800 * 1000000) then Ok us
  else Raise (ValueError "year is out of range").

(** MSAL: the start of a flow with a given state, and the exchange of the code. *)
Class MSAL := {
  get_auth_url : string → dict;
  acquire_token_by_auth_code_flow : dict → list (string * string) → dict;
}.

Section routes.
Context `{JWT} `{MSAL}.
Variable env : environ.
Variable now : float.

(** [POST /authenticate] *)
Definition authenticate (r : HttpRequest) : result Response :=
  match get_instance env now r with
  | Ok user => Ok (JSONResponse 200 (JDict [("message", JStr "User authenticated");
                     ("email", JStr (from_option id "" (ea_email user)))]))
  | Raise (OtherError c m) =>
      if existsb (String.eqb c) ["NoCredentialsError"; "InvalidTokenError"]
      then Ok (error_response 401 "Not authenticated") else Raise (OtherError c m)
  | Raise e => Raise e
  end.

(** [GET /auth/login]: [state] is the random text; the session keeps the flow. *)
Definition login (state : string) (session : dict) : dict * result Response :=
  let flow := get_auth_url state in
  let session := dset "auth_flow" (JDict flow) session in
  (session, match dget "auth_uri" flow with
            | Some (JStr uri) => Ok (mkResponse 307 JNull (Some uri) [])
            | Some _ => Raise (TypeError "")
            | None => Raise (KeyError "auth_uri")
            end).

(** [d.get(k, default)] where a text is expected. *)
Definition jget (k : string) (default : json) (d : dict) : json :=
  from_option id default (dget k d).

(** The redirect after the login: another host is replaced by the root. *)
Definition safe_redirect (r : HttpRequest) (url : string) : result string :=
  let? netloc := url_netloc url in
  Ok (if negb (String.eqb netloc "") && negb (String.eqb netloc (rq_netloc r)) then "/" else url).

Definition secure_cookie : bool := negb (env_truthy "APOLLOSAI_SESSION_INSECURE" env).

(** [GET /auth/callback]; [jti] is the fresh identifier of the token.  The values of the
    session and of the provider's answer that are not of the expected type raise. *)
Definition callback (jti : string) (r : HttpRequest) (session : dict) : dict * result Response :=
  match jget "auth_flow" (JDict []) session with
  | JDict [] | JNull => (session, Ok (error_response 400 "Missing auth flow. Please login again."))
  | JDict flow =>
      let callback_state := from_option id "" (dget "state" (rq_query r)) in
      if String.eqb callback_state ""
         || negb (py_eqb (JStr callback_state) (jget "state" (JStr "") flow)) then
        (session, Ok (error_response 403 "CSRF state mismatch. Please login again."))
      else
        let answer := acquire_token_by_auth_code_flow flow (rq_query r) in
        if dmem "error" answer then
          (session, Ok (JSONResponse 401 (JDict [("error",
             jget "error_description" (JStr "Authentication failed") answer)])))
        else
          match jget "id_token_claims" (JDict []) answer with
          | JDict claims =>
              match jget "oid" (JStr "") claims, jget "preferred_username" (JStr "") claims with
              | JStr user_id, JStr email =>
                  match create_session_token env now jti user_id email user_id
                          DEFAULT_EXPIRY_SECONDS with
                  | Raise e => (session, Raise e)
                  | Ok token =>
                      let url := jget "redirect_after_login" (JStr "/") session in
                      let session := ddel "redirect_after_login" session in
                      match url with
                      | JStr url =>
                          match safe_redirect r url with
                          | Raise e => (session, Raise e)
                          | Ok url =>
                              (ddel "auth_flow" session,
                               Ok (mkResponse 307 JNull (Some url)
                                     [SetCookie COOKIE_NAME token COOKIE_MAX_AGE secure_cookie]))
                          end
                      | _ => (session, Raise (TypeError ""))
                      end
                  end
              | _, _ => (session, Raise (TypeError ""))
              end
          | _ => (session, Raise (TypeError ""))
          end
  | _ => (session, Raise (TypeError ""))
  end.

(** The revocation by [POST /auth/logout]: whatever it raises is dropped; [clock] is the
    time in microseconds. *)
Definition revoke_session (clock : Z) (r : HttpRequest) (d : Database) :
    Database :=
  match dget COOKIE_NAME (rq_cookies r) with
  | None | Some "" => d
  | Some token =>
      match decode_session_token env now token with
      | Raise _ => d
      | Ok payload =>
          match dget "jti" payload with
          | Some (JStr jti) =>
              if String.eqb jti "" then d
              else match dget "exp" payload with
                   | None => d
                   | Some e => match fromtimestamp e with
                               | Ok t => (revoke_token clock jti t d).1
                               | Raise _ => d
                               end
                   end
          | _ => d
          end
      end
  end.

Definition logout (clock : Z) (r : HttpRequest) (d : Database) :
    Database * Response :=
  let signout_url := "https://login.microsoftonline.com/" +:+ get_entra_tenant_id env
    +:+ "/oauth2/v2.0/logout?post_logout_redirect_uri=" +:+ quote (rstrip_slash (rq_base_url r)) in
  (revoke_session clock r d,
   mkResponse 200 (JDict [("status", JStr "logged_out"); ("signout_url", JStr signout_url)])
     None [DeleteCookie COOKIE_NAME]).
End routes.
