(* ===== verification/ApollosCrypto.v ===== *)
(** * Encryption of fields

    Models [apollosai/storage/encrypt_utils.py]: the derived key and its cache, and
    encryption of a text to base64 of the nonce and the AES-GCM ciphertext.  Texts and
    byte strings are byte sequences (a text is its UTF-8 encoding; the plaintext of an
    authenticated ciphertext is the encoding of a text).  The cipher and the derivation of
    keys are the parameter [AEAD]. *)

From S2P Require Import Prelude PyValue Base64 ApollosDb ApollosAuth.
Local Open Scope Z_scope.
Local Open Scope py_scope.

(** ** The key *)

(** The [cryptography] library: HKDF of a secret with a salt and an info text, SHA-256,
    and AES-GCM with a key, a nonce, a text and the additional data. *)
Class AEAD := {
  hkdf_derive : string → string → string → string;
  sha256 : string → string;
  aesgcm_encrypt : string → string → string → option string → string;
  aesgcm_decrypt : string → string → string → option string → result string;
}.

(** What the code relies on: a ciphertext decrypts under its key, nonce and additional
    data, and under no other additional data ([InvalidTag]). *)
Class AEADLaws `{AEAD} := {
  decrypt_encrypt : ∀ k n p a, aesgcm_decrypt k n (aesgcm_encrypt k n p a) a = Ok p;
  decrypt_other_data : ∀ k n p a b,
    a ≠ b → aesgcm_decrypt k n (aesgcm_encrypt k n p a) b = Raise (OtherError "InvalidTag" "");
}.

Section encryption.
Context `{AEAD}.

Definition get_deployment_salt (env : environ) : string :=
  sha256 (env_get "DATABASE_URL" "apollosai-default-deployment" env).

(** [_get_key]: the state is [_derived_key], which is derived once per process. *)
Definition get_key (env : environ) : pyM (option string) string :=
  λ derived, match derived with
  | Some k => (derived, Ok k)
  | None =>
      let master_secret := env_get "APOLLOSAI_ENCRYPTION_KEY" "" env in
      if String.eqb master_secret "" then
        (None, Raise (ValueError "APOLLOSAI_ENCRYPTION_KEY environment variable is required"))
      else
        let k := hkdf_derive master_secret (get_deployment_salt env) "apollosai-field-encryption" in
        (Some k, Ok k)
  end.

(** [aad.encode() if aad else None] *)
Definition aad_bytes (aad : option string) : option string :=
  match aad with Some "" => None | a => a end.

(** [nonce] is what [os.urandom(12)] gives. *)
Definition encrypt_value (env : environ) (nonce value : string) (aad : option string) :
    pyM (option string) string :=
  let* key := get_key env in
  pret (b64encode (nonce +:+ aesgcm_encrypt key nonce value (aad_bytes aad))).

Definition decrypt_value (env : environ) (value : string) (aad : option string) :
    pyM (option string) string :=
  let* key := get_key env in
  let* raw := plift (b64decode value) in
  let nonce := String.substring 0 12 raw in
  let ciphertext := String.substring 12 (String.length raw - 12) raw in
  plift (aesgcm_decrypt key nonce ciphertext (aad_bytes aad)).

Definition reset_key_cache : pyM (option string) unit := λ _, (None, Ok tt).

(** The key of a process, once derived, stays. *)
Lemma get_key_ok env c c' k : get_key env c = (c', Ok k) → c' = Some k ∧ ∀ env', get_key env' c' = (c', Ok k).
Proof. unfold get_key. destruct c; [by intros [= <- <-]|]. case_match; intros [= <- <-]; done. Qed.

(** What decryption makes of a value that [encrypt_value] produced. *)
Lemma decrypt_encrypted env env' nonce value aad aad' c c' t :
  String.length nonce = 12%nat →
  encrypt_value env nonce value aad c = (c', Ok t) →
  ∃ k, c' = Some k ∧ decrypt_value env' t aad' c'
    = (c', aesgcm_decrypt k nonce (aesgcm_encrypt k nonce value (aad_bytes aad)) (aad_bytes aad')).
Proof.
  intros Hn. unfold encrypt_value, pbind. destruct (get_key env c) as [c1 [k|]] eqn:Hk; [|done].
  intros [= <- <-]. apply get_key_ok in Hk as [-> Hk]. exists k. split; [done|].
  unfold decrypt_value, pbind. rewrite (Hk env'). cbn [plift].
  rewrite b64decode_encode. cbn [plift].
  rewrite <- Hn, substring0_app by done. by rewrite substring_rest.
Qed.
End encryption.
