(* ===== verification/ApollosOrgs.v ===== *)
(** * Organizations, teams, keys and tool servers of the ApollosAI server

    Models [apollosai/server/routes/orgs.py], [teams.py], [api_keys.py], [mcp.py] and
    [admin.py], with [storage/services/user_service.py] and [api_key_service.py].  A
    handler is given the authenticated user, its arguments and the database; the
    identifiers and the random texts it draws are arguments.  [serve] is one request with
    the dependencies that guard it and the exception handlers around it. *)

From S2P Require Import Prelude PyValue ApollosDb ApollosAuth.
Local Open Scope Z_scope.
Local Open Scope py_scope.

(** A check that may raise, before the rest of the handler. *)
Definition guard {A B} (check : Database → result B) (k : B → handler A) : handler A :=
  λ d, match check d with Ok b => k b d | Raise e => (d, Raise e) end.
Definition reply (r : Response) : handler Response := λ d, (d, Ok r).
Definition ok (content : json) : Response := JSONResponse 200 content.

(** [session.delete(row)] for the rows that satisfy the test; a field assignment on them. *)
Definition delete_rows {A} (f : A → bool) (l : list A) : list A := py_filter (λ x, negb (f x)) l.
Definition update_rows {A} (f : A → bool) (g : A → A) (l : list A) : list A :=
  (λ x, if f x then g x else x) <$> l.

Definition jopt (s : option string) : json := from_option JStr JNull s.

(** ** Request bodies *)

(** [min_length=1, max_length=100, pattern=r'^[a-zA-Z0-9\s\-_]+$'] *)
Definition name_char (c : ascii) : bool :=
  let n := Z.of_nat (Ascii.nat_of_ascii c) in
  is_ascii_letter c || (48 <=? n) && (n <=? 57) || (9 <=? n) && (n <=? 13) || (n =? 32)
  || Ascii.eqb c "-" || Ascii.eqb c "_".
Definition valid_name (s : string) : bool :=
  (1 <=? str_len s) && (str_len s <=? 100) && all_chars name_char s.
Definition valid_length (s : string) : bool := (1 <=? str_len s) && (str_len s <=? 100).
Definition org_roles : list string := ["owner"; "admin"; "manager"; "member"].
Definition team_roles : list string := ["admin"; "manager"; "member"].
Definition server_types : list string := ["stdio"; "sse"; "shttp"].
Definition one_of (l : list string) (s : string) : bool := existsb (String.eqb s) l.

(** ** Organizations *)

Definition OrgResponse (o : Organization) : json :=
  JDict [("id", JStr (og_id o)); ("name", JStr (og_name o))].
Definition OrgMemberResponse (u : uuid) (email : option string) (r : Role) : json :=
  JDict [("user_id", JStr u); ("email", jopt email); ("role_name", JStr (rl_name r));
         ("role_rank", JInt (rl_rank r))].

Definition set_og_name (n : string) (o : Organization) : Organization :=
  mkOrganization (og_id o) n (og_llm_model o) (og_llm_base_url o) (og_max_iterations o) (og_agent o).
Definition clear_current_org (u : User) : User :=
  mkUser (us_id u) (us_entra_oid u) (us_email u) (us_display_name u) None (us_current_team_id u).
Definition has_current_org (org : uuid) (u : User) : bool :=
  bool_decide (us_current_org_id u = Some org).

(** A role and the membership that has it, added to the session. *)
Definition join_org (org user : uuid) (role : string) (d : Database) : result (Database * Role) :=
  let? dr := ensure_role role d in
  Ok (set_members (db_members dr.1 ++ [mkOrgMembership org user (rl_id dr.2)]) dr.1, dr.2).

Definition create_org (id : uuid) (name : string) (user : AuthedUser) : handler Response :=
  λ d, let org := new_Organization id name in
       match join_org id (au_user_id user) "owner" (set_orgs (db_orgs d ++ [org]) d) with
       | Raise e => (d, Raise e)
       | Ok (d', _) => commit d d' (ok (OrgResponse org))
       end.

Definition list_orgs (user : AuthedUser) : handler Response :=
  λ d, let rows := db_orgs d ≫= λ o,
         (λ _, o) <$> py_filter (λ m, String.eqb (om_org m) (og_id o)
                                      && String.eqb (om_user m) (au_user_id user)) (db_members d) in
       (d, Ok (ok (JList (OrgResponse <$> rows)))).

Definition update_org (org_id : uuid) (name : option string) (user : AuthedUser) : handler Response :=
  λ d, match get_org d org_id with
       | None => (d, Ok (error_response 404 "Organization not found"))
       | Some org =>
           let org' := match name with Some n => set_og_name n org | None => org end in
           commit d (set_orgs (update_rows (λ o, String.eqb (og_id o) org_id) (λ _, org') (db_orgs d)) d)
             (ok (OrgResponse org'))
       end.

Definition delete_org (org_id : uuid) (user : AuthedUser) : handler Response :=
  λ d, match get_org d org_id with
       | None => (d, Ok (error_response 404 "Organization not found"))
       | Some org =>
           let d1 := set_members (delete_rows (λ m, String.eqb (om_org m) org_id) (db_members d)) d in
           let d2 := set_users (update_rows (has_current_org org_id) clear_current_org (db_users d1)) d1 in
           let d3 := set_orgs (delete_rows (λ o, String.eqb (og_id o) org_id) (db_orgs d2)) d2 in
           commit d d3 (ok (JDict [("status", JStr "deleted")]))
       end.

Definition membership_rows (d : Database) (org user : uuid) : list OrgMembership :=
  py_filter (λ m, String.eqb (om_org m) org && String.eqb (om_user m) user) (db_members d).

Definition add_member (org_id target : uuid) (role : string) (user : AuthedUser) : handler Response :=
  λ d, match get_user d target with
       | None => (d, Ok (error_response 404 "User not found"))
       | Some target_user =>
           match one_or_none (membership_rows d org_id target) with
           | Raise e => (d, Raise e)
           | Ok (Some _) => (d, Ok (error_response 409 "User already a member"))
           | Ok None =>
               match join_org org_id target role d with
               | Raise e => (d, Raise e)
               | Ok (d', r) => commit d d' (ok (OrgMemberResponse target (us_email target_user) r))
               end
           end
       end.

Definition list_members (org_id : uuid) (user : AuthedUser) : handler Response :=
  λ d, let rows := member_roles d org_id ≫= λ mr,
         (λ u, (mr, u)) <$> py_filter (λ u, String.eqb (us_id u) (om_user mr.1)) (db_users d) in
       (d, Ok (ok (JList ((λ row, OrgMemberResponse (om_user row.1.1) (us_email row.2) row.1.2) <$> rows)))).

(** The owners of an organization. *)
Definition owners (d : Database) (org : uuid) : list OrgMembership :=
  (py_filter (λ mr, String.eqb (rl_name mr.2) "owner") (member_roles d org)).*1.

Definition remove_member (org_id member_id : uuid) (user : AuthedUser) : handler Response :=
  λ d, match one_or_none (membership_rows d org_id member_id) with
       | Raise e => (d, Raise e)
       | Ok None => (d, Ok (error_response 404 "Membership not found"))
       | Ok (Some m) =>
           let is_owner := match get_role d (om_role m) with
                           | Some r => String.eqb (rl_name r) "owner"
                           | None => false
                           end in
           if is_owner && (py_len (owners d org_id) <=? 1) then
             (d, Raise (PermissionDeniedError "Cannot remove the last owner from an organization"))
           else
             commit d (set_members (delete_rows (λ x, String.eqb (om_org x) org_id
                                                      && String.eqb (om_user x) member_id)
                                      (db_members d)) d)
               (ok (JDict [("status", JStr "removed")]))
       end.

(** ** Teams *)

Definition check_org_role (user_id org_id : uuid) (min_role : string) (d : Database) : result unit :=
  let min_rank := role_rank min_role in
  let? row := one_or_none (memberships_of d org_id user_id) in
  match row with
  | None => Raise (PermissionDeniedError "Not a member of this organization")
  | Some (_, role) =>
      if min_rank <? rl_rank role then
        Raise (PermissionDeniedError ("Requires " +:+ min_role +:+ " role (rank " +:+ pretty min_rank
          +:+ "), you have " +:+ rl_name role +:+ " (rank " +:+ pretty (rl_rank role) +:+ ")"))
      else Ok tt
  end.

Definition TeamResponse (t : Team) : json :=
  JDict [("id", JStr (te_id t)); ("name", JStr (te_name t)); ("org_id", JStr (te_org t))].
Definition set_te_name (n : string) (t : Team) : Team :=
  mkTeam (te_id t) (te_org t) n (te_llm_model t) (te_llm_base_url t) (te_max_iterations t).
Definition clear_current_team (u : User) : User :=
  mkUser (us_id u) (us_entra_oid u) (us_email u) (us_display_name u) (us_current_org_id u) None.
Definition has_current_team (team : uuid) (u : User) : bool :=
  bool_decide (us_current_team_id u = Some team).

Definition create_team (id org_id : uuid) (name : string) (user : AuthedUser) : handler Response :=
  guard (check_org_role (au_user_id user) org_id "admin") (λ _ d,
    let team := mkTeam id org_id name None None None in
    commit d (set_teams (db_teams d ++ [team]) d) (ok (TeamResponse team))).

Definition list_teams (org_id : uuid) (user : AuthedUser) : handler Response :=
  λ d, (d, Ok (ok (JList (TeamResponse <$> py_filter (λ t, String.eqb (te_org t) org_id) (db_teams d))))).

(** The team of a route whose path has no organization, and the user's role in its
    organization. *)
Definition with_team (team_id : uuid) (min_role : string) (user : AuthedUser)
    (k : Team → handler Response) : handler Response :=
  λ d, match get_team d team_id with
       | None => (d, Ok (error_response 404 "Team not found"))
       | Some team => guard (check_org_role (au_user_id user) (te_org team) min_role) (λ _, k team) d
       end.

Definition update_team (team_id : uuid) (name : option string) (user : AuthedUser) : handler Response :=
  with_team team_id "admin" user (λ team d,
    let team' := match name with Some n => set_te_name n team | None => team end in
    commit d (set_teams (update_rows (λ t, String.eqb (te_id t) team_id) (λ _, team') (db_teams d)) d)
      (ok (TeamResponse team'))).

Definition delete_team (team_id : uuid) (user : AuthedUser) : handler Response :=
  with_team team_id "admin" user (λ team d,
    let d1 := set_team_members (delete_rows (λ m, String.eqb (tm_team m) team_id) (db_team_members d)) d in
    let d2 := set_users (update_rows (has_current_team team_id) clear_current_team (db_users d1)) d1 in
    let d3 := set_teams (delete_rows (λ t, String.eqb (te_id t) team_id) (db_teams d2)) d2 in
    commit d d3 (ok (JDict [("status", JStr "deleted")]))).

Definition team_membership_rows (d : Database) (team user : uuid) : list TeamMembership :=
  py_filter (λ m, String.eqb (tm_team m) team && String.eqb (tm_user m) user) (db_team_members d).

Definition add_team_member (team_id target : uuid) (role : string) (user : AuthedUser) :
    handler Response :=
  with_team team_id "manager" user (λ team d,
    match get_user d target with
    | None => (d, Ok (error_response 404 "User not found"))
    | Some _ =>
        match one_or_none (team_membership_rows d team_id target) with
        | Raise e => (d, Raise e)
        | Ok (Some _) => (d, Ok (error_response 409 "User already a team member"))
        | Ok None =>
            match ensure_role role d with
            | Raise e => (d, Raise e)
            | Ok (d1, r) =>
                commit d (set_team_members (db_team_members d1
                            ++ [mkTeamMembership team_id target (rl_id r) None None]) d1)
                  (ok (JDict [("user_id", JStr target); ("role", JStr (rl_name r))]))
            end
        end
    end).

Definition list_team_members (team_id : uuid) (user : AuthedUser) : handler Response :=
  with_team team_id "member" user (λ team d,
    let rows := py_filter (λ m, String.eqb (tm_team m) team_id) (db_team_members d) ≫= λ m,
      py_filter (λ r, rl_id r =? tm_role m) (db_roles d) ≫= λ r,
      (λ u, OrgMemberResponse (tm_user m) (us_email u) r)
        <$> py_filter (λ u, String.eqb (us_id u) (tm_user m)) (db_users d) in
    (d, Ok (ok (JList rows)))).

(** ** API keys *)

(** [hmac.new(key, msg, 'sha256').hexdigest()] *)
Class HMAC := hmac_sha256 : string → string → string.

Definition KEY_PREFIX : string := "sk-aai-".
Definition PREFIX_LEN : Z := 8.

Section keys.
Context `{HMAC}.

(** [id], [token] and [salt] are the fresh identifier and the random texts. *)
Definition create_api_key (id token salt user_id org_id name : string) : handler (string * ApiKey) :=
  λ d, let raw_key := KEY_PREFIX +:+ token in
       let record := mkApiKey id user_id org_id name (KEY_PREFIX +:+ str_take PREFIX_LEN token)
                       (hmac_sha256 salt raw_key) salt true in
       commit d (set_keys (db_keys d ++ [record]) d) (raw_key, record).

Definition verify_api_key (raw_key : string) (d : Database) : option ApiKey :=
  if negb (startswith raw_key KEY_PREFIX) then None
  else
    let token_part := String.substring 7 (String.length raw_key - 7) raw_key in
    let prefix := KEY_PREFIX +:+ str_take PREFIX_LEN token_part in
    let candidates := py_filter (λ k, String.eqb (ak_prefix k) prefix && ak_is_active k) (db_keys d) in
    py_find (λ k, String.eqb (hmac_sha256 (ak_salt k) raw_key) (ak_key_hash k)) candidates.

Definition list_api_keys (user_id org_id : uuid) (d : Database) : list ApiKey :=
  py_filter (λ k, String.eqb (ak_user k) user_id && String.eqb (ak_org k) org_id && ak_is_active k)
    (db_keys d).

Definition deactivate (k : ApiKey) : ApiKey :=
  mkApiKey (ak_id k) (ak_user k) (ak_org k) (ak_name k) (ak_prefix k) (ak_key_hash k) (ak_salt k) false.

Definition PermissionError (msg : string) : py_exc := OtherError "PermissionError" msg.

Definition revoke_api_key (key_id user_id : uuid) : handler unit :=
  λ d, match py_find (λ k, String.eqb (ak_id k) key_id) (db_keys d) with
       | None => (d, Raise (ValueError ("API key " +:+ key_id +:+ " not found")))
       | Some k =>
           if negb (String.eqb (ak_user k) user_id)
           then (d, Raise (PermissionError "Cannot revoke another user's API key"))
           else commit d (set_keys (update_rows (λ x, String.eqb (ak_id x) key_id) deactivate
                                      (db_keys d)) d) tt
       end.

Definition create_key (id token salt org_id name : string) (user : AuthedUser) : handler Response :=
  λ d, match create_api_key id token salt (au_user_id user) org_id name d with
       | (d', Ok (raw, k)) =>
           (d', Ok (ok (JDict [("key", JStr raw); ("id", JStr (ak_id k)); ("name", JStr (ak_name k));
                               ("prefix", JStr (ak_prefix k))])))
       | (d', Raise e) => (d', Raise e)
       end.

(** [created_at] is the text of the row's time, which the model of the row leaves out. *)
Definition ApiKeyResponse (created_at : ApiKey → json) (k : ApiKey) : json :=
  JDict [("id", JStr (ak_id k)); ("name", JStr (ak_name k)); ("prefix", JStr (ak_prefix k));
         ("created_at", created_at k)].
Definition list_keys (created_at : ApiKey → json) (org_id : uuid) (user : AuthedUser) :
    handler Response :=
  λ d, (d, Ok (ok (JList (ApiKeyResponse created_at <$> list_api_keys (au_user_id user) org_id d)))).

Definition delete_key (key_id : uuid) (user : AuthedUser) : handler Response :=
  λ d, match revoke_api_key key_id (au_user_id user) d with
       | (d', Ok _) => (d', Ok (ok (JDict [("status", JStr "revoked")])))
       | (d', Raise (ValueError _)) => (d', Ok (error_response 404 "Key not found"))
       | (d', Raise (OtherError "PermissionError" _)) =>
           (d', Ok (error_response 403 "Cannot revoke another user's key"))
       | (d', Raise e) => (d', Raise e)
       end.
End keys.

(** ** The audit log *)

(** Rows by decreasing time ([order_by(created_at.desc())]), equal times in any order: the
    table's. *)
Fixpoint insert_audit (a : AuditLog) (l : list AuditLog) : list AuditLog :=
  match l with
  | [] => [a]
  | b :: l => if al_created_at b <? al_created_at a then a :: b :: l else b :: insert_audit a l
  end.
Definition newest_first (l : list AuditLog) : list AuditLog := foldl (λ acc a, insert_audit a acc) [] l.

Definition AuditLogResponse (a : AuditLog) : json :=
  JDict [("id", JStr (al_id a)); ("actor_id", jopt (al_actor a)); ("action", JStr (al_action a));
         ("resource_type", JStr (al_resource_type a)); ("resource_id", JStr (al_resource_id a));
         ("details", from_option JDict JNull (al_details a)); ("ip_address", jopt (al_ip_address a));
         ("created_at", JInt (al_created_at a))].
(** [record_audit] (in [monitoring/audit.py]): the row is flushed to the database. *)
Definition record_audit (id actor_id org_id action resource_type resource_id : string)
    (details : option dict) (ip_address : option string) (now : Z) : handler AuditLog :=
  λ d, let log := mkAuditLog id (Some actor_id) org_id action resource_type resource_id details
                    ip_address now in
       commit d (set_audit (db_audit d ++ [log]) d) log.

(** An empty action is no filter. *)
Definition audit_filter (org_id : uuid) (action : option string) (actor_id : option uuid)
    (a : AuditLog) : bool :=
  String.eqb (al_org a) org_id
  && match action with Some s => String.eqb s "" || String.eqb (al_action a) s | None => true end
  && match actor_id with Some u => bool_decide (al_actor a = Some u) | None => true end.

Definition list_audit_logs (org_id : uuid) (limit offset : Z) (action : option string)
    (actor_id : option uuid) (user : AuthedUser) : handler Response :=
  λ d, let rows := py_filter (audit_filter org_id action actor_id) (db_audit d) in
       let logs := take (Z.to_nat limit) (drop (Z.to_nat offset) (newest_first rows)) in
       (d, Ok (ok (JDict [("items", JList (AuditLogResponse <$> logs)); ("total", JInt (py_len rows));
                          ("limit", JInt limit); ("offset", JInt offset)]))).

(** ** Logging in *)

Definition set_profile (email : string) (display_name : option string) (u : User) : User :=
  mkUser (us_id u) (us_entra_oid u) (Some email)
    (match display_name with Some n => if String.eqb n "" then us_display_name u else Some n
                           | None => us_display_name u end)
    (us_current_org_id u) (us_current_team_id u).

(** [org_id], [user_id] and [suffix] are drawn ([uuid4().hex[:8]]). *)
Definition upsert_user_on_login (org_id user_id suffix entra_oid email : string)
    (display_name : option string) : handler User :=
  λ d, match one_or_none (py_filter (λ u, String.eqb (us_entra_oid u) entra_oid) (db_users d)) with
       | Raise e => (d, Raise e)
       | Ok (Some u) =>
           let u' := set_profile email display_name u in
           commit d (set_users (update_rows (λ x, String.eqb (us_id x) (us_id u)) (λ _, u')
                                  (db_users d)) d) u'
       | Ok None =>
           let d1 := set_orgs (db_orgs d
                       ++ [new_Organization org_id (email +:+ "-workspace-" +:+ suffix)]) d in
           let u := mkUser user_id entra_oid (Some email) display_name (Some org_id) None in
           match join_org org_id user_id "owner" (set_users (db_users d1 ++ [u]) d1) with
           | Raise e => (d, Raise e)
           | Ok (d', _) => commit d d' u
           end
       end.

(** ** Requests *)

Inductive Request :=
  | CreateOrg (id : uuid) (name : string)
  | ListOrgs
  | UpdateOrg (org : uuid) (name : option string)
  | DeleteOrg (org : uuid)
  | AddMember (org target : uuid) (role : string)
  | ListMembers (org : uuid)
  | RemoveMember (org member : uuid)
  | CreateTeam (id org : uuid) (name : string)
  | ListTeams (org : uuid)
  | UpdateTeam (team : uuid) (name : option string)
  | DeleteTeam (team : uuid)
  | AddTeamMember (team target : uuid) (role : string)
  | ListTeamMembers (team : uuid)
  | CreateKey (org id token salt : string) (name : string)
  | ListKeys (org : uuid)
  | DeleteKey (org key : uuid)
  | ListAuditLogs (org : uuid) (limit offset : Z) (action : option string) (actor : option uuid).

(** What Pydantic checks of the body and of the query. *)
Definition valid_request (r : Request) : bool :=
  match r with
  | CreateOrg _ name | CreateTeam _ _ name => valid_name name
  | UpdateOrg _ name | UpdateTeam _ name => from_option valid_name true name
  | AddMember _ _ role => one_of org_roles role
  | AddTeamMember _ _ role => one_of team_roles role
  | CreateKey _ _ _ _ name => valid_length name
  | ListAuditLogs _ limit offset _ _ => (1 <=? limit) && (limit <=? 100) && (0 <=? offset)
  | _ => true
  end.

(** The body is checked after the dependencies and before the handler. *)
Definition validated (r : Request) (k : handler Response) : handler Response :=
  λ d, if valid_request r then k d else (d, Ok (JSONResponse 422 JNull)).

Section serve.
Context `{HMAC}.
Variable created_at : ApiKey → json.

(** The handler of a request, with its dependencies. *)
Definition route (user : AuthedUser) (r : Request) : handler Response :=
  let with_role min_role org (k : AuthedUser → handler Response) :=
    guard (require_role min_role org user) (λ u, validated r (k u)) in
  match r with
  | CreateOrg id name => validated r (create_org id name user)
  | ListOrgs => validated r (list_orgs user)
  | UpdateOrg org name => with_role "admin" org (update_org org name)
  | DeleteOrg org => with_role "owner" org (delete_org org)
  | AddMember org target role => with_role "admin" org (add_member org target role)
  | ListMembers org => with_role "member" org (list_members org)
  | RemoveMember org member => with_role "admin" org (remove_member org member)
  | CreateTeam id org name => validated r (create_team id org name user)
  | ListTeams org => with_role "member" org (list_teams org)
  | UpdateTeam team name => validated r (update_team team name user)
  | DeleteTeam team => validated r (delete_team team user)
  | AddTeamMember team target role => validated r (add_team_member team target role user)
  | ListTeamMembers team => validated r (list_team_members team user)
  | CreateKey org id token salt name => with_role "member" org (create_key id token salt org name)
  | ListKeys org => with_role "member" org (list_keys created_at org)
  | DeleteKey org key => with_role "member" org (delete_key key)
  | ListAuditLogs org limit offset action actor =>
      with_role "admin" org (list_audit_logs org limit offset action actor)
  end.

(** A request of an authenticated user and its response. *)
Definition serve (user : AuthedUser) (r : Request) (d : Database) : Database * Response :=
  match route user r d with
  | (d', Ok resp) => (d', resp)
  | (d', Raise e) => (d', exception_handler e)
  end.
End serve.
