(* ===== verification/ApollosIntegrations.v ===== *)
(** * Integrations of the ApollosAI server

    Models [apollosai/integrations/]: the payload sanitizer and the events ([models.py]),
    the validators, the replay cache and the webhook pipeline ([base.py]), the managers for
    GitHub, Jira, Slack, Bitbucket and Microsoft, the registry, and the webhook route of
    [server/routes/integrations.py].

    A manager is an instance of [IntegrationManager], as the managers are subclasses of
    [ApollosAIIntegrationManager].  Pydantic's [model_validate] of the views is a parameter
    ([Views]); bodies are UTF-8 texts; [json_loads] is the platform's. *)

From S2P Require Import Prelude PyValue Schema Actions Observations Events Serialization.
From S2P Require Import FileStore EventStore StrSearch ApollosDb ApollosAuth ApollosOrgs.
Local Open Scope Z_scope.
Local Open Scope py_scope.

(** ** Payloads *)

Definition SENSITIVE_KEYS : list string :=
  ["token"; "secret"; "password"; "authorization"; "api_key"; "access_token"; "refresh_token";
   "client_secret"].
Definition sensitive (k : string) : bool := existsb (String.eqb (str_lower k)) SENSITIVE_KEYS.
Definition REDACTED : json := JStr "[REDACTED]".

(** [sanitize_payload] on the dictionary [j]; other values are left as they are. *)
Fixpoint sanitize (j : json) : json :=
  match j with
  | JDict d =>
      JDict ((fix go (d : dict) : dict :=
                match d with
                | [] => []
                | (k, v) :: d =>
                    (k, if sensitive k then REDACTED
                        else match v with
                             | JDict _ => sanitize v
                             | JList l =>
                                 JList ((fix items (l : list json) : list json :=
                                           match l with
                                           | [] => []
                                           | x :: l => (match x with JDict _ => sanitize x | _ => x end)
                                                         :: items l
                                           end) l)
                             | v => v
                             end) :: go d
                end) d)
  | j => j
  end.
Definition sanitize_payload (d : dict) : dict :=
  match sanitize (JDict d) with JDict d => d | _ => [] end.

Inductive IntegrationType := IT_GITHUB | IT_JIRA | IT_SLACK | IT_BITBUCKET | IT_MICROSOFT | IT_OPENHANDS.
#[export] Instance IntegrationType_eq_dec : EqDecision IntegrationType.
Proof. solve_decision. Defined.
Definition integration_value (t : IntegrationType) : string :=
  match t with
  | IT_GITHUB => "github" | IT_JIRA => "jira" | IT_SLACK => "slack" | IT_BITBUCKET => "bitbucket"
  | IT_MICROSOFT => "microsoft" | IT_OPENHANDS => "openhands"
  end.
Definition integration_of_string (s : string) : option IntegrationType :=
  py_find (λ t, String.eqb (integration_value t) s)
    [IT_GITHUB; IT_JIRA; IT_SLACK; IT_BITBUCKET; IT_MICROSOFT; IT_OPENHANDS].

Record IntegrationEvent := mkIntegrationEvent {
  ie_source : IntegrationType;
  ie_event_type : string;
  ie_external_id : string;
  ie_external_url : option string;
  ie_title : option string;
  ie_body : option string;
  ie_repo_url : option string;
  ie_user_email : option string;
  ie_raw_payload : option dict;
}.
(** The constructor runs the validator. *)
Definition new_event source event_type external_id external_url title body repo_url user_email
    (raw : option dict) : IntegrationEvent :=
  mkIntegrationEvent source event_type external_id external_url title body repo_url user_email
    (sanitize_payload <$> raw).

Record ConversationContext := mkConversationContext {
  cx_title : string;
  cx_initial_message : string;
  cx_repo_url : option string;
  cx_metadata : dict;
}.
Record OAuthConfig := mkOAuthConfig {
  oa_authorize_url : string;
  oa_token_url : string;
  oa_client_id : string;
  oa_scopes : list string;
}.

(** [s or default]; a field or its default. *)
Definition or_text (s : option string) (default : string) : string :=
  match s with None | Some "" => default | Some s => s end.
Definition jopt_text (s : option string) : json := from_option JStr JNull s.

(** ** Validators *)

Definition is_slug_char (c : ascii) : bool :=
  let n := Z.of_nat (Ascii.nat_of_ascii c) in
  is_ascii_letter c || (48 <=? n) && (n <=? 57) || existsb (Ascii.eqb c) ["."; "_"; "-"]%char.
Definition is_slug (s : string) : bool := negb (String.eqb s "") && all_chars is_slug_char s.
(** [$] in [re.match] also matches before a final newline. *)
Definition chomp (s : string) : string := removesuffix s nl.

Definition validate_slug (slug : string) : result string :=
  if is_slug slug || is_slug (chomp slug) then Ok slug
  else Raise (ValueError ("Invalid slug: " +:+ slug)).
Definition is_repo_path (s : string) : bool :=
  match str_split "/" s with [a; b] => is_slug a && is_slug b | _ => false end.
Definition validate_repo_path (repo : string) : result string :=
  if is_repo_path repo || is_repo_path (chomp repo) then Ok repo
  else Raise (ValueError ("Invalid repository path: " +:+ repo)).

(** [[A-Z][A-Z0-9_]+-\d+]; digits are ASCII's. *)
Definition is_upper (c : ascii) : bool :=
  let n := Z.of_nat (Ascii.nat_of_ascii c) in (65 <=? n) && (n <=? 90).
Definition is_num (c : ascii) : bool :=
  let n := Z.of_nat (Ascii.nat_of_ascii c) in (48 <=? n) && (n <=? 57).
Definition is_key_char (c : ascii) : bool := is_upper c || is_num c || Ascii.eqb c "_".
Definition is_jira_key (s : string) : bool :=
  match str_split "-" s with
  | [String c p; n] => is_upper c && negb (String.eqb p "") && all_chars is_key_char p
                       && negb (String.eqb n "") && all_chars is_num n
  | _ => false
  end.
Definition validate_jira_key (key : string) : result string :=
  if is_jira_key key || is_jira_key (chomp key) then Ok key
  else Raise (ValueError ("Invalid Jira issue key: " +:+ key)).

(** ** Managers *)

Record WebhookRequest := mkWebhookRequest {
  wr_headers : list (string * string);
  wr_body : string;
  wr_query : list (string * string);
  wr_form : result dict;
}.
Definition header (k : string) (r : WebhookRequest) : option string := dget k (wr_headers r).

Definition MAX_SEEN : Z := 10000.

(** [_check_replay]: the cache is the identifiers in order of insertion. *)
Fixpoint evict (fuel : nat) (seen : list string) : list string :=
  match fuel with
  | O => seen
  | S fuel => if MAX_SEEN <? py_len seen then evict fuel (tail seen) else seen
  end.
Definition check_replay (external_id : string) (seen : list string) : list string * bool :=
  if existsb (String.eqb external_id) seen then (seen, true)
  else let seen := seen ++ [external_id] in (evict (length seen) seen, false).

(** What a subclass gives: the signature check, the parser and the context.  [now] is the
    time; the configuration is the manager's fields. *)
Class IntegrationManager (M : Type) := {
  source_type : IntegrationType;
  default_manager : M;
  validate_webhook : environ → float → M → WebhookRequest → result bool;
  parse_event : M → json → result (option IntegrationEvent);
  build_context : IntegrationEvent → ConversationContext;
}.

(** [handle_webhook] after the signature and the body: parse, replay, context. *)
Definition status (s : string) : Response := ok (JDict [("status", JStr s)]).
Definition process_event {M} `{IntegrationManager M} (m : M) (body : json) (seen : list string) :
    list string * result Response :=
  match parse_event m body with
  | Raise e => (seen, Raise e)
  | Ok None => (seen, Ok (status "skipped"))
  | Ok (Some event) =>
      let '(seen, replay) := check_replay (ie_external_id event) seen in
      if replay : bool then (seen, Ok (status "duplicate"))
      else (seen, Ok (ok (JDict [("status", JStr "processed");
                                 ("title", JStr (cx_title (build_context event)))])))
  end.

Section pipeline.
Context `{Platform} {M : Type} `{IntegrationManager M}.
Variables (env : environ) (now : float).

(** The body by its content type; [None]: the type is not supported. *)
Definition read_body (r : WebhookRequest) : option (result json) :=
  let content_type := from_option id "" (header "content-type" r) in
  if str_contains "application/json" content_type then Some (json_loads (wr_body r))
  else if str_contains "application/x-www-form-urlencoded" content_type
  then Some (let? d := wr_form r in Ok (JDict d))
  else None.

(** [ApollosAIIntegrationManager.handle_webhook] *)
Definition base_handle_webhook (m : M) (r : WebhookRequest) (seen : list string) :
    list string * result Response :=
  match validate_webhook env now m r with
  | Raise e => (seen, Raise e)
  | Ok false => (seen, Ok (error_response 401 "invalid_signature"))
  | Ok true =>
      match read_body r with
      | None => (seen, Ok (error_response 400 "unsupported_content_type"))
      | Some (Raise _) => (seen, Ok (error_response 400 "invalid_payload"))
      | Some (Ok body) => process_event m body seen
      end
  end.
End pipeline.

(** ** Signatures *)

(** [hmac.compare_digest] of texts: both must be ASCII. *)
Definition is_ascii (s : string) : bool := all_chars (λ c, (Ascii.nat_of_ascii c <? 128)%nat) s.
Definition compare_digest (a b : string) : result bool :=
  if is_ascii a && is_ascii b then Ok (String.eqb a b)
  else Raise (TypeError "comparing strings with non-ASCII characters is not supported").

(** Without a secret: only where the environment allows it. *)
Definition allow_unsigned (env : environ) : bool := env_truthy "APOLLOSAI_ALLOW_UNSIGNED_WEBHOOKS" env.
(** A header that is missing or empty is refused. *)
Definition with_header (k : string) (r : WebhookRequest) (f : string → result bool) : result bool :=
  match header k r with None | Some "" => Ok false | Some v => f v end.

Definition signed_body `{HMAC} (secret prefix header_name : string) (r : WebhookRequest) : result bool :=
  with_header header_name r (λ s, compare_digest s (prefix +:+ hmac_sha256 secret (wr_body r))).

(** ** GitHub *)

Record GitHubUser := mkGitHubUser { gu_login : option string; gu_email : option string }.
Record GitHubRepo := mkGitHubRepo { gr_full_name : option string; gr_html_url : option string;
                                    gr_clone_url : option string }.
(** [GitHubIssue] and [GitHubPullRequest] have the same fields. *)
Record GitHubIssue := mkGitHubIssue {
  gi_number : option Z;
  gi_title : option string;
  gi_body : option string;
  gi_html_url : option string;
}.
Record GitHubComment := mkGitHubComment { gc_body : option string; gc_html_url : option string }.
Record GitHubWebhookPayload := mkGitHubWebhookPayload {
  gp_action : option string;
  gp_issue : option GitHubIssue;
  gp_comment : option GitHubComment;
  gp_pull_request : option GitHubIssue;
  gp_repository : option GitHubRepo;
  gp_sender : option GitHubUser;
  gp_label : option (option string);
  gp_review : option GitHubComment;
}.

(** *** Jira *)

Record JiraUser := mkJiraUser { ju_account_id : option string; ju_email_address : option string;
                                ju_display_name : option string }.
Record JiraIssue := mkJiraIssue {
  ji_key : string;
  ji_summary : option string;
  ji_description : option string;
  ji_labels : list json;
}.
(** A comment's body is a text or a document. *)
Record JiraComment := mkJiraComment { jc_body : option (string + dict); jc_author : option JiraUser }.
Record JiraWebhookPayload := mkJiraWebhookPayload {
  jp_issue : option JiraIssue;
  jp_comment : option JiraComment;
  jp_user : option JiraUser;
  jp_changelog : option (list dict);
}.

(** *** Slack *)

Record SlackEvent := mkSlackEvent {
  sl_type : option string;
  sl_channel : json;
  sl_text : option string;
  sl_ts : option string;
  sl_channel_type : option string;
  sl_bot_id : option string;
}.
Record SlackEventPayload := mkSlackEventPayload { sp_type : option string; sp_event : option SlackEvent }.

(** *** Bitbucket *)

Record BitbucketItem := mkBitbucketItem { bi_id : option Z; bi_title : option string;
                                          bi_links : option dict }.
Record BitbucketWebhookPayload := mkBitbucketWebhookPayload {
  bp_pullrequest : option BitbucketItem;
  bp_issue : option BitbucketItem;
  bp_comment : option (option dict);
  bp_repository_links : option (option dict);
  bp_actor_nickname : option (option string);
}.

(** *** Microsoft *)

Record GraphNotification := mkGraphNotification {
  gn_change_type : option string;
  gn_resource : option string;
  gn_resource_data : option dict;
}.

(** [model_validate] of the views. *)
Class Views := {
  github_view : json → result GitHubWebhookPayload;
  jira_view : json → result JiraWebhookPayload;
  slack_view : json → result SlackEventPayload;
  bitbucket_view : json → result BitbucketWebhookPayload;
  graph_view : json → result (list GraphNotification);
}.

(** [str(x)] of an optional number. *)
Definition str_opt_int (n : option Z) : string := from_option pretty "None" n.
Definition mentions (s : string) : bool := str_contains "@openhands" (str_lower s).
(** The payload as a dictionary, once the view was built. *)
Definition payload_dict (j : json) : option dict := match j with JDict d => Some d | _ => None end.

Section managers.
Context `{Platform} `{HMAC} `{Views}.

(** ** The GitHub manager *)

Record GitHubManager := mkGitHubManager { gm_webhook_secret : option string; gm_api_token : option string }.

Definition github_validate (env : environ) (now : float) (m : GitHubManager) (r : WebhookRequest) :
    result bool :=
  match gm_webhook_secret m with
  | None => Ok (allow_unsigned env)
  | Some secret => signed_body secret "sha256=" "x-hub-signature-256" r
  end.

(** The comment, or else the review. *)
Definition review_comment (p : GitHubWebhookPayload) : option GitHubComment :=
  match gp_comment p with Some c => Some c | None => gp_review p end.

Definition github_event (p : GitHubWebhookPayload) (raw : option dict) (event_type : string)
    (issue : GitHubIssue) (url body : option string) : IntegrationEvent :=
  new_event IT_GITHUB event_type (str_opt_int (gi_number issue)) url (gi_title issue) body
    (gp_repository p ≫= gr_html_url) (gp_sender p ≫= gu_email) raw.

(** A review comment on a pull request. *)
Definition github_pr (p : GitHubWebhookPayload) (raw : option dict) (action : string) :
    option IntegrationEvent :=
  match gp_pull_request p with
  | Some pr =>
      if existsb (String.eqb action) ["submitted"; "created"] then
        let comment := review_comment p in
        let body := from_option id "" (comment ≫= gc_body) in
        if negb (String.eqb body "") && mentions body
        then Some (github_event p raw "pr_review_comment" pr (comment ≫= gc_html_url) (Some body))
        else None
      else None
  | None => None
  end.

Definition github_typed_event (p : GitHubWebhookPayload) (raw : option dict) : option IntegrationEvent :=
  let action := from_option id "" (gp_action p) in
  match gp_issue p, gp_comment p with
  | Some issue, comment =>
      if String.eqb action "labeled" then
        let label := from_option (from_option id "") "" (gp_label p) in
        if existsb (String.eqb (str_lower label)) ["openhands"; "apollosai"]
        then Some (github_event p raw "issue_labeled" issue (gi_html_url issue) (gi_body issue))
        else None
      else
        match comment with
        | Some c =>
            if String.eqb action "created" then
              let body := from_option id "" (gc_body c) in
              if mentions body
              then Some (github_event p raw "issue_comment" issue (gc_html_url c) (Some body))
              else None
            else github_pr p raw action
        | None => github_pr p raw action
        end
  | None, _ => github_pr p raw action
  end.

(** [GitHubIntegrationManager.parse_event] *)
Definition github_parse (m : GitHubManager) (payload : json) : result (option IntegrationEvent) :=
  let? typed := github_view payload in
  Ok (github_typed_event typed (payload_dict payload)).

(** The contexts of GitHub and Bitbucket have the repository; the metadata of Slack and
    Microsoft has no URL. *)
Definition context_metadata (source : string) (url : bool) (e : IntegrationEvent) : dict :=
  [("source", JStr source); ("event_type", JStr (ie_event_type e));
   ("external_id", JStr (ie_external_id e))]
  ++ (if url then [("external_url", jopt_text (ie_external_url e))] else []).
Definition event_context (default source : string) (repo url : bool) (e : IntegrationEvent) :
    ConversationContext :=
  let title := or_text (ie_title e) default in
  mkConversationContext title (or_text (ie_body e) title)
    (if repo then ie_repo_url e else None) (context_metadata source url e).

Definition github_context (e : IntegrationEvent) : ConversationContext :=
  event_context ("GitHub " +:+ ie_event_type e +:+ " #" +:+ ie_external_id e) "github" true true e.

#[export] Instance github_manager : IntegrationManager GitHubManager := {|
  source_type := IT_GITHUB;
  default_manager := mkGitHubManager None None;
  validate_webhook := github_validate;
  parse_event := github_parse;
  build_context := github_context;
|}.

(** What [post_response] sends: the service's call, when there is one. *)
Definition rsplit_last (c : ascii) (s : string) : option (string * string) :=
  match reverse (str_split c s) with
  | l :: ((_ :: _) as rest) => Some (str_join (String c "") (reverse rest), l)
  | _ => None
  end.
Definition github_post_response (m : GitHubManager) (conversation_id message : string) :
    result (option (string * Z * string)) :=
  match gm_api_token m with
  | None | Some "" => Ok None
  | Some _ =>
      match rsplit_last "#" conversation_id with
      | None => Ok None
      | Some (repo, number) =>
          match py_int number with
          | Some n => Ok (Some (repo, n, message))
          | None => Raise (ValueError "invalid literal for int() with base 10")
          end
      end
  end.

(** ** The Jira manager *)

Record JiraManager := mkJiraManager {
  jm_webhook_secret : option string;
  jm_base_url : option string;
  jm_email : option string;
  jm_api_token : option string;
}.
Definition TRIGGER_LABEL : string := "openhands".

Definition jira_validate (env : environ) (now : float) (m : JiraManager) (r : WebhookRequest) :
    result bool :=
  match jm_webhook_secret m with
  | None => Ok (allow_unsigned env)
  | Some secret => with_header "x-atlassian-webhook-identifier" r (λ t, compare_digest t secret)
  end.

(** [_extract_adf_text]: the texts are joined after the children were visited. *)
Fixpoint extract_adf_text (adf : json) : result string :=
  match adf with
  | JDict d =>
      let? rest :=
        ((fix find (e : dict) : result string :=
            match e with
            | [] => Ok ""
            | (k, v) :: e =>
                if String.eqb k "content" then
                  match v with
                  | JList l =>
                      (fix children (l : list json) : result string :=
                         match l with
                         | [] => Ok ""
                         | x :: l => let? a := extract_adf_text x in
                                     let? b := children l in Ok (a +:+ b)
                         end) l
                  | JStr "" | JDict [] => Ok ""
                  | JStr _ | JDict _ => Raise (OtherError "AttributeError" "get")
                  | _ => Raise (TypeError "object is not iterable")
                  end
                else find e
            end) d) in
      let? own :=
        (if py_eqb (from_option id JNull (dget "type" d)) (JStr "text")
         then match dget "text" d with
              | None => Ok ""
              | Some (JStr s) => Ok s
              | Some _ => Raise (TypeError "sequence item 0: expected str instance")
              end
         else Ok "") in
      Ok (own +:+ rest)
  | _ => Raise (OtherError "AttributeError" "get")
  end.

(** The labels, as texts in lower case. *)
Fixpoint jira_labels (l : list json) : result (list string) :=
  match l with
  | [] => Ok []
  | x :: l =>
      let? s := match x with
                | JStr s => Ok s
                | JDict d => match dget "name" d with
                             | None => Ok ""
                             | Some (JStr s) => Ok s
                             | Some _ => Raise (OtherError "AttributeError" "lower")
                             end
                | _ => Raise (OtherError "AttributeError" "lower")
                end in
      let? r := jira_labels l in
      Ok (str_lower s :: r)
  end.

(** Whether the changes add the label: the first item that does decides. *)
Fixpoint label_added (items : list dict) : result bool :=
  match items with
  | [] => Ok false
  | i :: items =>
      if py_eqb (from_option id JNull (dget "field" i)) (JStr "labels") then
        match from_option id (JStr "") (dget "toString" i) with
        | JStr s => if str_contains TRIGGER_LABEL (str_lower s) then Ok true else label_added items
        | _ => Raise (OtherError "AttributeError" "lower")
        end
      else label_added items
  end.

Definition jira_event (m : JiraManager) (raw : option dict) (event_type : string) (issue : JiraIssue)
    (body : option string) (user : option JiraUser) : IntegrationEvent :=
  let url := match jm_base_url m with
             | None | Some "" => None
             | Some b => Some (b +:+ "/browse/" +:+ ji_key issue)
             end in
  new_event IT_JIRA event_type (ji_key issue) url (ji_summary issue) body None
    (user ≫= ju_email_address) raw.

Definition jira_comment_text (c : option JiraComment) : result string :=
  match c ≫= jc_body with
  | None => Ok ""
  | Some (inl s) => Ok s
  | Some (inr d) => extract_adf_text (JDict d)
  end.

(** [JiraIntegrationManager.parse_event] *)
Definition jira_parse (m : JiraManager) (payload : json) : result (option IntegrationEvent) :=
  let? typed := jira_view payload in
  match jp_issue typed, payload with
  | Some issue, JDict raw =>
      let webhook_event := from_option id (JStr "") (dget "webhookEvent" raw) in
      if py_eqb webhook_event (JStr "jira:issue_created") then
        let? labels := jira_labels (ji_labels issue) in
        Ok (if existsb (String.eqb TRIGGER_LABEL) labels
            then Some (jira_event m (Some raw) "issue_created" issue (ji_description issue) (jp_user typed))
            else None)
      else if py_eqb webhook_event (JStr "jira:issue_updated") then
        let? added := label_added (from_option id [] (jp_changelog typed)) in
        Ok (if added : bool
            then Some (jira_event m (Some raw) "issue_labeled" issue (ji_description issue) (jp_user typed))
            else None)
      else if py_eqb webhook_event (JStr "comment_created") then
        let? body := jira_comment_text (jp_comment typed) in
        Ok (if negb (String.eqb body "") && mentions body
            then Some (jira_event m (Some raw) "comment_created" issue (Some body)
                         (jp_comment typed ≫= jc_author))
            else None)
      else Ok None
  | _, _ => Ok None
  end.

Definition jira_context (e : IntegrationEvent) : ConversationContext :=
  event_context ("Jira " +:+ ie_event_type e +:+ " " +:+ ie_external_id e) "jira" false true e.

#[export] Instance jira_manager : IntegrationManager JiraManager := {|
  source_type := IT_JIRA;
  default_manager := mkJiraManager None None None None;
  validate_webhook := jira_validate;
  parse_event := jira_parse;
  build_context := jira_context;
|}.

Definition jira_post_response (m : JiraManager) (conversation_id message : string) :
    option (string * string) :=
  if existsb (λ x, String.eqb (from_option id "" x) "") [jm_base_url m; jm_email m; jm_api_token m]
  then None else Some (conversation_id, message).

(** ** The Slack manager *)

Record SlackManager := mkSlackManager { sm_signing_secret : option string; sm_bot_token : option string }.
Definition TIMESTAMP_MAX_AGE : Z := 300.

Definition fabs (x : float) : float :=
  match x with
  | S754_zero _ => S754_zero false
  | S754_infinity _ => S754_infinity false
  | S754_finite _ m e => S754_finite false m e
  | S754_nan => S754_nan
  end.
(** [abs(time.time() - ts) > TIMESTAMP_MAX_AGE]; the integer may be too large for a float. *)
Definition too_old (now : float) (ts : Z) : result bool :=
  match float_of_Z ts with
  | S754_infinity _ => Raise (OtherError "OverflowError" "int too large to convert to float")
  | t => Ok (fltb (float_of_Z TIMESTAMP_MAX_AGE) (fabs (fsub now t)))
  end.

Definition slack_validate (env : environ) (now : float) (m : SlackManager) (r : WebhookRequest) :
    result bool :=
  match sm_signing_secret m with
  | None => Ok (allow_unsigned env)
  | Some secret =>
      with_header "x-slack-request-timestamp" r (λ timestamp,
      with_header "x-slack-signature" r (λ signature,
        match py_int timestamp with
        | None => Ok false
        | Some ts =>
            let? old := too_old now ts in
            if old : bool then Ok false
            else compare_digest signature
                   ("v0=" +:+ hmac_sha256 secret ("v0:" +:+ timestamp +:+ ":" +:+ wr_body r))
        end))
  end.

(** The channel in the title: [event.channel or "unknown"]. *)
Definition channel_text (py_str : json → string) (c : json) : string :=
  if jtruthy c then match c with JStr s => s | c => py_str c end else "unknown".
Definition slack_typed_event (typed : SlackEventPayload) (raw : option dict) : option IntegrationEvent :=
  if negb (bool_decide (sp_type typed = Some "event_callback")) then None
  else match sp_event typed with
  | None => None
  | Some event =>
      let eid := from_option id "" (sl_ts event) in
      let body := Some (from_option id "" (sl_text event)) in
      if bool_decide (sl_type event = Some "app_mention") then
        Some (new_event IT_SLACK "app_mention" eid None
                (Some ("Slack mention in #" +:+ channel_text py_repr (sl_channel event))) body None None raw)
      else if bool_decide (sl_type event = Some "message") then
        if negb (bool_decide (sl_channel_type event = Some "im")) then None
        else if negb (String.eqb (from_option id "" (sl_bot_id event)) "") then None
        else Some (new_event IT_SLACK "direct_message" eid None (Some "Slack DM") body None None raw)
      else None
  end.
Definition slack_parse (m : SlackManager) (payload : json) : result (option IntegrationEvent) :=
  let? typed := slack_view payload in
  Ok (slack_typed_event typed (payload_dict payload)).

Definition slack_context (e : IntegrationEvent) : ConversationContext :=
  event_context ("Slack " +:+ ie_event_type e) "slack" false false e.

#[export] Instance slack_manager : IntegrationManager SlackManager := {|
  source_type := IT_SLACK;
  default_manager := mkSlackManager None None;
  validate_webhook := slack_validate;
  parse_event := slack_parse;
  build_context := slack_context;
|}.

(** [SlackIntegrationManager.handle_webhook]: the challenge is answered once the signature
    is verified. *)
Definition slack_handle_webhook (env : environ) (now : float) (m : SlackManager) (r : WebhookRequest)
    (seen : list string) : list string * result Response :=
  match slack_validate env now m r with
  | Raise e => (seen, Raise e)
  | Ok false => (seen, Ok (error_response 401 "invalid_signature"))
  | Ok true =>
      if str_contains "application/json" (from_option id "" (header "content-type" r)) then
        match json_loads (wr_body r) with
        | Raise _ => (seen, Ok (error_response 400 "invalid_payload"))
        | Ok (JDict d) =>
            if py_eqb (from_option id JNull (dget "type" d)) (JStr "url_verification")
            then (seen, Ok (ok (JDict [("challenge", from_option id (JStr "") (dget "challenge" d))])))
            else process_event m (JDict d) seen
        | Ok _ => (seen, Raise (OtherError "AttributeError" "get"))
        end
      else (seen, Ok (error_response 400 "unsupported_content_type"))
  end.

(** The channel, and the thread after the first colon. *)
Definition slack_post_response (m : SlackManager) (conversation_id message : string) :
    option (string * string * option string) :=
  match sm_bot_token m with
  | None | Some "" => None
  | Some _ => match str_split ":" conversation_id with
              | channel :: ((_ :: _) as rest) => Some (channel, message, Some (str_join ":" rest))
              | _ => Some (conversation_id, message, None)
              end
  end.

(** ** The Bitbucket manager *)

Record BitbucketManager := mkBitbucketManager {
  bm_webhook_secret : option string;
  bm_username : option string;
  bm_app_password : option string;
}.
Definition bitbucket_validate (env : environ) (now : float) (m : BitbucketManager) (r : WebhookRequest) :
    result bool :=
  match bm_webhook_secret m with
  | None => Ok (allow_unsigned env)
  | Some secret => signed_body secret "sha256=" "x-hub-signature" r
  end.

(** [links.get('html', {}).get('href')]; the event takes a text or nothing. *)
Definition html_href (links : dict) : result (option string) :=
  match from_option id (JDict []) (dget "html" links) with
  | JDict h => match dget "href" h with
               | None | Some JNull => Ok None
               | Some (JStr s) => Ok (Some s)
               | Some _ => Raise (ValueError "Input should be a valid string")
               end
  | _ => Raise (OtherError "AttributeError" "get")
  end.
(** The text of a comment: [content.get('raw', '')]. *)
Definition comment_raw (content : option dict) : result string :=
  match from_option id (JStr "") (dget "raw" (from_option id [] content)) with
  | JStr s => Ok s
  | _ => Raise (OtherError "AttributeError" "lower")
  end.
(** A repository with links that are not empty. *)
Definition repo_href (links : option (option dict)) : result (option string) :=
  match links with
  | Some (Some ((_ :: _) as d)) => html_href d
  | _ => Ok None
  end.

Definition bitbucket_comment (p : BitbucketWebhookPayload) (raw : option dict) (content : option dict)
    (event_type eid : string) (item : BitbucketItem) : result (option IntegrationEvent) :=
  let? body := comment_raw content in
  if negb (mentions body) then Ok None
  else
    let? repo_url := repo_href (bp_repository_links p) in
    let? url := html_href (from_option (λ d, d) [] (bi_links item)) in
    Ok (Some (new_event IT_BITBUCKET event_type eid url (bi_title item) (Some body) repo_url
                (from_option (λ n, n) None (bp_actor_nickname p)) raw)).

(** [str(issue.id or '')] *)
Definition issue_id (n : option Z) : string :=
  match n with None => "" | Some z => if z =? 0 then "" else pretty z end.
Definition bitbucket_parse (m : BitbucketManager) (payload : json) : result (option IntegrationEvent) :=
  let? typed := bitbucket_view payload in
  let raw := payload_dict payload in
  match bp_comment typed with
  | None => Ok None
  | Some content =>
      match bp_pullrequest typed, bp_issue typed with
      | Some pr, _ => bitbucket_comment typed raw content "pr_comment" (str_opt_int (bi_id pr)) pr
      | None, Some issue => bitbucket_comment typed raw content "issue_comment" (issue_id (bi_id issue)) issue
      | None, None => Ok None
      end
  end.

Definition bitbucket_context (e : IntegrationEvent) : ConversationContext :=
  event_context ("Bitbucket " +:+ ie_event_type e +:+ " #" +:+ ie_external_id e) "bitbucket" true true e.

#[export] Instance bitbucket_manager : IntegrationManager BitbucketManager := {|
  source_type := IT_BITBUCKET;
  default_manager := mkBitbucketManager None None None;
  validate_webhook := bitbucket_validate;
  parse_event := bitbucket_parse;
  build_context := bitbucket_context;
|}.

(** What is posted: ["workspace/repo:pr:123"] or ["workspace/repo:issue:456"]. *)
Inductive BitbucketPost := PrComment (workspace repo : string) (id : Z) (message : string)
                         | IssueComment (workspace repo : string) (id : Z) (message : string).
Definition bitbucket_target (sep conversation_id : string) : option (result (string * string * Z)) :=
  match str_cut sep conversation_id with
  | None => None
  | Some (ws_repo, rest) =>
      Some (match py_int (before_first sep rest) with
            | None => Raise (ValueError "invalid literal for int() with base 10")
            | Some n => match str_cut "/" ws_repo with
                        | Some (workspace, slug) => Ok (workspace, slug, n)
                        | None => Raise (ValueError "not enough values to unpack (expected 2, got 1)")
                        end
            end)
  end.
Definition bitbucket_post_response (m : BitbucketManager) (conversation_id message : string) :
    result (option BitbucketPost) :=
  if existsb (λ x, String.eqb (from_option id "" x) "") [bm_username m; bm_app_password m] then Ok None
  else match bitbucket_target ":pr:" conversation_id with
       | Some t => let? t := t in Ok (Some (PrComment t.1.1 t.1.2 t.2 message))
       | None =>
           match bitbucket_target ":issue:" conversation_id with
           | Some t => let? t := t in Ok (Some (IssueComment t.1.1 t.1.2 t.2 message))
           | None => Ok None
           end
       end.

(** ** The Microsoft manager *)

Record MicrosoftManager := mkMicrosoftManager {
  mm_client_state : option string;
  mm_tenant_id : option string;
  mm_client_id : option string;
}.

(** Every notification has the state that was agreed; whatever fails is a refusal. *)
Fixpoint states_match (secret : string) (l : list json) : bool :=
  match l with
  | [] => true
  | JDict d :: l =>
      match from_option id (JStr "") (dget "clientState" d) with
      | JStr s => match compare_digest s secret with Ok true => states_match secret l | _ => false end
      | _ => false
      end
  | _ :: _ => false
  end.
Definition microsoft_validate (env : environ) (now : float) (m : MicrosoftManager) (r : WebhookRequest) :
    result bool :=
  match mm_client_state m with
  | None => Ok (allow_unsigned env)
  | Some secret =>
      Ok (match json_loads (wr_body r) with
          | Ok (JDict d) =>
              match from_option id (JList []) (dget "value" d) with
              | JList l => states_match secret l
              | JDict [] | JStr "" => true
              | _ => false
              end
          | _ => false
          end)
  end.

Definition graph_event (n : GraphNotification) (raw : option dict) : result (option IntegrationEvent) :=
  let change_type := from_option id "" (gn_change_type n) in
  let resource := from_option id "" (gn_resource n) in
  if String.eqb resource "" then Ok None
  else match from_option id (JStr resource) (dget "id" (from_option (λ d, d) [] (gn_resource_data n))) with
       | JStr eid =>
           Ok (Some (new_event IT_MICROSOFT ("graph_" +:+ change_type) eid None
                       (Some ("Graph " +:+ change_type +:+ ": " +:+ resource)) None None None raw))
       | _ => Raise (ValueError "Input should be a valid string")
       end.
Definition microsoft_parse (m : MicrosoftManager) (payload : json) : result (option IntegrationEvent) :=
  let? value := graph_view payload in
  match value with
  | [] => Ok None
  | n :: _ => graph_event n (payload_dict payload)
  end.

Definition microsoft_context (e : IntegrationEvent) : ConversationContext :=
  let title := or_text (ie_title e) ("Microsoft " +:+ ie_event_type e) in
  mkConversationContext title ("Microsoft 365 notification: " +:+ title) None
    (context_metadata "microsoft" false e).

#[export] Instance microsoft_manager : IntegrationManager MicrosoftManager := {|
  source_type := IT_MICROSOFT;
  default_manager := mkMicrosoftManager None None None;
  validate_webhook := microsoft_validate;
  parse_event := microsoft_parse;
  build_context := microsoft_context;
|}.

(** The validation token is echoed, before any check. *)
Definition microsoft_handle_webhook (env : environ) (now : float) (m : MicrosoftManager)
    (r : WebhookRequest) (seen : list string) : list string * result Response :=
  match dget "validationToken" (wr_query r) with
  | None | Some "" => base_handle_webhook env now m r seen
  | Some token => (seen, Ok (ok (JStr token)))
  end.

Definition microsoft_oauth_config (m : MicrosoftManager) : option OAuthConfig :=
  match mm_tenant_id m, mm_client_id m with
  | None, _ | Some "", _ | _, None | _, Some "" => None
  | Some t, Some c =>
      Some (mkOAuthConfig ("https://login.microsoftonline.com/" +:+ t +:+ "/oauth2/v2.0/authorize")
              ("https://login.microsoftonline.com/" +:+ t +:+ "/oauth2/v2.0/token") c
              ["https://graph.microsoft.com/.default"])
  end.

(** ** The registry and the route *)

(** [register_all]: what each type is handled by, with a manager made without arguments. *)
Definition registered : list IntegrationType := [IT_GITHUB; IT_JIRA; IT_SLACK; IT_BITBUCKET; IT_MICROSOFT].
Definition new_manager_webhook (env : environ) (now : float) (t : IntegrationType) (r : WebhookRequest) :
    option (result Response) :=
  match t with
  | IT_GITHUB => Some (base_handle_webhook env now (default_manager : GitHubManager) r []).2
  | IT_JIRA => Some (base_handle_webhook env now (default_manager : JiraManager) r []).2
  | IT_SLACK => Some (slack_handle_webhook env now (default_manager : SlackManager) r []).2
  | IT_BITBUCKET => Some (base_handle_webhook env now (default_manager : BitbucketManager) r []).2
  | IT_MICROSOFT => Some (microsoft_handle_webhook env now (default_manager : MicrosoftManager) r []).2
  | IT_OPENHANDS => None
  end.

(** [POST /api/webhooks/{integration_type}] *)
Definition receive_webhook (env : environ) (now : float) (integration_type : string)
    (r : WebhookRequest) : Response :=
  match integration_of_string integration_type with
  | None => error_response 404 "Not found"
  | Some t =>
      match new_manager_webhook env now t r with
      | None => error_response 404 "Not found"
      | Some (Ok resp) => resp
      | Some (Raise _) => error_response 500 "internal_error"
      end
  end.

(** [GET /api/orgs/{org_id}/integrations]; [configs] is the organization's rows, a later
    one over an earlier one of the same type. *)
Definition get_integrations (configs : list (string * bool)) : json :=
  let enabled := foldl (λ d c, dset c.1 c.2 d) [] configs in
  JList ((λ t, JDict [("type", JStr (integration_value t));
                      ("enabled", JBool (from_option id false (dget (integration_value t) enabled)));
                      ("registered", JBool true)]) <$> registered).
End managers.
