(* ===== verification/ApollosOrgsProps.v ===== *)
(** * Who may change what in an organization

    Properties of the routes of [ApollosOrgs]: every organization keeps an owner, changes
    need the role the routes name, deletion and its refusal, and the life of an API key. *)

From S2P Require Import Prelude PyValue ApollosDb ApollosAuth ApollosOrgs.
Local Open Scope Z_scope.
Local Open Scope py_scope.

(** ** The schema's constraints *)

Lemma commit_inv {A} old new (a : A) d r :
  commit old new a = (d, r) →
  d = new ∧ integrity new = true ∧ r = Ok a ∨ d = old ∧ integrity new = false ∧ r = Raise IntegrityError.
Proof. unfold commit. case_match; intros [= <- <-]; auto. Qed.

Lemma uniqueness_inv d :
  integrity d = true →
  NoDup (rl_id <$> db_roles d) ∧ NoDup (rl_name <$> db_roles d) ∧ NoDup (og_id <$> db_orgs d)
  ∧ NoDup ((λ m, (om_org m, om_user m)) <$> db_members d) ∧ NoDup (te_id <$> db_teams d)
  ∧ NoDup (ak_id <$> db_keys d).
Proof.
  unfold integrity, uniqueness. rewrite !andb_true_iff, !bool_decide_eq_true. tauto.
Qed.

Lemma NoDup_fmap_eq {A B} (f : A → B) l x y : NoDup (f <$> l) → x ∈ l → y ∈ l → f x = f y → x = y.
Proof.
  induction l as [|z l IH]; [intros _ []%not_elem_of_nil|].
  rewrite fmap_cons, NoDup_cons, !elem_of_cons. intros [Hz Hl] [->|Hx] [->|Hy] He; auto.
  - destruct Hz. rewrite He. by apply list_elem_of_fmap_2.
  - destruct Hz. rewrite <- He. by apply list_elem_of_fmap_2.
Qed.

Lemma uuid_in_spec i l : uuid_in i l = true ↔ i ∈ l.
Proof.
  unfold uuid_in. rewrite existsb_exists. setoid_rewrite <- list_elem_of_In.
  split; [intros (x & Hx & ->%String.eqb_eq); done|]. intros Hi. exists i. by rewrite String.eqb_refl.
Qed.

Lemma one_or_none_some {A} (l : list A) x : one_or_none l = Ok (Some x) → l = [x].
Proof. destruct l as [|y [|]]; simpl; congruence. Qed.
Lemma one_or_none_none {A} (l : list A) : one_or_none l = Ok None → l = [].
Proof. destruct l as [|y [|]]; simpl; congruence. Qed.

(** ** Owners *)

(** A membership of the organization with the role of that name. *)
Definition owner_of (d : Database) (org : uuid) (m : OrgMembership) : Prop :=
  m ∈ db_members d ∧ om_org m = org
  ∧ ∃ r, r ∈ db_roles d ∧ rl_id r = om_role m ∧ rl_name r = "owner".
(** Every organization has an owner. *)
Definition owned (d : Database) : Prop :=
  integrity d = true ∧ ∀ o, o ∈ db_orgs d → ∃ m, owner_of d (og_id o) m.

Lemma elem_of_member_roles d org m r :
  (m, r) ∈ member_roles d org
  ↔ m ∈ db_members d ∧ om_org m = org ∧ r ∈ db_roles d ∧ rl_id r = om_role m.
Proof.
  unfold member_roles. rewrite list_elem_of_bind. split.
  - intros (m' & Hr & [Ho%String.eqb_eq Hm]%elem_of_py_filter).
    apply list_elem_of_fmap in Hr as (r' & [= -> ->] & [Hi%Z.eqb_eq Hr]%elem_of_py_filter). done.
  - intros (Hm & Ho & Hr & Hi). exists m. split.
    + apply list_elem_of_fmap. exists r. split; [done|]. apply elem_of_py_filter.
      split; [by apply Z.eqb_eq|done].
    + apply elem_of_py_filter. split; [by apply String.eqb_eq|done].
Qed.

Lemma elem_of_owners d org m : m ∈ owners d org ↔ owner_of d org m.
Proof.
  unfold owners, owner_of. rewrite list_elem_of_fmap. split.
  - intros ([m' r] & -> & [Hn%String.eqb_eq Hr]%elem_of_py_filter).
    apply elem_of_member_roles in Hr as (? & ? & ? & ?). eauto 10.
  - intros (Hm & Ho & r & Hr & Hi & Hn). exists (m, r). split; [done|].
    apply elem_of_py_filter. split; [by apply String.eqb_eq|]. by apply elem_of_member_roles.
Qed.

(** A membership has one role at most. *)
Lemma role_rows_single roles k :
  NoDup (rl_id <$> roles) → py_len (py_filter (λ r, rl_id r =? k) roles) ≤ 1.
Proof.
  unfold py_len. induction roles as [|r roles IH]; simpl; [lia|]. rewrite NoDup_cons. intros [Hr Hd].
  destruct (Z.eqb_spec (rl_id r) k) as [<-|]; [|by apply IH]. simpl.
  rewrite py_filter_none; [simpl; lia|]. intros r' Hr'. apply Z.eqb_neq. intros He.
  apply Hr. rewrite <- He. by apply list_elem_of_fmap_2.
Qed.

Lemma owners_single d org :
  integrity d = true → NoDup (owners d org).
Proof.
  intros (Hr & _ & _ & Hm & _)%uniqueness_inv. unfold owners, member_roles.
  induction (db_members d) as [|m l IH]; simpl; [constructor|].
  rewrite fmap_cons, NoDup_cons in Hm. destruct Hm as [Hm Hl]. specialize (IH Hl).
  case_match; [|done]. rewrite bind_cons, py_filter_app, fmap_app.
  apply NoDup_app. split; [|split; [|done]].
  - pose proof (role_rows_single (db_roles d) (om_role m) Hr) as Hs. unfold py_len in Hs.
    destruct (py_filter _ (db_roles d)) as [|r [|]]; simpl in *; [constructor| |lia].
    case_match; simpl; [apply NoDup_singleton|constructor].
  - intros m' Hm' Hin.
    apply list_elem_of_fmap in Hm' as ([m1 r1] & -> & [_ H1]%elem_of_py_filter).
    apply list_elem_of_fmap in H1 as (r2 & [= -> ->] & _).
    apply list_elem_of_fmap in Hin as ([m3 r3] & He & [_ H3]%elem_of_py_filter). simpl in He. subst m3.
    apply list_elem_of_bind in H3 as (m4 & H4 & [_ H5]%elem_of_py_filter).
    apply list_elem_of_fmap in H4 as (r5 & [= <- <-] & _).
    apply Hm. by apply (list_elem_of_fmap_2 (λ m, (om_org m, om_user m))).
Qed.

(** ** Every organization keeps an owner *)

Lemma ensure_role_inv name d d' r :
  ensure_role name d = Ok (d', r) →
  (∃ l, d' = set_roles (db_roles d ++ l) d) ∧ r ∈ db_roles d' ∧ rl_name r = name.
Proof.
  unfold ensure_role. intros ([r'|] & Hr & H)%rbind_ok_inv.
  - injection H as <- <-. apply one_or_none_some in Hr.
    assert (Hin : r' ∈ py_filter (λ r, String.eqb (rl_name r) name) (db_roles d))
      by (rewrite Hr; apply list_elem_of_here).
    apply elem_of_py_filter in Hin as [->%String.eqb_eq Hin].
    split; [exists []; rewrite app_nil_r; by destruct d|done].
  - injection H as <- <-. split; [eauto|]. split; [|done]. simpl.
    rewrite elem_of_app. right. apply list_elem_of_here.
Qed.

Lemma join_org_inv org user role d d' r :
  join_org org user role d = Ok (d', r) →
  (∃ l, d' = set_members (db_members d ++ [mkOrgMembership org user (rl_id r)])
               (set_roles (db_roles d ++ l) d))
  ∧ r ∈ db_roles d' ∧ rl_name r = role.
Proof.
  unfold join_org. intros ([d1 r1] & H1 & H)%rbind_ok_inv. injection H as <- <-. simpl.
  apply ensure_role_inv in H1 as ((l & ->) & Hr & Hn). split; [by exists l|done].
Qed.

(** Owners stay when memberships and roles are only added. *)
Lemma owner_of_mono d d' org m :
  db_members d ⊆ db_members d' → db_roles d ⊆ db_roles d' → owner_of d org m → owner_of d' org m.
Proof. intros Hm Hr (H1 & H2 & r & H3 & H4). split; [by apply Hm|]. split; [done|]. exists r. auto. Qed.

(** The tables that matter here, up to what an update of a name leaves. *)
Lemma owned_mono d d' :
  integrity d' = true → og_id <$> db_orgs d' ⊆ og_id <$> db_orgs d →
  db_members d ⊆ db_members d' → db_roles d ⊆ db_roles d' → owned d → owned d'.
Proof.
  intros Hi Ho Hm Hr [_ H]. split; [done|]. intros o Hin.
  assert (Hid : og_id o ∈ og_id <$> db_orgs d') by by apply list_elem_of_fmap_2.
  apply Ho, list_elem_of_fmap in Hid as (o' & He & Ho'). rewrite He.
  destruct (H o' Ho') as [m Hm']. exists m. by eapply owner_of_mono.
Qed.
Lemma owned_commit {A} d new (a : A) d' r :
  commit d new a = (d', r) → og_id <$> db_orgs new ⊆ og_id <$> db_orgs d →
  db_members d ⊆ db_members new → db_roles d ⊆ db_roles new → owned d → owned d'.
Proof.
  intros [(-> & Hi & _)|(-> & _)]%commit_inv ????; [by eapply owned_mono|done].
Qed.
Lemma subset_app {A} (l k : list A) : l ⊆ l ++ k.
Proof. intros x. rewrite elem_of_app. auto. Qed.
Lemma subset_refl {A} (l : list A) : l ⊆ l.
Proof. done. Qed.
#[local] Hint Resolve subset_app subset_refl : core.
#[local] Hint Extern 1 (owned _) => eassumption : core.

(** A new organization comes with its owner. *)
Lemma owned_new_org d d' id name user r :
  join_org id user "owner" (set_orgs (db_orgs d ++ [new_Organization id name]) d) = Ok (d', r) →
  integrity d' = true → owned d → owned d'.
Proof.
  intros ((l & ->) & Hr & Hn)%join_org_inv Hi [_ H]. split; [done|]. simpl in *.
  intros o [Ho| ->%list_elem_of_singleton]%elem_of_app.
  - destruct (H o Ho) as [m Hm]. exists m. eapply owner_of_mono; [| |exact Hm]; simpl; auto.
  - exists (mkOrgMembership id user (rl_id r)). split; [|split; [done|by exists r]]. simpl.
    rewrite elem_of_app. right. apply list_elem_of_here.
Qed.

Lemma delete_rows_elem {A} (f : A → bool) l x : x ∈ delete_rows f l ↔ f x = false ∧ x ∈ l.
Proof. unfold delete_rows. by rewrite elem_of_py_filter, negb_true_iff. Qed.
Lemma update_rows_fmap {A B} (f : A → bool) (g : A → A) (h : A → B) l :
  (∀ x, x ∈ l → f x = true → h (g x) = h x) → h <$> update_rows f g l = h <$> l.
Proof.
  unfold update_rows. intros H. rewrite <- list_fmap_compose. apply list_fmap_ext.
  intros i x Hx%list_elem_of_lookup_2. simpl. case_match; auto.
Qed.

Lemma owned_create_org id name user d d' r :
  create_org id name user d = (d', r) → owned d → owned d'.
Proof.
  unfold create_org. destruct (join_org _ _ _ _) as [[d1 r1]|] eqn:Hj; [|by intros [= <- _]].
  intros [(-> & Hi & _)|(-> & _)]%commit_inv H; [|done]. by eapply owned_new_org.
Qed.

Lemma owned_update_org org name user d d' r :
  update_org org name user d = (d', r) → owned d → owned d'.
Proof.
  unfold update_org. destruct (get_org d org) as [o|] eqn:Ho; [|by intros [= <- _]].
  intros Hc. eapply owned_commit; [exact Hc| |simpl; auto..]. simpl.
  rewrite update_rows_fmap; [done|].
  apply py_find_elem in Ho as [_ He%String.eqb_eq]. intros x _ Hx%String.eqb_eq.
  destruct name; simpl; congruence.
Qed.

Lemma owned_delete_org org user d d' r :
  delete_org org user d = (d', r) → owned d → owned d'.
Proof.
  unfold delete_org. destruct (get_org d org) as [o|]; [|by intros [= <- _]].
  intros [(-> & Hi & _)|(-> & _)]%commit_inv [Hd H]; [|done]. split; [done|]. simpl.
  intros o' [Hne Ho']%delete_rows_elem. destruct (H o' Ho') as (m & Hm & He & Hr).
  exists m. split; [|done]. simpl. apply delete_rows_elem. split; [|done]. by rewrite He.
Qed.

Lemma owned_add_member org target role user d d' r :
  add_member org target role user d = (d', r) → owned d → owned d'.
Proof.
  unfold add_member. destruct (get_user d target); [|by intros [= <- _]].
  destruct (one_or_none _) as [[?|]|]; [by intros [= <- _]| |by intros [= <- _]].
  destruct (join_org _ _ _ _) as [[d1 r1]|] eqn:Hj; [|by intros [= <- _]].
  apply join_org_inv in Hj as ((l & ->) & _). intros Hc. eapply owned_commit; [exact Hc|simpl; auto..].
Qed.

Definition has_owner_role (d : Database) (m : OrgMembership) : bool :=
  match get_role d (om_role m) with Some r => String.eqb (rl_name r) "owner" | None => false end.

Lemma owner_has_role d org m : integrity d = true → owner_of d org m → has_owner_role d m = true.
Proof.
  intros (Hr & _)%uniqueness_inv (_ & _ & r & Hin & He & Hn). unfold has_owner_role.
  destruct (get_role d (om_role m)) as [r'|] eqn:Hg.
  - apply py_find_elem in Hg as [Hr' He'%Z.eqb_eq].
    rewrite (NoDup_fmap_eq rl_id (db_roles d) r' r) by (done || congruence). by apply String.eqb_eq.
  - apply (py_find_none _ _ r) in Hg; [by apply Z.eqb_neq in Hg|done].
Qed.

(** Two owners are two memberships. *)
Lemma second_owner d org m :
  integrity d = true → 1 < py_len (owners d org) → ∃ m', owner_of d org m' ∧ m' ≠ m.
Proof.
  intros Hi Hl. pose proof (owners_single d org Hi) as Hnd. setoid_rewrite <- elem_of_owners.
  destruct (owners d org) as [|a [|b l]]; [len_lia..|].
  destruct (decide (a = m)) as [->|]; [|exists a; split; [apply list_elem_of_here|done]].
  exists b. split; [apply list_elem_of_further, list_elem_of_here|]. intros ->.
  apply NoDup_cons in Hnd as [Hnd _]. apply Hnd, list_elem_of_here.
Qed.

(** Removing a member that is not the last owner leaves an owner. *)
Lemma other_owner d org user m m0 :
  integrity d = true → membership_rows d org user = [m] →
  has_owner_role d m && (py_len (owners d org) <=? 1) = false →
  owner_of d org m0 → ∃ m', owner_of d org m' ∧ om_user m' ≠ user.
Proof.
  intros Hi Hrows Hg H0.
  assert (Hone : ∀ x, owner_of d org x → om_user x = user → x = m).
  { intros x (Hx & Ho & _) Hxu. apply list_elem_of_singleton. rewrite <- Hrows.
    apply elem_of_py_filter. by rewrite Ho, Hxu, !String.eqb_refl. }
  destruct (decide (om_user m0 = user)) as [Hu|]; [|by exists m0].
  pose proof (Hone m0 H0 Hu) as ->. rewrite (owner_has_role d org m Hi H0) in Hg. simpl in Hg.
  destruct (second_owner d org m Hi) as (m' & Hm' & Hne); [lia|]. exists m'. split; [done|].
  intros Hu'. by apply Hne, Hone.
Qed.

Lemma owned_remove_member org member user d d' r :
  remove_member org member user d = (d', r) → owned d → owned d'.
Proof.
  unfold remove_member. destruct (one_or_none _) as [[m|]|] eqn:Hm; [|by intros [= <- _]..].
  apply one_or_none_some in Hm. fold (has_owner_role d m).
  destruct (_ && _) eqn:Hg; [by intros [= <- _]|].
  intros [(-> & Hi & _)|(-> & _)]%commit_inv [Hd H]; [|done]. split; [done|]. simpl.
  intros o Ho. destruct (H o Ho) as [m0 H0].
  assert (∃ m', owner_of d (og_id o) m' ∧ (om_org m' = org → om_user m' ≠ member)) as (m' & Hm' & Hk).
  { destruct (decide (og_id o = org)) as [<-|Hne].
    - destruct (other_owner d (og_id o) member m m0) as (m' & ? & ?); [done..|]. by exists m'.
    - exists m0. split; [done|]. destruct H0 as (_ & -> & _). done. }
  destruct Hm' as (Hin & He & Hr). exists m'. split; [|done]. simpl.
  apply delete_rows_elem. split; [|done].
  destruct (String.eqb_spec (om_org m') org) as [Ho'|]; [|done].
  apply String.eqb_neq. by apply Hk.
Qed.

(** The guards raise or pass the handler on. *)
Lemma guard_inv {A B} (check : Database → result B) (k : B → handler A) d d' r :
  guard check k d = (d', r) → d' = d ∨ ∃ b, check d = Ok b ∧ k b d = (d', r).
Proof. unfold guard. destruct (check d) as [b|]; [eauto|]. intros [= <- _]. auto. Qed.
Lemma validated_inv q k d d' r :
  validated q k d = (d', r) → d' = d ∨ k d = (d', r).
Proof. unfold validated. case_match; [auto|]. intros [= <- _]. auto. Qed.
Lemma with_team_inv team_id role user k d d' r :
  with_team team_id role user k d = (d', r) →
  d' = d ∨ ∃ team, get_team d team_id = Some team
                   ∧ check_org_role (au_user_id user) (te_org team) role d = Ok tt
                   ∧ k team d = (d', r).
Proof.
  unfold with_team. destruct (get_team d team_id) as [team|]; [|intros [= <- _]; auto].
  intros [->|([] & Hc & Hk)]%guard_inv; eauto 10.
Qed.

Lemma delete_key_db key user d d' r :
  delete_key key user d = (d', r) → d' = (revoke_api_key key (au_user_id user) d).1.
Proof.
  unfold delete_key. destruct (revoke_api_key _ _ d) as [d1 [?|e]]; [by intros [= <- _]|].
  destruct e; try (by intros [= <- _]). repeat case_match; by intros [= <- _].
Qed.

(** Past the dependencies and the check of the body. *)
Ltac peel Hr :=
  match type of Hr with
  | guard _ _ _ = _ => apply guard_inv in Hr as [->|(? & ? & Hr)]; [|apply validated_inv in Hr as [->|Hr]]
  | validated _ _ _ = _ => apply validated_inv in Hr as [->|Hr]
  end.

Section requests.
Context `{HMAC} (created_at : ApiKey → json).

Lemma owned_create_team id org name user d d' r :
  create_team id org name user d = (d', r) → owned d → owned d'.
Proof. intros [->|(_ & _ & Hc)]%guard_inv; [done|]. eapply owned_commit; [exact Hc|simpl; auto..]. Qed.
Lemma owned_update_team team name user d d' r :
  update_team team name user d = (d', r) → owned d → owned d'.
Proof.
  intros [->|(t & _ & _ & Hc)]%with_team_inv; [done|]. eapply owned_commit; [exact Hc|simpl; auto..].
Qed.
Lemma owned_delete_team team user d d' r :
  delete_team team user d = (d', r) → owned d → owned d'.
Proof.
  intros [->|(t & _ & _ & Hc)]%with_team_inv; [done|]. eapply owned_commit; [exact Hc|simpl; auto..].
Qed.
Lemma owned_add_team_member team target role user d d' r :
  add_team_member team target role user d = (d', r) → owned d → owned d'.
Proof.
  intros [->|(t & _ & _ & Hc)]%with_team_inv; [done|]. revert Hc.
  destruct (get_user d target); [|by intros [= <- _]].
  destruct (one_or_none _) as [[?|]|]; [by intros [= <- _]| |by intros [= <- _]].
  destruct (ensure_role role d) as [[d1 r1]|] eqn:Hr; [|by intros [= <- _]].
  apply ensure_role_inv in Hr as ((l & ->) & _). intros Hc.
  eapply owned_commit; [exact Hc|simpl; auto..].
Qed.
Lemma owned_create_key id token salt org name user d d' r :
  create_key id token salt org name user d = (d', r) → owned d → owned d'.
Proof.
  unfold create_key. destruct (create_api_key _ _ _ _ _ _ d) as [d1 [[raw k]|]] eqn:Hc;
    intros [= <- _]; (eapply owned_commit; [exact Hc|simpl; auto..]).
Qed.
Lemma owned_delete_key key user d d' r :
  delete_key key user d = (d', r) → owned d → owned d'.
Proof.
  intros -> %delete_key_db. unfold revoke_api_key. destruct (py_find _ _) as [k|]; [|done].
  case_match; [done|]. destruct (commit _ _ _) as [d1 res] eqn:Hc. simpl.
  eapply owned_commit; [exact Hc|simpl; auto..].
Qed.

Lemma owned_route user q d d' r : route created_at user q d = (d', r) → owned d → owned d'.
Proof.
  intros Hr Hd. unfold route in Hr. destruct q; peel Hr; try exact Hd.
  - exact (owned_create_org _ _ _ _ _ _ Hr Hd).
  - injection Hr as <- _. exact Hd.
  - exact (owned_update_org _ _ _ _ _ _ Hr Hd).
  - exact (owned_delete_org _ _ _ _ _ Hr Hd).
  - exact (owned_add_member _ _ _ _ _ _ _ Hr Hd).
  - injection Hr as <- _. exact Hd.
  - exact (owned_remove_member _ _ _ _ _ _ Hr Hd).
  - exact (owned_create_team _ _ _ _ _ _ _ Hr Hd).
  - injection Hr as <- _. exact Hd.
  - exact (owned_update_team _ _ _ _ _ _ Hr Hd).
  - exact (owned_delete_team _ _ _ _ _ Hr Hd).
  - exact (owned_add_team_member _ _ _ _ _ _ _ Hr Hd).
  - apply with_team_inv in Hr as [->|(t & _ & _ & Hr)]; [exact Hd|injection Hr as <- _; exact Hd].
  - exact (owned_create_key _ _ _ _ _ _ _ _ _ Hr Hd).
  - injection Hr as <- _. exact Hd.
  - exact (owned_delete_key _ _ _ _ _ Hr Hd).
  - injection Hr as <- _. exact Hd.
Qed.

Lemma owned_upsert org_id user_id suffix oid email name d d' r :
  upsert_user_on_login org_id user_id suffix oid email name d = (d', r) → owned d → owned d'.
Proof.
  unfold upsert_user_on_login. destruct (one_or_none _) as [[u|]|]; [| |by intros [= <- _]].
  - intros Hc. eapply owned_commit; [exact Hc|simpl; auto..].
  - destruct (join_org _ _ _ _) as [[d1 r1]|] eqn:Hj; [|by intros [= <- _]].
    intros [(-> & Hi & _)|(-> & _)]%commit_inv Hd; [|done].
    apply join_org_inv in Hj as ((l & ->) & Hr & Hn). destruct Hd as [_ Hd].
    split; [done|]. simpl in *. intros o [Ho| ->%list_elem_of_singleton]%elem_of_app.
    + destruct (Hd o Ho) as [m Hm]. exists m. eapply owner_of_mono; [| |exact Hm]; simpl; auto.
    + exists (mkOrgMembership org_id user_id (rl_id r1)). split; [|split; [done|by exists r1]].
      simpl. rewrite elem_of_app. right. apply list_elem_of_here.
Qed.

(** What reaches the database: requests, and logins with the identifiers they draw. *)
Inductive Visit :=
  | Ask (user : AuthedUser) (q : Request)
  | Login (org_id user_id suffix oid email : string) (name : option string).
Definition visit (v : Visit) (d : Database) : Database :=
  match v with
  | Ask user q => (serve created_at user q d).1
  | Login org_id user_id suffix oid email name =>
      (upsert_user_on_login org_id user_id suffix oid email name d).1
  end.

(** C2 From a database that satisfies the schema and in which every organization has an
    owner, any sequence of requests of any users and of logins leads to one that satisfies
    the schema and in which every organization still has an owner: the guard of
    [remove_member] is enough, and no other route can take the last owner away. *)
Theorem requests_keep_owners visits d : owned d → owned (foldl (λ d v, visit v d) d visits).
Proof.
  revert d. induction visits as [|v l IH]; intros d Hd; simpl; [done|]. apply IH.
  destruct v as [user q|]; simpl.
  - unfold serve. destruct (route created_at user q d) as [d' [a|e]] eqn:Hr; simpl;
      by eapply owned_route.
  - destruct (upsert_user_on_login _ _ _ _ _ _ _) as [d' r] eqn:Hu. by eapply owned_upsert.
Qed.
End requests.

(** ** Changes need a role *)

(** The rows of an organization: itself, its members and its teams; and the members of its
    teams. *)
Definition org_rows (d : Database) (o : uuid) : list Organization * list OrgMembership * list Team :=
  (py_filter (λ x, String.eqb (og_id x) o) (db_orgs d),
   py_filter (λ x, String.eqb (om_org x) o) (db_members d),
   py_filter (λ x, String.eqb (te_org x) o) (db_teams d)).
Definition team_rows (d : Database) (o : uuid) : list TeamMembership :=
  py_filter (λ m, existsb (λ t, String.eqb (te_id t) (tm_team m) && String.eqb (te_org t) o)
                    (db_teams d)) (db_team_members d).
(** The user is a member of the organization, with a role of this rank or a better one. *)
Definition allowed (d : Database) (o user : uuid) (rank : Z) : Prop :=
  ∃ m r, memberships_of d o user = [(m, r)] ∧ rl_rank r ≤ rank.

(** What a request does to an organization. *)
Definition respects (user : uuid) (d d' : Database) (o : uuid) : Prop :=
  (org_rows d' o = org_rows d o ∨ allowed d o user 1)
  ∧ (team_rows d' o = team_rows d o ∨ allowed d o user 2)
  ∧ (o ∈ og_id <$> db_orgs d' ∨ allowed d o user 0).

Lemma require_role_inv role org user d u :
  require_role role org user d = Ok u → allowed d org (au_user_id user) (role_rank role).
Proof.
  unfold require_role. intros ([[m r]|] & Hm & H)%rbind_ok_inv; [|done].
  apply one_or_none_some in Hm. exists m, r. split; [done|]. case_match; [done|lia].
Qed.
Lemma check_org_role_inv user org role d :
  check_org_role user org role d = Ok tt → allowed d org user (role_rank role).
Proof.
  unfold check_org_role. intros ([[m r]|] & Hm & H)%rbind_ok_inv; [|done].
  apply one_or_none_some in Hm. exists m, r. split; [done|]. case_match; [done|lia].
Qed.
Lemma allowed_mono d o u k k' : allowed d o u k → k ≤ k' → allowed d o u k'.
Proof. intros (m & r & Hm & Hr) ?. exists m, r. split; [done|lia]. Qed.

Lemma respects_refl user d o : o ∈ og_id <$> db_orgs d → respects user d d o.
Proof. intros. by split; [left|split; left]. Qed.

(** A user with the rank may do anything up to the deletion. *)
Lemma respects_admin user d d' o :
  allowed d o user 1 → o ∈ og_id <$> db_orgs d' → respects user d d' o.
Proof. intros H ?. split; [by right|]. split; [right; eapply allowed_mono; [done|lia]|by left]. Qed.

(** Tables that stay leave the organization as it is. *)
Lemma respects_same user d d' o :
  o ∈ og_id <$> db_orgs d → org_rows d' o = org_rows d o → team_rows d' o = team_rows d o →
  og_id <$> db_orgs d ⊆ og_id <$> db_orgs d' → respects user d d' o.
Proof. intros Ho ?? Hs. split; [by left|]. split; [by left|left; by apply Hs]. Qed.

Lemma filter_update {A} (h f : A → bool) g l :
  (∀ x, x ∈ l → f x = true → h x = false ∧ h (g x) = false) →
  py_filter h (update_rows f g l) = py_filter h l.
Proof.
  induction l as [|x l IH]; intros H; [done|]. unfold update_rows. rewrite fmap_cons.
  fold (update_rows f g l). simpl.
  rewrite IH by (intros; apply H; [by apply list_elem_of_further|done]).
  destruct (f x) eqn:Hf; [|done]. destruct (H x (list_elem_of_here _ _) Hf) as [-> ->]. done.
Qed.
Lemma filter_delete {A} (h f : A → bool) l :
  (∀ x, x ∈ l → f x = true → h x = false) → py_filter h (delete_rows f l) = py_filter h l.
Proof.
  unfold delete_rows. rewrite py_filter_filter. intros H. apply py_filter_ext. intros x Hx.
  destruct (f x) eqn:Hf; [by rewrite (H x Hx Hf)|done].
Qed.
Lemma forallb_update {A} (h f : A → bool) g l :
  (∀ x, h (g x) = h x) → forallb h (update_rows f g l) = forallb h l.
Proof.
  intros H. unfold update_rows. induction l as [|x l IH]; [done|]. rewrite fmap_cons. simpl.
  rewrite IH. by destruct (f x); rewrite ?H.
Qed.
Lemma existsb_update {A} (h f : A → bool) g l :
  (∀ x, x ∈ l → f x = true → h (g x) = h x) → existsb h (update_rows f g l) = existsb h l.
Proof.
  induction l as [|x l IH]; intros H; [done|]. unfold update_rows. rewrite fmap_cons.
  fold (update_rows f g l). simpl.
  rewrite IH by (intros; apply H; [by apply list_elem_of_further|done]).
  destruct (f x) eqn:Hf; [|done]. by rewrite (H x (list_elem_of_here _ _) Hf).
Qed.
Lemma existsb_delete {A} (h f : A → bool) l :
  (∀ x, x ∈ l → f x = true → h x = false) → existsb h (delete_rows f l) = existsb h l.
Proof.
  unfold delete_rows. induction l as [|x l IH]; intros H; [done|]. simpl.
  assert (IH' := IH (λ y Hy, H y (list_elem_of_further _ _ _ Hy))). destruct (f x) eqn:Hf; simpl.
  - by rewrite (H x (list_elem_of_here _ _) Hf).
  - by rewrite IH'.
Qed.
Lemma filter_add {A} (h : A → bool) l x : h x = false → py_filter h (l ++ [x]) = py_filter h l.
Proof. intros Hx. rewrite py_filter_app. simpl. by rewrite Hx, app_nil_r. Qed.

Lemma respects_commit {A} user d new (a : A) d' r o :
  o ∈ og_id <$> db_orgs d → commit d new a = (d', r) →
  (integrity new = true → respects user d new o) → respects user d d' o.
Proof. intros ? [(-> & ? & _)|(-> & _)]%commit_inv ?; [auto|by apply respects_refl]. Qed.

Section respect.
#[local] Set Default Proof Using "All".
Context `{HMAC} (created_at : ApiKey → json).
Variables (user : AuthedUser) (d : Database) (o : uuid).
Hypothesis Hd : integrity d = true.
Hypothesis Ho : o ∈ og_id <$> db_orgs d.
Let u := au_user_id user.

Lemma respects_create_org id name d' r :
  create_org id name user d = (d', r) → respects u d d' o.
Proof.
  unfold create_org. destruct (join_org _ _ _ _) as [[d1 r1]|] eqn:Hj;
    [|intros [= <- _]; by apply respects_refl].
  apply join_org_inv in Hj as ((l & ->) & _). intros Hc.
  apply (respects_commit _ _ _ _ _ _ _ Ho Hc). intros Hi. simpl in *.
  assert (Hne : String.eqb id o = false).
  { apply String.eqb_neq. intros ->. apply uniqueness_inv in Hi as (_ & _ & Hi & _). simpl in Hi.
    rewrite fmap_app, NoDup_app in Hi. destruct Hi as (_ & Hi & _). apply (Hi o Ho).
    apply list_elem_of_here. }
  apply respects_same; [done| |done|].
  - unfold org_rows. simpl. by rewrite !filter_add.
  - simpl. rewrite fmap_app. auto.
Qed.

Lemma respects_update_org org name u' d' r :
  allowed d org u 1 → update_org org name u' d = (d', r) → respects u d d' o.
Proof.
  intros Ha. unfold update_org. destruct (get_org d org) as [row|] eqn:Hrow;
    [|intros [= <- _]; by apply respects_refl].
  apply py_find_elem in Hrow as [_ Hid%String.eqb_eq].
  set (row' := match name with Some n => set_og_name n row | None => row end).
  assert (Hid' : og_id row' = org) by (unfold row'; destruct name; done).
  intros Hc. apply (respects_commit _ _ _ _ _ _ _ Ho Hc). intros _.
  assert (Hs : og_id <$> update_rows (λ o, String.eqb (og_id o) org) (λ _, row') (db_orgs d)
               = og_id <$> db_orgs d).
  { apply update_rows_fmap. intros x _ Hx%String.eqb_eq. congruence. }
  destruct (decide (org = o)) as [->|Hne]; [apply respects_admin; [done|by simpl; rewrite Hs]|].
  apply respects_same; [done| |done|simpl; by rewrite Hs]. unfold org_rows. simpl.
  rewrite filter_update; [done|]. intros x _ Hx%String.eqb_eq.
  split; apply String.eqb_neq; congruence.
Qed.

Lemma respects_delete_org org u' d' r :
  allowed d org u 0 → delete_org org u' d = (d', r) → respects u d d' o.
Proof.
  intros Ha. unfold delete_org. destruct (get_org d org) as [row|];
    [|intros [= <- _]; by apply respects_refl].
  intros Hc. apply (respects_commit _ _ _ _ _ _ _ Ho Hc). intros _.
  destruct (decide (org = o)) as [->|Hne].
  { split; [right; eapply allowed_mono; [done|lia]|].
    split; [right; eapply allowed_mono; [done|lia]|by right]. }
  split; [left|split; [by left|left]].
  - unfold org_rows. simpl. by rewrite !filter_delete
      by (intros x _ Hx%String.eqb_eq; apply String.eqb_neq; congruence).
  - simpl. apply list_elem_of_fmap in Ho as (x & -> & Hx). apply list_elem_of_fmap_2.
    apply delete_rows_elem. split; [|done]. by apply String.eqb_neq.
Qed.

Lemma respects_add_member org target role u' d' r :
  allowed d org u 1 → add_member org target role u' d = (d', r) → respects u d d' o.
Proof.
  intros Ha. unfold add_member.
  destruct (get_user d target); [|intros [= <- _]; by apply respects_refl].
  destruct (one_or_none _) as [[?|]|]; [intros [= <- _]; by apply respects_refl| |
    intros [= <- _]; by apply respects_refl].
  destruct (join_org _ _ _ _) as [[d1 r1]|] eqn:Hj; [|intros [= <- _]; by apply respects_refl].
  apply join_org_inv in Hj as ((l & ->) & _). intros Hc.
  apply (respects_commit _ _ _ _ _ _ _ Ho Hc). intros _.
  destruct (decide (org = o)) as [->|Hne]; [by apply respects_admin|].
  apply respects_same; [done| |done|done]. unfold org_rows. simpl.
  rewrite filter_add; [done|]. by apply String.eqb_neq.
Qed.

Lemma respects_remove_member org member u' d' r :
  allowed d org u 1 → remove_member org member u' d = (d', r) → respects u d d' o.
Proof.
  intros Ha. unfold remove_member.
  destruct (one_or_none _) as [[m|]|]; [|intros [= <- _]; by apply respects_refl..].
  case_match; [intros [= <- _]; by apply respects_refl|]. intros Hc.
  apply (respects_commit _ _ _ _ _ _ _ Ho Hc). intros _.
  destruct (decide (org = o)) as [->|Hne]; [by apply respects_admin|].
  apply respects_same; [done| |done|done]. unfold org_rows. simpl.
  rewrite filter_delete; [done|]. intros x _ [Hx%String.eqb_eq _]%andb_true_iff.
  apply String.eqb_neq. congruence.
Qed.

(** The team found by its identifier is the only one with it. *)
Lemma team_unique team_id team t :
  get_team d team_id = Some team → t ∈ db_teams d → te_id t = team_id → t = team.
Proof.
  intros [Hin He%String.eqb_eq]%py_find_elem Ht Hid.
  eapply (NoDup_fmap_eq te_id); [by apply uniqueness_inv|done..|congruence].
Qed.

Lemma respects_create_team id org name d' r :
  create_team id org name user d = (d', r) → respects u d d' o.
Proof.
  intros [->|([] & Ha%check_org_role_inv & Hc)]%guard_inv; [by apply respects_refl|].
  apply (respects_commit _ _ _ _ _ _ _ Ho Hc). intros _.
  destruct (decide (org = o)) as [->|Hne]; [by apply respects_admin|].
  apply respects_same; [done| | |done].
  - unfold org_rows. simpl. rewrite (filter_add _ (db_teams d)); [done|]. by apply String.eqb_neq.
  - unfold team_rows. simpl. apply py_filter_ext. intros m _. rewrite existsb_app. simpl.
    by rewrite (proj2 (String.eqb_neq org o) Hne), andb_false_r, orb_false_r.
Qed.

Lemma respects_update_team team_id name d' r :
  update_team team_id name user d = (d', r) → respects u d d' o.
Proof.
  intros [->|(team & Ht & Ha%check_org_role_inv & Hc)]%with_team_inv; [by apply respects_refl|].
  set (team' := match name with Some n => set_te_name n team | None => team end) in Hc.
  assert (te_id team' = te_id team ∧ te_org team' = te_org team) as [Hid Horg]
    by (unfold team'; destruct name; done).
  apply (respects_commit _ _ _ _ _ _ _ Ho Hc). intros _.
  destruct (decide (te_org team = o)) as [<-|Hne]; [by apply respects_admin|].
  assert (Hx : ∀ x, x ∈ db_teams d → String.eqb (te_id x) team_id = true → x = team).
  { intros x Hx He%String.eqb_eq. by eapply team_unique. }
  apply respects_same; [done| | |done].
  - unfold org_rows. simpl. rewrite (filter_update _ _ _ (db_teams d)); [done|].
    intros x Hin ->%Hx; [|done]. split; apply String.eqb_neq; congruence.
  - unfold team_rows. simpl. apply py_filter_ext. intros m _. apply existsb_update.
    intros x Hin ->%Hx; [|done]. by rewrite Hid, Horg.
Qed.

Lemma respects_delete_team team_id d' r :
  delete_team team_id user d = (d', r) → respects u d d' o.
Proof.
  intros [->|(team & Ht & Ha%check_org_role_inv & Hc)]%with_team_inv; [by apply respects_refl|].
  apply (respects_commit _ _ _ _ _ _ _ Ho Hc). intros _.
  destruct (decide (te_org team = o)) as [<-|Hne]; [by apply respects_admin|].
  assert (Hx : ∀ x, x ∈ db_teams d → te_id x = team_id → te_org x ≠ o).
  { intros x Hx He Hox. rewrite (team_unique _ _ _ Ht Hx He) in Hox. done. }
  apply respects_same; [done| | |done].
  - unfold org_rows. simpl. rewrite (filter_delete _ _ (db_teams d)); [done|].
    intros x Hin He%String.eqb_eq. by apply String.eqb_neq, Hx.
  - unfold team_rows. simpl. etrans; [apply py_filter_ext; intros m Hm|apply filter_delete].
    + apply existsb_delete. intros x Hin He%String.eqb_eq.
      by rewrite (proj2 (String.eqb_neq _ _) (Hx x Hin He)), andb_false_r.
    + intros m Hm He%String.eqb_eq. apply not_true_iff_false. rewrite existsb_exists.
      intros (t & Ht' & [He2%String.eqb_eq Ho2%String.eqb_eq]%andb_true_iff).
      apply (Hx t); [by apply list_elem_of_In|congruence|done].
Qed.

Lemma respects_add_team_member team_id target role d' r :
  add_team_member team_id target role user d = (d', r) → respects u d d' o.
Proof.
  intros [->|(team & Ht & Ha%check_org_role_inv & Hc)]%with_team_inv; [by apply respects_refl|].
  revert Hc. destruct (get_user d target); [|intros [= <- _]; by apply respects_refl].
  destruct (one_or_none _) as [[?|]|]; [intros [= <- _]; by apply respects_refl| |
    intros [= <- _]; by apply respects_refl].
  destruct (ensure_role role d) as [[d1 r1]|] eqn:Hr; [|intros [= <- _]; by apply respects_refl].
  apply ensure_role_inv in Hr as ((l & ->) & _). intros Hc.
  apply (respects_commit _ _ _ _ _ _ _ Ho Hc). intros _.
  split; [by left|]. split; [|by left].
  destruct (decide (te_org team = o)) as [<-|Hne]; [by right|left].
  unfold team_rows. simpl. apply filter_add, not_true_iff_false. rewrite existsb_exists. simpl.
  intros (t & Ht'%list_elem_of_In & [He%String.eqb_eq Ho'%String.eqb_eq]%andb_true_iff).
  apply Hne. by rewrite <- (team_unique _ _ _ Ht Ht' He).
Qed.

Lemma respects_keys keys : respects u d (set_keys keys d) o.
Proof. by apply respects_same. Qed.

Lemma respects_create_key id token salt org name u' d' r :
  create_key id token salt org name u' d = (d', r) → respects u d d' o.
Proof.
  unfold create_key. destruct (create_api_key _ _ _ _ _ _ d) as [d1 [[raw k]|]] eqn:Hc;
    intros [= <- _]; apply (respects_commit _ _ _ _ _ _ _ Ho Hc); intros _; apply respects_keys.
Qed.
Lemma respects_delete_key key u' d' r :
  delete_key key u' d = (d', r) → respects u d d' o.
Proof.
  intros ->%delete_key_db. unfold revoke_api_key.
  destruct (py_find _ _) as [k|]; [|by apply respects_refl].
  case_match; [by apply respects_refl|]. destruct (commit _ _ _) as [d1 res] eqn:Hc. simpl.
  apply (respects_commit _ _ _ _ _ _ _ Ho Hc). intros _. apply respects_keys.
Qed.

Lemma respects_route q d' r : route created_at user q d = (d', r) → respects u d d' o.
Proof.
  intros Hr. unfold route in Hr. destruct q; peel Hr; try (exact (respects_refl _ _ _ Ho));
    try match goal with Hq : require_role _ _ _ _ = Ok _ |- _ => apply require_role_inv in Hq end.
  - exact (respects_create_org _ _ _ _ Hr).
  - injection Hr as <- _. exact (respects_refl _ _ _ Ho).
  - by eapply respects_update_org.
  - by eapply respects_delete_org.
  - by eapply respects_add_member.
  - injection Hr as <- _. exact (respects_refl _ _ _ Ho).
  - by eapply respects_remove_member.
  - exact (respects_create_team _ _ _ _ _ Hr).
  - injection Hr as <- _. exact (respects_refl _ _ _ Ho).
  - exact (respects_update_team _ _ _ _ Hr).
  - exact (respects_delete_team _ _ _ Hr).
  - exact (respects_add_team_member _ _ _ _ _ Hr).
  - apply with_team_inv in Hr as [->|(t & _ & _ & Hr)]; [|injection Hr as <- _];
      exact (respects_refl _ _ _ Ho).
  - exact (respects_create_key _ _ _ _ _ _ _ _ Hr).
  - injection Hr as <- _. exact (respects_refl _ _ _ Ho).
  - exact (respects_delete_key _ _ _ _ Hr).
  - injection Hr as <- _. exact (respects_refl _ _ _ Ho).
Qed.
End respect.

(** C18 A request changes an organization that exists only if its user is a member of it:
    the organization itself, its members and its teams only with the rank of an admin (1)
    or better, the members of its teams only with the rank of a manager (2) or better, and
    it disappears only at the request of an owner (rank 0).  The user's role is read from
    the database, so no request of a stranger, whatever its path or body, changes it. *)
Theorem changes_need_role `{HMAC} created_at user q d o :
  integrity d = true → o ∈ og_id <$> db_orgs d →
  respects (au_user_id user) d (serve created_at user q d).1 o.
Proof.
  intros Hd Ho. unfold serve. destruct (route created_at user q d) as [d' [a|e]] eqn:Hr;
    exact (respects_route created_at user d o Hd Ho q d' _ Hr).
Qed.

(** ** Deleting an organization *)

(** The deletion of an organization that still has a team fails, whoever asks: the rows
    that refer to it are not removed, the schema's constraints refuse the commit, the
    answer is a server error and the database stays as it was. *)
Theorem delete_org_with_team_fails org user d t row :
  get_org d org = Some row → t ∈ db_teams d → te_org t = org →
  delete_org org user d = (d, Raise IntegrityError)
  ∧ exception_handler IntegrityError = JSONResponse 500 (JStr "Internal Server Error").
Proof.
  intros Ho Ht He. split; [|done]. unfold delete_org. rewrite Ho. unfold commit.
  destruct (integrity _) eqn:Hi; [|done]. exfalso.
  unfold integrity, references in Hi. rewrite !andb_true_iff in Hi. simpl in Hi.
  destruct Hi as (_ & (((((((((_ & _) & Hteams) & _) & _) & _) & _) & _) & _) & _)).
  rewrite forallb_forall in Hteams. specialize (Hteams t). rewrite <- list_elem_of_In in Hteams.
  apply Hteams, uuid_in_spec, list_elem_of_fmap in Ht as (o & Heq & [Hne%String.eqb_neq _]%delete_rows_elem).
  congruence.
Qed.

(** ** The life of an API key *)

Section keys.
Context `{HMAC}.

(** The candidates for a text: the active keys with its prefix. *)
Definition candidates (raw : string) (d : Database) : list ApiKey :=
  py_filter (λ k, String.eqb (ak_prefix k)
                    (KEY_PREFIX +:+ str_take PREFIX_LEN
                       (String.substring 7 (String.length raw - 7) raw)) && ak_is_active k)
    (db_keys d).
(** No key of the table is taken for another one's text. *)
Definition no_collision (raw : string) (d : Database) : Prop :=
  ∀ k, k ∈ candidates raw d → hmac_sha256 (ak_salt k) raw ≠ ak_key_hash k.

Lemma py_find_app {A} (f : A → bool) l k :
  py_find f (l ++ k) = match py_find f l with Some x => Some x | None => py_find f k end.
Proof. induction l as [|x l IH]; simpl; [done|]. by destruct (f x). Qed.

Lemma candidates_raw token d :
  candidates (KEY_PREFIX +:+ token) d
  = py_filter (λ k, String.eqb (ak_prefix k) (KEY_PREFIX +:+ str_take PREFIX_LEN token)
                    && ak_is_active k) (db_keys d).
Proof.
  unfold candidates. change 7%nat with (String.length KEY_PREFIX). by rewrite substring_rest.
Qed.

Lemma verify_candidates token d :
  verify_api_key (KEY_PREFIX +:+ token) d
  = py_find (λ k, String.eqb (hmac_sha256 (ak_salt k) (KEY_PREFIX +:+ token)) (ak_key_hash k))
      (candidates (KEY_PREFIX +:+ token) d).
Proof. unfold verify_api_key, startswith. by rewrite prefix_append. Qed.

Lemma no_collision_verify token d :
  no_collision (KEY_PREFIX +:+ token) d → verify_api_key (KEY_PREFIX +:+ token) d = None.
Proof.
  intros Hn. rewrite verify_candidates. destruct (py_find _ _) as [k|] eqn:Hf; [|done].
  apply py_find_elem in Hf as [Hk He%String.eqb_eq]. by destruct (Hn k Hk).
Qed.

Lemma revoke_integrity id d :
  integrity d = true →
  integrity (set_keys (update_rows (λ x, String.eqb (ak_id x) id) deactivate (db_keys d)) d) = true.
Proof.
  unfold integrity, uniqueness, references.
  cbn [db_roles db_orgs db_users db_members db_teams db_team_members db_keys db_revoked db_servers
       db_audit db_conversations db_secrets db_tokens set_keys].
  rewrite (update_rows_fmap _ _ ak_id) by (intros [] ??; done).
  by rewrite forallb_update by (intros []; done).
Qed.

(** After the revocation no active key has the identifier. *)
Lemma revoked_not_candidate id token d k :
  k ∈ candidates (KEY_PREFIX +:+ token)
        (set_keys (update_rows (λ x, String.eqb (ak_id x) id) deactivate (db_keys d)) d) →
  k ∈ candidates (KEY_PREFIX +:+ token) d ∧ ak_id k ≠ id.
Proof.
  rewrite !candidates_raw, !elem_of_py_filter. simpl.
  intros [Hk (x & -> & Hx)%list_elem_of_fmap]. destruct (String.eqb_spec (ak_id x) id) as [He|He]; [|done].
  simpl in Hk. by rewrite andb_false_r in Hk.
Qed.

(** A created key is accepted, as the record that was created, until it is revoked, and
    refused afterwards; its user can revoke it and nobody else.  The text is given back
    once: the database has its hash under the salt, and the first characters. *)
Theorem api_key_life id token salt user org name d d1 raw k :
  no_collision (KEY_PREFIX +:+ token) d →
  create_api_key id token salt user org name d = (d1, Ok (raw, k)) →
  verify_api_key raw d1 = Some k
  ∧ (∀ other, other ≠ user →
       revoke_api_key id other d1 = (d1, Raise (PermissionError "Cannot revoke another user's API key")))
  ∧ ∃ d2, revoke_api_key id user d1 = (d2, Ok tt) ∧ verify_api_key raw d2 = None.
Proof.
  intros Hn. unfold create_api_key. intros [(-> & Hi & [= -> ->])|(_ & _ & [=])]%commit_inv.
  set (d1 := set_keys _ d) in *. set (key := mkApiKey _ _ _ _ _ _ _ _) in *.
  assert (Hnew : ∀ x, x ∈ db_keys d → ak_id x ≠ id).
  { intros x Hx He. apply uniqueness_inv in Hi as (_ & _ & _ & _ & _ & Hi).
    unfold d1 in Hi. simpl in Hi. rewrite fmap_app, NoDup_app in Hi.
    apply (proj1 (proj2 Hi) id); [rewrite <- He; by apply list_elem_of_fmap_2|apply list_elem_of_here]. }
  assert (Hfind : py_find (λ x, String.eqb (ak_id x) id) (db_keys d1) = Some key).
  { unfold d1. simpl. rewrite py_find_app. destruct (py_find _ (db_keys d)) as [x|] eqn:Hx.
    - apply py_find_elem in Hx as [Hx He%String.eqb_eq]. by destruct (Hnew x Hx).
    - simpl. by rewrite String.eqb_refl. }
  split; [|split].
  - apply no_collision_verify in Hn. rewrite verify_candidates, candidates_raw in Hn |- *.
    unfold d1. simpl. rewrite py_filter_app, py_find_app, Hn. simpl.
    rewrite String.eqb_refl. simpl. by rewrite String.eqb_refl.
  - intros other Hne. unfold revoke_api_key. rewrite Hfind. simpl.
    by rewrite (proj2 (String.eqb_neq user other)) by done.
  - eexists. split.
    + unfold revoke_api_key, commit. rewrite Hfind. change (ak_user key) with user.
      rewrite String.eqb_refl. cbn [negb]. by rewrite revoke_integrity.
    + apply no_collision_verify. intros x [Hx Hid]%revoked_not_candidate. apply Hn.
      revert Hx. rewrite !candidates_raw, !elem_of_py_filter. unfold d1. simpl.
      intros [Hp [Hx| ->%list_elem_of_singleton]%elem_of_app]; [done|by destruct Hid].
Qed.
End keys.

(** ** An organization *)

Module acme.
Definition roles : list Role := [mkRole 1 "owner" 0; mkRole 2 "admin" 1; mkRole 3 "member" 3].
Definition person (i : string) : User := mkUser i ("oid-" +:+ i) (Some i) None None None.
Definition db : Database := mkDatabase roles [new_Organization "acme" "Acme"; new_Organization "other" "Other"]
  (person <$> ["olive"; "adam"; "mary"; "eve"])
  [mkOrgMembership "acme" "olive" 1; mkOrgMembership "acme" "adam" 2; mkOrgMembership "acme" "mary" 3;
   mkOrgMembership "other" "eve" 1]
  [mkTeam "t1" "acme" "Builders" None None None] [mkTeamMembership "t1" "mary" 3 None None]
  [] [] [] [] [] [] [].
Definition user (i : string) : AuthedUser := mkAuthedUser i None None None None.
#[export] Instance hmac : HMAC := λ salt msg, salt +:+ "|" +:+ msg.
Definition ask : AuthedUser → Request → Database → Database * Response := serve (λ _, JNull).

Lemma requests_keep_owners_witness :
  owned db ∧ owned (foldl (λ d v, visit (λ _, JNull) v d) db
    [Ask (user "olive") (RemoveMember "acme" "olive"); Ask (user "adam") (AddMember "acme" "eve" "owner");
     Ask (user "eve") (RemoveMember "acme" "olive"); Login "w1" "zoe" "0a" "oid-zoe" "zoe@x" None;
     Ask (user "zoe") (RemoveMember "w1" "zoe")]).
Proof.
  assert (Hd : owned db).
  { split; [vm_compute; reflexivity|]. intros o Ho. simpl in Ho.
    rewrite !elem_of_cons, elem_of_nil in Ho. destruct Ho as [->|[->|[]]].
    - exists (mkOrgMembership "acme" "olive" 1). split; [apply list_elem_of_here|]. split; [done|].
      exists (mkRole 1 "owner" 0). split; [apply list_elem_of_here|done].
    - exists (mkOrgMembership "other" "eve" 1).
      split; [do 3 apply list_elem_of_further; apply list_elem_of_here|]. split; [done|].
      exists (mkRole 1 "owner" 0). split; [apply list_elem_of_here|done]. }
  split; [exact Hd|]. exact (requests_keep_owners (λ _, JNull) _ db Hd).
Defined.

Lemma changes_need_role_witness :
  integrity db = true ∧ respects "mary" db (ask (user "mary") (DeleteTeam "t1") db).1 "acme".
Proof.
  assert (Hi : integrity db = true) by (vm_compute; reflexivity).
  split; [exact Hi|].
  exact (changes_need_role (λ _, JNull) (user "mary") (DeleteTeam "t1") db "acme" Hi
           (list_elem_of_here _ _)).
Defined.

Lemma delete_org_with_team_fails_witness :
  delete_org "acme" (user "olive") db = (db, Raise IntegrityError).
Proof.
  exact (proj1 (delete_org_with_team_fails "acme" (user "olive") db
                  (mkTeam "t1" "acme" "Builders" None None None) (new_Organization "acme" "Acme")
                  eq_refl (list_elem_of_here _ _) eq_refl)).
Defined.

Lemma api_key_life_witness :
  ∃ d1 raw k, create_api_key "k1" "abcdefghij" "salt" "mary" "acme" "ci" db = (d1, Ok (raw, k))
              ∧ verify_api_key raw d1 = Some k.
Proof.
  eexists _, _, _. split; [vm_compute; reflexivity|].
  refine (proj1 (api_key_life "k1" "abcdefghij" "salt" "mary" "acme" "ci" db _ _ _ _ eq_refl)).
  intros k Hk. vm_compute in Hk. by apply not_elem_of_nil in Hk.
Defined.

(** An admin adds a second account as owner and removes the first owner with it: the check
    of the role is on the admin's rank, not on the role given or taken away. *)
Example admin_takes_over :
  let d1 := (ask (user "adam") (AddMember "acme" "eve" "owner") db).1 in
  let d2 := (ask (user "adam") (RemoveMember "acme" "olive") d1).1 in
  om_user <$> owners db "acme" = ["olive"] ∧ om_user <$> owners d2 "acme" = ["eve"].
Proof. vm_compute. done. Qed.

(** A key can be revoked through the path of any organization its user is a member of. *)
Example other_org_path :
  let d1 := (ask (user "mary") (CreateKey "acme" "k1" "abcdefghij" "salt" "ci") db).1 in
  let d2 := (ask (user "eve") (AddMember "other" "mary" "member") d1).1 in
  let d3 := (ask (user "mary") (DeleteKey "other" "k1") d2).1 in
  ak_is_active <$> db_keys d2 = [true] ∧ ak_is_active <$> db_keys d3 = [false].
Proof. vm_compute. done. Qed.

(** Refusals: a member deletes a team, the last owner leaves, a stranger reads. *)
Example refusals :
  rs_status (ask (user "mary") (DeleteTeam "t1") db).2 = 403
  ∧ rs_status (ask (user "olive") (RemoveMember "acme" "olive") db).2 = 403
  ∧ rs_status (ask (user "eve") (ListMembers "acme") db).2 = 403
  ∧ rs_status (ask (user "olive") (AddMember "acme" "eve" "boss") db).2 = 422
  ∧ rs_status (ask (user "olive") (RemoveMember "acme" "eve") db).2 = 404.
Proof. vm_compute. done. Qed.
End acme.
