(* ===== verification/ApollosAuthProps.v ===== *)
(** * Properties of the ApollosAI authentication

    Who a request is taken to come from, and what logging out does. *)

From S2P Require Import Prelude PyValue Schema Actions Observations Events Serialization.
From S2P Require Import FileStore EventStore ExamplePlatform StrSearch ApollosDb ApollosAuth ApollosOrgs ApollosOrgsProps.
Local Open Scope Z_scope.
Local Open Scope py_scope.

Section auth.
Context `{JWT}.

Lemma check_claims_str claims payload c :
  check_claims claims payload = Ok tt → c ∈ claims → ∃ s, dget c payload = Some (JStr s).
Proof.
  induction claims as [|x l IH]; [intros _ []%not_elem_of_nil|]. simpl.
  intros Hc [->|Hin]%elem_of_cons.
  - destruct (dget x payload) as [[]|]; try done. eauto.
  - apply IH; [|done]. by destruct (dget x payload) as [[]|].
Qed.

(** The claims of a decoded token are texts. *)
Lemma decoded_claims env now token payload :
  decode_session_token env now token = Ok payload →
  ∃ sub email oid, jstr "sub" payload = Some sub ∧ jstr "email" payload = Some email
                   ∧ jstr "entra_oid" payload = Some oid.
Proof.
  unfold decode_session_token. intros (secret & _ & (p & _ & ([] & Hc & [= ->])%rbind_ok_inv)%rbind_ok_inv)%rbind_ok_inv.
  pose proof (check_claims_str _ _ "sub" Hc) as H1. pose proof (check_claims_str _ _ "email" Hc) as H2.
  pose proof (check_claims_str _ _ "entra_oid" Hc) as H3. unfold jstr.
  destruct H1 as [s ->]; [apply list_elem_of_here|].
  destruct H2 as [e ->]; [apply list_elem_of_further, list_elem_of_here|].
  destruct H3 as [o ->]; [do 2 apply list_elem_of_further; apply list_elem_of_here|]. by exists s, e, o.
Qed.

(** What authenticates a request: a token that decodes, whose subject is the user. *)
Definition token_of (env : environ) (now : float) (r : HttpRequest) (sub : string) : Prop :=
  ∃ token payload, request_token r = Some token
    ∧ decode_session_token env now token = Ok payload ∧ jstr "sub" payload = Some sub.

(** C27 A request is accepted as a user only with a token that decodes with the server's
    secret and whose subject is that user's identifier; without one, or with a token that
    decodes and has an empty subject, only in the mode that the environment allows
    explicitly, and only as the development user.  A token that does not decode is refused
    in every mode: it never falls back to the development user. *)
Theorem accepted_requests env now r u :
  require_auth env now r = Ok u →
  (∃ sub, token_of env now r sub ∧ sub ≠ "" ∧ parse_uuid sub = Ok (au_user_id u))
  ∨ allow_unauthenticated env = true ∧ u = dev_user
    ∧ (request_token r = None ∨ token_of env now r "").
Proof.
  unfold require_auth, get_instance. intros (auth & Ha & Hu)%rbind_ok_inv.
  destruct (request_token r) as [token|] eqn:Hr.
  - destruct (decode_session_token env now token) as [payload|] eqn:Hd; [|done].
    injection Ha as <-. simpl in Hu. destruct (decoded_claims _ _ _ _ Hd) as (sub & _ & _ & Hs & _).
    rewrite Hs in Hu. assert (Ht : token_of env now r sub) by by exists token, payload.
    destruct sub as [|c sub].
    + right. destruct (allow_unauthenticated env); [|done]. injection Hu as <-. auto.
    + left. exists (String c sub). apply rbind_ok_inv in Hu as (v & Hv & [= <-]). done.
  - destruct (allow_unauthenticated env) eqn:He; [|done]. injection Ha as <-. simpl in Hu.
    injection Hu as <-. auto.
Qed.

(** A token that is present and does not decode ends the request with the error that is
    answered by 401, whatever the environment allows. *)
Theorem bad_token_refused env now r token e :
  request_token r = Some token → decode_session_token env now token = Raise e →
  require_auth env now r = Raise (InvalidTokenError "Invalid or expired authentication token.")
  ∧ rs_status (exception_handler (InvalidTokenError "Invalid or expired authentication token.")) = 401.
Proof.
  intros Hr Hd. split; [|done]. unfold require_auth, get_instance. by rewrite Hr, Hd.
Qed.

(** ** Round trip *)

(** A session token that the server issues authenticates its user until a second before
    it expires: the cookie is decoded with the same secret and audience, the claims are
    there, and the subject is the user. *)
Theorem session_token_roundtrip `{!JWTLaws} env issued now jti uid email oid expires t u r :
  create_session_token env issued jti uid email oid expires = Ok t →
  t ≠ "" → dget COOKIE_NAME (rq_cookies r) = Some t →
  fleb issued now = true → not_expired now (session_claims uid email oid jti expires issued) →
  uid ≠ "" → parse_uuid uid = Ok u →
  require_auth env now r = Ok (mkAuthedUser u (Some email) None None None).
Proof.
  unfold create_session_token. intros (secret & Hsec & [= Ht])%rbind_ok_inv Hne Hck Hi Hx Hu Hp.
  assert (Hd : decode_session_token env now t = Ok (session_claims uid email oid jti expires issued)).
  { unfold decode_session_token. rewrite Hsec. cbn [rbind]. rewrite <- Ht.
    by rewrite (decode_encode _ _ _ issued). }
  unfold require_auth, get_instance, request_token. rewrite Hck.
  rewrite (proj2 (String.eqb_neq t "") Hne), (proj2 (String.eqb_neq t "") Hne), Hd. cbn [rbind].
  simpl. destruct uid; [done|]. by rewrite Hp.
Qed.

(** ** Logging out *)

Lemma revoked_integrity jti now t d :
  integrity d = true → is_token_revoked d jti = false →
  integrity (set_revoked (db_revoked d ++ [mkRevokedToken jti now t]) d) = true.
Proof.
  intros Hi Hr. unfold integrity, uniqueness, references in *.
  cbn [db_roles db_orgs db_users db_members db_teams db_team_members db_keys db_revoked db_servers
       db_audit db_conversations db_secrets db_tokens set_revoked].
  rewrite !andb_true_iff, !bool_decide_eq_true in *. rewrite fmap_app. intuition.
  apply NoDup_app. split; [done|]. split; [|apply NoDup_singleton].
  intros j (x & -> & Hx)%list_elem_of_fmap Hj%list_elem_of_singleton. simpl in Hj.
  apply not_true_iff_false in Hr. apply Hr, existsb_exists. exists x.
  split; [by apply list_elem_of_In|by apply String.eqb_eq].
Qed.

(** Logging out records the revocation of the session's token, and the check that reads
    it refuses the token from then on; but the authentication of requests does not use that
    check: the same cookie authenticates the same user after the logout as before it. *)
Theorem logout_keeps_session env now clock r d token payload jti e t :
  dget COOKIE_NAME (rq_cookies r) = Some token → token ≠ "" → integrity d = true →
  decode_session_token env now token = Ok payload →
  dget "jti" payload = Some (JStr jti) → jti ≠ "" →
  dget "exp" payload = Some e → fromtimestamp e = Ok t →
  let d' := (logout env now clock r d).1 in
  validate_session_token env now token d'
    = Raise (jwt_InvalidTokenError ("Token has been revoked (jti=" +:+ jti +:+ ")"))
  ∧ get_instance env now r = Ok (mkEntraIDUserAuth (jstr "sub" payload) (jstr "email" payload)).
Proof.
  intros Hck Hne Hi Hd Hj Hjne He Ht d'. split.
  - assert (Hrev : is_token_revoked d' jti = true).
    { unfold d', logout, revoke_session. simpl. rewrite Hck. destruct token; [done|].
      rewrite Hd, Hj, (proj2 (String.eqb_neq jti "") Hjne), He, Ht. unfold revoke_token.
      destruct (is_token_revoked d jti) eqn:Hr; [done|]. unfold commit.
      rewrite revoked_integrity by done. unfold is_token_revoked. simpl.
      rewrite existsb_app. simpl. by rewrite String.eqb_refl, orb_true_r. }
    unfold validate_session_token. rewrite Hd. cbn [rbind]. by rewrite Hj, Hrev.
  - unfold get_instance, request_token. rewrite Hck.
    by rewrite (proj2 (String.eqb_neq token "") Hne), (proj2 (String.eqb_neq token "") Hne), Hd.
Qed.
End auth.

(** ** A concrete token library *)

Module auth_example.
(** Not a signature: the claims with the secret, printed. *)
Definition encode (p : dict) (secret : string) : string := json_dumps (JList [JDict p; JStr secret]).
Definition in_time (now : float) (p : dict) : bool :=
  match dget "exp" p with Some (JFloat x) => fltb now (fsub x (float_of_Z 1)) | _ => true end.
Definition decode (now : float) (token secret audience : string) : result dict :=
  match json_loads token with
  | Ok (JList [JDict p; JStr s]) =>
      if String.eqb s secret && bool_decide (dget "aud" p = Some (JStr audience)) && in_time now p
      then Ok p else Raise (jwt_InvalidTokenError "refused")
  | _ => Raise (jwt_InvalidTokenError "malformed")
  end.
#[export] Instance jwt : JWT := {| jwt_encode := encode; jwt_decode := decode |}.
#[export] Instance jwt_laws : JWTLaws.
Proof.
  intros p secret aud issued now Ha _ _ Hx. simpl. unfold decode, encode. rewrite loads_dumps.
  rewrite String.eqb_refl, bool_decide_true by done. simpl. unfold in_time.
  destruct (dget "exp" p) as [[]|] eqn:He; try done. by rewrite (Hx _ He).
Qed.

Definition secret : string := "0123456789abcdef0123456789abcdef".
Definition env : environ := [("JWT_SECRET", secret)].
Definition dev_env : environ := ("APOLLOSAI_ALLOW_UNAUTHENTICATED", "1") :: env.
Definition uid : string := "0000000a-0000-0000-0000-000000000000".
Definition issued : float := float_of_Z 1000.
Definition now : float := float_of_Z 2000.
Definition claims : dict := session_claims uid "a@x" uid "jti-1" 86400 issued.
Definition token : string := encode claims secret.
Definition request (t : string) : HttpRequest :=
  mkHttpRequest [(COOKIE_NAME, t)] [] [] "host" "https://host/".
Definition db : Database := mkDatabase [] [] [] [] [] [] [] [] [] [] [] [] [].

Lemma accepted_requests_witness :
  (∃ sub, token_of env now (request token) sub ∧ sub ≠ "" ∧ parse_uuid sub = Ok uid)
  ∨ allow_unauthenticated env = true ∧ mkAuthedUser uid (Some "a@x") None None None = dev_user
    ∧ (request_token (request token) = None ∨ token_of env now (request token) "").
Proof.
  apply (accepted_requests env now (request token) (mkAuthedUser uid (Some "a@x") None None None)).
  vm_compute. reflexivity.
Defined.

Lemma bad_token_refused_witness :
  require_auth dev_env now (request "x")
  = Raise (InvalidTokenError "Invalid or expired authentication token.").
Proof.
  exact (proj1 (bad_token_refused dev_env now (request "x") "x" (jwt_InvalidTokenError "malformed")
                  eq_refl eq_refl)).
Defined.

Lemma session_token_roundtrip_witness :
  require_auth env now (request token) = Ok (mkAuthedUser uid (Some "a@x") None None None).
Proof.
  apply (session_token_roundtrip env issued now "jti-1" uid "a@x" uid 86400 token);
    try (vm_compute; reflexivity); try (vm_compute; done).
  intros x [= <-]. vm_compute. reflexivity.
Defined.

Lemma logout_keeps_session_witness :
  get_instance env now (request token)
  = Ok (mkEntraIDUserAuth (Some uid) (Some "a@x")).
Proof.
  refine (proj2 (logout_keeps_session env now 5 (request token) db token claims "jti-1"
    (JFloat (fadd issued (float_of_Z 86400))) 87400000000 _ _ _ _ _ _ _ _));
    try (vm_compute; reflexivity); vm_compute; done.
Defined.
End auth_example.
