(* ===== verification/ApollosStores.v ===== *)
(** * The stores of the ApollosAI server

    Models [apollosai/storage/stores/] (conversations, secrets and settings in the
    database) and [storage/services/token_cache_service.py].  [maker] tells whether the
    session maker is there (the server has started); the user is the text of its
    identifier, which the code parses at every call.  The clock and the fresh identifiers
    are arguments. *)

From S2P Require Import Prelude PyValue Schema Actions Observations Events Serialization FileStore EventStore ExamplePlatform Base64 Secrets ConversationStore ApollosDb ApollosAuth ApollosCrypto ApollosOrgs ApollosOrgsProps StrSearch.
From S2P Require Import FileStore EventStore Secrets ConversationStore.
Local Open Scope Z_scope.
Local Open Scope py_scope.

(** A store of a user: [cls(config, user_id, session_maker)]. *)
Record Store := mkStore { st_user_id : option string; st_maker : bool }.

(** The user, when there is one and the database is up. *)
Definition store_user (s : Store) : option string := if st_maker s then st_user_id s else None.

(** ** Conversations *)

(** What the store keeps of a [ConversationMetadata]. *)
Record ConversationRecord := mkConversationRecord {
  cr_conversation_id : string;
  cr_title : option string;
  cr_info : ConversationInfo;
}.

(** [ConversationMetadata(...)] of a row. *)
Record ConversationView := mkConversationView {
  cv_conversation_id : string;
  cv_title : option string;
  cv_user_id : string;
  cv_info : ConversationInfo;
  cv_created_at : Z;
  cv_last_updated_at : Z;
}.
Definition no_info : ConversationInfo := mkConversationInfo None None None.
Definition row_view (c : Conversation) : ConversationView :=
  mkConversationView (co_id c) (co_title c) (co_user c) (from_option id no_info (co_metadata c))
    (co_created_at c) (co_updated_at c).

Definition update_conversation (m : ConversationRecord) (now : Z) (c : Conversation) : Conversation :=
  mkConversation (co_id c) (co_user c) (co_org c) (cr_title m) (Some (cr_info m)) (co_deleted_at c)
    (co_created_at c) now.

(** [save_metadata]; [now] is what the columns of the time get. *)
Definition db_save_metadata (s : Store) (now : Z) (m : ConversationRecord) : handler unit :=
  λ d, match store_user s with
  | None => (d, Ok tt)
  | Some user =>
      match py_find (λ c, String.eqb (co_id c) (cr_conversation_id m)) (db_conversations d) with
      | Some _ =>
          commit d (set_conversations (update_rows (λ c, String.eqb (co_id c) (cr_conversation_id m))
                                         (update_conversation m now) (db_conversations d)) d) tt
      | None =>
          match parse_uuid user with
          | Raise e => (d, Raise e)
          | Ok u =>
              (* the identifier of the user stands for the organization's *)
              let conv := mkConversation (cr_conversation_id m) u u (cr_title m) (Some (cr_info m))
                            None now now in
              commit d (set_conversations (db_conversations d ++ [conv]) d) tt
          end
      end
  end.

(** The rows a user may see: its own, not deleted. *)
Definition visible (u : uuid) (c : Conversation) : bool :=
  String.eqb (co_user c) u && match co_deleted_at c with None => true | Some _ => false end.
Definition visible_rows (d : Database) (u : uuid) (conversation_id : string) : list Conversation :=
  py_filter (λ c, String.eqb (co_id c) conversation_id && visible u c) (db_conversations d).

Definition db_get_metadata (s : Store) (conversation_id : string) (d : Database) :
    result ConversationView :=
  match store_user s with
  | None => Raise FileNotFoundError
  | Some user =>
      let? u := parse_uuid user in
      let? row := one_or_none (visible_rows d u conversation_id) in
      match row with Some c => Ok (row_view c) | None => Raise FileNotFoundError end
  end.

Definition mark_deleted (now : Z) (c : Conversation) : Conversation :=
  mkConversation (co_id c) (co_user c) (co_org c) (co_title c) (co_metadata c) (Some now)
    (co_created_at c) (co_updated_at c).
Definition db_delete_metadata (s : Store) (now : Z) (conversation_id : string) : handler unit :=
  λ d, match store_user s with
  | None => (d, Ok tt)
  | Some user =>
      match parse_uuid user with
      | Raise e => (d, Raise e)
      | Ok u =>
          match one_or_none (visible_rows d u conversation_id) with
          | Raise e => (d, Raise e)
          | Ok None => (d, Ok tt)
          | Ok (Some _) =>
              commit d (set_conversations
                (update_rows (λ c, String.eqb (co_id c) conversation_id && visible u c)
                   (mark_deleted now) (db_conversations d)) d) tt
          end
      end
  end.

Definition db_exists (s : Store) (conversation_id : string) (d : Database) : result bool :=
  match store_user s with
  | None => Ok false
  | Some user =>
      let? u := parse_uuid user in
      let? row := one_or_none (visible_rows d u conversation_id) in
      Ok (match row with Some _ => true | None => false end)
  end.

(** [order_by(created_at.desc())], rows of the same time in the table's order. *)
Fixpoint insert_conversation (c : Conversation) (l : list Conversation) : list Conversation :=
  match l with
  | [] => [c]
  | x :: l => if co_created_at x <? co_created_at c then c :: x :: l else x :: insert_conversation c l
  end.
Definition by_creation (l : list Conversation) : list Conversation :=
  foldl (λ acc c, insert_conversation c acc) [] l.

Definition db_search (s : Store) (limit : Z) (d : Database) (page_id : option string) :
    result (ResultSet ConversationView) :=
  match store_user s with
  | None => Ok (mkResultSet [] None)
  | Some user =>
      let? u := parse_uuid user in
      let page := match page_id with
                  | None | Some "" => λ _, true
                  | Some p => λ c, String.ltb (co_id c) p
                  end in
      let rows := take (Z.to_nat (limit + 1))
        (by_creation (py_filter (λ c, visible u c && page c) (db_conversations d))) in
      let has_next := limit <? py_len rows in
      let rows := if has_next then py_slice None (Some limit) rows else rows in
      Ok (mkResultSet (row_view <$> rows) (if has_next then co_id <$> last rows else None))
  end.

(** ** Secrets *)

Definition SECRETS_KEY : string := "__secrets__".

Section secrets.
Context `{Platform} `{AEAD}.
Variable env : environ.

(** The state is the database and the cached key. *)
Abbreviation secretM A := (pyM (Database * option string) A).
Definition with_key {A} (m : pyM (option string) A) : secretM A :=
  λ s, let '(k, r) := m s.2 in ((s.1, k), r).

(** [_resolve_org_id]: [UUID(self.user_id)] was parsed before. *)
Definition resolve_org_id (u : uuid) (d : Database) : option uuid :=
  match get_user d u with Some user => us_current_org_id user | None => None end.

Definition secret_rows (d : Database) (u org : uuid) : list EncryptedSecret :=
  py_filter (λ s, String.eqb (es_user s) u && String.eqb (es_org s) org
                  && String.eqb (es_key s) SECRETS_KEY) (db_secrets d).

(** The additional data: the identifier as the store has it, and the organization's. *)
Definition secret_aad (user : string) (org : uuid) : option string := Some (user +:+ ":" +:+ org).

Definition db_secrets_load (s : Store) : secretM Secrets :=
  match store_user s with
  | None => pret no_secrets
  | Some user =>
      let* u := plift (parse_uuid user) in
      let* st := pget in
      match resolve_org_id u st.1 with
      | None => pret no_secrets
      | Some org =>
          let* row := plift (one_or_none (secret_rows st.1 u org)) in
          match row with
          | None => pret no_secrets
          | Some r =>
              let* text := with_key (decrypt_value env (es_value r) (secret_aad user org)) in
              let* j := plift (json_loads text) in
              match j with
              | JDict d => pret (secrets_from_dict d)
              | _ => praise (TypeError "argument after ** must be a mapping")
              end
          end
      end
  end.

Definition set_value (v : string) (r : EncryptedSecret) : EncryptedSecret :=
  mkEncryptedSecret (es_id r) (es_user r) (es_org r) (es_key r) v.
Definition commit_db (new : Database) : secretM unit :=
  λ st, let '(d, r) := commit st.1 new tt in ((d, st.2), r).

Definition db_secrets_store (id nonce : string) (s : Store) (secrets : Secrets) : secretM unit :=
  match store_user s with
  | None => pret tt
  | Some user =>
      let* u := plift (parse_uuid user) in
      let json_str := json_dumps (JDict (secrets_dump true secrets)) in
      let* st := pget in
      match resolve_org_id u st.1 with
      | None => pret tt
      | Some org =>
          let* encrypted := with_key (encrypt_value env nonce json_str (secret_aad user org)) in
          let* row := plift (one_or_none (secret_rows st.1 u org)) in
          match row with
          | Some r =>
              commit_db (set_secrets (update_rows (λ x, String.eqb (es_id x) (es_id r))
                                        (set_value encrypted) (db_secrets st.1)) st.1)
          | None =>
              commit_db (set_secrets (db_secrets st.1
                           ++ [mkEncryptedSecret id u org SECRETS_KEY encrypted]) st.1)
          end
      end
  end.

(** ** The token cache *)

Definition save_token_cache (nonce : string) (user_id : uuid) (cache_json : string) : secretM unit :=
  let* encrypted := with_key (encrypt_value env nonce cache_json (Some user_id)) in
  let* st := pget in
  match py_find (λ t, String.eqb (at_id t) user_id) (db_tokens st.1) with
  | Some _ => commit_db (set_tokens (update_rows (λ t, String.eqb (at_id t) user_id)
                (λ t, mkAuthToken (at_id t) (at_user t) encrypted) (db_tokens st.1)) st.1)
  | None => commit_db (set_tokens (db_tokens st.1 ++ [mkAuthToken user_id user_id encrypted]) st.1)
  end.
Definition load_token_cache (user_id : uuid) : secretM (option string) :=
  let* st := pget in
  match py_find (λ t, String.eqb (at_id t) user_id) (db_tokens st.1) with
  | None => pret None
  | Some t => let* text := with_key (decrypt_value env (at_cache t) (Some user_id)) in
              pret (Some text)
  end.
End secrets.

(** ** Settings *)

(** The fields of the settings that the layers set. *)
Record Settings := mkSettings {
  se_agent : option string;
  se_max_iterations : option Z;
  se_llm_model : option string;
  se_llm_base_url : option string;
}.

(** A value that is not [None], empty or zero. *)
Definition set_text (x : option string) : option string :=
  match x with Some "" => None | x => x end.
Definition set_num (x : option Z) : option Z :=
  match x with Some 0 => None | x => x end.
(** [if value: d[k] = value] *)
Definition over {A} (value current : option A) : option A :=
  match value with Some v => Some v | None => current end.

(** The three layers, as a dictionary of updates. *)
Definition org_layer (d : Database) (u : User) (s : Settings) : Settings :=
  match us_current_org_id u ≫= get_org d with
  | None => s
  | Some o => mkSettings (over (set_text (og_agent o)) (se_agent s))
                (over (set_num (og_max_iterations o)) (se_max_iterations s))
                (over (set_text (og_llm_model o)) (se_llm_model s))
                (over (set_text (og_llm_base_url o)) (se_llm_base_url s))
  end.
Definition team_layer (d : Database) (u : User) (s : Settings) : Settings :=
  match us_current_team_id u ≫= get_team d with
  | None => s
  | Some t => mkSettings (se_agent s)
                (over (set_num (te_max_iterations t)) (se_max_iterations s))
                (over (set_text (te_llm_model t)) (se_llm_model s))
                (over (set_text (te_llm_base_url t)) (se_llm_base_url s))
  end.
Definition user_layer (d : Database) (u : User) (s : Settings) : result Settings :=
  match us_current_team_id u with
  | None => Ok s
  | Some team =>
      let? row := one_or_none (team_membership_rows d team (us_id u)) in
      Ok (match row with
          | None => s
          | Some m => mkSettings (se_agent s)
                        (over (set_num (tm_max_iterations m)) (se_max_iterations s))
                        (over (set_text (tm_llm_model m)) (se_llm_model s)) (se_llm_base_url s)
          end)
  end.
Definition empty_settings : Settings := mkSettings None None None None.

(** [base.model_copy(update=settings_dict)] *)
Definition settings_update (upd base : Settings) : Settings :=
  mkSettings (over (se_agent upd) (se_agent base)) (over (se_max_iterations upd) (se_max_iterations base))
    (over (se_llm_model upd) (se_llm_model base)) (over (se_llm_base_url upd) (se_llm_base_url base)).

(** [from_config] is what [Settings.from_config()] gives. *)
Definition db_settings_load (s : Store) (from_config : option Settings) (d : Database) :
    result Settings :=
  let base := from_option id empty_settings from_config in
  match store_user s with
  | None => Ok base
  | Some user =>
      let? uid := parse_uuid user in
      match get_user d uid with
      | None => Ok base
      | Some u =>
          let? upd := user_layer d u (team_layer d u (org_layer d u empty_settings)) in
          Ok (settings_update upd base)
      end
  end.

Definition override_member (st : Settings) (m : TeamMembership) : TeamMembership :=
  mkTeamMembership (tm_team m) (tm_user m) (tm_role m)
    (over (set_text (se_llm_model st)) (tm_llm_model m))
    (over (set_num (se_max_iterations st)) (tm_max_iterations m)).
Definition db_settings_store (s : Store) (st : Settings) : handler unit :=
  λ d, match store_user s with
  | None => (d, Ok tt)
  | Some user =>
      match parse_uuid user with
      | Raise e => (d, Raise e)
      | Ok uid =>
          match get_user d uid with
          | None => (d, Ok tt)
          | Some u =>
              match us_current_team_id u with
              | None => (d, Ok tt)
              | Some team =>
                  match one_or_none (team_membership_rows d team (us_id u)) with
                  | Raise e => (d, Raise e)
                  | Ok None => (d, Ok tt)
                  | Ok (Some _) =>
                      commit d (set_team_members
                        (update_rows (λ m, String.eqb (tm_team m) team && String.eqb (tm_user m) (us_id u))
                           (override_member st) (db_team_members d)) d) tt
                  end
              end
          end
      end
  end.

(** * Properties of the ApollosAI stores

    Secrets come back and are bound to their organization, settings are resolved and
    stored by layers, conversations are a user's own; and what saving a conversation does
    wrong. *)
Lemma filter_update_inv {A} (f p : A → bool) g l :
  (∀ x, f (g x) = f x) → py_filter f (update_rows p g l) = update_rows p g (py_filter f l).
Proof.
  intros Hf. induction l as [|x l IH]; [done|]. unfold update_rows. rewrite fmap_cons. simpl.
  assert (Hx : f (if p x then g x else x) = f x) by (destruct (p x); auto). rewrite Hx.
  destruct (f x); [rewrite fmap_cons; f_equal|]; apply IH.
Qed.

(** ** Secrets *)

Section secrets.
Context `{PlatformLaws} `{AEADLaws}.
Variables (env : environ) (s : Store) (user : string) (u org : uuid).
Hypothesis Hs : store_user s = Some user.
Hypothesis Hu : parse_uuid user = Ok u.

Lemma commit_db_inv new st st' r :
  commit_db new st = (st', r) → r = Ok tt → st' = (new, st.2).
Proof.
  unfold commit_db. destruct (commit st.1 new tt) as [d r'] eqn:Hc. intros [= <- <-] ->.
  apply commit_inv in Hc as [(-> & _)|(_ & _ & [=])]. done.
Qed.

Lemma secret_aad_bytes user1 org1 : aad_bytes (secret_aad user1 org1) = secret_aad user1 org1.
Proof. by destruct user1. Qed.
(** What the row of the secrets holds. *)
Definition ciphertext (key nonce : string) (secrets : Secrets) : string :=
  aesgcm_encrypt key nonce (json_dumps (JDict (secrets_dump true secrets))) (secret_aad user org).

(** The row of the secrets after a store: the encrypted text is the dump's. *)
Lemma secrets_stored id nonce secrets d k d' k' :
  resolve_org_id u d = Some org → String.length nonce = 12%nat →
  db_secrets_store env id nonce s secrets (d, k) = ((d', k'), Ok tt) →
  resolve_org_id u d' = Some org
  ∧ ∃ key r, k' = Some key ∧ secret_rows d' u org = [r]
         ∧ ∀ env' aad, decrypt_value env' (es_value r) aad k'
             = (k', aesgcm_decrypt key nonce (ciphertext key nonce secrets) (aad_bytes aad)).
Proof using Hs Hu.
  intros Horg Hn. unfold db_secrets_store. rewrite Hs, Hu. unfold pbind, plift, pget. simpl.
  rewrite Horg. unfold with_key. simpl.
  destruct (encrypt_value env nonce _ _ k) as [k1 [enc|]] eqn:He; [|done].
  assert (∃ key, k1 = Some key ∧ ∀ env' aad, decrypt_value env' enc aad k1
    = (k1, aesgcm_decrypt key nonce (ciphertext key nonce secrets) (aad_bytes aad))) as (key & -> & Hdec).
  { destruct (decrypt_encrypted env env nonce _ _ None _ _ _ Hn He) as (key & Hk & _).
    exists key. split; [done|]. intros env' aad.
    destruct (decrypt_encrypted env env' nonce _ _ aad _ _ _ Hn He) as (key' & Hk' & Hd).
    rewrite Hk in Hk'. injection Hk' as <-. rewrite Hd. unfold ciphertext. by rewrite secret_aad_bytes. }
  simpl. destruct (one_or_none (secret_rows d u org)) as [[r|]|] eqn:Hr; [| |done].
  - intros [= -> ->]%commit_db_inv; [|done]. split; [done|]. apply one_or_none_some in Hr.
    exists key, (set_value enc r). split; [done|]. split; [|done]. unfold secret_rows. simpl.
    rewrite filter_update_inv by done. fold (secret_rows d u org). rewrite Hr.
    unfold update_rows. simpl. by rewrite String.eqb_refl.
  - intros [= -> ->]%commit_db_inv; [|done]. split; [done|]. apply one_or_none_none in Hr.
    exists key, (mkEncryptedSecret id u org SECRETS_KEY enc). split; [done|]. split; [|done].
    unfold secret_rows. simpl.
    rewrite py_filter_app. fold (secret_rows d u org). rewrite Hr. simpl. by rewrite !String.eqb_refl.
Qed.

(** The additional data tell users and organizations apart: an organization's identifier
    has no colon. *)
Lemma colon_split a b x y :
  has_char ":" x = false → has_char ":" y = false → a +:+ ":" +:+ x = b +:+ ":" +:+ y → a = b ∧ x = y.
Proof.
  intros Hx Hy. revert b. induction a as [|c a IH]; intros [|c' b] Heq; simpl in Heq.
  - injection Heq as Heq. by split.
  - injection Heq as _ Heq. change ("" +:+ x) with x in Heq. rewrite Heq, has_char_app in Hx. by rewrite orb_comm in Hx.
  - injection Heq as _ Heq. change ("" +:+ y) with y in Heq. rewrite <-Heq, has_char_app in Hy. by rewrite orb_comm in Hy.
  - injection Heq as -> Heq. by destruct (IH _ Heq) as [-> ->].
Qed.
Lemma secret_aad_inj user1 org1 user2 org2 :
  has_char ":" org1 = false → has_char ":" org2 = false →
  secret_aad user1 org1 = secret_aad user2 org2 → user1 = user2 ∧ org1 = org2.
Proof. intros Ho1 Ho2 [= Heq]. by apply colon_split. Qed.

(** C28 Secrets stored by a user with a current organization are loaded again by the same
    user in the same organization (but for providers without a token), through the
    encryption, the base64 text and the JSON document; and the stored text is of no use to
    another user, or in another organization (whose identifiers have no colon): where their
    row holds the text, whatever else the database does, loading raises [InvalidTag]. *)
Theorem secrets_stored_and_bound id nonce secrets d k d' k' env' :
  resolve_org_id u d = Some org → String.length nonce = 12%nat → has_char ":" org = false →
  db_secrets_store env id nonce s secrets (d, k) = ((d', k'), Ok tt) →
  db_secrets_load env' s (d', k') = ((d', k'), Ok (nonempty_tokens secrets))
  ∧ ∃ r, secret_rows d' u org = [r]
      ∧ ∀ s2 user2 u2 org2 d2 r2,
          store_user s2 = Some user2 → parse_uuid user2 = Ok u2 → resolve_org_id u2 d2 = Some org2 →
          has_char ":" org2 = false → user2 ≠ user ∨ org2 ≠ org →
          secret_rows d2 u2 org2 = [r2] → es_value r2 = es_value r →
          db_secrets_load env' s2 (d2, k') = ((d2, k'), Raise (OtherError "InvalidTag" "")).
Proof using All.
  intros Horg Hn Hcolon Hst. destruct (secrets_stored _ _ _ _ _ _ _ Horg Hn Hst)
    as (Horg' & key & r & -> & Hr & Hdec).
  split.
  - unfold db_secrets_load. rewrite Hs, Hu. unfold pbind, plift, pget. simpl.
    rewrite Horg', Hr. simpl. unfold with_key. simpl. rewrite Hdec, secret_aad_bytes.
    unfold ciphertext. rewrite decrypt_encrypt. simpl. rewrite loads_dumps. simpl.
    unfold pret. by rewrite secrets_from_dump.
  - exists r. split; [done|]. intros s2 user2 u2 org2 d2 r2 Hs2 Hu2 Ho2 Hc2 Hother Hr2 Hval.
    unfold db_secrets_load. rewrite Hs2, Hu2. unfold pbind, plift, pget. simpl.
    rewrite Ho2, Hr2. simpl. unfold with_key. simpl. rewrite Hval, Hdec, secret_aad_bytes. unfold ciphertext.
    rewrite decrypt_other_data; [done|]. intros Heq.
    destruct (secret_aad_inj user org user2 org2 Hcolon Hc2) as [-> ->]; [by symmetry|]. by destruct Hother.
Qed.
End secrets.

(** ** Settings *)

(** Rows that agree on a key are one row at most. *)
Lemma filter_unique {A B} (h : A → B) (c : B) (f : A → bool) l :
  NoDup (h <$> l) → (∀ x, f x = true → h x = c) → one_or_none (py_filter f l) = Ok (head (py_filter f l)).
Proof.
  intros Hd Hf. assert (Hn : ∀ x y k, py_filter f l ≠ x :: y :: k); [|].
  { intros x y k He. assert (Hs : sublist (x :: y :: k) l).
    { rewrite <- He. clear. induction l as [|z l IH]; simpl; [done|]. case_match; by constructor. }
    apply (fmap_sublist h) in Hs. apply (sublist_NoDup _ _ Hd) in Hs. rename Hs into Hd'. rewrite !fmap_cons in Hd'.
    assert (Hx : x ∈ py_filter f l ∧ y ∈ py_filter f l)
      by (rewrite He; split; [apply list_elem_of_here|apply list_elem_of_further, list_elem_of_here]).
    rewrite !elem_of_py_filter in Hx. destruct Hx as [[Hx _] [Hy _]].
    rewrite (Hf x Hx), (Hf y Hy) in Hd'. apply NoDup_cons in Hd' as [Hd' _].
    apply Hd', list_elem_of_here. }
  destruct (py_filter f l) as [|x [|y k]]; [done..|by destruct (Hn x y k)].
Qed.
Lemma team_membership_single d t u :
  integrity d = true →
  one_or_none (team_membership_rows d t u) = Ok (head (team_membership_rows d t u)).
Proof.
  intros Hi. apply (filter_unique (λ m, (tm_team m, tm_user m)) (t, u)).
  - unfold integrity, uniqueness in Hi. rewrite !andb_true_iff, !bool_decide_eq_true in Hi. tauto.
  - intros x [->%String.eqb_eq ->%String.eqb_eq]%andb_true_iff. done.
Qed.

Lemma over_assoc {A} (a b c : option A) : over (over a b) c = over a (over b c).
Proof. by destruct a. Qed.

(** Settings are resolved from the most specific layer that sets them: the model is the
    member's, or else the team's, or else the organization's, or else the configured one;
    the number of iterations likewise; the base URL has no member's layer, and the agent is
    the organization's only. *)
Theorem settings_resolution s user uid u base d :
  store_user s = Some user → parse_uuid user = Ok uid → get_user d uid = Some u →
  integrity d = true →
  ∃ st, db_settings_load s (Some base) d = Ok st ∧
  let member := us_current_team_id u ≫= λ t, head (team_membership_rows d t (us_id u)) in
  let team := us_current_team_id u ≫= get_team d in
  let org := us_current_org_id u ≫= get_org d in
  se_llm_model st = over (set_text (member ≫= tm_llm_model)) (over (set_text (team ≫= te_llm_model))
                      (over (set_text (org ≫= og_llm_model)) (se_llm_model base)))
  ∧ se_max_iterations st = over (set_num (member ≫= tm_max_iterations))
      (over (set_num (team ≫= te_max_iterations))
         (over (set_num (org ≫= og_max_iterations)) (se_max_iterations base)))
  ∧ se_llm_base_url st = over (set_text (team ≫= te_llm_base_url))
                           (over (set_text (org ≫= og_llm_base_url)) (se_llm_base_url base))
  ∧ se_agent st = over (set_text (org ≫= og_agent)) (se_agent base).
Proof.
  intros Hs Hu Hg Hi. unfold db_settings_load. rewrite Hs, Hu. cbn [rbind]. rewrite Hg.
  unfold user_layer, team_layer, org_layer. destruct (us_current_team_id u) as [t|]; cbn [rbind].
  - rewrite team_membership_single by done. cbn [rbind]. eexists. split; [done|]. simpl.
    destruct (head (team_membership_rows d t (us_id u))) as [m|], (get_team d t) as [tm|],
      (us_current_org_id u) as [o|]; simpl;
      try destruct (get_org d o) as [og|]; simpl; repeat split; rewrite ?over_assoc; reflexivity.
  - eexists. split; [done|]. simpl.
    destruct (us_current_org_id u) as [o|]; [|done]. simpl.
    destruct (get_org d o) as [og|]; simpl; rewrite ?over_assoc; done.
Qed.

(** ** Conversations *)

(** A new conversation cannot be saved: the row is given the user's identifier as its
    organization, which the foreign key refuses unless an organization happens to have that
    identifier.  The save raises and nothing is stored. *)
Theorem save_new_conversation_fails s user u now m d :
  store_user s = Some user → parse_uuid user = Ok u →
  (∀ c, c ∈ db_conversations d → co_id c ≠ cr_conversation_id m) →
  u ∉ og_id <$> db_orgs d →
  db_save_metadata s now m d = (d, Raise IntegrityError).
Proof.
  intros Hs Hu Hnew Horg. unfold db_save_metadata. rewrite Hs.
  destruct (py_find _ _) as [c|] eqn:Hc.
  { apply py_find_elem in Hc as [Hc He%String.eqb_eq]. by destruct (Hnew c Hc). }
  rewrite Hu. unfold commit. destruct (integrity _) eqn:Hi; [|done]. exfalso. apply Horg.
  unfold integrity, references in Hi. rewrite !andb_true_iff in Hi. simpl in Hi.
  destruct Hi as (_ & ((_ & Hconv) & _) & _). rewrite forallb_app in Hconv. simpl in Hconv.
  rewrite !andb_true_iff in Hconv. destruct Hconv as (_ & (_ & Ho) & _). by apply uuid_in_spec.
Qed.

Lemma elem_of_by_creation c l : c ∈ by_creation l → c ∈ l.
Proof.
  assert (Hi : ∀ x k, c ∈ insert_conversation x k → c = x ∨ c ∈ k).
  { intros x k. induction k as [|y k IH]; simpl; [by rewrite list_elem_of_singleton; left|].
    case_match; rewrite !elem_of_cons; [tauto|]. intros [->|[->|?]%IH]; tauto. }
  unfold by_creation. assert (Hf : ∀ acc, c ∈ foldl (λ acc c, insert_conversation c acc) acc l → c ∈ acc ∨ c ∈ l).
  { induction l as [|x l IH]; intros acc Hc; simpl in Hc; [by left|].
    apply IH in Hc as [[->|?]%Hi|?]; rewrite elem_of_cons; tauto. }
  intros [[]%not_elem_of_nil|?]%Hf. done.
Qed.

(** Reading is confined to the user's own conversations that are not deleted: whatever
    the identifier asked for, what is returned is the user's; and deleting changes no row
    of another user. *)
Theorem conversations_are_own s user u now i d :
  store_user s = Some user → parse_uuid user = Ok u →
  (∀ v, db_get_metadata s i d = Ok v →
     cv_conversation_id v = i ∧ cv_user_id v = u
     ∧ ∃ c, c ∈ db_conversations d ∧ co_deleted_at c = None ∧ v = row_view c)
  ∧ (∀ c, c ∈ db_conversations d → co_user c ≠ u →
       c ∈ db_conversations (db_delete_metadata s now i d).1)
  ∧ ∀ limit page rs v, db_search s limit d page = Ok rs → v ∈ items rs → cv_user_id v = u.
Proof.
  intros Hs Hu. split; [|split].
  - unfold db_get_metadata. rewrite Hs, Hu. cbn [rbind]. intros v ([c|] & Hc & [= <-])%rbind_ok_inv.
    apply one_or_none_some in Hc.
    assert (Hin : c ∈ visible_rows d u i) by (rewrite Hc; apply list_elem_of_here).
    apply elem_of_py_filter in Hin as [[Hi%String.eqb_eq Hv]%andb_true_iff Hin].
    apply andb_true_iff in Hv as [Hcu%String.eqb_eq Hdel]. split; [done|]. split; [done|].
    exists c. split; [done|]. split; [|done]. by destruct (co_deleted_at c).
  - intros c Hc Hne. unfold db_delete_metadata. rewrite Hs, Hu.
    destruct (one_or_none _) as [[?|]|]; [|done..].
    destruct (commit _ _ _) as [d' r] eqn:Hcm. apply commit_inv in Hcm as [(-> & _)|(-> & _)]; [|done].
    simpl. unfold update_rows. apply list_elem_of_fmap. exists c. split; [|done].
    unfold visible. by rewrite (proj2 (String.eqb_neq _ _) Hne), andb_false_r.
  - intros limit page rs v. unfold db_search. rewrite Hs, Hu. cbn [rbind]. intros [= <-]. simpl.
    set (rows := by_creation _). intros (c & -> & Hc)%list_elem_of_fmap.
    assert (Hr : c ∈ rows).
    { revert Hc. case_match; [intros Hc%elem_of_take_in%elem_of_drop_in; revert Hc|];
        apply elem_of_take_in. }
    apply elem_of_by_creation, elem_of_py_filter in Hr as [[Hv _]%andb_true_iff _].
    apply andb_true_iff in Hv as [Hcu%String.eqb_eq _]. exact Hcu.
Qed.

Lemma filter_only {A} (c : A) (f : A → bool) l :
  NoDup l → c ∈ l → (∀ x, x ∈ l → f x = true ↔ x = c) → py_filter f l = [c].
Proof.
  induction l as [|y l IH]; [intros _ []%not_elem_of_nil|]. rewrite NoDup_cons, elem_of_cons.
  intros [Hy Hl] Hc Hf. simpl. destruct (f y) eqn:Hfy.
  - apply Hf in Hfy as ->; [|apply list_elem_of_here]. f_equal. apply py_filter_none.
    intros x Hx. apply not_true_iff_false. rewrite Hf by by apply list_elem_of_further. by intros ->.
  - destruct Hc as [->|Hc]; [|apply IH; auto using list_elem_of_further].
    rewrite (proj2 (Hf y (list_elem_of_here _ _)) eq_refl) in Hfy. done.
Qed.

Lemma save_integrity m now d :
  integrity d = true →
  integrity (set_conversations (update_rows (λ c, String.eqb (co_id c) (cr_conversation_id m))
               (update_conversation m now) (db_conversations d)) d) = true.
Proof.
  unfold integrity, uniqueness, references.
  cbn [db_roles db_orgs db_users db_members db_teams db_team_members db_keys db_revoked db_servers
       db_audit db_conversations db_secrets db_tokens set_conversations].
  rewrite (update_rows_fmap _ _ co_id) by (intros [] ??; done).
  by rewrite forallb_update by (intros []; done).
Qed.

(** Saving is not confined: a user who knows the identifier of another user's
    conversation replaces its title and its repository, branch and model, and the other
    user then reads them. *)
Theorem save_overwrites_other s user s' user' u' now m c d :
  store_user s = Some user → store_user s' = Some user' → parse_uuid user' = Ok u' →
  integrity d = true → c ∈ db_conversations d → co_id c = cr_conversation_id m →
  co_user c = u' → co_deleted_at c = None →
  db_get_metadata s' (co_id c) (db_save_metadata s now m d).1
  = Ok (mkConversationView (co_id c) (cr_title m) u' (cr_info m) (co_created_at c) now).
Proof.
  intros Hs Hs' Hu' Hi Hc Hid Hcu Hdel.
  assert (Hall : ∀ x, x ∈ db_conversations d → co_id x = co_id c → x = c).
  { intros x Hx He. eapply (NoDup_fmap_eq co_id); [|done..].
    unfold integrity, uniqueness in Hi. rewrite !andb_true_iff, !bool_decide_eq_true in Hi. tauto. }
  unfold db_save_metadata. rewrite Hs. destruct (py_find _ _) as [x|] eqn:Hx.
  2:{ apply (py_find_none _ _ c) in Hx; [|done]. by apply String.eqb_neq in Hx. }
  unfold commit. rewrite save_integrity by done. simpl.
  unfold db_get_metadata. rewrite Hs', Hu'. cbn [rbind]. unfold visible_rows. simpl.
  rewrite filter_update_inv by done.
  rewrite (filter_only c); [| |done|].
  - unfold update_rows. simpl. by rewrite <- Hid, String.eqb_refl, <- Hcu.
  - unfold integrity, uniqueness in Hi. rewrite !andb_true_iff, !bool_decide_eq_true in Hi.
    apply (NoDup_fmap_1 co_id). tauto.
  - intros x' Hx'. unfold visible. split.
    + intros [He%String.eqb_eq _]%andb_true_iff. by apply Hall.
    + intros ->. by rewrite String.eqb_refl, Hcu, String.eqb_refl, Hdel.
Qed.

(** ** A concrete cipher and database *)

Module stores_example.
(** Not a cipher: the text and its additional data, printed. *)
Definition encrypt (k n p : string) (a : option string) : string :=
  json_dumps (JList [jtext a; JStr p]).
Definition decrypt (k n c : string) (a : option string) : result string :=
  match json_loads c with
  | Ok (JList [b; JStr p]) => if bool_decide (b = jtext a) then Ok p else Raise (OtherError "InvalidTag" "")
  | _ => Raise (OtherError "InvalidTag" "")
  end.
#[export] Instance aead : AEAD := {|
  hkdf_derive secret salt info := secret +:+ salt +:+ info;
  sha256 s := s;
  aesgcm_encrypt := encrypt;
  aesgcm_decrypt := decrypt;
|}.
#[export] Instance aead_laws : AEADLaws.
Proof.
  split; simpl; unfold decrypt, encrypt; intros; rewrite loads_dumps; [by rewrite bool_decide_true|].
  rewrite bool_decide_false; [done|]. destruct a, b; simpl; congruence.
Qed.

Definition ann : uuid := "0000000a-0000-0000-0000-000000000000".
Definition bob : uuid := "0000000b-0000-0000-0000-000000000000".
Definition conv (i u : string) (t : Z) : Conversation := mkConversation i u "acme" (Some i) None None t t.
Definition db : Database := mkDatabase [mkRole 1 "owner" 0]
  [mkOrganization "acme" "Acme" (Some "org-model") None (Some 10) (Some "CodeAct")]
  [mkUser ann "oa" None None (Some "acme") (Some "t1"); mkUser bob "ob" None None (Some "acme") None]
  [mkOrgMembership "acme" ann 1] [mkTeam "t1" "acme" "Team" None (Some "url") (Some 20)]
  [mkTeamMembership "t1" ann 1 (Some "my-model") None] [] [] [] []
  [conv "z1" bob 1; conv "y2" bob 2; conv "x3" bob 3] [] [].
Definition store (u : string) : Store := mkStore (Some u) true.
Definition env : environ := [("APOLLOSAI_ENCRYPTION_KEY", "master")].
Definition nonce : string := "123456789012".
Definition mine : Secrets := mkSecrets [] [("K", mkCustomSecret "v" "d")].
Definition after : Database * option string :=
  (db_secrets_store env "s1" nonce (store ann) mine (db, None)).1.

(** The database in which someone gave Ann's text to Bob. *)
Definition stolen : Database :=
  set_secrets ((λ r, mkEncryptedSecret (es_id r) bob (es_org r) (es_key r) (es_value r)) <$> db_secrets after.1) db.
Lemma secrets_stored_and_bound_witness :
  (db_secrets_load env (store ann) after).2 = Ok mine
  ∧ (db_secrets_load env (store bob) (stolen, after.2)).2 = Raise (OtherError "InvalidTag" "").
Proof.
  assert (Hst : db_secrets_store env "s1" nonce (store ann) mine (db, None) = ((after.1, after.2), Ok tt))
    by (vm_compute; reflexivity).
  destruct (secrets_stored_and_bound env (store ann) ann ann "acme" eq_refl eq_refl "s1" nonce mine
    db None after.1 after.2 env eq_refl eq_refl eq_refl Hst) as [Hl (r & Hr & Hb)].
  split; [replace after with (after.1, after.2) by (by destruct after); rewrite Hl; reflexivity|].
  vm_compute in Hr. injection Hr as <-.
  rewrite (Hb (store bob) bob bob "acme" stolen (mkEncryptedSecret "s1" bob "acme" SECRETS_KEY
    (match db_secrets after.1 with r :: _ => es_value r | [] => EmptyString end)));
    try (vm_compute; reflexivity). left. vm_compute. discriminate.
Defined.

Lemma settings_resolution_witness :
  ∃ st, db_settings_load (store ann) (Some empty_settings) db = Ok st
        ∧ se_llm_model st = Some "my-model" ∧ se_max_iterations st = Some 20.
Proof.
  destruct (settings_resolution (store ann) ann ann
    (mkUser ann "oa" None None (Some "acme") (Some "t1")) empty_settings db eq_refl eq_refl eq_refl)
    as (st & Hst & Hm & Hi & _); [vm_compute; reflexivity|].
  exists st. split; [exact Hst|]. split; [rewrite Hm|rewrite Hi]; reflexivity.
Defined.

Lemma save_new_conversation_fails_witness :
  db_save_metadata (store ann) 9 (mkConversationRecord "new" None no_info) db = (db, Raise IntegrityError).
Proof.
  apply (save_new_conversation_fails (store ann) ann ann); [reflexivity|reflexivity| |].
  - intros c Hc. simpl in Hc. rewrite !elem_of_cons, elem_of_nil in Hc.
    destruct Hc as [->|[->|[->|[]]]]; done.
  - intros Ho. vm_compute in Ho. by apply list_elem_of_singleton in Ho.
Defined.

Lemma conversations_are_own_witness : cv_user_id (row_view (conv "z1" bob 1)) = bob.
Proof.
  exact (proj1 (proj2 (proj1 (conversations_are_own (store bob) bob bob 5 "z1" db eq_refl eq_refl)
                         (row_view (conv "z1" bob 1)) eq_refl))).
Defined.

Lemma save_overwrites_other_witness :
  db_get_metadata (store bob) "z1"
    (db_save_metadata (store ann) 9 (mkConversationRecord "z1" (Some "hers") no_info) db).1
  = Ok (mkConversationView "z1" (Some "hers") bob no_info 1 9).
Proof.
  exact (save_overwrites_other (store ann) ann (store bob) bob bob 9
           (mkConversationRecord "z1" (Some "hers") no_info) (conv "z1" bob 1) db eq_refl eq_refl eq_refl
           eq_refl (list_elem_of_here _ _) eq_refl eq_refl eq_refl).
Defined.

(** Pages are ordered by time and continued by identifier: here the latest conversation has
    the smallest identifier, and the second page is empty although two are left. *)
Example search_skips :
  iterate (db_search (store bob) 1 db) 5 = Some (Ok [row_view (conv "x3" bob 3)]).
Proof. vm_compute. reflexivity. Qed.
End stores_example.
