(* ===== verification/ApollosIntegrationsProps.v ===== *)
(** * Properties of the ApollosAI integrations

    Redaction of payloads, the replay cache, and what the webhook route accepts. *)

From S2P Require Import Prelude PyValue Schema Actions Observations Events Serialization.
From S2P Require Import FileStore EventStore ExamplePlatform StrSearch.
From S2P Require Import ApollosDb ApollosAuth ApollosOrgs ApollosIntegrations.
Local Open Scope Z_scope.
Local Open Scope py_scope.

(** ** Redaction *)

(** A key with its value, anywhere in a payload: in the dictionaries, and in those in its
    lists. *)
Inductive within : dict → string → json → Prop :=
  | within_here d k v : (k, v) ∈ d → within d k v
  | within_dict d k0 d' k v : (k0, JDict d') ∈ d → within d' k v → within d k v
  | within_list d k0 l d' k v : (k0, JList l) ∈ d → JDict d' ∈ l → within d' k v → within d k v.

Definition sanitize_item (x : json) : json := match x with JDict _ => sanitize x | _ => x end.
Definition sanitize_value (k : string) (v : json) : json :=
  if sensitive k then REDACTED
  else match v with
       | JDict _ => sanitize v
       | JList l => JList (sanitize_item <$> l)
       | v => v
       end.

Lemma sanitize_payload_eq d : sanitize_payload d = (λ kv, (kv.1, sanitize_value kv.1 kv.2)) <$> d.
Proof.
  unfold sanitize_payload. cbn [sanitize]. induction d as [|[k v] d IH]; [done|].
  rewrite fmap_cons, <- IH. by f_equal.
Qed.
Lemma sanitize_dict d : sanitize (JDict d) = JDict (sanitize_payload d).
Proof. done. Qed.

Lemma elem_sanitized d k v :
  (k, v) ∈ sanitize_payload d → ∃ v0, (k, v0) ∈ d ∧ v = sanitize_value k v0.
Proof.
  rewrite sanitize_payload_eq. intros ([k0 v0] & [= -> ->] & Hin)%list_elem_of_fmap. eauto.
Qed.

Lemma sanitized_dict k v0 d :
  sanitize_value k v0 = JDict d → ∃ d0, v0 = JDict d0 ∧ d = sanitize_payload d0.
Proof.
  unfold sanitize_value. destruct (sensitive k); [done|]. destruct v0; try done.
  rewrite sanitize_dict. intros [= <-]. eauto.
Qed.
Lemma sanitized_list k v0 l d :
  sanitize_value k v0 = JList l → JDict d ∈ l → ∃ d0, d = sanitize_payload d0.
Proof.
  unfold sanitize_value. destruct (sensitive k); [done|]. destruct v0 as [| | | | |l0|]; try done.
  intros [= <-] (x & Hx & _)%list_elem_of_fmap. destruct x; try done. simpl in Hx.
  injection Hx as ->. eauto.
Qed.

(** In the payload an event keeps, every key that names a secret, at any depth of
    dictionaries and of lists of dictionaries, has the redacted value; keys are compared
    without regard to case. *)
Theorem sanitize_redacts d k v :
  within (sanitize_payload d) k v → sensitive k = true → v = REDACTED.
Proof.
  remember (sanitize_payload d) as D eqn:HD. intros Hw. revert d HD.
  induction Hw as [D k v Hin|D k0 D' k v Hin _ IH|D k0 l D' k v Hin Hl _ IH]; intros d -> Hk.
  - apply elem_sanitized in Hin as (v0 & _ & ->). unfold sanitize_value. by rewrite Hk.
  - apply elem_sanitized in Hin as (v0 & _ & He). symmetry in He.
    apply sanitized_dict in He as (d0 & _ & ->). by eapply IH.
  - apply elem_sanitized in Hin as (v0 & _ & He). symmetry in He.
    destruct (sanitized_list _ _ _ _ He Hl) as [d0 ->]. by eapply IH.
Qed.

(** ** The replay cache *)

Definition cap : nat := Z.to_nat MAX_SEEN.
Lemma cap_eq : Z.of_nat cap = MAX_SEEN.
Proof. unfold cap, MAX_SEEN. lia. Qed.
#[local] Opaque cap MAX_SEEN.

Lemma evict_drop fuel seen :
  (length seen - cap ≤ fuel)%nat → evict fuel seen = drop (length seen - cap) seen.
Proof.
  revert seen. induction fuel as [|fuel IH]; intros seen Hf; cbn [evict].
  - by replace (length seen - cap)%nat with 0%nat by lia.
  - pose proof cap_eq. destruct (Z.ltb_spec MAX_SEEN (py_len seen)) as [Hlt|Hge]; unfold py_len in *.
    + destruct seen as [|x seen]; cbn [tail length] in *; [lia|]. rewrite IH by lia.
      by replace (S (length seen) - cap)%nat with (S (length seen - cap)) by lia.
    + by replace (length seen - cap)%nat with 0%nat by lia.
Qed.

(** A new identifier is added at the end, and what is too much is dropped at the front. *)
Lemma check_replay_new x seen :
  existsb (String.eqb x) seen = false →
  check_replay x seen = (drop (S (length seen) - cap) (seen ++ [x]), false).
Proof.
  intros Hx. unfold check_replay. rewrite Hx. rewrite evict_drop by lia.
  rewrite length_app. simpl. by replace (length seen + 1)%nat with (S (length seen)) by lia.
Qed.

(** The cache never holds more than its maximum. *)
Theorem replay_cache_bounded ids seen :
  (length seen ≤ cap)%nat →
  (length (foldl (λ s i, (check_replay i s).1) seen ids) ≤ cap)%nat.
Proof.
  revert seen. induction ids as [|x ids IH]; intros seen Hs; simpl; [done|]. apply IH.
  destruct (existsb (String.eqb x) seen) eqn:Hx.
  - unfold check_replay. by rewrite Hx.
  - rewrite check_replay_new by done. simpl. rewrite length_drop, length_app. simpl. lia.
Qed.

(** After [k] further checks, the identifier is still there with at most [k] after it. *)
Lemma kept_after x ids seen a b :
  seen = a ++ x :: b → (length b + length ids < cap)%nat → (length seen ≤ cap)%nat →
  existsb (String.eqb x) (foldl (λ s i, (check_replay i s).1) seen ids) = true.
Proof.
  revert seen a b. induction ids as [|y ids IH]; intros seen a b -> Hb Hl; simpl.
  - rewrite existsb_app. simpl. by rewrite String.eqb_refl, orb_true_r.
  - destruct (existsb (String.eqb y) (a ++ x :: b)) eqn:Hy.
    + unfold check_replay. rewrite Hy. simpl in *. eapply IH; [done|lia|done].
    + rewrite check_replay_new by done. simpl in *. rewrite length_app in *. simpl in *.
      set (n := (length a + S (length b))%nat) in *.
      apply (IH _ (drop (S n - cap) a) (b ++ [y])).
      * rewrite <- (app_assoc a), drop_app_le; [done|]. lia.
      * rewrite length_app. simpl. lia.
      * rewrite length_drop, !length_app. simpl. lia.
Qed.

(** An event is recognized when it comes again to the same manager, as long as fewer
    than the maximum of other events came in between, whatever they were; and the event
    itself is not taken for a repetition the first time. *)
Theorem replay_detected x seen ids :
  existsb (String.eqb x) seen = false → (length seen ≤ cap)%nat → (length ids < cap)%nat →
  (check_replay x seen).2 = false
  ∧ (check_replay x (foldl (λ s i, (check_replay i s).1) (check_replay x seen).1 ids)).2 = true.
Proof.
  intros Hx Hs Hi. rewrite check_replay_new by done. split; [done|]. simpl.
  unfold check_replay at 1. erewrite kept_after; [done| | |].
  - rewrite drop_app_le by lia. done.
  - simpl. lia.
  - rewrite length_drop, length_app. simpl. lia.
Qed.

(** ** The route *)

Section route.
Context `{Platform} `{HMAC} `{Views}.

(** The pipeline on an empty cache answers anything but a repetition. *)
Lemma process_event_fresh {M} `{IntegrationManager M} (m : M) body :
  (process_event m body []).2 ≠ Ok (status "duplicate").
Proof.
  unfold process_event. destruct (parse_event m body) as [[e|]|]; [|done..].
  destruct (check_replay (ie_external_id e) []) as [s b] eqn:Hc. unfold check_replay in Hc.
  simpl in Hc. injection Hc as <- <-. done.
Qed.
Lemma base_handle_fresh {M} `{IntegrationManager M} env now (m : M) r :
  (base_handle_webhook env now m r []).2 ≠ Ok (status "duplicate").
Proof.
  unfold base_handle_webhook. destruct (validate_webhook env now m r) as [[]|]; [|done..].
  destruct (read_body r) as [[body|]|]; [apply process_event_fresh|done..].
Qed.

(** The webhook route never recognizes a repeated event: every request is handled by a
    new manager, whose cache is empty, so an event that is delivered again is processed
    again. *)
Theorem webhook_replays_not_detected env now t r :
  receive_webhook env now t r ≠ status "duplicate".
Proof.
  unfold receive_webhook. destruct (integration_of_string t) as [i|]; [|done].
  assert (Hn : ∀ resp, new_manager_webhook env now i r = Some (Ok resp) → resp ≠ status "duplicate").
  { intros resp Hr ->. destruct i; cbn [new_manager_webhook] in Hr; try done; injection Hr as Hr.
    - by apply base_handle_fresh in Hr.
    - by apply base_handle_fresh in Hr.
    - unfold slack_handle_webhook in Hr. destruct (slack_validate _ _ _ _) as [[]|]; try done.
      destruct (str_contains _ _); [|done]. destruct (json_loads (wr_body r)) as [[]|]; try done.
      destruct (py_eqb _ _); [done|]. by apply process_event_fresh in Hr.
    - by apply base_handle_fresh in Hr.
    - unfold microsoft_handle_webhook in Hr. destruct (dget "validationToken" (wr_query r)) as [[|]|];
        [by apply base_handle_fresh in Hr|done|by apply base_handle_fresh in Hr]. }
  destruct (new_manager_webhook env now i r) as [[resp|]|]; [by apply Hn|done..].
Qed.

(** Unless the environment allows unsigned webhooks, the route refuses every webhook of
    every integration with 401, whatever its signature: the managers are made without their
    secrets, and without a secret they refuse.  (Microsoft's validation of a subscription
    is answered before the check.) *)
Theorem webhooks_refused env now t r :
  allow_unsigned env = false → t ∈ integration_value <$> registered →
  (t = "microsoft" → dget "validationToken" (wr_query r) = None) →
  receive_webhook env now t r = error_response 401 "invalid_signature".
Proof.
  intros He Ht Hm. unfold registered in Ht. simpl in Ht. rewrite !elem_of_cons, elem_of_nil in Ht.
  unfold receive_webhook. destruct Ht as [->|[->|[->|[->|[->|[]]]]]]; simpl.
  - by unfold base_handle_webhook; simpl; rewrite He.
  - by unfold base_handle_webhook; simpl; rewrite He.
  - by unfold slack_handle_webhook; simpl; rewrite He.
  - by unfold base_handle_webhook; simpl; rewrite He.
  - unfold microsoft_handle_webhook. rewrite Hm by done. by unfold base_handle_webhook; simpl; rewrite He.
Qed.

(** With a secret, a GitHub webhook is processed only if its signature header is the
    HMAC of the body under the secret. *)
Theorem github_signature env now secret token r seen seen' resp :
  base_handle_webhook env now (mkGitHubManager (Some secret) token) r seen = (seen', Ok resp) →
  rs_status resp = 200 →
  header "x-hub-signature-256" r = Some ("sha256=" +:+ hmac_sha256 secret (wr_body r)).
Proof.
  unfold base_handle_webhook. simpl. unfold github_validate, signed_body, with_header. simpl.
  destruct (header "x-hub-signature-256" r) as [[|c s]|]; [by intros [= _ <-]| |by intros [= _ <-]].
  unfold compare_digest. destruct (_ && _); [|done].
  destruct (String.eqb_spec (String c s) ("sha256=" +:+ hmac_sha256 secret (wr_body r))) as [->|];
    [done|by intros [= _ <-]].
Qed.
End route.

(** ** Examples *)

Module integrations_example.
#[export] Instance hmac : HMAC := λ key msg, key +:+ "/" +:+ msg.
#[export] Instance views : Views := {|
  github_view _ := Ok (mkGitHubWebhookPayload (Some "created")
    (Some (mkGitHubIssue (Some 7) (Some "Bug") None None))
    (Some (mkGitHubComment (Some "please @openhands fix") None)) None None None None None);
  jira_view _ := Ok (mkJiraWebhookPayload None None None None);
  slack_view _ := Ok (mkSlackEventPayload None None);
  bitbucket_view _ := Ok (mkBitbucketWebhookPayload None None None None None);
  graph_view _ := Ok [];
|}.

Definition payload : dict :=
  [("Token", JStr "t"); ("user", JDict [("password", JStr "p"); ("name", JStr "n")]);
   ("items", JList [JDict [("api_key", JStr "k")]; JList [JDict [("secret", JStr "s")]]])].

(** A dictionary in a list in a list is not reached. *)
Example nested_lists_keep_secrets :
  sanitize_payload payload
  = [("Token", REDACTED); ("user", JDict [("password", REDACTED); ("name", JStr "n")]);
     ("items", JList [JDict [("api_key", REDACTED)]; JList [JDict [("secret", JStr "s")]]])].
Proof. vm_compute. reflexivity. Qed.

Lemma sanitize_redacts_witness : REDACTED = REDACTED.
Proof.
  refine (sanitize_redacts payload "password" REDACTED _ eq_refl).
  apply (within_dict _ "user" [("password", REDACTED); ("name", JStr "n")]).
  - vm_compute. apply list_elem_of_further, list_elem_of_here.
  - apply within_here. apply list_elem_of_here.
Defined.

Lemma replay_cache_bounded_witness :
  (length (foldl (λ s i, (check_replay i s).1) [] ["a"; "b"; "a"]) ≤ cap)%nat.
Proof. apply (replay_cache_bounded ["a"; "b"; "a"] []). simpl. lia. Defined.

Lemma cap_big : (100 < cap)%nat.
Proof. pose proof cap_eq as H. with_strategy transparent [MAX_SEEN] unfold MAX_SEEN in H. lia. Qed.

Lemma replay_detected_witness :
  (check_replay "a" []).2 = false ∧ (check_replay "a" (foldl (λ s i, (check_replay i s).1)
     (check_replay "a" []).1 ["b"; "c"])).2 = true.
Proof.
  apply (replay_detected "a" [] ["b"; "c"]); [reflexivity|simpl; lia|].
  pose proof cap_big. simpl. lia.
Defined.

Definition hook : WebhookRequest :=
  mkWebhookRequest [("content-type", "application/json"); ("x-hub-signature-256", "sha256=s/null")]
    (json_dumps JNull) [] (Ok []).

Lemma webhooks_refused_witness :
  receive_webhook [] (float_of_Z 0) "github" hook = error_response 401 "invalid_signature".
Proof.
  apply (webhooks_refused [] (float_of_Z 0) "github" hook); [reflexivity|apply list_elem_of_here|done].
Defined.

Definition signed : WebhookRequest :=
  mkWebhookRequest [("content-type", "application/json");
                    ("x-hub-signature-256", "sha256=s/" +:+ json_dumps JNull)] (json_dumps JNull) [] (Ok []).
Lemma github_signature_witness :
  header "x-hub-signature-256" signed = Some ("sha256=" +:+ hmac_sha256 "s" (wr_body signed)).
Proof.
  refine (github_signature [] (float_of_Z 0) "s" None signed [] ["7"] _ eq_refl eq_refl).
Defined.

(** Two comments on one issue have one identifier, the issue's number: on one manager the
    second is dropped as a repetition. *)
Example second_comment_dropped :
  (base_handle_webhook [] (float_of_Z 0) (mkGitHubManager (Some "s") None) signed ["7"]).2
  = Ok (status "duplicate").
Proof. vm_compute. reflexivity. Qed.

(** The validators let a parent directory and a final newline through. *)
Example loose_validators :
  validate_repo_path "../.." = Ok "../.." ∧ validate_slug ("a" +:+ nl) = Ok ("a" +:+ nl)
  ∧ validate_jira_key ("AB-1" +:+ nl) = Ok ("AB-1" +:+ nl).
Proof. vm_compute. done. Qed.
End integrations_example.
