(* ===== verification/ApollosMcp.v ===== *)
(** * Tool servers of the ApollosAI server

    Models [apollosai/server/routes/mcp.py] (the servers a user defines),
    [apollosai/mcp/config.py] (the configuration a conversation gets, with its cache) and
    [MCPStdioServerConfig] of [openhands/core/config/mcp_config.py].

    The state is the database, the derived key and the cache.  [cachetools]' cache with a
    time to live is the parameter [TTLCache]; [shlex.split] is a parameter too. *)

From S2P Require Import Prelude PyValue Schema Actions Observations Events Serialization FileStore EventStore ExamplePlatform EventStream Base64 ApollosDb ApollosAuth ApollosCrypto ApollosOrgs ApollosOrgsProps.
From S2P Require Import FileStore EventStore EventStream.
Local Open Scope Z_scope.
Local Open Scope py_scope.

(** ** Configurations of servers *)

Record MCPStdioServerConfig := mkStdio {
  ss_name : string;
  ss_command : string;
  ss_args : list string;
  ss_env : list (string * string);
}.
Definition ValidationError : py_exc := ValueError "validation error for MCPStdioServerConfig".

Definition is_name_char (c : ascii) : bool :=
  let n := Z.of_nat (Ascii.nat_of_ascii c) in
  is_ascii_letter c || (48 <=? n) && (n <=? 57) || Ascii.eqb c "_" || Ascii.eqb c "-".
Definition validate_server_name (v : string) : result string :=
  let v := str_strip v in
  if String.eqb v "" then Raise ValidationError
  else if all_chars is_name_char v then Ok v else Raise ValidationError.
Definition validate_command (v : json) : result string :=
  match v with
  | JStr s => let s := str_strip s in
              if String.eqb s "" || str_contains " " s then Raise ValidationError else Ok s
  | _ => Raise (OtherError "AttributeError" "strip")
  end.

Class Shlex := shlex_split : string → result (list string).

Fixpoint texts (l : list json) : result (list string) :=
  match l with
  | [] => Ok []
  | JStr s :: l => let? r := texts l in Ok (s :: r)
  | _ :: _ => Raise ValidationError
  end.
Definition parse_args `{Shlex} (v : json) : result (list string) :=
  match v with
  | JStr s => if String.eqb (str_strip s) "" then Ok []
              else match shlex_split (str_strip s) with Ok l => Ok l | Raise _ => Raise ValidationError end
  | v => if jtruthy v then match v with JList l => texts l | _ => Raise ValidationError end else Ok []
  end.

Definition is_env_char (c : ascii) : bool :=
  let n := Z.of_nat (Ascii.nat_of_ascii c) in
  is_ascii_letter c || (48 <=? n) && (n <=? 57) || Ascii.eqb c "_".
Definition is_env_name (s : string) : bool :=
  match s with
  | String c s => (is_ascii_letter c || Ascii.eqb c "_") && all_chars is_env_char s
  | EmptyString => false
  end.
(** [KEY=VALUE] pairs separated by commas; a value may contain [=]. *)
Fixpoint env_pairs (l : list string) (env : list (string * string)) : result (list (string * string)) :=
  match l with
  | [] => Ok env
  | p :: l =>
      let p := str_strip p in
      if String.eqb p "" then env_pairs l env
      else match str_split "=" p with
           | key :: ((_ :: _) as rest) =>
               let key := str_strip key in
               if is_env_name key then env_pairs l (dset key (str_join "=" rest) env)
               else Raise ValidationError
           | _ => Raise ValidationError
           end
  end.
Fixpoint text_pairs (d : dict) : result (list (string * string)) :=
  match d with
  | [] => Ok []
  | (k, JStr s) :: d => let? r := text_pairs d in Ok ((k, s) :: r)
  | _ :: _ => Raise ValidationError
  end.
Definition parse_env (v : json) : result (list (string * string)) :=
  match v with
  | JStr s => if String.eqb (str_strip s) "" then Ok [] else env_pairs (str_split "," s) []
  | v => if jtruthy v then match v with JDict d => text_pairs d | _ => Raise ValidationError end else Ok []
  end.

Definition new_stdio `{Shlex} (name : string) (command args env : json) : result MCPStdioServerConfig :=
  let? name := validate_server_name name in
  let? command := validate_command command in
  let? args := parse_args args in
  let? env := parse_env env in
  Ok (mkStdio name command args env).

(** ** The cache *)

(** [TTLCache]: what an access at a time finds, an insertion, a removal. *)
Class TTLCache (C V : Type) := {
  cache_get : float → string → C → option V;
  cache_set : float → string → V → C → C;
  cache_pop : string → C → C;
}.
(** A removed key is not found; an insertion is found as inserted or not at all (it expired
    or was evicted) and brings no other entry. *)
Class TTLCacheLaws (C V : Type) `{TTLCache C V} := {
  get_pop : ∀ t k c, cache_get t k (cache_pop k c) = None;
  get_pop_other : ∀ t k k' c v, cache_get t k (cache_pop k' c) = Some v → cache_get t k c = Some v;
  get_set : ∀ t t' k v v' c, cache_get t k (cache_set t' k v c) = Some v' → v' = v;
  get_set_other : ∀ t t' k k' v v' c, k ≠ k' →
    cache_get t k (cache_set t' k' v c) = Some v' → cache_get t k c = Some v';
}.

Section mcp.
Context `{Platform} `{AEAD} `{Shlex}.
(** [S]: the configuration of the default server of the parent class. *)
Context {S C : Type} `{TTLCache C (S * list MCPStdioServerConfig)}.
Variable env : environ.
Variable created_at : UserMCPServer → json.

Record McpState := mkMcpState { mc_db : Database; mc_key : option string; mc_cache : C }.

(** ** Routes *)

Definition MCPServerResponse (s : UserMCPServer) : json :=
  JDict [("id", JStr (ms_id s)); ("name", JStr (ms_name s)); ("server_type", JStr (ms_type s));
         ("enabled", JBool (ms_enabled s)); ("approved", JBool (ms_approved s));
         ("description", jopt (ms_description s)); ("created_at", created_at s)].

(** Encrypted, or the plaintext when there is no key. *)
Definition protect (nonce : string) (config : dict) (key : option string) :
    option string * result string :=
  let plaintext := json_dumps (JDict config) in
  match encrypt_value env nonce plaintext None key with
  | (key, Raise (ValueError _)) => (key, Ok plaintext)
  | r => r
  end.

Definition list_mcp_servers (org_id : uuid) (user : AuthedUser) (st : McpState) : Response :=
  ok (JList (MCPServerResponse <$> py_filter (λ s, String.eqb (ms_user s) (au_user_id user)
                                                   && String.eqb (ms_org s) org_id)
                                     (db_servers (mc_db st)))).

(** The commit, and the user's entry of the cache dropped once it is done. *)
Definition commit_servers (user : AuthedUser) (key : option string) (new : Database) (resp : Response)
    (st : McpState) : McpState * result Response :=
  match commit (mc_db st) new resp with
  | (d, Ok r) => (mkMcpState d key (cache_pop (au_user_id user) (mc_cache st)), Ok r)
  | (d, Raise e) => (mkMcpState d key (mc_cache st), Raise e)
  end.

Definition create_mcp_server (id nonce org_id name server_type : string) (config : dict)
    (description : option string) (user : AuthedUser) (st : McpState) : McpState * result Response :=
  match protect nonce config (mc_key st) with
  | (key, Raise e) => (mkMcpState (mc_db st) key (mc_cache st), Raise e)
  | (key, Ok encrypted) =>
      let server := mkUserMCPServer id (au_user_id user) org_id name server_type encrypted true
                      description false in
      commit_servers user key (set_servers (db_servers (mc_db st) ++ [server]) (mc_db st))
        (ok (MCPServerResponse server)) st
  end.

(** The user's own server of the organization. *)
Definition own_server (server_id org_id : uuid) (user : AuthedUser) (s : UserMCPServer) : bool :=
  String.eqb (ms_id s) server_id && String.eqb (ms_user s) (au_user_id user)
  && String.eqb (ms_org s) org_id.

Definition updated_server (name config : option string) (enabled : option bool)
    (description : option string) (s : UserMCPServer) : UserMCPServer :=
  mkUserMCPServer (ms_id s) (ms_user s) (ms_org s) (from_option id (ms_name s) name) (ms_type s)
    (from_option id (ms_config s) config) (from_option id (ms_enabled s) enabled)
    (match description with Some x => Some x | None => ms_description s end) (ms_approved s).

Definition update_mcp_server (nonce server_id org_id : string) (name : option string)
    (config : option dict) (enabled : option bool) (description : option string) (user : AuthedUser)
    (st : McpState) : McpState * result Response :=
  match one_or_none (py_filter (own_server server_id org_id user) (db_servers (mc_db st))) with
  | Raise e => (st, Raise e)
  | Ok None => (st, Ok (error_response 404 "MCP server not found"))
  | Ok (Some s) =>
      match match config with
            | None => (mc_key st, Ok None)
            | Some c => match protect nonce c (mc_key st) with
                        | (key, Ok t) => (key, Ok (Some t))
                        | (key, Raise e) => (key, Raise e)
                        end
            end with
      | (key, Raise e) => (mkMcpState (mc_db st) key (mc_cache st), Raise e)
      | (key, Ok text) =>
          let s' := updated_server name text enabled description s in
          commit_servers user key
            (set_servers (update_rows (own_server server_id org_id user) (λ _, s')
                            (db_servers (mc_db st))) (mc_db st))
            (ok (MCPServerResponse s')) st
      end
  end.

Definition delete_mcp_server (server_id org_id : uuid) (user : AuthedUser) (st : McpState) :
    McpState * result Response :=
  match one_or_none (py_filter (own_server server_id org_id user) (db_servers (mc_db st))) with
  | Raise e => (st, Raise e)
  | Ok None => (st, Ok (error_response 404 "MCP server not found"))
  | Ok (Some _) =>
      commit_servers user (mc_key st)
        (set_servers (delete_rows (own_server server_id org_id user) (db_servers (mc_db st))) (mc_db st))
        (ok (JDict [("status", JStr "deleted")])) st
  end.

(** ** The configuration of a conversation *)

(** The configuration of a row: decrypted, or taken as it is when that fails. *)
Definition server_config (s : UserMCPServer) (key : option string) : option string * string :=
  match decrypt_value env (ms_config s) None key with
  | (key, Ok t) => (key, t)
  | (key, Raise _) => (key, ms_config s)
  end.

(** The loop over the rows: a configuration that is not JSON is skipped; any other failure
    ends the loop with what it has so far ([None]: go on, [Some]: ended). *)
Fixpoint load_rows (rows : list UserMCPServer) (key : option string) (acc : list MCPStdioServerConfig) :
    option string * list MCPStdioServerConfig :=
  match rows with
  | [] => (key, acc)
  | s :: rows =>
      if negb (String.eqb (ms_type s) "stdio") then load_rows rows key acc
      else
        let '(key, text) := server_config s key in
        match json_loads text with
        | Raise _ => load_rows rows key acc
        | Ok (JDict cfg) =>
            match new_stdio (ms_name s) (from_option id (JStr "") (dget "command" cfg))
                    (from_option id (JList []) (dget "args" cfg))
                    (from_option id (JDict []) (dget "env" cfg)) with
            | Ok c => load_rows rows key (acc ++ [c])
            | Raise _ => (key, acc)
            end
        | Ok _ => (key, acc)
        end
  end.

(** The rows of a user that are used: enabled and approved. *)
Definition usable_servers (d : Database) (u : uuid) : list UserMCPServer :=
  py_filter (λ s, String.eqb (ms_user s) u && ms_enabled s && ms_approved s) (db_servers d).

(** [_load_user_servers]; [maker]: the database is up. *)
Definition load_user_servers (maker : bool) (user_id : string) (st : McpState) :
    McpState * list MCPStdioServerConfig :=
  if negb maker then (st, [])
  else match parse_uuid user_id with
       | Raise _ => (st, [])
       | Ok u => let '(key, l) := load_rows (usable_servers (mc_db st) u) (mc_key st) [] in
                 (mkMcpState (mc_db st) key (mc_cache st), l)
       end.

(** [create_default_mcp_server_config]: [shttp] and [stdio] are the parent class's. *)
Definition create_default_mcp_server_config (maker : bool) (now : float) (shttp : S)
    (stdio : list MCPStdioServerConfig) (user_id : option string) (st : McpState) :
    McpState * (S * list MCPStdioServerConfig) :=
  match user_id with
  | None => (st, (shttp, stdio))
  | Some u =>
      match cache_get now u (mc_cache st) with
      | Some (cached_shttp, cached_stdio) => (st, (cached_shttp, stdio ++ cached_stdio))
      | None =>
          let '(st, user_stdio) := load_user_servers maker u st in
          (mkMcpState (mc_db st) (mc_key st) (cache_set now u (shttp, user_stdio) (mc_cache st)),
           (shttp, stdio ++ user_stdio))
      end
  end.
End mcp.

(** * Properties of the tool servers

    The cache of the configurations agrees with the database, and the approval of servers
    is never given by a route. *)
Section mcp.
Context `{Platform} `{AEAD} `{Shlex} {S C : Type} `{TTLCache C (S * list MCPStdioServerConfig)}.
Variable env : environ.
Variable created_at : UserMCPServer → json.

(** ** The key *)

(** The key is not derived yet, or it is the one of the environment. *)
Definition key_ok (key : option string) : Prop := key = None ∨ get_key env None = (key, from_option Ok (Raise AssertionError) key).

Lemma get_key_result key : key_ok key → (get_key env key).2 = (get_key env None).2 ∧ key_ok (get_key env key).1.
Proof.
  intros [->|Hk].
  - split; [done|]. unfold key_ok. destruct (get_key env None) as [k r] eqn:He. simpl.
    revert He. unfold get_key. case_match; intros [= <- <-]; [by left|by right].
  - rewrite Hk. destruct key as [k|]; simpl; [by split; [|right]|].
    unfold get_key in Hk. simpl in Hk. by case_match.
Qed.

Lemma decrypt_result v key key' :
  key_ok key → key_ok key' →
  (decrypt_value env v None key).2 = (decrypt_value env v None key').2
  ∧ key_ok (decrypt_value env v None key).1.
Proof.
  intros Hk Hk'. destruct (get_key_result key Hk) as [Ha Hb].
  destruct (get_key_result key' Hk') as [Hd _]. unfold decrypt_value, pbind, plift.
  destruct (get_key env key) as [k r], (get_key env key') as [k' r']. simpl in *.
  rewrite <- Hd in Ha. subst r'. destruct r as [a|]; [|done]. by destruct (b64decode v).
Qed.

Lemma server_config_result s key key' :
  key_ok key → key_ok key' →
  (server_config env s key).2 = (server_config env s key').2 ∧ key_ok (server_config env s key).1.
Proof.
  intros Hk Hk'. destruct (decrypt_result (ms_config s) key key' Hk Hk') as [Ha Hb].
  unfold server_config. destruct (decrypt_value _ _ _ key) as [k [t|]], (decrypt_value _ _ _ key') as [k' [t'|]];
    simpl in *; [split; [congruence|done]|done|done|done].
Qed.

(** What is loaded does not depend on whether the key was derived before. *)
Lemma load_rows_result rows acc key key' :
  key_ok key → key_ok key' →
  (load_rows env rows key acc).2 = (load_rows env rows key' acc).2 ∧ key_ok (load_rows env rows key acc).1.
Proof.
  revert acc key key'. induction rows as [|s rows IH]; intros acc key key' Hk Hk'; [done|].
  cbn [load_rows]. destruct (negb _); [by apply IH|].
  destruct (server_config_result s key key' Hk Hk') as [Ha Hb].
  destruct (server_config_result s key' key Hk' Hk) as [_ Hd].
  destruct (server_config env s key) as [k t], (server_config env s key') as [k' t']. simpl in *.
  subst t'. destruct (json_loads t) as [[]|]; try done; [|by apply IH].
  destruct (new_stdio _ _ _ _); [by apply IH|done].
Qed.

Lemma protect_key nonce config key : key_ok key → key_ok (protect env nonce config key).1.
Proof.
  intros Hk. destruct (get_key_result key Hk) as [_ Ha]. unfold protect, encrypt_value, pbind, pret.
  destruct (get_key env key) as [k [t|[]]]; done.
Qed.

(** ** The cache *)

(** What a user's conversations are to get from the database. *)
Definition current (st : McpState (C := C)) (u : string) : list MCPStdioServerConfig :=
  (load_rows env (usable_servers (mc_db st) u) (mc_key st) []).2.
(** A cached entry of a user is what the database has. *)
Definition coherent (st : McpState (C := C)) : Prop :=
  key_ok (mc_key st)
  ∧ ∀ now u shttp l, parse_uuid u = Ok u → cache_get now u (mc_cache st) = Some (shttp, l) →
      l = current st u.

Context `{!TTLCacheLaws C (S * list MCPStdioServerConfig)}.
#[local] Set Default Proof Using "All".

(** The rows of the others stay, and the user's entry goes. *)
Lemma coherent_commit user key new resp st st' r :
  commit_servers user key new resp st = (st', r) → key_ok key →
  (∀ v, v ≠ au_user_id user → usable_servers new v = usable_servers (mc_db st) v) →
  coherent st → coherent st'.
Proof.
  intros Hc Hk Hother [Hk0 Hd]. unfold commit_servers in Hc.
  destruct (commit (mc_db st) new resp) as [d [a|e]] eqn:Hcm; injection Hc as <- <-;
    (split; [done|]); simpl; intros now v shttp l Hv Hg.
  - apply commit_inv in Hcm as [(-> & _)|(_ & _ & [=])].
    destruct (decide (v = au_user_id user)) as [->|Hne]; [by rewrite get_pop in Hg|].
    apply get_pop_other in Hg. rewrite (Hd now v shttp l Hv Hg). unfold current. simpl.
    rewrite Hother by done. by apply load_rows_result.
  - apply commit_inv in Hcm as [(_ & _ & [=])|(-> & _)].
    rewrite (Hd now v shttp l Hv Hg). unfold current. simpl. by apply load_rows_result.
Qed.
Lemma coherent_key st key :
  key_ok key → coherent st → coherent (mkMcpState (mc_db st) key (mc_cache st)).
Proof.
  intros Hk [Hk0 Hd]. split; [done|]. intros now v shttp l Hv Hg.
  rewrite (Hd now v shttp l Hv Hg). unfold current. simpl. by apply load_rows_result.
Qed.

Lemma coherent_create id nonce org name type config desc user st st' r :
  create_mcp_server env created_at id nonce org name type config desc user st = (st', r) →
  coherent st → coherent st'.
Proof.
  unfold create_mcp_server. intros Hc Hco. pose proof (protect_key nonce config _ (proj1 Hco)) as Hk.
  destruct (protect env nonce config (mc_key st)) as [key [t|]]; [|injection Hc as <- _; by apply coherent_key].
  eapply coherent_commit; [exact Hc|done| |done]. intros v Hv. unfold usable_servers. simpl.
  apply filter_add. simpl. by rewrite (proj2 (String.eqb_neq _ _) (not_eq_sym Hv)).
Qed.

Lemma coherent_update nonce sid org name config enabled desc user st st' r :
  update_mcp_server env created_at nonce sid org name config enabled desc user st = (st', r) →
  coherent st → coherent st'.
Proof.
  unfold update_mcp_server. intros Hc Hco.
  destruct (one_or_none _) as [[s|]|] eqn:Hs; [|injection Hc as <- _; done..].
  assert (Hown : own_server sid org user s = true).
  { apply one_or_none_some in Hs.
    assert (Hin : s ∈ py_filter (own_server sid org user) (db_servers (mc_db st)))
      by (rewrite Hs; apply list_elem_of_here).
    by apply elem_of_py_filter in Hin as [? _]. }
  set (pc := match config with Some c => _ | None => _ end) in Hc.
  assert (Hk : key_ok pc.1).
  { unfold pc. destruct config as [c|]; [|apply Hco].
    pose proof (protect_key nonce c _ (proj1 Hco)) as Hk.
    by destruct (protect env nonce c (mc_key st)) as [key [t|]]. }
  destruct pc as [key [text|]]; [|injection Hc as <- _; by apply coherent_key].
  eapply coherent_commit; [exact Hc|done| |done]. intros v Hv. unfold usable_servers. simpl.
  apply filter_update. intros x _ Hx. unfold own_server in Hx, Hown.
  rewrite !andb_true_iff, !String.eqb_eq in Hx, Hown. destruct Hx as [[_ Hx] _], Hown as [[_ Hu] _].
  simpl. rewrite Hx, Hu. by rewrite (proj2 (String.eqb_neq _ _) (not_eq_sym Hv)).
Qed.

Lemma coherent_delete sid org user st st' r :
  delete_mcp_server sid org user st = (st', r) → coherent st → coherent st'.
Proof.
  unfold delete_mcp_server. intros Hc Hco.
  destruct (one_or_none _) as [[s|]|]; [|injection Hc as <- _; done..].
  eapply coherent_commit; [exact Hc|apply Hco| |done]. intros v Hv. unfold usable_servers. simpl.
  apply filter_delete. intros x _ Hx. unfold own_server in Hx.
  rewrite !andb_true_iff, !String.eqb_eq in Hx. destruct Hx as [[_ Hx] _].
  rewrite Hx. by rewrite (proj2 (String.eqb_neq _ _) (not_eq_sym Hv)).
Qed.

Lemma coherent_load maker u st : coherent st → coherent (load_user_servers env maker u st).1.
Proof.
  intros Hco. unfold load_user_servers. destruct (negb maker); [done|].
  destruct (parse_uuid u) as [i|]; [|done].
  pose proof (load_rows_result (usable_servers (mc_db st) i) [] _ _ (proj1 Hco) (proj1 Hco)) as [_ Hk].
  destruct (load_rows _ _ _ _) as [key l]. by apply coherent_key.
Qed.

(** The operations on the servers and their configuration. *)
Inductive McpOp :=
  | Create (id nonce org name type : string) (config : dict) (desc : option string) (user : AuthedUser)
  | Update (nonce sid org : string) (name : option string) (config : option dict)
      (enabled : option bool) (desc : option string) (user : AuthedUser)
  | Delete (sid org : uuid) (user : AuthedUser)
  | Configure (now : float) (shttp : S) (stdio : list MCPStdioServerConfig) (u : option string).
Definition mcp_step (st : McpState (C := C)) (op : McpOp) : McpState :=
  match op with
  | Create id nonce org name type config desc user =>
      (create_mcp_server env created_at id nonce org name type config desc user st).1
  | Update nonce sid org name config enabled desc user =>
      (update_mcp_server env created_at nonce sid org name config enabled desc user st).1
  | Delete sid org user => (delete_mcp_server sid org user st).1
  | Configure now shttp stdio u => (create_default_mcp_server_config env true now shttp stdio u st).1
  end.

Lemma coherent_step st op : coherent st → coherent (mcp_step st op).
Proof.
  intros Hco. destruct op as [id nonce org name ty config desc user|nonce sid org name config en desc user
    |sid org user|now shttp stdio u]; cbn [mcp_step].
  - destruct (create_mcp_server _ _ _ _ _ _ _ _ _ _ _) eqn:Hc. by eapply coherent_create.
  - destruct (update_mcp_server _ _ _ _ _ _ _ _ _ _ _) eqn:Hc. by eapply coherent_update.
  - destruct (delete_mcp_server _ _ _ _) eqn:Hc. by eapply coherent_delete.
  - unfold create_default_mcp_server_config. destruct u as [u|]; [|done].
    destruct (cache_get now u (mc_cache st)) as [[]|] eqn:Hg; [done|].
    pose proof (coherent_load true u st Hco) as [Hk Hd].
    destruct (load_user_servers env true u st) as [st1 l] eqn:Hl. simpl in *. split; [done|].
    intros now' v sh l' Hv Hg'. destruct (decide (v = u)) as [->|Hne].
    + apply get_set in Hg'. injection Hg' as -> ->. unfold load_user_servers in Hl. simpl in Hl.
      rewrite Hv in Hl. unfold current. simpl.
      destruct (load_rows env (usable_servers (mc_db st) u) (mc_key st) []) as [key l0] eqn:Hr.
      injection Hl as <- <-. simpl.
      destruct (load_rows_result (usable_servers (mc_db st) u) [] (mc_key st) key (proj1 Hco) Hk) as [He _].
      rewrite Hr in He. done.
    + apply get_set_other in Hg'; [|done]. by eapply Hd.
Qed.

(** The cached configuration of a user is never out of date with respect to the routes:
    after any sequence of creations, updates and deletions of servers by any users, and of
    conversations that start, a conversation of a user gets the servers that the database
    has for the user at that moment, whether they come from the cache or not. *)
Theorem mcp_cache_coherent ops st now shttp stdio u :
  coherent st → parse_uuid u = Ok u →
  let st' := foldl mcp_step st ops in
  (create_default_mcp_server_config env true now shttp stdio (Some u) st').2.2 = stdio ++ current st' u.
Proof.
  intros Hco Hu st'. assert (Hco' : coherent st').
  { unfold st'. clear st'. revert st Hco. induction ops as [|op ops IH]; intros st Hco; [done|].
    simpl. by apply IH, coherent_step. }
  unfold create_default_mcp_server_config.
  destruct (cache_get now u (mc_cache st')) as [[sh l]|] eqn:Hg.
  - simpl. by rewrite (proj2 Hco' now u sh l Hu Hg).
  - unfold load_user_servers. simpl. rewrite Hu. unfold current.
    by destruct (load_rows env (usable_servers (mc_db st') u) (mc_key st') []).
Qed.

(** ** Approval *)

(** The servers that are approved, with what runs. *)
Definition approved (d : Database) (i : uuid) : Prop :=
  ∃ s, s ∈ db_servers d ∧ ms_id s = i ∧ ms_approved s = true.

Lemma approved_commit user key new resp st i :
  (approved new i → approved (mc_db st) i) →
  approved (mc_db (commit_servers user key new resp st).1) i → approved (mc_db st) i.
Proof using.
  intros Hn. unfold commit_servers. destruct (commit (mc_db st) new resp) as [d [a|e]] eqn:Hc; simpl.
  - apply commit_inv in Hc as [(-> & _)|(_ & _ & [=])]. done.
  - apply commit_inv in Hc as [(_ & _ & [=])|(-> & _)]. done.
Qed.

Lemma approved_step st op i : approved (mc_db (mcp_step st op)) i → approved (mc_db st) i.
Proof using.
  destruct op as [id nonce org name ty config desc user|nonce sid org name config en desc user
    |sid org user|now shttp stdio u]; cbn [mcp_step].
  - unfold create_mcp_server. destruct (protect _ _ _ _) as [key [t|]]; [|done].
    apply approved_commit. intros (s & [Hs|Hs]%elem_of_app & Hi & Ha); [by exists s|].
    apply list_elem_of_singleton in Hs as ->. done.
  - unfold update_mcp_server. destruct (one_or_none _) as [[s|]|] eqn:Hs; [|done..].
    apply one_or_none_some in Hs.
    assert (Hin : s ∈ py_filter (own_server sid org user) (db_servers (mc_db st)))
      by (rewrite Hs; apply list_elem_of_here).
    apply elem_of_py_filter in Hin as [_ Hin].
    destruct (match config with Some c => _ | None => _ end) as [key [t|]]; [|done].
    apply approved_commit. intros (s' & Hs' & Hi & Ha). simpl in Hs'.
    apply list_elem_of_fmap in Hs' as (x & -> & Hx).
    destruct (own_server sid org user x); [by exists s|by exists x].
  - unfold delete_mcp_server. destruct (one_or_none _) as [[s|]|]; [|done..].
    apply approved_commit. intros (s' & [_ Hs']%delete_rows_elem & Hi & Ha). by exists s'.
  - unfold create_default_mcp_server_config. destruct u as [u|]; [|done].
    destruct (cache_get now u (mc_cache st)) as [[]|]; [done|].
    unfold load_user_servers. simpl. destruct (parse_uuid u) as [v|]; [|done].
    by destruct (load_rows _ _ _ _).
Qed.

(** No route approves a server: a server that is approved after any sequence of
    operations was approved before it; a new server is not.  (The code says that an
    administrator approves; no operation of the server does.) *)
Theorem routes_never_approve ops st i :
  approved (mc_db (foldl mcp_step st ops)) i → approved (mc_db st) i.
Proof using.
  revert st. induction ops as [|op ops IH]; intros st; [done|]. simpl. intros Ha%IH.
  by eapply approved_step.
Qed.

(** The update of a server keeps its approval although it replaces the command: the
    server of a user that was approved runs, in the user's next conversation, whatever the
    user has made of it since. *)
Theorem update_keeps_approval nonce sid org config user st s key t :
  py_filter (own_server sid org user) (db_servers (mc_db st)) = [s] →
  protect env nonce config (mc_key st) = (key, Ok t) →
  ms_approved s = true → ms_enabled s = true →
  integrity (set_servers (update_rows (own_server sid org user)
     (λ _, updated_server None (Some t) None None s) (db_servers (mc_db st))) (mc_db st)) = true →
  let st' := (update_mcp_server env created_at nonce sid org None (Some config) None None user st).1 in
  updated_server None (Some t) None None s ∈ usable_servers (mc_db st') (au_user_id user).
Proof using.
  intros Hs Hp Hap Hen Hi st'.
  assert (Hin : s ∈ py_filter (own_server sid org user) (db_servers (mc_db st)))
    by (rewrite Hs; apply list_elem_of_here).
  apply elem_of_py_filter in Hin as [Hown Hin].
  unfold st', update_mcp_server. rewrite Hs. cbn [one_or_none]. rewrite Hp.
  unfold commit_servers, commit. rewrite Hi. simpl. unfold usable_servers. simpl.
  apply elem_of_py_filter. simpl. rewrite Hap, Hen. pose proof Hown as Hu. unfold own_server in Hu.
  rewrite !andb_true_iff in Hu. destruct Hu as [[_ ->] _]. split; [done|].
  unfold update_rows. apply list_elem_of_fmap. exists s. by rewrite Hown.
Qed.
End mcp.

(** ** Examples *)

Module mcp_example.
(** A cache that forgets nothing. *)
Definition Cache : Type := list (string * (unit * list MCPStdioServerConfig)).
#[export] Instance cache : TTLCache Cache (unit * list MCPStdioServerConfig) := {|
  cache_get _ k c := dget k c;
  cache_set _ k v c := dset k v c;
  cache_pop k c := ddel k c;
|}.
#[export] Instance cache_laws : TTLCacheLaws Cache (unit * list MCPStdioServerConfig).
Proof.
  split; simpl.
  - intros _ k c. rewrite dget_ddel. by rewrite String.eqb_refl.
  - intros _ k k' c v. rewrite dget_ddel. by case_match.
  - intros _ _ k v v' c. rewrite dget_dset. rewrite String.eqb_refl. congruence.
  - intros _ _ k k' v v' c Hne. rewrite dget_dset. by rewrite (proj2 (String.eqb_neq _ _) Hne).
Qed.
#[export] Instance aead : AEAD := {|
  hkdf_derive secret salt info := secret; sha256 s := s;
  aesgcm_encrypt k n p a := p; aesgcm_decrypt k n c a := Ok c |}.
#[export] Instance shlex : Shlex := λ s, Ok [s].

Definition ann : uuid := "0000000a-0000-0000-0000-000000000000".
Definition user : AuthedUser := mkAuthedUser ann None None None None.
Definition config (cmd : string) : dict := [("command", JStr cmd)].
Definition row (i name : string) : UserMCPServer :=
  mkUserMCPServer i ann "acme" name "stdio" (json_dumps (JDict (config "echo"))) true None true.
Definition db (rows : list UserMCPServer) : Database := mkDatabase [] [new_Organization "acme" "Acme"]
  [mkUser ann "oa" None None None None] [] [] [] [] [] rows [] [] [] [].
Definition st (rows : list UserMCPServer) : McpState := mkMcpState (db rows) None ([] : Cache).

Lemma st_coherent rows : coherent [] (st rows).
Proof. split; [by left|]. intros now u sh l _ Hg. done. Qed.

Lemma mcp_cache_coherent_witness :
  let ops := [Configure (float_of_Z 0) tt [] (Some ann);
              Update "n" "s1" "acme" None (Some (config "rm")) None None user] in
  let st' := foldl (mcp_step [] (λ _, JNull)) (st [row "s1" "tools"]) ops in
  (create_default_mcp_server_config [] true (float_of_Z 1) tt [] (Some ann) st').2.2
  = current [] st' ann.
Proof.
  exact (mcp_cache_coherent [] (λ _, JNull) _ (st [row "s1" "tools"]) (float_of_Z 1) tt [] ann
           (st_coherent _) eq_refl).
Defined.

Lemma routes_never_approve_witness :
  approved (db [row "s1" "tools"]) "s1".
Proof.
  refine (routes_never_approve [] (λ _, JNull)
    [Update "n" "s1" "acme" None (Some (config "rm")) None None user;
     Configure (float_of_Z 0) tt [] (Some ann)] (st [row "s1" "tools"]) "s1" _).
  eexists. split; [vm_compute; apply list_elem_of_here|]. split; reflexivity.
Defined.

Lemma update_keeps_approval_witness :
  updated_server None (Some (json_dumps (JDict (config "rm")))) None None (row "s1" "tools")
  ∈ usable_servers (mc_db (update_mcp_server [] (λ _, JNull) "n" "s1" "acme" None (Some (config "rm"))
      None None user (st [row "s1" "tools"])).1) ann.
Proof.
  exact (update_keeps_approval [] (λ _, JNull) "n" "s1" "acme" (config "rm") user (st [row "s1" "tools"])
           (row "s1" "tools") None (json_dumps (JDict (config "rm"))) eq_refl eq_refl eq_refl eq_refl eq_refl).
Defined.

(** A server whose name the configuration refuses hides the ones after it. *)
Example bad_name_hides_others :
  current [] (st [row "s1" "my tools"; row "s2" "good"]) ann = []
  ∧ length (current [] (st [row "s2" "good"; row "s1" "my tools"]) ann) = 1%nat.
Proof. vm_compute. done. Qed.
End mcp_example.
