(* ===== verification/ApollosSessions.v ===== *)
(** * Server-side sessions of the ApollosAI server

    Models [apollosai/server/middleware/db_session_middleware.py]: the session of a request
    is the row that its cookie names; what the application makes of it is saved with the
    response.  Times are microseconds; the random identifier, the draw of the clean-up and
    the clock are arguments. *)

From S2P Require Import Prelude PyValue ApollosDb ApollosAuth.
Local Open Scope Z_scope.
Local Open Scope py_scope.

Record ServerSession := mkServerSession { sv_id : string; sv_data : dict; sv_expires_at : Z }.
Record SessionDb := mkSessionDb { sd_sessions : list ServerSession; sd_revoked : list RevokedToken }.

(** [DBSessionMiddleware(...)] *)
Record Middleware := mkMiddleware {
  mw_max_age : Z;
  mw_cookie_name : string;
  mw_https_only : bool;
  mw_same_site : string;
}.

Definition get_session (i : string) (d : SessionDb) : option ServerSession :=
  py_find (λ s, String.eqb (sv_id s) i) (sd_sessions d).

(** [_save_session] *)
Definition save_session (m : Middleware) (now : Z) (i : string) (data : dict) (d : SessionDb) : SessionDb :=
  let row := mkServerSession i data (now + mw_max_age m * 1000000) in
  match get_session i d with
  | Some _ => mkSessionDb ((λ s, if String.eqb (sv_id s) i then row else s) <$> sd_sessions d) (sd_revoked d)
  | None => mkSessionDb (sd_sessions d ++ [row]) (sd_revoked d)
  end.

(** [_cleanup_expired]: sessions and revocations whose time has passed. *)
Definition cleanup_expired (now : Z) (d : SessionDb) : SessionDb :=
  mkSessionDb (py_filter (λ s, now <=? sv_expires_at s) (sd_sessions d))
    (py_filter (λ r, now <=? rv_expires_at r) (sd_revoked d)).

(** The session of a request: its identifier, its data and whether it is new. *)
Definition open_session (now : Z) (fresh : string) (cookie : option string) (d : SessionDb) :
    SessionDb * (string * dict * bool) :=
  match cookie with
  | None | Some "" => (d, (fresh, [], true))
  | Some i =>
      match get_session i d with
      | None => (d, (i, [], false))
      | Some row =>
          if now <? sv_expires_at row then (d, (i, sv_data row, false))
          else (mkSessionDb (py_filter (λ s, negb (String.eqb (sv_id s) i)) (sd_sessions d)) (sd_revoked d),
                (fresh, [], true))
      end
  end.

Definition session_cookie (m : Middleware) (i : string) : string :=
  str_join "; " ([mw_cookie_name m +:+ "=" +:+ i; "Max-Age=" +:+ pretty (mw_max_age m); "Path=/";
                  "HttpOnly"; "SameSite=" +:+ mw_same_site m]
                 ++ (if mw_https_only m then ["Secure"] else [])).

(** One request: [app] is what the application assigns to the keys of the session before its
    response starts (the copy it is compared with is shallow: a change made inside a value
    that stays is in both); the result has the cookie header that is set, if any. *)
Definition session_request (m : Middleware) (now : Z) (fresh : string) (clean : bool)
    (cookie : option string) (app : dict → dict) (d : SessionDb) : SessionDb * option string :=
  let '(d, (i, data, is_new)) := open_session now fresh cookie d in
  let d := if clean then cleanup_expired now d else d in
  let data' := app data in
  if is_new || negb (dict_eqb data' data)
  then (save_session m now i data' d, Some (session_cookie m i))
  else (d, None).

(** ** Properties *)

Lemma get_saved m now i data d :
  get_session i (save_session m now i data d) = Some (mkServerSession i data (now + mw_max_age m * 1000000)).
Proof.
  unfold save_session. destruct (get_session i d) as [s|] eqn:Hs; unfold get_session in *; simpl.
  - revert Hs. induction (sd_sessions d) as [|x l IH]; simpl; [done|].
    destruct (String.eqb (sv_id x) i) eqn:Hx; simpl; [by rewrite String.eqb_refl|]. rewrite Hx. apply IH.
  - revert Hs. induction (sd_sessions d) as [|x l IH]; simpl; [by rewrite String.eqb_refl|].
    destruct (String.eqb (sv_id x) i); [done|]. apply IH.
Qed.

(** What a request leaves in its session is what the next request with that session's
    cookie finds, if it comes before the session's age is over. *)
Theorem session_persists m now now' fresh fresh' clean cookie app d :
  let '(d', header) := session_request m now fresh clean cookie app d in
  ∀ i data is_new, (open_session now fresh cookie d).2 = (i, data, is_new) → i ≠ "" →
  header ≠ None → now ≤ now' < now + mw_max_age m * 1000000 →
  (open_session now' fresh' (Some i) d').2 = (i, app data, false).
Proof.
  unfold session_request. destruct (open_session now fresh cookie d) as [d1 [[i data] is_new]].
  destruct (_ || _); [|by intros ??? _ _ ?].
  intros i' data' is_new' [= <- <- <-] Hi _ Ht. unfold open_session.
  destruct i as [|c s]; [done|]. rewrite get_saved. simpl.
  by rewrite (proj2 (Z.ltb_lt now' (now + mw_max_age m * 1000000))) by lia.
Qed.

(** An identifier that the client made up is adopted: a cookie that names no session is
    not replaced by a fresh identifier, and the first change is saved under the client's. *)
Theorem unknown_session_adopted m now fresh clean i app d :
  i ≠ "" → get_session i d = None → dict_eqb (app []) [] = false →
  let d' := (session_request m now fresh clean (Some i) app d).1 in
  ∃ row, get_session i d' = Some row ∧ sv_data row = app [].
Proof.
  intros Hi Hg Ha. unfold session_request, open_session. destruct i as [|c s]; [done|].
  rewrite Hg, Ha. simpl. rewrite get_saved. eauto.
Qed.

(** The clean-up removes no session that is still valid and no revocation of a token that
    has not expired. *)
Lemma cleanup_keeps now d s : s ∈ sd_sessions d → now ≤ sv_expires_at s → s ∈ sd_sessions (cleanup_expired now d).
Proof. intros Hs Hn. apply elem_of_py_filter. split; [by apply Z.leb_le|done]. Qed.

Module sessions_example.
Definition m : Middleware := mkMiddleware 86400 "session_id" true "lax".
Definition empty : SessionDb := mkSessionDb [] [].
Definition app (d : dict) : dict := dset "n" (JInt 1) d.

Lemma session_persists_witness :
  (open_session 5 "f2" (Some "f1") (session_request m 0 "f1" true None app empty).1).2
  = ("f1", [("n", JInt 1)], false).
Proof.
  pose proof (session_persists m 0 5 "f1" "f2" true None app empty) as Ht.
  destruct (session_request m 0 "f1" true None app empty) as [d' h] eqn:He.
  apply (Ht "f1" [] true); [reflexivity|done| |simpl; lia]. vm_compute in He. by injection He as <- <-.
Defined.

Lemma unknown_session_adopted_witness :
  ∃ row, get_session "evil" (session_request m 0 "f1" false (Some "evil") app empty).1 = Some row
         ∧ sv_data row = app [].
Proof. exact (unknown_session_adopted m 0 "f1" false "evil" app empty ltac:(done) eq_refl eq_refl). Defined.

Example cookie_header :
  session_cookie m "x" = "session_id=x; Max-Age=86400; Path=/; HttpOnly; SameSite=lax; Secure".
Proof. vm_compute. reflexivity. Qed.
End sessions_example.
