(* ===== verification/PyFloat.v ===== *)
(** * Texts as floats

    Python's [float(s)] of a text: decimal numbers with single underscores between digits,
    infinities and NaN, correctly rounded to binary64. *)

From S2P Require Import Prelude PyValue EventStore.
From Stdlib Require Import Floats.SpecFloat.
Local Open Scope Z_scope.

(** A run of digits from [s]: its value after [v], the number of digits after [n], the rest. *)
Fixpoint read_digits (v n : Z) (s : string) : Z * Z * string :=
  match s with
  | "" => (v, n, "")
  | String c s' =>
      match digit c with
      | Some d => read_digits (v * 10 + d) (n + 1) s'
      | None =>
          match s' with
          | String c' _ =>
              if Ascii.eqb c "_" && (0 <? n) && (match digit c' with Some _ => true | None => false end)
              then read_digits v n s' else (v, n, s)
          | "" => (v, n, s)
          end
      end
  end.

(** [m * 10 ^ e], rounded once. *)
Definition scale10 (neg : bool) (m e : Z) : float :=
  if m =? 0 then S754_zero neg
  else if 0 <=? e then float_of_Z ((if neg then -1 else 1) * m * 10 ^ e)
  else SFdiv fprec femax (S754_finite neg (Z.to_pos m) 0) (S754_finite false (Z.to_pos (10 ^ (- e))) 0).

Definition read_sign (s : string) : bool * string :=
  match s with
  | String "-" t => (true, t)
  | String "+" t => (false, t)
  | _ => (false, s)
  end.

(** [e[+-]digits], or nothing; [None]: something else follows. *)
Definition read_exponent (s : string) : option Z :=
  match s with
  | "" => Some 0
  | String c t =>
      if Ascii.eqb (ascii_lower c) "e" then
        let '(neg, t) := read_sign t in
        let '(v, n, rest) := read_digits 0 0 t in
        if (0 <? n) && String.eqb rest "" then Some (if neg then - v else v) else None
      else None
  end.

(** The digits before and after the point; a point alone is no number. *)
Definition read_decimal (neg : bool) (s : string) : option float :=
  let '(v, n, rest) := read_digits 0 0 s in
  let '(v, k, total, rest) :=
    match rest with
    | String "." t => let '(w, j, rest) := read_digits 0 0 t in (v * 10 ^ j + w, j, n + j, rest)
    | _ => (v, 0, n, rest)
    end in
  if total <=? 0 then None
  else match read_exponent rest with Some e => Some (scale10 neg v (e - k)) | None => None end.

(** [float(s)] *)
Definition py_float (s : string) : result float :=
  let '(neg, t) := read_sign (str_strip s) in
  let word := str_lower t in
  match (if String.eqb word "inf" || String.eqb word "infinity" then Some (S754_infinity neg)
         else if String.eqb word "nan" then Some S754_nan else read_decimal neg t) with
  | Some x => Ok x
  | None => Raise (ValueError ("could not convert string to float: '" +:+ s +:+ "'"))
  end.

(** One tenth is the binary64 number nearest to it, the least positive number is the least
    subnormal one, and what is above the range is infinite. *)
Example py_float_rounds :
  py_float " 0.1 " = Ok (S754_finite false 7205759403792794 (-56))
  ∧ py_float "4.9e-324" = Ok (S754_finite false 1 (-1074))
  ∧ py_float "-1_000" = Ok (S754_finite true 8796093022208000 (-43))
  ∧ py_float "1e309" = Ok (S754_infinity false) ∧ py_float "120" = Ok (float_of_Z 120).
Proof. by vm_compute. Qed.

Example py_float_refuses :
  (∀ s, s ∈ ["."; ""; "1__0"; "1_"; "_1"; "1e"; "1.5s"; "0x10"; "1 2"] →
    ∃ m, py_float s = Raise (ValueError m)).
Proof.
  intros s Hs. repeat (apply elem_of_cons in Hs as [->|Hs]; [by eexists; vm_compute|]).
  by apply not_elem_of_nil in Hs.
Qed.
