(* ===== verification/FunctionCalling.v ===== *)
(** * From tool calls to actions

    Models [openhands/agenthub/{codeact_agent,readonly_agent,loc_agent}/function_calling.py]:
    the actions an agent takes from a response of the language model.  The response is
    the document its metadata refers to ([ModelResponses]).  The dataclasses do not check
    the types of their arguments: arguments without the declared types, and arguments that
    are not a dictionary, are outside the typed actions of this development and are
    answered with [Unmodelled].  The texts of the exceptions leave out lists of names that
    have no order. *)

From S2P Require Import Prelude PyValue Schema Actions Observations Events Serialization EventStore ExamplePlatform EventStream Message ConversationMemory ConversationMemoryProps Microagent FnCallTexts FnCallConverter PyFloat.
From S2P Require Import Message ConversationMemory Microagent FnCallTexts FnCallConverter.
From Stdlib Require Import Floats.SpecFloat.
Local Open Scope Z_scope.
Local Open Scope py_scope.

Definition FunctionCallNotExistsError (m : string) : py_exc :=
  OtherError "FunctionCallNotExistsError" m.

(** ** Shared by the agents *)

(** [combine_thought] *)
Definition combine_thought (a : Action) (thought : string) : Action :=
  match get_thought a with
  | None => a
  | Some own =>
      if nonempty thought && nonempty own then set_thought (thought +:+ nl +:+ own) a
      else if nonempty thought then set_thought thought a
      else a
  end.

(** [RISK_LEVELS], with [getattr(ActionSecurityRisk, name)] *)
Definition risk_level (j : json) : option ActionSecurityRisk :=
  match j with
  | JStr "LOW" => Some RISK_LOW
  | JStr "MEDIUM" => Some RISK_MEDIUM
  | JStr "HIGH" => Some RISK_HIGH
  | _ => None
  end.

(** [set_security_risk] *)
Definition apply_security_risk (arguments : dict) (a : Action) : Action :=
  match dget "security_risk" arguments with
  | None => a
  | Some j => match risk_level j with Some r => set_security_risk r a | None => a end
  end.

Definition missing_argument (k name : string) : py_exc :=
  FunctionCallValidationError
    ("Missing required argument " +:+ quote +:+ k +:+ quote +:+ " in tool call " +:+ name).

(** [if k not in arguments: raise ...], then [arguments[k]] *)
Definition required {A} (dec : json → option A) (k name : string) (arguments : dict) : result A :=
  if dmem k arguments then arg dec k None arguments else Raise (missing_argument k name).

(** ** The tools of the CodeAct agent *)

Section calls.
Context `{Platform}.

(** [float(arguments['timeout'])]: only a [ValueError] is reported as an invalid call. *)
Definition timeout_value (j : json) : result float :=
  match j with
  | JStr s => match py_float s with
              | Ok x => Ok x
              | Raise _ => Raise (FunctionCallValidationError
                  ("Invalid float passed to 'timeout' argument: " +:+ s))
              end
  | JInt z => match float_of_Z z with
              | S754_infinity _ => Raise (OtherError "OverflowError" "int too large to convert to float")
              | x => Ok x
              end
  | JFloat x => Ok x
  | JBool b => Ok (float_of_Z (bool_Z b))
  | JNull | JList _ | JDict _ =>
      Raise (TypeError "float() argument must be a string or a real number")
  end.

Definition cmd_run_call (name : string) (arguments : dict) : result Event :=
  let? command := required dec_str "command" name arguments in
  let is_input := match dget "is_input" arguments with
                  | Some j => is_str "true" j | None => false end in
  let e := new_action (ACmdRun (mkCmdRunAction command is_input "" false false None false CONFIRMED
                                  RISK_UNKNOWN)) in
  let? e := match dget "timeout" arguments with
            | None => Ok e
            | Some j => let? x := timeout_value j in Ok (set_hard_timeout (Some x) true e)
            end in
  Ok (map_action (apply_security_risk arguments) e).

Definition ipython_call (name : string) (arguments : dict) : result Event :=
  let? code := required dec_str "code" name arguments in
  Ok (new_action (apply_security_risk arguments
    (AIPythonRunCell (mkIPythonRunCellAction code "" true CONFIRMED RISK_UNKNOWN "")))).

Definition finish_call (arguments : dict) : result Event :=
  let? message := arg dec_str "message" (Some "") arguments in
  Ok (new_action (AAgentFinish (mkAgentFinishAction message [] ""))).

Definition think_call (arguments : dict) : result Event :=
  let? thought := arg dec_str "thought" (Some "") arguments in
  Ok (new_action (AAgentThink (mkAgentThinkAction thought))).

Definition browser_call (name : string) (arguments : dict) : result Event :=
  let? code := required dec_str "code" name arguments in
  Ok (new_action (apply_security_risk arguments
    (ABrowseInteractive (mkBrowseInteractiveAction code "" "" RISK_UNKNOWN false)))).

(** The editor that asks a model: the risk is not taken over. *)
Definition edit_file_call (name : string) (arguments : dict) : result Event :=
  if negb (dmem "path" arguments) then Raise (missing_argument "path" name)
  else if negb (dmem "content" arguments) then Raise (missing_argument "content" name)
  else
    let? path := arg dec_str "path" None arguments in
    let? content := arg dec_str "content" None arguments in
    let? start := arg dec_Z "start" (Some 1) arguments in
    let? end_ := arg dec_Z "end" (Some (-1)) arguments in
    let? impl := arg dec_edit_source "impl_source" (Some LLM_BASED_EDIT) arguments in
    Ok (new_action (AFileEdit (mkFileEditAction path "" None None None None content start end_ ""
                                 RISK_UNKNOWN impl))).

(** The parameters of [create_str_replace_editor_tool()]. *)
Definition editor_params : list string :=
  ["command"; "path"; "file_text"; "old_str"; "new_str"; "insert_line"; "view_range"; "security_risk"].

(** The first key that is not a parameter. *)
Definition unexpected_key (kwargs : dict) : option string :=
  fst <$> py_find (λ kv, negb (existsb (String.eqb kv.1) editor_params)) kwargs.

Definition editor_call (name : string) (arguments : dict) : result Event :=
  if negb (dmem "command" arguments) then Raise (missing_argument "command" name)
  else if negb (dmem "path" arguments) then Raise (missing_argument "path" name)
  else
    let? path := arg dec_str "path" None arguments in
    let? command := arg dec_str "command" None arguments in
    let other_kwargs := ddel "command" (ddel "path" arguments) in
    let? a :=
      if String.eqb command "view" then
        let? range := arg (dec_opt (dec_list dec_Z)) "view_range" (Some None) other_kwargs in
        Ok (AFileRead (mkFileReadAction path 0 (-1) "" RISK_UNKNOWN READ_OH_ACI range))
      else match unexpected_key (ddel "view_range" other_kwargs) with
      | Some k => Raise (FunctionCallValidationError
                    ("Unexpected argument " +:+ k +:+ " in tool call " +:+ name +:+ "."))
      | None =>
          let? file_text := arg (dec_opt dec_str) "file_text" (Some None) other_kwargs in
          let? old_str := arg (dec_opt dec_str) "old_str" (Some None) other_kwargs in
          let? new_str := arg (dec_opt dec_str) "new_str" (Some None) other_kwargs in
          let? insert_line := arg (dec_opt dec_Z) "insert_line" (Some None) other_kwargs in
          Ok (AFileEdit (mkFileEditAction path command file_text old_str new_str insert_line "" 1 (-1)
                           "" RISK_UNKNOWN EDIT_OH_ACI))
      end in
    Ok (new_action (apply_security_risk arguments a)).

(** One task of the tracker's list. *)
Definition normalize_task (i : Z) (task : json) : result json :=
  match task with
  | JDict t =>
      let get k default := from_option id (JStr default) (dget k t) in
      Ok (JDict [("id", get "id" ("task-" +:+ pretty (i + 1))); ("title", get "title" "Untitled task");
                 ("status", get "status" "todo"); ("notes", get "notes" "")])
  | _ => Raise (FunctionCallValidationError
           "Unexpected task format in task_list. Each task should be a dictionary.")
  end.

Fixpoint normalize_tasks (i : Z) (tasks : list json) : result (list json) :=
  match tasks with
  | [] => Ok []
  | t :: tasks => let? x := normalize_task i t in
                  let? l := normalize_tasks (i + 1) tasks in Ok (x :: l)
  end.

(** The index of the last task: the loop's variable is the one that numbers the calls. *)
Definition task_tracker_call (name : string) (arguments : dict) (i : Z) : result (Event * Z) :=
  if negb (dmem "command" arguments) then Raise (missing_argument "command" name)
  else if (match dget "command" arguments with Some j => is_str "plan" j | None => false end)
          && negb (dmem "task_list" arguments)
  then Raise (FunctionCallValidationError
         ("Missing required argument " +:+ quote +:+ "task_list" +:+ quote +:+ " for " +:+ quote
          +:+ "plan" +:+ quote +:+ " command in tool call " +:+ name))
  else match from_option id (JList []) (dget "task_list" arguments) with
  | JList raw =>
      let? tasks := normalize_tasks 0 raw in
      let? command := arg dec_str "command" None arguments in
      Ok (new_action (ATaskTracking (mkTaskTrackingAction command tasks "")),
          match raw with [] => i | _ => py_len raw - 1 end)
  | _ => Raise (FunctionCallValidationError
           ("Invalid format for " +:+ quote +:+ "task_list" +:+ quote +:+ ". Expected a list."))
  end.

Definition not_registered (name : string) (arguments : dict) : py_exc :=
  FunctionCallNotExistsError ("Tool " +:+ name +:+ " is not registered. (arguments: "
    +:+ py_repr (JDict arguments)
    +:+ "). Please check the tool name and retry with an existing tool.").

Definition mcp_call (mcp_tool_names : list string) (name : string) (arguments : dict) : result Event :=
  if existsb (String.eqb name) mcp_tool_names
  then Ok (new_action (AMCP (mkMCPAction name arguments "" RISK_UNKNOWN)))
  else Raise (not_registered name arguments).

(** The action of one call of the CodeAct agent, and the variable [i] after it. *)
Definition codeact_call (mcp_tool_names : list string) (name : string) (arguments : dict) (i : Z) :
    result (Event * Z) :=
  let same (r : result Event) := let? e := r in Ok (e, i) in
  if String.eqb name EXECUTE_BASH_TOOL_NAME then same (cmd_run_call name arguments)
  else if String.eqb name "execute_ipython_cell" then same (ipython_call name arguments)
  else if String.eqb name "delegate_to_browsing_agent"
  then Ok (new_action (AAgentDelegate (mkAgentDelegateAction "BrowsingAgent" arguments "")), i)
  else if String.eqb name FINISH_TOOL_NAME then same (finish_call arguments)
  else if String.eqb name LLM_BASED_EDIT_TOOL_NAME then same (edit_file_call name arguments)
  else if String.eqb name STR_REPLACE_EDITOR_TOOL_NAME then same (editor_call name arguments)
  else if String.eqb name "think" then same (think_call arguments)
  else if String.eqb name "request_condensation" then Ok (new_action ACondensationRequest, i)
  else if String.eqb name BROWSER_TOOL_NAME then same (browser_call name arguments)
  else if String.eqb name TASK_TRACKER_TOOL_NAME then task_tracker_call name arguments i
  else same (mcp_call mcp_tool_names name arguments).
End calls.

(** ** The tools of the read-only agent *)

(** [shlex.quote]: a text with a character outside the safe ones is put in single quotes. *)
Definition shell_safe (c : ascii) : bool :=
  is_letter c || (match digit c with Some _ => true | None => false end)
  || str_contains (String c "") "_@%+=:,./-".
Definition shlex_quote (s : string) : string :=
  if String.eqb s "" then "''"
  else if all_chars shell_safe s then s
  else "'" +:+ str_replace "'" ("'" +:+ quote +:+ "'" +:+ quote +:+ "'") s +:+ "'".

(** The text shown before the results, and the command. *)
Definition with_header_echo (kind command : string) : string :=
  "echo " +:+ quote +:+ "Below are the execution results of the " +:+ kind +:+ " command: "
  +:+ command +:+ nl +:+ quote +:+ "; " +:+ command.

Definition grep_to_cmdrun (pattern : string) (path include : option string) : string :=
  let path_arg := match path with None | Some "" => "." | Some p => shlex_quote p end in
  let rg_cmd := "rg -li " +:+ shlex_quote pattern +:+ " --sortr=modified"
                +:+ match include with None | Some "" => "" | Some i => " --glob " +:+ shlex_quote i end in
  with_header_echo "search" (rg_cmd +:+ " " +:+ path_arg +:+ " | head -n 100").

Definition glob_to_cmdrun (pattern path : string) : string :=
  with_header_echo "glob" ("rg --files " +:+ shlex_quote path +:+ " -g " +:+ shlex_quote pattern
                           +:+ " --sortr=modified" +:+ " | head -n 100").

Definition search_action (command : string) : Event :=
  new_action (ACmdRun (mkCmdRunAction command false "" false false None false CONFIRMED RISK_UNKNOWN)).

Section other_calls.
Context `{Platform}.

Definition view_call (name : string) (arguments : dict) : result Event :=
  let? path := required dec_str "path" name arguments in
  let? range := arg (dec_opt (dec_list dec_Z)) "view_range" (Some None) arguments in
  Ok (new_action (AFileRead (mkFileReadAction path 0 (-1) "" RISK_UNKNOWN READ_OH_ACI range))).

Definition grep_call (name : string) (arguments : dict) : result Event :=
  let? pattern := required dec_str "pattern" name arguments in
  let? path := arg (dec_opt dec_str) "path" (Some None) arguments in
  let? include := arg (dec_opt dec_str) "include" (Some None) arguments in
  Ok (search_action (grep_to_cmdrun pattern path include)).

Definition glob_call (name : string) (arguments : dict) : result Event :=
  let? pattern := required dec_str "pattern" name arguments in
  let? path := arg dec_str "path" (Some ".") arguments in
  Ok (search_action (glob_to_cmdrun pattern path)).

Definition readonly_call (mcp_tool_names : list string) (name : string) (arguments : dict) (i : Z) :
    result (Event * Z) :=
  let? e := if String.eqb name FINISH_TOOL_NAME then finish_call arguments
            else if String.eqb name "view" then view_call name arguments
            else if String.eqb name "think" then think_call arguments
            else if String.eqb name "grep" then grep_call name arguments
            else if String.eqb name "glob" then glob_call name arguments
            else mcp_call mcp_tool_names name arguments in
  Ok (e, i).

(** ** The tools of the code location agent: calls of its plugin's functions *)

Definition LOC_FUNCTIONS : list string :=
  ["explore_tree_structure"; "search_code_snippets"; "get_entity_contents"].

Definition loc_call (mcp_tool_names : list string) (name : string) (arguments : dict) (i : Z) :
    result (Event * Z) :=
  let? e := if existsb (String.eqb name) LOC_FUNCTIONS then
              Ok (new_action (AIPythonRunCell (mkIPythonRunCellAction
                ("print(" +:+ name +:+ "(**" +:+ py_repr (JDict arguments) +:+ "))") "" true CONFIRMED
                RISK_UNKNOWN "")))
            else if String.eqb name FINISH_TOOL_NAME then finish_call arguments
            else Raise (not_registered name arguments) in
  Ok (e, i).

(** ** [response_to_actions] *)

Context `{ModelResponses}.
(** What differs between the agents: the exception for arguments that cannot be parsed,
    and the calls. *)
Variable parse_error : string → py_exc.
Variable call_action : list string → string → dict → Z → result (Event * Z).
Variable mcp_tool_names : list string.
Variable response : json.

Definition call_metadata (c : ToolCall) (total : Z) : result ToolCallMetadata :=
  match tc_id c with
  | Some i => Ok (mkToolCallMetadata (tc_name c) i response total)
  | None => Raise (OtherError "ValidationError" "tool_call_id")
  end.

(** The loop over the calls; [i] is the loop's variable at the start of the body. *)
Fixpoint calls_to_actions (thought : string) (total i : Z) (calls : list ToolCall) :
    result (list Event) :=
  match calls with
  | [] => Ok []
  | c :: calls =>
      let? arguments := match json_loads (tc_arguments c) with
                        | Ok (JDict d) => Ok d
                        | Ok _ => Raise (Unmodelled "arguments")
                        | Raise _ => Raise (parse_error ("Failed to parse tool call arguments: "
                                                         +:+ tc_arguments c))
                        end in
      let? r := call_action mcp_tool_names (tc_name c) arguments i in
      let e := if r.2 =? 0 then map_action (λ a, combine_thought a thought) r.1 else r.1 in
      let? t := call_metadata c total in
      let? l := calls_to_actions thought total (i + 1) calls in
      Ok (set_response_id (Some (response_id response)) (set_tool_call (Some t) e) :: l)
  end.

Definition response_to_actions : result (list Event) :=
  if negb (response_choices response =? 1) then Raise AssertionError
  else
    let? m := response_message response in
    match am_tool_calls m with
    | Some ((_ :: _) as calls) =>
        calls_to_actions (from_option id "" (am_content m)) (py_len calls) 0 calls
    | _ => Ok [set_response_id (Some (response_id response))
                 (new_action (AMessage (mkMessageAction (from_option id "" (am_content m)) None None true
                                          RISK_UNKNOWN)))]
    end.
End other_calls.

(** * Properties of the translation of tool calls

    What a response becomes: one action per call, with the metadata by which the memory
    finds the call again; what the read-only agent can do; what the texts given to the
    shell mean. *)
Section response.
Context `{Platform} `{PromptManager} `{ModelResponses}.
Variable event_str : Event → string.
Variable parse_error : string → py_exc.
Variable call_action : list string → string → dict → Z → result (Event * Z).
Variable mcp : list string.
Abbreviation to_actions := (response_to_actions parse_error call_action mcp).

(** The action of the call [c] of the response [r] with [total] calls. *)
Definition action_of_call (r : json) (total : Z) (c : ToolCall) (e : Event) : Prop :=
  ∃ i, tc_id c = Some i ∧ event_tool_call e = Some (mkToolCallMetadata (tc_name c) i r total)
  ∧ event_response_id e = Some (response_id r).

Lemma calls_to_actions_spec r thought total calls i es :
  calls_to_actions parse_error call_action mcp r thought total i calls = Ok es →
  Forall2 (action_of_call r total) calls es.
Proof.
  revert i es. induction calls as [|c calls IH]; intros i es; simpl; [by intros [= <-]|].
  intros (d & _ & Hc)%rbind_ok_inv. apply rbind_ok_inv in Hc as ([e j] & _ & Hc).
  apply rbind_ok_inv in Hc as (t & Ht & Hc). apply rbind_ok_inv in Hc as (l & Hl & [= <-]).
  unfold call_metadata in Ht. destruct (tc_id c) as [x|] eqn:Hx; [|done]. injection Ht as <-.
  constructor; [|by eapply IH]. by exists x.
Qed.

(** The actions of a response: one for every call, in the order of the calls, each with
    the id and the name of its call, the response and the number of its calls; without
    calls, one message that waits for an answer.  There is always an action, and every
    action has the response's id. *)
Theorem response_actions r es :
  to_actions r = Ok es →
  ∃ m, response_message r = Ok m ∧ es ≠ []
  ∧ Forall (λ e, event_response_id e = Some (response_id r)) es
  ∧ match am_tool_calls m with
    | Some ((_ :: _) as calls) => Forall2 (action_of_call r (py_len calls)) calls es
    | _ => ev_body <$> es = [EAction (AMessage (mkMessageAction (from_option id "" (am_content m))
                                                  None None true RISK_UNKNOWN))]
    end.
Proof.
  unfold response_to_actions. destruct (negb _); [done|].
  intros (m & Hm & He)%rbind_ok_inv. exists m. split; [done|].
  destruct (am_tool_calls m) as [[|c calls]|]; [by injection He as <-; repeat constructor| |
    by injection He as <-; repeat constructor].
  apply calls_to_actions_spec in He. destruct es as [|e es]; [by apply Forall2_nil_inv_r in He|].
  split; [done|]. split; [|done]. apply Forall_forall. intros x Hx.
  apply list_elem_of_lookup_1 in Hx as [k Hk].
  destruct (Forall2_lookup_r _ _ _ _ _ He Hk) as (c' & _ & i & _ & _ & ?). done.
Qed.

(** The actions whose results the memory waits for. *)
Definition awaits_result (e : Event) : bool :=
  match ev_body e with
  | EAction (ACmdRun _) => true
  | EAction a => is_tool_action a
  | EObservation _ => false
  end.

(** The copy of an agent's action that the stream delivers. *)
Definition published (e x : Event) : Prop :=
  ev_body x = ev_body e ∧ event_tool_call x = event_tool_call e ∧ event_source x = Some AGENT.

Lemma published_turn_action vision r m p calls es e x :
  to_actions r = Ok es → response_message r = Ok m → am_tool_calls m = Some calls → calls ≠ [] →
  pending_message m = Ok p → e ∈ es → awaits_result e = true → published e x →
  turn_action event_str vision (response_id r) p x.
Proof.
  intros He Hm Hcalls Hne Hp Hin Ha (Hb & Ht & Hs).
  assert (Hmeta : ∃ t, event_tool_call e = Some t ∧ tcm_model_response t = r).
  { revert He. unfold response_to_actions. destruct (negb _); [done|]. rewrite Hm. cbn [rbind].
    rewrite Hcalls. destruct calls as [|c calls]; [done|]. intros He%calls_to_actions_spec.
    apply list_elem_of_lookup_1 in Hin as [k Hk].
    destruct (Forall2_lookup_r _ _ _ _ _ He Hk) as (c' & _ & i & _ & -> & _). by eexists. }
  destruct Hmeta as (t & Hte & Hr). unfold awaits_result in Ha. rewrite <- Hb in Ha.
  destruct (ev_body x) as [a|] eqn:Hx; [|done]. exists a. split; [done|]. intros pending.
  unfold process_action. rewrite Ht, Hte, Hs, Hr, Hm. cbn [rbind]. rewrite Hp. cbn [rbind].
  by destruct a.
Qed.

(** The observation [o], shown as [msg], is the result of the action [y]: it carries the
    action's own metadata, as the runtime and the controller give it. *)
Definition answers_action cfg max_chars vision (y : Event) (q : Event * Message) : Prop :=
  ∃ o t items, ev_body q.1 = EObservation o ∧ event_tool_call y = Some t ∧ event_tool_call q.1 = Some t
    ∧ observation_items event_str cfg max_chars vision q.1 o = Ok (Some items) ∧ q.2 = tool_message t items.

(** The events of a turn with what the memory makes of them *)
Definition result_key (q : Event * Message) : string * Message :=
  (from_option tcm_tool_call_id "" (event_tool_call q.1), q.2).
Definition tagged (xs : list Event) (results : list (Event * Message)) : list (Event * option (string * Message)) :=
  ((λ x, (x, None)) <$> xs) ++ ((λ q, (q.1, Some (result_key q))) <$> results).
Lemma tagged_events xs results : (tagged xs results).*1 = xs ++ results.*1.
Proof. unfold tagged. rewrite fmap_app, <- !list_fmap_compose. f_equal. apply list_fmap_id. Qed.
Lemma tagged_results xs results : omap snd (tagged xs results) = result_key <$> results.
Proof.
  unfold tagged. rewrite omap_app. assert (omap snd ((λ x : Event, (x, None : option (string * Message))) <$> xs) = []) as ->
    by by induction xs.
  rewrite app_nil_l. induction results as [|q results IH]; [done|]. csimpl. by rewrite IH.
Qed.

Lemma dget_nodup {V} k (v : V) (d : list (string * V)) : NoDup d.*1 → (k, v) ∈ d → dget k d = Some v.
Proof.
  induction d as [|[k' v'] d IH]; intros Hn Hin; [by apply not_elem_of_nil in Hin|]. apply NoDup_cons in Hn as [Hk Hn].
  apply elem_of_cons in Hin as [[= <- <-]|Hin]; simpl; [by rewrite String.eqb_refl|].
  destruct (String.eqb_spec k k') as [->|]; [|by apply IH]. destruct Hk. apply list_elem_of_fmap. by exists (k', v).
Qed.
Lemma omap_dget {V} (l k : list (string * V)) : NoDup k.*1 → l ≡ₚ k → omap (λ i, dget i l) k.*1 = k.*2.
Proof.
  intros Hn Hp. assert (∀ i v, (i, v) ∈ k → dget i l = Some v) as Hg.
  { intros i v Hin. apply dget_nodup; [by rewrite Hp|by rewrite Hp]. }
  clear Hn Hp. induction k as [|[i v] k IH]; [done|]. simpl. rewrite (Hg i v) by left. f_equal. apply IH. intros j w Hj.
  apply Hg. by right.
Qed.

(** The ids of the results are those of the calls, in their order. *)
Lemma result_ids cfg max_chars vision r total calls es results :
  Forall2 (action_of_call r total) calls es → Forall2 (answers_action cfg max_chars vision) es results →
  tc_id <$> calls = Some <$> (result_key <$> results).*1
  ∧ Forall (λ q, ∃ y, y ∈ es ∧ answers_action cfg max_chars vision y q) results.
Proof.
  intros Hc Hr. revert results Hr. induction Hc as [|c y calls es Hy Hc IH]; intros results Hr; inversion_clear Hr as [|? q ? results' Hq Hr'].
  - done.
  - destruct (IH _ Hr') as [Hids Hall]. split.
    + csimpl. rewrite Hids. f_equal. destruct Hy as (i & -> & Ht & _). destruct Hq as (o & t & items & _ & Hty & Hto & _).
      rewrite Ht in Hty. injection Hty as <-. by rewrite Hto.
    + constructor; [by exists y; split; [left|]|]. eapply Forall_impl; [exact Hall|]. intros q' (y' & Hy' & Ha). exists y'. split; [by right|done].
Qed.

(** C6 The agent's turn comes back to it.  Let a response with calls of different ids become
    actions that all await a result, and let the history go on, after any messages and complete
    turns, with the published copies of all these actions and one result for each, which carries
    its action's metadata, in any order that ends with a result.  (Messages of the model
    are the assistant's, and their calls have ids.)  Then the next request
    shows the model, after what it showed before, its own message with all the calls,
    followed by the results in the order of the calls. *)
Theorem agent_turn_shown cfg max_chars vision initial forgotten e0 e1 before ms r m p calls es xs results turn e :
  (∀ r m, response_message r = Ok m → am_role m = None ∨ am_role m = Some "assistant") →
  (∀ r m l c, response_message r = Ok m → am_tool_calls m = Some l → c ∈ l → ∃ s, tc_id c = Some s ∧ s ≠ "") →
  is_system_action e0 = true → is_user_message e1 = true →
  renders event_str cfg max_chars vision (e0 :: e1 :: before) ms →
  to_actions r = Ok es → response_message r = Ok m → am_tool_calls m = Some calls → calls ≠ [] →
  NoDup (tc_id <$> calls) → pending_message m = Ok p → Forall (λ y, awaits_result y = true) es →
  Forall2 published es xs → Forall2 (answers_action cfg max_chars vision) es results →
  turn ++ [e] ≡ₚ xs ++ results.*1 → e ∈ results.*1 →
  let history := (e0 :: e1 :: before) ++ turn ++ [e] in
  process_events event_str cfg initial forgotten max_chars vision history
  = (history, Ok (apply_user_message_formatting (ms ++ p :: results.*2))).
Proof.
  intros Hrole Hcid He0 He1 Hms Hes Hm Hcalls Hne Hnd Hp Haw Hpub Hres Hperm He history.
  assert (Forall2 (action_of_call r (py_len calls)) calls es) as Hac.
  { destruct (response_actions r es Hes) as (m' & Hm' & _ & _ & Hf). assert (m' = m) as -> by congruence.
    rewrite Hcalls in Hf. by destruct calls. }
  destruct (result_ids _ _ _ _ _ _ _ _ Hac Hres) as [Hids Hall]. set (K := result_key <$> results) in *.
  assert (NoDup K.*1) as HndK by (rewrite Hids in Hnd; by apply NoDup_fmap_1 in Hnd).
  rewrite <- tagged_events in Hperm. apply Permutation_map_inv in Hperm as (tl' & Htl & Htagged).
  change (map fst tl') with (tl'.*1) in Htl. symmetry in Htl. apply fmap_app_inv in Htl as (tl & lst & -> & Hlst & ->).
  rewrite Forall_forall in Haw. rewrite Forall_forall in Hall.
  assert (∀ x, (x, None) ∈ tagged xs results → ∃ y, y ∈ es ∧ awaits_result y = true ∧ published y x) as Hact.
  { unfold tagged. intros x [(x' & [= ->] & Hx)%list_elem_of_fmap|(? & [=] & _)%list_elem_of_fmap]%elem_of_app.
    apply list_elem_of_lookup_1 in Hx as [k Hk]. destruct (Forall2_lookup_r _ _ _ _ _ Hpub Hk) as (y & Hy & Hyx).
    apply list_elem_of_lookup_2 in Hy. eauto. }
  assert (∀ x k, (x, Some k) ∈ tagged xs results → turn_result event_str cfg max_chars vision k.1 k.2 x) as Htr.
  { unfold tagged. intros x k [(? & [=] & _)%list_elem_of_fmap|(q & [= -> ->] & Hq)%list_elem_of_fmap]%elem_of_app.
    destruct (Hall q Hq) as (y & _ & o & t & items & Ho & _ & Hto & Hit & Hq2). exists o, t, items. unfold result_key. by rewrite Hto. }
  destruct lst as [|[e' tag] [|]]; try done. injection Hlst as ->.
  assert ((e', tag) ∈ tagged xs results) as Hlast by (rewrite Htagged; apply elem_of_app; right; by left).
  destruct tag as [[s res]|]; [|exfalso].
  2:{ destruct (Hact _ Hlast) as (y & _ & Hay & Hb & _). apply list_elem_of_fmap in He as (q & -> & Hq).
      destruct (Hall q Hq) as (_ & _ & o & _ & _ & Ho & _). unfold awaits_result in Hay. rewrite <- Hb in Hay.
      by rewrite Ho in Hay. }
  unfold history. apply process_events_renders; [done|done|done|done|].
  change (renders event_str cfg max_chars vision ((e0 :: e1 :: before) ++ tl.*1 ++ [e']) (ms ++ p :: results.*2)).
  apply renders_app; [done..|].
  assert (omap snd tl ++ [(s, res)] ≡ₚ K) as HpK.
  { unfold K. rewrite <- (tagged_results xs results). by rewrite Htagged, omap_app. }
  rewrite <- (app_nil_r (p :: results.*2)). assert (results.*2 = omap (λ i, dget i (omap snd tl ++ [(s, res)])) K.*1) as ->.
  { rewrite (omap_dget _ K HndK HpK). unfold K. by rewrite <- list_fmap_compose. }
  apply (renders_turn event_str cfg max_chars vision (response_id r) p calls K.*1 tl e' s res [] []);
    [|done|done| | | |by rewrite HpK|constructor].
  - unfold pending_message in Hp. destruct (role_of_string _); [|done]. by injection Hp as <-.
  - apply Forall_forall. intros [x [k|]] Hx; (assert (_ ∈ tagged xs results) as Hx' by (rewrite Htagged; apply elem_of_app; left; exact Hx)).
    + by destruct k; apply (Htr x _ Hx').
    + destruct (Hact x Hx') as (y & Hy & Haw' & Hpb). by eapply published_turn_action.
  - destruct calls as [|c calls]; [done|]. inversion Hac as [|? y ? es' Hcy Hac' ]; subst. inversion Hpub as [|? x ? xs' Hyx Hpub']; subst.
    apply existsb_exists. exists (x, None). split; [|done]. apply list_elem_of_In.
    assert ((x, None) ∈ tl ++ [(e', Some (s, res))]) as [Hin|Hin]%elem_of_app by (rewrite <- Htagged; unfold tagged; by left); [done|].
    by apply list_elem_of_singleton in Hin.
  - exact (Htr e' (s, res) Hlast).
Qed.
End response.

(** ** Texts for the shell *)

Inductive quoting := Bare | Single | Double.

(** Whether the shell starts a command substitution ([$(..)] or backquotes) in a text: not
    within single quotes, and not after a backslash. *)
Fixpoint substitutes (q : quoting) (s : string) : bool :=
  match s with
  | "" => false
  | String c t =>
      match q with
      | Single => substitutes (if Ascii.eqb c "'" then Bare else Single) t
      | _ =>
          if Ascii.eqb c "\" then match t with String _ u => substitutes q u | "" => false end
          else if Ascii.eqb c "`" || (Ascii.eqb c "$" && String.prefix "(" t) then true
          else if String.eqb (String c "") quote
          then substitutes (match q with Double => Bare | _ => Double end) t
          else substitutes (match q with Bare => if Ascii.eqb c "'" then Single else Bare | _ => q end) t
      end
  end.

Lemma substitutes_safe c t : shell_safe c = true → substitutes Bare (String c t) = substitutes Bare t.
Proof. by destruct c as [[] [] [] [] [] [] [] []]. Qed.

Lemma substitutes_quoted s rest :
  substitutes Single (replace_go "'" ("'" +:+ quote +:+ "'" +:+ quote +:+ "'") 0 s +:+ "'" +:+ rest)
  = substitutes Bare rest.
Proof.
  induction s as [|c s IH]; [done|]. cbn [replace_go].
  destruct (Ascii.eqb_spec c "'") as [->|Hc].
  { assert (String.prefix "'" (String "'" s) = true) as -> by by destruct s. exact IH. }
  assert (String.prefix "'" (String c s) = false) as ->.
  { cbn [String.prefix]. by destruct (ascii_dec "'" c). }
  set (k := replace_go _ _ _ s) in *. change (String c k +:+ "'" +:+ rest) with (String c (k +:+ "'" +:+ rest)).
  cbn [substitutes]. rewrite (proj2 (Ascii.eqb_neq _ _) Hc). exact IH.
Qed.

(** A quoted text is inert as a word of a command. *)
Lemma shlex_quote_inert s rest :
  substitutes Bare (shlex_quote s +:+ rest) = substitutes Bare rest.
Proof.
  unfold shlex_quote. destruct (String.eqb_spec s ""); [done|].
  destruct (all_chars shell_safe s) eqn:Hs; cycle 1.
  { unfold str_replace. cbn [String.eqb]. rewrite <- !append_assoc. exact (substitutes_quoted s rest). }
  clear n. induction s as [|c s IH]; [done|]. simpl in Hs. apply andb_true_iff in Hs as [Hc Hs].
  change (String c s +:+ rest) with (String c (s +:+ rest)). rewrite substitutes_safe by done. auto.
Qed.

(** But the commands of the read-only agent repeat the quoted pattern inside the double
    quotes of an [echo], where single quotes do not count: the pattern is executed. *)
Theorem search_header_executes :
  substitutes Bare (shlex_quote "$(touch x)") = false
  ∧ substitutes Bare (grep_to_cmdrun "$(touch x)" None None) = true
  ∧ substitutes Bare (glob_to_cmdrun "`touch x`" ".") = true.
Proof. by vm_compute. Qed.

(** ** The read-only agent *)

Create HintDb readonly.

(** What the read-only agent does: talk, think, finish, read a file, search. *)
Inductive readonly_event : Event → Prop :=
  | ro_message e a : ev_body e = EAction (AMessage a) → readonly_event e
  | ro_finish e a : ev_body e = EAction (AAgentFinish a) → readonly_event e
  | ro_think e a : ev_body e = EAction (AAgentThink a) → readonly_event e
  | ro_read e a : ev_body e = EAction (AFileRead a) → readonly_event e
  | ro_condensation e a : ev_body e = EAction (ACondensation a) → readonly_event e
  | ro_grep e a pattern path include :
      ev_body e = EAction (ACmdRun a) → cra_command a = grep_to_cmdrun pattern path include →
      readonly_event e
  | ro_glob e a pattern path :
      ev_body e = EAction (ACmdRun a) → cra_command a = glob_to_cmdrun pattern path →
      readonly_event e.
#[local] Hint Constructors readonly_event : readonly.

Section readonly.
Context `{Platform} `{ModelResponses}.

Lemma readonly_call_event name d i e j :
  readonly_call [] name d i = Ok (e, j) → readonly_event e.
Proof.
  unfold readonly_call. intros (x & Hx & [= <- _])%rbind_ok_inv. revert Hx.
  repeat case_match; unfold finish_call, view_call, think_call, grep_call, glob_call, mcp_call; simpl.
  all: try done.
  all: intros Hx; repeat (apply rbind_ok_inv in Hx as (? & _ & Hx)); injection Hx as <-;
    eauto with readonly.
Qed.

Lemma readonly_thought t e : readonly_event e → readonly_event (map_action (λ a, combine_thought a t) e).
Proof.
  intros He. destruct He as [e a Hb|e a Hb|e a Hb|e a Hb|e a Hb|e a ??? Hb Hc|e a ?? Hb Hc];
    unfold map_action; rewrite Hb; unfold combine_thought; simpl; destruct a; simpl in *;
    repeat case_match; eauto with readonly.
Qed.

Lemma readonly_response r es :
  response_to_actions FunctionCallValidationError readonly_call [] r = Ok es → Forall readonly_event es.
Proof.
  unfold response_to_actions. destruct (negb _); [done|]. intros (m & Hm & He)%rbind_ok_inv.
  destruct (am_tool_calls m) as [[|c calls]|];
    [by injection He as <-; repeat econstructor| |by injection He as <-; repeat econstructor].
  revert es He. generalize (from_option id "" (am_content m)) (py_len (c :: calls)) 0%Z.
  generalize (c :: calls). clear. intros calls t n. induction calls as [|c calls IH]; intros i es; simpl.
  { by intros [= <-]. }
  intros (d & _ & Hc)%rbind_ok_inv. apply rbind_ok_inv in Hc as ([e j] & Hcall & Hc).
  apply rbind_ok_inv in Hc as (x & Hx & Hc). apply rbind_ok_inv in Hc as (l & Hl & [= <-]).
  constructor; [|by eapply IH]. apply readonly_call_event in Hcall. simpl.
  assert (Hkeep : ∀ f e, readonly_event e → readonly_event (map_meta f e)).
  { intros f e' He'. destruct He'; eauto with readonly. }
  apply Hkeep, Hkeep. case_match; [by apply readonly_thought|done].
Qed.
End readonly.

(** ** Examples *)

Module calls_example.
Definition call (id name : string) (d : dict) : ToolCall :=
  mkToolCall (Some id) name (json_dumps (JDict d)).
Definition task (title : string) : json := JDict [("title", JStr title)].
Definition plan (tasks : list json) : dict := [("command", JStr "plan"); ("task_list", JList tasks)].
Definition assistant_message (calls : list ToolCall) : AssistantMessage :=
  mkAssistantMessage (Some "assistant") (Some "My thought.") (Some calls).
Definition two_calls : list ToolCall :=
  [call "a" "execute_bash" [("command", JStr "make"); ("timeout", JStr "1e1");
                            ("security_risk", JStr "HIGH")];
   call "b" "task_tracker" (plan [task "Build"])].
(** The responses: two calls, a plan of two tasks, a question. *)
#[local] Instance responses : ModelResponses :=
  {| response_id := λ r, match r with JStr s => s | _ => "" end; response_choices := λ _, 1;
     response_message := λ r,
       let s := match r with JStr s => s | _ => "" end in
       if String.eqb s "two" then Ok (assistant_message two_calls)
       else if String.eqb s "plan" then
         Ok (assistant_message [call "c" "task_tracker" (plan [task "Build"; task "Test"])])
       else if String.eqb s "edit" then
         Ok (assistant_message
           [call "d" "edit_file" [("path", JStr "/etc/passwd"); ("content", JStr "");
                                  ("security_risk", JStr "HIGH")]])
       else if String.eqb s "typo" then Ok (assistant_message [call "e" "execute_bash" [("cmd", JStr "make")]])
       else Ok (mkAssistantMessage None (Some "What next?") None) |}.
#[local] Instance prompts : PromptManager :=
  {| pm_system_message := λ _, "You are an agent."; pm_workspace_context := λ _ _ _ _, "";
     pm_microagent_info := λ _, "" |}.

Definition actions_of (r : string) : result (list Event) :=
  response_to_actions FunctionCallValidationError codeact_call [] (JStr r).

Definition thoughts (r : string) : result (list (option string)) :=
  let? es := actions_of r in
  Ok ((λ e, match ev_body e with EAction a => get_thought a | _ => None end) <$> es).

(** The thought of the response belongs to its first action.  But the loop over the tasks
    of a plan counts in the variable that numbers the calls: a plan of two tasks loses the
    thought, and a second call with a plan of one task repeats it. *)
Example plan_takes_thought :
  thoughts "two" = Ok [Some "My thought."; Some "My thought."] ∧ thoughts "plan" = Ok [Some ""].
Proof. by vm_compute. Qed.

Definition risks (r : string) : result (list (option ActionSecurityRisk)) :=
  let? es := actions_of r in
  Ok ((λ e, match ev_body e with EAction a => get_security_risk a | _ => None end) <$> es).

(** The model's assessment of a command is taken over; that of an edit by a model is
    required by the tool's schema and dropped. *)
Example edit_file_risk_dropped :
  risks "two" = Ok [Some RISK_HIGH; None] ∧ risks "edit" = Ok [Some RISK_UNKNOWN].
Proof. by vm_compute. Qed.

Definition two_actions : list Event := from_option id [] (match actions_of "two" with Ok l => Some l | _ => None end).
Definition command_action : Event :=
  set_source (Some AGENT) (from_option id null_action (two_actions !! 0%nat)).
Definition tracker_action : Event :=
  set_source (Some AGENT) (from_option id null_action (two_actions !! 1%nat)).

Lemma response_actions_witness :
  actions_of "two" = Ok two_actions ∧ two_actions ≠ []
  ∧ Forall2 (action_of_call (JStr "two") 2) two_calls two_actions.
Proof.
  assert (Ha : actions_of "two" = Ok two_actions) by by vm_compute.
  split; [exact Ha|].
  destruct (response_actions FunctionCallValidationError codeact_call [] (JStr "two") two_actions Ha)
    as (m & Hm & Hne & _ & Hf).
  injection Hm as <-. split; [exact Hne|exact Hf].
Defined.

Definition meta (id name : string) : ToolCallMetadata := mkToolCallMetadata name id (JStr "two") 2.
Definition result (id name text : string) : Event :=
  set_tool_call (Some (meta id name)) (new_obs text OAgentThink).
Definition shown (id name content : string) : string * Message :=
  (id, tool_message (meta id name) [text content]).
Definition cfg : MemoryConfig := mkMemoryConfig false false true [] "1.0".
Definition first_events : list Event :=
  [new_action (ASystemMessage (mkSystemMessageAction "You are an agent." None None None));
   set_source (Some USER) (new_action (AMessage (mkMessageAction "Build it." None None false RISK_UNKNOWN)))].
Definition first_messages : list Message := omap (shown_message false) first_events.
Definition results : list (Event * Message) :=
  [(result "a" "execute_bash" "built", (shown "a" "execute_bash" "built").2);
   (result "b" "task_tracker" "planned", (shown "b" "task_tracker" "planned").2)].
(** The second result comes first. *)
Definition history : list Event :=
  first_events ++ [command_action; tracker_action; result "b" "task_tracker" "planned"] ++ [result "a" "execute_bash" "built"].

Lemma agent_turn_shown_witness :
  process_events (λ _, "") cfg null_action [] None false history
  = (history, Ok (apply_user_message_formatting (first_messages ++
       set_tool_calls (Some two_calls) (new_msg R_assistant [text "My thought."]) :: results.*2))).
Proof.
  refine (agent_turn_shown (λ _, "") FunctionCallValidationError codeact_call [] cfg None false null_action []
           _ _ [] first_messages (JStr "two") (assistant_message two_calls)
           (set_tool_calls (Some two_calls) (new_msg R_assistant [text "My thought."])) two_calls
           two_actions [command_action; tracker_action] results
           [command_action; tracker_action; result "b" "task_tracker" "planned"] (result "a" "execute_bash" "built")
           _ _ _ _ _ _ _ _ _ _ _ _ _ _ _ _); try reflexivity; try done.
  - intros r m Hr. cbn in Hr. repeat case_match; injection Hr as <-; auto.
  - intros r m l c Hr Hl Hc. cbn in Hr. repeat case_match; injection Hr as <-; try done; injection Hl as <-.
    all: repeat (apply elem_of_cons in Hc as [->|Hc]; [by eexists|]); by apply not_elem_of_nil in Hc.
  - repeat econstructor.
  - repeat constructor; set_solver.
  - repeat constructor.
  - repeat constructor.
  - repeat constructor; by repeat eexists.
  - simpl. do 2 apply Permutation_skip. apply Permutation_swap.
  - by left.
Defined.


(** A call without its argument is reported, so that the model can correct it; without
    calls the text is a message. *)
Example calls_checked :
  actions_of "typo" = Raise (missing_argument "command" "execute_bash")
  ∧ (let? es := actions_of "?" in Ok (ev_body <$> es))
    = Ok [EAction (AMessage (mkMessageAction "What next?" None None true RISK_UNKNOWN))].
Proof. by vm_compute. Qed.
End calls_example.
