(* ===== verification/CodeAct.v ===== *)
(** * The CodeAct agents

    Models [openhands/agenthub/codeact_agent/codeact_agent.py], its subclasses
    [readonly_agent.py] and [loc_agent.py], [llm/llm_utils.py] and what the agents inherit
    of [controller/agent.py]; an instance of the controller's interface [Agent].

    A step shares objects with the state: the list of the condensed view is the state's
    cached one when the condenser returns the view it was given, and its events are those
    of the history.  What the conversation memory changes in them is therefore changed in
    the state ([share_back]).  Objects of the history are told apart by their ids.

    Parameters: the client of the language model ([LLMClient]), its responses, the prompt
    templates, the documents that describe the tools ([ToolDocuments]; on Linux). *)

From S2P Require Import Prelude PyValue ControlFlags Metrics Schema Actions Observations Events View Condensers Serialization EventStore ExamplePlatform ConversationStats State Controller ControllerProps Message ConversationMemory ConversationMemoryProps FnCallConverter FunctionCalling.
From S2P Require Import View Condensers EventStore ConversationStats State Controller Message.
Local Open Scope Z_scope.
Local Open Scope py_scope.

(** ** Parameters *)

Class LLMClient (L : Type) := {
  llm_model : L → string;
  llm_max_message_chars : L → Z;
  llm_vision_is_active : L → bool;
  llm_is_caching_prompt_active : L → bool;
  (** The messages, the tools and the metadata of the request. *)
  llm_completion : list Message → list json → dict → pyM (L * ConversationStats) json;
}.

Class ToolDocuments := {
  create_cmd_run_tool : bool → json;
  ThinkTool : json;
  FinishTool : json;
  CondensationRequestTool : json;
  BrowserTool : json;
  IPythonTool : json;
  create_task_tracker_tool : bool → json;
  LLMBasedFileEditTool : json;
  create_str_replace_editor_tool : bool → json;
  GrepTool : json;
  GlobTool : json;
  ViewTool : json;
  SearchRepoTool : json;
  SearchEntityTool : json;
  explore_tree_structure_tool : json;
}.

(** ** State *)

Inductive CodeActClass := CodeActAgent | ReadOnlyAgent | LocAgent.
#[export] Instance CodeActClass_eq_dec : EqDecision CodeActClass.
Proof. solve_decision. Defined.
Definition class_name (c : CodeActClass) : string :=
  match c with
  | CodeActAgent => "CodeActAgent" | ReadOnlyAgent => "ReadOnlyAgent" | LocAgent => "LocAgent"
  end.

(** What the agents read of their configuration, and the package's version. *)
Record CodeActConfig := mkCodeActConfig {
  cc_base : AgentConfig;
  cc_som_visual_browsing : bool;
  cc_prompt_extensions : bool;
  cc_disabled_microagents : list string;
  cc_enable_cmd : bool;
  cc_enable_think : bool;
  cc_enable_finish : bool;
  cc_enable_condensation_request : bool;
  cc_enable_browsing : bool;
  cc_enable_jupyter : bool;
  cc_enable_plan_mode : bool;
  cc_enable_llm_editor : bool;
  cc_enable_editor : bool;
  cc_version : string;
}.
Definition memory_config (c : CodeActConfig) : MemoryConfig :=
  mkMemoryConfig (cli_mode (cc_base c)) (cc_som_visual_browsing c) (cc_prompt_extensions c)
    (cc_disabled_microagents c) (cc_version c).

(** [ca_batch] is the condenser's metadata batch; [ca_same_view]: the condenser returns the
    view object it is given, unless it condenses. *)
Record CodeAct (L C : Type) := mkCodeAct {
  ca_class : CodeActClass;
  ca_config : CodeActConfig;
  ca_llm : L;
  ca_pending_actions : list Event;
  ca_tools : list json;
  ca_mcp_tools : list (string * json);
  ca_condenser : C;
  ca_batch : dict;
  ca_same_view : bool;
}.
Arguments mkCodeAct {L C}. Arguments ca_class {L C}. Arguments ca_config {L C}.
Arguments ca_llm {L C}. Arguments ca_pending_actions {L C}. Arguments ca_tools {L C}.
Arguments ca_mcp_tools {L C}. Arguments ca_condenser {L C}. Arguments ca_batch {L C}.
Arguments ca_same_view {L C}.

Section setters.
Context {L C : Type}.
Implicit Type a : CodeAct L C.
Definition set_llm (l : L) a := mkCodeAct (ca_class a) (ca_config a) l (ca_pending_actions a) (ca_tools a)
  (ca_mcp_tools a) (ca_condenser a) (ca_batch a) (ca_same_view a).
Definition set_pending_actions (p : list Event) a := mkCodeAct (ca_class a) (ca_config a) (ca_llm a) p (ca_tools a)
  (ca_mcp_tools a) (ca_condenser a) (ca_batch a) (ca_same_view a).
Definition set_batch (b : dict) a := mkCodeAct (ca_class a) (ca_config a) (ca_llm a) (ca_pending_actions a)
  (ca_tools a) (ca_mcp_tools a) (ca_condenser a) b (ca_same_view a).
End setters.

(** ** Tools *)

(** [del d[k]] *)
Definition gemini_property (prop : json) : json :=
  match prop with
  | JDict d =>
      let d := ddel "default" d in
      let supported := match dget "format" d with
                       | Some j => is_str "enum" j || is_str "date-time" j
                       | None => true
                       end in
      JDict (if from_option (is_str "string") false (dget "type" d) && negb supported
             then ddel "format" d else d)
  | j => j
  end.
(** A function applied to the value of a key, where there is one. *)
Definition dupdate (k : string) (f : json → json) (j : json) : json :=
  match j with
  | JDict d => match dget k d with Some v => JDict (dset k (f v) d) | None => j end
  | j => j
  end.
Definition gemini_tool : json → json :=
  dupdate "function" (dupdate "parameters" (dupdate "properties" (λ j,
    match j with JDict d => JDict (prod_map id gemini_property <$> d) | j => j end))).

(** [check_tools] *)
Definition check_tools (model : string) (tools : list json) : list json :=
  if str_contains "gemini" (str_lower model) then gemini_tool <$> tools else tools.

Definition short_descriptions (model : string) : bool :=
  existsb (λ s, str_contains s model) ["gpt-4"; "o3"; "o1"; "o4"].

Section tools.
Context `{ToolDocuments}.

(** [CodeActAgent._get_tools] *)
Definition codeact_tools (c : CodeActConfig) (model : string) : list json :=
  let short := short_descriptions model in
  let opt (b : bool) t := if b then [t] else [] in
  opt (cc_enable_cmd c) (create_cmd_run_tool short)
  ++ opt (cc_enable_think c) ThinkTool
  ++ opt (cc_enable_finish c) FinishTool
  ++ opt (cc_enable_condensation_request c) CondensationRequestTool
  ++ opt (cc_enable_browsing c) BrowserTool
  ++ opt (cc_enable_jupyter c) IPythonTool
  ++ opt (cc_enable_plan_mode c) (create_task_tracker_tool short)
  ++ (if cc_enable_llm_editor c then [LLMBasedFileEditTool]
      else opt (cc_enable_editor c) (create_str_replace_editor_tool short)).

Definition readonly_tools : list json := [ThinkTool; FinishTool; GrepTool; GlobTool; ViewTool].
Definition loc_tools : list json :=
  [FinishTool; SearchRepoTool; SearchEntityTool; explore_tree_structure_tool].

Definition class_tools (c : CodeActClass) (cfg : CodeActConfig) (model : string) : list json :=
  match c with
  | CodeActAgent => codeact_tools cfg model
  | ReadOnlyAgent => readonly_tools
  | LocAgent => loc_tools
  end.
End tools.

(** [set_mcp_tools]: a name that is there already is skipped; the read-only agent takes
    none.  A tool is given with its name. *)
Definition set_mcp_tools {L C} (mcp_tools : list (string * json)) (a : CodeAct L C) : CodeAct L C :=
  match ca_class a with
  | ReadOnlyAgent => a
  | _ => foldl (λ a '(name, tool),
           if dmem name (ca_mcp_tools a) then a
           else mkCodeAct (ca_class a) (ca_config a) (ca_llm a) (ca_pending_actions a)
                  (ca_tools a ++ [tool]) (ca_mcp_tools a ++ [(name, tool)]) (ca_condenser a)
                  (ca_batch a) (ca_same_view a)) a mcp_tools
  end.

Section agent.
Context {L C : Type} `{LLMClient L} `{Condenser C} `{Platform} `{PromptManager} `{ModelResponses}.
Variable event_str : Event → string.
Variable web_host : string.
Abbreviation agent := (CodeAct L C).
Abbreviation agentM := (pyM (agent * State * ConversationStats)).

(** Computations on the parts of the state. *)
Definition on_agent_state {B} (m : pyM State B) : agentM B := λ '(a, s, st),
  let '(s, r) := m s in ((a, s, st), r).
Definition get_agent : agentM agent := λ '(a, s, st), ((a, s, st), Ok a).
Definition put_pending (p : list Event) : agentM unit := λ '(a, s, st),
  ((set_pending_actions p a, s, st), Ok tt).

(** ** The request *)

(** The object [e] after the objects [old] have become [new]. *)
Fixpoint updated (old new : list Event) (e : Event) : Event :=
  match old, new with
  | o :: old, n :: new => if bool_decide (o = e) then n else updated old new e
  | _, _ => e
  end.

(** The state after the events of the list [old], which the state's view shares when
    [same], have become [new]. *)
Definition share_back (same : bool) (old new : list Event) (s : State) : State :=
  let s := set_history s (updated old new <$> history s) in
  match cached_view s with
  | None => s
  | Some v =>
      set_view_cache s (history_checksum s)
        (Some (mkView (if same then new else updated old new <$> view_events v)
                 (unhandled_condensation_request v) (forgotten_event_ids v)))
  end.

(** [_get_initial_user_message] *)
Definition get_initial_user_message (events : list Event) : result Event :=
  match py_find is_user_message events with
  | Some e => Ok e
  | None => Raise (ValueError "Initial user message not found in history. Please report this issue.")
  end.

(** [_get_messages] *)
Definition get_messages (events : list Event) (initial : Event) (forgotten : list Z) :
    agentM (list Message) := λ '(a, s, st),
  let cfg := memory_config (ca_config a) in
  let before := ensure_initial_user_message initial forgotten (ensure_system_message cfg events) in
  let '(after, r) := process_events event_str cfg initial forgotten
                       (Some (llm_max_message_chars (ca_llm a))) (llm_vision_is_active (ca_llm a)) events in
  ((a, share_back (ca_same_view a) before after s, st),
   let? messages := r in
   if llm_is_caching_prompt_active (ca_llm a) then apply_prompt_caching messages else Ok messages).

(** [self.condenser.condensed_history(state)] *)
Definition condense_history : agentM Condensed := λ '(a, s, st),
  let '(s, v) := view s in
  let '((batch, extra), r) := condensed_history (ca_condenser a) v (ca_batch a, extra_data s) in
  ((set_batch batch a, set_extra_data s extra, st), r).

(** [self.llm.completion(...)] *)
Definition completion (messages : list Message) : agentM json := λ '(a, s, st),
  let model := llm_model (ca_llm a) in
  let '((llm, st), r) :=
    llm_completion messages (check_tools model (ca_tools a))
      (to_llm_metadata (cc_version (ca_config a)) web_host s model (class_name (ca_class a)))
      (ca_llm a, st) in
  ((set_llm llm a, s, st), r).

(** [self.response_to_actions] *)
Definition agent_actions (a : agent) (response : json) : result (list Event) :=
  match ca_class a with
  | CodeActAgent =>
      response_to_actions FunctionCallValidationError codeact_call (ca_mcp_tools a).*1 response
  | ReadOnlyAgent =>
      response_to_actions FunctionCallValidationError readonly_call (ca_mcp_tools a).*1 response
  | LocAgent => response_to_actions RuntimeError loc_call (ca_mcp_tools a).*1 response
  end.

Definition is_exit (last : option Event) : bool :=
  match last with
  | Some e => String.eqb (str_strip (message_content e)) "/exit"
  | None => false
  end.

Definition finish_action : Event := new_action (AAgentFinish (mkAgentFinishAction "" [] "")).

(** [step] *)
Definition codeact_step : agentM (option Event) :=
  let* a := get_agent in
  match ca_pending_actions a with
  | e :: l => put_pending l ;;; pret (Some e)
  | [] =>
      let* last := on_agent_state get_last_user_message in
      if is_exit last then pret (Some finish_action)
      else
        let* condensed := condense_history in
        match condensed with
        | CCondensation c => pret (Some (new_action (ACondensation c)))
        | CView v =>
            let* s := on_agent_state pget in
            let* initial := plift (get_initial_user_message (history s)) in
            let* messages := get_messages (view_events v) initial (elements (forgotten_event_ids v)) in
            let* response := completion messages in
            let* a := get_agent in
            let* actions := plift (agent_actions a response) in
            match actions with
            | e :: l => put_pending l ;;; pret (Some e)
            | [] => plift (Raise IndexError)
            end
        end
  end.

(** ** The other methods *)

Definition codeact_reset (a : agent) : agent := set_pending_actions [] a.

(** [get_system_message] *)
Definition get_system_message (a : agent) : option Event :=
  Some (set_source (Some AGENT) (new_action (ASystemMessage (mkSystemMessageAction
    (pm_system_message (cli_mode (cc_base (ca_config a)))) (Some (ca_tools a))
    (Some (cc_version (ca_config a))) (Some (class_name (ca_class a))))))).

(** The constructor; [make_llm] is the registry's: the model of the agent's client, by
    which the tools are described, and the router that replaces it.  [make_condenser] is
    [Condenser.from_config]. *)
Context `{ToolDocuments}.
Variable make_llm : CodeActConfig → result (string * L).
Variable make_condenser : CodeActConfig → result (C * bool).
Definition new_CodeAct (cls : CodeActClass) (cfg : CodeActConfig) : result agent :=
  let? llm := make_llm cfg in
  let? c := make_condenser cfg in
  Ok (mkCodeAct cls cfg llm.2 [] (class_tools cls cfg llm.1) [] c.1 [] c.2).

(** [Agent.get_cls(name)(config, ...)]; the browsing agents are not modelled. *)
Variable full_config : AgentConfig → CodeActConfig.
Definition make_agent (name : string) (cfg : AgentConfig) : result agent :=
  match py_find (λ c, String.eqb (class_name c) name) [CodeActAgent; ReadOnlyAgent; LocAgent] with
  | Some cls => new_CodeAct cls (full_config cfg)
  | None => if existsb (String.eqb name) ["BrowsingAgent"; "VisualBrowsingAgent"; "DummyAgent"]
            then Raise (Unmodelled name)
            else Raise (OtherError "AgentNotRegisteredError" ("No agent class registered under '"
                          +:+ name +:+ "'"))
  end.

#[export] Instance codeact_agent : Agent agent := {
  agent_name a := class_name (ca_class a);
  agent_config a := cc_base (ca_config a);
  agent_reset := codeact_reset;
  agent_system_message := get_system_message;
  agent_step := codeact_step;
  agent_make := make_agent;
}.
End agent.

(** * Properties of the CodeAct agents

    The agents keep the promises the controller relies on ([AgentLaws]); the actions of a
    response are issued in order, one per step; requests are well formed; the read-only
    agent stays read-only. *)
Section agent.
#[local] Set Default Proof Using "Type".
Context {L C : Type} `{LLMClient L} `{Condenser C} `{Platform} `{PromptManager} `{ModelResponses}.
Variable event_str : Event → string.
Variable web_host : string.
Abbreviation agent := (CodeAct L C).
Abbreviation agentM := (pyM (agent * State * ConversationStats)).
Abbreviation step := (codeact_step (L := L) (C := C) event_str web_host).

(** ** The iteration flag is the controller's *)

Definition flag_kept (x y : agent * State * ConversationStats) : Prop :=
  iteration_flag y.1.2 = iteration_flag x.1.2.
#[local] Instance flag_kept_preorder : PreOrder flag_kept.
Proof. split; [by intros x|]. unfold flag_kept. intros x y z ??. congruence. Qed.

Lemma view_flag s : iteration_flag (view s).1 = iteration_flag s.
Proof. unfold view. repeat case_match; done. Qed.
Lemma share_back_flag same old new s :
  iteration_flag (share_back same old new s) = iteration_flag s.
Proof. unfold share_back. by case_match. Qed.

Lemma last_user_flag : within flag_kept (on_agent_state (L := L) (C := C) get_last_user_message).
Proof.
  intros [[a s] st]. unfold flag_kept, on_agent_state, get_last_user_message, pbind. simpl.
  pose proof (view_flag s) as Hv. destruct (view s) as [s' [v|e]]; done.
Qed.
Lemma condense_flag : within flag_kept (condense_history (L := L) (C := C)).
Proof.
  intros [[a s] st]. unfold flag_kept, condense_history. pose proof (view_flag s) as Hv.
  destruct (view s) as [s' v]. destruct (condensed_history _ _ _) as [[b x] r]. done.
Qed.
Lemma messages_flag events initial forgotten :
  within flag_kept (get_messages (L := L) (C := C) event_str events initial forgotten).
Proof.
  intros [[a s] st]. unfold flag_kept, get_messages. destruct (process_events _ _ _ _ _ _ _).
  simpl. apply share_back_flag.
Qed.
Lemma completion_flag messages : within flag_kept (completion (L := L) (C := C) web_host messages).
Proof.
  intros [[a s] st]. unfold flag_kept, completion. by destruct (llm_completion _ _ _ _) as [[l t] r].
Qed.

Lemma step_flag : within flag_kept step.
Proof.
  unfold codeact_step.
  assert (Hg : within flag_kept (get_agent (L := L) (C := C))) by by intros [[a s] st].
  assert (Hp : ∀ p, within flag_kept (put_pending (L := L) (C := C) p)) by by intros p [[a s] st].
  assert (Hs : within flag_kept (on_agent_state (L := L) (C := C) pget)) by by intros [[a s] st].
  pose proof last_user_flag. pose proof condense_flag. pose proof messages_flag.
  pose proof completion_flag. repeat within_step.
Qed.

#[export] Instance codeact_laws `{ToolDocuments} make_llm make_condenser full_config :
  @AgentLaws agent (codeact_agent event_str web_host make_llm make_condenser full_config).
Proof. intros a s st. apply (step_flag (a, s, st)). Qed.

(** ** Requests *)

(** The request a step sends pairs calls and results, whatever the history. *)
Lemma get_messages_paired events initial forgotten x y messages :
  (∀ r m, response_message r = Ok m → am_role m = None ∨ am_role m = Some "assistant") →
  (∀ r m l c, response_message r = Ok m → am_tool_calls m = Some l → c ∈ l →
     ∃ s, tc_id c = Some s ∧ s ≠ "") →
  get_messages (L := L) (C := C) event_str events initial forgotten x = (y, Ok messages) →
  well_paired messages.
Proof.
  intros Ha Hi. destruct x as [[a s] st]. unfold get_messages.
  destruct (process_events _ _ _ _ _ _ _) as [after r] eqn:Ep. intros [= _ Hr].
  apply rbind_ok_inv in Hr as (ms&->&Hm). apply process_events_paired in Ep; [|done..].
  destruct (llm_is_caching_prompt_active _); [|by injection Hm as <-].
  eapply well_paired_shape; [by apply apply_prompt_caching_shape|done].
Qed.

(** ** One action per step *)

(** [n] steps in a row. *)
Fixpoint steps (n : nat) : agentM (list (option Event)) :=
  match n with
  | O => pret []
  | S n => let* e := step in let* l := steps n in pret (e :: l)
  end.

Lemma pending_steps a s st :
  steps (length (ca_pending_actions a)) (a, s, st)
  = ((set_pending_actions [] a, s, st), Ok (Some <$> ca_pending_actions a)).
Proof.
  remember (ca_pending_actions a) as l eqn:Hl. revert a Hl.
  induction l as [|e l IH]; intros a Hl; simpl.
  - destruct a. simpl in *. by rewrite <- Hl.
  - unfold pbind at 1, codeact_step at 1, pbind at 1. simpl. rewrite <- Hl. simpl.
    unfold pbind. simpl. rewrite (IH (set_pending_actions l a)) by done. done.
Qed.

(** What a step that finds no pending action returns, and what it leaves pending. *)
Lemma step_result a s st a1 s1 st1 r :
  ca_pending_actions a = [] → step (a, s, st) = ((a1, s1, st1), r) →
  ca_class a1 = ca_class a ∧ ca_mcp_tools a1 = ca_mcp_tools a
  ∧ match r with
    | Ok (Some e) =>
        (ca_pending_actions a1 = [] ∧ (e = finish_action ∨ ∃ c, e = new_action (ACondensation c)))
        ∨ ∃ response, agent_actions a response = Ok (e :: ca_pending_actions a1)
    | _ => ca_pending_actions a1 = []
    end.
Proof.
  intros Hp. unfold codeact_step, pbind, get_agent, on_agent_state, condense_history, get_messages,
    completion, put_pending, pget, plift, pret. rewrite Hp.
  destruct (get_last_user_message s) as [s2 [last|x]]; [|by intros [= <- <- <- <-]].
  destruct (is_exit last); [intros [= <- <- <- <-]; by auto 6|].
  destruct (view s2) as [s3 v]. destruct (condensed_history _ _ _) as [[b ex] [[vw|c]|x]];
    [|intros [= <- <- <- <-]; eauto 8|by intros [= <- <- <- <-]].
  destruct (get_initial_user_message _) as [initial|x]; [|by intros [= <- <- <- <-]].
  simpl. destruct (process_events _ _ _ _ _ _ _) as [after msgs].
  destruct (let? messages := msgs in _) as [ms|x]; [|by intros [= <- <- <- <-]].
  simpl. destruct (llm_completion _ _ _ _) as [[llm st2] [resp|x]]; [|by intros [= <- <- <- <-]].
  change (agent_actions (set_llm llm (set_batch b a)) resp) with (agent_actions a resp).
  destruct (agent_actions a resp) as [[|e l]|x] eqn:Ha; intros [= <- <- <- <-]; [done| |done].
  split; [done|]. split; [done|]. right. by exists resp.
Qed.

(** A response is worked off in order: when the agent has consulted the model, the step
    returns the first action of the response, and the next steps return the others, one
    each and in order, whatever the state is meanwhile; they do not consult the model
    again and change neither the state nor the statistics. *)
Theorem response_worked_off a s st a1 s1 st1 e :
  ca_pending_actions a = [] → step (a, s, st) = ((a1, s1, st1), Ok (Some e)) →
  e ≠ finish_action → (∀ c, e ≠ new_action (ACondensation c)) →
  ∃ response l, agent_actions a response = Ok (e :: l) ∧
  ∀ s2 st2, steps (length l) (a1, s2, st2) = ((set_pending_actions [] a1, s2, st2), Ok (Some <$> l)).
Proof.
  intros Hp Hs Hf Hc. destruct (step_result _ _ _ _ _ _ _ Hp Hs) as (_ & _ & [[_ [?|[c ?]]]|[r Hr]]).
  - done.
  - by apply Hc in H4.
  - exists r, (ca_pending_actions a1). split; [done|]. intros s2 st2. apply pending_steps.
Qed.

(** ** The read-only agent *)

Definition readonly_agent (a : agent) : Prop :=
  ca_class a = ReadOnlyAgent ∧ ca_mcp_tools a = [] ∧ Forall readonly_event (ca_pending_actions a).

(** C10 The read-only agent stays read-only: whatever the model answers and whatever tools
    of servers it is offered, every action it issues is a message, a thought, an end, the
    reading of a file, a condensation, or one of the two search commands. *)
Theorem readonly_agent_steps a s st mcp :
  readonly_agent a →
  readonly_agent (step (a, s, st)).1.1.1
  ∧ readonly_agent (codeact_reset a) ∧ readonly_agent (set_mcp_tools mcp a)
  ∧ ∀ e, (step (a, s, st)).2 = Ok (Some e) → readonly_event e.
Proof.
  intros (Hc & Hm & Hp).
  assert (Hstep : readonly_agent (step (a, s, st)).1.1.1
                  ∧ ∀ e, (step (a, s, st)).2 = Ok (Some e) → readonly_event e).
  { destruct (ca_pending_actions a) as [|e l] eqn:Hl.
    - destruct (step (a, s, st)) as [[[a1 s1] st1] r] eqn:Hs. simpl.
      destruct (step_result _ _ _ _ _ _ _ Hl Hs) as (Hc1 & Hm1 & Hr).
      rewrite Hc in Hc1. rewrite Hm in Hm1. unfold readonly_agent. rewrite Hc1, Hm1.
      destruct r as [[e|]|x]; [|rewrite Hr; split; [done|by intros ? [=]]..].
      destruct Hr as [[-> [->|[c ->]]]|[resp Hr]].
      + split; [done|]. intros ? [= <-]. by eapply ro_finish.
      + split; [done|]. intros ? [= <-]. by eapply ro_condensation.
      + unfold agent_actions in Hr. rewrite Hc, Hm in Hr. apply readonly_response in Hr.
        apply Forall_cons in Hr as [He Hr]. split; [done|]. by intros ? [= <-].
    - unfold codeact_step, pbind, get_agent. rewrite Hl. simpl. apply Forall_cons in Hp as [He Hp].
      split; [done|]. by intros ? [= <-]. }
  destruct Hstep as [Hstep He]. split; [done|]. split; [by split_and!|]. split; [|done].
  unfold set_mcp_tools. by rewrite Hc.
Qed.
End agent.

(** ** Witnesses *)

Module agent_example.
#[local] Instance prompts : PromptManager := calls_example.prompts.
(** The answers: two calls, a search. *)
#[local] Instance responses : ModelResponses :=
  {| response_id := λ _, "r1"; response_choices := λ _, 1;
     response_message := λ r, match r with
       | JStr "grep" => Ok (calls_example.assistant_message
           [calls_example.call "a" "grep" [("pattern", JStr "TODO")]])
       | _ => Ok (calls_example.assistant_message calls_example.two_calls)
       end |}.

(** A client whose answer is named by its model. *)
#[local] Instance client : LLMClient string :=
  {| llm_model := id; llm_max_message_chars := λ _, 1000; llm_vision_is_active := λ _, false;
     llm_is_caching_prompt_active := λ _, true;
     llm_completion := λ _ _ _ x, (x, Ok (JStr x.1)) |}.

Definition config : CodeActConfig :=
  mkCodeActConfig (mkAgentConfig true true false) false true [] true true true false false false
    true false true "1.0".
Definition idle (cls : CodeActClass) (model : string) : CodeAct string NoOpCondenser :=
  mkCodeAct cls config model [] [] [] mkNoOpCondenser [] true.
Definition user : Event :=
  set_id (Some 0) (set_source (Some USER)
    (new_action (AMessage (mkMessageAction "Hello" None None false RISK_UNKNOWN)))).
Definition start : State := set_history default_State [user].
Definition stats : ConversationStats := mkConversationStats "c" None [] [].

Definition step_of (a : CodeAct string NoOpCondenser) :=
  codeact_step (λ _, "") "host" (a, start, stats).
Definition first_action : Event := from_option id null_action
  (match (step_of (idle CodeActAgent "two")).2 with Ok o => o | Raise _ => None end).

Lemma response_worked_off_witness :
  ∃ response l,
    agent_actions (idle CodeActAgent "two") response = Ok (first_action :: l) ∧
    steps (λ _, "") "host" (length l) ((step_of (idle CodeActAgent "two")).1.1.1, start, stats)
    = ((set_pending_actions [] (step_of (idle CodeActAgent "two")).1.1.1, start, stats),
       Ok (Some <$> l)).
Proof.
  destruct (response_worked_off (λ _, "") "host" (idle CodeActAgent "two") start stats
              (step_of (idle CodeActAgent "two")).1.1.1 (step_of (idle CodeActAgent "two")).1.1.2
              (step_of (idle CodeActAgent "two")).1.2 first_action) as (r & l & Hr & Hs).
  - reflexivity.
  - vm_compute. reflexivity.
  - vm_compute. discriminate.
  - intros c. vm_compute. discriminate.
  - exists r, l. split; [exact Hr|]. apply Hs.
Defined.

Lemma readonly_agent_steps_witness :
  readonly_agent (step_of (idle ReadOnlyAgent "grep")).1.1.1
  ∧ ∃ e, (step_of (idle ReadOnlyAgent "grep")).2 = Ok (Some e) ∧ readonly_event e.
Proof.
  destruct (readonly_agent_steps (λ _, "") "host" (idle ReadOnlyAgent "grep") start stats [])
    as (H1 & _ & _ & H2).
  - split_and!; try reflexivity. constructor.
  - split; [exact H1|].
    exists (from_option id null_action (match (step_of (idle ReadOnlyAgent "grep")).2 with
                                        | Ok o => o | Raise _ => None end)).
    split; [|apply H2]; vm_compute; reflexivity.
Defined.
End agent_example.
