(* ===== verification/Regex.v ===== *)
(** * Regular expressions

    The part of Python's [re] that the patch parser uses: a backtracking matcher with
    groups, in continuation-passing style, whose order of attempts is that of [re]
    (greedy repetitions try the longest match first, lazy ones the shortest, alternatives
    from left to right).  Repetitions are of single characters, so the matcher is
    structural on the expression and the text. *)

From S2P Require Import Prelude.
Local Open Scope Z_scope.

Inductive regex :=
  | RStr (s : string)
  | RSet (p : ascii → bool)
  | RRep (greedy : bool) (min : nat) (max : option nat) (p : ascii → bool)
  | RSeq (r1 r2 : regex)
  | RAlt (r1 r2 : regex)
  | RGroup (n : nat) (r : regex)
  (** [$]: at the end, or before a newline at the end. *)
  | REnd.

Declare Scope regex_scope.
Delimit Scope regex_scope with regex.
Bind Scope regex_scope with regex.
Infix "·" := RSeq (at level 60, right associativity) : regex_scope.
Infix "∥" := RAlt (at level 62, right associativity) : regex_scope.

(** The groups of a match, the latest first. *)
Definition groups : Type := list (nat * string).

(** The text consumed between two positions. *)
Definition consumed (s rest : string) : string :=
  String.substring 0 (String.length s - String.length rest) s.

Section matching.
Context {R : Type}.
Abbreviation cont := (string → groups → option R).

Fixpoint match_str (t : string) (k : cont) (s : string) (g : groups) : option R :=
  match t, s with
  | EmptyString, _ => k s g
  | String c t, String d s => if Ascii.eqb c d then match_str t k s g else None
  | _, _ => None
  end.

Fixpoint match_rep (greedy : bool) (p : ascii → bool) (min : nat) (max : option nat) (k : cont)
    (s : string) (g : groups) {struct s} : option R :=
  let more := match s with
              | String c s' =>
                  if p c && negb (bool_decide (max = Some O))
                  then match_rep greedy p (pred min) (pred <$> max) k s' g else None
              | EmptyString => None
              end in
  if greedy
  then match more with Some r => Some r | None => match min with O => k s g | S _ => None end end
  else match match min with O => k s g | S _ => None end with Some r => Some r | None => more end.

Fixpoint rmatch (r : regex) (k : cont) (s : string) (g : groups) : option R :=
  match r with
  | RStr t => match_str t k s g
  | RSet p => match s with String c s' => if p c then k s' g else None | EmptyString => None end
  | RRep greedy min max p => match_rep greedy p min max k s g
  | RSeq r1 r2 => rmatch r1 (rmatch r2 k) s g
  | RAlt r1 r2 => match rmatch r1 k s g with Some x => Some x | None => rmatch r2 k s g end
  | RGroup n r => rmatch r (λ rest g, k rest ((n, consumed s rest) :: g)) s g
  | REnd => match s with
            | EmptyString => k s g
            | String c EmptyString => if Ascii.eqb c newline then k s g else None
            | _ => None
            end
  end.
End matching.

(** [pattern.match(s)]; a pattern's [^] is implied. *)
Definition re_match (r : regex) (s : string) : option groups :=
  rmatch r (λ _ g, Some g) s [].
Definition re_test (r : regex) (s : string) : bool :=
  match re_match r s with Some _ => true | None => false end.

(** [m.group(n)], [None] for a group that took no part. *)
Fixpoint group (n : nat) (g : groups) : option string :=
  match g with
  | [] => None
  | (m, s) :: g => if Nat.eqb m n then Some s else group n g
  end.
(** ... for a group that takes part in every match. *)
Definition group_str (n : nat) (g : groups) : string := from_option id "" (group n g).

(** ** Character classes *)

Definition re_dot (c : ascii) : bool := negb (Ascii.eqb c newline).
Definition re_digit (c : ascii) : bool :=
  let n := Ascii.nat_of_ascii c in Nat.leb 48 n && Nat.leb n 57.
Definition re_word (c : ascii) : bool :=
  let n := Ascii.nat_of_ascii c in
  re_digit c || (Nat.leb 65 n && Nat.leb n 90) || (Nat.leb 97 n && Nat.leb n 122) || Nat.eqb n 95.
Definition re_in (s : string) (c : ascii) : bool := str_contains (String c "") s.

(** [p*], [p+], [p?] and the lazy [p+?] *)
Definition re_star (p : ascii → bool) : regex := RRep true 0 None p.
Definition re_plus (p : ascii → bool) : regex := RRep true 1 None p.
Definition re_opt (p : ascii → bool) : regex := RRep true 0 (Some 1%nat) p.
Definition re_plus_lazy (p : ascii → bool) : regex := RRep false 1 None p.

(** ** Lemmas *)

(** The next character, if any, is not in the class. *)
Definition stops (p : ascii → bool) (s : string) : bool :=
  match s with
  | EmptyString => true
  | String c _ => negb (p c)
  end.

Lemma consumed_app a rest : consumed (a +:+ rest) rest = a.
Proof. unfold consumed. apply substring0_app. rewrite length_append. lia. Qed.

Section lemmas.
Context {R : Type}.
Implicit Type k : string → groups → option R.

Lemma match_str_app t s k g : match_str t k (t +:+ s) g = k s g.
Proof.
  induction t as [|c t IH]; [done|]. rewrite append_cons. simpl. by rewrite Ascii.eqb_refl.
Qed.

(** A greedy repetition whose run is followed by a character outside of the class takes
    the whole run, when the rest of the pattern matches there. *)
Lemma match_rep_greedy p min a s k g x :
  all_chars p a = true → stops p s = true → (min ≤ String.length a)%nat → k s g = Some x →
  match_rep true p min None k (a +:+ s) g = Some x.
Proof.
  intros Ha Hs Hm Hk. revert min Hm. induction a as [|c a IH]; intros min Hm.
  - simpl in Hm. assert (min = O) as -> by lia. change ("" +:+ s) with s.
    destruct s as [|c s]; simpl; [done|]. simpl in Hs. apply negb_true_iff in Hs. by rewrite Hs.
  - rewrite append_cons. simpl in Ha. apply andb_true_iff in Ha as [Hc Ha]. simpl.
    rewrite Hc. simpl. by rewrite IH by (simpl in *; lia || done).
Qed.

(** An optional character that is there is taken; one that is not is skipped. *)
Lemma match_opt_take p c s k g x :
  p c = true → k s g = Some x → match_rep true p 0 (Some 1%nat) k (String c s) g = Some x.
Proof.
  intros Hp Hk. simpl. rewrite Hp. simpl. destruct s as [|d s]; simpl; [by rewrite Hk|].
  rewrite andb_false_r. by rewrite Hk.
Qed.
Lemma match_opt_skip p s k g x :
  stops p s = true → k s g = Some x → match_rep true p 0 (Some 1%nat) k s g = Some x.
Proof.
  intros Hs Hk. destruct s as [|c s]; simpl; [done|]. simpl in Hs. apply negb_true_iff in Hs.
  by rewrite Hs.
Qed.

(** A greedy repetition can match any run when the rest of the pattern matches after it. *)
Lemma match_rep_some p min a s k g :
  all_chars p a = true → (min ≤ String.length a)%nat → is_Some (k s g) →
  is_Some (match_rep true p min None k (a +:+ s) g).
Proof.
  intros Ha Hm Hk. revert min Hm. induction a as [|c a IH]; intros min Hm.
  - simpl in Hm. assert (min = O) as -> by lia. change ("" +:+ s) with s.
    destruct s as [|c s]; simpl; [done|]. by case_match.
  - rewrite append_cons. simpl in Ha. apply andb_true_iff in Ha as [Hc Ha]. simpl. rewrite Hc. simpl.
    destruct (IH Ha (pred min)) as [x Hx]; [simpl in *; lia|]. by rewrite Hx.
Qed.
End lemmas.
