(* ===== verification/PatchParse.v ===== *)
(** * Parsing of patches

    Models [openhands/resolver/patching/patch.py] and [snippets.py]: the regular
    expressions, the headers of the version control systems, and the formats of changes
    (unified, context, normal, ed, RCS and git's binary format).

    The header parsers take the lines they have read off the list they are given, which
    the parser of the changes then reads: they are computations on that list.  Line
    boundaries are the ASCII ones.  Parameter: [zlib.decompress]. *)

From S2P Require Import Prelude EventStore Regex.
Local Open Scope Z_scope.
Local Open Scope py_scope.

(** ** Lines *)

Definition is_linebreak (c : ascii) : bool :=
  let n := Ascii.nat_of_ascii c in
  (Nat.leb 10 n && Nat.leb n 13) || (Nat.leb 28 n && Nat.leb n 30).
Definition cr : ascii := Ascii.ascii_of_nat 13.
Definition tab : ascii := Ascii.ascii_of_nat 9.

(** [s.splitlines()] *)
Fixpoint splitlines_go (acc s : string) : list string :=
  match s with
  | EmptyString => if String.eqb acc "" then [] else [String.rev acc]
  | String c s' =>
      if is_linebreak c then
        String.rev acc :: match s' with
                          | String d s'' => if Ascii.eqb c cr && Ascii.eqb d newline
                                            then splitlines_go "" s'' else splitlines_go "" s'
                          | EmptyString => []
                          end
      else splitlines_go (String c acc) s'
  end.
Definition splitlines (s : string) : list string := splitlines_go "" s.

(** [int(s)] of decimal digits *)
Definition int_of (s : string) : Z := from_option id 0 (py_int s).

(** ** The regular expressions *)

Section patterns.
Local Open Scope regex_scope.
Definition comma_opt : regex := re_opt (re_in ",").
Definition range (n : nat) : regex :=
  RGroup n (re_plus re_digit) · comma_opt · RGroup (S n) (re_star re_digit).
Definition file_timestamp : regex :=
  RGroup 1 (re_plus_lazy re_dot)
  · (RSet (Ascii.eqb tab) ∥ RStr ":" ∥ RStr " " · re_plus (re_in " "))
  · RGroup 2 (re_star re_dot).

Definition diffcmd_header : regex :=
  RStr "diff" · re_star re_dot · RStr " " · RGroup 1 (re_plus re_dot) · RStr " "
  · RGroup 2 (re_plus re_dot) · REnd.
Definition unified_header_index : regex := RStr "Index: " · RGroup 1 (re_plus re_dot) · REnd.
Definition unified_header_old_line : regex := RStr "--- " · file_timestamp · REnd.
Definition unified_header_new_line : regex := RStr "+++ " · file_timestamp · REnd.
Definition unified_hunk_start : regex :=
  RStr "@@ -" · range 1 · RStr " +" · range 3 · RStr " @@" · RGroup 5 (re_star re_dot) · REnd.

Definition context_header_old_line : regex := RStr "*** " · file_timestamp · REnd.
Definition context_header_new_line : regex := RStr "--- " · file_timestamp · REnd.
Definition context_hunk_start : regex := RStr "***************" · REnd.
Definition context_hunk_old : regex := RStr "*** " · range 1 · RStr " ****" · REnd.
Definition context_hunk_new : regex := RStr "--- " · range 1 · RStr " ----" · REnd.
Definition context_change : regex :=
  RGroup 1 (RSet (re_in "-+ !")) · RStr " " · RGroup 2 (re_star re_dot) · REnd.

Definition ed_hunk_start : regex := range 1 · RGroup 3 (RSet (re_in "acd")) · REnd.
Definition ed_hunk_end : regex := RSet re_dot · REnd.
Definition rcs_ed_hunk_start : regex :=
  RGroup 1 (RSet (re_in "ad")) · RGroup 2 (re_plus re_digit) · re_opt (re_in " ")
  · RGroup 3 (re_star re_digit) · REnd.

Definition default_hunk_start : regex :=
  range 1 · RGroup 3 (RSet (re_in "acd")) · range 4 · REnd.
Definition default_change : regex :=
  RGroup 1 (RSet (re_in "><")) · RStr " " · RGroup 2 (re_star re_dot) · REnd.

Definition git_diffcmd_header : regex :=
  RStr "diff --git a/" · RGroup 1 (re_plus re_dot) · RStr " b/" · RGroup 2 (re_plus re_dot) · REnd.
Definition re_hex : ascii → bool := re_in "0123456789abcdef".
Definition git_header_index : regex :=
  RStr "index " · RGroup 1 (re_plus re_hex) · RSet re_dot · RSet re_dot
  · RGroup 2 (re_plus re_hex) · re_opt (re_in " ") · RGroup 3 (re_star re_digit) · REnd.
Definition git_header_old_line : regex := RStr "--- " · RGroup 1 (re_plus re_dot) · REnd.
Definition git_header_new_line : regex := RStr "+++ " · RGroup 1 (re_plus re_dot) · REnd.
Definition git_header_binary_file : regex :=
  RStr "Binary files " · RGroup 1 (re_plus re_dot) · RStr " and " · RGroup 2 (re_plus re_dot)
  · RStr " differ".
Definition git_binary_patch_start : regex := RStr "GIT binary patch" · REnd.
Definition git_binary_literal_start : regex := RStr "literal " · RGroup 1 (re_plus re_digit) · REnd.
Definition git_binary_delta_start : regex := RStr "delta " · RGroup 1 (re_plus re_digit) · REnd.
Definition b85_char (c : ascii) : bool := (re_word c && negb (Ascii.eqb c "_"))
  || re_in "!#$%&()*+;<=>?@^_`{|}~-" c.
Definition base85string : regex := re_plus b85_char · REnd.

Definition svn_header_index : regex := unified_header_index.
Definition svn_header_timestamp_version : regex :=
  RStr "(" · (RStr "working copy" ∥ RStr "revision " · RGroup 1 (re_plus re_digit)) · RStr ")".
Definition svn_header_timestamp : regex :=
  re_star re_dot · RGroup 1 (RStr "(" · re_star re_dot · RStr ")") · REnd.

Definition cvs_header_index : regex := unified_header_index.
Definition cvs_header_rcs : regex :=
  RStr "RCS file: " · RGroup 1 (re_plus re_dot) · (RStr "," · RSet re_word · REnd ∥ REnd).
Definition re_digit_dot (c : ascii) : bool := re_digit c || Ascii.eqb c ".".
Definition cvs_header_timestamp : regex :=
  RGroup 1 (re_plus re_dot) · RSet (Ascii.eqb tab) · RGroup 2 (re_plus re_digit_dot).
Definition cvs_header_timestamp_colon : regex :=
  RStr ":" · RGroup 1 (re_plus re_digit_dot) · RSet (Ascii.eqb tab) · RGroup 2 (re_plus re_dot).
Definition old_cvs_diffcmd_header : regex :=
  RStr "diff" · re_star re_dot · RStr " " · RGroup 1 (re_plus re_dot) · RStr ":"
  · RGroup 2 (re_star re_dot) · RStr " " · RGroup 3 (re_plus re_dot) · RStr ":"
  · RGroup 4 (re_star re_dot) · REnd.
End patterns.

(** ** [snippets.py] *)

Definition findall_regex (items : list string) (r : regex) : list Z :=
  (enumerate items ≫= λ '(i, x), if re_test r x then [i] else []).

(** The slices between successive indices. *)
Fixpoint between {A} (items : list A) (indices : list Z) : list (list A) :=
  match indices with
  | i :: ((j :: _) as l) => py_slice (Some i) (Some j) items :: between items l
  | [i] => [py_slice (Some i) None items]
  | [] => []
  end.
Definition split_by_regex (items : list string) (r : regex) : list (list string) :=
  match findall_regex items r with
  | [] => [items]
  | (i :: _) as indices => py_slice (Some 0) (Some i) items :: between items indices
  end.

(** ** Data *)

(** A version is a text, or a number in Subversion's headers. *)
Inductive Version := VText (s : string) | VNumber (n : Z).
Record Header := mkHeader {
  index_path : option string;
  old_path : string;
  old_version : option Version;
  new_path : string;
  new_version : option Version;
}.

(** The line of a change is a text, or the bytes of a binary file. *)
Inductive Line := Text (s : string) | Data (s : string).
Inductive HunkRef := HunkNumber (n : Z) | HunkNone | HunkData (s : string).
Record Change := mkChange {
  ch_old : option Z;
  ch_new : option Z;
  ch_line : option Line;
  ch_hunk : HunkRef;
}.
Record DiffObj := mkDiffObj {
  diff_header : option Header;
  diff_changes : option (list Change);
  diff_text : string;
}.
#[export] Instance Version_eq_dec : EqDecision Version.
Proof. solve_decision. Defined.
#[export] Instance Header_eq_dec : EqDecision Header.
Proof. solve_decision. Defined.
#[export] Instance Line_eq_dec : EqDecision Line.
Proof. solve_decision. Defined.
#[export] Instance HunkRef_eq_dec : EqDecision HunkRef.
Proof. solve_decision. Defined.
#[export] Instance Change_eq_dec : EqDecision Change.
Proof. solve_decision. Defined.

Definition ParseException (msg : string) (hunk : Z) : py_exc :=
  OtherError "ParseException" (msg +:+ ", in hunk #" +:+ pretty hunk).
Definition UnboundLocalError (name : string) : py_exc := OtherError "UnboundLocalError" name.

(** ** Headers of diffs *)

Definition text_version (s : string) : option Version :=
  if String.eqb s "" then None else Some (VText s).

(** The loop of [parse_unified_header] and [parse_context_header]. *)
Fixpoint old_new_header (ro rn : regex) (lines : list string) : list string * option Header :=
  match lines with
  | a :: ((b :: rest) as tl) =>
      match re_match ro a with
      | None => old_new_header ro rn tl
      | Some o =>
          match re_match rn b with
          | None => old_new_header ro rn rest
          | Some n => (rest, Some (mkHeader None (group_str 1 o) (text_version (group_str 2 o))
                                     (group_str 1 n) (text_version (group_str 2 n))))
          end
      end
  | _ => (lines, None)
  end.

Definition parse_unified_header (lines : list string) : list string * option Header :=
  if bool_decide (findall_regex lines unified_header_new_line = []) then (lines, None)
  else old_new_header unified_header_old_line unified_header_new_line lines.
Definition parse_context_header (lines : list string) : list string * option Header :=
  if bool_decide (findall_regex lines context_header_old_line = []) then (lines, None)
  else old_new_header context_header_old_line context_header_new_line lines.

Fixpoint diffcmd_loop (lines : list string) : list string * option Header :=
  match lines with
  | [] => ([], None)
  | a :: tl =>
      match re_match diffcmd_header a with
      | Some d => (tl, Some (mkHeader None (group_str 1 d) None (group_str 2 d) None))
      | None => diffcmd_loop tl
      end
  end.
Definition parse_diffcmd_header (lines : list string) : list string * option Header :=
  if bool_decide (findall_regex lines diffcmd_header = []) then (lines, None) else diffcmd_loop lines.

(** [if path.startswith(pre): path = path[2:]] *)
Definition strip_side (pre path : string) : string :=
  if startswith path pre then String.substring 2 (String.length path - 2) path else path.

Record GitHeader := mkGitHeader {
  gh_versions : option (string * string);
  gh_cmd : option (string * string);
  gh_old : option string;
  gh_new : option string;
}.

(** What a line that is neither the command nor the index says of the paths. *)
Definition git_paths (line : string) (h : GitHeader) : GitHeader :=
  let old := match re_match git_header_old_line line with
             | Some o => Some (group_str 1 o) | None => gh_old h end in
  let new := match re_match git_header_new_line line with
             | Some n => Some (group_str 1 n) | None => gh_new h end in
  match re_match git_header_binary_file line with
  | Some b => mkGitHeader (gh_versions h) (gh_cmd h) (Some (group_str 1 b)) (Some (group_str 2 b))
  | None => mkGitHeader (gh_versions h) (gh_cmd h) old new
  end.

Definition git_version (h : GitHeader) (f : string * string → string) : option Version :=
  VText ∘ f <$> gh_versions h.

Fixpoint git_loop (lines : list string) (h : GitHeader) : option Header :=
  match lines with
  | [] =>
      match gh_cmd h, gh_versions h with
      | Some (co, cn), Some (vo, vn) =>
          Some (mkHeader None
                  (if String.eqb vo "0000000" then "/dev/null" else strip_side "a/" co) (Some (VText vo))
                  (if String.eqb vn "0000000" then "/dev/null" else strip_side "b/" cn) (Some (VText vn)))
      | _, _ => None
      end
  | line :: lines =>
      match re_match git_diffcmd_header line with
      | Some m => git_loop lines (mkGitHeader (gh_versions h) (Some (group_str 1 m, group_str 2 m))
                                    (gh_old h) (gh_new h))
      | None =>
          match re_match git_header_index line with
          | Some g => git_loop lines (mkGitHeader (Some (group_str 1 g, group_str 2 g)) (gh_cmd h)
                                        (gh_old h) (gh_new h))
          | None =>
              let h := git_paths line h in
              match gh_old h, gh_new h with
              | Some o, Some n =>
                  Some (mkHeader None (strip_side "a/" o) (git_version h fst)
                          (strip_side "b/" n) (git_version h snd))
              | _, _ => git_loop lines h
              end
          end
      end
  end.
Definition parse_git_header (lines : list string) : option Header :=
  git_loop lines (mkGitHeader None None None None).

(** [parse_diff_header] *)
Definition parse_diff_header (lines : list string) : list string * option Header :=
  let found r := negb (bool_decide (findall_regex lines r = [])) in
  if found unified_header_new_line then parse_unified_header lines
  else if found context_header_old_line then parse_context_header lines
  else if found diffcmd_header then parse_diffcmd_header lines
  else if found git_header_new_line then (lines, parse_git_header lines)
  else (lines, None).

(** ** Headers of version control systems *)

(** The revision in a Subversion version text, as a number. *)
Definition svn_number (s : string) : option Version :=
  match re_match svn_header_timestamp_version s with
  | Some m => match group 1 m with
              | Some n => if String.eqb n "" then None else Some (VNumber (int_of n))
              | None => None
              end
  | None => None
  end.
(** Path and version of one side; the versions of [parse_diff_header] are texts. *)
Definition svn_side (path : string) (version : option Version) : string * option Version :=
  let from_path :=
    if String.eqb path "" then (path, None)
    else match re_match svn_header_timestamp path with
         | Some ts =>
             let t := group_str 1 ts in
             (String.substring 0 (String.length path - String.length t) path, svn_number t)
         | None => (path, None)
         end in
  match version with
  | Some (VText s) => if String.eqb s "" then from_path else (path, svn_number s)
  | Some (VNumber n) => (path, Some (VNumber n))
  | None => from_path
  end.

Fixpoint svn_loop (lines : list string) : list string * option Header :=
  match lines with
  | [] => ([], None)
  | a :: tl =>
      match re_match svn_header_index a with
      | None => svn_loop tl
      | Some i =>
          let path := group_str 1 i in
          let '(rest, h) := parse_diff_header tl in
          (rest, Some match h with
                      | None => mkHeader (Some path) path None path None
                      | Some h =>
                          let o := svn_side (old_path h) (old_version h) in
                          let n := svn_side (new_path h) (new_version h) in
                          mkHeader (Some path) o.1 o.2 n.1 n.2
                      end)
      end
  end.
Definition parse_svn_header (lines : list string) : list string * option Header :=
  if bool_decide (findall_regex lines svn_header_index = []) then (lines, None) else svn_loop lines.

Definition cvs_version (version : option Version) : option Version :=
  match version with
  | Some (VText s) =>
      if String.eqb s "" then version
      else match re_match cvs_header_timestamp s, re_match cvs_header_timestamp_colon s with
           | Some m, _ => Some (VText (group_str 2 m))
           | None, Some m => Some (VText (group_str 1 m))
           | None, None => version
           end
  | v => v
  end.

(** Headers with an RCS line. *)
Fixpoint cvs_loop (lines : list string) : list string * option Header :=
  match lines with
  | [] => ([], None)
  | a :: tl =>
      match re_match cvs_header_index a with
      | None => cvs_loop tl
      | Some i =>
          let path := group_str 1 i in
          let '(rest, h) := parse_diff_header tl in
          (rest, Some match h with
                      | None => mkHeader (Some path) path None path None
                      | Some h => mkHeader (Some path) (old_path h) (cvs_version (old_version h))
                                    (new_path h) (cvs_version (new_version h))
                      end)
      end
  end.
(** Headers with the versions in the command. *)
Fixpoint old_cvs_loop (lines : list string) : list string * result (option Header) :=
  match lines with
  | [] => ([], Ok None)
  | a :: tl =>
      match re_match cvs_header_index a with
      | None => old_cvs_loop tl
      | Some i =>
          let path := group_str 1 i in
          match tl with
          | [] => ([], Raise IndexError)
          | b :: _ =>
              match re_match old_cvs_diffcmd_header b with
              | None => (tl, Ok (Some (mkHeader (Some path) path None path None)))
              | Some d =>
                  ((parse_diff_header tl).1,
                   Ok (Some (mkHeader (Some path) (group_str 1 d) (text_version (group_str 2 d))
                               (group_str 3 d) (text_version (group_str 4 d)))))
              end
          end
      end
  end.
Definition parse_cvs_header : pyM (list string) (option Header) := λ lines,
  if negb (bool_decide (findall_regex lines cvs_header_rcs = []))
  then let '(rest, h) := cvs_loop lines in (rest, Ok h)
  else if negb (bool_decide (findall_regex lines old_cvs_diffcmd_header = [])) then old_cvs_loop lines
  else (lines, Ok None).

(** [parse_scm_header]: the first system whose mark appears; in git's patches the sides
    are stripped. *)
Definition strip_sides (h : Header) : Header :=
  mkHeader (index_path h) (strip_side "a/" (old_path h)) (old_version h)
    (strip_side "b/" (new_path h)) (new_version h).
Definition pure_header (f : list string → list string * option Header) :
    pyM (list string) (option Header) := λ lines, let '(rest, h) := f lines in (rest, Ok h).
Definition scm_parsers : list (regex * pyM (list string) (option Header)) :=
  [(git_header_index, λ lines, (lines, Ok (parse_git_header lines)));
   (old_cvs_diffcmd_header, parse_cvs_header);
   (cvs_header_rcs, parse_cvs_header);
   (svn_header_index, pure_header parse_svn_header)].
Definition parse_scm_header : pyM (list string) (option Header) :=
  let* lines := pget in
  match py_find (λ c, negb (bool_decide (findall_regex lines c.1 = []))) scm_parsers with
  | None => pret None
  | Some (_, parser) =>
      let git := negb (bool_decide (findall_regex lines git_diffcmd_header = [])) in
      let* h := parser in
      pret (if git then strip_sides <$> h else h)
  end.

(** [parse_header] *)
Definition parse_header : pyM (list string) (option Header) :=
  let* h := parse_scm_header in
  match h with
  | Some h => pret (Some h)
  | None => pure_header parse_diff_header
  end.
