(* ===== verification/PatchChanges.v ===== *)
(** * The changes of a patch

    Models the parsers of changes of [openhands/resolver/patching/patch.py] and
    [parse_patch].  The counters of a parser are Python variables of the whole function:
    they live from one hunk to the next, and some are unbound at first.  Parameter:
    [zlib.decompress]. *)

From S2P Require Import Prelude EventStore Regex PatchParse.
Local Open Scope Z_scope.
Local Open Scope py_scope.

Definition changed (old new : option Z) (line : option string) (hunk : Z) : Change :=
  mkChange old new (Text <$> line) (HunkNumber hunk).

(** [changes if len(changes) > 0 else None] *)
Definition nonempty_changes (l : list Change) : option (list Change) :=
  match l with [] => None | _ => Some l end.

(** ** Unified *)

Record HunkRange := mkHunkRange {
  hr_old : Z;
  hr_old_len : Z;
  hr_new : Z;
  hr_new_len : Z;
}.

(** The lines up to the header of the hunk. *)
Fixpoint unified_start (hunk : list string) (h : HunkRange) : HunkRange * list string :=
  match hunk with
  | [] => (h, [])
  | a :: hunk =>
      match re_match unified_hunk_start a with
      | None => unified_start hunk h
      | Some m =>
          let len n := let s := group_str n m in if String.eqb s "" then 1 else int_of s in
          (mkHunkRange (int_of (group_str 1 m)) (len 2%nat) (int_of (group_str 3 m)) (len 4%nat), hunk)
      end
  end.

Definition line_kind (n : string) : ascii := match n with String c _ => c | EmptyString => " " end.
Definition line_text (n : string) : string := match n with String _ s => s | EmptyString => "" end.

Fixpoint unified_lines (h : HunkRange) (hunk_n r i : Z) (hunk : list string) : list Change :=
  match hunk with
  | [] => []
  | n :: hunk =>
      let kind := line_kind n in let line := line_text n in
      if Ascii.eqb kind "-" && (negb (r =? hr_old_len h) || (r =? 0)) then
        changed (Some (hr_old h + r)) None (Some line) hunk_n :: unified_lines h hunk_n (r + 1) i hunk
      else if Ascii.eqb kind "+" && (negb (i =? hr_new_len h) || (i =? 0)) then
        changed None (Some (hr_new h + i)) (Some line) hunk_n :: unified_lines h hunk_n r (i + 1) hunk
      else if Ascii.eqb kind " " then
        changed (Some (hr_old h + r)) (Some (hr_new h + i)) (Some line) hunk_n
        :: unified_lines h hunk_n (r + 1) (i + 1) hunk
      else unified_lines h hunk_n r i hunk
  end.

Fixpoint unified_hunks (h : HunkRange) (hunks : list (Z * list string)) : list Change :=
  match hunks with
  | [] => []
  | (hunk_n, hunk) :: hunks =>
      let '(h, lines) := unified_start hunk h in
      unified_lines h hunk_n 0 0 lines ++ unified_hunks h hunks
  end.
Definition parse_unified_diff (lines : list string) : option (list Change) :=
  nonempty_changes (unified_hunks (mkHunkRange 0 0 0 0)
    (enumerate (split_by_regex lines unified_hunk_start))).

(** ** Normal *)

Fixpoint default_lines (h : HunkRange) (hunk_n r i : Z) (hunk : list string) :
    HunkRange * list Change :=
  match hunk with
  | [] => (h, [])
  | a :: hunk =>
      match re_match default_hunk_start a with
      | Some m =>
          let old := int_of (group_str 1 m) in let new := int_of (group_str 4 m) in
          let len n start := let s := group_str n m in
                             if String.eqb s "" then 0 else int_of s - start + 1 in
          default_lines (mkHunkRange old (len 2%nat old) new (len 5%nat new)) hunk_n r i hunk
      | None =>
          match re_match default_change a with
          | Some c =>
              let kind := group_str 1 c in let line := group_str 2 c in
              if String.eqb kind "<" && (negb (r =? hr_old_len h) || (r =? 0)) then
                let '(h', l) := default_lines h hunk_n (r + 1) i hunk in
                (h', changed (Some (hr_old h + r)) None (Some line) hunk_n :: l)
              else if String.eqb kind ">" && (negb (i =? hr_new_len h) || (i =? 0)) then
                let '(h', l) := default_lines h hunk_n r (i + 1) hunk in
                (h', changed None (Some (hr_new h + i)) (Some line) hunk_n :: l)
              else default_lines h hunk_n r i hunk
          | None => default_lines h hunk_n r i hunk
          end
      end
  end.
Fixpoint default_hunks (h : HunkRange) (hunks : list (Z * list string)) : list Change :=
  match hunks with
  | [] => []
  | (hunk_n, hunk) :: hunks =>
      let '(h, l) := default_lines h hunk_n 0 0 hunk in l ++ default_hunks h hunks
  end.
Definition parse_default_diff (lines : list string) : option (list Change) :=
  nonempty_changes (default_hunks (mkHunkRange 0 0 0 0)
    (enumerate (split_by_regex lines default_hunk_start))).

(** ** Context *)

(** [int(s)], which does not accept the empty string *)
Definition int_or_raise (s : string) : result Z :=
  if String.eqb s ""
  then Raise (ValueError "invalid literal for int() with base 10: ''") else Ok (int_of s).

Record ContextRange := mkContextRange {
  cx_old : Z;
  cx_old_len : option Z;
  cx_new : Z;
  cx_new_len : option Z;
}.
Definition bound (name : string) (v : option Z) : result Z :=
  match v with Some z => Ok z | None => Raise (UnboundLocalError name) end.

(** The first line that matches, and the lines after it; none is left if there is none. *)
Fixpoint skip_to (r : regex) (lines : list string) : option groups * list string :=
  match lines with
  | [] => (None, [])
  | a :: lines => match re_match r a with Some m => (Some m, lines) | None => skip_to r lines end
  end.

(** The headers of the two parts of a hunk. *)
Definition context_start (x : ContextRange) (old_hunk new_hunk : list string) :
    result (ContextRange * list string * list string) :=
  match skip_to context_hunk_old old_hunk with
  | (None, old_hunk) => Ok (x, old_hunk, new_hunk)
  | (Some o, old_hunk) =>
      let old := int_of (group_str 1 o) in
      let? e := int_or_raise (group_str 2 o) in
      let x := mkContextRange old (Some (e + 1 - old)) (cx_new x) (cx_new_len x) in
      match skip_to context_hunk_new new_hunk with
      | (None, new_hunk) => Ok (x, old_hunk, new_hunk)
      | (Some n, new_hunk) =>
          let new := int_of (group_str 1 n) in
          let? e := int_or_raise (group_str 2 n) in
          Ok (mkContextRange (cx_old x) (cx_old_len x) new (Some (e + 1 - new)), old_hunk, new_hunk)
      end
  end.

(** [j != old_len or j == 0] *)
Definition room (name : string) (j : Z) (len : option Z) : result bool :=
  let? n := bound name len in Ok (negb (j =? n) || (j =? 0)).
(** [(j != old_len and k != new_len) or (j == 0 or k == 0)] *)
Definition room_both (x : ContextRange) (j k : Z) : result bool :=
  let? n := bound "old_len" (cx_old_len x) in
  let? b := if j =? n then Ok false
            else let? m := bound "new_len" (cx_new_len x) in Ok (negb (k =? m)) in
  Ok (b || (j =? 0) || (k =? 0)).

Definition UNEXPECTED : string := "Got unexpected change in removal hunk: ".

(** A hunk with changes on one side only: [mine] is the kind of that side. *)
Fixpoint context_one (removal : bool) (x : ContextRange) (hunk_n j k : Z) (hunk : list string) :
    result (list Change) :=
  match hunk with
  | [] => Ok []
  | a :: hunk =>
      match re_match context_change a with
      | None => context_one removal x hunk_n j k hunk
      | Some c =>
          let kind := group_str 1 c in let line := Some (group_str 2 c) in
          let mine := if removal then "-" else "+" in
          let? own := if String.eqb kind mine
                      then if removal then room "old_len" j (cx_old_len x)
                           else room "new_len" k (cx_new_len x)
                      else Ok false in
          if own then
            if removal then
              let? l := context_one removal x hunk_n (j + 1) k hunk in
              Ok (changed (Some (cx_old x + j)) None line hunk_n :: l)
            else
              let? l := context_one removal x hunk_n j (k + 1) hunk in
              Ok (changed None (Some (cx_new x + k)) line hunk_n :: l)
          else
            let? both := if String.eqb kind " " then room_both x j k else Ok false in
            if both then
              let? l := context_one removal x hunk_n (j + 1) (k + 1) hunk in
              Ok (changed (Some (cx_old x + j)) (Some (cx_new x + k)) line hunk_n :: l)
            else if String.eqb kind (if removal then "+" else "-") || String.eqb kind "!" then
              Raise (ParseException (UNEXPECTED +:+ kind) hunk_n)
            else context_one removal x hunk_n j k hunk
      end
  end.

(** A hunk with changes on both sides; [None] when the parser gives up. *)
Fixpoint context_both (x : ContextRange) (hunk_n : Z) (old_hunk new_hunk : list string) (j k : Z)
    {struct old_hunk} : result (option (list Change)) :=
  match old_hunk with
  | [] => Ok (Some [])
  | a :: old_rest =>
      (fix go (new_hunk : list string) (k : Z) : result (option (list Change)) :=
         match new_hunk with
         | [] => Ok (Some [])
         | b :: new_rest =>
             let oc := re_match context_change a in let nc := re_match context_change b in
             let kind m := from_option (group_str 1) "" m in
             let line m := from_option (group_str 2) "" m in
             let emit c r := let? l := r in Ok (cons c <$> l) in
             let has c kd := String.eqb (kind c) kd in
             if negb (bool_decide (is_Some oc)) && negb (bool_decide (is_Some nc)) then
               context_both x hunk_n old_rest new_rest j k
             else if has oc " " && has nc " " && String.eqb (line oc) (line nc) then
               emit (changed (Some (cx_old x + j)) (Some (cx_new x + k)) (Some (line oc)) hunk_n)
                 (context_both x hunk_n old_rest new_rest (j + 1) (k + 1))
             else
               let? removed := if has oc "-" then Ok true
                               else if has oc "!" then room "old_len" j (cx_old_len x) else Ok false in
               if (removed : bool) then
                 emit (changed (Some (cx_old x + j)) None (Some (line oc)) hunk_n)
                   (context_both x hunk_n old_rest new_hunk (j + 1) k)
               else
                 let? added := if has nc "+" then Ok true
                               else if has nc "!" then room "new_len" k (cx_new_len x) else Ok false in
                 if (added : bool) then
                   emit (changed None (Some (cx_new x + k)) (Some (line nc)) hunk_n) (go new_rest (k + 1))
                 else Ok None
         end) new_hunk k
  end.

Definition context_hunk (x : ContextRange) (hunk_n : Z) (hunk : list string) :
    result (ContextRange * option (list Change)) :=
  match split_by_regex hunk context_hunk_new with
  | [old_hunk; new_hunk] =>
      let? r := context_start x old_hunk new_hunk in
      let '(x, old_hunk, new_hunk) := r in
      let? l := match old_hunk, new_hunk with
                | _ :: _, [] => let? l := context_one true x hunk_n 0 0 old_hunk in Ok (Some l)
                | [], _ :: _ => let? l := context_one false x hunk_n 0 0 new_hunk in Ok (Some l)
                | _, _ => context_both x hunk_n old_hunk new_hunk 0 0
                end in
      Ok (x, l)
  | _ => Raise (ParseException "Context diff invalid" hunk_n)
  end.
Fixpoint context_hunks (x : ContextRange) (hunks : list (Z * list string)) :
    result (option (list Change)) :=
  match hunks with
  | [] => Ok (Some [])
  | (_, []) :: hunks => context_hunks x hunks
  | (hunk_n, hunk) :: hunks =>
      let? r := context_hunk x hunk_n hunk in
      match r.2 with
      | None => Ok None
      | Some l => let? k := context_hunks r.1 hunks in Ok (app l <$> k)
      end
  end.
Definition parse_context_diff (lines : list string) : result (option (list Change)) :=
  let? l := context_hunks (mkContextRange 0 None 0 None)
              (enumerate (split_by_regex lines context_hunk_start)) in
  Ok (l ≫= nonempty_changes).

(** ** Scripts of ed *)

(** The lines from [old] to [old_end], removed. *)
Definition ed_removes (old old_end hunk_n : Z) : list Change :=
  (λ k, changed (Some k) None None hunk_n) <$> seqZ old (old_end - old + 1).

(** The text of an [a] or [c] command; [r], [i]: what was removed and inserted so far, [j]:
    the lines of this command.  The lines of a [c] command are removed before its first
    line is inserted. *)
Fixpoint ed_text (change : bool) (old old_end hunk_n r i j : Z) (hunk : list string) :
    Z * Z * Z * list Change :=
  match hunk with
  | [] => (r, i, j, [])
  | a :: hunk =>
      if re_test ed_hunk_end a then ed_text change old old_end hunk_n r i j hunk
      else if change then
        let removes := ed_removes old old_end hunk_n in
        let k := py_len removes in
        let '(r', i', j', l) := ed_text change old (Z.min old_end (old - 1)) hunk_n (r + k) (i + 1)
                                  (j + 1) hunk in
        (r', i', j',
         removes ++ changed None (Some (old - (r + k) + i + k + j)) (Some a) hunk_n :: l)
      else
        let '(r', i', j', l) := ed_text change old old_end hunk_n r (i + 1) j hunk in
        (r', i', j', changed None (Some (old - r + i + 1)) (Some a) hunk_n :: l)
  end.

Fixpoint ed_hunk (hunk_n r i j : Z) (hunk : list string) : Z * Z * list Change :=
  match hunk with
  | [] => (r, i, [])
  | a :: hunk =>
      match re_match ed_hunk_start a with
      | None => ed_hunk hunk_n r i j hunk
      | Some o =>
          let old := int_of (group_str 1 o) in
          let s := group_str 2 o in
          let old_end := if String.eqb s "" then old else int_of s in
          let kind := group_str 3 o in
          if String.eqb kind "d" then
            let removes := ed_removes old old_end hunk_n in
            let '(r, i, l) := ed_hunk hunk_n (r + py_len removes) i j hunk in (r, i, removes ++ l)
          else
            let '(r, i, _, l) := ed_text (String.eqb kind "c") old old_end hunk_n r i j hunk in (r, i, l)
      end
  end.
Fixpoint ed_hunks (r i : Z) (hunks : list (Z * list string)) : list Change :=
  match hunks with
  | [] => []
  | (hunk_n, hunk) :: hunks =>
      let '(r, i, l) := ed_hunk hunk_n r i 0 hunk in l ++ ed_hunks r i hunks
  end.
Definition parse_ed_diff (lines : list string) : option (list Change) :=
  nonempty_changes (ed_hunks 0 0 (enumerate (reverse (split_by_regex lines ed_hunk_start)))).

(** ** RCS *)

Fixpoint rcs_insert (old hunk_n j size : Z) (hunk : list string) : Z * list string * list Change :=
  match hunk with
  | a :: rest =>
      if 0 <? size then
        let '(j', rest, l) := rcs_insert old hunk_n (j + 1) (size - 1) rest in
        (j', rest, changed None (Some (old + j)) (Some a) hunk_n :: l)
      else (j, hunk, [])
  | [] => (j, [], [])
  end.

(** One hunk; the insertion consumes lines, so the rest of the hunk is given apart: after
    a command the lines that are left are skipped up to the next command. *)
Fixpoint rcs_hunk (fuel : nat) (hunk_n total j : Z) (hunk : list string) : Z * list Change :=
  match fuel, hunk with
  | S fuel, a :: hunk =>
      match re_match rcs_ed_hunk_start a with
      | None => rcs_hunk fuel hunk_n total j hunk
      | Some o =>
          let old := int_of (group_str 2 o) in
          let s := group_str 3 o in
          let size := if String.eqb s "" then 0 else int_of s in
          if String.eqb (group_str 1 o) "a" then
            let '(j, hunk, l) := rcs_insert (old + total + 1) hunk_n j size hunk in
            let '(t, k) := rcs_hunk fuel hunk_n (total + size) j hunk in (t, l ++ k)
          else
            let l := (λ i, changed (Some (old + j + i)) None None hunk_n) <$> seqZ 0 size in
            let '(t, k) := rcs_hunk fuel hunk_n (total - size) (j + Z.max 0 size) hunk in (t, l ++ k)
      end
  | _, _ => (total, [])
  end.
(** The length of the hunk is enough fuel. *)
Lemma rcs_insert_length old hunk_n j size hunk :
  (length (rcs_insert old hunk_n j size hunk).1.2 ≤ length hunk)%nat.
Proof.
  revert j size. induction hunk as [|a hunk IH]; intros j size; simpl; [lia|].
  destruct (0 <? size); simpl; [|lia]. specialize (IH (j + 1) (size - 1)).
  destruct (rcs_insert _ _ _ _ _) as [[j' rest] l]. simpl in *. lia.
Qed.
Lemma rcs_hunk_fuel f g hunk_n total j hunk :
  (length hunk ≤ f)%nat → (length hunk ≤ g)%nat →
  rcs_hunk f hunk_n total j hunk = rcs_hunk g hunk_n total j hunk.
Proof.
  revert g total j hunk. induction f as [|f IH]; intros g total j [|a hunk] Hf Hg; simpl in *;
    [by destruct g|lia|by destruct g|].
  destruct g as [|g]; [lia|]. simpl. destruct (re_match rcs_ed_hunk_start a) as [o|]; [|apply IH; lia].
  destruct (String.eqb (group_str 1 o) "a").
  - pose proof (rcs_insert_length (int_of (group_str 2 o) + total + 1) hunk_n j
      (if String.eqb (group_str 3 o) "" then 0 else int_of (group_str 3 o)) hunk).
    destruct (rcs_insert _ _ _ _ _) as [[j' rest] l]. simpl in *.
    rewrite (IH g) by lia. done.
  - rewrite (IH g) by lia. done.
Qed.

Fixpoint rcs_hunks (total : Z) (hunks : list (Z * list string)) : list Change :=
  match hunks with
  | [] => []
  | (hunk_n, hunk) :: hunks =>
      let '(total, l) := rcs_hunk (length hunk) hunk_n total 0 hunk in l ++ rcs_hunks total hunks
  end.
Definition parse_rcs_ed_diff (lines : list string) : option (list Change) :=
  nonempty_changes (rcs_hunks 0 (enumerate (split_by_regex lines rcs_ed_hunk_start))).

(** ** git's binary format *)

Definition b85_alphabet : list ascii :=
  String.list_ascii_of_string
    "0123456789ABCDEFGHIJKLMNOPQRSTUVWXYZabcdefghijklmnopqrstuvwxyz!#$%&()*+-;<=>?@^_`{|}~".
Definition b85_value (c : ascii) : option Z := py_index (Ascii.eqb c) b85_alphabet.

(** Four bytes, big-endian. *)
Definition pack_I (acc : Z) : option string :=
  let byte v := Ascii.ascii_of_N (Z.to_N (v mod 256)) in
  if 2 ^ 32 <=? acc then None
  else Some (String (byte (acc / 2 ^ 24)) (String (byte (acc / 2 ^ 16)) (String (byte (acc / 2 ^ 8))
               (String (byte acc) "")))).
(** The groups of five characters from position [i] on; [acc] and [n] are of the group read. *)
Fixpoint b85_groups (i n acc : Z) (s : string) : result string :=
  match s with
  | EmptyString => Ok ""
  | String c s =>
      match b85_value c with
      | None => Raise (ValueError ("bad base85 character at position " +:+ pretty (i + n)))
      | Some v =>
          let acc := acc * 85 + v in
          if n =? 4 then
            match pack_I acc with
            | None => Raise (ValueError ("base85 overflow in hunk starting at byte " +:+ pretty i))
            | Some t => let? r := b85_groups (i + 5) 0 0 s in Ok (t +:+ r)
            end
          else b85_groups i (n + 1) acc s
      end
  end.
(** [base64.b85decode] *)
Definition b85decode (s : string) : result string :=
  let padding := (- str_len s) mod 5 in
  let? r := b85_groups 0 0 0 (s +:+ str_join "" (replicate (Z.to_nat padding) "~")) in
  Ok (str_take (str_len r - padding) r).

Section binary.
Variable zlib_decompress : string → result string.

Record BinaryState := mkBinaryState {
  bs_cmd : bool;
  bs_index : bool;
  bs_new_size : Z;
  bs_new_encoded : string;
  bs_old_size : Z;
  bs_old_encoded : string;
}.

(** The decoded block of an empty line; its size is checked. *)
Definition decode_block (encoded : string) (size : Z) : result (option string) :=
  if String.eqb encoded "" then Ok None
  else
    let? decoded := b85decode encoded in
    let? data := zlib_decompress decoded in
    if size =? str_len data then Ok (Some data) else Raise AssertionError.

(** A line of a block that is being read: the size and text that follow, and the data if
    the block is complete. *)
Definition block_line (line encoded : string) (size : Z) : result (Z * string * option string) :=
  if re_test base85string line then
    if (6 <=? str_len line) && ((str_len line - 1) mod 5 =? 0)
    then Ok (size, encoded +:+ line_text line, None) else Raise AssertionError
  else if String.eqb line "" then
    let? data := decode_block encoded size in Ok (0, "", data)
  else Ok (0, "", None).

(** The second part of the loop's body: the removed file. *)
Definition binary_old (line : string) (b : BinaryState) : result (BinaryState * list Change) :=
  if bs_old_size b =? 0 then
    let size := match re_match git_binary_literal_start line with
                | Some m => int_of (group_str 1 m) | None => 0 end in
    let size := if re_test git_binary_delta_start line then 0 else size in
    Ok (mkBinaryState (bs_cmd b) (bs_index b) (bs_new_size b) (bs_new_encoded b) size
          (bs_old_encoded b), [])
  else
    let? r := block_line line (bs_old_encoded b) (bs_old_size b) in
    let '(size, encoded, data) := r in
    Ok (mkBinaryState (bs_cmd b) (bs_index b) (bs_new_size b) (bs_new_encoded b) size encoded,
        match data with
        | Some d => [mkChange (Some 0) None None (HunkData d)]
        | None => []
        end).

Definition binary_line (line : string) (b : BinaryState) : result (BinaryState * list Change) :=
  if negb (bs_cmd b) && re_test git_diffcmd_header line then
    Ok (mkBinaryState true (bs_index b) (bs_new_size b) (bs_new_encoded b) (bs_old_size b)
          (bs_old_encoded b), [])
  else if negb (bs_index b) && re_test git_header_index line then
    Ok (mkBinaryState (bs_cmd b) true (bs_new_size b) (bs_new_encoded b) (bs_old_size b)
          (bs_old_encoded b), [])
  else if bs_new_size b =? 0 then
    match re_match git_binary_literal_start line with
    | Some m => Ok (mkBinaryState (bs_cmd b) (bs_index b) (int_of (group_str 1 m)) (bs_new_encoded b)
                      (bs_old_size b) (bs_old_encoded b), [])
    | None => if re_test git_binary_delta_start line then Ok (b, []) else binary_old line b
    end
  else
    let? r := block_line line (bs_new_encoded b) (bs_new_size b) in
    let '(size, encoded, data) := r in
    let? k := binary_old line (mkBinaryState (bs_cmd b) (bs_index b) size encoded (bs_old_size b)
                                 (bs_old_encoded b)) in
    Ok (k.1, match data with
             | Some d => mkChange None (Some 0) (Some (Data d)) HunkNone :: k.2
             | None => k.2
             end).

Fixpoint binary_lines (lines : list string) (b : BinaryState) : result (list Change) :=
  match lines with
  | [] => Ok []
  | a :: lines =>
      let? r := binary_line a b in
      let? l := binary_lines lines r.1 in Ok (r.2 ++ l)
  end.
Definition parse_git_binary_diff (lines : list string) : result (option (list Change)) :=
  let? l := binary_lines lines (mkBinaryState false false 0 "" 0 "") in Ok (Some l).

(** ** Diffs and patches *)

Definition diff_parsers : list (regex * (list string → result (option (list Change)))) :=
  [(unified_hunk_start, λ l, Ok (parse_unified_diff l));
   (context_hunk_start, parse_context_diff);
   (default_hunk_start, λ l, Ok (parse_default_diff l));
   (ed_hunk_start, λ l, Ok (parse_ed_diff l));
   (rcs_ed_hunk_start, λ l, Ok (parse_rcs_ed_diff l));
   (git_binary_patch_start, parse_git_binary_diff)].
Definition parse_diff (lines : list string) : result (option (list Change)) :=
  match py_find (λ c, negb (bool_decide (findall_regex lines c.1 = []))) diff_parsers with
  | Some (_, parser) => parser lines
  | None => Ok None
  end.

(** The parts of a patch: the lines split at the first mark that appears. *)
Definition patch_marks : list regex :=
  [unified_header_index; diffcmd_header; cvs_header_rcs; git_header_index;
   context_header_old_line; unified_header_old_line].
Fixpoint split_patch (lines : list string) (marks : list regex) (parts : list (list string)) :
    list (list string) :=
  match marks with
  | [] => parts
  | r :: marks =>
      let parts := split_by_regex lines r in
      if 1 <? py_len parts then parts else split_patch lines marks parts
  end.

(** One part; [h or d]: an empty list of changes counts as none. *)
Definition parse_part (part : list string) : result (option DiffObj) :=
  let text := str_join nl part +:+ nl in
  let '(rest, h) := parse_header part in
  let? h := h in
  let? d := parse_diff rest in
  Ok (match h, d with
      | None, (None | Some []) => None
      | _, _ => Some (mkDiffObj h d text)
      end).

(** [parse_patch] is a generator: what it yields, up to an exception. *)
Fixpoint parse_parts (parts : list (list string)) : list (result DiffObj) :=
  match parts with
  | [] => []
  | p :: parts =>
      match parse_part p with
      | Raise e => [Raise e]
      | Ok (Some d) => Ok d :: parse_parts parts
      | Ok None => parse_parts parts
      end
  end.
Definition first_line (x : string) : string :=
  match x with EmptyString => "" | _ => from_option id "" (head (splitlines x)) end.
Definition parse_patch (text : string) : list (result DiffObj) :=
  let lines := first_line <$> splitlines text in
  parse_parts (split_patch lines patch_marks []).
End binary.
