(* ===== verification/PatchApply.v ===== *)
(** * Applying patches

    Models [openhands/resolver/patching/apply.py] (without the [patch] program) and
    [apply_patch] of [openhands/resolver/send_pull_request.py].

    The file system is the map from paths to the bytes of the regular files; directories
    are not represented, and two paths name the same file when they are the same string.
    Parameters: [zlib.decompress], and which bytes decode as text. *)

From S2P Require Import Prelude Serialization EventStore Regex PatchParse PatchChanges.
Local Open Scope Z_scope.
Local Open Scope py_scope.

(** ** [apply_diff] *)

Definition dquote : string := String (Ascii.ascii_of_nat 34) "".
(** Changes that are checked carry a number. *)
Definition HunkApplyException (msg : string) (h : HunkRef) : py_exc :=
  OtherError "HunkApplyException" (match h with
    | HunkNumber n => msg +:+ ", in hunk #" +:+ pretty n
    | _ => msg
    end).

(** [_reverse] *)
Definition reverse_change (c : Change) : Change :=
  mkChange (ch_new c) (ch_old c) (ch_line c) (ch_hunk c).

(** [' '.join(s.split())] *)
Fixpoint words_go (acc : string) (s : string) : list string :=
  match s with
  | EmptyString => if String.eqb acc "" then [] else [String.rev acc]
  | String c s =>
      if is_py_space c
      then (if String.eqb acc "" then words_go "" s else String.rev acc :: words_go "" s)
      else words_go (String c acc) s
  end.
Definition normalize_space (s : string) : string := str_join " " (words_go "" s).

(** The context and the lines to be removed must be in the text, up to white space. *)
Definition check_change (lines : list string) (c : Change) : result unit :=
  match ch_old c, ch_line c with
  | Some old, Some (Text line) =>
      if py_len lines <? old then
        Raise (HunkApplyException ("context line " +:+ pretty old +:+ ", " +:+ dquote +:+ line
                 +:+ dquote +:+ " does not exist in source") (ch_hunk c))
      else
        match py_get lines (old - 1) with
        | None => Raise IndexError
        | Some source =>
            if String.eqb source line then Ok tt
            else if String.eqb (normalize_space line) (normalize_space source) then Ok tt
            else Raise (HunkApplyException ("context line " +:+ pretty old +:+ ", " +:+ dquote +:+ line
                 +:+ dquote +:+ " does not match " +:+ dquote +:+ source +:+ dquote) (ch_hunk c))
        end
  | Some _, Some (Data _) => Raise (Unmodelled "bytes")
  | _, _ => Ok tt
  end.
Fixpoint check_changes (lines : list string) (changes : list Change) : result unit :=
  match changes with
  | [] => Ok tt
  | c :: changes => let? _ := check_change lines c in check_changes lines changes
  end.

(** [del l[i]] *)
Definition py_del {A} (i : Z) (l : list A) : result (list A) :=
  let j := if i <? 0 then i + py_len l else i in
  if (j <? 0) || (py_len l <=? j) then Raise IndexError
  else Ok (take (Z.to_nat j) l ++ drop (Z.to_nat j + 1) l).

(** The second loop; [r] lines have been removed and [i] inserted. *)
Fixpoint apply_changes (r i : Z) (changes : list Change) (lines : list string) : result (list string) :=
  match changes with
  | [] => Ok lines
  | c :: changes =>
      match ch_old c, ch_new c with
      | Some old, None =>
          let? lines := py_del (old - 1 - r + i) lines in apply_changes (r + 1) i changes lines
      | None, Some new =>
          match ch_line c with
          | Some (Text line) => apply_changes r (i + 1) changes (py_insert (new - 1) line lines)
          | _ => Raise (Unmodelled "bytes")
          end
      | _, _ => apply_changes r i changes lines
      end
  end.

(** [apply_diff]; a diff without changes is not iterable. *)
Definition apply_diff (changes : option (list Change)) (lines : list string) (reversed : bool) :
    result (list string) :=
  match changes with
  | None => Raise (TypeError "'NoneType' object is not iterable")
  | Some changes =>
      let changes := if reversed then reverse_change <$> changes else changes in
      let? _ := check_changes lines changes in
      apply_changes 0 0 changes lines
  end.

(** ** Text files *)

(** The line endings of a file; [None] is left to Python. *)
Definition detect_newline (content : string) : option string :=
  if str_contains (String cr nl) content then Some (String cr nl)
  else if str_contains nl content then Some nl
  else None.

(** [f.readlines()]: lines end with [nl_], which they keep. *)
Fixpoint readlines_go (nl_ acc s : string) : list string :=
  match s with
  | EmptyString => if String.eqb acc "" then [] else [String.rev acc]
  | String c s' =>
      let acc := String c acc in
      if endswith (String.rev acc) nl_ then String.rev acc :: readlines_go nl_ "" s'
      else readlines_go nl_ acc s'
  end.
(** Universal newlines: every line break becomes a newline. *)
Fixpoint universal (s : string) : string :=
  match s with
  | EmptyString => ""
  | String c s' =>
      if Ascii.eqb c cr then
        String newline (match s' with
                        | String d s'' => if Ascii.eqb d newline then universal s'' else universal s'
                        | EmptyString => ""
                        end)
      else String c (universal s')
  end.
(** [s.strip(chars)] *)
Fixpoint lstrip_chars (chars s : string) : string :=
  match s with
  | EmptyString => ""
  | String c s' => if re_in chars c then lstrip_chars chars s' else s
  end.
Definition strip_chars (chars s : string) : string :=
  String.rev (lstrip_chars chars (String.rev (lstrip_chars chars s))).

Definition split_content (content : string) : list string :=
  match detect_newline content with
  | Some n => strip_chars n <$> readlines_go n "" content
  | None => str_strip <$> readlines_go nl "" (universal content)
  end.

(** Printing of the lines with the line ending of the file. *)
Fixpoint translate (n s : string) : string :=
  match s with
  | EmptyString => ""
  | String c s => if Ascii.eqb c newline then n +:+ translate n s else String c (translate n s)
  end.
Definition print_lines (n : option string) (lines : list string) : string :=
  str_join "" ((λ l, translate (from_option id nl n) (l +:+ nl)) <$> lines).

(** ** [apply_patch] *)

Section patch.
Variable zlib_decompress : string → result string.
Variable decodes : string → bool.

(** [s.removeprefix('a/').removeprefix('b/')] *)
Definition bare_path (path : string) : string := strip_side "b/" (strip_side "a/" path).
(** [os.path.join(repo_dir, path)] *)
Definition join_repo (repo_dir path : string) : string :=
  if startswith path "/" then path
  else if String.eqb repo_dir "" || endswith repo_dir "/" then repo_dir +:+ path
  else repo_dir +:+ "/" +:+ path.

Abbreviation files := (gmap string string).

(** One diff of the patch. *)
Definition apply_part (repo_dir : string) (diff : DiffObj) : pyM files unit := λ fs,
  match diff_header diff with
  | None => (fs, Raise (OtherError "AttributeError" "'NoneType' object has no attribute 'new_path'"))
  | Some h =>
      if String.eqb (new_path h) "" then (fs, Ok tt)
      else
        let old := if String.eqb (old_path h) "" || String.eqb (old_path h) "/dev/null" then None
                   else Some (join_repo repo_dir (bare_path (old_path h))) in
        let new := join_repo repo_dir (bare_path (new_path h)) in
        if String.eqb (new_path h) "/dev/null" then
          match old with
          | None => (fs, Raise AssertionError)
          | Some p => (delete p fs, Ok tt)
          end
        else
          match old, str_contains "rename from" (diff_text diff) with
          | Some p, true =>
              match fs !! p with
              | None => (fs, Raise FileNotFoundError)
              | Some content => (<[new := content]> (delete p fs), Ok tt)
              end
          | _, _ =>
              let source := match old with
                            | None => Ok (Some nl, [])
                            | Some p =>
                                match fs !! p with
                                | None => Raise FileNotFoundError
                                | Some c => Ok (detect_newline c, if decodes c then split_content c else [])
                                end
                            end in
              match source with
              | Raise e => (fs, Raise e)
              | Ok (n, lines) =>
                  match diff_changes diff with
                  | None => (fs, Ok tt)
                  | Some _ =>
                      match apply_diff (diff_changes diff) lines false with
                      | Raise e => (fs, Raise e)
                      | Ok lines => (<[new := print_lines n lines]> fs, Ok tt)
                      end
                  end
              end
          end
  end.

Fixpoint apply_parts (repo_dir : string) (diffs : list (result DiffObj)) : pyM files unit :=
  match diffs with
  | [] => pret tt
  | Raise e :: _ => praise e
  | Ok d :: diffs => apply_part repo_dir d ;;; apply_parts repo_dir diffs
  end.
Definition apply_patch (repo_dir patch : string) : pyM files unit :=
  apply_parts repo_dir (parse_patch zlib_decompress patch).
End patch.

(** * Properties of the application of patches

    An edit script is what a diff stands for: lines kept, removed and inserted, in hunks
    between which the lines are not shown.  The numbered changes of a script turn the old
    text into the new one, and reversed the new one into the old. *)
(** ** Edit scripts *)

Inductive Edit := Keep (s : string) | Del (s : string) | Ins (s : string).

Definition old_line (e : Edit) : list string := match e with Keep s | Del s => [s] | Ins _ => [] end.
Definition new_line (e : Edit) : list string := match e with Keep s | Ins s => [s] | Del _ => [] end.
Definition flip (e : Edit) : Edit := match e with Keep s => Keep s | Del s => Ins s | Ins s => Del s end.
Definition edit_text (e : Edit) : string := match e with Keep s | Del s | Ins s => s end.

(** A hunk with the lines before it that are not shown. *)
Definition Hunk : Type := list string * list Edit.
Definition old_hunk (h : Hunk) : list string := h.1 ++ (h.2 ≫= old_line).
Definition new_hunk (h : Hunk) : list string := h.1 ++ (h.2 ≫= new_line).
Definition flip_hunk (h : Hunk) : Hunk := (h.1, flip <$> h.2).

(** The texts a script leads from and to; [tail] are the lines after the last hunk. *)
Definition old_text (hs : list Hunk) (tail : list string) : list string := (hs ≫= old_hunk) ++ tail.
Definition new_text (hs : list Hunk) (tail : list string) : list string := (hs ≫= new_hunk) ++ tail.

(** The changes of the edits of a hunk that starts at line [o] of the old and line [n] of
    the new text. *)
Fixpoint edit_changes (o n hunk_n : Z) (es : list Edit) : list Change :=
  match es with
  | [] => []
  | Keep s :: es => changed (Some o) (Some n) (Some s) hunk_n :: edit_changes (o + 1) (n + 1) hunk_n es
  | Del s :: es => changed (Some o) None (Some s) hunk_n :: edit_changes (o + 1) n hunk_n es
  | Ins s :: es => changed None (Some n) (Some s) hunk_n :: edit_changes o (n + 1) hunk_n es
  end.
Fixpoint script_changes (o n hunk_n : Z) (hs : list Hunk) : list Change :=
  match hs with
  | [] => []
  | h :: hs =>
      edit_changes (o + py_len h.1) (n + py_len h.1) hunk_n h.2
      ++ script_changes (o + py_len (old_hunk h)) (n + py_len (new_hunk h)) (hunk_n + 1) hs
  end.

(** ** Reversal *)

Lemma flip_old e : old_line (flip e) = new_line e.
Proof. by destruct e. Qed.
Lemma flip_new e : new_line (flip e) = old_line e.
Proof. by destruct e. Qed.
Lemma flip_hunk_old h : old_hunk (flip_hunk h) = new_hunk h.
Proof.
  unfold old_hunk, new_hunk, flip_hunk. simpl. f_equal. induction h.2 as [|e es IH]; [done|].
  csimpl. by rewrite flip_old, IH.
Qed.
Lemma flip_hunk_new h : new_hunk (flip_hunk h) = old_hunk h.
Proof.
  unfold old_hunk, new_hunk, flip_hunk. simpl. f_equal. induction h.2 as [|e es IH]; [done|].
  csimpl. by rewrite flip_new, IH.
Qed.
Lemma flip_old_text hs tail : old_text (flip_hunk <$> hs) tail = new_text hs tail.
Proof.
  unfold old_text, new_text. f_equal. induction hs as [|h hs IH]; [done|]. csimpl.
  by rewrite flip_hunk_old, IH.
Qed.
Lemma flip_new_text hs tail : new_text (flip_hunk <$> hs) tail = old_text hs tail.
Proof.
  unfold old_text, new_text. f_equal. induction hs as [|h hs IH]; [done|]. csimpl.
  by rewrite flip_hunk_new, IH.
Qed.

Lemma reverse_edit_changes o n k es :
  reverse_change <$> edit_changes o n k es = edit_changes n o k (flip <$> es).
Proof. revert o n. induction es as [|[] es IH]; intros o n; csimpl; [done|by rewrite IH..]. Qed.
Lemma reverse_script_changes o n k hs :
  reverse_change <$> script_changes o n k hs = script_changes n o k (flip_hunk <$> hs).
Proof.
  revert o n k. induction hs as [|h hs IH]; intros o n k; csimpl; [done|].
  rewrite fmap_app, reverse_edit_changes, IH. by rewrite flip_hunk_old, flip_hunk_new.
Qed.

(** ** Application *)

Lemma py_len_app {A} (l k : list A) : py_len (l ++ k) = py_len l + py_len k.
Proof. unfold py_len. rewrite length_app. lia. Qed.
Lemma py_len_cons {A} (x : A) l : py_len (x :: l) = 1 + py_len l.
Proof. unfold py_len. simpl. lia. Qed.
Lemma py_len_nonneg {A} (l : list A) : 0 ≤ py_len l.
Proof. unfold py_len. lia. Qed.

Lemma py_get_middle {A} (pre : list A) x post i : i = py_len pre → py_get (pre ++ x :: post) i = Some x.
Proof.
  intros ->. unfold py_get. pose proof (py_len_nonneg pre).
  rewrite !(proj2 (Z.ltb_ge (py_len pre) 0)) by done. unfold py_len. rewrite Nat2Z.id.
  by apply list_lookup_middle.
Qed.
Lemma py_del_middle {A} (pre : list A) x post i : i = py_len pre → py_del i (pre ++ x :: post) = Ok (pre ++ post).
Proof.
  intros ->. unfold py_del. pose proof (py_len_nonneg pre). pose proof (py_len_nonneg post).
  rewrite (proj2 (Z.ltb_ge (py_len pre) 0)) by done.
  rewrite (proj2 (Z.ltb_ge (py_len pre) 0)) by done. rewrite py_len_app, py_len_cons.
  rewrite (proj2 (Z.leb_gt _ _)) by lia. simpl. unfold py_len. rewrite Nat2Z.id.
  rewrite take_app_length. f_equal. f_equal. rewrite drop_app_ge by lia.
  by replace (length pre + 1 - length pre)%nat with 1%nat by lia.
Qed.
Lemma py_insert_middle {A} (pre : list A) x post i : i = py_len pre → py_insert i x (pre ++ post) = pre ++ x :: post.
Proof.
  intros ->. unfold py_insert, py_clamp. pose proof (py_len_nonneg pre). pose proof (py_len_nonneg post).
  rewrite (proj2 (Z.ltb_ge (py_len pre) 0)) by done. rewrite py_len_app.
  rewrite Z.min_l by lia. unfold py_len. rewrite Nat2Z.id.
  by rewrite take_app_length, drop_app_length.
Qed.

(** The edits turn the part of the text between [pre], which is new already, and [post];
    [r] and [i] relate the numberings. *)
Lemma apply_edits es o n k r i pre post rest :
  n - 1 = py_len pre → o - 1 - r + i = py_len pre →
  ∃ r' i', apply_changes r i (edit_changes o n k es ++ rest) (pre ++ (es ≫= old_line) ++ post)
           = apply_changes r' i' rest ((pre ++ (es ≫= new_line)) ++ post)
         ∧ o + py_len (es ≫= old_line) - 1 - r' + i' = py_len (pre ++ (es ≫= new_line)).
Proof.
  revert o n r i pre. induction es as [|e es IH]; intros o n r i pre Hn Ho.
  { exists r, i. rewrite app_nil_r. simpl. split; [done|]. unfold py_len at 1. simpl. lia. }
  destruct e as [s|s|s]; csimpl.
  - destruct (IH (o + 1) (n + 1) r i (pre ++ [s])) as (r'&i'&IH1&IH2);
      [rewrite py_len_app; unfold py_len at 2; simpl; lia..|].
    exists r', i'. rewrite <- !app_assoc in IH1. simpl in IH1. rewrite IH1. split; [by rewrite <- !app_assoc|].
    rewrite py_len_cons. rewrite <- app_assoc in IH2. simpl in IH2. rewrite <- IH2. lia.
  - rewrite py_del_middle by lia. simpl.
    destruct (IH (o + 1) n (r + 1) i pre) as (r'&i'&IH1&IH2); [lia..|].
    exists r', i'. rewrite IH1. split; [done|]. rewrite py_len_cons. lia.
  - rewrite py_insert_middle by lia.
    destruct (IH o (n + 1) r (i + 1) (pre ++ [s])) as (r'&i'&IH1&IH2);
      [rewrite py_len_app; unfold py_len at 2; simpl; lia..|].
    exists r', i'. rewrite <- !app_assoc in IH1. simpl in IH1. rewrite IH1. split; [by rewrite <- !app_assoc|].
    rewrite <- app_assoc in IH2. simpl in IH2. by rewrite <- IH2.
Qed.

Lemma apply_script hs o n k r i pre tail :
  n - 1 = py_len pre → o - 1 - r + i = py_len pre →
  apply_changes r i (script_changes o n k hs) (pre ++ old_text hs tail) = Ok (pre ++ new_text hs tail).
Proof.
  revert o n k r i pre. induction hs as [|h hs IH]; intros o n k r i pre Hn Ho; [done|].
  unfold old_text, new_text. csimpl. unfold old_hunk at 2, new_hunk at 2. rewrite <- !app_assoc.
  destruct (apply_edits h.2 (o + py_len h.1) (n + py_len h.1) k r i (pre ++ h.1)
              ((hs ≫= old_hunk) ++ tail)
              (script_changes (o + py_len (old_hunk h)) (n + py_len (new_hunk h)) (k + 1) hs))
    as (r'&i'&E&Hr); [rewrite py_len_app; lia..|].
  rewrite <- !app_assoc in E. rewrite E. clear E.
  replace (pre ++ h.1 ++ (h.2 ≫= new_line) ++ (hs ≫= old_hunk) ++ tail)
    with ((pre ++ new_hunk h) ++ old_text hs tail)
    by (unfold new_hunk, old_text; by rewrite <- !app_assoc).
  rewrite IH.
  - f_equal. unfold new_hunk at 1, new_text. by rewrite <- !app_assoc.
  - rewrite py_len_app. lia.
  - unfold new_hunk, old_hunk. rewrite !py_len_app in *. lia.
Qed.

(** The text a change is checked against is the old one. *)
Lemma check_edits es o n k pre post :
  o - 1 = py_len pre → check_changes (pre ++ (es ≫= old_line) ++ post) (edit_changes o n k es) = Ok tt.
Proof.
  revert o n pre. induction es as [|e es IH]; intros o n pre Ho; [done|].
  destruct e as [s|s|s]; csimpl; [| |by apply IH].
  all: unfold check_change; simpl; rewrite (proj2 (Z.ltb_ge _ _))
    by (rewrite !py_len_app, py_len_cons; pose proof (py_len_nonneg (es ≫= old_line));
        rewrite py_len_app; pose proof (py_len_nonneg post); lia).
  all: rewrite py_get_middle by done; rewrite String.eqb_refl; simpl.
  all: specialize (IH (o + 1)); rewrite (cons_middle s pre), app_assoc; apply IH.
  all: rewrite py_len_app; unfold py_len at 2; simpl; lia.
Qed.
Lemma check_changes_app lines l k :
  check_changes lines (l ++ k) = let? _ := check_changes lines l in check_changes lines k.
Proof. induction l as [|c l IH]; [done|]. simpl. destruct (check_change lines c); [|done]. by rewrite IH. Qed.
Lemma check_script hs o n k pre tail :
  o - 1 = py_len pre → check_changes (pre ++ old_text hs tail) (script_changes o n k hs) = Ok tt.
Proof.
  revert o n k pre. induction hs as [|h hs IH]; intros o n k pre Ho; [done|].
  simpl. rewrite check_changes_app. unfold old_text. csimpl.
  replace (pre ++ (old_hunk h ++ (hs ≫= old_hunk)) ++ tail)
    with ((pre ++ h.1) ++ (h.2 ≫= old_line) ++ ((hs ≫= old_hunk) ++ tail))
    by (unfold old_hunk at 2; by rewrite <- !app_assoc).
  rewrite check_edits by (rewrite py_len_app; lia). simpl.
  replace ((pre ++ h.1) ++ (h.2 ≫= old_line) ++ ((hs ≫= old_hunk) ++ tail))
    with ((pre ++ old_hunk h) ++ old_text hs tail)
    by (unfold old_hunk at 1, old_text; by rewrite <- !app_assoc).
  apply IH. rewrite py_len_app. lia.
Qed.

Lemma script_forward hs tail k :
  apply_diff (Some (script_changes 1 1 k hs)) (old_text hs tail) false = Ok (new_text hs tail).
Proof.
  unfold apply_diff. change (old_text hs tail) with ([] ++ old_text hs tail).
  rewrite check_script by done. cbn [rbind]. by rewrite apply_script.
Qed.
Lemma script_backward hs tail k :
  apply_diff (Some (script_changes 1 1 k hs)) (new_text hs tail) true = Ok (old_text hs tail).
Proof.
  pose proof (script_forward (flip_hunk <$> hs) tail k) as Hf.
  rewrite flip_old_text, flip_new_text in Hf. rewrite <- reverse_script_changes in Hf. exact Hf.
Qed.
