(* ===== verification/PatchRoundtrip.v ===== *)
(** * Printed patches are read back

    Edit scripts printed as unified diffs, with the headers of git, are read back as the
    changes of the script; [apply_patch] on such a patch turns the old files of a
    repository into the new ones. *)

From S2P Require Import Prelude EventStore Regex PatchParse PatchChanges.
From S2P Require Import PatchApply.
Local Open Scope Z_scope.
Local Open Scope py_scope.

(** ** Printing *)

Definition print_edit (e : Edit) : string :=
  match e with Keep s => String " " s | Del s => String "-" s | Ins s => String "+" s end.

(** The range of an empty part names the line before it. *)
Definition range_start (start len : Z) : Z := if len =? 0 then start - 1 else start.
Definition hunk_header (o ol n nl : Z) : string :=
  "@@ -" +:+ pretty (range_start o ol) +:+ "," +:+ pretty ol
  +:+ " +" +:+ pretty (range_start n nl) +:+ "," +:+ pretty nl +:+ " @@".

Fixpoint print_script (o n : Z) (hs : list Hunk) : list (list string) :=
  match hs with
  | [] => []
  | h :: hs =>
      (hunk_header (o + py_len h.1) (py_len (h.2 ≫= old_line)) (n + py_len h.1)
         (py_len (h.2 ≫= new_line)) :: (print_edit <$> h.2))
      :: print_script (o + py_len (old_hunk h)) (n + py_len (new_hunk h)) hs
  end.

(** ** Matching of headers *)

Lemma digit_re c : is_digit c = true → re_digit c = true.
Proof. destruct c as [[] [] [] [] [] [] [] []]; done. Qed.
Lemma pretty_re z : 0 ≤ z → all_chars re_digit (pretty z) = true.
Proof. intros Hz. apply (all_chars_impl is_digit); [apply digit_re|by apply pretty_digits]. Qed.
Lemma pretty_length z : 0 ≤ z → (1 ≤ String.length (pretty z))%nat.
Proof.
  intros Hz. destruct (pretty z) eqn:E; [|simpl; lia].
  pose proof (parse_pretty z Hz) as Hp. by rewrite E in Hp.
Qed.
Lemma pretty_nonempty z : 0 ≤ z → String.eqb (pretty z) "" = false.
Proof. intros Hz. pose proof (pretty_length z Hz). by destruct (pretty z); [simpl in *; lia|]. Qed.
Lemma int_of_pretty z : 0 ≤ z → int_of (pretty z) = z.
Proof. intros Hz. unfold int_of. by rewrite py_int_pretty. Qed.

Section matching.
Context {R : Type}.
Implicit Type k : string → groups → option R.

Lemma match_group_rep n p min a s k g x :
  all_chars p a = true → stops p s = true → (min ≤ String.length a)%nat →
  k s ((n, a) :: g) = Some x → rmatch (RGroup n (RRep true min None p)) k (a +:+ s) g = Some x.
Proof.
  intros Ha Hs Hm Hk. cbn [rmatch]. apply match_rep_greedy; [done..|]. by rewrite consumed_app.
Qed.
Lemma match_lit t r s k g x :
  rmatch r k s g = Some x → rmatch (RSeq (RStr t) r) k (t +:+ s) g = Some x.
Proof. intros Hr. cbn [rmatch]. by rewrite match_str_app. Qed.
Lemma match_range n r a b s k g x :
  0 ≤ a → 0 ≤ b → stops re_digit s = true → rmatch r k s ((S n, pretty b) :: (n, pretty a) :: g) = Some x →
  rmatch (RSeq (range n) r) k (pretty a +:+ "," +:+ pretty b +:+ s) g = Some x.
Proof.
  intros Ha Hb Hs Hr. change (rmatch (RSeq (range n) r) k) with (rmatch (range n) (rmatch r k)).
  change (rmatch (range n)) with (@rmatch R (RSeq (RGroup n (re_plus re_digit)) (RSeq comma_opt
    (RGroup (S n) (re_star re_digit))))).
  cbn [rmatch]. apply match_rep_greedy; [by apply pretty_re|done|by apply pretty_length|].
  rewrite consumed_app. apply (match_opt_take (re_in ",") "," (pretty b +:+ s)); [done|].
  apply match_rep_greedy; [by apply pretty_re|done|simpl; lia|]. by rewrite consumed_app.
Qed.
End matching.

Lemma range_start_nonneg s l : 1 ≤ s → 0 ≤ range_start s l.
Proof. unfold range_start. destruct (l =? 0); lia. Qed.

Lemma hunk_header_match o ol n nl :
  1 ≤ o → 0 ≤ ol → 1 ≤ n → 0 ≤ nl →
  re_match unified_hunk_start (hunk_header o ol n nl)
  = Some [(5%nat, ""); (4%nat, pretty nl); (3%nat, pretty (range_start n nl)); (2%nat, pretty ol);
          (1%nat, pretty (range_start o ol))].
Proof.
  intros Ho Hol Hn Hnl. pose proof (range_start_nonneg o ol Ho). pose proof (range_start_nonneg n nl Hn).
  unfold re_match, unified_hunk_start, hunk_header.
  apply match_lit, match_range; [done..|]. apply match_lit, match_range; [done..|].
  reflexivity.
Qed.

Lemma print_edit_no_hunk e : re_match unified_hunk_start (print_edit e) = None.
Proof. by destruct e. Qed.

(** ** Splitting *)

(** A part starts with the only line of it that matches. *)
Definition starts_part (r : regex) (p : list string) : Prop :=
  ∃ x l, p = x :: l ∧ re_test r x = true ∧ Forall (λ y, re_test r y = false) l.

Lemma enumerate_from_app {A} i (l k : list A) :
  enumerate_from i (l ++ k) = enumerate_from i l ++ enumerate_from (i + py_len l) k.
Proof.
  revert i. induction l as [|x l IH]; intros i; [by rewrite Z.add_0_r|]. simpl. rewrite IH.
  rewrite py_len_cons. do 3 f_equal. lia.
Qed.

Definition found_from (r : regex) (i : Z) (items : list string) : list Z :=
  enumerate_from i items ≫= λ '(i, x), if re_test r x then [i] else [].
Lemma found_from_app r i l k : found_from r i (l ++ k) = found_from r i l ++ found_from r (i + py_len l) k.
Proof. unfold found_from. by rewrite enumerate_from_app, bind_app. Qed.
Lemma found_from_cons r i x l :
  found_from r i (x :: l) = (if re_test r x then [i] else []) ++ found_from r (i + 1) l.
Proof. done. Qed.
Lemma found_from_none r i l : Forall (λ y, re_test r y = false) l → found_from r i l = [].
Proof.
  intros Hl. revert i. induction Hl as [|x l Hx _ IH]; intros i; [done|].
  by rewrite found_from_cons, Hx, IH.
Qed.

Fixpoint part_starts {A} (k : Z) (ps : list (list A)) : list Z :=
  match ps with [] => [] | p :: ps => k :: part_starts (k + py_len p) ps end.
Lemma found_parts r i ps : Forall (starts_part r) ps → found_from r i (concat ps) = part_starts i ps.
Proof.
  intros Hp. revert i. induction Hp as [|p ps (x&l&->&Hx&Hl) _ IH]; intros i; [done|].
  simpl. rewrite found_from_cons, Hx. simpl. f_equal.
  rewrite found_from_app, found_from_none, IH by done. rewrite py_len_cons. simpl. f_equal. lia.
Qed.

Lemma slice_middle {A} (pre p post : list A) a b :
  a = py_len pre → b = py_len pre + py_len p → py_slice (Some a) (Some b) (pre ++ p ++ post) = p.
Proof.
  intros -> ->. unfold py_len. rewrite <- Nat2Z.inj_add, py_slice_take_drop by len_lia.
  rewrite drop_app_length. rewrite take_app_le by lia. apply take_ge. lia.
Qed.
Lemma between_parts {A} (pre : list A) ps : between (pre ++ concat ps) (part_starts (py_len pre) ps) = ps.
Proof.
  revert pre. induction ps as [|p ps IH]; intros pre; [done|]. simpl.
  specialize (IH (pre ++ p)). rewrite py_len_app, <- app_assoc in IH.
  destruct ps as [|q ps]; cbn [part_starts] in *.
  - f_equal. simpl. rewrite app_nil_r. apply py_slice_from_app.
  - rewrite IH. f_equal. by apply slice_middle.
Qed.

Lemma split_parts r pre ps :
  Forall (λ y, re_test r y = false) pre → Forall (starts_part r) ps →
  split_by_regex (pre ++ concat ps) r = pre :: ps.
Proof.
  intros Hpre Hps. unfold split_by_regex.
  change (findall_regex (pre ++ concat ps) r) with (found_from r 0 (pre ++ concat ps)).
  rewrite found_from_app, found_from_none, found_parts, app_nil_l, Z.add_0_l by done.
  pose proof (between_parts pre ps) as Hb. destruct ps as [|p ps]; [by rewrite app_nil_r|].
  cbn [part_starts] in *. rewrite Hb. f_equal. by apply (slice_middle [] pre).
Qed.

Lemma findall_none items r : findall_regex items r = [] ↔ Forall (λ y, re_test r y = false) items.
Proof.
  change (findall_regex items r) with (found_from r 0 items). generalize 0. split.
  - revert z. induction items as [|x l IH]; intros z; [done|]. rewrite found_from_cons.
    destruct (re_test r x) eqn:Hx; [done|]. simpl. intros Hl. constructor; [done|by apply (IH (z + 1))].
  - apply found_from_none.
Qed.
Lemma findall_some items r x : x ∈ items → re_test r x = true → findall_regex items r ≠ [].
Proof. rewrite findall_none, Forall_forall. intros Hx Ht Hf. apply Hf in Hx. congruence. Qed.

(** ** Changes *)

Lemma unified_edits h hunk_n r i es :
  0 ≤ r → 0 ≤ i →
  (hr_old_len h = r + py_len (es ≫= old_line)) → (hr_new_len h = i + py_len (es ≫= new_line)) →
  ∀ o n, ((es ≫= old_line) ≠ [] → o = hr_old h + r) → ((es ≫= new_line) ≠ [] → n = hr_new h + i) →
  unified_lines h hunk_n r i (print_edit <$> es) = edit_changes o n hunk_n es.
Proof.
  intros Hr Hi Ho Hn o n Eo En. revert r i Hr Hi Ho Hn o n Eo En.
  induction es as [|[s|s|s] es IH]; intros r i Hr Hi Ho Hn o n Eo En; csimpl in *; [done|..].
  - rewrite (Eo ltac:(done)), (En ltac:(done)). f_equal. rewrite !py_len_cons in *.
    apply IH; lia.
  - rewrite py_len_cons in Ho. pose proof (py_len_nonneg (es ≫= old_line)).
    rewrite (proj2 (Z.eqb_neq r (hr_old_len h))) by lia. simpl.
    rewrite (Eo ltac:(done)). f_equal. apply IH; try lia. intros He. by apply En.
  - rewrite py_len_cons in Hn. pose proof (py_len_nonneg (es ≫= new_line)).
    rewrite (proj2 (Z.eqb_neq i (hr_new_len h))) by lia. simpl.
    rewrite (En ltac:(done)). f_equal. apply IH; try lia. intros He. by apply Eo.
Qed.

Lemma range_start_of {A} s (l : list A) : l ≠ [] → range_start s (py_len l) = s.
Proof. intros Hl. unfold range_start. destruct l; [done|]. by rewrite (proj2 (Z.eqb_neq _ 0)) by len_lia. Qed.

Lemma unified_print h0 o n k hs :
  1 ≤ o → 1 ≤ n →
  unified_hunks h0 (enumerate_from k (print_script o n hs)) = script_changes o n k hs.
Proof.
  revert h0 o n k. induction hs as [|h hs IH]; intros h0 o n k Ho Hn; [done|].
  cbn [print_script enumerate_from unified_hunks unified_start].
  pose proof (py_len_nonneg h.1). pose proof (py_len_nonneg (h.2 ≫= old_line)).
  pose proof (py_len_nonneg (h.2 ≫= new_line)).
  rewrite hunk_header_match by lia. cbn [group_str group Nat.eqb from_option id].
  rewrite !int_of_pretty by (try apply range_start_nonneg; lia).
  rewrite !pretty_nonempty by done. simpl. f_equal.
  - apply unified_edits; try done.
    + intros He. simpl. rewrite range_start_of by done. lia.
    + intros He. simpl. rewrite range_start_of by done. lia.
  - apply IH; pose proof (py_len_nonneg (old_hunk h)); pose proof (py_len_nonneg (new_hunk h)); lia.
Qed.

Lemma print_script_parts o n hs :
  1 ≤ o → 1 ≤ n → Forall (starts_part unified_hunk_start) (print_script o n hs).
Proof.
  revert o n. induction hs as [|h hs IH]; intros o n Ho Hn; simpl; [constructor|].
  pose proof (py_len_nonneg h.1). pose proof (py_len_nonneg (old_hunk h)).
  pose proof (py_len_nonneg (new_hunk h)).
  constructor; [|apply IH; lia]. eexists _, _. split; [done|].
  split; [unfold re_test; by rewrite hunk_header_match by (try apply py_len_nonneg; lia)|].
  apply Forall_fmap, Forall_true. intros e. unfold re_test. simpl. by rewrite print_edit_no_hunk.
Qed.

(** Scripts with an edit in some hunk. *)
Lemma script_changes_nonempty o n k hs :
  (∃ h, h ∈ hs ∧ h.2 ≠ []) → nonempty_changes (script_changes o n k hs) = Some (script_changes o n k hs).
Proof.
  intros (h & Hh & He). assert (script_changes o n k hs ≠ []) as Hne; [|by destruct (script_changes o n k hs)].
  revert o n k. induction Hh as [h hs|h h' hs _ IH]; intros o n k; simpl.
  - destruct h.2 as [|[] es]; done.
  - intros [_ Hn]%app_eq_nil. by eapply IH.
Qed.

(** A printed script is read back, whatever stands before it. *)
Lemma parse_unified_print pre hs :
  Forall (λ y, re_test unified_hunk_start y = false) pre → (∃ h, h ∈ hs ∧ h.2 ≠ []) →
  parse_unified_diff (pre ++ concat (print_script 1 1 hs)) = Some (script_changes 1 1 1 hs).
Proof.
  intros Hpre Hhs. unfold parse_unified_diff. rewrite split_parts by (done || by apply print_script_parts).
  unfold enumerate. cbn [enumerate_from unified_hunks].
  assert (Hs : ∀ h, unified_start pre h = (h, [])).
  { intros h. induction Hpre as [|x pre Hx _ IH]; [done|]. simpl. unfold re_test in Hx.
    by destruct (re_match unified_hunk_start x). }
  rewrite Hs. cbn [unified_lines app]. rewrite unified_print by done.
  by apply script_changes_nonempty.
Qed.

Lemma script_found pre hs :
  (∃ h, h ∈ hs ∧ h.2 ≠ []) →
  findall_regex (pre ++ concat (print_script 1 1 hs)) unified_hunk_start ≠ [].
Proof.
  intros (h & Hin & _). destruct hs as [|h0 hs]; [by apply not_elem_of_nil in Hin|].
  apply (findall_some _ _ (hunk_header (1 + py_len h0.1) (py_len (h0.2 ≫= old_line))
                             (1 + py_len h0.1) (py_len (h0.2 ≫= new_line)))).
  - apply elem_of_app. right. by left.
  - pose proof (py_len_nonneg h0.1). unfold re_test.
    by rewrite hunk_header_match by (try apply py_len_nonneg; lia).
Qed.

(** ** Patches of git *)

Inductive GitKind := Modified | Created | Deleted.
Record GitDiff := mkGitDiff {
  gd_path : string;
  gd_kind : GitKind;
  gd_versions : string * string;
  gd_hunks : list Hunk;
  gd_tail : list string;
}.
Definition gd_old_name (d : GitDiff) : string :=
  match gd_kind d with Created => "/dev/null" | _ => "a/" +:+ gd_path d end.
Definition gd_new_name (d : GitDiff) : string :=
  match gd_kind d with Deleted => "/dev/null" | _ => "b/" +:+ gd_path d end.
Definition cmd_line (d : GitDiff) : string :=
  "diff --git a/" +:+ gd_path d +:+ " b/" +:+ gd_path d.
Definition mode_lines (d : GitDiff) : list string :=
  match gd_kind d with
  | Modified => []
  | Created => ["new file mode 100644"]
  | Deleted => ["deleted file mode 100644"]
  end.
Definition index_line (d : GitDiff) : string :=
  "index " +:+ (gd_versions d).1 +:+ ".." +:+ (gd_versions d).2
  +:+ match gd_kind d with Modified => " 100644" | _ => "" end.
Definition git_head (d : GitDiff) : list string :=
  mode_lines d ++ [index_line d; "--- " +:+ gd_old_name d; "+++ " +:+ gd_new_name d].
Definition git_lines (d : GitDiff) : list string :=
  cmd_line d :: git_head d ++ concat (print_script 1 1 (gd_hunks d)).

Definition no_break (s : string) : bool := all_chars (λ c, negb (is_linebreak c)) s.

(** A path relative to the repository, which does not look like one of a side. *)
Definition path_ok (p : string) : Prop :=
  p ≠ "" ∧ no_break p = true ∧ strip_side "a/" p = p ∧ strip_side "b/" p = p ∧ startswith p "/" = false.
Definition version_ok (v : string) : Prop := v ≠ "" ∧ all_chars re_hex v = true.
Record git_ok (d : GitDiff) : Prop := {
  ok_path : path_ok (gd_path d);
  ok_old : version_ok (gd_versions d).1;
  ok_new : version_ok (gd_versions d).2;
  ok_edit : ∃ h, h ∈ gd_hunks d ∧ h.2 ≠ [];
  ok_lines : Forall (λ h : Hunk, Forall (λ e, no_break (edit_text e) = true) h.2) (gd_hunks d);
  ok_created : gd_kind d = Created → old_text (gd_hunks d) (gd_tail d) = [];
  ok_deleted : gd_kind d = Deleted → new_text (gd_hunks d) (gd_tail d) = [];
}.

Lemma no_break_dot s : no_break s = true → all_chars re_dot s = true.
Proof. apply all_chars_impl. intros c. by destruct c as [[] [] [] [] [] [] [] []]. Qed.
Lemma nonempty_length s : s ≠ "" → (1 ≤ String.length s)%nat.
Proof. destruct s; [done|]. simpl. lia. Qed.

Lemma cmd_line_diffcmd d : path_ok (gd_path d) → re_test diffcmd_header (cmd_line d) = true.
Proof.
  intros (Hne & Hb & _). apply no_break_dot in Hb. apply nonempty_length in Hne.
  assert (is_Some (re_match diffcmd_header (cmd_line d))) as [g Hg]; [|unfold re_test; by rewrite Hg].
  unfold re_match, cmd_line, diffcmd_header. cbn [rmatch re_star re_plus].
  replace ("diff --git a/" +:+ gd_path d +:+ " b/" +:+ gd_path d)
    with ("diff" +:+ " --git" +:+ " " +:+ ("a/" +:+ gd_path d) +:+ " " +:+ ("b/" +:+ gd_path d) +:+ "")
    by (by rewrite !append_empty_r, <- !append_assoc).
  rewrite match_str_app. apply match_rep_some; [done|simpl; lia|]. rewrite match_str_app.
  apply match_rep_some; [|rewrite length_append; simpl; lia|].
  { by rewrite all_chars_append, Hb. }
  rewrite match_str_app. apply match_rep_some; [|rewrite length_append; simpl; lia|done].
  by rewrite all_chars_append, Hb.
Qed.

(** What holds of every form of line holds of the lines of a diff. *)
Lemma git_head_forall (P : string → Prop) d :
  P "new file mode 100644" → P "deleted file mode 100644" → (∀ s, P ("index " +:+ s)) →
  (∀ s, P ("--- " +:+ s)) → (∀ s, P ("+++ " +:+ s)) → Forall P (git_head d).
Proof.
  intros H1 H2 Hi Ho Hn. unfold git_head, mode_lines. apply Forall_app.
  split; [by destruct (gd_kind d); repeat constructor|].
  apply Forall_cons. split; [apply Hi|]. apply Forall_cons. split; [apply Ho|].
  apply Forall_cons. split; [apply Hn|constructor].
Qed.
Lemma script_forall (P : string → Prop) o n hs :
  (∀ s, P ("@@ -" +:+ s)) → (∀ e, P (print_edit e)) → Forall P (concat (print_script o n hs)).
Proof.
  intros Hh He. revert o n. induction hs as [|h hs IH]; intros o n; simpl; [constructor|].
  constructor; [apply Hh|]. apply Forall_app. split; [|apply IH].
  apply Forall_fmap, Forall_true. intros e. apply He.
Qed.
Lemma git_tail_forall (P : string → Prop) d :
  P "new file mode 100644" → P "deleted file mode 100644" → (∀ s, P ("index " +:+ s)) →
  (∀ s, P ("--- " +:+ s)) → (∀ s, P ("+++ " +:+ s)) → (∀ s, P ("@@ -" +:+ s)) →
  (∀ e, P (print_edit e)) → Forall P (git_head d ++ concat (print_script 1 1 (gd_hunks d))).
Proof. intros. apply Forall_app. split; [by apply git_head_forall|by apply script_forall]. Qed.

Lemma git_part_starts d : path_ok (gd_path d) → starts_part diffcmd_header (git_lines d).
Proof.
  intros Hp. eexists _, _. split; [done|]. split; [by apply cmd_line_diffcmd|].
  apply git_tail_forall; try done. by intros [].
Qed.

Lemma index_line_match d :
  version_ok (gd_versions d).1 → version_ok (gd_versions d).2 →
  ∃ m, re_match git_header_index (index_line d)
       = Some [(3%nat, m); (2%nat, (gd_versions d).2); (1%nat, (gd_versions d).1)].
Proof.
  intros [Hn1 H1] [Hn2 H2]. unfold index_line, re_match, git_header_index.
  exists match gd_kind d with Modified => "100644" | _ => "" end.
  apply match_lit. cbn [rmatch re_plus re_opt].
  apply match_rep_greedy; [done|done|by apply nonempty_length|]. rewrite consumed_app.
  rewrite !append_cons. cbn [re_dot Ascii.eqb Bool.eqb negb].
  change ("" +:+ (gd_versions d).2 +:+ ?x) with ((gd_versions d).2 +:+ x).
  apply match_rep_greedy; [done|by destruct (gd_kind d)|by apply nonempty_length|].
  rewrite consumed_app. by destruct (gd_kind d).
Qed.

(** The header of a diff. *)
Definition git_header_of (d : GitDiff) : Header :=
  mkHeader None (match gd_kind d with Created => "/dev/null" | _ => gd_path d end)
    (Some (VText (gd_versions d).1))
    (match gd_kind d with Deleted => "/dev/null" | _ => gd_path d end)
    (Some (VText (gd_versions d).2)).

Lemma strip_side_cons c (p : string) : strip_side (String c "/") (String c "/" +:+ p) = p.
Proof.
  change (String c "/" +:+ p) with (String c (String "/" p)).
  unfold strip_side, startswith. simpl. destruct (Ascii.ascii_dec c c); [|done]. simpl.
  rewrite Nat.sub_0_r. by destruct p; [|apply (substring_full (String a p))].
Qed.

Lemma match_line t s :
  all_chars re_dot s = true → s ≠ "" →
  re_match (RSeq (RStr t) (RSeq (RGroup 1 (re_plus re_dot)) REnd)) (t +:+ s) = Some [(1%nat, s)].
Proof.
  intros Hs Hs1%nonempty_length. unfold re_match. apply match_lit. cbn [rmatch re_plus].
  assert (Hc : consumed s "" = s) by (rewrite <- (append_empty_r s) at 1; apply consumed_app).
  rewrite <- (append_empty_r s) at 1. apply match_rep_greedy; [done..|]. by rewrite Hc.
Qed.
Lemma git_paths_old s h :
  all_chars re_dot s = true → s ≠ "" →
  git_paths ("--- " +:+ s) h = mkGitHeader (gh_versions h) (gh_cmd h) (Some s) (gh_new h).
Proof. intros. unfold git_paths, git_header_old_line at 1. by rewrite match_line. Qed.
Lemma git_paths_new s h :
  all_chars re_dot s = true → s ≠ "" →
  git_paths ("+++ " +:+ s) h = mkGitHeader (gh_versions h) (gh_cmd h) (gh_old h) (Some s).
Proof. intros. unfold git_paths, git_header_new_line at 1. by rewrite match_line. Qed.

Lemma gd_old_name_dot d :
  path_ok (gd_path d) → all_chars re_dot (gd_old_name d) = true ∧ gd_old_name d ≠ "".
Proof.
  intros (_ & Hb%no_break_dot & _). unfold gd_old_name.
  by destruct (gd_kind d); rewrite ?all_chars_append, ?Hb.
Qed.
Lemma gd_new_name_dot d :
  path_ok (gd_path d) → all_chars re_dot (gd_new_name d) = true ∧ gd_new_name d ≠ "".
Proof.
  intros (_ & Hb%no_break_dot & _). unfold gd_new_name.
  by destruct (gd_kind d); rewrite ?all_chars_append, ?Hb.
Qed.

Lemma git_loop_paths d h rest :
  path_ok (gd_path d) → gh_old h = None → gh_new h = None → gh_versions h = Some (gd_versions d) →
  git_loop (("--- " +:+ gd_old_name d) :: ("+++ " +:+ gd_new_name d) :: rest) h = Some (git_header_of d).
Proof.
  intros Hp Ho Hn Hv. destruct (gd_old_name_dot d Hp), (gd_new_name_dot d Hp). cbn [git_loop].
  change (re_match git_diffcmd_header ("--- " +:+ gd_old_name d)) with (@None groups).
  change (re_match git_header_index ("--- " +:+ gd_old_name d)) with (@None groups).
  change (re_match git_diffcmd_header ("+++ " +:+ gd_new_name d)) with (@None groups).
  change (re_match git_header_index ("+++ " +:+ gd_new_name d)) with (@None groups). cbv iota.
  rewrite git_paths_old by done. cbn [gh_old gh_new]. rewrite Hn, git_paths_new by done.
  cbn [gh_old gh_new gh_versions]. unfold git_version, git_header_of. cbn [gh_versions]. rewrite Hv.
  unfold gd_old_name, gd_new_name. by destruct (gd_kind d); rewrite ?strip_side_cons.
Qed.

(** Lines that say nothing of the paths. *)
Definition silent (line : string) : Prop :=
  re_match git_diffcmd_header line = None ∧ re_match git_header_index line = None
  ∧ ∀ h, git_paths line h = h.
Lemma git_loop_silent line rest h :
  silent line → gh_old h = None → git_loop (line :: rest) h = git_loop rest h.
Proof. intros (H1 & H2 & H3) Ho. cbn [git_loop]. by rewrite H1, H2, H3, Ho. Qed.

Lemma parse_git_lines d rest :
  path_ok (gd_path d) → version_ok (gd_versions d).1 → version_ok (gd_versions d).2 →
  parse_git_header (cmd_line d :: git_head d ++ rest) = Some (git_header_of d).
Proof.
  intros Hp H1 H2. unfold parse_git_header.
  assert (Hc : ∃ c, git_loop (cmd_line d :: git_head d ++ rest) (mkGitHeader None None None None)
                    = git_loop (git_head d ++ rest) (mkGitHeader None c None None)).
  { cbn [git_loop]. destruct (re_match git_diffcmd_header (cmd_line d)); [by eexists|]. by exists None. }
  destruct Hc as [c ->].
  assert (Hm : git_loop (git_head d ++ rest) (mkGitHeader None c None None)
    = git_loop ([index_line d; "--- " +:+ gd_old_name d; "+++ " +:+ gd_new_name d] ++ rest)
        (mkGitHeader None c None None)).
  { unfold git_head, mode_lines. destruct (gd_kind d); [done|apply git_loop_silent; try done..];
      split_and!; try done; by intros []. }
  rewrite Hm. destruct (index_line_match d H1 H2) as [m Hi].
  cbn [app]. cbn [git_loop]. change (re_match git_diffcmd_header (index_line d)) with (@None groups).
  rewrite Hi. cbv iota. cbn [gh_versions gh_cmd gh_old gh_new group_str group Nat.eqb from_option id].
  apply (git_loop_paths d); try done. simpl. f_equal. by destruct (gd_versions d).
Qed.

Lemma git_part_read zlib d :
  git_ok d → parse_part zlib (git_lines d)
  = Ok (Some (mkDiffObj (Some (git_header_of d)) (Some (script_changes 1 1 1 (gd_hunks d)))
                (str_join nl (git_lines d) +:+ nl))).
Proof.
  intros [Hp H1 H2 He _ _ _]. unfold parse_part.
  assert (Hf : bool_decide (findall_regex (git_lines d) git_header_index = []) = false).
  { apply bool_decide_eq_false, (findall_some _ _ (index_line d)).
    - unfold git_lines, git_head. rewrite elem_of_cons, !elem_of_app. right. left. right. by left.
    - destruct (index_line_match d H1 H2) as [m Hi]. unfold re_test. by rewrite Hi. }
  assert (Hh : parse_header (git_lines d) = (git_lines d, Ok (Some (git_header_of d)))).
  { assert (Hs : strip_sides (git_header_of d) = git_header_of d).
    { destruct Hp as (_ & _ & Ha & Hb & _). unfold strip_sides, git_header_of. simpl.
      destruct (gd_kind d); by rewrite ?Ha, ?Hb. }
    assert (Hg : parse_git_header (git_lines d) = Some (git_header_of d)) by by apply parse_git_lines.
    unfold parse_header, pbind at 1, parse_scm_header, pbind at 1, pget, scm_parsers.
    cbn [py_find fst]. rewrite Hf. cbn [negb]. unfold pbind. rewrite Hg. unfold pret.
    destruct (negb _); [|done]. change (strip_sides <$> Some (git_header_of d))
      with (Some (strip_sides (git_header_of d))). by rewrite Hs. }
  rewrite Hh. cbn [rbind].
  assert (Hu : bool_decide (findall_regex (git_lines d) unified_hunk_start = []) = false).
  { apply bool_decide_eq_false. unfold git_lines. rewrite app_comm_cons. by apply script_found. }
  unfold parse_diff, diff_parsers. cbn [py_find fst]. rewrite Hu. cbn [negb].
  unfold git_lines at 1. rewrite app_comm_cons. rewrite parse_unified_print; [done| |done].
  constructor; [done|]. by apply git_head_forall.
Qed.
