(* ===== verification/PatchText.v ===== *)
(** * Patches as texts

    The texts of patches and of files: their lines are read back, and [apply_patch] on the
    text of a git patch turns the old files of a repository into the new ones. *)

From S2P Require Import Prelude EventStore Regex PatchParse PatchChanges PatchApply PatchRoundtrip.
From S2P Require Import PatchApply PatchRoundtrip.
Local Open Scope Z_scope.
Local Open Scope py_scope.

(** ** Lines of a text *)

Fixpoint lines_text (ls : list string) : string :=
  match ls with [] => "" | l :: ls => l +:+ nl +:+ lines_text ls end.

Lemma nl_app s : nl +:+ s = String newline s.
Proof. done. Qed.

Lemma splitlines_line acc l s :
  no_break l = true → splitlines_go acc (l +:+ String newline s) = (String.rev acc +:+ l) :: splitlines_go "" s.
Proof.
  revert acc. induction l as [|c l IH]; intros acc Hl.
  - change ("" +:+ String newline s) with (String newline s). rewrite append_empty_r.
    by destruct s.
  - rewrite append_cons. simpl in Hl. apply andb_true_iff in Hl as [Hc Hl]. apply negb_true_iff in Hc.
    cbn [splitlines_go]. rewrite Hc, IH by done. f_equal.
    by rewrite rev_cons, <- append_assoc.
Qed.
Lemma splitlines_text ls : Forall (λ l, no_break l = true) ls → splitlines (lines_text ls) = ls.
Proof.
  unfold splitlines. induction 1 as [|l ls Hl _ IH]; [done|]. cbn [lines_text].
  by rewrite nl_app, splitlines_line, IH.
Qed.
Lemma first_line_id l : no_break l = true → first_line l = l.
Proof.
  intros Hl. unfold first_line. destruct l as [|c l]; [done|].
  assert (H : ∀ acc s, no_break s = true → String.rev acc +:+ s ≠ "" →
    head (splitlines_go acc s) = Some (String.rev acc +:+ s)).
  { intros acc s. revert acc. induction s as [|d s IH]; intros acc Hs Hne.
    - rewrite append_empty_r in *. simpl. destruct (String.eqb_spec acc ""); [by subst|done].
    - simpl in Hs. apply andb_true_iff in Hs as [Hd Hs]. apply negb_true_iff in Hd. cbn [splitlines_go].
      rewrite Hd. rewrite IH; rewrite ?rev_cons, <- ?append_assoc; done. }
  unfold splitlines. by rewrite H.
Qed.

Lemma str_join_text l ls : str_join nl (l :: ls) +:+ nl = lines_text (l :: ls).
Proof.
  revert l. induction ls as [|k ls IH]; intros l; [done|].
  change (str_join nl (l :: k :: ls)) with (l +:+ nl +:+ str_join nl (k :: ls)).
  rewrite <- !append_assoc, IH. done.
Qed.

(** ** Text files *)

Definition no_cr_lf (l : string) : bool :=
  all_chars (λ c, negb (Ascii.eqb c newline) && negb (Ascii.eqb c cr)) l.
Lemma no_break_cr_lf l : no_break l = true → no_cr_lf l = true.
Proof. apply all_chars_impl. intros c. by destruct c as [[] [] [] [] [] [] [] []]. Qed.

Lemma endswith_newline c acc :
  endswith (String.rev (String c acc)) nl = Ascii.eqb c newline.
Proof.
  unfold endswith. rewrite rev_involutive. change (String.rev nl) with (String newline "").
  cbn [String.prefix]. destruct (Ascii.ascii_dec newline c) as [<-|Hn].
  - rewrite Ascii.eqb_refl. by destruct acc.
  - symmetry. apply Ascii.eqb_neq. congruence.
Qed.
Lemma readlines_line acc l s :
  no_cr_lf l = true →
  readlines_go nl acc (l +:+ String newline s) = (String.rev acc +:+ l +:+ nl) :: readlines_go nl "" s.
Proof.
  revert acc. induction l as [|c l IH]; intros acc Hl.
  - change ("" +:+ String newline s) with (String newline s). cbn [readlines_go].
    rewrite endswith_newline. simpl. by rewrite rev_cons.
  - rewrite append_cons. simpl in Hl. apply andb_true_iff in Hl as [Hc Hl].
    apply andb_true_iff in Hc as [Hc _]. apply negb_true_iff in Hc.
    cbn [readlines_go]. rewrite endswith_newline, Hc, IH by done. f_equal.
    by rewrite rev_cons, <- append_assoc.
Qed.
Lemma readlines_text ls :
  Forall (λ l, no_cr_lf l = true) ls → readlines_go nl "" (lines_text ls) = (λ l, l +:+ nl) <$> ls.
Proof.
  induction 1 as [|l ls Hl _ IH]; [done|]. cbn [lines_text]. by rewrite nl_app, readlines_line, IH.
Qed.

Lemma re_in_nl c : re_in nl c = Ascii.eqb c newline.
Proof. by destruct c as [[] [] [] [] [] [] [] []]. Qed.
Lemma lstrip_nl_id s : no_cr_lf s = true → lstrip_chars nl s = s.
Proof.
  destruct s as [|c s]; [done|]. simpl. intros [Hc _]%andb_true_iff.
  apply andb_true_iff in Hc as [Hc _]. apply negb_true_iff in Hc. by rewrite re_in_nl, Hc.
Qed.
Lemma strip_line l : no_cr_lf l = true → strip_chars nl (l +:+ nl) = l.
Proof.
  intros Hl. unfold strip_chars.
  assert (Hr : lstrip_chars nl (String.rev (l +:+ nl)) = String.rev l).
  { rewrite rev_append. change (String.rev nl +:+ String.rev l) with (String newline (String.rev l)).
    cbn [lstrip_chars]. rewrite re_in_nl, Ascii.eqb_refl. by apply lstrip_nl_id, all_chars_rev. }
  destruct l as [|c l]; [done|].
  assert (Hs : lstrip_chars nl (String c l +:+ nl) = String c l +:+ nl).
  { rewrite append_cons. cbn [lstrip_chars]. simpl in Hl. apply andb_true_iff in Hl as [Hc _].
    apply andb_true_iff in Hc as [Hc _]. apply negb_true_iff in Hc. by rewrite re_in_nl, Hc. }
  by rewrite Hs, Hr, rev_involutive.
Qed.

Lemma no_cr_text ls :
  Forall (λ l, no_cr_lf l = true) ls →
  all_chars (λ c, negb (Ascii.eqb c cr)) (lines_text ls) = true.
Proof.
  induction 1 as [|l ls Hl _ IH]; [done|]. cbn [lines_text]. rewrite !all_chars_append, IH. simpl.
  assert (Hc : all_chars (λ c, negb (Ascii.eqb c cr)) l = true); [|by rewrite Hc].
  eapply all_chars_impl; [|exact Hl]. by intros c [_ ?]%andb_true_iff.
Qed.
Lemma prefix_absent (P : ascii → bool) c t s :
  all_chars P s = true → P c = false → str_contains (String c t) s = false.
Proof.
  intros Hs Hc. induction s as [|d s IH]; [done|]. simpl in Hs.
  apply andb_true_iff in Hs as [Hd Hs]. cbn [str_contains String.prefix].
  destruct (Ascii.ascii_dec c d) as [->|]; [congruence|]. by apply IH.
Qed.
Lemma detect_text ls :
  Forall (λ l, no_cr_lf l = true) ls →
  detect_newline (lines_text ls) = match ls with [] => None | _ => Some nl end.
Proof.
  intros Hls. unfold detect_newline.
  rewrite (prefix_absent _ _ _ _ (no_cr_text ls Hls)) by done.
  destruct ls as [|l ls]; [done|]. cbn [lines_text].
  destruct (str_contains nl _) eqn:E; [done|]. exfalso. revert E. clear. rewrite nl_app.
  induction l as [|c l IH].
  - intros E. by destruct (str_contains_char newline newline (lines_text ls) E).
  - rewrite append_cons. cbn [str_contains]. by intros [_ E]%orb_false_iff.
Qed.
Lemma split_text ls : Forall (λ l, no_cr_lf l = true) ls → split_content (lines_text ls) = ls.
Proof.
  intros Hls. unfold split_content. rewrite detect_text by done. destruct Hls as [|l ls Hl Hls]; [done|].
  rewrite readlines_text by by constructor. rewrite <- list_fmap_compose.
  rewrite <- (list_fmap_id (l :: ls)) at 2. apply list_fmap_ext. intros i x Hx.
  apply strip_line. eapply (Forall_lookup_1 (λ l, no_cr_lf l = true)); [|exact Hx]. by constructor.
Qed.

Lemma translate_nl s : translate nl s = s.
Proof.
  induction s as [|c s IH]; [done|]. simpl. rewrite IH. destruct (Ascii.eqb_spec c newline); by subst.
Qed.
Lemma print_text n ls : from_option id nl n = nl → print_lines n ls = lines_text ls.
Proof.
  intros Hn. unfold print_lines. rewrite Hn. induction ls as [|l ls IH]; [done|]. cbn [lines_text].
  rewrite fmap_cons, translate_nl, <- IH. destruct ls as [|k ls]; simpl.
  - by rewrite !append_empty_r.
  - by rewrite <- append_assoc.
Qed.

(** ** The patch *)

Definition patch_text (ds : list GitDiff) : string := lines_text (concat (git_lines <$> ds)).

Lemma pretty_no_break z : 0 ≤ z → no_break (pretty z) = true.
Proof.
  intros Hz. apply (all_chars_impl is_digit); [|by apply pretty_digits].
  intros c. by destruct c as [[] [] [] [] [] [] [] []].
Qed.
Lemma hunk_header_no_break o ol n nl :
  1 ≤ o → 0 ≤ ol → 1 ≤ n → 0 ≤ nl → no_break (hunk_header o ol n nl) = true.
Proof.
  intros Ho Hol Hn Hnl. pose proof (range_start_nonneg o ol Ho). pose proof (range_start_nonneg n nl Hn).
  unfold hunk_header, no_break. rewrite !all_chars_append.
  change (all_chars (λ c, negb (is_linebreak c))) with no_break.
  by rewrite !pretty_no_break.
Qed.
Lemma print_script_no_break o n hs :
  1 ≤ o → 1 ≤ n → Forall (λ h : Hunk, Forall (λ e, no_break (edit_text e) = true) h.2) hs →
  Forall (λ l, no_break l = true) (concat (print_script o n hs)).
Proof.
  intros Ho Hn Hhs. revert o n Ho Hn. induction Hhs as [|h hs Hh _ IH]; intros o n Ho Hn; [constructor|].
  pose proof (py_len_nonneg h.1). pose proof (py_len_nonneg (old_hunk h)).
  pose proof (py_len_nonneg (new_hunk h)). simpl.
  constructor; [apply hunk_header_no_break; (lia || apply py_len_nonneg)|].
  apply Forall_app. split; [|apply IH; lia]. apply Forall_fmap. eapply Forall_impl; [exact Hh|].
  by intros [].
Qed.
Lemma git_lines_no_break d : git_ok d → Forall (λ l, no_break l = true) (git_lines d).
Proof.
  intros [(_ & Hp & _) [_ H1] [_ H2] _ Hl _ _].
  assert (Hx : ∀ v, all_chars re_hex v = true → no_break v = true).
  { intros v. apply all_chars_impl. intros c. by destruct c as [[] [] [] [] [] [] [] []]. }
  apply Hx in H1, H2. unfold git_lines, git_head, no_break in *. constructor.
  { unfold cmd_line. by rewrite !all_chars_append, Hp. }
  repeat (apply Forall_app; split); [by unfold mode_lines; destruct (gd_kind d); repeat constructor| |].
  - repeat constructor; unfold index_line, gd_old_name, gd_new_name; rewrite !all_chars_append;
      rewrite ?H1, ?H2; destruct (gd_kind d); rewrite ?all_chars_append, ?Hp; done.
  - by apply print_script_no_break.
Qed.

(** What the parser makes of a diff. *)
Definition git_object (d : GitDiff) : DiffObj :=
  mkDiffObj (Some (git_header_of d)) (Some (script_changes 1 1 1 (gd_hunks d))) (lines_text (git_lines d)).

Lemma parse_parts_git zlib ds :
  Forall git_ok ds → parse_parts zlib (git_lines <$> ds) = Ok ∘ git_object <$> ds.
Proof.
  induction 1 as [|d ds Hd _ IH]; [done|]. csimpl. rewrite git_part_read, IH by done.
  unfold git_lines at 1. rewrite str_join_text. done.
Qed.

Lemma Forall_concat_fmap {A B} (P : B → Prop) (f : A → list B) l :
  Forall (λ x, Forall P (f x)) l → Forall P (concat (f <$> l)).
Proof. induction 1 as [|x l Hx _ IH]; [constructor|]. by apply Forall_app. Qed.

Lemma parse_patch_git zlib ds :
  Forall git_ok ds → parse_patch zlib (patch_text ds) = Ok ∘ git_object <$> ds.
Proof.
  intros Hds. unfold parse_patch, patch_text.
  assert (Hb : Forall (λ l, no_break l = true) (concat (git_lines <$> ds))).
  { apply Forall_concat_fmap. eapply Forall_impl; [exact Hds|]. apply git_lines_no_break. }
  rewrite splitlines_text by done.
  assert (Hf : first_line <$> concat (git_lines <$> ds) = concat (git_lines <$> ds)).
  { rewrite <- (list_fmap_id (concat _)) at 2. apply list_fmap_ext. intros i x Hx.
    apply first_line_id. by eapply (Forall_lookup_1 (λ l, no_break l = true)). }
  rewrite Hf. destruct ds as [|d ds]; [done|].
  unfold patch_marks. cbn [split_patch].
  set (all := concat (git_lines <$> d :: ds)).
  assert (Hi : split_by_regex all unified_header_index = [all]).
  { rewrite <- (app_nil_r all) at 1. apply (split_parts _ all []); [|done]. subst all.
    apply Forall_concat_fmap, Forall_true. intros x. constructor; [done|].
    apply git_tail_forall; try done. by intros []. }
  assert (Hs : split_by_regex all diffcmd_header = [] :: (git_lines <$> d :: ds)).
  { apply (split_parts _ []); [done|]. apply Forall_fmap. eapply Forall_impl; [exact Hds|].
    intros x Hx. by apply git_part_starts, Hx. }
  rewrite Hi, Hs. change (1 <? py_len [all]) with false. cbv iota.
  rewrite (proj2 (Z.ltb_lt _ _)) by (rewrite fmap_cons, !py_len_cons; pose proof (py_len_nonneg (git_lines <$> ds)); lia).
  rewrite <- (parse_parts_git zlib (d :: ds)) by done. done.
Qed.

(** ** Application to a repository *)

Section repository.
Variable zlib : string → result string.
Variable decodes : string → bool.
Variable dir : string.

Definition gd_file (d : GitDiff) : string := join_repo dir (gd_path d).

(** The file of a diff before and after. *)
Definition before (d : GitDiff) : option string :=
  match gd_kind d with
  | Created => None
  | _ => Some (lines_text (old_text (gd_hunks d) (gd_tail d)))
  end.
Definition after (d : GitDiff) : option string :=
  match gd_kind d with
  | Deleted => None
  | _ => Some (lines_text (new_text (gd_hunks d) (gd_tail d)))
  end.

(** A diff of a text file: the file decodes, its lines hold no line break, and the diff
    does not contain the words by which renames are recognized. *)
Record file_ok (d : GitDiff) : Prop := {
  fo_git : git_ok d;
  fo_lines : Forall (λ l, no_break l = true) (old_text (gd_hunks d) (gd_tail d));
  fo_decodes : decodes (lines_text (old_text (gd_hunks d) (gd_tail d))) = true;
  fo_rename : str_contains "rename from" (lines_text (git_lines d)) = false;
}.

Lemma bare_path_ok p : path_ok p → bare_path p = p.
Proof. intros (_ & _ & Ha & Hb & _). unfold bare_path. by rewrite Ha, Hb. Qed.

Lemma apply_part_git d (fs : gmap string string) :
  file_ok d → fs !! gd_file d = before d →
  apply_part decodes dir (git_object d) fs = (partial_alter (λ _, after d) (gd_file d) fs, Ok tt).
Proof.
  intros [Hg Hl Hd Hr] Hb. pose proof Hg as [Hp _ _ _ _ Hc Hx]. pose proof (bare_path_ok _ Hp) as Hbare.
  destruct Hp as (Hne & _ & _ & _ & Hs).
  assert (Hnull : String.eqb (gd_path d) "/dev/null" = false).
  { apply String.eqb_neq. intros E. by rewrite E in Hs. }
  apply String.eqb_neq in Hne.
  assert (Hcr : Forall (λ l, no_cr_lf l = true) (old_text (gd_hunks d) (gd_tail d))).
  { eapply Forall_impl; [exact Hl|]. apply no_break_cr_lf. }
  unfold apply_part, git_object, git_header_of, gd_file in *.
  cbn [diff_header diff_changes diff_text old_path new_path].
  unfold before, after in *. destruct (gd_kind d).
  - rewrite Hne, Hnull, Hbare, Hr. cbn [orb]. rewrite Hb, Hd, split_text by done.
    rewrite script_forward. rewrite print_text; [done|].
    rewrite detect_text by done. by destruct (old_text _ _).
  - rewrite Hne, Hnull, Hbare, Hr. cbn [orb String.eqb Ascii.eqb Bool.eqb].
    rewrite <- (Hc eq_refl) at 1. rewrite script_forward. by rewrite print_text.
  - rewrite Hne, Hnull, Hbare. done.
Qed.

(** C16 A patch in git's format applied to a repository that has the old files leaves exactly
    the new ones: the files of the patch, each modified, created or deleted in any number of
    hunks, have their new texts, or are gone, and no other file changes.  For files whose
    texts decode, whose lines contain no line break of any kind and all end with a newline
    (see [indentation_lost]), whose paths are relative and do not start with a directory
    named [a] or [b] (see [directory_a_stripped]), and whose diffs nowhere contain the words
    [rename from] (see [rename_words_drop_changes]); every file once, with at least one
    change and hexadecimal versions. *)
Theorem git_patch_applied ds (fs : gmap string string) :
  Forall file_ok ds → NoDup (gd_file <$> ds) → (∀ d, d ∈ ds → fs !! gd_file d = before d) →
  ∃ fs', apply_patch zlib decodes dir (patch_text ds) fs = (fs', Ok tt)
    ∧ (∀ d, d ∈ ds → fs' !! gd_file d = after d)
    ∧ ∀ p, p ∉ gd_file <$> ds → fs' !! p = fs !! p.
Proof.
  intros Hok Hnd Hb. unfold apply_patch. rewrite parse_patch_git.
  2: { eapply Forall_impl; [exact Hok|]. by intros d [? _ _ _]. }
  revert fs Hb. induction Hok as [|d ds Hd _ IH]; intros fs Hb.
  { exists fs. split; [done|]. split; [by intros d ?%not_elem_of_nil|done]. }
  csimpl in *. apply NoDup_cons in Hnd as [Hnew Hnd]. unfold pbind.
  rewrite apply_part_git; [|done|apply Hb; by left].
  destruct (IH Hnd (partial_alter (λ _, after d) (gd_file d) fs)) as (fs' & E & Ha & Ho).
  { intros d' Hd'. rewrite lookup_partial_alter_ne; [apply Hb; by right|].
    intros Ef. apply Hnew. rewrite Ef. by apply list_elem_of_fmap_2. }
  exists fs'. split; [exact E|]. split.
  - intros d' [->|Hd']%elem_of_cons; [|by apply Ha]. rewrite Ho by done. by rewrite lookup_partial_alter_eq.
  - intros p [Hp1 Hp2]%not_elem_of_cons. rewrite Ho by done. by rewrite lookup_partial_alter_ne.
Qed.
End repository.

(** C31 A unified diff is invertible: the changes read from it, whatever stands before it,
    turn the old text into the new one, and reversed the new text into the old one. *)
Theorem unified_diff_reversible zlib pre hs tail :
  Forall (λ y, re_test unified_hunk_start y = false) pre → (∃ h, h ∈ hs ∧ h.2 ≠ []) →
  ∃ changes, parse_diff zlib (pre ++ concat (print_script 1 1 hs)) = Ok (Some changes)
    ∧ apply_diff (Some changes) (old_text hs tail) false = Ok (new_text hs tail)
    ∧ apply_diff (Some changes) (new_text hs tail) true = Ok (old_text hs tail).
Proof.
  intros Hpre He. exists (script_changes 1 1 1 hs). split; [|split; [apply script_forward|apply script_backward]].
  unfold parse_diff, diff_parsers. cbn [py_find fst].
  rewrite bool_decide_false by by apply script_found. cbn [negb]. by rewrite parse_unified_print.
Qed.

(** A text that is not the one the diff was made from is refused: what is applied had every
    line of context and every removed line in its place, up to white space. *)
Theorem applied_lines_match changes lines result :
  apply_diff (Some changes) lines false = Ok result →
  ∀ c old line, c ∈ changes → ch_old c = Some old → ch_line c = Some (Text line) →
  old ≤ py_len lines ∧ ∃ source, py_get lines (old - 1) = Some source
    ∧ normalize_space source = normalize_space line.
Proof.
  unfold apply_diff. intros Ha%rbind_ok_inv. destruct Ha as ([] & Hc & _).
  intros c old line Hin Ho Hl. assert (Hone : check_change lines c = Ok tt).
  { induction Hin as [c cs|c c' cs _ IH]; simpl in Hc; apply rbind_ok_inv in Hc as ([] & H1 & H2); auto. }
  unfold check_change in Hone. rewrite Ho, Hl in Hone.
  destruct (Z.ltb_spec (py_len lines) old); [done|]. split; [done|].
  destruct (py_get lines (old - 1)) as [source|]; [|done]. exists source. split; [done|].
  destruct (String.eqb_spec source line) as [E|]; [by rewrite E|].
  by destruct (String.eqb_spec (normalize_space line) (normalize_space source)).
Qed.

(** * Examples of patches

    Witnesses of the theorems on patches, and patches on which the code does not do what
    its comments say. *)
Definition no_zlib (s : string) : result string := Ok s.
Definition read_text (lines : list string) : list (result DiffObj) :=
  parse_patch no_zlib (lines_text lines).
(** The paths, and the text the diff makes of [old]. *)
Definition outcome (old : list string) (r : result DiffObj) :
    result (option (string * string) * result (list string)) :=
  let? d := r in
  Ok ((λ h, (old_path h, new_path h)) <$> diff_header d, apply_diff (diff_changes d) old false).

(** ** A patch with one file of each kind *)

Definition modified : GitDiff :=
  mkGitDiff "src/x.py" Modified ("1234567", "89abcde")
    [(["one"; "two"], [Keep "three"; Del "four"; Ins "FOUR"; Keep ""]); (["five"], [Ins "six"])] ["seven"].
Definition created : GitDiff :=
  mkGitDiff "new.txt" Created ("0000000", "0123abc") [([], [Ins "a"; Ins "b"])] [].
Definition deleted : GitDiff :=
  mkGitDiff "old.txt" Deleted ("0123abc", "0000000") [([], [Del "gone"])] [].
Definition repository : gmap string string :=
  {["/repo/src/x.py" := lines_text ["one"; "two"; "three"; "four"; ""; "five"; "seven"];
    "/repo/old.txt" := lines_text ["gone"]; "/repo/README" := "kept"]}.

Lemma git_diffs_ok : Forall (file_ok (λ _, true)) [modified; created; deleted].
Proof.
  repeat constructor; try done; try (eexists; split; [left|done]).
Defined.

Lemma git_patch_applied_witness :
  ∃ fs', apply_patch no_zlib (λ _, true) "/repo" (patch_text [modified; created; deleted]) repository
         = (fs', Ok tt)
    ∧ fs' !! "/repo/src/x.py" = Some (lines_text ["one"; "two"; "three"; "FOUR"; ""; "five"; "six"; "seven"])
    ∧ fs' !! "/repo/README" = Some "kept".
Proof.
  destruct (git_patch_applied no_zlib (λ _, true) "/repo" [modified; created; deleted] repository)
    as (fs' & E & Ha & Ho).
  - exact git_diffs_ok.
  - apply (bool_decide_unpack _). vm_compute. exact I.
  - intros d [->|[->|[->|[]%not_elem_of_nil]%elem_of_cons]%elem_of_cons]%elem_of_cons; vm_compute; reflexivity.
  - exists fs'. split; [exact E|]. split.
    + exact (Ha modified ltac:(left)).
    + rewrite Ho; [vm_compute; reflexivity|]. apply (bool_decide_unpack _). vm_compute. exact I.
Defined.

Lemma unified_diff_reversible_witness :
  ∃ changes, parse_diff no_zlib (["preamble"] ++ concat (print_script 1 1 (gd_hunks modified)))
             = Ok (Some changes)
    ∧ apply_diff (Some changes) (new_text (gd_hunks modified) ["seven"]) true
      = Ok (old_text (gd_hunks modified) ["seven"]).
Proof.
  destruct (unified_diff_reversible no_zlib ["preamble"] (gd_hunks modified) ["seven"]) as (c & Hp & _ & Hr).
  - repeat constructor.
  - eexists. split; [left|discriminate].
  - exists c. split; [exact Hp|exact Hr].
Defined.

(** ** Where the parsers go wrong *)

Definition tabbed (a b : string) : string := a +:+ String tab b.
Definition context_head : list string :=
  [tabbed "*** old.txt" "2020"; tabbed "--- new.txt" "2021"; "***************"].

(** The sides of git's paths are stripped twice, so a file in a directory named [a] or [b]
    is taken for one outside of it. *)
Example directory_a_stripped :
  outcome ["x"] <$> read_text ["diff --git a/a/f b/b/f"; "index 1234567..89abcde 100644"; "--- a/a/f";
                               "+++ b/b/f"; "@@ -1,1 +1,1 @@"; "-x"; "+y"]
  = [Ok (Some ("f", "f"), Ok ["y"])].
Proof. by vm_compute. Qed.

(** The signature at the end of a mail counts as a removed line of a new file. *)
Example signature_breaks_new_file :
  outcome [] <$> read_text ["diff --git a/f b/f"; "new file mode 100644"; "index 0000000..89abcde";
                            "--- /dev/null"; "+++ b/f"; "@@ -0,0 +1,2 @@"; "+x"; "+y"; "-- "; "2.39.1"]
  = [Ok (Some ("/dev/null", "f"), Raise IndexError)].
Proof. by vm_compute. Qed.

(** An empty line after the last hunk counts as context. *)
Example empty_line_is_context :
  outcome ["x"] <$> read_text [tabbed "--- f" ""; tabbed "+++ f" ""; "@@ -1 +1 @@"; "-x"; "+y"; ""]
  = [Ok (Some ("f", "f"),
         Raise (HunkApplyException ("context line 2, " +:+ dquote +:+ dquote +:+ " does not exist in source")
                  (HunkNumber 1)))].
Proof. by vm_compute. Qed.

(** A context diff that changes the last line removes it and inserts nothing. *)
Example context_last_line_lost :
  outcome ["a"; "b"] <$> read_text (context_head ++ ["*** 1,2 ****"; "  a"; "! b"; "--- 1,2 ----"; "  a"; "! c"])
  = [Ok (Some ("old.txt", "new.txt"), Ok ["a"])].
Proof. by vm_compute. Qed.
(** The range of a single line, which is printed as one number, is not accepted. *)
Example context_single_line :
  read_text (context_head ++ ["*** 1 ****"; "! b"; "--- 1 ----"; "! c"])
  = [Raise (ValueError "invalid literal for int() with base 10: ''")].
Proof. by vm_compute. Qed.

(** The lines of a change of several lines by an ed script are swapped, and lines of one
    character are taken for the end of the text. *)
Example ed_change_swaps :
  outcome ["a"; "b"; "c"; "d"] <$> read_text ["2,3c"; "first"; "second"; "."]
  = [Ok (None, Ok ["a"; "second"; "first"; "d"])].
Proof. by vm_compute. Qed.
Example ed_short_line_dropped :
  outcome ["a"] <$> read_text ["1a"; "long"; "}"; "."] = [Ok (None, Ok ["a"; "long"])].
Proof. by vm_compute. Qed.

(** The second block of a binary patch, which is the removed file, is read as an added one. *)
Example binary_reverse_added :
  (λ r, match r with Ok d => diff_changes d | Raise _ => None end) <$>
    read_text ["diff --git a/f b/f"; "index 1234567..89abcde"; "GIT binary patch"; "literal 4"; "D00000";
               ""; "literal 4"; "D00001"; ""]
  = [Some [mkChange None (Some 0) (Some (Data (String Ascii.zero (String Ascii.zero (String Ascii.zero
             (String Ascii.zero ""))))) ) HunkNone;
           mkChange None (Some 0) (Some (Data (String Ascii.zero (String Ascii.zero (String Ascii.zero
             (String Ascii.one ""))))) ) HunkNone]].
Proof. by vm_compute. Qed.

(** ** Where the application goes wrong *)

Definition patched (file text : string) (lines : list string) : option string * result unit :=
  let '(fs, r) := apply_patch no_zlib (λ _, true) "/repo" (lines_text lines) {[file := text]} in
  (fs !! file, r).

(** A change to a line that contains the words by which renames are recognized is dropped
    without an error. *)
Example rename_words_drop_changes :
  patched "/repo/f" (lines_text ["x"])
    ["diff --git a/f b/f"; "index 1234567..89abcde 100644"; "--- a/f"; "+++ b/f"; "@@ -1,1 +1,1 @@"; "-x";
     "+rename from x"]
  = (Some (lines_text ["x"]), Ok tt).
Proof. by vm_compute. Qed.

(** The only line of a file without a newline loses its indentation. *)
Example indentation_lost :
  patched "/repo/f" "    return 1"
    ["diff --git a/f b/f"; "index 1234567..89abcde 100644"; "--- a/f"; "+++ b/f"; "@@ -1,1 +1,2 @@";
     "     return 1"; "\ No newline at end of file"; "+    # end"]
  = (Some (lines_text ["return 1"; "    # end"]), Ok tt).
Proof. by vm_compute. Qed.
