(* ===== verification/NestedEventStore.v ===== *)
(** * The nested event store

    Models [openhands/events/nested_event_store.py], a client that pages through the
    events of a conversation of another server, and the route it calls,
    [search_events] of [openhands/server/routes/conversation.py].

    A search is a generator that is consumed as a whole.  Its loop over the pages has
    fuel; [nested_search_same] gives a bound that is enough. *)

From S2P Require Import Prelude PyValue Schema Actions Events Serialization FileStore EventStore.
From S2P Require Import EventStore ExamplePlatform.
Local Open Scope Z_scope.
Local Open Scope py_scope.

(** ** Requests and responses *)

Record EventsRequest := mkEventsRequest {
  er_start : Z;
  er_reverse : bool;
  er_end : option Z;
  er_limit : option Z;
}.
(** [Failed] is any response without a page, such as a refused limit. *)
Inductive EventsResponse := NotFound | Page (events : list dict) (has_more : bool) | Failed.

(** The route, for a conversation that the user may read ([found]). *)
Section route.
Context `{FileStore F} `{Platform}.
Variable found : bool.
Variables (sid : string) (file_store : F) (user_id : option string).

Definition events_route (r : EventsRequest) : result EventsResponse :=
  let limit := from_option id 20 (er_limit r) in
  if negb found then Ok NotFound
  else if (limit <? 0) || (100 <? limit) then Ok Failed
  else
    let? events := (search_events (er_start r) (er_end r) (er_reverse r) None (Some (limit + 1))
                      (new_EventStore sid file_store user_id)).2 in
    let has_more := limit <? py_len events in
    let events := if has_more then py_slice None (Some limit) events else events in
    let? ds := rmap to_dict events in
    Ok (Page ds has_more).
End route.

(** ** The client *)

Section client.
Context `{Platform}.
Variable server : EventsRequest → result EventsResponse.
Variables (end_id : option Z) (rev : bool) (filter : option EventFilter).

(** What the loop over a page carries to the next: the smallest id seen, the next start
    and the limit. *)
Record Cursor := mkCursor {
  cu_min : option Z;
  cu_next : Z;
  cu_limit : option Z;
}.

Definition see (e : Event) (c : Cursor) : Cursor :=
  if rev then mkCursor (Some (match cu_min c with None => event_id e | Some m => Z.min m (event_id e) end))
                (cu_next c) (cu_limit c)
  else mkCursor (cu_min c) (Z.max (cu_next c) (event_id e + 1)) (cu_limit c).

(** The events yielded from a page, and the cursor unless the search is over. *)
Fixpoint scan (events : list dict) (c : Cursor) : result (list Event * option Cursor) :=
  match events with
  | [] => Ok ([], Some c)
  | d :: events =>
      let? e := from_dict d in
      let c := see e c in
      if bool_decide (end_id = Some (event_id e)) then
        let? keep := match filter with None => Ok true | Some f => include f e end in
        Ok (if keep : bool then [e] else [], None)
      else
        let? skip := match filter with None => Ok false | Some f => exclude f e end in
        if skip : bool then scan events c
        else
          let limit := Z.pred <$> cu_limit c in
          if from_option (λ l, l <=? 0) false limit then Ok ([e], None)
          else
            let? r := scan events (mkCursor (cu_min c) (cu_next c) limit) in
            Ok (e :: r.1, r.2)
  end.

Definition page_request (start : Z) (end_cursor limit : option Z) : EventsRequest :=
  mkEventsRequest start rev (if rev then end_cursor else None) (Z.min 100 <$> limit).

Fixpoint nested_pages (fuel : nat) (start : Z) (end_cursor limit : option Z) :
    option (result (list Event)) :=
  match fuel with
  | O => None
  | S fuel =>
      match server (page_request start end_cursor limit) with
      | Raise x => Some (Raise x)
      | Ok NotFound => Some (Ok [])
      | Ok Failed => Some (Raise (KeyError "events"))
      | Ok (Page ds has_more) =>
          match scan ds (mkCursor None start limit) with
          | Raise x => Some (Raise x)
          | Ok (l, None) => Some (Ok l)
          | Ok (l, Some c) =>
              let end_cursor := if rev then match cu_min c with Some m => Some (m - 1) | None => end_cursor end
                                else end_cursor in
              let start := if rev then start else cu_next c in
              if has_more then
                match nested_pages fuel start end_cursor (cu_limit c) with
                | Some r => Some (let? k := r in Ok (l ++ k))
                | None => None
                end
              else Some (Ok l)
          end
      end
  end.
End client.

Section operations.
Context `{Platform}.
Variable server : EventsRequest → result EventsResponse.
Definition nested_search_events (fuel : nat) (start_id : Z) (end_id : option Z) (rev : bool)
    (filter : option EventFilter) (limit : option Z) : option (result (list Event)) :=
  nested_pages server end_id rev filter fuel start_id None limit.

Definition first_event (r : option (result (list Event))) : option (result Event) :=
  match r with
  | None => None
  | Some (Ok (e :: _)) => Some (Ok e)
  | Some (Ok []) => Some (Raise FileNotFoundError)
  | Some (Raise x) => Some (Raise x)
  end.
Definition nested_get_event (fuel : nat) (i : Z) : option (result Event) :=
  first_event (nested_search_events fuel i None false None (Some 1)).
Definition nested_get_latest_event (fuel : nat) : option (result Event) :=
  first_event (nested_search_events fuel 0 None true None (Some 1)).
Definition nested_get_latest_event_id (fuel : nat) : option (result Z) :=
  match nested_get_latest_event fuel with
  | Some r => Some (let? e := r in Ok (event_id e))
  | None => None
  end.
End operations.

(** ** Paging *)

Section paging.
Context `{Platform}.
Variables (end_id : option Z) (rev : bool) (filter : option EventFilter).
Abbreviation read := (scan end_id rev filter).

(** Reading two pages one after the other is reading them as one. *)
Lemma scan_app a b c :
  read (a ++ b) c =
  let? r := read a c in
  match r.2 with
  | None => Ok r
  | Some c => let? k := read b c in Ok (r.1 ++ k.1, k.2)
  end.
Proof.
  revert c. induction a as [|d a IH]; intros c; cbn [app scan rbind fst snd].
  { destruct (read b c) as [[l o]|]; done. }
  destruct (from_dict d) as [e|]; [|done]. cbn [rbind].
  case_bool_decide; [by destruct (match filter with None => _ | Some f => _ end)|].
  destruct (match filter with None => Ok false | Some f => _ end) as [[]|]; [|..]; cbn [rbind]; [apply IH| |done].
  destruct (from_option _ _ _); [done|]. rewrite IH.
  destruct (read a _) as [[l [o|]]|]; [|done..]. cbn [rbind fst snd].
  by destruct (read b o) as [[]|].
Qed.

(** The events yielded do not depend on the ids seen, only on the limit. *)
Lemma scan_limit ds c c' :
  cu_limit c = cu_limit c' →
  (let? r := read ds c in Ok (r.1, cu_limit <$> r.2)) = (let? r := read ds c' in Ok (r.1, cu_limit <$> r.2)).
Proof.
  revert c c'. induction ds as [|d ds IH]; intros c c' Hc; cbn [scan rbind]; [by simpl; rewrite Hc|].
  destruct (from_dict d) as [e|]; [|done]. cbn [rbind].
  case_bool_decide; [by destruct (match filter with None => _ | Some f => _ end) as [[]|]|].
  assert (Hs : cu_limit (see rev e c) = cu_limit (see rev e c')) by (unfold see; by destruct rev).
  destruct (match filter with None => Ok false | Some f => _ end) as [[]|]; cbn [rbind]; [by apply IH| |done].
  rewrite Hs. destruct (from_option _ _ _); [done|].
  specialize (IH (mkCursor (cu_min (see rev e c)) (cu_next (see rev e c)) (Z.pred <$> cu_limit (see rev e c')))
                (mkCursor (cu_min (see rev e c')) (cu_next (see rev e c')) (Z.pred <$> cu_limit (see rev e c'))) eq_refl).
  destruct (read ds _) as [[l o]|], (read ds _) as [[l' o']|]; cbn [rbind fst snd] in *; simplify_eq; congruence || done.
Qed.

(** The cursor after a page that was read to its end. *)
Lemma scan_cursor ds es c l c' :
  Forall2 (λ d e, from_dict d = Ok e) ds es → read ds c = Ok (l, Some c') →
  cu_min c' = cu_min (foldl (λ c e, see rev e c) c es) ∧ cu_next c' = cu_next (foldl (λ c e, see rev e c) c es).
Proof.
  intros Hf. revert c l. induction Hf as [|d e ds es He _ IH]; intros c l; cbn [scan foldl].
  { by intros [= _ <-]. }
  rewrite He. cbn [rbind]. case_bool_decide; [by intros (k&_&[=])%rbind_ok_inv|].
  intros (skip&_&Hs)%rbind_ok_inv. destruct skip; [by eapply IH|].
  destruct (from_option _ _ _); [done|]. apply rbind_ok_inv in Hs as ([k o]&Hs&[= _ ->]).
  apply IH in Hs as [-> ->].
  assert (Hg : ∀ c1 c2, cu_min c1 = cu_min c2 → cu_next c1 = cu_next c2 →
    cu_min (foldl (λ c e, see rev e c) c1 es) = cu_min (foldl (λ c e, see rev e c) c2 es)
    ∧ cu_next (foldl (λ c e, see rev e c) c1 es) = cu_next (foldl (λ c e, see rev e c) c2 es)).
  { clear. induction es as [|e es IH]; intros c1 c2 H1 H2; [done|]. simpl.
    apply IH; unfold see; destruct rev; simpl; by rewrite ?H1, ?H2. }
  by apply Hg.
Qed.
End paging.

(** ** Reading a log through pages *)

Section log.
Context `{Platform}.
Variable es : list Event.
Hypothesis ids : ∀ i e, es !! i = Some e → event_id e = Z.of_nat i.
Hypothesis small : ∀ e, e ∈ es → ∃ d, to_dict e = Ok d ∧ from_dict d = Ok e.

(** The events from [a] to before [stop], in the order of the search. *)
Definition portion (rev : bool) (a stop : nat) : list Event :=
  let l := take (stop - a) (drop a es) in if rev then reverse l else l.

Definition reads (ds : list dict) (l : list Event) : Prop := Forall2 (λ d e, from_dict d = Ok e) ds l.

(** A server that serves the log in pages. *)
Definition serves (server : EventsRequest → result EventsResponse) : Prop :=
  ∀ (rev : bool) (a stop : nat) (limit : option Z),
    (a ≤ stop ≤ length es)%nat → 1 ≤ from_option id 20 limit ≤ 100 →
    ∀ e, (e = None ∧ stop = length es) ∨ (e = Some (Z.of_nat stop - 1)) →
    ∃ ds, reads ds (take (Z.to_nat (from_option id 20 limit)) (portion rev a stop))
    ∧ server (mkEventsRequest (Z.of_nat a) rev e limit)
      = Ok (Page ds (from_option id 20 limit <? py_len (portion rev a stop))).

Lemma scan_same end_id rev filter ds ds' l c :
  reads ds l → reads ds' l → scan end_id rev filter ds c = scan end_id rev filter ds' c.
Proof.
  intros Hd. revert ds' c. induction Hd as [|d e ds l He _ IH]; intros ds' c Hd'.
  - by apply Forall2_nil_inv_r in Hd' as ->.
  - apply Forall2_cons_inv_r in Hd' as (d'&k&He'&Hk&->). cbn [scan]. rewrite He, He'. cbn [rbind].
    case_bool_decide; [done|].
    destruct (match filter with None => _ | Some f => _ end) as [[]|]; cbn [rbind]; [by apply IH| |done].
    destruct (from_option _ _ _); [done|]. by rewrite (IH k).
Qed.

(** The cursor after a page. *)
Lemma see_next c l a :
  cu_next c = a → (∀ i e, l !! i = Some e → event_id e = a + Z.of_nat i) →
  cu_next (foldl (λ c e, see false e c) c l) = a + py_len l.
Proof.
  revert c a. induction l as [|e l IH]; intros c a Hc Hl; simpl; [rewrite Hc; unfold py_len; simpl; lia|].
  rewrite (IH _ (a + 1)); [len_lia| |].
  - unfold see. simpl. rewrite (Hl O e) by done. lia.
  - intros i x Hx. rewrite (Hl (S i) x) by done. lia.
Qed.
Lemma see_min c l stop :
  (∀ i e, l !! i = Some e → event_id e = stop - 1 - Z.of_nat i) → l ≠ [] →
  from_option (λ m, stop ≤ m) True (cu_min c) →
  cu_min (foldl (λ c e, see true e c) c l) = Some (stop - py_len l).
Proof.
  revert c stop. induction l as [|e l IH]; intros c stop Hl Hne Hc; [done|]. cbn [foldl].
  pose proof (Hl O e eq_refl) as He.
  assert (Hm : cu_min (see true e c) = Some (stop - 1)).
  { unfold see. simpl. destruct (cu_min c) as [m|]; simpl in Hc; f_equal; lia. }
  destruct l as [|e' l].
  - cbn [foldl]. rewrite Hm. f_equal.
  - rewrite (IH _ (stop - 1)); [f_equal; len_lia| |done|rewrite Hm; simpl; lia].
    intros i x Hx. rewrite (Hl (S i) x) by done. lia.
Qed.

Lemma portion_id rev a stop i e :
  (a ≤ stop ≤ length es)%nat → portion rev a stop !! i = Some e →
  event_id e = if rev then Z.of_nat stop - 1 - Z.of_nat i else Z.of_nat a + Z.of_nat i.
Proof using ids.
  intros Hs. unfold portion.
  assert (Hlen : length (take (stop - a) (drop a es)) = (stop - a)%nat) by len_lia.
  destruct rev.
  - intros Hi. pose proof (lookup_lt_Some _ _ _ Hi) as Hlt. rewrite length_reverse, Hlen in Hlt.
    rewrite reverse_lookup in Hi by (rewrite Hlen; lia). rewrite Hlen in Hi.
    rewrite lookup_take_lt in Hi by lia. rewrite lookup_drop in Hi. rewrite (ids _ _ Hi). lia.
  - intros Hi. pose proof (lookup_lt_Some _ _ _ Hi) as Hlt. rewrite Hlen in Hlt.
    rewrite lookup_take_lt in Hi by lia. rewrite lookup_drop in Hi. rewrite (ids _ _ Hi). lia.
Qed.
Lemma portion_length rev a stop :
  (a ≤ stop ≤ length es)%nat → length (portion rev a stop) = (stop - a)%nat.
Proof. intros Hs. unfold portion. destruct rev; len_lia. Qed.
Lemma portion_drop rev a stop k :
  (a ≤ stop ≤ length es)%nat → (k ≤ stop - a)%nat →
  drop k (portion rev a stop)
  = if rev then portion rev a (stop - k) else portion rev (a + k) stop.
Proof.
  intros Hs Hk. unfold portion. destruct rev.
  - assert (Hlen : length (take (stop - a) (drop a es)) = (stop - a)%nat) by len_lia.
    rewrite <- (reverse_involutive (drop k _)), reverse_drop.
    replace (stop - k - a)%nat with (stop - a - k)%nat by lia.
    f_equal. rewrite reverse_involutive, length_reverse, Hlen, take_take. f_equal. lia.
  - replace (stop - a)%nat with (k + (stop - (a + k)))%nat by lia.
    by rewrite <- take_drop_commute, drop_drop.
Qed.

Lemma scan_limit_pos end_id rev filter ds c l c' :
  from_option (λ l, 1 ≤ l) True (cu_limit c) → scan end_id rev filter ds c = Ok (l, Some c') →
  from_option (λ l, 1 ≤ l) True (cu_limit c').
Proof.
  revert c l. induction ds as [|d ds IH]; intros c l Hc; cbn [scan]; [by intros [= _ <-]|].
  intros (e&_&Hs)%rbind_ok_inv. case_bool_decide; [by apply rbind_ok_inv in Hs as (k&_&[=])|].
  apply rbind_ok_inv in Hs as (skip&_&Hs).
  assert (Hl : cu_limit (see rev e c) = cu_limit c) by (unfold see; by destruct rev).
  destruct skip; [by eapply IH; [|exact Hs]; rewrite Hl|].
  destruct (from_option (λ l, l <=? 0) false _) eqn:E; [done|].
  apply rbind_ok_inv in Hs as ([k o]&Hs&[= _ ->]). eapply IH; [|exact Hs]. simpl.
  rewrite Hl in *. destruct (cu_limit c); simpl in *; [|done]. apply Z.leb_gt in E. lia.
Qed.

(** The position a cursor stands for. *)
Definition stands_for (rev : bool) (start : Z) (end_cursor : option Z) (a stop : nat) : Prop :=
  start = Z.of_nat a ∧ (a ≤ stop ≤ length es)%nat
  ∧ ((end_cursor = None ∧ stop = length es) ∨ (rev = true ∧ end_cursor = Some (Z.of_nat stop - 1))).

Lemma pages_read server end_id rev filter fuel start end_cursor limit a stop ds :
  serves server → from_option (λ l, 1 ≤ l) True limit →
  stands_for rev start end_cursor a stop → reads ds (portion rev a stop) → (stop - a < fuel)%nat →
  nested_pages server end_id rev filter fuel start end_cursor limit
  = Some (let? r := scan end_id rev filter ds (mkCursor None start limit) in Ok r.1).
Proof using ids.
  intros Hserve. revert start end_cursor limit a stop ds.
  induction fuel as [|fuel IH]; intros start end_cursor limit a stop ds Hlim (-> & Hs & He) Hd Hfuel; [lia|].
  set (L := from_option id 20 (Z.min 100 <$> limit)).
  assert (HL : 1 ≤ L ≤ 100) by (subst L; destruct limit; simpl in *; lia).
  destruct (Hserve rev a stop (Z.min 100 <$> limit) Hs HL (if rev then end_cursor else None)) as (page & Hp & Hr).
  { destruct He as [[-> ->]|[-> ->]]; [left; by destruct rev|by right]. }
  cbn [nested_pages]. unfold page_request. rewrite Hr. fold L in Hp |- *.
  set (k := Z.to_nat L) in *.
  assert (Hpage : reads (take k ds) (take k (portion rev a stop))) by by apply Forall2_take.
  rewrite (scan_same end_id rev filter page (take k ds) _ _ Hp Hpage).
  rewrite <- (take_drop k ds) at 2. rewrite scan_app.
  destruct (scan _ _ _ (take k ds) _) as [[l [c|]]|x] eqn:Escan; cbn [rbind fst snd]; [|done..].
  destruct (Z.ltb_spec L (py_len (portion rev a stop))) as [Hmore|Hless].
  - pose proof (portion_length rev a stop Hs) as Hplen. unfold py_len in Hmore. rewrite Hplen in Hmore.
    pose proof (scan_cursor _ _ _ _ _ _ _ _ Hpage Escan) as [Hmin Hnext].
    assert (Hk : length (take k (portion rev a stop)) = k) by (rewrite length_take, Hplen; lia).
    destruct rev.
    + rewrite (see_min _ _ (Z.of_nat stop)) in Hmin;
        [|intros i e Hi; by apply lookup_take_Some in Hi as [Hi _]; apply (portion_id true a stop)
         |intros E; rewrite E in Hk; simpl in Hk; lia|done].
      rewrite Hmin. rewrite (IH (Z.of_nat a) (Some (Z.of_nat stop - py_len (take k (portion true a stop)) - 1))
        (cu_limit c) a (stop - k)%nat (drop k ds)).
      * pose proof (scan_limit end_id true filter (drop k ds) c (mkCursor None (Z.of_nat a) (cu_limit c)) eq_refl) as Hsl.
        destruct (scan _ _ _ (drop k ds) c) as [[]|], (scan _ _ _ (drop k ds) _) as [[]|];
          cbn [rbind fst snd] in *; simplify_eq; done.
      * eapply (scan_limit_pos end_id true filter); [|exact Escan]. done.
      * split; [done|]. split; [lia|]. right. split; [done|]. f_equal. unfold py_len. rewrite Hk. lia.
      * rewrite <- (portion_drop true a stop k) by lia. by apply Forall2_drop.
      * lia.
    + rewrite (see_next _ _ (Z.of_nat a)) in Hnext;
        [|done|intros i e Hi; by apply lookup_take_Some in Hi as [Hi _]; apply (portion_id false a stop)].
      destruct He as [[-> ->]|[? _]]; [|done].
      rewrite (IH (cu_next c) None (cu_limit c) (a + k)%nat (length es) (drop k ds)).
      * pose proof (scan_limit end_id false filter (drop k ds) c (mkCursor None (cu_next c) (cu_limit c)) eq_refl) as Hsl.
        destruct (scan _ _ _ (drop k ds) c) as [[]|], (scan _ _ _ (drop k ds) _) as [[]|];
          cbn [rbind fst snd] in *; simplify_eq; done.
      * eapply (scan_limit_pos end_id false filter); [|exact Escan]. done.
      * split; [rewrite Hnext; unfold py_len; rewrite Hk; lia|]. split; [lia|]. by left.
      * rewrite <- (portion_drop false a (length es) k) by lia. by apply Forall2_drop.
      * lia.
  - rewrite drop_ge; [cbn [scan rbind fst snd]; by rewrite app_nil_r|].
    rewrite (Forall2_length _ _ _ Hd). unfold py_len in Hless. lia.
Qed.
End log.

(** ** The route serves the log *)

Section served.
Context `{FileStore F} `{Platform}.
Variables (sid : string) (fs : F) (user : option string) (es : list Event).
Abbreviation store := (new_EventStore (F := F) sid fs user).

(** The conversation's files hold the log, whose events survive serialization. *)
Record stored_log : Prop := {
  sl_ids : ∀ i e, es !! i = Some e → event_id e = Z.of_nat i;
  sl_codec : ∀ e, e ∈ es → ∃ d, to_dict e = Ok d ∧ from_dict d = Ok e;
  sl_coherent : cache_coherent store;
  sl_next : calculate_cur_id store = Ok (py_len es);
  sl_lookup : ∀ i e, es !! i = Some e → lookup_event store (Z.of_nat i) = Ok (Some e);
}.

Definition found_at (i : Z) (e : Event) : Prop := lookup_event store i = Ok (Some e).

Lemma range_found (rev : bool) a stop :
  stored_log → (a ≤ stop ≤ length es)%nat →
  Forall2 found_at (if rev then reverse (py_range (Z.of_nat a) (Z.of_nat stop))
                    else py_range (Z.of_nat a) (Z.of_nat stop)) (portion es rev a stop).
Proof.
  intros Hl Hs.
  assert (Hf : Forall2 found_at (py_range (Z.of_nat a) (Z.of_nat stop)) (take (stop - a) (drop a es))).
  { apply Forall2_same_length_lookup. unfold py_range. rewrite length_seqZ, length_take, length_drop.
    split; [lia|]. intros i x e Hi He. apply lookup_seqZ in Hi as [-> Hi].
    apply lookup_take_Some in He as [He _]. rewrite lookup_drop in He.
    unfold found_at. replace (Z.of_nat a + Z.of_nat i) with (Z.of_nat (a + i)) by lia. by apply Hl. }
  unfold portion. destruct rev; [by apply Forall2_reverse|done].
Qed.

Lemma plain_search_take s L n indices l :
  Forall2 (λ i e, lookup_event s i = Ok (Some e)) indices l → 0 ≤ n < L →
  plain_search s None (Some L) n indices = Ok (take (Z.to_nat (L - n)) l).
Proof.
  intros Hf. revert n. induction Hf as [|i e indices l Hi _ IH]; intros n Hn; [by rewrite take_nil|].
  cbn [plain_search]. rewrite Hi. cbn [rbind limit_reached].
  rewrite (proj2 (Z.eqb_neq L 0)) by lia. simpl. destruct (Z.leb_spec L (n + 1)).
  - by replace (Z.to_nat (L - n)) with 1%nat by lia.
  - rewrite IH by lia. by replace (Z.to_nat (L - n)) with (S (Z.to_nat (L - (n + 1)))) by lia.
Qed.

Lemma dicts_of l : (∀ e, e ∈ l → ∃ d, to_dict e = Ok d ∧ from_dict d = Ok e) → ∃ ds, rmap to_dict l = Ok ds ∧ reads ds l.
Proof.
  induction l as [|e l IH]; intros Hl; [exists []; split; [done|constructor]|].
  destruct (Hl e) as (d & Hd & Hf); [by left|]. destruct IH as (ds & Hr & Hds); [intros x Hx; apply Hl; by right|].
  exists (d :: ds). split; [simpl; by rewrite Hd, Hr|by constructor].
Qed.

Lemma portion_subseteq rev a stop e : e ∈ portion es rev a stop → e ∈ es.
Proof.
  unfold portion. intros He. assert (He' : e ∈ take (stop - a) (drop a es)) by (destruct rev; [by apply elem_of_reverse|done]).
  rewrite <- (take_drop a es), <- (take_drop (stop - a) (drop a es)). set_solver.
Qed.

(** Searches of the store. *)
Lemma plain_search_cur k filter limit n indices :
  plain_search (set_cur_id k store) filter limit n indices = plain_search store filter limit n indices.
Proof.
  revert n. induction indices as [|i l IH]; intros n; [done|]. cbn [plain_search].
  change (lookup_event (set_cur_id k store) i) with (lookup_event store i).
  destruct (lookup_event store i) as [[e|]|]; cbn [rbind]; [|by rewrite IH|done].
  destruct (match filter with None => _ | Some f => _ end) as [[]|]; cbn [rbind]; by rewrite ?IH.
Qed.
Lemma search_plain (rev : bool) a stop filter limit e :
  stored_log → (e = None ∧ stop = length es) ∨ e = Some (Z.of_nat stop - 1) →
  (search_events (Z.of_nat a) e rev filter limit store).2
  = plain_search store filter limit 0
      (if rev then reverse (py_range (Z.of_nat a) (Z.of_nat stop)) else py_range (Z.of_nat a) (Z.of_nat stop)).
Proof.
  intros Hl He. pose proof (sl_coherent Hl) as Hc.
  unfold search_events, pbind, pget, pret, plift. destruct He as [[-> ->]| ->]; simpl.
  - unfold cur_id. simpl. rewrite (sl_next Hl). unfold py_len in *.
    rewrite (search_loop_plain (set_cur_id (Z.of_nat (length es)) store)); [|by destruct Hc|apply dummy_good].
    apply plain_search_cur.
  - replace (Z.of_nat stop - 1 + 1) with (Z.of_nat stop) by lia.
    by rewrite search_loop_plain by (done || apply dummy_good).
Qed.
Lemma search_portion rev a stop L e :
  stored_log → (a ≤ stop ≤ length es)%nat → 0 < L →
  (e = None ∧ stop = length es) ∨ e = Some (Z.of_nat stop - 1) →
  (search_events (Z.of_nat a) e rev None (Some L) store).2 = Ok (take (Z.to_nat L) (portion es rev a stop)).
Proof.
  intros Hl Hs HL He. rewrite (search_plain rev a stop) by done.
  rewrite (plain_search_take _ _ _ _ (portion es rev a stop)); [by rewrite Z.sub_0_r|by apply range_found|lia].
Qed.

Lemma route_serves : stored_log → serves es (events_route true sid fs user).
Proof.
  intros Hl rev a stop limit Hs HL e He. unfold events_route. cbn [er_limit er_start er_end er_reverse negb].
  set (L := from_option id 20 limit) in *.
  rewrite (proj2 (Z.ltb_ge L 0)), (proj2 (Z.ltb_ge 100 L)) by lia. cbn [orb].
  rewrite (search_portion rev a stop) by (done || lia). cbn [rbind].
  set (p := portion es rev a stop).
  assert (Hm : (L <? py_len (take (Z.to_nat (L + 1)) p)) = (L <? py_len p)).
  { unfold py_len. rewrite length_take. destruct (Z.ltb_spec L (Z.of_nat (length p))); [apply Z.ltb_lt|apply Z.ltb_ge]; lia. }
  rewrite Hm.
  assert (Ht : (if L <? py_len p then py_slice None (Some L) (take (Z.to_nat (L + 1)) p)
                else take (Z.to_nat (L + 1)) p) = take (Z.to_nat L) p).
  { destruct (Z.ltb_spec L (py_len p)).
    - rewrite py_slice_to_Z, take_take by lia. f_equal. lia.
    - unfold py_len in *. rewrite !take_ge by lia. done. }
  rewrite Ht. destruct (dicts_of (take (Z.to_nat L) p)) as (ds & Hr & Hds).
  { intros x Hx. apply Hl. eapply (portion_subseteq rev a stop). fold p.
    rewrite <- (take_drop (Z.to_nat L) p). set_solver. }
  exists ds. split; [done|]. by rewrite Hr.
Qed.

(** The events up to the one that ends the search. *)
Fixpoint upto (end_id : option Z) (l : list Event) : list Event :=
  match l with
  | [] => []
  | e :: l => if bool_decide (end_id = Some (event_id e)) then [e] else e :: upto end_id l
  end.
Lemma upto_none l : upto None l = l.
Proof. induction l as [|e l IH]; [done|]. simpl. by rewrite IH. Qed.
Lemma upto_portion a e :
  stored_log → (a ≤ e < length es)%nat →
  upto (Some (Z.of_nat e)) (portion es false a (length es)) = portion es false a (S e).
Proof.
  intros Hl He. remember (e - a)%nat as k eqn:Hk. revert a Hk He.
  induction k as [|k IH]; intros a Hk He; unfold portion; destruct (lookup_lt_is_Some_2 es a) as [x Hx]; try lia.
  all: rewrite (drop_S es x a Hx); replace (length es - a)%nat with (S (length es - S a)) by lia; cbn [take upto];
    rewrite (sl_ids Hl _ _ Hx).
  - assert (a = e) as -> by lia. rewrite bool_decide_true by done. by replace (S e - e)%nat with 1%nat by lia.
  - rewrite bool_decide_false by (intros [= ?]; lia). replace (S e - a)%nat with (S (S e - S a)) by lia.
    cbn [take]. f_equal. apply (IH (S a)); lia.
Qed.

(** The client's loop over all events is the store's search. *)
Lemma plain_scan end_id rev filter limit n indices l ds c :
  Forall2 found_at indices (upto end_id l) → reads ds l →
  cu_limit c = (λ x, x - n) <$> limit → 0 ≤ n → from_option (λ x, n < x) True limit →
  plain_search store filter limit n indices = let? r := scan end_id rev filter ds c in Ok r.1.
Proof.
  intros Hi Hd. revert n indices c Hi. induction Hd as [|d e ds l He _ IH]; intros n indices c Hi Hc Hn Hlim.
  { by apply Forall2_nil_inv_r in Hi as ->. }
  cbn [upto] in Hi. cbn [scan]. rewrite He. cbn [rbind].
  assert (Hs : cu_limit (see rev e c) = (λ x, x - n) <$> limit) by (unfold see; by destruct rev).
  case_bool_decide.
  - apply Forall2_cons_inv_r in Hi as (i&k&Hi&Hk&->). apply Forall2_nil_inv_r in Hk as ->.
    cbn [plain_search]. rewrite Hi. cbn [rbind].
    destruct (match filter with None => _ | Some f => _ end) as [[]|]; cbn [rbind fst]; [|done..].
    by destruct (limit_reached limit (n + 1)).
  - apply Forall2_cons_inv_r in Hi as (i&k&Hi&Hk&->). cbn [plain_search]. rewrite Hi. cbn [rbind].
    assert (Hx : (match filter with None => Ok false | Some f => exclude f e end)
                 = let? b := match filter with None => Ok true | Some f => include f e end in Ok (negb b))
      by by destruct filter.
    rewrite Hx. clear Hx.
    destruct (match filter with None => Ok true | Some f => _ end) as [[]|]; cbn [rbind negb];
      [|by apply IH|done].
    rewrite Hs.
    assert (Hr : from_option (λ l0, l0 <=? 0) false (Z.pred <$> ((λ x, x - n) <$> limit)) = limit_reached limit (n + 1)).
    { destruct limit as [x|]; simpl in *; [|done]. rewrite (proj2 (Z.eqb_neq x 0)) by lia. simpl.
      destruct (Z.leb_spec x (n + 1)); [apply Z.leb_le|apply Z.leb_gt]; lia. }
    rewrite Hr. destruct (limit_reached limit (n + 1)) eqn:Hreach; [done|].
    rewrite (IH (n + 1) k (mkCursor (cu_min (see rev e c)) (cu_next (see rev e c)) (Z.pred <$> ((λ x, x - n) <$> limit)))).
    + by destruct (scan _ _ _ ds _) as [[]|].
    + done.
    + simpl. destruct limit; simpl; f_equal. lia.
    + lia.
    + destruct limit as [x|]; simpl in *; [|done]. rewrite (proj2 (Z.eqb_neq x 0)) in Hreach by lia.
      apply Z.leb_gt in Hreach. lia.
Qed.

(** C33 Searching through the other server is searching there: on a server that stores a log,
    from a start in the log, forwards without an end or with one in the log, or backwards
    from the last event, with any filter and no limit or one of at least 1 (with a limit of
    0 the client never ends, see [limit_zero_diverges]), the client pages through the events
    until it has what a search of the event store on the other server returns; one page more
    than there are events is enough. *)
Theorem nested_search_same (a : nat) end_id rev filter limit fuel :
  stored_log → (a ≤ length es)%nat →
  end_id = None ∨ (rev = false ∧ ∃ e, end_id = Some (Z.of_nat e) ∧ (a ≤ e < length es)%nat) →
  from_option (λ l, 1 ≤ l) True limit → (length es - a < fuel)%nat →
  nested_search_events (events_route true sid fs user) fuel (Z.of_nat a) end_id rev filter limit
  = Some (search_events (Z.of_nat a) end_id rev filter limit store).2.
Proof.
  intros Hl Ha He Hlim Hfuel. unfold nested_search_events.
  destruct (dicts_of (portion es rev a (length es))) as (ds & _ & Hds).
  { intros e Hin. apply Hl. by eapply portion_subseteq. }
  rewrite (pages_read es (sl_ids Hl) _ _ _ _ _ _ _ _ a (length es) ds);
    [|by apply route_serves|done|split; [done|]; split; [lia|by left]|done|done].
  f_equal. symmetry. destruct He as [->|(-> & e & -> & He)].
  - rewrite (search_plain rev a (length es)) by (done || by left).
    eapply plain_scan; [|exact Hds| |lia|by destruct limit; simpl in *; [lia|]].
    + rewrite upto_none. by apply range_found.
    + destruct limit; simpl; f_equal. lia.
  - rewrite (search_plain false a (S e)) by (done || right; f_equal; lia).
    eapply plain_scan; [|exact Hds| |lia|by destruct limit; simpl in *; [lia|]].
    + rewrite upto_portion by done. apply (range_found false); [done|lia].
    + destruct limit; simpl; f_equal. lia.
Qed.
End served.

(** ** Examples *)

Module nested_example.
Definition say (i : Z) (txt : string) : Event :=
  set_id (Some i) (set_source (Some USER) (set_timestamp (Some "t")
    (new_action (AMessage (mkMessageAction txt None None false RISK_UNKNOWN))))).
Definition log : list Event := [say 0 "zero"; say 1 "one"; say 2 "two"].
Definition document (e : Event) : string :=
  match to_dict e with Ok d => json_dumps (JDict d) | Raise _ => "" end.
Definition files : InMemoryFileStore :=
  mkInMemoryFileStore ((λ '(i, e), ("sessions/s/events/" +:+ pretty i +:+ ".json", document e)) <$> enumerate log).
Definition server : EventsRequest → result EventsResponse := events_route true "s" files None.

Lemma stored : stored_log "s" files None log.
Proof.
  split.
  - by intros [|[|[|i]]] e [= <-].
  - intros e He. repeat (apply elem_of_cons in He as [->|He]; [eexists; split; [reflexivity|by vm_compute]|]).
    by apply not_elem_of_nil in He.
  - split; [done|..]; intros start; unfold fs_read; simpl; unfold mem_read; simpl; [done|by intros ? [= <-]].
  - by vm_compute.
  - by intros [|[|[|i]]] e [= <-]; vm_compute.
Defined.

Lemma nested_search_same_witness :
  nested_search_events server 4 0 None true None (Some 2) = Some (Ok [say 2 "two"; say 1 "one"]).
Proof.
  etransitivity; [apply (nested_search_same "s" files None log 0 None true None (Some 2) 4 stored)|].
  - simpl. lia.
  - by left.
  - simpl. lia.
  - simpl. lia.
  - vm_compute. reflexivity.
Defined.

(** Backwards, an end is where the search stops, while the store starts there. *)
Example reverse_end_differs :
  nested_search_events server 4 0 (Some 1) true None None = Some (Ok [say 2 "two"; say 1 "one"])
  ∧ (search_events 0 (Some 1) true None None (new_EventStore "s" files None)).2
    = Ok [say 1 "one"; say 0 "zero"].
Proof. by vm_compute. Qed.

(** A limit of zero is answered by empty pages for ever. *)
Lemma limit_zero_diverges fuel : nested_search_events server fuel 0 None false None (Some 0) = None.
Proof.
  unfold nested_search_events.
  assert (Hp : server (page_request false 0 None (Some 0)) = Ok (Page [] true)) by by vm_compute.
  induction fuel as [|fuel IH]; [done|]. cbn [nested_pages]. rewrite Hp. cbn [scan cu_next cu_limit].
  by rewrite IH.
Qed.

(** The event with a missing file is answered by the next one. *)
Example missing_event_replaced :
  nested_get_event (events_route true "s" (mkInMemoryFileStore [("sessions/s/events/2.json", document (say 2 "two"))])
                      None) 2 1 = Some (Ok (say 2 "two")).
Proof. by vm_compute. Qed.
End nested_example.
