(* ===== verification/WebHooks.v ===== *)
(** * File stores with web hooks

    Models [openhands/storage/web_hook.py] and [openhands/storage/batched_web_hook.py]:
    file stores that tell another server of every change.  The executor is the list of
    the tasks submitted and not yet run, the timer is a step that may happen at any time,
    and the other server is a parameter that accepts or fails a request.  Deletions cover
    everything below a path, as those of the stores.  Sizes are in bytes, which is what
    strings are here.  Parameter: which bytes decode as text. *)

From S2P Require Import Prelude PyValue FileStore ConversationStats Base64.
Local Open Scope Z_scope.
Local Open Scope py_scope.

(** ** Updates *)

(** The contents of a write are text or bytes. *)
Inductive Update := Write (bytes : bool) (contents : string) | Delete.
Definition Batch : Type := list (string * Update).
#[export] Instance Update_eq_dec : EqDecision Update.
Proof. solve_decision. Defined.

Definition update_size (u : Update) : Z := match u with Write _ c => str_len c | Delete => 0 end.

(** An entry of the payload of a request. *)
Record PayloadItem := mkPayloadItem {
  pi_method : string;
  pi_path : string;
  pi_content : option string;
  pi_encoding : option string;
}.

(** The client of the web hook's server: [Ok] is a successful response. *)
Class HookClient (H : Type) := {
  post_batch : list PayloadItem → pyM H unit;
  post_file : string → string → pyM H unit;
  delete_file : string → pyM H unit;
}.

(** [tenacity.retry(stop=stop_after_attempt(n))] *)
Definition RetryError : py_exc := OtherError "RetryError" "".
Fixpoint retry {S A} (n : nat) (m : pyM S A) : pyM S A := λ s,
  match n with
  | O => (s, Raise RetryError)
  | S n => match m s with (s, Ok a) => (s, Ok a) | (s, Raise _) => retry n m s end
  end.

Section hooks.
Context {F H : Type} `{FileStore F} `{HookClient H}.
Variable decodes : string → bool.

(** ** The batched hook *)

Record Batched := mkBatched {
  bw_file_store : F;
  bw_limit : Z;
  bw_batch : Batch;
  bw_size : Z;
  bw_timer : bool;
  (** Submitted to the executor. *)
  bw_queue : list Batch;
  bw_client : H;
}.

(** The constructor; a limit of 0 is the default. *)
Definition WEBHOOK_BATCH_SIZE_LIMIT_BYTES : Z := 1048576.
Definition new_Batched (store : F) (client : H) (limit : option Z) : Batched :=
  mkBatched store (match limit with
                   | Some l => if l =? 0 then WEBHOOK_BATCH_SIZE_LIMIT_BYTES else l
                   | None => WEBHOOK_BATCH_SIZE_LIMIT_BYTES
                   end) [] 0 false [] client.

(** [_send_batch_request] *)
Definition payload_item (path : string) (u : Update) : PayloadItem :=
  match u with
  | Delete => mkPayloadItem "DELETE" path None None
  | Write bytes c =>
      if bytes && negb (decodes c) then mkPayloadItem "POST" path (Some (b64encode c)) (Some "base64")
      else mkPayloadItem "POST" path (Some c) None
  end.
Definition payload (b : Batch) : list PayloadItem := (λ '(p, u), payload_item p u) <$> b.

(** [_send_batch]: a request is tried three times; its failure is logged. *)
Definition send_batch (b : Batch) (h : H) : H :=
  match b with [] => h | _ => (retry 3 (post_batch (payload b)) h).1 end.

(** [_enqueue_batch_from_lock] *)
Definition enqueue_batch (background : bool) (s : Batched) : Batched :=
  if background
  then mkBatched (bw_file_store s) (bw_limit s) [] 0 false (bw_queue s ++ [bw_batch s]) (bw_client s)
  else mkBatched (bw_file_store s) (bw_limit s) [] 0 false (bw_queue s) (send_batch (bw_batch s) (bw_client s)).

(** [_queue_update] *)
Definition queue_update (path : string) (u : Update) (s : Batched) : Batched :=
  let size := match dget path (bw_batch s) with
              | Some prev => bw_size s - update_size prev
              | None => bw_size s
              end + update_size u in
  let s := mkBatched (bw_file_store s) (bw_limit s) (dset path u (bw_batch s)) size (bw_timer s)
             (bw_queue s) (bw_client s) in
  if bw_limit s <=? size then enqueue_batch true s
  else mkBatched (bw_file_store s) (bw_limit s) (bw_batch s) size true (bw_queue s) (bw_client s).

Definition set_bw_store (f : F) (s : Batched) : Batched :=
  mkBatched f (bw_limit s) (bw_batch s) (bw_size s) (bw_timer s) (bw_queue s) (bw_client s).

(** [write] and [delete]: when the store raises, nothing is queued. *)
Definition batched_write (path : string) (bytes : bool) (contents : string) : pyM Batched unit := λ s,
  match fs_write path contents (bw_file_store s) with
  | (f, Ok _) => (queue_update path (Write bytes contents) (set_bw_store f s), Ok tt)
  | (f, Raise e) => (set_bw_store f s, Raise e)
  end.
Definition batched_delete (path : string) : pyM Batched unit := λ s,
  match fs_delete path (bw_file_store s) with
  | (f, Ok _) => (queue_update path Delete (set_bw_store f s), Ok tt)
  | (f, Raise e) => (set_bw_store f s, Raise e)
  end.
Definition batched_read (path : string) (s : Batched) : result string := fs_read (bw_file_store s) path.
Definition batched_list (path : string) (s : Batched) : result (list string) := fs_list (bw_file_store s) path.

(** [_enqueue_batch_from_timer], [flush], and the executor running its [n]-th task. *)
Definition timer_fires (s : Batched) : Batched := enqueue_batch true s.
Definition flush (s : Batched) : Batched := enqueue_batch false s.
Definition run_task (n : nat) (s : Batched) : Batched :=
  match bw_queue s !! n with
  | None => s
  | Some b => mkBatched (bw_file_store s) (bw_limit s) (bw_batch s) (bw_size s) (bw_timer s)
                (delete n (bw_queue s)) (send_batch b (bw_client s))
  end.

(** ** The plain hook *)

Inductive HookTask := OnWrite (path contents : string) | OnDelete (path : string).
Record Hooked := mkHooked {
  hw_file_store : F;
  hw_base_url : string;
  hw_queue : list HookTask;
  hw_client : H;
}.
Definition hooked_write (path contents : string) : pyM Hooked unit := λ s,
  match fs_write path contents (hw_file_store s) with
  | (f, Ok _) => (mkHooked f (hw_base_url s) (hw_queue s ++ [OnWrite path contents]) (hw_client s), Ok tt)
  | (f, Raise e) => (mkHooked f (hw_base_url s) (hw_queue s) (hw_client s), Raise e)
  end.
Definition hooked_delete (path : string) : pyM Hooked unit := λ s,
  match fs_delete path (hw_file_store s) with
  | (f, Ok _) => (mkHooked f (hw_base_url s) (hw_queue s ++ [OnDelete path]) (hw_client s), Ok tt)
  | (f, Raise e) => (mkHooked f (hw_base_url s) (hw_queue s) (hw_client s), Raise e)
  end.
(** [_on_write] and [_on_delete], run by the executor. *)
Definition run_hook (base_url : string) (t : HookTask) : pyM H unit :=
  retry 3 (match t with
           | OnWrite path contents => post_file (base_url +:+ path) contents
           | OnDelete path => delete_file (base_url +:+ path)
           end).
End hooks.

(** ** What the other server learns *)

(** Which paths a deletion covers: as [FileStore.delete], a directory's are everything below it. *)
Section server.
Variable below : string → string → bool.
Definition removed (p : string) (m : gmap string string) : gmap string string := filter (λ x, below p x.1 = false) m.
Definition apply_update (m : gmap string string) (x : string * Update) : gmap string string :=
  match x.2 with Write _ c => <[x.1 := c]> m | Delete => removed x.1 m end.
Definition apply_batch (m : gmap string string) (b : Batch) : gmap string string := foldl apply_update m b.
Lemma lookup_removed p m q : removed p m !! q = if below p q then None else m !! q.
Proof.
  unfold removed. destruct (below p q) eqn:Hb.
  - apply map_lookup_filter_None. right. intros c _. simpl. congruence.
  - destruct (m !! q) as [c|] eqn:Hm.
    + by apply map_lookup_filter_Some.
    + apply map_lookup_filter_None. by left.
Qed.

(** The update a payload's entry stands for. *)
Definition read_item (i : PayloadItem) : option (string * option string) :=
  if String.eqb (pi_method i) "DELETE" then Some (pi_path i, None)
  else match pi_content i, pi_encoding i with
       | Some c, None => Some (pi_path i, Some c)
       | Some c, Some _ => match b64decode c with Ok t => Some (pi_path i, Some t) | Raise _ => None end
       | None, _ => None
       end.
Lemma payload_read decodes path u :
  read_item (payload_item decodes path u)
  = Some (path, match u with Write _ c => Some c | Delete => None end).
Proof.
  destruct u as [bytes c|]; [|done]. unfold payload_item, read_item.
  destruct (bytes && negb (decodes c)); simpl; [|done]. by rewrite b64decode_encode.
Qed.
Definition apply_item (m : gmap string string) (i : PayloadItem) : gmap string string :=
  match read_item i with
  | Some (p, Some c) => <[p := c]> m
  | Some (p, None) => removed p m
  | None => m
  end.
Lemma apply_payload decodes b m : foldl apply_item m (payload decodes b) = apply_batch m b.
Proof.
  revert m. induction b as [|[p u] b IH]; intros m; [done|]. simpl. rewrite IH. f_equal.
  unfold apply_item. rewrite payload_read. by destruct u.
Qed.
End server.

Section replica.
Context {F H : Type} `{FileStore F} `{HookClient H}.
Variable decodes : string → bool.
Abbreviation hook := (@Batched F H).

(** ** The pending batch *)

Definition batch_size (b : Batch) : Z := foldr (λ x n, update_size x.2 + n) 0 b.

Lemma dset_size path u (b : Batch) :
  batch_size (dset path u b)
  = batch_size b - from_option update_size 0 (dget path b) + update_size u.
Proof.
  induction b as [|[k v] b IH]; simpl; [lia|]. destruct (String.eqb path k); simpl; lia.
Qed.
Lemma update_size_nonneg u : 0 ≤ update_size u.
Proof. destruct u; simpl; [unfold str_len|]; lia. Qed.
Lemma batch_size_nonneg b : 0 ≤ batch_size b.
Proof. induction b as [|[k u] b IH]; simpl; [done|]. pose proof (update_size_nonneg u). lia. Qed.

Record hook_ok (s : hook) : Prop := {
  ho_size : bw_size s = batch_size (bw_batch s);
  ho_keys : NoDup (bw_batch s).*1;
  ho_bound : 0 < bw_limit s → bw_size s < bw_limit s;
  (** What is pending has its timer. *)
  ho_timer : bw_batch s ≠ [] → bw_timer s = true;
}.

Lemma empty_ok (s : hook) :
  bw_batch s = [] → bw_size s = 0 → hook_ok s.
Proof. intros Hb Hz. split; rewrite ?Hb, ?Hz; try done. constructor. Qed.
Lemma enqueue_ok background (s : hook) : hook_ok (enqueue_batch decodes background s).
Proof. by destruct background; apply empty_ok. Qed.
Lemma dset_nonempty {V} k (v : V) d : dset k v d ≠ [].
Proof. destruct d as [|[k' v'] d]; simpl; [done|]. by destruct (String.eqb k k'). Qed.
Lemma queue_update_ok path u (s : hook) : hook_ok s → hook_ok (queue_update decodes path u s).
Proof.
  intros [Hz Hk Hb Ht]. unfold queue_update. simpl.
  set (size := _ + update_size u).
  assert (Hs : size = batch_size (dset path u (bw_batch s))).
  { subst size. rewrite dset_size, <- Hz. by destruct (dget path (bw_batch s)); simpl; lia. }
  destruct (Z.leb_spec (bw_limit s) size); [by apply empty_ok|].
  split; simpl; [done|by apply dset_keys|done|done].
Qed.

(** ** Runs *)

(** What can happen, with the updates made: writes and deletions, the timer, the executor's
    oldest task, a flush when no task is waiting. *)
Inductive hook_step : hook → list (string * Update) → hook → Prop :=
  | hs_write path bytes c s s' :
      batched_write decodes path bytes c s = (s', Ok tt) → hook_step s [(path, Write bytes c)] s'
  | hs_delete path s s' :
      batched_delete decodes path s = (s', Ok tt) → hook_step s [(path, Delete)] s'
  | hs_timer s : hook_step s [] (timer_fires decodes s)
  | hs_task s : hook_step s [] (run_task decodes 0 s)
  | hs_flush s : bw_queue s = [] → hook_step s [] (flush decodes s).
Inductive hook_run : hook → list (string * Update) → hook → Prop :=
  | hr_refl s : hook_run s [] s
  | hr_step s ops s' ops' s'' : hook_run s ops s' → hook_step s' ops' s'' → hook_run s (ops ++ ops') s''.

Lemma step_ok s ops s' : hook_step s ops s' → hook_ok s → hook_ok s'.
Proof.
  intros Hstep Hok. assert (Hf : ∀ f, hook_ok (set_bw_store f s)) by by intros f; destruct Hok; split.
  destruct Hstep as [path bytes c s s' E|path s s' E|s|s|s _].
  - unfold batched_write in E. destruct (fs_write _ _ _) as [f [[]|]]; [|done]. injection E as <-.
    by apply queue_update_ok.
  - unfold batched_delete in E. destruct (fs_delete _ _) as [f [[]|]]; [|done]. injection E as <-.
    by apply queue_update_ok.
  - apply enqueue_ok.
  - unfold run_task. destruct (bw_queue s !! 0%nat); [|done]. by destruct Hok; split.
  - apply enqueue_ok.
Qed.

(** C40 The batch that is waiting to be sent stays below the size limit, whatever is written
    and whenever the timer and the executor run: its size is tracked exactly, also when a
    path is written again, and it has a timer. *)
Theorem batch_bounded store client limit ops s :
  hook_run (new_Batched store client limit) ops s → 0 < from_option id 1 limit →
  bw_size s = batch_size (bw_batch s) ∧ 0 ≤ bw_size s < bw_limit s
  ∧ (bw_batch s ≠ [] → bw_timer s = true).
Proof.
  intros Hr Hl.
  assert (Hlim : bw_limit s = bw_limit (new_Batched store client limit) ∧ hook_ok s).
  { remember (new_Batched store client limit) as s0 eqn:E0.
    induction Hr as [s|s ops s' ops' s'' _ IH Hs]; [split; [done|]; subst; by apply empty_ok|].
    destruct (IH E0) as [IHl IHo]. split; [|by eapply step_ok]. rewrite <- IHl.
    destruct Hs as [path bytes c s' s'' E|path s' s'' E|s'|s'|s' _]; try done.
    - unfold batched_write in E. destruct (fs_write _ _ _) as [f [[]|]]; [|done]. injection E as <-.
      unfold queue_update. by destruct (_ <=? _).
    - unfold batched_delete in E. destruct (fs_delete _ _) as [f [[]|]]; [|done]. injection E as <-.
      unfold queue_update. by destruct (_ <=? _).
    - unfold run_task. by destruct (bw_queue s' !! 0%nat). }
  destruct Hlim as [Hlim [Hz _ Hb Ht]]. rewrite Hz in *. split; [done|]. split; [|done].
  split; [apply batch_size_nonneg|]. apply Hb. rewrite Hlim. simpl.
  destruct limit as [l|]; simpl in *; [|done]. by destruct (Z.eqb_spec l 0).
Qed.

(** ** The replica *)

(** Deletions cover their path; the stores read back what they are told, and delete what
    deletions cover. *)
Variable below : string → string → bool.
Hypothesis below_refl : ∀ p, below p p = true.
Definition stored (f : F) (p : string) : option string := match fs_read f p with Ok c => Some c | Raise _ => None end.
Hypothesis stored_write : ∀ p c q f f', fs_write p c f = (f', Ok tt) →
  stored f' q = if String.eqb q p then Some c else stored f q.
Hypothesis stored_delete : ∀ p q f f', fs_delete p f = (f', Ok tt) →
  stored f' q = if below p q then None else stored f q.
(** A server that accepts every request and applies it to its copy. *)
Variable remote : H → gmap string string.
Hypothesis accepts : ∀ items h, ∃ h', post_batch items h = (h', Ok tt)
  ∧ remote h' = foldl (apply_item below) (remote h) items.
(** The paths that files have. *)
Variable file_path : string → Prop.
Abbreviation update := (apply_update below).
Abbreviation updates := (apply_batch below).

(** What the server will have when the queue and the batch are delivered. *)
Definition eventual (s : hook) : gmap string string :=
  updates (foldl updates (remote (bw_client s)) (bw_queue s)) (bw_batch s).

(** Whether the order of two updates of different paths matters. *)
Definition conflicts (x y : string * Update) : bool :=
  match x.2, y.2 with
  | Write _ _, Delete => below y.1 x.1
  | Delete, Write _ _ => below x.1 y.1
  | _, _ => false
  end.
(** An update may be queued: where it takes the place of an older one, it overtakes no update
    with which it conflicts, and does not drop a deletion of other files. *)
Definition in_order (b : Batch) (x : string * Update) : Prop := ∀ b1 v b2,
  b = b1 ++ (x.1, v) :: b2 →
  Forall (λ y, conflicts x y = false) b2
  ∧ (v = Delete → x.2 ≠ Delete → ∀ q, file_path q → below x.1 q = true → q = x.1).
Definition writes_file (x : string * Update) : Prop := x.2 ≠ Delete → file_path x.1.
(** Runs whose updates may be queued. *)
Inductive ordered_run : hook → list (string * Update) → hook → Prop :=
  | or_refl s : ordered_run s [] s
  | or_step s ops s' ops' s'' :
      ordered_run s ops s' → hook_step s' ops' s'' → Forall (λ x, in_order (bw_batch s') x ∧ writes_file x) ops' →
      ordered_run s (ops ++ ops') s''.

Lemma lookup_update m x q :
  update m x !! q = match x.2 with
                    | Write _ c => if String.eqb q x.1 then Some c else m !! q
                    | Delete => if below x.1 q then None else m !! q
                    end.
Proof.
  unfold apply_update. destruct x as [p [bytes c|]]; simpl; [|apply lookup_removed].
  destruct (String.eqb_spec q p) as [->|]; [apply lookup_insert_eq|by apply lookup_insert_ne].
Qed.
Lemma update_comm m x y : x.1 ≠ y.1 → conflicts x y = false → update (update m x) y = update (update m y) x.
Proof.
  intros Hne Hc. apply map_eq. intros q. rewrite !lookup_update. unfold conflicts in Hc.
  destruct x as [p [b c|]], y as [p' [b' c'|]]; simpl in *.
  - destruct (String.eqb_spec q p), (String.eqb_spec q p'); congruence.
  - destruct (String.eqb_spec q p) as [->|]; [by rewrite Hc|done].
  - destruct (String.eqb_spec q p') as [->|]; [by rewrite Hc|done].
  - by destruct (below p q), (below p' q).
Qed.
Lemma updates_comm m b x :
  x.1 ∉ b.*1 → Forall (λ y, conflicts x y = false) b → updates (update m x) b = update (updates m b) x.
Proof.
  unfold apply_batch. revert m. induction b as [|y b IH]; intros m Hx Hc; [done|]. csimpl in *.
  apply not_elem_of_cons in Hx as [Hne Hx]. apply Forall_cons in Hc as [Hc1 Hc].
  rewrite <-IH by done. by rewrite update_comm.
Qed.
Definition files_in (m : gmap string string) : Prop := ∀ q, is_Some (m !! q) → file_path q.
Lemma updates_files m b : files_in m → Forall writes_file b → files_in (updates m b).
Proof.
  unfold apply_batch. revert m. induction b as [|x b IH]; intros m Hm Hb; [done|]. apply Forall_cons in Hb as [Hx Hb].
  apply IH; [|done]. intros q. rewrite lookup_update. destruct x as [p [bytes c|]]; simpl.
  - destruct (String.eqb_spec q p) as [->|]; [intros _; by apply Hx|apply Hm].
  - destruct (below p q); [by intros []|apply Hm].
Qed.
(** The last update of a path stands for both. *)
Lemma update_again m p v u :
  files_in m → (v = Delete → u ≠ Delete → ∀ q, file_path q → below p q = true → q = p) →
  update (update m (p, v)) (p, u) = update m (p, u).
Proof using below_refl.
  intros Hm Hv. apply map_eq. intros q. rewrite !lookup_update. simpl. destruct u as [b c|], v as [b' c'|]; simpl.
  - by destruct (String.eqb q p).
  - destruct (String.eqb_spec q p) as [|Hne]; [done|]. destruct (below p q) eqn:Hb; [|done].
    destruct (m !! q) eqn:Hq; [|done]. destruct Hne. apply Hv; [done..| |done]. apply Hm. by eexists.
  - destruct (String.eqb_spec q p) as [->|]; [by rewrite below_refl|done].
  - by destruct (below p q).
Qed.
Lemma dset_split {V} k (v : V) d :
  NoDup d.*1 → ((k ∉ d.*1) ∧ dset k v d = d ++ [(k, v)])
  ∨ ∃ d1 v0 d2, d = d1 ++ (k, v0) :: d2 ∧ dset k v d = d1 ++ (k, v) :: d2 ∧ (k ∉ d1.*1) ∧ (k ∉ d2.*1).
Proof.
  induction d as [|[k' v'] d IH]; csimpl; [left; split; [apply not_elem_of_nil|done]|]. intros [Hn Hd]%NoDup_cons.
  destruct (String.eqb_spec k k') as [<-|Hne].
  - right. exists [], v', d. split; [done|]. split; [done|]. split; [apply not_elem_of_nil|done].
  - destruct (IH Hd) as [[Hk ->]|(d1 & v0 & d2 & -> & -> & Hn1 & Hn2)].
    + left. split; [by apply not_elem_of_cons|done].
    + right. exists ((k', v') :: d1), v0, d2. split; [done|]. split; [done|]. split; [|done]. csimpl. by apply not_elem_of_cons.
Qed.
Lemma apply_dset x b m :
  NoDup b.*1 → files_in m → Forall writes_file b → in_order b x →
  updates m (dset x.1 x.2 b) = update (updates m b) x.
Proof using below_refl.
  intros Hk Hm Hb Ho. destruct x as [p u]. unfold apply_batch. cbn [fst snd].
  destruct (dset_split p u b Hk) as [[_ ->]|(b1 & v & b2 & Heq & -> & _ & Hn)]; [by rewrite foldl_app|].
  destruct (Ho _ _ _ Heq) as [Hc Hv]. rewrite Heq in *. rewrite Forall_app in Hb. destruct Hb as [Hb1 _]. rewrite !foldl_app. simpl.
  fold (updates m b1). set (m1 := updates m b1).
  change (updates (update m1 (p, u)) b2 = update (updates (update m1 (p, v)) b2) (p, u)).
  rewrite <-updates_comm by done. rewrite update_again; [done|by apply updates_files|done].
Qed.

Lemma send_remote b h : remote (send_batch decodes b h) = updates (remote h) b.
Proof using accepts.
  unfold send_batch. destruct b as [|x b]; [done|]. cbn [retry].
  destruct (accepts (payload decodes (x :: b)) h) as (h' & -> & Hr). simpl. by rewrite Hr, apply_payload.
Qed.
Lemma enqueue_eventual background s :
  background = true ∨ bw_queue s = [] → eventual (enqueue_batch decodes background s) = eventual s.
Proof using accepts.
  intros Hb. unfold eventual, enqueue_batch. destruct background; simpl.
  - by rewrite foldl_app.
  - destruct Hb as [|Hq]; [done|]. by rewrite Hq, send_remote.
Qed.
(** What is pending writes files only. *)
Record pending_ok (s : hook) : Prop := {
  po_hook : hook_ok s;
  po_remote : files_in (remote (bw_client s));
  po_queue : Forall (Forall writes_file) (bw_queue s);
  po_batch : Forall writes_file (bw_batch s);
}.
Lemma queue_files m q : files_in m → Forall (Forall writes_file) q → files_in (foldl updates m q).
Proof.
  revert m. induction q as [|b q IH]; intros m Hm Hq; [done|]. apply Forall_cons in Hq as [Hb Hq].
  apply IH; [|done]. by apply updates_files.
Qed.
Lemma dset_writes x b : writes_file x → Forall writes_file b → Forall writes_file (dset x.1 x.2 b).
Proof.
  destruct x as [p u]. intros Hx. induction 1 as [|[k v] b Hy Hb IH]; cbn; [by constructor|].
  destruct (String.eqb_spec p k) as [<-|]; by constructor.
Qed.
Lemma enqueue_pending background s :
  pending_ok s → pending_ok (enqueue_batch decodes background s).
Proof using accepts.
  intros [Hh Hr Hq Hb]. split; [apply enqueue_ok|..]; destruct background; simpl; try done.
  - rewrite send_remote. by apply updates_files.
  - apply Forall_app. by repeat constructor.
Qed.
Lemma queue_pending x s :
  pending_ok s → in_order (bw_batch s) x → writes_file x →
  pending_ok (queue_update decodes x.1 x.2 s)
  ∧ eventual (queue_update decodes x.1 x.2 s) = update (eventual s) x.
Proof using accepts below_refl.
  intros [Hh Hr Hq Hb] Ho Hx.
  assert (updates (foldl updates (remote (bw_client s)) (bw_queue s)) (dset x.1 x.2 (bw_batch s)) = update (eventual s) x) as He
    by (apply apply_dset; [apply Hh|by apply queue_files|done|done]).
  pose proof (dset_writes _ _ Hx Hb) as Hw. pose proof (queue_update_ok x.1 x.2 s Hh) as Hh'.
  unfold queue_update in *. destruct (_ <=? _).
  - split; [split; simpl; try done; apply Forall_app; by repeat constructor|]. by rewrite enqueue_eventual by by left.
  - by split.
Qed.

(** Every step keeps the copy-to-be what the store holds. *)
Lemma step_pending s ops s' :
  hook_step s ops s' → Forall (λ x, in_order (bw_batch s) x ∧ writes_file x) ops → pending_ok s →
  (∀ q, eventual s !! q = stored (bw_file_store s) q) →
  pending_ok s' ∧ ∀ q, eventual s' !! q = stored (bw_file_store s') q.
Proof using All.
  intros Hs Hin Hok He. assert (∀ f, pending_ok (set_bw_store f s)) as Hf.
  { intros f. destruct Hok as [[] Hr Hq Hb]. by repeat split. }
  destruct Hs as [path bytes c s s' E|path s s' E|s|s|s Hq].
  - unfold batched_write in E. destruct (fs_write _ _ _) as [f [[]|]] eqn:Ew; [|done]. injection E as <-.
    apply Forall_singleton in Hin as [Ho Hx].
    destruct (queue_pending _ _ (Hf f) Ho Hx) as [Hok' He']. simpl in Hok', He'. split; [done|]. intros q. rewrite He', lookup_update.
    change (eventual (set_bw_store f s)) with (eventual s). simpl. rewrite He.
    replace (bw_file_store (queue_update _ _ _ _)) with f by (unfold queue_update; by destruct (_ <=? _)).
    by rewrite (stored_write _ _ _ _ _ Ew).
  - unfold batched_delete in E. destruct (fs_delete _ _) as [f [[]|]] eqn:Ew; [|done]. injection E as <-.
    apply Forall_singleton in Hin as [Ho Hx].
    destruct (queue_pending _ _ (Hf f) Ho Hx) as [Hok' He']. simpl in Hok', He'. split; [done|]. intros q. rewrite He', lookup_update.
    change (eventual (set_bw_store f s)) with (eventual s). simpl. rewrite He.
    replace (bw_file_store (queue_update _ _ _ _)) with f by (unfold queue_update; by destruct (_ <=? _)).
    by rewrite (stored_delete _ _ _ _ Ew).
  - split; [by apply enqueue_pending|]. unfold timer_fires. by rewrite enqueue_eventual by by left.
  - unfold run_task. destruct (bw_queue s) as [|b q] eqn:Eq; simpl; [by split|].
    destruct Hok as [[] Hr Hq Hb]. rewrite Eq in Hq. apply Forall_cons in Hq as [Hb0 Hq]. split.
    + repeat split; simpl; try done. rewrite send_remote. by apply updates_files.
    + intros p. rewrite <-He. unfold eventual. simpl. by rewrite Eq, send_remote.
  - split; [by apply enqueue_pending|]. unfold flush. by rewrite enqueue_eventual by by right.
Qed.

(** C32 The other server ends up with the files that the store has: it accepts every request,
    and starts with a copy of the store; after any run of writes, deletions (of files or of
    everything below a path), timers and deliveries in order, as soon as nothing is waiting,
    a path reads the same in both.  Provided no update takes the place of an older one of
    its path in the same batch while it conflicts with one queued in between, or while it
    replaces a deletion of other files ([in_order]); see [batch_reorders] for the other
    case. *)
Theorem replica_catches_up store client limit ops s :
  (∀ q, remote client !! q = stored store q) → files_in (remote client) →
  ordered_run (new_Batched store client limit) ops s → bw_queue s = [] → bw_batch s = [] →
  ∀ q, remote (bw_client s) !! q = stored (bw_file_store s) q.
Proof using All.
  intros Hstart Hfiles Hr Hq Hb. assert (pending_ok s ∧ ∀ q, eventual s !! q = stored (bw_file_store s) q) as [_ He].
  { clear Hq Hb. remember (new_Batched store client limit) as s0 eqn:E0.
    induction Hr as [s|s ops s' ops' s'' _ IH Hs Hin].
    - subst s. split; [split; [by apply empty_ok|done|constructor|constructor]|exact Hstart].
    - destruct (IH E0) as [IHo IHe]. exact (step_pending _ _ _ Hs Hin IHo IHe). }
  intros q. rewrite <-He. unfold eventual. by rewrite Hq, Hb.
Qed.
End replica.

(** ** Examples *)

Module hook_example.
(** Deletions as those of the store in memory. *)
Definition under (p q : string) : bool := startswith q p.
(** A server that applies what it accepts; it fails as often as its counter says. *)
Record Server := mkServer { failures : nat; copy : gmap string string }.
#[local] Instance client : HookClient Server := {|
  post_batch := λ items h,
    match failures h with
    | O => (mkServer 0 (foldl (apply_item under) (copy h) items), Ok tt)
    | S n => (mkServer n (copy h), Raise (OtherError "HTTPStatusError" ""))
    end;
  post_file := λ _ _ h, (h, Ok tt);
  delete_file := λ _ h, (h, Ok tt);
|}.
Abbreviation text := (λ _ : string, true).
Definition start (failures : nat) : Batched :=
  new_Batched (mkInMemoryFileStore []) (mkServer failures ∅) (Some 4).
Definition write (p c : string) (s : Batched) : @Batched InMemoryFileStore Server :=
  (batched_write text p false c s).1.

(** A server that is its copy, and accepts everything. *)
#[local] Instance copying : HookClient (gmap string string) := {|
  post_batch := λ items h, (foldl (apply_item under) h items, Ok tt);
  post_file := λ _ _ h, (h, Ok tt);
  delete_file := λ _ h, (h, Ok tt);
|}.
Definition empty_hook : @Batched InMemoryFileStore (gmap string string) :=
  new_Batched (mkInMemoryFileStore []) ∅ (Some 4).
Lemma copying_accepts (items : list PayloadItem) (h : gmap string string) :
  ∃ h', post_batch items h = (h', Ok tt) ∧ id h' = foldl (apply_item under) (id h) items.
Proof. by eexists. Defined.
Lemma mem_stored_write p c q f f' :
  mem_write p c f = (f', Ok tt) → stored f' q = if String.eqb q p then Some c else stored f q.
Proof. intros [= <-]. unfold stored. simpl. unfold mem_read. simpl. rewrite dget_dset. by destruct (String.eqb q p). Qed.
Lemma mem_stored_delete p q f f' :
  mem_delete p f = (f', Ok tt) → stored f' q = if under p q then None else stored f q.
Proof.
  intros [= <-]. unfold stored, under. simpl. unfold mem_read. simpl.
  assert (∀ d : list (string * string), dget q (py_filter (λ kv, negb (startswith kv.1 p)) d)
          = if startswith q p then None else dget q d) as ->; [|by destruct (startswith q p)].
  induction d as [|[k v] d IH]; [by destruct (startswith q p)|]. cbn [py_filter dget fst].
  destruct (startswith k p) eqn:Hk; cbn [negb dget]; rewrite IH;
    (destruct (String.eqb_spec q k) as [->|]; [by rewrite Hk|done]).
Qed.

Lemma under_refl p : under p p = true.
Proof. unfold under, startswith. induction p as [|c p IH]; [done|]. simpl. by destruct (Ascii.ascii_dec c c). Qed.

(** A file is written and delivered, then its directory is deleted, and this delivered. *)
Definition written : Batched := run_task text 0 (batched_write text "/a/x" false "text" empty_hook).1.
Definition deleted : Batched := run_task text 0 (timer_fires text (batched_delete text "/a" written).1).
Lemma replica_catches_up_witness :
  bw_client written = {["/a/x" := "text"]} ∧ bw_client deleted !! "/a/x" = stored (bw_file_store deleted) "/a/x".
Proof.
  split; [vm_compute; reflexivity|].
  refine (replica_catches_up text under under_refl mem_stored_write mem_stored_delete id copying_accepts (λ _, True)
    (mkInMemoryFileStore []) ∅ (Some 4) (((((([] ++ [("/a/x", Write false "text")]) ++ []) ++ [("/a", Delete)]) ++ []) ++ []))
    deleted _ _ _ _ _ "/a/x").
  - intros q. reflexivity.
  - intros q _. exact I.
  - eapply or_step; [eapply or_step; [eapply or_step; [eapply or_step; [eapply or_step; [apply or_refl|..]|..]|..]|..]|..].
    + apply hs_write. vm_compute. reflexivity.
    + repeat constructor; by destruct b1.
    + apply hs_task.
    + constructor.
    + apply hs_delete. vm_compute. reflexivity.
    + repeat constructor; by destruct b1.
    + apply hs_timer.
    + constructor.
    + apply hs_task.
    + constructor.
  - vm_compute. reflexivity.
  - vm_compute. reflexivity.
Defined.

(** A file that is written again after its directory was deleted keeps its place in the
    batch, before the deletion: it is lost on the other server. *)
Example batch_reorders :
  let s0 := new_Batched (mkInMemoryFileStore []) (∅ : gmap string string) None in
  let s := flush text (batched_write text "/a/x" false "2" (batched_delete text "/a" (batched_write text "/a/x" false "1" s0).1).1).1 in
  bw_client s = ∅ ∧ stored (bw_file_store s) "/a/x" = Some "2".
Proof. vm_compute. done. Qed.

Lemma batch_bounded_witness :
  bw_size (write "/a" "old" (start 0)) = 3 ∧ bw_size (write "/a" "old" (start 0)) < 4.
Proof.
  destruct (batch_bounded text (mkInMemoryFileStore []) (mkServer 0 ∅) (Some 4)
              ([] ++ [("/a", Write false "old")]) (write "/a" "old" (start 0))) as (H1 & H2 & _).
  - eapply hr_step; [apply hr_refl|]. apply hs_write. vm_compute. reflexivity.
  - simpl. lia.
  - split; [exact H1|]. apply H2.
Defined.

(** A flush overtakes the batches that are waiting for the executor: the older text of the
    file arrives last. *)
Example flush_overtakes :
  let s := write "/a" "new" (write "/a" "older" (start 0)) in
  copy (bw_client (run_task text 0 (flush text s))) = {["/a" := "older"]}
  ∧ bw_queue (run_task text 0 (flush text s)) = [].
Proof. by vm_compute. Qed.

(** A batch whose request fails three times is given up, and the file never arrives. *)
Example failed_batch_lost :
  let s := run_task text 0 (write "/a" "text" (start 3)) in
  (copy (bw_client s), bw_queue s, bw_batch s) = (∅, [], []).
Proof. by vm_compute. Qed.
End hook_example.
