(* ===== verification/RateLimiter.v ===== *)
(** * The server's middleware

    Models [openhands/server/middleware.py]: the rate limiter, cache control and the CORS
    rule for local origins.  Times are in microseconds; the two readings of the clock of a
    call are arguments.  Parameters: the rest of the application, the host of a URL, and
    the parent class's rule. *)

From S2P Require Import Prelude PyValue ConversationStats.
Local Open Scope Z_scope.

(** ** [InMemoryRateLimiter] *)

Record RateLimiter := mkRateLimiter {
  rl_requests : Z;
  rl_seconds : Z;
  rl_sleep_seconds : Z;
  rl_history : list (string * list Z);
}.
Definition history_of (l : RateLimiter) (key : string) : list Z := from_option id [] (dget key (rl_history l)).
Definition set_history_of (key : string) (ts : list Z) (l : RateLimiter) : RateLimiter :=
  mkRateLimiter (rl_requests l) (rl_seconds l) (rl_sleep_seconds l) (dset key ts (rl_history l)).
Definition new_RateLimiter (requests seconds sleep_seconds : Z) : RateLimiter :=
  mkRateLimiter requests seconds sleep_seconds [].

(** [_clean_old_requests] at the time [now] *)
Definition cutoff (l : RateLimiter) (now : Z) : Z := now - rl_seconds l * 1000000.
Definition clean_old_requests (key : string) (now : Z) (l : RateLimiter) : RateLimiter :=
  set_history_of key (py_filter (λ ts, cutoff l now <? ts) (history_of l key)) l.

(** [Delayed]: allowed after a sleep. *)
Inductive Verdict := Allowed | Delayed | Refused.
#[export] Instance Verdict_eq_dec : EqDecision Verdict.
Proof. solve_decision. Defined.

(** [__call__]; the clock is read at [now], and again for the cleaning at [later]. *)
Definition limiter_call (key : string) (now later : Z) (l : RateLimiter) : RateLimiter * Verdict :=
  let l := clean_old_requests key later l in
  let l := set_history_of key (history_of l key ++ [now]) l in
  let n := py_len (history_of l key) in
  (l, if rl_requests l * 2 <? n then Refused
      else if rl_requests l <? n then if 0 <? rl_sleep_seconds l then Delayed else Refused
      else Allowed).

(** ** The middleware *)

Record Response := mkResponse { rs_status : Z; rs_headers : list (string * string); rs_body : json }.

Definition is_rate_limited_request (path : string) : bool := negb (startswith path "/assets").

(** [RateLimitMiddleware.dispatch]; [next] is the rest of the application's answer. *)
Definition rate_limit_dispatch (path host : string) (now later : Z) (next : Response) (l : RateLimiter) :
    RateLimiter * Response :=
  if negb (is_rate_limited_request path) then (l, next)
  else
    let '(l, v) := limiter_call host now later l in
    (l, if bool_decide (v = Refused)
        then mkResponse 429 [("Retry-After", "1")] (JDict [("message", JStr "Too many requests")])
        else next).

(** [CacheControlMiddleware.dispatch] *)
Definition cache_control (path : string) (r : Response) : Response :=
  let set k v (h : list (string * string)) := dset k v h in
  mkResponse (rs_status r)
    (if startswith path "/assets" then set "Cache-Control" "public, max-age=2592000, immutable" (rs_headers r)
     else set "Expires" "0" (set "Pragma" "no-cache"
            (set "Cache-Control" "no-cache, no-store, must-revalidate, max-age=0" (rs_headers r))))
    (rs_body r).

(** [LocalhostCORSMiddleware.is_allowed_origin] *)
Definition is_allowed_origin (hostname : string → option string) (parent_rule : string → bool)
    (configured : bool) (origin : string) : bool :=
  (negb (String.eqb origin "") && negb configured
   && existsb (String.eqb (from_option id "" (hostname origin))) ["localhost"; "127.0.0.1"])
  || parent_rule origin.

(** ** The rate *)

(** Calls in the order in which they are made, with what they are answered. *)
Record Call := mkCall { cl_key : string; cl_now : Z; cl_later : Z }.
Fixpoint run_calls (calls : list Call) (l : RateLimiter) : RateLimiter * list Verdict :=
  match calls with
  | [] => (l, [])
  | c :: calls =>
      let '(l, v) := limiter_call (cl_key c) (cl_now c) (cl_later c) l in
      let '(l, vs) := run_calls calls l in (l, v :: vs)
  end.

(** The clock does not run backwards. *)
Fixpoint clock (t : Z) (calls : list Call) : Prop :=
  match calls with
  | [] => True
  | c :: calls => t ≤ cl_now c ∧ cl_now c ≤ cl_later c ∧ clock (cl_later c) calls
  end.

(** The times of a client's calls after a moment. *)
Definition calls_since (key : string) (t : Z) (calls : list Call) : list Z :=
  py_filter (λ ts, t <? ts) (cl_now <$> py_filter (λ c, String.eqb key (cl_key c)) calls).

Lemma limiter_history key key' now later l :
  history_of (limiter_call key now later l).1 key'
  = if String.eqb key' key
    then py_filter (λ ts, cutoff l later <? ts) (history_of l key) ++ [now] else history_of l key'.
Proof.
  unfold limiter_call, clean_old_requests, history_of, set_history_of. simpl. rewrite !dget_dset.
  destruct (String.eqb_spec key' key) as [->|]; [|done]. by rewrite String.eqb_refl.
Qed.

(** ** The limiter is a sliding window

    The reference keeps no history that is cleaned: it counts the calls that the client has
    made since the window's begin, refused ones included. *)
Definition window_verdict (requests seconds sleep_seconds : Z) (past : list Call) (c : Call) : Verdict :=
  let n := 1 + py_len (calls_since (cl_key c) (cl_later c - seconds * 1000000) past) in
  if n <=? requests then Allowed
  else if (n <=? requests * 2) && (0 <? sleep_seconds) then Delayed else Refused.

Fixpoint window_verdicts (requests seconds sleep_seconds : Z) (past calls : list Call) : list Verdict :=
  match calls with
  | [] => []
  | c :: calls =>
      window_verdict requests seconds sleep_seconds past c
      :: window_verdicts requests seconds sleep_seconds (past ++ [c]) calls
  end.

(** What is left of the histories counts every call of a window that is still open. *)
Definition remembers (past : list Call) (t : Z) (l : RateLimiter) : Prop :=
  ∀ key since, cutoff l t ≤ since →
    py_filter (λ ts, since <? ts) (history_of l key) = calls_since key since past.

Lemma limiter_seconds key now later l :
  rl_seconds (limiter_call key now later l).1 = rl_seconds l
  ∧ rl_requests (limiter_call key now later l).1 = rl_requests l
  ∧ rl_sleep_seconds (limiter_call key now later l).1 = rl_sleep_seconds l.
Proof. done. Qed.

Lemma limiter_remembers past t c l :
  remembers past t l → t ≤ cl_later c →
  remembers (past ++ [c]) (cl_later c) (limiter_call (cl_key c) (cl_now c) (cl_later c) l).1.
Proof.
  intros Hr Ht key since Hs. unfold cutoff in Hs. destruct (limiter_seconds (cl_key c) (cl_now c) (cl_later c) l) as (Es & _).
  rewrite Es in Hs. rewrite limiter_history. unfold calls_since. rewrite py_filter_app, fmap_app, py_filter_app.
  fold (calls_since key since past). rewrite <-(Hr key since) by (unfold cutoff; lia). simpl.
  destruct (String.eqb_spec key (cl_key c)) as [->|]; simpl; [|by rewrite app_nil_r].
  rewrite py_filter_app, py_filter_filter. f_equal. apply py_filter_ext. intros x _. unfold cutoff. lia.
Qed.

Lemma limiter_verdict past t c l :
  remembers past t l → t ≤ cl_later c → 0 ≤ rl_requests l →
  (limiter_call (cl_key c) (cl_now c) (cl_later c) l).2
  = window_verdict (rl_requests l) (rl_seconds l) (rl_sleep_seconds l) past c.
Proof.
  intros Hr Ht H0. unfold window_verdict. rewrite <-(Hr (cl_key c)) by (unfold cutoff; lia).
  assert (py_len (history_of (limiter_call (cl_key c) (cl_now c) (cl_later c) l).1 (cl_key c))
          = 1 + py_len (py_filter (λ ts, cutoff l (cl_later c) <? ts) (history_of l (cl_key c)))) as El.
  { rewrite limiter_history, String.eqb_refl. unfold py_len. rewrite length_app. simpl. lia. }
  unfold limiter_call in El |- *. simpl in El |- *. rewrite El. unfold cutoff.
  set (n := 1 + _). clearbody n. repeat case_match; simpl in *; try done; lia.
Qed.

Lemma run_calls_window calls past t l :
  remembers past t l → clock t calls → 0 ≤ rl_requests l →
  (run_calls calls l).2 = window_verdicts (rl_requests l) (rl_seconds l) (rl_sleep_seconds l) past calls.
Proof.
  revert past t l. induction calls as [|c calls IH]; intros past t l Hr Hc H0; [done|]. destruct Hc as (? & ? & Hc).
  cbn [run_calls window_verdicts]. rewrite <-(limiter_verdict past t) by (done || lia).
  pose proof (limiter_remembers past t c l Hr ltac:(lia)) as Hr'.
  destruct (limiter_seconds (cl_key c) (cl_now c) (cl_later c) l) as (Es & Eq & Ep).
  destruct (limiter_call _ _ _ l) as [l' v]. simpl in *. rewrite <-Es, <-Eq, <-Ep.
  rewrite <-(IH _ (cl_later c) l' Hr' Hc) by lia. by destruct (run_calls calls l').
Qed.

(** The rate limiter answers every sequence of calls of any clients, as long as the clock
    does not run backwards, as a sliding window does: with the number [n] of calls that the
    client has made in the last [seconds] (this one and the refused ones counted), a call is
    allowed up to [requests], delayed up to twice as many when the limiter may sleep, and
    refused beyond.  The cleaning of old requests forgets nothing that counts, and the
    calls of one client do not count for another. *)
Theorem limiter_sliding_window requests seconds sleep_seconds t calls :
  0 ≤ requests → clock t calls →
  (run_calls calls (new_RateLimiter requests seconds sleep_seconds)).2
  = window_verdicts requests seconds sleep_seconds [] calls.
Proof. intros H0 Hc. by apply (run_calls_window calls [] t). Qed.

Module limiter_example.
Definition at_ms (key : string) (ms : Z) : Call := mkCall key (ms * 1000) (ms * 1000 + 7).
Definition calls : list Call :=
  [at_ms "a" 0; at_ms "a" 100; at_ms "a" 200; at_ms "b" 250; at_ms "a" 300; at_ms "a" 400; at_ms "a" 1150].

Lemma limiter_sliding_window_witness :
  clock 0 calls
  ∧ window_verdicts 2 1 1 [] calls = [Allowed; Allowed; Delayed; Allowed; Delayed; Refused; Delayed]
  ∧ (run_calls calls (new_RateLimiter 2 1 1)).2 = window_verdicts 2 1 1 [] calls.
Proof.
  assert (clock 0 calls) as Hc by (repeat split; simpl; lia).
  split; [exact Hc|]. split; [vm_compute; reflexivity|]. apply (limiter_sliding_window 2 1 1 0 calls); [lia|exact Hc].
Defined.

(** A client that goes on sending stays refused, since refused calls count. *)
Example refused_calls_count :
  (run_calls (at_ms "a" <$> [0; 300; 600; 900; 1200; 1500]) (new_RateLimiter 1 1 0)).2
  = [Allowed; Refused; Refused; Refused; Refused; Refused].
Proof. vm_compute. reflexivity. Qed.
End limiter_example.
