(* ===== verification/Ps1.v ===== *)
(** * The shell's prompt

    Models [CmdOutputMetadata] of [events/observation/commands.py]: the prompt that makes
    the shell print its state as a document, and reading these documents back from the text
    of a terminal. *)

From S2P Require Import Prelude PyValue Observations Serialization EventStore EventStream FnCallTexts StrSearch PyFloat.
From Stdlib Require Import Floats.SpecFloat.
Local Open Scope Z_scope.
Local Open Scope py_scope.

(** [s[a:b]] for [0 <= a] *)
Definition str_slice (a b : Z) (s : string) : string := String.substring (Z.to_nat a) (Z.to_nat (b - a)) s.
(** [s[a:]] *)
Definition str_from (a : Z) (s : string) : string := str_slice a (str_len s) s.

(** ** The prompt *)

Definition CMD_OUTPUT_PS1_BEGIN : string := nl +:+ "###PS1JSON###" +:+ nl.
Definition CMD_OUTPUT_PS1_END : string := nl +:+ "###PS1END###".

(** [json.dumps(.., indent=2)] of a dictionary of ASCII texts without control characters *)
Fixpoint json_escape (s : string) : string :=
  match s with
  | EmptyString => EmptyString
  | String c s' =>
      (if String.eqb (String c "") quote || Ascii.eqb c "\" then String "\" (String c "") else String c "") +:+ json_escape s'
  end.
Definition dumps_indented (d : list (string * string)) : string :=
  "{" +:+ nl
  +:+ str_join ("," +:+ nl) ((λ '(k, v), "  " +:+ quote +:+ json_escape k +:+ quote +:+ ": " +:+ quote
                                         +:+ json_escape v +:+ quote) <$> d)
  +:+ nl +:+ "}".

Definition to_ps1_prompt : string :=
  CMD_OUTPUT_PS1_BEGIN
  +:+ str_replace quote ("\" +:+ quote)
        (dumps_indented
           [("pid", "$!"); ("exit_code", "$?"); ("username", "\u"); ("hostname", "\h");
            ("working_dir", "$(pwd)");
            ("py_interpreter_path", "$(which python 2>/dev/null || echo " +:+ quote +:+ quote +:+ ")")])
  +:+ CMD_OUTPUT_PS1_END +:+ nl.

(** ** Reading it back *)

(** A match of [CMD_OUTPUT_METADATA_PS1_REGEX]: [start()], [end()], [group(1)]. *)
Record Ps1Match := mkPs1Match { pm_start : Z; pm_end : Z; pm_body : string }.
#[export] Instance Ps1Match_eq_dec : EqDecision Ps1Match.
Proof. solve_decision. Defined.

Definition PS1_BEGIN : string := str_strip CMD_OUTPUT_PS1_BEGIN.
Definition PS1_END : string := str_strip CMD_OUTPUT_PS1_END.

(** The pattern at a position: the shortest text up to the end mark. *)
Definition ps1_match (s : string) : option string :=
  match after_prefix PS1_BEGIN s with
  | Some t => fst <$> str_cut PS1_END t
  | None => None
  end.
Definition ps1_length (body : string) : nat := (String.length PS1_BEGIN + String.length body + String.length PS1_END)%nat.

(** [finditer]: at [bol] a line begins, where [^] matches; [skip] characters of a match
    remain. *)
Fixpoint ps1_finditer (pos : Z) (bol : bool) (skip : nat) (s : string) : list Ps1Match :=
  match s with
  | EmptyString => []
  | String c s' =>
      match skip with
      | S k => ps1_finditer (pos + 1) (Ascii.eqb c newline) k s'
      | O => match (if bol then ps1_match s else None) with
             | Some body =>
                 mkPs1Match pos (pos + Z.of_nat (ps1_length body)) body
                 :: ps1_finditer (pos + 1) (Ascii.eqb c newline) (pred (ps1_length body)) s'
             | None => ps1_finditer (pos + 1) (Ascii.eqb c newline) O s'
             end
      end
  end.

Definition int_of_float (x : float) : result Z :=
  match x with
  | S754_zero _ => Ok 0
  | S754_finite s m e =>
      let n := if 0 <=? e then Z.pos m * 2 ^ e else Z.pos m / 2 ^ (- e) in Ok (if s then - n else n)
  | S754_infinity _ => Raise (OtherError "OverflowError" "cannot convert float infinity to integer")
  | S754_nan => Raise (ValueError "cannot convert float NaN to integer")
  end.

(** [int(float(str(v)))]; printing a float and reading it back gives it again. *)
Definition int_float_str (v : json) : result Z :=
  match v with
  | JStr s => let? x := py_float s in int_of_float x
  | JInt z => let? x := py_float (pretty z) in int_of_float x
  | JFloat x => int_of_float x
  | JNull | JBool _ | JList _ | JDict _ => Raise (ValueError "could not convert string to float")
  end.

(** [processed[k] = ...], with -1 for what is no number *)
Definition numeric_field (k : string) (metadata processed : dict) : result dict :=
  match dget k metadata with
  | None => Ok processed
  | Some v =>
      match int_float_str v with
      | Ok n => Ok (dset k (JInt n) processed)
      | Raise (ValueError _) | Raise (TypeError _) => Ok (dset k (JInt (-1)) processed)
      | Raise e => Raise e
      end
  end.

Section platform.
Context `{Platform}.

Definition matches_ps1_metadata (s : string) : list Ps1Match :=
  py_filter (λ m, match json_loads (str_strip (pm_body m)) with Ok _ => true | Raise _ => false end)
    (ps1_finditer 0 true O s).

Definition from_ps1_match (m : Ps1Match) : result CmdOutputMetadata :=
  let? metadata := json_loads (pm_body m) in
  match metadata with
  | JDict metadata =>
      let? processed := numeric_field "pid" metadata metadata in
      let? processed := numeric_field "exit_code" metadata processed in
      metadata_load processed
  | JList _ => Raise (TypeError "argument after ** must be a mapping, not list")
  | _ => Raise (OtherError "AttributeError" "object has no attribute 'copy'")
  end.
End platform.

(** What the shell is given, in a text for which [|] stands for a quotation mark. *)
Example prompt_text :
  str_replace quote "|" to_ps1_prompt
  = str_join nl
      [""; "###PS1JSON###"; "{"; "  \|pid\|: \|$!\|,"; "  \|exit_code\|: \|$?\|,";
       "  \|username\|: \|\\u\|,"; "  \|hostname\|: \|\\h\|,"; "  \|working_dir\|: \|$(pwd)\|,";
       "  \|py_interpreter_path\|: \|$(which python 2>/dev/null || echo \\|\\|)\|"; "}"; "###PS1END###"; ""].
Proof. vm_compute. reflexivity. Qed.

(** ** Prompts are found again *)

Lemma str_slice_mid a b c lo hi :
  lo = str_len a → hi = str_len a + str_len b → str_slice lo hi (a +:+ b +:+ c) = b.
Proof.
  intros -> ->. unfold str_slice, str_len.
  replace (Z.to_nat (Z.of_nat (String.length a))) with (String.length a) by lia.
  replace (Z.to_nat (_ - _)) with (String.length b) by lia.
  induction a as [|x a IH]; [|exact IH]. change ("" +:+ b +:+ c) with (b +:+ c). by apply substring0_app.
Qed.
Lemma str_from_app a b lo : lo = str_len a → str_from lo (a +:+ b) = b.
Proof.
  intros ->. unfold str_from. rewrite <-(append_empty_r b) at 2. apply str_slice_mid; [done|]. by rewrite str_len_append.
Qed.

(** The search goes on behind a character that the pattern does not have. *)
Lemma str_cut_past pat a d b :
  str_contains pat a = false → has_char d pat = false → pat ≠ "" →
  str_cut pat (a +:+ String d b) = (λ '(x, y), (a +:+ String d x, y)) <$> str_cut pat b.
Proof.
  intros Ha Hd Hne. induction a as [|e a IH].
  - change ("" +:+ String d b) with (String d b). cbn [str_cut]. destruct pat as [|c p]; [done|].
    rewrite prefix_cons. simpl in Hd. apply orb_false_iff in Hd as [Hd _]. rewrite Ascii.eqb_sym, Hd. simpl.
    by destruct (str_cut _ b) as [[]|].
  - cbn [str_contains] in Ha. apply orb_false_iff in Ha as [Hp Ha]. rewrite append_cons. cbn [str_cut].
    assert (String.prefix pat (String e (a +:+ String d b)) = false) as ->.
    { apply not_true_is_false. intros E. rewrite <-append_cons in E. apply prefix_app_char in E; [congruence|done]. }
    rewrite (IH Ha). by destruct (str_cut pat b) as [[]|].
Qed.

(** What the shell prints for a document. *)
Definition ps1_body (doc : string) : string := nl +:+ doc +:+ nl.
Definition ps1_block (doc : string) : string := PS1_BEGIN +:+ ps1_body doc +:+ PS1_END.
Definition doc_ok (doc : string) : bool := negb (str_contains PS1_END (nl +:+ doc)).
(** A text without a prompt. *)
Definition no_prompt (s : string) : bool := negb (str_contains PS1_BEGIN s).

Lemma ps1_match_block doc rest : doc_ok doc = true → ps1_match (ps1_block doc +:+ rest) = Some (ps1_body doc).
Proof.
  intros Hd%negb_true_iff. unfold ps1_match, ps1_block. rewrite <-!append_assoc, after_prefix_app.
  unfold ps1_body. rewrite (append_assoc nl doc nl), <-(append_assoc (nl +:+ doc) nl).
  change (nl +:+ (PS1_END +:+ rest)) with (String newline (PS1_END +:+ rest)).
  rewrite str_cut_past by done. by rewrite str_cut_front.
Qed.

Lemma no_prompt_match c a d b :
  str_contains PS1_BEGIN (String c a) = false → has_char d PS1_BEGIN = false →
  ps1_match (String c a +:+ String d b) = None.
Proof.
  intros Ha Hd. unfold ps1_match, after_prefix. destruct (String.prefix _ _) eqn:E; [|done].
  apply prefix_app_char in E; [|done]. cbn [str_contains] in Ha. by rewrite E in Ha.
Qed.

(** A text without prompt up to the end of a line is passed. *)
Lemma finditer_text pos bol a rest :
  no_prompt a = true →
  ps1_finditer pos bol O (a +:+ nl +:+ rest) = ps1_finditer (pos + str_len a + 1) true O rest.
Proof.
  intros Ha%negb_true_iff. revert pos bol. induction a as [|c a IH]; intros pos bol.
  - change ("" +:+ nl +:+ rest) with (String newline rest). cbn [ps1_finditer].
    assert ((if bol then ps1_match (String newline rest) else None) = None) as -> by by destruct bol.
    f_equal. unfold str_len. simpl. lia.
  - rewrite append_cons. cbn [ps1_finditer].
    assert ((if bol then ps1_match (String c (a +:+ nl +:+ rest)) else None) = None) as ->.
    { destruct bol; [|done]. by apply (no_prompt_match c a newline rest). }
    cbn [str_contains] in Ha. apply orb_false_iff in Ha as [_ Ha]. rewrite (IH Ha). f_equal. unfold str_len. simpl. lia.
Qed.
Lemma finditer_end pos bol a : no_prompt a = true → ps1_finditer pos bol O a = [].
Proof.
  intros Ha%negb_true_iff. revert pos bol. induction a as [|c a IH]; intros pos bol; [done|]. cbn [ps1_finditer].
  cbn [str_contains] in Ha. apply orb_false_iff in Ha as [Hp Ha].
  assert ((if bol then ps1_match (String c a) else None) = None) as ->.
  { destruct bol; [|done]. unfold ps1_match, after_prefix. by rewrite Hp. }
  by apply IH.
Qed.

(** The rest of a match is passed; its last character does not end a line. *)
Lemma finditer_pass pos bol a c rest :
  c ≠ newline →
  ps1_finditer pos bol (String.length a + 1) (a +:+ String c rest) = ps1_finditer (pos + str_len a + 1) false O rest.
Proof.
  intros Hc. revert pos bol. induction a as [|e a IH]; intros pos bol.
  - change ("" +:+ String c rest) with (String c rest). simpl.
    destruct (Ascii.eqb_spec c newline); [done|]. f_equal. unfold str_len. simpl. lia.
  - rewrite append_cons. simpl. rewrite IH. f_equal. unfold str_len. simpl. lia.
Qed.

Lemma ps1_block_length doc : str_len (ps1_block doc) = Z.of_nat (ps1_length (ps1_body doc)).
Proof. unfold ps1_block, ps1_length, str_len. rewrite !length_append. lia. Qed.

Lemma finditer_block pos doc rest :
  doc_ok doc = true →
  ps1_finditer pos true O (ps1_block doc +:+ rest)
  = mkPs1Match pos (pos + str_len (ps1_block doc)) (ps1_body doc)
    :: ps1_finditer (pos + str_len (ps1_block doc)) false O rest.
Proof.
  intros Hd. pose proof (ps1_match_block doc rest Hd) as Hm. pose proof (ps1_block_length doc) as Hl. rewrite Hl.
  assert (∃ a, ps1_block doc = String "#" (a +:+ "#")) as [a Ea].
  { exists ("##PS1JSON###" +:+ ps1_body doc +:+ "###PS1END##"). unfold ps1_block.
    change PS1_BEGIN with (String "#" "##PS1JSON###"). change PS1_END with ("###PS1END##" +:+ "#").
    by rewrite <-!append_assoc. }
  rewrite Ea in Hm, Hl |- *. rewrite append_cons in Hm |- *. cbn [ps1_finditer]. rewrite Hm. f_equal.
  unfold str_len in Hl. simpl in Hl. rewrite length_append in Hl. simpl in Hl.
  replace (pred (ps1_length (ps1_body doc))) with (String.length a + 1)%nat by lia.
  rewrite <-append_assoc. change ("#" +:+ rest) with (String "#" rest). rewrite finditer_pass by done.
  f_equal. unfold str_len. lia.
Qed.

(** A terminal's text: prompts with what was printed after each of them, in whole lines. *)
Fixpoint transcript (l : list (string * string)) : string :=
  match l with
  | [] => ""
  | (doc, out) :: l => ps1_block doc +:+ nl +:+ out +:+ transcript l
  end.
Definition whole_lines (s : string) : bool := String.eqb s "" || endswith s nl.
Definition transcript_ok (l : list (string * string)) : bool :=
  forallb (λ '(doc, out), doc_ok doc && no_prompt out && whole_lines out) l.
Fixpoint transcript_matches (pos : Z) (l : list (string * string)) : list Ps1Match :=
  match l with
  | [] => []
  | (doc, out) :: l =>
      mkPs1Match pos (pos + str_len (ps1_block doc)) (ps1_body doc)
      :: transcript_matches (pos + str_len (ps1_block doc) + 1 + str_len out) l
  end.

Lemma endswith_nl_inv s : endswith s nl = true → ∃ a, s = a +:+ nl.
Proof.
  intros H. apply prefix_inv in H as [b Hb]. exists (String.rev b).
  rewrite <-(rev_involutive s), Hb, rev_append. done.
Qed.
Lemma contains_prefix pat a b : str_contains pat (a +:+ b) = false → str_contains pat a = false.
Proof.
  induction a as [|c a IH]; intros Hc.
  - destruct pat as [|d p]; [|done]. change ("" +:+ b) with b in Hc. destruct b; simpl in Hc; done.
  - rewrite append_cons in Hc. cbn [str_contains] in *. apply orb_false_iff in Hc as [Hp Hc].
    rewrite (IH Hc), orb_false_r. apply not_true_is_false. intros E. apply prefix_inv in E as [x Hx].
    rewrite <-append_cons, Hx, <-append_assoc, prefix_append in Hp. done.
Qed.

Lemma no_prompt_prefix a b : no_prompt (a +:+ b) = true → no_prompt a = true.
Proof. unfold no_prompt. rewrite !negb_true_iff. apply contains_prefix. Qed.

(** Whole lines without a prompt are passed. *)
Lemma finditer_lines pos out rest :
  no_prompt out = true → whole_lines out = true →
  ps1_finditer pos true O (out +:+ rest) = ps1_finditer (pos + str_len out) true O rest.
Proof.
  intros Hn He. apply orb_true_iff in He as [->%String.eqb_eq|[a ->]%endswith_nl_inv].
  - f_equal. unfold str_len. simpl. lia.
  - rewrite <-append_assoc, finditer_text by by eapply no_prompt_prefix. f_equal.
    rewrite str_len_append. unfold str_len. simpl. lia.
Qed.
Lemma finditer_newline pos bol rest : ps1_finditer pos bol O (nl +:+ rest) = ps1_finditer (pos + 1) true O rest.
Proof.
  pose proof (finditer_text pos bol "" rest eq_refl) as Ht. change ("" +:+ nl +:+ rest) with (nl +:+ rest) in Ht.
  rewrite Ht. unfold str_len. simpl. f_equal. lia.
Qed.

Lemma finditer_transcript pos l rest :
  transcript_ok l = true →
  ps1_finditer pos true O (transcript l +:+ rest)
  = transcript_matches pos l ++ ps1_finditer (pos + str_len (transcript l)) true O rest.
Proof.
  revert pos. induction l as [|[doc out] l IH]; intros pos Hok.
  { simpl. f_equal. unfold str_len. simpl. lia. }
  cbn [transcript transcript_matches]. cbn [transcript_ok forallb] in Hok.
  apply andb_true_iff in Hok as [[[Hd Ho]%andb_true_iff He]%andb_true_iff Hok].
  rewrite <-!append_assoc, finditer_block, finditer_newline, finditer_lines, IH by done.
  cbn [app]. f_equal. f_equal. f_equal. rewrite !str_len_append. unfold str_len. simpl. lia.
Qed.

(** What follows the last prompt. *)
Definition tail_ok (tail : string) : bool :=
  String.eqb tail "" || (startswith tail nl && no_prompt (String.substring 1 (String.length tail - 1) tail)).

Lemma finditer_last pos doc tail :
  doc_ok doc = true → tail_ok tail = true →
  ps1_finditer pos true O (ps1_block doc +:+ tail)
  = [mkPs1Match pos (pos + str_len (ps1_block doc)) (ps1_body doc)].
Proof.
  intros Hd Ht. rewrite finditer_block by done. f_equal. apply orb_true_iff in Ht as [->%String.eqb_eq|Ht]; [done|].
  apply andb_true_iff in Ht as [[t ->]%prefix_inv Hn]. rewrite finditer_newline. apply finditer_end.
  change (nl +:+ t) with (String newline t) in Hn. simpl in Hn. by rewrite Nat.sub_0_r, substring_full in Hn.
Qed.

(** The text of a pane that ends in a prompt, or in one and what is typed after it. *)
Definition pane_text (pre : string) (l : list (string * string)) (doc tail : string) : string :=
  pre +:+ transcript l +:+ ps1_block doc +:+ tail.
Definition pane_ok (pre : string) (l : list (string * string)) (doc tail : string) : bool :=
  no_prompt pre && whole_lines pre && transcript_ok l && doc_ok doc && tail_ok tail.
Definition pane_matches (pre : string) (l : list (string * string)) (doc : string) : list Ps1Match :=
  transcript_matches (str_len pre) (l ++ [(doc, "")]).

Lemma transcript_matches_app pos l k :
  transcript_matches pos (l ++ k) = transcript_matches pos l ++ transcript_matches (pos + str_len (transcript l)) k.
Proof.
  revert pos. induction l as [|[doc out] l IH]; intros pos.
  - simpl. f_equal. unfold str_len. simpl. lia.
  - simpl. rewrite IH. f_equal. f_equal. f_equal. rewrite !str_len_append. unfold str_len. simpl. lia.
Qed.

Lemma finditer_pane pre l doc tail :
  pane_ok pre l doc tail = true →
  ps1_finditer 0 true O (pane_text pre l doc tail) = pane_matches pre l doc.
Proof.
  intros [[[[Hn Hw]%andb_true_iff Hl]%andb_true_iff Hd]%andb_true_iff Ht]%andb_true_iff.
  unfold pane_text, pane_matches. rewrite finditer_lines, finditer_transcript, finditer_last by done.
  by rewrite transcript_matches_app.
Qed.

(** ** The shell's state is read *)

(** Exit statuses of a shell are printed as numbers from 0 to 255. *)
Lemma exit_status_read n : 0 ≤ n < 256 → int_float_str (JStr (pretty n)) = Ok n.
Proof.
  assert (Forall (λ n, int_float_str (JStr (pretty n)) = Ok n) (seqZ 0 256)) as Hall.
  { apply (bool_decide_unpack (Forall (λ n, int_float_str (JStr (pretty n)) = Ok n) (seqZ 0 256))). vm_compute. exact I. }
  intros Hn. rewrite Forall_forall in Hall. apply Hall. apply elem_of_seqZ. lia.
Qed.

(** The document of the prompt, as the shell fills it in. *)
Definition shell_document (pid code user host dir interpreter : string) : dict :=
  [("pid", JStr pid); ("exit_code", JStr code); ("username", JStr user); ("hostname", JStr host);
   ("working_dir", JStr dir); ("py_interpreter_path", JStr interpreter)].

(** [$!] is empty as long as nothing was started in the background. *)
Lemma from_ps1_shell `{Platform} m n user host dir interpreter :
  json_loads (pm_body m) = Ok (JDict (shell_document "" (pretty n) user host dir interpreter)) →
  0 ≤ n < 256 →
  from_ps1_match m
  = Ok (mkCmdOutputMetadata n (-1) (Some user) (Some host) (Some dir) (Some interpreter) "" "").
Proof.
  intros Hj Hn. unfold from_ps1_match. rewrite Hj. cbn [rbind].
  unfold numeric_field at 1. change (dget "pid" (shell_document "" (pretty n) user host dir interpreter)) with (Some (JStr "")).
  change (int_float_str (JStr "")) with (Raise (A:=Z) (ValueError "could not convert string to float: ''")).
  cbv iota. cbn [rbind]. unfold numeric_field.
  change (dget "exit_code" (shell_document "" (pretty n) user host dir interpreter)) with (Some (JStr (pretty n))).
  cbv iota. rewrite exit_status_read by done. done.
Qed.
