(* ===== verification/BashCommands.v ===== *)
(** * Shell commands

    Models [split_bash_commands] and [escape_bash_special_chars] of
    [runtime/utils/bash.py].  The parser of shell commands ([bashlex]) is a parameter; of
    its trees the attributes that the code reads are kept. *)

From S2P Require Import Prelude FnCallTexts StrSearch FnCallConverter Ps1.
Local Open Scope Z_scope.

(** [kind], [pos], [heredoc.pos] where the node has one, [parts] where it has them. *)
Inductive bash_node :=
  BashNode (kind : string) (pos : Z * Z) (heredoc : option (Z * Z)) (parts : list bash_node).
Definition node_pos (n : bash_node) : Z * Z := match n with BashNode _ pos _ _ => pos end.

Class Bashlex := bash_parse : string → result (list bash_node).

Section bashlex.
Context `{Bashlex}.

(** ** [split_bash_commands] *)

(** [result[-1] += s] *)
Fixpoint add_last (s : string) (l : list string) : list string :=
  match l with
  | [] => []
  | [x] => [x +:+ s]
  | x :: l => x :: add_last s l
  end.

Definition split_node (commands : string) (st : list string * Z) (node : bash_node) : list string * Z :=
  let '(result, last_end) := st in
  let '(start, end_) := node_pos node in
  let result :=
    if last_end <? start then
      let between := str_slice last_end start commands in
      match result with
      | _ :: _ => add_last (str_rstrip between) result
      | [] => if String.eqb (str_strip between) "" then [] else [str_rstrip between]
      end
    else result in
  (result ++ [str_rstrip (str_slice start end_ commands)], end_).

Definition split_nodes (commands : string) (parsed : list bash_node) : list string :=
  let '(result, last_end) := foldl (split_node commands) ([], 0) parsed in
  let remaining := str_rstrip (str_from last_end commands) in
  if last_end <? str_len commands then
    match result with
    | _ :: _ => add_last remaining result
    | [] => if String.eqb remaining "" then [] else [remaining]
    end
  else result.

Definition split_bash_commands (commands : string) : result (list string) :=
  if String.eqb (str_strip commands) "" then Ok [""]
  else
    match bash_parse commands with
    | Ok parsed => Ok (split_nodes commands parsed)
    | Raise e =>
        match e with
        | TypeError _ => Ok [commands]
        | OtherError cls _ =>
            if existsb (String.eqb cls) ["ParsingError"; "NotImplementedError"; "AttributeError"]
            then Ok [commands] else Raise e
        | _ => Raise e
        end
    end.

(** ** [escape_bash_special_chars] *)

(** [re.sub(r'\\([;&|><])', r'\\\\\1', s)] *)
Definition is_special (c : ascii) : bool := existsb (Ascii.eqb c) [";"%char; "&"%char; "|"%char; ">"%char; "<"%char].
Definition match_special (s : string) : option (string * nat) :=
  match s with
  | String b (String c _) =>
      if Ascii.eqb b "\" && is_special c then Some (String "\" (String "\" (String c "")), 2%nat) else None
  | _ => None
  end.
Definition double_escapes : string → string := re_sub match_special.

Definition is_quoted (word : string) : bool :=
  (startswith word quote && endswith word quote)
  || (startswith word "'" && endswith word "'")
  || (startswith word "$(" && endswith word ")")
  || (startswith word "`" && endswith word "`").

(** [visit_node] on the parts so far and [last_pos] *)
Fixpoint visit_node (command : string) (st : list string * Z) (node : bash_node) {struct node} : list string * Z :=
  let '(parts, last_pos) := st in
  match node with
  | BashNode kind (start, end_) heredoc children =>
      match (if String.eqb kind "redirect" then heredoc else None) with
      | Some (doc_start, doc_end) =>
          (parts ++ [str_slice last_pos start command; str_slice start doc_start command;
                     str_slice doc_start doc_end command], end_)
      | None =>
          if String.eqb kind "word" then
            let word_text := str_slice start end_ command in
            (parts ++ [double_escapes (str_slice last_pos start command);
                       if is_quoted word_text then word_text else double_escapes word_text], end_)
          else
            (fix visit_all (nodes : list bash_node) (st : list string * Z) :=
               match nodes with [] => st | n :: nodes => visit_all nodes (visit_node command st n) end)
              children st
      end
  end.

Definition escape_node (command : string) (st : list string * Z) (node : bash_node) : list string * Z :=
  let '(parts, last_pos) := st in
  let start := (node_pos node).1 in
  visit_node command (parts ++ [double_escapes (str_slice last_pos start command)], start) node.

Definition escape_nodes (command : string) (nodes : list bash_node) : string :=
  let '(parts, last_pos) := foldl (escape_node command) ([], 0) nodes in
  str_join "" (parts ++ [str_from last_pos command]).

Definition escape_bash_special_chars (command : string) : result string :=
  if String.eqb (str_strip command) "" then Ok ""
  else
    match bash_parse command with
    | Ok nodes => Ok (escape_nodes command nodes)
    | Raise e =>
        match e with
        | TypeError _ => Ok command
        | OtherError cls _ =>
            if existsb (String.eqb cls) ["ParsingError"; "NotImplementedError"] then Ok command else Raise e
        | _ => Raise e
        end
    end.
End bashlex.

Definition remove_command_prefix (command_output command : string) : string :=
  let s := str_lstrip command_output in
  str_lstrip (from_option id s (after_prefix (str_lstrip command) s)).

(** ** Slices *)

Lemma substring_append k m n s :
  String.substring k m s +:+ String.substring (k + m) n s = String.substring k (m + n) s.
Proof.
  revert k m n. induction s as [|c s IH]; intros [|k] [|m] n; try done.
  - simpl. by rewrite <-(IH 0%nat m n).
  - apply (IH k 0%nat n).
  - apply (IH k (S m) n).
Qed.
Lemma slice_slice a b c s : 0 ≤ a ≤ b → b ≤ c → str_slice a b s +:+ str_slice b c s = str_slice a c s.
Proof.
  intros [? ?] ?. unfold str_slice. replace (Z.to_nat b) with (Z.to_nat a + Z.to_nat (b - a))%nat by lia.
  rewrite substring_append. f_equal. lia.
Qed.
Lemma slice_full s : str_slice 0 (str_len s) s = s.
Proof. unfold str_slice, str_len. rewrite Z.sub_0_r, Nat2Z.id. apply substring_full. Qed.
Lemma slice_empty a s : str_slice a a s = "".
Proof.
  unfold str_slice. rewrite Z.sub_diag. change (Z.to_nat 0) with O. generalize (Z.to_nat a) as k.
  induction s as [|c s IH]; intros [|k]; simpl; [done..|]. apply IH.
Qed.

Lemma join_empty l k : str_join "" (l ++ k) = str_join "" l +:+ str_join "" k.
Proof.
  assert (∀ x m, str_join "" (x :: m) = x +:+ str_join "" m) as Hc.
  { intros x [|y m]; [simpl; by rewrite append_empty_r|done]. }
  induction l as [|x l IH]; [done|]. change ((x :: l) ++ k) with (x :: (l ++ k)). rewrite !Hc, IH. apply append_assoc.
Qed.
Lemma join_empty_snoc l x : str_join "" (l ++ [x]) = str_join "" l +:+ x.
Proof. by rewrite join_empty. Qed.

(** The characters that pass a test. *)
Fixpoint keep_chars (p : ascii → bool) (s : string) : string :=
  match s with
  | EmptyString => EmptyString
  | String c s' => if p c then String c (keep_chars p s') else keep_chars p s'
  end.
Lemma keep_append p a b : keep_chars p (a +:+ b) = keep_chars p a +:+ keep_chars p b.
Proof. induction a as [|c a IH]; [done|]. rewrite append_cons. simpl. rewrite IH. by destruct (p c). Qed.
Lemma keep_rev p s : keep_chars p (String.rev s) = String.rev (keep_chars p s).
Proof.
  induction s as [|c s IH]; [done|]. rewrite rev_cons, keep_append, IH. simpl.
  destruct (p c); [by rewrite rev_cons|by rewrite append_empty_r].
Qed.

(** ** No text is lost in splitting *)

(** The text without its white space. *)
Definition squeeze : string → string := keep_chars (λ c, negb (is_py_space c)).

Lemma squeeze_lstrip s : squeeze (str_lstrip s) = squeeze s.
Proof.
  induction s as [|c s IH]; [done|]. cbn [str_lstrip]. unfold squeeze in *. cbn [keep_chars].
  destruct (is_py_space c) eqn:E; cbn [negb keep_chars]; [done|]. by rewrite E.
Qed.
Lemma squeeze_rstrip s : squeeze (str_rstrip s) = squeeze s.
Proof.
  unfold str_rstrip, squeeze. rewrite keep_rev. fold squeeze. rewrite squeeze_lstrip. unfold squeeze.
  by rewrite keep_rev, rev_involutive.
Qed.
Lemma squeeze_blank s : str_strip s = "" → squeeze s = "".
Proof.
  intros Hs. rewrite <-squeeze_lstrip, <-squeeze_rstrip. unfold str_rstrip. by rewrite (Hs : String.rev _ = "").
Qed.
Lemma join_add_last s l : l ≠ [] → str_join "" (add_last s l) = str_join "" l +:+ s.
Proof.
  assert (∀ x m, str_join "" (x :: m) = x +:+ str_join "" m) as Hc.
  { intros x [|y m]; [simpl; by rewrite append_empty_r|done]. }
  induction l as [|x l IH]; [done|]. intros _. destruct l as [|y l]; [simpl; by rewrite ?append_empty_r|].
  change (add_last s (x :: y :: l)) with (x :: add_last s (y :: l)). rewrite !(Hc x), IH by done. apply append_assoc.
Qed.

(** The trees follow one another in the text, as the parser's positions do. *)
Fixpoint nodes_in_order (last len : Z) (l : list bash_node) : bool :=
  match l with
  | [] => last <=? len
  | n :: l => let '(start, end_) := node_pos n in
              (last <=? start) && (start <=? end_) && nodes_in_order end_ len l
  end.

Lemma nodes_in_order_le last len l : nodes_in_order last len l = true → last ≤ len.
Proof.
  revert last. induction l as [|n l IH]; intros last; simpl; [lia|]. destruct (node_pos n) as [a b].
  intros [[??]%andb_true_iff ?%IH]%andb_true_iff. lia.
Qed.

Lemma split_node_text commands result last node start end_ :
  node_pos node = (start, end_) → 0 ≤ last ≤ start → start ≤ end_ →
  squeeze (str_join "" result) = squeeze (str_slice 0 last commands) →
  squeeze (str_join "" (split_node commands (result, last) node).1) = squeeze (str_slice 0 end_ commands).
Proof.
  intros Hp [H0 Hl] He Hs. unfold split_node. rewrite Hp. cbn [fst]. rewrite join_empty_snoc. unfold squeeze.
  rewrite keep_append. fold squeeze. rewrite squeeze_rstrip.
  rewrite <-(slice_slice 0 start end_) by lia. unfold squeeze. rewrite (keep_append _ (str_slice 0 start commands)).
  fold squeeze. f_equal. rewrite <-(slice_slice 0 last start) by lia. unfold squeeze. rewrite keep_append. fold squeeze.
  rewrite <-Hs. destruct (Z.ltb_spec last start) as [Hlt|Hge].
  - destruct result as [|x l].
    + destruct (String.eqb_spec (str_strip (str_slice last start commands)) "") as [Hb|].
      * by rewrite (squeeze_blank _ Hb).
      * cbn [str_join]. by rewrite squeeze_rstrip.
    + rewrite join_add_last by done. unfold squeeze. rewrite keep_append. fold squeeze. by rewrite squeeze_rstrip.
  - assert (start = last) as -> by lia. rewrite slice_empty. unfold squeeze at 3. simpl. by rewrite append_empty_r.
Qed.

Lemma split_foldl_text commands parsed result last :
  0 ≤ last → nodes_in_order last (str_len commands) parsed = true →
  squeeze (str_join "" result) = squeeze (str_slice 0 last commands) →
  let '(result', last') := foldl (split_node commands) (result, last) parsed in
  0 ≤ last' ≤ str_len commands
  ∧ squeeze (str_join "" result') = squeeze (str_slice 0 last' commands).
Proof.
  revert result last. induction parsed as [|n parsed IH]; intros result last H0 Ho Hs.
  { simpl in *. lia || (split; [lia|done]). }
  cbn [nodes_in_order] in Ho. destruct (node_pos n) as [start end_] eqn:Hp.
  apply andb_true_iff in Ho as [[Ha Hb]%andb_true_iff Ho]. cbn [foldl].
  pose proof (split_node_text commands result last n start end_ Hp ltac:(lia) ltac:(lia) Hs) as Hn.
  destruct (split_node commands (result, last) n) as [r' l'] eqn:E. simpl in Hn.
  assert (l' = end_) as ->. { unfold split_node in E. rewrite Hp in E. by injection E. }
  apply IH; [lia|done|done].
Qed.

Lemma split_nodes_text commands parsed :
  nodes_in_order 0 (str_len commands) parsed = true →
  squeeze (str_join "" (split_nodes commands parsed)) = squeeze commands.
Proof.
  intros Ho. pose proof (split_foldl_text commands parsed [] 0 ltac:(lia) Ho (eq_sym (f_equal squeeze (slice_empty 0 commands)))) as Hf.
  unfold split_nodes.
  destruct (foldl _ _ _) as [result last]. destruct Hf as [Hl Hs].
  assert (squeeze commands = squeeze (str_join "" result) +:+ squeeze (str_from last commands)) as ->.
  { rewrite Hs. unfold str_from, squeeze. rewrite <-keep_append, slice_slice, slice_full by lia. done. }
  destruct (Z.ltb_spec last (str_len commands)) as [Hlt|Hge].
  - destruct result as [|x l].
    + destruct (String.eqb_spec (str_rstrip (str_from last commands)) "") as [Hb|].
      * by rewrite <-(squeeze_rstrip (str_from last commands)), Hb.
      * cbn [str_join]. by rewrite squeeze_rstrip.
    + rewrite join_add_last by done. unfold squeeze. rewrite keep_append. fold squeeze. by rewrite squeeze_rstrip.
  - assert (last = str_len commands) as -> by lia. unfold str_from. rewrite slice_empty. unfold squeeze at 3. simpl.
    by rewrite append_empty_r.
Qed.

(** ** What is escaped *)

(** Texts [R]-related to what they are made of: unchanged, or with doubled escapes. *)
Section escaping.
Variables (command : string) (R : string → string → Prop).
Hypothesis R_app : ∀ a b a' b', R a a' → R b b' → R (a +:+ b) (a' +:+ b').
Hypothesis R_same : ∀ lo hi, R (str_slice lo hi command) (str_slice lo hi command).
Hypothesis R_double : ∀ lo hi, R (str_slice lo hi command) (double_escapes (str_slice lo hi command)).

(** Where [last_pos] is after a node whose words and documents follow one another; a
    document follows its redirection at once. *)
Fixpoint node_end (len last : Z) (node : bash_node) {struct node} : option Z :=
  match node with
  | BashNode kind (start, end_) heredoc children =>
      match (if String.eqb kind "redirect" then heredoc else None) with
      | Some (doc_start, doc_end) =>
          if (last <=? start) && (start <=? doc_start) && (doc_start <=? doc_end) && (doc_end =? end_) && (end_ <=? len)
          then Some end_ else None
      | None =>
          if String.eqb kind "word" then
            if (last <=? start) && (start <=? end_) && (end_ <=? len) then Some end_ else None
          else
            (fix all_end (nodes : list bash_node) (last : Z) :=
               match nodes with
               | [] => Some last
               | n :: nodes => match node_end len last n with Some l => all_end nodes l | None => None end
               end) children last
      end
  end.
Fixpoint nodes_end (len last : Z) (l : list bash_node) : option Z :=
  match l with
  | [] => Some last
  | n :: l => if (last <=? (node_pos n).1) && ((node_pos n).1 <=? len)
              then match node_end len (node_pos n).1 n with Some e => nodes_end len e l | None => None end else None
  end.

(** What was put out so far is related to the text before [last]. *)
Definition escaped_upto (st : list string * Z) : Prop :=
  0 ≤ st.2 ≤ str_len command ∧ R (str_slice 0 st.2 command) (str_join "" st.1).

Lemma escaped_more parts last mid x :
  escaped_upto (parts, last) → last ≤ mid ≤ str_len command → R (str_slice last mid command) x →
  escaped_upto (parts ++ [x], mid).
Proof using R_app.
  intros [Hl Hr] Hm Hx. simpl in *. split; [simpl; lia|]. simpl. rewrite join_empty_snoc.
  rewrite <-(slice_slice 0 last mid) by lia. by apply R_app.
Qed.

Lemma visit_escaped node : ∀ st last',
  escaped_upto st → node_end (str_len command) st.2 node = Some last' →
  escaped_upto (visit_node command st node) ∧ (visit_node command st node).2 = last'.
Proof using R_app R_same R_double.
  revert node. fix IH 1. intros [kind [start end_] heredoc children] [parts last] last' Hst. cbn [node_end visit_node snd].
  destruct (if String.eqb kind "redirect" then heredoc else None) as [[ds de]|].
  { case_match eqn:E; [|done]. intros [= <-]. repeat (apply andb_true_iff in E as [E ?]). split; [|done].
    assert (de = end_) as -> by lia. change (parts ++ [?a; ?b; ?c]) with (parts ++ ([a] ++ [b] ++ [c])). rewrite !app_assoc.
    eapply escaped_more; [eapply escaped_more; [eapply escaped_more; [exact Hst|..]|..]|..]; eauto; lia. }
  destruct (String.eqb kind "word").
  { case_match eqn:E; [|done]. intros [= <-]. repeat (apply andb_true_iff in E as [E ?]). split; [|done].
    change (parts ++ [?a; ?b]) with (parts ++ ([a] ++ [b])). rewrite app_assoc.
    eapply escaped_more; [eapply escaped_more; [exact Hst|..]|..]; eauto; try lia. by destruct (is_quoted _). }
  clear heredoc start end_. revert parts last Hst. induction children as [|n children IHc]; intros parts last Hst.
  { intros [= <-]. done. }
  destruct (node_end (str_len command) last n) as [l|] eqn:En; [|done]. intros Hc.
  destruct (IH n (parts, last) l Hst En) as [Hs He]. destruct (visit_node command (parts, last) n) as [p' l'].
  simpl in He. subst l'. by apply IHc.
Qed.

Lemma nodes_escaped nodes st last' :
  escaped_upto st → nodes_end (str_len command) st.2 nodes = Some last' →
  escaped_upto (foldl (escape_node command) st nodes) ∧ (foldl (escape_node command) st nodes).2 = last'.
Proof using R_app R_same R_double.
  revert st. induction nodes as [|n nodes IH]; intros [parts last] Hst; cbn [nodes_end foldl snd].
  { intros [= <-]. done. }
  case_match eqn:E; [|done]. apply andb_true_iff in E as [E1 E2].
  destruct (node_end _ _ n) as [e|] eqn:En; [|done]. intros Hn. unfold escape_node at 2 4.
  assert (escaped_upto (parts ++ [double_escapes (str_slice last (node_pos n).1 command)], (node_pos n).1)) as Hm.
  { eapply escaped_more; [exact Hst|lia|apply R_double]. }
  destruct (visit_escaped n _ e Hm En) as [Hs He]. apply IH; [done|]. by rewrite He.
Qed.

Lemma escape_nodes_related nodes :
  is_Some (nodes_end (str_len command) 0 nodes) → R "" "" → R command (escape_nodes command nodes).
Proof using R_app R_same R_double.
  intros [last Hl] H0. unfold escape_nodes.
  assert (escaped_upto ([], 0)) as Hst.
  { split; simpl; [unfold str_len; lia|]. by rewrite slice_empty. }
  destruct (nodes_escaped nodes ([], 0) last Hst Hl) as [[Hb Hr] He].
  destruct (foldl _ _ _) as [parts l]. simpl in *. subst l. rewrite join_empty_snoc.
  rewrite <-(slice_full command) at 1. rewrite <-(slice_slice 0 last) by lia. apply R_app; [done|]. apply R_same.
Qed.
End escaping.

(** An escaped special character is in the text. *)
Fixpoint has_escape (s : string) : bool :=
  match s with
  | EmptyString => false
  | String _ s' => (match match_special s with Some _ => true | None => false end) || has_escape s'
  end.
Definition no_backslash (c : ascii) : bool := negb (Ascii.eqb c "\").

Lemma match_special_some s t n :
  match_special s = Some (t, n) →
  ∃ c s', s = String "\" (String c s') ∧ t = String "\" (String "\" (String c "")) ∧ n = 2%nat.
Proof.
  destruct s as [|b [|c s]]; [done..|]. simpl. destruct (Ascii.eqb_spec b "\") as [->|]; [|done]. simpl.
  destruct (is_special c); [|done]. intros [= <- <-]. by exists c, s.
Qed.

Lemma double_keep s : keep_chars no_backslash (double_escapes s) = keep_chars no_backslash s.
Proof.
  unfold double_escapes, re_sub. remember (String.length s) as n eqn:Hn. revert s Hn.
  induction (lt_wf n) as [n _ IH]. intros s ->. destruct s as [|b s]; [done|]. cbn [sub_go].
  destruct (match_special (String b s)) as [[t k]|] eqn:E.
  - apply match_special_some in E as (c & s' & [= -> ->] & -> & ->). cbn [pred sub_go]. rewrite keep_append.
    rewrite (IH (String.length s')) by (simpl; lia || done). cbn [keep_chars no_backslash]. simpl.
    by destruct (no_backslash c).
  - simpl. rewrite (IH (String.length s)) by (simpl; lia || done). done.
Qed.

Lemma double_plain s : has_escape s = false → double_escapes s = s.
Proof.
  unfold double_escapes, re_sub. induction s as [|b s IH]; [done|]. cbn [has_escape sub_go].
  intros [E Hs]%orb_false_iff. destruct (match_special (String b s)); [done|]. by rewrite IH.
Qed.

Lemma has_escape_suffix a b : has_escape (a +:+ b) = false → has_escape b = false.
Proof. induction a as [|c a IH]; [done|]. rewrite append_cons. cbn [has_escape]. intros [_ ?]%orb_false_iff. by apply IH. Qed.
Lemma has_escape_prefix a b : has_escape (a +:+ b) = false → has_escape a = false.
Proof.
  induction a as [|c a IH]; [done|]. rewrite append_cons. cbn [has_escape]. intros [E ?]%orb_false_iff.
  rewrite IH by done. rewrite orb_false_r. by destruct a as [|d a].
Qed.
Lemma substring_split k n s : ∃ a b, s = a +:+ String.substring k n s +:+ b.
Proof.
  revert k n. induction s as [|c s IH]; intros k n.
  - exists "", "". by destruct k, n.
  - destruct k as [|k].
    + destruct n as [|n]; [by exists "", (String c s)|]. destruct (IH O n) as (a & b & Hs).
      exists "". simpl. assert (∃ b, s = String.substring 0 n s +:+ b) as [b' Hb].
      { clear. revert s. induction n as [|n IHn]; intros s; [by exists s; destruct s|]. destruct s as [|d s]; [by exists ""|].
        destruct (IHn s) as [b Hb]. exists b. simpl. rewrite Hb at 1. done. }
      exists b'. simpl. rewrite Hb at 1. done.
    + destruct (IH k n) as (a & b & Hs). exists (String c a), b. rewrite append_cons. simpl. rewrite Hs at 1. done.
Qed.
Lemma has_escape_slice lo hi s : has_escape s = false → has_escape (str_slice lo hi s) = false.
Proof.
  intros Hs. unfold str_slice. destruct (substring_split (Z.to_nat lo) (Z.to_nat (hi - lo)) s) as (a & b & Hab).
  rewrite Hab in Hs. by apply has_escape_suffix, has_escape_prefix in Hs.
Qed.

Lemma escape_keeps command nodes :
  is_Some (nodes_end (str_len command) 0 nodes) →
  keep_chars no_backslash (escape_nodes command nodes) = keep_chars no_backslash command.
Proof.
  intros Hn. apply (escape_nodes_related command (λ a b, keep_chars no_backslash b = keep_chars no_backslash a)); try done.
  - intros a b a' b' Ha Hb. by rewrite !keep_append, Ha, Hb.
  - intros lo hi. apply double_keep.
Qed.
Lemma escape_plain command nodes :
  is_Some (nodes_end (str_len command) 0 nodes) → has_escape command = false →
  escape_nodes command nodes = command.
Proof.
  intros Hn Hp. apply (escape_nodes_related command (λ a b, b = a)); try done.
  - by intros a b a' b' -> ->.
  - intros lo hi. by apply double_plain, has_escape_slice.
Qed.

(** For a command that the parser understands (its trees lie in the text one after the
    other, each document right after its redirection), splitting loses nothing but white
    space, and escaping only inserts backslashes: a command without an escaped special
    character is sent to the shell as it is. *)
Theorem commands_kept `{Bashlex} command parsed :
  str_strip command ≠ "" → bash_parse command = Ok parsed →
  nodes_in_order 0 (str_len command) parsed = true → is_Some (nodes_end (str_len command) 0 parsed) →
  (∃ l, split_bash_commands command = Ok l ∧ squeeze (str_join "" l) = squeeze command)
  ∧ ∃ sent, escape_bash_special_chars command = Ok sent
    ∧ keep_chars no_backslash sent = keep_chars no_backslash command
    ∧ (has_escape command = false → sent = command).
Proof.
  intros Hne Hp Ho Hn. unfold split_bash_commands, escape_bash_special_chars. rewrite Hp.
  destruct (String.eqb_spec (str_strip command) "") as [|_]; [done|]. split.
  - eexists. split; [done|]. by apply split_nodes_text.
  - eexists. split; [done|]. split; [by apply escape_keeps|]. by apply escape_plain.
Qed.

Module bash_example.
(** The trees of two commands on lines of their own, the first with an escaped separator. *)
Definition find_ls : string := "find . -exec ls {} \;" +:+ nl +:+ "  ls".
Definition word (a b : Z) : bash_node := BashNode "word" (a, b) None [].
Definition find_nodes : list bash_node :=
  [BashNode "command" (0, 21) None [word 0 4; word 5 6; word 7 12; word 13 15; word 16 18; word 19 21];
   BashNode "command" (24, 26) None [word 24 26]].
#[local] Instance scripted : Bashlex := λ s,
  if String.eqb s find_ls then Ok find_nodes else Raise (OtherError "ParsingError" "").

Lemma commands_kept_witness :
  split_bash_commands find_ls = Ok ["find . -exec ls {} \;"; "ls"]
  ∧ escape_bash_special_chars find_ls = Ok ("find . -exec ls {} \\;" +:+ nl +:+ "  ls")
  ∧ (∃ l, split_bash_commands find_ls = Ok l ∧ squeeze (str_join "" l) = squeeze find_ls).
Proof.
  split; [vm_compute; reflexivity|]. split; [vm_compute; reflexivity|].
  apply (commands_kept find_ls find_nodes); [done|done|done|]. vm_compute. by eexists.
Defined.

(** When more of the line follows a redirection from a document, the document and the rest
    of the line are sent twice. *)
Definition heredoc : string := str_join nl ["cat <<E | sort"; "b"; "E"].
Definition heredoc_nodes : list bash_node :=
  [BashNode "pipeline" (0, 14) None
     [BashNode "command" (0, 7) None [word 0 3; BashNode "redirect" (4, 7) (Some (15, 18)) []];
      BashNode "pipe" (8, 9) None []; BashNode "command" (10, 14) None [word 10 14]]].
Example heredoc_repeated :
  @escape_bash_special_chars (λ _, Ok heredoc_nodes) heredoc
  = Ok (str_join nl ["cat <<E | sort"; "b"; "E | sort"; "b"; "E"]).
Proof. vm_compute. reflexivity. Qed.

(** The parser's AttributeError is caught in splitting and not in escaping. *)
Example attribute_error_escapes :
  let parse : Bashlex := λ _, Raise (OtherError "AttributeError" "'str' object has no attribute 'kind'") in
  @split_bash_commands parse "f" = Ok ["f"]
  ∧ @escape_bash_special_chars parse "f" = Raise (OtherError "AttributeError" "'str' object has no attribute 'kind'").
Proof. done. Qed.
End bash_example.
