(* ===== verification/BashSession.v ===== *)
(** * The shell session

    Models [BashSession] of [runtime/utils/bash.py].  The terminal (a tmux pane with a
    shell in it) is a parameter: what it shows, the keys it is sent and the clock, in
    microseconds.  Differences of clock readings are exact. *)

From S2P Require Import Prelude PyValue Actions Observations Events EventStore FnCallTexts StrSearch FnCallConverter PyFloat PatchParse Ps1 BashCommands.
From Stdlib Require Import Floats.SpecFloat.
Local Open Scope Z_scope.
Local Open Scope py_scope.

Class Terminal (T : Type) := {
  t_capture : T → T * list string;
  t_send_keys : string → bool → T → T;
  t_clear_history : T → T;
  t_kill : T → T;
  t_sleep : Z → T → T;
  t_time : T → T * Z;
  t_should_continue : T → T * bool;
}.

Definition TIMEOUT_MESSAGE_TEMPLATE : string :=
  "You may wait longer to see additional output by sending empty command '', "
  +:+ "send other commands to interact with the current process, "
  +:+ "send keys (" +:+ quote +:+ "C-c" +:+ quote +:+ ", " +:+ quote +:+ "C-z" +:+ quote +:+ ", "
  +:+ quote +:+ "C-d" +:+ quote
  +:+ ") to interrupt/kill the previous command before sending your new command, "
  +:+ "or use the timeout parameter in execute_bash for future commands.".

Inductive BashCommandStatus := CONTINUE | COMPLETED | NO_CHANGE_TIMEOUT | HARD_TIMEOUT.
#[export] Instance BashCommandStatus_eq_dec : EqDecision BashCommandStatus.
Proof. solve_decision. Defined.

(** [x <= us / 10 ** 6], exactly *)
Definition float_le_us (x : float) (us : Z) : bool :=
  match x with
  | S754_zero _ => 0 <=? us
  | S754_finite s m e =>
      let m := if s then Z.neg m else Z.pos m in
      if 0 <=? e then m * 2 ^ e * 1000000 <=? us else m * 1000000 <=? us * 2 ^ (- e)
  | S754_infinity s => s
  | S754_nan => false
  end.

Definition set_prefix (p : string) (m : CmdOutputMetadata) : CmdOutputMetadata :=
  mkCmdOutputMetadata (com_exit_code m) (com_pid m) (com_username m) (com_hostname m)
    (com_working_dir m) (com_py_interpreter_path m) p (com_suffix m).
Definition set_suffix (s : string) (m : CmdOutputMetadata) : CmdOutputMetadata :=
  mkCmdOutputMetadata (com_exit_code m) (com_pid m) (com_username m) (com_hostname m)
    (com_working_dir m) (com_py_interpreter_path m) (com_prefix m) s.

(** [_shell_command] of [initialize] *)
Definition shell_command (su_to_user : bool) (runtime_username : string) (username : option string) : string :=
  match username with
  | Some u =>
      if su_to_user && existsb (String.eqb u) (py_filter (λ x, negb (String.eqb x "")) [runtime_username; "root"; "openhands"])
      then "su " +:+ u +:+ " -" else "/bin/bash"
  | None => "/bin/bash"
  end.

(** [s.upper()] on ASCII text *)
Definition ascii_upper (c : ascii) : ascii :=
  let n := Ascii.nat_of_ascii c in if Nat.leb 97 n && Nat.leb n 122 then Ascii.ascii_of_nat (n - 32) else c.
Fixpoint str_upper (s : string) : string :=
  match s with EmptyString => EmptyString | String c s' => String (ascii_upper c) (str_upper s') end.

Definition is_special_key (command : string) : bool :=
  let c := str_strip command in startswith c "C-" && (str_len c =? 3).

(** The texts between the prompts and after the last one. *)
Fixpoint outputs_between (pane_content : string) (ps1_matches : list Ps1Match) : string :=
  match ps1_matches with
  | [] => ""
  | [m] => str_from (pm_end m + 1) pane_content
  | m :: (m' :: _) as rest =>
      str_slice (pm_end m + 1) (pm_start m') pane_content +:+ nl +:+ outputs_between pane_content rest
  end.
Definition combine_outputs_between_matches (pane_content : string) (ps1_matches : list Ps1Match)
    (get_content_before_last_match : bool) : string :=
  match ps1_matches with
  | [] => pane_content
  | [m] => if get_content_before_last_match then str_slice 0 (pm_start m) pane_content
           else str_from (pm_end m + 1) pane_content
  | _ => outputs_between pane_content ps1_matches
  end.

Definition POLL_INTERVAL : Z := 500000.
Definition CONTINUED : string := "[Below is the output of the previous command.]" +:+ nl.

Record BashSession (T : Type) := mkBashSession {
  bs_no_change_timeout : Z;
  bs_initialized : bool;
  bs_closed : bool;
  bs_prev_status : option BashCommandStatus;
  bs_prev_output : string;
  bs_cwd : string;
  bs_pane : T;
}.
Arguments mkBashSession {T} _ _ _ _ _ _ _.
Arguments bs_no_change_timeout {T} _.
Arguments bs_initialized {T} _.
Arguments bs_closed {T} _.
Arguments bs_prev_status {T} _.
Arguments bs_prev_output {T} _.
Arguments bs_cwd {T} _.
Arguments bs_pane {T} _.

(** What [execute] reads of the action. *)
Record CmdRequest := mkCmdRequest {
  cr_command : string;
  cr_is_input : bool;
  cr_blocking : bool;
  cr_timeout : option float;
  cr_hidden : bool;
}.
Definition request_of (e : Event) : option CmdRequest :=
  match ev_body e with
  | EAction (ACmdRun a) =>
      Some (mkCmdRequest (cra_command a) (cra_is_input a) (cra_blocking a) (event_timeout e) (cra_hidden a))
  | _ => None
  end.

Section session.
Context `{Terminal T, Platform, Bashlex}.
(** How a float is printed. *)
Variable str_float : float → string.
Abbreviation Session := (BashSession T).

Definition set_pane (t : T) (s : Session) : Session :=
  mkBashSession (bs_no_change_timeout s) (bs_initialized s) (bs_closed s) (bs_prev_status s) (bs_prev_output s)
    (bs_cwd s) t.
Definition set_prev_status (x : BashCommandStatus) (s : Session) : Session :=
  mkBashSession (bs_no_change_timeout s) (bs_initialized s) (bs_closed s) (Some x) (bs_prev_output s)
    (bs_cwd s) (bs_pane s).
Definition set_prev_output (x : string) (s : Session) : Session :=
  mkBashSession (bs_no_change_timeout s) (bs_initialized s) (bs_closed s) (bs_prev_status s) x
    (bs_cwd s) (bs_pane s).
Definition set_cwd (x : string) (s : Session) : Session :=
  mkBashSession (bs_no_change_timeout s) (bs_initialized s) (bs_closed s) (bs_prev_status s) (bs_prev_output s)
    x (bs_pane s).

(** ** Terminal *)

Definition on_pane (f : T → T) : pyM Session unit := pmodify (λ s, set_pane (f (bs_pane s)) s).
Definition read_pane {A} (f : T → T * A) : pyM Session A := λ s,
  let '(t, a) := f (bs_pane s) in (set_pane t s, Ok a).

Definition get_pane_content : pyM Session string :=
  let* lines := read_pane t_capture in pret (str_join nl (str_rstrip <$> lines)).
Definition clear_screen : pyM Session unit :=
  on_pane (t_send_keys "C-l" false) ;;; on_pane (t_sleep 100000) ;;; on_pane t_clear_history.

(** [initialize] from the new pane on *)
Definition initialize (abspath : string → string) (work_dir : string) : pyM Session unit :=
  on_pane (t_send_keys ("export PROMPT_COMMAND='export PS1=" +:+ quote +:+ to_ps1_prompt +:+ quote
                        +:+ "'; export PS2=" +:+ quote +:+ quote) true) ;;;
  on_pane (t_sleep 100000) ;;;
  clear_screen ;;;
  pmodify (λ s, mkBashSession (bs_no_change_timeout s) true false None "" (abspath work_dir) (bs_pane s)).

Definition close_session : pyM Session unit := λ s,
  if bs_closed s then (s, Ok tt)
  else (mkBashSession (bs_no_change_timeout s) (bs_initialized s) true (bs_prev_status s) (bs_prev_output s)
          (bs_cwd s) (t_kill (bs_pane s)), Ok tt).

(** ** Results *)

Definition get_command_output (command raw_command_output : string) (metadata : CmdOutputMetadata)
    (continue_prefix : string) : pyM Session (string * CmdOutputMetadata) := λ s,
  let '(command_output, metadata) :=
    if String.eqb (bs_prev_output s) "" then (raw_command_output, metadata)
    else (from_option id raw_command_output (after_prefix (bs_prev_output s) raw_command_output),
          set_prefix continue_prefix metadata) in
  (set_prev_output raw_command_output s,
   Ok (str_rstrip (remove_command_prefix command_output command), metadata)).

Definition cmd_observation (content command : string) (metadata : CmdOutputMetadata) (hidden : bool) : Observation :=
  new_CmdOutputObservation content command (Some metadata) hidden None None.

Definition completed_suffix (command : string) (metadata : CmdOutputMetadata) : string :=
  nl +:+ "[The command completed with exit code " +:+ pretty (com_exit_code metadata) +:+ "."
  +:+ (if is_special_key command
       then " CTRL+" +:+ str_upper (str_last 1 command) +:+ " was sent.]" else "]").

Definition handle_completed_command (command pane_content : string) (ps1_matches : list Ps1Match)
    (hidden : bool) : pyM Session Observation :=
  match last ps1_matches with
  | None => praise AssertionError
  | Some m =>
      let* metadata := plift (from_ps1_match m) in
      let before := py_len ps1_matches =? 1 in
      pmodify (λ s, match com_working_dir metadata with
                    | Some d => if String.eqb d "" then s else set_cwd d s
                    | None => s
                    end) ;;;
      let raw_command_output := combine_outputs_between_matches pane_content ps1_matches before in
      let metadata :=
        if before
        then set_prefix ("[Previous command outputs are truncated. Showing the last "
               +:+ pretty (py_len (splitlines raw_command_output)) +:+ " lines of the output below.]" +:+ nl) metadata
        else metadata in
      let metadata := set_suffix (completed_suffix command metadata) metadata in
      let* out := get_command_output command raw_command_output metadata "" in
      pmodify (λ s, set_prev_output "" (set_prev_status COMPLETED s)) ;;;
      clear_screen ;;;
      pret (cmd_observation out.1 command out.2 hidden)
  end.

(** [_handle_nochange_timeout_command] and [_handle_hard_timeout_command] differ in the
    status and in the reason. *)
Definition handle_timeout (status : BashCommandStatus) (reason command pane_content : string)
    (ps1_matches : list Ps1Match) : pyM Session Observation :=
  pmodify (set_prev_status status) ;;;
  let raw_command_output := combine_outputs_between_matches pane_content ps1_matches false in
  let metadata := set_suffix (nl +:+ "[" +:+ reason +:+ TIMEOUT_MESSAGE_TEMPLATE +:+ "]") default_metadata in
  let* out := get_command_output command raw_command_output metadata CONTINUED in
  pret (cmd_observation out.1 command out.2 false).

Definition handle_nochange_timeout_command (command pane_content : string) (ps1_matches : list Ps1Match) :
    pyM Session Observation :=
  let* s := pget in
  handle_timeout NO_CHANGE_TIMEOUT
    ("The command has no new output after " +:+ pretty (bs_no_change_timeout s) +:+ " seconds. ")
    command pane_content ps1_matches.
Definition handle_hard_timeout_command (command pane_content : string) (ps1_matches : list Ps1Match)
    (timeout : float) : pyM Session Observation :=
  handle_timeout HARD_TIMEOUT ("The command timed out after " +:+ str_float timeout +:+ " seconds. ")
    command pane_content ps1_matches.

(** ** Execution *)

Definition ends_with_prompt (pane : string) : bool := endswith (str_rstrip pane) (str_rstrip CMD_OUTPUT_PS1_END).

(** One turn of the loop that waits for the command: its result, or what it has seen and
    when that changed. *)
Definition poll_once (r : CmdRequest) (command : string) (initial_ps1_count start_time : Z)
    (last_pane_output : string) (last_change_time : Z) : pyM Session (Observation + string * Z) :=
  let* go_on := read_pane t_should_continue in
  if negb go_on then praise (RuntimeError "Bash session was likely interrupted...")
  else
    let* _ := read_pane t_time in
    let* cur_pane_output := get_pane_content in
    let* _ := read_pane t_time in
    let ps1_matches := matches_ps1_metadata cur_pane_output in
    let* last_change_time :=
      if String.eqb cur_pane_output last_pane_output then pret last_change_time else read_pane t_time in
    if (initial_ps1_count <? py_len ps1_matches) || ends_with_prompt cur_pane_output
    then let* o := handle_completed_command command cur_pane_output ps1_matches (cr_hidden r) in pret (inl o)
    else
      let* now := read_pane t_time in
      let* s := pget in
      if negb (cr_blocking r) && (bs_no_change_timeout s * 1000000 <=? now - last_change_time)
      then let* o := handle_nochange_timeout_command command cur_pane_output ps1_matches in pret (inl o)
      else
        let* now := read_pane t_time in
        match (match cr_timeout r with
               | Some x => if ftruthy x && float_le_us x (now - start_time) then Some x else None
               | None => None
               end) with
        | Some timeout =>
            let* o := handle_hard_timeout_command command cur_pane_output ps1_matches timeout in pret (inl o)
        | None => on_pane (t_sleep POLL_INTERVAL) ;;; pret (inr (cur_pane_output, last_change_time))
        end.

(** The loop; [None]: the fuel does not suffice. *)
Fixpoint poll (fuel : nat) (r : CmdRequest) (command : string) (initial_ps1_count start_time : Z)
    (last_pane_output : string) (last_change_time : Z) : pyM Session (option Observation) :=
  match fuel with
  | O => pret None
  | S fuel =>
      let* x := poll_once r command initial_ps1_count start_time last_pane_output last_change_time in
      match x with
      | inl o => pret (Some o)
      | inr (pane, changed) => poll fuel r command initial_ps1_count start_time pane changed
      end
  end.

(** A command was left running. *)
Definition running (s : Session) : bool :=
  match bs_prev_status s with
  | Some CONTINUE | Some NO_CHANGE_TIMEOUT | Some HARD_TIMEOUT => true
  | Some COMPLETED | None => false
  end.
(** ... and a new one is not sent. *)
Definition must_wait (s : Session) (r : CmdRequest) (command pane : string) : bool :=
  bool_decide (bs_prev_status s = Some HARD_TIMEOUT ∨ bs_prev_status s = Some NO_CHANGE_TIMEOUT)
  && negb (ends_with_prompt pane) && negb (cr_is_input r) && negb (String.eqb command "").

Definition not_executed (command pane : string) (hidden : bool) : pyM Session Observation :=
  let raw_command_output := combine_outputs_between_matches pane (matches_ps1_metadata pane) false in
  let metadata := set_suffix
    (nl +:+ "[Your command " +:+ quote +:+ command +:+ quote +:+ " is NOT executed. "
     +:+ "The previous command is still running - You CANNOT send new commands until the previous command is completed. "
     +:+ "By setting `is_input` to `true`, you can interact with the current process: "
     +:+ TIMEOUT_MESSAGE_TEMPLATE +:+ "]") default_metadata in
  let* out := get_command_output command raw_command_output metadata CONTINUED in
  pret (cmd_observation out.1 command out.2 hidden).

Definition too_many_commands (l : list string) : Observation :=
  mkObservation
    ("ERROR: Cannot execute multiple commands at once." +:+ nl
     +:+ "Please run each command separately OR chain them into a single command via && or ;" +:+ nl
     +:+ "Provided commands:" +:+ nl
     +:+ str_join nl ((λ '(i, c), "(" +:+ pretty (i + 1) +:+ ") " +:+ c) <$> enumerate l))
    (OError (mkErrorObservation "")).

(** The command as it is sent: not escaped when it is input. *)
Definition send_command (r : CmdRequest) (command : string) : pyM Session string :=
  if String.eqb command "" then pret command
  else
    let enter := negb (is_special_key command) in
    if cr_is_input r then on_pane (t_send_keys command enter) ;;; pret command
    else
      let* escaped := plift (escape_bash_special_chars command) in
      on_pane (t_send_keys escaped enter) ;;; pret escaped.

Definition execute (fuel : nat) (r : CmdRequest) : pyM Session (option Observation) :=
  let* s := pget in
  if negb (bs_initialized s) then praise (RuntimeError "Bash session is not initialized")
  else
    let command := str_strip (cr_command r) in
    if negb (running s) && String.eqb command "" then
      pret (Some (cmd_observation "ERROR: No previous running command to retrieve logs from." "" default_metadata false))
    else if negb (running s) && cr_is_input r then
      pret (Some (cmd_observation "ERROR: No previous running command to interact with." "" default_metadata false))
    else
      let* splited_commands := plift (split_bash_commands command) in
      if 1 <? py_len splited_commands then pret (Some (too_many_commands splited_commands))
      else
        let* initial_pane_output := get_pane_content in
        let initial_ps1_count := py_len (matches_ps1_metadata initial_pane_output) in
        let* start_time := read_pane t_time in
        if must_wait s r command initial_pane_output then
          let* o := not_executed command initial_pane_output (cr_hidden r) in pret (Some o)
        else
          let* command := send_command r command in
          poll fuel r command initial_ps1_count start_time initial_pane_output start_time.
End session.
