(* ===== verification/BashSessionProps.v ===== *)
(** * What a shell session reports

    The output between two prompts is found; a session with a timeout ends; a completed
    command is reported with its output, its exit code and the new directory. *)

From S2P Require Import Prelude PyValue Actions Observations Events EventStore ExamplePlatform FnCallTexts StrSearch FnCallConverter PyFloat PatchParse Ps1 BashCommands BashSession.
From Stdlib Require Import Floats.SpecFloat.
Local Open Scope Z_scope.
Local Open Scope py_scope.

(** ** The output between prompts *)

Definition after_newline (tail : string) : string := String.substring 1 (String.length tail - 1) tail.
Fixpoint printed (l : list (string * string)) (tail : string) : string :=
  match l with
  | [] => after_newline tail
  | (_, out) :: l => out +:+ nl +:+ printed l tail
  end.

Lemma str_from_past a s : str_len s ≤ a → str_from a s = "".
Proof.
  intros Ha. unfold str_from, str_slice. replace (Z.to_nat (str_len s - a)) with O by lia.
  generalize (Z.to_nat a) as k. clear. induction s as [|c s IH]; intros [|k]; simpl; [done..|]. apply IH.
Qed.

Lemma outputs_between_cons pane m m' ms :
  outputs_between pane (m :: m' :: ms)
  = str_slice (pm_end m + 1) (pm_start m') pane +:+ nl +:+ outputs_between pane (m' :: ms).
Proof. done. Qed.

Lemma outputs_from p l doc tail :
  tail_ok tail = true →
  outputs_between (p +:+ transcript l +:+ ps1_block doc +:+ tail) (transcript_matches (str_len p) (l ++ [(doc, "")]))
  = printed l tail.
Proof.
  intros Ht. revert p. induction l as [|[d o] l IH]; intros p.
  - cbn [transcript app transcript_matches outputs_between printed pm_end].
    change ("" +:+ ps1_block doc +:+ tail) with (ps1_block doc +:+ tail).
    apply orb_true_iff in Ht as [->%String.eqb_eq|[[t ->]%prefix_inv _]%andb_true_iff].
    + rewrite str_from_past; [done|]. rewrite !str_len_append. unfold str_len. simpl. lia.
    + unfold after_newline. change (nl +:+ t) with (String newline t). simpl. rewrite Nat.sub_0_r, substring_full.
      change (String newline t) with (nl +:+ t). rewrite !append_assoc. apply str_from_app.
      rewrite !str_len_append. unfold str_len. simpl. lia.
  - cbn [transcript app transcript_matches printed].
    pose proof (IH (p +:+ ps1_block d +:+ nl +:+ o)) as IH'.
    assert (str_len (p +:+ ps1_block d +:+ nl +:+ o) = str_len p + str_len (ps1_block d) + 1 + str_len o) as Hlen.
    { rewrite !str_len_append. unfold str_len. simpl. lia. }
    rewrite Hlen in IH'. rewrite <-!append_assoc in IH' |- *.
    destruct (transcript_matches _ (l ++ [(doc, "")])) as [|m' ms] eqn:Em; [by destruct l as [|[]]|].
    rewrite outputs_between_cons, IH'. f_equal. cbn [pm_end].
    assert (pm_start m' = str_len p + str_len (ps1_block d) + 1 + str_len o) as ->.
    { destruct l as [|[]]; simpl in Em; by injection Em as <- _. }
    rewrite (append_assoc p), (append_assoc (p +:+ ps1_block d)). apply str_slice_mid; rewrite !str_len_append; unfold str_len; simpl; lia.
Qed.

(** ** White space around the output *)

Lemma rstrip_nl s : str_rstrip (s +:+ nl) = str_rstrip s.
Proof. unfold str_rstrip. by rewrite rev_append. Qed.
Lemma lstrip_blank_app s t : str_lstrip s = "" → str_lstrip (s +:+ t) = str_lstrip t.
Proof. induction s as [|c s IH]; [done|]. rewrite append_cons. simpl. destruct (is_py_space c); [apply IH|done]. Qed.
Lemma lstrip_app_ne s t : str_lstrip s ≠ "" → str_lstrip (s +:+ t) = str_lstrip s +:+ t.
Proof. induction s as [|c s IH]; [done|]. rewrite append_cons. simpl. destruct (is_py_space c); [apply IH|done]. Qed.

Lemma strip_lines s : str_rstrip (str_lstrip (nl +:+ s +:+ nl)) = str_strip s.
Proof.
  change (str_lstrip (nl +:+ s +:+ nl)) with (str_lstrip (s +:+ nl)). unfold str_strip. fold (str_rstrip (str_lstrip s)).
  destruct (String.eqb_spec (str_lstrip s) "") as [Hs|Hs].
  - by rewrite lstrip_blank_app, Hs.
  - rewrite lstrip_app_ne by done. apply rstrip_nl.
Qed.

(** The echo of the command is taken off. *)
Lemma echo_removed sent output :
  str_lstrip sent = sent → sent ≠ "" →
  str_rstrip (remove_command_prefix ((sent +:+ nl +:+ output) +:+ nl) sent) = str_strip output.
Proof.
  intros Hs Hne. unfold remove_command_prefix. rewrite <-!append_assoc, Hs.
  rewrite lstrip_app_ne by by rewrite Hs. rewrite Hs, after_prefix_app. simpl from_option. apply strip_lines.
Qed.

Section props.
Context `{Terminal T, Platform, Bashlex}.
Variable str_float : float → string.
Abbreviation Session := (BashSession T).
Abbreviation execute := (execute str_float).
Abbreviation poll := (poll str_float).
Abbreviation poll_once := (poll_once str_float).

(** ** A session with a timeout ends *)

(** The clock goes on: a reading is not before an earlier one, and sleeping takes its time. *)
Class ClockLaws (clock : T → Z) := {
  clock_time : ∀ t, clock t ≤ (t_time t).2 ∧ (t_time t).2 ≤ clock (t_time t).1;
  clock_capture : ∀ t, clock t ≤ clock (t_capture t).1;
  clock_send : ∀ keys enter t, clock t ≤ clock (t_send_keys keys enter t);
  clock_sleep : ∀ d t, clock t + d ≤ clock (t_sleep d t);
  clock_continue : ∀ t, clock t ≤ clock (t_should_continue t).1;
}.

(** A number of microseconds that is not below a finite timeout. *)
Definition timeout_us (x : float) : Z :=
  match x with
  | S754_finite false m e => if 0 <=? e then Z.pos m * 2 ^ e * 1000000 else Z.pos m * 1000000 / 2 ^ (- e) + 1
  | _ => 0
  end.
(** A timeout that is a positive number. *)
Definition positive_timeout (x : float) : bool := match x with S754_finite false _ _ => true | _ => false end.

Lemma timeout_us_enough x us :
  positive_timeout x = true → timeout_us x ≤ us → ftruthy x && float_le_us x us = true.
Proof.
  destruct x as [| | |[] m e]; try done. intros _ Hx. apply andb_true_iff. split; [by destruct m|].
  unfold float_le_us, timeout_us in *. destruct (Z.leb_spec 0 e); apply Z.leb_le; [done|].
  assert (0 < 2 ^ (- e)) by (apply Z.pow_pos_nonneg; lia).
  pose proof (Z.mul_succ_div_gt (Z.pos m * 1000000) (2 ^ (- e)) ltac:(lia)). nia.
Qed.

Section clock.
Context (clock : T → Z) `{!ClockLaws clock}.

Lemma clock_after_time t : clock t ≤ clock (t_time t).1.
Proof using ClockLaws0. pose proof (clock_time t). lia. Qed.

(** A turn that goes on takes the time it sleeps, and only when the timeout is not over. *)
Lemma poll_once_clock r command count start pane changed s s' x y :
  poll_once r command count start pane changed s = (s', Ok (inr y)) →
  cr_timeout r = Some x → positive_timeout x = true →
  clock (bs_pane s) < start + timeout_us x ∧ clock (bs_pane s) + POLL_INTERVAL ≤ clock (bs_pane s').
Proof using ClockLaws0.
  intros E Hx Hpos. unfold BashSession.poll_once, get_pane_content, read_pane, pbind, pget, pret, on_pane, pmodify in E.
  pose proof (clock_continue (bs_pane s)) as Hk1. destruct (t_should_continue (bs_pane s)) as [t1 []]; [|done].
  simpl in *. pose proof (clock_after_time t1) as Hk2. destruct (t_time t1) as [t2 ?]. simpl in *.
  pose proof (clock_capture t2) as Hk3. destruct (t_capture t2) as [t3 lines]. simpl in *.
  pose proof (clock_after_time t3) as Hk4. destruct (t_time t3) as [t4 ?]. simpl in *.
  set (cur := str_join nl (str_rstrip <$> lines)) in *.
  destruct (if String.eqb cur pane then _ else _) as [s5 [ch|]] eqn:E5 in E; [|done].
  assert (clock t4 ≤ clock (bs_pane s5)) as Hk5.
  { destruct (String.eqb cur pane); [by injection E5 as <- _|]. simpl in E5.
    pose proof (clock_after_time t4). destruct (t_time t4). simpl in *. by injection E5 as <- _. }
  destruct ((count <? _) || _).
  { by destruct (handle_completed_command _ _ _ _ _) as [? [|]]. }
  pose proof (clock_after_time (bs_pane s5)) as Hk6. destruct (t_time (bs_pane s5)) as [t6 now6]. simpl in *.
  destruct (negb (cr_blocking r) && _).
  { by destruct (handle_nochange_timeout_command (T := T) _ _ _ _) as [? [|]]. }
  simpl in E. pose proof (clock_time t6) as Hk7. destruct (t_time t6) as [t7 now7]. simpl in *. rewrite Hx in E.
  destruct (ftruthy x && float_le_us x (now7 - start)) eqn:Et.
  { by destruct (handle_hard_timeout_command (T := T) str_float _ _ _ x _) as [? [|]]. }
  injection E as <- _. simpl. pose proof (clock_sleep POLL_INTERVAL t7). split; [|lia].
  apply Z.nle_gt. intros Hc. rewrite (timeout_us_enough x) in Et by (done || lia). done.
Qed.

Lemma poll_ends fuel r command count start x : ∀ pane changed s,
  cr_timeout r = Some x → positive_timeout x = true →
  start + timeout_us x ≤ clock (bs_pane s) + Z.of_nat fuel * POLL_INTERVAL →
  (poll (S fuel) r command count start pane changed s).2 ≠ Ok None.
Proof using ClockLaws0.
  induction fuel as [|fuel IH]; intros pane changed s Hx Hpos Hc; cbn [BashSession.poll]; unfold pbind at 1;
    destruct (BashSession.poll_once _ _ _ _ _ _ _ s) as [s' [[o|[p c]]|e]] eqn:E; try done;
    destruct (poll_once_clock _ _ _ _ _ _ _ _ _ _ E Hx Hpos) as [Hlt Hs].
  - lia.
  - apply IH; [done|done|]. lia.
Qed.

(** C14 With a positive timeout a command comes back: for any terminal whose clock goes on,
    whatever it shows, [execute] returns or raises within [fuel + 1] turns of its loop for
    every [fuel] whose polling intervals are as long as the timeout (in whole microseconds,
    rounded up): one more than there are such intervals. *)
Theorem timeout_ends r x fuel (s : Session) :
  cr_timeout r = Some x → positive_timeout x = true →
  timeout_us x ≤ Z.of_nat fuel * POLL_INTERVAL →
  (execute (S fuel) r s).2 ≠ Ok None.
Proof using ClockLaws0.
  intros Hx Hpos Hf. unfold BashSession.execute, pbind at 1, pget at 1. destruct (negb (bs_initialized s)); [done|].
  destruct (_ && String.eqb _ ""); [done|]. destruct (_ && cr_is_input r); [done|]. unfold pbind at 1, plift at 1.
  destruct (split_bash_commands _) as [l|e]; [|done]. destruct (1 <? py_len l); [done|].
  unfold get_pane_content, pbind, read_pane, pret. destruct (t_capture (bs_pane s)) as [t1 lines].
  simpl. pose proof (clock_time t1) as Ht. destruct (t_time t1) as [t2 start]. simpl in Ht.
  destruct (must_wait _ _ _ _).
  { unfold not_executed, pbind, get_command_output, pret. by destruct (String.eqb _ ""). }
  destruct (send_command r _ _) as [s3 [sent|e]] eqn:Es; [|done].
  apply poll_ends with x; [done|done|]. cut (start ≤ clock (bs_pane s3)); [lia|].
  unfold send_command, pbind, on_pane, pmodify, plift, pret in Es.
  destruct (String.eqb _ ""); [injection Es as <- _; simpl; lia|].
  destruct (cr_is_input r).
  - injection Es as <- _. simpl. pose proof (clock_send (str_strip (cr_command r)) (negb (is_special_key (str_strip (cr_command r)))) t2). lia.
  - destruct (escape_bash_special_chars _) as [e|]; [|done]. injection Es as <- _. simpl.
    pose proof (clock_send e (negb (is_special_key (str_strip (cr_command r)))) t2). lia.
Qed.
End clock.

(** ** What is remembered of a command *)

(** Output is remembered only of a command that was left running. *)
Definition session_ok (s : Session) : Prop := running s = false → bs_prev_output s = "".

Lemma set_pane_ok t s : session_ok s → session_ok (set_pane t s).
Proof. done. Qed.
Lemma get_command_output_state command raw m prefix (s : Session) :
  (get_command_output command raw m prefix s).1 = set_prev_output raw s.
Proof. unfold get_command_output. by destruct (String.eqb _ ""). Qed.

Lemma completed_ok command pane ms hidden s :
  session_ok s → session_ok (handle_completed_command command pane ms hidden s).1.
Proof.
  intros Hs. unfold handle_completed_command. destruct (last ms) as [m|]; [|done]. unfold pbind at 1, plift.
  destruct (from_ps1_match m) as [md|e]; [|done]. unfold pbind at 1, pmodify at 1.
  set (s1 := match com_working_dir md with Some _ => _ | None => _ end). unfold pbind at 1.
  destruct (get_command_output _ _ _ _ s1) as [s2 [[o md']|e]] eqn:E; [done|].
  unfold get_command_output in E. by destruct (String.eqb _ "").
Qed.
Lemma timed_out_ok status reason command pane ms (s : Session) :
  status = NO_CHANGE_TIMEOUT ∨ status = HARD_TIMEOUT → session_ok (handle_timeout status reason command pane ms s).1.
Proof.
  intros Hst. unfold handle_timeout, pbind at 1, pmodify at 1. cbv beta iota. unfold pbind at 1.
  pose proof (get_command_output_state command (combine_outputs_between_matches pane ms false)
    (set_suffix (nl +:+ "[" +:+ reason +:+ TIMEOUT_MESSAGE_TEMPLATE +:+ "]") default_metadata) CONTINUED (set_prev_status status s)) as Hg.
  destruct (get_command_output _ _ _ _ _) as [s2 [out|e]]; simpl in *; subst s2; intros Hr;
    by destruct Hst as [-> | ->].
Qed.

(** A turn of the loop that goes on has changed nothing but the terminal. *)
Lemma poll_once_ok r command count start pane changed s s' x :
  poll_once r command count start pane changed s = (s', x) → session_ok s →
  session_ok s' ∧ (∀ y, x = Ok (inr y) → ∃ t, s' = set_pane t s).
Proof.
  intros E Hs. unfold BashSession.poll_once, get_pane_content, read_pane, pbind, pget, pret, on_pane, pmodify in E.
  destruct (t_should_continue (bs_pane s)) as [t1 []]; [|simpl in E; by injection E as <- <-].
  simpl in E. destruct (t_time t1) as [t2 ?]. simpl in E. destruct (t_capture t2) as [t3 lines]. simpl in E.
  destruct (t_time t3) as [t4 ?]. simpl in E. set (cur := str_join nl (str_rstrip <$> lines)) in *.
  destruct (if String.eqb cur pane then _ else _) as [s5 r5] eqn:E5 in E.
  assert ((∃ t5, s5 = set_pane t5 s) ∧ ∃ ch, r5 = Ok ch) as [[t5 ->] [ch ->]].
  { destruct (String.eqb cur pane); [injection E5 as <- <-; eauto|]. simpl in E5. destruct (t_time t4).
    injection E5 as <- <-. eauto. }
  destruct ((count <? _) || _).
  { pose proof (completed_ok command cur (matches_ps1_metadata cur) (cr_hidden r) _ (set_pane_ok t5 s Hs)).
    destruct (handle_completed_command _ _ _ _ _) as [? [|]]; by injection E as <- <-. }
  simpl in E. destruct (t_time t5) as [t6 now6]. simpl in E. destruct (negb (cr_blocking r) && _).
  { unfold handle_nochange_timeout_command, pbind at 1, pget in E.
    match type of E with context [handle_timeout ?st ?re ?c ?p ?m ?s0] =>
      pose proof (timed_out_ok st re c p m s0 ltac:(auto)); destruct (handle_timeout st re c p m s0) as [? [|]] end;
    by injection E as <- <-. }
  simpl in E. destruct (t_time t6) as [t7 now7]. simpl in E.
  destruct (match cr_timeout r with Some _ => _ | None => _ end) as [x0|].
  - unfold handle_hard_timeout_command in E.
    match type of E with context [handle_timeout ?st ?re ?c ?p ?m ?s0] =>
      pose proof (timed_out_ok st re c p m s0 ltac:(auto)); destruct (handle_timeout st re c p m s0) as [? [|]] end;
    by injection E as <- <-.
  - injection E as <- <-. split; [done|]. intros y _. by eexists.
Qed.

Lemma poll_ok fuel r command count start : ∀ pane changed s,
  session_ok s → session_ok (poll fuel r command count start pane changed s).1.
Proof.
  induction fuel as [|fuel IH]; intros pane changed s Hs; [done|]. cbn [BashSession.poll]. unfold pbind.
  destruct (BashSession.poll_once _ _ _ _ _ _ _ s) as [s' x] eqn:E. destruct (poll_once_ok _ _ _ _ _ _ _ _ _ E Hs) as [Hs' _].
  destruct x as [[o|[p c]]|e]; [done| |done]. by apply IH.
Qed.

(** Whatever is executed and however it ends, the output of an earlier command is
    remembered, to be taken off a later one, only while that command runs. *)
Theorem execute_ok fuel r s : session_ok s → session_ok (execute fuel r s).1.
Proof.
  intros Hs. unfold BashSession.execute, pbind at 1, pget at 1. destruct (negb (bs_initialized s)); [done|].
  destruct (_ && String.eqb _ ""); [done|]. destruct (_ && cr_is_input r); [done|]. unfold pbind at 1, plift at 1.
  destruct (split_bash_commands _) as [l|e]; [|done]. destruct (1 <? py_len l); [done|].
  unfold get_pane_content, pbind, read_pane, pret. destruct (t_capture (bs_pane s)) as [t1 lines].
  simpl. destruct (t_time t1) as [t2 start]. destruct (must_wait _ _ _ _) eqn:Ew.
  { unfold not_executed, pbind. pose proof (get_command_output_state (str_strip (cr_command r))) as Hg.
    match goal with |- context [get_command_output ?c ?raw ?m ?p ?s0] => specialize (Hg raw m p s0);
      destruct (get_command_output c raw m p s0) as [s2 [out|e]] end; simpl in *; subst s2; intros Hr;
    exfalso; revert Hr; unfold must_wait in Ew; rewrite !andb_true_iff in Ew; destruct Ew as [[[Ew _] _] _];
    apply bool_decide_eq_true in Ew; unfold running; simpl; by destruct Ew as [-> | ->]. }
  destruct (send_command r _ _) as [s3 [sent|e]] eqn:Es.
  - apply poll_ok. unfold send_command, pbind, on_pane, pmodify, plift, pret in Es.
    destruct (String.eqb _ ""); [by injection Es as <- _|]. destruct (cr_is_input r); [by injection Es as <- _|].
    destruct (escape_bash_special_chars _); [by injection Es as <- _|done].
  - unfold send_command, pbind, on_pane, pmodify, plift, pret in Es.
    destruct (String.eqb _ ""); [done|]. destruct (cr_is_input r); [done|].
    destruct (escape_bash_special_chars _); [done|]. by injection Es as <- _.
Qed.

(** ** A completed command *)

(** The text a terminal shows, and the one that the next turn of the loop will see. *)
Definition shown (t : T) : string := str_join nl (str_rstrip <$> (t_capture t).2).
Definition next_shown (t : T) : string := shown (t_time (t_should_continue t).1).1.

(** Turns of the loop that go on, up to a state and what was seen last. *)
Inductive waits (r : CmdRequest) (command : string) (count start : Z) :
    Session * string * Z → nat → Session * string * Z → Prop :=
  | waits_none x : waits r command count start x 0 x
  | waits_more s pane changed s1 pane1 changed1 n x :
      poll_once r command count start pane changed s = (s1, Ok (inr (pane1, changed1))) →
      waits r command count start (s1, pane1, changed1) n x →
      waits r command count start (s, pane, changed) (S n) x.

Lemma poll_waits r command count start x n y fuel :
  waits r command count start x n y →
  poll (n + fuel) r command count start x.1.2 x.2 x.1.1 = poll fuel r command count start y.1.2 y.2 y.1.1.
Proof.
  induction 1 as [|s pane changed s1 pane1 changed1 n x E Hw IH]; [done|]. simpl. unfold pbind. by rewrite E.
Qed.

(** Turns in which the command goes on, as the terminal shows them: the program is not
    interrupted, the screen shows no more prompts than before the command and does not end
    with one, the screen changed within the limit (unless the request is blocking), and
    the hard timeout is not over.  [(t, pane, changed)]: the terminal, what was seen last,
    and when that changed. *)
Definition timed_out (r : CmdRequest) (start now : Z) : bool :=
  match cr_timeout r with Some x => ftruthy x && float_le_us x (now - start) | None => false end.
Inductive goes_on (r : CmdRequest) (limit count start : Z) : T * string * Z → nat → T * string * Z → Prop :=
  | goes_on_none x : goes_on r limit count start x 0 x
  | goes_on_more t pane changed t3 changed3 n x :
      (t_should_continue t).2 = true →
      let t1 := (t_time (t_should_continue t).1).1 in
      let t2 := (t_time (t_capture t1).1).1 in
      (t3, changed3) = (if String.eqb (shown t1) pane then (t2, changed) else t_time t2) →
      py_len (matches_ps1_metadata (shown t1)) ≤ count → ends_with_prompt (shown t1) = false →
      cr_blocking r = true ∨ (t_time t3).2 - changed3 < limit * 1000000 →
      timed_out r start (t_time (t_time t3).1).2 = false →
      goes_on r limit count start (t_sleep POLL_INTERVAL (t_time (t_time t3).1).1, shown t1, changed3) n x →
      goes_on r limit count start (t, pane, changed) (S n) x.

Lemma goes_on_waits r command count start s x n y :
  goes_on r (bs_no_change_timeout s) count start x n y →
  waits r command count start (set_pane x.1.1 s, x.1.2, x.2) n (set_pane y.1.1 s, y.1.2, y.2).
Proof.
  induction 1 as [[[t p] c]|t pane changed t3 changed3 n x Hgo t1 t2 Hch Hcount Hend Hidle Htime Hrest IH]; [constructor|].
  cbn [fst snd] in *. eapply waits_more; [|exact IH]. clear IH Hrest.
  unfold BashSession.poll_once, get_pane_content, read_pane, pbind, pget, pret, on_pane, pmodify.
  cbn [set_pane bs_pane]. subst t1 t2. unfold shown in *. destruct (t_should_continue t) as [ta []]; [|done].
  cbn [negb fst snd set_pane bs_pane bs_no_change_timeout] in *. destruct (t_time ta) as [tb ?]. cbn [fst snd set_pane bs_pane] in *.
  destruct (t_capture tb) as [tc lines]. cbn [fst snd set_pane bs_pane] in *. destruct (t_time tc) as [td ?]. cbn [fst snd set_pane bs_pane] in *.
  set (cur := str_join nl (str_rstrip <$> lines)) in *.
  assert ((count <? py_len (matches_ps1_metadata cur)) || ends_with_prompt cur = false) as Hnot
    by (rewrite Hend, orb_false_r; by apply Z.ltb_ge).
  assert (negb (cr_blocking r) && (bs_no_change_timeout s * 1000000 <=? (t_time t3).2 - changed3) = false) as Hlimit
    by (destruct Hidle as [->|?]; [done|]; apply andb_false_iff; right; by apply Z.leb_gt).
  destruct (String.eqb cur pane); [injection Hch as <- <-|cbn [set_pane bs_pane]; rewrite <- Hch]; rewrite Hnot; cbn [set_pane bs_pane].
  all: destruct (t_time t3) as [te now]; cbn [fst snd set_pane bs_pane bs_no_change_timeout] in *; rewrite Hlimit.
  all: cbn [set_pane bs_pane]; destruct (t_time te) as [tf now']; cbn [fst snd set_pane bs_pane] in *; unfold timed_out in Htime.
  all: destruct (cr_timeout r) as [x0|]; [rewrite Htime|]; done.
Qed.

(** The prompts' documents are documents. *)
Definition doc_loads (doc : string) : bool :=
  match json_loads (str_strip (ps1_body doc)) with Ok _ => true | Raise _ => false end.

Lemma pane_matches_found pre l doc tail :
  pane_ok pre l doc tail = true → forallb doc_loads (l.*1 ++ [doc]) = true →
  matches_ps1_metadata (pane_text pre l doc tail) = pane_matches pre l doc.
Proof.
  intros Hp Hl. unfold matches_ps1_metadata. rewrite finditer_pane by done. apply py_filter_all. unfold pane_matches.
  assert (∀ pos l, forallb doc_loads (l.*1) = true → ∀ m, m ∈ transcript_matches pos l →
    match json_loads (str_strip (pm_body m)) with Ok _ => true | Raise _ => false end = true) as Hall.
  { intros pos k. revert pos. induction k as [|[d o] k IH]; intros pos; csimpl; [by intros _ m ?%not_elem_of_nil|].
    intros [Hd Hk]%andb_true_iff m [->|Hm]%elem_of_cons; [exact Hd|by eapply IH]. }
  apply Hall. by rewrite fmap_app.
Qed.

Lemma pane_matches_last pre l doc :
  last (pane_matches pre l doc)
  = Some (let pos := str_len pre + str_len (transcript l) in
          mkPs1Match pos (pos + str_len (ps1_block doc)) (ps1_body doc)).
Proof. unfold pane_matches. rewrite transcript_matches_app. apply last_snoc. Qed.
Lemma pane_matches_length pre l doc : py_len (pane_matches pre l doc) = py_len l + 1.
Proof.
  unfold pane_matches, py_len. cut (∀ pos k, length (transcript_matches pos k) = length k).
  - intros ->. rewrite length_app. simpl. lia.
  - intros pos k. revert pos. induction k as [|[] k IH]; intros pos; simpl; [done|]. by rewrite IH.
Qed.

(** A terminal on which a command ran from one prompt to the next. *)
Definition finished_pane (pre doc0 sent output doc1 : string) : string :=
  pane_text pre [(doc0, sent +:+ nl +:+ output)] doc1 "".

Lemma completed_reported pre doc0 sent output doc1 hidden code user host dir interpreter s :
  pane_ok pre [(doc0, sent +:+ nl +:+ output)] doc1 "" = true → forallb doc_loads [doc0; doc1] = true →
  json_loads (ps1_body doc1) = Ok (JDict (shell_document "" (pretty code) user host dir interpreter)) →
  0 ≤ code < 256 → str_lstrip sent = sent → sent ≠ "" → dir ≠ "" → bs_prev_output s = "" →
  let m := mkCmdOutputMetadata code (-1) (Some user) (Some host) (Some dir) (Some interpreter) "" "" in
  let pane := finished_pane pre doc0 sent output doc1 in
  ∃ s', handle_completed_command sent pane (matches_ps1_metadata pane) hidden s
        = (s', Ok (cmd_observation (str_strip output) sent (set_suffix (completed_suffix sent m) m) hidden))
    ∧ bs_prev_status s' = Some COMPLETED ∧ bs_prev_output s' = "" ∧ bs_cwd s' = dir.
Proof.
  intros Hp Hl Hj Hc Hs Hne Hd Ho m pane. unfold pane, finished_pane. rewrite pane_matches_found by done.
  unfold handle_completed_command. rewrite pane_matches_last. unfold pbind at 1, plift.
  rewrite (from_ps1_shell _ code user host dir interpreter) by done. fold m. rewrite pane_matches_length.
  change (py_len [(doc0, sent +:+ nl +:+ output)] + 1 =? 1) with false. cbv iota.
  unfold pbind at 1, pmodify at 1. cbn [com_working_dir m]. destruct (String.eqb_spec dir "") as [|_]; [done|].
  assert (combine_outputs_between_matches (pane_text pre [(doc0, sent +:+ nl +:+ output)] doc1 "")
            (pane_matches pre [(doc0, sent +:+ nl +:+ output)] doc1) false = (sent +:+ nl +:+ output) +:+ nl) as ->.
  { transitivity (printed [(doc0, sent +:+ nl +:+ output)] ""); [|simpl printed; by rewrite append_empty_r].
    rewrite <-(outputs_from pre [(doc0, sent +:+ nl +:+ output)] doc1 "" eq_refl). done. }
  unfold pbind at 1, get_command_output. cbn [set_cwd bs_prev_output]. rewrite Ho.
  change (String.eqb "" "") with true. cbv iota. rewrite echo_removed by done.
  eexists. split; [reflexivity|]. done.
Qed.

(** A new command in a session that runs nothing is typed once and waited for. *)
Lemma execute_typed fuel r s command piece sent :
  bs_initialized s = true → running s = false →
  str_strip (cr_command r) = command → command ≠ "" → cr_is_input r = false →
  split_bash_commands command = Ok [piece] → escape_bash_special_chars command = Ok sent →
  let t1 := (t_capture (bs_pane s)).1 in
  execute fuel r s
  = poll fuel r sent (py_len (matches_ps1_metadata (shown (bs_pane s)))) (t_time t1).2 (shown (bs_pane s)) (t_time t1).2
      (set_pane (t_send_keys sent (negb (is_special_key command)) (t_time t1).1) s).
Proof.
  intros Hi Hr Hcmd Hne Hin Hsp Hes t1. assert (∀ p, must_wait s r command p = false) as Hmw.
  { intros p. unfold must_wait, running in *. by destruct (bs_prev_status s) as [[]|]. }
  unfold BashSession.execute, pbind at 1, pget at 1. rewrite Hi, Hr, Hcmd, Hin. cbn [negb andb].
  destruct (String.eqb_spec command "") as [|_]; [done|]. unfold pbind at 1, plift at 1. rewrite Hsp.
  change (1 <? py_len [piece]) with false. cbv beta iota. subst t1. unfold shown.
  destruct (t_capture (bs_pane s)) as [t1 lines] eqn:Ec. destruct (t_time t1) as [t2 st] eqn:Et.
  unfold get_pane_content, pbind, read_pane, pret. rewrite Ec. cbn [set_pane bs_pane]. rewrite Et, Hmw.
  unfold send_command, pbind, plift, on_pane, pmodify, pret.
  destruct (String.eqb_spec command "") as [|_]; [done|]. rewrite Hin, Hes. cbn [fst snd]. by rewrite Et.
Qed.

(** C13 A command that the shell completes is reported as it was: from a session that runs
    nothing and whose screen shows at most one prompt, the one command is typed once; the
    loop looks any number of times at a screen with no new prompt, not ending with a prompt,
    that changed within the limit (or the request is blocking), before the hard timeout and
    without an interruption ([goes_on]: the terminal has echoed the command when the loop
    first looks, see [slow_echo_completes] for one that has not); then the screen shows the
    prompt, the command's echo, its output and the next prompt.  The observation has the
    output stripped of the white space around it (and, as every observation of a command,
    cut to the limit of its constructor), the exit code, user, directory and interpreter
    that the shell printed; the session has the new directory and forgets the output. *)
Theorem command_completes r s command piece sent n tN paneN changedN fuel
    pre doc0 output doc1 code user host dir interpreter :
  bs_initialized s = true → running s = false → session_ok s →
  str_strip (cr_command r) = command → command ≠ "" → cr_is_input r = false →
  split_bash_commands command = Ok [piece] → escape_bash_special_chars command = Ok sent →
  str_lstrip sent = sent → sent ≠ "" →
  let t1 := (t_capture (bs_pane s)).1 in
  let start := (t_time t1).2 in
  let typed := t_send_keys sent (negb (is_special_key command)) (t_time t1).1 in
  let count := py_len (matches_ps1_metadata (shown (bs_pane s))) in
  goes_on r (bs_no_change_timeout s) count start (typed, shown (bs_pane s), start) n (tN, paneN, changedN) →
  (t_should_continue tN).2 = true →
  next_shown tN = finished_pane pre doc0 sent output doc1 → count ≤ 1 →
  pane_ok pre [(doc0, sent +:+ nl +:+ output)] doc1 "" = true → forallb doc_loads [doc0; doc1] = true →
  json_loads (ps1_body doc1) = Ok (JDict (shell_document "" (pretty code) user host dir interpreter)) →
  0 ≤ code < 256 → dir ≠ "" →
  let m := mkCmdOutputMetadata code (-1) (Some user) (Some host) (Some dir) (Some interpreter) "" "" in
  ∃ s', execute (n + S fuel) r s
        = (s', Ok (Some (cmd_observation (str_strip output) sent (set_suffix (completed_suffix sent m) m) (cr_hidden r))))
    ∧ bs_prev_status s' = Some COMPLETED ∧ bs_prev_output s' = "" ∧ bs_cwd s' = dir.
Proof.
  intros Hi Hr Hok Hcmd Hne Hin Hsp Hes Hls Hsne t1 start typed count Hw Hgo Hv Hcount Hp Hl Hj Hc Hd m.
  apply (goes_on_waits r sent count start s) in Hw. cbn [fst snd] in Hw.
  rewrite (execute_typed (n + S fuel) r s command piece sent) by done.
  pose proof (poll_waits _ _ _ _ _ _ _ (S fuel) Hw) as Hpoll. cbn [fst snd] in Hpoll.
  fold t1 start typed count. rewrite Hpoll.
  cbn [BashSession.poll]. unfold pbind at 1. unfold next_shown, shown in Hv.
  unfold BashSession.poll_once, get_pane_content, read_pane, pbind, pret. simpl bs_pane.
  destruct (t_should_continue tN) as [ta []]; [|done]. simpl in Hv |- *. destruct (t_time ta) as [tb ?]. simpl in Hv |- *.
  destruct (t_capture tb) as [tc lines]. simpl in Hv |- *. destruct (t_time tc) as [td ?]. rewrite Hv.
  set (pane := finished_pane pre doc0 sent output doc1).
  assert (py_len (matches_ps1_metadata pane) = 2) as Hlen.
  { unfold pane, finished_pane. rewrite pane_matches_found by done. by rewrite pane_matches_length. }
  destruct (if String.eqb pane paneN then _ else _) as [s5 r5] eqn:E5.
  assert ((∃ t5, s5 = set_pane t5 s) ∧ ∃ ch, r5 = Ok ch) as [[t5 ->] [ch ->]].
  { destruct (String.eqb pane paneN); [injection E5 as <- <-; eauto|]. simpl in E5. destruct (t_time td).
    injection E5 as <- <-. eauto. }
  rewrite Hlen. destruct (Z.ltb_spec count 2); [|lia]. cbn [orb].
  destruct (completed_reported pre doc0 sent output doc1 (cr_hidden r) code user host dir interpreter (set_pane t5 s))
    as (s' & Hh & Hst & Hpo & Hcw); try done; [by apply Hok|]. fold pane in Hh. rewrite Hh. eauto.
Qed.
End props.

(** * Shell sessions on concrete terminals

    A terminal that shows the screens of a script, one per capture, and the witnesses of the
    session's theorems. *)
Record Screen := mkScreen { sc_clock : Z; sc_keys : list string; sc_views : list (list string) }.
#[local] Instance screen_terminal : Terminal Screen := {|
  t_capture t := match sc_views t with
                 | v :: (_ :: _) as rest => (mkScreen (sc_clock t) (sc_keys t) (tail (sc_views t)), v)
                 | v :: _ => (t, v)
                 | [] => (t, [])
                 end;
  t_send_keys keys _ t := mkScreen (sc_clock t) (sc_keys t ++ [keys]) (sc_views t);
  t_clear_history t := t;
  t_kill t := t;
  t_sleep d t := mkScreen (sc_clock t + Z.max 0 d) (sc_keys t) (sc_views t);
  t_time t := (mkScreen (sc_clock t + 1) (sc_keys t) (sc_views t), sc_clock t + 1);
  t_should_continue t := (t, true);
|}.
#[local] Instance screen_clock : ClockLaws sc_clock.
Proof. split; intros; simpl; try lia. by destruct (sc_views t) as [|? [|]]. Qed.

(** The codec of the examples, which like JSON's skips white space. *)
#[local] Instance shell_platform : Platform := {|
  py_repr := ex_dumps; literal_eval := λ _, None; version := "1.0"; json_dumps := ex_dumps;
  json_loads s := ex_loads (str_strip s) |}.
(** Every command is one word. *)
#[local] Instance one_word : Bashlex := λ s, Ok [BashNode "word" (0, str_len s) None []].

Definition doc (code : Z) (dir : string) : string :=
  ex_dumps (JDict (shell_document "" (pretty code) "me" "box" dir "/usr/bin/python")).
Definition prompt (code : Z) (dir : string) : list string := ["###PS1JSON###"; doc code dir; "###PS1END###"].
Definition session (views : list (list string)) : BashSession Screen :=
  mkBashSession 30 true false None "" "/w" (mkScreen 0 [] views).
Definition request (timeout : option float) : CmdRequest := mkCmdRequest " cd /v " false false timeout false.
Definition finished : list string := prompt 7 "/w" ++ ["cd /v"; "moved"; ""] ++ prompt 0 "/v".

Example session_completes :
  let x := execute (λ _, "") 5 (request None) (session [prompt 7 "/w"; prompt 7 "/w" ++ ["cd /v"]; finished]) in
  x.2 = Ok (Some (cmd_observation "moved" "cd /v"
                    (mkCmdOutputMetadata 0 (-1) (Some "me") (Some "box") (Some "/v") (Some "/usr/bin/python") ""
                       (nl +:+ "[The command completed with exit code 0.]")) false))
  ∧ bs_cwd x.1 = "/v" ∧ sc_keys (bs_pane x.1) = ["cd /v"; "C-l"].
Proof. vm_compute. done. Qed.

Lemma command_completes_witness :
  let s := session [prompt 7 "/w"; prompt 7 "/w" ++ ["cd /v"]; finished] in
  let m := mkCmdOutputMetadata 0 (-1) (Some "me") (Some "box") (Some "/v") (Some "/usr/bin/python") "" "" in
  ∃ s', execute (λ _, "") 2 (request None) s
        = (s', Ok (Some (cmd_observation (str_strip ("moved" +:+ nl +:+ nl)) "cd /v" (set_suffix (completed_suffix "cd /v" m) m) false)))
    ∧ bs_prev_status s' = Some COMPLETED ∧ bs_prev_output s' = "" ∧ bs_cwd s' = "/v".
Proof.
  intros s m.
  apply (command_completes (λ _, "") (request None) s "cd /v" "cd /v" "cd /v" 1
    (mkScreen 500006 ["cd /v"] [finished]) (str_join nl (prompt 7 "/w" ++ ["cd /v"])) 4 0
    "" (doc 7 "/w") ("moved" +:+ nl +:+ nl) (doc 0 "/v") 0 "me" "box" "/v" "/usr/bin/python");
    try (vm_compute; reflexivity); try (vm_compute; discriminate); try (intros _; reflexivity); try lia.
  eapply goes_on_more; try (vm_compute; reflexivity); try (vm_compute; discriminate); [right; vm_compute; done|].
  vm_compute. apply goes_on_none.
Defined.

(** Half a second, on a terminal that shows nothing new. *)
Definition half : float := SpecFloat.S754_finite false 4503599627370496 (-53).
Lemma timeout_ends_witness :
  timeout_us half = 500001
  ∧ (execute (λ _, "") 3 (request (Some half)) (session [prompt 7 "/w"; ["busy"]])).2 ≠ Ok None.
Proof.
  split; [vm_compute; reflexivity|].
  apply (timeout_ends (λ _, "") sc_clock (request (Some half)) half 2); [reflexivity|reflexivity|]. vm_compute. discriminate.
Defined.

Example session_times_out :
  let x := execute (λ _, "0.5") 3 (request (Some half)) (session [prompt 7 "/w"; prompt 7 "/w" ++ ["cd /v"; "busy"]]) in
  bs_prev_status x.1 = Some HARD_TIMEOUT ∧ obs_content <$> (match x.2 with Ok (Some o) => Some o | _ => None end) = Some "busy".
Proof. vm_compute. done. Qed.

(** While the terminal has not yet echoed the command, it still ends with the prompt before
    it, and the command is reported as completed, with the exit code of the previous one;
    what it prints later is never reported. *)
Example slow_echo_completes :
  let x := execute (λ _, "") 5 (request None) (session [prompt 7 "/w"; prompt 7 "/w"; prompt 7 "/w" ++ ["cd /v"]; finished]) in
  bs_prev_status x.1 = Some COMPLETED
  ∧ (match x.2 with Ok (Some (mkObservation c (OCmdOutput o))) => Some (c, exit_code o) | _ => None end) = Some ("", 7).
Proof. vm_compute. done. Qed.
