(* ===== verification/Runtime.v ===== *)
(** * The runtime

    Models the base class of [runtime/base.py]: the subscriber of the stream that executes
    actions and publishes their observations.  What a concrete runtime (a container, a
    remote machine) does for an action is a parameter, an [Executor]. *)

From S2P Require Import Prelude PyValue ControlFlags Metrics Schema Actions Observations Events Serialization SerializationProps FileStore EventStore ExamplePlatform EventStream EventStreamProps ConversationStats State StateTracker Controller ControllerProps ExampleAgent ControllerSafety ControllerEvents AgentLoop FnCallTexts Secrets BashSession.
From S2P Require Import ControlFlags Metrics ConversationStats State StateTracker Controller FnCallTexts Secrets BashSession.
Local Open Scope Z_scope.
Local Open Scope py_scope.

(** The abstract methods: each executes an action, given with its attributes, and returns
    the observation. *)
Class Executor (X : Type) := {
  x_run : Event → pyM X Event;
  x_run_ipython : Event → pyM X Event;
  x_read : Event → pyM X Event;
  x_write : Event → pyM X Event;
  x_edit : Event → pyM X Event;
  x_browse : Event → pyM X Event;
  x_browse_interactive : Event → pyM X Event;
  x_call_tool_mcp : Event → pyM X Event;
}.

Record Runtime (X : Type) := mkRuntime {
  rt_sid : string;
  rt_timeout : float;
  rt_jupyter : bool;
  rt_attach_to_existing : bool;
  rt_initial_env_vars : list (string * string);
  rt_startup_env_vars : list (string * string);
  rt_git_user : option (string * string);
  rt_tokens : list (ProviderType * ProviderToken);
  rt_has_callback : bool;
  rt_runtime_status : option string;
  rt_callbacks : list (string * string * string);
  rt_exec : X;
}.
Arguments mkRuntime {X} _ _ _ _ _ _ _ _ _ _ _ _.
Arguments rt_sid {X} _.
Arguments rt_timeout {X} _.
Arguments rt_jupyter {X} _.
Arguments rt_attach_to_existing {X} _.
Arguments rt_initial_env_vars {X} _.
Arguments rt_startup_env_vars {X} _.
Arguments rt_git_user {X} _.
Arguments rt_tokens {X} _.
Arguments rt_has_callback {X} _.
Arguments rt_runtime_status {X} _.
Arguments rt_callbacks {X} _.
Arguments rt_exec {X} _.

(** [_default_env_vars] on the environment *)
Definition default_env_vars (environ : list (string * string)) (enable_auto_lint : bool) : list (string * string) :=
  let ret := foldl (λ d '(k, v), match StrSearch.after_prefix "SANDBOX_ENV_" k with Some k => dset k v d | None => d end)
               [] environ in
  if enable_auto_lint then dset "ENABLE_AUTO_LINT" "true" ret else ret.

(** ** Provider tokens *)

Definition get_provider_env_key (p : ProviderType) : string := str_lower (provider_value p +:+ "_token").
Definition check_cmd_action_for_provider_token_ref (e : Event) : list ProviderType :=
  match ev_body e with
  | EAction (ACmdRun a) =>
      py_filter (λ p, str_contains (get_provider_env_key p) (str_lower (cra_command a))) all_providers
  | _ => []
  end.
Fixpoint token_of (p : ProviderType) (l : list (ProviderType * ProviderToken)) : option ProviderToken :=
  match l with
  | [] => None
  | (q, t) :: l => if bool_decide (p = q) then Some t else token_of p l
  end.
(** [get_env_vars(providers, expose_secrets=False, get_latest=True)]; [refresh] is the
    service that knows the latest tokens, if one is configured. *)
Definition get_env_vars (refresh : option (ProviderType → option string)) (tokens : list (ProviderType * ProviderToken))
    (providers : list ProviderType) : list (ProviderType * string) :=
  let providers := match providers with [] => all_providers | _ => providers end in
  providers ≫= λ p,
    match token_of p tokens with
    | None => []
    | Some t =>
        match truthy_str (match refresh with Some f => f p | None => pt_token t end) with
        | Some s => [(p, s)]
        | None => []
        end
    end.
Definition expose_env_vars (l : list (ProviderType * string)) : list (string * string) :=
  (λ '(p, s), (get_provider_env_key p, s)) <$> l.

(** ** Observations *)

Definition obs_of (e : Event) : option Observation :=
  match ev_body e with EObservation o => Some o | EAction _ => None end.
Definition is_error_obs (e : Event) : bool :=
  match obs_of e with Some (mkObservation _ (OError _)) => true | _ => false end.
Definition is_null_obs (e : Event) : bool :=
  match obs_of e with Some (mkObservation _ ONull) => true | _ => false end.
(** The exit code of a command's output. *)
Definition cmd_exit_code (e : Event) : option Z :=
  match obs_of e with Some (mkObservation _ (OCmdOutput o)) => Some (exit_code o) | _ => None end.
Definition obs_text (e : Event) : string := match obs_of e with Some o => obs_content o | None => "" end.
Definition error_obs (s : string) : Event := new_obs s (OError (mkErrorObservation "")).

Definition CMD_RETRY_MAX_ATTEMPTS : Z := 3.
Definition CMD_RETRY_TIMEOUT_EXIT_CODE : Z := -1.
Definition is_bash_session_timeout (e : Event) : bool :=
  bool_decide (cmd_exit_code e = Some CMD_RETRY_TIMEOUT_EXIT_CODE).

(** [CmdRunAction(cmd, ..)] with the class's defaults *)
Definition cmd_action (command : string) (blocking hidden is_static : bool) (cwd : option string) : Event :=
  new_action (ACmdRun (mkCmdRunAction command false "" blocking is_static cwd hidden CONFIRMED RISK_UNKNOWN)).
Definition read_action (p : string) : Event :=
  new_action (AFileRead (mkFileReadAction p 0 (-1) "" RISK_UNKNOWN READ_DEFAULT None)).

(** ** The runtime's methods *)

Section runtime.
Context `{FileStore F} `{Platform} `{Executor X}.
Variable now : nat → string.
(** The service of the latest tokens, and how a dictionary's keys and an observation are
    printed. *)
Variable str_obs : Event → string.
Variable refresh : option (ProviderType → option string).
Variable keys_repr : list string → string.
Abbreviation RT := (Runtime X).
Abbreviation rtM := (pyM (World F * RT)).

Definition set_exec (x : X) (r : RT) : RT :=
  mkRuntime (rt_sid r) (rt_timeout r) (rt_jupyter r) (rt_attach_to_existing r) (rt_initial_env_vars r)
    (rt_startup_env_vars r) (rt_git_user r) (rt_tokens r) (rt_has_callback r) (rt_runtime_status r) (rt_callbacks r) x.
(** A method of the concrete runtime. *)
Definition executes (f : Event → pyM X Event) (e : Event) : rtM Event := λ '(w, r),
  let '(x, res) := f e (rt_exec r) in ((w, set_exec x r), res).
Definition rt_emit (e : Event) (source : EventSource) : rtM unit := λ '(w, r),
  let '(w, _, res) := publish now e source w in ((w, r), res).
Definition on_file_store {A} (f : F → F * result A) : rtM A := λ '(w, r),
  let st := w_stream w in
  let '(fs, res) := f (es_file_store (st_store st)) in
  ((set_w_stream (set_store (set_file_store fs (st_store st)) st) w, r), res).

Definition runtime_status (status msg level : string) : rtM unit :=
  pmodify (λ '(w, r),
    (w, mkRuntime (rt_sid r) (rt_timeout r) (rt_jupyter r) (rt_attach_to_existing r) (rt_initial_env_vars r)
          (rt_startup_env_vars r) (rt_git_user r) (rt_tokens r) (rt_has_callback r) (Some status)
          (if rt_has_callback r then rt_callbacks r ++ [(level, status, msg)] else rt_callbacks r) (rt_exec r))).
Definition status_callback (level status msg : string) : rtM unit :=
  pmodify (λ '(w, r),
    (w, mkRuntime (rt_sid r) (rt_timeout r) (rt_jupyter r) (rt_attach_to_existing r) (rt_initial_env_vars r)
          (rt_startup_env_vars r) (rt_git_user r) (rt_tokens r) (rt_has_callback r) (rt_runtime_status r)
          (if rt_has_callback r then rt_callbacks r ++ [(level, status, msg)] else rt_callbacks r) (rt_exec r))).

(** *** Commands with retries *)

Definition extract_error_content (e : option Event) : string :=
  match e with
  | None => "No observation received"
  | Some e =>
      match cmd_exit_code e with
      | Some c => obs_text e +:+ " (exit_code=" +:+ pretty c +:+ ")"
      | None => if is_error_obs e then obs_text e else str_obs e
      end
  end.

(** The attempts that remain, and the last observation. *)
Fixpoint retry_loop (attempts : nat) (cmd : string) (last : option Event) : rtM (Event + option Event) :=
  match attempts with
  | O => pret (inr last)
  | S k =>
      let* obs := executes x_run (cmd_action cmd false false false None) in
      if bool_decide (cmd_exit_code obs = Some 0) then pret (inl obs)
      else if is_bash_session_timeout obs && negb (Nat.eqb k 0) then retry_loop k cmd (Some obs)
      else pret (inr (Some obs))
  end.
Definition run_cmd_with_retry (cmd error_context : string) (max_retries : Z) : rtM Event :=
  if String.eqb (str_strip cmd) "" then praise (ValueError "Command cannot be empty")
  else if max_retries <? 1 then praise (ValueError "max_retries must be at least 1")
  else
    let* x := retry_loop (Z.to_nat max_retries) cmd None in
    match x with
    | inl obs => pret obs
    | inr last => praise (RuntimeError (error_context +:+ ": " +:+ extract_error_content last))
    end.

(** *** Environment variables *)

Definition json_text (s : string) : string := json_dumps (JStr s).
Definition env_code (vars : list (string * string)) : string :=
  "import os" +:+ nl
  +:+ str_join "" ((λ '(k, v), "os.environ[" +:+ quote +:+ k +:+ quote +:+ "] = " +:+ json_text v +:+ nl) <$> vars)
  +:+ nl.
Definition export_cmd (vars : list (string * string)) : string :=
  str_join "" ((λ '(k, v), "export " +:+ k +:+ "=" +:+ json_text v +:+ "; ") <$> vars).
Definition bashrc_cmd (vars : list (string * string)) : string :=
  str_join "" ((λ '(k, v), "touch ~/.bashrc; grep -q " +:+ quote +:+ "^export " +:+ k +:+ "=" +:+ quote
    +:+ " ~/.bashrc || echo " +:+ quote +:+ "export " +:+ k +:+ "=" +:+ json_text v +:+ quote +:+ " >> ~/.bashrc; ") <$> vars).

(** [add_env_vars] on Unix *)
Definition add_env_vars (env_vars : list (string * string)) : rtM unit :=
  let vars := foldl (λ d '(k, v), dset (str_upper k) v d) [] env_vars in
  let* s := pget in
  (if rt_jupyter s.2
   then executes x_run_ipython (new_action (AIPythonRunCell
          (mkIPythonRunCellAction (env_code vars) "" true CONFIRMED RISK_UNKNOWN ""))) ;;; pret tt
   else pret tt) ;;;
  match vars with
  | [] => pret tt
  | _ =>
      run_cmd_with_retry (str_strip (export_cmd vars))
        ("Failed to add env vars [" +:+ keys_repr vars.*1 +:+ "] to environment") CMD_RETRY_MAX_ATTEMPTS ;;;
      run_cmd_with_retry (str_strip (bashrc_cmd vars))
        ("Failed to add env vars [" +:+ keys_repr vars.*1 +:+ "] to .bashrc") CMD_RETRY_MAX_ATTEMPTS ;;;
      pret tt
  end.

Definition setup_git_config : rtM unit :=
  let* s := pget in
  match rt_git_user s.2 with
  | None => pret tt
  | Some (name, email) =>
      pcatch (executes x_run (cmd_action
                ("git config --global user.name " +:+ quote +:+ name +:+ quote
                 +:+ " && git config --global user.email " +:+ quote +:+ email +:+ quote) false false false None)
              ;;; pret tt) (λ _, pret tt)
  end.
Definition setup_initial_env : rtM unit :=
  let* s := pget in
  if rt_attach_to_existing s.2 then pret tt
  else
    add_env_vars (rt_initial_env_vars s.2) ;;;
    (match rt_startup_env_vars s.2 with [] => pret tt | l => add_env_vars l end) ;;;
    setup_git_config.

(** [_export_latest_git_provider_tokens] *)
Definition export_latest_git_provider_tokens (e : Event) : rtM unit :=
  match check_cmd_action_for_provider_token_ref e with
  | [] => pret tt
  | providers =>
      let* s := pget in
      match get_env_vars refresh (rt_tokens s.2) providers with
      | [] => pret tt
      | env_vars =>
          let exposed := expose_env_vars env_vars in
          pcatch (pmodify (λ '(w, r), (set_w_stream (set_secrets exposed (w_stream w)) w, r)) ;;;
                  add_env_vars exposed)
            (λ _, pret tt)
      end
  end.

(** *** The task list *)

Definition status_icon (task : dict) : result string :=
  match dget "status" task with
  | Some (JList _) | Some (JDict _) => Raise (TypeError "unhashable type")
  | Some (JStr s) =>
      Ok (if String.eqb s "in_progress" then "🔄" else if String.eqb s "done" then "✅" else "⏳")
  | _ => Ok "⏳"
  end.
Definition task_field (k : string) (task : dict) : string := match dget k task with Some v => py_str v | None => "" end.
Definition task_lines (x : Z * json) : result string :=
  match x.2 with
  | JDict task =>
      let? icon := status_icon task in
      Ok (pretty x.1 +:+ ". " +:+ icon +:+ " " +:+ task_field "title" task +:+ nl +:+ task_field "notes" task +:+ nl)
  | _ => Raise (OtherError "AttributeError" "object has no attribute 'get'")
  end.
Definition task_document (tasks : list json) : result string :=
  let? l := rmap task_lines (enumerate_from 1 tasks) in
  Ok ("# Task List" +:+ nl +:+ nl +:+ str_join "" l).

Definition task_obs (content command : string) (tasks : list json) : Event :=
  new_obs content (OTaskTracking (mkTaskTrackingObservation command tasks)).
Definition track_tasks (a : TaskTrackingAction) : rtM Event :=
  let* s := pget in
  let path := get_conversation_dir (rt_sid s.2) (es_user_id (st_store (w_stream s.1))) +:+ "TASKS.md" in
  if String.eqb (tta_command a) "plan" then
    let* content := plift (task_document (tta_task_list a)) in
    pcatch (on_file_store (fs_write path content) ;;;
            pret (task_obs ("Task list has been updated with " +:+ pretty (py_len (tta_task_list a))
                            +:+ " items. Stored in session directory: " +:+ path) (tta_command a) (tta_task_list a)))
      (λ e, pret (error_obs ("Failed to write task list to session directory " +:+ path +:+ ": " +:+ exc_str e)))
  else if String.eqb (tta_command a) "view" then
    pcatch (let* content := on_file_store (λ f, (f, fs_read f path)) in pret (task_obs content (tta_command a) []))
      (λ e, pret (match e with
       | FileNotFoundError =>
           task_obs ("No task list found. Use the " +:+ quote +:+ "plan" +:+ quote +:+ " command to create one.")
             (tta_command a) []
       | _ => task_obs ("Failed to read the task list from session directory " +:+ path +:+ ". Error: " +:+ exc_str e)
                (tta_command a) []
       end))
  else pret (task_obs ("Unknown command: " +:+ tta_command a) (tta_command a) []).

(** *** Actions *)

(** [getattr(self, action_type)]: the methods the base class declares *)
Definition method_of (a : Action) : option (Event → pyM X Event) :=
  match a with
  | ACmdRun _ => Some x_run
  | AIPythonRunCell _ => Some x_run_ipython
  | AFileRead _ => Some x_read
  | AFileWrite _ => Some x_write
  | AFileEdit _ => Some x_edit
  | ABrowseURL _ => Some x_browse
  | ABrowseInteractive _ => Some x_browse_interactive
  | AMCP _ => Some x_call_tool_mcp
  | _ => None
  end.

Definition run_action (e : Event) : rtM Event :=
  match ev_body e with
  | EObservation _ => praise (OtherError "AttributeError" "object has no attribute 'runnable'")
  | EAction a =>
      if negb (runnable a) then
        match a with
        | AAgentThink _ => pret (new_obs "Your thought has been logged." OAgentThink)
        | ATaskTracking a => track_tasks a
        | _ => pret (new_obs "" ONull)
        end
      else if bool_decide (event_confirmation e = Some AWAITING_CONFIRMATION) then pret (new_obs "" ONull)
      else
        match method_of a with
        | None => pret (error_obs ("Action " +:+ action_type_value (action_type a)
                                   +:+ " is not supported in the current runtime."))
        | Some f =>
            if bool_decide (event_confirmation e = Some CONF_REJECTED)
            then pret (new_obs "Action has been rejected by the user! Waiting for further user input." OUserReject)
            else executes f e
        end
  end.

Definition is_disconnected (e : py_exc) : bool :=
  match e with
  | OtherError cls _ => existsb (String.eqb cls)
      ["NetworkError"; "ConnectError"; "ReadError"; "WriteError"; "CloseError"; "AgentRuntimeDisconnectedError"]
  | _ => false
  end.

(** [_handle_action] *)
Definition rt_handle_action (e : Event) : rtM unit :=
  let* s := pget in
  let e := match event_timeout e with
           | None => set_hard_timeout (Some (rt_timeout s.2)) false e
           | Some _ => e
           end in
  let* obs :=
    pcatch
      (export_latest_git_provider_tokens e ;;;
       let* o := match ev_body e with
                 | EAction (AMCP _) => executes x_call_tool_mcp e
                 | _ => run_action e
                 end in
       pret (Some o))
      (λ x, match x with
            | OtherError cls m =>
                if String.eqb cls "PermissionError" then pret (Some (error_obs m))
                else runtime_status (if is_disconnected x then "STATUS$ERROR_RUNTIME_DISCONNECTED" else "STATUS$ERROR")
                       (exc_name x +:+ ": " +:+ exc_str x) "error" ;;; pret None
            | _ => runtime_status "STATUS$ERROR" (exc_name x +:+ ": " +:+ exc_str x) "error" ;;; pret None
            end) in
  match obs with
  | None => pret tt
  | Some o =>
      let o := set_tool_call (event_tool_call e) (set_cause (Some (event_id e)) o) in
      if is_null_obs o then pret tt
      else rt_emit o (from_option id AGENT (event_source e))
  end.

Definition rt_on_event (e : Event) : rtM unit :=
  match ev_body e with EAction _ => rt_handle_action e | EObservation _ => pret tt end.
(** *** Scripts of the repository *)

Definition SETUP_SCRIPT : string := ".openhands/setup.sh".
Definition PRE_COMMIT_SCRIPT : string := ".openhands/pre-commit.sh".
Definition PRE_COMMIT_HOOK : string := ".git/hooks/pre-commit".
Definition PRE_COMMIT_LOCAL : string := ".git/hooks/pre-commit.local".

Definition setup_action : Event :=
  set_hard_timeout (Some (float_of_Z 600)) true
    (cmd_action ("chmod +x " +:+ SETUP_SCRIPT +:+ " && source " +:+ SETUP_SCRIPT) true true false None).
(** [maybe_run_setup_script]; the action that is published is the object that is run. *)
Definition maybe_run_setup_script : rtM unit :=
  let* read_obs := executes x_read (read_action SETUP_SCRIPT) in
  if is_error_obs read_obs then pret tt
  else
    status_callback "info" "STATUS$SETTING_UP_WORKSPACE" "Setting up workspace..." ;;;
    let* action := (λ '(w, r), let '(w, e, res) := publish now setup_action ENVIRONMENT w in
                              ((w, r), match res with Ok _ => Ok e | Raise x => Raise x end)) in
    run_action action ;;; pret tt.

(** A command whose failure ends the whole method. *)
Definition run_or_stop (cmd : string) (k : rtM unit) : rtM unit :=
  let* obs := run_action (cmd_action cmd false false false None) in
  match cmd_exit_code obs with
  | Some c => if c =? 0 then k else pret tt
  | None => k
  end.

Definition HOOK_MARK : string := "This hook was installed by OpenHands".
Definition pre_commit_hook_content : string :=
  str_join nl
    ["#!/bin/bash"; "# This hook was installed by OpenHands";
     "# It calls the pre-commit script in the .openhands directory"; "";
     "if [ -x " +:+ quote +:+ PRE_COMMIT_SCRIPT +:+ quote +:+ " ]; then";
     "    source " +:+ quote +:+ PRE_COMMIT_SCRIPT +:+ quote; "    exit $?"; "else";
     "    echo " +:+ quote +:+ "Warning: " +:+ PRE_COMMIT_SCRIPT +:+ " not found or not executable" +:+ quote;
     "    exit 0"; "fi"; ""].

Definition write_hook : rtM unit :=
  let* write_obs := executes x_write (new_action (AFileWrite
    (mkFileWriteAction PRE_COMMIT_HOOK pre_commit_hook_content 0 (-1) "" RISK_UNKNOWN))) in
  if is_error_obs write_obs then pret tt
  else run_or_stop ("chmod +x " +:+ PRE_COMMIT_HOOK) (pret tt).

Definition maybe_setup_git_hooks : rtM unit :=
  let* read_obs := executes x_read (read_action PRE_COMMIT_SCRIPT) in
  if is_error_obs read_obs then pret tt
  else
    status_callback "info" "STATUS$SETTING_UP_GIT_HOOKS" "Setting up git hooks..." ;;;
    run_or_stop "mkdir -p .git/hooks" (run_or_stop ("chmod +x " +:+ PRE_COMMIT_SCRIPT) (
      let* read_obs := executes x_read (read_action PRE_COMMIT_HOOK) in
      if negb (is_error_obs read_obs) && negb (str_contains HOOK_MARK (obs_text read_obs))
      then run_or_stop ("mv " +:+ PRE_COMMIT_HOOK +:+ " " +:+ PRE_COMMIT_LOCAL)
             (run_or_stop ("chmod +x " +:+ PRE_COMMIT_LOCAL) write_hook)
      else write_hook)).

(** [_execute_shell_fn_git_handler] and [_create_file_fn_git_handler] *)
Definition execute_shell_fn_git_handler (command : string) (cwd : option string) : rtM (string * Z) :=
  let* obs := executes x_run (cmd_action command false true true cwd) in
  pret (obs_text obs, match cmd_exit_code obs with
                      | Some c => c
                      | None => if is_error_obs obs then -1 else 0
                      end).
Definition create_file_fn_git_handler (path content : string) : rtM Z :=
  let* obs := executes x_write (new_action (AFileWrite (mkFileWriteAction path content 0 (-1) "" RISK_UNKNOWN))) in
  pret (if is_error_obs obs then -1 else 0).
End runtime.

(** * The runtime and the controller

    An action's observation reaches the controller that waits for it; commands are retried;
    the task list is kept; and what the runtime does although it should not. *)
Lemma str_contains_lower_key p : get_provider_env_key p = provider_value p +:+ "_token".
Proof. by destruct p. Qed.

Section runtime_props.
Context `{Hfs : FileStoreLaws F} `{!ReliableFileStore F} `{PlatformLaws} `{Executor X}.
Context `{Pickle StateDict} `{Pickle (list (string * Metrics))} `{Agent A} `{LLMErrors}.
Variable now : nat → string.
Variable str_obs : Event → string.
Variable refresh : option (ProviderType → option string).
Variable keys_repr : list string → string.
Variable security_analyzer : option (Event → result ActionSecurityRisk).
Implicit Types (w : World F) (c : Controller A) (r : Runtime X).
Abbreviation rt_handle_action := (rt_handle_action now str_obs refresh keys_repr).
Abbreviation run_cmd_with_retry := (run_cmd_with_retry (F := F) str_obs).

(** ** An action is executed and answered *)

(** The action as the runtime executes it: a missing timeout is the sandbox's. *)
Definition timed (r : Runtime X) (e : Event) : Event :=
  match event_timeout e with
  | None => set_hard_timeout (Some (rt_timeout r)) false e
  | Some _ => e
  end.
(** Its answer: the observation with the action as its cause. *)
Definition answer (e o : Event) : Event := set_tool_call (event_tool_call e) (set_cause (Some (event_id e)) o).
(** An observation that can be stored, under any stamp. *)
Definition storable (o : Event) : Prop :=
  event_id o = INVALID_ID ∧ event_hidden o = false ∧
  ∀ t src i, serializable (stamped t src i o) ∧ ∃ d, to_dict (stamped t src i o) = Ok d.
(** The runtime's result for an action: not what only the controller issues. *)
Definition is_result (o : Event) : bool :=
  match ev_body o with
  | EObservation x => match obs_kind x with ONull | OAgentStateChanged _ => false | _ => true end
  | EAction _ => false
  end.

(** An action to be executed: runnable, and not held back or rejected. *)
Definition executable (e : Event) : bool :=
  match ev_body e with
  | EAction a => runnable a && bool_decide (event_confirmation e ≠ Some AWAITING_CONFIRMATION)
                 && bool_decide (event_confirmation e ≠ Some CONF_REJECTED)
  | EObservation _ => false
  end.
(** What the concrete runtime does for it. *)
Definition execution (e : Event) : Event → pyM X Event :=
  match ev_body e with
  | EAction a => from_option id x_run (method_of a)
  | EObservation _ => x_run
  end.

Lemma run_action_executes e (s : World F * Runtime X) :
  executable e = true → run_action e s = executes (execution e) e s.
Proof.
  unfold executable, run_action, execution. destruct (ev_body e) as [a|]; [|done].
  intros [[Hr Ha%bool_decide_eq_true]%andb_true_iff Hj%bool_decide_eq_true]%andb_true_iff. rewrite Hr.
  cbn [negb]. rewrite (bool_decide_false _ Ha). destruct (method_of a) as [f|] eqn:Em; [|by destruct a].
  by rewrite (bool_decide_false _ Hj).
Qed.

Lemma timed_body r e : execution (timed r e) = execution e ∧ executable (timed r e) = executable e
  ∧ event_id (timed r e) = event_id e ∧ event_tool_call (timed r e) = event_tool_call e
  ∧ event_source (timed r e) = event_source e
  ∧ check_cmd_action_for_provider_token_ref (timed r e) = check_cmd_action_for_provider_token_ref e.
Proof.
  unfold timed. destruct (event_timeout e); [done|]. destruct e as [m [a|o]]; [|done]. destruct a as [| | |[]| | | | | | | | | | | | | | | | |]; done.
Qed.

Lemma rt_handle_executes e w r x o :
  executable e = true → check_cmd_action_for_provider_token_ref e = [] →
  execution e (timed r e) (rt_exec r) = (x, Ok o) → is_null_obs (answer e o) = false →
  rt_handle_action e (w, r) = rt_emit now (answer e o) (from_option id AGENT (event_source e)) (w, set_exec x r).
Proof.
  intros He Ht Hx Hn. destruct (timed_body r e) as (Eex & Eok & Eid & Etc & Esrc & Eck).
  unfold Runtime.rt_handle_action, pbind at 1, pget. cbn [snd]. fold (timed r e).
  unfold pbind at 1, pcatch, export_latest_git_provider_tokens. rewrite Eck, Ht. unfold pbind, pret. cbv beta iota.
  assert ((match ev_body (timed r e) with EAction (AMCP _) => executes x_call_tool_mcp (timed r e) | _ => run_action (timed r e) end) (w, r)
          = ((w, set_exec x r), Ok o)) as ->.
  { rewrite <-Eok in He. pose proof (run_action_executes _ (w, r) He) as Hrun.
    unfold executes in Hrun. rewrite Eex, Hx in Hrun.
    destruct (ev_body (timed r e)) as [a|] eqn:Eb; [|exact Hrun]. destruct a; try exact Hrun.
    assert (x_call_tool_mcp = execution e) as -> by (rewrite <-Eex; unfold execution; by rewrite Eb).
    unfold executes. by rewrite Hx. }
  cbv beta iota. rewrite Etc, Eid, Esrc. fold (answer e o). by rewrite Hn.
Qed.

Lemma answer_result e o :
  storable (answer e o) → is_result o = true →
  ∀ t src i, let o' := restored (stamped t src i (answer e o)) in
  event_cause o' = Some (event_id e) ∧ event_hidden o' = false ∧ steps_on o' = true
  ∧ event_tool_call o' = event_tool_call e.
Proof.
  intros (_ & Hh & _) Hr t src i. destruct o as [m [a|[c k]]]; [done|]. unfold is_result in Hr. simpl in Hr.
  split; [done|]. split; [|split; [by destruct k|done]].
  unfold event_hidden in *. simpl in *. done.
Qed.

(** C11 The agent gets the result of its action: when the copy of the pending action, which
    may be executed (runnable, confirmed if it has to be) and mentions no provider token,
    reaches the runtime, on a stream that stands for a log and has no secrets registered,
    and the concrete runtime, executing it once, with the sandbox's timeout if it has none,
    returns an observation that can be stored and is not hidden (and does not raise), it
    is published as the next of the log: with its kind and its content (a command's output
    cut to the size limit), with the action as its cause and with the action's tool call
    metadata; and whenever it reaches the controller, running, still waiting for the action
    and without a delegate, the controller is released and takes the step in which the
    agent is consulted again. *)
Theorem action_result_reaches_agent (e : Event) w log r x o obs :
  stream_inv (w_stream w) log → st_secrets (w_stream w) = [] →
  executable e = true → check_cmd_action_for_provider_token_ref e = [] →
  execution e (timed r e) (rt_exec r) = (x, Ok o) → ev_body o = EObservation obs →
  is_result o = true → storable (answer e o) →
  ∃ w' o', rt_handle_action e (w, r) = ((w', set_exec x r), Ok tt)
    ∧ st_queue (w_stream w') = st_queue (w_stream w) ++ [o'] ∧ stream_inv (w_stream w') (log ++ [o'])
    ∧ ev_body o' = EObservation (mkObservation (stored_content obs) (obs_kind obs))
    ∧ event_source o' = Some (from_option id AGENT (event_source e))
    ∧ event_cause o' = Some (event_id e) ∧ event_tool_call o' = event_tool_call e ∧
  ∀ w4 c4 p, event_id p = event_id e → c_pending_action c4 = Some p →
    agent_state (c_state c4) = RUNNING → c_delegate c4 = None →
  ∃ w5 s5, handle_event now security_analyzer o' (w4, c4)
      = step_with_exception_handling now security_analyzer
          (w5, set_c_pending None (set_c_state s5 c4))
    ∧ agent_state s5 = RUNNING.
Proof using All.
  intros Hi Hs He Ht Hx Hobs Hr Hst.
  assert (is_null_obs (answer e o) = false) as Hn.
  { destruct o as [m [a|[c k]]]; [done|]. unfold is_result in Hr. simpl in Hr. by destruct k. }
  rewrite (rt_handle_executes e w r x o He Ht Hx Hn). destruct Hst as (Hid & Hh & Hdoc).
  set (src := from_option id AGENT (event_source e)). destruct (Hdoc (now (w_clock w)) src (py_len log)) as [Hser [d Hd]].
  destruct (publish_log (A := A) now security_analyzer w log (answer e o) src d Hi Hs Hid Hser Hd) as (w'&Hp&Hq&Hinv&_).
  destruct (answer_result e o (conj Hid (conj Hh Hdoc)) Hr (now (w_clock w)) src (py_len log)) as (Hc & Hh' & Hso & Htc).
  exists w', (restored (stamped (now (w_clock w)) src (py_len log) (answer e o))).
  unfold rt_emit. rewrite Hp. split; [done|]. split; [exact Hq|]. split; [exact Hinv|].
  split; [unfold restored, answer, stamped; simpl; by rewrite Hobs|]. split; [done|]. split; [done|]. split; [done|].
  intros w4 c4 p Hpe Hp4 Hr4 Hd4. rewrite <-Hpe in Hc.
  destruct (answer_steps (A := A) now security_analyzer w4 c4 p _ Hc Hh' Hso Hp4 Hr4 Hd4) as (w5&s5&Hs5&Hr5&_).
  by exists w5, s5.
Qed.

(** ** Commands are retried *)

(** [n] attempts that find the shell busy. *)
Fixpoint timeouts (n : nat) (cmd : string) (s s' : World F * Runtime X) : Prop :=
  match n with
  | O => s = s'
  | S n => ∃ s1 obs, executes x_run (cmd_action cmd false false false None) s = (s1, Ok obs)
             ∧ is_bash_session_timeout obs = true ∧ timeouts n cmd s1 s'
  end.

Lemma timeout_not_success obs : is_bash_session_timeout obs = true → bool_decide (cmd_exit_code obs = Some 0) = false.
Proof.
  unfold is_bash_session_timeout. intros Hb%bool_decide_eq_true. rewrite Hb. done.
Qed.
Lemma retry_loop_timeouts n k cmd last s s' :
  timeouts n cmd s s' → (0 < k)%nat →
  ∃ last', retry_loop (F := F) (n + k) cmd last s = retry_loop k cmd last' s'.
Proof.
  revert last s. induction n as [|n IH]; intros last s Ht Hk; [simpl in Ht; subst; by exists last|].
  destruct Ht as (s1 & obs & Hx & Hb & Ht). simpl. unfold pbind at 1. rewrite Hx.
  rewrite (timeout_not_success obs Hb), Hb. destruct (Nat.eqb_spec (n + k) 0); [lia|]. simpl. by apply IH.
Qed.

(** A command that finds the shell busy is repeated, as long as attempts are left, until it
    ends; its exit code decides.  When every attempt finds the shell busy, it fails. *)
Theorem retry_spec n cmd context max s s' s'' obs :
  str_strip cmd ≠ "" → timeouts n cmd s s' → Z.of_nat n < max →
  executes x_run (cmd_action cmd false false false None) s' = (s'', Ok obs) →
  run_cmd_with_retry cmd context max s
  = if bool_decide (cmd_exit_code obs = Some 0) then (s'', Ok obs)
    else if is_bash_session_timeout obs && (Z.of_nat n + 1 <? max) then
      (pbind (retry_loop (Z.to_nat max - n - 1) cmd (Some obs)) (λ x, match x with
        | inl obs => pret obs
        | inr last => praise (RuntimeError (context +:+ ": " +:+ extract_error_content str_obs last))
        end)) s''
    else (s'', Raise (RuntimeError (context +:+ ": " +:+ extract_error_content str_obs (Some obs)))).
Proof.
  intros Hc Ht Hn Hx. unfold Runtime.run_cmd_with_retry. destruct (String.eqb_spec (str_strip cmd) ""); [done|].
  destruct (Z.ltb_spec max 1); [lia|]. unfold pbind.
  replace (Z.to_nat max) with (n + S (Z.to_nat max - n - 1))%nat at 1 by lia.
  destruct (retry_loop_timeouts n (S (Z.to_nat max - n - 1)) cmd None s s' Ht ltac:(lia)) as [last ->].
  cbn [retry_loop]. unfold pbind at 1. rewrite Hx. destruct (bool_decide _); [done|].
  destruct (is_bash_session_timeout obs); [|done]. cbn [andb].
  destruct (Z.ltb_spec (Z.of_nat n + 1) max); destruct (Nat.eqb_spec (Z.to_nat max - n - 1) 0); simpl; try lia; done.
Qed.

(** ** The task list is kept *)

(** The list that was planned is what is viewed. *)
Theorem planned_tasks_viewed w r tasks thought content w' obs :
  task_document tasks = Ok content →
  track_tasks (mkTaskTrackingAction "plan" tasks thought) (w, r) = ((w', r), Ok obs) → is_error_obs obs = false →
  ∃ obs', track_tasks (mkTaskTrackingAction "view" [] thought) (w', r) = ((w', r), Ok obs')
    ∧ obs_text obs' = content.
Proof using Hfs.
  intros Hd. unfold track_tasks, pbind at 1, pget. cbn [fst snd tta_command tta_task_list].
  change (String.eqb "plan" "plan") with true. cbv iota. rewrite Hd. unfold pbind at 1, plift. unfold pcatch, on_file_store, pbind, pret.
  set (path := _ +:+ "TASKS.md"). destruct (fs_write path content _) as [fs [[]|x]] eqn:Ew; [|by intros [= <- <-]].
  intros [= <- <-] _. cbn [w_stream set_w_stream st_store set_store es_user_id set_file_store es_file_store].
  change (String.eqb "view" "plan") with false. change (String.eqb "view" "view") with true. cbv iota.
  exists (task_obs content "view" []). split; [|done]. cbn. fold path. by rewrite (fs_read_write _ _ _ _ Ew).
Qed.
End runtime_props.

(** ** Examples *)

Module runtime_example.
(** A concrete runtime that logs what it executes; files cannot be read. *)
#[local] Instance logging : Executor (list Event) :=
  let ok e l := (l ++ [e], Ok (new_obs "done" (OCmdOutput (mkCmdOutputObservation "c"
                   (mkCmdOutputMetadata 0 (-1) None None None None "" "") false)))) in
  {| x_run := ok; x_run_ipython := ok; x_read := ok; x_write := ok; x_edit := ok; x_browse := ok;
     x_browse_interactive := ok; x_call_tool_mcp := ok |}.
Definition rt : Runtime (list Event) :=
  mkRuntime "s" (float_of_Z 120) false false [] [] None
    [(GITHUB, mkProviderToken (Some "gh-1") None None)] true None [] [].
Definition stream0 : EventStream InMemoryFileStore :=
  mkEventStream (mkEventStore "s" (mkInMemoryFileStore []) None 25 (Some 0)) [] [] [] [] [].
Definition world0 : World InMemoryFileStore := set_w_stream stream0 (ex_world 5).
Definition handles (e : Event) (x : World InMemoryFileStore * Runtime (list Event)) :=
  (rt_handle_action ex_now (λ _, "") None (λ _, "") e x).1.

Lemma world0_inv : stream_inv (w_stream world0) [].
Proof. split; [split|..]; simpl; try done; intros; unfold mem_read in *; simpl in *; done. Qed.

Definition command : Event := set_id (Some 3) (set_source (Some AGENT) (cmd_action "ls" false false false None)).
Definition result : Event := new_obs "done" (OCmdOutput (mkCmdOutputObservation "c"
  (mkCmdOutputMetadata 0 (-1) None None None None "" "") false)).
Definition waiting : Controller Scripted :=
  set_c_pending (Some command) (ex_controller false false RUNNING [ex_cmd]).

Lemma result_storable : storable (answer command result).
Proof. split; [done|]. split; [done|]. intros t src i. split; [by split|]. eexists. reflexivity. Qed.

Lemma action_result_reaches_agent_witness :
  ∃ w' o', rt_handle_action ex_now (λ _, "") None (λ _, "") command (world0, rt)
      = ((w', set_exec [timed rt command] rt), Ok tt)
    ∧ st_queue (w_stream w') = [o'] ∧ ev_body o' = ev_body result ∧ event_cause o' = Some 3
    ∧ ∃ w5 s5, handle_event ex_now None o' (w', waiting)
        = step_with_exception_handling ex_now None (w5, set_c_pending None (set_c_state s5 waiting))
      ∧ agent_state s5 = RUNNING.
Proof.
  destruct (action_result_reaches_agent (A := Scripted) ex_now (λ _, "") None (λ _, "") None command world0 [] rt
    [timed rt command] result (mkObservation "done" (OCmdOutput (mkCmdOutputObservation "c"
      (mkCmdOutputMetadata 0 (-1) None None None None "" "") false)))) as (w' & o' & He & Hq & _ & Hb & _ & Hc & _ & Hstep);
    [exact world0_inv|reflexivity|reflexivity|reflexivity|reflexivity|reflexivity|reflexivity|exact result_storable|].
  exists w', o'. split; [exact He|]. split; [exact Hq|]. split; [exact Hb|]. split; [exact Hc|].
  apply (Hstep w' waiting command); reflexivity.
Defined.

(** ** What the runtime does although it should not *)

(** A command that mentions a provider's token makes the runtime replace the stream's
    secrets by the tokens, so that the user's other secrets are redacted no more. *)
Example refresh_drops_secrets :
  let w := set_w_stream (set_secrets [("API_KEY", "swordfish")] stream0) world0 in
  let e := set_id (Some 3) (cmd_action "echo $GITHUB_TOKEN" false false false None) in
  st_secrets (w_stream (handles e (w, rt)).1) = [("github_token", "gh-1")].
Proof. vm_compute. reflexivity. Qed.

(** The setup script's action is published, to be executed by the runtime as every action
    of the stream, and executed directly as well: the script runs twice. *)
Definition commands (l : list Event) : list string :=
  omap (λ e, match ev_body e with EAction (ACmdRun a) => Some (cra_command a) | _ => None end) l.
Example setup_runs_twice :
  let x := (maybe_run_setup_script ex_now (world0, rt)).1 in
  (λ copy, commands (rt_exec (handles copy x).2)) <$> st_queue (w_stream x.1)
  = [["chmod +x .openhands/setup.sh && source .openhands/setup.sh";
      "chmod +x .openhands/setup.sh && source .openhands/setup.sh"]].
Proof. vm_compute. reflexivity. Qed.

(** The controller in confirmation mode holds a file edit back and asks the user; the copy
    that reaches the runtime lacks the mark, and the runtime executes the edit at once. *)
Example unconfirmed_edit_executed :
  agent_state (c_state ex_edit_step.2) = AWAITING_USER_CONFIRMATION
  ∧ last (st_queue (w_stream ex_edit_step.1)) = Some ex_edit_copy
  ∧ ev_body <$> rt_exec (handles ex_edit_copy (ex_edit_step.1, rt)).2 = [ev_body ex_edit].
Proof. vm_compute. done. Qed.

(** A command held back for confirmation, whose copy keeps the mark, is not executed. *)
Example awaiting_command_not_executed :
  let e := set_event_confirmation AWAITING_CONFIRMATION command in
  handles e (world0, rt) = (world0, rt).
Proof. vm_compute. reflexivity. Qed.
End runtime_example.
