(* ===== verification/WorkspaceFiles.v ===== *)
(** * Files of the workspace

    Models [runtime/utils/files.py]: the paths of the sandbox that may be accessed, reading
    and writing ranges of lines.  The file system is the files, directories and symbolic
    links by their components.  [Path.resolve] follows the links as [os.path.realpath] of
    the image's Python (3.13) does, which leaves a loop of links unresolved; the calls that
    open, create and test files follow them as the kernel does, which gives up after 40.
    Permissions are not modelled; whether bytes are UTF-8 is a parameter. *)

From S2P Require Import Prelude PyValue Schema Observations Events StrSearch Runtime.
From stdpp Require Import gmap.
Local Open Scope Z_scope.
Local Open Scope py_scope.

(** ** Paths *)

(** A [Path]: its root ([""], ["/"] or ["//"]) and its parts. *)
Record PurePath := mkPath { p_root : string; p_parts : list string }.
#[export] Instance PurePath_eq_dec : EqDecision PurePath.
Proof. solve_decision. Defined.

(** [Path(s)]: empty parts and [.] are dropped; exactly two slashes are a root of their own. *)
Definition parse_path (s : string) : PurePath :=
  mkPath (if startswith s "/" then if startswith s "//" && negb (startswith s "///") then "//" else "/" else "")
    (py_filter (λ c, negb (String.eqb c "" || String.eqb c ".")) (str_split "/" s)).
Definition is_absolute (p : PurePath) : bool := negb (String.eqb (p_root p) "").
(** [p / q] *)
Definition join_path (p q : PurePath) : PurePath :=
  if is_absolute q then q else mkPath (p_root p) (p_parts p ++ p_parts q).

Definition parent (p : list string) : list string := take (length p - 1) p.
(** Where a path starts: at the root, or at the directory [cwd]. *)
Definition start_of (cwd : list string) (p : PurePath) : list string := if is_absolute p then [] else cwd.

(** The symbolic links, by their paths, with their targets. *)
Abbreviation Links := (gmap (list string) string).
(** The links seen: with what they resolve to, or nothing while they are being resolved. *)
Abbreviation Seen := (gmap (list string) (option (list string))).

(** [os.path.realpath]: [..] takes the part before it away, a link continues with its target;
    a link met while it is being resolved (a loop) stays.  The fuel bounds how deep links
    lead to links: no more than there are links ([realpath_settled]). *)
Fixpoint realpath_go (fuel : nat) (lk : Links) : Seen → list string → list string → Seen * list string :=
  fix go (seen : Seen) (path rest : list string) {struct rest} : Seen * list string :=
  match rest with
  | [] => (seen, path)
  | name :: rest =>
      if String.eqb name ".." then go seen (parent path) rest
      else
        let newpath := path ++ [name] in
        match lk !! newpath with
        | None => go seen newpath rest
        | Some target =>
            match seen !! newpath with
            | Some (Some resolved) => go seen resolved rest
            | Some None => go seen newpath rest
            | None =>
                match fuel with
                | O => go seen newpath rest
                | S fuel =>
                    let '(seen, resolved) :=
                      realpath_go fuel lk (<[newpath := None]> seen) (start_of path (parse_path target))
                        (p_parts (parse_path target)) in
                    go (<[newpath := Some resolved]> seen) resolved rest
                end
            end
        end
  end.
Definition realpath (lk : Links) (path rest : list string) : list string := (realpath_go (size lk) lk ∅ path rest).2.
(** [Path.resolve()]; a relative path starts from [cwd]. *)
Definition resolve (lk : Links) (cwd : list string) (p : PurePath) : PurePath :=
  mkPath "/" (realpath lk (start_of cwd p) (p_parts p)).

(** What remains of [l] after [pre]. *)
Fixpoint strip_parts (pre l : list string) : option (list string) :=
  match pre, l with
  | [], _ => Some l
  | a :: pre, b :: l => if String.eqb a b then strip_parts pre l else None
  | _, _ => None
  end.
(** [p.relative_to(base)], [None] where [is_relative_to] is false *)
Definition relative_to (p base : PurePath) : option (list string) :=
  if String.eqb (p_root p) (p_root base) then strip_parts (p_parts base) (p_parts p) else None.

Definition resolve_path (lk : Links) (cwd : list string) (file_path working_directory workspace_base
    workspace_mount_path_in_sandbox : string) : result PurePath :=
  let path_in_sandbox := parse_path file_path in
  let path_in_sandbox :=
    if is_absolute path_in_sandbox then path_in_sandbox
    else join_path (parse_path working_directory) path_in_sandbox in
  match relative_to (resolve lk cwd path_in_sandbox) (parse_path workspace_mount_path_in_sandbox) with
  | None => Raise (OtherError "PermissionError" ("File access not permitted: " +:+ file_path))
  | Some path_in_workspace => Ok (join_path (parse_path workspace_base) (mkPath "" path_in_workspace))
  end.

(** ** Lines *)

Definition read_lines (all_lines : list string) (start end_ : Z) : list string :=
  let n := py_len all_lines in
  let start := Z.min (Z.max start 0) n in
  let end_ := Z.min (if end_ =? -1 then -1 else Z.max end_ 0) n in
  if end_ =? -1 then if start =? 0 then all_lines else py_slice (Some start) None all_lines
  else
    let begin := Z.max 0 (Z.min start (n - 2)) in
    let end_ := if n <? end_ then -1 else Z.max (begin + 1) end_ in
    py_slice (Some begin) (Some end_) all_lines.

Definition insert_lines (to_insert original : list string) (start end_ : Z) : list string :=
  (if start =? 0 then [""] else py_slice None (Some start) original)
  ++ ((λ i, i +:+ nl) <$> to_insert)
  ++ (if end_ =? -1 then [""] else py_slice (Some end_) None original).

(** Text mode: ends of lines are read as newlines. *)
Definition carriage_return : ascii := Ascii.ascii_of_nat 13.
Fixpoint universal_newlines (s : string) : string :=
  match s with
  | EmptyString => EmptyString
  | String c s' =>
      if Ascii.eqb c carriage_return then
        match s' with
        | String d s'' => if Ascii.eqb d newline then String newline (universal_newlines s'')
                          else String newline (universal_newlines s')
        | EmptyString => nl
        end
      else String c (universal_newlines s')
  end.
(** [readlines()]: the lines with their ends *)
Fixpoint readlines_go (acc : string) (s : string) : list string :=
  match s with
  | EmptyString => if String.eqb acc "" then [] else [String.rev acc]
  | String c s' => if Ascii.eqb c newline then String.rev (String c acc) :: readlines_go "" s'
                   else readlines_go (String c acc) s'
  end.
Definition readlines (s : string) : list string := readlines_go "" (universal_newlines s).

(** ** The file system *)

Inductive entry := EFile (contents : string) | EDir | ELink (target : string).
#[export] Instance entry_eq_dec : EqDecision entry.
Proof. solve_decision. Defined.
Abbreviation FileSystem := (gmap (list string) entry).
Definition links (fs : FileSystem) : Links := omap (λ e, match e with ELink t => Some t | _ => None end) fs.
(** The entry at a path; the root is a directory. *)
Definition entry_at (fs : FileSystem) (p : list string) : option entry :=
  match p with [] => Some EDir | _ => fs !! p end.

Definition NOT_A_DIRECTORY : py_exc := OtherError "NotADirectoryError" "".
Definition FILE_EXISTS : py_exc := OtherError "FileExistsError" "".
Definition ISADIR : py_exc := OtherError "IsADirectoryError" "".
Definition ELOOP : py_exc := OtherError "OSError" "Too many levels of symbolic links".
Definition MAXSYMLINKS : nat := 40.

(** The kernel's walk from the directory [path], following at most [n] links: where the last
    part is, which need not exist. *)
Fixpoint namei (n : nat) (fs : FileSystem) : list string → list string → result (list string) :=
  fix go (path rest : list string) {struct rest} : result (list string) :=
  match rest with
  | [] => Ok path
  | name :: rest =>
      if String.eqb name ".." then go (parent path) rest
      else
        let newpath := path ++ [name] in
        match fs !! newpath with
        | Some (ELink target) =>
            match n with
            | O => Raise ELOOP
            | S n => namei n fs (start_of path (parse_path target)) (p_parts (parse_path target) ++ rest)
            end
        | Some EDir => go newpath rest
        | Some (EFile _) => match rest with [] => Ok newpath | _ => Raise NOT_A_DIRECTORY end
        | None => match rest with [] => Ok newpath | _ => Raise FileNotFoundError end
        end
  end.

Section os.
Variable decodes : string → bool.
Variable cwd : list string.

Definition lookup_path (fs : FileSystem) (p : PurePath) : result (list string) :=
  namei MAXSYMLINKS fs (start_of cwd p) (p_parts p).

(** [os.path.exists] *)
Definition path_exists (fs : FileSystem) (p : PurePath) : bool :=
  match lookup_path fs p with Ok q => bool_decide (is_Some (entry_at fs q)) | Raise _ => false end.

(** [os.mkdir] of the first [n] parts of [p]: the last of them is not followed. *)
Definition mkdir (p : PurePath) (n : nat) : pyM FileSystem unit := λ fs,
  match lookup_path fs (mkPath (p_root p) (take (n - 1) (p_parts p))), last (take n (p_parts p)) with
  | Raise e, _ => (fs, Raise e)
  | _, None => (fs, Raise (if is_absolute p then FILE_EXISTS else FileNotFoundError))
  | Ok q, Some c =>
      match entry_at fs q with
      | Some EDir => if String.eqb c ".." then (fs, Raise FILE_EXISTS)
                     else match fs !! (q ++ [c]) with
                          | Some _ => (fs, Raise FILE_EXISTS)
                          | None => (<[q ++ [c] := EDir]> fs, Ok tt)
                          end
      | Some _ => (fs, Raise NOT_A_DIRECTORY)
      | None => (fs, Raise FileNotFoundError)
      end
  end.
(** [os.makedirs] of the first [n] parts of [p] *)
Fixpoint makedirs (p : PurePath) (n : nat) : pyM FileSystem unit :=
  match n with
  | O => mkdir p 0
  | S m =>
      let* fs := pget in
      let head := mkPath (p_root p) (take m (p_parts p)) in
      (if (is_absolute p || negb (m =? 0)%nat) && negb (path_exists fs head)
       then pcatch (makedirs p m) (λ e, if bool_decide (e = FILE_EXISTS) then pret tt else praise e)
       else pret tt) ;;;
      mkdir p n
  end.

(** [open(p, 'r')] and [open(p, 'r+')]: where the file is, and its text *)
Definition open_text (fs : FileSystem) (p : PurePath) : result (list string * string) :=
  match lookup_path fs p with
  | Raise e => Raise e
  | Ok q => match entry_at fs q with
            | Some (EFile c) => if decodes c then Ok (q, c) else Raise (OtherError "UnicodeDecodeError" "")
            | Some _ => Raise ISADIR
            | None => Raise FileNotFoundError
            end
  end.

(** ** Reading and writing *)

Definition read_file (path workdir base mount : string) (start end_ : Z) (fs : FileSystem) : result Event :=
  match resolve_path (links fs) cwd path workdir base mount with
  | Raise _ => Ok (error_obs ("You're not allowed to access this path: " +:+ path
                              +:+ ". You can only access paths inside the workspace."))
  | Ok whole_path =>
      match open_text fs whole_path with
      | Ok (_, c) => Ok (new_obs (str_join "" (read_lines (readlines c) start end_)) (OFileRead (mkFileReadObservation path READ_DEFAULT)))
      | Raise e =>
          if bool_decide (e = FileNotFoundError) then Ok (error_obs ("File not found: " +:+ path))
          else if bool_decide (e = OtherError "UnicodeDecodeError" "") then
            Ok (error_obs ("File could not be decoded as utf-8: " +:+ path))
          else if bool_decide (e = ISADIR) then
            Ok (error_obs ("Path is a directory: " +:+ path +:+ ". You can only read files"))
          else Raise e
      end
  end.

(** The directory of the file, made if it is missing. *)
Definition make_dirname (p : PurePath) : pyM FileSystem unit := λ fs,
  let n := (length (p_parts p) - 1)%nat in
  if is_absolute p || negb (n =? 0)%nat then
    if path_exists fs (mkPath (p_root p) (take n (p_parts p))) then (fs, Ok tt) else makedirs p n fs
  else (fs, Raise FileNotFoundError).
(** The body of [write_file] that opens the file. *)
Definition write_path (insert : list string) (start end_ : Z) (p : PurePath) : pyM FileSystem unit := λ fs,
  if path_exists fs p then
    match open_text fs p with
    | Ok (q, c) => (<[q := EFile (str_join "" (insert_lines insert (readlines c) start end_))]> fs, Ok tt)
    | Raise e => (fs, Raise e)
    end
  else
    match lookup_path fs p with
    | Ok q => (<[q := EFile (str_join "" ((λ i, i +:+ nl) <$> insert))]> fs, Ok tt)
    | Raise e => (fs, Raise e)
    end.

Definition write_file (path workdir base mount content : string) (start end_ : Z) : pyM FileSystem Event := λ fs,
  match resolve_path (links fs) cwd path workdir base mount with
  | Raise e => (fs, Ok (error_obs ("Permission error on " +:+ path +:+ ": " +:+ exc_str e)))
  | Ok whole_path =>
      match make_dirname whole_path fs with
      | (fs, Raise e) => (fs, Raise e)
      | (fs, Ok _) =>
          match write_path (str_split newline content) start end_ whole_path fs with
          | (fs, Ok _) => (fs, Ok (new_obs "" (OFileWrite (mkFileWriteObservation path))))
          | (fs, Raise e) =>
              (fs, if bool_decide (e = FileNotFoundError) then Ok (error_obs ("File not found: " +:+ path))
                   else if bool_decide (e = ISADIR) then
                     Ok (error_obs ("Path is a directory: " +:+ path +:+ ". You can only write to files"))
                   else if bool_decide (e = OtherError "UnicodeDecodeError" "") then
                     Ok (error_obs ("File could not be decoded as utf-8: " +:+ path))
                   else Raise e)
          end
      end
  end.
End os.

(** ** Links that are followed *)

Section walks.
Variable lk : Links.

(** [walks path rest n q]: from [path], following [rest] and [n] links, one arrives at [q]. *)
Inductive walks : list string → list string → nat → list string → Prop :=
  | walks_nil path : walks path [] 0 path
  | walks_up path rest n q : walks (parent path) rest n q → walks path (".." :: rest) n q
  | walks_step path name rest n q :
      name ≠ ".." → lk !! (path ++ [name]) = None → walks (path ++ [name]) rest n q → walks path (name :: rest) n q
  | walks_link path name rest target n q1 m q :
      name ≠ ".." → lk !! (path ++ [name]) = Some target →
      walks (start_of path (parse_path target)) (p_parts (parse_path target)) n q1 → walks q1 rest m q →
      walks path (name :: rest) (S (n + m)) q.

Lemma walks_det path rest n q n' q' : walks path rest n q → walks path rest n' q' → n = n' ∧ q = q'.
Proof.
  intros H. revert n' q'. induction H as [|path rest n q _ IH|path name rest n q Hn Hl _ IH|path name rest t n q1 m q Hn Hl _ IH1 _ IH2];
    intros n' q' H'; inversion H'; subst; try done; try congruence; try (by apply IH).
  assert (target = t) as -> by congruence.
  match goal with H1 : walks _ (p_parts _) _ _, H2 : walks _ rest _ _ |- _ =>
    destruct (IH1 _ _ H1) as [<- <-]; by destruct (IH2 _ _ H2) as [<- <-] end.
Qed.
Lemma walks_app path a b n q :
  walks path (a ++ b) n q ↔ ∃ n1 q1 n2, walks path a n1 q1 ∧ walks q1 b n2 q ∧ n = (n1 + n2)%nat.
Proof.
  split.
  - revert path n. induction a as [|name a IH]; intros path n H; [exists 0%nat, path, n; eauto using walks_nil|].
    simpl in H. inversion H; subst;
      match goal with Hw : walks _ (a ++ b) _ _ |- _ => destruct (IH _ _ Hw) as (n1 & q2 & n2 & Ha & ? & ->) end.
    + exists n1, q2, n2. eauto using walks_up.
    + exists n1, q2, n2. eauto using walks_step.
    + match goal with Hw : walks _ (p_parts _) ?k _ |- _ => exists (S (k + n1)), q2, n2 end.
      split; [|split; [done|lia]]. by eapply walks_link.
  - intros (n1 & q1 & n2 & Ha & Hb & ->). induction Ha; simpl; eauto using walks_up, walks_step.
    rewrite <-Nat.add_assoc. eapply walks_link; eauto.
Qed.

(** A link that leads somewhere; a path all of whose links lead nowhere. *)
Definition leads (p : list string) (m : nat) (q : list string) : Prop :=
  ∃ d c, p = d ++ [c] ∧ c ≠ ".." ∧ is_Some (lk !! p) ∧ walks d [c] m q.
Definition settled (p : list string) : Prop :=
  (".." ∉ p) ∧ ∀ r m q, r `prefix_of` p → ¬ leads r m q.

Lemma leads_link d c t m q :
  c ≠ ".." → lk !! (d ++ [c]) = Some t →
  leads (d ++ [c]) m q ↔ ∃ n, m = S n ∧ walks (start_of d (parse_path t)) (p_parts (parse_path t)) n q.
Proof.
  intros Hc Hl. split.
  - intros (d' & c' & Heq & _ & _ & Hw). apply app_inj_tail in Heq as [<- <-]. inversion Hw; subst; [done|congruence|].
    assert (target = t) as -> by congruence.
    match goal with Hw : walks _ [] _ _ |- _ => inversion Hw; subst end. exists n. by rewrite Nat.add_0_r.
  - intros (n & -> & Hw). exists d, c. split; [done|]. split; [done|]. split; [by eexists|].
    rewrite <-(Nat.add_0_r n). eapply walks_link; eauto using walks_nil.
Qed.
Lemma settled_nil : settled [].
Proof.
  split; [apply not_elem_of_nil|]. intros r m q Hr (d & c & -> & _). apply prefix_nil_inv in Hr. by destruct d.
Qed.
Lemma settled_prefix p r : settled p → r `prefix_of` p → settled r.
Proof.
  intros [Hd Hs] [k ->]. split; [intros Hin; apply Hd, elem_of_app; by left|]. intros r' m q Hr. apply Hs. by apply prefix_app_r.
Qed.
Lemma settled_parent p : settled p → settled (parent p).
Proof. intros H. apply (settled_prefix p); [done|]. exists (drop (length p - 1) p). symmetry. apply take_drop. Qed.
Lemma settled_snoc p c : settled p → c ≠ ".." → (∀ m q, ¬ leads (p ++ [c]) m q) → settled (p ++ [c]).
Proof.
  intros [Hd Hs] Hc Hl. split; [rewrite elem_of_app, list_elem_of_singleton; intros [?|?]; congruence|]. intros r m q [k Hk].
  destruct k as [|x k _] using rev_ind; [rewrite app_nil_r in Hk; subst; by apply Hl|].
  rewrite app_assoc in Hk. apply app_inj_tail in Hk as [-> _]. apply Hs. by exists k.
Qed.
(** Walking along a settled path follows no link. *)
Lemma walks_settled d k n q : settled (d ++ k) → walks d k n q → n = 0%nat ∧ q = d ++ k.
Proof.
  revert d n. induction k as [|c k IH]; intros d n Hs Hw; [inversion Hw; subst; by rewrite app_nil_r|].
  change (c :: k) with ([c] ++ k) in *. rewrite app_assoc in Hs |- *. simpl in Hw. inversion Hw; subst.
  - destruct Hs as [Hd _]. exfalso. apply Hd, elem_of_app. left. apply elem_of_app. right. by apply list_elem_of_singleton.
  - by apply IH.
  - exfalso. destruct Hs as [_ Hs]. apply (Hs (d ++ [c]) (S n0) q1); [by exists k|].
    apply (leads_link _ _ target); eauto.
Qed.
Lemma leads_det p m q m' q' : leads p m q → leads p m' q' → m = m' ∧ q = q'.
Proof. intros (d & c & -> & _ & _ & Hw) (d' & c' & [<- <-]%app_inj_tail & _ & _ & Hw'). by eapply walks_det. Qed.
Lemma walks_link_inv path name rest t n q :
  name ≠ ".." → lk !! (path ++ [name]) = Some t → walks path (name :: rest) n q →
  ∃ m q1 n2, leads (path ++ [name]) (S m) q1 ∧ walks (start_of path (parse_path t)) (p_parts (parse_path t)) m q1
    ∧ walks q1 rest n2 q ∧ n = (S m + n2)%nat.
Proof.
  intros Hn Hl Hw. inversion Hw; subst; [done|congruence|]. assert (target = t) as -> by congruence.
  exists n0, q1, m. split; [apply (leads_link _ _ t); eauto|eauto].
Qed.

(** What is known of the links seen: they are links, what was resolved is where they lead;
    those being resolved lead somewhere only if the rest of the walk does, in fewer steps. *)
Definition seen_ok (seen : Seen) : Prop :=
  ∀ k x, seen !! k = Some x → is_Some (lk !! k) ∧ ∀ p, x = Some p → settled p ∧ ∀ m q, leads k m q → q = p.
Definition opened (seen : Seen) (path rest : list string) : Prop :=
  ∀ k m q, seen !! k = Some None → leads k m q → ∃ n q', walks path rest n q' ∧ (n < m)%nat.
(** What [realpath_go] gives. *)
Definition resolved_ok (seen : Seen) (path rest : list string) (out : Seen * list string) : Prop :=
  settled out.2 ∧ (∀ n q, walks path rest n q → q = out.2) ∧ seen_ok out.1
  ∧ (∀ k, out.1 !! k = Some None → seen !! k = Some None) ∧ dom seen ⊆ dom out.1.

(** Going on from [path1] with [rest1], if every walk does. *)
Lemma resolved_more seen path rest path1 rest1 out :
  (∀ n q, walks path rest n q → ∃ n1, walks path1 rest1 n1 q ∧ (n1 ≤ n)%nat) →
  (opened seen path1 rest1 → resolved_ok seen path1 rest1 out) → opened seen path rest →
  resolved_ok seen path rest out.
Proof.
  intros Hw Hgo Hop. destruct Hgo as (Hs & Hq & Hrest).
  - intros k m q Hk Hl. destruct (Hop k m q Hk Hl) as (n & q' & Hn & ?). destruct (Hw _ _ Hn) as (n1 & ? & ?). exists n1, q'. split; [done|lia].
  - split; [done|]. split; [|done]. intros n q Hn. destruct (Hw _ _ Hn) as (n1 & ? & _). eauto.
Qed.
Lemma settled_start path p : settled path → settled (start_of path p).
Proof. unfold start_of. destruct (is_absolute p); [intros _; apply settled_nil|done]. Qed.
Lemma seen_fits seen p : seen_ok seen → is_Some (lk !! p) → seen !! p = None → (size seen < size lk)%nat.
Proof.
  intros Hok [t Ht] Hn. rewrite <-(size_dom seen), <-(size_dom lk). apply subset_size. split.
  - intros k [x Hx]%elem_of_dom. apply elem_of_dom. by apply (Hok k x).
  - intros Hsub. apply not_elem_of_dom in Hn. apply Hn, Hsub, elem_of_dom. by exists t.
Qed.

(** A link that is resolved, and the rest of the path after it. *)
Lemma resolved_link seen seen1 path name t rest p out :
  name ≠ ".." → lk !! (path ++ [name]) = Some t → seen !! (path ++ [name]) = None →
  resolved_ok (<[path ++ [name] := None]> seen) (start_of path (parse_path t)) (p_parts (parse_path t)) (seen1, p) →
  (seen_ok (<[path ++ [name] := Some p]> seen1) → opened (<[path ++ [name] := Some p]> seen1) p rest →
   dom seen ⊆ dom (<[path ++ [name] := Some p]> seen1) →
   resolved_ok (<[path ++ [name] := Some p]> seen1) p rest out) →
  opened seen path (name :: rest) → resolved_ok seen path (name :: rest) out.
Proof.
  intros Hn Hl Hnew (Hp & Huniq & Hok1 & Hopen1 & Hdom1) Hgo Hop. simpl in *.
  assert (dom seen ⊆ dom (<[path ++ [name] := Some p]> seen1)) as Hdom.
  { intros k Hk. rewrite dom_insert in Hdom1 |- *. set_solver. }
  assert (∀ k, <[path ++ [name] := Some p]> seen1 !! k = Some None → seen !! k = Some None) as Hnone.
  { intros k. destruct (decide (k = path ++ [name])) as [->|Hne]; [by rewrite lookup_insert_eq|].
    rewrite lookup_insert_ne by done. intros Hk%Hopen1. by rewrite lookup_insert_ne in Hk. }
  assert (∀ n q, walks path (name :: rest) n q → ∃ n1, walks p rest n1 q ∧ (n1 ≤ n)%nat) as Hmore.
  { intros n q Hw. destruct (walks_link_inv _ _ _ _ _ _ Hn Hl Hw) as (m & q1 & n2 & _ & Hw1 & Hw2 & ->).
    apply Huniq in Hw1 as ->. exists n2. split; [done|lia]. }
  destruct Hgo as (Hs & Hq & Hok & Hopen & Hd).
  - intros k x. destruct (decide (k = path ++ [name])) as [->|Hne].
    + rewrite lookup_insert_eq. intros [= <-]. split; [by eexists|]. intros ? [= <-]. split; [done|].
      intros m q Hlead. apply (leads_link _ _ t) in Hlead as (n & -> & Hw); [|done..]. eauto.
    + rewrite lookup_insert_ne by done. apply Hok1.
  - intros k m q Hk Hlead. destruct (Hop k m q (Hnone _ Hk) Hlead) as (n & q' & Hw & ?).
    destruct (Hmore _ _ Hw) as (n1 & ? & ?). exists n1, q'. split; [done|lia].
  - done.
  - split; [done|]. split; [|split; [done|split; [eauto|set_solver]]].
    intros n q Hw. destruct (Hmore _ _ Hw) as (n1 & ? & _). eauto.
Qed.

Lemma realpath_go_cons fuel seen path name rest :
  realpath_go fuel lk seen path (name :: rest) =
    if String.eqb name ".." then realpath_go fuel lk seen (parent path) rest
    else match lk !! (path ++ [name]), seen !! (path ++ [name]), fuel with
         | Some _, Some (Some p), _ => realpath_go fuel lk seen p rest
         | Some t, None, S fuel' =>
             let '(seen1, p) := realpath_go fuel' lk (<[path ++ [name] := None]> seen)
                                  (start_of path (parse_path t)) (p_parts (parse_path t)) in
             realpath_go fuel lk (<[path ++ [name] := Some p]> seen1) p rest
         | _, _, _ => realpath_go fuel lk seen (path ++ [name]) rest
         end.
Proof. destruct fuel; simpl; destruct (String.eqb name ".."), (lk !! (path ++ [name])), (seen !! (path ++ [name])) as [[]|]; done. Qed.
(** The state in which a link's target is resolved. *)
Lemma opened_nested seen path name t rest :
  name ≠ ".." → lk !! (path ++ [name]) = Some t → seen_ok seen → opened seen path (name :: rest) →
  seen_ok (<[path ++ [name] := None]> seen)
  ∧ opened (<[path ++ [name] := None]> seen) (start_of path (parse_path t)) (p_parts (parse_path t)).
Proof.
  intros Hn Hl Hok Hop. split.
  - intros k x. destruct (decide (k = path ++ [name])) as [->|Hne]; [|rewrite lookup_insert_ne by done; apply Hok].
    rewrite lookup_insert_eq. intros [= <-]. split; [by eexists|done].
  - intros k m q. destruct (decide (k = path ++ [name])) as [->|Hne]; intros Hk Hlead.
    + apply (leads_link _ _ t) in Hlead as (n & -> & Hw); [|done..]. exists n, q. split; [done|lia].
    + rewrite lookup_insert_ne in Hk by done. destruct (Hop _ _ _ Hk Hlead) as (n & q' & Hw & Hlt).
      destruct (walks_link_inv _ _ _ _ _ _ Hn Hl Hw) as (m1 & q1 & n2 & _ & Hw1 & _ & ->). exists m1, q1. split; [done|lia].
Qed.

Lemma realpath_go_settled fuel seen path rest :
  settled path → seen_ok seen → opened seen path rest → (size lk ≤ fuel + size seen)%nat →
  resolved_ok seen path rest (realpath_go fuel lk seen path rest).
Proof.
  revert seen path rest. induction fuel as [fuel IHf] using lt_wf_ind. intros seen path rest. revert seen path.
  induction rest as [|name rest IH]; intros seen path Hs Hok Hop Hsize.
  { replace (realpath_go fuel lk seen path []) with (seen, path) by (by destruct fuel).
    split; [done|]. split; [by inversion 1|]. split; [done|]. split; [done|]. set_solver. }
  rewrite realpath_go_cons.
  destruct (String.eqb_spec name "..") as [->|Hn].
  { eapply resolved_more, Hop; [|intros; by apply IH; [apply settled_parent|..]]. intros n q Hw. exists n. by inversion Hw. }
  destruct (lk !! (path ++ [name])) as [t|] eqn:Hl.
  2: { eapply resolved_more, Hop; [|intros; apply IH; try done].
       - intros n q Hw. exists n. inversion Hw; subst; [done|done|congruence].
       - apply settled_snoc; [done..|]. intros m q (_ & _ & _ & _ & [? ?] & _). congruence. }
  destruct (seen !! (path ++ [name])) as [[p|]|] eqn:Hseen.
  - destruct (Hok _ _ Hseen) as [_ Hp]. destruct (Hp p eq_refl) as [Hp1 Hp2].
    eapply resolved_more, Hop; [|intros; by apply IH]. intros n q Hw.
    destruct (walks_link_inv _ _ _ _ _ _ Hn Hl Hw) as (m & q1 & n2 & Hlead & _ & Hw2 & ->).
    apply Hp2 in Hlead as ->. exists n2. split; [done|lia].
  - assert (∀ m q, ¬ leads (path ++ [name]) m q) as Hno.
    { intros m q Hlead. destruct (Hop _ _ _ Hseen Hlead) as (n & q' & Hw & Hlt).
      destruct (walks_link_inv _ _ _ _ _ _ Hn Hl Hw) as (m1 & q1 & n2 & Hlead1 & _ & _ & ->).
      destruct (leads_det _ _ _ _ _ Hlead Hlead1) as [-> _]. lia. }
    eapply resolved_more, Hop; [|intros; apply IH; by try apply settled_snoc]. intros n q Hw.
    destruct (walks_link_inv _ _ _ _ _ _ Hn Hl Hw) as (m1 & q1 & n2 & Hlead1 & _). by destruct (Hno _ _ Hlead1).
  - pose proof (seen_fits _ _ Hok ltac:(eauto) Hseen) as Hfit. destruct fuel as [|fuel]; [lia|].
    destruct (realpath_go fuel lk _ _ _) as [seen1 p] eqn:E.
    assert (resolved_ok (<[path ++ [name] := None]> seen) (start_of path (parse_path t)) (p_parts (parse_path t)) (seen1, p)) as Hres.
    { destruct (opened_nested _ _ _ _ _ Hn Hl Hok Hop) as [Hok' Hop']. rewrite <-E.
      apply IHf; [lia|by apply settled_start|done|done|]. rewrite map_size_insert_None by done. lia. }
    eapply resolved_link; try done. intros Hok1 Hop1 Hdom. apply IH; try done; [by apply Hres|].
    apply subseteq_size in Hdom. rewrite !size_dom in Hdom. lia.
Qed.

(** The fuel is enough: what [realpath] gives is settled, and where every walk leads. *)
Lemma realpath_settled path rest :
  settled path → settled (realpath lk path rest) ∧ ∀ n q, walks path rest n q → q = realpath lk path rest.
Proof.
  intros Hs. destruct (realpath_go_settled (size lk) ∅ path rest Hs) as (H1 & H2 & _); [..|by split]; try done. lia.
Qed.
End walks.

(** ** Paths stay in the workspace *)

Lemma strip_parts_some pre l rest : strip_parts pre l = Some rest ↔ l = pre ++ rest.
Proof.
  revert l. induction pre as [|a pre IH]; intros l; simpl; [split; [by intros [= ->]|by intros ->]|].
  destruct l as [|b l]; [done|]. destruct (String.eqb_spec a b) as [->|Hne].
  - rewrite IH. split; [by intros ->|by intros [= ->]].
  - split; [done|]. by intros [= -> _].
Qed.

(** The path inside of the sandbox that is meant. *)
Definition sandbox_path (lk : Links) (cwd : list string) (file_path working_directory : string) : list string :=
  let p := parse_path file_path in
  p_parts (resolve lk cwd (if is_absolute p then p else join_path (parse_path working_directory) p)).

Lemma resolve_path_cases lk cwd file_path working_directory base mount :
  p_root (parse_path mount) = "/" →
  match resolve_path lk cwd file_path working_directory base mount with
  | Ok p => ∃ rel, sandbox_path lk cwd file_path working_directory = p_parts (parse_path mount) ++ rel
      ∧ p = mkPath (p_root (parse_path base)) (p_parts (parse_path base) ++ rel)
  | Raise e => e = OtherError "PermissionError" ("File access not permitted: " +:+ file_path)
      ∧ ∀ rel, sandbox_path lk cwd file_path working_directory ≠ p_parts (parse_path mount) ++ rel
  end.
Proof.
  intros Hm. unfold resolve_path, sandbox_path, relative_to. set (q := resolve lk cwd _).
  assert (p_root q = "/") as Hq by done. rewrite Hq, Hm. change (String.eqb "/" "/") with true. cbv iota.
  destruct (strip_parts (p_parts (parse_path mount)) (p_parts q)) as [rel|] eqn:E.
  - apply strip_parts_some in E. by exists rel.
  - split; [done|]. intros rel Hr. apply strip_parts_some in Hr. congruence.
Qed.

Lemma lookup_links fs p : links fs !! p = match fs !! p with Some (ELink t) => Some t | _ => None end.
Proof. unfold links. rewrite lookup_omap. by destruct (fs !! p) as [[]|]. Qed.
Lemma namei_cons k fs path name rest :
  namei k fs path (name :: rest) =
    if String.eqb name ".." then namei k fs (parent path) rest
    else match fs !! (path ++ [name]), rest, k with
         | Some (ELink t), _, S k => namei k fs (start_of path (parse_path t)) (p_parts (parse_path t) ++ rest)
         | Some (ELink _), _, O => Raise ELOOP
         | Some EDir, _, _ => namei k fs (path ++ [name]) rest
         | Some (EFile _), [], _ | None, [], _ => Ok (path ++ [name])
         | Some (EFile _), _, _ => Raise NOT_A_DIRECTORY
         | None, _, _ => Raise FileNotFoundError
         end.
Proof. destruct k; simpl; destruct (String.eqb name ".."), (fs !! (path ++ [name])) as [[]|], rest; done. Qed.

(** The kernel's walk is one along the links. *)
Lemma namei_walks k fs path rest q : namei k fs path rest = Ok q → ∃ n, walks (links fs) path rest n q.
Proof.
  revert path rest. induction k as [k IHk] using lt_wf_ind. intros path rest. revert path.
  induction rest as [|name rest IH]; intros path.
  { replace (namei k fs path []) with (@Ok (list string) path) by (by destruct k). intros [= <-]. exists 0%nat. constructor. }
  rewrite namei_cons. destruct (String.eqb_spec name "..") as [->|Hn].
  { intros [n Hw]%IH. exists n. by constructor. }
  assert (links fs !! (path ++ [name]) = match fs !! (path ++ [name]) with Some (ELink t) => Some t | _ => None end) as Hl
    by apply lookup_links.
  destruct (fs !! (path ++ [name])) as [[c| |t]|].
  - destruct rest; [|done]. intros [= <-]. exists 0%nat. by constructor; [..|constructor].
  - intros [n Hw]%IH. exists n. by constructor.
  - destruct k as [|k]; [done|]. intros [n Hw]%IHk; [|lia].
    apply walks_app in Hw as (n1 & q1 & n2 & H1 & H2 & ->). exists (S (n1 + n2)). by eapply walks_link.
  - destruct rest; [|done]. intros [= <-]. exists 0%nat. by constructor; [..|constructor].
Qed.

(** A directory with the directories above it, and no links among them. *)
Definition all_dirs (fs : FileSystem) (d : list string) : Prop := ∀ r, r `prefix_of` d → entry_at fs r = Some EDir.
Definition real_dir (fs : FileSystem) (d : list string) : Prop := (".." ∉ d) ∧ all_dirs fs d.
Lemma real_dir_settled fs d : real_dir fs d → settled (links fs) d.
Proof.
  intros [Hd Hr]. split; [done|]. intros r m q Hp (d' & c & -> & _ & [t Ht] & _). apply Hr in Hp.
  rewrite lookup_links in Ht. unfold entry_at in Hp. destruct (d' ++ [c]) eqn:E; [by destruct d'|]. by rewrite Hp in Ht.
Qed.
Lemma all_dirs_parent fs d : all_dirs fs d → all_dirs fs (parent d).
Proof. intros H r Hr. apply H. etrans; [exact Hr|]. exists (drop (length d - 1) d). symmetry. apply take_drop. Qed.
(** The kernel only goes on from directories. *)
Lemma namei_dirs k fs path a c rest q :
  all_dirs fs path → namei k fs path (a ++ c :: rest) = Ok q →
  ∃ q0, namei k fs path a = Ok q0 ∧ entry_at fs q0 = Some EDir.
Proof.
  revert path a. induction k as [k IHk] using lt_wf_ind. intros path a. revert path.
  induction a as [|name a IH]; intros path Hd.
  { intros _. exists path. split; [by destruct k|]. by apply Hd. }
  rewrite <-app_comm_cons, !namei_cons. destruct (String.eqb name ".."); [by apply IH, all_dirs_parent|].
  destruct (fs !! (path ++ [name])) as [[x| |t]|] eqn:E.
  - destruct (a ++ c :: rest) eqn:Ea; [by destruct a|done].
  - apply IH. intros r [r' Hr]. destruct r' as [|y r' _] using rev_ind.
    + rewrite app_nil_r in Hr. subst r. unfold entry_at. destruct (path ++ [name]) eqn:Ep; [by destruct path|done].
    + rewrite app_assoc in Hr. apply app_inj_tail in Hr as [-> _]. apply Hd. by exists r'.
  - destruct k as [|k]; [done|]. rewrite app_assoc. apply IHk; [lia|]. unfold start_of.
    destruct (is_absolute _); [|done]. intros r Hr. by apply prefix_nil_inv in Hr as ->.
  - destruct (a ++ c :: rest) eqn:Ea; [by destruct a|done].
Qed.

(** Changes of the file system that make directories below [b] and keep the links. *)
Definition dirs_added (b : list string) (fs fs' : FileSystem) : Prop :=
  links fs' = links fs ∧ ∀ x, fs' !! x = fs !! x ∨ (fs !! x = None ∧ fs' !! x = Some EDir ∧ b `prefix_of` x).
Lemma dirs_added_refl b fs : dirs_added b fs fs.
Proof. split; [done|]. by left. Qed.
Lemma dirs_added_trans b fs1 fs2 fs3 : dirs_added b fs1 fs2 → dirs_added b fs2 fs3 → dirs_added b fs1 fs3.
Proof.
  intros [Hl1 H1] [Hl2 H2]. split; [congruence|]. intros x.
  destruct (H1 x) as [E1|(E1 & E1' & ?)], (H2 x) as [E2|(E2 & E2' & ?)]; [left|right|right|right]; repeat split; congruence.
Qed.
Lemma links_insert fs x e : (∀ t, fs !! x ≠ Some (ELink t)) → (∀ t, e ≠ ELink t) → links (<[x := e]> fs) = links fs.
Proof.
  intros Hx He. apply map_eq. intros y. rewrite !lookup_links. destruct (decide (y = x)) as [->|Hne]; [|by rewrite lookup_insert_ne].
  rewrite lookup_insert_eq. destruct e as [| |t]; [| |by destruct (He t)]; destruct (fs !! x) as [[]|]; done || by destruct (Hx _ eq_refl).
Qed.

Lemma mkdir_adds cwd b p n fs :
  (∀ q, lookup_path cwd fs (mkPath (p_root p) (take (n - 1) (p_parts p))) = Ok q → b `prefix_of` q) →
  dirs_added b fs (mkdir cwd p n fs).1.
Proof.
  intros Hp. unfold mkdir. destruct (lookup_path cwd fs _) as [q|e]; [|apply dirs_added_refl].
  specialize (Hp q eq_refl).
  destruct (last _) as [c|]; [|apply dirs_added_refl]. destruct (entry_at fs q) as [[]|]; try apply dirs_added_refl.
  destruct (String.eqb c ".."); [apply dirs_added_refl|]. destruct (fs !! (q ++ [c])) eqn:E; [apply dirs_added_refl|].
  split; [apply links_insert; [by rewrite E|done]|]. intros x. simpl. destruct (decide (x = q ++ [c])) as [->|Hne].
  - right. rewrite lookup_insert_eq. repeat split; [done|]. by apply prefix_app_r.
  - left. by rewrite lookup_insert_ne.
Qed.
(** [makedirs] only makes directories from the first missing one on. *)
Lemma makedirs_adds cwd b p bound n fs :
  (∀ m fs', (bound ≤ m)%nat → links fs' = links fs → dirs_added b fs' (mkdir cwd p m fs').1) →
  bound = 0%nat ∨ path_exists cwd fs (mkPath (p_root p) (take (bound - 1) (p_parts p))) = true → (bound ≤ n)%nat →
  dirs_added b fs (makedirs cwd p n fs).1.
Proof.
  intros Hmk Hex. induction n as [|n IH]; intros Hn; [by apply Hmk|]. cbn [makedirs]. unfold pbind, pget.
  match goal with |- context [if ?x then pcatch _ _ else _] => set (miss := x) end.
  assert (dirs_added b fs ((if miss then pcatch (makedirs cwd p n)
    (λ e, if bool_decide (e = FILE_EXISTS) then pret tt else praise e) else pret tt) fs).1) as H1.
  { destruct miss eqn:Em; [|apply dirs_added_refl]. apply andb_true_iff in Em as [_ Em]. unfold pcatch.
    destruct (decide (bound = S n)) as [->|Hne].
    { destruct Hex as [?|Hex]; [done|]. rewrite Nat.sub_succ, Nat.sub_0_r in Hex. by rewrite Hex in Em. }
    specialize (IH ltac:(lia)). destruct (makedirs cwd p n fs) as [fs1 [[]|e]]; [done|]. by case_bool_decide. }
  match goal with H1 : dirs_added _ _ (?x fs).1 |- _ => destruct (x fs) as [fs1 [[]|e]]; [|done] end. simpl in H1.
  eapply dirs_added_trans; [exact H1|]. apply Hmk; [done|]. by destruct H1 as [-> _].
Qed.

Section confined.
Variables (cwd : list string) (lk : Links) (base b : list string) (rel : list string) (root : string).
Abbreviation whole := (mkPath root (base ++ rel)).
Abbreviation upto n := (mkPath root (take n (base ++ rel))).
(** Along the way from [base] over [rel] every walk ends where it should. *)
Definition confines : Prop := ∀ k n q,
  walks lk (start_of cwd (mkPath root [])) (base ++ take k rel) n q → q = b ++ take k rel.
Hypothesis Hconf : confines.

Lemma confined_lookup fs n q :
  links fs = lk → (length base ≤ n)%nat → lookup_path cwd fs (upto n) = Ok q → b `prefix_of` q.
Proof using Hconf.
  intros Hl Hn Hq. apply namei_walks in Hq as [m Hw]. rewrite Hl in Hw. simpl in Hw. rewrite take_app_ge in Hw by done.
  apply Hconf in Hw as ->. by eexists.
Qed.
Lemma makedirs_added fs n :
  links fs = lk → path_exists cwd fs (upto (length base)) = true → (length base < n)%nat →
  dirs_added b fs (makedirs cwd whole n fs).1.
Proof using Hconf.
  intros Hl Hex Hn. apply (makedirs_adds _ _ _ (S (length base))); [|right; by rewrite Nat.sub_succ, Nat.sub_0_r|lia].
  intros m fs' Hm Hl'. apply mkdir_adds. intros q Hq. eapply confined_lookup; [|shelve|exact Hq]. congruence. Unshelve. lia.
Qed.
(** The workspace's directory exists. *)
Variable fs : FileSystem.
Hypotheses (Hlinks : links fs = lk) (Hcwd : all_dirs fs cwd)
  (Hbase : lookup_path cwd fs (mkPath root base) = Ok b) (Hdir : entry_at fs b = Some EDir).

Lemma dirname_added : dirs_added b fs (make_dirname cwd whole fs).1.
Proof using Hconf Hlinks Hcwd Hbase Hdir.
  unfold make_dirname. simpl p_parts. simpl p_root. set (n := (length (base ++ rel) - 1)%nat).
  destruct (_ || _) eqn:Eabs; [|apply dirs_added_refl]. destruct (path_exists cwd fs (upto n)) eqn:Ep; [apply dirs_added_refl|].
  assert (path_exists cwd fs (upto (length base)) = true) as Hb.
  { unfold path_exists. rewrite take_app_length, Hbase, Hdir. by apply bool_decide_true. }
  destruct (decide (length base < n)%nat) as [Hlt|Hge]; [by apply makedirs_added|]. exfalso.
  destruct (decide (n = length base)) as [->|Hne]; [congruence|].
  assert (rel = []) as -> by (destruct rel; [done|]; subst n; rewrite length_app in Hge, Hne; simpl in Hge, Hne; lia).
  subst n. rewrite app_nil_r in *. unfold path_exists in Ep.
  destruct base as [|c l _] using rev_ind; [done|]. rewrite length_app in Ep. simpl in Ep.
  replace (length l + 1 - 1)%nat with (length l) in Ep by lia. rewrite take_app_length in Ep.
  destruct (namei_dirs MAXSYMLINKS fs (start_of cwd (mkPath root [])) l c [] b) as (q0 & H0 & Hq0).
  - unfold start_of. destruct (is_absolute _); [|done]. intros r Hr. by apply prefix_nil_inv in Hr as ->.
  - exact Hbase.
  - unfold lookup_path in Ep. change (start_of cwd (mkPath root l)) with (start_of cwd (mkPath root [])) in Ep.
    simpl p_parts in Ep. rewrite H0, Hq0 in Ep. by rewrite bool_decide_true in Ep.
Qed.
Lemma whole_lookup fs' q : links fs' = lk → lookup_path cwd fs' whole = Ok q → q = b ++ rel.
Proof using Hconf.
  intros Hl Hq. apply namei_walks in Hq as [m Hw]. rewrite Hl in Hw. rewrite <-(firstn_all rel) in Hw |- *. by apply Hconf in Hw.
Qed.
Lemma write_confined decodes insert start end_ fs' x :
  links fs' = lk → (write_path decodes cwd insert start end_ whole fs').1 !! x ≠ fs' !! x → b `prefix_of` x.
Proof using Hconf.
  intros Hl. unfold write_path, open_text.
  destruct (lookup_path cwd fs' whole) as [q|e] eqn:Hq; [|by destruct (path_exists _ _ _)].
  apply whole_lookup in Hq as ->; [|done].
  assert (∀ e, <[b ++ rel := e]> fs' !! x ≠ fs' !! x → b `prefix_of` x) as Hins.
  { intros e. destruct (decide (x = b ++ rel)) as [->|]; [intros _; by eexists|]. by rewrite lookup_insert_ne. }
  destruct (path_exists _ _ _); [|apply Hins]. destruct (entry_at fs' _) as [[c| |]|]; try done.
  destruct (decodes c); [apply Hins|done].
Qed.
End confined.

(** The workspace's directory is the mount point itself, or there are no links in it. *)
Definition no_way_out (fs : FileSystem) (base mount : string) (b : list string) : Prop :=
  parse_path base = parse_path mount ∨ ∀ r, r ≠ [] → links fs !! (b ++ r) = None.

Lemma walks_linkless lk b rel n q :
  (".." ∉ rel) → (∀ r, r ≠ [] → lk !! (b ++ r) = None) → walks lk b rel n q → q = b ++ rel.
Proof.
  revert b n. induction rel as [|c rel IH]; intros b n Hd Hno Hw; [inversion Hw; by rewrite app_nil_r|].
  apply not_elem_of_cons in Hd as [Hc Hd]. change (c :: rel) with ([c] ++ rel). rewrite app_assoc.
  inversion Hw; subst; [done| |rewrite Hno in *; done].
  eapply IH; [done| |eassumption]. intros r Hr. rewrite <-app_assoc. by apply Hno.
Qed.
Lemma sandbox_confines fs cwd file_path working_directory base mount b rel :
  p_root (parse_path mount) = "/" → real_dir fs cwd → lookup_path cwd fs (parse_path base) = Ok b →
  no_way_out fs base mount b →
  sandbox_path (links fs) cwd file_path working_directory = p_parts (parse_path mount) ++ rel →
  confines cwd (links fs) (p_parts (parse_path base)) b rel (p_root (parse_path base)).
Proof.
  intros Hm Hcwd Hb Hno Hsp k n q Hw. unfold sandbox_path in Hsp. cbn [resolve p_parts] in Hsp.
  assert (settled (links fs) (p_parts (parse_path mount) ++ rel)) as Hset.
  { rewrite <-Hsp. apply realpath_settled, settled_start. by apply real_dir_settled. }
  assert (settled (links fs) (p_parts (parse_path mount) ++ take k rel)) as Hk.
  { apply (settled_prefix _ _ _ Hset). apply prefix_app. by exists (drop k rel); rewrite take_drop. }
  apply namei_walks in Hb as [nb Hb].
  apply walks_app in Hw as (n1 & q1 & n2 & H1 & H2 & _).
  change (start_of cwd (mkPath (p_root (parse_path base)) [])) with (start_of cwd (parse_path base)) in H1.
  destruct (walks_det _ _ _ _ _ _ _ Hb H1) as [<- <-]. destruct Hno as [Heq|Hno].
  - rewrite Heq in Hb. unfold start_of, is_absolute in Hb. rewrite Hm in Hb. simpl in Hb.
    apply walks_settled in Hb as [_ ->]; [|by apply (settled_prefix _ _ _ Hset), prefix_app_r].
    by apply walks_settled in H2 as [_ ->].
  - eapply walks_linkless; [|done|exact H2]. destruct Hk as [Hd _]. intros Hin. apply Hd, elem_of_app. by right.
Qed.

(** C15 The agent's files are confined to the workspace, links included.  In a workspace
    whose directory exists and is the mount point itself, or in which there are no symbolic
    links ([no_way_out]; see [link_escapes] for the other case), whatever path is asked for
    and from whatever working directory: a path that resolves, after following every link
    and [..], outside of the mount point is refused, and nothing is read or written; every
    path that resolves inside is allowed, and the file that the kernel then finds, following
    links again, is the workspace's directory followed by the part behind the mount point;
    reading gives lines of a file in that directory, and writing changes nothing outside of
    it, neither files nor the directories made on the way. *)
Theorem resolve_path_confined decodes fs cwd file_path working_directory base mount b :
  p_root (parse_path mount) = "/" → real_dir fs cwd →
  lookup_path cwd fs (parse_path base) = Ok b → entry_at fs b = Some EDir → no_way_out fs base mount b →
  match resolve_path (links fs) cwd file_path working_directory base mount with
  | Ok p => ∃ rel, sandbox_path (links fs) cwd file_path working_directory = p_parts (parse_path mount) ++ rel
      ∧ p = mkPath (p_root (parse_path base)) (p_parts (parse_path base) ++ rel)
      ∧ ∀ q, lookup_path cwd fs p = Ok q → q = b ++ rel
  | Raise e => e = OtherError "PermissionError" ("File access not permitted: " +:+ file_path)
      ∧ ∀ rel, sandbox_path (links fs) cwd file_path working_directory ≠ p_parts (parse_path mount) ++ rel
  end
  ∧ (∀ start end_ text, read_file decodes cwd file_path working_directory base mount start end_ fs
       = Ok (new_obs text (OFileRead (mkFileReadObservation file_path READ_DEFAULT))) →
     ∃ rel c, fs !! (b ++ rel) = Some (EFile c) ∧ text = str_join "" (read_lines (readlines c) start end_))
  ∧ (∀ content start end_ x,
       (write_file decodes cwd file_path working_directory base mount content start end_ fs).1 !! x ≠ fs !! x →
       b `prefix_of` x).
Proof.
  intros Hm Hcwd Hb Hdir Hno. pose proof (resolve_path_cases (links fs) cwd file_path working_directory base mount Hm) as Hc.
  unfold read_file, write_file. destruct (resolve_path (links fs) cwd file_path working_directory base mount) as [p|e].
  2: { split; [done|]. split; [|done]. intros start end_ text [= ? ?]. }
  destruct Hc as (rel & Hsp & ->).
  pose proof (sandbox_confines _ _ _ _ _ _ _ _ Hm Hcwd Hb Hno Hsp) as Hconf.
  pose proof (whole_lookup _ _ _ _ _ _ Hconf fs) as Hwhole.
  split; [exists rel; eauto|]. split.
  - intros start end_ text. unfold open_text.
    destruct (lookup_path cwd fs (mkPath _ _)) as [q|e] ; [rewrite (Hwhole q eq_refl eq_refl)|by repeat case_bool_decide].
    destruct (b ++ rel) as [|y l] eqn:Eq; [by repeat case_bool_decide|]. cbn [entry_at].
    destruct (fs !! (y :: l)) as [[c| |]|] eqn:Ef; try by repeat case_bool_decide.
    destruct (decodes c); [|by repeat case_bool_decide]. intros [= <-]. exists rel, c. by rewrite Eq.
  - intros content start end_ x.
    destruct (dirname_added _ _ _ _ _ _ Hconf fs eq_refl (proj2 Hcwd)) as [Hl Hd]; [by destruct (parse_path base)|done|].
    destruct (make_dirname cwd _ fs) as [fs1 [[]|e]]; simpl in Hl, Hd.
    2: { simpl. intros Hx. by destruct (Hd x) as [?|(_ & _ & ?)]. }
    intros Hx. destruct (Hd x) as [Hsame|(_ & _ & ?)]; [|done]. rewrite <-Hsame in Hx.
    apply (write_confined _ _ _ _ _ _ Hconf decodes (str_split newline content) start end_ fs1 x Hl).
    by destruct (write_path decodes cwd (str_split newline content) start end_ _ fs1) as [fs2 [[]|e]].
Qed.

(** ** What is written is read *)

Lemma join_cons x l : str_join "" (x :: l) = x +:+ str_join "" l.
Proof. destruct l; [simpl; by rewrite append_empty_r|done]. Qed.
Lemma join_app l k : str_join "" (l ++ k) = str_join "" l +:+ str_join "" k.
Proof.
  induction l as [|x l IH]; [done|]. change ((x :: l) ++ k) with (x :: (l ++ k)). rewrite !join_cons, IH.
  apply append_assoc.
Qed.

Lemma join_split acc c :
  str_join "" ((λ i, i +:+ nl) <$> str_split_go newline acc c) = String.rev acc +:+ c +:+ nl.
Proof.
  revert acc. induction c as [|d c IH]; intros acc; cbn [str_split_go]; [done|].
  destruct (Ascii.eqb_spec newline d) as [<-|Hne].
  - rewrite fmap_cons, join_cons, IH. rewrite <-append_assoc. done.
  - rewrite IH, rev_cons, <-append_assoc. done.
Qed.
Lemma written_text c : str_join "" ((λ i, i +:+ nl) <$> str_split newline c) = c +:+ nl.
Proof. apply (join_split "" c). Qed.

Lemma join_readlines_go acc s : str_join "" (readlines_go acc s) = String.rev acc +:+ s.
Proof.
  revert acc. induction s as [|c s IH]; intros acc; simpl.
  - destruct (String.eqb_spec acc "") as [->|]; [done|]. simpl. by rewrite append_empty_r.
  - destruct (Ascii.eqb c newline).
    + rewrite join_cons, IH, rev_cons, <-append_assoc. done.
    + rewrite IH, rev_cons, <-append_assoc. done.
Qed.
Lemma join_readlines s : str_join "" (readlines s) = universal_newlines s.
Proof. apply join_readlines_go. Qed.
Lemma universal_plain s : has_char carriage_return s = false → universal_newlines s = s.
Proof.
  induction s as [|c s IH]; [done|]. cbn [has_char universal_newlines]. intros [Hc Hs]%orb_false_iff.
  rewrite Ascii.eqb_sym, Hc, IH by done. done.
Qed.

(** The lines before and after the range, with the inserted text between them. *)
Lemma insert_text new original start end_ :
  0 ≤ start → (end_ = -1 ∨ 0 ≤ end_) →
  str_join "" (insert_lines new original start end_)
  = str_join "" (take (Z.to_nat start) original) +:+ str_join "" ((λ i, i +:+ nl) <$> new)
    +:+ (if end_ =? -1 then "" else str_join "" (drop (Z.to_nat end_) original)).
Proof.
  intros Hs He. unfold insert_lines. rewrite !join_app. f_equal; [|f_equal].
  - destruct (Z.eqb_spec start 0) as [->|]; [done|]. by rewrite py_slice_to_Z by lia.
  - destruct (Z.eqb_spec end_ (-1)) as [->|]; [done|].
    rewrite <-(Z2Nat.id end_) at 1 by lia. by rewrite py_slice_from.
Qed.

(** Making directories in any case only adds some, and keeps the links. *)
Lemma dirname_adds cwd p fs : dirs_added [] fs (make_dirname cwd p fs).1.
Proof.
  unfold make_dirname. destruct (_ || _); [|apply dirs_added_refl]. destruct (path_exists _ _ _); [apply dirs_added_refl|].
  apply (makedirs_adds _ _ _ 0); [|by left|lia]. intros m fs' _ _. apply mkdir_adds. intros q _. apply prefix_nil.
Qed.
(** Where the kernel arrives does not depend on a file's text, or on its being there. *)
Lemma namei_file k fs path rest q x t :
  (fs !! x = None ∨ ∃ c, fs !! x = Some (EFile c)) →
  namei k fs path rest = Ok q → namei k (<[x := EFile t]> fs) path rest = Ok q.
Proof.
  intros Hx. revert path rest. induction k as [k IHk] using lt_wf_ind. intros path rest. revert path.
  induction rest as [|name rest IH]; intros path; [by destruct k|].
  rewrite !namei_cons. destruct (String.eqb name ".."); [apply IH|]. destruct (decide (path ++ [name] = x)) as [<-|Hne].
  - rewrite lookup_insert_eq. destruct Hx as [->|[c ->]]; by destruct rest.
  - rewrite lookup_insert_ne by done. destruct (fs !! (path ++ [name])) as [[c| |t']|]; [done|apply IH| |done].
    destruct k as [|k]; [done|]. apply IHk. lia.
Qed.

(** The text of the old file, in lines; nothing for a new one. *)
Definition old_lines (fs : FileSystem) (p : list string) : list string :=
  match fs !! p with Some (EFile c) => readlines c | _ => [] end.
Definition new_text (content : string) (start end_ : Z) (old : list string) : string :=
  str_join "" (take (Z.to_nat start) old) +:+ (content +:+ nl)
  +:+ (if end_ =? -1 then "" else str_join "" (drop (Z.to_nat end_) old)).

Lemma write_path_spec decodes cwd content start end_ p fs fs' :
  0 ≤ start → (end_ = -1 ∨ 0 ≤ end_) →
  write_path decodes cwd (str_split newline content) start end_ p fs = (fs', Ok tt) →
  ∃ q, lookup_path cwd fs p = Ok q ∧ q ≠ [] ∧ (fs !! q = None ∨ ∃ c, fs !! q = Some (EFile c))
    ∧ fs' = <[q := EFile (new_text content start end_ (old_lines fs q))]> fs.
Proof.
  intros Hs He. unfold write_path, path_exists, open_text. destruct (lookup_path cwd fs p) as [q|e]; [|done].
  destruct q as [|a l]; [done|]. cbn [entry_at]. unfold old_lines. destruct (fs !! (a :: l)) as [[c| |t]|] eqn:E.
  - rewrite bool_decide_true by done. destruct (decodes c); [|done]. intros [= <-]. exists (a :: l). rewrite E.
    split; [done|]. split; [done|]. split; [eauto|]. by rewrite insert_text, written_text.
  - by rewrite bool_decide_true.
  - by rewrite bool_decide_true.
  - rewrite bool_decide_false by (by intros [? ?]). intros [= <-]. exists (a :: l). rewrite E.
    split; [done|]. split; [done|]. split; [eauto|]. rewrite written_text. unfold new_text. rewrite take_nil, drop_nil.
    change (str_join "" []) with "". destruct (_ =? _); by rewrite append_empty_r.
Qed.

Lemma read_all l : read_lines l 0 (-1) = l.
Proof.
  unfold read_lines. change (if -1 =? -1 then -1 else Z.max (-1) 0) with (-1).
  replace (Z.min (Z.max 0 0) (py_len l)) with 0 by (unfold py_len; lia).
  by replace (Z.min (-1) (py_len l)) with (-1) by (unfold py_len; lia).
Qed.

(** What is written is what is read: after writing lines into a file (or creating it, with
    the directories above it) the file to which the path leads consists of the old lines
    before the range, the text and a newline, and the old lines from the range's end on; no
    other file, directory or link changes; and reading the whole file gives exactly this
    text. *)
Theorem written_is_read decodes cwd path workdir base mount content start end_ fs fs' o :
  0 ≤ start → (end_ = -1 ∨ 0 ≤ end_) →
  write_file decodes cwd path workdir base mount content start end_ fs = (fs', Ok o) → is_error_obs o = false →
  ∃ p q, resolve_path (links fs) cwd path workdir base mount = Ok p ∧ lookup_path cwd fs' p = Ok q
    ∧ let text := new_text content start end_ (old_lines fs q) in
      fs' !! q = Some (EFile text)
      ∧ (∀ x, is_Some (fs !! x) → x ≠ q → fs' !! x = fs !! x)
      ∧ (decodes text = true → has_char carriage_return text = false →
         read_file decodes cwd path workdir base mount 0 (-1) fs'
         = Ok (new_obs text (OFileRead (mkFileReadObservation path READ_DEFAULT)))).
Proof.
  intros Hs He. unfold write_file, read_file. destruct (resolve_path (links fs) cwd path workdir base mount) as [p|e] eqn:Er; [|by intros [= <- <-]].
  destruct (dirname_adds cwd p fs) as [Hl Hd]. destruct (make_dirname cwd p fs) as [fs1 [[]|e]]; [|done]. simpl in Hl, Hd.
  destruct (write_path decodes cwd (str_split newline content) start end_ p fs1) as [fs2 [[]|e]] eqn:Ew.
  2: { intros [= <- Ho]. by repeat case_bool_decide; try (injection Ho as <-). }
  intros [= <- <-] _. destruct (write_path_spec _ _ _ _ _ _ _ _ Hs He Ew) as (q & Hq & Hne & Hfile & ->).
  assert (fs1 !! q = fs !! q) as Hold.
  { destruct (Hd q) as [?|(_ & E & _)]; [done|]. rewrite E in Hfile. by destruct Hfile as [?|[? ?]]. }
  set (text := new_text content start end_ (old_lines fs1 q)) in *.
  assert (text = new_text content start end_ (old_lines fs q)) as Htext by (unfold text, old_lines; by rewrite Hold).
  assert (lookup_path cwd (<[q := EFile text]> fs1) p = Ok q) as Hq' by by apply namei_file.
  assert (links (<[q := EFile text]> fs1) = links fs) as Hl'.
  { rewrite links_insert; [done| |done]. intros t E. rewrite E in Hfile. by destruct Hfile as [?|[? ?]]. }
  exists p, q. split; [done|]. split; [done|]. rewrite <-Htext. split; [apply lookup_insert_eq|]. split.
  { intros x [e Hx] Hxq. rewrite lookup_insert_ne by done. destruct (Hd x) as [?|(E & _)]; congruence. }
  intros Hdec Hcr. rewrite Hl', Er. unfold open_text. rewrite Hq'. destruct q as [|a l]; [done|]. cbn [entry_at].
  rewrite lookup_insert_eq, Hdec. rewrite <-(universal_plain text Hcr) at 2. rewrite <-join_readlines. by rewrite read_all.
Qed.

Module files_example.
Definition fs0 : FileSystem := <[["host"; "a.txt"] := EFile (str_join nl ["1"; "2"; "3"; ""])]> (<[["host"] := EDir]> ∅).
Lemma written_is_read_witness :
  let x := write_file (λ _, true) [] "a.txt" "/w" "/host" "/w" "two" 1 2 fs0 in
  x.2 = Ok (new_obs "" (OFileWrite (mkFileWriteObservation "a.txt")))
  ∧ new_text "two" 1 2 (old_lines fs0 ["host"; "a.txt"]) = str_join nl ["1"; "two"; "3"; ""]
  ∧ read_file (λ _, true) [] "a.txt" "/w" "/host" "/w" 0 (-1) x.1
    = Ok (new_obs (str_join nl ["1"; "two"; "3"; ""]) (OFileRead (mkFileReadObservation "a.txt" READ_DEFAULT))).
Proof.
  intros x. assert (Hx : x = (x.1, Ok (new_obs "" (OFileWrite (mkFileWriteObservation "a.txt"))))) by reflexivity.
  split; [reflexivity|]. split; [vm_compute; reflexivity|].
  destruct (written_is_read (λ _, true) [] "a.txt" "/w" "/host" "/w" "two" 1 2 fs0 x.1 _ ltac:(lia) ltac:(lia) Hx eq_refl)
    as (p & q & [= <-] & Hq & _ & _ & Hr).
  vm_compute in Hq. injection Hq as <-. apply Hr; vm_compute; reflexivity.
Defined.

(** A workspace mounted where it is, with a link to a directory outside of it, one to a
    file inside, and one to itself. *)
Definition linked : FileSystem :=
  <[["w"; "a.txt"] := EFile "in"]> (<[["etc"; "passwd"] := EFile "out"]> (<[["w"; "out"] := ELink "/etc"]>
    (<[["w"; "in"] := ELink "../w/./a.txt"]> (<[["w"; "loop"] := ELink "loop"]>
      (<[["w"] := EDir]> (<[["etc"] := EDir]> ∅)))))).
Lemma linked_root : real_dir linked [].
Proof. split; [apply not_elem_of_nil|]. intros r Hr. by apply prefix_nil_inv in Hr as ->. Qed.
Lemma resolve_path_confined_witness :
  let read p := read_file (λ _, true) [] p "/w" "/w" "/w" 0 (-1) linked in
  read "in" = Ok (new_obs "in" (OFileRead (mkFileReadObservation "in" READ_DEFAULT)))
  ∧ resolve_path (links linked) [] "out/passwd" "/w" "/w" "/w" = Raise (OtherError "PermissionError" "File access not permitted: out/passwd")
  ∧ (∃ rel c, linked !! (["w"] ++ rel) = Some (EFile c) ∧ "in" = str_join "" (read_lines (readlines c) 0 (-1)))
  ∧ ∀ rel, sandbox_path (links linked) [] "out/passwd" "/w" ≠ ["w"] ++ rel.
Proof.
  intros read. assert (read "in" = Ok (new_obs "in" (OFileRead (mkFileReadObservation "in" READ_DEFAULT)))) as Hr by (vm_compute; reflexivity).
  split; [exact Hr|]. split; [vm_compute; reflexivity|]. split.
  - exact (proj1 (proj2 (resolve_path_confined (λ _, true) linked [] "in" "/w" "/w" "/w" ["w"]
      eq_refl linked_root eq_refl eq_refl (or_introl eq_refl))) 0 (-1) "in" Hr).
  - exact (proj2 (proj1 (resolve_path_confined (λ _, true) linked [] "out/passwd" "/w" "/w" "/w" ["w"]
      eq_refl linked_root eq_refl eq_refl (or_introl eq_refl)))).
Defined.
(** A loop of links stays as it is, and cannot be opened. *)
Example loop_not_opened :
  resolve_path (links linked) [] "loop/x" "/w" "/w" "/w" = Ok (mkPath "/" ["w"; "loop"; "x"])
  ∧ read_file (λ _, true) [] "loop/x" "/w" "/w" "/w" 0 (-1) linked = Raise ELOOP.
Proof. vm_compute. done. Qed.
(** Where the workspace's directory is not the mount point, the links in it are not seen by
    the check, and lead out of it. *)
Example link_escapes :
  let fs := <[["host"; "out"] := ELink "/etc"]> (<[["host"] := EDir]> linked) in
  resolve_path (links fs) [] "out/passwd" "/workspace" "/host" "/workspace" = Ok (mkPath "/" ["host"; "out"; "passwd"])
  ∧ read_file (λ _, true) [] "out/passwd" "/workspace" "/host" "/workspace" 0 (-1) fs
    = Ok (new_obs "out" (OFileRead (mkFileReadObservation "out/passwd" READ_DEFAULT))).
Proof. vm_compute. done. Qed.
(** The last line cannot be read alone: the line before it comes along. *)
Example last_line_not_alone : read_lines ["a"; "b"; "c"] 2 3 = ["b"; "c"] ∧ read_lines ["a"; "b"; "c"] 1 2 = ["b"].
Proof. done. Qed.
(** A text that ends with a newline gets another one. *)
Example newline_added :
  let x := write_file (λ _, true) [] "b.txt" "/w" "/host" "/w" ("t" +:+ nl) 0 (-1) fs0 in
  x.1 !! ["host"; "b.txt"] = Some (EFile ("t" +:+ nl +:+ nl)).
Proof. vm_compute. reflexivity. Qed.
End files_example.
