(* ===== verification/FileOps.v ===== *)
(** * The agent's file skills

    Models [runtime/plugins/agent_skills/file_ops/file_ops.py]: opening a file, moving a
    window over it, searching.  The module's global variables are the state; the texts of
    the files, absolute paths and the directories' contents are parameters.  What is printed
    is a list of texts. *)

From S2P Require Import Prelude PyValue FnCallTexts StrSearch FnCallConverter PatchParse WorkspaceFiles.
Local Open Scope Z_scope.
Local Open Scope py_scope.

Record Editor := mkEditor {
  CURRENT_FILE : option string;
  CURRENT_LINE : Z;
  printed_texts : list string;
}.
Definition new_Editor : Editor := mkEditor None 1 [].
Definition WINDOW : Z := 100.

Definition py_print (s : string) : pyM Editor unit :=
  pmodify (λ e, mkEditor (CURRENT_FILE e) (CURRENT_LINE e) (printed_texts e ++ [s])).
Definition set_current_line (n : Z) : pyM Editor unit :=
  pmodify (λ e, mkEditor (CURRENT_FILE e) n (printed_texts e)).
Definition set_current_file (f : string) : pyM Editor unit :=
  pmodify (λ e, mkEditor (Some f) (CURRENT_LINE e) (printed_texts e)).
Definition output_error (msg : string) : pyM Editor unit := py_print ("ERROR: " +:+ msg).

Definition clamp (value min_value max_value : Z) : Z := Z.max min_value (Z.min value max_value).

(** [s.splitlines(True)] *)
Fixpoint splitlines_keep (acc s : string) : list string :=
  match s with
  | EmptyString => if String.eqb acc "" then [] else [String.rev acc]
  | String c s' =>
      if is_linebreak c then
        match s' with
        | String d s'' =>
            if Ascii.eqb c carriage_return && Ascii.eqb d newline
            then String.rev (String d (String c acc)) :: splitlines_keep "" s''
            else String.rev (String c acc) :: splitlines_keep "" s'
        | EmptyString => [String.rev (String c acc)]
        end
      else splitlines_keep (String c acc) s'
  end.

(** ** The window *)

(** The first and last line shown. *)
Definition window_bounds (line window total : Z) (ignore_window : bool) : Z * Z :=
  let half_window := Z.max 1 (window / 2) in
  let '(start, end_) :=
    if ignore_window then (Z.max 1 line, Z.min total (line + window))
    else (Z.max 1 (line - half_window), Z.min total (line + half_window)) in
  let end_ := if start =? 1 then Z.min total (start + window - 1) else end_ in
  let start := if end_ =? total then Z.max 1 (end_ - window + 1) else start in
  (start, end_).

Definition numbered_line (lines : list string) (i : Z) : string :=
  let new_line := pretty i +:+ "|" +:+ from_option id "" (py_get lines (i - 1)) in
  if endswith new_line nl then new_line else new_line +:+ nl.
Definition window_text (lines : list string) (b : Z * Z) : string :=
  let total := py_len lines in
  str_rstrip
    ((if 1 <? b.1 then "(" +:+ pretty (b.1 - 1) +:+ " more lines above)" +:+ nl
      else "(this is the beginning of the file)" +:+ nl)
     +:+ str_join "" (numbered_line lines <$> py_range b.1 (b.2 + 1))
     +:+ (if b.2 <? total then "(" +:+ pretty (total - b.2) +:+ " more lines below)" +:+ nl
          else "(this is the end of the file)" +:+ nl)).

Section skills.
(** The text of a file, where [os.path.isfile] holds; [os.path.abspath]; [os.walk] of a
    directory: the names of its files, directory by directory. *)
Variable file_text : string → option string.
Variable abspath : string → string.
Variable walk : string → option (list (string * list string)).
Variable path_join : string → string → string.

Definition truthy_path (p : option string) : option string :=
  match p with Some s => if String.eqb s "" then None else Some s | None => None end.
Definition check_current_file (file_path : option string) : pyM Editor bool :=
  let* e := pget in
  match truthy_path (match truthy_path file_path with Some p => Some p | None => CURRENT_FILE e end) with
  | Some p => match file_text p with
              | Some _ => pret true
              | None => output_error "No file open. Use the open_file function first." ;;; pret false
              end
  | None => output_error "No file open. Use the open_file function first." ;;; pret false
  end.

(** [open(path)] for reading, in text mode *)
Definition open_read (p : string) : pyM Editor string :=
  match file_text p with Some c => pret (universal_newlines c) | None => praise FileNotFoundError end.
(** [content.splitlines(True)] of a file, ending with a newline *)
Definition window_lines (content : string) : list string :=
  splitlines_keep "" (if endswith content nl then content else content +:+ nl).

Definition print_window (file_path : option string) (targeted_line window : Z) (return_str ignore_window : bool) :
    pyM Editor string :=
  let* ok := check_current_file file_path in
  match ok, file_path with
  | true, Some p =>
      let* content := open_read p in
      let lines := window_lines content in
      let line := clamp targeted_line 1 (py_len lines) in
      set_current_line line ;;;
      let output := window_text lines (window_bounds line window (py_len lines) ignore_window) in
      if return_str then pret output else py_print output ;;; pret ""
  | _, _ => pret ""
  end.

Definition cur_file_header (current_file : option string) (total_lines : Z) : string :=
  match truthy_path current_file with
  | None => ""
  | Some f => "[File: " +:+ abspath f +:+ " (" +:+ pretty total_lines +:+ " lines total)]" +:+ nl
  end.
(** [max(1, sum(1 for _ in file))] *)
Definition count_lines (content : string) : Z := Z.max 1 (py_len (readlines_go "" content)).

(** [line_number] is [None] when it is no integer. *)
Definition open_file (path : string) (line_number context_lines : option Z) : pyM Editor unit :=
  match file_text path with
  | None => output_error ("File " +:+ path +:+ " not found.")
  | Some _ =>
      let current := abspath path in
      set_current_file current ;;;
      let* content := open_read current in
      let total_lines := count_lines content in
      let bad := output_error ("Line number must be between 1 and " +:+ pretty total_lines) in
      match line_number with
      | None => bad
      | Some n =>
          if (n <? 1) || (total_lines <? n) then bad
          else
            set_current_line n ;;;
            let context_lines := match context_lines with Some c => if c <? 1 then WINDOW else c | None => WINDOW end in
            let* window := print_window (Some current) n (clamp context_lines 1 100) true false in
            let output := cur_file_header (Some current) total_lines +:+ window in
            let output := if endswith (str_strip output) "more lines below)"
                          then output +:+ nl +:+ "[Use `scroll_down` to view the next 100 lines of the file!]" else output in
            py_print output
      end
  end.

(** What [goto_line], [scroll_down] and [scroll_up] share. *)
Definition show_line (f : string) (total_lines line : Z) (ignore_window : bool) : pyM Editor unit :=
  set_current_line line ;;;
  let* window := print_window (Some f) line WINDOW true ignore_window in
  py_print (cur_file_header (Some f) total_lines +:+ window).
Definition with_current_file (k : string → Z → pyM Editor unit) : pyM Editor unit :=
  let* ok := check_current_file None in
  let* e := pget in
  match ok, CURRENT_FILE e with
  | true, Some f => let* content := open_read f in k f (count_lines content)
  | _, _ => pret tt
  end.

Definition goto_line (line_number : option Z) : pyM Editor unit :=
  with_current_file (λ f total_lines,
    let bad := output_error ("Line number must be between 1 and " +:+ pretty total_lines +:+ ".") in
    match line_number with
    | None => bad
    | Some n => if (n <? 1) || (total_lines <? n) then bad
                else show_line f total_lines (clamp n 1 total_lines) false
    end).
Definition scroll_down : pyM Editor unit :=
  with_current_file (λ f total_lines, let* e := pget in
    show_line f total_lines (clamp (CURRENT_LINE e + WINDOW) 1 total_lines) true).
Definition scroll_up : pyM Editor unit :=
  with_current_file (λ f total_lines, let* e := pget in
    show_line f total_lines (clamp (CURRENT_LINE e - WINDOW) 1 total_lines) true).

(** ** Searching *)

(** The lines of a text that contain a term, with their numbers. *)
Definition matching_lines (term content : string) : list (Z * string) :=
  omap (λ '(i, l), if str_contains term l then Some (i, str_strip l) else None) (enumerate_from 1 (readlines_go "" content)).
Definition quoted (s : string) : string := quote +:+ s +:+ quote.

Definition search_dir (term dir : string) : pyM Editor unit :=
  match walk dir with
  | None => output_error ("Directory " +:+ dir +:+ " not found")
  | Some dirs =>
      let matches : list (string * Z * string) :=
        dirs ≫= λ '(root, files), files ≫= λ file,
          if startswith file "." then []
          else let p := path_join root file in
               (λ '(i, l), (p, i, l)) <$> from_option (λ c, matching_lines term (universal_newlines c)) [] (file_text p) in
      let num_files := py_len (remove_dups ((λ m, m.1.1) <$> matches)) in
      match matches with
      | [] => py_print ("No matches found for " +:+ quoted term +:+ " in " +:+ dir)
      | _ =>
          if 100 <? num_files
          then py_print ("More than " +:+ pretty num_files +:+ " files matched for " +:+ quoted term +:+ " in " +:+ dir
                         +:+ ". Please narrow your search.")
          else
            py_print ("[Found " +:+ pretty (py_len matches) +:+ " matches for " +:+ quoted term +:+ " in " +:+ dir +:+ "]") ;;;
            pmodify (λ e, mkEditor (CURRENT_FILE e) (CURRENT_LINE e) (printed_texts e ++
              ((λ '(p, i, l), p +:+ " (Line " +:+ pretty i +:+ "): " +:+ l) <$> matches))) ;;;
            py_print ("[End of matches for " +:+ quoted term +:+ " in " +:+ dir +:+ "]")
      end
  end.

Definition search_file (term : string) (file_path : option string) : pyM Editor unit :=
  let* e := pget in
  match (match file_path with Some p => Some p | None => CURRENT_FILE e end) with
  | None => output_error "No file specified or open. Use the open_file function first."
  | Some p =>
      match file_text p with
      | None => output_error ("File " +:+ p +:+ " not found.")
      | Some c =>
          match matching_lines term (universal_newlines c) with
          | [] => py_print ("[No matches found for " +:+ quoted term +:+ " in " +:+ p +:+ "]")
          | matches =>
              py_print ("[Found " +:+ pretty (py_len matches) +:+ " matches for " +:+ quoted term +:+ " in " +:+ p +:+ "]") ;;;
              pmodify (λ e, mkEditor (CURRENT_FILE e) (CURRENT_LINE e) (printed_texts e ++
                ((λ '(i, l), "Line " +:+ pretty i +:+ ": " +:+ l) <$> matches))) ;;;
              py_print ("[End of matches for " +:+ quoted term +:+ " in " +:+ p +:+ "]")
          end
      end
  end.

Definition find_file (file_name dir : string) : pyM Editor unit :=
  match walk dir with
  | None => output_error ("Directory " +:+ dir +:+ " not found")
  | Some dirs =>
      match (dirs ≫= λ '(root, files), files ≫= λ file,
               if str_contains file_name file then [path_join root file] else []) with
      | [] => py_print ("[No matches found for " +:+ quoted file_name +:+ " in " +:+ dir +:+ "]")
      | matches =>
          py_print ("[Found " +:+ pretty (py_len matches) +:+ " matches for " +:+ quoted file_name +:+ " in " +:+ dir +:+ "]") ;;;
          pmodify (λ e, mkEditor (CURRENT_FILE e) (CURRENT_LINE e) (printed_texts e ++ matches)) ;;;
          py_print ("[End of matches for " +:+ quoted file_name +:+ " in " +:+ dir +:+ "]")
      end
  end.
End skills.

(** ** The window shows the line *)

(** The window of at least two lines lies in the file, shows at most one line more than
    asked for, and contains the line it is for; only when scrolling to a line from which the
    file's end is exactly a window away the window begins behind the line. *)
Theorem window_shows line window total ignore :
  2 ≤ window → 1 ≤ line ≤ total →
  let b := window_bounds line window total ignore in
  1 ≤ b.1 ∧ b.1 ≤ b.2 ∧ b.2 ≤ total ∧ b.2 - b.1 ≤ window
  ∧ (ignore = false ∨ line + window ≠ total ∨ line = 1 → b.1 ≤ line ≤ b.2).
Proof.
  intros Hw Hl. unfold window_bounds. assert (1 ≤ window / 2 ∧ 2 * (window / 2) ≤ window) as [Hh1 Hh2].
  { split; [by apply Z.div_le_lower_bound; lia|apply Z.mul_div_le; lia]. }
  generalize dependent (window / 2). intros half ? ?.
  destruct ignore; simpl; repeat (case_match; simpl); repeat match goal with
    | H : (_ =? _) = true |- _ => apply Z.eqb_eq in H | H : (_ =? _) = false |- _ => apply Z.eqb_neq in H end; lia.
Qed.
Lemma window_shows_witness :
  let b := window_bounds 150 100 400 false in b = (100, 200) ∧ b.1 ≤ 150 ≤ b.2 ∧ b.2 - b.1 ≤ 100.
Proof.
  destruct (window_shows 150 100 400 false ltac:(lia) ltac:(lia)) as (_ & _ & _ & Hn & Hs).
  split; [vm_compute; reflexivity|]. split; [apply Hs; by left|exact Hn].
Defined.

(** ** Scrolling shows every line *)

(** The only ends of lines are newlines. *)
Definition plain_breaks (s : string) : bool := all_chars (λ c, negb (is_linebreak c) || Ascii.eqb c newline) s.
Fixpoint newlines (s : string) : nat :=
  match s with EmptyString => O | String c s' => (if Ascii.eqb c newline then 1 else 0) + newlines s' end.

Lemma splitlines_readlines acc s : plain_breaks s = true → splitlines_keep acc s = readlines_go acc s.
Proof.
  unfold plain_breaks. revert acc. induction s as [|c s IH]; intros acc; [done|]. cbn [all_chars splitlines_keep readlines_go].
  intros [Hc Hs]%andb_true_iff. destruct (Ascii.eqb_spec c newline) as [->|Hne].
  - change (is_linebreak newline) with true. cbv iota. destruct s as [|d s]; [done|].
    change (Ascii.eqb newline carriage_return) with false. cbn [andb]. by rewrite (IH "").
  - rewrite orb_false_r in Hc. apply negb_true_iff in Hc. rewrite Hc. by apply IH.
Qed.
Lemma readlines_length_nl acc s : length (readlines_go acc (s +:+ nl)) = S (newlines s).
Proof.
  revert acc. induction s as [|c s IH]; intros acc; [done|]. rewrite append_cons. simpl.
  destruct (Ascii.eqb c newline); simpl; by rewrite IH.
Qed.
Lemma readlines_length acc s :
  endswith s nl = false → String.eqb (acc +:+ s) "" = false → length (readlines_go acc s) = S (newlines s).
Proof.
  revert acc. induction s as [|c s IH]; intros acc He Hne; simpl.
  - rewrite append_empty_r in Hne. by rewrite Hne.
  - assert (endswith s nl = false) as He'.
    { apply not_true_is_false. intros [a ->]%Ps1.endswith_nl_inv. rewrite <-append_cons, endswith_append in He. done. }
    destruct (Ascii.eqb_spec c newline) as [->|]; simpl.
    + rewrite IH; [done|done|]. destruct s; [done|done].
    + by rewrite IH.
Qed.
Lemma window_lines_count content : plain_breaks content = true → py_len (window_lines content) = count_lines content.
Proof.
  intros Hp. unfold window_lines, count_lines, py_len. destruct (endswith content nl) eqn:He.
  - rewrite splitlines_readlines by done. apply Ps1.endswith_nl_inv in He as [a ->]. rewrite readlines_length_nl. lia.
  - rewrite splitlines_readlines by (unfold plain_breaks in *; by rewrite all_chars_append, Hp).
    rewrite readlines_length_nl. destruct (String.eqb_spec content "") as [->|Hne]; [done|].
    rewrite readlines_length; [lia|done|]. by destruct content.
Qed.

Section scrolling.
Variables (file_text : string → option string) (abspath : string → string) (path c : string).
Hypothesis is_there : file_text path = Some c.
Hypothesis same_file : file_text (abspath path) = Some c.
Hypothesis named : abspath path ≠ "".
Let content := universal_newlines c.
Hypothesis plain : plain_breaks content = true.
Let lines := window_lines content.
Let total := count_lines content.
Let header := cur_file_header abspath (Some (abspath path)) total.

Lemma truthy_named : truthy_path (Some (abspath path)) = Some (abspath path).
Proof using named. unfold truthy_path. by destruct (String.eqb_spec (abspath path) ""). Qed.

Lemma print_window_there line window ignore e :
  1 ≤ line ≤ total →
  print_window file_text (Some (abspath path)) line window true ignore e
  = (mkEditor (CURRENT_FILE e) line (printed_texts e), Ok (window_text lines (window_bounds line window total ignore))).
Proof using is_there same_file named plain.
  intros Hl. unfold print_window, check_current_file, pbind at 1, pbind at 1, pget. rewrite !truthy_named, same_file. unfold pret at 1.
  unfold pbind at 1, open_read. rewrite same_file. unfold pret at 1, pbind, set_current_line, pmodify, pret.
  fold content lines. assert (py_len lines = total) as -> by by apply window_lines_count.
  assert (clamp line 1 total = line) as -> by (unfold clamp; lia). done.
Qed.

Lemma total_positive : 1 ≤ total.
Proof. unfold total, count_lines. lia. Qed.

Lemma scroll_down_step e :
  CURRENT_FILE e = Some (abspath path) →
  let line := clamp (CURRENT_LINE e + WINDOW) 1 total in
  scroll_down file_text abspath e
  = (mkEditor (CURRENT_FILE e) line
       (printed_texts e ++ [header +:+ window_text lines (window_bounds line WINDOW total true)]), Ok tt).
Proof using is_there same_file named plain.
  intros Hf line. pose proof total_positive as Ht.
  unfold scroll_down, with_current_file, check_current_file, pbind at 1, pbind at 1, pget at 1. rewrite Hf.
  change (truthy_path None) with (@None string). cbv iota. rewrite truthy_named, same_file. unfold pret at 1.
  unfold pbind at 1, pget at 1. rewrite Hf. unfold pbind at 1, open_read. rewrite same_file. unfold pret at 1.
  unfold pbind at 1, pget at 1, show_line, pbind at 1, set_current_line, pmodify at 1. fold content total line.
  unfold pbind at 1. rewrite print_window_there by (unfold line, clamp; lia). unfold py_print, pmodify. cbn. by rewrite Hf.
Qed.

Fixpoint scrolls (n : nat) : pyM Editor unit :=
  match n with O => pret tt | S n => scrolls n ;;; scroll_down file_text abspath end.
(** The line the [k]-th window is for, and the window. *)
Definition window_line (k : nat) : Z := Z.min total (1 + WINDOW * Z.of_nat k).
Definition window_at (k : nat) : Z * Z := window_bounds (window_line k) WINDOW total (negb (Nat.eqb k 0)).

Lemma scrolls_spec n e :
  CURRENT_FILE e = Some (abspath path) → CURRENT_LINE e = window_line 0 →
  scrolls n e
  = (mkEditor (Some (abspath path)) (window_line n)
       (printed_texts e ++ ((λ k, header +:+ window_text lines (window_at k)) <$> seq 1 n)), Ok tt).
Proof using is_there same_file named plain.
  intros Hf Hl. induction n as [|n IH].
  - simpl. rewrite app_nil_r, <-Hf, <-Hl. by destruct e.
  - cbn [scrolls]. unfold pbind. rewrite IH. rewrite scroll_down_step by done. cbn [CURRENT_LINE CURRENT_FILE printed_texts].
    pose proof total_positive as Ht.
    assert (clamp (window_line n + WINDOW) 1 total = window_line (S n)) as -> by (unfold clamp, window_line, WINDOW; lia).
    f_equal. f_equal. rewrite (seq_S n 1), fmap_app, app_assoc. done.
Qed.

(** Opening a file and scrolling down shows every line of it: after [n] scrolls the
    windows that were printed, a header before each, contain all of the first [100 (n + 1)]
    lines of a file whose only ends of lines are newlines and whose number of lines is not
    one more than a multiple of the window (or is at most 101). *)
Theorem scrolling_covers n e :
  total mod WINDOW ≠ 1 ∨ total ≤ WINDOW + 1 →
  ∃ e' hint,
    (open_file file_text abspath path (Some 1) None ;;; scrolls n) e = (e', Ok tt)
    ∧ printed_texts e' = printed_texts e ++ [header +:+ window_text lines (window_at 0) +:+ hint]
                         ++ ((λ k, header +:+ window_text lines (window_at k)) <$> seq 1 n)
    ∧ ∀ i, 1 ≤ i ≤ total → i ≤ WINDOW * (Z.of_nat n + 1) →
        ∃ k, (k ≤ n)%nat ∧ (window_at k).1 ≤ i ≤ (window_at k).2.
Proof using is_there same_file named plain.
  intros Hm. pose proof total_positive as Ht.
  assert (∃ hint, open_file file_text abspath path (Some 1) None e
    = (mkEditor (Some (abspath path)) (window_line 0)
         (printed_texts e ++ [header +:+ window_text lines (window_at 0) +:+ hint]), Ok tt)) as [hint Ho].
  { unfold open_file. rewrite is_there. unfold pbind at 1, set_current_file, pmodify at 1. unfold pbind at 1, open_read.
    rewrite same_file. unfold pret at 1. fold content total. destruct (Z.ltb_spec total 1); [lia|].
    change ((1 <? 1) || false) with false. cbv beta iota.
    unfold pbind at 1, set_current_line at 1, pmodify at 1. change (clamp WINDOW 1 100) with WINDOW.
    unfold pbind at 1. rewrite print_window_there by lia. cbn [CURRENT_FILE printed_texts].
    assert (window_line 0 = 1) as Hw0 by (unfold window_line; lia).
    unfold py_print, pmodify. cbn [CURRENT_FILE CURRENT_LINE printed_texts]. fold header.
    assert (window_bounds 1 WINDOW total false = window_at 0) as -> by (unfold window_at; by rewrite Hw0).
    rewrite Hw0.
    destruct (endswith _ _); [|exists ""; by rewrite append_empty_r].
    eexists. rewrite <-append_assoc. reflexivity. }
  eexists _, hint. split; [|split].
  - unfold pbind. rewrite Ho. by apply scrolls_spec.
  - cbn [printed_texts]. by rewrite <-app_assoc.
  - intros i Hi Hn. exists (Z.to_nat ((i - 1) / WINDOW)). unfold WINDOW in *.
    assert (0 ≤ (i - 1) / 100) by (apply Z.div_pos; lia).
    split; [apply Nat2Z.inj_le; rewrite Z2Nat.id by done; apply Z.lt_succ_r, Z.div_lt_upper_bound; lia|].
    unfold window_at, window_line, window_bounds, WINDOW. rewrite Z2Nat.id by done.
    set (q := (i - 1) / 100) in *. assert (100 * q ≤ i - 1 < 100 * q + 100) as Hq.
    { unfold q. pose proof (Z.div_mod (i - 1) 100 ltac:(lia)). pose proof (Z.mod_pos_bound (i - 1) 100 ltac:(lia)). lia. }
    assert (total = 100 * (q + 1) + 1 → q = 0) as Hend.
    { intros E. destruct Hm as [Hm|]; [|lia]. exfalso. apply Hm. rewrite E, Z.mul_comm, Z.add_comm, Z_mod_plus_full. done. }
    clearbody q. change (Z.max 1 (100 / 2)) with 50.
    destruct (Nat.eqb_spec (Z.to_nat q) 0); simpl; repeat (case_match; simpl); repeat match goal with
      | H : (_ =? _) = true |- _ => apply Z.eqb_eq in H | H : (_ =? _) = false |- _ => apply Z.eqb_neq in H end; lia.
Qed.
End scrolling.

Module file_ops_example.
Fixpoint letters (n : nat) : string := match n with O => "" | S n => "x" +:+ nl +:+ letters n end.
Definition texts (n : nat) (p : string) : option string := if String.eqb p "/f" then Some (letters n) else None.

Lemma scrolling_covers_witness :
  ∃ e', (open_file (texts 150) id "/f" (Some 1) None ;;; scrolls (texts 150) id 1) new_Editor = (e', Ok tt)
    ∧ length (printed_texts e') = 2%nat
    ∧ ∃ k, (k ≤ 1)%nat ∧ (window_at (letters 150) k).1 ≤ 120 ≤ (window_at (letters 150) k).2.
Proof.
  destruct (scrolling_covers (texts 150) id "/f" (letters 150) eq_refl eq_refl ltac:(done) eq_refl 1 new_Editor)
    as (e' & hint & He & Hp & Hc); [left; vm_compute; done|].
  exists e'. split; [exact He|]. split; [rewrite Hp; reflexivity|].
  apply Hc; [split|]; vm_compute; done.
Defined.

(** In a file of 201 lines scrolling goes from a window that ends with line 100 to one that
    begins with line 102: line 101 is not shown. *)
Example scroll_skips_line :
  window_bounds 1 100 201 false = (1, 100) ∧ window_bounds 101 100 201 true = (102, 201).
Proof. done. Qed.
(** With one line of context the line itself is not shown. *)
Example one_line_window : window_bounds 2 1 10 false = (1, 1).
Proof. done. Qed.
(** A window of 100 lines shows 101. *)
Example window_too_long : let b := window_bounds 150 100 400 false in b.2 - b.1 + 1 = 101.
Proof. done. Qed.
End file_ops_example.
