(* ===== verification/PortLock.v ===== *)
(** * Locks of network ports

    Models [runtime/utils/port_lock.py]: the lock of a port is a lock on a file, and a port
    is handed out only with its lock.  The operating system is a state of its own: the lock
    files, the open descriptors and the kernel's locks on files.  How many turns of the
    waiting loop the timeout leaves time for, the random numbers, and which ports can be
    bound are arguments. *)

From S2P Require Import Prelude PyValue.
Local Open Scope Z_scope.
Local Open Scope py_scope.

(** ** The operating system *)

(** The file of each port's lock ([port_<port>.lock]), the open descriptors with their
    files, and for each locked file the descriptor that locked it; [os_next] is a number
    that is neither a file nor a descriptor. *)
Record Os := mkOs {
  os_files : gmap Z nat;
  os_fds : gmap nat nat;
  os_flocks : gmap nat nat;
  os_next : nat;
}.

(** [os.open] with [O_CREAT], exclusively or not *)
Definition sys_open (excl : bool) (port : Z) (o : Os) : option (nat * Os) :=
  match os_files o !! port with
  | Some i => if excl then None
              else Some (os_next o, mkOs (os_files o) (<[os_next o := i]> (os_fds o)) (os_flocks o) (S (os_next o)))
  | None => Some (S (os_next o), mkOs (<[port := os_next o]> (os_files o)) (<[S (os_next o) := os_next o]> (os_fds o))
                                      (os_flocks o) (S (S (os_next o))))
  end.
(** [fcntl.flock(fd, LOCK_EX | LOCK_NB)], [None] when it raises *)
Definition sys_flock (fd : nat) (o : Os) : option Os :=
  match os_fds o !! fd with
  | None => None
  | Some i =>
      match os_flocks o !! i with
      | None => Some (mkOs (os_files o) (os_fds o) (<[i := fd]> (os_flocks o)) (os_next o))
      | Some fd' => if Nat.eqb fd' fd then Some o else None
      end
  end.
(** [fcntl.flock(fd, LOCK_UN)] *)
Definition sys_unlock (fd : nat) (o : Os) : Os :=
  match os_fds o !! fd with
  | Some i => if bool_decide (os_flocks o !! i = Some fd)
              then mkOs (os_files o) (os_fds o) (delete i (os_flocks o)) (os_next o) else o
  | None => o
  end.
(** [os.close], which drops the descriptor's lock *)
Definition sys_close (fd : nat) (o : Os) : Os :=
  let o := sys_unlock fd o in mkOs (os_files o) (delete fd (os_fds o)) (os_flocks o) (os_next o).
Definition sys_unlink (port : Z) (o : Os) : Os :=
  mkOs (delete port (os_files o)) (os_fds o) (os_flocks o) (os_next o).

(** ** [PortLock] *)

Record PortLock := mkPortLock { pl_port : Z; pl_fd : option nat; pl_locked : bool }.
Definition new_PortLock (port : Z) : PortLock := mkPortLock port None false.

Section acquire.
(** [HAS_FCNTL]; whether writing to the lock file succeeds *)
Variable has_fcntl writes : bool.

(** The loop with [flock], on the open descriptor [fd]; [tries] turns, then the timeout *)
Fixpoint flock_loop (tries : nat) (fd : nat) (l : PortLock) (o : Os) : PortLock * Os * bool :=
  match tries with
  | O => (mkPortLock (pl_port l) None (pl_locked l), sys_close fd o, false)
  | S tries =>
      match sys_flock fd o with
      | None => flock_loop tries fd l o
      | Some o =>
          let l := mkPortLock (pl_port l) (pl_fd l) true in
          if writes then (l, o, true) else flock_loop tries fd l o
      end
  end.
(** The loop with exclusive creation *)
Fixpoint excl_loop (tries : nat) (l : PortLock) (o : Os) : PortLock * Os * bool :=
  match tries with
  | O => (l, o, false)
  | S tries =>
      match sys_open true (pl_port l) o with
      | None => excl_loop tries l o
      | Some (fd, o) =>
          let l := mkPortLock (pl_port l) (Some fd) true in
          if writes then (l, o, true) else excl_loop tries l o
      end
  end.

Definition acquire (tries : nat) (l : PortLock) (o : Os) : PortLock * Os * bool :=
  if pl_locked l then (l, o, true)
  else if has_fcntl then
    match sys_open false (pl_port l) o with
    | None => (l, o, false)
    | Some (fd, o) => flock_loop tries fd (mkPortLock (pl_port l) (Some fd) (pl_locked l)) o
    end
  else excl_loop tries l o.

Definition release (l : PortLock) (o : Os) : PortLock * Os :=
  match pl_fd l with
  | None => (l, o)
  | Some fd =>
      let o := if has_fcntl then sys_unlock fd o else o in
      let o := sys_unlink (pl_port l) (sys_close fd o) in
      (mkPortLock (pl_port l) None false, o)
  end.

(** ** [find_available_port_with_lock] *)

(** The lock objects that exist, and the system. *)
Record Ports := mkPorts { ps_locks : gmap nat PortLock; ps_next : nat; ps_os : Os }.

(** One turn of either loop: the lock's number if it is returned *)
Definition try_port (bindable : Z → bool) (tries : nat) (port : Z) (s : Ports) : Ports * option nat :=
  let id := ps_next s in
  let '(l, o, ok) := acquire tries (new_PortLock port) (ps_os s) in
  if ok then
    if bindable port then (mkPorts (<[id := l]> (ps_locks s)) (S id) o, Some id)
    else let '(l, o) := release l o in (mkPorts (<[id := l]> (ps_locks s)) (S id) o, None)
  else (mkPorts (<[id := l]> (ps_locks s)) (S id) o, None).
Fixpoint try_ports (bindable : Z → bool) (tries : nat) (ports : list Z) (s : Ports) : Ports * option (Z * nat) :=
  match ports with
  | [] => (s, None)
  | port :: ports =>
      match try_port bindable tries port s with
      | (s, Some id) => (s, Some (port, id))
      | (s, None) => try_ports bindable tries ports s
      end
  end.

(** [rng.randint(a, b)] from the entropy [r] *)
Definition randint (r a b : Z) : result Z :=
  if b <? a then Raise (ValueError "empty range in randrange") else Ok (a + r mod (b - a + 1)).
Fixpoint randints (rs : list Z) (a b : Z) : result (list Z) :=
  match rs with
  | [] => Ok []
  | r :: rs => match randint r a b, randints rs a b with
               | Ok p, Ok l => Ok (p :: l) | Raise e, _ => Raise e | _, Raise e => Raise e end
  end.
(** The ports of the sequential search *)
Definition sequential_ports (min_port max_port start_port n : Z) : list Z :=
  (λ i, let port := start_port + i in
        if max_port <? port then min_port + (port - max_port - 1) else port) <$> py_range 0 n.

(** The random numbers of the first loop are [rs 0], [rs 1], ...; then comes [r]. *)
Definition find_available_port_with_lock (min_port max_port max_attempts : Z) (bindable : Z → bool) (tries : nat)
    (rs : nat → Z) (r : Z) (s : Ports) : Ports * result (option (Z * nat)) :=
  let random_attempts := Z.min (max_attempts / 2) 10 in
  match randints (rs <$> seq 0 (Z.to_nat random_attempts)) min_port max_port with
  | Raise e => (s, Raise e)
  | Ok ports =>
      match try_ports bindable tries ports s with
      | (s, Some x) => (s, Ok (Some x))
      | (s, None) =>
          let remaining_attempts := max_attempts - random_attempts in
          match randint r min_port (max_port - remaining_attempts) with
          | Raise e => (s, Raise e)
          | Ok start_port =>
              let '(s, x) := try_ports bindable tries
                               (sequential_ports min_port max_port start_port remaining_attempts) s in
              (s, Ok x)
          end
      end
  end.

(** [lock.release()] of the lock with a number *)
Definition release_lock (id : nat) (s : Ports) : Ports :=
  match ps_locks s !! id with
  | Some l => let '(l, o) := release l (ps_os s) in mkPorts (<[id := l]> (ps_locks s)) (ps_next s) o
  | None => s
  end.
End acquire.

(** [cleanup_stale_locks]: [stale] says which files are older than the age; the files are
    removed whether they are locked or not. *)
Definition cleanup_stale_locks (stale : Z → bool) (o : Os) : Os * Z :=
  let l := filter (λ p, stale p.1 = true) (map_to_list (os_files o)) in
  (mkOs (foldr (λ p, delete p.1) (os_files o) l) (os_fds o) (os_flocks o) (os_next o), py_len l).

(** ** At most one lock of a port is held *)

(** What a lock object says is what the system knows. *)
Definition lock_ok (f : bool) (o : Os) (l : PortLock) : Prop :=
  if pl_locked l then
    ∃ fd i, pl_fd l = Some fd ∧ os_fds o !! fd = Some i ∧ os_files o !! pl_port l = Some i
      ∧ (f = true → os_flocks o !! i = Some fd)
  else pl_fd l = None.

Record ports_inv (f : bool) (s : Ports) : Prop := {
  inv_lock : ∀ id l, ps_locks s !! id = Some l → lock_ok f (ps_os s) l;
  inv_number : ∀ id l, ps_locks s !! id = Some l → (id < ps_next s)%nat;
  inv_owned : ∀ fd i, os_fds (ps_os s) !! fd = Some i → ∃ id l, ps_locks s !! id = Some l ∧ pl_fd l = Some fd;
  inv_owner : ∀ id1 id2 l1 l2 fd, ps_locks s !! id1 = Some l1 → ps_locks s !! id2 = Some l2 →
    pl_fd l1 = Some fd → pl_fd l2 = Some fd → id1 = id2;
  inv_fds : ∀ fd1 fd2 i, os_fds (ps_os s) !! fd1 = Some i → os_fds (ps_os s) !! fd2 = Some i → fd1 = fd2;
  inv_flocks : ∀ i fd, os_flocks (ps_os s) !! i = Some fd → os_fds (ps_os s) !! fd = Some i;
  inv_files : ∀ p q i, os_files (ps_os s) !! p = Some i → os_files (ps_os s) !! q = Some i → p = q;
  inv_fresh : (∀ p i, os_files (ps_os s) !! p = Some i → i < os_next (ps_os s))%nat
    ∧ (∀ fd i, os_fds (ps_os s) !! fd = Some i → fd < os_next (ps_os s) ∧ i < os_next (ps_os s))%nat;
}.

(** A lock of the port is held. *)
Definition held (s : Ports) (port : Z) : Prop :=
  ∃ id l, ps_locks s !! id = Some l ∧ pl_port l = port ∧ pl_locked l = true.

#[export] Instance held_dec s port : Decision (held s port).
Proof. apply (map_Exists_dec (λ _ l, pl_port l = port ∧ pl_locked l = true)). Defined.

Lemma lock_fd f s id l fd :
  ports_inv f s → ps_locks s !! id = Some l → pl_fd l = Some fd →
  pl_locked l = true ∧ ∃ i, os_fds (ps_os s) !! fd = Some i ∧ os_files (ps_os s) !! pl_port l = Some i
    ∧ (f = true → os_flocks (ps_os s) !! i = Some fd).
Proof.
  intros Hi Hl Hf. pose proof (inv_lock _ _ Hi _ _ Hl) as Ho. unfold lock_ok in Ho.
  destruct (pl_locked l); [|congruence]. destruct Ho as (fd' & i & ? & ? & ? & ?). split; [done|].
  exists i. naive_solver.
Qed.
(** An open file is the lock file of a held lock. *)
Lemma open_held f s fd i p :
  ports_inv f s → os_fds (ps_os s) !! fd = Some i → os_files (ps_os s) !! p = Some i → held s p.
Proof.
  intros Hi Hfd Hp. destruct (inv_owned _ _ Hi _ _ Hfd) as (id & l & Hl & Hf).
  destruct (lock_fd _ _ _ _ _ Hi Hl Hf) as (Hk & j & Hj & Hq & _).
  exists id, l. split; [done|]. split; [|done]. apply (inv_files _ _ Hi) with j; congruence.
Qed.
Lemma held_file f s port :
  ports_inv f s → held s port → ∃ fd i, os_files (ps_os s) !! port = Some i ∧ os_fds (ps_os s) !! fd = Some i
    ∧ (f = true → os_flocks (ps_os s) !! i = Some fd).
Proof.
  intros Hi (id & l & Hl & <- & Hk). pose proof (inv_lock _ _ Hi _ _ Hl) as Ho. unfold lock_ok in Ho. rewrite Hk in Ho.
  naive_solver.
Qed.
Lemma exclusive f s id1 id2 l1 l2 :
  ports_inv f s → ps_locks s !! id1 = Some l1 → ps_locks s !! id2 = Some l2 →
  pl_locked l1 = true → pl_locked l2 = true → pl_port l1 = pl_port l2 → id1 = id2.
Proof.
  intros Hi H1 H2 K1 K2 Hp. pose proof (inv_lock _ _ Hi _ _ H1) as O1. pose proof (inv_lock _ _ Hi _ _ H2) as O2.
  unfold lock_ok in *. rewrite K1 in O1. rewrite K2 in O2.
  destruct O1 as (fd1 & i1 & Hf1 & Hi1 & Hp1 & _), O2 as (fd2 & i2 & Hf2 & Hi2 & Hp2 & _).
  assert (i1 = i2) as -> by congruence. assert (fd1 = fd2) as -> by (by apply (inv_fds _ _ Hi) with i2).
  by apply (inv_owner _ _ Hi) with l1 l2 fd2.
Qed.

(** A new lock object that is not locked; a new file may have been created. *)
Lemma inv_new_free f s port o' :
  ports_inv f s → os_fds o' = os_fds (ps_os s) → os_flocks o' = os_flocks (ps_os s) → (os_next (ps_os s) ≤ os_next o')%nat →
  (os_files o' = os_files (ps_os s) ∨
   os_files (ps_os s) !! port = None ∧ (os_next (ps_os s) < os_next o')%nat
   ∧ os_files o' = <[port := os_next (ps_os s)]> (os_files (ps_os s))) →
  ports_inv f (mkPorts (<[ps_next s := new_PortLock port]> (ps_locks s)) (S (ps_next s)) o').
Proof.
  intros Hi Hfd Hfl Hn Hfi. assert (ps_locks s !! ps_next s = None) as Hnone.
  { apply eq_None_not_Some. intros [l Hl]. pose proof (inv_number _ _ Hi _ _ Hl). lia. }
  assert (∀ p i, os_files (ps_os s) !! p = Some i → os_files o' !! p = Some i) as Hkeep.
  { intros p i Hp. destruct Hfi as [->|(Hno & _ & ->)]; [done|]. rewrite lookup_insert_ne; congruence. }
  pose proof (inv_fresh _ _ Hi) as [Hf1 Hf2].
  split; cbn [ps_locks ps_os ps_next]; rewrite ?Hfd, ?Hfl.
  - intros id l [[<- <-]|[_ Hl]]%lookup_insert_Some; [done|]. pose proof (inv_lock _ _ Hi _ _ Hl) as Ho.
    unfold lock_ok in *. rewrite Hfd, Hfl. destruct (pl_locked l); [|done]. naive_solver.
  - intros id l [[<- <-]|[_ Hl]]%lookup_insert_Some; [lia|]. pose proof (inv_number _ _ Hi _ _ Hl). lia.
  - intros fd i Hi'. destruct (inv_owned _ _ Hi _ _ Hi') as (id & l & Hl & Hf). exists id, l. split; [|done].
    rewrite lookup_insert_ne; congruence.
  - intros id1 id2 l1 l2 fd [[<- <-]|[_ H1]]%lookup_insert_Some [[<- <-]|[_ H2]]%lookup_insert_Some; try done.
    by apply (inv_owner _ _ Hi).
  - apply (inv_fds _ _ Hi).
  - apply (inv_flocks _ _ Hi).
  - destruct Hfi as [->|(Hno & Hlt & ->)]; [apply (inv_files _ _ Hi)|].
    intros p q i [[<- <-]|[? Hp]]%lookup_insert_Some [[<- Hq]|[? Hq]]%lookup_insert_Some; [done| | |by apply (inv_files _ _ Hi) with i].
    + apply Hf1 in Hq. lia.
    + subst i. apply Hf1 in Hp. lia.
  - split; [|intros fd i Hi'; apply Hf2 in Hi'; lia]. destruct Hfi as [->|(Hno & Hlt & ->)].
    + intros p i Hp. apply Hf1 in Hp. lia.
    + intros p i [[<- <-]|[? Hp]]%lookup_insert_Some; [lia|]. apply Hf1 in Hp. lia.
Qed.

(** The port's file [i] has just been opened, by the new descriptor [fd]; it is the file of
    no other port, and no other descriptor has it open. *)
Definition opened (s : Ports) (port : Z) (fd i : nat) (o : Os) : Prop :=
  os_fds o = <[fd := i]> (os_fds (ps_os s)) ∧ os_files o !! port = Some i ∧ os_flocks o = os_flocks (ps_os s)
  ∧ (os_next (ps_os s) ≤ fd < os_next o)%nat ∧ (i < os_next o)%nat ∧ (∀ fd', os_fds (ps_os s) !! fd' ≠ Some i)
  ∧ (∀ q, q ≠ port → os_files o !! q = os_files (ps_os s) !! q ∧ os_files o !! q ≠ Some i).
Lemma open_opened f excl s port fd o :
  ports_inv f s → ¬ held s port → sys_open excl port (ps_os s) = Some (fd, o) → ∃ i, opened s port fd i o.
Proof.
  intros Hi Hno Hop. pose proof (inv_fresh _ _ Hi) as [Hf1 Hf2]. unfold sys_open in Hop.
  destruct (os_files (ps_os s) !! port) as [i|] eqn:Ep.
  - destruct excl; [done|]. injection Hop as <- <-. exists i. unfold opened. cbn. pose proof (Hf1 _ _ Ep).
    split_and!; [done|done|done|lia|lia|lia| |]; [intros fd' Hfd'; by eapply Hno, open_held|].
    intros q Hq. split; [done|]. intros Hqi. by apply Hq, (inv_files _ _ Hi) with i.
  - injection Hop as <- <-. exists (os_next (ps_os s)). unfold opened. cbn. rewrite lookup_insert_eq.
    split_and!; [done|done|done|lia|lia|lia| |]; [intros fd' Hfd'; apply Hf2 in Hfd'; lia|].
    intros q Hq. rewrite lookup_insert_ne by done. split; [done|]. intros Hqi. apply Hf1 in Hqi. lia.
Qed.
Lemma flock_opened f s port fd i o :
  ports_inv f s → opened s port fd i o →
  sys_flock fd o = Some (mkOs (os_files o) (os_fds o) (<[i := fd]> (os_flocks o)) (os_next o)).
Proof.
  intros Hi (Hfds & _ & Hfl & _ & _ & Hopen & _). unfold sys_flock. rewrite Hfds, lookup_insert_eq, Hfl.
  destruct (os_flocks (ps_os s) !! i) as [fd'|] eqn:El; [|done]. by apply (inv_flocks _ _ Hi), Hopen in El.
Qed.

(** A new lock object that is locked, on a descriptor just opened. *)
Lemma inv_new_locked f s port fd i o :
  ports_inv f s → ¬ held s port → opened s port fd i o →
  ports_inv f (mkPorts (<[ps_next s := mkPortLock port (Some fd) true]> (ps_locks s)) (S (ps_next s))
    (mkOs (os_files o) (os_fds o) (if f then <[i := fd]> (os_flocks o) else os_flocks o) (os_next o))).
Proof.
  intros Hi Hno (Hfds & Hfile & Hflo & Hfd & Hlt & Hopen & Hothers). pose proof (inv_fresh _ _ Hi) as [Hf1 Hf2].
  split; cbn [ps_locks ps_os ps_next os_files os_fds os_flocks os_next]; rewrite ?Hfds, ?Hflo.
  - intros id l [[<- <-]|[_ Hl]]%lookup_insert_Some; unfold lock_ok; cbn [pl_locked pl_fd pl_port os_files os_fds os_flocks].
    + exists fd, i. rewrite lookup_insert_eq. split_and!; try done. intros ->. by rewrite lookup_insert_eq.
    + pose proof (inv_lock _ _ Hi _ _ Hl) as Ho. unfold lock_ok in Ho. destruct (pl_locked l) eqn:Ek; [|done].
      destruct Ho as (fd1 & i1 & ? & Hi1 & Hp1 & Hk1). exists fd1, i1.
      assert (i1 ≠ i) by (intros ->; by apply (Hopen fd1)).
      assert (pl_port l ≠ port) by (intros Hq; apply Hno; by exists id, l).
      rewrite (proj1 (Hothers (pl_port l) ltac:(done))). pose proof (Hf2 _ _ Hi1). rewrite lookup_insert_ne by lia.
      split_and!; try done. intros ->. rewrite lookup_insert_ne by done. by apply Hk1.
  - intros id l [[<- <-]|[_ Hl]]%lookup_insert_Some; [lia|]. pose proof (inv_number _ _ Hi _ _ Hl). lia.
  - intros fd' i' [[<- <-]|[Hne Hl]]%lookup_insert_Some.
    + exists (ps_next s), (mkPortLock port (Some fd) true). by rewrite lookup_insert_eq.
    + destruct (inv_owned _ _ Hi _ _ Hl) as (id & l & Hid & Hf). exists id, l. split; [|done].
      pose proof (inv_number _ _ Hi _ _ Hid). rewrite lookup_insert_ne by lia. done.
  - intros id1 id2 l1 l2 fd' [[<- <-]|[_ H1]]%lookup_insert_Some [[<- <-]|[_ H2]]%lookup_insert_Some K1 K2; [done| | |by apply (inv_owner _ _ Hi) with l1 l2 fd'].
    + destruct (lock_fd _ _ _ _ _ Hi H2 K2) as (_ & j & Hj & _). apply Hf2 in Hj. injection K1 as <-. lia.
    + destruct (lock_fd _ _ _ _ _ Hi H1 K1) as (_ & j & Hj & _). apply Hf2 in Hj. injection K2 as <-. lia.
  - intros fd1 fd2 j [[<- <-]|[? H1]]%lookup_insert_Some [[<- ?]|[? H2]]%lookup_insert_Some; [done|naive_solver|naive_solver|].
    by apply (inv_fds _ _ Hi) with j.
  - intros j fd' Hl. assert (j = i ∧ fd' = fd ∨ os_flocks (ps_os s) !! j = Some fd') as [[-> ->]|Hl'].
    { destruct f; [|by right]. apply lookup_insert_Some in Hl. naive_solver. }
    { by rewrite lookup_insert_eq. }
    apply (inv_flocks _ _ Hi) in Hl'. pose proof (Hf2 _ _ Hl'). rewrite lookup_insert_ne by lia. done.
  - intros p q j Hp Hq. destruct (decide (p = port)) as [->|Np], (decide (q = port)) as [->|Nq]; [done|naive_solver|naive_solver|].
    rewrite (proj1 (Hothers _ Np)) in Hp. rewrite (proj1 (Hothers _ Nq)) in Hq. by apply (inv_files _ _ Hi) with j.
  - split.
    + intros p j Hp. destruct (decide (p = port)) as [->|Np]; [by simplify_eq|].
      rewrite (proj1 (Hothers _ Np)) in Hp. apply Hf1 in Hp. lia.
    + intros fd' j [[<- <-]|[? Hl]]%lookup_insert_Some; [lia|]. apply Hf2 in Hl. lia.
Qed.

(** ** Acquiring and releasing *)

Lemma flock_fails tries fd l o :
  sys_flock fd o = None → flock_loop true tries fd l o = (mkPortLock (pl_port l) None (pl_locked l), sys_close fd o, false).
Proof. intros Hf. induction tries as [|n IH]; [done|]. cbn [flock_loop]. by rewrite Hf. Qed.
Lemma excl_fails tries l o i :
  os_files o !! pl_port l = Some i → excl_loop true tries l o = (l, o, false).
Proof.
  intros Hf. induction tries as [|n IH]; [done|]. cbn [excl_loop]. unfold sys_open. by rewrite Hf.
Qed.

(** Opening a port's file and closing it again leaves at most the file. *)
Lemma open_close f s port fd o :
  ports_inv f s → sys_open false port (ps_os s) = Some (fd, o) → sys_flock fd o = None ∨ ¬ held s port →
  ports_inv f (mkPorts (<[ps_next s := new_PortLock port]> (ps_locks s)) (S (ps_next s)) (sys_close fd o)).
Proof.
  intros Hi Hop Hfl. pose proof (inv_fresh _ _ Hi) as [Hf1 Hf2].
  assert (∀ fd, os_next (ps_os s) ≤ fd → os_fds (ps_os s) !! fd = None)%nat as Hnew.
  { intros d Hd. apply eq_None_not_Some. intros [i Hd']. apply Hf2 in Hd'. lia. }
  assert (os_flocks o = os_flocks (ps_os s) ∧ (os_next (ps_os s) ≤ fd)%nat) as [E1 E2].
  { unfold sys_open in Hop. destruct (os_files (ps_os s) !! port); injection Hop as <- <-; cbn; (split; [done|lia]). }
  assert (∀ i, os_flocks o !! i ≠ Some fd) as Hno.
  { intros i. rewrite E1. intros Hd%(inv_flocks _ _ Hi)%Hf2. lia. }
  assert (sys_close fd o = mkOs (os_files o) (delete fd (os_fds o)) (os_flocks o) (os_next o)) as ->.
  { unfold sys_close, sys_unlock. destruct (os_fds o !! fd) as [i|]; [|done].
    by rewrite bool_decide_eq_false_2 by apply Hno. }
  unfold sys_open in Hop. destruct (os_files (ps_os s) !! port) eqn:Ep; injection Hop as <- <-;
    cbn [os_files os_fds os_flocks os_next] in *; rewrite delete_insert_id by (apply Hnew; lia);
    apply inv_new_free; cbn; try done; try lia; [by left|]. right. split_and!; [done|lia|done].
Qed.

(** With a working disk a new lock is acquired unless the port's lock is held (without
    [flock]: unless its file exists) or there is no time at all; if not, nothing has
    changed but that the file may have been created. *)
Lemma acquire_spec f tries port s :
  ports_inv f s →
  let '(l, o, ok) := acquire f true tries (new_PortLock port) (ps_os s) in
  pl_port l = port ∧ pl_locked l = ok
  ∧ ports_inv f (mkPorts (<[ps_next s := l]> (ps_locks s)) (S (ps_next s)) o)
  ∧ (held s port → ok = false)
  ∧ (f = true → tries ≠ O → ¬ held s port → ok = true).
Proof.
  intros Hi. unfold acquire. cbn [new_PortLock pl_locked pl_port pl_fd]. destruct f.
  - destruct (sys_open false port (ps_os s)) as [[fd o]|] eqn:Eo;
      [|unfold sys_open in Eo; by destruct (os_files (ps_os s) !! port)].
    destruct (decide (held s port)) as [Hh|Hh].
    + assert (sys_flock fd o = None) as Hf.
      { destruct (held_file _ _ _ Hi Hh) as (fd' & i & Hp & Hfd & Hl). unfold sys_open in Eo. rewrite Hp in Eo.
        injection Eo as <- <-. unfold sys_flock. cbn. rewrite lookup_insert_eq, (Hl eq_refl).
        destruct (inv_fresh _ _ Hi) as [_ Hf2]. apply Hf2 in Hfd. destruct (Nat.eqb_spec fd' (os_next (ps_os s))); [lia|done]. }
      rewrite flock_fails by done. cbn. split_and!; try done. apply open_close with (1 := Hi) (2 := Eo). by left.
    + destruct tries as [|n]; cbn [flock_loop].
      * split_and!; try done. apply open_close with (1 := Hi) (2 := Eo). by right.
      * destruct (open_opened _ _ _ _ _ _ Hi Hh Eo) as [i Hop]. rewrite (flock_opened _ _ _ _ _ _ Hi Hop).
        split_and!; try done. by apply (inv_new_locked true).
  - destruct (os_files (ps_os s) !! port) as [i|] eqn:Ep.
    { rewrite (excl_fails _ _ _ i) by done. split_and!; try done. apply inv_new_free; try done. by left. }
    assert (¬ held s port) as Hh by (intros (fd & i & Hp & _)%(held_file _ _ _ Hi); congruence).
    destruct tries as [|n]; cbn [excl_loop].
    { split_and!; try done. apply inv_new_free; try done. by left. }
    change (pl_port (new_PortLock port)) with port. destruct (sys_open true port (ps_os s)) as [[fd o]|] eqn:Eo; [|unfold sys_open in Eo; by rewrite Ep in Eo].
    split_and!; try done. destruct (open_opened _ _ _ _ _ _ Hi Hh Eo) as [i Hop].
    pose proof (inv_new_locked false _ _ _ _ _ Hi Hh Hop) as Hn. by destruct o.
Qed.

(** Releasing takes the file, the descriptor and its lock away. *)
Lemma release_os f s id l fd i :
  ports_inv f s → ps_locks s !! id = Some l → pl_fd l = Some fd → os_fds (ps_os s) !! fd = Some i →
  release f l (ps_os s)
  = (new_PortLock (pl_port l), mkOs (delete (pl_port l) (os_files (ps_os s))) (delete fd (os_fds (ps_os s)))
                                    (delete i (os_flocks (ps_os s))) (os_next (ps_os s))).
Proof.
  intros Hi Hl Hfd Hf. unfold release. rewrite Hfd. unfold new_PortLock. f_equal.
  assert (∀ o, os_fds o !! fd = Some i → (∀ d, os_flocks o !! i = Some d → d = fd) →
    sys_unlock fd o = mkOs (os_files o) (os_fds o) (delete i (os_flocks o)) (os_next o)) as Hu.
  { intros o Ho Hd. unfold sys_unlock. rewrite Ho. case_bool_decide as Hb; [done|].
    assert (os_flocks o !! i = None) as Hn; [|destruct o; cbn in *; by rewrite delete_id].
    destruct (os_flocks o !! i) as [d|] eqn:E; [|done]. destruct Hb. by rewrite (Hd d). }
  assert (∀ d, os_flocks (ps_os s) !! i = Some d → d = fd) as Hd.
  { intros d Hd%(inv_flocks _ _ Hi). by apply (inv_fds _ _ Hi) with i. }
  unfold sys_unlink, sys_close. destruct f.
  - rewrite (Hu (ps_os s)) by done. rewrite Hu; [|done|intros d; cbn; by rewrite lookup_delete_eq]. cbn. by rewrite delete_delete_eq.
  - by rewrite (Hu (ps_os s)) by done.
Qed.

(** Releasing a lock leaves the others. *)
Lemma release_inv f s id l :
  ports_inv f s → ps_locks s !! id = Some l →
  let '(l', o) := release f l (ps_os s) in
  l' = new_PortLock (pl_port l) ∧ ports_inv f (mkPorts (<[id := l']> (ps_locks s)) (ps_next s) o).
Proof.
  intros Hi Hl. destruct (pl_fd l) as [fd|] eqn:Hfd.
  - destruct (lock_fd _ _ _ _ _ Hi Hl Hfd) as (Hk & i & Hf & Hp & _). rewrite (release_os _ _ _ _ _ _ Hi Hl Hfd Hf).
    split; [done|]. pose proof (inv_fresh _ _ Hi) as [Hf1 Hf2].
    split; cbn [ps_locks ps_os ps_next os_files os_fds os_flocks os_next].
    + intros id' l' [[<- <-]|[Hne Hl']]%lookup_insert_Some; [done|]. pose proof (inv_lock _ _ Hi _ _ Hl') as Ho.
      unfold lock_ok in *. destruct (pl_locked l') eqn:Hk'; [|done].
      destruct Ho as (fd' & i' & Hd' & Hi' & Hp' & Hx'). exists fd', i'. cbn [os_files os_fds os_flocks].
      assert (fd ≠ fd') by (intros <-; by apply Hne, (inv_owner _ _ Hi) with l l' fd).
      assert (i ≠ i') by (intros <-; by eapply (inv_fds _ _ Hi) in Hi'; [|exact Hf]).
      assert (pl_port l ≠ pl_port l') by (intros He; apply Hne; by apply (exclusive f s) with l l').
      rewrite !lookup_delete_ne by done. naive_solver.
    + intros id' l' [[<- <-]|[_ Hl']]%lookup_insert_Some; by eapply (inv_number _ _ Hi).
    + intros fd' i' [Hne Hd]%lookup_delete_Some. destruct (inv_owned _ _ Hi _ _ Hd) as (id' & l' & Hl' & Hf').
      exists id', l'. split; [|done]. rewrite lookup_insert_ne; [done|]. intros <-. congruence.
    + intros id1 id2 l1 l2 d [[<- <-]|[_ H1]]%lookup_insert_Some [[<- <-]|[_ H2]]%lookup_insert_Some; try done.
      by apply (inv_owner _ _ Hi).
    + intros fd1 fd2 j [_ H1]%lookup_delete_Some [_ H2]%lookup_delete_Some. by apply (inv_fds _ _ Hi) with j.
    + intros j d [Hne Hd]%lookup_delete_Some. apply (inv_flocks _ _ Hi) in Hd. rewrite lookup_delete_ne; [done|].
      intros <-. congruence.
    + intros p q j [_ H1]%lookup_delete_Some [_ H2]%lookup_delete_Some. by apply (inv_files _ _ Hi) with j.
    + split; [intros p j [_ Hp']%lookup_delete_Some; by apply Hf1 in Hp'|intros d j [_ Hd]%lookup_delete_Some; by apply Hf2].
  - unfold release. rewrite Hfd. pose proof (inv_lock _ _ Hi _ _ Hl) as Ho. unfold lock_ok in Ho.
    destruct (pl_locked l) eqn:Hk; [naive_solver|]. split; [destruct l; cbn in *; by subst|].
    rewrite insert_id by done. by destruct s.
Qed.

(** ** Handing out ports *)

(** Lock objects stay as they are; [ports] are locked in addition. *)
Definition extends (s s' : Ports) (port : option Z) : Prop :=
  (∀ id l, ps_locks s !! id = Some l → ps_locks s' !! id = Some l)
  ∧ ∀ p, held s' p ↔ held s p ∨ port = Some p.
Lemma extends_trans s1 s2 s3 x : extends s1 s2 None → extends s2 s3 x → extends s1 s3 x.
Proof. intros [H1 H2] [H3 H4]. split; [eauto|]. intros p. rewrite H4, H2. naive_solver. Qed.
Lemma extends_new f s l o :
  ports_inv f s →
  extends s (mkPorts (<[ps_next s := l]> (ps_locks s)) (S (ps_next s)) o)
    (if pl_locked l then Some (pl_port l) else None).
Proof.
  intros Hi. assert (∀ id l, ps_locks s !! id = Some l → id ≠ ps_next s) as Hne.
  { intros id l' Hl%(inv_number _ _ Hi). lia. }
  split; [intros id l' Hl; cbn; rewrite lookup_insert_ne; [done|]; by eapply not_eq_sym, Hne|]. intros p. unfold held. cbn. split.
  - intros (id & l' & [[<- <-]|[_ Hl]]%lookup_insert_Some & <- & Hk); [rewrite Hk; by right|]. left. by exists id, l'.
  - intros [(id & l' & Hl & Hp)|Hp].
    + exists id, l'. split; [|done]. rewrite lookup_insert_ne; [done|]. by eapply not_eq_sym, Hne.
    + destruct (pl_locked l) eqn:Hk; [|done]. injection Hp as <-. exists (ps_next s), l. by rewrite lookup_insert_eq.
Qed.

Lemma try_port_spec f bindable tries port s :
  ports_inv f s →
  let '(s', x) := try_port f true bindable tries port s in
  ports_inv f s' ∧ extends s s' ((λ _, port) <$> x)
  ∧ match x with
    | Some id => bindable port = true ∧ ¬ held s port
        ∧ ∃ l, ps_locks s' !! id = Some l ∧ pl_port l = port ∧ pl_locked l = true
    | None => f = true → tries ≠ O → held s port ∨ bindable port = false
    end.
Proof.
  intros Hi. unfold try_port. pose proof (acquire_spec f tries port s Hi) as Ha.
  destruct (acquire f true tries (new_PortLock port) (ps_os s)) as [[l o] ok]. destruct Ha as (Hp & Hk & Hn & Hh & Hok).
  pose proof (extends_new _ _ l o Hi) as He. rewrite Hk, Hp in He. destruct ok.
  - destruct (bindable port) eqn:Hb.
    + split; [done|]. split; [done|]. split; [done|]. split; [naive_solver|]. exists l. cbn. by rewrite lookup_insert_eq.
    + pose proof (release_inv _ _ (ps_next s) l Hn) as Hr. cbn [ps_locks ps_os ps_next] in Hr. rewrite lookup_insert_eq in Hr.
      destruct (release f l o) as [l' o']. destruct (Hr eq_refl) as [-> Hi']. rewrite insert_insert_eq in Hi'.
      split; [done|]. split; [|by right]. exact (extends_new _ _ (new_PortLock (pl_port l)) o' Hi).
  - split; [done|]. split; [exact He|]. intros Hf Ht. destruct (decide (held s port)) as [|Hno]; [by left|].
    by specialize (Hok Hf Ht Hno).
Qed.

Lemma try_ports_spec f bindable tries ports s :
  ports_inv f s →
  let '(s', x) := try_ports f true bindable tries ports s in
  ports_inv f s' ∧ extends s s' (fst <$> x)
  ∧ match x with
    | Some (port, id) => port ∈ ports ∧ bindable port = true ∧ ¬ held s port
        ∧ ∃ l, ps_locks s' !! id = Some l ∧ pl_port l = port ∧ pl_locked l = true
    | None => f = true → tries ≠ O → ∀ port, port ∈ ports → held s port ∨ bindable port = false
    end.
Proof.
  revert s. induction ports as [|port ports IH]; intros s Hi; cbn [try_ports].
  { split; [done|]. split; [|by intros _ _ port ?%not_elem_of_nil]. split; [done|]. naive_solver. }
  pose proof (try_port_spec f bindable tries port s Hi) as Ht.
  destruct (try_port f true bindable tries port s) as [s1 [id|]]; destruct Ht as (Hi1 & He1 & Hx1).
  - split; [done|]. split; [exact He1|]. split; [by left|]. exact Hx1.
  - specialize (IH s1 Hi1). destruct (try_ports f true bindable tries ports s1) as [s2 x]. destruct IH as (Hi2 & He2 & Hx2).
    split; [done|]. split; [by eapply extends_trans|]. destruct He1 as [_ Hh]. destruct x as [[p id]|].
    + destruct Hx2 as (Hin & Hb & Hno & Hl). split; [by right|]. split; [done|]. split; [|done].
      intros Hp. apply Hno, Hh. by left.
    + intros Hf Hn p [->|Hin]%elem_of_cons; [by apply Hx1|]. destruct (Hx2 Hf Hn p Hin) as [[|]%Hh|]; try done; by (left + right).
Qed.

Lemma randint_spec r a b n : randint r a b = Ok n → a ≤ n ≤ b.
Proof.
  unfold randint. destruct (Z.ltb_spec b a); [done|]. intros [= <-].
  pose proof (Z.mod_pos_bound r (b - a + 1) ltac:(lia)). lia.
Qed.
Lemma randints_spec rs a b l n : randints rs a b = Ok l → n ∈ l → a ≤ n ≤ b.
Proof.
  revert l. induction rs as [|r rs IH]; intros l; cbn; [by intros [= <-] ?%not_elem_of_nil|].
  destruct (randint r a b) eqn:E; [|done]. destruct (randints rs a b); [|done].
  intros [= <-] [->|Hin]%elem_of_cons; [by eapply randint_spec|by eapply IH].
Qed.
Lemma sequential_spec lo hi start n p :
  start + n ≤ hi → p ∈ sequential_ports lo hi start n ↔ start ≤ p < start + n.
Proof.
  intros Hs. unfold sequential_ports, py_range. rewrite list_elem_of_fmap. split.
  - intros (i & -> & Hi%elem_of_seqZ). destruct (Z.ltb_spec hi (start + i)); lia.
  - intros Hp. exists (p - start). rewrite elem_of_seqZ. split; [|lia]. destruct (Z.ltb_spec hi (start + (p - start))); lia.
Qed.

(** The uses of locks that hand out and give back ports. *)
Inductive PortOp :=
  | Find (min_port max_port max_attempts : Z) (bindable : Z → bool) (tries : nat) (rs : nat → Z) (r : Z)
  | Release (id : nat).
Definition port_op (f : bool) (s : Ports) (op : PortOp) : Ports :=
  match op with
  | Find lo hi n bindable tries rs r => (find_available_port_with_lock f true lo hi n bindable tries rs r s).1
  | Release id => release_lock f id s
  end.

Lemma find_spec f lo hi n bindable tries rs r s :
  ports_inv f s →
  let '(s', x) := find_available_port_with_lock f true lo hi n bindable tries rs r s in
  ports_inv f s' ∧ extends s s' (match x with Ok (Some (port, _)) => Some port | _ => None end)
  ∧ match x with
    | Ok (Some (port, id)) => lo ≤ port ≤ hi ∧ bindable port = true ∧ ¬ held s port
        ∧ ∃ l, ps_locks s' !! id = Some l ∧ pl_port l = port ∧ pl_locked l = true
    | Ok None => f = true → tries ≠ O → ∃ start, let k := n - Z.min (n / 2) 10 in
        lo ≤ start ≤ hi - k ∧ ∀ port, start ≤ port < start + k → held s port ∨ bindable port = false
    | Raise e => e = ValueError "empty range in randrange"
    end.
Proof.
  intros Hi. unfold find_available_port_with_lock. assert (extends s s None) as Hs by (split; naive_solver).
  destruct (randints _ lo hi) as [ports|e] eqn:Er.
  2:{ split; [done|]. split; [done|]. revert Er. generalize (rs <$> seq 0 (Z.to_nat (Z.min (n / 2) 10))). intros l.
      induction l as [|a l IH]; cbn; [done|]. unfold randint. destruct (hi <? lo); [naive_solver|].
      destruct (randints l lo hi); naive_solver. }
  pose proof (try_ports_spec f bindable tries ports s Hi) as H1.
  destruct (try_ports f true bindable tries ports s) as [s1 [[port id]|]]; destruct H1 as (Hi1 & He1 & Hx1).
  { split; [done|]. split; [done|]. destruct Hx1 as [Hin Hx]. split; [by eapply randints_spec|exact Hx]. }
  set (k := n - Z.min (n / 2) 10). destruct (randint r lo (hi - k)) as [start|e] eqn:E2.
  2:{ split; [done|]. split; [done|]. unfold randint in E2. destruct (_ <? _); naive_solver. }
  apply randint_spec in E2. pose proof (try_ports_spec f bindable tries (sequential_ports lo hi start k) s1 Hi1) as H2.
  destruct (try_ports f true bindable tries _ s1) as [s2 x]. destruct H2 as (Hi2 & He2 & Hx2).
  split; [done|]. destruct He1 as [Hl1 Hh1]. destruct x as [[port id]|].
  - split; [by apply extends_trans with s1|]. destruct Hx2 as (Hin & Hb & Hno & Hl).
    apply sequential_spec in Hin; [|lia]. split; [lia|]. split; [done|]. split; [|done]. intros Hp. apply Hno, Hh1. by left.
  - split; [by apply extends_trans with s1|]. intros Hf Ht. exists start. split; [lia|]. intros port Hp.
    destruct (Hx2 Hf Ht port) as [[|]%Hh1|]; [apply sequential_spec; lia|by left|done|by right].
Qed.

Lemma port_ops_inv f ops s : ports_inv f s → ports_inv f (foldl (port_op f) s ops).
Proof.
  revert s. induction ops as [|op ops IH]; intros s Hi; [done|]. apply IH. destruct op as [lo hi n b t rs r|id]; cbn.
  - pose proof (find_spec f lo hi n b t rs r s Hi) as Hs. destruct (find_available_port_with_lock _ _ _ _ _ _ _ _ _ s). apply Hs.
  - unfold release_lock. destruct (ps_locks s !! id) as [l|] eqn:E; [|done]. pose proof (release_inv f s id l Hi E) as Hr.
    destruct (release f l (ps_os s)). apply Hr.
Qed.

(** No lock exists; files of locks may be left over. *)
Definition no_locks (files : gmap Z nat) (n : nat) : Ports := mkPorts ∅ O (mkOs files ∅ ∅ n).

(** C39 Ports are handed out once: after any sequence of searches for a port and releases
    (each of them as a whole, in a directory that can be written), starting with any files
    of locks left over, with [fcntl] or with the fallback without it, a port that is found
    lies in the range, can be bound, was not held, and is now held by the lock that comes
    with it, while all other locks are as before; no two locks of the same port are held.
    With [fcntl], and with at least one try per lock, a search that finds nothing has found
    every port of its sequential part held or not to be bound (on the fallback a file left
    over is enough to refuse a port). *)
Theorem ports_handed_out_once f ops files n lo hi attempts bindable tries rs r :
  (∀ p q i, files !! p = Some i → files !! q = Some i → p = q) → (∀ p i, files !! p = Some i → (i < n)%nat) →
  let s := foldl (port_op f) (no_locks files n) ops in
  let '(s', x) := find_available_port_with_lock f true lo hi attempts bindable tries rs r s in
  (∀ id1 id2 l1 l2, ps_locks s' !! id1 = Some l1 → ps_locks s' !! id2 = Some l2 →
     pl_locked l1 = true → pl_locked l2 = true → pl_port l1 = pl_port l2 → id1 = id2)
  ∧ extends s s' (match x with Ok (Some (port, _)) => Some port | _ => None end)
  ∧ match x with
    | Ok (Some (port, id)) => lo ≤ port ≤ hi ∧ bindable port = true ∧ ¬ held s port
        ∧ ∃ l, ps_locks s' !! id = Some l ∧ pl_port l = port ∧ pl_locked l = true
    | Ok None => f = true → tries ≠ O → ∃ start, let k := attempts - Z.min (attempts / 2) 10 in
        lo ≤ start ≤ hi - k ∧ ∀ port, start ≤ port < start + k → held s port ∨ bindable port = false
    | Raise e => e = ValueError "empty range in randrange"
    end.
Proof.
  intros Hinj Hn s. assert (ports_inv f (no_locks files n)) as H0.
  { split; cbn; [intros *; by rewrite lookup_empty..|exact Hinj|]. split; [exact Hn|]. intros *. by rewrite lookup_empty. }
  pose proof (port_ops_inv f ops _ H0) as Hi. fold s in Hi.
  pose proof (find_spec f lo hi attempts bindable tries rs r s Hi) as Hf.
  destruct (find_available_port_with_lock f true lo hi attempts bindable tries rs r s) as [s' x].
  destruct Hf as (Hi' & Hx). split; [|exact Hx]. intros id1 id2 l1 l2. apply (exclusive f s' _ _ _ _ Hi').
Qed.

Module port_lock_example.
(** Two searches in a range with two ports: the second gets the other port, whatever
    numbers are drawn; after a release the port can be found again. *)
Definition search (r : Z) : PortOp := Find 30000 30004 4 (λ p, p <? 30002) 1 (λ _, r) 0.
Definition after (ops : list PortOp) : Ports := foldl (port_op true) (no_locks {[30000 := 1%nat]} 5) ops.

Lemma ports_handed_out_once_witness :
  let '(s', x) := find_available_port_with_lock true true 30000 30004 4 (λ p, p <? 30002) 1 (λ _, 0) 0 (after [search 0]) in
  x = Ok (Some (30001, 4%nat)) ∧ ¬ held (after [search 0]) 30001 ∧ held s' 30001 ∧ held s' 30000.
Proof.
  pose proof (ports_handed_out_once true [search 0] {[30000 := 1%nat]} 5 30000 30004 4 (λ p, p <? 30002) 1 (λ _, 0) 0) as H.
  cbv zeta in H. fold (after [search 0]) in H. assert (held (after [search 0]) 30000) as H0.
  { eexists 0%nat, _. split; [vm_compute; reflexivity|]. vm_compute. done. }
  destruct (find_available_port_with_lock true true 30000 30004 4 (λ p, p <? 30002) 1 (λ _, 0) 0 (after [search 0])) as [s' x] eqn:E.
  assert (x = Ok (Some (30001, 4%nat))) as -> by (apply (f_equal snd) in E; vm_compute in E; congruence).
  destruct H as (_ & [_ Hh] & _ & _ & Hno & _).
  { intros p q i [<- _]%lookup_singleton_Some [<- _]%lookup_singleton_Some. done. }
  { intros p i [_ <-]%lookup_singleton_Some. lia. }
  split; [done|]. split; [done|]. rewrite !Hh. split; [by right|by left].
Defined.

(** When a lock is released while another object waits for it, the waiting object locks the
    file that is removed, and a third one creates a new file: both hold the port's lock. *)
Example release_while_waiting :
  let '(a, o, _) := acquire true true 1 (new_PortLock 30000) (mkOs ∅ ∅ ∅ 5) in
  match sys_open false 30000 o with
  | None => False
  | Some (fd, o) =>
      let o := (release true a o).2 in
      let '(b, o, _) := flock_loop true 1 fd (mkPortLock 30000 (Some fd) false) o in
      let '(c, o, _) := acquire true true 1 (new_PortLock 30000) o in
      pl_locked b = true ∧ pl_locked c = true
  end.
Proof. vm_compute. done. Qed.

(** Removing the old file of a lock that is held lets another one acquire it. *)
Example cleanup_of_held_lock :
  let '(a, o, _) := acquire true true 1 (new_PortLock 30000) (mkOs ∅ ∅ ∅ 5) in
  let o := (cleanup_stale_locks (λ _, true) o).1 in
  let '(b, o, _) := acquire true true 1 (new_PortLock 30000) o in
  pl_locked a = true ∧ pl_locked b = true.
Proof. vm_compute. done. Qed.

(** When the file cannot be written, the lock is not acquired, but the next call says so. *)
Example failed_write_locks :
  let '(a, o, ok) := acquire true false 2 (new_PortLock 30000) (mkOs ∅ ∅ ∅ 5) in
  let '(_, _, again) := acquire true false 2 a o in
  ok = false ∧ os_flocks o = ∅ ∧ again = true.
Proof. vm_compute. done. Qed.
End port_lock_example.
