(* ===== verification/ConversationManager.v ===== *)
(** * The conversation manager of a single server

    Models [server/conversation_manager/standalone_conversation_manager.py] and
    [utils/conversation_summary.py]: the running sessions with their connections, the limit
    of concurrent conversations, the conversations that are attached to and detached from,
    the clean-up, and the metadata that follow the events.  Sessions and conversations are
    objects with a number; what the manager asks of a session (its state, its runtime) is
    a field.  Sockets, runtimes and the closing of sessions appear as effects.  Parameters:
    the conversation store's [get_metadata], the order in which a Python set is iterated,
    and what the outside answers (whether a session exists, whether a runtime connects). *)

From S2P Require Import Prelude PyValue Metrics Schema Actions Observations Events FileStore EventStore Controller Secrets ConversationStore.
Local Open Scope Z_scope.
Local Open Scope py_scope.

(** A [WebSession] and what the manager asks of its agent session: the state of the
    controller, when it was started, and the runtime, with [runtime_initialized].
    [ws_last_active_ts] is in seconds, the times are in microseconds. *)
Record WebSession := mkWebSession {
  ws_id : nat;
  ws_sid : string;
  ws_user_id : option string;
  ws_last_active_ts : Z;
  ws_controller : option AgentState;
  ws_started_at : Z;
  ws_runtime : option bool;
}.
Definition seconds (n : Z) : Z := n * 1000000.
Definition WAIT_TIME_BEFORE_CLOSE : Z := 90.
(** [AgentSession.get_state] *)
Definition get_state (now : Z) (s : WebSession) : option AgentState :=
  match ws_controller s with
  | Some st => Some st
  | None => if ws_started_at s + seconds WAIT_TIME_BEFORE_CLOSE <? now then Some ERROR else None
  end.
Record ServerConversation := mkServerConversation {
  sc_id : nat;
  sc_sid : string;
  sc_attach_to_existing : bool;
}.
#[export] Instance ServerConversation_eq_dec : EqDecision ServerConversation.
Proof. solve_decision. Defined.

Inductive Effect :=
  | Emit (room : string) (data : json)
  | EnterRoom (connection_id room : string)
  | SioDisconnect (connection_id : string)
  | InitializeAgent (session : nat)
  | SessionClose (session : nat)
  | Dispatch (session : nat) (data : json)
  | CloseConversation (conversation : nat).
#[export] Instance Effect_eq_dec : EqDecision Effect.
Proof. solve_decision. Defined.

Record Manager := mkManager {
  mg_loops : list (string * WebSession);
  mg_connections : list (string * string);
  mg_active : list (string * (ServerConversation * Z));
  mg_detached : list (string * (ServerConversation * Z));
  mg_next : nat;
  mg_effects : list Effect;
}.
Definition new_Manager : Manager := mkManager [] [] [] [] O [].
Definition set_loops l (m : Manager) := mkManager l (mg_connections m) (mg_active m) (mg_detached m) (mg_next m) (mg_effects m).
Definition set_connections c (m : Manager) := mkManager (mg_loops m) c (mg_active m) (mg_detached m) (mg_next m) (mg_effects m).
Definition set_active a (m : Manager) := mkManager (mg_loops m) (mg_connections m) a (mg_detached m) (mg_next m) (mg_effects m).
Definition set_detached d (m : Manager) := mkManager (mg_loops m) (mg_connections m) (mg_active m) d (mg_next m) (mg_effects m).
Definition effect (e : Effect) (m : Manager) :=
  mkManager (mg_loops m) (mg_connections m) (mg_active m) (mg_detached m) (mg_next m) (mg_effects m ++ [e]).
(** A new object gets the next number. *)
Definition fresh_object (m : Manager) : nat * Manager :=
  (mg_next m, mkManager (mg_loops m) (mg_connections m) (mg_active m) (mg_detached m) (S (mg_next m)) (mg_effects m)).

Definition ROOM_KEY (sid : string) : string := "room:" +:+ sid.

(** ** Attaching to a conversation and detaching from it *)

(** [conversation.disconnect()] *)
Definition disconnect (c : ServerConversation) (m : Manager) : Manager :=
  if sc_attach_to_existing c then m else effect (CloseConversation (sc_id c)) m.

Definition is_unavailable (e : py_exc) : bool :=
  match e with OtherError cls _ => String.eqb cls "AgentRuntimeUnavailableError" | _ => false end.

(** [exists_] is what [session_exists] says, [connects] what connecting a new runtime does. *)
Definition attach_to_conversation (exists_ : bool) (connects : result unit) (sid : string) :
    pyM Manager (option ServerConversation) :=
  if negb exists_ then pret None
  else
    let* m := pget in
    match dget sid (mg_active m) with
    | Some (c, count) => pmodify (set_active (dset sid (c, count + 1) (mg_active m))) ;;; pret (Some c)
    | None =>
        match dget sid (mg_detached m) with
        | Some (c, _) =>
            pmodify (set_detached (ddel sid (mg_detached m))) ;;;
            pmodify (set_active (dset sid (c, 1) (mg_active m))) ;;; pret (Some c)
        | None =>
            let has_runtime := match dget sid (mg_loops m) with
                               | Some s => bool_decide (is_Some (ws_runtime s)) | None => false end in
            let '(id, m) := fresh_object m in
            let c := mkServerConversation id sid has_runtime in
            pmodify (λ _, m) ;;;
            match (if sc_attach_to_existing c then Ok tt else connects) with
            | Ok _ => pmodify (set_active (dset sid (c, 1) (mg_active m))) ;;; pret (Some c)
            | Raise e => if is_unavailable e then pmodify (disconnect c) ;;; pret None else praise e
            end
        end
    end.

Definition detach_from_conversation (c : ServerConversation) (now : Z) (m : Manager) : Manager :=
  match dget (sc_sid c) (mg_active m) with
  | Some (conv, count) =>
      if 1 <? count then set_active (dset (sc_sid c) (conv, count - 1) (mg_active m)) m
      else set_detached (dset (sc_sid c) (c, now) (mg_detached m)) (set_active (ddel (sc_sid c) (mg_active m)) m)
  | None => m
  end.

(** ** Sessions *)

Definition get_running_agent_loops (user_id : option string) (filter_to_sids : option (list string)) (m : Manager) :
    list string :=
  let items := match filter_to_sids with
               | Some f => py_filter (λ it, existsb (String.eqb it.1) f) (mg_loops m)
               | None => mg_loops m
               end in
  let items := match truthy_str user_id with
               | Some u => py_filter (λ it, bool_decide (ws_user_id it.2 = Some u)) items
               | None => items
               end in
  items.*1.

Definition get_connections (user_id : option string) (filter_to_sids : option (list string)) (m : Manager) :
    list (string * string) :=
  let connections := match filter_to_sids with
                     | Some f => py_filter (λ it, existsb (String.eqb it.2) f) (mg_connections m)
                     | None => mg_connections m
                     end in
  match truthy_str user_id with
  | Some u => py_filter (λ it, match dget it.2 (mg_loops m) with
                               | Some s => bool_decide (ws_user_id s = Some u) | None => false end) connections
  | None => connections
  end.

(** [_close_session] *)
Definition close_connection (m : Manager) (connection_id : string) : Manager :=
  let m := effect (SioDisconnect connection_id) m in set_connections (ddel connection_id (mg_connections m)) m.
Definition do_close_session (sid : string) (m : Manager) : Manager :=
  let ids := (py_filter (λ it, String.eqb sid it.2) (mg_connections m)).*1 in
  let m := foldl close_connection m ids in
  match dget sid (mg_loops m) with
  | None => m
  | Some s => effect (SessionClose (ws_id s)) (set_loops (ddel sid (mg_loops m)) m)
  end.
Definition close_session (sid : string) (m : Manager) : Manager :=
  match dget sid (mg_loops m) with Some _ => do_close_session sid m | None => m end.

Definition TOO_MANY : json :=
  JDict [("status_update", JBool true); ("type", JStr "error"); ("id", JStr "AGENT_ERROR$TOO_MANY_CONVERSATIONS");
         ("message", JStr "Too many conversations at once. If you are still using this one, try reactivating it by prompting the agent to continue")].

(** [wait_all]: the results in order, or what was raised *)
Definition wait_all {A} (l : list (result A)) : result (list A) :=
  match omap (λ r, match r with Raise e => Some e | Ok _ => None end) l with
  | [] => Ok (omap (λ r, match r with Ok a => Some a | Raise _ => None end) l)
  | [e] => Raise e
  | es => Raise (OtherError "AsyncException" (str_join nl (exc_str <$> es)))
  end.

Section starting.
Context `{Dates}.
(** [d.timestamp()], up to the order *)
Variable timestamp : DateTime → Z.
(** [conversation_store.get_metadata] of the user's store *)
Variable get_metadata : option string → string → result ConversationMetadata.
(** The order in which a set of strings is iterated *)
Variable set_order : list string → list string.
Variable max_concurrent_conversations : Z.

Definition last_updated_at_key (c : ConversationMetadata) : Z := from_option timestamp 0 (cm_last_updated_at c).

(** Until the first session is closed: the conversations of the user, latest first; [None]
    if there are not too many. *)
Definition start_check (user_id : option string) (m : Manager) : result (option (list ConversationMetadata)) :=
  let response_ids := get_running_agent_loops user_id None m in
  if max_concurrent_conversations <=? py_len response_ids then
    let? conversations := wait_all (get_metadata user_id <$> set_order response_ids) in
    Ok (Some (sort_key_by (λ a b, last_updated_at_key b <? last_updated_at_key a) conversations))
  else Ok None.
(** The loop that closes the oldest; the conversations are in reverse. *)
Fixpoint close_oldest (conversations : list ConversationMetadata) : pyM Manager unit :=
  if max_concurrent_conversations <=? py_len conversations then
    match conversations with
    | [] => praise IndexError
    | c :: rest =>
        pmodify (effect (Emit (ROOM_KEY (cm_conversation_id c)) TOO_MANY)) ;;;
        pmodify (close_session (cm_conversation_id c)) ;;; close_oldest rest
    end
  else pret tt.
(** The rest: the new session, active [now]. *)
Definition start_finish (sid : string) (user_id : option string) (now : Z) : pyM Manager WebSession :=
  let* m := pget in
  let '(id, m) := fresh_object m in
  let s := mkWebSession id sid user_id (now / seconds 1) None 0 None in
  pmodify (λ _, effect (InitializeAgent id) (set_loops (dset sid s (mg_loops m)) m)) ;;; pret s.

Definition start_agent_loop (sid : string) (user_id : option string) (now : Z) : pyM Manager WebSession :=
  let* m := pget in
  let* conversations := plift (start_check user_id m) in
  (match conversations with Some l => close_oldest (reverse l) | None => pret tt end) ;;;
  start_finish sid user_id now.

Definition maybe_start_agent_loop (sid : string) (user_id : option string) (now : Z) : pyM Manager WebSession :=
  let* m := pget in
  match dget sid (mg_loops m) with
  | Some s => pret s
  | None => start_agent_loop sid user_id now
  end.

Definition join_conversation (sid connection_id : string) (user_id : option string) (now : Z) : pyM Manager WebSession :=
  pmodify (effect (EnterRoom connection_id (ROOM_KEY sid))) ;;;
  pmodify (λ m, set_connections (dset connection_id sid (mg_connections m)) m) ;;;
  maybe_start_agent_loop sid user_id now.
End starting.

Definition send_event_to_conversation (sid : string) (data : json) : pyM Manager unit :=
  let* m := pget in
  match dget sid (mg_loops m) with
  | Some s => pmodify (effect (Dispatch (ws_id s) data))
  | None => praise (RuntimeError ("no_conversation:" +:+ sid))
  end.
Definition send_to_event_stream (connection_id : string) (data : json) : pyM Manager unit :=
  let* m := pget in
  match truthy_str (dget connection_id (mg_connections m)) with
  | Some sid => send_event_to_conversation sid data
  | None => praise (RuntimeError ("no_connected_session:" +:+ connection_id))
  end.
Definition disconnect_from_session (connection_id : string) (m : Manager) : Manager :=
  set_connections (ddel connection_id (mg_connections m)) m.

Inductive ConversationStatus := CS_STARTING | CS_RUNNING | CS_STOPPED | CS_ARCHIVED | CS_ERROR.
Definition get_status_from_session (s : WebSession) : ConversationStatus :=
  match ws_runtime s with Some true => CS_RUNNING | _ => CS_STARTING end.
Definition get_conversation_url (sid : string) : string := "/api/conversations/" +:+ sid.
Definition agent_loop_info_from_session (s : WebSession) : string * string * ConversationStatus :=
  (ws_sid s, get_conversation_url (ws_sid s), get_status_from_session s).
Definition get_agent_loop_info (user_id : option string) (filter_to_sids : list string) (m : Manager) :
    list (string * string * ConversationStatus) :=
  agent_loop_info_from_session <$>
    py_filter (λ s, match truthy_str user_id with Some u => bool_decide (ws_user_id s = Some u) | None => true end
                    && match filter_to_sids with [] => true | f => existsb (String.eqb (ws_sid s)) f end)
      (mg_loops m).*2.

(** ** The clean-up *)

(** [state not in [AgentState.RUNNING, None]] *)
Definition may_close (now : Z) (s : WebSession) : bool :=
  match get_state now s with None => false | Some st => negb (bool_decide (st = RUNNING)) end.
Definition disconnect_detached (m : Manager) : Manager :=
  foldl (λ m it, set_detached (ddel it.1 (mg_detached m)) (disconnect it.2.1 m)) m (mg_detached m).
(** The sessions that are closed, longest idle first *)
Definition sids_to_close (now close_delay : Z) (m : Manager) : list string :=
  let close_threshold := now - seconds close_delay in
  let running_loops := sort_key_by (λ a b, ws_last_active_ts a.2 <? ws_last_active_ts b.2) (mg_loops m) in
  let sid_to_close := (py_filter (λ it, (seconds (ws_last_active_ts it.2) <? close_threshold) && may_close now it.2) running_loops).*1 in
  let connected_sids := (get_connections None (Some sid_to_close) m).*2 in
  py_filter (λ sid, negb (existsb (String.eqb sid) connected_sids)) sid_to_close.
(** One turn of [_cleanup_stale]; [false]: the loop ends *)
Definition cleanup_stale (now close_delay : Z) (m : Manager) : Manager * bool :=
  let m := disconnect_detached m in
  if close_delay =? 0 then (m, false)
  else (foldl (λ m sid, do_close_session sid m) m (sids_to_close now close_delay m), true).
(** Its end when it is cancelled *)
Definition cleanup_cancelled (m : Manager) : Manager :=
  let m := set_detached [] (foldl (λ m it, disconnect it.2.1 m) m (mg_detached m)) in
  foldl (λ m sid, do_close_session sid m) m (mg_loops m).*1.

(** ** Titles *)

Definition is_user_message (e : Event) : option string :=
  match event_source e, ev_body e with
  | Some USER, EAction (AMessage a) => if String.eqb (str_strip (ma_content a)) "" then None else Some (ma_content a)
  | _, _ => None
  end.

Definition TITLE_SYSTEM : string := "You are a helpful assistant that generates concise, descriptive titles for conversations with OpenHands. OpenHands is a helpful AI agent that can interact with a computer to solve tasks using bash terminal, file editor, and browser. Given a user message (which may be truncated), generate a concise, descriptive title for the conversation. Return only the title, with no additional text, quotes, or explanations.".
Definition title_request (message : string) (max_length : Z) : list dict :=
  let truncated_message := if 1000 <? str_len message then str_take 1000 message +:+ "...(truncated)" else message in
  [[("role", JStr "system"); ("content", JStr TITLE_SYSTEM)];
   [("role", JStr "user");
    ("content", JStr ("Generate a title (maximum " +:+ pretty max_length +:+ " characters) for a conversation that starts with this message:"
                      +:+ nl +:+ nl +:+ truncated_message))]].

(** [complete] is the registry's completion for the configuration of the LLM. *)
Definition generate_conversation_title (complete : list dict → result string) (message : string) (max_length : Z) : option string :=
  if String.eqb (str_strip message) "" then None
  else match complete (title_request message max_length) with
       | Ok title => Some (if max_length <? str_len title then str_take (max_length - 3) title +:+ "..." else title)
       | Raise _ => None
       end.
Definition get_default_conversation_title (conversation_id : string) : string := "Conversation " +:+ str_take 5 conversation_id.

(** [complete]: [None] when the settings name no model; the events are what the search
    yields until it ends or raises. *)
Definition auto_generate_title (complete : option (list dict → result string)) (events : list Event) : string :=
  match head (omap is_user_message events) with
  | None => ""
  | Some message =>
      match truthy_str (complete ≫= λ c, generate_conversation_title c message 50) with
      | Some title => title
      | None =>
          let message := str_strip message in
          str_take 30 message +:+ (if 30 <? str_len message then "..." else "")
      end
  end.

(** ** Following the events *)

Definition GIT_COMMANDS : list string :=
  ["git checkout"; "git switch"; "git merge"; "git rebase"; "git reset"; "git branch"].
Definition is_git_related_event (e : Event) : bool :=
  match ev_body e with
  | EObservation o =>
      match obs_kind o with
      | OCmdOutput c => (com_exit_code (coo_metadata c) =? 0)
                        && existsb (λ g, str_contains g (str_lower (coo_command c))) GIT_COMMANDS
      | _ => false
      end
  | _ => false
  end.
Definition should_update_branch (current_branch new_branch : option string) : bool :=
  match new_branch with None => false | Some _ => negb (bool_decide (new_branch = current_branch)) end.
(** [selected_repository.split('/')[-1]] *)
Definition primary_repo_path (selected_repository : option string) : option string :=
  match truthy_str selected_repository with Some r => last (str_split "/" r) | None => None end.
Definition is_space (s : string) : bool := negb (String.eqb s "") && String.eqb (str_strip s) "".

Section following.
Context `{Dates} `{Platform} `{!MetadataAdapter} {F : Type} `{FileStore F}.

Definition with_update (updated : option DateTime) (cost : float) (prompt completion total : Z) (branch title : option string)
    (m : ConversationMetadata) : ConversationMetadata :=
  mkConversationMetadata (cm_conversation_id m) (cm_selected_repository m) (cm_user_id m) branch
    (cm_git_provider m) title updated (cm_trigger m) (cm_pr_number m) (cm_created_at m) (cm_llm_model m)
    cost prompt completion total (cm_sandbox_id m) (cm_conversation_version m) (cm_public m).
Definition set_updated (now : DateTime) (m : ConversationMetadata) : ConversationMetadata :=
  with_update (Some now) (cm_accumulated_cost m) (cm_prompt_tokens m) (cm_completion_tokens m) (cm_total_tokens m)
    (cm_selected_branch m) (cm_title m) m.
Definition set_usage (x : Metrics) (m : ConversationMetadata) : ConversationMetadata :=
  let u := m_accumulated_token_usage x in
  with_update (cm_last_updated_at m) (m_accumulated_cost x) (prompt_tokens u) (completion_tokens u)
    (prompt_tokens u + completion_tokens u) (cm_selected_branch m) (cm_title m) m.
Definition set_branch (branch : option string) (m : ConversationMetadata) : ConversationMetadata :=
  with_update (cm_last_updated_at m) (cm_accumulated_cost m) (cm_prompt_tokens m) (cm_completion_tokens m) (cm_total_tokens m)
    branch (cm_title m) m.
Definition set_title (title : string) (m : ConversationMetadata) : ConversationMetadata :=
  with_update (cm_last_updated_at m) (cm_accumulated_cost m) (cm_prompt_tokens m) (cm_completion_tokens m) (cm_total_tokens m)
    (cm_selected_branch m) (Some title) m.

(** The branch of the workspace, asked of the runtime of the conversation's session. *)
Definition update_conversation_branch (workspace_branch : option string → result (option string)) (mg : Manager)
    (m : ConversationMetadata) : ConversationMetadata :=
  match dget (cm_conversation_id m) (mg_loops mg) ≫= ws_runtime with
  | None => m
  | Some _ =>
      match workspace_branch (primary_repo_path (cm_selected_repository m)) with
      | Ok branch => if should_update_branch (cm_selected_branch m) branch then set_branch branch m else m
      | Raise _ => m
      end
  end.

Definition title_update (conversation_id title : string) : json :=
  JDict [("status_update", JBool true); ("type", JStr "info"); ("message", JStr conversation_id);
         ("conversation_title", JStr title)].

(** On the manager and the file store; [title] is what [auto_generate_title] gives. *)
Definition update_conversation_for_event (now : DateTime) (workspace_branch : option string → result (option string))
    (title : string) (conversation_id : string) (event : option Event) : pyM (Manager * F) unit :=
  let* s := pget in
  let* m := plift (get_metadata conversation_id s.2) in
  let m := set_updated now m in
  let m := match event ≫= event_llm_metrics with Some x => set_usage x m | None => m end in
  let m := match event with
           | Some e => if is_git_related_event e then update_conversation_branch workspace_branch s.1 m else m
           | None => m
           end in
  let default_title := get_default_conversation_title conversation_id in
  let* m :=
    if bool_decide (cm_title m = Some default_title) then
      if negb (String.eqb title "") && negb (is_space title) then
        pmodify (λ s, (effect (Emit (ROOM_KEY conversation_id) (title_update conversation_id title)) s.1, s.2)) ;;;
        pret (set_title title m)
      else pret (set_title default_title m)
    else pret m in
  λ s, match save_metadata m s.2 with (f, r) => ((s.1, f), r) end.
End following.
