(* ===== verification/ConversationManagerProps.v ===== *)
(** * Properties of the conversation manager

    Sequences of operations, each as a whole: the limit of conversations, the life of
    sessions, and the conversations in use. *)

From S2P Require Import Prelude PyValue Metrics Schema Actions Observations Events FileStore EventStore ExamplePlatform Controller Secrets ConversationStore ConversationManager.
Local Open Scope Z_scope.
Local Open Scope py_scope.

(** ** Lists and dictionaries *)

Lemma py_filter_ddel {V} (f : string * V → bool) k (d : list (string * V)) :
  py_filter f (ddel k d) = ddel k (py_filter f d).
Proof.
  induction d as [|[k' v] d IH]; simpl; [done|].
  destruct (String.eqb k k') eqn:E, (f (k', v)) eqn:Ef; simpl; rewrite ?Ef, ?E, IH; done.
Qed.
Lemma sublist_py_filter {A} (f : A → bool) l k : sublist l k → sublist (py_filter f l) (py_filter f k).
Proof. induction 1; simpl; [done| |]; case_match; done || by constructor. Qed.
Lemma sublist_ddel {V} k (d : list (string * V)) : sublist (ddel k d) d.
Proof. induction d as [|[k' v] d IH]; simpl; [done|]. destruct (String.eqb k k'); by constructor. Qed.
Lemma dget_in {V} k v (d : list (string * V)) : dget k d = Some v → (k, v) ∈ d.
Proof.
  induction d as [|[k' v'] d IH]; simpl; [done|]. destruct (String.eqb_spec k k') as [->|]; [intros [= ->]; by left|].
  intros ?%IH. by right.
Qed.
Lemma in_dget {V} k v (d : list (string * V)) : NoDup d.*1 → (k, v) ∈ d → dget k d = Some v.
Proof.
  induction d as [|[k' v'] d IH]; csimpl; [by intros _ ?%not_elem_of_nil|].
  intros [Hk Hd]%NoDup_cons [[= -> ->]|Hin]%elem_of_cons; [by rewrite String.eqb_refl|].
  destruct (String.eqb_spec k k') as [->|]; [|by apply IH]. destruct Hk. by apply (list_elem_of_fmap_2 fst) in Hin.
Qed.
Lemma dmem_none {V} k (d : list (string * V)) : dget k d = None → k ∉ d.*1.
Proof. intros Hd [v Hv]%dget_key. congruence. Qed.
Lemma NoDup_dset {V} k (v : V) d : NoDup d.*1 → NoDup (dset k v d).*1.
Proof.
  assert (∀ d : list (string * V), (dset k v d).*1 = if bool_decide (k ∈ d.*1) then d.*1 else d.*1 ++ [k]) as Hk.
  { induction d0 as [|[k' v'] d' IH]; csimpl; [done|]. destruct (String.eqb_spec k k') as [->|Hne]; csimpl.
    - rewrite bool_decide_eq_true_2; [done|by left].
    - rewrite IH. case_bool_decide as H1; case_bool_decide as H2; try done; exfalso; apply H1 || apply H2.
      + by right. + by apply elem_of_cons in H2 as [|]. }
  intros Hd. rewrite Hk. case_bool_decide; [done|]. apply NoDup_app. split; [done|]. split; [|apply NoDup_singleton].
  intros x Hx ->%list_elem_of_singleton. done.
Qed.

(** ** What the operations do to the sessions *)

Lemma close_connections_frame ids m :
  let m' := foldl close_connection m ids in
  mg_loops m' = mg_loops m ∧ mg_active m' = mg_active m ∧ mg_detached m' = mg_detached m ∧ mg_next m' = mg_next m
  ∧ mg_effects m' = mg_effects m ++ (SioDisconnect <$> ids)
  ∧ mg_connections m' = foldl (λ d k, ddel k d) (mg_connections m) ids.
Proof.
  revert m. induction ids as [|i ids IH]; intros m; simpl; [by rewrite app_nil_r|].
  destruct (IH (close_connection m i)) as (-> & -> & -> & -> & -> & ->). simpl. by rewrite <-app_assoc.
Qed.
Definition closes (sid : string) (m : Manager) : list Effect :=
  (SioDisconnect <$> (py_filter (λ it, String.eqb sid it.2) (mg_connections m)).*1)
  ++ match dget sid (mg_loops m) with Some s => [SessionClose (ws_id s)] | None => [] end.
Lemma do_close_session_frame sid m :
  let m' := do_close_session sid m in
  mg_loops m' = ddel sid (mg_loops m) ∧ mg_active m' = mg_active m ∧ mg_detached m' = mg_detached m ∧ mg_next m' = mg_next m
  ∧ mg_effects m' = mg_effects m ++ closes sid m.
Proof.
  unfold do_close_session, closes. set (ids := (py_filter _ (mg_connections m)).*1).
  destruct (close_connections_frame ids m) as (El & Ea & Ed & En & Ee & _). set (m1 := foldl close_connection m ids) in *.
  rewrite El. destruct (dget sid (mg_loops m)) as [s|] eqn:E; cbn.
  - by rewrite Ea, Ed, En, Ee, <-app_assoc.
  - rewrite El, Ea, Ed, En, Ee, app_nil_r. by rewrite ddel_none.
Qed.

(** ** The operations *)

(** What a session's own life changes *)
Definition progress (last : Z) (controller : option AgentState) (started_at : Z) (runtime : option bool) (s : WebSession) : WebSession :=
  mkWebSession (ws_id s) (ws_sid s) (ws_user_id s) last controller started_at runtime.

Inductive ManagerOp :=
  | Join (sid connection_id : string) (user_id : option string) (now : Z)
  | MaybeStart (sid : string) (user_id : option string) (now : Z)
  | Close (sid : string)
  | Disconnect (connection_id : string)
  | Attach (exists_ : bool) (connects : result unit) (sid : string)
  | Detach (handle : nat) (now : Z)
  | Cleanup (now close_delay : Z)
  | CleanupCancelled
  | Progress (sid : string) (last : Z) (controller : option AgentState) (started_at : Z) (runtime : option bool).

Section ops.
Context `{Dates}.
Variable timestamp : DateTime → Z.
Variable get_metadata : option string → string → result ConversationMetadata.
Variable set_order : list string → list string.
Variable limit : Z.

(** On the manager and the conversations that are in use: attached to and not yet detached
    from, in the order of attaching. *)
Definition manager_op (s : Manager * list ServerConversation) (op : ManagerOp) : Manager * list ServerConversation :=
  let '(m, used) := s in
  match op with
  | Join sid connection_id user_id now =>
      ((join_conversation timestamp get_metadata set_order limit sid connection_id user_id now m).1, used)
  | MaybeStart sid user_id now => ((maybe_start_agent_loop timestamp get_metadata set_order limit sid user_id now m).1, used)
  | Close sid => (close_session sid m, used)
  | Disconnect connection_id => (disconnect_from_session connection_id m, used)
  | Attach exists_ connects sid =>
      match attach_to_conversation exists_ connects sid m with
      | (m, Ok (Some c)) => (m, used ++ [c])
      | (m, _) => (m, used)
      end
  | Detach i now =>
      match used !! i with
      | Some c => (detach_from_conversation c now m, delete i used)
      | None => (m, used)
      end
  | Cleanup now close_delay => ((cleanup_stale now close_delay m).1, used)
  | CleanupCancelled => (cleanup_cancelled m, used)
  | Progress sid last controller started_at runtime =>
      (set_loops ((λ it, if String.eqb it.1 sid then (it.1, progress last controller started_at runtime it.2) else it)
                  <$> mg_loops m) m, used)
  end.

(** ** The invariant of sessions *)

(** How often the agent of a session was started, how often the session was closed, and
    whether it runs. *)
Definition count {A} (f : A → bool) (l : list A) : Z := py_len (py_filter f l).
Definition started (m : Manager) (id : nat) : Z := count (λ e, bool_decide (e = InitializeAgent id)) (mg_effects m).
Definition closed (m : Manager) (id : nat) : Z := count (λ e, bool_decide (e = SessionClose id)) (mg_effects m).
Definition runs (m : Manager) (id : nat) : Z := count (λ it, Nat.eqb (ws_id it.2) id) (mg_loops m).
Definition conversations_of (user : string) (m : Manager) : Z := py_len (get_running_agent_loops (Some user) None m).

Record sessions_inv (m : Manager) : Prop := {
  si_keys : NoDup (mg_loops m).*1;
  si_life : ∀ id, started m id = closed m id + runs m id;
  si_once : ∀ id, started m id ≤ 1;
  si_fresh : ∀ id, (mg_next m ≤ id)%nat → started m id = 0;
  si_limit : ∀ user, user ≠ "" → conversations_of user m ≤ limit;
}.

Lemma count_nonneg {A} (f : A → bool) l : 0 ≤ count f l.
Proof. unfold count, py_len. lia. Qed.
Lemma count_app {A} (f : A → bool) l k : count f (l ++ k) = count f l + count f k.
Proof. unfold count, py_len. rewrite py_filter_app, length_app. lia. Qed.
Lemma count_zero {A} (f : A → bool) l : Forall (λ a, f a = false) l → count f l = 0.
Proof. intros Hl. unfold count. rewrite py_filter_none; [done|]. by apply Forall_forall. Qed.
Lemma count_ddel {V} (f : string * V → bool) k v d :
  NoDup d.*1 → dget k d = Some v → count f d = count f (ddel k d) + bool_Z (f (k, v)).
Proof.
  induction d as [|[k' v'] d IH]; csimpl; [done|]. intros [Hk Hd]%NoDup_cons.
  destruct (String.eqb_spec k k') as [->|Hne].
  - intros [= ->]. rewrite ddel_none; [|by destruct (dget k' d) eqn:E; [apply dget_in, (list_elem_of_fmap_2 fst) in E|]].
    unfold count. simpl. destruct (f (k', v)); unfold py_len; simpl; lia.
  - intros Hv. specialize (IH Hd Hv). unfold count, py_len in *. simpl. destruct (f (k', v')); simpl; lia.
Qed.

(** A change of what the invariant does not depend on *)
Lemma sessions_inv_same m m' :
  sessions_inv m → mg_loops m' = mg_loops m → mg_next m' = mg_next m →
  (∃ l, mg_effects m' = mg_effects m ++ l ∧ Forall (λ e, match e with InitializeAgent _ | SessionClose _ => False | _ => True end) l) →
  sessions_inv m'.
Proof.
  intros [H1 H2 H3 H4 H5] El En (l & Ee & Hl).
  assert (∀ id, started m' id = started m id ∧ closed m' id = closed m id ∧ runs m' id = runs m id) as Hs.
  { intros id. unfold started, closed, runs. rewrite El, Ee, !count_app. split_and!; [| |done];
      rewrite (count_zero _ l); try lia; eapply Forall_impl; try exact Hl; intros []; done. }
  split; rewrite ?El, ?En; try done.
  - intros id. destruct (Hs id) as (-> & -> & ->). done.
  - intros id. destruct (Hs id) as (-> & _). done.
  - intros id. destruct (Hs id) as (-> & _). apply H4.
  - unfold conversations_of, get_running_agent_loops in *. by rewrite El.
Qed.

Lemma running_sublist user m m' :
  sublist (mg_loops m') (mg_loops m) → py_len (get_running_agent_loops user None m') ≤ py_len (get_running_agent_loops user None m).
Proof.
  intros Hs. unfold get_running_agent_loops, py_len. rewrite !length_fmap.
  destruct (truthy_str user); [|by apply inj_le, sublist_length].
  by apply inj_le, sublist_length, sublist_py_filter.
Qed.
Lemma do_close_session_inv sid m : sessions_inv m → sessions_inv (do_close_session sid m).
Proof.
  intros [H1 H2 H3 H4 H5]. destruct (do_close_session_frame sid m) as (El & _ & _ & En & Ee).
  set (m' := do_close_session sid m) in *.
  assert (∀ id, count (λ e, bool_decide (e = InitializeAgent id)) (closes sid m) = 0) as Hc0.
  { intros id. unfold closes. apply count_zero, Forall_app. split.
    - apply Forall_fmap, Forall_true. done.
    - destruct (dget sid (mg_loops m)); [|done]. by constructor. }
  assert (∀ id, started m' id = started m id) as Hs.
  { intros id. unfold started. by rewrite Ee, count_app, Hc0, Z.add_0_r. }
  assert (∀ id, closed m' id + runs m' id = closed m id + runs m id) as Hcr.
  { intros id. unfold closed, runs. rewrite Ee, El, count_app. unfold closes. rewrite count_app.
    rewrite (count_zero _ (_ <$> _)) by (apply Forall_fmap, Forall_true; done).
    destruct (dget sid (mg_loops m)) as [s|] eqn:E; [|rewrite ddel_none by done; change (count _ []) with 0; lia].
    rewrite (count_ddel _ _ _ _ H1 E). unfold count at 2, bool_Z. simpl.
    destruct (Nat.eqb_spec (ws_id s) id) as [<-|Hne]; [rewrite bool_decide_eq_true_2 by done|rewrite bool_decide_eq_false_2 by congruence];
      unfold py_len; simpl; lia. }
  split; rewrite ?En.
  - rewrite El. eapply sublist_NoDup; [exact H1|]. apply fmap_sublist, sublist_ddel.
  - intros id. by rewrite Hs, Hcr.
  - intros id. by rewrite Hs.
  - intros id. rewrite Hs. apply H4.
  - intros user Hu. etrans; [|by apply (H5 user)]. apply running_sublist. rewrite El. apply sublist_ddel.
Qed.
Lemma close_session_inv sid m : sessions_inv m → sessions_inv (close_session sid m).
Proof. unfold close_session. destruct (dget sid (mg_loops m)); [apply do_close_session_inv|done]. Qed.
Lemma close_all_inv sids m : sessions_inv m → sessions_inv (foldl (λ m sid, do_close_session sid m) m sids).
Proof. revert m. induction sids as [|x l IH]; intros m Hm; [done|]. by apply IH, do_close_session_inv. Qed.

(** ** Starting a session *)

Lemma wait_all_ok {A} (l : list (result A)) k : wait_all l = Ok k → l = Ok <$> k.
Proof.
  unfold wait_all. destruct (omap _ l) as [|e [|]] eqn:E; try done. intros [= <-].
  induction l as [|[a|e] l IH]; simpl in *; [done| |done]. f_equal. by apply IH.
Qed.

(** What the conversation store says of a conversation is about it. *)
Hypothesis metadata_id : ∀ user sid c, get_metadata user sid = Ok c → cm_conversation_id c = sid.
Hypothesis set_order_perm : ∀ l, set_order l ≡ₚ l.

Lemma start_check_ids user m l :
  start_check timestamp get_metadata set_order limit user m = Ok (Some l) →
  cm_conversation_id <$> l ≡ₚ get_running_agent_loops user None m.
Proof using metadata_id set_order_perm.
  unfold start_check. destruct (limit <=? _); [|done]. destruct (wait_all _) as [cs|] eqn:E; [|done]. simpl. intros [= <-].
  rewrite sort_key_perm. apply wait_all_ok in E. rewrite <-(set_order_perm (get_running_agent_loops user None m)).
  revert cs E. induction (set_order (get_running_agent_loops user None m)) as [|x ids IH]; intros [|c cs]; try done.
  intros [= Hx Hl]. csimpl. rewrite (metadata_id _ _ _ Hx). f_equiv. by apply IH.
Qed.

Lemma running_close user sid m :
  get_running_agent_loops user None (close_session sid m) = (ddel sid (match truthy_str user with
    | Some u => py_filter (λ it, bool_decide (ws_user_id it.2 = Some u)) (mg_loops m) | None => mg_loops m end)).*1.
Proof.
  unfold get_running_agent_loops. assert (mg_loops (close_session sid m) = ddel sid (mg_loops m)) as ->.
  { unfold close_session. destruct (dget sid (mg_loops m)) eqn:E; [apply do_close_session_frame|by rewrite ddel_none]. }
  destruct (truthy_str user); [|done]. by rewrite py_filter_ddel.
Qed.
Lemma close_oldest_spec user cs m :
  1 ≤ limit → sessions_inv m → cm_conversation_id <$> cs ≡ₚ get_running_agent_loops user None m →
  ∃ m', close_oldest limit cs m = (m', Ok tt) ∧ sessions_inv m' ∧ sublist (mg_loops m') (mg_loops m)
    ∧ py_len (get_running_agent_loops user None m') < limit.
Proof.
  intros Hl. revert m. induction cs as [|c cs IH]; intros m Hm Hp; simpl.
  - destruct (Z.leb_spec limit (py_len (@nil ConversationMetadata))) as [Hx|]; [unfold py_len in Hx; simpl in Hx; lia|].
    exists m. split; [done|]. split; [done|]. split; [done|]. unfold py_len. rewrite <-Hp. simpl. lia.
  - destruct (Z.leb_spec limit (py_len (c :: cs))) as [Hx|Hx].
    2:{ exists m. split; [done|]. split; [done|]. split; [done|]. unfold py_len in *. rewrite <-Hp, length_fmap. done. }
    unfold pbind at 1 2, pmodify at 1 2. set (m1 := effect _ m).
    assert (sessions_inv m1) as Hm1.
    { apply (sessions_inv_same m m1 Hm eq_refl eq_refl). eexists. split; [done|]. by constructor. }
    assert (sublist (mg_loops (close_session (cm_conversation_id c) m1)) (mg_loops m)) as Hsub.
    { unfold close_session. destruct (dget _ (mg_loops m1)); [|done].
      rewrite (proj1 (do_close_session_frame _ m1)). apply sublist_ddel. }
    destruct (IH (close_session (cm_conversation_id c) m1)) as (m' & He & Hi & Hs & Hn).
    + by apply close_session_inv.
    + rewrite running_close. symmetry. apply (ddel_keys (cm_conversation_id c)); [|by symmetry].
      change (cm_conversation_id c :: (cm_conversation_id <$> cs)) with (cm_conversation_id <$> (c :: cs)). rewrite Hp.
      unfold get_running_agent_loops. eapply sublist_NoDup; [exact (si_keys _ Hm)|]. apply fmap_sublist.
      destruct (truthy_str user); [|done]. clear. induction (mg_loops m) as [|x l IH]; simpl; [done|]. case_match; by constructor.
    + exists m'. split; [exact He|]. split; [done|]. split; [by etrans|done].
Qed.

Lemma start_finish_inv sid user now m :
  sessions_inv m → sid ∉ (mg_loops m).*1 → py_len (get_running_agent_loops user None m) < limit →
  sessions_inv (start_finish sid user now m).1.
Proof.
  intros [H1 H2 H3 H4 H5] Hsid Hn. unfold start_finish, pbind, pget, pmodify, pret, fresh_object, effect, set_loops.
  cbn [fst mg_loops mg_connections mg_active mg_detached mg_next mg_effects].
  rewrite dset_fresh by done. set (s := mkWebSession _ _ _ _ _ _ _).
  assert (∀ id, count (λ e, bool_decide (e = InitializeAgent id)) [InitializeAgent (mg_next m)] = bool_Z (Nat.eqb (mg_next m) id)
    ∧ count (λ it : string * WebSession, Nat.eqb (ws_id it.2) id) [(sid, s)] = bool_Z (Nat.eqb (mg_next m) id)) as Hc.
  { intros id. unfold count. simpl. destruct (Nat.eqb_spec (mg_next m) id) as [->|Hne];
      [by rewrite bool_decide_eq_true_2|by rewrite bool_decide_eq_false_2 by congruence]. }
  assert (∀ id, count (λ e, bool_decide (e = SessionClose id)) [InitializeAgent (mg_next m)] = 0) as Hc0 by done.
  unfold started, closed, runs in *. split; cbn [mg_loops mg_effects mg_next].
  - rewrite fmap_app. apply NoDup_app. split; [done|]. split; [|apply NoDup_singleton].
    intros x Hx ->%list_elem_of_singleton. done.
  - intros id. unfold started, closed, runs. cbn. rewrite !count_app, (proj1 (Hc id)), (proj2 (Hc id)), Hc0, H2. lia.
  - intros id. unfold started. cbn. rewrite count_app, (proj1 (Hc id)). destruct (Nat.eqb_spec (mg_next m) id) as [<-|]; simpl.
    + rewrite H4 by lia. lia.
    + specialize (H3 id). lia.
  - intros id Hid. unfold started. cbn. rewrite count_app, (proj1 (Hc id)), H4 by lia.
    destruct (Nat.eqb_spec (mg_next m) id); [lia|done].
  - intros u Hu. specialize (H5 u Hu). unfold conversations_of, get_running_agent_loops in *. cbn [mg_loops] in *.
    assert (truthy_str (Some u) = Some u) as Hu' by (unfold truthy_str; by destruct u). rewrite Hu' in *.
    rewrite py_filter_app, fmap_app. unfold py_len in *. rewrite length_app, !length_fmap in *. simpl.
    destruct (decide (user = Some u)) as [->|Hne].
    + rewrite bool_decide_eq_true_2 by done. rewrite Hu' in Hn. simpl. lia.
    + rewrite bool_decide_eq_false_2 by done. simpl. lia.
Qed.

Lemma maybe_start_inv sid user now m :
  1 ≤ limit → sessions_inv m →
  sessions_inv (maybe_start_agent_loop timestamp get_metadata set_order limit sid user now m).1.
Proof using metadata_id set_order_perm.
  intros Hl Hm. unfold maybe_start_agent_loop, pbind at 1, pget. destruct (dget sid (mg_loops m)) eqn:Es; [done|].
  unfold start_agent_loop, pbind at 1, pget, pbind at 1, plift.
  destruct (start_check timestamp get_metadata set_order limit user m) as [[l|]|e] eqn:Ec; [| |done].
  - assert (cm_conversation_id <$> reverse l ≡ₚ get_running_agent_loops user None m) as Hp.
    { rewrite reverse_Permutation. by apply start_check_ids. }
    destruct (close_oldest_spec user (reverse l) m Hl Hm Hp) as (m' & He & Hi & Hs & Hn).
    unfold pbind. rewrite He. apply start_finish_inv; [done| |done]. intros Hin.
    apply (dmem_none _ _ Es). eapply elem_of_sublist; [exact Hin|]. by apply fmap_sublist.
  - unfold pbind, pret. apply start_finish_inv; [done|by apply dmem_none|].
    unfold start_check in Ec. destruct (Z.leb_spec limit (py_len (get_running_agent_loops user None m))); [|done].
    by destruct (wait_all _).
Qed.

Lemma disconnect_frame c m :
  mg_loops (disconnect c m) = mg_loops m ∧ mg_active (disconnect c m) = mg_active m ∧ mg_detached (disconnect c m) = mg_detached m
  ∧ mg_next (disconnect c m) = mg_next m
  ∧ mg_effects (disconnect c m) = mg_effects m ++ (if sc_attach_to_existing c then [] else [CloseConversation (sc_id c)]).
Proof. unfold disconnect. destruct (sc_attach_to_existing c); [by rewrite app_nil_r|done]. Qed.
Lemma disconnect_inv c m : sessions_inv m → sessions_inv (disconnect c m).
Proof.
  intros Hm. destruct (disconnect_frame c m) as (El & _ & _ & En & Ee). apply (sessions_inv_same m); try done.
  eexists. split; [exact Ee|]. destruct (sc_attach_to_existing c); by repeat constructor.
Qed.
Lemma set_detached_inv d m : sessions_inv m → sessions_inv (set_detached d m).
Proof. intros Hm. apply (sessions_inv_same m); try done. exists []. by rewrite app_nil_r. Qed.
Lemma set_active_inv d m : sessions_inv m → sessions_inv (set_active d m).
Proof. intros Hm. apply (sessions_inv_same m); try done. exists []. by rewrite app_nil_r. Qed.
Lemma fresh_object_inv m : sessions_inv m → sessions_inv (fresh_object m).2.
Proof. intros [H1 H2 H3 H4 H5]. split; try done. intros id Hid. apply H4. cbn in Hid. lia. Qed.

Lemma attach_inv e r sid m : sessions_inv m → sessions_inv (attach_to_conversation e r sid m).1.
Proof.
  intros Hm. unfold attach_to_conversation. destruct e; [|done]. cbn [negb]. unfold pbind at 1, pget.
  destruct (dget sid (mg_active m)) as [[c n]|]; [by apply set_active_inv|].
  destruct (dget sid (mg_detached m)) as [[c n]|]; [by apply set_active_inv, set_detached_inv|].
  destruct (fresh_object m) as [id m1] eqn:Ef. assert (sessions_inv m1) as H1.
  { change m1 with (id, m1).2. rewrite <-Ef. by apply fresh_object_inv. }
  unfold pbind, pmodify, pret, praise. destruct (if sc_attach_to_existing _ then _ else _) as [|x]; [by apply set_active_inv|].
  destruct (is_unavailable x); [by apply disconnect_inv|done].
Qed.

Lemma manager_op_inv s op : 1 ≤ limit → sessions_inv s.1 → sessions_inv (manager_op s op).1.
Proof using metadata_id set_order_perm.
  destruct s as [m used]. intros Hl Hm. simpl in Hm. destruct op as [sid cid u now|sid u now|sid|cid|e r sid|i now|now d| |sid last c st rt]; simpl.
  - unfold join_conversation, pbind at 1 2, pmodify. apply maybe_start_inv; [done|]. apply (sessions_inv_same m); try done.
    eexists. split; [done|]. by constructor.
  - by apply maybe_start_inv.
  - by apply close_session_inv.
  - apply (sessions_inv_same m); try done. exists []. by rewrite app_nil_r.
  - pose proof (attach_inv e r sid m Hm) as Ha. by destruct (attach_to_conversation e r sid m) as [m1 [[|]|]].
  - destruct (used !! i) as [c|]; [|done]. simpl. unfold detach_from_conversation.
    destruct (dget (sc_sid c) (mg_active m)) as [[x n]|]; [|done].
    destruct (1 <? n); [by apply set_active_inv|by apply set_detached_inv, set_active_inv].
  - unfold cleanup_stale. assert (sessions_inv (disconnect_detached m)) as Hd.
    { unfold disconnect_detached. revert Hm. generalize (mg_detached m) at 1. intros l. revert m.
      induction l as [|x l IH]; intros m Hm; [done|]. apply IH. by apply set_detached_inv, disconnect_inv. }
    destruct (d =? 0); [done|]. by apply close_all_inv.
  - unfold cleanup_cancelled. apply close_all_inv, set_detached_inv. generalize (mg_detached m). intros l. revert m Hm.
    induction l as [|x l IH]; intros m Hm; [done|]. by apply IH, disconnect_inv.
  - destruct Hm as [H1 H2 H3 H4 H5]. set (f := λ it : string * WebSession, _).
    assert (∀ it, (f it).1 = it.1 ∧ ws_id (f it).2 = ws_id it.2 ∧ ws_user_id (f it).2 = ws_user_id it.2) as Hf.
    { intros it. unfold f. by destruct (String.eqb it.1 sid). }
    assert (∀ g h l, (∀ it, g (f it) = h it) → py_filter g (f <$> l) = f <$> py_filter h l) as Hg.
    { intros g h l Hgh. induction l as [|x l IH]; csimpl; [done|]. rewrite Hgh, IH. by destruct (h x). }
    assert (∀ l, (f <$> l).*1 = l.*1) as Hk.
    { intros l. rewrite <-list_fmap_compose. apply list_fmap_ext. intros i it _. apply Hf. }
    split; cbn [mg_loops mg_next set_loops].
    + by rewrite Hk.
    + intros id. etrans; [apply (H2 id)|]. f_equal. unfold runs, count. cbn. symmetry.
      rewrite (Hg _ (λ it, Nat.eqb (ws_id it.2) id)); [|intros it; by rewrite (proj1 (proj2 (Hf it)))].
      unfold py_len. by rewrite length_fmap.
    + apply H3.
    + apply H4.
    + intros user Hu. specialize (H5 user Hu). unfold conversations_of, get_running_agent_loops, set_loops in *. cbn [mg_loops].
      destruct (truthy_str (Some user)) as [u|]; [|by rewrite Hk].
      rewrite (Hg _ (λ it, bool_decide (ws_user_id it.2 = Some u))), Hk; [done|]. intros it. by rewrite (proj2 (proj2 (Hf it))).
Qed.

(** C34 The number of conversations is limited: with a limit of at least 1, whatever operations
    come, one after the other, and whatever the conversation store, which answers about the
    conversation it is asked for, always the same, says or fails to say, no user ever has
    more running sessions than [max_concurrent_conversations]; and every session that was
    started either runs and was not closed, or was closed exactly once. *)
Theorem conversations_limited ops :
  1 ≤ limit →
  let m := (foldl manager_op (new_Manager, []) ops).1 in
  (∀ user, user ≠ "" → conversations_of user m ≤ limit)
  ∧ ∀ id, started m id = 1 → (runs m id = 1 ∧ closed m id = 0) ∨ (runs m id = 0 ∧ closed m id = 1).
Proof using metadata_id set_order_perm.
  intros Hl. cut (∀ s, sessions_inv s.1 → sessions_inv (foldl manager_op s ops).1).
  - intros Hx m. assert (sessions_inv new_Manager) as H0.
    { split; [by constructor|done|done|done|]. intros user _. unfold conversations_of, get_running_agent_loops. cbn [mg_loops new_Manager].
      destruct (truthy_str (Some user)); unfold py_len; simpl; lia. }
    pose proof (Hx (new_Manager, []) H0) as Hi. fold m in Hi.
    split; [apply (si_limit _ Hi)|]. intros id Hs. pose proof (si_life _ Hi id).
    pose proof (count_nonneg (λ e, bool_decide (e = SessionClose id)) (mg_effects m)).
    pose proof (count_nonneg (λ it : string * WebSession, Nat.eqb (ws_id it.2) id) (mg_loops m)).
    unfold closed, runs in *. lia.
  - induction ops as [|op ops IH]; intros s Hs; [done|]. apply IH. by apply manager_op_inv.
Qed.

(** ** Conversations in use *)

(** The manager knows the conversation, as active or as detached. *)
Definition known (m : Manager) (sid : string) (c : ServerConversation) : Prop :=
  (∃ n, dget sid (mg_active m) = Some (c, n)) ∨ (∃ t, dget sid (mg_detached m) = Some (c, t)).
Definition uses (used : list ServerConversation) (sid : string) : Z := count (λ h, String.eqb (sc_sid h) sid) used.

Record uses_inv (m : Manager) (used : list ServerConversation) : Prop := {
  ui_known : ∀ sid c, known m sid c → sc_sid c = sid ∧ (sc_id c < mg_next m)%nat ∧ CloseConversation (sc_id c) ∉ mg_effects m;
  ui_ids : ∀ sid sid' c c', known m sid c → known m sid' c' → sc_id c = sc_id c' → c = c';
  ui_apart : ∀ sid, is_Some (dget sid (mg_active m)) → dget sid (mg_detached m) = None;
  ui_count : ∀ sid c n, dget sid (mg_active m) = Some (c, n) → n = uses used sid;
  ui_used : ∀ h, h ∈ used → ∃ n, dget (sc_sid h) (mg_active m) = Some (h, n);
  ui_fresh : ∀ id, CloseConversation id ∈ mg_effects m → (id < mg_next m)%nat;
  ui_keys : NoDup (mg_detached m).*1;
}.

(** Effects that close no conversation *)
Definition quiet (e : Effect) : Prop := match e with CloseConversation _ => False | _ => True end.
Lemma quiet_app m l id : Forall quiet l → CloseConversation id ∈ mg_effects m ++ l → CloseConversation id ∈ mg_effects m.
Proof.
  rewrite Forall_forall. intros Hq [Hin|Hin]%elem_of_app; [done|]. by apply Hq in Hin.
Qed.
Lemma uses_inv_same m m' used l :
  uses_inv m used → mg_active m' = mg_active m → mg_detached m' = mg_detached m → (mg_next m ≤ mg_next m')%nat →
  mg_effects m' = mg_effects m ++ l → Forall quiet l → uses_inv m' used.
Proof.
  intros [H1 H2 H3 H4 H5 H6 H7] Ea Ed En Ee Hq. split; unfold known; rewrite ?Ea, ?Ed, ?Ee; try done.
  - intros sid c Hk. destruct (H1 sid c Hk) as (? & ? & ?). split_and!; [done|lia|]. by intros ?%quiet_app.
  - intros id Hin%quiet_app; [|done]. apply H6 in Hin. lia.
Qed.

Lemma no_uses m used sid : uses_inv m used → dget sid (mg_active m) = None → uses used sid = 0.
Proof.
  intros Hi Hn. apply count_zero, Forall_forall. intros h Hh. destruct (String.eqb_spec (sc_sid h) sid) as [<-|]; [|done].
  destruct (ui_used _ _ Hi h Hh) as [n ?]. congruence.
Qed.
Lemma uses_snoc used c sid : uses (used ++ [c]) sid = uses used sid + bool_Z (String.eqb (sc_sid c) sid).
Proof. unfold uses. rewrite count_app. f_equal. unfold count. simpl. by destruct (String.eqb (sc_sid c) sid). Qed.
Lemma uses_delete used i c sid : used !! i = Some c → uses used sid = uses (delete i used) sid + bool_Z (String.eqb (sc_sid c) sid).
Proof.
  intros Hc. rewrite <-(take_drop_middle _ _ _ Hc) at 1. rewrite delete_take_drop. unfold uses.
  rewrite !count_app. change (c :: drop (S i) used) with ([c] ++ drop (S i) used). rewrite count_app.
  assert (count (λ h, String.eqb (sc_sid h) sid) [c] = bool_Z (String.eqb (sc_sid c) sid)) as ->; [|lia].
  unfold count. simpl. by destruct (String.eqb (sc_sid c) sid).
Qed.

(** A conversation becomes active, or is used once more. *)
Lemma uses_activate m m' used sid c n :
  uses_inv m used → sc_sid c = sid → (∀ sid', sid' ≠ sid → ∀ c', known m sid' c' → sc_id c' ≠ sc_id c) →
  (sc_id c < mg_next m')%nat → CloseConversation (sc_id c) ∉ mg_effects m → (mg_next m ≤ mg_next m')%nat →
  mg_effects m' = mg_effects m → mg_active m' = dset sid (c, n) (mg_active m) → mg_detached m' = ddel sid (mg_detached m) →
  n = uses used sid + 1 → (∀ x k, dget sid (mg_active m) = Some (x, k) → x = c) →
  uses_inv m' (used ++ [c]).
Proof.
  intros [H1 H2 H3 H4 H5 H6 H7] Hsid Hid Hlt Hno Hn Ee Ea Ed -> Hold.
  assert (∀ sid', dget sid' (mg_active m') = if String.eqb sid' sid then Some (c, uses used sid + 1) else dget sid' (mg_active m)) as Ga
    by (intros; by rewrite Ea, dget_dset).
  assert (∀ sid', dget sid' (mg_detached m') = if String.eqb sid' sid then None else dget sid' (mg_detached m)) as Gd
    by (intros; by rewrite Ed, dget_ddel).
  assert (∀ sid' c', known m' sid' c' → sid' = sid ∧ c' = c ∨ sid' ≠ sid ∧ known m sid' c') as Hk.
  { intros sid' c'. unfold known. setoid_rewrite Ga. setoid_rewrite Gd. destruct (String.eqb_spec sid' sid); naive_solver. }
  split; rewrite ?Ee.
  - intros sid' c' [[-> ->]|[_ Hk']]%Hk; [done|]. destruct (H1 _ _ Hk') as (? & ? & ?). split_and!; [done|lia|done].
  - intros s1 s2 c1 c2 [[-> ->]|[N1 K1]]%Hk [[-> ->]|[N2 K2]]%Hk He; [done| | |by apply (H2 s1 s2)].
    + exfalso. by apply (Hid _ N2 _ K2).
    + exfalso. by apply (Hid _ N1 _ K1).
  - intros sid'. rewrite Ga, Gd. destruct (String.eqb sid' sid); [done|]. apply H3.
  - intros sid' c' n'. rewrite Ga, uses_snoc, Hsid. destruct (String.eqb_spec sid' sid) as [->|Hne].
    + intros [= <- <-]. by rewrite String.eqb_refl.
    + intros Hx. destruct (String.eqb_spec sid sid'); [congruence|]. rewrite Z.add_0_r. by apply (H4 _ c').
  - intros h [Hh| ->%list_elem_of_singleton]%elem_of_app.
    + destruct (H5 h Hh) as [k Hk']. rewrite Ga. destruct (String.eqb_spec (sc_sid h) sid) as [Heq|]; [|by eauto].
      rewrite Heq in Hk'. rewrite (Hold _ _ Hk'). eauto.
    + rewrite Ga, Hsid, String.eqb_refl. eauto.
  - intros id ?%H6. lia.
  - rewrite Ed. eapply sublist_NoDup; [exact H7|]. apply fmap_sublist, sublist_ddel.
Qed.

Lemma attach_uses e r sid m used :
  uses_inv m used →
  match attach_to_conversation e r sid m with
  | (m', Ok (Some c)) => uses_inv m' (used ++ [c])
  | (m', _) => uses_inv m' used
  end.
Proof.
  intros Hi. unfold attach_to_conversation. destruct e; [|done]. cbn [negb]. unfold pbind at 1, pget.
  destruct (dget sid (mg_active m)) as [[c n]|] eqn:Ea.
  { unfold pbind, pmodify, pret. destruct (ui_known _ _ Hi sid c) as (Hs & Hlt & Hno); [left; eauto|].
    assert (dget sid (mg_detached m) = None) as Hd by (apply (ui_apart _ _ Hi); by rewrite Ea).
    eapply (uses_activate m _ used sid c (n + 1)); try done.
    - intros sid' Hne c' Hk Heq. apply Hne. destruct (ui_known _ _ Hi _ _ Hk) as [<- _].
      rewrite <-Hs. f_equal. apply (ui_ids _ _ Hi (sc_sid c') sid); [done|left; eauto|done].
    - simpl. by rewrite ddel_none.
    - by rewrite (ui_count _ _ Hi _ _ _ Ea).
    - intros x k Hx. congruence. }
  destruct (dget sid (mg_detached m)) as [[c t]|] eqn:Ed.
  { unfold pbind, pmodify, pret. destruct (ui_known _ _ Hi sid c) as (Hs & Hlt & Hno); [right; eauto|].
    eapply (uses_activate m _ used sid c 1); try done; [|by rewrite (no_uses _ _ _ Hi Ea)|by rewrite Ea].
    intros sid' Hne c' Hk Heq. apply Hne. destruct (ui_known _ _ Hi _ _ Hk) as [<- _].
    rewrite <-Hs. f_equal. apply (ui_ids _ _ Hi (sc_sid c') sid); [done|right; eauto|done]. }
  unfold fresh_object. cbv zeta iota. set (c := mkServerConversation (mg_next m) sid _). unfold pbind, pmodify, pret, praise.
  destruct (if sc_attach_to_existing c then Ok tt else r) as [|x].
  - eapply (uses_activate m _ used sid c 1); try done; simpl.
    + intros sid' Hne c' Hk Heq. destruct (ui_known _ _ Hi _ _ Hk) as (_ & Hlt & _). lia.
    + lia.
    + intros Hin%(ui_fresh _ _ Hi). simpl in Hin. lia.
    + lia.
    + by rewrite ddel_none.
    + by rewrite (no_uses _ _ _ Hi Ea).
    + by rewrite Ea.
  - set (m1 := mkManager _ _ _ _ _ _). assert (uses_inv m1 used) as H1.
    { apply (uses_inv_same m m1 used []); try done; [simpl; lia|by rewrite app_nil_r]. }
    destruct (is_unavailable x); [|done]. unfold disconnect. destruct (sc_attach_to_existing c); [done|].
    destruct H1 as [K1 K2 K3 K4 K5 K6 K7]. split; try done; simpl.
    + intros sid' c' Hk. destruct (ui_known _ _ Hi sid' c') as (? & ? & ?); [exact Hk|]. split_and!; [done|lia|].
      intros [?|[= ?]%list_elem_of_singleton]%elem_of_app; [done|]. simpl in *. lia.
    + intros id [Hin|[= ->]%list_elem_of_singleton]%elem_of_app; [|lia]. apply (ui_fresh _ _ Hi) in Hin. lia.
Qed.

Lemma detach_uses i c now m used :
  uses_inv m used → used !! i = Some c → uses_inv (detach_from_conversation c now m) (delete i used).
Proof.
  intros Hi Hc. pose proof Hi as [H1 H2 H3 H4 H5 H6 H7].
  destruct (H5 c ltac:(by eapply list_elem_of_lookup_2)) as [n Ha]. unfold detach_from_conversation. rewrite Ha.
  pose proof (H4 _ _ _ Ha) as Hn. pose proof (uses_delete used i c (sc_sid c) Hc) as Hd. rewrite String.eqb_refl in Hd. simpl in Hd.
  assert (∀ h, h ∈ delete i used → h ∈ used) as Hsub.
  { intros h. rewrite delete_take_drop. intros [?%elem_of_take_in|?%elem_of_drop_in]%elem_of_app; done. }
  assert (∀ sid, sid ≠ sc_sid c → uses (delete i used) sid = uses used sid) as Hother.
  { intros sid Hne. rewrite (uses_delete used i c sid Hc). destruct (String.eqb_spec (sc_sid c) sid); [congruence|simpl; lia]. }
  destruct (Z.ltb_spec 1 n) as [Hlt|Hle].
  - assert (∀ sid c', known (set_active (dset (sc_sid c) (c, n - 1) (mg_active m)) m) sid c' → known m sid c') as Hk.
    { intros sid c'. unfold known. cbn. setoid_rewrite dget_dset. destruct (String.eqb_spec sid (sc_sid c)) as [->|]; [|done].
      intros [[k [= <- _]]|?]; [left; eauto|by right]. }
    split; cbn [mg_effects mg_next set_active mg_active mg_detached]; try done.
    + intros sid c' Hx%Hk. by apply H1.
    + intros s1 s2 c1 c2 ?%Hk ?%Hk. by apply (H2 s1 s2).
    + intros sid. rewrite dget_dset. destruct (String.eqb_spec sid (sc_sid c)) as [->|]; [intros _; apply H3; by rewrite Ha|apply H3].
    + intros sid c' k. rewrite dget_dset. destruct (String.eqb_spec sid (sc_sid c)) as [->|]; [intros [= _ <-]; lia|].
      intros Hx. rewrite Hother by done. by apply (H4 _ c').
    + intros h Hh. rewrite dget_dset. destruct (H5 h (Hsub h Hh)) as [k Hk']. destruct (String.eqb_spec (sc_sid h) (sc_sid c)) as [Heq|]; [|by eauto].
      rewrite Heq, Ha in Hk'. injection Hk' as <- _. eauto.
  - set (m' := set_detached _ _).
    assert (∀ sid c', known m' sid c' → known m sid c') as Hk.
    { intros sid c'. unfold known, m'. cbn. setoid_rewrite dget_ddel. setoid_rewrite dget_dset.
      destruct (String.eqb_spec sid (sc_sid c)) as [->|]; [|done]. intros [[k Hx]|[t [= <- _]]]; [done|left; eauto]. }
    assert (uses (delete i used) (sc_sid c) = 0) as H0.
    { pose proof (count_nonneg (λ h, String.eqb (sc_sid h) (sc_sid c)) (delete i used)) as Hc0. unfold uses in *. lia. }
    split; cbn [mg_effects mg_next set_active mg_active mg_detached set_detached m']; try done.
    + intros sid c' Hx%Hk. by apply H1.
    + intros s1 s2 c1 c2 ?%Hk ?%Hk. by apply (H2 s1 s2).
    + intros sid. rewrite dget_ddel, dget_dset. destruct (String.eqb sid (sc_sid c)); [by intros [? ?]|apply H3].
    + intros sid c' k. rewrite dget_ddel. destruct (String.eqb_spec sid (sc_sid c)) as [->|]; [done|].
      intros Hx. rewrite Hother by done. by apply (H4 _ c').
    + intros h Hh. rewrite dget_ddel. destruct (String.eqb_spec (sc_sid h) (sc_sid c)) as [Heq|]; [|by apply H5, Hsub].
      exfalso. assert (1 ≤ uses (delete i used) (sc_sid c)); [|lia]. rewrite <-Heq.
      apply list_elem_of_lookup in Hh as [j Hj]. rewrite (uses_delete _ _ _ (sc_sid h) Hj), String.eqb_refl.
      pose proof (count_nonneg (λ x, String.eqb (sc_sid x) (sc_sid h)) (delete j (delete i used))) as Hc1. unfold uses. simpl. lia.
    + by apply NoDup_dset.
Qed.

Definition closed_conversations (l : list (string * (ServerConversation * Z))) : list Effect :=
  l ≫= λ it, if sc_attach_to_existing it.2.1 then [] else [CloseConversation (sc_id it.2.1)].
Lemma disconnect_all_frame l m :
  let m' := foldl (λ m it, disconnect it.2.1 m) m l in
  mg_loops m' = mg_loops m ∧ mg_active m' = mg_active m ∧ mg_detached m' = mg_detached m ∧ mg_next m' = mg_next m
  ∧ mg_effects m' = mg_effects m ++ closed_conversations l.
Proof.
  revert m. induction l as [|it l IH]; intros m; simpl; [by rewrite app_nil_r|].
  destruct (IH (disconnect it.2.1 m)) as (-> & -> & -> & -> & ->). destruct (disconnect_frame it.2.1 m) as (-> & -> & -> & -> & ->).
  by rewrite <-app_assoc.
Qed.
Lemma disconnect_items_frame l m :
  let m' := foldl (λ m it, set_detached (ddel it.1 (mg_detached m)) (disconnect it.2.1 m)) m l in
  mg_active m' = mg_active m ∧ mg_detached m' = foldl (λ d it, ddel it.1 d) (mg_detached m) l
  ∧ mg_next m' = mg_next m ∧ mg_effects m' = mg_effects m ++ closed_conversations l.
Proof.
  revert m. induction l as [|it l IH]; intros m; simpl; [by rewrite app_nil_r|].
  set (m1 := set_detached _ _). destruct (IH m1) as (-> & -> & -> & ->). destruct (disconnect_frame it.2.1 m) as (El & Ea & Ed & En & Ee).
  unfold m1. cbn. rewrite Ea, En, Ee. by rewrite <-app_assoc.
Qed.
Lemma foldl_ddel_keys {V W} (l : list (string * W)) (d : list (string * V)) sid :
  dget sid (foldl (λ d it, ddel it.1 d) d l) = if bool_decide (sid ∈ l.*1) then None else dget sid d.
Proof.
  revert d. induction l as [|[k v] l IH]; intros d; csimpl; [done|]. rewrite IH, dget_ddel.
  destruct (String.eqb_spec sid k) as [->|Hne].
  - rewrite (bool_decide_eq_true_2 (k ∈ k :: _)) by (by left). by case_bool_decide.
  - case_bool_decide as H1; case_bool_decide as H2; try done; exfalso; [apply H2; by right|].
    by apply elem_of_cons in H2 as [|].
Qed.

(** Every detached conversation is closed and forgotten. *)
Lemma drop_detached m m' used :
  uses_inv m used → mg_active m' = mg_active m → mg_next m' = mg_next m →
  mg_effects m' = mg_effects m ++ closed_conversations (mg_detached m) →
  (∀ sid, dget sid (mg_detached m') = None) → NoDup (mg_detached m').*1 → uses_inv m' used.
Proof.
  intros Hi Ea En Ee Hd Hk. pose proof Hi as [H1 H2 H3 H4 H5 H6 H7].
  assert (∀ id, CloseConversation id ∈ closed_conversations (mg_detached m) →
    ∃ sid c t, dget sid (mg_detached m) = Some (c, t) ∧ sc_id c = id) as Hc.
  { intros id ([sid [c t]] & Hin & Hx)%list_elem_of_bind. simpl in Hin. destruct (sc_attach_to_existing c);
      [by apply not_elem_of_nil in Hin|]. apply list_elem_of_singleton in Hin as [= ->]. exists sid, c, t. split; [|done]. by apply in_dget. }
  assert (∀ sid c, known m' sid c → ∃ n, dget sid (mg_active m) = Some (c, n)) as Hk'.
  { intros sid c [[n Hx]|[t Hx]]; [rewrite Ea in Hx; eauto|by rewrite Hd in Hx]. }
  split; rewrite ?Ea, ?En, ?Ee; try done.
  - intros sid c [n Hx]%Hk'. destruct (H1 sid c) as (? & ? & ?); [left; eauto|]. split_and!; [done|done|].
    intros [?|(sid' & c' & t & Hx' & Hid)%Hc]%elem_of_app; [done|].
    assert (c = c') as <- by (apply (H2 sid sid'); [left; eauto|right; eauto|done]).
    destruct (H1 sid' c) as [Hs _]; [right; eauto|]. assert (sid' = sid) as -> by congruence.
    rewrite H3 in Hx'; [done|]. by rewrite Hx.
  - intros s1 s2 c1 c2 [n1 ?]%Hk' [n2 ?]%Hk'. apply (H2 s1 s2); left; eauto.
  - intros id [?|(sid & c & t & Hx & <-)%Hc]%elem_of_app; [by apply H6|]. apply (H1 sid c). right. eauto.
Qed.

Lemma close_all_uses sids m used : uses_inv m used → uses_inv (foldl (λ m sid, do_close_session sid m) m sids) used.
Proof.
  revert m. induction sids as [|x l IH]; intros m Hm; [done|]. apply IH.
  destruct (do_close_session_frame x m) as (_ & Ea & Ed & En & Ee). eapply uses_inv_same; [done..|by rewrite En|exact Ee|].
  unfold closes. apply Forall_app. split; [apply Forall_fmap, Forall_true; done|]. destruct (dget x (mg_loops m)); by repeat constructor.
Qed.
Lemma close_session_uses sid m used : uses_inv m used → uses_inv (close_session sid m) used.
Proof. intros Hm. unfold close_session. destruct (dget sid (mg_loops m)); [|done]. apply (close_all_uses [sid] m used Hm). Qed.
Lemma effect_uses e m used : quiet e → uses_inv m used → uses_inv (effect e m) used.
Proof. intros Hq Hm. eapply uses_inv_same; [done..|reflexivity|by constructor]. Qed.

Lemma maybe_start_uses sid user now m used :
  uses_inv m used → uses_inv (maybe_start_agent_loop timestamp get_metadata set_order limit sid user now m).1 used.
Proof.
  intros Hm. unfold maybe_start_agent_loop, pbind at 1, pget. destruct (dget sid (mg_loops m)); [done|].
  unfold start_agent_loop, pbind at 1, pget, pbind at 1, plift. destruct (start_check _ _ _ _ user m) as [l|e]; [|done].
  assert (∀ cs m, uses_inv m used → uses_inv (close_oldest limit cs m).1 used) as Hc.
  { induction cs as [|c cs IH]; intros m1 Hm1; simpl; (case_match; [|done]); [done|].
    unfold pbind, pmodify. by apply IH, close_session_uses, effect_uses. }
  assert (∀ m, uses_inv m used → uses_inv (start_finish sid user now m).1 used) as Hf.
  { intros m1 Hm1. unfold start_finish, pbind, pget, pmodify, pret. cbn. apply effect_uses; [done|].
    eapply uses_inv_same with (l := []); try done; simpl; [lia|by rewrite app_nil_r]. }
  unfold pbind at 1. destruct l as [l|]; [|by apply Hf].
  specialize (Hc (reverse l) m Hm). destruct (close_oldest limit (reverse l) m) as [m1 [|]]; [by apply Hf|done].
Qed.

Lemma manager_op_uses s op : uses_inv s.1 s.2 → uses_inv (manager_op s op).1 (manager_op s op).2.
Proof.
  destruct s as [m used]. simpl. intros Hm. destruct op as [sid cid u now|sid u now|sid|cid|e r sid|i now|now d| |sid last c st rt]; simpl.
  - unfold join_conversation, pbind at 1 2, pmodify. apply maybe_start_uses.
    eapply uses_inv_same; [exact (effect_uses (EnterRoom cid (ROOM_KEY sid)) m used I Hm)|done..|by rewrite app_nil_r|done].
  - by apply maybe_start_uses.
  - by apply close_session_uses.
  - eapply uses_inv_same; [exact Hm|done..|by rewrite app_nil_r|done].
  - pose proof (attach_uses e r sid m used Hm) as Ha. by destruct (attach_to_conversation e r sid m) as [m1 [[|]|]].
  - destruct (used !! i) as [c|] eqn:E; [|done]. by apply detach_uses.
  - unfold cleanup_stale. destruct (disconnect_items_frame (mg_detached m) m) as (Ea & Ed & En & Ee).
    fold (disconnect_detached m) in Ea, Ed, En, Ee.
    assert (uses_inv (disconnect_detached m) used) as H1; [|destruct (d =? 0); [done|by apply close_all_uses]].
    apply (drop_detached m); try done; rewrite Ed.
    + intros sid. rewrite foldl_ddel_keys. case_bool_decide as Hx; [done|]. destruct (dget sid (mg_detached m)) eqn:E; [|done].
      destruct Hx. by apply dget_in, (list_elem_of_fmap_2 fst) in E.
    + eapply sublist_NoDup; [exact (ui_keys _ _ Hm)|]. apply fmap_sublist. generalize (mg_detached m) at 2. intros l.
      generalize (mg_detached m). induction l as [|it l IH]; intros d0; [done|]. etrans; [apply IH|apply sublist_ddel].
  - unfold cleanup_cancelled. apply close_all_uses. destruct (disconnect_all_frame (mg_detached m) m) as (_ & Ea & _ & En & Ee).
    apply (drop_detached m); try done; simpl. constructor.
  - eapply uses_inv_same; [exact Hm|done..|by rewrite app_nil_r|done].
Qed.

(** C35 A conversation in use stays connected: whatever operations come, one after the
    other, a conversation that was attached to and not yet detached from has not been
    disconnected; all of its users have the same object, and the manager counts them. *)
Theorem used_conversations_connected ops :
  let '(m, used) := foldl manager_op (new_Manager, []) ops in
  ∀ c, c ∈ used → CloseConversation (sc_id c) ∉ mg_effects m
    ∧ dget (sc_sid c) (mg_active m) = Some (c, uses used (sc_sid c))
    ∧ ∀ c', c' ∈ used → sc_sid c' = sc_sid c → c' = c.
Proof.
  assert (∀ s, uses_inv s.1 s.2 → uses_inv (foldl manager_op s ops).1 (foldl manager_op s ops).2) as Hx.
  { induction ops as [|op ops IH]; intros s Hs; [done|]. by apply IH, manager_op_uses. }
  assert (uses_inv new_Manager []) as H0.
  { split; unfold known; cbn; [by intros ? ? [[? ?]|[? ?]]|by intros ? ? ? ? [[? ?]|[? ?]]|done|done|by intros ? ?%not_elem_of_nil..|by constructor]. }
  specialize (Hx (new_Manager, []) H0). destruct (foldl manager_op (new_Manager, []) ops) as [m used]. simpl in Hx.
  intros c Hc. destruct (ui_used _ _ Hx c Hc) as [n Hn]. split; [apply (ui_known _ _ Hx (sc_sid c)); left; eauto|].
  split; [by rewrite Hn, (ui_count _ _ Hx _ _ _ Hn)|]. intros c' Hc' He. destruct (ui_used _ _ Hx c' Hc') as [n' Hn']. congruence.
Qed.
End ops.

(** ** The clean-up closes what is idle *)

Lemma closed_loops sids m :
  mg_loops (foldl (λ m sid, do_close_session sid m) m sids) = foldl (λ d it, ddel it.1 d) (mg_loops m) ((λ sid, (sid, tt)) <$> sids).
Proof.
  revert m. induction sids as [|x l IH]; intros m; simpl; [done|]. by rewrite IH, (proj1 (do_close_session_frame x m)).
Qed.
(** Long inactive, neither starting nor running, and nobody is connected. *)
Definition idle (now close_delay : Z) (m : Manager) (sid : string) (s : WebSession) : bool :=
  (seconds (ws_last_active_ts s) <? now - seconds close_delay) && may_close now s
  && negb (existsb (String.eqb sid) (mg_connections m).*2).
Lemma sids_to_close_spec now close_delay m sid s :
  NoDup (mg_loops m).*1 → dget sid (mg_loops m) = Some s →
  sid ∈ sids_to_close now close_delay m ↔ idle now close_delay m sid s = true.
Proof.
  intros Hk Hs. unfold sids_to_close, idle. set (cand := (py_filter _ (sort_key_by _ _)).*1).
  assert (sid ∈ cand ↔ (seconds (ws_last_active_ts s) <? now - seconds close_delay) && may_close now s = true) as Hc.
  { unfold cand. rewrite list_elem_of_fmap. split.
    - intros ([k x] & -> & [Hf Hin]%elem_of_py_filter). rewrite sort_key_perm in Hin. simpl in *.
      apply (in_dget _ _ _ Hk) in Hin. congruence.
    - intros Hf. exists (sid, s). split; [done|]. apply elem_of_py_filter. split; [done|]. rewrite sort_key_perm. by apply dget_in. }
  assert (sid ∈ cand → existsb (String.eqb sid) (get_connections None (Some cand) m).*2 = existsb (String.eqb sid) (mg_connections m).*2) as He.
  { intros Hin. unfold get_connections. cbn. clear -Hin. induction (mg_connections m) as [|[k v] l IH]; csimpl; [done|].
    destruct (String.eqb_spec sid v) as [<-|Hne]; csimpl.
    - assert (existsb (String.eqb sid) cand = true) as -> by (apply existsb_exists; exists sid; by rewrite <-list_elem_of_In, String.eqb_refl).
      csimpl. by rewrite String.eqb_refl.
    - rewrite <-IH. destruct (existsb (String.eqb v) cand); csimpl; [|done]. by destruct (String.eqb_spec sid v). }
  rewrite elem_of_py_filter, (andb_true_iff (_ && _)), <-Hc. split.
  - intros [H1 H2]. by rewrite He in H1 by done.
  - intros [H1 H2]. by rewrite He by done.
Qed.

(** A turn of the clean-up closes exactly the idle sessions. *)
Theorem cleanup_closes_idle now close_delay m sid s :
  NoDup (mg_loops m).*1 → close_delay ≠ 0 → dget sid (mg_loops m) = Some s →
  dget sid (mg_loops (cleanup_stale now close_delay m).1)
  = if idle now close_delay m sid s then None else Some s.
Proof.
  intros Hk Hd Hs. unfold cleanup_stale. destruct (Z.eqb_spec close_delay 0); [done|]. simpl. set (m1 := disconnect_detached m).
  assert (mg_loops m1 = mg_loops m ∧ mg_connections m1 = mg_connections m) as [El Ec].
  { unfold m1, disconnect_detached. generalize (mg_detached m). intros l. generalize m. clear.
    induction l as [|it l IH]; intros m; [done|]. simpl. destruct (IH (set_detached (ddel it.1 (mg_detached m)) (disconnect it.2.1 m))) as [-> ->].
    cbn. unfold disconnect. by destruct (sc_attach_to_existing it.2.1). }
  rewrite closed_loops, foldl_ddel_keys, El, Hs, <-list_fmap_compose, list_fmap_id.
  assert (idle now close_delay m1 sid s = idle now close_delay m sid s) as <- by (unfold idle; by rewrite Ec).
  rewrite <-El in Hk, Hs. pose proof (sids_to_close_spec now close_delay m1 sid s Hk Hs) as Hx.
  case_bool_decide as Hb; [by rewrite (proj1 Hx Hb)|]. destruct (idle now close_delay m1 sid s); [|done]. by destruct Hb; apply Hx.
Qed.

(** ** Titles and metadata *)

(** A title that is made up has at most fifty characters. *)
Theorem title_bounded complete events : str_len (auto_generate_title complete events) ≤ 50.
Proof.
  assert (∀ n s, 0 ≤ n → str_len (str_take n s) ≤ n) as Ht.
  { intros n s Hn. unfold str_len, str_take. rewrite substring0_length. lia. }
  unfold auto_generate_title. destruct (head _) as [msg|]; [|done].
  destruct (truthy_str _) as [t|] eqn:E.
  - unfold truthy_str in E. destruct complete as [c|]; [|done]. simpl in E. unfold generate_conversation_title in E.
    destruct (String.eqb _ ""); [done|]. destruct (c _) as [title|]; [|done].
    assert (t = if 50 <? str_len title then str_take (50 - 3) title +:+ "..." else title) as ->.
    { set (x := if 50 <? str_len title then _ else _) in E |- *. clearbody x. by destruct x; [|injection E as <-]. }
    destruct (Z.ltb_spec 50 (str_len title)); [|lia]. rewrite str_len_append. pose proof (Ht (50 - 3) title ltac:(lia)).
    change (str_len "...") with 3. lia.
  - rewrite str_len_append. pose proof (Ht 30 (str_strip msg) ltac:(lia)). destruct (30 <? _); simpl; [|unfold str_len at 2; simpl; lia].
    change (str_len "...") with 3. lia.
Qed.

(** The metadata follow the events: the saved record has the new time, the usage of the
    event's metrics if it has any, the branch of the workspace after a command that may
    change it, and another title only in place of the default one; everything else of the
    record and all other conversations are as before. *)
Theorem event_updates_metadata `{Dates} `{Platform} `{!PlatformLaws} `{!MetadataAdapter} `{!MetadataAdapterLaws} {F}
    `{FileStore F} `{!FileStoreLaws F} now branch title cid event (m : ConversationMetadata) mg (f : F) mg' f' :
  get_metadata cid f = Ok m → cm_conversation_id m = cid →
  update_conversation_for_event now branch title cid event (mg, f) = ((mg', f'), Ok tt) →
  let usage := event ≫= event_llm_metrics in
  ∃ b t, get_metadata cid f' = Ok (with_update (Some now)
             (from_option m_accumulated_cost (cm_accumulated_cost m) usage)
             (from_option (λ x, prompt_tokens (m_accumulated_token_usage x)) (cm_prompt_tokens m) usage)
             (from_option (λ x, completion_tokens (m_accumulated_token_usage x)) (cm_completion_tokens m) usage)
             (from_option (λ x, prompt_tokens (m_accumulated_token_usage x) + completion_tokens (m_accumulated_token_usage x))
                (cm_total_tokens m) usage) b t m)
    ∧ (b = cm_selected_branch m ∨ ∃ e new, event = Some e ∧ is_git_related_event e = true ∧ b = Some new
         ∧ branch (primary_repo_path (cm_selected_repository m)) = Ok (Some new))
    ∧ (t = cm_title m ∨ t = Some title ∧ cm_title m = Some (get_default_conversation_title cid)
         ∧ mg_effects mg' = mg_effects mg ++ [Emit (ROOM_KEY cid) (title_update cid title)])
    ∧ ∀ i, i ≠ cid → get_metadata i f' = get_metadata i f.
Proof.
  intros Hg Hc Hu usage. unfold update_conversation_for_event, pbind at 1, pget, pbind at 1, plift in Hu. cbn [snd fst] in Hu. rewrite Hg in Hu.
  fold usage in Hu. set (m1 := match usage with Some x => set_usage x (set_updated now m) | None => set_updated now m end) in Hu.
  set (m2 := match event with Some e => _ | None => m1 end) in Hu.
  assert (∃ b, m2 = set_branch b m1 ∧ (b = cm_selected_branch m ∨ ∃ e new, event = Some e ∧ is_git_related_event e = true ∧ b = Some new
         ∧ branch (primary_repo_path (cm_selected_repository m)) = Ok (Some new))) as (b & Hb & Hbr).
  { assert (m1 = set_branch (cm_selected_branch m) m1) as Hs by (unfold m1; by destruct usage).
    unfold m2. destruct event as [e|]; [|by eauto]. destruct (is_git_related_event e) eqn:Eg; [|by eauto].
    unfold update_conversation_branch. destruct (dget (cm_conversation_id m1) (mg_loops mg) ≫= ws_runtime); [|by eauto].
    assert (cm_selected_repository m1 = cm_selected_repository m) as -> by (unfold m1; by destruct usage).
    destruct (branch _) as [[new|]|] eqn:Eb; [|by eauto..]. destruct (should_update_branch _ _); [|by eauto].
    exists (Some new). split; [done|]. right. by exists e, new. }
  assert (∃ t, save_metadata (with_update (cm_last_updated_at m2) (cm_accumulated_cost m2) (cm_prompt_tokens m2)
            (cm_completion_tokens m2) (cm_total_tokens m2) (cm_selected_branch m2) t m2) f = (f', Ok tt)
    ∧ (t = cm_title m2 ∨ t = Some title ∧ cm_title m2 = Some (get_default_conversation_title cid)
         ∧ mg_effects mg' = mg_effects mg ++ [Emit (ROOM_KEY cid) (title_update cid title)])) as (t & Hs & Ht).
  { unfold pbind at 1 in Hu. clearbody m2. destruct (bool_decide_reflect (cm_title m2 = Some (get_default_conversation_title cid))) as [Ht|Ht].
    - destruct (negb _ && negb _); unfold pbind, pmodify, pret in Hu; cbn [fst snd] in Hu;
        destruct (save_metadata _ f) as [f1 r1] eqn:Es in Hu; injection Hu as <- <- ->.
      + exists (Some title). split; [exact Es|]. by right.
      + exists (Some (get_default_conversation_title cid)). split; [exact Es|]. left. by rewrite Ht.
    - unfold pret in Hu. cbn [fst snd] in Hu. destruct (save_metadata m2 f) as [f1 r1] eqn:Es in Hu; injection Hu as <- <- ->.
      exists (cm_title m2). split; [by destruct m2|]. by left. }
  assert (cm_title m2 = cm_title m ∧ cm_conversation_id m2 = cid) as [Et Ei].
  { rewrite Hb. unfold m1. by destruct usage. }
  destruct (saved_conversation _ _ _ Hs) as (Hg' & _ & _ & Ho). cbn [cm_conversation_id with_update] in Hg', Ho. rewrite Ei in Hg', Ho.
  exists b, t. rewrite Et in Ht. split; [|done]. rewrite Hg'. f_equal. rewrite Hb. unfold m1. by destruct usage.
Qed.

(** ** Examples *)

Module manager_example.
Import store_example.
Definition meta (sid : string) : ConversationMetadata :=
  mkConversationMetadata sid None (Some "u") None None None (Some sid) None [] "" None fzero 0 0 0 None None None.
Definition metas (user : option string) (sid : string) : result ConversationMetadata := Ok (meta sid).
(** The later of two conversations is the one with the longer name. *)
Definition run (limit : Z) : list ManagerOp → Manager * list ServerConversation :=
  foldl (@manager_op dates str_len metas id limit) (new_Manager, []).
Definition three : list ManagerOp :=
  [MaybeStart "aa" (Some "u") 0; MaybeStart "b" (Some "u") 0; MaybeStart "x" (Some "v") 0; MaybeStart "ccc" (Some "u") 0].

(** With a limit of two, the third conversation of a user closes the oldest. *)
Lemma conversations_limited_witness :
  let m := (run 2 three).1 in
  (mg_loops m).*1 = ["aa"; "x"; "ccc"] ∧ conversations_of "u" m ≤ 2 ∧ closed m 1 = 1.
Proof.
  split; [vm_compute; reflexivity|].
  destruct (@conversations_limited dates str_len metas id 2) with (ops := three) as [Hl Hc].
  { intros user sid c [= <-]. done. }
  { done. }
  { lia. }
  split; [by apply Hl|]. destruct (Hc 1%nat) as [[Hr _]|[_ Hx]]; [vm_compute; reflexivity|vm_compute in Hr; done|exact Hx].
Defined.

Definition attaches : list ManagerOp :=
  [Attach true (Ok tt) "a"; Attach true (Ok tt) "a"; Detach 0 1; Cleanup 2 5; Attach true (Ok tt) "b"; Detach 1 3; Cleanup 4 5].
Lemma used_conversations_connected_witness :
  let '(m, used) := run 2 attaches in
  used = [mkServerConversation 0 "a" false] ∧ CloseConversation 0 ∉ mg_effects m ∧ mg_effects m = [CloseConversation 1].
Proof.
  pose proof (@used_conversations_connected dates str_len metas id 2 attaches) as Hx. fold (run 2) in Hx.
  destruct (run 2 attaches) as [m used] eqn:E. assert (used = [mkServerConversation 0 "a" false]) as ->
    by (apply (f_equal snd) in E; vm_compute in E; congruence).
  split; [done|]. split; [by apply (Hx (mkServerConversation 0 "a" false)); left|].
  apply (f_equal fst) in E. vm_compute in E. by subst m.
Defined.

(** Two clients join a conversation while the oldest one is being closed for each of them:
    both start a session of it; one of the two is forgotten and is never closed. *)
Definition check (m : Manager) := @start_check dates str_len metas id 1 (Some "u") m.
Definition proceed (r : result (option (list ConversationMetadata))) (m : Manager) : Manager :=
  match r with
  | Ok (Some l) => ((close_oldest 1 (reverse l) ;;; start_finish "new" (Some "u") 0) m).1
  | _ => m
  end.
Example concurrent_start_leaks :
  let m := (run 1 [MaybeStart "old" (Some "u") 0]).1 in
  let m := proceed (check m) (proceed (check m) m) in
  let m := close_session "new" m in
  started m 1 = 1 ∧ started m 2 = 1 ∧ mg_loops m = [] ∧ closed m 1 = 0.
Proof. vm_compute. done. Qed.

(** Without a closing delay the clean-up ends after its first turn: a conversation that is
    detached from later stays connected. *)
Example cleanup_ends : (cleanup_stale 5 0 new_Manager).2 = false.
Proof. done. Qed.

(** A running conversation without metadata keeps its user from starting another one. *)
Example lost_metadata_blocks :
  let m := (run 1 [MaybeStart "old" (Some "u") 0]).1 in
  (@maybe_start_agent_loop dates str_len (λ _ _, Raise FileNotFoundError) id 1 "new" (Some "u") 0 m).2 = Raise FileNotFoundError.
Proof. vm_compute. done. Qed.

(** A session that has not yet been started counts as failed. *)
Example new_session_failed :
  let s := mkWebSession 0 "a" None 1700000000 None 0 None in get_state (seconds 1700000000) s = Some ERROR.
Proof. done. Qed.
End manager_example.
