(* ===== verification/AgentSession.v ===== *)
(** * Agent sessions

    Models [server/session/agent_session.py], the life of the parts of a conversation
    (runtime, memory, controller, event stream), and of [server/session/session.py] the
    messages of a web session to its client and back.  A session starts in steps between
    which other operations, closing it above all, may come.  Parameters: the constructor of
    the concrete runtime, how it connects and clones, the microagents of the repository,
    the tools that are added to the agent. *)

From S2P Require Import Prelude PyValue ControlFlags Metrics Schema Actions Observations Events Serialization FileStore EventStore ExamplePlatform EventStream EventStreamProps ConversationStats State StateTracker Replay Controller ExampleAgent ControllerSafety Microagent Memory AgentLoop FnCallTexts Secrets BashSession Runtime ConversationManager.
From S2P Require Import Controller Memory Secrets Runtime.
Local Open Scope Z_scope.
Local Open Scope py_scope.

(** What [start] is given; no tokens and no secrets are empty dictionaries.  Of the replayed
    trajectory it is what [json.loads] gives. *)
Record StartArgs (A : Type) := mkStartArgs {
  sa_remote : bool;
  sa_agent : A;
  sa_enable_mcp : bool;
  sa_confirmation_mode : bool;
  sa_max_iterations : Z;
  sa_max_budget_per_task : option float;
  sa_agent_configs : list (string * AgentConfig);
  sa_tokens : list (ProviderType * ProviderToken);
  sa_custom_secrets : list (string * CustomSecret);
  sa_repository : option string;
  sa_branch : option string;
  sa_initial_message : option Event;
  sa_instructions : option string;
  sa_replay_json : option (result (list dict));
  sa_working_dir : string;
  (** [queue_status_message] of the session *)
  sa_status_callback : StatusCallback;
}.
Arguments mkStartArgs {A} _ _ _ _ _ _ _ _ _ _ _ _ _ _ _ _.
Arguments sa_status_callback {A} _.
Arguments sa_remote {A} _.
Arguments sa_agent {A} _.
Arguments sa_enable_mcp {A} _.
Arguments sa_confirmation_mode {A} _.
Arguments sa_max_iterations {A} _.
Arguments sa_max_budget_per_task {A} _.
Arguments sa_agent_configs {A} _.
Arguments sa_tokens {A} _.
Arguments sa_custom_secrets {A} _.
Arguments sa_repository {A} _.
Arguments sa_branch {A} _.
Arguments sa_initial_message {A} _.
Arguments sa_instructions {A} _.
Arguments sa_replay_json {A} _.
Arguments sa_working_dir {A} _.


(** [override_provider_tokens_with_custom_secret] *)
Definition override_provider_tokens_with_custom_secret (tokens : list (ProviderType * ProviderToken))
    (custom : list (string * CustomSecret)) : list (ProviderType * ProviderToken) :=
  py_filter (λ e, negb (dmem (get_provider_env_key e.1) custom || dmem (str_upper (get_provider_env_key e.1)) custom)) tokens.

(** [ProviderHandler.get_env_vars(expose_secrets=True)] *)
Definition token_env_vars (tokens : list (ProviderType * ProviderToken)) : list (string * string) :=
  expose_env_vars (Runtime.get_env_vars None tokens []).
Definition custom_env_vars (custom : list (string * CustomSecret)) : list (string * string) :=
  Secrets.get_env_vars (mkSecrets [] custom).

Definition WAIT_TIME_BEFORE_CLOSE_INTERVAL : Z := 5.

Section session.
Context `{FileStore F} `{Platform} `{Pickle StateDict} `{Pickle (list (string * Metrics))}.
Context `{Agent A} `{Executor X}.
Variable now : nat → string.

(** The attributes; [as_status] are the calls of the status callback, [as_closings] counts
    the submitted [runtime.close]. *)
Record AgentSession := mkAgentSession {
  as_sid : string;
  as_user_id : option string;
  as_controller : option (Controller A);
  as_runtime : option (Runtime X);
  as_memory : option Memory;
  as_starting : bool;
  as_started_at : Z;
  as_closed : bool;
  as_status : list (string * string * string);
  as_closings : nat;
}.
Definition new_AgentSession (sid : string) (user_id : option string) : AgentSession :=
  mkAgentSession sid user_id None None None false 0 false [] O.
Definition set_as_controller c (s : AgentSession) := mkAgentSession (as_sid s) (as_user_id s) c (as_runtime s) (as_memory s)
  (as_starting s) (as_started_at s) (as_closed s) (as_status s) (as_closings s).
Definition set_as_runtime r (s : AgentSession) := mkAgentSession (as_sid s) (as_user_id s) (as_controller s) r (as_memory s)
  (as_starting s) (as_started_at s) (as_closed s) (as_status s) (as_closings s).
Definition set_as_memory m (s : AgentSession) := mkAgentSession (as_sid s) (as_user_id s) (as_controller s) (as_runtime s) m
  (as_starting s) (as_started_at s) (as_closed s) (as_status s) (as_closings s).
Definition set_starting b t (s : AgentSession) := mkAgentSession (as_sid s) (as_user_id s) (as_controller s) (as_runtime s) (as_memory s)
  b t (as_closed s) (as_status s) (as_closings s).
Definition set_closed (s : AgentSession) := mkAgentSession (as_sid s) (as_user_id s) (as_controller s) (as_runtime s) (as_memory s)
  (as_starting s) (as_started_at s) true (as_status s) (as_closings s).
Definition add_status x (s : AgentSession) := mkAgentSession (as_sid s) (as_user_id s) (as_controller s) (as_runtime s) (as_memory s)
  (as_starting s) (as_started_at s) (as_closed s) (as_status s ++ [x]) (as_closings s).
Definition close_runtime (s : AgentSession) := mkAgentSession (as_sid s) (as_user_id s) (as_controller s) (as_runtime s) (as_memory s)
  (as_starting s) (as_started_at s) (as_closed s) (as_status s) (S (as_closings s)).

Abbreviation sessM := (pyM (World F * AgentSession)).
Definition self_ : sessM AgentSession := λ s, (s, Ok s.2).
Definition modify_ (f : AgentSession → AgentSession) : sessM unit := pmodify (λ s, (s.1, f s.2)).
Definition on_world (f : World F → World F) : sessM unit := pmodify (λ s, (f s.1, s.2)).
Definition session_emit (e : Event) (source : EventSource) : sessM unit := λ '(w, s),
  let '(w, _, res) := publish now e source w in ((w, s), res).
(** A method of the runtime; nothing happens without one. *)
Definition on_runtime (m : pyM (World F * Runtime X) unit) : sessM unit := λ '(w, s),
  match as_runtime s with
  | None => ((w, s), Ok tt)
  | Some r => let '((w, r), res) := m (w, r) in ((w, set_as_runtime (Some r) s), res)
  end.
(** A method of the controller *)
Definition on_controller (m : World F * Controller A → (World F * Controller A) * result unit) : sessM unit := λ '(w, s),
  match as_controller s with
  | None => ((w, s), Ok tt)
  | Some c => let '((w, c), res) := m (w, c) in ((w, set_as_controller (Some c) s), res)
  end.
(** [finally] *)
Definition pfinally {T} (m : sessM T) (f : sessM unit) : sessM T := λ s,
  let '(s, r) := m s in match f s with (s, Ok _) => (s, r) | (s, Raise e) => (s, Raise e) end.

(** The outside: the runtime's class, its connection and its cloning; the microagents of the
    repository; the directories of microagents; the tools of the agent. *)
Record Outside := mkOutside {
  ou_new_runtime : bool → list (string * string) → list (ProviderType * ProviderToken) → World F → World F * result (Runtime X);
  ou_connect : pyM (World F * Runtime X) unit;
  ou_clone : list (ProviderType * ProviderToken) → option string → option string → pyM (World F * Runtime X) unit;
  ou_new_memory : result Memory;
  ou_date : string;
  ou_hosts : dict;
  ou_agent_instructions : string;
  ou_microagents : option string → result (list Microagent);
  ou_add_mcp_tools : A → Memory → result (A * Memory);
}.
Variable ou : Outside.

(** [_create_runtime] *)
Definition create_runtime (a : StartArgs A) : sessM bool :=
  let* s := self_ in
  match as_runtime s with
  | Some _ => praise (RuntimeError "Runtime already created")
  | None =>
      let env_vars := custom_env_vars (sa_custom_secrets a) in
      let '(env_vars, tokens) :=
        if sa_remote a then (env_vars, override_provider_tokens_with_custom_secret (sa_tokens a) (sa_custom_secrets a))
        else (foldl (λ d kv, dset kv.1 kv.2 d) env_vars (token_env_vars (sa_tokens a)), sa_tokens a) in
      (λ '(w, s), match ou_new_runtime ou (sa_remote a) env_vars tokens w with
                  | (w, Ok r) => ((w, set_as_runtime (Some r) s), Ok tt)
                  | (w, Raise e) => ((w, s), Raise e)
                  end) ;;;
      let* connected :=
        pcatch (on_runtime (ou_connect ou) ;;; pret true)
          (λ e, if is_unavailable e
                then modify_ (add_status ("error", "STATUS$ERROR_RUNTIME_DISCONNECTED", exc_str e)) ;;; pret false
                else praise e) in
      if connected then
        on_runtime (ou_clone ou (sa_tokens a) (sa_repository a) (sa_branch a)) ;;;
        on_runtime (maybe_run_setup_script now) ;;; on_runtime maybe_setup_git_hooks ;;; pret true
      else pret false
  end.

(** The secrets that are redacted from the stream *)
Definition set_stream_secrets (a : StartArgs A) : sessM unit :=
  (match sa_tokens a with
   | [] => pret tt
   | tokens => on_world (λ w, set_w_stream (set_secrets (token_env_vars tokens) (w_stream w)) w)
   end) ;;;
  match sa_custom_secrets a with
  | [] => pret tt
  | custom => on_world (λ w, set_w_stream (set_secrets (custom_env_vars custom) (w_stream w)) w)
  end.

(** [_create_memory] *)
Definition memory_callback : nat := 1.
Definition create_memory (a : StartArgs A) (repo_directory : option string) : sessM Memory :=
  let* s := self_ in
  (λ '(w, s), let '(st, r) := subscribe "memory" (as_sid s) memory_callback (w_stream w) in ((set_w_stream st w, s), r)) ;;;
  let* m := plift (ou_new_memory ou) in
  match as_runtime s with
  | None => pret m
  | Some _ =>
      let descriptions := (λ e, (e.1, JStr e.2)) <$> get_custom_secrets_descriptions (mkSecrets [] (sa_custom_secrets a)) in
      let m := set_runtime_info (ou_date ou) (ou_hosts ou) (ou_agent_instructions ou) descriptions (sa_working_dir a) m in
      let m := set_conversation_instructions (sa_instructions a) m in
      let* l := plift (ou_microagents ou (truthy_str (sa_repository a))) in
      let m := load_user_workspace_microagents l m in
      pret (match truthy_str (sa_repository a), truthy_str repo_directory with
            | Some repo, Some dir => set_repository_info repo dir (sa_branch a) m
            | _, _ => m
            end)
  end.

(** [_maybe_restore_state] *)
Definition maybe_restore_state (f : F) (s : AgentSession) : option State :=
  match restore_from_session (as_sid s) f (as_user_id s) with Ok st => Some st | Raise _ => None end.

(** [_create_controller], which is then the session's; the result: a state was restored *)
Definition session_config (a : StartArgs A) (s : AgentSession) : ControllerConfig :=
  mkControllerConfig (as_sid s) (mkStateTracker (Some (as_sid s)) true (as_user_id s)) false false (sa_agent_configs a)
    (sa_max_iterations a) (sa_max_budget_per_task a) (Some (sa_status_callback a)) (sa_confirmation_mode a).
Definition create_controller (a : StartArgs A) (agent : A) (replay : option (list Event)) : sessM bool :=
  let* s := self_ in
  match as_controller s, as_runtime s with
  | Some _, _ => praise (RuntimeError "Controller already created")
  | None, None => praise (RuntimeError "Runtime must be initialized before the agent controller")
  | None, Some _ => λ '(w, s),
      let initial_state := maybe_restore_state (es_file_store (st_store (w_stream w))) s in
      match init_controller now (session_config a s) agent initial_state replay w with
      | (w, Ok c) => ((w, set_as_controller (Some c) s), Ok (bool_decide (is_Some initial_state)))
      | (w, Raise e) => ((w, s), Raise e)
      end
  end.

(** [_run_replay] *)
Definition run_replay (a : StartArgs A) (agent : A) (trajectory : result (list dict)) : sessM Event :=
  match sa_initial_message a with
  | Some _ => praise AssertionError
  | None =>
      let* l := plift trajectory in
      let* events := plift (get_replay_events l) in
      create_controller a agent (Some (tail events)) ;;;
      match events with
      | [] => praise IndexError
      | e :: _ => match ev_body e with EAction (AMessage _) => pret e | _ => praise AssertionError end
      end
  end.

(** [start], up to the creation of the runtime: whether to go on *)
Definition change_state (st : AgentState) : Event := new_action (AChangeAgentState (mkChangeAgentStateAction st "")).
Definition start_begin (time : Z) : sessM bool :=
  let* s := self_ in
  if bool_decide (is_Some (as_controller s)) || bool_decide (is_Some (as_runtime s))
  then praise (RuntimeError "Session already started. You need to close this session and start a new one.")
  else if as_closed s then pret false
  else modify_ (set_starting true time) ;;; pret true.
(** After the creation of the runtime: the other parts, and the first message *)
Definition start_parts (a : StartArgs A) (connected : bool) : sessM (option Event) :=
  let* s := self_ in
  let ready := bool_decide (is_Some (as_runtime s)) && connected in
  let repo_directory := if ready then primary_repo_path (sa_repository a) else None in
  set_stream_secrets a ;;;
  let* m := create_memory a repo_directory in
  modify_ (set_as_memory (Some m)) ;;;
  let* am := (if ready && sa_enable_mcp a then plift (ou_add_mcp_tools ou (sa_agent a) m) else pret (sa_agent a, m)) in
  modify_ (set_as_memory (Some am.2)) ;;;
  match sa_replay_json a with
  | Some trajectory => let* e := run_replay a am.1 trajectory in pret (Some e)
  | None => create_controller a am.1 None ;;; pret (sa_initial_message a)
  end.
(** The first events *)
Definition start_events (initial_message : option Event) : sessM unit :=
  let* s := self_ in
  if as_closed s then pret tt
  else match initial_message with
       | Some e => session_emit e USER ;;; session_emit (change_state RUNNING) ENVIRONMENT
       | None => session_emit (change_state AWAITING_USER_INPUT) ENVIRONMENT
       end.
Definition start_end : sessM unit := modify_ (λ s, set_starting false (as_started_at s) s).

Definition start (a : StartArgs A) (time : Z) : sessM unit :=
  let* go := start_begin time in
  if go then pfinally (let* connected := create_runtime a in let* m := start_parts a connected in start_events m) start_end else pret tt.

(** [close].  While the session starts it sleeps; each wake-up sees the time and whether
    it still starts.  [None]: it sleeps on after all given wake-ups. *)
Fixpoint close_wait (started_at : Z) (starting : bool) (wakes : list (Z * bool)) : option unit :=
  if starting then
    match wakes with
    | [] => None
    | (time, starting) :: wakes =>
        if time <=? started_at + seconds WAIT_TIME_BEFORE_CLOSE then Some tt else close_wait started_at starting wakes
    end
  else Some tt.
Definition close_parts : sessM unit :=
  on_world (λ w, set_w_stream (close (w_stream w)) w) ;;;
  on_controller (controller_save_state ;;; controller_close now true) ;;;
  modify_ (λ s, match as_runtime s with Some _ => close_runtime s | None => s end).
(** Closing, when the waiting ends at once or after some wake-ups *)
Definition session_close : sessM unit :=
  let* s := self_ in
  if as_closed s then pret tt else modify_ set_closed ;;; close_parts.

(** ** What the steps leave alone *)

(** The controller and the marks of the session's life are as before. *)
Definition same_life (s s' : AgentSession) : Prop :=
  as_starting s' = as_starting s ∧ as_started_at s' = as_started_at s ∧ as_closed s' = as_closed s ∧ as_closings s' = as_closings s.
Definition keeps {T} (m : sessM T) : Prop := ∀ s, same_life s.2 (m s).1.2.
Lemma keeps_bind {T U} (m : sessM T) (k : T → sessM U) : keeps m → (∀ x, keeps (k x)) → keeps (pbind m k).
Proof.
  intros Hm Hk s. unfold pbind. specialize (Hm s). destruct (m s) as [s1 [x|e]]; [|exact Hm].
  specialize (Hk x s1). cbn [fst snd] in *. destruct Hm as (? & ? & ? & ?), Hk as (? & ? & ? & ?). split_and!; congruence.
Qed.
Lemma keeps_world {T} (m : sessM T) : (∀ s, (m s).1.2 = s.2) → keeps m.
Proof. intros Hm s. by rewrite Hm. Qed.
Lemma keeps_catch {T} (m : sessM T) h : keeps m → (∀ e, keeps (h e)) → keeps (pcatch m h).
Proof.
  intros Hm Hh s. unfold pcatch. specialize (Hm s). destruct (m s) as [s1 [x|e]]; [exact Hm|].
  specialize (Hh e s1). cbn [fst snd] in *. destruct Hm as (? & ? & ? & ?), Hh as (? & ? & ? & ?). split_and!; congruence.
Qed.
Lemma keeps_pret {T} (x : T) : keeps (pret x). Proof. by apply keeps_world. Qed.
Lemma keeps_praise {T} e : keeps (T := T) (praise e). Proof. by apply keeps_world. Qed.
Lemma keeps_self : keeps self_. Proof. by apply keeps_world. Qed.
Lemma keeps_lift {T} (r : result T) : keeps (plift r). Proof. by apply keeps_world. Qed.
Lemma keeps_on_world f : keeps (on_world f). Proof. by apply keeps_world. Qed.
Lemma keeps_modify f : (∀ s, same_life s (f s)) → keeps (modify_ f). Proof. intros Hf s. apply Hf. Qed.
Lemma keeps_emit e src : keeps (session_emit e src).
Proof. apply keeps_world. intros [w s]. unfold session_emit. by destruct (publish now e src w) as [[? ?] ?]. Qed.
Lemma keeps_runtime m : keeps (on_runtime m).
Proof. intros [w s]. unfold on_runtime. destruct (as_runtime s); [|done]. by destruct (m (w, _)) as [[? ?] ?]. Qed.
Create HintDb session.
#[local] Hint Resolve keeps_bind keeps_catch keeps_pret keeps_praise keeps_self keeps_lift keeps_on_world keeps_emit keeps_runtime : session.

Lemma keeps_create_runtime a : keeps (create_runtime a).
Proof.
  unfold create_runtime. apply keeps_bind; [apply keeps_self|]. intros s. destruct (as_runtime s); [apply keeps_praise|].
  destruct (if sa_remote a then _ else _) as [env tokens]. apply keeps_bind.
  { intros [w s']. destruct (ou_new_runtime ou _ _ _ w) as [w' [r|e]]; done. }
  intros _. apply keeps_bind; [|intros []; auto with session]. apply keeps_catch; [auto with session|].
  intros e. destruct (is_unavailable e); [|apply keeps_praise]. apply keeps_bind; [|auto with session]. by apply keeps_modify.
Qed.
Lemma keeps_create_controller a agent r : keeps (create_controller a agent r).
Proof.
  unfold create_controller. apply keeps_bind; [apply keeps_self|]. intros s. destruct (as_controller s), (as_runtime s); try apply keeps_praise.
  intros [w s']. by destruct (init_controller now _ _ _ _ w) as [w' [c|e]].
Qed.
Lemma keeps_create_memory a d : keeps (create_memory a d).
Proof.
  unfold create_memory. apply keeps_bind; [apply keeps_self|]. intros s. apply keeps_bind.
  { apply keeps_world. intros [w s']. by destruct (subscribe _ _ _ _). }
  intros _. apply keeps_bind; [apply keeps_lift|]. intros m. destruct (as_runtime s); auto with session.
Qed.
Lemma keeps_start_parts a b : keeps (start_parts a b).
Proof.
  unfold start_parts. apply keeps_bind; [apply keeps_self|]. intros s. apply keeps_bind.
  { unfold set_stream_secrets. apply keeps_bind; [destruct (sa_tokens a); auto with session|].
    intros _. destruct (sa_custom_secrets a); auto with session. }
  intros _. apply keeps_bind; [apply keeps_create_memory|]. intros m. apply keeps_bind; [by apply keeps_modify|].
  intros _. apply keeps_bind; [destruct (_ && _); auto with session|]. intros am. apply keeps_bind; [by apply keeps_modify|].
  intros _. destruct (sa_replay_json a) as [t|]; (apply keeps_bind; [|auto with session]).
  - unfold run_replay. destruct (sa_initial_message a); [apply keeps_praise|]. apply keeps_bind; [apply keeps_lift|]. intros l.
    apply keeps_bind; [apply keeps_lift|]. intros events. apply keeps_bind; [apply keeps_create_controller|].
    intros _. destruct events as [|e ?]; [apply keeps_praise|]. destruct (ev_body e) as [[]|]; auto with session.
  - apply keeps_create_controller.
Qed.

(** ** Starting *)

(** The event as it was published, and the redacted copy that subscribers get. *)
Definition published (secrets : list (string * string)) (e : Event) (src : EventSource) (copy : Event) : Prop :=
  ∃ e' d, stored secrets e' = Ok (d, copy) ∧ ev_body e' = ev_body e ∧ event_source e' = Some src.
Lemma add_event_published t src (st st' : EventStream F) e e' :
  add_event t src (st, e) = ((st', e'), Ok tt) →
  ∃ copy, published (st_secrets st) e src copy ∧ st_queue st' = st_queue st ++ [copy] ∧ st_secrets st' = st_secrets st.
Proof.
  unfold add_event. destruct (negb _); [done|].
  assert (st_queue (on_store cur_id st).1 = st_queue st ∧ st_secrets (on_store cur_id st).1 = st_secrets st) as [Hq Hs]
    by (unfold on_store; by destruct (cur_id (st_store st))).
  destruct (on_store cur_id st) as [s1 [i|x]]; [|done]. simpl in Hq, Hs. cbv zeta.
  set (ev := set_id _ _). change (st_secrets (set_store _ s1)) with (st_secrets s1). rewrite Hs. fold (stored (st_secrets st) ev).
  destruct (stored (st_secrets st) ev) as [[data copy]|] eqn:Es; [|done]. set (s2 := set_page _ _).
  assert (st_queue s2 = st_queue st ∧ st_secrets s2 = st_secrets st) as [Hq2 Hs2] by done. clearbody s2.
  unfold pbind, pmodify. pose proof (write_file_queue (get_filename_for_id (st_store s2) (event_id copy)) (json_dumps (JDict data)) s2) as Hq3.
  assert (∀ p x (y : EventStream F), st_secrets (write_file p x y).1 = st_secrets y) as Hw
    by (intros p x y; unfold write_file, on_store; by destruct (fs_write _ _ _)).
  pose proof (Hw (get_filename_for_id (st_store s2) (event_id copy)) (json_dumps (JDict data)) s2) as Hs3.
  destruct (write_file _ _ s2) as [s3 [[]|]]; [|done]. simpl in Hq3, Hs3. set (page := st_page _ ++ [data]).
  pose proof (store_page_queue page s3) as Hq4.
  assert (st_secrets (store_cache_page page s3).1 = st_secrets s3) as Hs4.
  { unfold store_cache_page. destruct (_ <? _); [done|]. destruct page as [|d l]; [done|]. destruct (dget "id" d) as [[]|]; done || apply Hw. }
  destruct (store_cache_page page s3) as [s4 [[]|]]; [|done]. simpl in Hq4, Hs4. intros [= <- <-]. exists copy. split.
  - exists ev, data. split; [done|]. by destruct e as [? []].
  - simpl. split; congruence.
Qed.

Lemma create_runtime_ok a w s w' s' b :
  create_runtime a (w, s) = ((w', s'), Ok b) → is_Some (as_runtime s') ∧ as_controller s' = as_controller s.
Proof.
  unfold create_runtime. intros (s1 & x & Hx & Hk)%pbind_ok_inv. injection Hx as <- <-. destruct (as_runtime s) eqn:Er; [done|].
  destruct (if sa_remote a then _ else _) as [env tokens]. apply pbind_ok_inv in Hk as ([w1 s1] & [] & Hn & Hk).
  destruct (ou_new_runtime ou _ env tokens w) as [w2 [r|]]; [|done]. injection Hn as <- <-.
  assert (∀ m w s w' s' x, on_runtime m (w, s) = ((w', s'), x) →
    (is_Some (as_runtime s) → is_Some (as_runtime s')) ∧ as_controller s' = as_controller s) as Hrt.
  { intros m w1 s1 w3 s3 y. unfold on_runtime. destruct (as_runtime s1); [|by intros [= <- <- <-]].
    destruct (m (w1, _)) as [[? ?] ?]. intros [= <- <- <-]. split; [by eexists|done]. }
  apply pbind_ok_inv in Hk as ([w3 s3] & c & Hc & Hk). unfold pcatch, pbind at 1 in Hc.
  destruct (on_runtime (ou_connect ou) _) as [[w4 s4] [[]|e]] eqn:Eo in Hc; apply Hrt in Eo as [Hr1 Hr2].
  - injection Hc as <- <- <-. apply pbind_ok_inv in Hk as ([w5 s5] & [] & H5%Hrt & Hk).
    apply pbind_ok_inv in Hk as ([w6 s6] & [] & H6%Hrt & Hk). apply pbind_ok_inv in Hk as ([w7 s7] & [] & H7%Hrt & Hk).
    injection Hk as <- <- <-. destruct H5, H6, H7. simpl in *. split; [|congruence]. eauto.
  - destruct (is_unavailable e); [|done]. injection Hc as <- <- <-. injection Hk as <- <- <-. simpl in *. split; [|done]. apply Hr1. by eexists.
Qed.
Lemma create_controller_ok a agent r w s w' s' b :
  create_controller a agent r (w, s) = ((w', s'), Ok b) →
  is_Some (as_controller s') ∧ is_Some (as_runtime s') ∧ as_memory s' = as_memory s.
Proof.
  unfold create_controller, pbind, self_. simpl. destruct (as_controller s), (as_runtime s) eqn:Er; try done.
  destruct (init_controller now _ _ _ _ w) as [w1 [c|]]; [|done]. intros [= <- <- _]. simpl. rewrite Er. split; [by eexists|]. by split; [eexists|].
Qed.
Lemma start_parts_ok a b w s w' s' m :
  start_parts a b (w, s) = ((w', s'), Ok m) →
  is_Some (as_controller s') ∧ is_Some (as_runtime s') ∧ is_Some (as_memory s')
  ∧ (sa_replay_json a = None → m = sa_initial_message a).
Proof.
  unfold start_parts. intros (? & ? & _ & Hk)%pbind_ok_inv. apply pbind_ok_inv in Hk as (? & ? & _ & Hk).
  apply pbind_ok_inv in Hk as (? & ? & _ & Hk). apply pbind_ok_inv in Hk as (? & ? & _ & Hk).
  apply pbind_ok_inv in Hk as ([w1 s1] & [agent m1] & _ & Hk). unfold pbind at 1, modify_, pmodify in Hk. cbn [fst snd] in Hk.
  destruct (sa_replay_json a) as [t|].
  - apply pbind_ok_inv in Hk as ([w2 s2] & e & Hr & Hk). injection Hk as <- <- <-. unfold run_replay in Hr.
    destruct (sa_initial_message a); [done|]. apply pbind_ok_inv in Hr as (? & ? & Hl & Hr). injection Hl as <- _.
    apply pbind_ok_inv in Hr as (? & events & Hl & Hr). injection Hl as <- _.
    apply pbind_ok_inv in Hr as ([w3 s3] & ? & Hc%create_controller_ok & Hr). destruct Hc as (? & ? & Hm).
    assert (s3 = s2) as -> by (destruct events as [|ev ?]; [done|]; destruct (ev_body ev) as [[]|]; by injection Hr).
    rewrite Hm. by split_and!.
  - apply pbind_ok_inv in Hk as ([w2 s2] & e & Hc%create_controller_ok & Hk). injection Hk as <- <- <-. destruct Hc as (? & ? & Hm).
    rewrite Hm. by split_and!.
Qed.

Lemma session_emit_ok e src w s w' s' :
  session_emit e src (w, s) = ((w', s'), Ok tt) →
  s' = s ∧ ∃ copy, published (st_secrets (w_stream w)) e src copy ∧ queue w' = queue w ++ [copy]
    ∧ st_secrets (w_stream w') = st_secrets (w_stream w).
Proof.
  unfold session_emit, publish. destruct (add_event _ _ _) as [[st e'] r] eqn:Ea. intros [= <- <- ->]. split; [done|].
  by apply add_event_published in Ea.
Qed.

(** C36 A session that starts has all of its parts and tells the agent what to do: when
    [start] returns without raising, for a session that was not closed, there are a
    runtime, a memory and a controller, the session is no longer starting, and the last
    events of the stream are the first message, from the user, and the change to running,
    from the environment; or, without a first message, only the change to awaiting the
    user's input.  A session that was closed before stays as it was. *)
Theorem session_started a time w s w' s' :
  start a time (w, s) = ((w', s'), Ok tt) →
  if as_closed s then w' = w ∧ s' = s
  else is_Some (as_runtime s') ∧ is_Some (as_memory s') ∧ is_Some (as_controller s')
    ∧ as_starting s' = false ∧ as_closed s' = false
    ∧ ∃ secrets before message,
        (sa_replay_json a = None → message = sa_initial_message a)
        ∧ match message with
          | Some e => ∃ m c, queue w' = before ++ [m; c] ∧ published secrets e USER m
                       ∧ published secrets (change_state RUNNING) ENVIRONMENT c
          | None => ∃ c, queue w' = before ++ [c] ∧ published secrets (change_state AWAITING_USER_INPUT) ENVIRONMENT c
          end.
Proof.
  unfold start. intros (s0 & go & Hb & Hk)%pbind_ok_inv. unfold start_begin, pbind at 1, self_ in Hb. cbn [snd fst] in Hb.
  destruct (bool_decide (is_Some (as_controller s)) || bool_decide (is_Some (as_runtime s))); [done|].
  destruct (as_closed s) eqn:Ec; [injection Hb as <- <-; by injection Hk as <- <-|].
  injection Hb as <- <-. unfold pfinally in Hk. cbn [fst snd] in Hk.
  match type of Hk with context [?m (w, set_starting true time s)] => destruct (m (w, set_starting true time s)) as [s1 r1] eqn:Em in Hk end.
  unfold start_end, modify_, pmodify in Hk. injection Hk as Ew Es ->.
  apply pbind_ok_inv in Em as ([w2 s2] & connected & Hr & Em). apply pbind_ok_inv in Em as ([w3 s3] & message & Hp & He).
  pose proof (keeps_create_runtime a (w, set_starting true time s)) as K1. rewrite Hr in K1. cbn [fst snd] in K1.
  pose proof (keeps_start_parts a connected (w2, s2)) as K2. rewrite Hp in K2. cbn [fst snd] in K2.
  assert (as_closed s3 = false) as Hc. { destruct K1 as (_ & _ & K1 & _), K2 as (_ & _ & K2 & _). by rewrite K2, K1. }
  apply start_parts_ok in Hp as (Pc & Pr & Pm & Pmsg). unfold start_events, pbind at 1, self_ in He. cbn [fst snd] in He. rewrite Hc in He.
  assert (∃ secrets before, s1.2 = s3 ∧ match message with
          | Some e => ∃ m c, queue s1.1 = before ++ [m; c] ∧ published secrets e USER m
                       ∧ published secrets (change_state RUNNING) ENVIRONMENT c
          | None => ∃ c, queue s1.1 = before ++ [c] ∧ published secrets (change_state AWAITING_USER_INPUT) ENVIRONMENT c
          end) as (secrets & before & Hs1 & Hev).
  { exists (st_secrets (w_stream w3)), (queue w3). destruct message as [e|].
    - apply pbind_ok_inv in He as ([w4 s4] & [] & [-> (m & Hm & Hq & Hsec)]%session_emit_ok & He).
      destruct s1 as [w5 s5]. apply session_emit_ok in He as [-> (c & Hc' & Hq' & _)]. split; [done|].
      exists m, c. rewrite Hsec in Hc'. simpl. rewrite Hq', Hq, <-app_assoc. done.
    - destruct s1 as [w5 s5]. apply session_emit_ok in He as [-> (c & Hc' & Hq' & _)]. split; [done|]. by exists c. }
  destruct s1 as [w5 s5]. cbn [fst snd] in *. subst w' s' s5. split_and!; try done. by exists secrets, before, message.
Qed.

(** ** Closing *)

Lemma on_controller_frame m w s w' s' x :
  on_controller m (w, s) = ((w', s'), x) → same_life s s' ∧ as_runtime s' = as_runtime s.
Proof.
  unfold on_controller. destruct (as_controller s); [|by intros [= <- <- <-]]. destruct (m (w, _)) as [[? ?] ?]. by intros [= <- <- <-].
Qed.

(** A session that does not start any more is closed once: every part is closed, and
    closing again does nothing. *)
Lemma session_close_once w s w' s' :
  as_closed s = false → session_close (w, s) = ((w', s'), Ok tt) →
  as_closed s' = true ∧ as_closings s' = (if as_runtime s then S (as_closings s) else as_closings s)
  ∧ session_close (w', s') = ((w', s'), Ok tt).
Proof.
  intros Hc. unfold session_close at 1, pbind at 1, self_. cbn [snd]. rewrite Hc.
  intros (s1 & [] & K1 & Hk)%pbind_ok_inv. injection K1 as <-. unfold close_parts in Hk.
  apply pbind_ok_inv in Hk as (s2 & [] & K2 & Hk). injection K2 as <-. apply pbind_ok_inv in Hk as ([w3 s3] & [] & K3 & Hk).
  assert (as_closed s3 = true ∧ as_closings s3 = as_closings s ∧ as_runtime s3 = as_runtime s) as (E1 & E2 & E3).
  { apply on_controller_frame in K3 as [(_ & _ & ? & ?) ?]. done. }
  injection Hk as <- <-. cbn [fst snd].
  assert (as_closed (match as_runtime s3 with Some _ => close_runtime s3 | None => s3 end) = true) as Ex by (by destruct (as_runtime s3)).
  split; [done|]. split; [rewrite <-E3; destruct (as_runtime s3); simpl; congruence|].
  unfold session_close, pbind at 1, self_. cbn [snd]. by rewrite Ex.
Qed.

(** The session is closed while its runtime is being created: the runtime is never closed. *)
Lemma abandoned_runtime a w s w1 s1 b :
  as_runtime s = None → as_closed s = true → create_runtime a (w, s) = ((w1, s1), Ok b) →
  is_Some (as_runtime s1) ∧ as_closings s1 = as_closings s ∧ session_close (w1, s1) = ((w1, s1), Ok tt).
Proof.
  intros _ Hc Hr. pose proof (keeps_create_runtime a (w, s)) as (_ & _ & K1 & K2). rewrite Hr in K1, K2. cbn [fst snd] in K1, K2.
  apply create_runtime_ok in Hr as [Hr _]. split; [done|]. split; [done|]. unfold session_close, pbind, self_. cbn [snd]. by rewrite K1, Hc.
Qed.
End session.

(** Waiting for the start to end stops at the first wake-up while the start is young ... *)
Example close_gives_up_at_once t : close_wait t true [(t + seconds WAIT_TIME_BEFORE_CLOSE_INTERVAL, true)] = Some tt.
Proof. simpl. rewrite (proj2 (Z.leb_le _ _)); [done|]. unfold seconds, WAIT_TIME_BEFORE_CLOSE_INTERVAL, WAIT_TIME_BEFORE_CLOSE. lia. Qed.
(** ... and never when it takes long. *)
Lemma close_waits_for_ever t wakes :
  Forall (λ w, t + seconds WAIT_TIME_BEFORE_CLOSE < w.1 ∧ w.2 = true) wakes → close_wait t true wakes = None.
Proof.
  induction 1 as [|[time b] wakes [Ht Hb] _ IH]; [done|]. simpl in *. subst b. destruct (Z.leb_spec time (t + seconds WAIT_TIME_BEFORE_CLOSE)); [lia|done].
Qed.

(** ** The web session *)

(** What the client of a conversation is sent for an event: [_on_event] *)
Definition as_agent (d : dict) : dict := dset "source" (JStr "agent") d.
Definition client_message `{Platform} (e : Event) : result (option dict) :=
  let is_null := match ev_body e with
                 | EAction ANull => true
                 | EObservation o => match obs_kind o with ONull => true | _ => false end
                 | _ => false
                 end in
  let feedback := match ev_body e with
                  | EObservation o => match obs_kind o with OCmdOutput _ | OAgentStateChanged _ | ORecall _ => true | _ => false end
                  | _ => false
                  end in
  let error := match ev_body e with
               | EObservation o => match obs_kind o with OError _ => true | _ => false end
               | _ => false
               end in
  if is_null then Ok None
  else if bool_decide (event_source e = Some AGENT) || bool_decide (event_source e = Some USER)
  then let? d := to_dict e in Ok (Some d)
  else if bool_decide (event_source e = Some ENVIRONMENT) && feedback
  then let? d := to_dict e in Ok (Some (as_agent d))
  else if error then let? d := to_dict e in Ok (Some (as_agent d))
  else Ok None.

(** The queue to the client; [wc_emitted] is what was emitted to the room. *)
Record WebClient := mkWebClient { wc_alive : bool; wc_queue : list json; wc_emitted : list json }.
Definition web_send (d : json) (c : WebClient) : WebClient := mkWebClient (wc_alive c) (wc_queue c ++ [d]) (wc_emitted c).
(** One turn of [_monitor_publish_queue]: [_send]; [ok]: emitting does not raise *)
Definition web_deliver (ok : bool) (c : WebClient) : WebClient :=
  match wc_queue c with
  | [] => c
  | d :: q =>
      if wc_alive c then if ok then mkWebClient true q (wc_emitted c ++ [d]) else mkWebClient false q (wc_emitted c)
      else mkWebClient false q (wc_emitted c)
  end.
Definition on_web_event `{Platform} (e : Event) (c : WebClient) : result WebClient :=
  let? d := client_message e in
  Ok (match d with Some d => web_send (JDict d) c | None => c end).
Definition send_error (message : string) : WebClient → WebClient :=
  web_send (JDict [("error", JBool true); ("message", JStr message)]).

(** [dispatch]; [vision] are [disable_vision] and [vision_is_active()] of the controller's
    LLM, if there is a controller *)
Definition dispatch `{FileStore F} `{Platform} (now : nat → string) (vision : option (bool * bool)) (data : dict) :
    pyM (World F * WebClient) unit := λ '(w, c),
  match from_dict data with
  | Raise e => ((w, c), Raise e)
  | Ok e =>
      let has_images := match ev_body e with
                        | EAction (AMessage a) => match ma_image_urls a with Some (_ :: _) => true | _ => false end
                        | _ => false
                        end in
      match (if has_images then vision else None) with
      | Some (true, _) => ((w, send_error "Support for images is disabled for this model, try without an image." c), Ok tt)
      | Some (false, false) =>
          ((w, send_error "Model does not support image upload, change to a different model or try without an image." c), Ok tt)
      | _ => let '(w, _, r) := publish now e USER w in ((w, c), r)
      end
  end.

(** The client gets what is sent, in order: what was emitted, and with a living connection
    what waits, is what was sent. *)
Inductive WebOp := WSend (d : json) | WDeliver (ok : bool).
Definition web_op (c : WebClient) (op : WebOp) : WebClient :=
  match op with WSend d => web_send d c | WDeliver ok => web_deliver ok c end.
Definition web_sent (ops : list WebOp) : list json := omap (λ op, match op with WSend d => Some d | WDeliver _ => None end) ops.
Lemma client_gets_all ops :
  let c := foldl web_op (mkWebClient true [] []) ops in
  wc_emitted c `prefix_of` web_sent ops ∧ (wc_alive c = true → web_sent ops = wc_emitted c ++ wc_queue c).
Proof.
  cut (∀ c sent, wc_emitted c `prefix_of` sent → (wc_alive c = true → sent = wc_emitted c ++ wc_queue c) →
    let c' := foldl web_op c ops in
    wc_emitted c' `prefix_of` sent ++ web_sent ops ∧ (wc_alive c' = true → sent ++ web_sent ops = wc_emitted c' ++ wc_queue c')).
  { intros Hx. by apply (Hx (mkWebClient true [] []) []). }
  induction ops as [|op ops IH]; intros c sent Hp Ha; cbn; [by rewrite app_nil_r|].
  destruct op as [d|ok]; cbn.
  - change (sent ++ d :: _) with (sent ++ [d] ++ web_sent ops). rewrite app_assoc. apply IH; cbn.
    + by apply prefix_app_r.
    + intros Hl. by rewrite (Ha Hl), app_assoc.
  - apply IH; unfold web_deliver; (destruct (wc_queue c) as [|x q] eqn:Eq; [by rewrite ?Eq|]).
    + destruct (wc_alive c) eqn:El; [|done]. destruct ok; [|done]. exists q. rewrite (Ha eq_refl). cbn. by rewrite <-app_assoc.
    + destruct (wc_alive c) eqn:El; [|done]. destruct ok; [|done]. intros _. rewrite (Ha eq_refl). cbn. by rewrite <-app_assoc.
Qed.

(** ** Examples *)

Module session_example.
Import runtime_example.
#[local] Existing Instance logging.
Definition outside : @Outside InMemoryFileStore Scripted (list Event) :=
  mkOutside (λ _ env tokens w, (w, Ok rt)) (λ x, (x, Ok tt)) (λ _ _ _ x, (x, Ok tt)) (Ok (mkMemory true [] [] None None None []))
    "2025-01-01" [] "" (λ _, Ok []) (λ a m, Ok (a, m)).
Definition args (message : option Event) : StartArgs Scripted :=
  mkStartArgs false (mkScripted [] ex_agent_config) false false 100 None []
    [(GITHUB, mkProviderToken (Some "gh-1") None None)] [("API_KEY", mkCustomSecret "swordfish" "")]
    (Some "org/repo") None message None None "/workspace" (λ _ _, Ok tt).
Definition session0 : @AgentSession Scripted (list Event) := new_AgentSession "s" None.
Abbreviation started_session := (start ex_now outside (args (Some (new_message "fix the bug"))) 1000 (world0, session0)).

Lemma started_ok : ∃ w' s', started_session = ((w', s'), Ok tt).
Proof. eexists _, _. vm_compute. reflexivity. Qed.
Lemma session_started_witness :
  ∃ w' s', started_session = ((w', s'), Ok tt) ∧ is_Some (as_controller s')
  ∧ ∃ secrets before m c, queue w' = before ++ [m; c] ∧ published secrets (new_message "fix the bug") USER m
      ∧ published secrets (change_state RUNNING) ENVIRONMENT c.
Proof.
  destruct started_ok as (w' & s' & E). exists w', s'. split; [exact E|].
  destruct (session_started ex_now outside (args (Some (new_message "fix the bug"))) 1000 world0 session0 w' s' E)
    as (_ & _ & Hc & _ & _ & secrets & before & message & Hm & Hq).
  split; [exact Hc|]. rewrite (Hm eq_refl) in Hq. destruct Hq as (m & c & Hq). exists secrets, before, m, c. exact Hq.
Defined.

(** With custom secrets the provider's tokens are no longer redacted from the stream. *)
Example tokens_not_redacted :
  st_secrets (w_stream started_session.1.1) = [("API_KEY", "swordfish")].
Proof. vm_compute. reflexivity. Qed.
End session_example.
