(* ===== verification/DeviceAuth.v ===== *)
(** * Signing in from a device

    Models [enterprise/storage/device_code.py], [device_code_store.py], [api_key.py],
    [api_key_store.py], [enterprise/server/routes/oauth_device.py] and the API key routes
    of [enterprise/server/routes/api_keys.py]: the device authorization flow of RFC 8628.
    Several servers share one database, which shows each statement what is committed, so a
    request is a state that advances by one access to the database at a time, and the
    requests interleave in any order.  A session that reads a row and then writes it takes
    two turns.  Times are in microseconds.  Parameters: the order in which the database
    returns rows, and, for each turn, the clock, whether the database fails, the random
    texts and the organization of the user. *)

From S2P Require Import Prelude PyValue EventStore.
Local Open Scope Z_scope.
Local Open Scope py_scope.

(** ** Device codes *)

Inductive DeviceCodeStatus := PENDING | AUTHORIZED | EXPIRED | DENIED.
Definition status_value (s : DeviceCodeStatus) : string :=
  match s with PENDING => "pending" | AUTHORIZED => "authorized" | EXPIRED => "expired" | DENIED => "denied" end.

Record DeviceCode := mkDeviceCode {
  dc_id : Z;
  dc_device_code : string;
  dc_user_code : string;
  dc_status : string;
  dc_keycloak_user_id : option string;
  dc_expires_at : Z;
  dc_authorized_at : option Z;
  dc_last_poll_time : option Z;
  dc_current_interval : Z;
}.
Definition us (seconds : Z) : Z := seconds * 1000000.

Definition is_expired (now : Z) (c : DeviceCode) : bool := dc_expires_at c <? now.
Definition is_pending (now : Z) (c : DeviceCode) : bool :=
  String.eqb (dc_status c) (status_value PENDING) && negb (is_expired now c).
Definition is_authorized (c : DeviceCode) : bool := String.eqb (dc_status c) (status_value AUTHORIZED).
Definition set_dc_status (st : string) (user : option string) (at_ : option Z) (c : DeviceCode) : DeviceCode :=
  mkDeviceCode (dc_id c) (dc_device_code c) (dc_user_code c) st user (dc_expires_at c) at_ (dc_last_poll_time c)
    (dc_current_interval c).
Definition authorize (user_id : string) (now : Z) (c : DeviceCode) : DeviceCode :=
  set_dc_status (status_value AUTHORIZED) (Some user_id) (Some now) c.
Definition deny (c : DeviceCode) : DeviceCode :=
  set_dc_status (status_value DENIED) (dc_keycloak_user_id c) (dc_authorized_at c) c.
Definition expire (c : DeviceCode) : DeviceCode :=
  set_dc_status (status_value EXPIRED) (dc_keycloak_user_id c) (dc_authorized_at c) c.

Definition increased (interval : Z) : Z := Z.min (interval + 5) 60.
Definition check_rate_limit (now : Z) (c : DeviceCode) : bool * Z :=
  match dc_last_poll_time c with
  | None => (false, dc_current_interval c)
  | Some last =>
      if now - last <? us (dc_current_interval c) then (true, increased (dc_current_interval c))
      else (false, dc_current_interval c)
  end.
Definition set_poll (last : Z) (interval : Z) (c : DeviceCode) : DeviceCode :=
  mkDeviceCode (dc_id c) (dc_device_code c) (dc_user_code c) (dc_status c) (dc_keycloak_user_id c) (dc_expires_at c)
    (dc_authorized_at c) (Some last) interval.
Definition dc_update_poll_time (increase_interval : bool) (now : Z) (c : DeviceCode) : DeviceCode :=
  set_poll now (if increase_interval then increased (dc_current_interval c) else dc_current_interval c) c.

(** ** API keys *)

Record ApiKey := mkApiKey {
  ak_id : Z;
  ak_key : string;
  ak_user_id : string;
  ak_org_id : option string;
  ak_name : option string;
  ak_created_at : Z;
  ak_last_used_at : option Z;
  ak_expires_at : option Z;
}.

Record KeyDb := mkKeyDb {
  db_codes : list DeviceCode;
  db_next_code : Z;
  db_keys : list ApiKey;
  db_next_key : Z;
}.
Definition set_codes (l : list DeviceCode) (db : KeyDb) : KeyDb :=
  mkKeyDb l (db_next_code db) (db_keys db) (db_next_key db).
Definition set_keys (l : list ApiKey) (db : KeyDb) : KeyDb :=
  mkKeyDb (db_codes db) (db_next_code db) l (db_next_key db).

(** ** [DeviceCodeStore] *)

Definition get_by_device_code (device_code : string) (db : KeyDb) : option DeviceCode :=
  py_find (λ c, String.eqb (dc_device_code c) device_code) (db_codes db).
Definition get_by_user_code (user_code : string) (db : KeyDb) : option DeviceCode :=
  py_find (λ c, String.eqb (dc_user_code c) user_code) (db_codes db).
(** [UPDATE ... WHERE id = id] *)
Definition update_code (id : Z) (f : DeviceCode → DeviceCode) (db : KeyDb) : KeyDb :=
  set_codes ((λ c, if dc_id c =? id then f c else c) <$> db_codes db) db.

(** One attempt of [create_device_code]; [None] is an [IntegrityError]. *)
Definition insert_code (device_code user_code : string) (expires_at : Z) (db : KeyDb) : option (KeyDb * DeviceCode) :=
  if existsb (λ c, String.eqb (dc_device_code c) device_code || String.eqb (dc_user_code c) user_code) (db_codes db)
  then None
  else let c := mkDeviceCode (db_next_code db) device_code user_code (status_value PENDING) None expires_at None None 5 in
       Some (mkKeyDb (db_codes db ++ [c]) (db_next_code db + 1) (db_keys db) (db_next_key db), c).

(** The commits of the three sessions that read a row first.  The write sets the columns
    that the session changed in the row it had read. *)
Definition authorize_write (read : DeviceCode) (user_id : string) (now : Z) (db : KeyDb) : KeyDb :=
  update_code (dc_id read) (authorize user_id now) db.
Definition deny_write (read : DeviceCode) (db : KeyDb) : KeyDb :=
  update_code (dc_id read) (λ c, set_dc_status (status_value DENIED) (dc_keycloak_user_id c) (dc_authorized_at c) c) db.
Definition poll_write (read : DeviceCode) (increase_interval : bool) (now : Z) (db : KeyDb) : KeyDb :=
  let interval := dc_current_interval (dc_update_poll_time increase_interval now read) in
  update_code (dc_id read)
    (λ c, set_poll now (if interval =? dc_current_interval read then dc_current_interval c else interval) c) db.

(** The sessions without anything in between *)
Definition authorize_device_code (user_code user_id : string) (now : Z) (db : KeyDb) : KeyDb * bool :=
  match get_by_user_code user_code db with
  | None => (db, false)
  | Some c => if is_pending now c then (authorize_write c user_id now db, true) else (db, false)
  end.
Definition deny_device_code (user_code : string) (now : Z) (db : KeyDb) : KeyDb * bool :=
  match get_by_user_code user_code db with
  | None => (db, false)
  | Some c => if is_pending now c then (deny_write c db, true) else (db, false)
  end.
Definition update_poll_time (device_code : string) (increase_interval : bool) (now : Z) (db : KeyDb) : KeyDb * bool :=
  match get_by_device_code device_code db with
  | None => (db, false)
  | Some c => (poll_write c increase_interval now db, true)
  end.

(** ** [ApiKeyStore] *)

Section keys.
Variable key_order : list ApiKey → list ApiKey.

Definition API_KEY_PREFIX : string := "sk-oh-".
Definition generate_api_key (random_part : string) : string := API_KEY_PREFIX +:+ random_part.

(** [_store_api_key]; [None] is an [IntegrityError]. *)
Definition store_api_key (user_id : string) (org_id : option string) (api_key : string) (name : option string)
    (expires_at : option Z) (now : Z) (db : KeyDb) : option KeyDb :=
  if existsb (λ k, String.eqb (ak_key k) api_key) (db_keys db) then None
  else Some (mkKeyDb (db_codes db) (db_next_code db)
               (db_keys db ++ [mkApiKey (db_next_key db) api_key user_id org_id name now None expires_at])
               (db_next_key db + 1)).
Definition find_key (f : ApiKey → bool) (db : KeyDb) : option ApiKey := py_find f (key_order (db_keys db)).
Definition remove_key (id : Z) (db : KeyDb) : KeyDb := set_keys (py_filter (λ k, negb (ak_id k =? id)) (db_keys db)) db.

Definition validate_api_key (api_key : string) (now : Z) (db : KeyDb) : KeyDb * option string :=
  match find_key (λ k, String.eqb (ak_key k) api_key) db with
  | None => (db, None)
  | Some k =>
      if match ak_expires_at k with Some e => e <? now | None => false end then (db, None)
      else (set_keys ((λ r, if ak_id r =? ak_id k
                            then mkApiKey (ak_id r) (ak_key r) (ak_user_id r) (ak_org_id r) (ak_name r) (ak_created_at r)
                                   (Some now) (ak_expires_at r)
                            else r) <$> db_keys db) db, Some (ak_user_id k))
  end.
Definition delete_first (f : ApiKey → bool) (db : KeyDb) : KeyDb * bool :=
  match find_key f db with
  | None => (db, false)
  | Some k => (remove_key (ak_id k) db, true)
  end.
Definition delete_api_key (api_key : string) : KeyDb → KeyDb * bool := delete_first (λ k, String.eqb (ak_key k) api_key).
Definition delete_api_key_by_id (key_id : Z) : KeyDb → KeyDb * bool := delete_first (λ k, ak_id k =? key_id).
Definition named (user_id name : string) (k : ApiKey) : bool :=
  String.eqb (ak_user_id k) user_id && bool_decide (ak_name k = Some name).
Definition delete_api_key_by_name (user_id name : string) : KeyDb → KeyDb * bool := delete_first (named user_id name).
Definition retrieve_api_key_by_name (user_id name : string) (db : KeyDb) : option string :=
  ak_key <$> find_key (named user_id name) db.
Definition keys_of (user_id : string) (org_id : option string) (db : KeyDb) : list ApiKey :=
  py_filter (λ k, String.eqb (ak_user_id k) user_id && bool_decide (ak_org_id k = org_id)) (key_order (db_keys db)).
(** The rows [_list_api_keys_from_db] shows *)
Definition list_api_keys_from_db (user_id : string) (org_id : option string) (db : KeyDb) : list ApiKey :=
  py_filter (λ k, negb (bool_decide (ak_name k = Some "MCP_API_KEY"))) (keys_of user_id org_id db).
Definition retrieve_mcp_api_key_from_db (user_id : string) (org_id : option string) (db : KeyDb) : option string :=
  ak_key <$> py_find (λ k, bool_decide (ak_name k = Some "MCP_API_KEY")) (keys_of user_id org_id db).

(** ** The API key routes *)

(** One access to the database: the time, whether it raises, the user's organization
    ([None]: no such user) and the random texts drawn before it. *)
Record Turn := mkTurn {
  tn_now : Z;
  tn_fails : bool;
  tn_user : option (option string);
  tn_key : string;
  tn_device_code : string;
  tn_user_code : string;
}.

(** [KeyNothing]: the handler returns [None], which is no response of its model. *)
Inductive KeyResponse :=
  | KeyCreated (details : ApiKey) (key : string)
  | KeyList (keys : list ApiKey)
  | KeyDeleted
  | KeyNothing
  | KeyFailed (status : Z) (detail : string).

Definition create_api_key_route (user_id : string) (name : option string) (expires_at : option Z) (t : Turn)
    (db : KeyDb) : KeyDb * KeyResponse :=
  if match expires_at with Some e => e <? tn_now t | None => false end
  then (db, KeyFailed 422 "Expiration date cannot be in the past")
  else
    let failed := (db, KeyFailed 500 "Failed to create API key") in
    if tn_fails t then failed
    else match tn_user t with
         | None => failed
         | Some org_id =>
             match store_api_key user_id org_id (generate_api_key (tn_key t)) name expires_at (tn_now t) db with
             | None => failed
             | Some db =>
                 (db, match py_find (λ k, bool_decide (ak_name k = name)) (list_api_keys_from_db user_id org_id db) with
                      | Some k => KeyCreated k (generate_api_key (tn_key t))
                      | None => KeyNothing
                      end)
             end
         end.
Definition list_api_keys_route (user_id : string) (t : Turn) (db : KeyDb) : KeyResponse :=
  match tn_fails t, tn_user t with
  | false, Some org_id => KeyList (list_api_keys_from_db user_id org_id db)
  | _, _ => KeyFailed 500 "Failed to list API keys"
  end.
Definition delete_api_key_route (key_id : Z) (user_id : string) (t : Turn) (db : KeyDb) : KeyDb * KeyResponse :=
  match tn_fails t, tn_user t with
  | false, Some org_id =>
      match py_find (λ k, ak_id k =? key_id) (list_api_keys_from_db user_id org_id db) with
      | None => (db, KeyFailed 404 "API key not found")
      | Some _ =>
          let '(db, success) := delete_api_key_by_id key_id db in
          (db, if success then KeyDeleted else KeyFailed 500 "Failed to delete API key")
      end
  | _, _ => (db, KeyFailed 500 "Failed to delete API key")
  end.

(** ** The device flow: [/authorize] *)

Definition DEVICE_CODE_EXPIRES_IN : Z := 600.
Definition MAX_ATTEMPTS : nat := 10.
Definition API_KEY_NAME : string := "Device Link Access Key".
Definition KEY_EXPIRATION_TIME : Z := us (7 * 24 * 3600).
Definition device_key_name (user_code : string) : string := API_KEY_NAME +:+ " (" +:+ user_code +:+ ")".

Inductive StartState :=
  | SAttempt (attempt : nat)
  | SStarted (device_code user_code verification_uri verification_uri_complete : string) (expires_in interval : Z)
  | SFailed.
(** [base_url] is [str(http_request.base_url).rstrip('/')]. *)
Definition device_authorization (base_url : string) (t : Turn) (db : KeyDb) (s : StartState) : KeyDb * StartState :=
  match s with
  | SAttempt n =>
      if tn_fails t then (db, SFailed)
      else match insert_code (tn_device_code t) (tn_user_code t) (tn_now t + us DEVICE_CODE_EXPIRES_IN) db with
           | Some (db, c) =>
               let uri := base_url +:+ "/oauth/device/verify" in
               (db, SStarted (dc_device_code c) (dc_user_code c) uri (uri +:+ "?user_code=" +:+ dc_user_code c)
                      DEVICE_CODE_EXPIRES_IN (dc_current_interval c))
           | None => (db, if (S n <? MAX_ATTEMPTS)%nat then SAttempt (S n) else SFailed)
           end
  | _ => (db, s)
  end.

(** ** [/token] *)

Inductive TokenResponse :=
  | AccessToken (access_token : string)
  | OAuthError (status : Z) (error description : string) (interval : option Z).
Inductive TokenState :=
  | TStart
  | TUpdate (increase_interval : bool) (entry : DeviceCode)
  | TWrite (increase_interval : bool) (entry read : DeviceCode)
  | TChecked (entry : DeviceCode)
  | TDone (r : TokenResponse).
Definition server_error (description : string) : TokenState := TDone (OAuthError 500 "server_error" description None).
Definition slow_down (entry : DeviceCode) : TokenState :=
  let interval := increased (dc_current_interval entry) in
  TDone (OAuthError 400 "slow_down"
           ("Polling too frequently. Wait at least " +:+ pretty interval +:+ " seconds between requests.") (Some interval)).
(** After the poll time is updated; the clock is read for the expiry. *)
Definition token_decision (entry : DeviceCode) (t : Turn) (db : KeyDb) : TokenState :=
  if is_expired (tn_now t) entry then TDone (OAuthError 400 "expired_token" "Device code has expired" None)
  else if String.eqb (dc_status entry) "denied"
       then TDone (OAuthError 400 "access_denied" "User denied the authorization request" None)
  else if String.eqb (dc_status entry) "pending"
       then TDone (OAuthError 400 "authorization_pending" "User has not yet completed authorization" None)
  else if String.eqb (dc_status entry) "authorized" then
    if tn_fails t then server_error "Internal server error"
    else match dc_keycloak_user_id entry with
         | None => server_error "API key not found"
         | Some user =>
             match retrieve_api_key_by_name user (device_key_name (dc_user_code entry)) db with
             | Some k => if bool_decide (k = "") then server_error "API key not found" else TDone (AccessToken k)
             | None => server_error "API key not found"
             end
         end
  else server_error "Unknown device code status".

Definition device_token (device_code : string) (t : Turn) (db : KeyDb) (s : TokenState) : KeyDb * TokenState :=
  match s with
  | TStart =>
      if tn_fails t then (db, server_error "Internal server error")
      else match get_by_device_code device_code db with
           | None => (db, TDone (OAuthError 400 "invalid_grant" "Invalid device code" None))
           | Some entry => (db, TUpdate (fst (check_rate_limit (tn_now t) entry)) entry)
           end
  | TUpdate increase_interval entry =>
      if tn_fails t then (db, server_error "Internal server error")
      else match get_by_device_code device_code db with
           | None => (db, if increase_interval then slow_down entry else TChecked entry)
           | Some read => (db, TWrite increase_interval entry read)
           end
  | TWrite increase_interval entry read =>
      if tn_fails t then (db, server_error "Internal server error")
      else (poll_write read increase_interval (tn_now t) db, if increase_interval then slow_down entry else TChecked entry)
  | TChecked entry => (db, token_decision entry t db)
  | TDone _ => (db, s)
  end.

(** ** [/verify-authenticated] *)

Inductive VerifyResponse :=
  | Verified
  | VerifyFailed (status : Z) (detail : string).
Inductive VerifyState :=
  | VStart
  | VChecked
  | VSelected (read : DeviceCode)
  | VAuthorized
  | VUser (org_id : option string) (expires_at : Z)
  | VCleanup
  | VCleanupSelected (read : DeviceCode)
  | VDone (r : VerifyResponse).
Definition unexpected : VerifyState := VDone (VerifyFailed 500 "An unexpected error occurred. Please try again.").
Definition key_failed : VerifyResponse := VerifyFailed 500 "Failed to create API key for device access.".

Definition device_verification_authenticated (user_code : string) (user_id : option string) (t : Turn) (db : KeyDb)
    (s : VerifyState) : KeyDb * VerifyState :=
  match truthy_str user_id with
  | None => (db, VDone (VerifyFailed 401 "Authentication required"))
  | Some user =>
      match s with
      | VStart =>
          if tn_fails t then (db, unexpected)
          else (db, match get_by_user_code user_code db with
                    | None => VDone (VerifyFailed 400 "The device code is invalid or has expired.")
                    | Some c => if is_pending (tn_now t) c then VChecked
                                else VDone (VerifyFailed 400 "This device code has already been processed.")
                    end)
      | VChecked =>
          let failed := VDone (VerifyFailed 500 "Failed to authorize the device. Please try again.") in
          if tn_fails t then (db, unexpected)
          else (db, match get_by_user_code user_code db with
                    | None => failed
                    | Some c => if is_pending (tn_now t) c then VSelected c else failed
                    end)
      | VSelected read =>
          if tn_fails t then (db, unexpected) else (authorize_write read user (tn_now t) db, VAuthorized)
      | VAuthorized =>
          match tn_fails t, tn_user t with
          | false, Some org_id => (db, VUser org_id (tn_now t + KEY_EXPIRATION_TIME))
          | _, _ => (db, VCleanup)
          end
      | VUser org_id expires_at =>
          if tn_fails t then (db, VCleanup)
          else match store_api_key user org_id (generate_api_key (tn_key t)) (Some (device_key_name user_code))
                       (Some expires_at) (tn_now t) db with
               | None => (db, VCleanup)
               | Some db => (db, VDone Verified)
               end
      | VCleanup =>
          (db, if tn_fails t then VDone key_failed
               else match get_by_user_code user_code db with
                    | None => VDone key_failed
                    | Some c => if is_pending (tn_now t) c then VCleanupSelected c else VDone key_failed
                    end)
      | VCleanupSelected read => ((if tn_fails t then db else deny_write read db), VDone key_failed)
      | VDone _ => (db, s)
      end
  end.

(** ** All requests together *)

Inductive Request :=
  | Start (base_url : string) (s : StartState)
  | Token (device_code : string) (s : TokenState)
  | Verify (user_code : string) (user_id : option string) (s : VerifyState).
Definition advance (t : Turn) (db : KeyDb) (r : Request) : KeyDb * Request :=
  match r with
  | Start base_url s => let '(db, s) := device_authorization base_url t db s in (db, Start base_url s)
  | Token device_code s => let '(db, s) := device_token device_code t db s in (db, Token device_code s)
  | Verify user_code user_id s =>
      let '(db, s) := device_verification_authenticated user_code user_id t db s in (db, Verify user_code user_id s)
  end.

Record DeviceWorld := mkWorld { w_db : KeyDb; w_requests : list Request }.
Definition new_DeviceWorld : DeviceWorld := mkWorld (mkKeyDb [] 1 [] 1) [].
(** Anybody may ask for a code or poll with any text; a user is who the authentication
    says.  The other routes store and delete keys of their users, and keys are used. *)
Inductive WorldOp :=
  | NewStart (base_url : string)
  | NewToken (device_code : string)
  | NewVerify (user_code : string) (user_id : option string)
  | Step (request : nat) (t : Turn)
  | PostKey (user_id : string) (name : option string) (expires_at : option Z) (t : Turn)
  | DeleteKey (key_id : Z) (user_id : string) (t : Turn)
  | UseKey (api_key : string) (now : Z).
Definition world_op (w : DeviceWorld) (op : WorldOp) : DeviceWorld :=
  let new r := mkWorld (w_db w) (w_requests w ++ [r]) in
  match op with
  | NewStart base_url => new (Start base_url (SAttempt 0))
  | NewToken device_code => new (Token device_code TStart)
  | NewVerify user_code user_id => new (Verify user_code user_id VStart)
  | Step i t =>
      match w_requests w !! i with
      | Some r => let '(db, r) := advance t (w_db w) r in mkWorld db (<[i := r]> (w_requests w))
      | None => w
      end
  | PostKey user_id name expires_at t => mkWorld (create_api_key_route user_id name expires_at t (w_db w)).1 (w_requests w)
  | DeleteKey key_id user_id t => mkWorld (delete_api_key_route key_id user_id t (w_db w)).1 (w_requests w)
  | UseKey api_key now => mkWorld (validate_api_key api_key now (w_db w)).1 (w_requests w)
  end.
End keys.

(** ** Consent *)

(** The request has authorized the code; nothing takes it back. *)
Definition past (s : VerifyState) : bool :=
  match s with
  | VAuthorized | VUser _ _ | VCleanup | VCleanupSelected _ => true
  | VDone Verified => true
  | VDone (VerifyFailed _ detail) => String.eqb detail "Failed to create API key for device access."
  | _ => false
  end.
Definition consented (rs : list Request) (user_code user : string) : Prop :=
  user ≠ "" ∧ ∃ j s, rs !! j = Some (Verify user_code (Some user) s) ∧ past s = true.

Definition same_code (e c : DeviceCode) : Prop :=
  dc_id e = dc_id c ∧ dc_device_code e = dc_device_code c ∧ dc_user_code e = dc_user_code c
  ∧ dc_expires_at e = dc_expires_at c.
Definition known (db : KeyDb) (e : DeviceCode) : Prop := ∃ c, c ∈ db_codes db ∧ same_code e c.
Definition row_ok (rs : list Request) (e : DeviceCode) : Prop :=
  (dc_status e = "authorized" → ∃ u, dc_keycloak_user_id e = Some u ∧ consented rs (dc_user_code e) u)
  ∧ 5 ≤ dc_current_interval e ≤ 60.
Record codes_ok (rs : list Request) (db : KeyDb) : Prop := {
  co_ids : NoDup (dc_id <$> db_codes db);
  co_next : Forall (λ c, dc_id c < db_next_code db) (db_codes db);
  co_device_codes : NoDup (dc_device_code <$> db_codes db);
  co_user_codes : NoDup (dc_user_code <$> db_codes db);
  co_rows : Forall (row_ok rs) (db_codes db);
}.
Definition request_ok (rs : list Request) (db : KeyDb) (r : Request) : Prop :=
  let entry_ok e := known db e ∧ row_ok rs e in
  match r with
  | Token d (TUpdate _ e) | Token d (TChecked e) => entry_ok e ∧ dc_device_code e = d
  | Token d (TWrite _ e read) => entry_ok e ∧ dc_device_code e = d ∧ entry_ok read
  | Token d (TDone (OAuthError _ _ _ (Some interval))) => 10 ≤ interval ≤ 60
  | Verify user_code user_id (VSelected read) => known db read ∧ dc_user_code read = user_code
  | _ => True
  end.
Record world_ok (w : DeviceWorld) : Prop := {
  wo_codes : codes_ok (w_requests w) (w_db w);
  wo_requests : Forall (request_ok (w_requests w) (w_db w)) (w_requests w);
}.

Definition consents_kept (rs rs' : list Request) : Prop := ∀ uc u, consented rs uc u → consented rs' uc u.
Definition codes_kept (db db' : KeyDb) : Prop := ∀ e, known db e → known db' e.

Lemma row_ok_mono rs rs' e : consents_kept rs rs' → row_ok rs e → row_ok rs' e.
Proof. intros Hk [Ha Hi]. split; [|done]. intros (u & Hu & Hc)%Ha. eauto. Qed.
Lemma codes_ok_mono rs rs' db : consents_kept rs rs' → codes_ok rs db → codes_ok rs' db.
Proof. intros Hk [? ? ? ? H]. split; try done. eapply Forall_impl; [exact H|]. eauto using row_ok_mono. Qed.
Lemma request_ok_mono rs rs' db db' r :
  consents_kept rs rs' → codes_kept db db' → request_ok rs db r → request_ok rs' db' r.
Proof.
  intros Hr Hd. destruct r as [|d []|uc u []]; simpl; try done; [naive_solver eauto using row_ok_mono..|].
  naive_solver.
Qed.

Lemma get_device_known d db c : get_by_device_code d db = Some c → c ∈ db_codes db ∧ dc_device_code c = d.
Proof. by intros [Hc ->%String.eqb_eq]%py_find_elem. Qed.
Lemma get_user_known u db c : get_by_user_code u db = Some c → c ∈ db_codes db ∧ dc_user_code c = u.
Proof. by intros [Hc ->%String.eqb_eq]%py_find_elem. Qed.
Lemma row_known db c : c ∈ db_codes db → known db c.
Proof. intros Hc. by exists c. Qed.
Lemma codes_ok_row rs db c : codes_ok rs db → c ∈ db_codes db → row_ok rs c.
Proof. intros H Hc. exact (proj1 (Forall_forall _ _) (co_rows _ _ H) c Hc). Qed.

Lemma update_column {B} (g : DeviceCode → B) id f (l : list DeviceCode) :
  (∀ c, c ∈ l → dc_id c = id → g (f c) = g c) → g <$> ((λ c, if dc_id c =? id then f c else c) <$> l) = g <$> l.
Proof.
  intros Hg. induction l as [|c l IH]; [done|]. cbn. f_equal; [|apply IH; set_solver].
  destruct (Z.eqb_spec (dc_id c) id); [|done]. apply Hg; [set_solver|done].
Qed.
(** An update keeps the codes if it keeps the columns that identify them. *)
Lemma update_code_ok rs db id f :
  (∀ c, c ∈ db_codes db → dc_id c = id → same_code (f c) c ∧ row_ok rs (f c)) →
  codes_ok rs db → codes_ok rs (update_code id f db).
Proof.
  intros Hf [Hi Hn Hd Hu Hr].
  unfold update_code, set_codes. split; cbn [db_codes db_next_code].
  - by rewrite update_column; [|intros c Hc He; apply (Hf c Hc He)].
  - apply Forall_fmap, Forall_forall. intros c Hc. unfold compose. rewrite Forall_forall in Hn.
    destruct (Z.eqb_spec (dc_id c) id) as [e|]; [|by apply Hn]. rewrite (proj1 (proj1 (Hf c Hc e))). by apply Hn.
  - by rewrite update_column; [|intros c Hc He; apply (Hf c Hc He)].
  - by rewrite update_column; [|intros c Hc He; apply (Hf c Hc He)].
  - apply Forall_fmap, Forall_forall. intros c Hc. unfold compose. rewrite Forall_forall in Hr.
    destruct (Z.eqb_spec (dc_id c) id) as [e|]; [by apply Hf|by apply Hr].
Qed.
Lemma update_code_kept db id f :
  (∀ c, c ∈ db_codes db → same_code c (f c)) → codes_kept db (update_code id f db).
Proof.
  intros Hf e (c & Hc & He). exists (if dc_id c =? id then f c else c). split.
  - apply list_elem_of_fmap. by exists c.
  - destruct (dc_id c =? id); [|done]. destruct (Hf c Hc) as (? & ? & ? & ?), He as (? & ? & ? & ?).
    split_and!; congruence.
Qed.

Lemma same_code_refl c : same_code c c.
Proof. done. Qed.
Lemma codes_kept_refl db : codes_kept db db.
Proof. by intros e. Qed.
#[local] Hint Resolve same_code_refl codes_kept_refl row_known : core.

Lemma poll_write_ok rs db read inc now :
  codes_ok rs db → row_ok rs read → codes_ok rs (poll_write read inc now db) ∧ codes_kept db (poll_write read inc now db).
Proof.
  intros Hc Hr. split; [|by apply update_code_kept]. apply update_code_ok; [|done]. intros c Hin _. split; [done|].
  destruct (codes_ok_row rs db c Hc Hin) as [Ha Hi]. split; [exact Ha|]. cbn [dc_current_interval set_poll].
  case_match; [done|]. destruct Hr as [_ Hr]. unfold dc_update_poll_time, increased. destruct inc; cbn; lia.
Qed.

Lemma device_authorization_ok rs b t db s db' s' :
  codes_ok rs db → device_authorization b t db s = (db', s') → codes_ok rs db' ∧ codes_kept db db'.
Proof.
  intros Hc. unfold device_authorization. destruct s as [n| |]; [|by intros [= <- _]..].
  destruct (tn_fails t); [by intros [= <- _]|]. unfold insert_code. destruct (existsb _ _) eqn:Ex; [by intros [= <- _]|].
  intros [= <- _]. assert (∀ c, c ∈ db_codes db → dc_device_code c ≠ tn_device_code t ∧ dc_user_code c ≠ tn_user_code t) as Hx.
  { intros c Hin%list_elem_of_In. apply not_true_iff_false in Ex. rewrite existsb_exists in Ex.
    split; intros e; apply Ex; exists c; (split; [done|]); rewrite e, String.eqb_refl; by rewrite ?orb_true_r. }
  destruct Hc as [Hi Hn Hd Hu Hr]. split.
  - split; cbn [db_codes db_next_code]; rewrite ?fmap_app; cbn; [apply NoDup_app; split_and!; [done|..|apply NoDup_singleton]| |
      apply NoDup_app; split_and!; [done|..|apply NoDup_singleton]|apply NoDup_app; split_and!; [done|..|apply NoDup_singleton]|].
    + intros i (c & -> & Hin)%list_elem_of_fmap [= He]%list_elem_of_singleton. rewrite Forall_forall in Hn. specialize (Hn c Hin). lia.
    + apply Forall_app. split; [|by constructor; [cbn; lia|]]. eapply Forall_impl; [exact Hn|]. cbn. lia.
    + intros i (c & -> & Hin)%list_elem_of_fmap He%list_elem_of_singleton. by destruct (Hx c Hin).
    + intros i (c & -> & Hin)%list_elem_of_fmap He%list_elem_of_singleton. by destruct (Hx c Hin).
    + apply Forall_app. split; [done|]. constructor; [|done]. split; [done|]. cbn. lia.
  - intros e (c & Hin & He). exists c. split; [|done]. cbn. apply elem_of_app. by left.
Qed.

Lemma same_keys_codes rs db l n :
  codes_ok rs db → codes_ok rs (mkKeyDb (db_codes db) (db_next_code db) l n)
                   ∧ codes_kept db (mkKeyDb (db_codes db) (db_next_code db) l n).
Proof. intros [? ? ? ? ?]. split; [by split|]. by intros e. Qed.

Section consent.
Variable key_order : list ApiKey → list ApiKey.
Hypothesis key_order_perm : ∀ l, key_order l ≡ₚ l.

Lemma token_decision_ok rs db d e t : request_ok rs db (Token d (token_decision key_order e t db)).
Proof. unfold token_decision, server_error. repeat case_match; done. Qed.

Lemma device_token_ok rs d t db s db' s' :
  codes_ok rs db → request_ok rs db (Token d s) → device_token key_order d t db s = (db', s') →
  codes_ok rs db' ∧ codes_kept db db' ∧ request_ok rs db' (Token d s').
Proof.
  intros Hc Hr. unfold device_token. destruct s as [|inc e|inc e read|e|r]; cbn in Hr.
  5: by intros [= <- <-].
  4: { intros [= <- <-]. split_and!; auto using token_decision_ok. }
  all: destruct (tn_fails t); [by intros [= <- <-]|].
  - destruct (get_by_device_code d db) as [c|] eqn:Hg; [|by intros [= <- <-]]. apply get_device_known in Hg as [Hin Hd].
    intros [= <- <-]. cbn. eauto 10 using codes_ok_row.
  - assert (request_ok rs db (Token d (if inc then slow_down e else TChecked e))) as Hs.
    { destruct inc; [|done]. destruct Hr as ((_ & _ & Hi) & _). cbn. unfold increased. lia. }
    destruct (get_by_device_code d db) as [c|] eqn:Hg; [|by intros [= <- <-]]. apply get_device_known in Hg as [Hin Hd].
    intros [= <- <-]. cbn. destruct Hr. eauto 10 using codes_ok_row.
  - intros [= <- <-]. destruct Hr as (He & Hd & Hk & Hr). destruct (poll_write_ok rs db read inc (tn_now t) Hc Hr) as [Hc' Hk'].
    split; [done|]. split; [done|]. destruct inc; cbn.
    + destruct He as (_ & _ & Hi). unfold increased. lia.
    + destruct He as (? & ?). auto.
Qed.

Lemma store_api_key_codes rs u o k n e now db db' :
  store_api_key u o k n e now db = Some db' → codes_ok rs db → codes_ok rs db' ∧ codes_kept db db'.
Proof. unfold store_api_key. destruct (existsb _ _); [done|]. intros [= <-] Hc. by apply same_keys_codes. Qed.

Lemma verify_ok rs uc u t db s db' s' :
  codes_ok rs db → request_ok rs db (Verify uc u s) →
  device_verification_authenticated uc u t db s = (db', s') →
  (∀ user, truthy_str u = Some user → past s' = true → consented rs uc user) →
  codes_ok rs db' ∧ codes_kept db db' ∧ request_ok rs db' (Verify uc u s').
Proof.
  intros Hc Hr. unfold device_verification_authenticated. destruct (truthy_str u) as [user|]; [|by intros [= <- <-]].
  intros Hs Hcon. specialize (Hcon user eq_refl). destruct s as [| |read| |o e| |read|r]; cbn in Hr.
  8: by injection Hs as <- <-.
  7: { injection Hs as <- <-. destruct (tn_fails t); [by split_and!|].
    split_and!; [|by apply update_code_kept|done]. apply update_code_ok; [|done]. intros c Hin _. split; [done|].
    split; [done|]. by apply (codes_ok_row rs db c). }
  6: { injection Hs as <- <-. split; [done|]. split; [done|]. repeat case_match; done. }
  4: { destruct (tn_fails t), (tn_user t); by injection Hs as <- <-. }
  all: destruct (tn_fails t); [by injection Hs as <- <-|].
  - injection Hs as <- <-. split; [done|]. split; [done|]. repeat case_match; done.
  - injection Hs as <- <-. split; [done|]. split; [done|]. destruct (get_by_user_code uc db) as [c|] eqn:Hg; [|done].
    apply get_user_known in Hg as [Hin He]. case_match; cbn; eauto.
  - injection Hs as <- <-. destruct Hr as ((c0 & Hin0 & H0) & Hu). split_and!; [|by apply update_code_kept|done].
    apply update_code_ok; [|done]. intros c Hin Hid. split; [done|]. split; [|by apply (codes_ok_row rs db c)].
    intros _. exists user. split; [done|]. cbn [dc_user_code authorize set_dc_status].
    assert (c = c0) as ->.
    { destruct H0 as (H0 & _). rewrite H0 in Hid. pose proof (co_ids _ _ Hc) as Hnd.
      apply list_elem_of_lookup in Hin as [i Hi], Hin0 as [j Hj].
      assert (i = j) as ->; [|congruence]. eapply NoDup_lookup; [exact Hnd|..]; rewrite list_lookup_fmap.
      - by rewrite Hi.
      - rewrite Hj. cbn. by rewrite Hid. }
    destruct H0 as (_ & _ & H0 & _). rewrite <- H0, Hu. by apply Hcon.
  - destruct (store_api_key _ _ _ _ _ _ _) as [db1|] eqn:Hst; [|by injection Hs as <- <-]. injection Hs as <- <-.
    by destruct (store_api_key_codes rs _ _ _ _ _ _ _ _ Hst Hc).
Qed.

Lemma past_kept uc user t db s db' s' :
  device_verification_authenticated uc (Some user) t db s = (db', s') → user ≠ "" → past s = true → past s' = true.
Proof.
  unfold device_verification_authenticated, truthy_str. intros Hs Hu Hp. rewrite (proj2 (String.eqb_neq user "") Hu) in Hs.
  destruct s as [| |read| |o e| |read|r]; try done.
  - destruct (tn_fails t), (tn_user t); by injection Hs as <- <-.
  - destruct (tn_fails t); [by injection Hs as <- <-|].
    destruct (store_api_key _ _ _ _ _ _ _); by injection Hs as <- <-.
  - injection Hs as <- <-. repeat case_match; done.
  - by injection Hs as <- <-.
  - by injection Hs as <- <-.
Qed.

Lemma advance_consents rs i r t db db' r' :
  rs !! i = Some r → advance key_order t db r = (db', r') → consents_kept rs (<[i := r']> rs).
Proof.
  intros Hi Ha uc u (Hu & j & s & Hj & Hp). split; [done|]. destruct (decide (j = i)) as [->|Hne].
  - rewrite Hj in Hi. injection Hi as <-. cbn in Ha. destruct (device_verification_authenticated _ _ _ _ _) as [db1 s1] eqn:Hs.
    injection Ha as <- <-. exists i, s1. split; [apply list_lookup_insert_eq; by apply lookup_lt_Some in Hj|].
    by apply (past_kept _ _ _ _ _ _ _ Hs).
  - exists j, s. by rewrite list_lookup_insert_ne.
Qed.

Lemma advance_ok w i r t db' r' :
  world_ok w → w_requests w !! i = Some r → advance key_order t (w_db w) r = (db', r') →
  world_ok (mkWorld db' (<[i := r']> (w_requests w))).
Proof.
  intros [Hc Hrs] Hi Ha. set (rs' := <[i := r']> (w_requests w)).
  pose proof (advance_consents _ _ _ _ _ _ _ Hi Ha) as Hk. fold rs' in Hk.
  pose proof (codes_ok_mono _ _ _ Hk Hc) as Hc'. pose proof (proj1 (Forall_forall _ _) Hrs r (list_elem_of_lookup_2 _ _ _ Hi)) as Hr.
  apply (request_ok_mono _ rs' _ (w_db w) _ Hk (codes_kept_refl _)) in Hr.
  cut (codes_ok rs' db' ∧ codes_kept (w_db w) db' ∧ request_ok rs' db' r').
  { intros (H1 & H2 & H3). split; [done|]. cbn. apply Forall_insert; [|done].
    eapply Forall_impl; [exact Hrs|]. cbn. intros x. by apply request_ok_mono. }
  destruct r as [b s|d s|uc u s]; cbn in Ha.
  - destruct (device_authorization b t (w_db w) s) as [db1 s1] eqn:Hs. injection Ha as <- <-.
    by destruct (device_authorization_ok rs' _ _ _ _ _ _ Hc' Hs).
  - destruct (device_token key_order d t (w_db w) s) as [db1 s1] eqn:Hs. injection Ha as <- <-.
    by apply (device_token_ok _ _ _ _ _ _ _ Hc' Hr Hs).
  - destruct (device_verification_authenticated uc u t (w_db w) s) as [db1 s1] eqn:Hs. injection Ha as <- <-.
    apply (verify_ok _ _ _ _ _ _ _ _ Hc' Hr Hs). intros user Hu Hp.
    destruct u as [u|]; [|done]. cbn in Hu. destruct (String.eqb_spec u ""); [done|]. injection Hu as ->. split; [done|].
    exists i, s1. split; [|done]. apply list_lookup_insert_eq. by apply lookup_lt_Some in Hi.
Qed.

Lemma world_ok_db w db : world_ok w → codes_ok (w_requests w) db ∧ codes_kept (w_db w) db → world_ok (mkWorld db (w_requests w)).
Proof.
  intros [Hc Hr] [Hc' Hk]. split; [done|]. eapply Forall_impl; [exact Hr|]. cbn. intros r. apply request_ok_mono; [|done]. by intros ? ?.
Qed.
Lemma world_ok_new w r :
  world_ok w → request_ok (w_requests w ++ [r]) (w_db w) r → world_ok (mkWorld (w_db w) (w_requests w ++ [r])).
Proof.
  intros [Hc Hr] Hn. assert (consents_kept (w_requests w) (w_requests w ++ [r])) as Hk.
  { intros uc u (Hu & j & s & Hj & Hp). split; [done|]. exists j, s. split; [|done]. by apply lookup_app_l_Some. }
  split; [by eapply codes_ok_mono|]. cbn. apply Forall_app. split; [|by constructor].
  eapply Forall_impl; [exact Hr|]. cbn. intros x. by apply request_ok_mono; [|apply codes_kept_refl].
Qed.

Lemma world_op_ok w op : world_ok w → world_ok (world_op key_order w op).
Proof.
  intros Hw. pose proof (wo_codes _ Hw) as Hc. destruct op as [b|d|uc u|i t|u n e t|k u t|k now]; cbn [world_op].
  1-3: by apply world_ok_new.
  - destruct (w_requests w !! i) as [r|] eqn:Hi; [|done]. destruct (advance key_order t (w_db w) r) as [db' r'] eqn:Ha.
    by eapply advance_ok.
  - apply world_ok_db; [done|]. unfold create_api_key_route. repeat case_match; cbn [fst]; try (by split);
      by eapply store_api_key_codes.
  - apply world_ok_db; [done|]. unfold delete_api_key_route, delete_api_key_by_id, delete_first, remove_key, set_keys.
    repeat case_match; simplify_eq; cbn [fst]; try (by split); by apply same_keys_codes.
  - apply world_ok_db; [done|]. unfold validate_api_key, set_keys. repeat case_match; cbn [fst]; try (by split); by apply same_keys_codes.
Qed.
Lemma world_reachable_ok ops : world_ok (foldl (world_op key_order) new_DeviceWorld ops).
Proof.
  assert (world_ok new_DeviceWorld) as H0. { by split; [split; constructor|constructor]. }
  revert H0. generalize new_DeviceWorld. induction ops as [|op ops IH]; intros w Hw; [done|]. by apply IH, world_op_ok.
Qed.

(** C19 A device gets a key only with consent: however the requests of devices and users, the
    key routes and the failures interleave, when a poll with a device code is answered with
    an access token, the code is one that was issued and has not expired, an authenticated
    user has confirmed the user code that was issued together with it, and the token is an
    API key of that very user, named after that user code. *)
Theorem device_token_consented ops i d s t db' k :
  let w := foldl (world_op key_order) new_DeviceWorld ops in
  w_requests w !! i = Some (Token d s) → s ≠ TDone (AccessToken k) →
  advance key_order t (w_db w) (Token d s) = (db', Token d (TDone (AccessToken k))) →
  ∃ c user key, c ∈ db_codes (w_db w) ∧ dc_device_code c = d ∧ tn_now t ≤ dc_expires_at c
    ∧ consented (w_requests w) (dc_user_code c) user
    ∧ key ∈ db_keys (w_db w) ∧ ak_key key = k ∧ ak_user_id key = user
    ∧ ak_name key = Some (device_key_name (dc_user_code c)).
Proof using key_order_perm.
  intros w Hi Hs Ha. destruct (world_reachable_ok ops) as [Hc Hr]. fold w in Hc, Hr.
  pose proof (proj1 (Forall_forall _ _) Hr _ (list_elem_of_lookup_2 _ _ _ Hi)) as Hr'. cbn in Ha.
  destruct s as [|inc e|inc e read|e|r]; cbn in Ha; unfold slow_down, server_error in Ha; [by repeat case_match; simplify_eq..| |congruence].
  injection Ha as _ Ha. destruct Hr' as [[(c & Hin & Hd & He & Hu & Hx) [Hcon _]] <-]. unfold token_decision, server_error in Ha.
  destruct (is_expired (tn_now t) e) eqn:Hexp; [done|]. apply Z.ltb_ge in Hexp.
  do 2 (case_match; [done|]). destruct (String.eqb_spec (dc_status e) "authorized") as [Hst|]; [|done].
  destruct (Hcon Hst) as (user & Hus & Hco). rewrite Hus in Ha. destruct (tn_fails t); [done|].
  unfold retrieve_api_key_by_name, find_key in Ha. destruct (py_find _ _) as [key|] eqn:Hf; cbn in Ha; [|done].
  case_bool_decide; [done|]. injection Ha as <-. apply py_find_elem in Hf as [Hk [Hku Hkn]%andb_true_iff].
  rewrite key_order_perm in Hk. apply String.eqb_eq in Hku. apply bool_decide_eq_true in Hkn.
  exists c, user, key. rewrite <- He, <- Hu, <- Hx. split_and!; done.
Qed.

(** Codes are issued once, and the polling interval stays between 5 and 60 seconds, also in
    the answers that ask a device to slow down. *)
Theorem device_codes_bounds ops :
  let w := foldl (world_op key_order) new_DeviceWorld ops in
  NoDup (dc_device_code <$> db_codes (w_db w)) ∧ NoDup (dc_user_code <$> db_codes (w_db w))
  ∧ Forall (λ c, 5 ≤ dc_current_interval c ≤ 60) (db_codes (w_db w))
  ∧ ∀ i d st er desc n, w_requests w !! i = Some (Token d (TDone (OAuthError st er desc (Some n)))) → 10 ≤ n ≤ 60.
Proof.
  intros w. destruct (world_reachable_ok ops) as [[_ _ Hd Hu Hr] Hq]. split_and!; [done..| |].
  - eapply Forall_impl; [exact Hr|]. by intros c [_ ?].
  - intros i d st er desc n Hi. exact (proj1 (Forall_forall _ _) Hq _ (list_elem_of_lookup_2 _ _ _ Hi)).
Qed.

(** ** A request alone *)

Lemma py_find_unique {A} (f : A → bool) l x : x ∈ l → f x = true → (∀ y, y ∈ l → f y = true → y = x) → py_find f l = Some x.
Proof.
  intros Hx Hf Hu. destruct (py_find f l) as [y|] eqn:Hy.
  - apply py_find_elem in Hy as [Hy Hfy]. by rewrite (Hu y Hy Hfy).
  - by rewrite (py_find_none f l x Hy Hx) in Hf.
Qed.
Lemma NoDup_column {A B} (g : A → B) (l : list A) x y : NoDup (g <$> l) → x ∈ l → y ∈ l → g x = g y → x = y.
Proof.
  intros Hn [i Hi]%list_elem_of_lookup [j Hj]%list_elem_of_lookup He.
  assert (i = j) as ->; [|congruence]. eapply NoDup_lookup; [exact Hn|..]; rewrite list_lookup_fmap; [by rewrite Hi|].
  rewrite Hj. cbn. by rewrite He.
Qed.
Lemma user_code_found rs db c : codes_ok rs db → c ∈ db_codes db → get_by_user_code (dc_user_code c) db = Some c.
Proof.
  intros Hc Hin. apply py_find_unique; [done|apply String.eqb_refl|]. intros y Hy ?%String.eqb_eq.
  by apply (NoDup_column dc_user_code (db_codes db)); [apply (co_user_codes _ _ Hc)|..].
Qed.
Lemma device_code_found rs db c : codes_ok rs db → c ∈ db_codes db → get_by_device_code (dc_device_code c) db = Some c.
Proof.
  intros Hc Hin. apply py_find_unique; [done|apply String.eqb_refl|]. intros y Hy ?%String.eqb_eq.
  by apply (NoDup_column dc_device_code (db_codes db)); [apply (co_device_codes _ _ Hc)|..].
Qed.

Definition alone {S} (f : Turn → KeyDb → S → KeyDb * S) (s : KeyDb * S) (ts : list Turn) : KeyDb * S :=
  foldl (λ s t, f t s.1 s.2) s ts.
Lemma alone_cons {S} (f : Turn → KeyDb → S → KeyDb * S) s t ts : alone f s (t :: ts) = alone f (f t s.1 s.2) ts.
Proof. done. Qed.
Definition verified_with (c : DeviceCode) (org : option string) (t : Turn) : Prop :=
  tn_fails t = false ∧ tn_now t ≤ dc_expires_at c ∧ tn_user t = Some org.
(** The device has waited long enough. *)
Definition in_time (c : DeviceCode) (t : Turn) : Prop :=
  tn_fails t = false ∧ tn_now t ≤ dc_expires_at c
  ∧ match dc_last_poll_time c with Some last => us (dc_current_interval c) ≤ tn_now t - last | None => True end.

Lemma pending_now c org t : dc_status c = "pending" → verified_with c org t → is_pending (tn_now t) c = true.
Proof. intros Hs (_ & Hn & _). unfold is_pending, is_expired. rewrite Hs. cbn. apply negb_true_iff, Z.ltb_ge. lia. Qed.

Lemma authorize_write_row rs db c user now :
  codes_ok rs db → c ∈ db_codes db → consented rs (dc_user_code c) user →
  codes_ok rs (authorize_write c user now db) ∧ authorize user now c ∈ db_codes (authorize_write c user now db).
Proof.
  intros Hc Hin Hcon. split.
  - apply update_code_ok; [|done]. intros x Hx Hid. split; [done|].
    rewrite (NoDup_column dc_id _ x c (co_ids _ _ Hc) Hx Hin Hid). split; [|by apply (codes_ok_row rs db c)].
    intros _. by exists user.
  - apply list_elem_of_fmap. exists c. by rewrite Z.eqb_refl.
Qed.

(** A user who confirms in time, and whose key can be stored, is told so; and the code is
    theirs, with the new key. *)
Lemma verify_alone rs db c user org ts :
  codes_ok rs db → c ∈ db_codes db → consented rs (dc_user_code c) user → dc_status c = "pending" →
  length ts = 5%nat → Forall (verified_with c org) ts →
  (∀ t k, t ∈ ts → k ∈ db_keys db → ak_key k ≠ generate_api_key (tn_key t)) →
  ∃ db' key now, alone (device_verification_authenticated (dc_user_code c) (Some user)) (db, VStart) ts = (db', VDone Verified)
    ∧ codes_ok rs db' ∧ authorize user now c ∈ db_codes db' ∧ db_keys db' = db_keys db ++ [key]
    ∧ ak_user_id key = user ∧ ak_name key = Some (device_key_name (dc_user_code c))
    ∧ Some (ak_key key) = (λ t, generate_api_key (tn_key t)) <$> last ts.
Proof.
  intros Hc Hin Hcon Hst. destruct ts as [|t1 [|t2 [|t3 [|t4 [|t5 [|]]]]]]; try done. intros _ Hts Hfresh.
  rewrite !Forall_cons in Hts. destruct Hts as (H1 & H2 & H3 & H4 & H5 & _).
  pose proof (proj2 (String.eqb_neq user "") (proj1 Hcon)) as Hu.
  destruct (authorize_write_row rs db c user (tn_now t3) Hc Hin Hcon) as [Hc' Hin'].
  set (f := device_verification_authenticated (dc_user_code c) (Some user)).
  pose proof (user_code_found rs db c Hc Hin) as Hg.
  assert (f t1 db VStart = (db, VChecked)) as E1.
  { unfold f, device_verification_authenticated. cbn [truthy_str]. by rewrite Hu, (proj1 H1), Hg, (pending_now c org t1 Hst H1). }
  assert (f t2 db VChecked = (db, VSelected c)) as E2.
  { unfold f, device_verification_authenticated. cbn [truthy_str]. by rewrite Hu, (proj1 H2), Hg, (pending_now c org t2 Hst H2). }
  assert (f t3 db (VSelected c) = (authorize_write c user (tn_now t3) db, VAuthorized)) as E3.
  { unfold f, device_verification_authenticated. cbn [truthy_str]. by rewrite Hu, (proj1 H3). }
  rewrite !alone_cons. cbn [fst snd]. rewrite E1. cbn [fst snd]. rewrite E2. cbn [fst snd]. rewrite E3. cbn [fst snd].
  unfold f, device_verification_authenticated. cbn [truthy_str]. rewrite Hu, (proj1 H4), (proj2 (proj2 H4)). cbn [fst snd].
  rewrite (proj1 H5). unfold store_api_key. destruct (existsb _ _) eqn:Ex.
  { apply existsb_exists in Ex as (k & Hk%list_elem_of_In & He%String.eqb_eq). by destruct (Hfresh t5 k); [do 4 right; left|..]. }
  eexists _, _, (tn_now t3). split_and!; [done|by apply same_keys_codes|exact Hin'|done..].
Qed.

Lemma poll_alone rs db c ts k :
  codes_ok rs db → c ∈ db_codes db → length ts = 4%nat → Forall (in_time c) ts →
  (∀ t db', t ∈ ts → db_keys db' = db_keys db → token_decision key_order c t db' = TDone k) →
  (alone (device_token key_order (dc_device_code c)) (db, TStart) ts).2 = TDone k.
Proof.
  intros Hc Hin. destruct ts as [|t1 [|t2 [|t3 [|t4 [|]]]]]; try done. intros _ Hts Hd.
  rewrite !Forall_cons in Hts. destruct Hts as ((F1 & _ & W1) & (F2 & _) & (F3 & _) & (F4 & _) & _).
  assert (check_rate_limit (tn_now t1) c = (false, dc_current_interval c)) as Hl.
  { unfold check_rate_limit. destruct (dc_last_poll_time c); [|done]. by rewrite (proj2 (Z.ltb_ge _ _) W1). }
  set (f := device_token key_order (dc_device_code c)). pose proof (device_code_found rs db c Hc Hin) as Hg.
  assert (f t1 db TStart = (db, TUpdate false c)) as E1 by (unfold f, device_token; by rewrite F1, Hg, Hl).
  assert (f t2 db (TUpdate false c) = (db, TWrite false c c)) as E2 by (unfold f, device_token; by rewrite F2, Hg).
  rewrite !alone_cons. cbn [fst snd]. rewrite E1. cbn [fst snd]. rewrite E2. unfold f, device_token. cbn [fst snd].
  rewrite F3. cbn [fst snd alone foldl]. apply Hd; [do 3 right; left|done].
Qed.

(** A confirmed device gets its key: when a user confirms a pending code in time, without
    failures, the user is told so, and a device that polls before the code expires, not
    faster than its interval, gets the key that was made for it, if the user had no key of
    that name before. *)
Theorem device_gets_key ops c user org ts ts' :
  let db := w_db (foldl (world_op key_order) new_DeviceWorld ops) in
  c ∈ db_codes db → user ≠ "" → dc_status c = "pending" →
  length ts = 5%nat → Forall (verified_with c org) ts →
  (∀ k, k ∈ db_keys db → named user (device_key_name (dc_user_code c)) k = false
                         ∧ ∀ t, t ∈ ts → ak_key k ≠ generate_api_key (tn_key t)) →
  length ts' = 4%nat → Forall (in_time c) ts' →
  let '(db', s) := alone (device_verification_authenticated (dc_user_code c) (Some user)) (db, VStart) ts in
  s = VDone Verified ∧ ∃ t, last ts = Some t
    ∧ (alone (device_token key_order (dc_device_code c)) (db', TStart) ts').2
      = TDone (AccessToken (generate_api_key (tn_key t))).
Proof using key_order_perm.
  intros db Hin Hne Hst Hlen Hts Hk Hlen' Hts'.
  destruct (world_ok_new _ (Verify (dc_user_code c) (Some user) VAuthorized) (world_reachable_ok ops) I) as [Hc _].
  set (rs := w_requests _ ++ [_]) in Hc. cbn [w_requests w_db] in Hc. fold db in Hc.
  assert (consented rs (dc_user_code c) user) as Hcon.
  { split; [done|]. exists (length (w_requests (foldl (world_op key_order) new_DeviceWorld ops))), VAuthorized.
    split; [|done]. by apply list_lookup_middle. }
  destruct (verify_alone rs db c user org ts) as (db' & key & now & Ha & Hc' & Hin' & Hkeys & Hu & Hn & Hl); try done.
  { intros t k Ht Hkin. by apply (Hk k Hkin). }
  rewrite Ha. split; [done|]. destruct (last ts) as [t|]; [|done]. cbn in Hl. injection Hl as Hl. exists t. split; [done|].
  rewrite <- Hl. apply (poll_alone rs db' (authorize user now c)); [done..|].
  intros t' db'' Ht' Hdb. unfold token_decision. rewrite Forall_forall in Hts'. destruct (Hts' t' Ht') as (Hf & Hx & _).
  replace (is_expired (tn_now t') (authorize user now c)) with false by (symmetry; apply Z.ltb_ge; cbn; lia).
  cbn [authorize set_dc_status dc_status dc_keycloak_user_id dc_user_code status_value String.eqb Ascii.eqb Bool.eqb].
  rewrite Hf. unfold retrieve_api_key_by_name, find_key. rewrite Hdb, Hkeys, (py_find_unique _ _ key).
  - cbn. rewrite Hl. by case_bool_decide.
  - rewrite key_order_perm. set_solver.
  - unfold named. rewrite Hu, Hn, String.eqb_refl. by apply bool_decide_eq_true.
  - intros y. rewrite key_order_perm, elem_of_app, list_elem_of_singleton. intros [Hy| ->] Hny; [|done].
    by rewrite (proj1 (Hk y Hy)) in Hny.
Qed.
End consent.

(** A key that cannot be made leaves the code authorized: the clean-up denies only codes
    that are still pending, and this one no longer is.  Polls then find no key, until the
    code expires. *)
Theorem cleanup_keeps_authorized uc user t db c :
  user ≠ "" → get_by_user_code uc db = Some c → dc_status c = "authorized" →
  device_verification_authenticated uc (Some user) t db VCleanup = (db, VDone key_failed).
Proof.
  intros Hu Hg Hs. unfold device_verification_authenticated. cbn [truthy_str]. rewrite (proj2 (String.eqb_neq user "") Hu).
  destruct (tn_fails t); [done|]. rewrite Hg. unfold is_pending. by rewrite Hs.
Qed.

(** Every request is answered: a poll after four accesses to the database, a confirmation
    after seven, a start after ten attempts. *)
Definition token_left (s : TokenState) : nat :=
  match s with TStart => 4 | TUpdate _ _ => 3 | TWrite _ _ _ => 2 | TChecked _ => 1 | TDone _ => 0 end.
Definition verify_left (s : VerifyState) : nat :=
  match s with
  | VStart => 7 | VChecked => 6 | VSelected _ => 5 | VAuthorized => 4 | VUser _ _ => 3 | VCleanup => 2
  | VCleanupSelected _ => 1 | VDone _ => 0
  end.
Definition start_left (s : StartState) : nat := match s with SAttempt n => MAX_ATTEMPTS - n | _ => 0 end.
Definition turns_left (r : Request) : nat :=
  match r with Start _ s => start_left s | Token _ s => token_left s | Verify _ _ s => verify_left s end.

Theorem requests_answered key_order t db r :
  (turns_left (advance key_order t db r).2 ≤ turns_left r - 1)%nat.
Proof.
  destruct r as [b s|d s|uc u s]; cbn [advance].
  - unfold device_authorization. destruct s as [n| |]; [|done..]. destruct (tn_fails t); [cbn; lia|].
    destruct (insert_code _ _ _ _) as [[? ?]|]; cbn -[Nat.ltb]; [lia|].
    destruct (Nat.ltb_spec (S n) MAX_ATTEMPTS); cbn -[Nat.sub]; unfold MAX_ATTEMPTS in *; lia.
  - unfold device_token, token_decision, server_error, slow_down. destruct s; repeat case_match; simplify_eq; cbn; lia.
  - unfold device_verification_authenticated, unexpected. destruct s; repeat case_match; simplify_eq; cbn; lia.
Qed.

Module device_example.
Definition ex_turn (now : Z) (key : string) : Turn := mkTurn (us now) false (Some (Some "acme")) key "device-1" "ABCD2345".
(** A device asks for a code and polls once; mary confirms it. *)
Definition ex_issue : list WorldOp := [NewStart "https://app"; Step 0 (ex_turn 0 "")].
Definition ex_poll (i : nat) (now : Z) : list WorldOp :=
  [NewToken "device-1"; Step i (ex_turn now ""); Step i (ex_turn now ""); Step i (ex_turn now "")].
Definition ex_confirm (i : nat) (now : Z) : list WorldOp :=
  NewVerify "ABCD2345" (Some "mary") :: replicate 5 (Step i (ex_turn now "k1")).
Abbreviation run := (foldl (world_op id) new_DeviceWorld).
Definition ex_code : DeviceCode := mkDeviceCode 1 "device-1" "ABCD2345" "pending" None (us 600) None None 5.

Abbreviation ex_polled := (run (ex_issue ++ ex_confirm 1 20 ++ ex_poll 2 30)).

Lemma device_token_consented_witness :
  let s := TChecked (authorize "mary" (us 20) ex_code) in
  advance id (ex_turn 30 "") (w_db ex_polled) (Token "device-1" s)
    = (w_db ex_polled, Token "device-1" (TDone (AccessToken "sk-oh-k1")))
  ∧ ∃ c user key, c ∈ db_codes (w_db ex_polled) ∧ dc_device_code c = "device-1" ∧ ak_user_id key = user
      ∧ consented (w_requests ex_polled) (dc_user_code c) user.
Proof.
  intros s. assert (advance id (ex_turn 30 "") (w_db ex_polled) (Token "device-1" s)
    = (w_db ex_polled, Token "device-1" (TDone (AccessToken "sk-oh-k1")))) as Ha by (vm_compute; reflexivity).
  split; [exact Ha|].
  destruct (device_token_consented id (λ l, Permutation_refl l) (ex_issue ++ ex_confirm 1 20 ++ ex_poll 2 30) 2
    "device-1" s (ex_turn 30 "") (w_db ex_polled) "sk-oh-k1") as (c & user & key & Hc & Hd & _ & Hcon & _ & _ & Hu & _).
  - vm_compute. reflexivity.
  - discriminate.
  - exact Ha.
  - by exists c, user, key.
Defined.

Lemma device_gets_key_witness :
  ∃ db' s, alone (device_verification_authenticated "ABCD2345" (Some "mary")) (w_db (run ex_issue), VStart)
             (replicate 5 (ex_turn 20 "k1")) = (db', s)
    ∧ s = VDone Verified
    ∧ (alone (device_token id "device-1") (db', TStart) (replicate 4 (ex_turn 30 ""))).2 = TDone (AccessToken "sk-oh-k1").
Proof.
  eexists _, _. split; [apply surjective_pairing|].
  pose proof (device_gets_key id (λ l, Permutation_refl l) ex_issue ex_code "mary" (Some "acme") (replicate 5 (ex_turn 20 "k1"))
    (replicate 4 (ex_turn 30 ""))) as H.
  cbv zeta in H. rewrite (surjective_pairing (alone _ _ _)) in H. destruct H as (H1 & t & Ht & H2).
  - vm_compute. left.
  - discriminate.
  - reflexivity.
  - reflexivity.
  - repeat constructor; vm_compute; discriminate.
  - intros k Hk. vm_compute in Hk. by apply not_elem_of_nil in Hk.
  - reflexivity.
  - repeat constructor; vm_compute; discriminate.
  - injection Ht as <-. split; [exact H1|exact H2].
Defined.

(** The confirmation of mary reads the row before bob's writes it: both are told that the
    device is authorized, each gets a key, and the device gets the key of the last writer. *)
Example two_users_authorize :
  let w := run (ex_issue ++ [NewVerify "ABCD2345" (Some "mary"); NewVerify "ABCD2345" (Some "bob")]
    ++ [Step 1 (ex_turn 20 ""); Step 2 (ex_turn 20 ""); Step 1 (ex_turn 20 ""); Step 2 (ex_turn 20 "")]
    ++ replicate 3 (Step 1 (ex_turn 20 "k1")) ++ replicate 3 (Step 2 (ex_turn 20 "k2"))
    ++ ex_poll 3 30 ++ [Step 3 (ex_turn 30 "")]) in
  w_requests w !! 1%nat = Some (Verify "ABCD2345" (Some "mary") (VDone Verified))
  ∧ w_requests w !! 2%nat = Some (Verify "ABCD2345" (Some "bob") (VDone Verified))
  ∧ w_requests w !! 3%nat = Some (Token "device-1" (TDone (AccessToken "sk-oh-k2"))).
Proof. vm_compute. done. Qed.

(** The database fails while the key is stored: the user is told so, but the code stays
    authorized; the device is answered with a server error and the user cannot try again. *)
Example authorized_without_key :
  let w := run (ex_issue ++ NewVerify "ABCD2345" (Some "mary") :: replicate 4 (Step 1 (ex_turn 20 "k1"))
    ++ [Step 1 (mkTurn (us 20) true None "" "" ""); Step 1 (ex_turn 20 "")]
    ++ ex_poll 2 30 ++ [Step 2 (ex_turn 30 "")] ++ [NewVerify "ABCD2345" (Some "mary"); Step 3 (ex_turn 40 "")]) in
  w_requests w !! 1%nat = Some (Verify "ABCD2345" (Some "mary") (VDone key_failed))
  ∧ (dc_status <$> db_codes (w_db w)) = ["authorized"]
  ∧ w_requests w !! 2%nat = Some (Token "device-1" (server_error "API key not found"))
  ∧ w_requests w !! 3%nat
    = Some (Verify "ABCD2345" (Some "mary") (VDone (VerifyFailed 400 "This device code has already been processed."))).
Proof. vm_compute. done. Qed.

(** A poll that comes between the authorization and the storing of the key is answered with
    a server error, although nothing failed. *)
Example poll_before_key :
  let w := run (ex_issue ++ NewVerify "ABCD2345" (Some "mary") :: replicate 3 (Step 1 (ex_turn 20 "k1"))
    ++ ex_poll 2 20 ++ [Step 2 (ex_turn 20 "")] ++ replicate 2 (Step 1 (ex_turn 20 "k1"))) in
  w_requests w !! 1%nat = Some (Verify "ABCD2345" (Some "mary") (VDone Verified))
  ∧ w_requests w !! 2%nat = Some (Token "device-1" (server_error "API key not found")).
Proof. vm_compute. done. Qed.

(** The route that creates a key answers with the details of the first key of that name:
    for a name that is used twice, those of the older key; for the name the list leaves
    out, nothing. *)
Example details_of_older_key :
  let '(db, _) := create_api_key_route id "mary" (Some "ci") None (ex_turn 1 "k1") (w_db new_DeviceWorld) in
  ∃ db' k, create_api_key_route id "mary" (Some "ci") (Some (us 100)) (ex_turn 2 "k2") db = (db', KeyCreated k "sk-oh-k2")
    ∧ ak_key k = "sk-oh-k1" ∧ ak_expires_at k = None
    ∧ (create_api_key_route id "mary" (Some "MCP_API_KEY") None (ex_turn 3 "k3") db').2 = KeyNothing.
Proof. vm_compute. by eexists _, _. Qed.
End device_example.
