(* ===== verification/ActionServer.v ===== *)
(** * Executing actions in the sandbox

    Models the [ActionExecutor] and the routes of [runtime/action_execution_server.py], the
    client [runtime/impl/action_execution/action_execution_client.py] and
    [runtime/utils/request.py]: an action is serialized, sent, executed inside of the
    sandbox, and its observation comes back the same way.  Parameters: the shell session,
    the notebook kernel, the operating system's files, the editor of the openhands-aci
    package, the browser, the editing by a language model, and what the network does to
    each attempt. *)

From S2P Require Import Prelude PyValue Metrics Schema Actions Observations Events Serialization SerializationProps FileStore EventStore EventStream StrSearch FnCallConverter Base64 Controller PatchApply BashSession Runtime WorkspaceFiles ConversationManager ApollosMcp.
Local Open Scope Z_scope.
Local Open Scope py_scope.

(** ** The outside *)

(** A shell session: [execute], the current directory, and a new session in a directory *)
Class Shell (B : Type) := {
  sh_cwd : B → string;
  sh_execute : Event → pyM B Event;
  sh_new : string → result B;
}.
(** The notebook: [kernel.execute] gives the text and the images. *)
Class Kernel (K : Type) := {
  kn_execute : string → option float → pyM K (string * list string);
  kn_python : K → string;
}.
(** Files by path.  [os_read] and [os_write] give and replace the bytes of a file. *)
Class SandboxOs (X : Type) := {
  os_exists : string → X → bool;
  os_isdir : string → X → bool;
  os_listdir : string → X → result (list string);
  os_makedirs : string → pyM X unit;
  os_read : string → X → result string;
  os_write : string → string → pyM X unit;
  os_copy : string → string → pyM X unit;
  os_stat : string → X → result (Z * Z * Z);
  os_chmod : string → Z → pyM X unit;
  os_chown : string → Z → Z → pyM X unit;
  os_is_binary : string → X → result bool;
  os_extension : string → X → string;
}.

(** What the editor is called with, and what it does: [ToolResult], [ToolError] or another
    exception *)
Record EditorCall := mkEditorCall {
  ec_command : string;
  ec_path : string;
  ec_file_text : option string;
  ec_view_range : option (list Z);
  ec_old_str : option string;
  ec_new_str : option string;
  ec_insert_line : option Z;
  ec_enable_linting : bool;
}.
Record ToolResult := mkToolResult {
  tr_output : option string;
  tr_error : option string;
  tr_old_content : option string;
  tr_new_content : option string;
}.
Class Tools (X : Type) := {
  tl_editor : EditorCall → pyM X ToolResult;
  tl_is_tool_error : py_exc → bool;
  tl_get_diff : string → string → string → string;
  tl_browse : Event → pyM X Event;
  tl_new_browser : pyM X unit;
}.
Definition is_class (cls : string) (e : py_exc) : bool := String.eqb (exc_name e) cls.
Definition NoneType_error (name : string) : py_exc :=
  OtherError "AttributeError" ("'ActionExecutor' object has no attribute '" +:+ name +:+ "'").

Record ActionExecutor (B K X : Type) := mkActionExecutor {
  ax_initial_cwd : string;
  ax_user_id : Z;
  ax_bash : option B;
  ax_static : list B;
  ax_jupyter : option K;
  ax_jupyter_cwd : option string;
  ax_browser : bool;
  ax_enable_browser : bool;
  ax_downloaded_files : list string;
  ax_os : X;
}.
Arguments mkActionExecutor {B K X} _ _ _ _ _ _ _ _ _ _.
Arguments ax_initial_cwd {B K X} _.
Arguments ax_user_id {B K X} _.
Arguments ax_bash {B K X} _.
Arguments ax_static {B K X} _.
Arguments ax_jupyter {B K X} _.
Arguments ax_jupyter_cwd {B K X} _.
Arguments ax_browser {B K X} _.
Arguments ax_enable_browser {B K X} _.
Arguments ax_downloaded_files {B K X} _.
Arguments ax_os {B K X} _.

(** ** Paths *)

(** [str(path)] *)
Definition pure_path_str (p : PurePath) : string :=
  match p_root p +:+ str_join "/" (p_parts p) with "" => "." | s => s end.
(** [_resolve_path] *)
Definition resolve_in (path working_dir : string) : string :=
  let filepath := parse_path path in
  if negb (is_absolute filepath) then pure_path_str (join_path (parse_path working_dir) filepath) else pure_path_str filepath.
(** [os.path.dirname] of the text of a path *)
Fixpoint drop_to_slash (s : string) : string :=
  match s with
  | "" => ""
  | String c s' => if Ascii.eqb c "/" then s' else drop_to_slash s'
  end.
Definition dirname (s : string) : string :=
  if existsb (Ascii.eqb "/") (String.list_ascii_of_string s)
  then match drop_to_slash (String.rev s) with "" => "/" | d => String.rev d end
  else "".
(** [os.path.join] *)
Definition os_join (a b : string) : string :=
  if startswith b "/" then b else if String.eqb a "" || endswith a "/" then a +:+ b else a +:+ "/" +:+ b.
Definition ends_with_any (s : string) (l : list string) : bool := existsb (endswith (str_lower s)) l.
(** [mimetypes.guess_type], for the endings of the images and videos *)
Definition guess_type (path : string) : option string :=
  snd <$> py_find (λ kv, endswith (str_lower path) kv.1)
    [(".png", "image/png"); (".jpg", "image/jpeg"); (".jpeg", "image/jpeg"); (".bmp", "image/bmp"); (".gif", "image/gif");
     (".mp4", "video/mp4"); (".webm", "video/webm"); (".ogg", "audio/ogg")].

Section executor.
Context {B K X : Type} `{Shell B} `{Kernel K} `{SandboxOs X} `{Tools X}.
Variable decodes : string → bool.
Abbreviation AX := (ActionExecutor B K X).

Definition set_bash (b : option B) (s : AX) : AX :=
  mkActionExecutor (ax_initial_cwd s) (ax_user_id s) b (ax_static s) (ax_jupyter s) (ax_jupyter_cwd s) (ax_browser s)
    (ax_enable_browser s) (ax_downloaded_files s) (ax_os s).
Definition add_static (b : B) (s : AX) : AX :=
  mkActionExecutor (ax_initial_cwd s) (ax_user_id s) (ax_bash s) (ax_static s ++ [b]) (ax_jupyter s) (ax_jupyter_cwd s)
    (ax_browser s) (ax_enable_browser s) (ax_downloaded_files s) (ax_os s).
Definition set_jupyter (k : K) (cwd : option string) (s : AX) : AX :=
  mkActionExecutor (ax_initial_cwd s) (ax_user_id s) (ax_bash s) (ax_static s) (Some k) cwd (ax_browser s)
    (ax_enable_browser s) (ax_downloaded_files s) (ax_os s).
Definition set_browser (b : bool) (s : AX) : AX :=
  mkActionExecutor (ax_initial_cwd s) (ax_user_id s) (ax_bash s) (ax_static s) (ax_jupyter s) (ax_jupyter_cwd s) b
    (ax_enable_browser s) (ax_downloaded_files s) (ax_os s).
Definition set_downloaded (l : list string) (s : AX) : AX :=
  mkActionExecutor (ax_initial_cwd s) (ax_user_id s) (ax_bash s) (ax_static s) (ax_jupyter s) (ax_jupyter_cwd s)
    (ax_browser s) (ax_enable_browser s) l (ax_os s).
Definition set_os (x : X) (s : AX) : AX :=
  mkActionExecutor (ax_initial_cwd s) (ax_user_id s) (ax_bash s) (ax_static s) (ax_jupyter s) (ax_jupyter_cwd s)
    (ax_browser s) (ax_enable_browser s) (ax_downloaded_files s) x.
Definition on_os {A} (m : pyM X A) : pyM AX A := λ s, let '(x, r) := m (ax_os s) in (set_os x s, r).
Definition ask_os {A} (f : X → result A) : pyM AX A := λ s, (s, f (ax_os s)).
Definition on_kernel {A} (k : K) (m : pyM K A) : pyM AX A := λ s, let '(k, r) := m k in (set_jupyter k (ax_jupyter_cwd s) s, r).

(** The session the assertions ask for *)
Definition the_bash : pyM AX B := λ s, (s, match ax_bash s with Some b => Ok b | None => Raise AssertionError end).

(** ** Commands and cells *)

Definition ax_run (e : Event) : pyM AX Event :=
  pcatch
    (match ev_body e with
     | EAction (ACmdRun a) =>
         if cra_is_static a then λ s,
           let cwd := match cra_cwd a with Some "" | None => ax_initial_cwd s | Some d => d end in
           match sh_new cwd with
           | Raise x => (s, Raise x)
           | Ok b => let '(b, r) := sh_execute e b in (add_static b s, r)
           end
         else λ s, match ax_bash s with
                   | None => (s, Raise AssertionError)
                   | Some b => let '(b, r) := sh_execute e b in (set_bash (Some b) s, r)
                   end
     | _ => praise (NoneType_error "is_static")
     end)
    (λ x, pret (error_obs (exc_str x))).

Definition chdir_code (cwd : string) : string := "import os; os.chdir(" +:+ dquote +:+ str_replace "\" "/" cwd +:+ dquote +:+ ")".
(** The kernel is moved to the shell's directory, if it changed. *)
Definition reset_jupyter_cwd (b : B) (k : K) : pyM AX unit :=
  let* s := pget in
  if bool_decide (Some (sh_cwd b) = ax_jupyter_cwd s) then pret tt
  else let* _ := on_kernel k (kn_execute (chdir_code (sh_cwd b)) None) in
       pmodify (λ s, match ax_jupyter s with Some k => set_jupyter k (Some (sh_cwd b)) s | None => s end).
Definition run_cell (a : IPythonRunCellAction) (timeout : option float) (b : B) (k : K) : pyM AX Event :=
  let* out := on_kernel k (kn_execute (ipa_code a) timeout) in
  let content := str_rstrip out.1 in
  let content :=
    if ipa_include_extra a
    then content +:+ nl +:+ "[Jupyter current working directory: " +:+ sh_cwd b +:+ "]"
           +:+ nl +:+ "[Jupyter Python interpreter: " +:+ kn_python k +:+ "]"
    else content in
  pret (new_obs content (OIPythonRunCell (mkIPythonRunCellObservation (ipa_code a)
          (match out.2 with [] => None | l => Some l end)))).
Definition ax_run_ipython (e : Event) : pyM AX Event :=
  let* b := the_bash in
  let* s := pget in
  match ev_body e, ax_jupyter s with
  | EAction (AIPythonRunCell a), Some k =>
      reset_jupyter_cwd b k ;;;
      let* s := pget in
      match ax_jupyter s with
      | None => praise AssertionError
      | Some k => run_cell a (event_timeout e) b k
      end
  | _, _ => praise (RuntimeError "JupyterRequirement not found. Unable to run IPython action.")
  end.

(** ** Files *)

(** [_execute_file_editor] *)
Definition execute_file_editor (c : EditorCall) : pyM AX (string * (option string * option string)) :=
  λ s,
    let '(x, r) := tl_editor c (ax_os s) in
    (set_os x s,
     match (match r with
            | Raise x => if tl_is_tool_error x then Ok (inl (mkToolResult None (Some (exc_str x)) None None))
                         else if is_class "TypeError" x then Ok (inr ("ERROR:" +:+ nl +:+ exc_str x))
                         else Raise x
            | Ok t => Ok (inl t)
            end) with
     | Raise x => Raise x
     | Ok (inr text) => Ok (text, (None, None))
     | Ok (inl t) =>
         match truthy_str (tr_error t) with
         | Some err => Ok ("ERROR:" +:+ nl +:+ err, (None, None))
         | None => match truthy_str (tr_output t) with
                   | None => Ok ("", (None, None))
                   | Some out => Ok (out, (tr_old_content t, tr_new_content t))
                   end
         end
     end).

Definition file_read (content path : string) (src : FileReadSource) : Event :=
  new_obs content (OFileRead (mkFileReadObservation path src)).
Definition data_url (mime data : string) : string := "data:" +:+ mime +:+ ";base64," +:+ b64encode data.
(** The [try] block of [read] *)
Definition read_contents (filepath : string) (start end_ : Z) (x : X) : result string :=
  let? data := os_read filepath x in
  if ends_with_any filepath [".png"; ".jpg"; ".jpeg"; ".bmp"; ".gif"] then
    Ok (data_url (from_option id "image/png" (guess_type filepath)) data)
  else if ends_with_any filepath [".pdf"] then Ok (data_url "application/pdf" data)
  else if ends_with_any filepath [".mp4"; ".webm"; ".ogg"] then
    Ok (data_url (from_option id "video/mp4" (guess_type filepath)) data)
  else if decodes data then Ok (str_join "" (read_lines (readlines data) start end_))
  else Raise (OtherError "UnicodeDecodeError" "").
Definition ax_read (e : Event) : pyM AX Event :=
  let* b := the_bash in
  match ev_body e with
  | EAction (AFileRead a) =>
      let* binary := ask_os (os_is_binary (fra_path a)) in
      if binary then pret (error_obs "ERROR_BINARY_FILE")
      else match fra_impl_source a with
           | READ_OH_ACI =>
               let* r := execute_file_editor (mkEditorCall "view" (fra_path a) None (fra_view_range a) None None None false) in
               pret (file_read r.1 (fra_path a) READ_OH_ACI)
           | READ_DEFAULT =>
               let filepath := resolve_in (fra_path a) (sh_cwd b) in
               let* s := pget in
               match read_contents filepath (fra_start a) (fra_end a) (ax_os s) with
               | Ok text => pret (file_read text filepath READ_DEFAULT)
               | Raise x =>
                   if is_class "FileNotFoundError" x then
                     pret (error_obs ("File not found: " +:+ filepath +:+ ". Your current working directory is " +:+ sh_cwd b +:+ "."))
                   else if is_class "UnicodeDecodeError" x then
                     pret (error_obs ("File could not be decoded as utf-8: " +:+ filepath +:+ "."))
                   else if is_class "IsADirectoryError" x then
                     pret (error_obs ("Path is a directory: " +:+ filepath +:+ ". You can only read files"))
                   else praise x
               end
           end
  | _ => praise (NoneType_error "path")
  end.

(** The [try] block of [write]; [exists_] is asked before. *)
Definition write_contents (exists_ : bool) (filepath content : string) (start end_ : Z) : pyM AX unit :=
  let insert := str_split newline content in
  let* text :=
    (if exists_ then
       let* data := ask_os (os_read filepath) in
       if decodes data then pret (str_join "" (insert_lines insert (readlines data) start end_))
       else praise (OtherError "UnicodeDecodeError" "")
     else pret (str_join "" ((λ i, i +:+ nl) <$> insert))) in
  on_os (os_write filepath text).
Definition FILE_MODE : Z := 436.
Definition ax_write (e : Event) : pyM AX Event :=
  let* b := the_bash in
  match ev_body e with
  | EAction (AFileWrite a) =>
      let filepath := resolve_in (fwa_path a) (sh_cwd b) in
      let* s := pget in
      (if os_exists (dirname filepath) (ax_os s) then pret tt else on_os (os_makedirs (dirname filepath))) ;;;
      let* s := pget in
      let file_exists := os_exists filepath (ax_os s) in
      let* st := (if file_exists then let* t := ask_os (os_stat filepath) in pret (Some t) else pret None) in
      let* failed := pcatch
        (write_contents file_exists filepath (fwa_content a) (fwa_start a) (fwa_end a) ;;; pret None)
        (λ x, if is_class "FileNotFoundError" x then pret (Some (error_obs ("File not found: " +:+ filepath)))
              else if is_class "IsADirectoryError" x then
                pret (Some (error_obs ("Path is a directory: " +:+ filepath +:+ ". You can only write to files")))
              else if is_class "UnicodeDecodeError" x then
                pret (Some (error_obs ("File could not be decoded as utf-8: " +:+ filepath)))
              else praise x) in
      match failed with
      | Some o => pret o
      | None =>
          pcatch
            ((match st with
              | Some (mode, uid, gid) => on_os (os_chmod filepath mode) ;;; on_os (os_chown filepath uid gid)
              | None => on_os (os_chmod filepath FILE_MODE) ;;; on_os (os_chown filepath (ax_user_id s) (ax_user_id s))
              end) ;;; pret (new_obs "" (OFileWrite (mkFileWriteObservation filepath))))
            (λ x, if is_class "PermissionError" x then
                    pret (error_obs ("File " +:+ filepath +:+ " written, but failed to change ownership and permissions: "
                                     +:+ exc_str x))
                  else praise x)
      end
  | _ => praise (NoneType_error "path")
  end.

Definition ax_edit (e : Event) : pyM AX Event :=
  match ev_body e with
  | EAction (AFileEdit a) =>
      match fea_impl_source a with
      | LLM_BASED_EDIT => praise AssertionError
      | EDIT_OH_ACI =>
          let* r := execute_file_editor (mkEditorCall (fea_command a) (fea_path a) (fea_file_text a) None (fea_old_str a)
                      (fea_new_str a) (fea_insert_line a) false) in
          pret (new_obs r.1 (OFileEdit (mkFileEditObservation (fea_path a) false (fea_old_str a) (fea_new_str a) EDIT_OH_ACI
                  (Some (tl_get_diff (from_option id "" (fst r.2)) (from_option id "" (snd r.2)) (fea_path a))) None)))
      end
  | _ => praise (NoneType_error "impl_source")
  end.

(** ** The browser *)

Definition init_browser : pyM AX unit :=
  let* s := pget in
  if negb (ax_enable_browser s) then pret tt
  else pcatch (on_os tl_new_browser ;;; pmodify (set_browser true)) (λ _, pmodify (set_browser false)).
(** The task that initializes the browser runs to its end here. *)
Definition ensure_browser_ready : pyM AX unit :=
  let* s := pget in
  if ax_browser s then pret tt
  else init_browser ;;;
       let* s := pget in
       if ax_browser s then pret tt else praise (OtherError "BrowserUnavailableException" "Browser initialization failed").
Definition NO_BROWSER : Event := error_obs "Browser functionality is not supported or disabled.".
Definition ax_browse (e : Event) : pyM AX Event :=
  let* s := pget in
  if negb (ax_browser s) then pret NO_BROWSER
  else ensure_browser_ready ;;; on_os (tl_browse e).
Definition DOWNLOADS : string := "/workspace/.downloads".
Definition browser_error (o : Event) : bool :=
  match ev_body o with EObservation (mkObservation _ (OBrowserOutput b)) => boo_error b | _ => false end.
Definition ax_browse_interactive (e : Event) : pyM AX Event :=
  let* s := pget in
  if negb (ax_browser s) then pret NO_BROWSER
  else
    ensure_browser_ready ;;;
    let* o := on_os (tl_browse e) in
    if negb (browser_error o) then pret o
    else
      let* curr_files := ask_os (os_listdir DOWNLOADS) in
      let* s := pget in
      match py_find (λ f, negb (existsb (String.eqb f) (ax_downloaded_files s))) curr_files with
      | None => pret o
      | Some file =>
          let files := ax_downloaded_files s ++ [file] in
          pmodify (set_downloaded files) ;;;
          let src_path := os_join DOWNLOADS file in
          let* s := pget in
          let tgt_path := "/workspace/file_" +:+ pretty (py_len files) +:+ os_extension src_path (ax_os s) in
          on_os (os_copy src_path tgt_path) ;;;
          match ev_body e with
          | EAction (ABrowseInteractive a) =>
              pret (new_obs ("Execution of the previous action " +:+ bia_browser_actions a
                             +:+ " resulted in a file download. The downloaded file is saved at location: " +:+ tgt_path)
                      (OFileDownload (mkFileDownloadObservation tgt_path)))
          | _ => praise (NoneType_error "browser_actions")
          end
      end.

(** ** All actions *)

(** [getattr(self, action_type)]; the lock lets one action run at a time. *)
Definition ax_run_action (e : Event) : pyM AX Event :=
  match ev_body e with
  | EAction a =>
      match a with
      | ACmdRun _ => ax_run e
      | AIPythonRunCell _ => ax_run_ipython e
      | AFileRead _ => ax_read e
      | AFileWrite _ => ax_write e
      | AFileEdit _ => ax_edit e
      | ABrowseURL _ => ax_browse e
      | ABrowseInteractive _ => ax_browse_interactive e
      | _ => praise (NoneType_error (action_type_value (action_type a)))
      end
  | EObservation _ => praise (NoneType_error "action")
  end.

(** [_init_bash_commands] *)
Definition init_commands (s : AX) : list string :=
  ("alias git=" +:+ dquote +:+ "git --no-pager" +:+ dquote)
  :: (if ax_user_id s =? 0 then [] else ["cd " +:+ ax_initial_cwd s]).
Fixpoint run_init_commands (l : list string) : pyM AX unit :=
  match l with
  | [] => pret tt
  | c :: l =>
      let* o := ax_run (set_hard_timeout (Some (float_of_Z 300)) true (cmd_action c false false false None)) in
      match cmd_exit_code o with
      | Some 0 => run_init_commands l
      | _ => praise AssertionError
      end
  end.
Definition init_bash_commands : pyM AX unit := let* s := pget in run_init_commands (init_commands s).

(** ** Routes *)

(** An answer: the status, and the document or the detail of the error *)
Record HttpAnswer := mkHttpAnswer { ha_status : Z; ha_body : dict }.
Definition http_error (status : Z) (detail : string) : HttpAnswer := mkHttpAnswer status [("detail", JStr detail)].

Variable py_repr : json → string.
Variable literal_eval : string → option dict.
Variable version : string.
Abbreviation to_dict := (event_to_dict py_repr).
Abbreviation from_dict := (event_from_dict literal_eval version).

(** [str(HTTPException(status, detail))] *)
Definition HTTPException (status : Z) (detail : string) : py_exc := OtherError "HTTPException" (pretty status +:+ ": " +:+ detail).
(** [except Exception as e: raise HTTPException(500, ...)]; it catches the handler's own
    HTTP exceptions too. *)
Definition answer_500 (prefix : string) (m : pyM AX dict) : AX → AX * HttpAnswer := λ s,
  let '(s, r) := m s in
  (s, match r with
      | Ok d => mkHttpAnswer 200 d
      | Raise x => http_error 500 (prefix +:+ exc_str x)
      end).
Definition execute_action (body : dict) : AX → AX * HttpAnswer :=
  answer_500 "Internal server error: "
    (let* action := plift (from_dict body) in
     if negb (is_action action) then praise (HTTPException 400 "Invalid action type")
     else let* o := ax_run_action action in plift (to_dict o)).

(** [upload_file] of one file that is no archive *)
Definition upload_file (destination filename contents : string) : AX → AX * HttpAnswer :=
  answer_500 ""
    (if negb (startswith destination "/") then praise (HTTPException 400 "Destination must be an absolute path")
     else
       let* s := pget in
       (if os_exists destination (ax_os s) then pret tt else on_os (os_makedirs destination)) ;;;
       on_os (os_write (os_join destination filename) contents) ;;;
       pret [("filename", JStr filename); ("destination", JStr destination); ("recursive", JBool false)]).

(** [list_files] *)
Definition full_path (s : AX) (path : option string) : string :=
  match path with
  | None => ax_initial_cwd s
  | Some p => if startswith p "/" then p else os_join (ax_initial_cwd s) p
  end.
Definition lower_before (a b : string) : bool := String.ltb (str_lower a) (str_lower b).
Definition list_files (path : option string) (s : AX) : list string :=
  let full := full_path s path in
  let at_ f := os_join full f in
  if negb (os_isdir full (ax_os s)) then []
  else match os_listdir full (ax_os s) with
       | Raise _ => []
       | Ok entries =>
           let entries := py_filter (λ f, os_exists (at_ f) (ax_os s)) entries in
           sort_key_by lower_before ((λ f, f +:+ "/") <$> py_filter (λ f, os_isdir (at_ f) (ax_os s)) entries)
           ++ sort_key_by lower_before (py_filter (λ f, negb (os_isdir (at_ f) (ax_os s))) entries)
       end.

(** [authenticate_requests] *)
Definition authenticate_requests (session_api_key : option string) (path : string) (header : option string)
    (next : AX → AX * HttpAnswer) : AX → AX * HttpAnswer := λ s,
  if String.eqb path "/alive" || String.eqb path "/server_info" then next s
  else match truthy_str session_api_key with
       | Some key => if bool_decide (header = Some key) then next s else (s, http_error 403 "Invalid API Key")
       | None => next s
       end.

(** ** The client *)

(** What happens to an attempt: it is answered; it does not arrive, with an exception of the
    HTTP client; or it is carried out and the answer is lost.  [at_exit]: the process is
    shutting down. *)
Inductive Delivery := Answered | NotSent (x : py_exc) | NoReply (x : py_exc).
Record Attempt := mkAttempt { at_delivery : Delivery; at_exit : bool }.

(** The client: the sandbox's timeout and its closed flag, and the server behind it *)
Record Client := mkClient { cl_timeout : float; cl_closed : bool; cl_server : AX }.
Definition set_server (x : AX) (c : Client) : Client := mkClient (cl_timeout c) (cl_closed c) x.
Definition close_client (c : Client) : Client := mkClient (cl_timeout c) true (cl_server c).

(** [httpx.TimeoutException] and its subclasses *)
Definition is_timeout (x : py_exc) : bool :=
  existsb (String.eqb (exc_name x)) ["TimeoutException"; "ConnectTimeout"; "ReadTimeout"; "WriteTimeout"; "PoolTimeout"].
Definition is_retryable_error (x : py_exc) : bool := is_class "RemoteProtocolError" x.
(** [raise_for_status] of [send_request]; only the details are kept of the error's text.  The server never answers 429, which would be
    tried again. *)
Definition raise_for_status (a : HttpAnswer) : result dict :=
  if ha_status a <? 400 then Ok (ha_body a)
  else Raise (OtherError "RequestHTTPError" ("Details: " +:+ match dget "detail" (ha_body a) with Some (JStr m) => m | _ => "" end)).
(** [_send_action_server_request] with [tries] attempts; attempts beyond the given ones are
    answered. *)
Fixpoint send_action_server_request (handler : AX → AX * HttpAnswer) (tries : nat) (attempts : list Attempt) (s : AX) :
    AX * result dict :=
  match tries with
  | O => (s, Raise (OtherError "RetryError" ""))
  | S tries =>
      let retry (x : py_exc) (exit : bool) (s : AX) (rest : list Attempt) :=
        if is_retryable_error x
        then if exit then (s, Raise (OtherError "RetryError" "")) else send_action_server_request handler tries rest s
        else (s, Raise x) in
      match attempts with
      | mkAttempt (NotSent x) exit :: rest => retry x exit s rest
      | mkAttempt (NoReply x) exit :: rest => retry x exit (handler s).1 rest
      | _ => let '(s, a) := handler s in (s, raise_for_status a)
      end
  end.
Definition MAX_REQUEST_ATTEMPTS : nat := 5.

(** [output.get('extras')['hidden'] = True] *)
Definition hide_output (output : dict) : result dict :=
  match dget "extras" output with
  | Some (JDict ex) => Ok (dset "extras" (JDict (dset "hidden" (JBool true) ex)) output)
  | _ => Raise (TypeError "'NoneType' object does not support item assignment")
  end.

(** [str] of a number of seconds *)
Variable str_float : float → string.
Variable llm_based_edit : Event → pyM Client Event.

(** The request and its answer, once the action is to be executed *)
Definition remote_execution (e : Event) (attempts : list Attempt) : pyM Client Event := λ c,
  match to_dict e with
  | Raise x => (c, Raise x)
  | Ok body =>
      let '(s, r) := send_action_server_request (execute_action body) MAX_REQUEST_ATTEMPTS attempts (cl_server c) in
      (set_server s c,
       match r with
       | Raise x =>
           if is_timeout x
           then Raise (OtherError "AgentRuntimeTimeoutError" 
                         ("Runtime failed to return execute_action before the requested timeout of "
                          +:+ from_option str_float "None" (event_timeout e) +:+ "s"))
           else Raise x
       | Ok output =>
           let? output := if event_hidden e then hide_output output else Ok output in
           let? o := observation_from_dict output in
           Ok (set_cause (Some (event_id e)) o)
       end)
  end.
Definition send_action_for_execution (e : Event) (attempts : list Attempt) : pyM Client Event := λ c,
  match ev_body e with
  | EObservation _ => (c, Raise (OtherError "AttributeError" "object has no attribute 'runnable'"))
  | EAction a =>
      if match a with AFileEdit f => bool_decide (fea_impl_source f = LLM_BASED_EDIT) | _ => false end
      then llm_based_edit e c
      else
        match (match event_timeout e with
               | Some _ => Ok e
               | None => if match a with ACmdRun r => cra_blocking r | _ => false end
                         then Raise (RuntimeError "Blocking command with no timeout set")
                         else Ok (set_hard_timeout (Some (cl_timeout c)) false e)
               end) with
        | Raise x => (c, Raise x)
        | Ok e =>
            if negb (runnable a) then
              (c, Ok (match a with AAgentThink _ => new_obs "Your thought has been logged." OAgentThink | _ => new_obs "" ONull end))
            else if bool_decide (event_confirmation e = Some AWAITING_CONFIRMATION) then (c, Ok (new_obs "" ONull))
            else if bool_decide (event_confirmation e = Some CONF_REJECTED) then
              (c, Ok (new_obs "Action has been rejected by the user! Waiting for further user input." OUserReject))
            else remote_execution e attempts c
        end
  end.
End executor.

(** ** Tool servers of the client *)

(** [MCPStdioServerConfig.__eq__]: the order of the environment does not matter. *)
Definition env_subset (a b : list (string * string)) : bool := forallb (λ kv, bool_decide (kv ∈ b)) a.
Definition stdio_eqb (a b : MCPStdioServerConfig) : bool :=
  String.eqb (ss_name a) (ss_name b) && String.eqb (ss_command a) (ss_command b) && bool_decide (ss_args a = ss_args b)
  && env_subset (ss_env a) (ss_env b) && env_subset (ss_env b) (ss_env a).
Definition stdio_in (x : MCPStdioServerConfig) (l : list MCPStdioServerConfig) : bool := existsb (stdio_eqb x) l.

(** The configuration, whose lists its shallow copies share, and the servers sent last; a
    server with events is its URL and key. *)
Record McpServers := mkMcpServers {
  ms_sse_servers : list (string * option string);
  ms_stdio_servers : list MCPStdioServerConfig;
  ms_last_updated : list MCPStdioServerConfig;
}.
Definition combined_servers (current last : list MCPStdioServerConfig) : list MCPStdioServerConfig :=
  foldl (λ acc x, if stdio_in x acc then acc else acc ++ [x]) current last.
(** [get_mcp_config]; [update] is the status of the request that updates the sandbox, if one
    is sent.  The answer is the list of servers with events of the copy, which is the
    configuration's own. *)
Definition get_mcp_config (url : string) (api_key : option string) (extra : list MCPStdioServerConfig) (update : result Z) :
    pyM McpServers (list (string * option string)) :=
  let* st := pget in
  let current := ms_stdio_servers st ++ extra in
  (match py_filter (λ x, negb (stdio_in x (ms_last_updated st))) current with
   | [] => pret tt
   | _ => let* status := plift update in
          if status =? 200
          then pmodify (λ st, mkMcpServers (ms_sse_servers st) (ms_stdio_servers st) (combined_servers current (ms_last_updated st)))
          else pret tt
   end) ;;;
  pmodify (λ st, match ms_last_updated st with
                 | [] => st
                 | _ => mkMcpServers (ms_sse_servers st ++ [(url, api_key)]) (ms_stdio_servers st) (ms_last_updated st)
                 end) ;;;
  let* st := pget in pret (ms_sse_servers st).

Lemma stdio_eqb_refl x : stdio_eqb x x = true.
Proof.
  unfold stdio_eqb, env_subset. rewrite !String.eqb_refl, (bool_decide_true (ss_args x = ss_args x)) by done.
  assert (forallb (λ kv, bool_decide (kv ∈ ss_env x)) (ss_env x) = true) as ->; [|done].
  apply forallb_forall. intros kv Hk%list_elem_of_In. by apply bool_decide_eq_true.
Qed.
Lemma stdio_in_self x l : x ∈ l → stdio_in x l = true.
Proof. intros Hx%list_elem_of_In. apply existsb_exists. exists x. split; [done|apply stdio_eqb_refl]. Qed.
Lemma stdio_in_app x l k : stdio_in x (l ++ k) = stdio_in x l || stdio_in x k.
Proof. apply existsb_app. Qed.
Lemma combined_keeps current last x :
  (x ∈ current ∨ x ∈ last → stdio_in x (combined_servers current last) = true)
  ∧ (stdio_in x current = true → stdio_in x (combined_servers current last) = true).
Proof.
  unfold combined_servers. revert current. induction last as [|y l IH]; intros current; cbn.
  - split; [|done]. intros [Hx|Hx%not_elem_of_nil]; [by apply stdio_in_self|done].
  - destruct (IH (if stdio_in y current then current else current ++ [y])) as [I1 I2]. split.
    + intros [Hx|[->|Hx]%elem_of_cons].
      * apply I2. destruct (stdio_in y current); [by apply stdio_in_self|]. rewrite stdio_in_app, stdio_in_self by done. done.
      * apply I2. destruct (stdio_in y current) eqn:E; [done|]. rewrite stdio_in_app, (stdio_in_self y [y]); [by rewrite orb_true_r|].
        by apply list_elem_of_singleton.
      * apply I1. by right.
    + intros Hx. apply I2. destruct (stdio_in y current); [done|]. by rewrite stdio_in_app, Hx.
Qed.

(** After a successful update the sandbox knows the servers of the configuration, the extra
    ones and all it knew before; asking again with the same servers sends nothing. *)
Theorem servers_tracked url key extra st :
  let st' := (get_mcp_config url key extra (Ok 200) st).1 in
  (∀ x, x ∈ ms_stdio_servers st ∨ x ∈ extra ∨ x ∈ ms_last_updated st → stdio_in x (ms_last_updated st') = true)
  ∧ ∀ update, (get_mcp_config url key extra update st').2 = (get_mcp_config url key extra (Ok 200) st').2.
Proof.
  set (current := ms_stdio_servers st ++ extra).
  assert (∀ x, x ∈ current ∨ x ∈ ms_last_updated st →
    stdio_in x (ms_last_updated (get_mcp_config url key extra (Ok 200) st).1) = true) as Hin.
  { intros x Hx. unfold get_mcp_config, pbind, pget, plift, pmodify, pret. fold current.
    destruct (py_filter _ current) as [|y l] eqn:Ef.
    - assert (stdio_in x (ms_last_updated st) = true) as Hs.
      { destruct Hx as [Hx|Hx]; [|by apply stdio_in_self]. apply not_false_iff_true. intros Hn.
        assert (x ∈ py_filter (λ x, negb (stdio_in x (ms_last_updated st))) current) as Hc.
        { apply elem_of_py_filter. split; [by rewrite Hn|done]. } rewrite Ef in Hc. by apply not_elem_of_nil in Hc. }
      cbn. by destruct (ms_last_updated st) eqn:E; cbn; rewrite ?E.
    - pose proof (proj1 (combined_keeps current (ms_last_updated st) x) Hx) as Hs. cbn.
      by destruct (combined_servers current (ms_last_updated st)) eqn:E; cbn; rewrite ?E. }
  intros st'. fold st' in Hin. split; [intros x Hx; apply Hin; unfold current; rewrite elem_of_app; tauto|].
  assert (ms_stdio_servers st' = ms_stdio_servers st) as Hst.
  { unfold st', get_mcp_config, pbind, pget, plift, pmodify, pret. destruct (py_filter _ _); cbn; by case_match. }
  intros update. unfold get_mcp_config, pbind, pget. rewrite Hst. fold current.
  assert (py_filter (λ x, negb (stdio_in x (ms_last_updated st'))) current = []) as ->; [|done].
  apply py_filter_none. intros x Hx. by rewrite (Hin x (or_introl Hx)).
Qed.

(** The copy of the configuration shares its list of servers: each call adds the sandbox's
    server to the configuration once more. *)
Theorem sandbox_server_repeated url key extra st update n :
  ms_last_updated st ≠ [] → py_filter (λ x, negb (stdio_in x (ms_last_updated st))) (ms_stdio_servers st ++ extra) = [] →
  ms_sse_servers (Nat.iter n (λ st, (get_mcp_config url key extra update st).1) st)
  = ms_sse_servers st ++ replicate n (url, key).
Proof.
  intros Hl Hf. assert (∀ n, Nat.iter n (λ st, (get_mcp_config url key extra update st).1) st
    = mkMcpServers (ms_sse_servers st ++ replicate n (url, key)) (ms_stdio_servers st) (ms_last_updated st)) as Hx; [|by rewrite Hx].
  clear n. induction n as [|n IH]; [cbn; rewrite app_nil_r; by destruct st|]. rewrite Nat.iter_succ, IH.
  unfold get_mcp_config, pbind, pget, pmodify, pret. cbn [ms_stdio_servers ms_last_updated]. rewrite Hf. cbn.
  destruct (ms_last_updated st) eqn:E; [done|]. cbn. rewrite <- app_assoc. f_equal. f_equal.
  symmetry. exact (replicate_S_end n (url, key)).
Qed.

(** ** Remote execution is local execution *)

Section remote.
Context {B K X : Type} `{Shell B} `{Kernel K} `{SandboxOs X} `{Tools X}.
Variable decodes : string → bool.
Variable py_repr : json → string.
Variable literal_eval : string → option dict.
Variable version : string.
Variable str_float : float → string.
Variable llm_based_edit : Event → pyM (Client (B := B) (K := K) (X := X)) Event.
Abbreviation to_dict := (event_to_dict py_repr).
Abbreviation send := (send_action_for_execution decodes py_repr literal_eval version str_float llm_based_edit).
Abbreviation run_here := (ax_run_action (B := B) (K := K) (X := X) decodes).
Abbreviation handle := (execute_action (B := B) (K := K) (X := X) decodes py_repr literal_eval version).

(** A document of an observation without its attributes *)
Lemma observation_document e o d :
  ev_body e = EObservation o → observation_ok (obs_kind o) → to_dict e = Ok d →
  observation_from_dict d = Ok (mkEvent empty_meta (EObservation (mkObservation (stored_content o) (obs_kind o)))).
Proof.
  intros He Hok Hd. unfold event_to_dict in Hd. rewrite He in Hd.
  destruct (event_message py_repr e) as [msg|]; [|done]. cbn [rbind] in Hd. injection Hd as <-.
  set (d := _ ++ _ : dict). apply (observation_from_dict_extras d o Hok); doc_lookup.
Qed.

Definition never_sent (a : Attempt) : Prop :=
  match a with mkAttempt (NotSent x) exit => is_retryable_error x = true ∧ exit = false | _ => False end.
(** The request arrives once: attempts before it were never sent. *)
Lemma send_once f n tries attempts (s : ActionExecutor B K X) :
  (n < tries)%nat → Forall never_sent (take n attempts) → length (take n attempts) = n →
  head (drop n attempts) = None ∨ (∃ exit, head (drop n attempts) = Some (mkAttempt Answered exit)) →
  send_action_server_request f tries attempts s = (let '(s, a) := f s in (s, raise_for_status a)).
Proof.
  revert tries attempts. induction n as [|n IH]; intros [|tries] attempts Hlt Hf Hl Hh; try lia.
  - rewrite drop_0 in Hh. destruct attempts as [|[d exit] rest]; [done|]. destruct Hh as [?|[? [= -> _]]]; done.
  - destruct attempts as [|[d exit] rest]; [done|]. cbn in Hf, Hl, Hh. apply Forall_cons in Hf as [Ha Hf].
    destruct d as [|x|x]; [done| |done]. destruct Ha as [Hx ->]. cbn. rewrite Hx. apply IH; [lia|done|lia|done].
Qed.

(** Executed, as the client sees it: not for the language model, and the sandbox has it *)
Definition remote (e : Event) : bool :=
  executable e && match ev_body e with
                  | EAction (AFileEdit f) => bool_decide (fea_impl_source f ≠ LLM_BASED_EDIT)
                  | EAction (AMCP _) => false
                  | _ => true
                  end.
Lemma send_is_remote e attempts c tm :
  remote e = true → event_timeout e = Some tm →
  send e attempts c = remote_execution decodes py_repr literal_eval version str_float e attempts c.
Proof.
  unfold remote, executable, send_action_for_execution. intros Hr Ht. rewrite Ht.
  destruct (ev_body e) as [a|o]; [|done]. apply andb_true_iff in Hr as [[[Hrun Ha]%andb_true_iff Hj]%andb_true_iff Hm].
  apply bool_decide_eq_true in Ha, Hj. rewrite Hrun, (bool_decide_false _ Ha), (bool_decide_false _ Hj). cbn [negb].
  destruct a; try done. apply bool_decide_eq_true in Hm. by rewrite (bool_decide_false _ Hm).
Qed.

(** C12 Executing an action through the action server is executing it in the sandbox: if the
    requests before the one that is answered never arrived, the executor runs the action
    exactly once, with the fields the client's action has, and the client returns the
    observation that the executor made, with the action as its cause (and without its
    other attributes); if the executor raises, the client raises an HTTP error that quotes
    it.  Nothing else happens to the executor. *)
Theorem remote_execution_same e d tm attempts n c :
  remote e = true → event_timeout e = Some tm → event_hidden e = false →
  serializable e → to_dict e = Ok d →
  (n < MAX_REQUEST_ATTEMPTS)%nat → Forall never_sent (take n attempts) → length (take n attempts) = n →
  (head (drop n attempts) = None ∨ ∃ exit, head (drop n attempts) = Some (mkAttempt Answered exit)) →
  let '(s, r) := run_here (restored e) (cl_server c) in
  match r with
  | Ok o => ∀ x d', ev_body o = EObservation x → serializable o → to_dict o = Ok d' →
      send e attempts c
      = (set_server s c, Ok (mkEvent (mkEventMeta None None None (Some (event_id e)) None None None None None)
                              (ev_body (restored o))))
  | Raise x =>
      send e attempts c
      = (set_server s c, Raise (OtherError "RequestHTTPError" ("Details: Internal server error: " +:+ exc_str x)))
  end.
Proof.
  intros Hr Ht Hh Hs Hd Hn Hf Hl Ha. rewrite (send_is_remote e attempts c tm Hr Ht). unfold remote_execution. rewrite Hd.
  rewrite (send_once _ n _ attempts _ Hn Hf Hl Ha), Hh.
  assert (is_action (restored e) = true) as Hact.
  { unfold remote, executable in Hr. destruct e as [m [a|o]]; [done|]. done. }
  unfold execute_action, answer_500, pbind, plift. rewrite (document_restores _ _ _ _ _ Hs Hd), Hact. cbn [negb].
  destruct (run_here (restored e) (cl_server c)) as [s [o|x]]; [|done].
  intros x d' Hx [Hok _] Hd'. rewrite Hx in Hok. rewrite Hd'. cbn [raise_for_status ha_status ha_body Z.ltb Z.compare Pos.compare Pos.compare_cont].
  cbn [rbind]. rewrite (observation_document o x d' Hx Hok Hd'). cbn [rbind]. unfold restored. rewrite Hx. done.
Qed.

(** The request is repeated when the connection breaks after it was carried out: the action
    is executed twice. *)
Theorem lost_reply_repeats body x exit (s : ActionExecutor B K X) :
  is_retryable_error x = true → exit = false →
  (send_action_server_request (handle body) MAX_REQUEST_ATTEMPTS [mkAttempt (NoReply x) exit] s).1
  = (handle body (handle body s).1).1.
Proof. intros Hx ->. cbn. rewrite Hx. by destruct (handle body (handle body s).1). Qed.

(** A document that is no action is answered with status 500, not with the 400 that the
    handler raises. *)
Theorem wrong_type_500 body e (s : ActionExecutor B K X) :
  event_from_dict literal_eval version body = Ok e → is_action e = false →
  handle body s = (s, http_error 500 "Internal server error: 400: Invalid action type").
Proof. intros Hf Ha. unfold execute_action, answer_500, pbind, plift. rewrite Hf, Ha. done. Qed.
End remote.

(** The client as the concrete runtime of the base class; [network] decides what happens to
    the attempts, and calls of tool servers are a parameter. *)
Section client.
Context {B K X : Type} `{Shell B} `{Kernel K} `{SandboxOs X} `{Tools X}.
Variable decodes : string → bool.
Variable py_repr : json → string.
Variable literal_eval : string → option dict.
Variable version : string.
Abbreviation CL := (Client (B := B) (K := K) (X := X)).
Variable str_float : float → string.
Variable llm_based_edit : Event → pyM CL Event.
Variable call_tool_mcp : Event → pyM CL Event.
Variable network : Event → list Attempt.
Abbreviation send := (send_action_for_execution decodes py_repr literal_eval version str_float llm_based_edit).

#[local] Instance client_executor : Executor CL := {|
  x_run := λ e, send e (network e);
  x_run_ipython := λ e, send e (network e);
  x_read := λ e, send e (network e);
  x_write := λ e, send e (network e);
  x_edit := λ e, send e (network e);
  x_browse := λ e, send e (network e);
  x_browse_interactive := λ e, send e (network e);
  x_call_tool_mcp := call_tool_mcp;
|}.

(** What the runtime does for an action of the sandbox is to send it. *)
Lemma client_execution e e' c : remote e = true → execution e e' c = send e' (network e') c.
Proof. unfold remote, execution, executable. destruct (ev_body e) as [a|]; [|done]. destruct a; try done; by rewrite andb_false_r. Qed.
End client.

(** ** Files and the notebook *)

(** Reading gives what was written; modes and owners are not contents. *)
Class OsLaws (X : Type) `{SandboxOs X} := {
  ol_written : ∀ p c x x', os_write p c x = (x', Ok tt) → os_read p x' = Ok c;
  ol_chmod : ∀ p m q x, os_read q (os_chmod p m x).1 = os_read q x;
  ol_chown : ∀ p u g q x, os_read q (os_chown p u g x).1 = os_read q x;
}.
(** The kernel has a directory: changing to a directory without quotes sets it, unless the
    kernel fails; some cells leave it alone. *)
Class KernelLaws (K : Type) `{Kernel K} := {
  kl_cwd : K → string;
  kl_keeps : string → bool;
  kl_chdir : ∀ d t k, has_char (Ascii.ascii_of_nat 34) d = false → has_char "\" d = false →
    let '(k', r) := kn_execute (chdir_code d) t k in kl_cwd k' = match r with Ok _ => d | Raise _ => kl_cwd k end;
  kl_kept : ∀ code t k, kl_keeps code = true → kl_cwd (kn_execute code t k).1 = kl_cwd k;
}.

Section files.
Context {B K X : Type} `{Shell B} `{Kernel K} `{SandboxOs X} `{Tools X} `{!OsLaws X}.
Variable decodes : string → bool.
Abbreviation AX := (ActionExecutor B K X).
Implicit Types s : AX.

Lemma on_os_ok {A} (m : pyM X A) s s' a : on_os m s = (s', Ok a) → m (ax_os s) = (ax_os s', Ok a) ∧ ax_bash s' = ax_bash s.
Proof. unfold on_os. destruct (m (ax_os s)) as [x r] eqn:E. intros [= <- ->]. done. Qed.

Lemma pret_ok_inv {S A} (a b : A) (s s' : S) : pret a s = (s', Ok b) → s = s' ∧ a = b.
Proof. unfold pret. by intros [= -> ->]. Qed.
(** The whole file is replaced by the lines of the content. *)
Lemma whole_file content l : str_join "" (insert_lines (str_split newline content) l 0 (-1)) = content +:+ nl.
Proof. rewrite insert_text by lia. cbn [Z.eqb]. rewrite written_text. cbn [Z.to_nat take str_join]. by rewrite append_empty_r. Qed.

Lemma write_contents_ok ex p content s s' :
  write_contents decodes ex p content 0 (-1) s = (s', Ok tt) →
  os_read p (ax_os s') = Ok (content +:+ nl) ∧ ax_bash s' = ax_bash s.
Proof using OsLaws0.
  unfold write_contents. cbv zeta. intros (s1 & text & Ht & Hw)%pbind_ok_inv. apply on_os_ok in Hw as [Hw Hb].
  assert (text = content +:+ nl ∧ s1 = s) as [-> ->].
  { destruct ex; [|by injection Ht as <- <-; rewrite written_text].
    apply pbind_ok_inv in Ht as (s2 & data & Hd & Ht). injection Hd as <- Hd. destruct (decodes data); [|done].
    apply pret_ok_inv in Ht as [<- <-]. split; [apply whole_file|done]. }
  split; [by eapply ol_written|done].
Qed.

Definition set_modes (st : option (Z * Z * Z)) (uid : Z) (p : string) : pyM AX unit :=
  match st with
  | Some (mode, uid, gid) => on_os (os_chmod p mode) ;;; on_os (os_chown p uid gid)
  | None => on_os (os_chmod p FILE_MODE) ;;; on_os (os_chown p uid uid)
  end.
Lemma modes_keep_contents st uid p q s :
  os_read q (ax_os (set_modes st uid p s).1) = os_read q (ax_os s) ∧ ax_bash (set_modes st uid p s).1 = ax_bash s.
Proof using OsLaws0.
  assert (∀ m u g s, os_read q (ax_os ((on_os (os_chmod p m) ;;; on_os (os_chown p u g)) s).1) = os_read q (ax_os s)
    ∧ ax_bash ((on_os (os_chmod p m) ;;; on_os (os_chown p u g)) s).1 = ax_bash s) as Hx.
  { intros m u g s0. unfold pbind, on_os. pose proof (ol_chmod p m q (ax_os s0)) as Hm.
    destruct (os_chmod p m (ax_os s0)) as [x [[]|e]]; cbn in *; [|done].
    pose proof (ol_chown p u g q x) as Ho. destruct (os_chown p u g x) as [x' r]; cbn in *. by rewrite Ho, Hm. }
  destruct st as [[[m u] g]|]; apply Hx.
Qed.

(** What the agent writes into a file it reads back: when a write of a whole file succeeds,
    a read of that path gives the text that was written, with a newline at its end and
    with Unix line ends, if the file is text and its name is not that of a picture, video
    or document. *)
Theorem server_written_is_read w r a f b s s' o :
  ax_bash s = Some b → ev_body w = EAction (AFileWrite a) → ev_body r = EAction (AFileRead f) →
  fra_path f = fwa_path a → fwa_start a = 0 → fwa_end a = -1 → fra_start f = 0 → fra_end f = -1 →
  fra_impl_source f = READ_DEFAULT → decodes (fwa_content a +:+ nl) = true →
  let p := resolve_in (fwa_path a) (sh_cwd b) in
  ends_with_any p [".png"; ".jpg"; ".jpeg"; ".bmp"; ".gif"; ".pdf"; ".mp4"; ".webm"; ".ogg"] = false →
  ax_write decodes w s = (s', Ok o) → is_error_obs o = false → os_is_binary (fra_path f) (ax_os s') = Ok false →
  ax_read decodes r s'
  = (s', Ok (file_read (universal_newlines (fwa_content a +:+ nl)) p READ_DEFAULT)).
Proof using OsLaws0.
  intros Hb Hw Hr Hp Hs He Hrs Hre Hi Hdec p Hend Hwr Ho Hbin.
  assert (os_read p (ax_os s') = Ok (fwa_content a +:+ nl) ∧ ax_bash s' = Some b) as [Hrd Hb'].
  { unfold ax_write in Hwr. apply pbind_ok_inv in Hwr as (s0 & b0 & Hb0 & Hwr). unfold the_bash in Hb0. rewrite Hb in Hb0.
    injection Hb0 as <- <-. rewrite Hw, Hs, He in Hwr. fold p in Hwr.
    apply pbind_ok_inv in Hwr as (s1 & x1 & H1' & Hwr). injection H1' as <- <-.
    apply pbind_ok_inv in Hwr as (s2 & [] & Hmk & Hwr).
    assert (ax_bash s2 = Some b) as Hb2.
    { destruct (os_exists (dirname p) (ax_os s)); [by injection Hmk as <-|]. by apply on_os_ok in Hmk as [_ ->]. }
    apply pbind_ok_inv in Hwr as (s3 & x3 & H3' & Hwr). injection H3' as <- <-.
    apply pbind_ok_inv in Hwr as (s4 & st & Hst & Hwr).
    assert (s4 = s2) as ->.
    { destruct (os_exists p (ax_os s2)); [|by injection Hst as <-]. apply pbind_ok_inv in Hst as (s5 & t & Ht & Hst).
      injection Ht as <- _. by injection Hst as <-. }
    apply pbind_ok_inv in Hwr as (s6 & failed & Hf & Hwr). unfold pcatch in Hf at 1.
    destruct ((write_contents decodes _ p _ _ _ ;;; pret None) s2) as [s7 [v|x]] eqn:Hwc; cycle 1.
    { do 3 (match type of Hf with context [if ?b then _ else _] => destruct b end; [apply pret_ok_inv in Hf as [<- <-]; apply pret_ok_inv in Hwr as [_ <-]; discriminate Ho|]). done. }
    injection Hf as <- <-. apply pbind_ok_inv in Hwc as (s8 & [] & Hwc & Hv). injection Hv as -> <-.
    apply write_contents_ok in Hwc as [Hrd Hb8]. pose proof (modes_keep_contents st (ax_user_id s2) p p s7) as [Hm1 Hm2].
    cut (s' = (set_modes st (ax_user_id s2) p s7).1); [intros ->; split; congruence|].
    fold (set_modes st (ax_user_id s2) p) in Hwr. unfold pcatch, pbind in Hwr.
    destruct (set_modes st (ax_user_id s2) p s7) as [s9 [[]|x]]; [by injection Hwr as <- _|].
    destruct (is_class "PermissionError" x); by injection Hwr as <- _. }
  unfold ax_read, the_bash, pbind, ask_os, pget. rewrite Hb', Hr, Hbin, Hi, Hp. fold p.
  unfold read_contents. rewrite Hrd. cbn [rbind]. unfold ends_with_any in *. cbn [existsb] in *.
  repeat match goal with Hx : _ || _ = false |- _ => apply orb_false_iff in Hx as [? Hx] end.
  repeat match goal with Hx : endswith _ _ = false |- _ => rewrite Hx; clear Hx end. cbn [orb].
  rewrite Hdec, Hrs, Hre, read_all, join_readlines. done.
Qed.
End files.

(** The notebook follows the shell. *)
Section notebook.
Context {B K X : Type} `{Shell B} `{Kernel K} `{SandboxOs X} `{Tools X} `{!KernelLaws K}.
Abbreviation AX := (ActionExecutor B K X).
Implicit Types s : AX.

(** The directory the executor remembers is the kernel's. *)
Definition directory_known s : Prop :=
  ∀ k d, ax_jupyter s = Some k → ax_jupyter_cwd s = Some d → kl_cwd k = d.
Definition plain_directory (d : string) : Prop := has_char (Ascii.ascii_of_nat 34) d = false ∧ has_char "\" d = false.

Lemma reset_directory b k s :
  ax_jupyter s = Some k → plain_directory (sh_cwd b) → directory_known s →
  let '(s', r) := reset_jupyter_cwd b k s in
  directory_known s' ∧ (r = Ok tt → ∃ k', ax_jupyter s' = Some k' ∧ ax_jupyter_cwd s' = Some (sh_cwd b) ∧ kl_cwd k' = sh_cwd b).
Proof using KernelLaws0.
  intros Hk [Hq Hs] Hd. unfold reset_jupyter_cwd, pget, pbind at 1. case_bool_decide as Hc.
  - split; [done|]. intros _. exists k. split_and!; [done|done|]. by apply Hd.
  - pose proof (kl_chdir (sh_cwd b) None k Hq Hs) as Hx. unfold pbind, on_kernel, pmodify.
    destruct (kn_execute (chdir_code (sh_cwd b)) None k) as [k' [out|x]]; cbn in *.
    + split; [by intros k1 d1 [= <-] [= <-]|]. intros _. by exists k'.
    + split; [|done]. intros k1 d1 [= <-] Hd1. rewrite Hx. by apply Hd.
Qed.
Lemma run_cell_kept a timeout b k s :
  ax_jupyter_cwd s = Some (sh_cwd b) → kl_cwd k = sh_cwd b → kl_keeps (ipa_code a) = true →
  let '(s', r) := run_cell a timeout b k s in
  directory_known s' ∧ ax_jupyter s' = Some (kn_execute (ipa_code a) timeout k).1
  ∧ ∀ o, r = Ok o → ∃ out, (kn_execute (ipa_code a) timeout k).2 = Ok out
      ∧ ∃ extra, obs_text o = str_rstrip out.1 +:+ extra ∧ (ipa_include_extra a = false → extra = "").
Proof using KernelLaws0.
  intros Hd Hc Hk. pose proof (kl_kept (ipa_code a) timeout k Hk) as Hx. unfold run_cell, pbind, on_kernel.
  destruct (kn_execute (ipa_code a) timeout k) as [k' [out|x]]; cbn in *.
  - split; [intros k1 d1 [= <-] Hd1; cbn in Hd1; congruence|]. split; [done|]. intros o [= <-]. exists out. split; [done|].
    destruct (ipa_include_extra a); cbn; [by eexists|]. exists "". by rewrite append_empty_r.
  - split; [intros k1 d1 [= <-] Hd1; cbn in Hd1; congruence|done].
Qed.

(** Every cell runs in the directory of the shell: if the cells so far have not changed the
    directory themselves, then when a cell is executed the kernel is in the shell's
    current directory, and what the executor remembers stays true. *)
Theorem cells_follow_shell e a b k s :
  ax_bash s = Some b → ax_jupyter s = Some k → ev_body e = EAction (AIPythonRunCell a) →
  plain_directory (sh_cwd b) → directory_known s → kl_keeps (ipa_code a) = true →
  let '(s', r) := ax_run_ipython e s in
  directory_known s'
  ∧ ∀ o, r = Ok o →
      ∃ k' out, kl_cwd k' = sh_cwd b ∧ (kn_execute (ipa_code a) (event_timeout e) k').2 = Ok out
        ∧ ax_jupyter s' = Some (kn_execute (ipa_code a) (event_timeout e) k').1
        ∧ ∃ extra, obs_text o = str_rstrip out.1 +:+ extra ∧ (ipa_include_extra a = false → extra = "").
Proof using KernelLaws0.
  intros Hb Hk He Hp Hd Hkeep. unfold ax_run_ipython, the_bash, pget, pbind. rewrite Hb, He, Hk.
  pose proof (reset_directory b k s Hk Hp Hd) as Hr. destruct (reset_jupyter_cwd b k s) as [s1 [[]|x]]; [|by destruct Hr].
  destruct Hr as [_ (k' & Hk' & Hd' & Hc')]; [done|]. rewrite Hk'.
  pose proof (run_cell_kept a (event_timeout e) b k' s1 Hd' Hc' Hkeep) as Hrun.
  destruct (run_cell a (event_timeout e) b k' s1) as [s2 r]. destruct Hrun as (Hd2 & Hj & Ho). split; [done|].
  intros o Hr. destruct (Ho o Hr) as (out & Hout & Hextra). by exists k', out.
Qed.
End notebook.

Module server_example.
(** A shell that keeps its commands and fails on [false]; a kernel with a directory; files
    by path. *)
Record ExShell := mkExShell { xs_dir : string; xs_log : list string }.
Definition ex_result (command : string) : Event :=
  new_obs "done" (OCmdOutput (mkCmdOutputObservation command (mkCmdOutputMetadata 0 (-1) None None None None "" "") false)).
#[export] Instance ex_shell : Shell ExShell := {|
  sh_cwd := xs_dir;
  sh_execute := λ e b, match ev_body e with
    | EAction (ACmdRun a) =>
        (mkExShell (xs_dir b) (xs_log b ++ [cra_command a]),
         if String.eqb (cra_command a) "false" then Raise (RuntimeError "no prompt") else Ok (ex_result (cra_command a)))
    | _ => (b, Raise AssertionError)
    end;
  sh_new := λ d, Ok (mkExShell d []);
|}.
Record ExKernel := mkExKernel { xk_dir : string; xk_log : list string }.
#[export] Instance ex_kernel : Kernel ExKernel := {|
  kn_execute := λ code _ k,
    (mkExKernel (match after_prefix ("import os; os.chdir(" +:+ dquote) code with
                 | Some rest => str_take (str_len rest - 2) rest
                 | None => xk_dir k
                 end) (xk_log k ++ [code]), Ok (xk_dir k +:+ nl, []));
  kn_python := λ _, "/usr/bin/python";
|}.
Lemma replace_backslash d : has_char "\" d = false → str_replace "\" "/" d = d.
Proof.
  unfold str_replace. change (String.eqb "\" "") with false. cbv iota. induction d as [|c d IH]; [done|].
  cbn [has_char]. intros [Hc Hd]%orb_false_iff. cbn [replace_go].
  assert (String.prefix "\" (String c d) = false) as ->; [|by rewrite IH].
  cbn [String.prefix]. destruct (ascii_dec "\" c) as [<-|]; [by rewrite Ascii.eqb_refl in Hc|done].
Qed.
#[export] Instance ex_kernel_laws : KernelLaws ExKernel.
Proof.
  refine (Build_KernelLaws _ _ xk_dir (λ code, negb (startswith code ("import os; os.chdir(" +:+ dquote))) _ _).
  - intros d t k _ Hd. unfold kn_execute, ex_kernel, chdir_code. rewrite (replace_backslash d Hd).
    rewrite append_assoc, after_prefix_app. cbn [xk_dir]. rewrite str_len_append. change (str_len (dquote +:+ ")")) with 2.
    apply str_take_app; [unfold str_len|]; lia.
  - intros code t k Hk. unfold kn_execute, ex_kernel, after_prefix. cbn [fst xk_dir]. unfold startswith in Hk.
    by destruct (String.prefix _ code).
Defined.
Abbreviation ExFiles := (list (string * string)).
#[export] Instance ex_os : SandboxOs ExFiles := {|
  os_exists := λ p x, String.eqb p "/workspace" || dmem p x;
  os_isdir := λ p x, String.eqb p "/workspace";
  os_listdir := λ p x, Ok x.*1;
  os_makedirs := λ p x, (x, Ok tt);
  os_read := λ p x, match dget p x with Some c => Ok c | None => Raise FileNotFoundError end;
  os_write := λ p c x, (dset p c x, Ok tt);
  os_copy := λ p q x, (x, Ok tt);
  os_stat := λ p x, Ok (436, 0, 0);
  os_chmod := λ p m x, (x, Ok tt);
  os_chown := λ p u g x, (x, Ok tt);
  os_is_binary := λ p x, Ok (endswith p ".png");
  os_extension := λ p x, "";
|}.
#[export] Instance ex_os_laws : OsLaws ExFiles.
Proof.
  split; [|done|done]. intros p c x x' [= <-]. cbn. by rewrite dget_dset, String.eqb_refl.
Qed.
#[export] Instance ex_tools : Tools ExFiles := {|
  tl_editor := λ c x, (x, Ok (mkToolResult (Some "edited") None (Some "a") (Some "b")));
  tl_is_tool_error := is_class "ToolError";
  tl_get_diff := λ old new p, "-" +:+ old +:+ "+" +:+ new;
  tl_browse := λ e x, (x, Ok (error_obs "page"));
  tl_new_browser := λ x, (x, Ok tt);
|}.
Definition ex_executor : ActionExecutor ExShell ExKernel ExFiles :=
  mkActionExecutor "/workspace" 1000 (Some (mkExShell "/workspace" [])) [] (Some (mkExKernel "/" [])) None false true [] [].
Definition ex_client : Client := mkClient (float_of_Z 120) false ex_executor.
Definition ex_cmd_event (hidden : bool) (c : string) : Event :=
  set_hard_timeout (Some (float_of_Z 10)) false (set_id (Some 7) (cmd_action c false hidden false None)).
Abbreviation ex_send := (send_action_for_execution (λ _, true) (λ _, "") (λ _, None) "1.0" (λ _, "10") (λ e, pret e)).
Definition RPE : py_exc := OtherError "RemoteProtocolError" "Server disconnected without sending a response.".

(** Two attempts do not reach the server; the command runs once. *)
Lemma remote_execution_same_witness :
  let e := ex_cmd_event false "ls" in
  let attempts := [mkAttempt (NotSent RPE) false; mkAttempt (NotSent RPE) false; mkAttempt Answered false] in
  ex_send e attempts ex_client
  = (set_server (ax_run_action (λ _, true) (restored e) ex_executor).1 ex_client,
     Ok (mkEvent (mkEventMeta None None None (Some 7) None None None None None) (ev_body (restored (ex_result "ls"))))).
Proof.
  intros e attempts. destruct (event_to_dict (λ _, "") e) as [d|] eqn:Hd; [|discriminate].
  destruct (event_to_dict (λ _, "") (ex_result "ls")) as [d'|] eqn:Hd'; [|discriminate].
  refine (remote_execution_same (λ _, true) (λ _, "") (λ _, None) "1.0" (λ _, "10") (λ e, pret e) e d (float_of_Z 10) attempts 2 ex_client
    eq_refl eq_refl eq_refl _ Hd _ _ eq_refl _ _ d' eq_refl _ Hd').
  - split; [exact I|discriminate].
  - unfold MAX_REQUEST_ATTEMPTS. lia.
  - repeat constructor.
  - right. by exists false.
  - split; [exact I|discriminate].
Defined.

Definition ex_write : FileWriteAction := mkFileWriteAction "a.txt" "x" 0 (-1) "" RISK_UNKNOWN.
Definition ex_read : FileReadAction := mkFileReadAction "a.txt" 0 (-1) "" RISK_UNKNOWN READ_DEFAULT None.
Lemma server_written_is_read_witness :
  let s' := set_os [("/workspace/a.txt", "x" +:+ nl)] ex_executor in
  let o := new_obs "" (OFileWrite (mkFileWriteObservation "/workspace/a.txt")) in
  ax_write (λ _, true) (new_action (AFileWrite ex_write)) ex_executor = (s', Ok o)
  ∧ ax_read (λ _, true) (new_action (AFileRead ex_read)) s'
    = (s', Ok (file_read (universal_newlines ("x" +:+ nl)) "/workspace/a.txt" READ_DEFAULT)).
Proof.
  intros s' o. assert (ax_write (λ _, true) (new_action (AFileWrite ex_write)) ex_executor = (s', Ok o)) as Hw
    by (vm_compute; reflexivity). split; [exact Hw|].
  exact (server_written_is_read (λ _, true) (new_action (AFileWrite ex_write)) (new_action (AFileRead ex_read)) ex_write ex_read
    (mkExShell "/workspace" []) ex_executor s' o eq_refl eq_refl eq_refl eq_refl eq_refl eq_refl eq_refl eq_refl eq_refl eq_refl
    eq_refl Hw eq_refl eq_refl).
Defined.

Lemma cells_follow_shell_witness :
  let e := new_action (AIPythonRunCell (mkIPythonRunCellAction "1" "" false CONFIRMED RISK_UNKNOWN "")) in
  ∃ s' o k' out, ax_run_ipython e ex_executor = (s', Ok o) ∧ kl_cwd k' = "/workspace"
    ∧ (kn_execute "1" None k').2 = Ok out ∧ directory_known s'.
Proof.
  intros e. pose proof (cells_follow_shell e (mkIPythonRunCellAction "1" "" false CONFIRMED RISK_UNKNOWN "")
    (mkExShell "/workspace" []) (mkExKernel "/" []) ex_executor eq_refl eq_refl eq_refl (conj eq_refl eq_refl)) as Hx.
  destruct (ax_run_ipython e ex_executor) as [s' [o|x]] eqn:E; [|vm_compute in E; discriminate].
  destruct Hx as [Hd Ho]; [discriminate|reflexivity|]. destruct (Ho o eq_refl) as (k' & out & Hk & Hout & _).
  by exists s', o, k', out.
Defined.

(** The command is carried out twice when the connection breaks before its answer. *)
Example command_runs_twice :
  let c := (ex_send (ex_cmd_event false "make deploy") [mkAttempt (NoReply RPE) false] ex_client).1 in
  xs_log <$> ax_bash (cl_server c) = Some ["make deploy"; "make deploy"].
Proof. vm_compute. reflexivity. Qed.

(** A hidden command whose execution fails: the server answers with an error observation,
    but the client cannot read it, because such an observation has no [hidden]. *)
Example hidden_error_raises :
  (ex_send (ex_cmd_event false "false") [] ex_client).2
  = Ok (mkEvent (mkEventMeta None None None (Some 7) None None None None None) (ev_body (error_obs "no prompt")))
  ∧ (ex_send (ex_cmd_event true "false") [] ex_client).2 = Raise (TypeError "got an unexpected keyword argument: hidden").
Proof. vm_compute. done. Qed.

(** An upload to a relative destination is answered with status 500 instead of the 400 that
    the handler raises. *)
Example upload_status :
  (upload_file "tmp" "a.txt" "x" ex_executor).2 = http_error 500 "400: Destination must be an absolute path".
Proof. reflexivity. Qed.

(** While the browser starts in the background, browsing is answered with an error; nothing
    waits for it, although the executor could. *)
Example browser_not_awaited :
  (ax_browse (new_action (ABrowseURL (mkBrowseURLAction "https://a" "" RISK_UNKNOWN false))) ex_executor).2 = Ok NO_BROWSER
  ∧ (ensure_browser_ready ex_executor).2 = Ok tt.
Proof. vm_compute. done. Qed.

(** A picture is refused as binary, although its contents could be read and encoded; and the
    check is made on the path as given, not on the file in the shell's directory. *)
Example picture_refused :
  let s := set_os [("/workspace/a.png", "png")] ex_executor in
  ax_read (λ _, true) (new_action (AFileRead (mkFileReadAction "/workspace/a.png" 0 (-1) "" RISK_UNKNOWN READ_DEFAULT None))) s
  = (s, Ok (error_obs "ERROR_BINARY_FILE"))
  ∧ read_contents (λ _, true) "/workspace/a.png" 0 (-1) (ax_os s) = Ok "data:image/png;base64,cG5n".
Proof. vm_compute. done. Qed.

(** The observation of an edit has the replaced text as the old contents of the file. *)
Example edit_contents :
  ∃ s d, ax_edit (new_action (AFileEdit (mkFileEditAction "/workspace/a" "str_replace" None (Some "p") (Some "q") None "" 1 (-1) ""
                    RISK_UNKNOWN EDIT_OH_ACI))) ex_executor
  = (s, Ok (new_obs "edited" (OFileEdit (mkFileEditObservation "/workspace/a" false (Some "p") (Some "q") EDIT_OH_ACI (Some d) None))))
  ∧ d = "-a+b".
Proof. by eexists _, _. Qed.

(** A cell that changes the directory is not followed by a reset: the next cell runs there. *)
Example cell_directory_kept :
  let cell code := ax_run_ipython (B := ExShell) (X := ExFiles) (new_action (AIPythonRunCell
                     (mkIPythonRunCellAction code "" false CONFIRMED RISK_UNKNOWN ""))) in
  let s := (cell "1" ex_executor).1 in
  xk_dir <$> ax_jupyter s = Some "/workspace"
  ∧ xk_dir <$> ax_jupyter (cell "2" (cell (chdir_code "/tmp") s).1).1 = Some "/tmp".
Proof. vm_compute. done. Qed.
End server_example.
