(* ===== verification/Settings.v ===== *)
(** * Settings and the routes of settings and secrets

    Models [openhands/storage/data_models/settings.py], [storage/settings/file_settings_store.py],
    [server/settings.py], [server/routes/settings.py] and [server/routes/secrets.py]: the
    user's settings, their document with and without secrets, the store in a file, how a
    posted document is merged with the stored one, and the routes that change secrets.
    Parameters: the validation of a tool server's document, what the configuration file
    says, the base URL the LLM library knows for a model, and the check of a token with its
    provider. *)

From S2P Require Import Prelude PyValue Schema Actions Observations Events Serialization SerializationProps FileStore EventStore ExamplePlatform Secrets.
Local Open Scope Z_scope.
Local Open Scope py_scope.

(** The tool servers, each as its validated document *)
Record MCPConfig := mkMCPConfig { mc_sse : list json; mc_stdio : list json; mc_shttp : list json }.
(** [MCPSSEServerConfig( **d)] and the like: the document with its defaults *)
Class ServerDocuments := { server_load : string → json → option json }.

(** A [SecretStr] is its value. *)
Record Settings := mkSettings {
  se_language : option string;
  se_agent : option string;
  se_max_iterations : option Z;
  se_security_analyzer : option string;
  se_confirmation_mode : option bool;
  se_llm_model : option string;
  se_llm_api_key : option string;
  se_llm_base_url : option string;
  se_user_version : option Z;
  se_remote_runtime_resource_factor : option Z;
  se_secrets_store : Secrets;
  se_enable_default_condenser : bool;
  se_enable_sound_notifications : bool;
  se_enable_proactive_conversation_starters : bool;
  se_enable_solvability_analysis : bool;
  se_user_consents_to_analytics : option bool;
  se_sandbox_base_container_image : option string;
  se_sandbox_runtime_container_image : option string;
  se_mcp_config : option MCPConfig;
  se_search_api_key : option string;
  se_sandbox_api_key : option string;
  se_max_budget_per_task : option float;
  se_condenser_max_size : option Z;
  se_email : option string;
  se_email_verified : option bool;
  se_git_user_name : option string;
  se_git_user_email : option string;
  se_v1_enabled : bool;
}.

(** What the code changes of a settings object *)
Definition with_llm (model key url : option string) (s : Settings) : Settings :=
  mkSettings (se_language s) (se_agent s) (se_max_iterations s) (se_security_analyzer s) (se_confirmation_mode s) model key url
    (se_user_version s) (se_remote_runtime_resource_factor s) (se_secrets_store s) (se_enable_default_condenser s)
    (se_enable_sound_notifications s) (se_enable_proactive_conversation_starters s) (se_enable_solvability_analysis s)
    (se_user_consents_to_analytics s) (se_sandbox_base_container_image s) (se_sandbox_runtime_container_image s)
    (se_mcp_config s) (se_search_api_key s) (se_sandbox_api_key s) (se_max_budget_per_task s) (se_condenser_max_size s)
    (se_email s) (se_email_verified s) (se_git_user_name s) (se_git_user_email s) (se_v1_enabled s).
Definition set_rest (secrets : Secrets) (consents : option bool) (mcp : option MCPConfig) (search sandbox : option string)
    (v1 : bool) (s : Settings) : Settings :=
  mkSettings (se_language s) (se_agent s) (se_max_iterations s) (se_security_analyzer s) (se_confirmation_mode s)
    (se_llm_model s) (se_llm_api_key s) (se_llm_base_url s) (se_user_version s) (se_remote_runtime_resource_factor s) secrets
    (se_enable_default_condenser s) (se_enable_sound_notifications s) (se_enable_proactive_conversation_starters s)
    (se_enable_solvability_analysis s) consents (se_sandbox_base_container_image s) (se_sandbox_runtime_container_image s)
    mcp search sandbox (se_max_budget_per_task s) (se_condenser_max_size s) (se_email s) (se_email_verified s)
    (se_git_user_name s) (se_git_user_email s) v1.
Definition set_consents (c : option bool) (s : Settings) : Settings :=
  set_rest (se_secrets_store s) c (se_mcp_config s) (se_search_api_key s) (se_sandbox_api_key s) (se_v1_enabled s) s.
Definition set_search_key (k : option string) (s : Settings) : Settings :=
  set_rest (se_secrets_store s) (se_user_consents_to_analytics s) (se_mcp_config s) k (se_sandbox_api_key s) (se_v1_enabled s) s.
Definition set_mcp (m : option MCPConfig) (s : Settings) : Settings :=
  set_rest (se_secrets_store s) (se_user_consents_to_analytics s) m (se_search_api_key s) (se_sandbox_api_key s)
    (se_v1_enabled s) s.
Definition set_v1 (b : bool) (s : Settings) : Settings :=
  set_rest (se_secrets_store s) (se_user_consents_to_analytics s) (se_mcp_config s) (se_search_api_key s)
    (se_sandbox_api_key s) b s.

(** ** Documents *)

(** [api_key_serializer]: a blank key is none. *)
Definition api_key_serializer (expose_secrets : bool) (api_key : option string) : option string :=
  match api_key with
  | None => None
  | Some k => if String.eqb (str_strip k) "" then None else Some (if expose_secrets then k else hidden k)
  end.
Definition mcp_dump (m : MCPConfig) : json :=
  JDict [("sse_servers", JList (mc_sse m)); ("stdio_servers", JList (mc_stdio m)); ("shttp_servers", JList (mc_shttp m))].
(** A key without a serializer of its own is a [SecretStr] in Python's mode, and hidden in
    JSON's. *)
Definition settings_dump (expose_secrets json_mode : bool) (s : Settings) : dict :=
  [("language", jtext (se_language s)); ("agent", jtext (se_agent s)); ("max_iterations", jopt JInt (se_max_iterations s));
   ("security_analyzer", jtext (se_security_analyzer s)); ("confirmation_mode", jopt JBool (se_confirmation_mode s));
   ("llm_model", jtext (se_llm_model s)); ("llm_api_key", jtext (api_key_serializer expose_secrets (se_llm_api_key s)));
   ("llm_base_url", jtext (se_llm_base_url s)); ("user_version", jopt JInt (se_user_version s));
   ("remote_runtime_resource_factor", jopt JInt (se_remote_runtime_resource_factor s));
   ("secrets_store", JDict [("provider_tokens", JDict [])]);
   ("enable_default_condenser", JBool (se_enable_default_condenser s));
   ("enable_sound_notifications", JBool (se_enable_sound_notifications s));
   ("enable_proactive_conversation_starters", JBool (se_enable_proactive_conversation_starters s));
   ("enable_solvability_analysis", JBool (se_enable_solvability_analysis s));
   ("user_consents_to_analytics", jopt JBool (se_user_consents_to_analytics s));
   ("sandbox_base_container_image", jtext (se_sandbox_base_container_image s));
   ("sandbox_runtime_container_image", jtext (se_sandbox_runtime_container_image s));
   ("mcp_config", jopt mcp_dump (se_mcp_config s));
   ("search_api_key", jtext (api_key_serializer expose_secrets (se_search_api_key s)));
   ("sandbox_api_key", jtext (if json_mode then hidden <$> se_sandbox_api_key s else se_sandbox_api_key s));
   ("max_budget_per_task", jopt JFloat (se_max_budget_per_task s)); ("condenser_max_size", jopt JInt (se_condenser_max_size s));
   ("email", jtext (se_email s)); ("email_verified", jopt JBool (se_email_verified s));
   ("git_user_name", jtext (se_git_user_name s)); ("git_user_email", jtext (se_git_user_email s));
   ("v1_enabled", JBool (se_v1_enabled s))].

Section settings.
Context `{ServerDocuments}.

(** [_normalize_servers], then each document *)
Definition load_server (kind : string) (j : json) : option json :=
  server_load kind (match j with JStr url => JDict [("url", JStr url)] | _ => j end).
Definition mcp_load (j : json) : option MCPConfig :=
  match j with
  | JDict d =>
      let servers k := match dget k d with
                       | None => Some []
                       | Some (JList l) => mapM (if String.eqb k "stdio_servers" then server_load k else load_server k) l
                       | Some _ => None
                       end in
      match servers "sse_servers", servers "stdio_servers", servers "shttp_servers" with
      | Some a, Some b, Some c => Some (mkMCPConfig a b c)
      | _, _, _ => None
      end
  | _ => None
  end.
Definition dec_secrets (j : json) : option Secrets := match j with JDict d => Some (secrets_from_dict d) | _ => None end.

Definition validate_condenser_max_size (v : option Z) : result (option Z) :=
  match v with
  | None => Ok None
  | Some n => if n <? 20 then Raise (ValueError "condenser_max_size must be at least 20") else Ok (Some n)
  end.
(** [Settings( **kwargs)]; keys that are no fields are ignored, also the [secret_store] that
    [convert_provider_tokens] adds.  A value of another type, which Pydantic may convert, is
    not modelled. *)
Definition settings_load (d : dict) : result Settings :=
  let str k := arg (dec_opt dec_str) k (Some None) d in
  let int k := arg (dec_opt dec_Z) k (Some None) d in
  let flag k := arg (dec_opt dec_bool) k (Some None) d in
  let bool_ k b := arg dec_bool k (Some b) d in
  let? language := str "language" in
  let? agent := str "agent" in
  let? max_iterations := int "max_iterations" in
  let? security_analyzer := str "security_analyzer" in
  let? confirmation_mode := flag "confirmation_mode" in
  let? llm_model := str "llm_model" in
  let? llm_api_key := str "llm_api_key" in
  let? llm_base_url := str "llm_base_url" in
  let? user_version := int "user_version" in
  let? factor := int "remote_runtime_resource_factor" in
  let? secrets := arg dec_secrets "secrets_store" (Some no_secrets) d in
  let? condenser := bool_ "enable_default_condenser" true in
  let? sound := bool_ "enable_sound_notifications" false in
  let? starters := bool_ "enable_proactive_conversation_starters" true in
  let? solvability := bool_ "enable_solvability_analysis" true in
  let? consents := flag "user_consents_to_analytics" in
  let? base_image := str "sandbox_base_container_image" in
  let? runtime_image := str "sandbox_runtime_container_image" in
  let? mcp := arg (dec_opt mcp_load) "mcp_config" (Some None) d in
  let? search := str "search_api_key" in
  let? sandbox := str "sandbox_api_key" in
  let? budget := arg (dec_opt dec_float) "max_budget_per_task" (Some None) d in
  let? size := int "condenser_max_size" in
  let? size := validate_condenser_max_size size in
  let? email := str "email" in
  let? email_verified := flag "email_verified" in
  let? git_name := str "git_user_name" in
  let? git_email := str "git_user_email" in
  let? v1 := bool_ "v1_enabled" true in
  Ok (mkSettings language agent max_iterations security_analyzer confirmation_mode llm_model llm_api_key llm_base_url
        user_version factor secrets condenser sound starters solvability consents base_image runtime_image mcp search
        sandbox budget size email email_verified git_name git_email v1).

(** [merge_with_config_settings]; [config] is what [from_config] says. *)
Definition merge_with_config_settings (config : option Settings) (s : Settings) : Settings :=
  match config ≫= se_mcp_config with
  | None => s
  | Some c =>
      match se_mcp_config s with
      | None => set_mcp (Some c) s
      | Some m => set_mcp (Some (mkMCPConfig (mc_sse c ++ mc_sse m) (mc_stdio c ++ mc_stdio m) (mc_shttp c ++ mc_shttp m))) s
      end
  end.

(** ** [FileSettingsStore] *)

Context `{Platform} {F : Type} `{FileStore F}.
Definition SETTINGS_PATH : string := "settings.json".
Definition load_settings_file (f : F) : result (option Settings) :=
  match fs_read f SETTINGS_PATH with
  | Raise FileNotFoundError => Ok None
  | Raise e => Raise e
  | Ok text =>
      let? j := json_loads text in
      match j with
      | JDict kwargs => let? s := settings_load kwargs in Ok (Some (set_v1 true s))
      | _ => Raise (TypeError "argument after ** must be a mapping")
      end
  end.
Definition store_settings_file (s : Settings) : pyM F unit :=
  fs_write SETTINGS_PATH (json_dumps (JDict (settings_dump true true s))).

(** ** The routes of settings *)

Record Response := mkResponse { rp_status : Z; rp_message : string }.
Definition SECRETS_PATH : string := "secrets.json".
(** The files and the fields of the server's configuration that the routes set *)
Record Server := mkServer { sv_files : F; sv_factor : Z; sv_git_user_name : string; sv_git_user_email : string }.
Definition set_files (f : F) (v : Server) : Server := mkServer f (sv_factor v) (sv_git_user_name v) (sv_git_user_email v).
Definition on_files {A} (m : pyM F A) : pyM Server A := λ v, let '(f, r) := m (sv_files v) in (set_files f v, r).
Definition ask_files {A} (g : F → result A) : pyM Server A := λ v, (v, g (sv_files v)).

Variable LITE_LLM_API_URL : string.
Variable get_provider_api_base : string → option string.
Definition is_openhands_model (model : option string) : bool :=
  match model with Some m => startswith m "openhands/" | None => false end.

Definition store_llm_settings (s existing : Settings) : Settings :=
  let key := match se_llm_api_key s with None => se_llm_api_key existing | k => k end in
  let model := match se_llm_model s with None => se_llm_model existing | m => m end in
  let url :=
    match truthy_str (se_llm_base_url s) with
    | Some u => Some u
    | None =>
        if is_openhands_model model then Some LITE_LLM_API_URL
        else match truthy_str model with
             | Some m => match truthy_str (get_provider_api_base m) with Some u => Some u | None => se_llm_base_url s end
             | None => se_llm_base_url s
             end
    end in
  let s := with_llm model key url s in
  match truthy_str (se_search_api_key s) with
  | Some _ => s
  | None => set_search_key (se_search_api_key existing) s
  end.
Definition convert_to_settings (s : Settings) : result Settings :=
  settings_load (dset "search_api_key" (jtext (se_search_api_key s)) (dset "llm_api_key" (jtext (se_llm_api_key s))
                   (settings_dump false false s))).
(** The settings that are stored for the posted ones *)
Definition merged_settings (s : Settings) (existing : option Settings) : Settings :=
  match existing with
  | None => s
  | Some e =>
      let s := store_llm_settings s e in
      match se_user_consents_to_analytics s with None => set_consents (se_user_consents_to_analytics e) s | Some _ => s end
  end.
Definition update_config (s : Settings) (v : Server) : Server :=
  mkServer (sv_files v) (from_option id (sv_factor v) (se_remote_runtime_resource_factor s))
    (from_option id (sv_git_user_name v) (se_git_user_name s)) (from_option id (sv_git_user_email v) (se_git_user_email s)).
Definition caught (message : string) (m : pyM Server Response) : Server → Server * Response := λ v,
  match m v with
  | (v, Ok r) => (v, r)
  | (v, Raise _) => (v, mkResponse 500 message)
  end.
Definition store_settings (s : Settings) : Server → Server * Response :=
  caught "Something went wrong storing settings"
    (let* existing := ask_files load_settings_file in
     let s := merged_settings s existing in
     pmodify (update_config s) ;;;
     let* s := plift (convert_to_settings s) in
     on_files (store_settings_file s) ;;; pret (mkResponse 200 "Settings stored")).

(** [invalidate_legacy_secrets_store] *)
Definition invalidate_legacy_secrets_store (s : Settings) : pyM Server (option Secrets) :=
  match provider_tokens (se_secrets_store s) with
  | [] => pret None
  | l =>
      let user_secrets := mkSecrets l [] in
      on_files (secrets_store SECRETS_PATH user_secrets) ;;;
      on_files (store_settings_file (set_rest no_secrets (se_user_consents_to_analytics s) (se_mcp_config s)
                  (se_search_api_key s) (se_sandbox_api_key s) (se_v1_enabled s) s)) ;;;
      pret (Some user_secrets)
  end.
(** The answer of [GET /settings]: the settings without their keys, which keys are set, and
    the hosts of the providers with a token *)
Record GETSettingsModel := mkGETSettingsModel {
  gs_settings : Settings;
  gs_llm_api_key_set : bool;
  gs_search_api_key_set : bool;
  gs_provider_tokens_set : list (ProviderType * option string);
}.
Definition key_set (k : option string) : bool := bool_decide (is_Some (truthy_str k)).
Definition provider_hosts (l : list (ProviderType * ProviderToken)) : list (ProviderType * option string) :=
  omap (λ e, if key_set (pt_token e.2) || key_set (pt_user_id e.2) then Some (e.1, pt_host e.2) else None) l.
Definition shown_url (s : Settings) : option string :=
  if is_openhands_model (se_llm_model s) then
    if bool_decide (se_llm_base_url s = Some LITE_LLM_API_URL) then None else se_llm_base_url s
  else match truthy_str (se_llm_model s) with
       | Some m => if bool_decide (se_llm_base_url s = get_provider_api_base m) then None else se_llm_base_url s
       | None => se_llm_base_url s
       end.
Definition hide_keys (url : option string) (s : Settings) : Settings :=
  set_rest (se_secrets_store s) (se_user_consents_to_analytics s) (se_mcp_config s) None None (se_v1_enabled s)
    (with_llm (se_llm_model s) None url s).
Definition load_settings (tokens : option (list (ProviderType * ProviderToken))) (settings : option Settings) :
    Server → Server * (GETSettingsModel + Response) := λ v,
  match settings with
  | None => (v, inr (mkResponse 404 "Settings not found"))
  | Some s =>
      match (let* secrets := invalidate_legacy_secrets_store s in
             let providers := match secrets with Some x => provider_tokens x | None => from_option id [] tokens end in
             let* shown := plift (settings_load (settings_dump false false s)) in
             pret (mkGETSettingsModel
                     (hide_keys (shown_url s) shown)
                     (key_set (se_llm_api_key s)) (key_set (se_search_api_key s)) (provider_hosts providers))) v with
      | (v, Ok g) => (v, inl g)
      | (v, Raise _) => (v, inr (mkResponse 401 "Invalid token"))
      end
  end.

(** ** The routes of secrets *)

(** [validate_provider_token(token, host)] *)
Variable validate_provider_token : string → option string → option ProviderType.
Definition process_token_validation_result (confirmed : option ProviderType) (t : ProviderType) : string :=
  if bool_decide (confirmed = Some t) then ""
  else "Invalid token. Please make sure it is a valid " +:+ provider_value t +:+ " token.".
Fixpoint token_lookup (p : ProviderType) (l : list (ProviderType * ProviderToken)) : option ProviderToken :=
  match l with
  | [] => None
  | (q, t) :: l => if bool_decide (p = q) then Some t else token_lookup p l
  end.
Definition check_one (existing : list (ProviderType * ProviderToken)) (msg : string) (e : ProviderType * ProviderToken) : string :=
  let msg := match truthy_str (pt_token e.2) with
             | Some t => process_token_validation_result (validate_provider_token t (pt_host e.2)) e.1
             | None => msg
             end in
  match token_lookup e.1 existing with
  | Some old =>
      if bool_decide (pt_host old ≠ pt_host e.2) then
        match truthy_str (pt_token old) with
        | Some t =>
            let confirmed := validate_provider_token t (pt_host e.2) in
            if bool_decide (confirmed = Some e.1) then msg else process_token_validation_result confirmed e.1
        | None => msg
        end
      else msg
  | None => msg
  end.
Definition check_provider_tokens (incoming existing : list (ProviderType * ProviderToken)) : string :=
  foldl (check_one existing) "" incoming.

(** The token that is stored for a posted one: an existing one is kept if none is posted,
    under the posted host. *)
Definition merge_token (existing : list (ProviderType * ProviderToken)) (e : ProviderType * ProviderToken) :
    ProviderType * ProviderToken :=
  let kept := match truthy_str (pt_token e.2), token_lookup e.1 existing with
              | None, Some old => if key_set (pt_token old) then old else e.2
              | _, _ => e.2
              end in
  (e.1, mkProviderToken (pt_token kept) (pt_user_id kept) (pt_host e.2)).
Definition store_provider_tokens (incoming existing : list (ProviderType * ProviderToken)) : Server → Server * Response := λ v,
  match truthy_str (Some (check_provider_tokens incoming existing)) with
  | Some msg => (v, mkResponse 401 msg)
  | None =>
      caught "Something went wrong storing git providers"
        (let* secrets := ask_files (secrets_load SECRETS_PATH) in
         let secrets := from_option id no_secrets secrets in
         on_files (secrets_store SECRETS_PATH
           (mkSecrets (merge_token (provider_tokens secrets) <$> incoming) (custom_secrets secrets))) ;;;
         pret (mkResponse 200 "Git providers stored")) v
  end.
Definition unset_provider_tokens : Server → Server * Response :=
  caught "Something went wrong unsetting tokens"
    (let* secrets := ask_files (secrets_load SECRETS_PATH) in
     (match secrets with
      | Some s => on_files (secrets_store SECRETS_PATH (mkSecrets [] (custom_secrets s)))
      | None => pret tt
      end) ;;; pret (mkResponse 200 "Unset Git provider tokens")).
(** Names and descriptions *)
Definition load_custom_secrets_names (s : option Secrets) : list (string * string) :=
  from_option get_custom_secrets_descriptions [] s.

Definition create_custom_secret (name value : string) (description : option string) : Server → Server * Response :=
  caught "Something went wrong creating secret"
    (let* existing := ask_files (secrets_load SECRETS_PATH) in
     let s := from_option id no_secrets existing in
     if dmem name (custom_secrets s) then pret (mkResponse 400 ("Secret " +:+ name +:+ " already exists"))
     else on_files (secrets_store SECRETS_PATH (mkSecrets (provider_tokens s)
            (dset name (mkCustomSecret value (from_option id "" description)) (custom_secrets s)))) ;;;
          pret (mkResponse 201 "Secret created successfully")).
Definition update_custom_secret (secret_id name : string) (description : option string) : Server → Server * Response :=
  caught "Something went wrong updating secret"
    (let* existing := ask_files (secrets_load SECRETS_PATH) in
     match existing with
     | None => pret (mkResponse 200 "Secret updated successfully")
     | Some s =>
         match dget secret_id (custom_secrets s) with
         | None => pret (mkResponse 404 ("Secret with ID " +:+ secret_id +:+ " not found"))
         | Some old =>
             let rest := ddel secret_id (custom_secrets s) in
             if negb (String.eqb name secret_id) && dmem name rest
             then pret (mkResponse 400 ("Secret " +:+ name +:+ " already exists"))
             else on_files (secrets_store SECRETS_PATH (mkSecrets (provider_tokens s)
                    (dset name (mkCustomSecret (cs_secret old) (from_option id "" description)) rest))) ;;;
                  pret (mkResponse 200 "Secret updated successfully")
         end
     end).
Definition delete_custom_secret (secret_id : string) : Server → Server * Response :=
  caught "Something went wrong deleting secret"
    (let* existing := ask_files (secrets_load SECRETS_PATH) in
     match existing with
     | None => pret (mkResponse 200 "Secret deleted successfully")
     | Some s =>
         if dmem secret_id (custom_secrets s)
         then on_files (secrets_store SECRETS_PATH (mkSecrets (provider_tokens s) (ddel secret_id (custom_secrets s)))) ;;;
              pret (mkResponse 200 "Secret deleted successfully")
         else pret (mkResponse 404 ("Secret with ID " +:+ secret_id +:+ " not found"))
     end).
End settings.

(** ** Settings are stored and loaded *)

Section stored.
Context `{ServerDocuments}.

Definition settings_doc (llm search sandbox : json) (s : Settings) : dict :=
  dset "sandbox_api_key" sandbox (dset "search_api_key" search (dset "llm_api_key" llm (settings_dump true true s))).
Lemma dump_doc e j s :
  settings_dump e j s = settings_doc (jtext (api_key_serializer e (se_llm_api_key s)))
    (jtext (api_key_serializer e (se_search_api_key s)))
    (jtext (if j then hidden <$> se_sandbox_api_key s else se_sandbox_api_key s)) s.
Proof. reflexivity. Qed.

Lemma dec_jtext x : dec_opt dec_str (jtext x) = Some x.
Proof. by destruct x. Qed.
Lemma dec_jint x : dec_opt dec_Z (jopt JInt x) = Some x.
Proof. by destruct x. Qed.
Lemma dec_jbool x : dec_opt dec_bool (jopt JBool x) = Some x.
Proof. by destruct x. Qed.
Lemma dec_jfloat x : dec_opt dec_float (jopt JFloat x) = Some x.
Proof. by destruct x. Qed.

(** Servers whose documents are complete, and a size the validator accepts *)
Definition valid_mcp (m : MCPConfig) : Prop :=
  Forall (λ j, load_server "sse_servers" j = Some j) (mc_sse m)
  ∧ Forall (λ j, server_load "stdio_servers" j = Some j) (mc_stdio m)
  ∧ Forall (λ j, load_server "shttp_servers" j = Some j) (mc_shttp m).
Definition valid_settings (s : Settings) : Prop :=
  (∀ m, se_mcp_config s = Some m → valid_mcp m) ∧ (∀ n, se_condenser_max_size s = Some n → 20 ≤ n).

Lemma mapM_fixed {A} (g : A → option A) l : Forall (λ x, g x = Some x) l → mapM g l = Some l.
Proof. intros Hl. apply mapM_Some. induction Hl; by constructor. Qed.
Lemma mcp_load_dump m : valid_mcp m → mcp_load (mcp_dump m) = Some m.
Proof.
  intros (Ha & Hb & Hc). unfold mcp_load, mcp_dump. cbn [dget String.eqb Ascii.eqb Bool.eqb].
  rewrite (mapM_fixed _ _ Ha), (mapM_fixed _ _ Hb), (mapM_fixed _ _ Hc). by destruct m.
Qed.
Lemma dec_mcp x : (∀ m, x = Some m → valid_mcp m) → dec_opt mcp_load (jopt mcp_dump x) = Some x.
Proof.
  destruct x as [m|]; [|done]. intros Hv. specialize (Hv m eq_refl).
  unfold dec_opt, jopt. cbn [from_option]. change (mcp_dump m) with (mcp_dump m). unfold mcp_dump at 1.
  fold (mcp_dump m). by rewrite (mcp_load_dump m Hv).
Qed.

(** What a document with these keys is read as *)
Definition settings_of (llm search sandbox : option string) (s : Settings) : Settings :=
  set_rest no_secrets (se_user_consents_to_analytics s) (se_mcp_config s) search sandbox (se_v1_enabled s)
    (with_llm (se_llm_model s) llm (se_llm_base_url s) s).
Lemma rbind_step {A C} (r : result A) a (k : A → result C) x : r = Ok a → k a = x → rbind r k = x.
Proof. intros ->. done. Qed.
Ltac load_with tac := eapply rbind_step; [eapply arg_found; [vm_compute; reflexivity|tac]|cbv beta].
Ltac load_field :=
  load_with ltac:(first [apply dec_jtext | apply dec_jint | apply dec_jbool | apply dec_jfloat | reflexivity]).
Lemma settings_load_doc llm search sandbox s :
  valid_settings s →
  settings_load (settings_doc (jtext llm) (jtext search) (jtext sandbox) s) = Ok (settings_of llm search sandbox s).
Proof.
  intros [Hm Hc]. destruct s as [? ? ? ? ? ? ? ? ? ? ? ? ? ? ? ? ? ? mcp ? ? ? size ? ? ? ? ?]. cbn in Hm, Hc. unfold settings_load.
  do 18 load_field.
  load_with ltac:(by apply dec_mcp). do 4 load_field.
  eapply (rbind_step _ size); [destruct size as [n|]; [|done]; specialize (Hc n eq_refl); cbn; by rewrite (proj2 (Z.ltb_ge n 20) Hc)|].
  do 5 load_field. done.
Qed.
End stored.

Section routes.
Context `{ServerDocuments} `{Platform} {PL : PlatformLaws} {F : Type} `{FileStore F} {FL : FileStoreLaws F}.
Variable LITE_LLM_API_URL : string.
Variable get_provider_api_base : string → option string.
Abbreviation merged := (merged_settings LITE_LLM_API_URL get_provider_api_base).
Abbreviation post := (store_settings (F := F) LITE_LLM_API_URL get_provider_api_base).

(** What is left of settings after they were stored: blank keys are gone, the key of the
    sandbox is hidden, and the secrets are elsewhere. *)
Definition kept_settings (s : Settings) : Settings :=
  set_v1 true (settings_of (api_key_serializer true (se_llm_api_key s)) (api_key_serializer true (se_search_api_key s))
                 (hidden <$> se_sandbox_api_key s) s).

Lemma stored_settings_loaded (f f' : F) s :
  valid_settings s → store_settings_file s f = (f', Ok tt) → load_settings_file f' = Ok (Some (kept_settings s)).
Proof using PL FL.
  intros Hv Hw. unfold load_settings_file. unfold store_settings_file in Hw.
  rewrite (fs_read_write _ _ _ _ Hw), loads_dumps. cbn [rbind].
  rewrite (dump_doc true true s), settings_load_doc by done. done.
Qed.

Lemma merged_valid s e : valid_settings s → valid_settings (merged s e).
Proof.
  intros Hv. destruct e as [e|]; [|done]. unfold merged_settings, store_llm_settings. by repeat case_match.
Qed.
Lemma convert_settings s :
  valid_settings s → convert_to_settings s = Ok (settings_of (se_llm_api_key s) (se_search_api_key s) (se_sandbox_api_key s) s).
Proof. intros Hv. unfold convert_to_settings. rewrite <- settings_load_doc by done. reflexivity. Qed.
Lemma kept_converted s :
  kept_settings (settings_of (se_llm_api_key s) (se_search_api_key s) (se_sandbox_api_key s) s) = kept_settings s.
Proof. reflexivity. Qed.
Lemma valid_of llm search sandbox s : valid_settings s → valid_settings (settings_of llm search sandbox s).
Proof. done. Qed.

(** The settings without the ones that are merged, and without the key of the sandbox *)
Definition rest_of (s : Settings) : Settings :=
  set_rest no_secrets None (se_mcp_config s) None None true (with_llm None None None s).
Definition posted_or {A} (posted stored : option A) : option A := match posted with None => stored | Some x => Some x end.
(** [l] is what is loaded after [s] was posted over [existing]. *)
Record taken_over (existing : option Settings) (s l : Settings) : Prop := {
  to_rest : rest_of l = rest_of s;
  to_key : se_llm_api_key l = api_key_serializer true (posted_or (se_llm_api_key s) (existing ≫= se_llm_api_key));
  to_model : se_llm_model l = posted_or (se_llm_model s) (existing ≫= se_llm_model);
  to_search : se_search_api_key l
    = api_key_serializer true (posted_or (truthy_str (se_search_api_key s)) (existing ≫= se_search_api_key));
  to_consents : se_user_consents_to_analytics l
    = posted_or (se_user_consents_to_analytics s) (existing ≫= se_user_consents_to_analytics);
  to_url u : truthy_str (se_llm_base_url s) = Some u → se_llm_base_url l = Some u;
}.

Lemma serializer_truthy k x :
  api_key_serializer true (posted_or (truthy_str k) x) = api_key_serializer true (match truthy_str k with Some _ => k | None => x end).
Proof. by destruct k as [[]|]. Qed.
Lemma serializer_blank k : truthy_str k = None → api_key_serializer true k = None.
Proof. by destruct k as [[]|]. Qed.
Lemma merged_taken_over s existing : taken_over existing s (kept_settings (merged s existing)).
Proof.
  unfold merged_settings. destruct existing as [e|]; [unfold store_llm_settings|]; split; cbn [mbind option_bind];
    rewrite ?serializer_truthy;
    destruct (truthy_str (se_search_api_key s)) eqn:Ht, (se_user_consents_to_analytics s) eqn:Hc;
    cbn; rewrite ?Ht, ?Hc; cbn; rewrite ?Hc; try done; try (by intros u ->); try (by destruct (se_llm_api_key s), (se_llm_model s)).
  all: try exact (serializer_blank _ Ht).
  all: intros u; destruct (se_llm_base_url s) as [[]|]; [done| |done]; by intros [= <-].
Qed.

(** C25 Posted settings are kept: when the route answers 200, the file held settings, or none,
    and the settings that are loaded afterwards have the posted fields, but for the
    following: the LLM's model and key, the search key and the consent come from the stored
    settings where none are posted, and blank keys become none; the base URL is the posted
    one if one is posted (see [base_url_lost] for the other case); the sandbox's key is not
    kept but its mask (see [sandbox_key_lost]), the switch to the new version is always on,
    and secrets are kept elsewhere ([rest_of], what is compared, leaves these out).
    Otherwise the route answers 500, and the stored settings are what they were unless the
    file store itself failed. *)
Theorem posted_settings_kept s v :
  valid_settings s →
  let '(v', r) := post s v in
  match rp_status r with
  | 200 => ∃ existing l, load_settings_file (sv_files v) = Ok existing
             ∧ load_settings_file (sv_files v') = Ok (Some l) ∧ taken_over existing s l
  | status => status = 500 ∧ (sv_files v' = sv_files v ∨ ∃ x text, (fs_write SETTINGS_PATH text (sv_files v)).2 = Raise x)
  end.
Proof using PL FL.
  intros Hv. unfold store_settings, caught, pbind, ask_files, plift, pmodify.
  destruct (load_settings_file (sv_files v)) as [existing|x] eqn:Hl; [|by split; [|left]].
  rewrite convert_settings by by apply merged_valid. unfold on_files. cbn [sv_files update_config].
  set (s' := settings_of _ _ _ _). destruct (store_settings_file s' (sv_files v)) as [f' [[]|x]] eqn:Hs.
  - cbn. exists existing, (kept_settings (merged s existing)). split_and!; [done| |apply merged_taken_over].
    rewrite <- kept_converted.
    apply (stored_settings_loaded (sv_files v)); [by apply valid_of, merged_valid|done].
  - split; [done|]. right. eexists x, _. unfold store_settings_file in Hs. by rewrite Hs.
Qed.

(** ** What the browser sees *)

Definition without_keys (s : Settings) : Settings := settings_of None None None s.
(** The page of settings shows no key: for two users whose settings differ only in the
    values of their keys, the answers are the same. *)
Theorem settings_answer_hides tokens s s' (v v' : Server (F := F)) :
  valid_settings s → valid_settings s' →
  without_keys s = without_keys s' →
  key_set (se_llm_api_key s) = key_set (se_llm_api_key s') → key_set (se_search_api_key s) = key_set (se_search_api_key s') →
  provider_tokens (se_secrets_store s) = [] → provider_tokens (se_secrets_store s') = [] →
  (load_settings LITE_LLM_API_URL get_provider_api_base tokens (Some s) v).2
  = (load_settings LITE_LLM_API_URL get_provider_api_base tokens (Some s') v').2.
Proof.
  intros Hv Hv' He Hk Hk2 Ht Ht'. unfold load_settings, invalidate_legacy_secrets_store, pbind, plift. rewrite Ht, Ht'.
  cbn [from_option]. unfold pret. rewrite !(dump_doc false false), !settings_load_doc, Hk, Hk2 by done.
  assert (∀ a b c url s, hide_keys url (settings_of a b c s) = hide_keys url (without_keys s)) as Hh by reflexivity.
  assert (∀ s, shown_url LITE_LLM_API_URL get_provider_api_base s
               = shown_url LITE_LLM_API_URL get_provider_api_base (without_keys s)) as Hu by reflexivity.
  cbn [snd]. by rewrite !Hh, (Hu s), (Hu s'), He.
Qed.

(** ** The routes of secrets keep a dictionary *)

Inductive SecretRequest :=
  | Create (name value : string) (description : option string)
  | Update (secret_id name : string) (description : option string)
  | Delete (secret_id : string).
Definition request (q : SecretRequest) : Server (F := F) → Server * Response :=
  match q with
  | Create n v d => create_custom_secret n v d
  | Update i n d => update_custom_secret i n d
  | Delete i => delete_custom_secret i
  end.
(** What the request means for the dictionary of secrets *)
Definition meaning (l : list (string * CustomSecret)) (q : SecretRequest) : list (string * CustomSecret) :=
  match q with
  | Create n v d => if dmem n l then l else dset n (mkCustomSecret v (from_option id "" d)) l
  | Update i n d =>
      match dget i l with
      | None => l
      | Some old => if negb (String.eqb n i) && dmem n (ddel i l) then l
                    else dset n (mkCustomSecret (cs_secret old) (from_option id "" d)) (ddel i l)
      end
  | Delete i => ddel i l
  end.
Definition holds (v : Server (F := F)) (s : Secrets) : Prop := secrets_load SECRETS_PATH (sv_files v) = Ok (Some s).

Lemma store_secrets_holds v s msg v' a r :
  provider_tokens (nonempty_tokens s) = provider_tokens s →
  caught msg (on_files (secrets_store SECRETS_PATH s) ;;; pret a) v = (v', r) → rp_status r ≠ 500 → holds v' s.
Proof using PL FL.
  intros Hn. unfold caught, pbind, on_files. destruct (secrets_store SECRETS_PATH s (sv_files v)) as [f [[]|x]] eqn:Hs.
  - intros [= <- _] _. unfold holds. cbn. rewrite (secrets_file_roundtrip _ _ _ _ Hs). do 2 f_equal.
    destruct s as [ts cs]. unfold nonempty_tokens in *. cbn in *. by rewrite Hn.
  - by intros [= _ <-].
Qed.
Lemma request_meaning q v v' s r :
  holds v s → provider_tokens (nonempty_tokens s) = provider_tokens s → request q v = (v', r) → rp_status r ≠ 500 →
  holds v' (mkSecrets (provider_tokens s) (meaning (custom_secrets s) q)).
Proof using PL FL.
  intros Hh Hn Hq Hr. destruct s as [ts cs]. unfold holds in Hh. cbn [provider_tokens custom_secrets] in *.
  assert (∀ l msg a, caught msg (on_files (secrets_store SECRETS_PATH (mkSecrets ts l)) ;;; pret a) v = (v', r) →
    holds v' (mkSecrets ts l)) as Hstore.
  { intros l msg a Hc. by apply (store_secrets_holds v _ msg v' a r). }
  destruct q as [n x d|i n d|i]; cbn [request meaning] in *.
  - unfold create_custom_secret, caught, pbind at 1, ask_files in Hq. rewrite Hh in Hq. cbn [from_option id provider_tokens custom_secrets] in Hq.
    destruct (dmem n cs); [by (unfold pret in Hq; apply pair_equal_spec in Hq as [<- _])|]. eapply Hstore; exact Hq.
  - unfold update_custom_secret, caught, pbind at 1, ask_files in Hq. rewrite Hh in Hq. cbn [custom_secrets] in Hq.
    destruct (dget i cs) as [old|]; [|by (unfold pret in Hq; apply pair_equal_spec in Hq as [<- _])].
    destruct (negb (String.eqb n i) && dmem n (ddel i cs)); [by (unfold pret in Hq; apply pair_equal_spec in Hq as [<- _])|]. eapply Hstore; exact Hq.
  - unfold delete_custom_secret, caught, pbind at 1, ask_files in Hq. rewrite Hh in Hq. cbn [custom_secrets] in Hq.
    unfold dmem in Hq. destruct (dget i cs) eqn:Hd; [eapply Hstore; exact Hq|].
    unfold pret in Hq. apply pair_equal_spec in Hq as [<- _]. by rewrite ddel_none.
Qed.

Definition answer_next (vr : Server (F := F) * list Z) (q : SecretRequest) : Server * list Z :=
  let '(v, r) := request q vr.1 in (v, vr.2 ++ [rp_status r]).
Lemma statuses_kept qs v l n : n ∈ l → n ∈ (foldl answer_next (v, l) qs).2.
Proof.
  revert v l. induction qs as [|q qs IH]; intros v l Hl; [done|]. cbn [foldl]. unfold answer_next at 2. cbn [fst snd]. destruct (request q v) as [v1 r].
  apply IH, elem_of_app. by left.
Qed.

(** C29 The secrets of a user are a dictionary: after any sequence of requests that create, rename
    and delete secrets, none of which was answered with status 500, the store holds what
    these operations make of the dictionary it held before, and the provider tokens are
    untouched. *)
Theorem secret_routes_refine qs v s :
  holds v s → provider_tokens (nonempty_tokens s) = provider_tokens s →
  let run := foldl answer_next (v, []) qs in
  500 ∉ run.2 → holds run.1 (mkSecrets (provider_tokens s) (foldl meaning (custom_secrets s) qs)).
Proof using PL FL.
  intros Hh Hn. cbv zeta. generalize ([] : list Z) as sts. revert v s Hh Hn. induction qs as [|q qs IH]; intros v s Hh Hn sts; cbn [foldl].
  - intros _. by destruct s.
  - unfold answer_next at 2 4. cbn [fst snd]. destruct (request q v) as [v1 r] eqn:Hq. intros Hno.
    assert (rp_status r ≠ 500) as Hr.
    { intros Hx. apply Hno, statuses_kept. rewrite Hx. apply elem_of_app. right. by apply list_elem_of_singleton. }
    exact (IH v1 (mkSecrets (provider_tokens s) (meaning (custom_secrets s) q)) (request_meaning _ _ _ _ _ Hh Hn Hq Hr) Hn _ Hno).
Qed.
End routes.

(** ** Examples *)

Module settings_example.
(** A server's document is a dictionary with an address or a command. *)
#[local] Instance ex_documents : ServerDocuments := {|
  server_load := λ kind j,
    match j with
    | JDict d => if dmem (if String.eqb kind "stdio_servers" then "command" else "url") d then Some j else None
    | _ => None
    end
|}.
Definition proxy : string := "https://proxy".
Definition api_base (model : string) : option string := if startswith model "claude" then Some "https://claude" else None.

(** A user's settings: model, keys and base URL of the LLM, and the key of the sandbox *)
Definition settings_with (model key url search sandbox : option string) : Settings :=
  mkSettings (Some "en") (Some "CodeActAgent") None None None model key url None (Some 2) no_secrets true false true true
    None None None (Some (mkMCPConfig [JDict [("url", JStr "https://tools")]] [] [])) search sandbox None (Some 120) None None
    (Some "me") None true.
Definition first := settings_with (Some "claude") (Some "sk-1") (Some "https://own") (Some "tv-1") None.
Definition second := settings_with None None None (Some "") None.
Lemma settings_with_valid model key url search sandbox : valid_settings (settings_with model key url search sandbox).
Proof. split; [intros m [= <-]; repeat constructor|intros n [= <-]; done]. Qed.

Definition fresh : Server (F := InMemoryFileStore) := mkServer (mkInMemoryFileStore []) 1 "openhands" "openhands@all-hands.dev".
Definition post_ex s v := store_settings proxy api_base s v.
Definition once : Server := (post_ex first fresh).1.

(** A second post without key and model keeps both. *)
Lemma posted_settings_kept_witness :
  ∃ l, load_settings_file (sv_files (post_ex second once).1) = Ok (Some l)
       ∧ se_llm_api_key l = Some "sk-1" ∧ se_llm_model l = Some "claude" ∧ se_search_api_key l = Some "tv-1".
Proof.
  pose proof (posted_settings_kept proxy api_base second once (settings_with_valid _ _ _ _ _)) as Hk.
  change (store_settings proxy api_base second once) with (post_ex second once) in Hk.
  assert (rp_status (post_ex second once).2 = 200) as Hr by (vm_compute; reflexivity).
  assert (load_settings_file (sv_files once) = Ok (Some (kept_settings first))) as Hf by (vm_compute; reflexivity).
  destruct (post_ex second once) as [v' r]. cbn [snd] in Hr. rewrite Hr in Hk. destruct Hk as (existing & l & Hl & Hl' & Ht).
  rewrite Hf in Hl. assert (Some (kept_settings first) = existing) as <- by congruence.
  exists l. by rewrite (to_key _ _ _ Ht), (to_model _ _ _ Ht), (to_search _ _ _ Ht).
Defined.

(** The key of the sandbox has no serializer: what is stored for it
    is its mask. *)
Example sandbox_key_lost :
  ∃ s, load_settings_file (sv_files (post_ex (settings_with None None None None (Some "sandbox-key")) fresh).1) = Ok (Some s)
       ∧ se_sandbox_api_key s = Some "**********".
Proof. eexists. vm_compute. split; reflexivity. Qed.

(** The base URL that the user had is not kept: it becomes the provider's, or none. *)
Example base_url_lost :
  ∃ s, load_settings_file (sv_files (post_ex second once).1) = Ok (Some s) ∧ se_llm_base_url s = Some "https://claude"
       ∧ se_llm_base_url first = Some "https://own".
Proof. eexists. vm_compute. repeat split; reflexivity. Qed.

(** ** What the browser sees *)

Definition other := settings_with (Some "claude") (Some "sk-2") (Some "https://own") (Some "tv-2") (Some "key").
Lemma settings_answer_hides_witness :
  (load_settings proxy api_base None (Some first) fresh).2 = (load_settings proxy api_base None (Some other) once).2.
Proof.
  exact (settings_answer_hides proxy api_base None first other fresh once (settings_with_valid _ _ _ _ _)
           (settings_with_valid _ _ _ _ _) eq_refl eq_refl eq_refl eq_refl eq_refl).
Defined.

(** ** Secrets *)

Definition kept_secrets : Secrets :=
  mkSecrets [(GITHUB, mkProviderToken (Some "ghp_1") (Some "me") None)] [("KEY", mkCustomSecret "v" "a key")].
Definition with_secrets : Server := set_files (secrets_store SECRETS_PATH kept_secrets (mkInMemoryFileStore [])).1 fresh.
Definition requests : list SecretRequest := [Create "A" "1" None; Update "KEY" "B" (Some "b"); Update "A" "B" None; Delete "A"].
Lemma secret_routes_refine_witness :
  holds (foldl answer_next (with_secrets, []) requests).1
    (mkSecrets (provider_tokens kept_secrets) [("B", mkCustomSecret "v" "b")]).
Proof.
  refine (secret_routes_refine requests with_secrets kept_secrets _ _ _).
  - vm_compute. reflexivity.
  - reflexivity.
  - by apply (bool_decide_unpack _).
Defined.

(** A change of a secret that does not exist is answered with 404 if there are other secrets,
    and with 200 if there are none. *)
Example update_of_nothing :
  rp_status (update_custom_secret "C" "D" None with_secrets).2 = 404
  ∧ (update_custom_secret "C" "D" None fresh).2 = mkResponse 200 "Secret updated successfully"
  ∧ (delete_custom_secret "C" fresh).2 = mkResponse 200 "Secret deleted successfully".
Proof. repeat split; vm_compute; reflexivity. Qed.

(** The verdict on one token is overwritten by that on the next: an invalid token is stored
    if it is posted before a valid one, and refused after it. *)
Definition validate (token : string) (host : option string) : option ProviderType :=
  if startswith token "ghp" then Some GITHUB else None.
Definition bad_token := (GITLAB, mkProviderToken (Some "nonsense") None None).
Definition good_token := (GITHUB, mkProviderToken (Some "ghp_1") None None).
Example invalid_token_accepted :
  let answer l := store_provider_tokens validate l [] fresh in
  rp_status (answer [bad_token; good_token]).2 = 200 ∧ rp_status (answer [good_token; bad_token]).2 = 401
  ∧ ∃ s, secrets_load SECRETS_PATH (sv_files (answer [bad_token; good_token]).1) = Ok (Some s)
         ∧ token_lookup GITLAB (provider_tokens s) = Some bad_token.2.
Proof. cbv zeta. repeat split; [vm_compute; reflexivity..|]. eexists. vm_compute. split; reflexivity. Qed.

(** Moving tokens out of old settings replaces the secrets that the user has by now. *)
Definition legacy : Settings :=
  set_rest (mkSecrets [good_token] []) None None None None true first.
Example migration_drops_secrets :
  let v := (load_settings proxy api_base None (Some legacy) with_secrets).1 in
  load_custom_secrets_names (Some kept_secrets) = [("KEY", "a key")]
  ∧ ∃ s, secrets_load SECRETS_PATH (sv_files v) = Ok (Some s) ∧ load_custom_secrets_names (Some s) = [].
Proof. cbv zeta. split; [reflexivity|]. eexists. vm_compute. split; reflexivity. Qed.
End settings_example.
