(* ===== verification/AppServer.v ===== *)
(** * The application server: conversations, events, callbacks and sandboxes

    Models the part of [openhands/app_server] that keeps state:
    [app_conversation/sql_app_conversation_info_service.py] (the table of conversations),
    [event/event_service_base.py] and [event/filesystem_event_service.py] (the events of a
    conversation as files), [event_callback/sql_event_callback_service.py] with the callback
    processors, [event_callback/webhook_router.py] (what the sandbox reports) and the shared
    operations of [sandbox/sandbox_service.py].  A UUID is the text that [uuid.hex] gives,
    a time a number of microseconds.  Parameters: the order in which the database gives rows
    that are not told apart, its [LIKE], the events of the agent's library with their JSON,
    the other callback processors, and the service that runs sandboxes. *)

From S2P Require Import Prelude PyValue Schema Actions Observations Events Serialization FileStore EventStore Secrets ConversationStore.
Local Open Scope Z_scope.
Local Open Scope py_scope.

(** ** Conversations *)

(** [TokenUsage] and [MetricsSnapshot] of the agent's library *)
Record Usage := mkUsage {
  us_prompt_tokens : Z; us_completion_tokens : Z; us_cache_read_tokens : Z; us_cache_write_tokens : Z;
  us_reasoning_tokens : Z; us_context_window : Z; us_per_turn_token : Z;
}.
Definition no_usage : Usage := mkUsage 0 0 0 0 0 0 0.
Record Snapshot := mkSnapshot {
  sn_accumulated_cost : float; sn_max_budget_per_task : option float; sn_accumulated_token_usage : option Usage;
}.
Definition no_metrics : Snapshot := mkSnapshot fzero None None.

Record AppConversationInfo := mkAppConversationInfo {
  ai_id : string;
  ai_created_by_user_id : option string;
  ai_sandbox_id : string;
  ai_selected_repository : option string;
  ai_selected_branch : option string;
  ai_git_provider : option ProviderType;
  ai_title : option string;
  ai_trigger : option ConversationTrigger;
  ai_pr_number : list Z;
  ai_llm_model : option string;
  ai_metrics : option Snapshot;
  ai_parent_conversation_id : option string;
  ai_sub_conversation_ids : list string;
  ai_public : option bool;
  ai_created_at : Z;
  ai_updated_at : Z;
}.

(** A row; [sc_usage] are its columns of tokens. *)
Record StoredConversationMetadata := mkStoredConversationMetadata {
  sc_conversation_id : string;
  sc_selected_repository : option string;
  sc_selected_branch : option string;
  sc_git_provider : option string;
  sc_title : option string;
  sc_last_updated_at : Z;
  sc_created_at : Z;
  sc_trigger : option string;
  sc_pr_number : list Z;
  sc_accumulated_cost : float;
  sc_usage : Usage;
  sc_max_budget_per_task : option float;
  sc_llm_model : option string;
  sc_conversation_version : string;
  sc_sandbox_id : option string;
  sc_parent_conversation_id : option string;
  sc_public : option bool;
}.
Abbreviation Rows := (list StoredConversationMetadata).

(** [session.merge(row)]: the row with this primary key is replaced, or the row is added.  The
    column that [save_app_conversation_info] does not give keeps its value. *)
Definition keep_reasoning (old new : StoredConversationMetadata) : StoredConversationMetadata :=
  let u := sc_usage new in
  mkStoredConversationMetadata (sc_conversation_id new) (sc_selected_repository new) (sc_selected_branch new)
    (sc_git_provider new) (sc_title new) (sc_last_updated_at new) (sc_created_at new) (sc_trigger new) (sc_pr_number new)
    (sc_accumulated_cost new)
    (mkUsage (us_prompt_tokens u) (us_completion_tokens u) (us_cache_read_tokens u) (us_cache_write_tokens u)
       (us_reasoning_tokens (sc_usage old)) (us_context_window u) (us_per_turn_token u))
    (sc_max_budget_per_task new) (sc_llm_model new) (sc_conversation_version new) (sc_sandbox_id new)
    (sc_parent_conversation_id new) (sc_public new).
Fixpoint merge_row (r : StoredConversationMetadata) (rows : Rows) : Rows :=
  match rows with
  | [] => [r]
  | x :: rows => if String.eqb (sc_conversation_id x) (sc_conversation_id r) then keep_reasoning x r :: rows
                 else x :: merge_row r rows
  end.
Definition stored_info (info : AppConversationInfo) : StoredConversationMetadata :=
  let metrics := from_option id no_metrics (ai_metrics info) in
  let usage := from_option id no_usage (sn_accumulated_token_usage metrics) in
  mkStoredConversationMetadata (ai_id info) (ai_selected_repository info) (ai_selected_branch info)
    (provider_value <$> ai_git_provider info) (ai_title info) (ai_updated_at info) (ai_created_at info)
    (trigger_value <$> ai_trigger info) (ai_pr_number info) (sn_accumulated_cost metrics)
    (mkUsage (us_prompt_tokens usage) (us_completion_tokens usage) (us_cache_read_tokens usage)
       (us_cache_write_tokens usage) 0 (us_context_window usage) (us_per_turn_token usage))
    (sn_max_budget_per_task metrics) (ai_llm_model info) "V1" (Some (ai_sandbox_id info))
    (ai_parent_conversation_id info) (ai_public info).
Definition save_app_conversation_info (info : AppConversationInfo) (rows : Rows) : Rows := merge_row (stored_info info) rows.

Definition secure_select (rows : Rows) : Rows := py_filter (λ r, String.eqb (sc_conversation_version r) "V1") rows.
(** [Enum(value)], where a value is given *)
Definition enum_of {A} (of_string : string → option A) (v : option string) : result (option A) :=
  match truthy_str v with
  | None => Ok None
  | Some s => match of_string s with Some a => Ok (Some a) | None => Raise (ValueError (s +:+ " is not a valid value")) end
  end.
Definition to_info (r : StoredConversationMetadata) (subs : list string) : result AppConversationInfo :=
  match sc_sandbox_id r with
  | None => Raise AssertionError
  | Some sandbox =>
      let u := sc_usage r in
      let usage := mkUsage (us_prompt_tokens u) (us_completion_tokens u) (us_cache_read_tokens u) (us_cache_write_tokens u)
                     0 (us_context_window u) (us_per_turn_token u) in
      let? provider := enum_of provider_of_string (sc_git_provider r) in
      let? trigger := enum_of trigger_of_string (sc_trigger r) in
      Ok (mkAppConversationInfo (sc_conversation_id r) None sandbox (sc_selected_repository r) (sc_selected_branch r)
            provider (sc_title r) trigger (sc_pr_number r) (sc_llm_model r)
            (Some (mkSnapshot (sc_accumulated_cost r) (sc_max_budget_per_task r) (Some usage)))
            (truthy_str (sc_parent_conversation_id r)) subs (sc_public r) (sc_created_at r) (sc_last_updated_at r))
  end.
Definition get_sub_conversation_ids (parent : string) (rows : Rows) : list string :=
  sc_conversation_id <$> py_filter (λ r, bool_decide (sc_parent_conversation_id r = Some parent)) (secure_select rows).
Definition find_row (i : string) (rows : Rows) : option StoredConversationMetadata :=
  py_find (λ r, String.eqb (sc_conversation_id r) i) (secure_select rows).
Definition get_app_conversation_info (i : string) (rows : Rows) : result (option AppConversationInfo) :=
  match find_row i rows with
  | None => Ok None
  | Some r => let? info := to_info r (get_sub_conversation_ids i rows) in Ok (Some info)
  end.
Definition batch_get_app_conversation_info (ids : list string) (rows : Rows) : result (list (option AppConversationInfo)) :=
  rmap (λ i, get_app_conversation_info i rows) ids.
(** The rows that are left, and whether there was one *)
Definition delete_app_conversation_info (i : string) (rows : Rows) : Rows * bool :=
  let rest := py_filter (λ r, negb (String.eqb (sc_conversation_id r) i)) rows in
  (rest, py_len rest <? py_len rows).

(** *** Statistics *)

Definition with_statistics (m : Snapshot) (now : Z) (r : StoredConversationMetadata) : StoredConversationMetadata :=
  mkStoredConversationMetadata (sc_conversation_id r) (sc_selected_repository r) (sc_selected_branch r)
    (sc_git_provider r) (sc_title r) now (sc_created_at r) (sc_trigger r) (sc_pr_number r) (sn_accumulated_cost m)
    (from_option id (sc_usage r) (sn_accumulated_token_usage m))
    (match sn_max_budget_per_task m with Some b => Some b | None => sc_max_budget_per_task r end) (sc_llm_model r)
    (sc_conversation_version r) (sc_sandbox_id r) (sc_parent_conversation_id r) (sc_public r).
Definition is_row (i : string) (r : StoredConversationMetadata) : bool :=
  String.eqb (sc_conversation_version r) "V1" && String.eqb (sc_conversation_id r) i.
Definition update_conversation_statistics (now : Z) (i : string) (stats : list (string * Snapshot)) (rows : Rows) : Rows :=
  match dget "agent" stats with
  | None => rows
  | Some m => (λ r, if is_row i r then with_statistics m now r else r) <$> rows
  end.
(** [stats] is what the event's value is read as; an exception is logged. *)
Definition process_stats_event (now : Z) (stats : result (list (string * Snapshot))) (i : string) (rows : Rows) : Rows :=
  match stats with
  | Ok ((_ :: _) as l) => update_conversation_statistics now i l rows
  | _ => rows
  end.

(** *** Searching *)

Inductive AppConversationSortOrder := CREATED_AT | CREATED_AT_DESC | UPDATED_AT | UPDATED_AT_DESC | TITLE | TITLE_DESC.
Record InfoFilter := mkInfoFilter {
  if_title__contains : option string;
  if_created_at__gte : option Z;
  if_created_at__lt : option Z;
  if_updated_at__gte : option Z;
  if_updated_at__lt : option Z;
}.
(** [order_by] and [LIKE '%text%'] of the database *)
Class Sql := {
  order_by : AppConversationSortOrder → Rows → Rows;
  like_contains : string → string → bool;
}.
Class SqlLaws `{Sql} : Prop := { order_by_perm o rows : order_by o rows ≡ₚ rows }.

Section searching.
Context `{Sql}.
Definition given {A} (f : A → bool) (x : option A) : bool := from_option f true x.
Definition apply_filters (q : InfoFilter) (rows : Rows) : Rows :=
  py_filter (λ r,
    given (λ t, from_option (like_contains t) false (sc_title r)) (if_title__contains q)
    && given (λ t, t <=? sc_created_at r) (if_created_at__gte q) && given (λ t, sc_created_at r <? t) (if_created_at__lt q)
    && given (λ t, t <=? sc_last_updated_at r) (if_updated_at__gte q)
    && given (λ t, sc_last_updated_at r <? t) (if_updated_at__lt q)) rows.
Definition matching_rows (q : InfoFilter) (include_sub_conversations : bool) (rows : Rows) : Rows :=
  apply_filters q (py_filter (λ r, include_sub_conversations || bool_decide (sc_parent_conversation_id r = None))
                     (secure_select rows)).
(** A page identifier that is no number means the beginning. *)
Definition page_offset (page_id : option string) : Z := from_option id 0 (page_id ≫= py_int).
(** [rows.limit(limit + 1)] from an offset: the page and the next page's identifier *)
Definition page_of {A} (l : list A) (page_id : option string) (limit : Z) : list A * option string :=
  let offset := page_offset page_id in
  let rows := take (Z.to_nat (limit + 1)) (drop (Z.to_nat offset) l) in
  if limit <? py_len rows then (take (Z.to_nat limit) rows, Some (pretty (offset + limit))) else (rows, None).
Definition search_app_conversation_info (q : InfoFilter) (o : AppConversationSortOrder) (limit : Z) (subs : bool)
    (rows : Rows) (page_id : option string) : result (ResultSet AppConversationInfo) :=
  let '(page, next) := page_of (order_by o (matching_rows q subs rows)) page_id limit in
  let? infos := rmap (λ r, to_info r []) page in
  Ok (mkResultSet infos next).
Definition count_app_conversation_info (q : InfoFilter) (rows : Rows) : Z := py_len (apply_filters q (secure_select rows)).
End searching.

(** ** Events *)

(** The events of the agent's library: what the server asks of them, and their JSON.
    [ev_stats] is the value of an update of the statistics. *)
Class AppEvents := {
  AppEvent : Type;
  ev_id : AppEvent → string;
  ev_kind : AppEvent → string;
  ev_timestamp : AppEvent → Z;
  ev_is_message : AppEvent → bool;
  ev_stats : AppEvent → option (result (list (string * Snapshot)));
  ev_dump : AppEvent → string;
  ev_load : string → option AppEvent;
}.
Class AppEventsLaws `{AppEvents} : Prop := { ev_load_dump e : ev_load (ev_dump e) = Some e }.

(** A path is its components; the files are in the order in which a directory lists them. *)
Abbreviation AppPath := (list string).
Abbreviation AppFiles := (list (AppPath * string)).
Fixpoint file_at (p : AppPath) (fs : AppFiles) : option string :=
  match fs with
  | [] => None
  | (q, t) :: fs => if bool_decide (p = q) then Some t else file_at p fs
  end.
Fixpoint put_file (p : AppPath) (t : string) (fs : AppFiles) : AppFiles :=
  match fs with
  | [] => [(p, t)]
  | (q, t') :: fs => if bool_decide (p = q) then (p, t) :: fs else (q, t') :: put_file p t fs
  end.
Inductive EventSortOrder := TIMESTAMP | TIMESTAMP_DESC.
Record AppEventFilter := mkAppEventFilter { ef_kind__eq : option string; ef_timestamp__gte : option Z; ef_timestamp__lt : option Z }.

Section events.
Context `{AppEvents}.
(** [prefix] and [user_id] of the service, and the user who created the conversation, as its
    information says *)
Record EventService := mkEventService {
  es_prefix : AppPath;
  es_user_id : option string;
  es_created_by : string → option string;
}.
Definition get_conversation_path (sv : EventService) (conversation_id : string) : AppPath :=
  let user := match truthy_str (es_user_id sv) with
              | Some u => Some u
              | None => truthy_str (es_created_by sv conversation_id)
              end in
  es_prefix sv ++ option_list user ++ ["v1_conversations"; conversation_id].
Definition event_path (sv : EventService) (conversation_id id_hex : string) : AppPath :=
  get_conversation_path sv conversation_id ++ [id_hex +:+ ".json"].
(** [event.id.replace('-', '')] *)
Fixpoint id_hex (i : string) : string :=
  match i with
  | EmptyString => ""
  | String c i => if Ascii.eqb c "-" then id_hex i else String c (id_hex i)
  end.

(** [FilesystemEventService]; what cannot be read is no event. *)
Definition load_event (p : AppPath) (fs : AppFiles) : option AppEvent := file_at p fs ≫= ev_load.
Definition search_paths (prefix : AppPath) (fs : AppFiles) : list AppPath :=
  py_filter (λ p, match last p with
                  | Some n => bool_decide (p = prefix ++ [n]) && negb (startswith n ".")
                  | None => false
                  end) fs.*1.
(** Whether a file can be written *)
Variable writable : AppPath → bool.
Definition save_event (sv : EventService) (conversation_id : string) (e : AppEvent) : pyM AppFiles unit := λ fs,
  let p := event_path sv conversation_id (id_hex (ev_id e)) in
  if writable p then (put_file p (ev_dump e) fs, Ok tt) else (fs, Raise (OtherError "OSError" "cannot write")).
(** [asyncio.gather]: all events are saved, and the first exception is raised. *)
Fixpoint save_events (sv : EventService) (conversation_id : string) (l : list AppEvent) : pyM AppFiles unit := λ fs,
  match l with
  | [] => (fs, Ok tt)
  | e :: l =>
      let '(fs, r) := save_event sv conversation_id e fs in
      let '(fs, rs) := save_events sv conversation_id l fs in
      (fs, match r with Ok _ => rs | Raise x => Raise x end)
  end.
Definition get_app_event (sv : EventService) (conversation_id event_id : string) (fs : AppFiles) : option AppEvent :=
  load_event (event_path sv conversation_id event_id) fs.
Definition batch_get_events (sv : EventService) (conversation_id : string) (ids : list string) (fs : AppFiles) :
    list (option AppEvent) := (λ i, get_app_event sv conversation_id i fs) <$> ids.
Definition event_matches (q : AppEventFilter) (e : AppEvent) : bool :=
  negb (from_option (λ k, negb (String.eqb (ev_kind e) k)) false (truthy_str (ef_kind__eq q)))
  && negb (from_option (λ t, ev_timestamp e <? t) false (ef_timestamp__gte q))
  && negb (from_option (λ t, t <=? ev_timestamp e) false (ef_timestamp__lt q)).
Definition sort_events (o : EventSortOrder) (l : list AppEvent) : list AppEvent :=
  match o with
  | TIMESTAMP => sort_key_by (λ a b, ev_timestamp a <? ev_timestamp b) l
  | TIMESTAMP_DESC => sort_key_by (λ a b, ev_timestamp b <? ev_timestamp a) l
  end.
(** The events that match; the page is cut out of the paths, after the events were loaded. *)
Definition search_events_at (sv : EventService) (fs : AppFiles) (conversation_id : string) (q : AppEventFilter) (o : EventSortOrder)
    (limit : Z) (page_id : option string) : result (ResultSet AppEvent) :=
  let paths := search_paths (get_conversation_path sv conversation_id) fs in
  let items := sort_events o (py_filter (event_matches q) (omap (λ p, load_event p fs) paths)) in
  let? start := match truthy_str page_id with
                | None => Ok 0
                | Some p => match py_int p with
                            | Some z => Ok z
                            | None => Raise (ValueError "invalid literal for int() with base 10")
                            end
                end in
  let paths := match truthy_str page_id with None => paths | Some _ => py_slice (Some start) None paths end in
  Ok (mkResultSet items (if limit <? py_len paths then Some (pretty (start + limit)) else None)).
End events.

(** ** Callbacks *)

Inductive EventCallbackStatus := ACTIVE | DISABLED | COMPLETED | CB_ERROR.
Inductive EventCallbackResultStatus := SUCCESS | RESULT_ERROR.
#[export] Instance callback_status_eq_dec : EqDecision EventCallbackStatus.
Proof. solve_decision. Defined.
(** A row without a primary key is refused when it is committed. *)
Record EventCallbackResult := mkEventCallbackResult {
  er_id : option string;
  er_status : EventCallbackResultStatus;
  er_event_callback_id : string;
  er_event_id : string;
  er_conversation_id : string;
  er_detail : option string;
}.

Section callbacks.
Context `{AppEvents} {Other : Type}.

Inductive EventCallbackProcessor :=
  | LoggingCallbackProcessor
  | SetTitleCallbackProcessor
  | OtherProcessor (p : Other).
Record EventCallback := mkEventCallback {
  cb_id : string;
  cb_conversation_id : option string;
  cb_processor : EventCallbackProcessor;
  cb_event_kind : option string;
  cb_status : EventCallbackStatus;
  cb_created_at : Z;
  cb_updated_at : Z;
}.
Definition set_cb_status (s : EventCallbackStatus) (c : EventCallback) : EventCallback :=
  mkEventCallback (cb_id c) (cb_conversation_id c) (cb_processor c) (cb_event_kind c) s (cb_created_at c) (cb_updated_at c).
Definition set_updated_at (now : Z) (c : EventCallback) : EventCallback :=
  mkEventCallback (cb_id c) (cb_conversation_id c) (cb_processor c) (cb_event_kind c) (cb_status c) (cb_created_at c) now.

(** The tables of the database, and the files of events *)
Record App := mkApp {
  ap_conversations : Rows;
  ap_callbacks : list EventCallback;
  ap_results : list EventCallbackResult;
  ap_files : AppFiles;
}.
Definition set_ap_conversations (r : Rows) (a : App) : App := mkApp r (ap_callbacks a) (ap_results a) (ap_files a).
Definition set_callbacks (c : list EventCallback) (a : App) : App := mkApp (ap_conversations a) c (ap_results a) (ap_files a).
Definition set_results (r : list EventCallbackResult) (a : App) : App := mkApp (ap_conversations a) (ap_callbacks a) r (ap_files a).
Definition set_app_files (f : AppFiles) (a : App) : App := mkApp (ap_conversations a) (ap_callbacks a) (ap_results a) f.

Definition merge_callback (c : EventCallback) (l : list EventCallback) : list EventCallback :=
  if existsb (λ x, String.eqb (cb_id x) (cb_id c)) l
  then (λ x, if String.eqb (cb_id x) (cb_id c) then c else x) <$> l
  else l ++ [c].
Definition save_event_callback (now : Z) (c : EventCallback) (a : App) : App :=
  set_callbacks (merge_callback (set_updated_at now c) (ap_callbacks a)) a.
(** [i] is the new identifier. *)
Definition create_event_callback (i : string) (now : Z) (conversation_id : option string) (p : EventCallbackProcessor)
    (kind : option string) (a : App) : App * EventCallback :=
  let c := mkEventCallback i conversation_id p kind ACTIVE now now in
  (set_callbacks (ap_callbacks a ++ [c]) a, c).
Definition get_event_callback (i : string) (a : App) : option EventCallback :=
  py_find (λ c, String.eqb (cb_id c) i) (ap_callbacks a).
Definition delete_event_callback (i : string) (a : App) : App * bool :=
  match get_event_callback i a with
  | None => (a, false)
  | Some _ => (set_callbacks (py_filter (λ c, negb (String.eqb (cb_id c) i)) (ap_callbacks a)) a, true)
  end.
(** Latest first; those of the same time in the order of the table *)
Definition search_event_callbacks (conversation_id kind : option string) (limit : Z) (a : App) (page_id : option string) :
    ResultSet EventCallback :=
  let found := py_filter (λ c, given (λ i, bool_decide (cb_conversation_id c = Some i)) conversation_id
                               && given (λ k, bool_decide (cb_event_kind c = Some k)) kind) (ap_callbacks a) in
  let '(page, next) := page_of (sort_key_by (λ x y, cb_created_at y <? cb_created_at x) found) page_id limit in
  mkResultSet page next.

(** *** Processors *)

(** What a processor that is not modelled does, and the identifier of a new row.  [run_other]
    gives the callback as the processor leaves it. *)
Variable run_other : Other → string → EventCallback → AppEvent → App → App * (EventCallback * result (option EventCallbackResult)).
Variable new_result_id : EventCallback → AppEvent → string.
(** What the sandbox answers to [/generate_title], once the live conversation was found with
    its address, whose information is what the table holds *)
Variable generate_title : string → AppEvent → result string.

Definition success (conversation_id : string) (c : EventCallback) (e : AppEvent) : EventCallbackResult :=
  mkEventCallbackResult (Some (new_result_id c e)) SUCCESS (cb_id c) (ev_id e) conversation_id None.
Definition set_info_title (title : option string) (i : AppConversationInfo) : AppConversationInfo :=
  mkAppConversationInfo (ai_id i) (ai_created_by_user_id i) (ai_sandbox_id i) (ai_selected_repository i) (ai_selected_branch i)
    (ai_git_provider i) title (ai_trigger i) (ai_pr_number i) (ai_llm_model i) (ai_metrics i) (ai_parent_conversation_id i)
    (ai_sub_conversation_ids i) (ai_public i) (ai_created_at i) (ai_updated_at i).
Definition set_title_processor (now : Z) (conversation_id : string) (c : EventCallback) (e : AppEvent) (a : App) :
    App * (EventCallback * result (option EventCallbackResult)) :=
  if negb (ev_is_message e) then (a, (c, Ok None)) else
  match get_app_conversation_info conversation_id (ap_conversations a) with
  | Raise x => (a, (c, Raise x))
  | Ok None => (a, (c, Raise AssertionError))
  | Ok (Some info) =>
      match generate_title conversation_id e with
      | Raise x => (a, (c, Raise x))
      | Ok title =>
          let a := set_ap_conversations (save_app_conversation_info (set_info_title (Some title) info) (ap_conversations a)) a in
          let c := set_cb_status DISABLED c in
          (save_event_callback now c a, (set_updated_at now c, Ok (Some (success conversation_id c e))))
      end
  end.
Definition run_processor (now : Z) (conversation_id : string) (c : EventCallback) (e : AppEvent) (a : App) :
    App * (EventCallback * result (option EventCallbackResult)) :=
  match cb_processor c with
  | LoggingCallbackProcessor => (a, (c, Ok (Some (success conversation_id c e))))
  | SetTitleCallbackProcessor => set_title_processor now conversation_id c e a
  | OtherProcessor p => run_other p conversation_id c e a
  end.

(** *** Execution *)

Definition applies (conversation_id : string) (e : AppEvent) (c : EventCallback) : bool :=
  bool_decide (cb_status c = ACTIVE)
  && (bool_decide (cb_event_kind c = Some (ev_kind e)) || bool_decide (cb_event_kind c = None))
  && (bool_decide (cb_conversation_id c = Some conversation_id) || bool_decide (cb_conversation_id c = None)).
(** The row that is added to the session, and the callback as it is now *)
Definition execute_callback (now : Z) (conversation_id : string) (e : AppEvent) (c : EventCallback) (a : App) :
    App * (EventCallback * option EventCallbackResult) :=
  match run_processor now conversation_id c e a with
  | (a, (c', Ok r)) => (a, (c', r))
  | (a, (c', Raise x)) =>
      (a, (c', Some (mkEventCallbackResult None RESULT_ERROR (cb_id c) (ev_id e) conversation_id (Some (exc_str x)))))
  end.
(** [asyncio.gather]: one after the other *)
Fixpoint execute_each (now : Z) (conversation_id : string) (e : AppEvent) (l : list EventCallback) (a : App) :
    App * list (EventCallback * option EventCallbackResult) :=
  match l with
  | [] => (a, [])
  | c :: l =>
      let '(a, r) := execute_callback now conversation_id e c a in
      let '(a, rs) := execute_each now conversation_id e l a in
      (a, r :: rs)
  end.
(** The session is committed with the results and the callbacks, or not at all. *)
Definition execute_callbacks (now : Z) (conversation_id : string) (e : AppEvent) : pyM App unit := λ a,
  let '(a, rs) := execute_each now conversation_id e (py_filter (applies conversation_id e) (ap_callbacks a)) a in
  let results := omap snd rs in
  if forallb (λ r, bool_decide (is_Some (er_id r))) results
  then (set_results (ap_results a ++ results) (foldl (λ a r, save_event_callback now r.1 a) a rs), Ok tt)
  else (a, Raise (OtherError "IntegrityError" "NOT NULL constraint failed: event_callback_result.id")).
Fixpoint run_callbacks (now : Z) (conversation_id : string) (events : list AppEvent) : pyM App unit :=
  match events with
  | [] => pret tt
  | e :: events => execute_callbacks now conversation_id e ;;; run_callbacks now conversation_id events
  end.
End callbacks.
Arguments EventCallbackProcessor : clear implicits.
Arguments EventCallback : clear implicits.
Arguments App : clear implicits.

(** ** Sandboxes *)

Inductive SandboxStatus := SB_STARTING | SB_RUNNING | SB_PAUSED | SB_ERROR | SB_MISSING.
#[export] Instance sandbox_status_eq_dec : EqDecision SandboxStatus.
Proof. solve_decision. Defined.
Record ExposedUrl := mkExposedUrl { eu_name : string; eu_url : string; eu_port : Z }.
Record SandboxInfo := mkSandboxInfo {
  si_id : string;
  si_created_by_user_id : option string;
  si_sandbox_spec_id : string;
  si_status : SandboxStatus;
  si_session_api_key : option string;
  si_exposed_urls : option (list ExposedUrl);
  si_created_at : Z;
}.
Definition SandboxError (m : string) : py_exc := OtherError "SandboxError" m.
Definition AGENT_SERVER : string := "AGENT_SERVER".
(** The address as the sandbox has it; [replace_localhost_hostname_for_docker] is part of
    the request. *)
Definition get_agent_server_url (s : SandboxInfo) : result string :=
  match si_exposed_urls s with
  | None | Some [] => Raise (SandboxError ("No exposed URLs for sandbox: " +:+ si_id s))
  | Some urls =>
      match py_find (λ u, String.eqb (eu_name u) AGENT_SERVER) urls with
      | Some u => Ok (eu_url u)
      | None => Raise (SandboxError ("No agent server URL found for sandbox: " +:+ si_id s))
      end
  end.
Definition ensure_running_sandbox (s : option SandboxInfo) (sandbox_id : string) : result SandboxInfo :=
  match s with
  | None => Raise (RuntimeError ("Sandbox not found: " +:+ sandbox_id))
  | Some s =>
      if negb (bool_decide (si_status s = SB_RUNNING)) then Raise (RuntimeError ("Sandbox not running_sandboxes: " +:+ sandbox_id))
      else match truthy_str (si_session_api_key s) with
           | None => Raise (RuntimeError ("No session API key for sandbox: " +:+ si_id s))
           | Some _ => Ok s
           end
  end.

(** One turn of the loop: the time, what [get_sandbox] gives, and whether a request to an
    address is answered with success *)
Record PollTurn := mkPollTurn { tn_time : Z; tn_sandbox : option SandboxInfo; tn_alive : string → bool }.
Definition check_agent_server_alive (t : PollTurn) (s : SandboxInfo) : bool :=
  match get_agent_server_url s with
  | Raise _ => false
  | Ok url => tn_alive t (rstrip_slash url +:+ "/alive")
  end.
(** [None] when the turns end before the loop does *)
Fixpoint wait_for_sandbox_running (sandbox_id : string) (timeout start : Z) (client : bool) (turns : list PollTurn) :
    option (result SandboxInfo) :=
  match turns with
  | [] => None
  | t :: turns =>
      if timeout <? tn_time t - start
      then Some (Raise (SandboxError ("Sandbox failed to start within " +:+ pretty timeout +:+ "s: " +:+ sandbox_id)))
      else match tn_sandbox t with
           | None => Some (Raise (SandboxError ("Sandbox not found: " +:+ sandbox_id)))
           | Some s =>
               if bool_decide (si_status s = SB_ERROR)
               then Some (Raise (SandboxError ("Sandbox entered error state: " +:+ sandbox_id)))
               else if bool_decide (si_status s = SB_RUNNING)
                       && (negb (client && negb (bool_decide (from_option id [] (si_exposed_urls s) = [])))
                           || check_agent_server_alive t s)
               then Some (Ok s)
               else wait_for_sandbox_running sandbox_id timeout start client turns
           end
  end.

(** [pause] is the service's [pause_sandbox], [St] its state. *)
Section pausing.
Context {St : Type} (pause : string → pyM St bool).
Fixpoint pause_each (l : list SandboxInfo) (w : St) : St * list string :=
  match l with
  | [] => (w, [])
  | s :: l =>
      let '(w, r) := pause (si_id s) w in
      let '(w, ids) := pause_each l w in
      (w, match r with Ok true => si_id s :: ids | _ => ids end)
  end.
Definition oldest_first (l : list SandboxInfo) : list SandboxInfo := sort_key_by (λ a b, si_created_at a <? si_created_at b) l.
Definition running_sandboxes (l : list SandboxInfo) : list SandboxInfo := py_filter (λ s, bool_decide (si_status s = SB_RUNNING)) l.
Definition to_pause (max_num_sandboxes : Z) (all : list SandboxInfo) : list SandboxInfo :=
  if py_len (running_sandboxes all) <=? max_num_sandboxes then []
  else take (Z.to_nat (py_len (running_sandboxes all) - max_num_sandboxes)) (oldest_first (running_sandboxes all)).
(** [all] are the sandboxes on all pages of [search_sandboxes]. *)
Definition pause_old_sandboxes (max_num_sandboxes : Z) (all : list SandboxInfo) : pyM St (list string) := λ w,
  if max_num_sandboxes <=? 0 then (w, Raise (ValueError "max_num_sandboxes must be greater than 0"))
  else let '(w, ids) := pause_each (to_pause max_num_sandboxes all) w in (w, Ok ids).
End pausing.

(** ** What the sandbox reports *)

Section webhooks.
Context `{AppEvents} {Other : Type}.
Definition AuthError : py_exc := OtherError "AuthError" "".
Definition unauthorized (detail : string) : py_exc := OtherError "HTTPException" ("401: " +:+ detail).
Definition valid_sandbox (by_key : string → option SandboxInfo) (session_api_key : option string) : result SandboxInfo :=
  match session_api_key with
  | None => Raise (unauthorized "X-Session-API-Key header is required")
  | Some k => match by_key k with Some s => Ok s | None => Raise (unauthorized "Invalid session API key") end
  end.
(** A conversation that does not exist yet is a stub, created now. *)
Definition stub (now : Z) (conversation_id : string) (s : SandboxInfo) : AppConversationInfo :=
  mkAppConversationInfo conversation_id (si_created_by_user_id s) (si_id s) None None None None None [] None None None [] None now now.
Definition valid_conversation (now : Z) (conversation_id : string) (s : SandboxInfo) (rows : Rows) : result AppConversationInfo :=
  let? found := get_app_conversation_info conversation_id rows in
  match found with
  | None => Ok (stub now conversation_id s)
  | Some info => if bool_decide (ai_created_by_user_id info = si_created_by_user_id s) then Ok info else Raise AuthError
  end.
(** [ConversationInfo]: what the sandbox says of a conversation *)
Record ConversationUpdate := mkConversationUpdate {
  cu_id : string; cu_deleting : bool; cu_model : string; cu_metrics : Snapshot;
}.
Definition updated_info (now : Z) (u : ConversationUpdate) (s : SandboxInfo) (existing : AppConversationInfo) : AppConversationInfo :=
  mkAppConversationInfo (cu_id u) (si_created_by_user_id s) (si_id s)
    (ai_selected_repository existing) (ai_selected_branch existing) (ai_git_provider existing)
    (Some (from_option id ("Conversation " +:+ cu_id u) (truthy_str (ai_title existing))))
    (ai_trigger existing) (ai_pr_number existing) (Some (cu_model u)) (Some (cu_metrics u))
    (ai_parent_conversation_id existing) [] None now now.
Definition on_conversation_update (now : Z) (u : ConversationUpdate) (s : SandboxInfo) : pyM (App Other) unit := λ a,
  match valid_conversation now (cu_id u) s (ap_conversations a) with
  | Raise x => (a, Raise x)
  | Ok existing =>
      if cu_deleting u then (a, Ok tt)
      else (set_ap_conversations (save_app_conversation_info (updated_info now u s existing) (ap_conversations a)) a, Ok tt)
  end.

Variable writable : AppPath → bool.
Variable run_other : Other → string → EventCallback Other → AppEvent → App Other → App Other * (EventCallback Other * result (option EventCallbackResult)).
Variable new_result_id : EventCallback Other → AppEvent → string.
Variable generate_title : string → AppEvent → result string.

Definition process_stats (now : Z) (conversation_id : string) (l : list AppEvent) (rows : Rows) : Rows :=
  foldl (λ rows e, match ev_stats e with Some st => process_stats_event now st conversation_id rows | None => rows end) rows l.
(** The answer of the route, and the events for which callbacks are to be run in the
    background *)
Definition on_app_event (now : Z) (sv : EventService) (events : list AppEvent) (conversation_id : string) (s : SandboxInfo) :
    pyM (App Other) (list AppEvent) := λ a,
  match valid_conversation now conversation_id s (ap_conversations a) with
  | Raise x => (a, Raise x)
  | Ok _ =>
      let '(fs, r) := save_events writable sv conversation_id events (ap_files a) in
      let a := set_app_files fs a in
      match r with
      | Ok _ => (set_ap_conversations (process_stats now conversation_id events (ap_conversations a)) a, Ok events)
      | Raise _ => (a, Ok [])
      end
  end.
(** The request and its background task *)
Definition webhook_events (now : Z) (sv : EventService) (events : list AppEvent) (conversation_id : string) (s : SandboxInfo) :
    pyM (App Other) unit :=
  let* l := on_app_event now sv events conversation_id s in
  λ a, ((run_callbacks run_other new_result_id generate_title now conversation_id l a).1, Ok tt).
End webhooks.

(** ** Conversations are found as they were saved *)

Lemma py_find_filter {A} (f g : A → bool) l : py_find f (py_filter g l) = py_find (λ x, g x && f x) l.
Proof. induction l as [|x l IH]; [done|]. cbn. destruct (g x) eqn:Hg; cbn; [by destruct (f x)|done]. Qed.
Lemma find_row_eq i rows : find_row i rows = py_find (is_row i) rows.
Proof. apply py_find_filter. Qed.

Lemma find_merged r rows :
  sc_conversation_version r = "V1" →
  ∃ r', find_row (sc_conversation_id r) (merge_row r rows) = Some r' ∧ (r' = r ∨ ∃ old, r' = keep_reasoning old r).
Proof.
  intros Hv. rewrite find_row_eq. induction rows as [|x rows IH]; cbn.
  - unfold is_row. rewrite Hv, !String.eqb_refl. cbn. eauto.
  - destruct (String.eqb (sc_conversation_id x) (sc_conversation_id r)) eqn:He; cbn.
    + unfold is_row at 1. cbn. rewrite Hv, !String.eqb_refl. cbn. eauto.
    + unfold is_row at 1. rewrite He, andb_false_r. exact IH.
Qed.
Lemma find_other i r rows : i ≠ sc_conversation_id r → find_row i (merge_row r rows) = find_row i rows.
Proof.
  intros Hi. assert (∀ y, sc_conversation_id y = sc_conversation_id r → is_row i y = false) as Hn.
  { intros y Hy. unfold is_row. rewrite Hy. destruct (String.eqb_spec (sc_conversation_id r) i); [congruence|apply andb_false_r]. }
  rewrite !find_row_eq. induction rows as [|x rows IH]; cbn; [by rewrite Hn|].
  destruct (String.eqb_spec (sc_conversation_id x) (sc_conversation_id r)) as [He|He]; cbn; [|by rewrite IH].
  by rewrite (Hn (keep_reasoning x r)), (Hn x).
Qed.

(** What is read of an information that was saved: the user is kept elsewhere, and there are
    always metrics. *)
Definition seen_info (info : AppConversationInfo) (subs : list string) : AppConversationInfo :=
  let m := from_option id no_metrics (ai_metrics info) in
  let u := from_option id no_usage (sn_accumulated_token_usage m) in
  mkAppConversationInfo (ai_id info) None (ai_sandbox_id info) (ai_selected_repository info) (ai_selected_branch info)
    (ai_git_provider info) (ai_title info) (ai_trigger info) (ai_pr_number info) (ai_llm_model info)
    (Some (mkSnapshot (sn_accumulated_cost m) (sn_max_budget_per_task m)
       (Some (mkUsage (us_prompt_tokens u) (us_completion_tokens u) (us_cache_read_tokens u) (us_cache_write_tokens u)
                0 (us_context_window u) (us_per_turn_token u)))))
    (truthy_str (ai_parent_conversation_id info)) subs (ai_public info) (ai_created_at info) (ai_updated_at info).
Lemma enum_of_value {A} (of_string : string → option A) value v :
  (∀ a, of_string (value a) = Some a) → (∀ a, value a ≠ "") → enum_of of_string (value <$> v) = Ok v.
Proof.
  intros Hof Hne. destruct v as [a|]; [|done]. unfold enum_of. cbn [fmap option_fmap option_map].
  specialize (Hne a). specialize (Hof a). destruct (value a) eqn:Hv; [done|]. cbn. by rewrite Hof.
Qed.
Lemma to_info_stored info subs r :
  r = stored_info info ∨ (∃ old, r = keep_reasoning old (stored_info info)) → to_info r subs = Ok (seen_info info subs).
Proof.
  assert (enum_of provider_of_string (provider_value <$> ai_git_provider info) = Ok (ai_git_provider info)) as Hp.
  { apply enum_of_value; [apply provider_of_value|by intros []]. }
  assert (enum_of trigger_of_string (trigger_value <$> ai_trigger info) = Ok (ai_trigger info)) as Ht.
  { apply enum_of_value; [apply trigger_of_value|by intros []]. }
  by intros [->|[old ->]]; unfold to_info; cbn -[enum_of truthy_str seen_info]; rewrite Hp, Ht.
Qed.

(** The information of a conversation is read as it was saved, with its conversations below
    it; what is found of the others does not change. *)
Theorem saved_info_found info rows :
  let rows' := save_app_conversation_info info rows in
  get_app_conversation_info (ai_id info) rows' = Ok (Some (seen_info info (get_sub_conversation_ids (ai_id info) rows')))
  ∧ ∀ i, i ≠ ai_id info → find_row i rows' = find_row i rows.
Proof.
  intros rows'. destruct (find_merged (stored_info info) rows eq_refl) as (r & Hf & Hr). split.
  - unfold get_app_conversation_info. change (find_row (ai_id info) rows' = Some r) in Hf. rewrite Hf.
    by rewrite (to_info_stored info _ r Hr).
  - intros i Hi. by apply find_other.
Qed.

(** ** Every conversation is on one page *)

(** Each row can be read. *)
Definition readable (r : StoredConversationMetadata) : Prop := ∃ info, to_info r [] = Ok info.
Definition table_ok (rows : Rows) : Prop :=
  NoDup (sc_conversation_id <$> rows) ∧ Forall (λ r, sc_conversation_version r = "V1" → readable r) rows.
Inductive TableOp :=
  | SaveInfo (info : AppConversationInfo)
  | Statistics (now : Z) (stats : result (list (string * Snapshot))) (i : string)
  | DeleteInfo (i : string).
Definition table_op (rows : Rows) (o : TableOp) : Rows :=
  match o with
  | SaveInfo info => save_app_conversation_info info rows
  | Statistics now stats i => process_stats_event now stats i rows
  | DeleteInfo i => (delete_app_conversation_info i rows).1
  end.

Lemma merge_row_elem r rows y : y ∈ merge_row r rows → y ∈ rows ∨ y = r ∨ ∃ old, y = keep_reasoning old r.
Proof.
  induction rows as [|x rows IH]; cbn; [intros ->%list_elem_of_singleton; eauto|].
  destruct (String.eqb _ _); intros [->|Hy]%elem_of_cons; rewrite ?elem_of_cons; [by eauto|by eauto|by eauto|].
  destruct (IH Hy) as [|[|]]; eauto.
Qed.
Lemma merge_row_ids r rows :
  sc_conversation_id <$> merge_row r rows
  = if bool_decide (sc_conversation_id r ∈ sc_conversation_id <$> rows) then sc_conversation_id <$> rows
    else (sc_conversation_id <$> rows) ++ [sc_conversation_id r].
Proof.
  induction rows as [|x rows IH]; [done|]. cbn [merge_row].
  destruct (String.eqb_spec (sc_conversation_id x) (sc_conversation_id r)) as [He|He].
  - rewrite bool_decide_eq_true_2 by (rewrite fmap_cons, <- He; by left). cbn. by rewrite He.
  - rewrite !fmap_cons, IH. case_bool_decide as Hin; case_bool_decide as Hin'; [done| | |done].
    + destruct Hin'. by right.
    + by apply elem_of_cons in Hin' as [|].
Qed.
Lemma save_ok info rows : table_ok rows → table_ok (save_app_conversation_info info rows).
Proof.
  intros [Hn Hr]. split.
  - unfold save_app_conversation_info. rewrite merge_row_ids. case_bool_decide as Hin; [done|].
    apply NoDup_app. split; [done|]. split; [|apply NoDup_singleton].
    intros x Hx ->%list_elem_of_singleton. done.
  - apply Forall_forall. intros r Hin Hv. destruct (merge_row_elem _ _ _ Hin) as [Ho|Hs].
    + rewrite Forall_forall in Hr. by apply Hr.
    + eexists. by apply (to_info_stored info [] r).
Qed.
Lemma filter_ok (f : StoredConversationMetadata → bool) rows : table_ok rows → table_ok (py_filter f rows).
Proof.
  intros [Hn Hr]. split.
  - exact (sublist_NoDup _ _ Hn (fmap_sublist _ _ _ (py_filter_sublist f rows))).
  - rewrite Forall_forall in *. intros r Hin. apply elem_of_py_filter in Hin as [_ Hin]. by apply Hr.
Qed.
Lemma statistics_ok now stats i rows : table_ok rows → table_ok (process_stats_event now stats i rows).
Proof.
  intros [Hn Hr]. destruct stats as [[|x l]|]; [by split| |by split]. cbn [process_stats_event].
  unfold update_conversation_statistics. destruct (dget "agent" (x :: l)) as [m|]; [|by split]. split.
  - rewrite <- list_fmap_compose. rewrite (list_fmap_ext _ sc_conversation_id rows); [done|].
    intros k r Hk. cbn. by destruct (is_row i r).
  - apply Forall_fmap. eapply Forall_impl; [exact Hr|]. intros r Hv. cbn. destruct (is_row i r); [|done].
    intros Hv'. destruct (Hv Hv') as [info Hi]. unfold readable, to_info in *. cbn in *.
    destruct (sc_sandbox_id r); [|done]. apply rbind_ok_inv in Hi as (p & -> & (t & -> & _)%rbind_ok_inv). by eexists.
Qed.
Lemma table_ops_ok ops rows : table_ok rows → table_ok (foldl table_op rows ops).
Proof.
  revert rows. induction ops as [|[info|now st i|i] ops IH]; intros rows Hr; [done| | |]; apply IH.
  - by apply save_ok.
  - by apply statistics_ok.
  - by apply filter_ok.
Qed.

(** *** Pages *)

Lemma rmap_app {A B} (f : A → result B) l k x y : rmap f l = Ok x → rmap f k = Ok y → rmap f (l ++ k) = Ok (x ++ y).
Proof.
  revert x. induction l as [|a l IH]; intros x Hx Hy; cbn in *; [by injection Hx as <-|].
  apply rbind_ok_inv in Hx as (b & -> & (bs & Hbs & [= <-])%rbind_ok_inv). cbn. by rewrite (IH bs Hbs Hy).
Qed.
Lemma rmap_app_inv {A B} (f : A → result B) l k z :
  rmap f (l ++ k) = Ok z → ∃ x y, rmap f l = Ok x ∧ rmap f k = Ok y ∧ z = x ++ y.
Proof.
  revert z. induction l as [|a l IH]; intros z Hz; cbn in *; [by exists [], z|].
  apply rbind_ok_inv in Hz as (b & -> & (bs & Hbs & [= <-])%rbind_ok_inv).
  destruct (IH bs Hbs) as (x & y & Hx & Hy & ->). exists (b :: x), y. cbn. by rewrite Hx.
Qed.
Lemma page_offset_pretty z : 0 ≤ z → page_offset (Some (pretty z)) = z.
Proof. intros Hz. unfold page_offset. cbn. by rewrite py_int_pretty. Qed.

(** Iterating over pages that are cut out of one list gives the whole list. *)
Lemma iterate_pages {A B} (f : A → result B) (l : list A) limit fuel page z :
  1 ≤ limit → 0 ≤ page_offset page → rmap f (drop (Z.to_nat (page_offset page)) l) = Ok z →
  (length (drop (Z.to_nat (page_offset page)) l) < fuel)%nat →
  iterate_from (λ p, let '(rows, next) := page_of l p limit in let? x := rmap f rows in Ok (mkResultSet x next)) page fuel
  = Some (Ok z).
Proof.
  intros Hl. revert page z. induction fuel as [|fuel IH]; intros page z Hp Hz Hf; [lia|]. cbn [iterate_from].
  unfold page_of at 1. set (o := page_offset page) in *. set (rest := drop (Z.to_nat o) l) in *.
  destruct (Z.ltb_spec limit (py_len (take (Z.to_nat (limit + 1)) rest))) as [Hlt|Hge].
  - unfold py_len in Hlt. rewrite length_take in Hlt. rewrite take_take, Nat.min_l by lia.
    rewrite <- (take_drop (Z.to_nat limit) rest) in Hz. apply rmap_app_inv in Hz as (x & y & Hx & Hy & ->).
    rewrite Hx. cbn [rbind next_page_id items]. rewrite (IH _ y); [done|rewrite page_offset_pretty; lia| |].
    + rewrite page_offset_pretty by lia. rewrite Z2Nat.inj_add by lia. unfold rest in Hy. by rewrite drop_drop in Hy.
    + rewrite page_offset_pretty by lia. rewrite Z2Nat.inj_add, <- drop_drop, length_drop by lia. fold rest. lia.
  - unfold py_len in Hge. rewrite length_take in Hge. rewrite take_ge by lia. rewrite Hz. done.
Qed.
Lemma rmap_total {A B} (f : A → result B) l : Forall (λ a, ∃ b, f a = Ok b) l → ∃ z, rmap f l = Ok z.
Proof. induction 1 as [|a l [b Hb] _ [z Hz]]; cbn; [by exists []|]. rewrite Hb. cbn. rewrite Hz. by eexists. Qed.
Lemma to_info_id r subs info : to_info r subs = Ok info → ai_id info = sc_conversation_id r.
Proof.
  unfold to_info. destruct (sc_sandbox_id r); [|done].
  by intros (p & _ & (t & _ & [= <-])%rbind_ok_inv)%rbind_ok_inv.
Qed.
Lemma rmap_ids l z : rmap (λ r, to_info r []) l = Ok z → ai_id <$> z = sc_conversation_id <$> l.
Proof.
  revert z. induction l as [|r l IH]; intros z Hz; cbn in *; [by injection Hz as <-|].
  apply rbind_ok_inv in Hz as (b & Hb & (bs & Hbs & [= <-])%rbind_ok_inv). cbn. by rewrite (to_info_id _ _ _ Hb), (IH bs).
Qed.

Section pages.
Context `{Sql} {SL : SqlLaws}.
(** Whatever was saved, reported and deleted before, a client that follows the pages of a
    search of conversations, of any positive size, gets every conversation that matches
    exactly once, in the order of the database, after at most one request more than there
    are conversations. *)
Theorem conversation_pages ops rows q o limit subs fuel :
  table_ok rows → 1 ≤ limit →
  let rows' := foldl table_op rows ops in
  (length (matching_rows q subs rows') < fuel)%nat →
  ∃ infos, iterate (search_app_conversation_info q o limit subs rows') fuel = Some (Ok infos)
    ∧ ai_id <$> infos = sc_conversation_id <$> order_by o (matching_rows q subs rows')
    ∧ NoDup (ai_id <$> infos)
    ∧ ∀ i, i ∈ ai_id <$> infos ↔ i ∈ sc_conversation_id <$> matching_rows q subs rows'.
Proof using SL.
  intros Hok Hl rows' Hf. apply (table_ops_ok ops) in Hok. fold rows' in Hok.
  assert (table_ok (matching_rows q subs rows') ∧ Forall (λ r, sc_conversation_version r = "V1") (matching_rows q subs rows'))
    as [[Hn Hr] Hv].
  { split; [by do 3 apply filter_ok|]. apply Forall_forall. intros r Hin.
    do 3 apply elem_of_py_filter in Hin as [? Hin]. by apply String.eqb_eq. }
  set (l := matching_rows q subs rows') in *. pose proof (order_by_perm o l) as Hperm.
  destruct (rmap_total (λ r, to_info r []) (order_by o l)) as [z Hz].
  { rewrite Hperm. rewrite Forall_forall in Hr, Hv |- *. intros r Hin. by apply Hr, Hv. }
  exists z. split; [|split; [by apply rmap_ids|rewrite (rmap_ids _ _ Hz); split]].
  - unfold iterate, search_app_conversation_info. fold l. apply iterate_pages; [done|done|done|]. cbn. by rewrite Hperm.
  - by rewrite Hperm.
  - intros i. by rewrite Hperm.
Qed.
End pages.

(** ** Reported events are found *)

Section reported.
Context `{AppEvents} {AL : AppEventsLaws} {Other : Type}.
Lemma file_at_put p q t fs : file_at p (put_file q t fs) = if bool_decide (p = q) then Some t else file_at p fs.
Proof.
  induction fs as [|[r u] fs IH]; cbn; [done|].
  repeat case_bool_decide; subst; cbn; repeat case_bool_decide; congruence.
Qed.
Lemma event_path_inj sv c i j : event_path sv c i = event_path sv c j → i = j.
Proof. unfold event_path. intros [= He]%app_inv_head. by apply append_inj_r in He. Qed.

Variable writable : AppPath → bool.
Abbreviation hex e := (id_hex (ev_id e)).
Definition all_writable (sv : EventService) (c : string) (l : list AppEvent) : Prop :=
  Forall (λ e, writable (event_path sv c (hex e)) = true) l.
Lemma save_events_files sv c l fs :
  all_writable sv c l → NoDup ((λ e, hex e) <$> l) →
  ∃ fs', save_events writable sv c l fs = (fs', Ok tt)
    ∧ (∀ e, e ∈ l → get_app_event sv c (hex e) fs' = Some e)
    ∧ (∀ p, p ∉ (λ e, event_path sv c (hex e)) <$> l → file_at p fs' = file_at p fs).
Proof using AL.
  intros Hw. revert fs. induction Hw as [|e l He Hw IH]; intros fs Hn; cbn; [eexists; split_and!; [done|by intros e ?%not_elem_of_nil|done]|].
  apply NoDup_cons in Hn as [Hne Hn]. unfold save_event. rewrite He.
  set (fs1 := put_file _ _ _). destruct (IH fs1 Hn) as (fs' & -> & Hg & Hr). exists fs'. split; [done|]. split.
  - intros e' [->|Hin]%elem_of_cons; [|by apply Hg]. unfold get_app_event, load_event. rewrite Hr.
    + unfold fs1. rewrite file_at_put, bool_decide_eq_true_2 by done. apply ev_load_dump.
    + intros (x & Hx & Hin)%list_elem_of_fmap. apply event_path_inj in Hx. apply Hne, list_elem_of_fmap. eauto.
  - intros p [Hp Hp']%not_elem_of_cons. rewrite (Hr p Hp'). unfold fs1. by rewrite file_at_put, bool_decide_eq_false_2.
Qed.

(** When a sandbox reports events with different identifiers, for a conversation that its user
    may use, and the files can be written, then every event is found under its identifier,
    no other file changes, and callbacks are run for exactly these events. *)
Theorem reported_events_found now sv events c s (a : App Other) info :
  valid_conversation now c s (ap_conversations a) = Ok info →
  all_writable sv c events → NoDup ((λ e, hex e) <$> events) →
  let '(a', r) := on_app_event writable now sv events c s a in
  r = Ok events
  ∧ (∀ e, e ∈ events → get_app_event sv c (hex e) (ap_files a') = Some e)
  ∧ (∀ p, p ∉ (λ e, event_path sv c (hex e)) <$> events → file_at p (ap_files a') = file_at p (ap_files a)).
Proof using AL.
  intros Hv Hw Hn. unfold on_app_event. rewrite Hv. by destruct (save_events_files sv c events (ap_files a) Hw Hn) as (fs' & -> & Hg & Hr).
Qed.
End reported.

(** ** A title is generated once *)

Section titles.
Context `{AppEvents} {Other : Type}.
Variable run_other : Other → string → EventCallback Other → AppEvent → App Other → App Other * (EventCallback Other * result (option EventCallbackResult)).
Variable new_result_id : EventCallback Other → AppEvent → string.
Variable generate_title : string → AppEvent → result string.
(** The other processors change neither conversations nor callbacks, nor the identity of their own. *)
Hypothesis other_keeps : ∀ p conversation_id c e a,
  let '(a', (c', _)) := run_other p conversation_id c e a in
  ap_conversations a' = ap_conversations a ∧ ap_callbacks a' = ap_callbacks a ∧ cb_id c' = cb_id c.

Abbreviation execute1 := (execute_callback run_other new_result_id generate_title).
Abbreviation execute := (execute_each run_other new_result_id generate_title).

Definition status_of (i : string) (l : list (EventCallback Other)) : option EventCallbackStatus :=
  cb_status <$> py_find (λ c, String.eqb (cb_id c) i) l.
Lemma find_merge_callback i c l :
  py_find (λ c, String.eqb (cb_id c) i) (merge_callback c l)
  = if String.eqb (cb_id c) i then Some c else py_find (λ c : EventCallback Other, String.eqb (cb_id c) i) l.
Proof.
  unfold merge_callback. destruct (existsb _ l) eqn:He.
  - induction l as [|x l IH]; [done|]. cbn in *. destruct (String.eqb_spec (cb_id x) (cb_id c)) as [Hx|Hx].
    + rewrite Hx. destruct (String.eqb (cb_id c) i) eqn:Hc; [done|]. clear IH He.
      induction l as [|y l IH]; [done|]. cbn. destruct (String.eqb_spec (cb_id y) (cb_id c)) as [Hy|Hy]; [|by rewrite IH].
      rewrite Hy, Hc. exact IH.
    + cbn in He. rewrite (IH He). destruct (String.eqb_spec (cb_id x) i), (String.eqb_spec (cb_id c) i); congruence.
  - induction l as [|x l IH]; cbn in *; [done|]. apply orb_false_iff in He as [Hx He]. rewrite (IH He).
    destruct (String.eqb_spec (cb_id x) i), (String.eqb_spec (cb_id c) i); try done.
    apply String.eqb_neq in Hx. congruence.
Qed.
Lemma status_merge i c l : status_of i (merge_callback c l) = if String.eqb (cb_id c) i then Some (cb_status c) else status_of i l.
Proof. unfold status_of. rewrite find_merge_callback. by destruct (String.eqb _ _). Qed.

(** The conversation is known; it has this title. *)
Definition known_conversation (cv : string) (a : App Other) : Prop := ∃ info, get_app_conversation_info cv (ap_conversations a) = Ok (Some info).
Definition titled (cv t : string) (a : App Other) : Prop :=
  ∃ info, get_app_conversation_info cv (ap_conversations a) = Ok (Some info) ∧ ai_title info = Some t.
Lemma found_id i rows info : get_app_conversation_info i rows = Ok (Some info) → ai_id info = i.
Proof.
  unfold get_app_conversation_info. destruct (find_row i rows) as [r|] eqn:Hf; [|done].
  intros (x & Hx & [= ->])%rbind_ok_inv. rewrite (to_info_id _ _ _ Hx).
  rewrite find_row_eq in Hf. apply py_find_elem in Hf as [_ Hr]. by apply andb_prop in Hr as [_ ?%String.eqb_eq].
Qed.

(** An execution changes the table only for the callback that is executed. *)
Lemma execute1_frame now cv e c a a' c' r :
  execute1 now cv e c a = (a', (c', r)) →
  cb_id c' = cb_id c
  ∧ (ap_callbacks a' = ap_callbacks a
     ∨ cb_status c' = DISABLED ∧ ∀ i, status_of i (ap_callbacks a') = if String.eqb (cb_id c) i then Some DISABLED else status_of i (ap_callbacks a)).
Proof using other_keeps.
  unfold execute_callback, run_processor. destruct (cb_processor c) as [| |p].
  - intros [= <- <- <-]. auto.
  - unfold set_title_processor. destruct (ev_is_message e); cbn [negb]; [|intros [= <- <- <-]; auto].
    destruct (get_app_conversation_info cv _) as [[info|]|]; [|intros [= <- <- <-]; auto..].
    destruct (generate_title cv e) as [t|]; [|intros [= <- <- <-]; auto].
    intros [= <- <- <-]. split; [done|]. right. split; [done|]. intros i. etrans; [apply status_merge|]. done.
  - pose proof (other_keeps p cv c e a) as Ho. destruct (run_other p cv c e a) as [a1 [c1 r1]].
    destruct Ho as (_ & Hc & Hi). destruct r1; intros [= <- <- <-]; auto.
Qed.
Lemma execute1_title now cv e c a a' c' r t :
  execute1 now cv e c a = (a', (c', r)) → generate_title cv e = Ok t →
  (known_conversation cv a → known_conversation cv a') ∧ (titled cv t a → titled cv t a')
  ∧ (known_conversation cv a → cb_processor c = SetTitleCallbackProcessor → ev_is_message e = true →
     titled cv t a' ∧ cb_status c' = DISABLED ∧ status_of (cb_id c) (ap_callbacks a') = Some DISABLED).
Proof using other_keeps.
  unfold execute_callback, run_processor, known_conversation, titled. intros Hx Ht. destruct (cb_processor c) as [| |p].
  - by injection Hx as <- <- <-.
  - unfold set_title_processor in Hx. destruct (ev_is_message e); cbn [negb] in Hx; [|by injection Hx as <- <- <-].
    destruct (get_app_conversation_info cv _) as [[info|]|] eqn:Hg;
      [|injection Hx as <- <- <-; split_and!; [by rewrite Hg..|by intros []]..].
    rewrite Ht in Hx. injection Hx as <- <- <-. cbn. pose proof (found_id _ _ _ Hg) as Hi.
    pose proof (proj1 (saved_info_found (set_info_title (Some t) info) (ap_conversations a))) as Hs. cbn in Hs. rewrite Hi in Hs.
    rewrite Hs. split_and!; [eauto..|]. intros _ _ _. split; [by eexists|]. split; [done|].
    by etrans; [apply status_merge|]; cbn; rewrite String.eqb_refl.
  - pose proof (other_keeps p cv c e a) as Ho. destruct (run_other p cv c e a) as [a1 [c1 r1]].
    destruct Ho as (Hc & _). by destruct r1; injection Hx as <- <- <-; rewrite Hc.
Qed.

(** The callbacks that are executed for an event are not the disabled one. *)
Definition unique (a : App Other) : Prop := NoDup (cb_id <$> ap_callbacks a).
Lemma find_unique c l : NoDup (cb_id <$> l) → c ∈ l → py_find (λ x : EventCallback Other, String.eqb (cb_id x) (cb_id c)) l = Some c.
Proof.
  induction l as [|x l IH]; intros Hn Hc; [by apply not_elem_of_nil in Hc|]. apply NoDup_cons in Hn as [Hx Hn].
  apply elem_of_cons in Hc as [->|Hc]; cbn; [by rewrite String.eqb_refl|].
  destruct (String.eqb_spec (cb_id x) (cb_id c)) as [He|]; [|by apply IH].
  destruct Hx. rewrite He. apply list_elem_of_fmap. eauto.
Qed.
Lemma not_applied i cv e a :
  unique a → status_of i (ap_callbacks a) = Some DISABLED → Forall (λ c, cb_id c ≠ i) (py_filter (applies cv e) (ap_callbacks a)).
Proof.
  intros Hu Hs. apply Forall_forall. intros c [Ha Hc]%elem_of_py_filter <-. unfold status_of in Hs.
  rewrite (find_unique c _ Hu Hc) in Hs. cbn in Hs. injection Hs as Hs. unfold applies in Ha. by rewrite Hs in Ha.
Qed.
Lemma execute_frame now cv e l a a' rs i :
  execute now cv e l a = (a', rs) → Forall (λ c, cb_id c ≠ i) l →
  status_of i (ap_callbacks a') = status_of i (ap_callbacks a) ∧ Forall (λ r, cb_id r.1 ≠ i) rs.
Proof using other_keeps.
  revert a a' rs. induction l as [|c l IH]; intros a a' rs Hx Hl; cbn in Hx; [by injection Hx as <- <-|].
  destruct (execute1 now cv e c a) as [a1 [c1 r1]] eqn:H1. destruct (execute now cv e l a1) as [a2 rs2] eqn:H2.
  injection Hx as <- <-. inversion_clear Hl as [|? ? Hc Hl']. destruct (IH _ _ _ H2 Hl') as [-> Hrs].
  destruct (execute1_frame _ _ _ _ _ _ _ _ H1) as [Hi Hf]. split; [|by constructor; [cbn; rewrite Hi|]].
  destruct Hf as [->|[_ ->]]; [done|]. by destruct (String.eqb_spec (cb_id c) i).
Qed.
Lemma saves_frame now (rs : list (EventCallback Other * option EventCallbackResult)) a i :
  Forall (λ r, cb_id r.1 ≠ i) rs →
  status_of i (ap_callbacks (foldl (λ a r, save_event_callback now r.1 a) a rs)) = status_of i (ap_callbacks a).
Proof.
  intros Hrs. revert a. induction Hrs as [|r rs Hr Hrs IH]; intros a; [done|]. cbn. rewrite IH. etrans; [apply status_merge|].
  cbn. by destruct (String.eqb_spec (cb_id r.1) i).
Qed.

(** Identifiers stay unique. *)
Lemma merge_unique c l : NoDup (cb_id <$> l) → NoDup (cb_id <$> merge_callback (Other := Other) c l).
Proof.
  intros Hn. unfold merge_callback. destruct (existsb _ l) eqn:He.
  - rewrite <- list_fmap_compose. rewrite (list_fmap_ext _ cb_id l); [done|]. intros k x _. cbn.
    by destruct (String.eqb_spec (cb_id x) (cb_id c)).
  - rewrite fmap_app. apply NoDup_app. split; [done|]. split; [|apply NoDup_singleton].
    intros j Hj ->%list_elem_of_singleton. apply list_elem_of_fmap in Hj as (x & Hx & Hin).
    apply not_true_iff_false in He. apply He, existsb_exists. exists x. split; [by apply list_elem_of_In|]. by apply String.eqb_eq.
Qed.
Lemma execute1_unique now cv e c a : unique a → unique (execute1 now cv e c a).1.
Proof using other_keeps.
  intros Hu. unfold execute_callback, run_processor. destruct (cb_processor c) as [| |p]; [done| |].
  - unfold set_title_processor. repeat case_match; simplify_eq/=; try done; by apply merge_unique.
  - pose proof (other_keeps p cv c e a) as Ho. destruct (run_other p cv c e a) as [a1 [c1 r1]].
    destruct Ho as (_ & Hc & _). unfold unique in *. destruct r1; cbn; by rewrite Hc.
Qed.
Lemma execute_unique now cv e l a : unique a → unique (execute now cv e l a).1.
Proof using other_keeps.
  revert a. induction l as [|c l IH]; intros a Hu; [done|]. cbn. pose proof (execute1_unique now cv e c a Hu) as H1.
  destruct (execute1 now cv e c a) as [a1 r1]. specialize (IH a1 H1). by destruct (execute now cv e l a1) as [a2 rs].
Qed.
Lemma saves_unique now (rs : list (EventCallback Other * option EventCallbackResult)) a :
  unique a → unique (foldl (λ a r, save_event_callback now r.1 a) a rs).
Proof. revert a. induction rs as [|r rs IH]; intros a Hu; [done|]. by apply IH, merge_unique. Qed.

Lemma execute_callbacks_disabled now cv e a i :
  unique a → status_of i (ap_callbacks a) = Some DISABLED →
  let a' := (execute_callbacks run_other new_result_id generate_title now cv e a).1 in
  unique a' ∧ status_of i (ap_callbacks a') = Some DISABLED.
Proof using other_keeps.
  intros Hu Hs. cbv zeta. unfold execute_callbacks. pose proof (execute_unique now cv e (py_filter (applies cv e) (ap_callbacks a)) a Hu) as Hu'.
  destruct (execute now cv e _ a) as [a1 rs] eqn:Hx. apply execute_frame with (i := i) in Hx as [Hst Hrs]; [|by apply not_applied].
  destruct (forallb _ _); cbn; [|by rewrite Hst]. split; [by apply saves_unique|].
  etrans; [by apply (saves_frame now rs a1 i)|]. by rewrite Hst.
Qed.
Lemma run_callbacks_disabled now cv es a i :
  unique a → status_of i (ap_callbacks a) = Some DISABLED →
  let a' := (run_callbacks run_other new_result_id generate_title now cv es a).1 in
  unique a' ∧ status_of i (ap_callbacks a') = Some DISABLED.
Proof using other_keeps.
  cbv zeta. revert a. induction es as [|e es IH]; intros a Hu Hs; [done|]. cbn. unfold pbind.
  destruct (execute_callbacks_disabled now cv e a i Hu Hs) as [Hu' Hs'].
  destruct (execute_callbacks _ _ _ now cv e a) as [a1 [[]|x]]; cbn in *; [by apply IH|done].
Qed.

Lemma titled_kept now cv e l a a' rs t :
  execute now cv e l a = (a', rs) → generate_title cv e = Ok t → titled cv t a → titled cv t a'.
Proof using other_keeps.
  intros Hx Ht. revert a a' rs Hx. induction l as [|x l IH]; intros a a' rs Hx Hk; cbn in Hx; [by injection Hx as <- <-|].
  destruct (execute1 now cv e x a) as [a1 [c1 r1]] eqn:H1. destruct (execute now cv e l a1) as [a2 rs2] eqn:H2.
  injection Hx as <- <-. destruct (execute1_title _ _ _ _ _ _ _ _ _ H1 Ht) as (_ & Hkept & _). by eapply IH; [exact H2|apply Hkept].
Qed.
Lemma saves_titled now (rs : list (EventCallback Other * option EventCallbackResult)) a cv t :
  titled cv t a → titled cv t (foldl (λ a r, save_event_callback now r.1 a) a rs).
Proof. revert a. induction rs as [|r rs IH]; intros a Ha; [done|]. by apply IH. Qed.
Lemma saves_disabled now (rs : list (EventCallback Other * option EventCallbackResult)) a i :
  Forall (λ r, cb_id r.1 = i → cb_status r.1 = DISABLED) rs → status_of i (ap_callbacks a) = Some DISABLED →
  status_of i (ap_callbacks (foldl (λ a r, save_event_callback now r.1 a) a rs)) = Some DISABLED.
Proof.
  intros Hrs. revert a. induction Hrs as [|r rs Hr Hrs IH]; intros a Ha; [done|]. apply IH.
  etrans; [apply status_merge|]. cbn. destruct (String.eqb_spec (cb_id r.1) i) as [Hi|]; [by rewrite (Hr Hi)|done].
Qed.
(** The execution of the callback that sets the title, among the others *)
Lemma execute_title now cv e l a a' rs c t :
  execute now cv e l a = (a', rs) → generate_title cv e = Ok t → known_conversation cv a → NoDup (cb_id <$> l) → c ∈ l →
  cb_processor c = SetTitleCallbackProcessor → ev_is_message e = true →
  titled cv t a' ∧ status_of (cb_id c) (ap_callbacks a') = Some DISABLED
  ∧ Forall (λ r, cb_id r.1 = cb_id c → cb_status r.1 = DISABLED) rs.
Proof using other_keeps.
  intros Hx Ht. revert a a' rs Hx. induction l as [|x l IH]; intros a a' rs Hx Hk Hn Hc Hp Hm; [by apply not_elem_of_nil in Hc|].
  cbn in Hx. destruct (execute1 now cv e x a) as [a1 [c1 r1]] eqn:H1. destruct (execute now cv e l a1) as [a2 rs2] eqn:H2.
  injection Hx as <- <-. apply NoDup_cons in Hn as [Hnx Hn].
  destruct (execute1_title _ _ _ _ _ _ _ _ _ H1 Ht) as (Hkn & _ & Hset).
  destruct (execute1_frame _ _ _ _ _ _ _ _ H1) as [Hi1 _]. apply elem_of_cons in Hc as [->|Hc].
  - destruct (Hset Hk Hp Hm) as (Htd & Hd & Hst).
    assert (Forall (λ y, cb_id y ≠ cb_id x) l) as Hother.
    { apply Forall_forall. intros y Hy He. apply Hnx. rewrite <- He. apply list_elem_of_fmap. eauto. }
    destruct (execute_frame _ _ _ _ _ _ _ _ H2 Hother) as [-> Hrs]. split; [by eapply titled_kept|]. split; [done|].
    constructor; [done|]. eapply Forall_impl; [exact Hrs|]. by intros r Hne He.
  - destruct (IH _ _ _ H2 (Hkn Hk) Hn Hc Hp Hm) as (Htd & Hst & Hrs). split_and!; [done..|]. constructor; [|done].
    cbn. rewrite Hi1. intros He. destruct Hnx. rewrite He. apply list_elem_of_fmap. eauto.
Qed.

(** Requests that come later, each with its time, conversation and events *)
Definition later_callbacks (a : App Other) (l : list (Z * string * list AppEvent)) : App Other :=
  foldl (λ a q, (run_callbacks run_other new_result_id generate_title q.1.1 q.1.2 q.2 a).1) a l.

(** C37 The title of a conversation is set once: when the callback that sets it is executed for a
    message in a known conversation and the sandbox generates a title, then the conversation
    has this title and the callback is disabled, also if another callback fails and the
    results of the event are not committed; and whatever events come later, in whatever
    conversations, it is not executed again.  Processors that are not of this code leave
    conversations and callbacks alone. *)
Theorem title_set_once now cv e c t a later :
  unique a → c ∈ ap_callbacks a → cb_processor c = SetTitleCallbackProcessor → applies cv e c = true →
  ev_is_message e = true → known_conversation cv a → generate_title cv e = Ok t →
  let a1 := (execute_callbacks run_other new_result_id generate_title now cv e a).1 in
  titled cv t a1
  ∧ let a2 := later_callbacks a1 later in
    status_of (cb_id c) (ap_callbacks a2) = Some DISABLED
    ∧ ∀ cv' e', Forall (λ x, cb_id x ≠ cb_id c) (py_filter (applies cv' e') (ap_callbacks a2)).
Proof using other_keeps.
  intros Hu Hc Hp Ha Hm Hk Ht. cbv zeta. set (l := py_filter (applies cv e) (ap_callbacks a)).
  assert (c ∈ l) as Hcl by by apply elem_of_py_filter.
  assert (NoDup (cb_id <$> l)) as Hn by exact (sublist_NoDup _ _ Hu (fmap_sublist _ _ _ (py_filter_sublist _ _))).
  set (a1 := (execute_callbacks _ _ _ now cv e a).1).
  assert (titled cv t a1 ∧ unique a1 ∧ status_of (cb_id c) (ap_callbacks a1) = Some DISABLED) as (Htd & Hu1 & Hs1).
  { unfold a1, execute_callbacks. fold l. pose proof (execute_unique now cv e l a Hu) as Hu'.
    destruct (execute now cv e l a) as [a2 rs] eqn:Hx.
    destruct (execute_title _ _ _ _ _ _ _ _ _ Hx Ht Hk Hn Hcl Hp Hm) as (Htd & Hs & Hrs).
    destruct (forallb _ _); cbn; [|done]. split; [by apply saves_titled|]. split; [by apply saves_unique|].
    by apply saves_disabled. }
  split; [done|]. clearbody a1. assert (unique (later_callbacks a1 later) ∧ status_of (cb_id c) (ap_callbacks (later_callbacks a1 later)) = Some DISABLED) as [Hu2 Hs2].
  { clear -Hu1 Hs1 other_keeps. revert a1 Hu1 Hs1. induction later as [|q qs IH]; intros a1 Hu1 Hs1; [done|].
    destruct (run_callbacks_disabled q.1.1 q.1.2 q.2 a1 (cb_id c) Hu1 Hs1). by apply IH. }
  split; [done|]. intros cv' e'. by apply not_applied.
Qed.
End titles.

(** ** Errors of callbacks *)

Section errors.
Context `{AppEvents} {Other : Type}.
Variable run_other : Other → string → EventCallback Other → AppEvent → App Other → App Other * (EventCallback Other * result (option EventCallbackResult)).
Variable new_result_id : EventCallback Other → AppEvent → string.
Variable generate_title : string → AppEvent → result string.
Definition succeeded (r : EventCallbackResult) : Prop := er_status r = SUCCESS.
(** Like the processors of the server, the others report only success, and raise otherwise. *)
Hypothesis other_succeeds : ∀ p cv c e a,
  let '(a', (_, r)) := run_other p cv c e a in ap_results a' = ap_results a ∧ ∀ x, r = Ok (Some x) → succeeded x.

Lemma execute_results now cv e l a a' rs :
  execute_each run_other new_result_id generate_title now cv e l a = (a', rs) →
  ap_results a' = ap_results a ∧ Forall (λ r : EventCallback Other * option EventCallbackResult, ∀ x, r.2 = Some x → is_Some (er_id x) → succeeded x) rs.
Proof using other_succeeds.
  revert a a' rs. induction l as [|c l IH]; intros a a' rs Hx; cbn in Hx; [by injection Hx as <- <-|].
  destruct (execute_callback _ _ _ now cv e c a) as [a1 r1] eqn:H1. destruct (execute_each _ _ _ now cv e l a1) as [a2 rs2] eqn:H2.
  injection Hx as <- <-. destruct (IH _ _ _ H2) as [-> Hrs]. clear IH H2.
  unfold execute_callback, run_processor in H1. destruct (cb_processor c) as [| |p].
  - injection H1 as <- <-. split; [done|]. constructor; [by intros x [= <-]|done].
  - unfold set_title_processor in H1. repeat case_match; simplify_eq/=; (split; [done|]; constructor; [|done]);
      intros x [= <-]; cbn; try done; by intros [? ?].
  - pose proof (other_succeeds p cv c e a) as Ho. destruct (run_other p cv c e a) as [a3 [c3 r3]]. destruct Ho as [Hr Ho].
    destruct r3 as [r3|x3]; injection H1 as <- <-; (split; [done|]; constructor; [|done]); intros x Hx; cbn in Hx.
    + intros _. apply Ho. by rewrite Hx.
    + injection Hx as <-. by intros [? ?].
Qed.

(** An exception in a callback is to be recorded as a result with the status ERROR; but the
    row for it has no identifier, so that the commit fails: whatever is executed, no error is
    ever recorded. *)
Theorem errors_never_recorded now cv es a :
  Forall succeeded (ap_results a) → Forall succeeded (ap_results (run_callbacks run_other new_result_id generate_title now cv es a).1).
Proof using other_succeeds.
  revert a. induction es as [|e es IH]; intros a Ha; [done|]. cbn. unfold pbind, execute_callbacks at 1.
  destruct (execute_each _ _ _ now cv e _ a) as [a1 rs] eqn:Hx. apply execute_results in Hx as [Hr Hrs].
  destruct (forallb _ _) eqn:Hall; [|cbn; by rewrite Hr]. apply IH. cbn. rewrite Hr. apply Forall_app. split; [done|].
  apply Forall_forall. intros x Hin. pose proof (proj1 (forallb_forall _ _) Hall x) as Hid. rewrite <- list_elem_of_In in Hid.
  specialize (Hid Hin). apply bool_decide_eq_true in Hid. apply list_elem_of_omap in Hin as (r & Hin & Hx).
  rewrite Forall_forall in Hrs. by apply (Hrs r Hin).
Qed.
End errors.

(** ** Updates from the sandbox *)

(** An update of a conversation keeps its repository, branch, provider, trigger, requests and
    parent, and its title if it has one; the model, the metrics and the sandbox are those
    that are reported. *)
Theorem update_keeps_conversation {Other} now u s (a : App Other) existing :
  valid_conversation now (cu_id u) s (ap_conversations a) = Ok existing → cu_deleting u = false →
  let '(a', r) := on_conversation_update now u s a in
  r = Ok tt
  ∧ ∃ info, get_app_conversation_info (cu_id u) (ap_conversations a') = Ok (Some info)
    ∧ ai_selected_repository info = ai_selected_repository existing ∧ ai_selected_branch info = ai_selected_branch existing
    ∧ ai_git_provider info = ai_git_provider existing ∧ ai_trigger info = ai_trigger existing
    ∧ ai_pr_number info = ai_pr_number existing
    ∧ ai_parent_conversation_id info = truthy_str (ai_parent_conversation_id existing)
    ∧ (∀ t, truthy_str (ai_title existing) = Some t → ai_title info = Some t)
    ∧ ai_llm_model info = Some (cu_model u) ∧ ai_sandbox_id info = si_id s
    ∧ sn_accumulated_cost <$> ai_metrics info = Some (sn_accumulated_cost (cu_metrics u)).
Proof.
  intros Hv Hd. unfold on_conversation_update. rewrite Hv, Hd. split; [done|].
  destruct (saved_info_found (updated_info now u s existing) (ap_conversations a)) as [Hg _].
  eexists. split; [exact Hg|]. cbn. split_and!; try done. by intros t ->.
Qed.

(** ** The oldest sandboxes are paused *)

Lemma py_filter_perm {A} (f : A → bool) l k : l ≡ₚ k → py_filter f l ≡ₚ py_filter f k.
Proof.
  induction 1 as [|x l k _ IH|x y l|l k m _ IH1 _ IH2]; cbn; [done| | |by etrans].
  - by destruct (f x); rewrite IH.
  - destruct (f x), (f y); try done. by apply Permutation_swap.
Qed.
Section paused.
Context {St : Type} (pause : string → pyM St bool) (sandboxes : St → list SandboxInfo).
Definition paused_in (i : string) (s : SandboxInfo) : SandboxInfo :=
  if String.eqb (si_id s) i
  then mkSandboxInfo (si_id s) (si_created_by_user_id s) (si_sandbox_spec_id s) SB_PAUSED (si_session_api_key s)
         (si_exposed_urls s) (si_created_at s)
  else s.
(** A sandbox that was paused is paused, the others are as they were. *)
Hypothesis pause_pauses : ∀ i w w', pause i w = (w', Ok true) → sandboxes w' = paused_in i <$> sandboxes w.
Hypothesis pause_fails : ∀ i w w' r, pause i w = (w', r) → r ≠ Ok true → sandboxes w' = sandboxes w.

Lemma running_paused i l : running_sandboxes (paused_in i <$> l) = py_filter (λ s, negb (String.eqb (si_id s) i)) (running_sandboxes l).
Proof.
  unfold running_sandboxes. induction l as [|s l IH]; [done|]. cbn. destruct (String.eqb (si_id s) i) eqn:Hi.
  - rewrite (bool_decide_eq_false_2 (si_status (paused_in i s) = SB_RUNNING)) by (unfold paused_in; by rewrite Hi).
    rewrite IH. destruct (bool_decide (si_status s = SB_RUNNING)); cbn; by rewrite ?Hi.
  - assert (paused_in i s = s) as -> by (unfold paused_in; by rewrite Hi).
    rewrite IH. destruct (bool_decide (si_status s = SB_RUNNING)); cbn; by rewrite ?Hi.
Qed.
Lemma pause_each_running l w w' ids :
  pause_each pause l w = (w', ids) →
  running_sandboxes (sandboxes w') = py_filter (λ s, negb (bool_decide (si_id s ∈ ids))) (running_sandboxes (sandboxes w))
  ∧ ids `sublist_of` (si_id <$> l).
Proof using pause_pauses pause_fails.
  revert w w' ids. induction l as [|s l IH]; intros w w' ids Hp; cbn in Hp.
  - injection Hp as <- <-. split; [by rewrite py_filter_all|done].
  - destruct (pause (si_id s) w) as [w1 r] eqn:Hs. destruct (pause_each pause l w1) as [w2 ids2] eqn:H2.
    injection Hp as <- <-. destruct (IH _ _ _ H2) as [Hr Hsub]. cbn.
    assert (r ≠ Ok true → sandboxes w1 = sandboxes w) as Hf by by apply (pause_fails (si_id s)).
    destruct r as [[|]|x]; [|by rewrite Hf in Hr; [split; [|by constructor]|]..].
    split; [|by constructor]. rewrite Hr, (pause_pauses _ _ _ Hs), running_paused, py_filter_filter.
    apply py_filter_ext. intros x _. destruct (String.eqb_spec (si_id x) (si_id s)) as [He|He]; cbn.
    + rewrite bool_decide_eq_true_2; [done|]. rewrite He. by left.
    + f_equal. apply bool_decide_ext. rewrite elem_of_cons. split; [by right|by intros [|]].
Qed.
(** The requests to pause the sandboxes, one after the other, with their answers. *)
Inductive requests : list string → St → list (result bool) → St → Prop :=
  | requests_none w : requests [] w [] w
  | requests_more i js w w1 r rs w' : pause i w = (w1, r) → requests js w1 rs w' → requests (i :: js) w (r :: rs) w'.
Definition answered_true (js : list string) (rs : list (result bool)) : list string :=
  omap (λ '(i, r), match r with Ok true => Some i | _ => None end) (zip js rs).
Lemma pause_each_requests l w w' ids :
  pause_each pause l w = (w', ids) → ∃ rs, requests (si_id <$> l) w rs w' ∧ ids = answered_true (si_id <$> l) rs.
Proof.
  revert w w' ids. induction l as [|s l IH]; intros w w' ids Hp; cbn in Hp.
  - injection Hp as <- <-. exists []. split; [constructor|done].
  - destruct (pause (si_id s) w) as [w1 r] eqn:Hs. destruct (pause_each pause l w1) as [w2 ids2] eqn:H2.
    injection Hp as <- <-. destruct (IH _ _ _ H2) as (rs & Hrs & ->). exists (r :: rs).
    split; [by econstructor|]. by destruct r as [[]|].
Qed.
(** Every one that was paused is one less that runs. *)
Lemma paused_fewer (chosen : list SandboxInfo) ids ids' :
  ids `sublist_of` (si_id <$> chosen) → ids ⊆ ids' →
  (length (py_filter (λ s, negb (bool_decide (si_id s ∈ ids'))) chosen) + length ids ≤ length chosen)%nat.
Proof.
  revert ids. induction chosen as [|s l IH]; intros ids Hsub Hin; cbn in Hsub |- *; [by apply sublist_nil_r in Hsub as ->|].
  apply sublist_cons_r in Hsub as [Hsub|(ids2 & -> & Hsub)].
  - specialize (IH _ Hsub Hin). destruct (negb _); cbn; lia.
  - rewrite (bool_decide_eq_true_2 (si_id s ∈ ids')) by (apply Hin; by left). cbn.
    specialize (IH _ Hsub ltac:(intros x Hx; apply Hin; by right)). lia.
Qed.
Lemma oldest_sorted l : StronglySorted (λ x y, si_created_at x ≤ si_created_at y) (oldest_first l).
Proof.
  pose proof (sort_key_sorted (λ a b, si_created_at a <? si_created_at b) l) as Hs.
  assert (StronglySorted (λ x y, (si_created_at y <? si_created_at x) = false) (oldest_first l)) as Hso.
  { apply Hs; intros; rewrite ?Z.ltb_ge, ?Z.ltb_lt in *; lia. }
  clear Hs. induction Hso as [|x k Hk IH Hx]; constructor; [done|]. eapply Forall_impl; [exact Hx|].
  cbn. intros y ?%Z.ltb_ge. done.
Qed.
Lemma take_drop_sorted {A} (R : A → A → Prop) n l x y : StronglySorted R l → x ∈ take n l → y ∈ drop n l → R x y.
Proof.
  intros Hs. revert n. induction Hs as [|z l Hl IH Hz]; intros n Hx Hy; [by rewrite take_nil in Hx; apply not_elem_of_nil in Hx|].
  destruct n as [|n]; [by apply not_elem_of_nil in Hx|]. cbn in *. apply elem_of_cons in Hx as [->|Hx]; [|by apply (IH n)].
  rewrite Forall_forall in Hz. by apply Hz, (elem_of_drop_in _ n).
Qed.
(** The oldest of the running, more than the limit. *)
Lemma to_pause_oldest max all :
  0 < max → ∃ rest, running_sandboxes all ≡ₚ to_pause max all ++ rest ∧ py_len rest ≤ max
    ∧ ∀ s s', s ∈ to_pause max all → s' ∈ rest → si_created_at s ≤ si_created_at s'.
Proof.
  intros Hmax. unfold to_pause. destruct (Z.leb_spec (py_len (running_sandboxes all)) max) as [|Hgt].
  - eexists. split; [by rewrite app_nil_l|]. split; [done|]. by intros s s' ?%not_elem_of_nil.
  - exists (drop (Z.to_nat (py_len (running_sandboxes all) - max)) (oldest_first (running_sandboxes all))).
    rewrite take_drop. unfold oldest_first at 1. rewrite sort_key_perm. split; [done|]. split.
    + unfold py_len in *. rewrite length_drop. unfold oldest_first. rewrite sort_key_perm. lia.
    + intros s s'. exact (take_drop_sorted (λ x y, si_created_at x ≤ si_created_at y) _ _ s s' (oldest_sorted _)).
Qed.

End paused.

(** Waiting for a sandbox gives one that runs, whose server answers if that is asked for, and it
    ends when the time is over. *)
Theorem wait_gives_running i timeout start client turns :
  (∀ s, wait_for_sandbox_running i timeout start client turns = Some (Ok s) →
     ∃ t, t ∈ turns ∧ tn_sandbox t = Some s ∧ si_status s = SB_RUNNING ∧ tn_time t - start ≤ timeout
          ∧ (client = true → from_option id [] (si_exposed_urls s) ≠ [] → check_agent_server_alive t s = true))
  ∧ (∀ t, t ∈ turns → timeout < tn_time t - start → is_Some (wait_for_sandbox_running i timeout start client turns)).
Proof.
  induction turns as [|t turns [IH1 IH2]]; [split; [done|by intros t ?%not_elem_of_nil]|]. cbn.
  destruct (Z.ltb_spec timeout (tn_time t - start)) as [Hlt|Hge]; [split; [done|by eexists]|].
  destruct (tn_sandbox t) as [s|] eqn:Hs; [|split; [done|by eexists]].
  case_bool_decide as He; [split; [done|by eexists]|].
  destruct (bool_decide (si_status s = SB_RUNNING) && _) eqn:Hrun; (split; [|intros t' [->|Ht']%elem_of_cons Hlt]).
  - intros s' [= <-]. exists t. apply andb_prop in Hrun as [Hst%bool_decide_eq_true Ha]. split_and!; [by left|done..|].
    intros -> Hne. rewrite bool_decide_eq_false_2 in Ha by done. done.
  - lia.
  - by eexists.
  - intros s' Hw. destruct (IH1 s' Hw) as (t' & Ht' & Hrest). exists t'. split; [by right|done].
  - lia.
  - by apply (IH2 t').
Qed.

(** ** Examples *)

Module app_example.
(** A database that gives rows of the same rank in the order of the table *)
Definition earlier (f : StoredConversationMetadata → Z) (x y : StoredConversationMetadata) : bool := f x <? f y.
#[local] Instance ex_sql : Sql := {|
  order_by := λ o, match o with
                   | CREATED_AT => sort_key_by (earlier sc_created_at)
                   | CREATED_AT_DESC => sort_key_by (λ x y, earlier sc_created_at y x)
                   | UPDATED_AT => sort_key_by (earlier sc_last_updated_at)
                   | UPDATED_AT_DESC => sort_key_by (λ x y, earlier sc_last_updated_at y x)
                   | _ => id
                   end;
  like_contains := str_contains;
|}.
#[local] Instance ex_sql_laws : SqlLaws.
Proof. split. intros [] rows; cbn; [apply sort_key_perm..|done|done]. Qed.

Definition info (i : string) (parent : option string) (public : option bool) (created : Z) : AppConversationInfo :=
  mkAppConversationInfo i None "box" (Some "me/repo") None (Some GITHUB) (Some "mine") (Some TR_GUI) [7] None None parent []
    public created created.
Definition three : list TableOp :=
  [SaveInfo (info "a" None (Some true) 1); SaveInfo (info "b" None None 2); SaveInfo (info "c" (Some "a") None 3)].
Definition everything : InfoFilter := mkInfoFilter None None None None None.
Lemma conversation_pages_witness :
  ∃ infos, iterate (search_app_conversation_info everything CREATED_AT_DESC 1 true (foldl table_op [] three)) 4 = Some (Ok infos)
    ∧ ai_id <$> infos = ["c"; "b"; "a"].
Proof.
  destruct (conversation_pages three [] everything CREATED_AT_DESC 1 true 4) as (infos & Hi & Hids & _).
  - split; constructor.
  - lia.
  - vm_compute. lia.
  - exists infos. split; [exact Hi|]. rewrite Hids. vm_compute. reflexivity.
Defined.

(** The count of conversations includes those below others, which the search leaves out. *)
Example count_includes_subs :
  count_app_conversation_info everything (foldl table_op [] three) = 3
  ∧ ∃ rs, search_app_conversation_info everything CREATED_AT 100 false (foldl table_op [] three) None = Ok rs
          ∧ (ai_id <$> items rs) = ["a"; "b"].
Proof. split; [vm_compute; reflexivity|]. eexists. split; vm_compute; reflexivity. Qed.

(** ** Events, named by their texts; those that start with m are messages. *)

#[local] Instance ex_events : AppEvents := {|
  AppEvent := string;
  ev_id := id;
  ev_kind := λ e, if startswith e "m" then "MessageEvent" else "ActionEvent";
  ev_timestamp := str_len;
  ev_is_message := λ e, startswith e "m";
  ev_stats := λ _, None;
  ev_dump := id;
  ev_load := Some;
|}.
#[local] Instance ex_events_laws : AppEventsLaws.
Proof. by split. Qed.
Definition service : EventService := mkEventService ["data"] None (λ _, None).
Definition box : SandboxInfo := mkSandboxInfo "box" None "spec" SB_RUNNING (Some "key") None 1.
Definition empty_app : App string := mkApp (foldl table_op [] three) [] [] [].
Definition writes (p : AppPath) : bool := negb (bool_decide (last p = Some "full.json")).
Definition reported (l : list string) : App string := (on_app_event writes 5 service l "a" box empty_app).1.

Lemma reported_events_found_witness :
  get_app_event service "a" "m1" (ap_files (reported ["m1"; "a2"])) = Some "m1".
Proof.
  destruct (valid_conversation 5 "a" box (ap_conversations empty_app)) as [i|] eqn:Hv; [|by vm_compute in Hv].
  pose proof (reported_events_found writes 5 service ["m1"; "a2"] "a" box empty_app i Hv) as Hr.
  unfold reported. destruct (on_app_event _ _ _ _ _ _ _) as [a' r]. cbn [fst].
  destruct Hr as (_ & Hg & _); [by repeat constructor|by apply (bool_decide_unpack _)|].
  apply (Hg "m1"). left.
Defined.

(** Each page of events holds all of them: a client that follows the pages gets every event as
    often as there are pages. *)
Example pages_repeat_events :
  let a := reported ["m1"; "a22"; "m"] in
  iterate (search_events_at service (ap_files a) "a" (mkAppEventFilter None None None) TIMESTAMP 1) 5
  = Some (Ok (["m"; "m1"; "a22"] ++ ["m"; "m1"; "a22"] ++ ["m"; "m1"; "a22"])).
Proof. vm_compute. reflexivity. Qed.

(** If an event cannot be stored, the sandbox is told success, and no callback runs for any of
    the events. *)
Example lost_event_answered :
  let '(a', r) := on_app_event writes 5 service ["full"; "m1"] "a" box empty_app in
  r = Ok [] ∧ get_app_event service "a" "full" (ap_files a') = None ∧ get_app_event service "a" "m1" (ap_files a') = Some "m1".
Proof. vm_compute. repeat split; reflexivity. Qed.

(** An update from the sandbox makes a public conversation private, and makes it new. *)
Definition seen_a (a : App string) : option (option bool * Z) :=
  match get_app_conversation_info "a" (ap_conversations a) with
  | Ok (Some i) => Some (ai_public i, ai_created_at i)
  | _ => None
  end.
Example update_resets :
  let u := mkConversationUpdate "a" false "claude" no_metrics in
  seen_a empty_app = Some (Some true, 1) ∧ seen_a (on_conversation_update 9 u box empty_app).1 = Some (None, 9).
Proof. vm_compute. split; reflexivity. Qed.

(** ** Callbacks; the processors that are named by a text raise it. *)

Definition raising (p cv : string) (c : EventCallback string) (e : AppEvent) (a : App string) :
    App string * (EventCallback string * result (option EventCallbackResult)) := (a, (c, Raise (ValueError p))).
Definition result_id (c : EventCallback string) (e : AppEvent) : string := cb_id c +:+ ev_id e.
Definition titles (cv : string) (e : AppEvent) : result string := Ok ("About " +:+ ev_dump e).
Definition callback_with (i : string) (p : EventCallbackProcessor string) : EventCallback string := mkEventCallback i None p None ACTIVE 0 0.
Definition with_callbacks (l : list (EventCallback string)) : App string := set_callbacks l empty_app.
Definition title_and_failure : App string :=
  with_callbacks [callback_with "title" SetTitleCallbackProcessor; callback_with "bad" (OtherProcessor "no")].

Lemma title_set_once_witness :
  let a1 := (execute_callbacks raising result_id titles 5 "a" "m1" title_and_failure).1 in
  titled "a" "About m1" a1
  ∧ Forall (λ x, cb_id x ≠ "title")
      (py_filter (applies "b" "m2") (ap_callbacks (later_callbacks raising result_id titles a1 [(6, "a", ["m2"; "m3"])]))).
Proof.
  destruct (title_set_once raising result_id titles (λ p cv c e a, conj eq_refl (conj eq_refl eq_refl)) 5 "a" "m1"
              (callback_with "title" SetTitleCallbackProcessor) "About m1" title_and_failure [(6, "a", ["m2"; "m3"])])
    as (Ht & _ & Hf).
  - by apply (bool_decide_unpack _).
  - left.
  - reflexivity.
  - reflexivity.
  - reflexivity.
  - eexists. vm_compute. reflexivity.
  - reflexivity.
  - exact (conj Ht (Hf "b" "m2")).
Defined.

(** A callback that raises: the results of the others for this event are lost, and no callback
    runs for the events that follow. *)
Example failure_stops_callbacks :
  let run l := (run_callbacks raising result_id titles 5 "a" ["m1"; "m2"] (with_callbacks l)).1 in
  length (ap_results (run [callback_with "log" LoggingCallbackProcessor])) = 2%nat
  ∧ ap_results (run [callback_with "log" LoggingCallbackProcessor; callback_with "bad" (OtherProcessor "no")]) = [].
Proof. vm_compute. split; reflexivity. Qed.

(** ** Sandboxes *)

Definition started (i : string) (t : Z) : SandboxInfo := mkSandboxInfo i None "spec" SB_RUNNING None None t.
Definition boxes : list SandboxInfo := [started "new" 3; started "old" 1; started "mid" 2].
(** A service on which the oldest one cannot be paused: the request raises. *)
Definition pause_box (i : string) : pyM (list SandboxInfo) bool := λ w,
  if String.eqb i "old" then (w, Raise (RuntimeError "no answer")) else (paused_in i <$> w, Ok true).
End app_example.
